(* ===== verification/_CoqProject ===== *)
-Q . S2P
Prelude.v
PyStr.v
Sha256.v
PyDatetime.v
Json.v
JsonPrefix.v
Base64.v
Capability.v
StateMachine.v
Canonical.v
PyJson.v
Contract.v
Evidence.v
StoreCodec.v
JsonTorn.v
Database.v
RatePolicy.v
AntiRollback.v
Store.v
StoreInv.v
StoreOps.v
StoreProps.v
StoreBehaviour.v
StoreGate.v
StoreResolve.v
StoreWitness.v
Literals.v
Plan.v
PlanProps.v
PreparedIntent.v
SealedApproval.v
Crypto.v
Authorization.v
AuthorizationProps.v
Consumption.v
ConsumptionProps.v
Coordinator.v
ConsumptionWitness.v
KeyLifecycle.v
WriteApi.v
Executor.v
ExecutorInv.v
ExecutorProps.v
AliasDescription.v
AliasProps.v
ArtifactExchange.v
ArtifactProps.v
WriteCore.v
WriteCoreProps.v
AliasCore.v
EndToEnd.v
ProductOperation.v
ProductProps.v
ProductionRuntime.v
ProductionProps.v
SettingsUnit.v
SettingsUnits.v
PyDict.v
SettingsProps.v
NtpTimeServer.v
NtpProps.v
Batch1Runtime.v
Batch1Props.v
PyText.v
ShapeAExchange.v
ShapeAExchangeProps.v
ShapeAOrchestration.v
ShapeAOrchestrationProps.v
WriteCoreWitness.v
ProductionWitness.v
Batch1Witness.v
ShapeAWitness.v
Restart.v
Rotation.v
ExecutorHistory.v
ExecutorWitness.v
