(* ===== verification/Prelude.v ===== *)
(** * Verification library of the Tier 1 protected-change core

    The program is an MCP server that lets an assistant read a pfSense
    firewall and, behind many gates, change it.  This library models the part
    that decides whether a change is made: package [pfsense_mcp] under
    [src/src/pfsense_mcp/], mostly its subpackage [tier1/].  Paths below are
    relative to that package.

    ** How a change is made

    1. A preparer reads the device and makes a prepared execution intent: the
       request, the rollback target, the expected digests
       ([PreparedIntent.v], [AliasDescription.v]).
    2. An owner signs a plan authorization that binds the digest of the plan
       ([Plan.v]) and, in version 2, the digest of the intent
       ([Authorization.v]).
    3. The execution core ([WriteCore.v], [AliasCore.v]) runs every gate of
       the authorization, consumes it once ([Consumption.v],
       [Coordinator.v]), encrypts the protected values ([Crypto.v],
       [KeyLifecycle.v]) and creates a recovery contract ([Contract.v]) in
       the store ([Store.v] on the tables of [Database.v]).
    4. The owner confirms the contract ([Evidence.v]); the core hands it to
       the sealed executor ([Executor.v]), which enters EXECUTING through the
       store's gates ([RatePolicy.v], [AntiRollback.v], [SealedApproval.v]),
       sends one request through the chokepoint ([WriteApi.v]), verifies and
       settles the contract.
    5. The product operation ([ProductionRuntime.v]) runs all of this behind
       one call, taking the owner's signatures from fixed files and writing
       what is to be signed into others ([ArtifactExchange.v]).
    6. After a stop at any point the executor's constructor reconciles what
       was interrupted ([Restart.v]); keys rotate over the stored contracts
       ([Rotation.v]).

    The five capabilities of batch 1 take the same way through cores of
    their own, which only an acceptance context lets send
    ([SettingsUnit.v], [NtpTimeServer.v], [Batch1Runtime.v]).

    ** How the model is built

    A Python call is a function into [result] (a value or an exception
    class) when it is pure, and a program [prog W] over a world [W] when it
    has effects: the effects of a raising call are kept.  Worlds nest: the
    tables and their environment ([Store.v]), the session of an executor
    with the requests handed to the transport ([WriteApi.v]), the consumption
    database, the file of a nonce counter.  Records of the code are Records,
    enumerations Inductives, [__post_init__] a function that a constructor
    function [C_new] runs.  Strings are code points and bytes [Byte.byte]
    lists ([PyStr.v]); integers are unbounded, as Python's are, and every
    width the code writes (8-byte lengths, 12-byte nonces, 32-bit counters)
    is written out with the failure of going past it.

    What runs elsewhere is a parameter, with a law where one is used:
    SHA-256 (any function into 32 bytes; the real one is [SHA256.sha256_fun]),
    Unicode NFC (idempotent), Ed25519 and AES-GCM ([cryptography]; nothing is
    assumed of a signature, the cipher opens what it sealed), the anchor (a
    TPM counter behind a service), the read client, the HTTP library,
    pydantic's validation, the clock, [uuid4], [os.urandom], discovery.  The
    theorems hold for every value of these.  Other processes on the same
    SQLite file run the same code between any two transactions
    ([other_writers]); statements may fail.

    ** The files

    - Ground: [Prelude] (exceptions, the two monads, Hoare triples),
      [PyStr], [Sha256], [PyDatetime], [Json], [JsonPrefix], [Base64],
      [JsonTorn], [PyJson], [Literals]: the standard library the code uses, with the
      round trips and injectivity the rest needs.
    - Vocabulary: [Capability] (capabilities.py), [StateMachine]
      (tier1/state_machine.py, faults.py, write_security_class.py),
      [Canonical] (tier1/canonical.py).
    - Contract and evidence: [Contract] (tier1/contract.py), [Evidence]
      (tier1/confirmation.py, reconciliation.py, the two provider modules,
      ed25519_authority.py, policy.py), [SealedApproval], [Crypto],
      [KeyLifecycle] (tier1/key_lifecycle.py, secure_file.py).
    - The recovery store (tier1/store.py, rate_policy.py, anti_rollback.py):
      [StoreCodec], [Database], [RatePolicy], [AntiRollback], [Store];
      its invariant [StoreInv.rep] and the preservation proof [StoreOps];
      properties in [StoreProps] (invariants of every history),
      [StoreBehaviour] (functional behaviour), [StoreGate] (the gates of a
      transition), [StoreResolve] (evidence); [StoreWitness].
    - Posture and authorization (security_plan.py, security_plan_digest.py,
      security_authorization.py, security_authorization_verifier.py,
      security_plan_freshness.py, tier1/execution_coordinator.py,
      tier1/authorization_consumption_store.py): [Plan], [PlanProps],
      [Authorization], [AuthorizationProps], [Consumption],
      [ConsumptionProps], [Coordinator], [ConsumptionWitness].  The
      coordinator and the core are proved against the class
      [Consumption.ConsumptionStore], which the SQLite store instantiates.
    - Execution: [WriteApi] (write_api_client.py, write_endpoints.py,
      transport/http.py, tier1/acceptance.py), [Executor]
      (tier1/executor.py, transport_target.py), [ExecutorInv] (weakest
      preconditions), [ExecutorProps], [Restart], [Rotation],
      [ExecutorHistory], [ExecutorWitness].
    - Composition: [PreparedIntent] (tier1/prepared_execution_intent.py),
      [AliasDescription] (tier1/alias_description.py,
      models/firewall_alias.py), [AliasProps], [WriteCore]
      (tier1/write_execution_core.py), [WriteCoreProps], [AliasCore]
      (tier1/alias_description_execution.py), [EndToEnd],
      [WriteCoreWitness].
    - The product: [ArtifactExchange] (tier1/artifact_exchange.py) and
      [ArtifactProps], proved once for every tagged file over the class
      [EnvelopeLaws]; [ProductOperation], the operation that
      tier1/production_runtime.py and shape_a_acceptance_orchestration.py
      each have a copy of, and [ProductProps]; [ProductionRuntime]
      (tier1/production_runtime.py), [ProductionProps],
      [ProductionWitness].
    - Batch 1: [SettingsUnit] (one adapter over the tables of a settings
      capability; tier1/log_display_preferences.py and its three twins,
      write_adapter_support.py), [SettingsUnits] (the four tables),
      [PyDict], [SettingsProps] over the class [SettingsLaws],
      [NtpTimeServer] (tier1/ntp_time_server_prefer.py), [NtpProps],
      [Batch1Runtime] (tier1/shape_a_registry.py,
      write_batch1_production_runtime.py), [Batch1Props], [Batch1Witness];
      [PyText] (Python's str and repr), [ShapeAExchange]
      (tier1/shape_a_artifact_exchange.py), [ShapeAExchangeProps],
      [ShapeAOrchestration] (tier1/shape_a_acceptance_orchestration.py),
      [ShapeAOrchestrationProps], [ShapeAWitness].

    ** What the theorems show

    - End to end: the request a confirmed handoff sends is built from the
      intent whose digest the owner signed ([EndToEnd.signed_change_sent]); a
      change is requested at most once per contract in every history of
      executions, rollbacks, restarts, calls and crashes
      ([ExecutorHistory.change_requested_once]).
    - The product operation: a reported outcome is true of the store and a
      call sends at most one request ([outcome_reported]); what a repeated
      call reports ([repeated_call_inverted]); files appear whole or not at
      all and signed artifacts are read back as themselves
      ([ArtifactProps]).
    - Batch 1: a prepared change of a settings object is the one asked for
      ([prepared_settings_change]), the signed change is the one sent
      ([signed_settings_sent]), and the runtime sends nothing without an
      acceptance context ([batch1_closed]); an orchestrator is confined to
      its own capability ([orchestrated_change_confined]), and what its
      files show of a change ([what_the_signer_sees]).
    - The executor: what must hold before a request leaves
      ([execute_send_authorized]) and what each reported outcome says about
      it ([execute_outcome_justified], [rollback_justified]); a restart ends
      with nothing interrupted ([restart_reconciles]).
    - The core: gates, order of consumption and creation, acceptance of what
      it hands on ([WriteCoreProps]).
    - The store: [rep] is an invariant of every history with interference;
      targets are never shared, one active attempt per idempotency key, legal
      audit trails ([StoreProps]); the gates of EXECUTING, and of two callers
      that have read one version only the first writer's call returns
      ([StoreGate]); evidence ([StoreResolve]).
    - Signatures and digests: what a digest, an authorization, an approval or
      a confirmation fixes, and that no signed text serves two purposes.
    - Single use: nonces never repeat across crashes as long as callers
      exclude each other, which the code does not make them do
      ([nonce_never_repeats]); an authorization is consumed once over any
      interleaving ([ConsumptionProps]).
    - Where the code does not do what it says: [lost_reply_taken_for_unsent],
      [refusal_desynchronises], [rotation_strands_reconciliation],
      [torn_metadata_refused], [counter_capacity] and others.

    ** Fuel and bounds

    The JSON reader recurses with fuel twice the length of its input;
    [Json.loads_dumps] proves that enough for every text the program writes,
    and a text it refuses is refused by the model for its syntax.  SHA-256
    recurses over the number of its blocks.  Every other recursion is
    structural.  Canonicalisation keeps the code's own bounds (depth, nodes,
    bytes).

    ** Not modelled

    Message texts of exceptions, outcomes, plans and notes.  In modelled
    modules: [_prepare_path], the pragmas, schema check and migrations of the
    store; [dry_run] and the TLS diagnostics; of a configured appliance target the
    syntax check of its base URL and the checks of its TLS mode and CA file;
    of [int()] on the stored mark the underscores and the digits outside
    ASCII it accepts; a short write that returns, an error of a write after
    its open, and a directory entry lost in a machine crash; ISO 8601 spellings that [isoformat] does not print; the nesting limit
    of the JSON scanner; the construction of the witness client, TLS and the
    transports of the product operation.  Modules left out: the read tools and their pydantic
    models, configuration, the setup ceremony with its command line and
    journal, posture discovery (it reads the host), the TPM witness client
    and daemon, the off-host signing programs, guidance, scripts. *)

From stdpp Require Export base numbers sorting strings gmap list.

(** ** Python exceptions

    One constructor per exception class of [tier1/errors.py] that the
    modelled code raises, followed by the classes of other modules and of
    the standard library that the modelled code raises or catches.  The
    message texts are not modelled. *)

Inductive exn : Type :=
  | CanonicalizationError
  | ContractValidationError
  | ContractNotFoundError
  | ContractIntegrityError
  | ContractConflictError
  | IllegalTransitionError
  | MutationPolicyError
  | ContractBindingError
  | ConfirmationError
  | KeyMaterialError
  | KeyExhaustedError
  | ArtifactDecryptionError
  | AnchorUnavailableError
  | AnchorConflictError
  | AnchorAlreadyProvisionedError
  | WholeStoreRollbackDetected
  | Tier1ConfigurationError
  | RateLimitExceededError
  | AuthorizationConsumptionError
  | PreparedExecutionIntentError
  | BoundExecutionError
  | ArtifactExchangeError
  | AcceptanceError
  | GlobalReadOnlyBlockedError
  (* other modules of the package *)
  | Tier1Error
  | SealedWriteApprovalError
  | WriteNotAllowedError
  | TransportConnectionError
  | TransportRequestNotSentError
  | TransportTimeoutError
  | PreExecutionAuthorizationDenied
  | SecurityAuthorizationError
  | PlanFreshnessError
  | SqliteOperationalError
  (* standard library *)
  | SqliteIntegrityError
  | AssertionError
  | KeyError
  | TypeError
  | ValueError
  | UnicodeEncodeError
  | OverflowError
  (* any other exception, raised by code outside the model *)
  | OtherError (code : N).

#[global] Instance exn_eq_dec : EqDecision exn.
Proof. solve_decision. Defined.

(** ** The error monad: a Python call returns a value or raises. *)

Inductive result (A : Type) : Type :=
  | Ok (a : A)
  | Raise (e : exn).
Arguments Ok {_} _.
Arguments Raise {_} _.

#[global] Instance result_ret : MRet result := λ A a, Ok a.
#[global] Instance result_bind : MBind result := λ A B f m,
  match m with Ok a => f a | Raise e => Raise e end.
#[global] Instance result_fmap : FMap result := λ A B f m,
  match m with Ok a => Ok (f a) | Raise e => Raise e end.

Definition is_Ok {A} (m : result A) : Prop := ∃ a, m = Ok a.

#[global] Instance result_eq_dec {A} `{EqDecision A} : EqDecision (result A).
Proof. solve_decision. Defined.

(** [if not cond: raise e] *)
Definition require (b : bool) (e : exn) : result () :=
  if b then Ok () else Raise e.

(** [try: m except <classes caught by f>: ...] *)
Definition try_except {A} (m : result A) (h : exn → option (result A)) : result A :=
  match m with
  | Ok a => Ok a
  | Raise e => default (Raise e) (h e)
  end.

Definition of_option {A} (o : option A) (e : exn) : result A :=
  match o with Some a => Ok a | None => Raise e end.

Section result_lemmas.
Context {A B : Type}.

Lemma bind_Ok (m : result A) (f : A → result B) b :
  m ≫= f = Ok b ↔ ∃ a, m = Ok a ∧ f a = Ok b.
Proof. destruct m; naive_solver. Qed.

Lemma bind_Raise (m : result A) (f : A → result B) e :
  m ≫= f = Raise e ↔ m = Raise e ∨ ∃ a, m = Ok a ∧ f a = Raise e.
Proof. destruct m; naive_solver. Qed.

Lemma require_Ok b e : require b e = Ok () ↔ b = true.
Proof. destruct b; naive_solver. Qed.

Lemma require_Ok_any b e x : require b e = Ok x ↔ b = true.
Proof. destruct b, x; naive_solver. Qed.

Lemma require_Raise b e e' : require b e = Raise e' ↔ b = false ∧ e' = e.
Proof. destruct b; naive_solver. Qed.

Lemma require_bind b e (m : result A) a :
  (_ ← require b e; m) = Ok a ↔ b = true ∧ m = Ok a.
Proof. destruct b; simpl; naive_solver. Qed.

Lemma require_bind_raise b e (m : result A) e' :
  (_ ← require b e; m) = Raise e' ↔ (b = false ∧ e' = e) ∨ (b = true ∧ m = Raise e').
Proof. destruct b; simpl; naive_solver. Qed.

Lemma of_option_Ok (o : option A) e a : of_option o e = Ok a ↔ o = Some a.
Proof. destruct o; naive_solver. Qed.
End result_lemmas.

(** Invert every successful bind, guard and option in the hypotheses. *)
Ltac inv_result :=
  repeat match goal with
  | H : mbind _ _ = Ok _ |- _ =>
      apply bind_Ok in H; destruct H as (? & ? & H)
  | H : require _ _ = Ok _ |- _ => apply require_Ok_any in H
  | H : require _ _ = Raise _ |- _ =>
      apply require_Raise in H; destruct H as [? ?]
  | H : of_option _ _ = Ok _ |- _ => apply of_option_Ok in H
  | H : Ok _ = Ok _ |- _ => injection H as H
  | H : Ok _ = Raise _ |- _ => discriminate H
  | H : Raise _ = Ok _ |- _ => discriminate H
  | H : mret _ = Ok _ |- _ => injection H as H
  | H : _ ∧ _ |- _ => destruct H
  | x : () |- _ => destruct x
  end.

(** Split the boolean conjunctions of the hypotheses. *)
Ltac split_andb :=
  repeat match goal with
  | H : _ && _ = true |- _ =>
      let H' := fresh in apply andb_true_iff in H; destruct H as [H' H]
  end.

(** Membership in an explicit list. *)
Ltac in_list := repeat first [apply list_elem_of_here | apply list_elem_of_further].

(** ** The effect monad: a Python method runs in a world and returns or
    raises, the world's changes being kept in both cases. *)

Definition prog (W A : Type) : Type := W → result A * W.

#[global] Instance prog_ret W : MRet (prog W) := λ A a w, (Ok a, w).
#[global] Instance prog_bind W : MBind (prog W) := λ A B f m w,
  match m w with
  | (Ok a, w') => f a w'
  | (Raise e, w') => (Raise e, w')
  end.

Definition raise {W A} (e : exn) : prog W A := λ w, (Raise e, w).
(** A pure computation that may raise. *)
Definition lift {W A} (m : result A) : prog W A := λ w, (m, w).
Definition get_world {W} : prog W W := λ w, (Ok w, w).
(** [try: m except ...]: the handler sees the exception. *)
Definition catch {W A} (m : prog W A) (h : exn → prog W A) : prog W A := λ w,
  match m w with
  | (Ok a, w') => (Ok a, w')
  | (Raise e, w') => h e w'
  end.

(** What a bind does, by the outcome of its first part. *)
Lemma bind_ok {W A B} (p : prog W A) (f : A → prog W B) (w : W) a (w' : W) : p w = (Ok a, w') → (p ≫= f) w = f a w'.
Proof. unfold mbind, prog_bind. by intros ->. Qed.
Lemma bind_raise {W A B} (p : prog W A) (f : A → prog W B) (w : W) e (w' : W) :
  p w = (Raise e, w') → (p ≫= f) w = (Raise e, w').
Proof. unfold mbind, prog_bind. by intros ->. Qed.

Section triples.
Context {W : Type}.

(** [triple P m Q]: from a world satisfying [P], the outcome of [m] and
    the final world satisfy [Q], whether [m] returns or raises. *)
Definition triple {A} (P : W → Prop) (m : prog W A) (Q : result A → W → Prop) : Prop :=
  ∀ w, P w → Q (fst (m w)) (snd (m w)).

Lemma triple_ret {A} (P : W → Prop) (a : A) (Q : result A → W → Prop) :
  (∀ w, P w → Q (Ok a) w) → triple P (mret a) Q.
Proof. intros H w Hw. by apply H. Qed.

Lemma triple_raise {A} (P : W → Prop) e (Q : result A → W → Prop) :
  (∀ w, P w → Q (Raise e) w) → triple P (raise e) Q.
Proof. intros H w Hw. by apply H. Qed.

Lemma triple_lift {A} (P : W → Prop) (m : result A) (Q : result A → W → Prop) :
  (∀ w, P w → Q m w) → triple P (lift m) Q.
Proof. intros H w Hw. by apply H. Qed.

Lemma triple_bind {A B} (P : W → Prop) (m : prog W A) (f : A → prog W B)
    (R : result A → W → Prop) (Q : result B → W → Prop) :
  triple P m R →
  (∀ e w, R (Raise e) w → Q (Raise e) w) →
  (∀ a, triple (R (Ok a)) (f a) Q) →
  triple P (m ≫= f) Q.
Proof.
  intros Hm HR Hf w Hw. specialize (Hm w Hw).
  unfold mbind, prog_bind. destruct (m w) as [[a|e] w'] eqn:E; simpl in *.
  - exact (Hf a w' Hm).
  - by apply HR.
Qed.

Lemma triple_catch {A} (P : W → Prop) (m : prog W A) (h : exn → prog W A)
    (R Q : result A → W → Prop) :
  triple P m R →
  (∀ a w, R (Ok a) w → Q (Ok a) w) →
  (∀ e, triple (R (Raise e)) (h e) Q) →
  triple P (catch m h) Q.
Proof.
  intros Hm HR Hh w Hw. specialize (Hm w Hw). unfold catch.
  destruct (m w) as [[a|e] w'] eqn:E; simpl in *; [by apply HR|exact (Hh e w' Hm)].
Qed.

Lemma triple_conseq {A} (P P' : W → Prop) (m : prog W A) (Q Q' : result A → W → Prop) :
  triple P' m Q' → (∀ w, P w → P' w) → (∀ r w, Q' r w → Q r w) → triple P m Q.
Proof. intros Hm HP HQ w Hw. apply HQ, Hm, HP, Hw. Qed.

(** [preserves I m]: [m] keeps the invariant [I], returning or raising. *)
Definition preserves {A} (I : W → Prop) (m : prog W A) : Prop :=
  triple I m (λ _, I).

Lemma preserves_ret {A} (I : W → Prop) (a : A) : preserves I (mret a).
Proof. by intros w Hw. Qed.
Lemma preserves_raise {A} (I : W → Prop) e : preserves I (raise (A:=A) e).
Proof. by intros w Hw. Qed.
Lemma preserves_lift {A} (I : W → Prop) (m : result A) : preserves I (lift m).
Proof. by intros w Hw. Qed.
Lemma preserves_get (I : W → Prop) : preserves I get_world.
Proof. by intros w Hw. Qed.
Lemma preserves_bind {A B} (I : W → Prop) (m : prog W A) (f : A → prog W B) :
  preserves I m → (∀ a, preserves I (f a)) → preserves I (m ≫= f).
Proof. intros Hm Hf. eapply triple_bind; [exact Hm|done|exact Hf]. Qed.
Lemma preserves_catch {A} (I : W → Prop) (m : prog W A) (h : exn → prog W A) :
  preserves I m → (∀ e, preserves I (h e)) → preserves I (catch m h).
Proof. intros Hm Hh. eapply triple_catch; [exact Hm|done|exact Hh]. Qed.
End triples.

Create HintDb tier1.
#[export] Hint Resolve preserves_ret preserves_raise preserves_lift preserves_get
  preserves_bind preserves_catch : tier1.

(** ** Lists *)

Section lists.
Context {A : Type}.

(** [all(f(x) for x in l)] *)
Lemma forallb_elem_of (f : A → bool) (l : list A) :
  forallb f l = true ↔ ∀ x, x ∈ l → f x = true.
Proof. rewrite forallb_forall. by setoid_rewrite list_elem_of_In. Qed.

Lemma app_inv_length (l1 l2 k1 k2 : list A) :
  length l1 = length k1 → l1 ++ l2 = k1 ++ k2 → l1 = k1 ∧ l2 = k2.
Proof. intros. by apply app_inj_1. Qed.
End lists.
