(* ===== verification/PyStr.v ===== *)
(** * Python strings, bytes and their encodings

    [pystr] is a Python [str] as its list of code points, [bytes] a Python
    [bytes] as a list of [Byte.byte].  UTF-8, big-endian integers
    ([int.to_bytes]), hexadecimal and decimal text, code-point ordering and
    the two token patterns that the validation code shares. *)

From S2P Require Import Prelude.
From Stdlib Require Import Strings.Byte Strings.Ascii.
From Stdlib Require DecimalN DecimalFacts DecimalPos.

Definition pystr : Type := list N.
Definition bytes : Type := list Byte.byte.

#[global] Instance pystr_eq_dec : EqDecision pystr := _.
#[global] Instance pystr_countable : Countable pystr := _.
#[global] Instance byte_eq_dec : EqDecision Byte.byte := Byte.byte_eq_dec.

(** Literals: [u "abc"] is the Python string ['abc']. *)
Definition u (s : string) : pystr := N_of_ascii <$> String.list_ascii_of_string s.

(** ** Equality and order of strings *)

Fixpoint pystr_eqb (s t : pystr) : bool :=
  match s, t with
  | [], [] => true
  | a :: s, b :: t => (a =? b)%N && pystr_eqb s t
  | _, _ => false
  end.

Lemma pystr_eqb_eq s t : pystr_eqb s t = true ↔ s = t.
Proof.
  revert t. induction s as [|a s IH]; intros [|b t]; simpl; try naive_solver.
  rewrite andb_true_iff, N.eqb_eq, IH. naive_solver.
Qed.

Lemma pystr_eqb_refl s : pystr_eqb s s = true.
Proof. by apply pystr_eqb_eq. Qed.

Lemma pystr_eqb_neq s t : pystr_eqb s t = false ↔ s ≠ t.
Proof. rewrite <-not_true_iff_false, pystr_eqb_eq. done. Qed.

(** [s <= t] on Python strings: lexicographic on code points. *)
Fixpoint pystr_leb (s t : pystr) : bool :=
  match s, t with
  | [], _ => true
  | _ :: _, [] => false
  | a :: s, b :: t => (a <? b)%N || ((a =? b)%N && pystr_leb s t)
  end.

Definition pystr_le (s t : pystr) : Prop := pystr_leb s t = true.
#[global] Instance pystr_le_dec : RelDecision pystr_le :=
  λ s t, bool_eq_dec (pystr_leb s t) true.

#[global] Instance pystr_le_total : Total pystr_le.
Proof.
  intros s. unfold pystr_le.
  induction s as [|a s IH]; intros [|b t]; simpl; auto.
  destruct (N.lt_total a b) as [H|[->|H]].
  - apply N.ltb_lt in H. rewrite H. auto.
  - rewrite N.ltb_irrefl, N.eqb_refl. simpl. apply IH.
  - apply N.ltb_lt in H. rewrite H. auto.
Qed.

#[global] Instance pystr_le_trans : Transitive pystr_le.
Proof.
  intros s. unfold pystr_le.
  induction s as [|a s IH]; intros [|b t] [|c r]; simpl; auto; try done.
  rewrite !orb_true_iff, !andb_true_iff, !N.ltb_lt, !N.eqb_eq.
  intros [?|[-> ?]] [?|[-> ?]]; [left; lia|left; lia|left; lia|].
  right. split; [done|]. eauto.
Qed.

#[global] Instance pystr_le_antisym : AntiSymm (=) pystr_le.
Proof.
  intros s. unfold pystr_le.
  induction s as [|a s IH]; intros [|b t]; simpl; auto; try done.
  rewrite !orb_true_iff, !andb_true_iff, !N.ltb_lt, !N.eqb_eq.
  intros [?|[-> ?]] [?|[? ?]]; try lia. f_equal. by apply IH.
Qed.

(** ** Bytes and numbers *)

Definition byte_of_N (n : N) : Byte.byte := default Byte.x00 (Byte.of_N (n mod 256)).

Lemma to_N_byte_of_N n : Byte.to_N (byte_of_N n) = (n mod 256)%N.
Proof.
  unfold byte_of_N.
  assert (n mod 256 < 256)%N as Hn by (by apply N.mod_lt).
  destruct (Byte.of_N (n mod 256)) as [b|] eqn:E; simpl.
  - by apply Byte.to_of_N in E.
  - apply Byte.of_N_None_iff in E. lia.
Qed.

Lemma byte_of_to_N b : byte_of_N (Byte.to_N b) = b.
Proof.
  unfold byte_of_N. pose proof (Byte.to_N_bounded b).
  rewrite N.mod_small by lia. by rewrite Byte.of_to_N.
Qed.

Lemma byte_to_N_inj a b : Byte.to_N a = Byte.to_N b → a = b.
Proof. intros H. by rewrite <-(byte_of_to_N a), H, byte_of_to_N. Qed.

(** [n.to_bytes(k, "big")] (the value is taken modulo [256^k]; Python
    raises [OverflowError] above it, which [int_to_bytes] checks). *)
Fixpoint be_split (k : nat) (n : N) : bytes :=
  match k with
  | O => []
  | S k => be_split k (n / 256) ++ [byte_of_N n]
  end.

Fixpoint be_combine (acc : N) (l : bytes) : N :=
  match l with
  | [] => acc
  | b :: l => be_combine (acc * 256 + Byte.to_N b) l
  end.

Definition int_to_bytes (k : nat) (n : N) : result bytes :=
  if (n <? 256 ^ N.of_nat k)%N then Ok (be_split k n) else Raise OverflowError.

Lemma length_be_split k n : length (be_split k n) = k.
Proof. revert n. induction k; intros n; simpl; [done|]. rewrite length_app, IHk. simpl. lia. Qed.

Lemma be_combine_snoc acc l b : be_combine acc (l ++ [b]) = (be_combine acc l * 256 + Byte.to_N b)%N.
Proof. revert acc. induction l; intros; simpl; auto. Qed.

Lemma be_combine_split k n : be_combine 0 (be_split k n) = (n mod 256 ^ N.of_nat k)%N.
Proof.
  revert n. induction k as [|k IH]; intros n; [by rewrite N.mod_1_r|].
  cbn [be_split]. rewrite be_combine_snoc, IH, to_N_byte_of_N.
  rewrite Nat2N.inj_succ, N.pow_succ_r'.
  rewrite (N.Div0.mod_mul_r n 256 (256 ^ N.of_nat k)). lia.
Qed.

Lemma be_split_inj k n m :
  (n < 256 ^ N.of_nat k)%N → (m < 256 ^ N.of_nat k)%N → be_split k n = be_split k m → n = m.
Proof.
  intros Hn Hm H. apply (f_equal (be_combine 0)) in H.
  rewrite !be_combine_split, !N.mod_small in H by done. done.
Qed.

(** ** UTF-8 *)

Definition is_surrogate (c : N) : bool := (0xD800 <=? c)%N && (c <=? 0xDFFF)%N.
(** A Unicode scalar value: what [str.encode("utf-8")] accepts. *)
Definition is_scalar (c : N) : bool := (c <? 0x110000)%N && negb (is_surrogate c).

Definition utf8_char (c : N) : bytes :=
  if (c <? 0x80)%N then [byte_of_N c]
  else if (c <? 0x800)%N then [byte_of_N (0xC0 + c / 64); byte_of_N (0x80 + c mod 64)]
  else if (c <? 0x10000)%N then
    [byte_of_N (0xE0 + c / 4096); byte_of_N (0x80 + (c / 64) mod 64); byte_of_N (0x80 + c mod 64)]
  else
    [byte_of_N (0xF0 + c / 262144); byte_of_N (0x80 + (c / 4096) mod 64);
     byte_of_N (0x80 + (c / 64) mod 64); byte_of_N (0x80 + c mod 64)].

(** [s.encode("utf-8")] *)
Definition utf8_encode (s : pystr) : result bytes :=
  if forallb is_scalar s then Ok (flat_map utf8_char s) else Raise UnicodeEncodeError.

Definition is_cont (b : Byte.byte) : bool := (Byte.to_N b / 64 =? 2)%N.
Definition cont_bits (b : Byte.byte) : N := (Byte.to_N b mod 64)%N.

(** [b.decode("utf-8")] for the characters [ok]: [None] is
    [UnicodeDecodeError]. *)
Fixpoint utf8_decode_with (ok : N → bool) (l : bytes) : option pystr :=
  match l with
  | [] => Some []
  | b :: l1 =>
    let n := Byte.to_N b in
    if (n <? 0x80)%N then (n ::.) <$> utf8_decode_with ok l1
    else if (n <? 0xC0)%N then None
    else if (n <? 0xE0)%N then
      match l1 with
      | b1 :: l2 =>
        let c := ((n - 0xC0) * 64 + cont_bits b1)%N in
        if is_cont b1 && (0x80 <=? c)%N then (c ::.) <$> utf8_decode_with ok l2 else None
      | _ => None
      end
    else if (n <? 0xF0)%N then
      match l1 with
      | b1 :: b2 :: l3 =>
        let c := ((n - 0xE0) * 4096 + cont_bits b1 * 64 + cont_bits b2)%N in
        if is_cont b1 && is_cont b2 && (0x800 <=? c)%N && ok c
        then (c ::.) <$> utf8_decode_with ok l3 else None
      | _ => None
      end
    else
      match l1 with
      | b1 :: b2 :: b3 :: l4 =>
        let c := ((n - 0xF0) * 262144 + cont_bits b1 * 4096 + cont_bits b2 * 64 + cont_bits b3)%N in
        if is_cont b1 && is_cont b2 && is_cont b3 && (0x10000 <=? c)%N && ok c
        then (c ::.) <$> utf8_decode_with ok l4 else None
      | _ => None
      end
  end.

(** Strict, and with [surrogatepass]. *)
Notation utf8_decode := (utf8_decode_with is_scalar).
Notation utf8_decode_surrogatepass := (utf8_decode_with (λ c, (c <? 0x110000)%N)).

Lemma is_cont_mk x : (x < 64)%N → is_cont (byte_of_N (0x80 + x)) = true.
Proof.
  intros H. unfold is_cont. rewrite to_N_byte_of_N, (N.mod_small _ 256) by lia.
  apply N.eqb_eq. replace (128 + x)%N with (x + 2 * 64)%N by lia.
  rewrite N.div_add, N.div_small by lia. done.
Qed.

Lemma cont_bits_mk x : (x < 64)%N → cont_bits (byte_of_N (0x80 + x)) = x.
Proof.
  intros H. unfold cont_bits. rewrite to_N_byte_of_N, (N.mod_small _ 256) by lia.
  replace (128 + x)%N with (x + 2 * 64)%N by lia.
  by rewrite N.Div0.mod_add, N.mod_small.
Qed.

Lemma is_scalar_lt c : is_scalar c = true → (c < 0x110000)%N.
Proof. unfold is_scalar. rewrite andb_true_iff, N.ltb_lt. naive_solver. Qed.

Lemma utf8_decode_char c l :
  is_scalar c = true → utf8_decode (utf8_char c ++ l) = (c ::.) <$> utf8_decode l.
Proof.
  intros Hc. pose proof (is_scalar_lt c Hc) as Hlt. unfold utf8_char.
  pose proof (N.mod_lt c 64 ltac:(done)).
  pose proof (N.mod_lt (c / 64) 64 ltac:(done)).
  pose proof (N.mod_lt (c / 4096) 64 ltac:(done)).
  pose proof (N.div_mod' c 64) as E0.
  pose proof (N.div_mod' (c / 64) 64) as E1.
  pose proof (N.div_mod' (c / 4096) 64) as E2.
  rewrite N.Div0.div_div in E1. change (64 * 64)%N with 4096%N in E1.
  rewrite N.Div0.div_div in E2. change (4096 * 64)%N with 262144%N in E2.
  set (r0 := (c mod 64)%N) in *. set (q1 := (c / 64)%N) in *. set (r1 := (q1 mod 64)%N) in *.
  set (q2 := (c / 4096)%N) in *. set (r2 := (q2 mod 64)%N) in *. set (q3 := (c / 262144)%N) in *.
  clearbody r0 q1 r1 q2 r2 q3.
  destruct (N.ltb_spec c 0x80); [|destruct (N.ltb_spec c 0x800); [|destruct (N.ltb_spec c 0x10000)]];
    cbn [app utf8_decode_with].
  - rewrite to_N_byte_of_N, N.mod_small by lia. by rewrite (proj2 (N.ltb_lt _ _)) by lia.
  - rewrite to_N_byte_of_N, (N.mod_small _ 256) by lia.
    rewrite is_cont_mk, cont_bits_mk by lia.
    rewrite (proj2 (N.ltb_ge _ 0x80)), (proj2 (N.ltb_ge _ 0xC0)), (proj2 (N.ltb_lt _ 0xE0)) by lia.
    replace ((192 + q1 - 192) * 64 + r0)%N with c by lia.
    by rewrite (proj2 (N.leb_le _ _)) by lia.
  - rewrite to_N_byte_of_N, (N.mod_small _ 256) by lia.
    rewrite !is_cont_mk, !cont_bits_mk by lia.
    rewrite (proj2 (N.ltb_ge _ 0x80)), (proj2 (N.ltb_ge _ 0xC0)), (proj2 (N.ltb_ge _ 0xE0)),
      (proj2 (N.ltb_lt _ 0xF0)) by lia.
    replace ((224 + q2 - 224) * 4096 + r1 * 64 + r0)%N with c by lia.
    rewrite (proj2 (N.leb_le _ _)) by lia. by rewrite Hc.
  - rewrite to_N_byte_of_N, (N.mod_small _ 256) by lia.
    rewrite !is_cont_mk, !cont_bits_mk by lia.
    rewrite (proj2 (N.ltb_ge _ 0x80)), (proj2 (N.ltb_ge _ 0xC0)), (proj2 (N.ltb_ge _ 0xE0)),
      (proj2 (N.ltb_ge _ 0xF0)) by lia.
    replace ((240 + q3 - 240) * 262144 + r2 * 4096 + r1 * 64 + r0)%N with c by lia.
    rewrite (proj2 (N.leb_le _ _)) by lia. by rewrite Hc.
Qed.

(** Decoding inverts encoding. *)
Lemma utf8_decode_encode s b : utf8_encode s = Ok b → utf8_decode b = Some s.
Proof.
  unfold utf8_encode. destruct (forallb is_scalar s) eqn:Hs; [|done].
  intros [= <-]. induction s as [|c s IH]; [done|].
  simpl in Hs. apply andb_true_iff in Hs as [Hc Hs].
  cbn [flat_map]. rewrite utf8_decode_char by done. by rewrite IH.
Qed.

Lemma utf8_encode_inj s t b : utf8_encode s = Ok b → utf8_encode t = Ok b → s = t.
Proof. intros Hs%utf8_decode_encode Ht%utf8_decode_encode. congruence. Qed.

(** ** ASCII text *)

Definition is_ascii (s : pystr) : bool := forallb (λ c, (c <? 0x80)%N) s.

Lemma is_ascii_scalar c : (c <? 0x80)%N = true → is_scalar c = true.
Proof.
  intros H%N.ltb_lt. unfold is_scalar, is_surrogate.
  rewrite (proj2 (N.ltb_lt _ _)), (proj2 (N.leb_gt _ _)) by lia. done.
Qed.

Lemma is_ascii_forallb_scalar s : is_ascii s = true → forallb is_scalar s = true.
Proof.
  unfold is_ascii. rewrite !forallb_elem_of. intros H c Hc. by apply is_ascii_scalar, H.
Qed.

Lemma utf8_encode_ascii s : is_ascii s = true → utf8_encode s = Ok (byte_of_N <$> s).
Proof.
  intros H. unfold utf8_encode. rewrite is_ascii_forallb_scalar by done. f_equal.
  induction s as [|c s IH]; [done|]. simpl in H. apply andb_true_iff in H as [Hc H].
  cbn [flat_map fmap list_fmap]. unfold utf8_char at 1. rewrite Hc. simpl. by rewrite IH.
Qed.

Lemma is_ascii_app s t : is_ascii (s ++ t) = is_ascii s && is_ascii t.
Proof. apply forallb_app. Qed.

(** ** The token patterns

    [_IDENTIFIER], [_SAFE_TOKEN], [_STORE_ID], [_KEY_ID], [_AUTHORITY_ID],
    [_AUTHORIZATION_ID] are all [[A-Za-z0-9][A-Za-z0-9_.:-]{0,127}], and
    [_HEX_64] is [[0-9a-f]{64}], both used with [fullmatch]. *)

Definition in_range (lo hi c : N) : bool := (lo <=? c)%N && (c <=? hi)%N.
Definition is_alnum (c : N) : bool :=
  in_range 65 90 c || in_range 97 122 c || in_range 48 57 c.
Definition is_token_char (c : N) : bool :=
  is_alnum c || (c =? 95)%N || (c =? 46)%N || (c =? 58)%N || (c =? 45)%N.
Definition match_token (s : pystr) : bool :=
  match s with
  | [] => false
  | c :: s => is_alnum c && forallb is_token_char s && (length s <=? 127)%nat
  end.

Definition is_hex_char (c : N) : bool := in_range 48 57 c || in_range 97 102 c.
Definition match_hex64 (s : pystr) : bool := (length s =? 64)%nat && forallb is_hex_char s.

Lemma in_range_spec lo hi c : in_range lo hi c = true ↔ (lo <= c <= hi)%N.
Proof. unfold in_range. by rewrite andb_true_iff, !N.leb_le. Qed.

Lemma is_token_char_ascii c : is_token_char c = true → (c <? 0x80)%N = true.
Proof.
  unfold is_token_char, is_alnum. rewrite !orb_true_iff, !in_range_spec, !N.eqb_eq, N.ltb_lt. lia.
Qed.

Lemma match_token_ascii s : match_token s = true → is_ascii s = true.
Proof.
  destruct s as [|c s]; [done|]. cbn [match_token]. rewrite !andb_true_iff.
  intros [[Hc Hs] _]. unfold is_ascii. simpl. apply andb_true_iff. split.
  - apply is_token_char_ascii. unfold is_token_char. by rewrite Hc.
  - rewrite !forallb_elem_of in *. intros x Hx. by apply is_token_char_ascii, Hs.
Qed.

Lemma match_hex64_ascii s : match_hex64 s = true → is_ascii s = true.
Proof.
  unfold match_hex64, is_ascii. rewrite andb_true_iff, !forallb_elem_of. intros [_ Hs] c Hc.
  specialize (Hs c Hc). unfold is_hex_char in Hs.
  rewrite orb_true_iff, !in_range_spec in Hs. apply N.ltb_lt. lia.
Qed.

Lemma match_hex64_nonempty s : match_hex64 s = true → s ≠ [].
Proof. by intros H ->. Qed.

(** ** Hexadecimal text: [bytes.hex()] and [int(text, 16)] on two digits *)

Definition hex_digit (n : N) : N := if (n <? 10)%N then (48 + n)%N else (87 + n)%N.
Definition hex_byte (b : Byte.byte) : pystr :=
  [hex_digit (Byte.to_N b / 16); hex_digit (Byte.to_N b mod 16)].
Definition hex (l : bytes) : pystr := flat_map hex_byte l.

Definition unhex_digit (c : N) : option N :=
  if in_range 48 57 c then Some (c - 48)%N
  else if in_range 97 102 c then Some (c - 87)%N
  else if in_range 65 70 c then Some (c - 55)%N
  else None.

(** The pairs of hexadecimal digits of a text. *)
Fixpoint unhex (s : pystr) : option bytes :=
  match s with
  | [] => Some []
  | a :: b :: s =>
    x ← unhex_digit a; y ← unhex_digit b; r ← unhex s; Some (byte_of_N (x * 16 + y) :: r)
  | _ => None
  end.

Lemma hex_digit_char n : (n < 16)%N → is_hex_char (hex_digit n) = true.
Proof.
  intros H. unfold hex_digit, is_hex_char.
  rewrite orb_true_iff, !in_range_spec. destruct (N.ltb_spec n 10); lia.
Qed.

Lemma unhex_hex_digit n : (n < 16)%N → unhex_digit (hex_digit n) = Some n.
Proof.
  intros H. unfold hex_digit, unhex_digit. destruct (N.ltb_spec n 10).
  - rewrite (proj2 (in_range_spec _ _ _)) by lia. f_equal. lia.
  - assert (in_range 48 57 (87 + n) = false) as ->
      by (apply not_true_iff_false; rewrite in_range_spec; lia).
    rewrite (proj2 (in_range_spec _ _ _)) by lia. f_equal. lia.
Qed.

Lemma byte_nibbles b : (Byte.to_N b / 16 < 16)%N ∧ (Byte.to_N b mod 16 < 16)%N.
Proof.
  pose proof (Byte.to_N_bounded b). split; [|by apply N.mod_lt].
  apply N.Div0.div_lt_upper_bound. lia.
Qed.

Lemma length_hex l : length (hex l) = (2 * length l)%nat.
Proof.
  unfold hex. induction l as [|b l IH]; [done|].
  cbn [flat_map]. rewrite length_app, IH. simpl. lia.
Qed.

Lemma hex_chars l : forallb is_hex_char (hex l) = true.
Proof.
  unfold hex. induction l as [|b l IH]; [done|].
  cbn [flat_map]. unfold hex_byte at 1. cbn [app forallb].
  destruct (byte_nibbles b). rewrite !hex_digit_char by done. apply IH.
Qed.

Lemma hex_ascii b : is_ascii (hex b) = true.
Proof.
  unfold is_ascii, hex. induction b as [|c b IH]; [done|]. cbn [flat_map]. rewrite forallb_app, IH, andb_true_r.
  destruct (byte_nibbles c) as [Ha Hb]. unfold hex_byte. cbn [forallb].
  pose proof (hex_digit_char _ Ha) as H1. pose proof (hex_digit_char _ Hb) as H2. unfold is_hex_char in *.
  rewrite orb_true_iff, !in_range_spec in H1, H2. rewrite !andb_true_iff, !N.ltb_lt. lia.
Qed.

Lemma match_hex64_hex l : length l = 32%nat → match_hex64 (hex l) = true.
Proof. intros H. unfold match_hex64. by rewrite length_hex, H, hex_chars. Qed.

Lemma unhex_hex l : unhex (hex l) = Some l.
Proof.
  unfold hex. induction l as [|b l IH]; [done|].
  cbn [flat_map]. unfold hex_byte at 1. cbn [app unhex].
  destruct (byte_nibbles b). rewrite !unhex_hex_digit by done. simpl.
  replace (Byte.to_N b / 16 * 16 + Byte.to_N b mod 16)%N with (Byte.to_N b).
  - rewrite IH. simpl. by rewrite byte_of_to_N.
  - rewrite N.mul_comm. apply N.div_mod'.
Qed.

Lemma hex_inj l k : hex l = hex k → l = k.
Proof. intros H. apply (f_equal unhex) in H. rewrite !unhex_hex in H. by injection H. Qed.

(** ** Decimal text: [str(int)] *)

Fixpoint uint_str (d : Decimal.uint) : pystr :=
  match d with
  | Decimal.Nil => []
  | Decimal.D0 d => 48%N :: uint_str d
  | Decimal.D1 d => 49%N :: uint_str d
  | Decimal.D2 d => 50%N :: uint_str d
  | Decimal.D3 d => 51%N :: uint_str d
  | Decimal.D4 d => 52%N :: uint_str d
  | Decimal.D5 d => 53%N :: uint_str d
  | Decimal.D6 d => 54%N :: uint_str d
  | Decimal.D7 d => 55%N :: uint_str d
  | Decimal.D8 d => 56%N :: uint_str d
  | Decimal.D9 d => 57%N :: uint_str d
  end.

Definition digit_cons (c : N) (d : Decimal.uint) : Decimal.uint :=
  match c with
  | 48 => Decimal.D0 d | 49 => Decimal.D1 d | 50 => Decimal.D2 d | 51 => Decimal.D3 d
  | 52 => Decimal.D4 d | 53 => Decimal.D5 d | 54 => Decimal.D6 d | 55 => Decimal.D7 d
  | 56 => Decimal.D8 d | _ => Decimal.D9 d
  end%N.

Definition str_uint (s : pystr) : Decimal.uint := foldr digit_cons Decimal.Nil s.

Definition is_digit (c : N) : bool := in_range 48 57 c.

Definition nat_str (n : N) : pystr := uint_str (N.to_uint n).
(** [str(z)] *)
Definition int_str (z : Z) : pystr :=
  if (z <? 0)%Z then 45%N :: nat_str (Z.to_N (- z)) else nat_str (Z.to_N z).

Lemma str_uint_str d : str_uint (uint_str d) = d.
Proof. induction d; simpl; unfold str_uint in *; by rewrite ?IHd. Qed.

Lemma uint_str_digits d : forallb is_digit (uint_str d) = true.
Proof. by induction d. Qed.

Lemma nat_str_digits n : forallb is_digit (nat_str n) = true.
Proof. apply uint_str_digits. Qed.

Lemma nat_str_value n : N.of_uint (str_uint (nat_str n)) = n.
Proof. unfold nat_str. rewrite str_uint_str. apply DecimalN.Unsigned.of_to. Qed.

(** No leading zero: the text starts with 0 only for zero itself. *)
Lemma nat_str_head n :
  nat_str n = [48%N] ∧ n = 0%N ∨
  ∃ c s, nat_str n = c :: s ∧ is_digit c = true ∧ c ≠ 48%N.
Proof.
  unfold nat_str. pose proof (DecimalN.Unsigned.to_of (N.to_uint n)) as H.
  rewrite DecimalN.Unsigned.of_to in H. pose proof (DecimalN.Unsigned.of_to n) as Hn.
  destruct (N.to_uint n) as [|d|d|d|d|d|d|d|d|d|d] eqn:E.
  - by rewrite <-Hn in E.
  - assert (d = Decimal.Nil) as ->; [|left; by split].
    revert H. clear. unfold Decimal.unorm. intros H.
    assert (Decimal.nzhead (Decimal.D0 d) ≠ Decimal.D0 d).
    { intros H'. cbn in H'. pose proof (DecimalFacts.nzhead_nonzero d d). by apply H0. }
    destruct (Decimal.nzhead (Decimal.D0 d)); try congruence.
  - right; by eexists _, _.
  - right; by eexists _, _.
  - right; by eexists _, _.
  - right; by eexists _, _.
  - right; by eexists _, _.
  - right; by eexists _, _.
  - right; by eexists _, _.
  - right; by eexists _, _.
  - right; by eexists _, _.
Qed.

Lemma nat_str_inj n m : nat_str n = nat_str m → n = m.
Proof. intros H. by rewrite <-(nat_str_value n), H, nat_str_value. Qed.

(** ** Blanks: [str.isspace], [str.strip] *)

Definition py_isspace (c : N) : bool :=
  in_range 9 13 c || in_range 28 32 c || in_range 8192 8202 c ||
  existsb (N.eqb c) [133; 160; 5760; 8232; 8233; 8239; 8287; 12288]%N.

Fixpoint lstrip (s : pystr) : pystr :=
  match s with c :: s' => if py_isspace c then lstrip s' else s | [] => [] end.
Definition strip (s : pystr) : pystr := rev (lstrip (rev (lstrip s))).

Lemma strip_nonblank s : forallb (λ c, negb (py_isspace c)) s = true → strip s = s.
Proof.
  assert (∀ t, forallb (λ c, negb (py_isspace c)) t = true → lstrip t = t) as Hl.
  { intros [|c t]; [done|]. cbn [forallb lstrip]. by destruct (py_isspace c). }
  intros Hs. unfold strip. rewrite (Hl s Hs), Hl; [apply rev_involutive|].
  rewrite forallb_forall in *. intros c Hc. apply Hs. by apply in_rev.
Qed.

Lemma digit_nonblank s : forallb is_digit s = true → forallb (λ c, negb (py_isspace c)) s = true.
Proof.
  rewrite !forallb_forall. intros Hs c Hc. specialize (Hs c Hc). unfold is_digit in Hs.
  apply in_range_spec in Hs. unfold py_isspace. rewrite negb_true_iff, !orb_false_iff.
  repeat split; try (rewrite <-not_true_iff_false, in_range_spec; lia).
  cbn [existsb]. rewrite !orb_false_iff, !N.eqb_neq. split_and!; lia || done.
Qed.

(** [bytes.fromhex(s)]: pairs of digits of either case, ASCII blanks between
    the pairs. *)
Definition is_ascii_space (c : N) : bool := in_range 9 13 c || (c =? 32)%N.
Fixpoint fromhex (s : pystr) : option bytes :=
  match s with
  | [] => Some []
  | c :: s1 =>
    if is_ascii_space c then fromhex s1
    else match s1 with
         | d :: s2 => a ← unhex_digit c; b ← unhex_digit d; r ← fromhex s2; Some (byte_of_N (a * 16 + b) :: r)
         | [] => None
         end
  end.

#[global] Arguments u : simpl never.
