(* ===== verification/Sha256.v ===== *)
(** * SHA-256 and HMAC

    [Hash] is what the program relies on of [hashlib.sha256]: a function
    from bytes to 32 bytes.  Every theorem of the library is proved for an
    arbitrary instance, so no theorem uses a cryptographic strength of the
    hash; where two inputs are told apart by their digests the statement
    names the two messages that would collide.  [SHA256.sha256_fun] is the real function
    (FIPS 180-4), the default instance for evaluation.  [hmac_sha256] is the
    [hmac] module (RFC 2104) over the hash of the instance. *)

From S2P Require Import Prelude PyStr.
From Stdlib Require Import Strings.Byte.

Class Hash : Type := {
  sha256 : bytes → bytes;
  sha256_length m : length (sha256 m) = 32%nat;
}.

(** [hashlib.sha256(m).hexdigest()] *)
Definition sha256_hex `{Hash} (m : bytes) : pystr := hex (sha256 m).

Lemma sha256_hex_match `{Hash} m : match_hex64 (sha256_hex m) = true.
Proof. apply match_hex64_hex, sha256_length. Qed.

(** These two inputs are a collision of the hash. *)
Definition hash_collides `{Hash} (x y : bytes) : Prop := x ≠ y ∧ sha256 x = sha256 y.

Lemma sha256_hex_inj `{Hash} x y : sha256_hex x = sha256_hex y → x = y ∨ hash_collides x y.
Proof.
  intros E%hex_inj. destruct (decide (x = y)); [by left|]. by right.
Qed.

(** ** HMAC *)

Definition byte_xor (k b : Byte.byte) : Byte.byte :=
  byte_of_N (N.lxor (Byte.to_N k) (Byte.to_N b)).

Definition hmac_block `{Hash} (key : bytes) : bytes :=
  let k := if (64 <? length key)%nat then sha256 key else key in
  k ++ replicate (64 - length k) Byte.x00.

(** [hmac.new(key, msg, sha256).digest()] *)
Definition hmac_sha256 `{Hash} (key msg : bytes) : bytes :=
  let k := hmac_block key in
  sha256 ((byte_xor Byte.x5c <$> k) ++ sha256 ((byte_xor Byte.x36 <$> k) ++ msg)).

Definition hmac_hex `{Hash} (key msg : bytes) : pystr := hex (hmac_sha256 key msg).

Lemma hmac_hex_match `{Hash} key msg : match_hex64 (hmac_hex key msg) = true.
Proof. apply match_hex64_hex, sha256_length. Qed.

(** Two messages whose tags under [key] agree because the inner or the
    outer hash of their own HMAC computation collides. *)
Definition hmac_collides `{Hash} (key x y : bytes) : Prop :=
  let o := byte_xor Byte.x5c <$> hmac_block key in
  let i := byte_xor Byte.x36 <$> hmac_block key in
  hash_collides (i ++ x) (i ++ y) ∨ hash_collides (o ++ sha256 (i ++ x)) (o ++ sha256 (i ++ y)).

(** Equal tags under one key: the messages agree or these two collide. *)
Lemma hmac_hex_inj `{Hash} key x y : hmac_hex key x = hmac_hex key y → x = y ∨ hmac_collides key x y.
Proof.
  intros E%hex_inj. unfold hmac_sha256 in E. unfold hmac_collides. cbv zeta in *.
  set (o := byte_xor Byte.x5c <$> hmac_block key) in *.
  set (i := byte_xor Byte.x36 <$> hmac_block key) in *.
  destruct (decide (x = y)) as [|Hxy]; [by left|right].
  destruct (decide (sha256 (i ++ x) = sha256 (i ++ y))) as [E'|E'].
  - left. split; [|done]. by intros ?%app_inv_head.
  - right. split; [|done]. by intros ?%app_inv_head.
Qed.

(** ** The real function *)

Module SHA256.
Definition w32 (n : N) : N := (n mod 4294967296)%N.
Definition add32 (a b : N) : N := w32 (a + b).
Definition rotr (n x : N) : N := N.lor (N.shiftr x n) (w32 (N.shiftl x (32 - n))).

Definition ch (x y z : N) : N := N.lxor (N.land x y) (N.land (N.lxor x 4294967295) z).
Definition maj (x y z : N) : N := N.lxor (N.lxor (N.land x y) (N.land x z)) (N.land y z).
Definition bsig0 (x : N) : N := N.lxor (N.lxor (rotr 2 x) (rotr 13 x)) (rotr 22 x).
Definition bsig1 (x : N) : N := N.lxor (N.lxor (rotr 6 x) (rotr 11 x)) (rotr 25 x).
Definition ssig0 (x : N) : N := N.lxor (N.lxor (rotr 7 x) (rotr 18 x)) (N.shiftr x 3).
Definition ssig1 (x : N) : N := N.lxor (N.lxor (rotr 17 x) (rotr 19 x)) (N.shiftr x 10).

Definition K : list N := [
 1116352408; 1899447441; 3049323471; 3921009573; 961987163; 1508970993; 2453635748; 2870763221;
 3624381080; 310598401; 607225278; 1426881987; 1925078388; 2162078206; 2614888103; 3248222580;
 3835390401; 4022224774; 264347078; 604807628; 770255983; 1249150122; 1555081692; 1996064986;
 2554220882; 2821834349; 2952996808; 3210313671; 3336571891; 3584528711; 113926993; 338241895;
 666307205; 773529912; 1294757372; 1396182291; 1695183700; 1986661051; 2177026350; 2456956037;
 2730485921; 2820302411; 3259730800; 3345764771; 3516065817; 3600352804; 4094571909; 275423344;
 430227734; 506948616; 659060556; 883997877; 958139571; 1322822218; 1537002063; 1747873779;
 1955562222; 2024104815; 2227730452; 2361852424; 2428436474; 2756734187; 3204031479; 3329325298]%N.

Record state : Type := St { sa : N; sb : N; sc : N; sd : N; se : N; sf : N; sg : N; sh : N }.

Definition init : state := 
  match [
 1779033703; 3144134277; 1013904242; 2773480762; 1359893119; 2600822924; 528734635; 1541459225]%N with
  | [a; b; c; d; e; f; g; h] => St a b c d e f g h
  | _ => St 0 0 0 0 0 0 0 0
  end.

Definition round (s : state) (k w : N) : state :=
  let t1 := w32 (sh s + bsig1 (se s) + ch (se s) (sf s) (sg s) + k + w)%N in
  let t2 := w32 (bsig0 (sa s) + maj (sa s) (sb s) (sc s))%N in
  St (add32 t1 t2) (sa s) (sb s) (sc s) (add32 (sd s) t1) (se s) (sf s) (sg s).

(** The message schedule as a sliding window of sixteen words. *)
Fixpoint rounds (ks : list N) (win : list N) (s : state) : state :=
  match ks, win with
  | k :: ks, w0 :: rest =>
    let w1 := default 0%N (rest !! 0%nat) in
    let w9 := default 0%N (rest !! 8%nat) in
    let w14 := default 0%N (rest !! 13%nat) in
    let w16 := w32 (ssig1 w14 + w9 + ssig0 w1 + w0)%N in
    rounds ks (rest ++ [w16]) (round s k w0)
  | _, _ => s
  end.

Definition block (s : state) (win : list N) : state :=
  let r := rounds K win s in
  St (add32 (sa s) (sa r)) (add32 (sb s) (sb r)) (add32 (sc s) (sc r)) (add32 (sd s) (sd r))
     (add32 (se s) (se r)) (add32 (sf s) (sf r)) (add32 (sg s) (sg r)) (add32 (sh s) (sh r)).

Fixpoint words (l : bytes) : list N :=
  match l with
  | a :: b :: c :: d :: l => be_combine 0 [a; b; c; d] :: words l
  | _ => []
  end.

Fixpoint blocks (fuel : nat) (s : state) (ws : list N) : state :=
  match fuel with
  | O => s
  | S fuel => blocks fuel (block s (take 16 ws)) (drop 16 ws)
  end.

Definition pad (m : bytes) : bytes :=
  let n := length m in
  m ++ [Byte.x80] ++ replicate ((119 - n mod 64) mod 64) Byte.x00 ++ be_split 8 (N.of_nat (8 * n)).

Definition sha256_fun (m : bytes) : bytes :=
  let ws := words (pad m) in
  let s := blocks (length ws / 16) init ws in
  concat (be_split 4 <$> [sa s; sb s; sc s; sd s; se s; sf s; sg s; sh s]).

Lemma sha256_fun_length m : length (sha256_fun m) = 32%nat.
Proof. unfold sha256_fun. cbn [fmap list_fmap concat]. by rewrite !length_app, !length_be_split. Qed.

Definition of_str (s : pystr) : bytes := byte_of_N <$> s.

(** The FIPS 180-4 test vector for "abc". *)
Example sha256_abc : hex (sha256_fun (of_str (u "abc"))) =
  u "ba7816bf8f01cfea414140de5dae2223b00361a396177a9cb410ff61f20015ad".
Proof. vm_compute. reflexivity. Qed.
End SHA256.

#[export] Instance sha256_hash : Hash :=
  {| sha256 := SHA256.sha256_fun; sha256_length := SHA256.sha256_fun_length |}.

(** A cheap 64-bit polynomial hash, for evaluating witnesses over long
    messages. *)
Definition polynomial_fun (m : bytes) : bytes :=
  be_split 32 (foldl (λ acc b, N.land (acc * 257 + Byte.to_N b + 1) (2 ^ 64 - 1)) 7%N m).

Lemma polynomial_fun_length m : length (polynomial_fun m) = 32%nat.
Proof. apply length_be_split. Qed.

Definition polynomial_hash : Hash :=
  {| sha256 := polynomial_fun; sha256_length := polynomial_fun_length |}.

#[global] Opaque sha256 hmac_sha256.
