(* ===== verification/PyDatetime.v ===== *)
(** * The [datetime] values of the program

    A Python [datetime] as its fields and an optional UTC offset; the
    proleptic Gregorian ordinal, comparison of aware values by instant,
    addition of a [timedelta], [isoformat] and [fromisoformat].  The parser
    accepts the extended format that [isoformat] prints (any one separator
    character, optional microseconds, optional numeric offset); the other
    ISO 8601 spellings are refused by the model. *)

From S2P Require Import Prelude PyStr.

Record datetime : Type := mk_datetime {
  dt_year : Z; dt_month : Z; dt_day : Z;
  dt_hour : Z; dt_minute : Z; dt_second : Z; dt_micro : Z;
  dt_tz : option Z;  (* UTC offset in microseconds, [None] for a naive value *)
}.

#[global] Instance datetime_eq_dec : EqDecision datetime.
Proof. solve_decision. Defined.

(** [value.tzinfo is not None and value.utcoffset() == timezone.utc.utcoffset(value)] *)
Definition is_utc (d : datetime) : bool :=
  match dt_tz d with Some z => (z =? 0)%Z | None => false end.

(** ** Calendar *)

Definition is_leap (y : Z) : bool :=
  ((y mod 4 =? 0) && (negb (y mod 100 =? 0) || (y mod 400 =? 0)))%Z.

Definition days_in_month (y m : Z) : Z :=
  (if (m =? 2) then (if is_leap y then 29 else 28)
   else if (m =? 4) || (m =? 6) || (m =? 9) || (m =? 11) then 30 else 31)%Z.

Definition days_before_year (y : Z) : Z :=
  let y := (y - 1)%Z in (y * 365 + y / 4 - y / 100 + y / 400)%Z.

(** Days of the year before the first of month [m], in a common year. *)
Definition days_before_month_common (m : Z) : Z :=
  (match m with
   | 1 => 0 | 2 => 31 | 3 => 59 | 4 => 90 | 5 => 120 | 6 => 151
   | 7 => 181 | 8 => 212 | 9 => 243 | 10 => 273 | 11 => 304 | _ => 334
   end)%Z.

Definition days_before_month (leap : bool) (m : Z) : Z :=
  (days_before_month_common m + (if (2 <? m) && leap then 1 else 0))%Z.

Definition ymd2ord (y m d : Z) : Z :=
  (days_before_year y + days_before_month (is_leap y) m + d)%Z.

(** Month and day of day [n] (from 0) of a year. *)
Definition yday_md (leap : bool) (n : Z) : Z * Z :=
  let m := ((n + 50) / 32)%Z in
  let p := days_before_month leap m in
  if (n <? p)%Z
  then ((m - 1)%Z, (n - days_before_month leap (m - 1) + 1)%Z)
  else (m, (n - p + 1)%Z).

Definition ord2ymd (n : Z) : Z * Z * Z :=
  let n := (n - 1)%Z in
  let n400 := (n / 146097)%Z in let n := (n mod 146097)%Z in
  let n100 := (n / 36524)%Z in let n := (n mod 36524)%Z in
  let n4 := (n / 1461)%Z in let n := (n mod 1461)%Z in
  let n1 := (n / 365)%Z in let n := (n mod 365)%Z in
  let y := (n400 * 400 + 1 + n100 * 100 + n4 * 4 + n1)%Z in
  if ((n1 =? 4) || (n100 =? 4))%Z then ((y - 1)%Z, 12%Z, 31%Z)
  else
    let leap := ((n1 =? 3) && (negb (n4 =? 24) || (n100 =? 3)))%Z in
    let '(m, d) := yday_md leap n in (y, m, d).

Definition yday_ok (leap : bool) (n : Z) : bool :=
  let '(m, d) := yday_md leap n in
  ((1 <=? m) && (m <=? 12) && (days_before_month leap m + d =? n + 1) &&
   (1 <=? d) && (d <=? if (m =? 2) then (if leap then 29 else 28)
                       else if (m =? 4) || (m =? 6) || (m =? 9) || (m =? 11) then 30 else 31))%Z.

Lemma yday_md_all (leap : bool) :
  forallb (yday_ok leap) (Z.of_nat <$> seq 0 (if leap then 366 else 365)%nat) = true.
Proof. destruct leap; vm_compute; reflexivity. Qed.

Lemma yday_md_spec (leap : bool) n :
  (0 <= n < (if leap then 366 else 365))%Z →
  let '(m, d) := yday_md leap n in
  (1 <= m <= 12)%Z ∧ (days_before_month leap m + d = n + 1)%Z ∧
  (1 <= d <= if (m =? 2) then (if leap then 29 else 28)
             else if (m =? 4) || (m =? 6) || (m =? 9) || (m =? 11) then 30 else 31)%Z.
Proof.
  intros Hn. pose proof (yday_md_all leap) as H. rewrite forallb_elem_of in H.
  specialize (H n). unfold yday_ok in H. destruct (yday_md leap n) as [m d].
  rewrite !andb_true_iff, !Z.leb_le, Z.eqb_eq in H.
  assert (n ∈ Z.of_nat <$> seq 0 (if leap then 366 else 365)) as Hin.
  { apply list_elem_of_fmap. exists (Z.to_nat n). rewrite elem_of_seq. destruct leap; lia. }
  specialize (H Hin). lia.
Qed.

Lemma leap_cycle a b c d :
  (0 <= b <= 3)%Z → (0 <= c <= 24)%Z → (0 <= d <= 3)%Z →
  is_leap (a * 400 + 1 + b * 100 + c * 4 + d) = ((d =? 3) && (negb (c =? 24) || (b =? 3)))%Z.
Proof.
  intros Hb Hc Hd. unfold is_leap.
  replace ((a * 400 + 1 + b * 100 + c * 4 + d) mod 4)%Z with ((1 + d) mod 4)%Z
    by (replace (a * 400 + 1 + b * 100 + c * 4 + d)%Z with (1 + d + (a * 100 + b * 25 + c) * 4)%Z by lia;
        by rewrite Z_mod_plus_full).
  replace ((a * 400 + 1 + b * 100 + c * 4 + d) mod 100)%Z with ((1 + c * 4 + d) mod 100)%Z
    by (replace (a * 400 + 1 + b * 100 + c * 4 + d)%Z with (1 + c * 4 + d + (a * 4 + b) * 100)%Z by lia;
        by rewrite Z_mod_plus_full).
  replace ((a * 400 + 1 + b * 100 + c * 4 + d) mod 400)%Z with ((1 + b * 100 + c * 4 + d) mod 400)%Z
    by (replace (a * 400 + 1 + b * 100 + c * 4 + d)%Z with (1 + b * 100 + c * 4 + d + a * 400)%Z by lia;
        by rewrite Z_mod_plus_full).
  destruct (Z.eqb_spec d 3) as [->|Hd3]; simpl.
  - replace (1 + 3)%Z with 4%Z by lia. simpl.
    destruct (Z.eqb_spec c 24) as [->|Hc24]; simpl.
    + destruct (Z.eqb_spec b 3) as [->|Hb3]; simpl; [done|].
      rewrite Z.mod_small by lia. apply Z.eqb_neq. lia.
    + rewrite (Z.mod_small _ 100) by lia. rewrite (proj2 (Z.eqb_neq _ _)) by lia. done.
  - rewrite Z.mod_small by lia. rewrite (proj2 (Z.eqb_neq _ _)) by lia. done.
Qed.

Lemma days_before_year_cycle a b c d :
  (0 <= b <= 3)%Z → (0 <= c <= 24)%Z → (0 <= d <= 3)%Z →
  days_before_year (a * 400 + 1 + b * 100 + c * 4 + d) =
    (a * 146097 + b * 36524 + c * 1461 + d * 365)%Z.
Proof.
  intros Hb Hc Hd. unfold days_before_year.
  replace (a * 400 + 1 + b * 100 + c * 4 + d - 1)%Z with (a * 400 + b * 100 + c * 4 + d)%Z by lia.
  replace ((a * 400 + b * 100 + c * 4 + d) / 4)%Z with (a * 100 + b * 25 + c)%Z
    by (apply (Z.div_unique_pos _ _ _ d); lia).
  replace ((a * 400 + b * 100 + c * 4 + d) / 100)%Z with (a * 4 + b)%Z
    by (apply (Z.div_unique_pos _ _ _ (c * 4 + d)); lia).
  replace ((a * 400 + b * 100 + c * 4 + d) / 400)%Z with a
    by (apply (Z.div_unique_pos _ _ _ (b * 100 + c * 4 + d)); lia).
  lia.
Qed.

(** The ordinal of the date of an ordinal. *)
Lemma ymd2ord_ord2ymd n : let '(y, m, d) := ord2ymd n in ymd2ord y m d = n.
Proof.
  unfold ord2ymd.
  set (k := (n - 1)%Z).
  pose proof (Z.div_mod k 146097 ltac:(lia)) as E400.
  pose proof (Z.mod_pos_bound k 146097 ltac:(lia)) as B400.
  set (a := (k / 146097)%Z) in *. set (k1 := (k mod 146097)%Z) in *.
  pose proof (Z.div_mod k1 36524 ltac:(lia)) as E100.
  pose proof (Z.mod_pos_bound k1 36524 ltac:(lia)) as B100.
  set (b := (k1 / 36524)%Z) in *. set (k2 := (k1 mod 36524)%Z) in *.
  pose proof (Z.div_mod k2 1461 ltac:(lia)) as E4.
  pose proof (Z.mod_pos_bound k2 1461 ltac:(lia)) as B4.
  set (c := (k2 / 1461)%Z) in *. set (k3 := (k2 mod 1461)%Z) in *.
  pose proof (Z.div_mod k3 365 ltac:(lia)) as E1.
  pose proof (Z.mod_pos_bound k3 365 ltac:(lia)) as B1.
  set (d := (k3 / 365)%Z) in *. set (r := (k3 mod 365)%Z) in *.
  assert (0 <= b <= 4)%Z by lia. assert (0 <= c <= 24)%Z by lia. assert (0 <= d <= 4)%Z by lia.
  clearbody a b c d r k1 k2 k3.
  destruct (Z.eqb_spec d 4) as [->|Hd]; simpl.
  - assert (b <= 3)%Z by lia.
    replace (a * 400 + 1 + b * 100 + c * 4 + 4 - 1)%Z with (a * 400 + 1 + b * 100 + c * 4 + 3)%Z by lia.
    unfold ymd2ord. rewrite days_before_year_cycle, leap_cycle by lia.
    assert (c ≠ 24 ∨ b = 3)%Z as Hcb by lia.
    replace (negb (c =? 24) || (b =? 3))%Z with true.
    2:{ symmetry. apply orb_true_iff. rewrite negb_true_iff, Z.eqb_neq, Z.eqb_eq. done. }
    simpl. unfold days_before_month. simpl. lia.
  - destruct (Z.eqb_spec b 4) as [->|Hb]; simpl.
    + assert (c = 0 ∧ d = 0 ∧ r = 0)%Z as (-> & -> & ->) by lia.
      replace (a * 400 + 1 + 4 * 100 + 0 * 4 + 0 - 1)%Z with (a * 400 + 1 + 3 * 100 + 24 * 4 + 3)%Z by lia.
      unfold ymd2ord. rewrite days_before_year_cycle, leap_cycle by lia. simpl.
      unfold days_before_month. simpl. lia.
    + set (leap := ((d =? 3) && (negb (c =? 24) || (b =? 3)))%Z).
      pose proof (yday_md_spec leap r) as Hmd. destruct (yday_md leap r) as [m dd].
      destruct Hmd as (_ & Hmd & _); [destruct leap; lia|].
      unfold ymd2ord. rewrite days_before_year_cycle, leap_cycle by lia.
      fold leap. lia.
Qed.

(** Every ordinal names a date of the calendar. *)
Lemma ord2ymd_valid n :
  let '(y, m, d) := ord2ymd n in (1 <= m <= 12)%Z ∧ (1 <= d <= days_in_month y m)%Z.
Proof.
  unfold ord2ymd. set (k := (n - 1)%Z).
  pose proof (Z.mod_pos_bound k 146097 ltac:(lia)) as B400.
  set (a := (k / 146097)%Z) in *. set (k1 := (k mod 146097)%Z) in *.
  pose proof (Z.div_mod k1 36524 ltac:(lia)) as E100.
  pose proof (Z.mod_pos_bound k1 36524 ltac:(lia)) as B100.
  set (b := (k1 / 36524)%Z) in *. set (k2 := (k1 mod 36524)%Z) in *.
  pose proof (Z.div_mod k2 1461 ltac:(lia)) as E4.
  pose proof (Z.mod_pos_bound k2 1461 ltac:(lia)) as B4.
  set (c := (k2 / 1461)%Z) in *. set (k3 := (k2 mod 1461)%Z) in *.
  pose proof (Z.div_mod k3 365 ltac:(lia)) as E1.
  pose proof (Z.mod_pos_bound k3 365 ltac:(lia)) as B1.
  set (d := (k3 / 365)%Z) in *. set (r := (k3 mod 365)%Z) in *.
  assert (0 <= b <= 4)%Z by lia. assert (0 <= c <= 24)%Z by lia. assert (0 <= d <= 4)%Z by lia.
  clearbody a b c d r k1 k2 k3.
  destruct (Z.eqb_spec d 4) as [->|Hd]; simpl; [by split|].
  destruct (Z.eqb_spec b 4) as [->|Hb]; simpl; [by split|].
  set (leap := ((d =? 3) && (negb (c =? 24) || (b =? 3)))%Z).
  pose proof (yday_md_spec leap r) as Hmd. destruct (yday_md leap r) as [m dd].
  destruct Hmd as (Hm & _ & Hdd); [destruct leap; lia|]. split; [done|].
  unfold days_in_month. rewrite leap_cycle by lia. fold leap. exact Hdd.
Qed.

(** ** Instants *)

Definition dt_naive_micros (d : datetime) : Z :=
  ((((ymd2ord (dt_year d) (dt_month d) (dt_day d) * 24 + dt_hour d) * 60 + dt_minute d) * 60
    + dt_second d) * 1000000 + dt_micro d)%Z.

(** The instant of an aware value, in microseconds: what [<], [<=] and [==]
    compare.  Every comparison of the modelled code is between values whose
    UTC offset was checked before. *)
Definition dt_instant (d : datetime) : Z := (dt_naive_micros d - default 0 (dt_tz d))%Z.

Definition dt_ltb (a b : datetime) : bool := (dt_instant a <? dt_instant b)%Z.
Definition dt_leb (a b : datetime) : bool := (dt_instant a <=? dt_instant b)%Z.
Definition dt_eqb (a b : datetime) : bool := (dt_instant a =? dt_instant b)%Z.

Definition of_naive_micros (tz : option Z) (t : Z) : datetime :=
  let us := (t mod 1000000)%Z in let s := (t / 1000000)%Z in
  let day := (s / 86400)%Z in let r := (s mod 86400)%Z in
  let '(y, m, d) := ord2ymd day in
  mk_datetime y m d (r / 3600) (r / 60 mod 60) (r mod 60) us tz.

(** [d + timedelta(seconds=s)] *)
Definition dt_add_seconds (d : datetime) (s : Z) : result datetime :=
  let r := of_naive_micros (dt_tz d) (dt_naive_micros d + s * 1000000)%Z in
  if ((1 <=? dt_year r) && (dt_year r <=? 9999))%Z then Ok r else Raise OverflowError.

Lemma dt_naive_micros_of tz t : dt_naive_micros (of_naive_micros tz t) = t.
Proof.
  unfold of_naive_micros. set (s := (t / 1000000)%Z).
  pose proof (ymd2ord_ord2ymd (s / 86400)) as Hord.
  destruct (ord2ymd (s / 86400)) as [[y m] d].
  unfold dt_naive_micros. simpl. rewrite Hord.
  pose proof (Z.div_mod t 1000000 ltac:(lia)) as Et. fold s in Et.
  pose proof (Z.div_mod s 86400 ltac:(lia)) as Es.
  set (r := (s mod 86400)%Z) in *.
  pose proof (Z.div_mod r 60 ltac:(lia)) as Er.
  pose proof (Z.div_mod (r / 60) 60 ltac:(lia)) as Em.
  rewrite Z.div_div in Em by lia. change (60 * 60)%Z with 3600%Z in Em.
  lia.
Qed.

Lemma dt_add_seconds_instant d s r :
  dt_add_seconds d s = Ok r → dt_instant r = (dt_instant d + s * 1000000)%Z ∧ dt_tz r = dt_tz d.
Proof.
  unfold dt_add_seconds. case_match eqn:E; intros [= <-].
  assert (dt_tz (of_naive_micros (dt_tz d) (dt_naive_micros d + s * 1000000)) = dt_tz d) as Htz.
  { unfold of_naive_micros. by repeat case_match. }
  split; [|done]. unfold dt_instant. rewrite dt_naive_micros_of, Htz. lia.
Qed.

(** ** Text *)

(** What the [datetime] constructor accepts. *)
Definition dt_valid (d : datetime) : bool :=
  ((1 <=? dt_year d) && (dt_year d <=? 9999) && (1 <=? dt_month d) && (dt_month d <=? 12) &&
   (1 <=? dt_day d) && (dt_day d <=? days_in_month (dt_year d) (dt_month d)) &&
   (0 <=? dt_hour d) && (dt_hour d <=? 23) && (0 <=? dt_minute d) && (dt_minute d <=? 59) &&
   (0 <=? dt_second d) && (dt_second d <=? 59) && (0 <=? dt_micro d) && (dt_micro d <=? 999999) &&
   match dt_tz d with
   | Some z => (-86400000000 <? z) && (z <? 86400000000)
   | None => true
   end)%Z.

Lemma of_naive_micros_valid tz t :
  (1 <= dt_year (of_naive_micros tz t) <= 9999)%Z →
  (∀ z, tz = Some z → -86400000000 < z < 86400000000)%Z → dt_valid (of_naive_micros tz t) = true.
Proof.
  unfold of_naive_micros. pose proof (ord2ymd_valid (t / 1000000 / 86400)) as Hv.
  destruct (ord2ymd _) as [[y m] d]. simpl. intros Hy Htz. unfold dt_valid. simpl.
  pose proof (Z.mod_pos_bound t 1000000 ltac:(lia)).
  pose proof (Z.mod_pos_bound (t / 1000000) 86400 ltac:(lia)) as Hr.
  set (r := ((t / 1000000) mod 86400)%Z) in *. clearbody r.
  pose proof (Z.mod_pos_bound (r / 60) 60 ltac:(lia)). pose proof (Z.mod_pos_bound r 60 ltac:(lia)).
  assert (0 <= r / 3600 <= 23)%Z.
  { split; [apply Z.div_pos; lia|]. enough (r / 3600 < 24)%Z by lia. apply Z.div_lt_upper_bound; lia. }
  rewrite !andb_true_iff, !Z.leb_le. split_and!; try lia.
  destruct tz as [z|]; [|done]. rewrite andb_true_iff, !Z.ltb_lt. apply Htz. done.
Qed.

Lemma dt_add_seconds_valid d s r : dt_valid d = true → dt_add_seconds d s = Ok r → dt_valid r = true.
Proof.
  unfold dt_add_seconds. intros Hd. destruct (_ && _) eqn:Hy; [|done]. intros [= <-].
  apply andb_true_iff in Hy as [Hy1%Z.leb_le Hy2%Z.leb_le]. apply of_naive_micros_valid; [done|].
  intros z Hz. unfold dt_valid in Hd. rewrite Hz, !andb_true_iff, !Z.ltb_lt in Hd. tauto.
Qed.

(** [f"{z:0kd}"] for a non-negative [z] of at most [k] digits. *)
Fixpoint fixw (k : nat) (z : Z) : pystr :=
  match k with
  | O => []
  | S k => fixw k (z / 10) ++ [Z.to_N (48 + z mod 10)]
  end.

Definition tz_sign (off : Z) : pystr := if (off <? 0)%Z then u "-" else u "+".

Definition tz_str (tz : option Z) : pystr :=
  match tz with
  | None => []
  | Some off =>
    let a := Z.abs off in
    tz_sign off ++ fixw 2 (a / 3600000000) ++ u ":" ++
    fixw 2 (a / 60000000 mod 60) ++
    (if (a mod 60000000 =? 0)%Z then []
     else u ":" ++ fixw 2 (a / 1000000 mod 60) ++
       (if (a mod 1000000 =? 0)%Z then [] else u "." ++ fixw 6 (a mod 1000000)))
  end.

(** [d.isoformat()] *)
Definition isoformat (d : datetime) : pystr :=
  fixw 4 (dt_year d) ++ u "-" ++ fixw 2 (dt_month d) ++ u "-" ++ fixw 2 (dt_day d) ++ u "T" ++
  fixw 2 (dt_hour d) ++ u ":" ++ fixw 2 (dt_minute d) ++ u ":" ++ fixw 2 (dt_second d) ++
  (if (dt_micro d =? 0)%Z then [] else u "." ++ fixw 6 (dt_micro d)) ++ tz_str (dt_tz d).

(** Read [k] decimal digits. *)
Fixpoint rd (k : nat) (acc : Z) (s : pystr) : option (Z * pystr) :=
  match k with
  | O => Some (acc, s)
  | S k =>
    match s with
    | c :: s => if is_digit c then rd k (acc * 10 + Z.of_N c - 48)%Z s else None
    | [] => None
    end
  end.

Definition eat (c : N) (s : pystr) : option pystr :=
  match s with a :: s => if (a =? c)%N then Some s else None | [] => None end.

(** An optional fraction of a second. *)
Definition rd_micros (s : pystr) : option (Z * pystr) :=
  match eat 46 s with Some s => rd 6 0 s | None => Some (0%Z, s) end.

Definition rd_tz (s : pystr) : option (option Z) :=
  match s with
  | [] => Some None
  | c :: s =>
    sign ← (if (c =? 43)%N then Some 1%Z else if (c =? 45)%N then Some (-1)%Z else None);
    '(h, s) ← rd 2 0 s; s ← eat 58 s; '(m, s) ← rd 2 0 s;
    '(sec, s) ← (match eat 58 s with Some s => rd 2 0 s | None => Some (0%Z, s) end);
    '(us, s) ← rd_micros s;
    match s with
    | [] => Some (Some (sign * (((h * 60 + m) * 60 + sec) * 1000000 + us))%Z)
    | _ => None
    end
  end.

(** [datetime.fromisoformat(s)]; a refusal is [ValueError]. *)
Definition fromisoformat (s : pystr) : result datetime :=
  of_option (
    '(y, s) ← rd 4 0 s; s ← eat 45 s; '(m, s) ← rd 2 0 s; s ← eat 45 s; '(d, s) ← rd 2 0 s;
    s ← (match s with _ :: s => Some s | [] => None end);
    '(h, s) ← rd 2 0 s; s ← eat 58 s; '(mi, s) ← rd 2 0 s; s ← eat 58 s; '(sec, s) ← rd 2 0 s;
    '(us, s) ← rd_micros s; tz ← rd_tz s;
    let r := mk_datetime y m d h mi sec us tz in
    if dt_valid r then Some r else None) ValueError.

Lemma length_fixw k z : length (fixw k z) = k.
Proof. revert z. induction k; intros z; simpl; [done|]. rewrite length_app, IHk. simpl. lia. Qed.

Lemma rd_app k acc t s :
  length t = k → rd k acc (t ++ s) = (rd k acc t) ≫= λ '(v, _), Some (v, s).
Proof.
  revert acc t. induction k as [|k IH]; intros acc [|c t]; try done. intros [= Hk]. simpl.
  case_match; [by apply IH|done].
Qed.

Lemma rd_snoc k acc t c :
  length t = k → rd (S k) acc (t ++ [c]) = rd k acc t ≫= λ '(v, _),
    if is_digit c then Some (v * 10 + Z.of_N c - 48, [])%Z else None.
Proof.
  revert acc t. induction k as [|k IH]; intros acc [|a t]; try done. intros [= Hk].
  cbn [app]. change (rd (S (S k)) acc (a :: (t ++ [c]))) with
    (if is_digit a then rd (S k) (acc * 10 + Z.of_N a - 48)%Z (t ++ [c]) else None).
  change (rd (S k) acc (a :: t)) with
    (if is_digit a then rd k (acc * 10 + Z.of_N a - 48)%Z t else None).
  destruct (is_digit a); [by apply IH|done].
Qed.

Lemma rd_fixw_nil k z : (0 <= z < 10 ^ Z.of_nat k)%Z → rd k 0 (fixw k z) = Some (z, []).
Proof.
  revert z. induction k as [|k IH]; intros z Hz.
  { simpl in Hz. replace z with 0%Z by lia. done. }
  cbn [fixw]. rewrite rd_snoc by apply length_fixw.
  rewrite Nat2Z.inj_succ, Z.pow_succ_r in Hz by lia.
  pose proof (Z.mod_pos_bound z 10 ltac:(lia)). pose proof (Z.div_mod z 10 ltac:(lia)).
  rewrite IH by lia. cbn.
  unfold is_digit. rewrite (proj2 (in_range_spec _ _ _)) by lia.
  f_equal. f_equal. rewrite Z2N.id by lia. lia.
Qed.

Lemma rd_fixw k z s : (0 <= z < 10 ^ Z.of_nat k)%Z → rd k 0 (fixw k z ++ s) = Some (z, s).
Proof. intros. by rewrite rd_app, rd_fixw_nil by (by rewrite ?length_fixw). Qed.

Lemma eat_app_cons c s : eat c (c :: s) = Some s.
Proof. simpl. by rewrite N.eqb_refl. Qed.

(** What follows the seconds, or the whole, is not taken for a fraction. *)
Lemma rd_micros_fixw us s :
  (0 <= us <= 999999)%Z → head s ≠ Some 46%N →
  rd_micros ((if (us =? 0)%Z then [] else u "." ++ fixw 6 us) ++ s) = Some (us, s).
Proof.
  intros Hus Hs. destruct (Z.eqb_spec us 0) as [->|]; unfold rd_micros.
  - cbn [app]. destruct s as [|c s]; [done|]. cbn [eat].
    destruct (N.eqb_spec c 46); [by subst|done].
  - change (u ".") with [46%N]. rewrite <-app_assoc. cbn [app]. rewrite eat_app_cons.
    apply rd_fixw. simpl. lia.
Qed.

Lemma rd_tz_str tz :
  match tz with Some z => (-86400000000 < z < 86400000000)%Z | None => True end →
  rd_tz (tz_str tz) = Some tz.
Proof.
  destruct tz as [off|]; [|done]. intros Hoff. unfold tz_str. cbv beta iota zeta. set (a := Z.abs off).
  assert (∃ c sign, tz_sign off = [c] ∧ (sign * a)%Z = off ∧
    (if (c =? 43)%N then Some 1%Z else if (c =? 45)%N then Some (-1)%Z else None) = Some sign)
    as (c & sign & -> & Hs & Hc).
  { unfold tz_sign. destruct (Z.ltb_spec off 0); [exists 45%N, (-1)%Z|exists 43%N, 1%Z]; (split; [done|split; [lia|done]]). }
  change (u ":") with [58%N]. cbn [app rd_tz]. rewrite Hc. cbn [mbind option_bind].
  assert (0 <= a < 86400000000)%Z as Ha by lia. clearbody a. clear Hc Hoff.
  pose proof (Z.div_mod a 60000000 ltac:(lia)) as E1.
  pose proof (Z.div_mod (a / 60000000) 60 ltac:(lia)) as E2.
  rewrite Z.div_div in E2 by lia. change (60000000 * 60)%Z with 3600000000%Z in E2.
  pose proof (Z.div_mod a 1000000 ltac:(lia)) as E3.
  pose proof (Z.div_mod (a / 1000000) 60 ltac:(lia)) as E4.
  rewrite Z.div_div in E4 by lia. change (1000000 * 60)%Z with 60000000%Z in E4.
  pose proof (Z.mod_pos_bound a 60000000 ltac:(lia)). pose proof (Z.mod_pos_bound a 1000000 ltac:(lia)).
  pose proof (Z.mod_pos_bound (a / 60000000) 60 ltac:(lia)).
  pose proof (Z.mod_pos_bound (a / 1000000) 60 ltac:(lia)).
  rewrite rd_fixw by (simpl; lia). cbn [mbind option_bind]. rewrite eat_app_cons. cbn [mbind option_bind].
  rewrite rd_fixw by (simpl; lia). cbn [mbind option_bind].
  destruct (Z.eqb_spec (a mod 60000000) 0) as [E0|E0].
  - cbn. f_equal. f_equal. lia.
  - cbn [app]. rewrite eat_app_cons. rewrite rd_fixw by (simpl; lia). cbn [mbind option_bind].
    rewrite <-(app_nil_r (if (a mod 1000000 =? 0)%Z then _ else _)).
    rewrite rd_micros_fixw by (simpl; done || lia). cbn. f_equal. f_equal. lia.
Qed.

(** [fromisoformat] inverts [isoformat]. *)
Lemma fromisoformat_isoformat d : dt_valid d = true → fromisoformat (isoformat d) = Ok d.
Proof.
  intros Hv. assert (Hv' := Hv). unfold dt_valid in Hv.
  rewrite !andb_true_iff, !Z.leb_le in Hv. destruct_and?.
  assert (days_in_month (dt_year d) (dt_month d) <= 31)%Z.
  { unfold days_in_month. repeat case_match; lia. }
  unfold fromisoformat, isoformat.
  change (u "-") with [45%N]. change (u ":") with [58%N]. change (u "T") with [84%N].
  cbn [app].
  do 6 (rewrite rd_fixw by (simpl; lia); cbn [mbind option_bind app];
        rewrite ?eat_app_cons; cbn [mbind option_bind]).
  rewrite rd_micros_fixw; [| lia|].
  2:{ destruct (dt_tz d) as [z|]; [|done]. unfold tz_str, tz_sign. by case_match. }
  cbn [mbind option_bind]. rewrite rd_tz_str.
  2:{ destruct (dt_tz d); [|done]. rewrite andb_true_iff, !Z.ltb_lt in *. lia. }
  cbn [mbind option_bind]. destruct d. simpl in *. by rewrite Hv'.
Qed.

Lemma isoformat_inj a b :
  dt_valid a = true → dt_valid b = true → isoformat a = isoformat b → a = b.
Proof.
  intros Ha%fromisoformat_isoformat Hb%fromisoformat_isoformat E.
  rewrite E, Hb in Ha. by injection Ha.
Qed.

Lemma fixw_ascii k z : is_ascii (fixw k z) = true.
Proof.
  revert z. induction k as [|k IH]; intros z; [done|]. cbn [fixw].
  rewrite is_ascii_app, IH. simpl. rewrite andb_true_r. apply N.ltb_lt.
  pose proof (Z.mod_pos_bound z 10 ltac:(lia)). lia.
Qed.

Lemma isoformat_ascii d : is_ascii (isoformat d) = true.
Proof.
  unfold isoformat, tz_str, tz_sign.
  repeat (rewrite is_ascii_app || rewrite fixw_ascii || case_match || cbn [andb]); done.
Qed.
