(* ===== verification/Json.v ===== *)
(** * The [json] module

    [dumps] with [sort_keys=True] and [loads], on the values the program
    exchanges.  Floats are kept as their text: no modelled writer produces
    one.  [loads_dumps] is the round trip from which every injectivity
    statement about signed, hashed or stored payloads follows. *)

From S2P Require Import Prelude PyStr.

Inductive json : Type :=
  | JNull
  | JBool (b : bool)
  | JInt (z : Z)
  | JFloat (text : pystr)
  | JStr (s : pystr)
  | JList (l : list json)
  | JObj (l : list (pystr * json)).

Section json_ind.
Context (P : json → Prop).
Hypotheses (Hnull : P JNull) (Hbool : ∀ b, P (JBool b)) (Hint : ∀ z, P (JInt z))
  (Hfloat : ∀ t, P (JFloat t)) (Hstr : ∀ s, P (JStr s))
  (Hlist : ∀ l, Forall P l → P (JList l))
  (Hobj : ∀ l, Forall (λ kv, P (snd kv)) l → P (JObj l)).

Fixpoint json_ind' (v : json) : P v :=
  match v with
  | JNull => Hnull
  | JBool b => Hbool b
  | JInt z => Hint z
  | JFloat t => Hfloat t
  | JStr s => Hstr s
  | JList l => Hlist l
      ((fix go l : Forall P l :=
          match l with [] => Forall_nil_2 _ | v :: l => Forall_cons_2 _ _ _ (json_ind' v) (go l) end) l)
  | JObj l => Hobj l
      ((fix go l : Forall (λ kv, P (snd kv)) l :=
          match l with
          | [] => Forall_nil_2 _
          | kv :: l => Forall_cons_2 _ _ _ (json_ind' (snd kv)) (go l)
          end) l)
  end.
End json_ind.

(** ** [dumps] *)

Definition hex4 (n : N) : pystr :=
  [hex_digit (n / 4096 mod 16); hex_digit (n / 256 mod 16); hex_digit (n / 16 mod 16); hex_digit (n mod 16)].

Definition u_escape (n : N) : pystr := [92; 117]%N ++ hex4 n.

(** One character of a string literal; [ea] is [ensure_ascii]. *)
Definition esc_char (ea : bool) (c : N) : pystr :=
  (if c =? 34 then [92; 34]
   else if c =? 92 then [92; 92]
   else if c =? 10 then [92; 110]
   else if c =? 13 then [92; 114]
   else if c =? 9 then [92; 116]
   else if c =? 12 then [92; 102]
   else if c =? 8 then [92; 98]
   else if c <? 32 then u_escape c
   else if ea && (126 <? c) then
     if c <? 0x10000 then u_escape c
     else u_escape (0xD800 + (c - 0x10000) / 1024) ++ u_escape (0xDC00 + (c - 0x10000) mod 1024)
   else [c])%N.

Definition print_str (ea : bool) (s : pystr) : pystr := [34%N] ++ flat_map (esc_char ea) s ++ [34%N].

Fixpoint join (sep : pystr) (l : list pystr) : pystr :=
  match l with
  | [] => []
  | [x] => x
  | x :: l => x ++ sep ++ join sep l
  end.

(** [sp] is the text after each separator: empty for [separators=(",", ":")],
    one space for the default separators. *)
Fixpoint print (ea : bool) (sp : pystr) (v : json) : pystr :=
  match v with
  | JNull => u "null"
  | JBool true => u "true"
  | JBool false => u "false"
  | JInt z => int_str z
  | JFloat t => t
  | JStr s => print_str ea s
  | JList l => [91%N] ++ join (44%N :: sp) (map (print ea sp) l) ++ [93%N]
  | JObj l => [123%N] ++
      join (44%N :: sp) (map (λ kv, print_str ea (fst kv) ++ [58%N] ++ sp ++ print ea sp (snd kv)) l)
      ++ [125%N]
  end.

(** [sorted(dct.items())] on distinct keys. *)
Fixpoint insert_item {A} (k : pystr) (v : A) (l : list (pystr * A)) : list (pystr * A) :=
  match l with
  | [] => [(k, v)]
  | (k', v') :: l' => if pystr_leb k k' then (k, v) :: l else (k', v') :: insert_item k v l'
  end.

Definition sort_items {A} (l : list (pystr * A)) : list (pystr * A) :=
  foldr (λ kv, insert_item (fst kv) (snd kv)) [] l.

Fixpoint sort_keys (v : json) : json :=
  match v with
  | JList l => JList (map sort_keys l)
  | JObj l => JObj (sort_items (map (λ kv, (fst kv, sort_keys (snd kv))) l))
  | _ => v
  end.

(** [json.dumps(v, sort_keys=True, ensure_ascii=ea, separators=...)] *)
Definition dumps (ea : bool) (sp : pystr) (v : json) : pystr := print ea sp (sort_keys v).

(** ** [loads] *)

Definition is_ws (c : N) : bool := ((c =? 32) || (c =? 9) || (c =? 10) || (c =? 13))%N.
Fixpoint skip_ws (s : pystr) : pystr :=
  match s with c :: s' => if is_ws c then skip_ws s' else s | [] => [] end.

Definition read_hex4 (s : pystr) : option (N * pystr) :=
  match s with
  | a :: b :: c :: d :: s =>
    x ← unhex_digit a; y ← unhex_digit b; z ← unhex_digit c; w ← unhex_digit d;
    Some (((x * 16 + y) * 16 + z) * 16 + w, s)%N
  | _ => None
  end.

Definition unescape (c : N) : option N :=
  (if c =? 34 then Some 34 else if c =? 92 then Some 92 else if c =? 47 then Some 47
   else if c =? 98 then Some 8 else if c =? 102 then Some 12 else if c =? 110 then Some 10
   else if c =? 114 then Some 13 else if c =? 116 then Some 9 else None)%N.

Definition is_hi (n : N) : bool := in_range 0xD800 0xDBFF n.
Definition is_lo (n : N) : bool := in_range 0xDC00 0xDFFF n.

Definition cons_str (c : N) (r : option (pystr * pystr)) : option (pystr * pystr) :=
  '(s, r) ← r; Some (c :: s, r).

(** The rest of a string literal after the opening quote, strict mode. *)
Fixpoint scanstring (fuel : nat) (s : pystr) : option (pystr * pystr) :=
  match fuel, s with
  | S f, c :: s1 =>
    if (c =? 34)%N then Some ([], s1)
    else if (c =? 92)%N then
      match s1 with
      | [] => None
      | e :: s2 =>
        if (e =? 117)%N then
          '(n, r) ← read_hex4 s2;
          match is_hi n, r with
          | true, a :: b :: r1 =>
            if (a =? 92)%N && (b =? 117)%N then
              '(n2, r2) ← read_hex4 r1;
              if is_lo n2
              then cons_str (0x10000 + (n - 0xD800) * 1024 + (n2 - 0xDC00))%N (scanstring f r2)
              else cons_str n (scanstring f r)
            else cons_str n (scanstring f r)
          | _, _ => cons_str n (scanstring f r)
          end
        else x ← unescape e; cons_str x (scanstring f s2)
      end
    else if (c <? 32)%N then None
    else cons_str c (scanstring f s1)
  | _, _ => None
  end.

Fixpoint span_digits (s : pystr) : pystr * pystr :=
  match s with
  | c :: s' => if is_digit c then let '(d, r) := span_digits s' in (c :: d, r) else ([], s)
  | [] => ([], [])
  end.

(** The optional fraction and exponent of a number. *)
Definition read_frac (r : pystr) : pystr * pystr :=
  match r with
  | c :: t =>
    if (c =? 46)%N then
      match span_digits t with ([], _) => ([], r) | (d, t') => (c :: d, t') end
    else ([], r)
  | [] => ([], r)
  end.

Definition read_exp (r : pystr) : pystr * pystr :=
  match r with
  | c :: t =>
    if (c =? 101)%N || (c =? 69)%N then
      let '(sg, t1) := match t with
        | g :: t1 => if (g =? 43)%N || (g =? 45)%N then ([g], t1) else ([], t)
        | [] => ([], t)
        end in
      match span_digits t1 with ([], _) => ([], r) | (d, t') => (c :: sg ++ d, t') end
    else ([], r)
  | [] => ([], r)
  end.

Definition read_sign (s : pystr) : bool * pystr :=
  match s with
  | c :: t => if (c =? 45)%N then (true, t) else (false, s)
  | [] => (false, s)
  end.

(** [0|[1-9]\d*] *)
Definition read_int (s : pystr) : pystr * pystr :=
  match s with
  | c :: t => if (c =? 48)%N then ([c], t) else span_digits s
  | [] => ([], s)
  end.

Definition read_num (s : pystr) : option (json * pystr) :=
  let '(neg, s1) := read_sign s in
  let '(ds, r) := read_int s1 in
  match ds with
  | [] => None
  | _ =>
    let '(fr, r1) := read_frac r in
    let '(ex, r2) := read_exp r1 in
    match fr, ex with
    | [], [] =>
      let n := Z.of_N (N.of_uint (str_uint ds)) in Some (JInt (if neg then - n else n)%Z, r2)
    | _, _ => Some (JFloat ((if neg then [45%N] else []) ++ ds ++ fr ++ ex), r2)
    end
  end.

Fixpoint strip_prefix (p s : pystr) : option pystr :=
  match p, s with
  | [], _ => Some s
  | a :: p, b :: s => if (a =? b)%N then strip_prefix p s else None
  | _, [] => None
  end.

Definition read_const (s : pystr) : option (json * pystr) :=
  match strip_prefix (u "null") s with Some r => Some (JNull, r) | None =>
  match strip_prefix (u "true") s with Some r => Some (JBool true, r) | None =>
  match strip_prefix (u "false") s with Some r => Some (JBool false, r) | None =>
  match strip_prefix (u "NaN") s with Some r => Some (JFloat (u "NaN"), r) | None =>
  match strip_prefix (u "Infinity") s with Some r => Some (JFloat (u "Infinity"), r) | None =>
  match strip_prefix (u "-Infinity") s with Some r => Some (JFloat (u "-Infinity"), r) | None =>
  read_num s end end end end end end.

(** Every two recursive calls drop at least one character, so twice the
    length of the input is fuel enough; running out refuses. *)
Fixpoint read_value (fuel : nat) (s : pystr) {struct fuel} : option (json * pystr) :=
  match fuel, s with
  | S f, c :: s1 =>
    if (c =? 34)%N then '(x, r) ← scanstring (length s1) s1; Some (JStr x, r)
    else if (c =? 91)%N then
      match skip_ws s1 with
      | d :: r =>
        if (d =? 93)%N then Some (JList [], r)
        else '(l, r) ← read_elems f (skip_ws s1); Some (JList l, r)
      | [] => None
      end
    else if (c =? 123)%N then
      match skip_ws s1 with
      | d :: r =>
        if (d =? 125)%N then Some (JObj [], r)
        else '(l, r) ← read_members f (skip_ws s1); Some (JObj l, r)
      | [] => None
      end
    else read_const s
  | _, _ => None
  end
with read_elems (fuel : nat) (s : pystr) {struct fuel} : option (list json * pystr) :=
  match fuel with
  | O => None
  | S f =>
    '(v, r) ← read_value f s;
    match skip_ws r with
    | c :: r1 =>
      if (c =? 44)%N then '(l, r2) ← read_elems f (skip_ws r1); Some (v :: l, r2)
      else if (c =? 93)%N then Some ([v], r1) else None
    | [] => None
    end
  end
with read_members (fuel : nat) (s : pystr) {struct fuel} : option (list (pystr * json) * pystr) :=
  match fuel, s with
  | S f, c :: s1 =>
    if (c =? 34)%N then
      '(k, r) ← scanstring (length s1) s1;
      match skip_ws r with
      | c1 :: r1 =>
        if (c1 =? 58)%N then
          '(v, r2) ← read_value f (skip_ws r1);
          match skip_ws r2 with
          | c2 :: r3 =>
            if (c2 =? 44)%N then '(l, r4) ← read_members f (skip_ws r3); Some ((k, v) :: l, r4)
            else if (c2 =? 125)%N then Some ([(k, v)], r3) else None
          | [] => None
          end
        else None
      | [] => None
      end
    else None
  | _, _ => None
  end.

(** [json.loads(s)] with the pairs of every object in order (what an
    [object_pairs_hook] receives); [None] is [JSONDecodeError]. *)
Definition loads (s : pystr) : option json :=
  '(v, r) ← read_value (2 * length s) (skip_ws s);
  match skip_ws r with [] => Some v | _ => None end.

(** Field access: the first pair with the key.  Without a hook Python keeps
    the last duplicate; the modelled readers are applied to objects whose
    keys are distinct. *)
Fixpoint lookup_item {A} (k : pystr) (l : list (pystr * A)) : option A :=
  match l with
  | [] => None
  | (k', v) :: l => if pystr_eqb k k' then Some v else lookup_item k l
  end.

(** ** Round trip *)

Lemma unhex_digit_mod n : unhex_digit (hex_digit (n mod 16)) = Some (n mod 16)%N.
Proof. by apply unhex_hex_digit, N.mod_lt. Qed.

Lemma read_hex4_hex4 n r : (n < 65536)%N → read_hex4 (hex4 n ++ r) = Some (n, r).
Proof.
  intros Hn. unfold hex4. cbn [app read_hex4]. rewrite !unhex_digit_mod. cbn [mbind option_bind].
  f_equal. f_equal.
  pose proof (N.div_mod' n 16) as E0. pose proof (N.div_mod' (n / 16) 16) as E1.
  pose proof (N.div_mod' (n / 256) 16) as E2. pose proof (N.div_mod' (n / 4096) 16) as E3.
  rewrite N.Div0.div_div in E1, E2, E3.
  change (16 * 16)%N with 256%N in E1. change (256 * 16)%N with 4096%N in E2.
  change (4096 * 16)%N with 65536%N in E3.
  rewrite (N.div_small n 65536) in E3 by done.
  set (a0 := (n mod 16)%N) in *. set (q1 := (n / 16)%N) in *. set (a1 := (q1 mod 16)%N) in *.
  set (q2 := (n / 256)%N) in *. set (a2 := (q2 mod 16)%N) in *.
  set (q3 := (n / 4096)%N) in *. set (a3 := (q3 mod 16)%N) in *. lia.
Qed.

Lemma scalar_not_surrogate c : is_scalar c = true → is_hi c = false ∧ is_lo c = false.
Proof.
  unfold is_scalar, is_surrogate, is_hi, is_lo. rewrite andb_true_iff, negb_true_iff.
  intros [_ H]. rewrite <-!not_true_iff_false, !in_range_spec.
  rewrite <-not_true_iff_false, andb_true_iff, !N.leb_le in H. lia.
Qed.

Lemma scanstring_u_escape f n r :
  (n < 65536)%N → is_hi n = false →
  scanstring (S f) (u_escape n ++ r) = cons_str n (scanstring f r).
Proof.
  intros Hn Hh. unfold u_escape. rewrite <-app_assoc.
  cbn [app scanstring]. change (92 =? 34)%N with false. change (92 =? 92)%N with true.
  change (117 =? 117)%N with true. cbv iota. rewrite read_hex4_hex4 by done.
  cbn [mbind option_bind]. by rewrite Hh.
Qed.

Lemma scanstring_esc_char ea f c r :
  is_scalar c = true →
  scanstring (S f) (esc_char ea c ++ r) = cons_str c (scanstring f r).
Proof.
  intros Hc. destruct (scalar_not_surrogate c Hc) as [Hh _].
  apply is_scalar_lt in Hc. unfold esc_char.
  destruct (N.eqb_spec c 34) as [->|H34]; [done|].
  destruct (N.eqb_spec c 92) as [->|H92]; [done|].
  destruct (N.eqb_spec c 10) as [->|]; [done|].
  destruct (N.eqb_spec c 13) as [->|]; [done|].
  destruct (N.eqb_spec c 9) as [->|]; [done|].
  destruct (N.eqb_spec c 12) as [->|]; [done|].
  destruct (N.eqb_spec c 8) as [->|]; [done|].
  destruct (N.ltb_spec c 32); [apply scanstring_u_escape; [lia|done]|].
  destruct (ea && (126 <? c)%N).
  - destruct (N.ltb_spec c 0x10000); [by apply scanstring_u_escape|].
    set (k := (c - 65536)%N).
    pose proof (N.div_mod' k 1024) as Ek. pose proof (N.mod_lt k 1024 ltac:(done)).
    set (h := (k / 1024)%N) in *. set (l := (k mod 1024)%N) in *. clearbody h l.
    assert (h < 1024)%N by (unfold k in *; lia).
    unfold u_escape at 1. rewrite <-!app_assoc. cbn [app scanstring].
    change (92 =? 34)%N with false. change (92 =? 92)%N with true.
    change (117 =? 117)%N with true. cbv iota. rewrite read_hex4_hex4 by lia. cbn [mbind option_bind].
    unfold is_hi. rewrite (proj2 (in_range_spec _ _ _)) by lia.
    unfold u_escape. rewrite <-app_assoc. cbn [app].
    change (92 =? 92)%N with true. change (117 =? 117)%N with true. cbn [andb].
    rewrite read_hex4_hex4 by lia. cbn [mbind option_bind].
    unfold is_lo. rewrite (proj2 (in_range_spec _ _ _)) by lia.
    f_equal. unfold k in *. lia.
  - cbn [app scanstring]. rewrite (proj2 (N.eqb_neq _ _) H34), (proj2 (N.eqb_neq _ _) H92).
    by rewrite (proj2 (N.ltb_ge _ _)) by lia.
Qed.

Lemma scanstring_print ea s f r :
  forallb is_scalar s = true → (length s < f)%nat →
  scanstring f (flat_map (esc_char ea) s ++ 34%N :: r) = Some (s, r).
Proof.
  revert f. induction s as [|c s IH]; intros [|f] Hs Hf; try (simpl in Hf; lia); [done|].
  simpl in Hs, Hf. apply andb_true_iff in Hs as [Hc Hs].
  cbn [flat_map]. rewrite <-app_assoc, scanstring_esc_char by done.
  rewrite IH by (done || lia). done.
Qed.

Lemma length_esc_char ea c : (1 <= length (esc_char ea c))%nat.
Proof. unfold esc_char. repeat case_match; simpl; lia. Qed.

Lemma length_flat_esc ea s : (length s <= length (flat_map (esc_char ea) s))%nat.
Proof.
  induction s as [|c s IH]; [done|]. cbn [flat_map length]. rewrite length_app.
  pose proof (length_esc_char ea c). lia.
Qed.

Lemma scanstring_lit ea s r :
  forallb is_scalar s = true →
  scanstring (length (flat_map (esc_char ea) s ++ 34%N :: r)) (flat_map (esc_char ea) s ++ 34%N :: r)
    = Some (s, r).
Proof.
  intros Hs. apply scanstring_print; [done|]. rewrite length_app. simpl.
  pose proof (length_flat_esc ea s). lia.
Qed.

(** What may follow a number without being taken into it. *)
Definition num_end (r : pystr) : bool :=
  match r with
  | [] => true
  | c :: _ => negb (is_digit c || (c =? 46)%N || (c =? 101)%N || (c =? 69)%N)
  end.

Lemma span_digits_app d r :
  forallb is_digit d = true → num_end r = true → span_digits (d ++ r) = (d, r).
Proof.
  intros Hd Hr. induction d as [|c d IH].
  - destruct r as [|c r]; [done|]. simpl in *. by destruct (is_digit c).
  - simpl in *. apply andb_true_iff in Hd as [-> Hd]. by rewrite IH.
Qed.

Lemma num_end_spec c r : num_end (c :: r) = true →
  is_digit c = false ∧ (c =? 46)%N = false ∧ ((c =? 101)%N || (c =? 69)%N) = false.
Proof. cbn. by destruct (is_digit c), (c =? 46)%N, (c =? 101)%N, (c =? 69)%N. Qed.

Lemma read_frac_end r : num_end r = true → read_frac r = ([], r).
Proof. destruct r as [|c r]; [done|]. intros (_ & H & _)%num_end_spec. simpl. by rewrite H. Qed.

Lemma read_exp_end r : num_end r = true → read_exp r = ([], r).
Proof. destruct r as [|c r]; [done|]. intros (_ & _ & H)%num_end_spec. unfold read_exp. by rewrite H. Qed.

Lemma nat_str_cons n : ∃ c s, nat_str n = c :: s ∧ is_digit c = true.
Proof.
  destruct (nat_str_head n) as [[E _]|(c & s & E & Hc & _)]; rewrite E; eauto.
Qed.

Lemma read_int_nat_str n r : num_end r = true → read_int (nat_str n ++ r) = (nat_str n, r).
Proof.
  intros Hr. unfold read_int. destruct (nat_str_head n) as [[E _]|(c & s & E & _ & H48)].
  - by rewrite E.
  - pose proof (nat_str_digits n) as Hdig. rewrite E in *. cbn [app].
    apply N.eqb_neq in H48. rewrite H48. by apply (span_digits_app (c :: s)).
Qed.

Lemma read_sign_nat_str n r : read_sign (nat_str n ++ r) = (false, nat_str n ++ r).
Proof.
  destruct (nat_str_cons n) as (c & s & E & Hc). rewrite E. cbn [app read_sign].
  destruct (N.eqb_spec c 45); [by subst|done].
Qed.

Lemma read_num_int z r : num_end r = true → read_num (int_str z ++ r) = Some (JInt z, r).
Proof.
  intros Hr. unfold int_str, read_num. destruct (Z.ltb_spec z 0) as [Hz|Hz].
  - cbn [app read_sign]. change (45 =? 45)%N with true. cbv iota beta.
    rewrite read_int_nat_str by done.
    destruct (nat_str_cons (Z.to_N (- z))) as (c & s & E & _). rewrite E, <-E.
    rewrite read_frac_end, read_exp_end by done. rewrite nat_str_value.
    f_equal. f_equal. f_equal. lia.
  - rewrite read_sign_nat_str. cbv iota beta. rewrite read_int_nat_str by done.
    destruct (nat_str_cons (Z.to_N z)) as (c & s & E & _). rewrite E, <-E.
    rewrite read_frac_end, read_exp_end by done. rewrite nat_str_value.
    f_equal. f_equal. f_equal. lia.
Qed.

Lemma read_const_int z r : num_end r = true → read_const (int_str z ++ r) = Some (JInt z, r).
Proof.
  intros Hr. rewrite <-(read_num_int z r Hr).
  assert (∀ c, is_digit c = true → c ≠ 110 ∧ c ≠ 116 ∧ c ≠ 102 ∧ c ≠ 78 ∧ c ≠ 73 ∧ c ≠ 45)%N as Hdig.
  { intros c. unfold is_digit. rewrite in_range_spec. lia. }
  unfold int_str. unfold read_const.
  change (u "null") with [110; 117; 108; 108]%N. change (u "true") with [116; 114; 117; 101]%N.
  change (u "false") with [102; 97; 108; 115; 101]%N. change (u "NaN") with [78; 97; 78]%N.
  change (u "Infinity") with [73; 110; 102; 105; 110; 105; 116; 121]%N.
  change (u "-Infinity") with [45; 73; 110; 102; 105; 110; 105; 116; 121]%N.
  destruct (z <? 0)%Z.
  - destruct (nat_str_cons (Z.to_N (- z))) as (c & s & E & Hc). rewrite E.
    apply Hdig in Hc as (_ & _ & _ & _ & H73 & _).
    cbn [app strip_prefix]. rewrite (proj2 (N.eqb_neq 73 c)) by done. done.
  - destruct (nat_str_cons (Z.to_N z)) as (c & s & E & Hc). rewrite E.
    apply Hdig in Hc as (H1 & H2 & H3 & H4 & H5 & H6). cbn [app strip_prefix].
    destruct (N.eqb_spec 110 c); [congruence|]. destruct (N.eqb_spec 116 c); [congruence|].
    destruct (N.eqb_spec 102 c); [congruence|]. destruct (N.eqb_spec 78 c); [congruence|].
    destruct (N.eqb_spec 73 c); [congruence|]. destruct (N.eqb_spec 45 c); [congruence|]. done.
Qed.

(** Values the writer is applied to: no float, every string encodable. *)
Fixpoint json_ok (v : json) : bool :=
  match v with
  | JFloat _ => false
  | JStr s => forallb is_scalar s
  | JList l => forallb json_ok l
  | JObj l => forallb (λ kv, forallb is_scalar (fst kv) && json_ok (snd kv)) l
  | _ => true
  end.

Fixpoint json_size (v : json) : nat :=
  match v with
  | JList l => S (list_sum (map (λ v, S (json_size v)) l))
  | JObj l => S (list_sum (map (λ kv, S (json_size (snd kv))) l))
  | _ => 1
  end.

Lemma skip_ws_app sp s : forallb is_ws sp = true → skip_ws (sp ++ s) = skip_ws s.
Proof.
  induction sp as [|c sp IH]; [done|]. simpl. rewrite andb_true_iff. intros [-> H]. auto.
Qed.

Section round_trip.
Context (ea : bool) (sp : pystr) (Hsp : forallb is_ws sp = true).

Lemma print_head v : json_ok v = true →
  ∃ c t, print ea sp v = c :: t ∧ is_ws c = false ∧ (c =? 93)%N = false.
Proof.
  destruct v as [|[]|z| |s|l|l]; intros Hv; try done; try (by eexists _, _).
  cbn [print]. unfold int_str. destruct (z <? 0)%Z; [by eexists _, _|].
  destruct (nat_str_cons (Z.to_N z)) as (c & s & -> & Hc). eexists c, s. split; [done|].
  unfold is_digit in Hc. rewrite in_range_spec in Hc. unfold is_ws.
  rewrite !(proj2 (N.eqb_neq c _)) by lia. done.
Qed.

Lemma skip_ws_print v r : json_ok v = true → skip_ws (print ea sp v ++ r) = print ea sp v ++ r.
Proof. intros (c & t & -> & Hc & _)%print_head. cbn. by rewrite Hc. Qed.

Lemma skip_ws_sep v r : json_ok v = true →
  skip_ws ((sp ++ print ea sp v) ++ r) = print ea sp v ++ r.
Proof. intros. rewrite <-app_assoc, skip_ws_app by done. by apply skip_ws_print. Qed.

Definition reads (v : json) : Prop := json_ok v = true → ∀ f r,
  (json_size v <= f)%nat → num_end r = true → read_value f (print ea sp v ++ r) = Some (v, r).

Lemma read_elems_print l f r :
  Forall reads l → forallb json_ok l = true → l ≠ [] →
  (list_sum (map (λ v, S (json_size v)) l) <= f)%nat →
  read_elems f (join (44%N :: sp) (map (print ea sp) l) ++ 93%N :: r) = Some (l, r).
Proof.
  intros Hl. revert f. induction Hl as [|v l Hv Hl IH]; [done|]. intros f Hok _ Hf.
  cbn [map list_sum forallb] in *. apply andb_true_iff in Hok as [Hokv Hok].
  destruct f as [|f]; [simpl in Hf; lia|]. cbn [read_elems].
  destruct l as [|v' l].
  - cbn [map join]. rewrite Hv by (done || simpl in Hf; lia). done.
  - change (join (44%N :: sp) (print ea sp v :: map (print ea sp) (v' :: l))) with
      (print ea sp v ++ (44%N :: sp) ++ join (44%N :: sp) (map (print ea sp) (v' :: l))).
    rewrite <-!app_assoc. rewrite Hv by (done || simpl in Hf; lia).
    cbn [mbind option_bind app skip_ws is_ws].
    change (is_ws 44) with false. cbv iota. change (44 =? 44)%N with true. cbv iota.
    rewrite skip_ws_app by done.
    assert (json_ok v' = true) as Hv' by (by apply andb_true_iff in Hok as [? _]).
    assert (skip_ws (join (44%N :: sp) (map (print ea sp) (v' :: l)) ++ 93%N :: r) =
            join (44%N :: sp) (map (print ea sp) (v' :: l)) ++ 93%N :: r) as ->.
    { destruct l as [|v'' l]; cbn [map join]; rewrite <-?app_assoc; by apply skip_ws_print. }
    rewrite IH by (done || simpl in *; lia). done.
Qed.

Lemma print_str_app s r : print_str ea s ++ r = 34%N :: flat_map (esc_char ea) s ++ 34%N :: r.
Proof. unfold print_str. cbn [app]. by rewrite <-app_assoc. Qed.

Definition print_pair (kv : pystr * json) : pystr :=
  print_str ea (fst kv) ++ [58%N] ++ sp ++ print ea sp (snd kv).

Lemma read_members_print l f r :
  Forall (λ kv, reads (snd kv)) l →
  forallb (λ kv, forallb is_scalar (fst kv) && json_ok (snd kv)) l = true → l ≠ [] →
  (list_sum (map (λ kv, S (json_size (snd kv))) l) <= f)%nat →
  read_members f (join (44%N :: sp) (map print_pair l) ++ 125%N :: r) = Some (l, r).
Proof.
  intros Hl. revert f. induction Hl as [|[k v] l Hv Hl IH]; [done|]. intros f Hok _ Hf.
  cbn [map list_sum forallb fst snd] in *.
  apply andb_true_iff in Hok as [[Hk Hokv]%andb_true_iff Hok].
  destruct f as [|f]; [simpl in Hf; lia|].
  destruct l as [|[k' v'] l].
  - cbn [map join]. unfold print_pair. cbn [fst snd]. rewrite <-!app_assoc, print_str_app.
    cbn [read_members]. change (34 =? 34)%N with true. cbv iota. rewrite scanstring_lit by done.
    cbn [mbind option_bind app skip_ws]. change (is_ws 58) with false. cbv iota.
    change (58 =? 58)%N with true. cbv iota. rewrite app_assoc, skip_ws_sep by done.
    rewrite Hv by (done || simpl in Hf; lia). done.
  - change (join (44%N :: sp) (print_pair (k, v) :: map print_pair ((k', v') :: l))) with
      (print_pair (k, v) ++ (44%N :: sp) ++ join (44%N :: sp) (map print_pair ((k', v') :: l))).
    unfold print_pair at 1. cbn [fst snd]. rewrite <-!app_assoc, print_str_app.
    cbn [read_members]. change (34 =? 34)%N with true. cbv iota. rewrite scanstring_lit by done.
    cbn [mbind option_bind app skip_ws]. change (is_ws 58) with false. cbv iota.
    change (58 =? 58)%N with true. cbv iota. rewrite app_assoc, skip_ws_sep by done.
    rewrite Hv by (done || simpl in Hf; lia).
    cbn [mbind option_bind app skip_ws]. change (is_ws 44) with false. cbv iota.
    change (44 =? 44)%N with true. cbv iota. rewrite skip_ws_app by done.
    assert (skip_ws (join (44%N :: sp) (map print_pair ((k', v') :: l)) ++ 125%N :: r) =
            join (44%N :: sp) (map print_pair ((k', v') :: l)) ++ 125%N :: r) as ->.
    { destruct l; cbn [map join]; unfold print_pair, print_str; by rewrite <-?app_assoc. }
    rewrite IH by (done || simpl in *; lia). done.
Qed.

Lemma read_value_print v : reads v.
Proof.
  induction v as [|b|z|t|s|l IH|l IH] using json_ind'; intros Hok [|f] r Hf Hr;
    try (simpl in Hf; lia); try done.
  - by destruct b.
  - cbn [print]. rewrite <-(read_const_int z r Hr).
    unfold int_str. destruct (z <? 0)%Z; [done|].
    destruct (nat_str_cons (Z.to_N z)) as (c & s & E & Hc). rewrite E. cbn [app read_value].
    unfold is_digit in Hc. rewrite in_range_spec in Hc.
    by rewrite !(proj2 (N.eqb_neq c _)) by lia.
  - cbn [print]. rewrite print_str_app. cbn [read_value]. change (34 =? 34)%N with true. cbv iota.
    by rewrite scanstring_lit.
  - cbn [print app read_value]. change (91 =? 34)%N with false. change (91 =? 91)%N with true. cbv iota.
    rewrite <-app_assoc. cbn [json_ok] in Hok. destruct l as [|v l]; [done|].
    assert (∃ c t, skip_ws (join (44%N :: sp) (map (print ea sp) (v :: l)) ++ [93%N] ++ r) = c :: t ∧
      (c =? 93)%N = false ∧ join (44%N :: sp) (map (print ea sp) (v :: l)) ++ [93%N] ++ r = c :: t)
      as (c & t & E & Hc & E').
    { simpl in Hok. apply andb_true_iff in Hok as [Hv _].
      destruct (print_head v Hv) as (c & t & E & Hws & Hc).
      destruct l; cbn [map join]; rewrite E; cbn [app skip_ws]; rewrite Hws; eauto. }
    rewrite E, Hc, <-E'. cbn [app].
    rewrite read_elems_print by (done || simpl in *; lia). done.
  - cbn [print app read_value]. change (123 =? 34)%N with false. change (123 =? 91)%N with false.
    change (123 =? 123)%N with true. cbv iota.
    rewrite <-app_assoc. cbn [json_ok] in Hok. destruct l as [|kv l]; [done|].
    change (map _ (kv :: l)) with (map print_pair (kv :: l)).
    assert (∃ t, skip_ws (join (44%N :: sp) (map print_pair (kv :: l)) ++ [125%N] ++ r) = 34%N :: t ∧
      join (44%N :: sp) (map print_pair (kv :: l)) ++ [125%N] ++ r = 34%N :: t) as (t & E & E').
    { destruct l; cbn [map join]; unfold print_pair, print_str; cbn; eauto. }
    rewrite E. change (34 =? 125)%N with false. cbv iota. rewrite <-E'. cbn [app].
    rewrite read_members_print; [done|exact IH|exact Hok|done|].
    exact (le_S_n _ _ Hf).
Qed.
End round_trip.

Lemma json_size_print ea sp v : json_ok v = true → (json_size v <= 2 * length (print ea sp v))%nat.
Proof.
  induction v as [|b|z|t|s|l IH|l IH] using json_ind'; intros Hok.
  - vm_compute; lia.
  - destruct b; vm_compute; lia.
  - cbn [print json_size]. unfold int_str. destruct (z <? 0)%Z; [simpl; lia|].
    destruct (nat_str_cons (Z.to_N z)) as (c & s & -> & _). simpl. lia.
  - done.
  - cbn [print json_size]. unfold print_str. rewrite !length_app. simpl. lia.
  - cbn [print json_size json_ok] in *. rewrite !length_app. simpl (length [_]).
    assert (list_sum (map (λ v, S (json_size v)) l) <=
            2 * length (join (44%N :: sp) (map (print ea sp) l)) + 1)%nat; [|lia].
    induction IH as [|v l Hv _ IHl]; [simpl; lia|].
    cbn [forallb] in Hok. apply andb_true_iff in Hok as [Hv' Hok].
    specialize (Hv Hv'). specialize (IHl Hok).
    destruct l as [|v' l]; [simpl; lia|].
    change (join (44%N :: sp) (map (print ea sp) (v :: v' :: l))) with
      (print ea sp v ++ (44%N :: sp) ++ join (44%N :: sp) (map (print ea sp) (v' :: l))).
    change (list_sum (map (λ v, S (json_size v)) (v :: v' :: l))) with
      (S (json_size v) + list_sum (map (λ v, S (json_size v)) (v' :: l)))%nat.
    rewrite !length_app. simpl (length (44%N :: sp)). lia.
  - cbn [print json_size json_ok] in *. rewrite !length_app. simpl (length [_]).
    change (map (λ kv : pystr * json, print_str ea (fst kv) ++ [58%N] ++ sp ++ print ea sp (snd kv)) l)
      with (map (print_pair ea sp) l).
    assert (list_sum (map (λ kv : pystr * json, S (json_size (snd kv))) l) <=
            2 * length (join (44%N :: sp) (map (print_pair ea sp) l)) + 1)%nat; [|lia].
    induction IH as [|kv l Hv _ IHl]; [simpl; lia|].
    cbn [forallb] in Hok. apply andb_true_iff in Hok as [[_ Hv']%andb_true_iff Hok].
    specialize (Hv Hv'). specialize (IHl Hok).
    assert (length (print ea sp (snd kv)) <= length (print_pair ea sp kv))%nat.
    { unfold print_pair. rewrite !length_app. lia. }
    destruct l as [|kv' l]; [simpl in *; lia|].
    change (join (44%N :: sp) (map (print_pair ea sp) (kv :: kv' :: l))) with
      (print_pair ea sp kv ++ (44%N :: sp) ++ join (44%N :: sp) (map (print_pair ea sp) (kv' :: l))).
    change (list_sum (map (λ kv : pystr * json, S (json_size (snd kv))) (kv :: kv' :: l))) with
      (S (json_size (snd kv)) + list_sum (map (λ kv : pystr * json, S (json_size (snd kv))) (kv' :: l)))%nat.
    rewrite !length_app. simpl (length (44%N :: sp)). lia.
Qed.

(** [loads] inverts printing. *)
Lemma loads_print ea sp v :
  forallb is_ws sp = true → json_ok v = true → loads (print ea sp v) = Some v.
Proof.
  intros Hsp Hok. unfold loads.
  assert (skip_ws (print ea sp v) = print ea sp v) as ->.
  { rewrite <-(app_nil_r (print ea sp v)). by apply skip_ws_print. }
  pose proof (read_value_print ea sp Hsp v Hok (2 * length (print ea sp v)) []
    (json_size_print ea sp v Hok) eq_refl) as H.
  rewrite app_nil_r in H. by rewrite H.
Qed.

(** ** Sorting of keys *)

Section sorting.
Context {A : Type}.
Implicit Types l : list (pystr * A).

Lemma insert_item_perm k v l : insert_item k v l ≡ₚ (k, v) :: l.
Proof.
  induction l as [|[k' v'] l IH]; [done|]. simpl. case_match; [done|].
  rewrite IH. apply Permutation_swap.
Qed.

Lemma sort_items_perm l : sort_items l ≡ₚ l.
Proof.
  induction l as [|[k v] l IH]; [done|]. simpl. rewrite insert_item_perm. by constructor.
Qed.

Definition key_le (x y : pystr * A) : Prop := pystr_le (fst x) (fst y).

Lemma insert_item_sorted k v l :
  StronglySorted key_le l → StronglySorted key_le (insert_item k v l).
Proof.
  induction 1 as [|[k' v'] l Hl IH Hall]; simpl; [by repeat constructor|].
  destruct (pystr_leb k k') eqn:E.
  - constructor; [by constructor|]. constructor; [done|].
    eapply Forall_impl; [exact Hall|]. intros [k'' v'']. unfold key_le. simpl.
    intros H. by transitivity k'.
  - constructor; [done|]. rewrite insert_item_perm. constructor; [|done].
    unfold key_le. simpl. destruct (total pystr_le k k') as [H|H]; [|done].
    unfold pystr_le in H. congruence.
Qed.

Lemma sort_items_sorted l : StronglySorted key_le (sort_items l).
Proof. induction l as [|[k v] l IH]; simpl; [constructor|by apply insert_item_sorted]. Qed.

Lemma keys_sort_items l : (sort_items l).*1 ≡ₚ l.*1.
Proof. by rewrite sort_items_perm. Qed.

Lemma lookup_item_perm k l l' :
  NoDup (l.*1) → l ≡ₚ l' → lookup_item k l = lookup_item k l'.
Proof.
  intros Hnd Hp. induction Hp as [|[k1 v1] l l' _ IH|[k1 v1] [k2 v2] l|l l' l'' Hp IH Hp' IH'].
  - done.
  - simpl. inversion Hnd; subst. by rewrite IH.
  - simpl. destruct (pystr_eqb k k1) eqn:E1, (pystr_eqb k k2) eqn:E2; try done.
    apply pystr_eqb_eq in E1, E2. subst. inversion Hnd as [|?? Hn]; subst.
    destruct Hn. simpl. left.
  - rewrite IH, IH'; [done| |done]. by rewrite <-Hp.
Qed.

Lemma lookup_item_sort k l : NoDup (l.*1) → lookup_item k (sort_items l) = lookup_item k l.
Proof. intros. symmetry. apply lookup_item_perm; [done|]. by rewrite sort_items_perm. Qed.

(** Sorting forgets the insertion order. *)
Lemma sort_items_unique l l' : NoDup (l.*1) → l ≡ₚ l' → sort_items l = sort_items l'.
Proof.
  intros Hnd Hp.
  assert (sort_items l ≡ₚ sort_items l') as Hs by (by rewrite !sort_items_perm).
  pose proof (sort_items_sorted l) as H1. pose proof (sort_items_sorted l') as H2.
  assert (NoDup ((sort_items l).*1)) as Hn by (by rewrite keys_sort_items).
  clear Hnd Hp. revert H2 Hs Hn. generalize (sort_items l'). 
  induction H1 as [|[k v] s H1 IH Hall]; intros s' H2 Hs Hn.
  - by apply Permutation_nil_l in Hs.
  - destruct s' as [|[k' v'] s']; [by apply Permutation_nil_r in Hs|].
    assert ((k, v) = (k', v')) as E.
    { assert ((k', v') ∈ (k, v) :: s) as Hin by (rewrite Hs; left).
      assert ((k, v) ∈ (k', v') :: s') as Hin' by (rewrite <-Hs; left).
      inversion H2 as [|?? _ Hall']; subst.
      apply elem_of_cons in Hin as [|Hin]; [done|].
      apply elem_of_cons in Hin' as [|Hin']; [done|].
      rewrite Forall_forall in Hall, Hall'.
      pose proof (Hall _ Hin) as L1. pose proof (Hall' _ Hin') as L2.
      unfold key_le in L1, L2. simpl in L1, L2.
      assert (k = k') by (by apply (anti_symm pystr_le)). subst.
      inversion Hn as [|?? Hni]; subst. destruct Hni.
      apply list_elem_of_fmap. by exists (k', v'). }
    rewrite <-E in *. f_equal. inversion H2; inversion Hn; subst.
    apply IH; [done| |done]. by apply Permutation_cons_inv in Hs.
Qed.
End sorting.

Lemma json_ok_sort_keys v : json_ok v = true → json_ok (sort_keys v) = true.
Proof.
  induction v as [|b|z|t|s|l IH|l IH] using json_ind'; intros Hok; try done.
  - cbn [sort_keys json_ok] in *. rewrite forallb_elem_of in *. rewrite Forall_forall in IH.
    intros x Hx. apply list_elem_of_fmap in Hx as (y & -> & Hy). auto.
  - cbn [sort_keys json_ok] in *. rewrite forallb_elem_of in *. rewrite Forall_forall in IH.
    intros [k x] Hx. rewrite sort_items_perm in Hx.
    apply list_elem_of_fmap in Hx as ([k' y] & [= -> ->] & Hy). simpl.
    specialize (Hok _ Hy). simpl in Hok. apply andb_true_iff in Hok as [-> Hok].
    by apply (IH _ Hy).
Qed.

(** [loads (dumps v)] is [v] with the keys of every object sorted. *)
Lemma loads_dumps ea sp v :
  forallb is_ws sp = true → json_ok v = true → loads (dumps ea sp v) = Some (sort_keys v).
Proof. intros. apply loads_print; [done|]. by apply json_ok_sort_keys. Qed.

Lemma dumps_inj ea sp v w :
  forallb is_ws sp = true → json_ok v = true → json_ok w = true →
  dumps ea sp v = dumps ea sp w → sort_keys v = sort_keys w.
Proof.
  intros Hsp Hv Hw E. pose proof (loads_dumps ea sp v Hsp Hv) as H.
  rewrite E, loads_dumps in H by done. by injection H.
Qed.

(** ** The characters of a printed text *)

Section chars.
Context (ea : bool) (P : N → bool).
Hypothesis HP : ∀ c, (c < 128)%N → P c = true.
Hypothesis Hea : ea = true ∨ ∀ c, is_scalar c = true → P c = true.

Lemma hex_digit_P n : (n < 16)%N → P (hex_digit n) = true.
Proof.
  intros Hn. apply HP. pose proof (hex_digit_char n Hn) as Hc. unfold is_hex_char in Hc.
  rewrite orb_true_iff, !in_range_spec in Hc. lia.
Qed.

Lemma u_escape_P n : forallb P (u_escape n) = true.
Proof.
  unfold u_escape, hex4. cbn [app forallb].
  rewrite !hex_digit_P by (by apply N.mod_lt). rewrite !HP by lia. done.
Qed.

Lemma esc_char_P c : is_scalar c = true → forallb P (esc_char ea c) = true.
Proof.
  intros Hc. unfold esc_char.
  do 7 (case_match; [cbn [forallb]; by rewrite !HP by lia|]).
  case_match; [apply u_escape_P|]. destruct ea; cbn [andb].
  - destruct (N.ltb_spec 126 c).
    + case_match; [apply u_escape_P|]. by rewrite forallb_app, !u_escape_P.
    + cbn [forallb]. by rewrite HP by lia.
  - destruct Hea as [|Hs]; [done|]. cbn [forallb]. by rewrite Hs.
Qed.

Lemma print_str_P s : forallb is_scalar s = true → forallb P (print_str ea s) = true.
Proof.
  intros Hs. unfold print_str. rewrite !forallb_app. cbn [forallb]. rewrite HP by lia.
  cbn [andb]. rewrite andb_true_r. induction s as [|c s IH]; [done|].
  cbn [forallb flat_map] in *. apply andb_true_iff in Hs as [Hc Hs]. by rewrite forallb_app, esc_char_P, IH.
Qed.

Lemma ascii_P s : is_ascii s = true → forallb P s = true.
Proof.
  unfold is_ascii. rewrite !forallb_elem_of. intros H c Hc. apply HP. by apply N.ltb_lt, H.
Qed.

Lemma digits_P s : forallb is_digit s = true → forallb P s = true.
Proof.
  rewrite !forallb_elem_of. intros H c Hc. apply HP. specialize (H c Hc).
  unfold is_digit in H. apply in_range_spec in H. lia.
Qed.

Lemma int_str_P z : forallb P (int_str z) = true.
Proof.
  unfold int_str. case_match; cbn [forallb]; rewrite (digits_P _ (nat_str_digits _)); [|done].
  by rewrite HP by lia.
Qed.

Lemma join_P sep l : forallb P sep = true → forallb (forallb P) l = true → forallb P (join sep l) = true.
Proof.
  intros Hsep. induction l as [|x [|y l] IH]; intros Hl; [done|..].
  - simpl in *. by rewrite andb_true_r in Hl.
  - change (join sep (x :: y :: l)) with (x ++ sep ++ join sep (y :: l)).
    change (forallb P x && forallb (forallb P) (y :: l) = true) in Hl.
    apply andb_true_iff in Hl as [Hx Hl]. by rewrite !forallb_app, Hx, Hsep, IH.
Qed.

Lemma print_P sp v : forallb P sp = true → json_ok v = true → forallb P (print ea sp v) = true.
Proof.
  intros Hsp. assert (forallb P (44%N :: sp) = true) as Hsep by (cbn [forallb]; by rewrite HP by lia).
  induction v as [|b|z|t|s|l IH|l IH] using json_ind'; intros Hok; cbn [print].
  - by apply ascii_P.
  - destruct b; by apply ascii_P.
  - apply int_str_P.
  - done.
  - by apply print_str_P.
  - rewrite !forallb_app. cbn [forallb]. rewrite !HP by lia. cbn [json_ok] in Hok.
    rewrite join_P; [done..|]. apply forallb_elem_of. rewrite Forall_forall in IH.
    pose proof (proj1 (forallb_elem_of _ _) Hok) as Hall.
    intros x (y & -> & Hy)%list_elem_of_fmap. by apply IH, Hall.
  - rewrite !forallb_app. cbn [forallb]. rewrite !HP by lia. cbn [json_ok] in Hok.
    rewrite join_P; [done..|]. apply forallb_elem_of. rewrite Forall_forall in IH.
    pose proof (proj1 (forallb_elem_of _ _) Hok) as Hall.
    intros x ([k y] & -> & Hy)%list_elem_of_fmap. specialize (Hall _ Hy). simpl in Hall.
    apply andb_true_iff in Hall as [Hk Hall]. cbn [fst snd].
    rewrite !forallb_app. cbn [forallb]. rewrite print_str_P, Hsp, HP by (done || lia).
    by rewrite (IH _ Hy : json_ok y = true → forallb P (print ea sp y) = true).
Qed.
End chars.

(** [json.dumps] with [ensure_ascii] writes ASCII; without, encodable text. *)
Lemma dumps_ascii sp v : is_ascii sp = true → json_ok v = true → is_ascii (dumps true sp v) = true.
Proof.
  intros Hsp Hv. apply (print_P true (λ c, (c <? 0x80)%N)); [|by left|done|by apply json_ok_sort_keys].
  intros c Hc. by apply N.ltb_lt.
Qed.

Lemma dumps_scalar sp v :
  forallb is_scalar sp = true → json_ok v = true → forallb is_scalar (dumps false sp v) = true.
Proof.
  intros Hsp Hv. apply (print_P false is_scalar); [|by right|done|by apply json_ok_sort_keys].
  intros c Hc. by apply is_ascii_scalar, N.ltb_lt.
Qed.
