(* ===== verification/JsonPrefix.v ===== *)
(** * A cut-off object is no JSON text

    Every reader of [Json.v] returns a rest of its input, and an object is
    only read at its closing brace. *)

From S2P Require Import Prelude PyStr Json.


Lemma skip_ws_suffix s : skip_ws s `suffix_of` s.
Proof. induction s as [|c s IH]; [done|]. cbn [skip_ws]. destruct (is_ws c); [by apply suffix_cons_r|done]. Qed.

Lemma read_hex4_suffix s n r : read_hex4 s = Some (n, r) → r `suffix_of` s.
Proof.
  destruct s as [|a [|b [|c [|d s]]]]; try done. cbn [read_hex4]. intros Hp.
  apply bind_Some in Hp as (? & _ & Hp). apply bind_Some in Hp as (? & _ & Hp).
  apply bind_Some in Hp as (? & _ & Hp). apply bind_Some in Hp as (? & _ & [= <- <-]).
  by do 4 apply suffix_cons_r.
Qed.

Lemma cons_str_inv c o x r : cons_str c o = Some (x, r) → ∃ y, o = Some (y, r).
Proof. unfold cons_str. destruct o as [[y r']|]; [|done]. intros [= <- <-]. by exists y. Qed.

Lemma scanstring_suffix f : ∀ s x r, scanstring f s = Some (x, r) → r `suffix_of` s.
Proof.
  induction f as [|f IH]; intros s x r Hp; [done|]. destruct s as [|c s1]; [done|]. cbn [scanstring] in Hp.
  destruct (c =? 34)%N; [injection Hp as <- <-; by apply suffix_cons_r|].
  destruct (c =? 92)%N.
  - destruct s1 as [|e s2]; [done|]. destruct (e =? 117)%N.
    + apply bind_Some in Hp as ([n r0] & Hh%read_hex4_suffix & Hp).
      assert (∀ y, scanstring f r0 = Some (y, r) → r `suffix_of` c :: e :: s2) as Hgo.
      { intros y Hy%IH. do 2 apply suffix_cons_r. by etrans. }
      destruct (is_hi n); [|by apply cons_str_inv in Hp as (y & Hy%Hgo)].
      destruct r0 as [|a [|b r1]]; [by apply cons_str_inv in Hp as (y & Hy%Hgo)..|].
      destruct (_ && _); [|by apply cons_str_inv in Hp as (y & Hy%Hgo)].
      apply bind_Some in Hp as ([n2 r2] & Hh2%read_hex4_suffix & Hp).
      destruct (is_lo n2); [|by apply cons_str_inv in Hp as (y & Hy%Hgo)].
      apply cons_str_inv in Hp as (y & Hy%IH). do 2 apply suffix_cons_r. etrans; [exact Hy|].
      etrans; [exact Hh2|]. etrans; [|exact Hh]. by do 2 apply suffix_cons_r.
    + apply bind_Some in Hp as (z & _ & Hp). apply cons_str_inv in Hp as (y & Hy%IH).
      by do 2 apply suffix_cons_r.
  - destruct (c <? 32)%N; [done|]. apply cons_str_inv in Hp as (y & Hy%IH). by apply suffix_cons_r.
Qed.

Lemma span_digits_suffix s : snd (span_digits s) `suffix_of` s.
Proof.
  induction s as [|c s IH]; [done|]. cbn [span_digits]. destruct (is_digit c); [|done].
  destruct (span_digits s). by apply suffix_cons_r.
Qed.

Lemma read_frac_suffix s : snd (read_frac s) `suffix_of` s.
Proof.
  destruct s as [|c t]; [done|]. cbn [read_frac]. destruct (c =? 46)%N; [|done].
  pose proof (span_digits_suffix t) as Hs. destruct (span_digits t) as [[|] t']; [done|]. by apply suffix_cons_r.
Qed.

Lemma read_exp_suffix s : snd (read_exp s) `suffix_of` s.
Proof.
  destruct s as [|c t]; [done|]. cbn [read_exp]. destruct (_ || _); [|done].
  assert (snd (match t with
    | g :: t1 => if (g =? 43)%N || (g =? 45)%N then ([g], t1) else ([], t)
    | [] => ([], t) end) `suffix_of` t) as Ht.
  { destruct t as [|g t1]; [done|]. destruct (_ || _); [by apply suffix_cons_r|done]. }
  destruct (match t with [] => _ | _ => _ end) as [sg t1]. pose proof (span_digits_suffix t1) as Hs.
  destruct (span_digits t1) as [[|] t']; [done|]. apply suffix_cons_r. by etrans.
Qed.

Lemma read_num_suffix s v r : read_num s = Some (v, r) → r `suffix_of` s.
Proof.
  unfold read_num. assert (snd (read_sign s) `suffix_of` s) as Hs.
  { destruct s as [|c t]; [done|]. cbn [read_sign]. destruct (c =? 45)%N; [by apply suffix_cons_r|done]. }
  destruct (read_sign s) as [neg s1]. assert (snd (read_int s1) `suffix_of` s1) as Hi.
  { destruct s1 as [|c t]; [done|]. cbn [read_int].
    destruct (c =? 48)%N; [by apply suffix_cons_r|apply span_digits_suffix]. }
  destruct (read_int s1) as [ds r0]. pose proof (read_frac_suffix r0) as Hf. destruct (read_frac r0) as [fr r1].
  pose proof (read_exp_suffix r1) as He. destruct (read_exp r1) as [ex r2]. cbn [snd] in *. intros Hp.
  assert (r = r2) as -> by (by destruct ds, fr, ex; simplify_eq). by repeat (etrans; [eassumption|]).
Qed.

Lemma strip_prefix_suffix p : ∀ s r, strip_prefix p s = Some r → r `suffix_of` s.
Proof.
  induction p as [|a p IH]; intros s r Hp; [by injection Hp as <-|]. destruct s as [|b s]; [done|].
  cbn [strip_prefix] in Hp. destruct (a =? b)%N; [|done]. by apply suffix_cons_r, IH.
Qed.

Lemma read_const_suffix s v r :
  read_const s = Some (v, r) → r `suffix_of` s ∧ ∀ l, v ≠ JObj l.
Proof.
  unfold read_const. intros Hp.
  repeat match type of Hp with match strip_prefix ?p s with _ => _ end = _ =>
    destruct (strip_prefix p s) as [q|] eqn:Hq;
    [injection Hp as <- <-; split; [by eapply strip_prefix_suffix|done]|clear Hq] end.
  split; [by eapply read_num_suffix|]. unfold read_num in Hp. intros l ->. repeat case_match; simplify_eq.
Qed.

Lemma suffix_elem (c : N) (r s : pystr) : r `suffix_of` s → c ∈ r → c ∈ s.
Proof. intros [k ->] Hc. apply elem_of_app. by right. Qed.

(** What follows the value at [s], up to blanks. *)
Lemma after_suffix s r c r1 : r `suffix_of` s → skip_ws r = c :: r1 → r1 `suffix_of` s ∧ c ∈ s.
Proof.
  intros Hr Hw. pose proof (skip_ws_suffix r) as Hs. rewrite Hw in Hs. assert (c :: r1 `suffix_of` s) as Hc by (by etrans).
  split; [etrans; [|exact Hc]; by apply suffix_cons_r|]. apply (suffix_elem _ _ _ Hc). by left.
Qed.

Lemma readers_suffix f :
  (∀ s v r, read_value f s = Some (v, r) → r `suffix_of` s ∧ ((∃ l, v = JObj l) → 125%N ∈ s)) ∧
  (∀ s l r, read_elems f s = Some (l, r) → r `suffix_of` s) ∧
  (∀ s l r, read_members f s = Some (l, r) → r `suffix_of` s ∧ 125%N ∈ s).
Proof.
  induction f as [|f (IHv & IHe & IHm)]; [done|]. split_and!.
  - intros [|c s1] v r Hp; [done|]. cbn [read_value] in Hp. destruct (c =? 34)%N.
    { apply bind_Some in Hp as ([x r0] & Hx%scanstring_suffix & [= <- <-]).
      split; [by apply suffix_cons_r|by intros [? ?]]. }
    destruct (c =? 91)%N.
    { destruct (skip_ws s1) as [|d r0] eqn:Hw; [done|]. pose proof (after_suffix (c :: s1) s1 d r0
        (suffix_cons_r _ _ _ (reflexivity _)) Hw) as [Hr0 _].
      destruct (d =? 93)%N; [injection Hp as <- <-; split; [done|by intros [? ?]]|].
      apply bind_Some in Hp as ([l r1] & Hl%IHe & [= <- <-]). split; [|by intros [? ?]].
      apply suffix_cons_r. etrans; [exact Hl|]. rewrite <-Hw. apply skip_ws_suffix. }
    destruct (c =? 123)%N.
    { destruct (skip_ws s1) as [|d r0] eqn:Hw; [done|]. pose proof (after_suffix (c :: s1) s1 d r0
        (suffix_cons_r _ _ _ (reflexivity _)) Hw) as [Hr0 Hd].
      destruct (N.eqb_spec d 125) as [->|]; [by injection Hp as <- <-|].
      apply bind_Some in Hp as ([l r1] & [Hl He]%IHm & [= <- <-]).
      assert (d :: r0 `suffix_of` c :: s1) as Hs by (apply suffix_cons_r; rewrite <-Hw; apply skip_ws_suffix).
      split; [by etrans|]. intros _. by eapply suffix_elem. }
    apply read_const_suffix in Hp as [Hr Hn]. split; [done|]. intros [l ->]. by destruct (Hn l).
  - intros s l r Hp. cbn [read_elems] in Hp. apply bind_Some in Hp as ([v r0] & [Hr0 _]%IHv & Hp).
    destruct (skip_ws r0) as [|c r1] eqn:Hw; [done|]. destruct (after_suffix s r0 c r1 Hr0 Hw) as [Hr1 _].
    destruct (c =? 44)%N.
    + apply bind_Some in Hp as ([l' r2] & Hl%IHe & [= <- <-]). etrans; [exact Hl|]. etrans; [|exact Hr1].
      apply skip_ws_suffix.
    + destruct (c =? 93)%N; [|done]. by injection Hp as <- <-.
  - intros [|c s1] l r Hp; [done|]. cbn [read_members] in Hp. destruct (c =? 34)%N; [|done].
    apply bind_Some in Hp as ([k r0] & Hk%scanstring_suffix & Hp).
    destruct (skip_ws r0) as [|c1 r1] eqn:Hw1; [done|].
    destruct (after_suffix (c :: s1) r0 c1 r1 (suffix_cons_r _ _ _ Hk) Hw1) as [Hr1 _].
    destruct (c1 =? 58)%N; [|done]. apply bind_Some in Hp as ([v r2] & [Hr2 _]%IHv & Hp).
    assert (r2 `suffix_of` c :: s1) as Hr2' by (etrans; [exact Hr2|]; etrans; [apply skip_ws_suffix|done]).
    destruct (skip_ws r2) as [|c2 r3] eqn:Hw2; [done|]. destruct (after_suffix (c :: s1) r2 c2 r3 Hr2' Hw2) as [Hr3 Hc2].
    destruct (c2 =? 44)%N.
    + apply bind_Some in Hp as ([l' r4] & [Hl He]%IHm & [= <- <-]).
      assert (skip_ws r3 `suffix_of` c :: s1) as Hs by (etrans; [apply skip_ws_suffix|done]).
      split; [by etrans|by eapply suffix_elem].
    + destruct (N.eqb_spec c2 125) as [->|]; [|done]. by injection Hp as <- <-.
Qed.

(** A text that reads as an object holds a closing brace. *)
Lemma loads_object s l : loads s = Some (JObj l) → 125%N ∈ s.
Proof.
  unfold loads. intros ([v r] & Hv & Hp)%bind_Some. destruct (readers_suffix (2 * length s)) as (Hval & _ & _).
  destruct (Hval _ _ _ Hv) as [_ Ho]. destruct (skip_ws r); [|done]. injection Hp as ->.
  eapply suffix_elem; [apply skip_ws_suffix|]. apply Ho. by eexists.
Qed.
