(* ===== verification/Base64.v ===== *)
(** * The [base64] module

    [b64encode] and [b64decode(..., validate=True)] with their round trip:
    the encoding of protected-artifact ciphertexts in a stored contract. *)

From S2P Require Import Prelude PyStr.
From Stdlib Require Import Strings.Byte.

Definition b64_char (n : N) : N :=
  (if n <? 26 then 65 + n else if n <? 52 then 71 + n else if n <? 62 then n - 4
   else if n =? 62 then 43 else 47)%N.

Definition b64_value (c : N) : option N :=
  if in_range 65 90 c then Some (c - 65)%N
  else if in_range 97 122 c then Some (c - 71)%N
  else if in_range 48 57 c then Some (c + 4)%N
  else if (c =? 43)%N then Some 62%N
  else if (c =? 47)%N then Some 63%N
  else None.

(** [base64.b64encode(b).decode("ascii")] *)
Fixpoint b64encode (l : bytes) : pystr :=
  match l with
  | [] => []
  | [a] => let n := (Byte.to_N a * 16)%N in [b64_char (n / 64); b64_char (n mod 64); 61%N; 61%N]
  | [a; b] =>
    let n := ((Byte.to_N a * 256 + Byte.to_N b) * 4)%N in
    [b64_char (n / 4096); b64_char (n / 64 mod 64); b64_char (n mod 64); 61%N]
  | a :: b :: c :: l =>
    let n := ((Byte.to_N a * 256 + Byte.to_N b) * 256 + Byte.to_N c)%N in
    b64_char (n / 262144) :: b64_char (n / 4096 mod 64) :: b64_char (n / 64 mod 64)
      :: b64_char (n mod 64) :: b64encode l
  end.

(** The last group of four, with its padding. *)
Definition b64_last (a b c d : N) : option bytes :=
  x ← b64_value a; y ← b64_value b;
  if (d =? 61)%N then
    if (c =? 61)%N then Some [byte_of_N ((x * 64 + y) / 16)]
    else z ← b64_value c;
      let n := (((x * 64 + y) * 64 + z) / 4)%N in Some [byte_of_N (n / 256); byte_of_N n]
  else z ← b64_value c; w ← b64_value d;
    let n := (((x * 64 + y) * 64 + z) * 64 + w)%N in
    Some [byte_of_N (n / 65536); byte_of_N (n / 256); byte_of_N n].

Fixpoint b64decode (s : pystr) : option bytes :=
  match s with
  | [] => Some []
  | [a; b; c; d] => b64_last a b c d
  | a :: b :: c :: d :: s =>
    if (d =? 61)%N then None
    else h ← b64_last a b c d; r ← b64decode s; Some (h ++ r)
  | _ => None
  end.

Lemma b64_value_char n : (n < 64)%N → b64_value (b64_char n) = Some n ∧ (b64_char n =? 61)%N = false.
Proof.
  intros Hn. unfold b64_char.
  destruct (N.ltb_spec n 26); [|destruct (N.ltb_spec n 52); [|destruct (N.ltb_spec n 62)]].
  - split; [|apply N.eqb_neq; lia]. unfold b64_value.
    rewrite (proj2 (in_range_spec 65 _ _)) by lia. f_equal. lia.
  - split; [|apply N.eqb_neq; lia]. unfold b64_value.
    assert (in_range 65 90 (71 + n) = false) as -> by (apply not_true_iff_false; rewrite in_range_spec; lia).
    rewrite (proj2 (in_range_spec 97 _ _)) by lia. f_equal. lia.
  - split; [|apply N.eqb_neq; lia]. unfold b64_value.
    assert (in_range 65 90 (n - 4) = false) as -> by (apply not_true_iff_false; rewrite in_range_spec; lia).
    assert (in_range 97 122 (n - 4) = false) as -> by (apply not_true_iff_false; rewrite in_range_spec; lia).
    rewrite (proj2 (in_range_spec 48 _ _)) by lia. f_equal. lia.
  - destruct (N.eqb_spec n 62) as [->|]; [done|].
    assert (n = 63%N) as -> by lia. done.
Qed.

Lemma byte_of_N_eq n b : (n mod 256 = Byte.to_N b)%N → byte_of_N n = b.
Proof. intros H. apply byte_to_N_inj. by rewrite to_N_byte_of_N. Qed.

Lemma b64_last_group a b c :
  let n := ((Byte.to_N a * 256 + Byte.to_N b) * 256 + Byte.to_N c)%N in
  b64_last (b64_char (n / 262144)) (b64_char (n / 4096 mod 64)) (b64_char (n / 64 mod 64))
    (b64_char (n mod 64)) = Some [a; b; c].
Proof.
  intros n. pose proof (Byte.to_N_bounded a). pose proof (Byte.to_N_bounded b).
  pose proof (Byte.to_N_bounded c). unfold b64_last.
  assert (n / 262144 < 64)%N by (apply N.Div0.div_lt_upper_bound; lia).
  destruct (b64_value_char (n / 262144)) as [-> _]; [done|].
  destruct (b64_value_char (n / 4096 mod 64)) as [-> _]; [by apply N.mod_lt|].
  destruct (b64_value_char (n / 64 mod 64)) as [-> _]; [by apply N.mod_lt|].
  destruct (b64_value_char (n mod 64)) as [-> ->]; [by apply N.mod_lt|].
  cbn [mbind option_bind]. cbv zeta.
  assert (((n / 262144 * 64 + n / 4096 mod 64) * 64 + n / 64 mod 64) * 64 + n mod 64 = n)%N as ->.
  { pose proof (N.div_mod' n 64) as E0. pose proof (N.div_mod' (n / 64) 64) as E1.
    pose proof (N.div_mod' (n / 4096) 64) as E2. rewrite N.Div0.div_div in E1, E2.
    change (64 * 64)%N with 4096%N in E1. change (4096 * 64)%N with 262144%N in E2. lia. }
  f_equal. f_equal; [|f_equal; [|f_equal]]; apply byte_of_N_eq; subst n.
  - replace (_ / 65536)%N with (Byte.to_N a)
      by (apply (N.div_unique _ _ _ (Byte.to_N b * 256 + Byte.to_N c)); lia).
    apply N.mod_small. lia.
  - replace (_ / 256)%N with (Byte.to_N a * 256 + Byte.to_N b)%N
      by (apply (N.div_unique _ _ _ (Byte.to_N c)); lia).
    symmetry. apply (N.mod_unique _ _ (Byte.to_N a)); lia.
  - symmetry. apply (N.mod_unique _ _ (Byte.to_N a * 256 + Byte.to_N b)); lia.
Qed.

Lemma b64decode_tail1 a : b64decode (b64encode [a]) = Some [a].
Proof. destruct a; vm_compute; reflexivity. Qed.

Lemma b64decode_tail2 a b : b64decode (b64encode [a; b]) = Some [a; b].
Proof.
  pose proof (Byte.to_N_bounded a). pose proof (Byte.to_N_bounded b).
  cbn [b64encode b64decode]. set (n := ((Byte.to_N a * 256 + Byte.to_N b) * 4)%N).
  unfold b64_last.
  assert (n / 4096 < 64)%N by (apply N.Div0.div_lt_upper_bound; lia).
  destruct (b64_value_char (n / 4096)) as [-> _]; [done|].
  destruct (b64_value_char (n / 64 mod 64)) as [-> _]; [by apply N.mod_lt|].
  destruct (b64_value_char (n mod 64)) as [-> ->]; [by apply N.mod_lt|].
  cbn [mbind option_bind]. change (61 =? 61)%N with true. cbv iota zeta.
  assert ((n / 4096 * 64 + n / 64 mod 64) * 64 + n mod 64 = n)%N as ->.
  { pose proof (N.div_mod' n 64) as E0. pose proof (N.div_mod' (n / 64) 64) as E1.
    rewrite N.Div0.div_div in E1. change (64 * 64)%N with 4096%N in E1. lia. }
  assert (n / 4 = Byte.to_N a * 256 + Byte.to_N b)%N as -> by (apply N.div_mul; done).
  f_equal. f_equal; [|f_equal]; apply byte_of_N_eq.
  - replace (_ / 256)%N with (Byte.to_N a) by (apply (N.div_unique _ _ _ (Byte.to_N b)); lia).
    apply N.mod_small. lia.
  - symmetry. apply (N.mod_unique _ _ (Byte.to_N a)); lia.
Qed.

Lemma b64encode_nonempty a l : ∃ x y z w s, b64encode (a :: l) = x :: y :: z :: w :: s.
Proof. destruct l as [|b [|c l]]; simpl; eauto 10. Qed.

(** Decoding inverts encoding, for any number of bytes. *)
Lemma b64decode_encode l : b64decode (b64encode l) = Some l.
Proof.
  remember (length l) as k eqn:Hk. revert l Hk.
  induction k as [k IH] using lt_wf_ind. intros l ->.
  destruct l as [|a [|b [|c l]]]; [done|apply b64decode_tail1|apply b64decode_tail2|].
  cbn [b64encode]. set (n := ((Byte.to_N a * 256 + Byte.to_N b) * 256 + Byte.to_N c)%N).
  pose proof (b64_last_group a b c) as Hg. cbv zeta in Hg. fold n in Hg.
  assert (b64_char (n mod 64) =? 61 = false)%N as Hpad.
  { apply b64_value_char. by apply N.mod_lt. }
  destruct l as [|d l].
  - cbn [b64encode b64decode]. exact Hg.
  - destruct (b64encode_nonempty d l) as (x & y & z & w & s & E). cbn [b64decode].
    rewrite E. rewrite Hpad, Hg. rewrite <-E.
    rewrite (IH (length (d :: l))) by (simpl; lia || done). done.
Qed.

Lemma b64encode_ascii l : is_ascii (b64encode l) = true.
Proof.
  assert (∀ n, (b64_char n <? 0x80)%N = true) as Hc.
  { intros n. unfold b64_char. repeat case_match; apply N.ltb_lt; rewrite ?N.ltb_lt, ?N.ltb_ge in *; lia. }
  remember (length l) as k eqn:Hk. revert l Hk.
  induction k as [k IH] using lt_wf_ind. intros l ->. unfold is_ascii in *.
  destruct l as [|a [|b [|c l]]]; cbn [b64encode forallb]; rewrite ?Hc; try done.
  by apply (IH (length l)); [simpl; lia|].
Qed.
