(* ===== verification/Capability.v ===== *)
(** * Capabilities

    [capabilities.py]: the authorization unit of the server.  Every
    capability has a name; the WRITE capabilities are those whose name ends
    with [_WRITE], the test the contract, policy and intent validation
    use. *)

From S2P Require Import Prelude PyStr.

Inductive Capability : Type :=
  | SYSTEM_READ | INTERFACE_READ | GATEWAY_READ
  | FIREWALL_READ | ALIAS_READ | SERVICE_READ
  | SYSTEM_INFO_READ | INTERFACE_CONFIG_READ | FIREWALL_NAT_READ
  | USER_READ | SYSTEM_CERTIFICATE_READ | USER_GROUP_READ
  | DHCP_LEASE_READ | DHCP_STATIC_MAPPING_READ | DHCP_SERVER_READ
  | INTERFACE_VIRTUAL_READ | STATUS_CARP_READ | SYSTEM_RESTAPI_SETTINGS_READ
  | SYSTEM_HA_SYNC_READ | SERVICES_DNS_RESOLVER_READ | DIAGNOSTICS_ARP_READ
  | FIREWALL_TRAFFIC_SHAPER_READ | FIREWALL_ADVANCED_SETTINGS_READ | SYSTEM_PACKAGE_READ
  | SYSTEM_TUNABLE_READ | SYSTEM_NOTIFICATIONS_READ | SERVICES_BIND_READ
  | SERVICES_NTP_READ | SERVICES_SSH_READ | SERVICES_CRON_READ
  | SERVICES_ACME_READ | SERVICES_FREERADIUS_READ | DIAGNOSTICS_TABLES_READ
  | AUTH_KEYS_READ | SERVER_INFO_READ | INTERFACE_VLAN_READ
  | ROUTING_STATIC_ROUTE_READ | INTERFACE_GROUP_READ | FIREWALL_SCHEDULE_READ
  | SYSTEM_RESTAPI_VERSION_READ | FIREWALL_VIRTUAL_IP_READ | SYSTEM_CERTIFICATE_AUTHORITY_READ
  | STATUS_IPSEC_SA_READ | STATUS_IPSEC_CHILD_SA_READ | STATUS_WIREGUARD_TUNNEL_READ
  | STATUS_WIREGUARD_PEER_READ | STATUS_OPENVPN_SERVER_READ | STATUS_OPENVPN_CLIENT_READ
  | STATUS_OPENVPN_SERVER_CONNECTION_READ | STATUS_OPENVPN_SERVER_ROUTE_READ | DNS_FORWARDER_HOST_OVERRIDE_READ
  | DNS_RESOLVER_DOMAIN_OVERRIDE_READ | DNS_RESOLVER_ACCESS_LIST_READ | INTERFACE_AVAILABLE_INTERFACE_READ
  | INTERFACE_GRE_READ | INTERFACE_LAGG_READ | ROUTING_GATEWAY_GROUP_READ
  | ROUTING_GATEWAY_DEFAULT_READ | DHCP_RELAY_READ | DHCP_SERVER_ADDRESS_POOL_READ
  | DHCP_SERVER_CUSTOM_OPTION_READ | SYSTEM_HOSTNAME_READ | SYSTEM_TIMEZONE_READ
  | SYSTEM_DNS_READ | SYSTEM_CONSOLE_READ | SYSTEM_WEBGUI_SETTINGS_READ
  | SYSTEM_RESTAPI_ACCESS_LIST_READ | SYSTEM_CRLS_READ | SYSTEM_PACKAGE_AVAILABLE_READ
  | FIREWALL_TRAFFIC_SHAPERS_READ | VPN_IPSEC_PHASE2_READ | VPN_IPSEC_PHASE1_ENCRYPTION_READ
  | VPN_IPSEC_PHASE2_ENCRYPTION_READ | VPN_OPENVPN_SERVER_READ | VPN_OPENVPN_CSO_READ
  | DIAGNOSTICS_CONFIG_HISTORY_REVISION_READ | STATUS_LOGS_SETTINGS_READ | FIREWALL_VIRTUAL_IP_APPLY_READ
  | INTERFACE_APPLY_READ | ROUTING_APPLY_READ | DHCP_SERVER_APPLY_READ
  | DNS_FORWARDER_APPLY_READ | DNS_RESOLVER_APPLY_READ | VPN_IPSEC_APPLY_READ
  | VPN_WIREGUARD_APPLY_READ | VPN_WIREGUARD_TUNNEL_ADDRESS_READ | VPN_WIREGUARD_SETTINGS_READ
  | SERVICES_HAPROXY_READ | SERVICES_SERVICE_WATCHDOG_READ | VPN_WIREGUARD_TUNNELS_READ
  | VPN_WIREGUARD_PEERS_READ | VPN_IPSEC_PHASE1_READ | VPN_OPENVPN_CLIENT_READ
  | USER_AUTH_SERVER_READ | FIREWALL_WRITE | ALIAS_WRITE
  | SERVICE_WRITE | NTP_TIME_SERVER_PREFER_WRITE | NTP_SETTINGS_OBSERVABILITY_WRITE
  | LOG_DISPLAY_PREFERENCES_WRITE | LOG_RETENTION_SETTINGS_WRITE | SYSTEM_TIMEZONE_WRITE.

(** [capability.name] *)
Definition capability_name (c : Capability) : pystr :=
  match c with
  | SYSTEM_READ => u "SYSTEM_READ"
  | INTERFACE_READ => u "INTERFACE_READ"
  | GATEWAY_READ => u "GATEWAY_READ"
  | FIREWALL_READ => u "FIREWALL_READ"
  | ALIAS_READ => u "ALIAS_READ"
  | SERVICE_READ => u "SERVICE_READ"
  | SYSTEM_INFO_READ => u "SYSTEM_INFO_READ"
  | INTERFACE_CONFIG_READ => u "INTERFACE_CONFIG_READ"
  | FIREWALL_NAT_READ => u "FIREWALL_NAT_READ"
  | USER_READ => u "USER_READ"
  | SYSTEM_CERTIFICATE_READ => u "SYSTEM_CERTIFICATE_READ"
  | USER_GROUP_READ => u "USER_GROUP_READ"
  | DHCP_LEASE_READ => u "DHCP_LEASE_READ"
  | DHCP_STATIC_MAPPING_READ => u "DHCP_STATIC_MAPPING_READ"
  | DHCP_SERVER_READ => u "DHCP_SERVER_READ"
  | INTERFACE_VIRTUAL_READ => u "INTERFACE_VIRTUAL_READ"
  | STATUS_CARP_READ => u "STATUS_CARP_READ"
  | SYSTEM_RESTAPI_SETTINGS_READ => u "SYSTEM_RESTAPI_SETTINGS_READ"
  | SYSTEM_HA_SYNC_READ => u "SYSTEM_HA_SYNC_READ"
  | SERVICES_DNS_RESOLVER_READ => u "SERVICES_DNS_RESOLVER_READ"
  | DIAGNOSTICS_ARP_READ => u "DIAGNOSTICS_ARP_READ"
  | FIREWALL_TRAFFIC_SHAPER_READ => u "FIREWALL_TRAFFIC_SHAPER_READ"
  | FIREWALL_ADVANCED_SETTINGS_READ => u "FIREWALL_ADVANCED_SETTINGS_READ"
  | SYSTEM_PACKAGE_READ => u "SYSTEM_PACKAGE_READ"
  | SYSTEM_TUNABLE_READ => u "SYSTEM_TUNABLE_READ"
  | SYSTEM_NOTIFICATIONS_READ => u "SYSTEM_NOTIFICATIONS_READ"
  | SERVICES_BIND_READ => u "SERVICES_BIND_READ"
  | SERVICES_NTP_READ => u "SERVICES_NTP_READ"
  | SERVICES_SSH_READ => u "SERVICES_SSH_READ"
  | SERVICES_CRON_READ => u "SERVICES_CRON_READ"
  | SERVICES_ACME_READ => u "SERVICES_ACME_READ"
  | SERVICES_FREERADIUS_READ => u "SERVICES_FREERADIUS_READ"
  | DIAGNOSTICS_TABLES_READ => u "DIAGNOSTICS_TABLES_READ"
  | AUTH_KEYS_READ => u "AUTH_KEYS_READ"
  | SERVER_INFO_READ => u "SERVER_INFO_READ"
  | INTERFACE_VLAN_READ => u "INTERFACE_VLAN_READ"
  | ROUTING_STATIC_ROUTE_READ => u "ROUTING_STATIC_ROUTE_READ"
  | INTERFACE_GROUP_READ => u "INTERFACE_GROUP_READ"
  | FIREWALL_SCHEDULE_READ => u "FIREWALL_SCHEDULE_READ"
  | SYSTEM_RESTAPI_VERSION_READ => u "SYSTEM_RESTAPI_VERSION_READ"
  | FIREWALL_VIRTUAL_IP_READ => u "FIREWALL_VIRTUAL_IP_READ"
  | SYSTEM_CERTIFICATE_AUTHORITY_READ => u "SYSTEM_CERTIFICATE_AUTHORITY_READ"
  | STATUS_IPSEC_SA_READ => u "STATUS_IPSEC_SA_READ"
  | STATUS_IPSEC_CHILD_SA_READ => u "STATUS_IPSEC_CHILD_SA_READ"
  | STATUS_WIREGUARD_TUNNEL_READ => u "STATUS_WIREGUARD_TUNNEL_READ"
  | STATUS_WIREGUARD_PEER_READ => u "STATUS_WIREGUARD_PEER_READ"
  | STATUS_OPENVPN_SERVER_READ => u "STATUS_OPENVPN_SERVER_READ"
  | STATUS_OPENVPN_CLIENT_READ => u "STATUS_OPENVPN_CLIENT_READ"
  | STATUS_OPENVPN_SERVER_CONNECTION_READ => u "STATUS_OPENVPN_SERVER_CONNECTION_READ"
  | STATUS_OPENVPN_SERVER_ROUTE_READ => u "STATUS_OPENVPN_SERVER_ROUTE_READ"
  | DNS_FORWARDER_HOST_OVERRIDE_READ => u "DNS_FORWARDER_HOST_OVERRIDE_READ"
  | DNS_RESOLVER_DOMAIN_OVERRIDE_READ => u "DNS_RESOLVER_DOMAIN_OVERRIDE_READ"
  | DNS_RESOLVER_ACCESS_LIST_READ => u "DNS_RESOLVER_ACCESS_LIST_READ"
  | INTERFACE_AVAILABLE_INTERFACE_READ => u "INTERFACE_AVAILABLE_INTERFACE_READ"
  | INTERFACE_GRE_READ => u "INTERFACE_GRE_READ"
  | INTERFACE_LAGG_READ => u "INTERFACE_LAGG_READ"
  | ROUTING_GATEWAY_GROUP_READ => u "ROUTING_GATEWAY_GROUP_READ"
  | ROUTING_GATEWAY_DEFAULT_READ => u "ROUTING_GATEWAY_DEFAULT_READ"
  | DHCP_RELAY_READ => u "DHCP_RELAY_READ"
  | DHCP_SERVER_ADDRESS_POOL_READ => u "DHCP_SERVER_ADDRESS_POOL_READ"
  | DHCP_SERVER_CUSTOM_OPTION_READ => u "DHCP_SERVER_CUSTOM_OPTION_READ"
  | SYSTEM_HOSTNAME_READ => u "SYSTEM_HOSTNAME_READ"
  | SYSTEM_TIMEZONE_READ => u "SYSTEM_TIMEZONE_READ"
  | SYSTEM_DNS_READ => u "SYSTEM_DNS_READ"
  | SYSTEM_CONSOLE_READ => u "SYSTEM_CONSOLE_READ"
  | SYSTEM_WEBGUI_SETTINGS_READ => u "SYSTEM_WEBGUI_SETTINGS_READ"
  | SYSTEM_RESTAPI_ACCESS_LIST_READ => u "SYSTEM_RESTAPI_ACCESS_LIST_READ"
  | SYSTEM_CRLS_READ => u "SYSTEM_CRLS_READ"
  | SYSTEM_PACKAGE_AVAILABLE_READ => u "SYSTEM_PACKAGE_AVAILABLE_READ"
  | FIREWALL_TRAFFIC_SHAPERS_READ => u "FIREWALL_TRAFFIC_SHAPERS_READ"
  | VPN_IPSEC_PHASE2_READ => u "VPN_IPSEC_PHASE2_READ"
  | VPN_IPSEC_PHASE1_ENCRYPTION_READ => u "VPN_IPSEC_PHASE1_ENCRYPTION_READ"
  | VPN_IPSEC_PHASE2_ENCRYPTION_READ => u "VPN_IPSEC_PHASE2_ENCRYPTION_READ"
  | VPN_OPENVPN_SERVER_READ => u "VPN_OPENVPN_SERVER_READ"
  | VPN_OPENVPN_CSO_READ => u "VPN_OPENVPN_CSO_READ"
  | DIAGNOSTICS_CONFIG_HISTORY_REVISION_READ => u "DIAGNOSTICS_CONFIG_HISTORY_REVISION_READ"
  | STATUS_LOGS_SETTINGS_READ => u "STATUS_LOGS_SETTINGS_READ"
  | FIREWALL_VIRTUAL_IP_APPLY_READ => u "FIREWALL_VIRTUAL_IP_APPLY_READ"
  | INTERFACE_APPLY_READ => u "INTERFACE_APPLY_READ"
  | ROUTING_APPLY_READ => u "ROUTING_APPLY_READ"
  | DHCP_SERVER_APPLY_READ => u "DHCP_SERVER_APPLY_READ"
  | DNS_FORWARDER_APPLY_READ => u "DNS_FORWARDER_APPLY_READ"
  | DNS_RESOLVER_APPLY_READ => u "DNS_RESOLVER_APPLY_READ"
  | VPN_IPSEC_APPLY_READ => u "VPN_IPSEC_APPLY_READ"
  | VPN_WIREGUARD_APPLY_READ => u "VPN_WIREGUARD_APPLY_READ"
  | VPN_WIREGUARD_TUNNEL_ADDRESS_READ => u "VPN_WIREGUARD_TUNNEL_ADDRESS_READ"
  | VPN_WIREGUARD_SETTINGS_READ => u "VPN_WIREGUARD_SETTINGS_READ"
  | SERVICES_HAPROXY_READ => u "SERVICES_HAPROXY_READ"
  | SERVICES_SERVICE_WATCHDOG_READ => u "SERVICES_SERVICE_WATCHDOG_READ"
  | VPN_WIREGUARD_TUNNELS_READ => u "VPN_WIREGUARD_TUNNELS_READ"
  | VPN_WIREGUARD_PEERS_READ => u "VPN_WIREGUARD_PEERS_READ"
  | VPN_IPSEC_PHASE1_READ => u "VPN_IPSEC_PHASE1_READ"
  | VPN_OPENVPN_CLIENT_READ => u "VPN_OPENVPN_CLIENT_READ"
  | USER_AUTH_SERVER_READ => u "USER_AUTH_SERVER_READ"
  | FIREWALL_WRITE => u "FIREWALL_WRITE"
  | ALIAS_WRITE => u "ALIAS_WRITE"
  | SERVICE_WRITE => u "SERVICE_WRITE"
  | NTP_TIME_SERVER_PREFER_WRITE => u "NTP_TIME_SERVER_PREFER_WRITE"
  | NTP_SETTINGS_OBSERVABILITY_WRITE => u "NTP_SETTINGS_OBSERVABILITY_WRITE"
  | LOG_DISPLAY_PREFERENCES_WRITE => u "LOG_DISPLAY_PREFERENCES_WRITE"
  | LOG_RETENTION_SETTINGS_WRITE => u "LOG_RETENTION_SETTINGS_WRITE"
  | SYSTEM_TIMEZONE_WRITE => u "SYSTEM_TIMEZONE_WRITE"
  end.

(** [list(Capability)], in declaration order. *)
Definition all_capabilities : list Capability := [
  SYSTEM_READ; INTERFACE_READ; GATEWAY_READ;
  FIREWALL_READ; ALIAS_READ; SERVICE_READ;
  SYSTEM_INFO_READ; INTERFACE_CONFIG_READ; FIREWALL_NAT_READ;
  USER_READ; SYSTEM_CERTIFICATE_READ; USER_GROUP_READ;
  DHCP_LEASE_READ; DHCP_STATIC_MAPPING_READ; DHCP_SERVER_READ;
  INTERFACE_VIRTUAL_READ; STATUS_CARP_READ; SYSTEM_RESTAPI_SETTINGS_READ;
  SYSTEM_HA_SYNC_READ; SERVICES_DNS_RESOLVER_READ; DIAGNOSTICS_ARP_READ;
  FIREWALL_TRAFFIC_SHAPER_READ; FIREWALL_ADVANCED_SETTINGS_READ; SYSTEM_PACKAGE_READ;
  SYSTEM_TUNABLE_READ; SYSTEM_NOTIFICATIONS_READ; SERVICES_BIND_READ;
  SERVICES_NTP_READ; SERVICES_SSH_READ; SERVICES_CRON_READ;
  SERVICES_ACME_READ; SERVICES_FREERADIUS_READ; DIAGNOSTICS_TABLES_READ;
  AUTH_KEYS_READ; SERVER_INFO_READ; INTERFACE_VLAN_READ;
  ROUTING_STATIC_ROUTE_READ; INTERFACE_GROUP_READ; FIREWALL_SCHEDULE_READ;
  SYSTEM_RESTAPI_VERSION_READ; FIREWALL_VIRTUAL_IP_READ; SYSTEM_CERTIFICATE_AUTHORITY_READ;
  STATUS_IPSEC_SA_READ; STATUS_IPSEC_CHILD_SA_READ; STATUS_WIREGUARD_TUNNEL_READ;
  STATUS_WIREGUARD_PEER_READ; STATUS_OPENVPN_SERVER_READ; STATUS_OPENVPN_CLIENT_READ;
  STATUS_OPENVPN_SERVER_CONNECTION_READ; STATUS_OPENVPN_SERVER_ROUTE_READ; DNS_FORWARDER_HOST_OVERRIDE_READ;
  DNS_RESOLVER_DOMAIN_OVERRIDE_READ; DNS_RESOLVER_ACCESS_LIST_READ; INTERFACE_AVAILABLE_INTERFACE_READ;
  INTERFACE_GRE_READ; INTERFACE_LAGG_READ; ROUTING_GATEWAY_GROUP_READ;
  ROUTING_GATEWAY_DEFAULT_READ; DHCP_RELAY_READ; DHCP_SERVER_ADDRESS_POOL_READ;
  DHCP_SERVER_CUSTOM_OPTION_READ; SYSTEM_HOSTNAME_READ; SYSTEM_TIMEZONE_READ;
  SYSTEM_DNS_READ; SYSTEM_CONSOLE_READ; SYSTEM_WEBGUI_SETTINGS_READ;
  SYSTEM_RESTAPI_ACCESS_LIST_READ; SYSTEM_CRLS_READ; SYSTEM_PACKAGE_AVAILABLE_READ;
  FIREWALL_TRAFFIC_SHAPERS_READ; VPN_IPSEC_PHASE2_READ; VPN_IPSEC_PHASE1_ENCRYPTION_READ;
  VPN_IPSEC_PHASE2_ENCRYPTION_READ; VPN_OPENVPN_SERVER_READ; VPN_OPENVPN_CSO_READ;
  DIAGNOSTICS_CONFIG_HISTORY_REVISION_READ; STATUS_LOGS_SETTINGS_READ; FIREWALL_VIRTUAL_IP_APPLY_READ;
  INTERFACE_APPLY_READ; ROUTING_APPLY_READ; DHCP_SERVER_APPLY_READ;
  DNS_FORWARDER_APPLY_READ; DNS_RESOLVER_APPLY_READ; VPN_IPSEC_APPLY_READ;
  VPN_WIREGUARD_APPLY_READ; VPN_WIREGUARD_TUNNEL_ADDRESS_READ; VPN_WIREGUARD_SETTINGS_READ;
  SERVICES_HAPROXY_READ; SERVICES_SERVICE_WATCHDOG_READ; VPN_WIREGUARD_TUNNELS_READ;
  VPN_WIREGUARD_PEERS_READ; VPN_IPSEC_PHASE1_READ; VPN_OPENVPN_CLIENT_READ;
  USER_AUTH_SERVER_READ; FIREWALL_WRITE; ALIAS_WRITE;
  SERVICE_WRITE; NTP_TIME_SERVER_PREFER_WRITE; NTP_SETTINGS_OBSERVABILITY_WRITE;
  LOG_DISPLAY_PREFERENCES_WRITE; LOG_RETENTION_SETTINGS_WRITE; SYSTEM_TIMEZONE_WRITE].

Definition READ_CAPABILITIES : list Capability := [
  SYSTEM_READ; INTERFACE_READ; GATEWAY_READ;
  FIREWALL_READ; ALIAS_READ; SERVICE_READ;
  SYSTEM_INFO_READ; INTERFACE_CONFIG_READ; FIREWALL_NAT_READ;
  USER_READ; SYSTEM_CERTIFICATE_READ; USER_GROUP_READ;
  DHCP_LEASE_READ; DHCP_STATIC_MAPPING_READ; DHCP_SERVER_READ;
  INTERFACE_VIRTUAL_READ; STATUS_CARP_READ; SYSTEM_RESTAPI_SETTINGS_READ;
  SYSTEM_HA_SYNC_READ; SERVICES_DNS_RESOLVER_READ; DIAGNOSTICS_ARP_READ;
  FIREWALL_TRAFFIC_SHAPER_READ; FIREWALL_ADVANCED_SETTINGS_READ; SYSTEM_PACKAGE_READ;
  SYSTEM_TUNABLE_READ; SYSTEM_NOTIFICATIONS_READ; SERVICES_BIND_READ;
  SERVICES_NTP_READ; SERVICES_SSH_READ; SERVICES_CRON_READ;
  SERVICES_ACME_READ; SERVICES_FREERADIUS_READ; DIAGNOSTICS_TABLES_READ;
  AUTH_KEYS_READ; SERVER_INFO_READ; INTERFACE_VLAN_READ;
  ROUTING_STATIC_ROUTE_READ; INTERFACE_GROUP_READ; FIREWALL_SCHEDULE_READ;
  SYSTEM_RESTAPI_VERSION_READ; FIREWALL_VIRTUAL_IP_READ; SYSTEM_CERTIFICATE_AUTHORITY_READ;
  STATUS_IPSEC_SA_READ; STATUS_IPSEC_CHILD_SA_READ; STATUS_WIREGUARD_TUNNEL_READ;
  STATUS_WIREGUARD_PEER_READ; STATUS_OPENVPN_SERVER_READ; STATUS_OPENVPN_CLIENT_READ;
  STATUS_OPENVPN_SERVER_CONNECTION_READ; STATUS_OPENVPN_SERVER_ROUTE_READ; DNS_FORWARDER_HOST_OVERRIDE_READ;
  DNS_RESOLVER_DOMAIN_OVERRIDE_READ; DNS_RESOLVER_ACCESS_LIST_READ; INTERFACE_AVAILABLE_INTERFACE_READ;
  INTERFACE_GRE_READ; INTERFACE_LAGG_READ; ROUTING_GATEWAY_GROUP_READ;
  ROUTING_GATEWAY_DEFAULT_READ; DHCP_RELAY_READ; DHCP_SERVER_ADDRESS_POOL_READ;
  DHCP_SERVER_CUSTOM_OPTION_READ; SYSTEM_HOSTNAME_READ; SYSTEM_TIMEZONE_READ;
  SYSTEM_DNS_READ; SYSTEM_CONSOLE_READ; SYSTEM_WEBGUI_SETTINGS_READ;
  SYSTEM_RESTAPI_ACCESS_LIST_READ; SYSTEM_CRLS_READ; SYSTEM_PACKAGE_AVAILABLE_READ;
  FIREWALL_TRAFFIC_SHAPERS_READ; VPN_IPSEC_PHASE2_READ; VPN_IPSEC_PHASE1_ENCRYPTION_READ;
  VPN_IPSEC_PHASE2_ENCRYPTION_READ; VPN_OPENVPN_SERVER_READ; VPN_OPENVPN_CSO_READ;
  DIAGNOSTICS_CONFIG_HISTORY_REVISION_READ; STATUS_LOGS_SETTINGS_READ; FIREWALL_VIRTUAL_IP_APPLY_READ;
  INTERFACE_APPLY_READ; ROUTING_APPLY_READ; DHCP_SERVER_APPLY_READ;
  DNS_FORWARDER_APPLY_READ; DNS_RESOLVER_APPLY_READ; VPN_IPSEC_APPLY_READ;
  VPN_WIREGUARD_APPLY_READ; VPN_WIREGUARD_TUNNEL_ADDRESS_READ; VPN_WIREGUARD_SETTINGS_READ;
  SERVICES_HAPROXY_READ; SERVICES_SERVICE_WATCHDOG_READ; VPN_WIREGUARD_TUNNELS_READ;
  VPN_WIREGUARD_PEERS_READ; VPN_IPSEC_PHASE1_READ; VPN_OPENVPN_CLIENT_READ;
  USER_AUTH_SERVER_READ].

Definition SUPPORTED_CAPABILITIES_THIS_BUILD : list Capability := READ_CAPABILITIES.

(** [Capability[name]]: [KeyError] for an unknown name. *)
Definition capability_of_name (n : pystr) : result Capability :=
  of_option (find (λ c, pystr_eqb (capability_name c) n) all_capabilities) KeyError.

(** [s.endswith(t)] *)
Definition ends_with (t s : pystr) : bool := pystr_eqb (drop (length s - length t) s) t.

(** [capability.name.endswith("_WRITE")] *)
Definition is_write_capability (c : Capability) : bool := ends_with (u "_WRITE") (capability_name c).

Lemma capability_of_name_name c : capability_of_name (capability_name c) = Ok c.
Proof. destruct c; vm_compute; reflexivity. Qed.

Lemma capability_name_inj c d : capability_name c = capability_name d → c = d.
Proof.
  intros E. pose proof (capability_of_name_name c) as H.
  rewrite E, capability_of_name_name in H. by injection H.
Qed.

#[global] Instance Capability_eq_dec : EqDecision Capability.
Proof.
  refine (λ c d, cast_if (decide (capability_name c = capability_name d)));
    [by apply capability_name_inj|by intros ->].
Defined.

Definition capability_eqb (c d : Capability) : bool := pystr_eqb (capability_name c) (capability_name d).

Lemma capability_eqb_eq c d : capability_eqb c d = true ↔ c = d.
Proof.
  unfold capability_eqb. rewrite pystr_eqb_eq. split; [apply capability_name_inj|by intros ->].
Qed.

Lemma capability_name_ascii c : is_ascii (capability_name c) = true.
Proof. by destruct c. Qed.
