(* ===== verification/StateMachine.v ===== *)
(** * The recovery state machine, fault classification and security classes

    [tier1/state_machine.py] ([RecoveryState], [LEGAL_TRANSITIONS],
    [require_transition], [is_terminal], the blocking-idempotency states),
    [tier1/faults.py] ([classify_fault]) and [tier1/write_security_class.py]
    (the two execution policies).  The theorems describe the transition
    graph: which states free an idempotency key, through which states a
    contract must have passed, and that every automatic run is short. *)

From S2P Require Import Prelude PyStr.

(** ** States *)

Inductive RecoveryState : Type :=
  | PREPARING | PREPARED | EXECUTING | VERIFIED | FAILED
  | RECONCILIATION | ROLLING_BACK | ROLLED_BACK | ROLLBACK_FAILED | EXPIRED.

#[global] Instance RecoveryState_eq_dec : EqDecision RecoveryState.
Proof. solve_decision. Defined.

Definition state_eqb (s t : RecoveryState) : bool := bool_decide (s = t).

(** [state.value] *)
Definition state_value (s : RecoveryState) : pystr :=
  match s with
  | PREPARING => u "preparing"
  | PREPARED => u "prepared"
  | EXECUTING => u "executing"
  | VERIFIED => u "verified"
  | FAILED => u "failed"
  | RECONCILIATION => u "reconciliation"
  | ROLLING_BACK => u "rolling_back"
  | ROLLED_BACK => u "rolled_back"
  | ROLLBACK_FAILED => u "rollback_failed"
  | EXPIRED => u "expired"
  end.

Definition all_states : list RecoveryState :=
  [PREPARING; PREPARED; EXECUTING; VERIFIED; FAILED; RECONCILIATION;
   ROLLING_BACK; ROLLED_BACK; ROLLBACK_FAILED; EXPIRED].

(** [RecoveryState(value)]: [ValueError] for an unknown value. *)
Definition state_of_value (v : pystr) : result RecoveryState :=
  of_option (find (λ s, pystr_eqb (state_value s) v) all_states) ValueError.

(** ** Transitions *)

Record TransitionRule : Type := { manual_only : bool }.

Definition rule : option TransitionRule := Some {| manual_only := false |}.
Definition manual_rule : option TransitionRule := Some {| manual_only := true |}.

(** [LEGAL_TRANSITIONS.get(current, {}).get(target)] *)
Definition LEGAL_TRANSITIONS (current target : RecoveryState) : option TransitionRule :=
  match current, target with
  | PREPARING, PREPARED => rule
  | PREPARING, FAILED => rule
  | PREPARING, EXPIRED => rule
  | PREPARED, EXECUTING => rule
  | PREPARED, FAILED => rule
  | PREPARED, EXPIRED => rule
  | EXECUTING, VERIFIED => rule
  | EXECUTING, FAILED => rule
  | EXECUTING, RECONCILIATION => rule
  | VERIFIED, ROLLING_BACK => rule
  | ROLLING_BACK, ROLLED_BACK => rule
  | ROLLING_BACK, ROLLBACK_FAILED => rule
  | ROLLING_BACK, RECONCILIATION => rule
  | RECONCILIATION, VERIFIED => manual_rule
  | RECONCILIATION, FAILED => manual_rule
  | RECONCILIATION, ROLLING_BACK => manual_rule
  | RECONCILIATION, ROLLED_BACK => manual_rule
  | RECONCILIATION, ROLLBACK_FAILED => manual_rule
  | _, _ => None
  end.

(** [state in LEGAL_TRANSITIONS] *)
Definition has_transitions (s : RecoveryState) : bool :=
  existsb (λ t, if LEGAL_TRANSITIONS s t then true else false) all_states.

Definition require_transition (current target : RecoveryState) (manual : bool) : result () :=
  match LEGAL_TRANSITIONS current target with
  | None => Raise IllegalTransitionError
  | Some r => if manual_only r && negb manual then Raise IllegalTransitionError else Ok ()
  end.

Definition is_terminal (s : RecoveryState) : bool := negb (has_transitions s).

Definition BLOCKING_IDEMPOTENCY_STATES : list RecoveryState :=
  [PREPARING; PREPARED; EXECUTING; VERIFIED; RECONCILIATION; ROLLING_BACK; ROLLBACK_FAILED].

Definition blocks_fresh_idempotency_attempt (s : RecoveryState) : bool :=
  bool_decide (s ∈ BLOCKING_IDEMPOTENCY_STATES).

(** ** Fault classification *)

Inductive MutationBoundary : Type := BEFORE_SEND | DURING_SEND | AFTER_SEND | DURING_ROLLBACK.
Inductive EffectKnowledge : Type := PROVEN_NONE | VERIFIED_SUCCESS | AMBIGUOUS | VERIFIED_FAILURE.

#[global] Instance MutationBoundary_eq_dec : EqDecision MutationBoundary.
Proof. solve_decision. Defined.
#[global] Instance EffectKnowledge_eq_dec : EqDecision EffectKnowledge.
Proof. solve_decision. Defined.

Record FaultDecision : Type := {
  target_state : RecoveryState; automatic_retry : bool; manual_reconciliation : bool }.

Definition decision (t : RecoveryState) : FaultDecision :=
  {| target_state := t; automatic_retry := false; manual_reconciliation := false |}.

Definition classify_fault (boundary : MutationBoundary) (knowledge : EffectKnowledge) : FaultDecision :=
  if bool_decide (knowledge = AMBIGUOUS) then
    {| target_state := RECONCILIATION; automatic_retry := false; manual_reconciliation := true |}
  else if bool_decide (boundary = DURING_ROLLBACK) then
    if bool_decide (knowledge = VERIFIED_SUCCESS) then decision ROLLED_BACK else decision ROLLBACK_FAILED
  else if bool_decide (knowledge = VERIFIED_SUCCESS) then decision VERIFIED
  else decision FAILED.

(** ** Security classes *)

Inductive WriteSecurityClass : Type := STANDARD_SEALED_WRITE | HIGH_ASSURANCE_TIER1.

#[global] Instance WriteSecurityClass_eq_dec : EqDecision WriteSecurityClass.
Proof. solve_decision. Defined.

Definition security_class_value (c : WriteSecurityClass) : pystr :=
  match c with
  | STANDARD_SEALED_WRITE => u "standard_sealed_write"
  | HIGH_ASSURANCE_TIER1 => u "high_assurance_tier1"
  end.

(** [WriteSecurityClass(value)] *)
Definition security_class_of_value (v : pystr) : result WriteSecurityClass :=
  of_option (find (λ c, pystr_eqb (security_class_value c) v)
    [STANDARD_SEALED_WRITE; HIGH_ASSURANCE_TIER1]) ValueError.

(** An [ExecutionSecurityPolicy] is its class and whether it takes part in
    the witness protocol. *)
Record ExecutionSecurityPolicy : Type := {
  policy_class : WriteSecurityClass; participates_in_witness : bool }.

Definition HighAssuranceTier1ExecutionPolicy : ExecutionSecurityPolicy :=
  {| policy_class := HIGH_ASSURANCE_TIER1; participates_in_witness := true |}.
Definition StandardSealedExecutionPolicy : ExecutionSecurityPolicy :=
  {| policy_class := STANDARD_SEALED_WRITE; participates_in_witness := false |}.

Definition EXECUTION_POLICIES (c : WriteSecurityClass) : ExecutionSecurityPolicy :=
  match c with
  | HIGH_ASSURANCE_TIER1 => HighAssuranceTier1ExecutionPolicy
  | STANDARD_SEALED_WRITE => StandardSealedExecutionPolicy
  end.

(** ** Lemmas *)

Lemma state_of_value_value s : state_of_value (state_value s) = Ok s.
Proof. by destruct s. Qed.

Lemma state_value_inj s t : state_value s = state_value t → s = t.
Proof.
  intros E. pose proof (state_of_value_value s) as H. rewrite E, state_of_value_value in H.
  by injection H.
Qed.

Lemma state_value_in s (l : list RecoveryState) : state_value s ∈ state_value <$> l ↔ s ∈ l.
Proof.
  split; [|apply list_elem_of_fmap_2].
  by intros (t & ->%state_value_inj & Hs)%list_elem_of_fmap.
Qed.

Lemma security_class_of_value_value c : security_class_of_value (security_class_value c) = Ok c.
Proof. by destruct c. Qed.

Lemma state_value_ascii s : is_ascii (state_value s) = true.
Proof. by destruct s. Qed.

Lemma security_class_value_ascii c : is_ascii (security_class_value c) = true.
Proof. by destruct c. Qed.

(** One edge of the machine; [m] says whether the manual authority is used. *)
Definition edge (m : bool) (s t : RecoveryState) : Prop := require_transition s t m = Ok ().

Lemma edge_manual s t m : edge m s t → edge true s t.
Proof. unfold edge. by destruct m, s, t. Qed.

(** Histories: sequences of edges, each with its authority. *)
Inductive history : RecoveryState → list RecoveryState → RecoveryState → Prop :=
  | history_start s : history s [s] s
  | history_step s l t m t' : history s l t → edge m t t' → history s (l ++ [t']) t'.

(** A state that frees its idempotency key has no exit: a contract that
    stopped blocking never blocks again. *)
Lemma nonblocking_no_exit s t m :
  blocks_fresh_idempotency_attempt s = false → ¬ edge m s t.
Proof. unfold edge. by destruct s, t, m. Qed.

(** Distance to the end of an automatic run. *)
Definition rank (s : RecoveryState) : nat :=
  match s with
  | PREPARING => 6 | PREPARED => 5 | EXECUTING => 4 | VERIFIED => 3 | ROLLING_BACK => 2
  | RECONCILIATION | FAILED | ROLLED_BACK | ROLLBACK_FAILED | EXPIRED => 1
  end.

Lemma auto_edge_rank s t : edge false s t → (rank t < rank s)%nat.
Proof. unfold edge. destruct s, t; simpl; try done; lia. Qed.

Inductive auto_run : RecoveryState → nat → RecoveryState → Prop :=
  | auto_run_nil s : auto_run s 0 s
  | auto_run_cons s t r n : edge false s t → auto_run t n r → auto_run s (S n) r.

(** ** Properties *)

(** [C40] Every run of automatic transitions, from
    any state, takes at most five steps: only an authenticated manual
    resolution can prolong the life of a contract. *)
Theorem auto_run_bounded s n t : auto_run s n t → (n <= 5)%nat.
Proof.
  assert (∀ s n t, auto_run s n t → (n + rank t <= rank s)%nat) as H.
  { clear. intros s n t. induction 1 as [|s t r n He _ IH]; [lia|].
    apply auto_edge_rank in He. lia. }
  intros Hr. apply H in Hr. assert (1 <= rank t)%nat by (destruct t; simpl; lia).
  assert (rank s <= 6)%nat by (destruct s; simpl; lia). lia.
Qed.

(** A history from PREPARING that ends in a state with a possible
    real-world effect went through PREPARED and EXECUTING first. *)
Theorem effect_needs_executing l t :
  history PREPARING l t →
  t ∈ [EXECUTING; VERIFIED; RECONCILIATION; ROLLING_BACK; ROLLED_BACK; ROLLBACK_FAILED] →
  PREPARED ∈ l ∧ EXECUTING ∈ l.
Proof.
  intros H. remember PREPARING as s eqn:Es.
  assert (match t with
    | PREPARING => True
    | PREPARED => PREPARED ∈ l
    | FAILED | EXPIRED => True
    | _ => PREPARED ∈ l ∧ EXECUTING ∈ l
    end) as Hi.
  { induction H as [s|s l t m t' H IH He]; subst; [done|].
    specialize (IH eq_refl). unfold edge in He.
    destruct t, t', m; try discriminate He; try exact I; set_solver. }
  destruct t; set_solver.
Qed.

(** Every decision of the classifier is an edge the executor may take
    automatically, from EXECUTING on the forward path and from
    ROLLING_BACK on the rollback path; it never retries, and it asks for
    manual reconciliation exactly on an ambiguous effect. *)
Theorem classify_fault_sound b k :
  let d := classify_fault b k in
  edge false (if bool_decide (b = DURING_ROLLBACK) then ROLLING_BACK else EXECUTING) (target_state d) ∧
  automatic_retry d = false ∧
  (manual_reconciliation d = true ↔ k = AMBIGUOUS) ∧
  (target_state d = RECONCILIATION ↔ k = AMBIGUOUS).
Proof. by destruct b, k; vm_compute; repeat split; intros; try discriminate. Qed.

Lemma auto_run_bounded_witness :
  auto_run PREPARING 5 RECONCILIATION ∧ (5 <= 5)%nat.
Proof.
  assert (auto_run PREPARING 5 RECONCILIATION) as Hr.
  { apply (auto_run_cons _ PREPARED); [reflexivity|]. apply (auto_run_cons _ EXECUTING); [reflexivity|].
    apply (auto_run_cons _ VERIFIED); [reflexivity|]. apply (auto_run_cons _ ROLLING_BACK); [reflexivity|].
    apply (auto_run_cons _ RECONCILIATION); [reflexivity|]. constructor. }
  split; [exact Hr|exact (auto_run_bounded _ _ _ Hr)].
Defined.

Lemma effect_needs_executing_witness :
  PREPARED ∈ [PREPARING; PREPARED; EXECUTING; VERIFIED].
Proof.
  apply (effect_needs_executing [PREPARING; PREPARED; EXECUTING; VERIFIED] VERIFIED); [|in_list].
  apply (history_step _ [PREPARING; PREPARED; EXECUTING] EXECUTING false VERIFIED); [|reflexivity].
  apply (history_step _ [PREPARING; PREPARED] PREPARED false EXECUTING); [|reflexivity].
  apply (history_step _ [PREPARING] PREPARING false PREPARED); [constructor|reflexivity].
Defined.
