(* ===== verification/Canonical.v ===== *)
(** * Canonical values and digests

    [tier1/canonical.py]: the bounded normalisation of an arbitrary Python
    value ([_normalize], with its mutable node counter), the deterministic
    JSON text ([canonical_json]) and the domain-separated digest
    ([digest_value]).  [normalize_spec] gives the traversal's meaning
    without the counter; [canonical_json_inj] and [digest_value_inj] say
    what a signature or a digest over canonical bytes pins down. *)

From S2P Require Import Prelude PyStr Sha256 Json.

(** [unicodedata.normalize("NFC", s)], a table-driven function of the
    runtime: what the program relies on is that it is idempotent and leaves
    ASCII text unchanged. *)
Class UnicodeData : Type := {
  nfc : pystr → pystr;
  nfc_idem s : nfc (nfc s) = nfc s;
  nfc_ascii s : is_ascii s = true → nfc s = s;
}.

(** The value an arbitrary caller passes.  [PFloat] and [POther] stand for
    values of unsupported types; the items of a [dict] have distinct keys. *)
Inductive pyobj : Type :=
  | PNone
  | PBool (b : bool)
  | PInt (z : Z)
  | PFloat
  | PStr (s : pystr)
  | PList (l : list pyobj)
  | PTuple (l : list pyobj)
  | PDict (l : list (pyobj * pyobj))
  | POther.

Definition MAX_CANONICAL_DEPTH : N := 32.
Definition MAX_CANONICAL_NODES : N := 10000.
Definition MAX_CANONICAL_COLLECTION_ITEMS : N := 4096.
Definition MAX_CANONICAL_STRING_BYTES : N := 65536.
Definition MAX_CANONICAL_BYTES : N := 1048576.
Definition MIN_CANONICAL_INTEGER : Z := (- 2 ^ 63)%Z.
Definition MAX_CANONICAL_INTEGER : Z := (2 ^ 63 - 1)%Z.

Inductive DigestPurpose : Type :=
  | TARGET_IDENTITY | TARGET_FINGERPRINT | INTENT | SNAPSHOT | CONFIRMATION | IDEMPOTENCY
  | RECONCILIATION_PURPOSE | PLAN | PLAN_AUTHORIZATION | PLAN_AUTHORIZATION_V2
  | DEPROVISION_AUTHORIZATION | EXECUTION_INTENT | SETUP_PLAN.

Definition purpose_value (p : DigestPurpose) : pystr :=
  match p with
  | TARGET_IDENTITY => u "target-identity"
  | TARGET_FINGERPRINT => u "target-fingerprint"
  | INTENT => u "intent"
  | SNAPSHOT => u "snapshot"
  | CONFIRMATION => u "confirmation"
  | IDEMPOTENCY => u "idempotency"
  | RECONCILIATION_PURPOSE => u "reconciliation"
  | PLAN => u "plan"
  | PLAN_AUTHORIZATION => u "plan-authorization"
  | PLAN_AUTHORIZATION_V2 => u "plan-authorization-v2"
  | DEPROVISION_AUTHORIZATION => u "deprovision-authorization"
  | EXECUTION_INTENT => u "execution-intent"
  | SETUP_PLAN => u "setup-plan"
  end.

Definition DOMAIN_PREFIX : pystr := u "pfSense-MCP/Tier1/v1".

Definition blen (b : bytes) : N := N.of_nat (length b).

(** [value.encode("utf-8")] with the package's error. *)
Definition utf8_or_canonical_error (s : pystr) : result bytes :=
  try_except (utf8_encode s) (λ e,
    if bool_decide (e = UnicodeEncodeError) then Some (Raise CanonicalizationError) else None).

Definition frame_str (value : pystr) : result bytes :=
  encoded ← utf8_or_canonical_error value;
  _ ← require (blen encoded <=? MAX_CANONICAL_STRING_BYTES)%N CanonicalizationError;
  len ← int_to_bytes 4 (blen encoded);
  Ok (len ++ encoded).

Definition frame_bytes (value : bytes) : result bytes :=
  len ← int_to_bytes 4 (blen value);
  Ok (len ++ value).

Section canonical.
Context `{Hash} `{UnicodeData}.

Definition normalized_string (value : pystr) : result pystr :=
  let normalized := nfc value in
  encoded ← utf8_or_canonical_error normalized;
  _ ← require (blen encoded <=? MAX_CANONICAL_STRING_BYTES)%N CanonicalizationError;
  Ok normalized.

(** [[_normalize(item, ...) for item in value]]: [nodes] is the content of
    the one-element list the recursion mutates; it is threaded through. *)
Definition normalize_items (rec : pyobj → N → result (json * N)) :=
  fix items (l : list pyobj) (nodes : N) {struct l} : result (list json * N) :=
    match l with
    | [] => Ok ([], nodes)
    | item :: l =>
      '(x, nodes) ← rec item nodes;
      '(xs, nodes) ← items l nodes;
      Ok (x :: xs, nodes)
    end.

(** The loop over [value.items()]; [normalized] is the dict being built. *)
Definition normalize_entries (rec : pyobj → N → result (json * N)) :=
  fix entries (l : list (pyobj * pyobj)) (normalized : list (pystr * json)) (nodes : N) {struct l}
    : result (list (pystr * json) * N) :=
    match l with
    | [] => Ok (normalized, nodes)
    | (key, item) :: l =>
      match key with
      | PStr key =>
        normalized_key ← normalized_string key;
        if lookup_item normalized_key normalized then Raise CanonicalizationError else
        '(x, nodes) ← rec item nodes;
        entries l (normalized ++ [(normalized_key, x)]) nodes
      | _ => Raise CanonicalizationError
      end
    end.

(** [_normalize] *)
Fixpoint normalize (depth : N) (value : pyobj) (nodes : N) {struct value} : result (json * N) :=
  if (MAX_CANONICAL_DEPTH <? depth)%N then Raise CanonicalizationError else
  let nodes := (nodes + 1)%N in
  if (MAX_CANONICAL_NODES <? nodes)%N then Raise CanonicalizationError else
  match value with
  | PNone => Ok (JNull, nodes)
  | PBool b => Ok (JBool b, nodes)
  | PInt z =>
    if ((MIN_CANONICAL_INTEGER <=? z) && (z <=? MAX_CANONICAL_INTEGER))%Z
    then Ok (JInt z, nodes) else Raise CanonicalizationError
  | PFloat => Raise CanonicalizationError
  | PStr s => s ← normalized_string s; Ok (JStr s, nodes)
  | PList l | PTuple l =>
    if (MAX_CANONICAL_COLLECTION_ITEMS <? N.of_nat (length l))%N
    then Raise CanonicalizationError
    else '(xs, nodes) ← normalize_items (normalize (depth + 1)) l nodes; Ok (JList xs, nodes)
  | PDict l =>
    if (MAX_CANONICAL_COLLECTION_ITEMS <? N.of_nat (length l))%N
    then Raise CanonicalizationError
    else '(xs, nodes) ← normalize_entries (normalize (depth + 1)) l [] nodes; Ok (JObj xs, nodes)
  | POther => Raise CanonicalizationError
  end.

Definition validate_canonical_value (value : pyobj) : result json :=
  '(v, _) ← normalize 0 value 0; Ok v.

Definition canonical_json (value : pyobj) : result bytes :=
  normalized ← validate_canonical_value value;
  encoded ← utf8_encode (dumps false [] normalized);
  _ ← require (blen encoded <=? MAX_CANONICAL_BYTES)%N CanonicalizationError;
  Ok encoded.

(** The concatenation of the framed parts of a digest's domain. *)
Fixpoint frame_all (parts : list pystr) : result bytes :=
  match parts with
  | [] => Ok []
  | p :: parts => a ← frame_str p; b ← frame_all parts; Ok (a ++ b)
  end.

(** The bytes fed to the hasher. *)
Definition digest_preimage (purpose : DigestPurpose) (value : pyobj) (context : list pystr) : result bytes :=
  _ ← require (length context <=? 16)%nat CanonicalizationError;
  domain ← frame_all (DOMAIN_PREFIX :: purpose_value purpose :: context);
  payload ← canonical_json value;
  body ← frame_bytes payload;
  Ok (domain ++ body).

Definition digest_value (purpose : DigestPurpose) (value : pyobj) (context : list pystr) : result pystr :=
  preimage ← digest_preimage purpose value context;
  Ok (sha256_hex preimage).
End canonical.

(** A canonical value as the Python object it is. *)
Fixpoint py_of_json (v : json) : pyobj :=
  match v with
  | JNull => PNone
  | JBool b => PBool b
  | JInt z => PInt z
  | JFloat _ => PFloat
  | JStr s => PStr s
  | JList l => PList (map py_of_json l)
  | JObj l => PDict (map (λ kv, (PStr (fst kv), py_of_json (snd kv))) l)
  end.

Section pyobj_ind.
Context (P : pyobj → Prop).
Hypotheses (Hnone : P PNone) (Hbool : ∀ b, P (PBool b)) (Hint : ∀ z, P (PInt z))
  (Hfloat : P PFloat) (Hstr : ∀ s, P (PStr s))
  (Hlist : ∀ l, Forall P l → P (PList l)) (Htuple : ∀ l, Forall P l → P (PTuple l))
  (Hdict : ∀ l, Forall (λ kv, P (snd kv)) l → P (PDict l)) (Hother : P POther).

Fixpoint pyobj_ind' (v : pyobj) : P v :=
  let go := fix go (l : list pyobj) : Forall P l :=
    match l with [] => Forall_nil_2 _ | v :: l => Forall_cons_2 _ _ _ (pyobj_ind' v) (go l) end in
  match v with
  | PNone => Hnone
  | PBool b => Hbool b
  | PInt z => Hint z
  | PFloat => Hfloat
  | PStr s => Hstr s
  | PList l => Hlist l (go l)
  | PTuple l => Htuple l (go l)
  | PDict l => Hdict l
      ((fix god l : Forall (λ kv, P (snd kv)) l :=
          match l with
          | [] => Forall_nil_2 _
          | kv :: l => Forall_cons_2 _ _ _ (pyobj_ind' (snd kv)) (god l)
          end) l)
  | POther => Hother
  end.
End pyobj_ind.

(** ** The meaning of the traversal

    [denote] gives the canonical form without the node counter, [node_count]
    the number of visits. *)

Section denotation.
Context `{Hash} `{UnicodeData}.

Fixpoint node_count (v : pyobj) : N :=
  match v with
  | PList l | PTuple l => (1 + foldr N.add 0 (map node_count l))%N
  | PDict l => (1 + foldr N.add 0 (map (λ kv, node_count (snd kv)) l))%N
  | _ => 1%N
  end.

Definition ok_string (s : pystr) : option pystr :=
  match normalized_string s with Ok s => Some s | Raise _ => None end.

Definition denote_entries (rec : pyobj → option json) :=
  fix entries (l : list (pyobj * pyobj)) (acc : list (pystr * json)) {struct l}
    : option (list (pystr * json)) :=
    match l with
    | [] => Some acc
    | (key, item) :: l =>
      match key with
      | PStr key =>
        k ← ok_string key;
        if lookup_item k acc then None else x ← rec item; entries l (acc ++ [(k, x)])
      | _ => None
      end
    end.

Definition too_big {A} (l : list A) : bool :=
  (MAX_CANONICAL_COLLECTION_ITEMS <? N.of_nat (length l))%N.

Fixpoint denote (depth : N) (v : pyobj) {struct v} : option json :=
  if (MAX_CANONICAL_DEPTH <? depth)%N then None else
  match v with
  | PNone => Some JNull
  | PBool b => Some (JBool b)
  | PInt z => if ((MIN_CANONICAL_INTEGER <=? z) && (z <=? MAX_CANONICAL_INTEGER))%Z then Some (JInt z) else None
  | PFloat | POther => None
  | PStr s => JStr <$> ok_string s
  | PList l | PTuple l => if too_big l then None else JList <$> mapM (denote (depth + 1)) l
  | PDict l => if too_big l then None else JObj <$> denote_entries (denote (depth + 1)) l []
  end.

Definition counted {A} (o : option A) (nodes cost : N) : result (A * N) :=
  match o with
  | Some a => if (nodes + cost <=? MAX_CANONICAL_NODES)%N then Ok (a, (nodes + cost)%N) else Raise CanonicalizationError
  | None => Raise CanonicalizationError
  end.

Lemma utf8_or_canonical_error_raise s e :
  utf8_or_canonical_error s = Raise e → e = CanonicalizationError.
Proof.
  unfold utf8_or_canonical_error, try_except, utf8_encode. destruct (forallb is_scalar s); [done|].
  simpl. congruence.
Qed.

Lemma normalized_string_ok_string s :
  normalized_string s = match ok_string s with Some t => Ok t | None => Raise CanonicalizationError end.
Proof.
  unfold ok_string. destruct (normalized_string s) as [t|e] eqn:E; [done|]. f_equal.
  unfold normalized_string in E. apply bind_Raise in E as [E|(b & _ & E)].
  - by apply utf8_or_canonical_error_raise in E.
  - apply bind_Raise in E as [E|(? & _ & E)]; inv_result; done.
Qed.

Lemma node_count_pos v : (1 <= node_count v)%N.
Proof. destruct v; cbn [node_count]; lia. Qed.

Lemma counted_over {A} (o : option A) n c : (MAX_CANONICAL_NODES < n + c)%N → counted o n c = Raise CanonicalizationError.
Proof. intros. unfold counted. destruct o; [|done]. by rewrite (proj2 (N.leb_gt _ _)). Qed.

Lemma counted_within {A} (a : A) n c : (n + c <= MAX_CANONICAL_NODES)%N → counted (Some a) n c = Ok (a, (n + c)%N).
Proof. intros. unfold counted. by rewrite (proj2 (N.leb_le _ _)). Qed.

Lemma normalize_items_denote (rec : pyobj → N → result (json * N)) (den : pyobj → option json) l n :
  Forall (λ v, ∀ n, rec v n = counted (den v) n (node_count v)) l → (n <= MAX_CANONICAL_NODES)%N →
  normalize_items rec l n = counted (mapM den l) n (foldr N.add 0%N (map node_count l)).
Proof.
  intros Hl. revert n. induction Hl as [|v l Hv _ IH]; intros n Hn.
  - simpl. unfold counted. simpl. rewrite N.add_0_r. by rewrite (proj2 (N.leb_le _ _)).
  - cbn [normalize_items map foldr mapM]. rewrite Hv. unfold counted at 1.
    destruct (den v) as [x|]; [|done]. simpl (Some x ≫= _).
    destruct (N.leb_spec (n + node_count v) MAX_CANONICAL_NODES) as [Hle|Hgt].
    + simpl. rewrite IH by done. unfold counted. destruct (mapM den l); [|done]. simpl.
      rewrite N.add_assoc. by case_match.
    + by rewrite counted_over by lia.
Qed.

Lemma normalize_entries_denote (rec : pyobj → N → result (json * N)) (den : pyobj → option json) l acc n :
  Forall (λ kv, ∀ n, rec (snd kv) n = counted (den (snd kv)) n (node_count (snd kv))) l →
  (n <= MAX_CANONICAL_NODES)%N →
  normalize_entries rec l acc n =
    counted (denote_entries den l acc) n (foldr N.add 0%N (map (λ kv, node_count (snd kv)) l)).
Proof.
  intros Hl. revert acc n. induction Hl as [|[key v] l Hv _ IH]; intros acc n Hn.
  - simpl. unfold counted. rewrite N.add_0_r. by rewrite (proj2 (N.leb_le _ _)).
  - cbn [normalize_entries denote_entries map foldr fst snd] in *. destruct key; try done.
    rewrite normalized_string_ok_string. destruct (ok_string s) as [k|]; [|done]. simpl.
    destruct (lookup_item k acc); [done|]. rewrite Hv. unfold counted at 1.
    destruct (den v) as [x|]; [|done]. simpl (Some x ≫= _).
    destruct (N.leb_spec (n + node_count v) MAX_CANONICAL_NODES) as [Hle|Hgt].
    + simpl. rewrite IH by done. unfold counted. case_match; [|done]. by rewrite N.add_assoc.
    + by rewrite counted_over by lia.
Qed.

Lemma normalize_denote_counted v d n : normalize d v n = counted (denote d v) n (node_count v).
Proof.
  revert d n. induction v as [|b|z| |s|l IH|l IH|l IH|] using pyobj_ind'; intros d n;
    cbn [normalize denote]; (destruct (MAX_CANONICAL_DEPTH <? d)%N; [done|]);
    cbv zeta; (destruct (N.ltb_spec MAX_CANONICAL_NODES (n + 1)) as [Hgt|Hle];
      [rewrite counted_over; [done|];
       pose proof (node_count_pos PNone); cbn [node_count]; lia|]).
  - by rewrite counted_within.
  - by rewrite counted_within.
  - case_match; [by rewrite counted_within|done].
  - done.
  - rewrite normalized_string_ok_string. destruct (ok_string s) as [t|]; [|done].
    change (JStr <$> Some t) with (Some (JStr t)). by rewrite counted_within.
  - fold (too_big l). destruct (too_big l); [done|].
    rewrite (normalize_items_denote _ (denote (d + 1))); [|eapply Forall_impl; [exact IH|auto]|done].
    unfold counted. destruct (mapM _ l); [|done]. simpl. rewrite N.add_assoc. by case_match.
  - fold (too_big l). destruct (too_big l); [done|].
    rewrite (normalize_items_denote _ (denote (d + 1))); [|eapply Forall_impl; [exact IH|auto]|done].
    unfold counted. destruct (mapM _ l); [|done]. simpl. rewrite N.add_assoc. by case_match.
  - fold (too_big l). destruct (too_big l); [done|].
    rewrite (normalize_entries_denote _ (denote (d + 1))); [|eapply Forall_impl; [exact IH|auto]|done].
    unfold counted. destruct (denote_entries _ _ _); [|done]. simpl. rewrite N.add_assoc. by case_match.
  - done.
Qed.
End denotation.

(** ** Properties of the canonical form *)

Section canonical_form.
Context `{Hash} `{UnicodeData}.

Lemma ok_string_spec s t : ok_string s = Some t →
  t = nfc s ∧ ∃ b, utf8_encode t = Ok b ∧ (blen b <= MAX_CANONICAL_STRING_BYTES)%N.
Proof.
  unfold ok_string, normalized_string, utf8_or_canonical_error.
  destruct (utf8_encode (nfc s)) as [b|e] eqn:E; [|simpl; by case_bool_decide]. simpl.
  destruct (N.leb_spec (blen b) MAX_CANONICAL_STRING_BYTES); [|done].
  simpl. intros [= <-]. eauto.
Qed.

Lemma ok_string_idem s t : ok_string s = Some t → ok_string t = Some t.
Proof.
  intros (-> & b & Hb & Hle)%ok_string_spec.
  unfold ok_string, normalized_string, utf8_or_canonical_error. rewrite nfc_idem, Hb. simpl.
  by rewrite (proj2 (N.leb_le _ _)).
Qed.

Lemma ok_string_scalar s t : ok_string s = Some t → forallb is_scalar t = true.
Proof.
  intros (_ & b & Hb & _)%ok_string_spec. unfold utf8_encode in Hb. by destruct (forallb _ t).
Qed.

Lemma mapM_cons {A B} (f : A → option B) x l :
  mapM f (x :: l) = (y ← f x; k ← mapM f l; Some (y :: k)).
Proof. done. Qed.

(** One item of a dictionary. *)
Definition denote_entry (rec : pyobj → option json) (kv : pyobj * pyobj) : option (pystr * json) :=
  match kv.1 with
  | PStr key => k ← ok_string key; x ← rec kv.2; Some (k, x)
  | _ => None
  end.

(** The loop maps the items and requires the normalised keys distinct. *)
Lemma denote_entries_spec rec l acc :
  NoDup (acc.*1) →
  denote_entries rec l acc =
    es ← mapM (denote_entry rec) l;
    if decide (NoDup ((acc ++ es).*1)) then Some (acc ++ es) else None.
Proof.
  revert acc. induction l as [|[key v] l IH]; intros acc Hacc.
  { simpl. rewrite app_nil_r. by rewrite decide_True. }
  rewrite mapM_cons. cbn [denote_entries].
  destruct key as [| | | |s| | | |]; try done. cbn [denote_entry fst snd].
  destruct (ok_string s) as [k|]; [|done]. simpl.
  destruct (rec v) as [x|] eqn:Ex; simpl.
  2: { by case_match. }
  destruct (lookup_item k acc) as [y|] eqn:Ek.
  - destruct (mapM (denote_entry rec) l) as [es|]; [|done]. simpl.
    rewrite decide_False; [done|]. rewrite fmap_app, NoDup_app. intros (_ & Hd & _).
    apply (Hd k); [|by left]. clear -Ek. induction acc as [|[k' w] acc IH]; [done|]. simpl in *.
    destruct (pystr_eqb k k') eqn:E; [apply pystr_eqb_eq in E as ->; left|right; auto].
  - rewrite IH.
    2: { rewrite fmap_app, NoDup_app. split_and!; [done| |apply NoDup_singleton].
         intros z Hz Hz'. apply list_elem_of_singleton in Hz' as ->. clear -Ek Hz.
         induction acc as [|[k' w] acc IH]; [by apply elem_of_nil in Hz|]. simpl in *.
         destruct (pystr_eqb k k') eqn:E; [done|]. apply pystr_eqb_neq in E.
         apply elem_of_cons in Hz as [|]; [done|auto]. }
    destruct (mapM (denote_entry rec) l) as [es|]; [|done]. simpl.
    rewrite <-(assoc_L app). done.
Qed.

Lemma denote_dict depth l :
  (MAX_CANONICAL_DEPTH <? depth)%N = false →
  denote depth (PDict l) =
    if too_big l then None else
    es ← mapM (denote_entry (denote (depth + 1))) l;
    if decide (NoDup (es.*1)) then Some (JObj es) else None.
Proof.
  intros Hd. cbn [denote]. rewrite Hd. destruct (too_big l); [done|].
  rewrite denote_entries_spec by constructor. destruct (mapM _ l) as [es|]; [|done]. simpl.
  by case_decide.
Qed.

Lemma denote_shallow depth v j : denote depth v = Some j → (MAX_CANONICAL_DEPTH <? depth)%N = false.
Proof. destruct v; cbn [denote]; by destruct (MAX_CANONICAL_DEPTH <? depth)%N. Qed.

Lemma too_big_length {A B} (l : list A) (k : list B) : length l = length k → too_big l = too_big k.
Proof. unfold too_big. by intros ->. Qed.

(** What [denote] returns is written without floats, in encodable text,
    and is its own canonical form with the same number of nodes. *)
Definition canonical_at (depth : N) (v : pyobj) (j : json) : Prop :=
  json_ok j = true ∧ denote depth (py_of_json j) = Some j ∧ node_count (py_of_json j) = node_count v.

Lemma denote_list_canonical depth l xs :
  Forall (λ v, ∀ depth j, denote depth v = Some j → canonical_at depth v j) l →
  mapM (denote depth) l = Some xs →
  length xs = length l ∧
  forallb json_ok xs = true ∧ mapM (denote depth) (map py_of_json xs) = Some xs ∧
  map node_count (map py_of_json xs) = map node_count l.
Proof.
  intros Hl. revert xs. induction Hl as [|v l Hv _ IH]; intros xs Hm; [by injection Hm as <-|].
  rewrite mapM_cons in Hm.
  apply bind_Some in Hm as (x & Hx & Hm). apply bind_Some in Hm as (ys & Hys & Hm). injection Hm as <-.
  destruct (Hv _ _ Hx) as (Hok & Hd & Hc). destruct (IH _ Hys) as (Hlen & Hok' & Hd' & Hc').
  cbn [map length forallb]. rewrite mapM_cons, Hlen, Hok, Hok', Hd, Hc, Hd', Hc'. done.
Qed.

Lemma denote_entries_canonical depth l es :
  Forall (λ kv, ∀ depth j, denote depth kv.2 = Some j → canonical_at depth kv.2 j) l →
  mapM (denote_entry (denote depth)) l = Some es →
  length es = length l ∧
  forallb (λ kv, forallb is_scalar (fst kv) && json_ok (snd kv)) es = true ∧
  mapM (denote_entry (denote depth)) (map (λ kv, (PStr (fst kv), py_of_json (snd kv))) es) = Some es ∧
  map (λ kv, node_count (snd kv)) (map (λ kv, (PStr (fst kv), py_of_json (snd kv))) es)
    = map (λ kv, node_count (snd kv)) l.
Proof.
  intros Hl. revert es. induction Hl as [|[key v] l Hv _ IH]; intros es Hm; [by injection Hm as <-|].
  rewrite mapM_cons in Hm.
  apply bind_Some in Hm as ([k x] & Hx & Hm). apply bind_Some in Hm as (ys & Hys & Hm). injection Hm as <-.
  unfold denote_entry in Hx. simpl in Hx. destruct key as [| | | |s| | | |]; try done.
  apply bind_Some in Hx as (k' & Hk & Hx). apply bind_Some in Hx as (x' & Hx & E). injection E as <- <-.
  cbn [fst snd] in Hx, Hv.
  destruct (Hv _ _ Hx) as (Hok & Hd & Hc). destruct (IH _ Hys) as (Hlen & Hok' & Hd' & Hc').
  cbn [map length forallb fst snd].
  rewrite mapM_cons, Hlen, Hok, Hok', (ok_string_scalar _ _ Hk), Hc, Hd', Hc'.
  unfold denote_entry. cbn [fst snd]. by rewrite (ok_string_idem _ _ Hk), Hd.
Qed.

Lemma denote_canonical v depth j : denote depth v = Some j → canonical_at depth v j.
Proof.
  revert depth j. induction v as [|b|z| |s|l IH|l IH|l IH|] using pyobj_ind'; intros depth j Hj;
    pose proof (denote_shallow _ _ _ Hj) as Hd.
  9: { cbn [denote] in Hj. by rewrite Hd in Hj. }
  8: { rewrite denote_dict in Hj by done. destruct (too_big l) eqn:Hb; [done|].
    apply bind_Some in Hj as (es & Hes & Hj). case_decide as Hnd; [|done]. simplify_eq.
    apply denote_entries_canonical in Hes as (Hlen & Hok & Hm & Hc); [|done].
    unfold canonical_at. cbn [py_of_json json_ok]. split; [exact Hok|]. split.
    - rewrite denote_dict by done.
      rewrite (too_big_length _ l) by (rewrite length_map; exact Hlen). rewrite Hb.
      transitivity (Some es ≫= λ es, if decide (NoDup (es.*1)) then Some (JObj es) else None);
        [exact (f_equal (λ o, o ≫= _) Hm)|]. simpl. by rewrite decide_True.
    - cbn [node_count]. by rewrite Hc. }
  all: cbn [denote] in Hj; rewrite Hd in Hj.
  1-2: simplify_eq; unfold canonical_at; cbn [py_of_json denote]; by rewrite Hd.
  - case_match eqn:Hz; simplify_eq. unfold canonical_at. cbn [py_of_json denote]. by rewrite Hd, Hz.
  - done.
  - destruct (ok_string s) as [t|] eqn:Ht; [|done]. injection Hj as <-.
    unfold canonical_at. cbn [py_of_json denote json_ok]. rewrite Hd, (ok_string_idem _ _ Ht).
    by rewrite (ok_string_scalar _ _ Ht).
  - destruct (too_big l) eqn:Hb; [done|]. destruct (mapM _ l) as [xs|] eqn:Hm; [|done].
    injection Hj as <-. apply denote_list_canonical in Hm as (Hlen & Hok & Hm & Hc); [|done].
    unfold canonical_at. cbn [py_of_json denote json_ok node_count].
    rewrite Hd, (too_big_length _ l), Hb, Hm, Hc by (rewrite length_map; exact Hlen). done.
  - destruct (too_big l) eqn:Hb; [done|]. destruct (mapM _ l) as [xs|] eqn:Hm; [|done].
    injection Hj as <-. apply denote_list_canonical in Hm as (Hlen & Hok & Hm & Hc); [|done].
    unfold canonical_at. cbn [py_of_json denote json_ok node_count].
    rewrite Hd, (too_big_length _ l), Hb, Hm, Hc by (rewrite length_map; exact Hlen). done.
Qed.
End canonical_form.

(** ** What a canonical text or a digest pins down *)

Section injectivity.
Context `{Hash} `{UnicodeData}.

(** The canonical form: normalised, with the keys of every object sorted. *)
Definition canonical_form (v : pyobj) (j : json) : Prop :=
  ∃ w, validate_canonical_value v = Ok w ∧ j = sort_keys w.

Lemma validate_denote v j :
  validate_canonical_value v = Ok j ↔
    denote 0 v = Some j ∧ (node_count v <= MAX_CANONICAL_NODES)%N.
Proof.
  unfold validate_canonical_value. rewrite normalize_denote_counted. unfold counted. rewrite N.add_0_l.
  destruct (denote 0 v) as [w|]; [|simpl; naive_solver]. simpl.
  destruct (N.leb_spec (node_count v) MAX_CANONICAL_NODES) as [Hle|Hgt]; simpl.
  - split; [by intros [= <-]|by intros [[= <-] _]].
  - split; [done|]. intros [_ Hle]. by apply N.le_ngt in Hle.
Qed.

Lemma validate_json_ok v j : validate_canonical_value v = Ok j → json_ok j = true.
Proof. intros [Hd _]%validate_denote. by apply denote_canonical in Hd as (? & _). Qed.

Lemma canonical_json_text v b :
  canonical_json v = Ok b → ∃ j, validate_canonical_value v = Ok j ∧ utf8_encode (dumps false [] j) = Ok b.
Proof.
  unfold canonical_json. intros (j & Hj & (e & He & (() & _ & [= <-])%bind_Ok)%bind_Ok)%bind_Ok. eauto.
Qed.

Lemma canonical_json_form v v' b :
  canonical_json v = Ok b → canonical_json v' = Ok b →
  ∃ j, canonical_form v j ∧ canonical_form v' j.
Proof.
  intros (j & Hj & Hb)%canonical_json_text (j' & Hj' & Hb')%canonical_json_text.
  exists (sort_keys j). split; [by exists j|]. exists j'. split; [done|].
  eapply dumps_inj; [| |by eapply validate_json_ok|by eapply utf8_encode_inj]; [done|].
  by eapply validate_json_ok.
Qed.

(** Framed strings, as the list of their encodings. *)
Lemma frame_str_bytes s b :
  frame_str s = Ok b → ∃ e, utf8_encode s = Ok e ∧ frame_bytes e = Ok b.
Proof.
  unfold frame_str, utf8_or_canonical_error.
  intros (e & He & (() & _ & (l & Hl & Hb)%bind_Ok)%bind_Ok)%bind_Ok.
  destruct (utf8_encode s) as [e'|e'] eqn:E; simpl in He; [|by case_bool_decide]. simplify_eq/=.
  eexists. split; [done|]. unfold frame_bytes. by rewrite Hl.
Qed.

Lemma int_to_bytes_length k n b : int_to_bytes k n = Ok b → length b = k ∧ (n < 256 ^ N.of_nat k)%N ∧ b = be_split k n.
Proof.
  unfold int_to_bytes. destruct (N.ltb_spec n (256 ^ N.of_nat k)); [|done].
  intros [= <-]. by rewrite length_be_split.
Qed.

Lemma frame_bytes_inj x y bx by' r r' :
  frame_bytes x = Ok bx → frame_bytes y = Ok by' → bx ++ r = by' ++ r' → x = y ∧ r = r'.
Proof.
  unfold frame_bytes. intros (l & Hl & [= <-])%bind_Ok (k & Hk & [= <-])%bind_Ok E.
  apply int_to_bytes_length in Hl as (L1 & B1 & ->), Hk as (L2 & B2 & ->).
  rewrite <-!(assoc_L app) in E. apply app_inv_length in E as [E1 E2]; [|congruence].
  apply be_split_inj in E1; [|done..]. apply app_inv_length in E2; [done|]. unfold blen in E1. lia.
Qed.

Lemma frame_bytes_nonempty x b r : frame_bytes x = Ok b → b ++ r ≠ [].
Proof.
  unfold frame_bytes. intros (l & (L & _)%int_to_bytes_length & [= <-])%bind_Ok.
  by destruct l.
Qed.

(** A sequence of frames has one reading. *)
Fixpoint frame_seq (l : list bytes) : result bytes :=
  match l with
  | [] => Ok []
  | x :: l => a ← frame_bytes x; b ← frame_seq l; Ok (a ++ b)
  end.

Lemma frame_seq_inj l k b : frame_seq l = Ok b → frame_seq k = Ok b → l = k.
Proof.
  revert k b. induction l as [|x l IH]; intros [|y k] b Hl Hk; simpl in *.
  - done.
  - apply bind_Ok in Hk as (a & Ha & (r & Hr & [= E])%bind_Ok). injection Hl as <-.
    by apply (frame_bytes_nonempty _ _ r) in Ha.
  - apply bind_Ok in Hl as (a & Ha & (r & Hr & [= E])%bind_Ok). injection Hk as <-.
    by apply (frame_bytes_nonempty _ _ r) in Ha.
  - apply bind_Ok in Hl as (a & Ha & (r & Hr & [= <-])%bind_Ok).
    apply bind_Ok in Hk as (a' & Ha' & (r' & Hr' & [= E])%bind_Ok).
    destruct (frame_bytes_inj _ _ _ _ _ _ Ha' Ha E) as [-> ->]. f_equal. eauto.
Qed.

Lemma frame_seq_app l k a b :
  frame_seq l = Ok a → frame_seq k = Ok b → frame_seq (l ++ k) = Ok (a ++ b).
Proof.
  revert a. induction l as [|x l IH]; intros a Hl Hk; simpl in *; [by injection Hl as <-|].
  apply bind_Ok in Hl as (h & Hh & (r & Hr & [= <-])%bind_Ok).
  rewrite Hh. simpl. rewrite (IH _ Hr Hk). simpl. by rewrite (assoc_L app).
Qed.

Lemma frame_all_seq parts b :
  frame_all parts = Ok b → ∃ es, mapM (M:=result) utf8_encode parts = Ok es ∧ frame_seq es = Ok b.
Proof.
  revert b. induction parts as [|p parts IH]; intros b Hb; [by injection Hb as <-; exists []|].
  apply bind_Ok in Hb as (h & Hh & (r & Hr & [= <-])%bind_Ok).
  apply frame_str_bytes in Hh as (e & He & Hf). destruct (IH _ Hr) as (es & Hes & Hs).
  exists (e :: es). cbn [frame_seq]. rewrite Hf, Hs. split; [|done].
  change (mapM utf8_encode (p :: parts)) with (y ← utf8_encode p; k ← mapM (M:=result) utf8_encode parts; Ok (y :: k)).
  by rewrite He, Hes.
Qed.

Lemma mapM_encode_inj l k es :
  mapM (M:=result) utf8_encode l = Ok es → mapM (M:=result) utf8_encode k = Ok es → l = k.
Proof.
  revert k es. induction l as [|s l IH]; intros [|t k] es Hl Hk; [done|..].
  - apply bind_Ok in Hk as (a & Ha & (r & Hr & [= E])%bind_Ok). by injection Hl as <-.
  - apply bind_Ok in Hl as (a & Ha & (r & Hr & [= E])%bind_Ok). by injection Hk as <-.
  - apply bind_Ok in Hl as (a & Ha & (r & Hr & [= <-])%bind_Ok).
    apply bind_Ok in Hk as (a' & Ha' & (r' & Hr' & [= E])%bind_Ok). subst.
    f_equal; [by eapply utf8_encode_inj|]. by eapply IH.
Qed.

(** The framed parts and the final frame are recovered from their text. *)
Lemma frame_all_inj ps qs x y a b c d :
  frame_all ps = Ok a → frame_all qs = Ok c → frame_bytes x = Ok b → frame_bytes y = Ok d →
  a ++ b = c ++ d → ps = qs ∧ x = y.
Proof.
  intros (es & Hes & Ha)%frame_all_seq (fs & Hfs & Hc)%frame_all_seq Hb Hd E.
  assert (es ++ [x] = fs ++ [y]) as Heq.
  { apply (frame_seq_inj _ _ (a ++ b)); [|rewrite E]; apply frame_seq_app; try done; simpl.
    - rewrite Hb. simpl. by rewrite app_nil_r.
    - rewrite Hd. simpl. by rewrite app_nil_r. }
  apply app_inj_tail in Heq as [-> ->]. split; [|done]. by eapply mapM_encode_inj.
Qed.

Lemma purpose_value_inj p q : purpose_value p = purpose_value q → p = q.
Proof. by destruct p, q. Qed.

Lemma digest_preimage_inj p p' v v' c c' b :
  digest_preimage p v c = Ok b → digest_preimage p' v' c' = Ok b →
  p = p' ∧ c = c' ∧ ∃ j, canonical_form v j ∧ canonical_form v' j.
Proof.
  unfold digest_preimage.
  intros (() & _ & (a & Ha & (x & Hx & (bx & Hbx & [= <-])%bind_Ok)%bind_Ok)%bind_Ok)%bind_Ok
    (() & _ & (a' & Ha' & (y & Hy & (by' & Hby & [= E])%bind_Ok)%bind_Ok)%bind_Ok)%bind_Ok.
  destruct (frame_all_inj _ _ _ _ _ _ _ _ Ha' Ha Hby Hbx E) as [[= E1 ->] ->].
  apply purpose_value_inj in E1 as ->. split_and!; [done..|]. by eapply canonical_json_form.
Qed.

Lemma digest_value_preimage p v c d :
  digest_value p v c = Ok d → ∃ b, digest_preimage p v c = Ok b ∧ d = sha256_hex b.
Proof. unfold digest_value. intros (b & Hb & [= <-])%bind_Ok. eauto. Qed.

Lemma digest_value_match p v c d : digest_value p v c = Ok d → match_hex64 d = true.
Proof. intros (b & _ & ->)%digest_value_preimage. apply sha256_hex_match. Qed.

(** The two digests are equal because their own preimages collide. *)
Definition digest_collides (p : DigestPurpose) (v : pyobj) (c : list pystr)
    (p' : DigestPurpose) (v' : pyobj) (c' : list pystr) : Prop :=
  ∃ b b', digest_preimage p v c = Ok b ∧ digest_preimage p' v' c' = Ok b' ∧ hash_collides b b'.

Lemma digest_value_pins p p' v v' c c' d :
  digest_value p v c = Ok d → digest_value p' v' c' = Ok d →
  (p = p' ∧ c = c' ∧ ∃ j, canonical_form v j ∧ canonical_form v' j) ∨ digest_collides p v c p' v' c'.
Proof.
  intros (b & Hb & ->)%digest_value_preimage (b' & Hb' & Hd)%digest_value_preimage.
  apply sha256_hex_inj in Hd as [->|Hc]; [left; by eapply digest_preimage_inj|].
  right. by exists b, b'.
Qed.
End injectivity.


(** ** Insertion order and errors *)

Section order.
Context `{Hash} `{UnicodeData}.

Lemma mapM_perm {A B} (f : A → option B) l l' es :
  l ≡ₚ l' → mapM f l = Some es → ∃ es', mapM f l' = Some es' ∧ es ≡ₚ es'.
Proof.
  intros Hp. revert es. induction Hp as [|x l l' _ IH|x y l|l l' l'' _ IH1 _ IH2]; intros es Hes.
  - by exists es.
  - rewrite mapM_cons in *. apply bind_Some in Hes as (a & Ha & (r & Hr & [= <-])%bind_Some).
    destruct (IH _ Hr) as (r' & Hr' & Hp). exists (a :: r'). rewrite Ha, Hr'. by rewrite Hp.
  - rewrite !mapM_cons in *. apply bind_Some in Hes as (a & Ha & (r & Hr & [= <-])%bind_Some).
    apply bind_Some in Hr as (b & Hb & (r' & Hr' & [= <-])%bind_Some).
    exists (b :: a :: r'). rewrite Ha, Hb. simpl. rewrite Hr'. split; [done|]. constructor.
  - destruct (IH1 _ Hes) as (e1 & H1' & P1). destruct (IH2 _ H1') as (e2 & H2' & P2).
    exists e2. split; [done|]. by rewrite P1.
Qed.

Lemma denote_dict_perm depth l l' j :
  l ≡ₚ l' → denote depth (PDict l) = Some j →
  ∃ j', denote depth (PDict l') = Some j' ∧ sort_keys j = sort_keys j'.
Proof.
  intros Hp Hj. pose proof (denote_shallow _ _ _ Hj) as Hd. rewrite denote_dict in * by done.
  rewrite <-(too_big_length l l') by (by rewrite Hp). destruct (too_big l); [done|].
  apply bind_Some in Hj as (es & Hes & Hj). case_decide as Hnd; [|done]. injection Hj as <-.
  destruct (mapM_perm _ _ _ _ Hp Hes) as (es' & Hes' & Hpe). rewrite Hes'. simpl.
  rewrite decide_True by (by rewrite <-Hpe). eexists. split; [done|].
  cbn [sort_keys]. f_equal. apply sort_items_unique; [|by apply fmap_Permutation].
  rewrite <-list_fmap_compose. simpl. by rewrite (list_fmap_ext _ fst) by (by intros ? []).
Qed.

Lemma node_count_perm l l' : l ≡ₚ l' → node_count (PDict l) = node_count (PDict l').
Proof.
  intros Hp. cbn [node_count]. f_equal. induction Hp; simpl; lia.
Qed.

Lemma canonical_json_spec v :
  canonical_json v =
    match validate_canonical_value v with
    | Ok j => b ← utf8_encode (print false [] (sort_keys j));
              _ ← require (blen b <=? MAX_CANONICAL_BYTES)%N CanonicalizationError; Ok b
    | Raise e => Raise e
    end.
Proof. unfold canonical_json. by destruct (validate_canonical_value v). Qed.

Lemma validate_raise v e : validate_canonical_value v = Raise e → e = CanonicalizationError.
Proof.
  unfold validate_canonical_value. rewrite normalize_denote_counted. unfold counted.
  repeat case_match; simpl; congruence.
Qed.

Lemma validate_result v :
  validate_canonical_value v =
    match denote 0 v with
    | Some j => if (node_count v <=? MAX_CANONICAL_NODES)%N then Ok j else Raise CanonicalizationError
    | None => Raise CanonicalizationError
    end.
Proof.
  unfold validate_canonical_value. rewrite normalize_denote_counted. unfold counted.
  rewrite N.add_0_l. by repeat case_match.
Qed.

Lemma canonical_json_perm l l' : l ≡ₚ l' → canonical_json (PDict l) = canonical_json (PDict l').
Proof.
  intros Hp. rewrite !canonical_json_spec, !validate_result, (node_count_perm _ _ Hp).
  destruct (denote 0 (PDict l)) as [j|] eqn:Hj.
  - destruct (denote_dict_perm _ _ _ _ Hp Hj) as (j' & -> & E).
    destruct (node_count (PDict l') <=? MAX_CANONICAL_NODES)%N; [|done]. by rewrite E.
  - destruct (denote 0 (PDict l')) as [j'|] eqn:Hj'; [|done].
    destruct (denote_dict_perm _ _ _ _ (symmetry Hp) Hj') as (j'' & E & _). congruence.
Qed.

Lemma utf8_encode_ok s : forallb is_scalar s = true → ∃ b, utf8_encode s = Ok b.
Proof. unfold utf8_encode. intros ->. eauto. Qed.
End order.

(** ** Errors *)

Section errors.
Context `{Hash} `{UnicodeData}.

Lemma canonical_json_bound v b : canonical_json v = Ok b → (blen b <= MAX_CANONICAL_BYTES)%N.
Proof.
  unfold canonical_json. intros (j & _ & (x & _ & (() & Hle & [= <-])%bind_Ok)%bind_Ok)%bind_Ok.
  by apply N.leb_le, (require_Ok _ CanonicalizationError).
Qed.

Lemma canonical_json_error v e : canonical_json v = Raise e → e = CanonicalizationError.
Proof.
  rewrite canonical_json_spec. destruct (validate_canonical_value v) as [j|e'] eqn:Ej.
  - destruct (utf8_encode_ok (dumps false [] j)) as [b Hb].
    { apply dumps_scalar; [done|by eapply validate_json_ok]. }
    unfold dumps in Hb. rewrite Hb. simpl. by destruct (_ <=? _)%N; intros [= <-].
  - intros [= <-]. by apply validate_raise in Ej.
Qed.

Lemma frame_bytes_ok b : (blen b <= MAX_CANONICAL_BYTES)%N → ∃ f, frame_bytes b = Ok f.
Proof.
  intros Hb. unfold frame_bytes, int_to_bytes.
  rewrite (proj2 (N.ltb_lt _ _)); [by eexists|]. eapply N.le_lt_trans; [exact Hb|done].
Qed.

Lemma frame_str_error s e : frame_str s = Raise e → e = CanonicalizationError.
Proof.
  unfold frame_str. intros [He|(b & _ & Hb)]%bind_Raise; [by eapply utf8_or_canonical_error_raise|].
  destruct (N.leb_spec (blen b) MAX_CANONICAL_STRING_BYTES) as [Hle|]; [|by injection Hb as <-].
  simpl in Hb. unfold int_to_bytes in Hb. rewrite (proj2 (N.ltb_lt _ _)) in Hb; [done|].
  eapply N.le_lt_trans; [exact Hle|done].
Qed.

Lemma frame_all_error l e : frame_all l = Raise e → e = CanonicalizationError.
Proof.
  induction l as [|p l IH]; [done|].
  intros [He|(a & _ & [He|(? & _ & He)]%bind_Raise)]%bind_Raise; [by eapply frame_str_error|auto|done].
Qed.

Lemma digest_value_error p v c e : digest_value p v c = Raise e → e = CanonicalizationError.
Proof.
  unfold digest_value, digest_preimage.
  intros [[Hc|(() & _ & [Hd|(d & _ & [Hp|(b & Hb & [Hf|(? & _ & He)]%bind_Raise)]%bind_Raise)]%bind_Raise)]%bind_Raise|
          (? & _ & He)]%bind_Raise.
  - by apply require_Raise in Hc as [_ ->].
  - by eapply frame_all_error.
  - by eapply canonical_json_error.
  - apply canonical_json_bound, frame_bytes_ok in Hb as [f Hf']. congruence.
  - done.
  - done.
Qed.
End errors.

(** ** Dict literals *)

(** A dict literal with string keys. *)
Definition pdict (l : list (string * pyobj)) : pyobj :=
  PDict (map (λ kv, (PStr (u (fst kv)), snd kv)) l).

Section literals.
Context `{Hash} `{UnicodeData}.

Lemma ok_string_nfc s t : ok_string s = Some t → t = nfc s.
Proof. by intros (-> & _)%ok_string_spec. Qed.

Lemma literal_entry rec l es k v :
  mapM (denote_entry rec) (map (λ kv, (PStr (u (fst kv)), snd kv)) l) = Some es →
  (k, v) ∈ l → is_ascii (u k) = true → ∃ x, rec v = Some x ∧ (u k, x) ∈ es.
Proof.
  revert es. induction l as [|[k' v'] l IH]; intros es Hm Hin Hk; [by apply elem_of_nil in Hin|].
  cbn [map fst snd] in Hm. rewrite mapM_cons in Hm.
  apply bind_Some in Hm as ([key x] & He & (r & Hr & [= <-])%bind_Some).
  apply elem_of_cons in Hin as [[= <- <-]|Hin].
  - unfold denote_entry in He. cbn [fst snd] in He.
    apply bind_Some in He as (k' & ->%ok_string_nfc & (x' & Hx & [= <- <-])%bind_Some).
    rewrite nfc_ascii by done. exists x'. split; [done|]. left.
  - destruct (IH _ Hr Hin Hk) as (y & Hy & Hin'). exists y. split; [done|]. by right.
Qed.

Lemma elem_of_lookup_item {A} (l : list (pystr * A)) k x :
  NoDup (l.*1) → (k, x) ∈ l → lookup_item k l = Some x.
Proof.
  induction l as [|[k' y] l IH]; intros Hnd Hin; [by apply elem_of_nil in Hin|].
  inversion Hnd as [|?? Hni Hnd']; subst. simpl. destruct (pystr_eqb k k') eqn:E.
  - apply pystr_eqb_eq in E as ->. apply elem_of_cons in Hin as [[= ->]|Hin]; [done|].
    destruct Hni. apply list_elem_of_fmap. by exists (k', x).
  - apply pystr_eqb_neq in E. apply elem_of_cons in Hin as [[= -> ->]|Hin]; [done|]. auto.
Qed.

Lemma lookup_sorted_map {A B} (f : A → B) (es : list (pystr * A)) k x :
  NoDup (es.*1) → (k, x) ∈ es →
  lookup_item k (sort_items (map (λ kv, (fst kv, f (snd kv))) es)) = Some (f x).
Proof.
  intros Hnd Hin. set (fs := map _ es).
  assert (fs.*1 = es.*1) as Ek
    by (subst fs; clear; induction es as [|[k x] es IH]; [done|]; simpl; f_equal; exact IH).
  rewrite lookup_item_sort by (by rewrite Ek). apply elem_of_lookup_item; [by rewrite Ek|].
  apply list_elem_of_fmap. by exists (k, x).
Qed.

(** A key of a dict literal is found in the canonical form with the
    canonical form of its value. *)
Lemma literal_form l j k v :
  canonical_form (pdict l) j → (k, v) ∈ l → is_ascii (u k) = true →
  ∃ items x, j = JObj items ∧ denote 1 v = Some x ∧ lookup_item (u k) items = Some (sort_keys x).
Proof.
  intros (w & [Hd _]%validate_denote & ->) Hin Hk. unfold pdict in Hd.
  rewrite denote_dict in Hd by done. destruct (too_big _); [done|].
  apply bind_Some in Hd as (es & Hes & Hd). case_decide as Hnd; [|done]. injection Hd as <-.
  destruct (literal_entry _ _ _ _ _ Hes Hin Hk) as (x & Hx & Hin').
  eexists _, x. split_and!; [reflexivity|done|].
  by apply (lookup_sorted_map sort_keys es).
Qed.

(** Two dict literals with one canonical form agree at every common key. *)
Lemma literal_agree l l' j k v v' :
  canonical_form (pdict l) j → canonical_form (pdict l') j →
  (k, v) ∈ l → (k, v') ∈ l' → is_ascii (u k) = true →
  ∃ x x', denote 1 v = Some x ∧ denote 1 v' = Some x' ∧ sort_keys x = sort_keys x'.
Proof.
  intros Hj Hj' Hin Hin' Hk. destruct (literal_form _ _ _ _ Hj Hin Hk) as (it & x & -> & Hx & Hl).
  destruct (literal_form _ _ _ _ Hj' Hin' Hk) as (it' & x' & [= <-] & Hx' & Hl').
  exists x, x'. split_and!; [done..|]. congruence.
Qed.

Lemma denote_str d s x : denote d (PStr s) = Some x → is_ascii s = true → x = JStr s.
Proof.
  cbn [denote]. destruct (_ <? d)%N; [done|]. destruct (ok_string s) as [t|] eqn:E; [|done].
  intros [= <-] Hs. apply ok_string_nfc in E as ->. by rewrite nfc_ascii.
Qed.

Lemma literal_agree_str l l' j k s s' :
  canonical_form (pdict l) j → canonical_form (pdict l') j →
  (k, PStr s) ∈ l → (k, PStr s') ∈ l' → is_ascii (u k) = true →
  is_ascii s = true → is_ascii s' = true → s = s'.
Proof.
  intros Hj Hj' Hin Hin' Hk Hs Hs'.
  destruct (literal_agree _ _ _ _ _ _ Hj Hj' Hin Hin' Hk) as (x & x' & Hx & Hx' & E).
  apply denote_str in Hx as ->; [|done]. apply denote_str in Hx' as ->; [|done]. by injection E.
Qed.

Lemma literal_agree_int l l' j k z z' :
  canonical_form (pdict l) j → canonical_form (pdict l') j →
  (k, PInt z) ∈ l → (k, PInt z') ∈ l' → is_ascii (u k) = true → z = z'.
Proof.
  intros Hj Hj' Hin Hin' Hk.
  destruct (literal_agree _ _ _ _ _ _ Hj Hj' Hin Hin' Hk) as (x & x' & Hx & Hx' & E).
  cbn [denote] in Hx, Hx'. change (MAX_CANONICAL_DEPTH <? 1)%N with false in Hx, Hx'.
  cbv iota in Hx, Hx'. destruct ((MIN_CANONICAL_INTEGER <=? z) && _)%Z; [|done].
  destruct ((MIN_CANONICAL_INTEGER <=? z') && _)%Z; [|done]. by simplify_eq/=.
Qed.
End literals.

(** ** Properties *)

Section properties.
Context `{Hash} `{UnicodeData}.

(** The mutable node counter of the recursive traversal is exactly a
    bound on the total number of nodes: [_normalize], started with [n]
    visited nodes at depth [d], returns the canonical form that the
    counter-free [denote] gives, when it gives one and [n] plus the value's
    own nodes is within the limit, and raises [CanonicalizationError]
    (never anything else) otherwise. *)
Theorem normalize_refines v d n : normalize d v n = counted (denote d v) n (node_count v).
Proof. apply normalize_denote_counted. Qed.

(** [canonical_json] is total up to [CanonicalizationError], within
    the byte limit, and injective up to canonical form: it fails with no
    other exception, and two values with the same canonical text have the
    same canonical form (same scalars, same lists, same key/value pairs). *)
Theorem canonical_json_sound v :
  match canonical_json v with
  | Ok b => (blen b <= MAX_CANONICAL_BYTES)%N ∧
            ∀ w, canonical_json w = Ok b → ∃ j, canonical_form v j ∧ canonical_form w j
  | Raise e => e = CanonicalizationError
  end.
Proof.
  destruct (canonical_json v) as [b|e] eqn:E; [|by eapply canonical_json_error].
  split; [by eapply canonical_json_bound|]. intros w. by apply canonical_json_form.
Qed.

(** Validation is idempotent: a value already in canonical form (such
    as a decrypted artifact re-validated on every load) is accepted and
    unchanged. *)
Theorem validate_idempotent v j :
  validate_canonical_value v = Ok j → validate_canonical_value (py_of_json j) = Ok j.
Proof.
  intros [Hd Hn]%validate_denote. apply validate_denote.
  apply denote_canonical in Hd as (_ & Hd & ->). done.
Qed.

(** [C35] A digest pins down its purpose, its context and the canonical form
    of its value: two equal digests come from the same purpose, the same
    context components and values with one canonical form, unless their own
    preimages are a collision of SHA-256. *)
Theorem digest_domain_separation p p' v v' c c' d :
  digest_value p v c = Ok d → digest_value p' v' c' = Ok d →
  (p = p' ∧ c = c' ∧ ∃ j, canonical_form v j ∧ canonical_form v' j) ∨ digest_collides p v c p' v' c'.
Proof. apply digest_value_pins. Qed.

(** The insertion order of a dictionary changes neither its digest nor
    the exception raised for it. *)
Theorem digest_dict_order p c l l' :
  l ≡ₚ l' → digest_value p (PDict l) c = digest_value p (PDict l') c.
Proof.
  intros Hp. unfold digest_value, digest_preimage. by rewrite (canonical_json_perm _ _ Hp).
Qed.
End properties.

(** A runtime whose normalisation is the identity, for the witnesses. *)
Definition identity_unicode : UnicodeData := {|
  nfc s := s; nfc_idem _ := eq_refl; nfc_ascii _ _ := eq_refl |}.

Definition sample_entry (k : string) (z : Z) : pyobj * pyobj := (PStr (u k), PInt z).
Definition sample_dict : pyobj := PDict [sample_entry "b" 1; sample_entry "a" 2].
Definition sample_dict' : pyobj := PDict [sample_entry "a" 2; sample_entry "b" 1].

Lemma validate_idempotent_witness :
  let H := identity_unicode in
  validate_canonical_value (py_of_json (JObj [(u "b", JInt 1); (u "a", JInt 2)])) =
    Ok (JObj [(u "b", JInt 1); (u "a", JInt 2)]).
Proof.
  exact (@validate_idempotent identity_unicode sample_dict (JObj [(u "b", JInt 1); (u "a", JInt 2)])
    ltac:(vm_compute; reflexivity)).
Defined.

(** The two insertion orders of one dictionary have one digest. *)
Definition sample_digest : pystr :=
  match @digest_value sha256_hash identity_unicode INTENT sample_dict [u "ctx"] with Ok d => d | _ => [] end.

Lemma digest_domain_separation_witness :
  let H := identity_unicode in
  (INTENT = INTENT ∧ [u "ctx"] = [u "ctx"] ∧ ∃ j, canonical_form sample_dict j ∧ canonical_form sample_dict' j)
  ∨ digest_collides INTENT sample_dict [u "ctx"] INTENT sample_dict' [u "ctx"].
Proof.
  exact (@digest_domain_separation sha256_hash identity_unicode INTENT INTENT sample_dict sample_dict'
    [u "ctx"] [u "ctx"] sample_digest ltac:(vm_compute; reflexivity) ltac:(vm_compute; reflexivity)).
Defined.

Lemma digest_dict_order_witness :
  @digest_value sha256_hash identity_unicode PLAN sample_dict [] =
  @digest_value sha256_hash identity_unicode PLAN sample_dict' [].
Proof.
  apply (@digest_dict_order sha256_hash identity_unicode PLAN []
    [sample_entry "b" 1; sample_entry "a" 2] [sample_entry "a" 2; sample_entry "b" 1]).
  apply perm_swap.
Defined.
