(* ===== verification/PyJson.v ===== *)
(** * [json.loads] on bytes, and Python dicts

    [Json.loads] keeps every pair of an object, as a reader with an
    [object_pairs_hook] sees them; without a hook Python builds a dict, in
    which the last value of a repeated key replaces the earlier ones
    ([loads_dict]).  [json.loads] of a [bytes] value first guesses the
    encoding from its first bytes ([loads_bytes]).  [canonical_read] is what
    a reader finds in a text [canonical_json] wrote from a dict literal. *)

From S2P Require Import Prelude PyStr Sha256 Json Canonical.

(** [d[k] = v] on the items of a dict. *)
Fixpoint set_item {A} (k : pystr) (v : A) (l : list (pystr * A)) : list (pystr * A) :=
  match l with
  | [] => [(k, v)]
  | (k', v') :: l => if pystr_eqb k k' then (k', v) :: l else (k', v') :: set_item k v l
  end.
Definition dict_of {A} (l : list (pystr * A)) : list (pystr * A) :=
  foldl (λ d kv, set_item (fst kv) (snd kv) d) [] l.

(** A document as the Python value [json.loads] builds. *)
Fixpoint as_dicts (v : json) : json :=
  match v with
  | JList l => JList (map as_dicts l)
  | JObj l => JObj (dict_of (map (λ kv, (fst kv, as_dicts (snd kv))) l))
  | _ => v
  end.

Definition loads_dict (s : pystr) : option json := as_dicts <$> loads s.

(** ** Encodings *)

Inductive encoding : Type := Utf8 | Utf8Sig | Utf16 (big : bool) | Utf32 (big : bool).

(** [json.detect_encoding], with the byte order a BOM gives, and the bytes
    after the BOM. *)
Definition detect_encoding (b : bytes) : encoding * bytes :=
  match Byte.to_N <$> take 4 b with
  | [0; 0; 254; 255] => (Utf32 true, drop 4 b)
  | [255; 254; 0; 0] => (Utf32 false, drop 4 b)
  | 254 :: 255 :: _ => (Utf16 true, drop 2 b)
  | 255 :: 254 :: _ => (Utf16 false, drop 2 b)
  | 239 :: 187 :: 191 :: _ => (Utf8Sig, drop 3 b)
  | [b0; b1; b2; b3] =>
    if (b0 =? 0) then (if (b1 =? 0) then Utf32 true else Utf16 true, b)
    else if (b1 =? 0) then (if (b2 =? 0) && (b3 =? 0) then Utf32 false else Utf16 false, b)
    else (Utf8, b)
  | [b0; b1] => (if (b0 =? 0) then Utf16 true else if (b1 =? 0) then Utf16 false else Utf8, b)
  | _ => (Utf8, b)
  end%N.

Definition unit_value (big : bool) (l : bytes) : N := be_combine 0 (if big then l else rev l).

Fixpoint units16 (big : bool) (l : bytes) : option (list N) :=
  match l with
  | [] => Some []
  | a :: b :: l => (unit_value big [a; b] ::.) <$> units16 big l
  | _ => None
  end.
Fixpoint join_surrogates (l : list N) : pystr :=
  match l with
  | [] => []
  | h :: l1 =>
    if is_hi h then
      match l1 with
      | lo :: l2 => if is_lo lo then (0x10000 + (h - 0xD800) * 1024 + (lo - 0xDC00))%N :: join_surrogates l2
                    else h :: join_surrogates l1
      | [] => [h]
      end
    else h :: join_surrogates l1
  end.
Fixpoint units32 (big : bool) (l : bytes) : option pystr :=
  match l with
  | [] => Some []
  | a :: b :: c :: d :: l =>
    let n := unit_value big [a; b; c; d] in
    if (n <? 0x110000)%N then (n ::.) <$> units32 big l else None
  | _ => None
  end.

Definition decode_bytes (b : bytes) : option pystr :=
  match detect_encoding b with
  | (Utf8, b) | (Utf8Sig, b) => utf8_decode_surrogatepass b
  | (Utf16 big, b) => join_surrogates <$> units16 big b
  | (Utf32 big, b) => units32 big b
  end.

(** [json.loads(b)] for a [bytes] value; both errors are [ValueError]s. *)
Definition loads_bytes (b : bytes) : result json :=
  text ← of_option (decode_bytes b) ValueError;
  of_option (loads_dict text) ValueError.

(** ** Reading what [canonical_json] wrote *)

Lemma set_item_fresh {A} k (v : A) l : k ∉ l.*1 → set_item k v l = l ++ [(k, v)].
Proof.
  induction l as [|[k' v'] l IH]; [done|]. cbn [fmap list_fmap fst]. rewrite not_elem_of_cons. intros [Hne Hni].
  cbn [set_item]. rewrite (proj2 (pystr_eqb_neq _ _)) by done. cbn [app]. by rewrite IH.
Qed.

Lemma dict_of_distinct {A} (l : list (pystr * A)) : NoDup (l.*1) → dict_of l = l.
Proof.
  unfold dict_of. change l with ([] ++ l) at 1 3. generalize (@nil (pystr * A)) as d. induction l as [|[k v] l IH].
  - intros d _. by rewrite app_nil_r.
  - intros d Hnd. cbn [foldl fst snd]. rewrite set_item_fresh.
    + rewrite IH; [by rewrite <-app_assoc|]. by rewrite <-app_assoc.
    + rewrite fmap_app in Hnd. cbn in Hnd. apply NoDup_app in Hnd as (_ & Hd & _). intros Hin.
      by apply (Hd _ Hin); left.
Qed.

(** The keys of every object of a document are distinct. *)
Fixpoint distinct_deep (v : json) : Prop :=
  match v with
  | JList l => foldr (λ v P, distinct_deep v ∧ P) True l
  | JObj l => NoDup (l.*1) ∧ foldr (λ kv P, distinct_deep (snd kv) ∧ P) True l
  | _ => True
  end.

Lemma as_dicts_distinct v : distinct_deep v → as_dicts v = v.
Proof.
  induction v as [| | | | |l IH|l IH] using json_ind'; try done; cbn [distinct_deep as_dicts].
  - intros Hd. f_equal. induction IH as [|v l Hv _ IHl]; [done|]. cbn [foldr map] in *. destruct Hd. f_equal; auto.
  - intros [Hnd Hd]. assert (map (λ kv, (fst kv, as_dicts (snd kv))) l = l) as ->.
    { clear Hnd. induction IH as [|[k v] l Hv _ IHl]; [done|]. cbn [foldr map fst snd] in *. destruct Hd.
      rewrite Hv by done. f_equal. auto. }
    by rewrite dict_of_distinct.
Qed.

Lemma distinct_list l : foldr (λ v P, distinct_deep v ∧ P) True l ↔ Forall distinct_deep l.
Proof. induction l as [|v l IH]; [done|]. cbn [foldr]. by rewrite Forall_cons, IH. Qed.

Lemma distinct_items (l : list (pystr * json)) :
  foldr (λ kv P, distinct_deep (snd kv) ∧ P) True l ↔ Forall (λ kv, distinct_deep (snd kv)) l.
Proof. induction l as [|v l IH]; [done|]. cbn [foldr]. by rewrite Forall_cons, IH. Qed.

Section canonical_read.
Context `{Hash} `{UnicodeData}.

Lemma mapM_Forall_2 {A B} (f : A → option B) (P : A → Prop) (Q : B → Prop) l k :
  (∀ a b, P a → f a = Some b → Q b) → Forall P l → mapM f l = Some k → Forall Q k.
Proof.
  intros Hf Hl Hm. apply mapM_Some in Hm. induction Hm as [|a b l k Hab _ IH]; [constructor|].
  inversion Hl; subst. constructor; eauto.
Qed.

(** A canonical form repeats no key. *)
Lemma denote_distinct v d j : denote d v = Some j → distinct_deep (sort_keys j).
Proof.
  revert d j. induction v as [|b|z| |s|l IH|l IH|l IH|] using pyobj_ind'; intros d j Hj;
    pose proof (denote_shallow _ _ _ Hj) as Hd.
  8: { rewrite denote_dict in Hj by done. destruct (too_big l); [done|].
    apply bind_Some in Hj as (es & Hes & Hj). case_decide as Hnd; [|done]. injection Hj as <-.
    cbn [sort_keys distinct_deep]. rewrite distinct_items, sort_items_perm. split.
    - assert ((map (λ kv : pystr * json, (fst kv, sort_keys (snd kv))) es).*1 = es.*1) as ->; [|done].
      clear. induction es as [|[k x] es IH]; [done|]. simpl. f_equal. exact IH.
    - apply Forall_map. eapply (mapM_Forall_2 (denote_entry (denote (d + 1))) (λ kv, ∀ d j, denote d (snd kv) = Some j → distinct_deep (sort_keys j)) _ l es);
        [|done|done].
      intros [key w] [k x] Hw He. unfold denote_entry in He. cbn [fst snd] in *.
      destruct key; try done. apply bind_Some in He as (k' & _ & (x' & Hx & [= <- <-])%bind_Some).
      simpl. by eapply Hw. }
  all: cbn [denote] in Hj; rewrite Hd in Hj; try done.
  - by injection Hj as <-.
  - by injection Hj as <-.
  - destruct (_ && _); [|done]. by injection Hj as <-.
  - by apply fmap_Some in Hj as (x & _ & ->).
  - destruct (too_big l); [done|]. apply fmap_Some in Hj as (xs & Hxs & ->). cbn [sort_keys distinct_deep].
    rewrite distinct_list. apply Forall_map. exact (mapM_Forall_2 _ _ _ l xs (λ a b Ha Hb, Ha _ _ Hb) IH Hxs).
  - destruct (too_big l); [done|]. apply fmap_Some in Hj as (xs & Hxs & ->). cbn [sort_keys distinct_deep].
    rewrite distinct_list. apply Forall_map. exact (mapM_Forall_2 _ _ _ l xs (λ a b Ha Hb, Ha _ _ Hb) IH Hxs).
Qed.

(** [json.loads(canonical_json(v).decode())] is the canonical form of
    [v]. *)
Lemma canonical_read v b : canonical_json v = Ok b →
  ∃ j s, canonical_form v j ∧ utf8_decode b = Some s ∧ loads_dict s = Some j.
Proof.
  intros (w & Hw & Hb)%canonical_json_text. exists (sort_keys w), (dumps false [] w). split_and!.
  - by exists w.
  - by apply utf8_decode_encode.
  - unfold loads_dict. rewrite loads_dumps by (done || by eapply validate_json_ok). cbn.
    f_equal. apply as_dicts_distinct. apply validate_denote in Hw as [Hd _]. by eapply denote_distinct.
Qed.

Lemma literal_keys rec l es :
  mapM (denote_entry rec) (map (λ kv : string * pyobj, (PStr (u (fst kv)), snd kv)) l) = Some es →
  forallb (λ kv, is_ascii (u (fst kv))) l = true → es.*1 = map (λ kv, u (fst kv)) l.
Proof.
  revert es. induction l as [|[k v] l IH]; intros es Hm Ha; [by injection Hm as <-|].
  cbn [map fst snd] in Hm. rewrite mapM_cons in Hm.
  apply bind_Some in Hm as ([key x] & He & (r & Hr & [= <-])%bind_Some).
  cbn [forallb fst] in Ha. apply andb_true_iff in Ha as [Hk Ha].
  unfold denote_entry in He. cbn [fst snd] in He.
  apply bind_Some in He as (k' & ->%ok_string_nfc & (x' & Hx & [= <- <-])%bind_Some).
  cbn [fmap list_fmap fst map]. rewrite nfc_ascii by done. f_equal. by apply IH.
Qed.

(** The keys of the canonical form of a dict literal. *)
Lemma literal_form_keys l j :
  canonical_form (pdict l) j → forallb (λ kv, is_ascii (u (fst kv))) l = true →
  ∃ items, j = JObj items ∧ NoDup (items.*1) ∧ items.*1 ≡ₚ map (λ kv, u (fst kv)) l.
Proof.
  intros (w & [Hd _]%validate_denote & ->) Ha. unfold pdict in Hd.
  rewrite denote_dict in Hd by done. destruct (too_big _); [done|].
  apply bind_Some in Hd as (es & Hes & Hd). case_decide as Hnd; [|done]. injection Hd as <-.
  apply literal_keys in Hes; [|done]. eexists. split; [reflexivity|].
  assert ((sort_items (map (λ kv : pystr * json, (fst kv, sort_keys (snd kv))) es)).*1 ≡ₚ es.*1) as Hp.
  { rewrite sort_items_perm.
    assert ((map (λ kv : pystr * json, (fst kv, sort_keys (snd kv))) es).*1 = es.*1) as ->; [|done].
    clear. induction es as [|[k x] es IH]; [done|]. simpl. f_equal. exact IH. }
  split; [by rewrite Hp|]. by rewrite Hp, Hes.
Qed.
End canonical_read.
