(* ===== verification/Contract.v ===== *)
(** * The Recovery Contract

    [tier1/contract.py]: the protected artifacts, the authorization
    provenance and the contract record with the validation every
    construction (and every [dataclasses.replace]) runs.  A record of type
    [RecoveryContract] is a value of the dataclass before or after
    [__post_init__]; [RecoveryContract_new] is the constructor.  The section
    [bindings] says what a contract's digests pin down. *)

From S2P Require Import Prelude PyStr Sha256 PyDatetime Json Capability StateMachine Canonical.

(** ** Validation helpers *)

Definition mutating_methods : list pystr := [u "POST"; u "PUT"; u "PATCH"; u "DELETE"].
Definition is_mutating_method (m : pystr) : bool := existsb (pystr_eqb m) mutating_methods.

Definition MAX_PROTECTED_ARTIFACT_BYTES : N := 1048576.
Definition AUTHORIZATION_PROVENANCE_SCHEMA_VERSION : Z := 2.
Definition MAX_LOCATOR : Z := 2147483647.

(** [x is None or pattern.fullmatch(x)] *)
Definition none_or {A} (f : A → bool) (o : option A) : bool :=
  match o with Some a => f a | None => true end.

Definition is_none {A} (o : option A) : bool := match o with Some _ => false | None => true end.

(** [hmac.compare_digest] on ASCII text is equality. *)
Definition compare_digest (s t : pystr) : bool := pystr_eqb s t.

(** [hmac.compare_digest] on two strings: [TypeError] unless both are
    ASCII. *)
Definition compare_digest_str (a b : pystr) : result bool :=
  _ ← require (is_ascii a && is_ascii b) TypeError;
  Ok (compare_digest a b).

(** [if not hmac.compare_digest(supplied, expected): raise
    ContractIntegrityError] *)
Definition authentic (supplied expected : pystr) : result () :=
  same ← compare_digest_str supplied expected;
  require same ContractIntegrityError.

Lemma authentic_Ok s m x : authentic s m = Ok x → s = m.
Proof.
  unfold authentic, compare_digest_str. intros (same & ([] & _ & [= <-])%bind_Ok & Hs%require_Ok_any)%bind_Ok.
  by apply pystr_eqb_eq.
Qed.

Lemma authentic_refl m : is_ascii m = true → authentic m m = Ok ().
Proof.
  intros Hm. unfold authentic, compare_digest_str, compare_digest. rewrite Hm, pystr_eqb_refl. done.
Qed.

(** Any other text is refused, with [TypeError] outside ASCII. *)
Lemma authentic_other s m : is_ascii m = true → s ≠ m →
  authentic s m = Raise (if is_ascii s then ContractIntegrityError else TypeError).
Proof.
  intros Hm Hne. unfold authentic, compare_digest_str, compare_digest. rewrite Hm, andb_true_r.
  destruct (is_ascii s); [|done]. cbn [require mbind result_bind]. by apply pystr_eqb_neq in Hne as ->.
Qed.

(** ** Protected artifacts *)

Record ProtectedArtifact : Type := {
  pa_key_id : pystr;
  pa_algorithm : pystr;
  pa_ciphertext : bytes;
}.

#[global] Instance ProtectedArtifact_eq_dec : EqDecision ProtectedArtifact.
Proof. solve_decision. Defined.

Definition ProtectedArtifact_post_init (a : ProtectedArtifact) : result () :=
  _ ← require (match_token (pa_key_id a) && match_token (pa_algorithm a)) ContractValidationError;
  _ ← require (negb (blen (pa_ciphertext a) =? 0)%N) ContractValidationError;
  require (blen (pa_ciphertext a) <=? MAX_PROTECTED_ARTIFACT_BYTES)%N ContractValidationError.

Definition ProtectedArtifact_new (a : ProtectedArtifact) : result ProtectedArtifact :=
  _ ← ProtectedArtifact_post_init a; Ok a.

(** ** Authorization provenance *)

Record AuthorizationProvenance : Type := {
  ap_schema_version : Z;
  ap_authorization_id : pystr;
  ap_authority_id : pystr;
  ap_plan_authorization_schema_version : Z;
  ap_plan_digest : pystr;
  ap_step_id : pystr;
  ap_execution_intent_digest : pystr;
  ap_authorization_issued_at : datetime;
  ap_authorization_expires_at : datetime;
  ap_appliance_target_digest : pystr;
}.

#[global] Instance AuthorizationProvenance_eq_dec : EqDecision AuthorizationProvenance.
Proof. solve_decision. Defined.

Definition AuthorizationProvenance_post_init (p : AuthorizationProvenance) : result () :=
  _ ← require (ap_schema_version p =? AUTHORIZATION_PROVENANCE_SCHEMA_VERSION)%Z ContractValidationError;
  _ ← require (ap_plan_authorization_schema_version p =? 2)%Z ContractValidationError;
  _ ← require (forallb match_token [ap_authorization_id p; ap_authority_id p; ap_step_id p])
        ContractValidationError;
  _ ← require (forallb match_hex64
        [ap_plan_digest p; ap_execution_intent_digest p; ap_appliance_target_digest p])
        ContractValidationError;
  require (is_utc (ap_authorization_issued_at p) && is_utc (ap_authorization_expires_at p) &&
           negb (dt_leb (ap_authorization_expires_at p) (ap_authorization_issued_at p)))
    ContractValidationError.

Definition AuthorizationProvenance_new (p : AuthorizationProvenance) : result AuthorizationProvenance :=
  _ ← AuthorizationProvenance_post_init p; Ok p.

(** ** The contract *)

Record RecoveryContract : Type := mk_RecoveryContract {
  rc_contract_id : pystr;
  rc_operation_id : pystr;
  rc_idempotency_key : pystr;
  rc_capability : Capability;
  rc_security_class : WriteSecurityClass;
  rc_endpoint_symbol : pystr;
  rc_http_method : pystr;
  rc_target_identity_digest : pystr;
  rc_target_fingerprint : pystr;
  rc_lifecycle_locator : Z;
  rc_intent_digest : pystr;
  rc_snapshot_digest : pystr;
  rc_rollback_plan_version : pystr;
  rc_created_at : datetime;
  rc_expires_at : datetime;
  rc_state : RecoveryState;
  rc_state_version : Z;
  rc_protected_target_identity : ProtectedArtifact;
  rc_protected_intent : ProtectedArtifact;
  rc_protected_snapshot : ProtectedArtifact;
  rc_authorization_provenance : option AuthorizationProvenance;
  rc_confirmation_digest : option pystr;
  rc_confirmed_at : option datetime;
  rc_verified_target_fingerprint : option pystr;
}.

#[global] Instance datetime_eq_dec : EqDecision datetime.
Proof. solve_decision. Defined.
#[global] Instance RecoveryContract_eq_dec : EqDecision RecoveryContract.
Proof. solve_decision. Defined.

Section contract.
Context `{Hash} `{UnicodeData}.

Definition idempotency_value (target_identity_digest target_fingerprint : pystr) (lifecycle_locator : Z)
    (intent_digest snapshot_digest rollback_plan_version : pystr) : pyobj :=
  pdict [("intent_digest", PStr intent_digest);
         ("lifecycle_locator", PInt lifecycle_locator);
         ("rollback_plan_version", PStr rollback_plan_version);
         ("snapshot_digest", PStr snapshot_digest);
         ("target_fingerprint", PStr target_fingerprint);
         ("target_identity_digest", PStr target_identity_digest)].

Definition derive_idempotency_key (capability : Capability) (endpoint_symbol http_method
    target_identity_digest target_fingerprint : pystr) (lifecycle_locator : Z)
    (intent_digest snapshot_digest rollback_plan_version : pystr) : result pystr :=
  digest_value IDEMPOTENCY
    (idempotency_value target_identity_digest target_fingerprint lifecycle_locator
       intent_digest snapshot_digest rollback_plan_version)
    [capability_name capability; endpoint_symbol; http_method].

Definition expected_idempotency_key (c : RecoveryContract) : result pystr :=
  derive_idempotency_key (rc_capability c) (rc_endpoint_symbol c) (rc_http_method c)
    (rc_target_identity_digest c) (rc_target_fingerprint c) (rc_lifecycle_locator c)
    (rc_intent_digest c) (rc_snapshot_digest c) (rc_rollback_plan_version c).

Definition forbids_verified_fingerprint (s : RecoveryState) : bool :=
  existsb (state_eqb s) [PREPARING; PREPARED; EXECUTING].
Definition requires_verified_fingerprint (s : RecoveryState) : bool :=
  existsb (state_eqb s) [VERIFIED; ROLLING_BACK].

(** [RecoveryContract.__post_init__] *)
Definition RecoveryContract_post_init (c : RecoveryContract) : result () :=
  let check b := require b ContractValidationError in
  _ ← check (forallb match_token
        [rc_contract_id c; rc_operation_id c; rc_endpoint_symbol c; rc_rollback_plan_version c]);
  _ ← check (is_write_capability (rc_capability c));
  _ ← check (is_mutating_method (rc_http_method c));
  _ ← check (forallb match_hex64
        [rc_idempotency_key c; rc_target_identity_digest c; rc_target_fingerprint c;
         rc_intent_digest c; rc_snapshot_digest c]);
  _ ← check ((0 <=? rc_lifecycle_locator c) && (rc_lifecycle_locator c <=? MAX_LOCATOR))%Z;
  _ ← check (none_or match_hex64 (rc_confirmation_digest c));
  _ ← check (none_or match_hex64 (rc_verified_target_fingerprint c));
  _ ← check (negb ((forbids_verified_fingerprint (rc_state c) &&
                    negb (is_none (rc_verified_target_fingerprint c))) ||
                   (requires_verified_fingerprint (rc_state c) &&
                    is_none (rc_verified_target_fingerprint c))));
  _ ← check (is_utc (rc_created_at c) && is_utc (rc_expires_at c));
  _ ← check (negb (dt_leb (rc_expires_at c) (rc_created_at c)));
  _ ← check (0 <=? rc_state_version c)%Z;
  _ ← check (Bool.eqb (is_none (rc_confirmation_digest c)) (is_none (rc_confirmed_at c)));
  _ ← check (none_or (λ t, is_utc t && (dt_leb (rc_created_at c) t && dt_ltb t (rc_expires_at c)))
        (rc_confirmed_at c));
  _ ← check (none_or (λ p, negb (dt_ltb (ap_authorization_expires_at p) (rc_expires_at c)))
        (rc_authorization_provenance c));
  expected ← expected_idempotency_key c;
  check (compare_digest (rc_idempotency_key c) expected).

Definition RecoveryContract_new (c : RecoveryContract) : result RecoveryContract :=
  _ ← RecoveryContract_post_init c; Ok c.

Definition is_confirmed (c : RecoveryContract) : bool := negb (is_none (rc_confirmation_digest c)).

(** [is_expired(now=current)] *)
Definition is_expired (c : RecoveryContract) (current : datetime) : result bool :=
  _ ← require (is_utc current) ContractValidationError;
  Ok (dt_leb (rc_expires_at c) current).

Definition is_permanently_unresumable (c : RecoveryContract) (now : datetime) : result bool :=
  if state_eqb (rc_state c) PREPARED then is_expired c now else Ok false.

(** [replace(self, confirmation_digest=..., confirmed_at=..., state_version=...)]
    before its validation. *)
Definition set_confirmation (c : RecoveryContract) (digest : pystr) (confirmed_at : datetime) : RecoveryContract :=
  mk_RecoveryContract (rc_contract_id c) (rc_operation_id c) (rc_idempotency_key c)
    (rc_capability c) (rc_security_class c) (rc_endpoint_symbol c) (rc_http_method c)
    (rc_target_identity_digest c) (rc_target_fingerprint c) (rc_lifecycle_locator c)
    (rc_intent_digest c) (rc_snapshot_digest c) (rc_rollback_plan_version c) (rc_created_at c)
    (rc_expires_at c) (rc_state c) (rc_state_version c + 1)%Z (rc_protected_target_identity c)
    (rc_protected_intent c) (rc_protected_snapshot c) (rc_authorization_provenance c)
    (Some digest) (Some confirmed_at) (rc_verified_target_fingerprint c).

Definition confirmation_facts (c : RecoveryContract) (authority_id evidence_digest : pystr) : pyobj :=
  pdict [("authority_id", PStr authority_id);
         ("contract_id", PStr (rc_contract_id c));
         ("evidence_digest", PStr evidence_digest);
         ("expires_at", PStr (isoformat (rc_expires_at c)));
         ("intent_digest", PStr (rc_intent_digest c));
         ("operation_id", PStr (rc_operation_id c));
         ("target_fingerprint", PStr (rc_target_fingerprint c));
         ("target_identity_digest", PStr (rc_target_identity_digest c))].

Definition with_confirmation (c : RecoveryContract) (authority_id evidence_digest : pystr)
    (confirmed_at : datetime) : result RecoveryContract :=
  if negb (state_eqb (rc_state c) PREPARED) || is_confirmed c then Raise ContractBindingError else
  _ ← require (match_token authority_id) ContractValidationError;
  _ ← require (match_hex64 evidence_digest) ContractValidationError;
  digest ← digest_value CONFIRMATION (confirmation_facts c authority_id evidence_digest) [];
  RecoveryContract_new (set_confirmation c digest confirmed_at).

(** [verify_bindings] *)
Definition verify_bindings (c : RecoveryContract) (capability : Capability)
    (endpoint_symbol http_method : pystr) (target_identity target_precondition normalized_intent : pyobj)
    : result () :=
  let context := [capability_name (rc_capability c); rc_endpoint_symbol c; rc_http_method c] in
  d1 ← digest_value TARGET_IDENTITY target_identity [capability_name (rc_capability c)];
  d2 ← digest_value TARGET_FINGERPRINT target_precondition context;
  d3 ← digest_value INTENT normalized_intent context;
  require (capability_eqb capability (rc_capability c) &&
           pystr_eqb endpoint_symbol (rc_endpoint_symbol c) &&
           pystr_eqb http_method (rc_http_method c) &&
           pystr_eqb d1 (rc_target_identity_digest c) &&
           pystr_eqb d2 (rc_target_fingerprint c) &&
           pystr_eqb d3 (rc_intent_digest c)) ContractBindingError.
End contract.

(** ** What the constructor guarantees *)

Section facts.
Context `{Hash} `{UnicodeData}.

(** The invariant of a constructed contract. *)
Record contract_facts (c : RecoveryContract) : Prop := {
  cf_tokens : forallb match_token
    [rc_contract_id c; rc_operation_id c; rc_endpoint_symbol c; rc_rollback_plan_version c] = true;
  cf_write : is_write_capability (rc_capability c) = true;
  cf_method : is_mutating_method (rc_http_method c) = true;
  cf_digests : forallb match_hex64
    [rc_idempotency_key c; rc_target_identity_digest c; rc_target_fingerprint c;
     rc_intent_digest c; rc_snapshot_digest c] = true;
  cf_locator : (0 <= rc_lifecycle_locator c <= MAX_LOCATOR)%Z;
  cf_confirmation : none_or match_hex64 (rc_confirmation_digest c) = true;
  cf_fingerprint : none_or match_hex64 (rc_verified_target_fingerprint c) = true;
  cf_forbids : forbids_verified_fingerprint (rc_state c) = true →
    rc_verified_target_fingerprint c = None;
  cf_requires : requires_verified_fingerprint (rc_state c) = true →
    is_none (rc_verified_target_fingerprint c) = false;
  cf_utc : is_utc (rc_created_at c) = true ∧ is_utc (rc_expires_at c) = true;
  cf_window : dt_leb (rc_expires_at c) (rc_created_at c) = false;
  cf_version : (0 <= rc_state_version c)%Z;
  cf_confirmed : is_none (rc_confirmation_digest c) = is_none (rc_confirmed_at c);
  cf_confirmed_at : ∀ t, rc_confirmed_at c = Some t →
    is_utc t = true ∧ dt_leb (rc_created_at c) t = true ∧ dt_ltb t (rc_expires_at c) = true;
  cf_provenance : ∀ p, rc_authorization_provenance c = Some p →
    dt_ltb (ap_authorization_expires_at p) (rc_expires_at c) = false;
  cf_idempotency : expected_idempotency_key c = Ok (rc_idempotency_key c);
}.

Lemma none_or_spec {A} (f : A → bool) (o : option A) :
  none_or f o = true ↔ ∀ a, o = Some a → f a = true.
Proof. destruct o; simpl; naive_solver. Qed.

Lemma post_init_facts c : RecoveryContract_post_init c = Ok () ↔ contract_facts c.
Proof.
  unfold RecoveryContract_post_init. cbv zeta. rewrite !require_bind, !none_or_spec.
  rewrite !andb_true_iff, !negb_true_iff, !Z.leb_le, eqb_true_iff.
  rewrite orb_false_iff, !andb_false_iff, negb_false_iff.
  split.
  - intros Hc. destruct_and?. match goal with H : _ ≫= _ = Ok () |- _ => rename H into He end.
    apply bind_Ok in He as (k & Hk & He). apply require_Ok in He. unfold compare_digest in He.
    apply pystr_eqb_eq in He. split; try done; try (by apply none_or_spec).
    + intros Hs. match goal with H : forbids_verified_fingerprint _ = false ∨ _ |- _ => destruct H as [H|H] end;
        [congruence|]. by destruct (rc_verified_target_fingerprint c).
    + intros Hs. match goal with H : requires_verified_fingerprint _ = false ∨ _ |- _ => destruct H as [H|H] end;
        [congruence|done].
    + intros t Ht. match goal with H : ∀ a, rc_confirmed_at c = Some a → _ |- _ => apply H in Ht end.
      by split_andb.
    + intros p Hp.
      match goal with H : ∀ a, rc_authorization_provenance c = Some a → _ |- _ => apply H in Hp end.
      by apply negb_true_iff.
    + by rewrite He.
  - intros []. destruct cf_utc0. split_and!; try done; try (by apply none_or_spec); try lia.
    + destruct (forbids_verified_fingerprint (rc_state c)); [|by left]. right. by rewrite cf_forbids0.
    + destruct (requires_verified_fingerprint (rc_state c)); [|by left]. right. auto.
    + intros t Ht. rewrite !andb_true_iff. auto.
    + intros p Hp. apply negb_true_iff. auto.
    + rewrite cf_idempotency0. simpl. unfold compare_digest. by rewrite pystr_eqb_refl.
Qed.

Lemma RecoveryContract_new_Ok c c' :
  RecoveryContract_new c = Ok c' ↔ c' = c ∧ contract_facts c.
Proof.
  unfold RecoveryContract_new. rewrite bind_Ok, <-post_init_facts. split.
  - intros ([] & Hp & [= <-]). done.
  - intros (-> & Hp). by exists ().
Qed.

Lemma method_ascii m : is_mutating_method m = true → is_ascii m = true.
Proof.
  unfold is_mutating_method. rewrite existsb_exists.
  intros (x & Hx & ->%pystr_eqb_eq). unfold mutating_methods in Hx. simpl in Hx.
  by destruct Hx as [<-|[<-|[<-|[<-|[]]]]].
Qed.

(** Every text field of a constructed contract is ASCII. *)
Lemma facts_ascii c : contract_facts c →
  Forall (λ s, is_ascii s = true)
    [rc_contract_id c; rc_operation_id c; rc_idempotency_key c; rc_endpoint_symbol c;
     rc_http_method c; rc_target_identity_digest c; rc_target_fingerprint c; rc_intent_digest c;
     rc_snapshot_digest c; rc_rollback_plan_version c].
Proof.
  intros Hc. pose proof (cf_tokens c Hc) as Ht. pose proof (cf_digests c Hc) as Hd.
  cbn [forallb] in Ht, Hd. split_andb.
  repeat apply Forall_cons_2; [..|apply Forall_nil_2];
    first [by apply match_token_ascii|by apply match_hex64_ascii|by apply method_ascii, cf_method].
Qed.

Lemma ascii_fields c c' :
  contract_facts c → contract_facts c' →
  Forall2 (λ s s', is_ascii s = true ∧ is_ascii s' = true)
    [rc_endpoint_symbol c; rc_target_identity_digest c; rc_target_fingerprint c; rc_intent_digest c;
     rc_snapshot_digest c; rc_rollback_plan_version c; rc_contract_id c; rc_operation_id c]
    [rc_endpoint_symbol c'; rc_target_identity_digest c'; rc_target_fingerprint c'; rc_intent_digest c';
     rc_snapshot_digest c'; rc_rollback_plan_version c'; rc_contract_id c'; rc_operation_id c'].
Proof.
  intros Hc%facts_ascii Hc'%facts_ascii. rewrite !Forall_cons in Hc, Hc'. destruct_and?.
  by repeat apply Forall2_cons_2.
Qed.

(** The digest computations behind two idempotency keys. *)
Definition idempotency_context (c : RecoveryContract) : list pystr :=
  [capability_name (rc_capability c); rc_endpoint_symbol c; rc_http_method c].
Definition idempotency_facts (c : RecoveryContract) : pyobj :=
  idempotency_value (rc_target_identity_digest c) (rc_target_fingerprint c) (rc_lifecycle_locator c)
    (rc_intent_digest c) (rc_snapshot_digest c) (rc_rollback_plan_version c).
Definition idempotency_collides (c c' : RecoveryContract) : Prop :=
  digest_collides IDEMPOTENCY (idempotency_facts c) (idempotency_context c)
    IDEMPOTENCY (idempotency_facts c') (idempotency_context c').

Lemma idempotency_key_fields c c' :
  contract_facts c → contract_facts c' → rc_idempotency_key c = rc_idempotency_key c' →
  (rc_capability c = rc_capability c' ∧ rc_endpoint_symbol c = rc_endpoint_symbol c' ∧
   rc_http_method c = rc_http_method c' ∧
   rc_target_identity_digest c = rc_target_identity_digest c' ∧
   rc_target_fingerprint c = rc_target_fingerprint c' ∧
   rc_lifecycle_locator c = rc_lifecycle_locator c' ∧
   rc_intent_digest c = rc_intent_digest c' ∧ rc_snapshot_digest c = rc_snapshot_digest c' ∧
   rc_rollback_plan_version c = rc_rollback_plan_version c')
  ∨ idempotency_collides c c'.
Proof.
  intros Hc Hc' E. pose proof (cf_idempotency c Hc) as K. pose proof (cf_idempotency c' Hc') as K'.
  rewrite <-E in K'. unfold expected_idempotency_key, derive_idempotency_key in *.
  unfold idempotency_collides, idempotency_facts, idempotency_context, idempotency_value in *.
  destruct (digest_value_pins _ _ _ _ _ _ _ K K') as [(_ & Ectx & j & Hj & Hj')|]; [left|by right].
  injection Ectx as E1 E2 E3. apply capability_name_inj in E1.
  pose proof (ascii_fields c c' Hc Hc') as Ha. rewrite !Forall2_cons in Ha. destruct_and?.
  split_and!; [done|done|done|..].
  - by eapply (literal_agree_str _ _ _ "target_identity_digest" _ _ Hj Hj'); [in_list|in_list|..].
  - by eapply (literal_agree_str _ _ _ "target_fingerprint" _ _ Hj Hj'); [in_list|in_list|..].
  - by eapply (literal_agree_int _ _ _ "lifecycle_locator" _ _ Hj Hj'); [in_list|in_list|..].
  - by eapply (literal_agree_str _ _ _ "intent_digest" _ _ Hj Hj'); [in_list|in_list|..].
  - by eapply (literal_agree_str _ _ _ "snapshot_digest" _ _ Hj Hj'); [in_list|in_list|..].
  - by eapply (literal_agree_str _ _ _ "rollback_plan_version" _ _ Hj Hj'); [in_list|in_list|..].
Qed.
End facts.

(** ** Confirmation *)

Section confirmation.
Context `{Hash} `{UnicodeData}.

Lemma with_confirmation_inv c authority evidence at_ c' :
  with_confirmation c authority evidence at_ = Ok c' →
  rc_state c = PREPARED ∧ rc_confirmation_digest c = None ∧
  match_token authority = true ∧ match_hex64 evidence = true ∧
  ∃ d, digest_value CONFIRMATION (confirmation_facts c authority evidence) [] = Ok d ∧
       c' = set_confirmation c d at_ ∧ contract_facts c'.
Proof.
  unfold with_confirmation, state_eqb, is_confirmed.
  case_bool_decide as Hs; [|done]. destruct (rc_confirmation_digest c) eqn:Ec; [done|]. simpl.
  intros (() & Ha%require_Ok & (() & He%require_Ok & (d & Hd & Hn)%bind_Ok)%bind_Ok)%bind_Ok.
  apply RecoveryContract_new_Ok in Hn as [-> Hf]. eauto 10.
Qed.

Lemma post_init_error c e :
  RecoveryContract_post_init c = Raise e → e = ContractValidationError ∨ e = CanonicalizationError.
Proof.
  unfold RecoveryContract_post_init. cbv zeta.
  intros He. repeat (apply require_bind_raise in He as [[_ ->]|[_ He]]; [by left|]).
  apply bind_Raise in He as [He|(k & _ & He)].
  - right. by eapply digest_value_error.
  - left. by apply require_Raise in He as [_ ->].
Qed.
End confirmation.

(** ** Properties *)

Section properties.
Context `{Hash} `{UnicodeData}.

(** Two constructed contracts with the same idempotency key are
    attempts at the same mutation: same capability, endpoint, method,
    target, fingerprint, locator, intent, snapshot and rollback plan,
    unless the two key derivations are a collision of SHA-256. *)
Theorem idempotency_key_binds c c' c1 c2 :
  RecoveryContract_new c = Ok c1 → RecoveryContract_new c' = Ok c2 →
  rc_idempotency_key c1 = rc_idempotency_key c2 →
  (rc_capability c1 = rc_capability c2 ∧ rc_endpoint_symbol c1 = rc_endpoint_symbol c2 ∧
   rc_http_method c1 = rc_http_method c2 ∧
   rc_target_identity_digest c1 = rc_target_identity_digest c2 ∧
   rc_target_fingerprint c1 = rc_target_fingerprint c2 ∧
   rc_lifecycle_locator c1 = rc_lifecycle_locator c2 ∧
   rc_intent_digest c1 = rc_intent_digest c2 ∧ rc_snapshot_digest c1 = rc_snapshot_digest c2 ∧
   rc_rollback_plan_version c1 = rc_rollback_plan_version c2)
  ∨ idempotency_collides c1 c2.
Proof.
  intros [-> Hc]%RecoveryContract_new_Ok [-> Hc']%RecoveryContract_new_Ok.
  by apply idempotency_key_fields.
Qed.

(** A confirmation is accepted only on an unconfirmed PREPARED
    contract; it changes the digest, the time and the version only, and
    the digest it stores pins the authority, the evidence, the expiry and
    the contract it was given for. *)
Theorem confirmation_binds c1 c2 a1 a2 e1 e2 t1 t2 r1 r2 :
  contract_facts c1 → contract_facts c2 →
  dt_valid (rc_expires_at c1) = true → dt_valid (rc_expires_at c2) = true →
  with_confirmation c1 a1 e1 t1 = Ok r1 → with_confirmation c2 a2 e2 t2 = Ok r2 →
  (rc_state r1 = PREPARED ∧ rc_state_version r1 = rc_state_version c1 + 1 ∧
   rc_idempotency_key r1 = rc_idempotency_key c1 ∧ contract_facts r1)%Z ∧
  (rc_confirmation_digest r1 = rc_confirmation_digest r2 →
   (a1 = a2 ∧ e1 = e2 ∧ rc_contract_id c1 = rc_contract_id c2 ∧
    rc_operation_id c1 = rc_operation_id c2 ∧ rc_expires_at c1 = rc_expires_at c2 ∧
    rc_intent_digest c1 = rc_intent_digest c2 ∧
    rc_target_fingerprint c1 = rc_target_fingerprint c2 ∧
    rc_target_identity_digest c1 = rc_target_identity_digest c2)
   ∨ digest_collides CONFIRMATION (confirmation_facts c1 a1 e1) []
       CONFIRMATION (confirmation_facts c2 a2 e2) []).
Proof.
  intros H1 H2 V1 V2 (S1 & _ & A1 & E1 & d1 & D1 & -> & F1)%with_confirmation_inv
    (S2 & _ & A2 & E2 & d2 & D2 & -> & F2)%with_confirmation_inv.
  split; [done|]. intros [= <-].
  destruct (digest_value_pins _ _ _ _ _ _ _ D1 D2) as [(_ & _ & j & Hj & Hj')|]; [left|by right].
  pose proof (ascii_fields c1 c2 H1 H2) as Ha. rewrite !Forall2_cons in Ha. destruct_and?.
  unfold confirmation_facts in Hj, Hj'. split_and!.
  - by eapply (literal_agree_str _ _ _ "authority_id" _ _ Hj Hj');
      [in_list|in_list|done|apply match_token_ascii..].
  - by eapply (literal_agree_str _ _ _ "evidence_digest" _ _ Hj Hj');
      [in_list|in_list|done|apply match_hex64_ascii..].
  - by eapply (literal_agree_str _ _ _ "contract_id" _ _ Hj Hj'); [in_list|in_list|..].
  - by eapply (literal_agree_str _ _ _ "operation_id" _ _ Hj Hj'); [in_list|in_list|..].
  - apply isoformat_inj; [done..|].
    by eapply (literal_agree_str _ _ _ "expires_at" _ _ Hj Hj');
      [in_list|in_list|done|apply isoformat_ascii..].
  - by eapply (literal_agree_str _ _ _ "intent_digest" _ _ Hj Hj'); [in_list|in_list|..].
  - by eapply (literal_agree_str _ _ _ "target_fingerprint" _ _ Hj Hj'); [in_list|in_list|..].
  - by eapply (literal_agree_str _ _ _ "target_identity_digest" _ _ Hj Hj'); [in_list|in_list|..].
Qed.

(** One canonical form, or a collision between the two digests. *)
Definition same_digested (p : DigestPurpose) (v v' : pyobj) (c : list pystr) : Prop :=
  (∃ j, canonical_form v j ∧ canonical_form v' j) ∨ digest_collides p v c p v' c.

(** [verify_bindings] admits one request per contract: two requests it
    accepts for one contract have the same capability, endpoint and method,
    and the same canonical target identity, precondition and intent,
    unless the digests of the differing pair are a collision of SHA-256. *)
Theorem verify_bindings_unique c cap ep m ti tp ni cap' ep' m' ti' tp' ni' :
  verify_bindings c cap ep m ti tp ni = Ok () →
  verify_bindings c cap' ep' m' ti' tp' ni' = Ok () →
  (cap = rc_capability c ∧ cap = cap' ∧ ep = ep' ∧ m = m' ∧
   same_digested TARGET_IDENTITY ti ti' [capability_name cap] ∧
   same_digested TARGET_FINGERPRINT tp tp' [capability_name cap; ep; m] ∧
   same_digested INTENT ni ni' [capability_name cap; ep; m]).
Proof.
  unfold verify_bindings.
  intros (d1 & D1 & (d2 & D2 & (d3 & D3 & Hd%require_Ok)%bind_Ok)%bind_Ok)%bind_Ok
    (d1' & D1' & (d2' & D2' & (d3' & D3' & Hd'%require_Ok)%bind_Ok)%bind_Ok)%bind_Ok.
  rewrite !andb_true_iff, !pystr_eqb_eq, !capability_eqb_eq in Hd, Hd'. destruct_and?. subst.
  split_and!; try done; unfold same_digested;
    [destruct (digest_value_pins _ _ _ _ _ _ _ D1 D1') as [(_ & _ & ?)|]
    |destruct (digest_value_pins _ _ _ _ _ _ _ D2 D2') as [(_ & _ & ?)|]
    |destruct (digest_value_pins _ _ _ _ _ _ _ D3 D3') as [(_ & _ & ?)|]]; auto.
Qed.
End properties.

(** ** A concrete contract *)

Module Sample.
#[export] Instance hash : Sha256.Hash := polynomial_hash.
#[export] Instance unicode : UnicodeData := identity_unicode.

Definition day (d h : Z) : datetime := mk_datetime 2026 9 d h 0 0 0 (Some 0%Z).
Definition target : pyobj := pdict [("id", PInt 3); ("name", PStr (u "lan_hosts"))].
Definition precondition : pyobj := pdict [("id", PInt 3); ("descr", PStr (u "old"))].
Definition intent : pyobj := pdict [("descr", PStr (u "new"))].
Definition endpoint : pystr := u "FIREWALL_ALIAS".
Definition method : pystr := u "PATCH".

Definition value_of (r : result pystr) : pystr := match r with Ok s => s | Raise _ => [] end.

Definition context : list pystr := [capability_name FIREWALL_WRITE; endpoint; method].
Definition target_digest : pystr :=
  value_of (digest_value TARGET_IDENTITY target [capability_name FIREWALL_WRITE]).
Definition fingerprint : pystr := value_of (digest_value TARGET_FINGERPRINT precondition context).
Definition intent_digest : pystr := value_of (digest_value INTENT intent context).
Definition snapshot_digest : pystr := value_of (digest_value SNAPSHOT precondition context).
Definition artifact : ProtectedArtifact := {|
  pa_key_id := u "key-1"; pa_algorithm := u "AES-256-GCM-v1"; pa_ciphertext := [Byte.x01; Byte.x02] |}.

Definition contract (id op : string) (s : RecoveryState) (version : Z) : RecoveryContract :=
  mk_RecoveryContract (u id) (u op)
    (value_of (derive_idempotency_key FIREWALL_WRITE endpoint method target_digest fingerprint 3
       intent_digest snapshot_digest (u "v1")))
    FIREWALL_WRITE HIGH_ASSURANCE_TIER1 endpoint method target_digest fingerprint 3
    intent_digest snapshot_digest (u "v1") (day 1 0) (day 2 0) s version artifact artifact artifact
    None None None None.

Definition evidence_digest : pystr := sha256_hex [Byte.x07].
Definition confirmed (id op : string) : result RecoveryContract :=
  with_confirmation (contract id op PREPARED 1) (u "owner") evidence_digest (day 1 5).
Definition get (r : result RecoveryContract) : RecoveryContract :=
  match r with Ok c => c | Raise _ => contract "c" "o" PREPARED 1 end.
End Sample.
#[local] Existing Instances Sample.hash Sample.unicode.

Lemma idempotency_key_binds_witness :
  let c := Sample.contract "c1" "o1" PREPARING 0 in
  let c' := Sample.contract "c2" "o2" PREPARING 0 in
  (rc_capability c = rc_capability c' ∧ rc_endpoint_symbol c = rc_endpoint_symbol c' ∧
     rc_http_method c = rc_http_method c' ∧
     rc_target_identity_digest c = rc_target_identity_digest c' ∧
     rc_target_fingerprint c = rc_target_fingerprint c' ∧
     rc_lifecycle_locator c = rc_lifecycle_locator c' ∧
     rc_intent_digest c = rc_intent_digest c' ∧ rc_snapshot_digest c = rc_snapshot_digest c' ∧
     rc_rollback_plan_version c = rc_rollback_plan_version c') ∨ idempotency_collides c c'.
Proof.
  exact (@idempotency_key_binds Sample.hash Sample.unicode (Sample.contract "c1" "o1" PREPARING 0) (Sample.contract "c2" "o2" PREPARING 0)
    (Sample.contract "c1" "o1" PREPARING 0) (Sample.contract "c2" "o2" PREPARING 0)
    ltac:(vm_compute; reflexivity) ltac:(vm_compute; reflexivity) ltac:(vm_compute; reflexivity)).
Defined.

Lemma confirmation_binds_witness :
  rc_state (Sample.get (Sample.confirmed "c1" "o1")) = PREPARED.
Proof.
  destruct (@confirmation_binds Sample.hash Sample.unicode (Sample.contract "c1" "o1" PREPARED 1) (Sample.contract "c1" "o1" PREPARED 1)
    (u "owner") (u "owner") Sample.evidence_digest Sample.evidence_digest (Sample.day 1 5) (Sample.day 1 5)
    (Sample.get (Sample.confirmed "c1" "o1")) (Sample.get (Sample.confirmed "c1" "o1"))
    ltac:(apply post_init_facts; vm_compute; reflexivity) ltac:(apply post_init_facts; vm_compute; reflexivity)
    ltac:(vm_compute; reflexivity) ltac:(vm_compute; reflexivity)
    ltac:(vm_compute; reflexivity) ltac:(vm_compute; reflexivity)) as [[H _] _].
  exact H.
Defined.

Lemma verify_bindings_unique_witness :
  same_digested INTENT Sample.intent Sample.intent [capability_name FIREWALL_WRITE; Sample.endpoint; Sample.method].
Proof.
  apply (@verify_bindings_unique Sample.hash Sample.unicode (Sample.contract "c1" "o1" PREPARED 1)
    FIREWALL_WRITE Sample.endpoint Sample.method Sample.target Sample.precondition Sample.intent
    FIREWALL_WRITE Sample.endpoint Sample.method Sample.target Sample.precondition Sample.intent
    ltac:(vm_compute; reflexivity) ltac:(vm_compute; reflexivity)).
Defined.
