(* ===== verification/Evidence.v ===== *)
(** * Owner evidence: confirmation, reconciliation and pinned authorities

    [tier1/confirmation.py], [tier1/reconciliation.py],
    [tier1/ed25519_authority.py], [tier1/confirmation_providers.py] and
    [tier1/reconciliation_providers.py], with the exact policy of
    [tier1/policy.py].  Ed25519 itself ([cryptography]) is the parameter
    [ed25519_verify]; nothing is assumed of it. *)

From S2P Require Import Prelude PyStr Sha256 PyDatetime Json Capability StateMachine Canonical.
From S2P Require Import Contract.

(** [Ed25519PublicKey.from_public_bytes(key).verify(signature, message)]:
    [false] when it raises [InvalidSignature] or [ValueError]. *)
Class Ed25519 : Type := { ed25519_verify : bytes → bytes → bytes → bool }.

(** ** Policy *)

Module Policy.
Record MutationRule : Type := {
  rule_capability : Capability; rule_endpoint_symbol : pystr; rule_http_method : pystr }.

#[export] Instance MutationRule_eq_dec : EqDecision MutationRule.
Proof. solve_decision. Defined.

Definition is_upper (c : N) : bool := in_range 65 90 c.
(** [[A-Z][A-Z0-9_]{0,127}] *)
Definition match_endpoint_symbol (s : pystr) : bool :=
  match s with
  | [] => false
  | c :: s => is_upper c && forallb (λ c, is_upper c || in_range 48 57 c || (c =? 95)%N) s &&
              (length s <=? 127)%nat
  end.

Definition MutationRule_new (r : MutationRule) : result MutationRule :=
  _ ← require (is_write_capability (rule_capability r)) MutationPolicyError;
  _ ← require (match_endpoint_symbol (rule_endpoint_symbol r)) MutationPolicyError;
  _ ← require (is_mutating_method (rule_http_method r)) MutationPolicyError;
  Ok r.

(** A policy is its frozen set of rules. *)
Definition MutationPolicy : Type := list MutationRule.
Definition INACTIVE_TIER1_POLICY : MutationPolicy := [].

Definition authorize (policy : MutationPolicy) (capability : Capability)
    (endpoint_symbol http_method : pystr) : result () :=
  requested ← MutationRule_new {| rule_capability := capability;
    rule_endpoint_symbol := endpoint_symbol; rule_http_method := http_method |};
  require (bool_decide (requested ∈ policy)) MutationPolicyError.

Lemma authorize_inv policy c e m :
  authorize policy c e m = Ok () →
  {| rule_capability := c; rule_endpoint_symbol := e; rule_http_method := m |} ∈ policy ∧
  is_write_capability c = true ∧ is_mutating_method m = true.
Proof.
  unfold authorize, MutationRule_new. rewrite bind_Ok. intros (r & Hr & Hin).
  rewrite !require_bind in Hr. simpl in Hr. destruct Hr as (? & ? & ? & [= <-]).
  rewrite require_Ok, bool_decide_eq_true in Hin. done.
Qed.
End Policy.

(** ** Confirmation evidence *)

Definition MAX_CONFIRMATION_PROOF_BYTES : N := 65536.
Definition MAX_RECONCILIATION_PROOF_BYTES : N := 65536.

Record ConfirmationEvidence : Type := {
  ce_authority_id : pystr;
  ce_algorithm : pystr;
  ce_nonce : pystr;
  ce_contract_id : pystr;
  ce_operation_id : pystr;
  ce_target_identity_digest : pystr;
  ce_target_fingerprint : pystr;
  ce_intent_digest : pystr;
  ce_expires_at : datetime;
  ce_issued_at : datetime;
  ce_proof : bytes;
}.

Section confirmation_evidence.
Context `{Hash} `{UnicodeData}.

Definition ConfirmationEvidence_post_init (e : ConfirmationEvidence) : result () :=
  _ ← require (forallb match_token
        [ce_authority_id e; ce_algorithm e; ce_nonce e; ce_contract_id e; ce_operation_id e])
        ConfirmationError;
  _ ← require (forallb match_hex64
        [ce_target_identity_digest e; ce_target_fingerprint e; ce_intent_digest e])
        ConfirmationError;
  _ ← require (is_utc (ce_expires_at e) && is_utc (ce_issued_at e) &&
               negb (dt_leb (ce_expires_at e) (ce_issued_at e))) ConfirmationError;
  require (negb (blen (ce_proof e) =? 0)%N && (blen (ce_proof e) <=? MAX_CONFIRMATION_PROOF_BYTES)%N)
    ConfirmationError.

Definition ce_proof_digest (e : ConfirmationEvidence) : pystr := sha256_hex (ce_proof e).

Definition ce_evidence_digest (e : ConfirmationEvidence) : result pystr :=
  digest_value CONFIRMATION
    (pdict [("algorithm", PStr (ce_algorithm e));
            ("authority_id", PStr (ce_authority_id e));
            ("contract_id", PStr (ce_contract_id e));
            ("expires_at", PStr (isoformat (ce_expires_at e)));
            ("intent_digest", PStr (ce_intent_digest e));
            ("nonce", PStr (ce_nonce e));
            ("operation_id", PStr (ce_operation_id e));
            ("proof_digest", PStr (ce_proof_digest e));
            ("target_fingerprint", PStr (ce_target_fingerprint e));
            ("target_identity_digest", PStr (ce_target_identity_digest e))]) [].

Definition ce_verify_bindings (e : ConfirmationEvidence) (c : RecoveryContract) : result () :=
  require
    (compare_digest (ce_contract_id e) (rc_contract_id c) &&
     compare_digest (ce_operation_id e) (rc_operation_id c) &&
     compare_digest (ce_target_identity_digest e) (rc_target_identity_digest c) &&
     compare_digest (ce_target_fingerprint e) (rc_target_fingerprint c) &&
     compare_digest (ce_intent_digest e) (rc_intent_digest c) &&
     dt_eqb (ce_expires_at e) (rc_expires_at c)) ConfirmationError.

(** [confirmation_providers.signing_payload] *)
Definition confirmation_payload (e : ConfirmationEvidence) : list (string * pyobj) :=
  [("algorithm", PStr (ce_algorithm e));
   ("authority_id", PStr (ce_authority_id e));
   ("contract_id", PStr (ce_contract_id e));
   ("expires_at", PStr (isoformat (ce_expires_at e)));
   ("intent_digest", PStr (ce_intent_digest e));
   ("issued_at", PStr (isoformat (ce_issued_at e)));
   ("nonce", PStr (ce_nonce e));
   ("operation_id", PStr (ce_operation_id e));
   ("target_fingerprint", PStr (ce_target_fingerprint e));
   ("target_identity_digest", PStr (ce_target_identity_digest e))].

Definition confirmation_signing_payload (e : ConfirmationEvidence) : result bytes :=
  canonical_json (pdict (confirmation_payload e)).
End confirmation_evidence.

(** ** Reconciliation evidence *)

Inductive ReconciliationOutcome : Type :=
  | CONFIRMED_APPLIED | CONFIRMED_NOT_APPLIED
  | CONFIRMED_ROLLBACK_APPLIED | CONFIRMED_ROLLBACK_NOT_APPLIED.

#[global] Instance ReconciliationOutcome_eq_dec : EqDecision ReconciliationOutcome.
Proof. solve_decision. Defined.

Definition outcome_value (o : ReconciliationOutcome) : pystr :=
  match o with
  | CONFIRMED_APPLIED => u "confirmed_applied"
  | CONFIRMED_NOT_APPLIED => u "confirmed_not_applied"
  | CONFIRMED_ROLLBACK_APPLIED => u "confirmed_rollback_applied"
  | CONFIRMED_ROLLBACK_NOT_APPLIED => u "confirmed_rollback_not_applied"
  end.

Definition OUTCOME_TARGET_STATE (o : ReconciliationOutcome) : RecoveryState :=
  match o with
  | CONFIRMED_APPLIED => VERIFIED
  | CONFIRMED_NOT_APPLIED => FAILED
  | CONFIRMED_ROLLBACK_APPLIED => ROLLED_BACK
  | CONFIRMED_ROLLBACK_NOT_APPLIED => ROLLBACK_FAILED
  end.

Record ReconciliationEvidence : Type := {
  re_authority_id : pystr;
  re_algorithm : pystr;
  re_contract_id : pystr;
  re_operation_id : pystr;
  re_observed_state_version : Z;
  re_outcome : ReconciliationOutcome;
  re_issued_at : datetime;
  re_proof : bytes;
  re_verified_target_fingerprint : option pystr;
  re_verified_lifecycle_locator : option Z;
}.

Definition py_opt_str (o : option pystr) : pyobj := match o with Some s => PStr s | None => PNone end.
Definition py_opt_int (o : option Z) : pyobj := match o with Some z => PInt z | None => PNone end.

Section reconciliation_evidence.
Context `{Hash} `{UnicodeData}.

Definition ReconciliationEvidence_post_init (e : ReconciliationEvidence) : result () :=
  _ ← require (forallb match_token
        [re_authority_id e; re_algorithm e; re_contract_id e; re_operation_id e]) ConfirmationError;
  _ ← require (0 <=? re_observed_state_version e)%Z ConfirmationError;
  _ ← require (is_utc (re_issued_at e)) ConfirmationError;
  _ ← require (negb (blen (re_proof e) =? 0)%N &&
               (blen (re_proof e) <=? MAX_RECONCILIATION_PROOF_BYTES)%N) ConfirmationError;
  let applied := bool_decide (re_outcome e = CONFIRMED_APPLIED) in
  let valid_fingerprint :=
    match re_verified_target_fingerprint e with Some f => match_hex64 f | None => false end in
  _ ← require (negb ((applied && negb valid_fingerprint) ||
                     (negb applied && negb (is_none (re_verified_target_fingerprint e)))))
        ConfirmationError;
  let applied_outcome :=
    applied || bool_decide (re_outcome e = CONFIRMED_ROLLBACK_APPLIED) in
  let valid_locator :=
    match re_verified_lifecycle_locator e with
    | Some z => (0 <=? z)%Z && (z <=? MAX_LOCATOR)%Z | None => false end in
  require (negb ((applied_outcome && negb valid_locator) ||
                 (negb applied_outcome && negb (is_none (re_verified_lifecycle_locator e)))))
    ConfirmationError.

Definition re_evidence_digest (e : ReconciliationEvidence) : result pystr :=
  digest_value RECONCILIATION_PURPOSE
    (pdict [("authority_id", PStr (re_authority_id e));
            ("contract_id", PStr (re_contract_id e));
            ("issued_at", PStr (isoformat (re_issued_at e)));
            ("observed_state_version", PInt (re_observed_state_version e));
            ("operation_id", PStr (re_operation_id e));
            ("outcome", PStr (outcome_value (re_outcome e)));
            ("proof_digest", PStr (sha256_hex (re_proof e)));
            ("verified_target_fingerprint", py_opt_str (re_verified_target_fingerprint e));
            ("verified_lifecycle_locator", py_opt_int (re_verified_lifecycle_locator e))]) [].

Definition re_verify_bindings (e : ReconciliationEvidence) (contract_id operation_id : pystr)
    (state_version lifecycle_locator : Z) : result () :=
  require
    (negb (negb (pystr_eqb (re_contract_id e) contract_id) ||
           negb (pystr_eqb (re_operation_id e) operation_id) ||
           negb (re_observed_state_version e =? state_version)%Z ||
           match re_verified_lifecycle_locator e with
           | Some z => negb (z =? lifecycle_locator)%Z | None => false end)) ConfirmationError.

(** [reconciliation_providers.signing_payload] *)
Definition reconciliation_payload (e : ReconciliationEvidence) : list (string * pyobj) :=
  [("algorithm", PStr (re_algorithm e));
   ("authority_id", PStr (re_authority_id e));
   ("contract_id", PStr (re_contract_id e));
   ("issued_at", PStr (isoformat (re_issued_at e)));
   ("observed_state_version", PInt (re_observed_state_version e));
   ("operation_id", PStr (re_operation_id e));
   ("outcome", PStr (outcome_value (re_outcome e)));
   ("verified_target_fingerprint", py_opt_str (re_verified_target_fingerprint e));
   ("verified_lifecycle_locator", py_opt_int (re_verified_lifecycle_locator e))].

Definition reconciliation_signing_payload (e : ReconciliationEvidence) : result bytes :=
  canonical_json (pdict (reconciliation_payload e)).
End reconciliation_evidence.

(** ** Pinned authorities *)

Record PinnedAuthority : Type := {
  pin_authority_id : pystr; pin_public_key : bytes; pin_active : bool }.

Definition PinnedAuthority_new (a : PinnedAuthority) : result PinnedAuthority :=
  _ ← require (match_token (pin_authority_id a)) Tier1Error;
  _ ← require (length (pin_public_key a) =? 32)%nat Tier1Error;
  Ok a.

(** The dict from identifiers to authorities, as its values. *)
Definition PinnedAuthoritySet_new (authorities : list PinnedAuthority) : result (list PinnedAuthority) :=
  _ ← require (negb (length authorities =? 0)%nat) Tier1Error;
  _ ← require (bool_decide (NoDup (pin_authority_id <$> authorities))) Tier1Error;
  Ok authorities.

Section authorities.
Context `{Hash} `{UnicodeData} `{Ed25519}.

Definition verify_signature (set : list PinnedAuthority) (authority_id : pystr)
    (message signature : bytes) : bool :=
  match find (λ a, pystr_eqb (pin_authority_id a) authority_id) set with
  | None => false
  | Some authority =>
    if negb (pin_active authority) then false
    else ed25519_verify (pin_public_key authority) signature message
  end.

Definition CONFIRMATION_ALGORITHM : pystr := u "ed25519-v1".
Definition RECONCILIATION_ALGORITHM : pystr := u "ed25519-reconciliation-v2".

(** [Ed25519ConfirmationVerifier.verify] *)
Definition confirmation_verify (set : list PinnedAuthority) (e : ConfirmationEvidence) : result bool :=
  if negb (pystr_eqb (ce_algorithm e) CONFIRMATION_ALGORITHM) then Ok false else
  message ← confirmation_signing_payload e;
  Ok (verify_signature set (ce_authority_id e) message (ce_proof e)).

(** [Ed25519ReconciliationVerifier.verify] *)
Definition reconciliation_verify (set : list PinnedAuthority) (e : ReconciliationEvidence) : result bool :=
  if negb (pystr_eqb (re_algorithm e) RECONCILIATION_ALGORITHM) then Ok false else
  message ← reconciliation_signing_payload e;
  Ok (verify_signature set (re_authority_id e) message (re_proof e)).
End authorities.

(** ** What a signed payload attests *)

Section attested.
Context `{Hash} `{UnicodeData} `{Ed25519}.

Lemma confirmation_facts_ascii e : ConfirmationEvidence_post_init e = Ok () →
  Forall (λ s, is_ascii s = true)
    [ce_authority_id e; ce_algorithm e; ce_nonce e; ce_contract_id e; ce_operation_id e;
     ce_target_identity_digest e; ce_target_fingerprint e; ce_intent_digest e].
Proof.
  unfold ConfirmationEvidence_post_init. rewrite !require_bind. intros (Ht & Hd & _).
  cbn [forallb] in Ht, Hd. split_andb.
  repeat apply Forall_cons_2; [..|apply Forall_nil_2];
    first [by apply match_token_ascii|by apply match_hex64_ascii].
Qed.

Lemma confirmation_payload_fields e e' m :
  ConfirmationEvidence_post_init e = Ok () → ConfirmationEvidence_post_init e' = Ok () →
  confirmation_signing_payload e = Ok m → confirmation_signing_payload e' = Ok m →
  ce_authority_id e = ce_authority_id e' ∧ ce_algorithm e = ce_algorithm e' ∧
  ce_nonce e = ce_nonce e' ∧ ce_contract_id e = ce_contract_id e' ∧
  ce_operation_id e = ce_operation_id e' ∧
  ce_target_identity_digest e = ce_target_identity_digest e' ∧
  ce_target_fingerprint e = ce_target_fingerprint e' ∧ ce_intent_digest e = ce_intent_digest e' ∧
  isoformat (ce_expires_at e) = isoformat (ce_expires_at e') ∧
  isoformat (ce_issued_at e) = isoformat (ce_issued_at e').
Proof.
  intros Ha%confirmation_facts_ascii Ha'%confirmation_facts_ascii Hm Hm'.
  rewrite !Forall_cons in Ha, Ha'. destruct_and?.
  destruct (canonical_json_form _ _ _ Hm Hm') as (j & Hj & Hj').
  unfold confirmation_payload in Hj, Hj'. split_and!;
    [eapply (literal_agree_str _ _ _ "authority_id" _ _ Hj Hj')
    |eapply (literal_agree_str _ _ _ "algorithm" _ _ Hj Hj')
    |eapply (literal_agree_str _ _ _ "nonce" _ _ Hj Hj')
    |eapply (literal_agree_str _ _ _ "contract_id" _ _ Hj Hj')
    |eapply (literal_agree_str _ _ _ "operation_id" _ _ Hj Hj')
    |eapply (literal_agree_str _ _ _ "target_identity_digest" _ _ Hj Hj')
    |eapply (literal_agree_str _ _ _ "target_fingerprint" _ _ Hj Hj')
    |eapply (literal_agree_str _ _ _ "intent_digest" _ _ Hj Hj')
    |eapply (literal_agree_str _ _ _ "expires_at" _ _ Hj Hj')
    |eapply (literal_agree_str _ _ _ "issued_at" _ _ Hj Hj')];
    first [by in_list|apply isoformat_ascii|done].
Qed.

Lemma outcome_value_inj o o' : outcome_value o = outcome_value o' → o = o'.
Proof. by destruct o, o'. Qed.

Lemma outcome_value_ascii o : is_ascii (outcome_value o) = true.
Proof. by destruct o. Qed.

Lemma reconciliation_facts_ascii e : ReconciliationEvidence_post_init e = Ok () →
  Forall (λ s, is_ascii s = true)
    [re_authority_id e; re_algorithm e; re_contract_id e; re_operation_id e] ∧
  (∀ f, re_verified_target_fingerprint e = Some f → is_ascii f = true).
Proof.
  unfold ReconciliationEvidence_post_init. cbv zeta. rewrite !require_bind.
  intros (Ht & _ & _ & _ & Hf & _). cbn [forallb] in Ht. split_andb. split.
  - repeat apply Forall_cons_2; [..|apply Forall_nil_2]; by apply match_token_ascii.
  - intros f Ef. rewrite Ef in Hf. simpl in Hf. apply match_hex64_ascii.
    destruct (bool_decide _), (match_hex64 f); done.
Qed.

Lemma literal_agree_opt_str l l' j k o o' :
  canonical_form (pdict l) j → canonical_form (pdict l') j →
  (k, py_opt_str o) ∈ l → (k, py_opt_str o') ∈ l' → is_ascii (u k) = true →
  (∀ s, o = Some s → is_ascii s = true) → (∀ s, o' = Some s → is_ascii s = true) → o = o'.
Proof.
  intros Hj Hj' Hin Hin' Hk Ho Ho'.
  destruct (literal_agree _ _ _ _ _ _ Hj Hj' Hin Hin' Hk) as (x & x' & Hx & Hx' & E).
  destruct o as [s|], o' as [s'|]; unfold py_opt_str in Hx, Hx'; [..|done].
  - apply denote_str in Hx as ->; [|auto]. apply denote_str in Hx' as ->; [|auto]. by injection E as ->.
  - apply denote_str in Hx as ->; [|auto]. by injection Hx' as <-.
  - apply denote_str in Hx' as ->; [|auto]. by injection Hx as <-.
Qed.

Lemma denote_int d z x : denote d (PInt z) = Some x → x = JInt z.
Proof. cbn [denote]. by repeat case_match; intros [= <-]. Qed.

Lemma literal_agree_opt_int l l' j k o o' :
  canonical_form (pdict l) j → canonical_form (pdict l') j →
  (k, py_opt_int o) ∈ l → (k, py_opt_int o') ∈ l' → is_ascii (u k) = true → o = o'.
Proof.
  intros Hj Hj' Hin Hin' Hk.
  destruct (literal_agree _ _ _ _ _ _ Hj Hj' Hin Hin' Hk) as (x & x' & Hx & Hx' & E).
  destruct o as [s|], o' as [s'|]; unfold py_opt_int in Hx, Hx'; [..|done].
  - apply denote_int in Hx as ->, Hx' as ->. by injection E as ->.
  - apply denote_int in Hx as ->. by injection Hx' as <-.
  - apply denote_int in Hx' as ->. by injection Hx as <-.
Qed.

Lemma reconciliation_payload_fields e e' m :
  ReconciliationEvidence_post_init e = Ok () → ReconciliationEvidence_post_init e' = Ok () →
  reconciliation_signing_payload e = Ok m → reconciliation_signing_payload e' = Ok m →
  re_authority_id e = re_authority_id e' ∧ re_algorithm e = re_algorithm e' ∧
  re_contract_id e = re_contract_id e' ∧ re_operation_id e = re_operation_id e' ∧
  re_outcome e = re_outcome e' ∧
  re_observed_state_version e = re_observed_state_version e' ∧
  re_verified_target_fingerprint e = re_verified_target_fingerprint e' ∧
  re_verified_lifecycle_locator e = re_verified_lifecycle_locator e' ∧
  isoformat (re_issued_at e) = isoformat (re_issued_at e').
Proof.
  intros [Ha Hf]%reconciliation_facts_ascii [Ha' Hf']%reconciliation_facts_ascii Hm Hm'.
  rewrite !Forall_cons in Ha, Ha'. destruct_and?.
  destruct (canonical_json_form _ _ _ Hm Hm') as (j & Hj & Hj').
  unfold reconciliation_payload in Hj, Hj'. split_and!;
    [eapply (literal_agree_str _ _ _ "authority_id" _ _ Hj Hj')
    |eapply (literal_agree_str _ _ _ "algorithm" _ _ Hj Hj')
    |eapply (literal_agree_str _ _ _ "contract_id" _ _ Hj Hj')
    |eapply (literal_agree_str _ _ _ "operation_id" _ _ Hj Hj')
    |apply outcome_value_inj; eapply (literal_agree_str _ _ _ "outcome" _ _ Hj Hj')
    |eapply (literal_agree_int _ _ _ "observed_state_version" _ _ Hj Hj')
    |eapply (literal_agree_opt_str _ _ _ "verified_target_fingerprint" _ _ Hj Hj')
    |eapply (literal_agree_opt_int _ _ _ "verified_lifecycle_locator" _ _ Hj Hj')
    |eapply (literal_agree_str _ _ _ "issued_at" _ _ Hj Hj')];
    first [by in_list|apply isoformat_ascii|apply outcome_value_ascii|done].
Qed.

Lemma verify_signature_inv set a m s :
  verify_signature set a m s = true →
  ∃ p, p ∈ set ∧ pin_authority_id p = a ∧ pin_active p = true ∧
       ed25519_verify (pin_public_key p) s m = true.
Proof.
  unfold verify_signature. destruct (find _ set) as [p|] eqn:Ef; [|done].
  apply find_some in Ef as [Hin%list_elem_of_In Ha%pystr_eqb_eq].
  destruct (pin_active p) eqn:E; [|done]. simpl. eauto.
Qed.

Lemma confirmation_verify_inv set e :
  confirmation_verify set e = Ok true →
  ce_algorithm e = CONFIRMATION_ALGORITHM ∧
  ∃ m, confirmation_signing_payload e = Ok m ∧
       verify_signature set (ce_authority_id e) m (ce_proof e) = true.
Proof.
  unfold confirmation_verify. destruct (pystr_eqb _ _) eqn:Ea; [|done]. simpl.
  intros (m & Hm & [= Hv])%bind_Ok. apply pystr_eqb_eq in Ea. eauto.
Qed.

Lemma reconciliation_verify_inv set e :
  reconciliation_verify set e = Ok true →
  re_algorithm e = RECONCILIATION_ALGORITHM ∧
  ∃ m, reconciliation_signing_payload e = Ok m ∧
       verify_signature set (re_authority_id e) m (re_proof e) = true.
Proof.
  unfold reconciliation_verify. destruct (pystr_eqb _ _) eqn:Ea; [|done]. simpl.
  intros (m & Hm & [= Hv])%bind_Ok. apply pystr_eqb_eq in Ea. eauto.
Qed.
End attested.

(** ** Properties *)

Section properties.
Context `{Hash} `{UnicodeData} `{Ed25519}.

(** Evidence the confirmation verifier accepts carries a signature of
    an active pinned authority of that name over bytes that attest exactly
    these facts: any other well-formed evidence with the same signed bytes
    agrees with it on every field but the proof. *)
Theorem confirmation_attested set e :
  ConfirmationEvidence_post_init e = Ok () → confirmation_verify set e = Ok true →
  ∃ a m, a ∈ set ∧ pin_authority_id a = ce_authority_id e ∧ pin_active a = true ∧
    confirmation_signing_payload e = Ok m ∧ ed25519_verify (pin_public_key a) (ce_proof e) m = true ∧
    ∀ e', ConfirmationEvidence_post_init e' = Ok () → confirmation_signing_payload e' = Ok m →
      dt_valid (ce_expires_at e) = true → dt_valid (ce_expires_at e') = true →
      dt_valid (ce_issued_at e) = true → dt_valid (ce_issued_at e') = true →
      ∃ proof', e' = {| ce_authority_id := ce_authority_id e; ce_algorithm := ce_algorithm e;
        ce_nonce := ce_nonce e; ce_contract_id := ce_contract_id e;
        ce_operation_id := ce_operation_id e;
        ce_target_identity_digest := ce_target_identity_digest e;
        ce_target_fingerprint := ce_target_fingerprint e; ce_intent_digest := ce_intent_digest e;
        ce_expires_at := ce_expires_at e; ce_issued_at := ce_issued_at e; ce_proof := proof' |}.
Proof.
  intros Hp (_ & m & Hm & (a & Hin & Ha & Hact & Hv)%verify_signature_inv)%confirmation_verify_inv.
  exists a, m. split_and!; [done..|]. intros e' Hp' Hm' V1 V2 V3 V4.
  destruct (confirmation_payload_fields _ _ _ Hp Hp' Hm Hm')
    as (-> & -> & -> & -> & -> & -> & -> & -> & E1%isoformat_inj & E2%isoformat_inj); [|done..].
  exists (ce_proof e'). rewrite E1, E2. by destruct e'.
Qed.

(** The same for reconciliation: the bytes a pinned authority signed
    fix the contract, the state version, the outcome and the verified
    fingerprint and locator. *)
Theorem reconciliation_attested set e :
  ReconciliationEvidence_post_init e = Ok () → reconciliation_verify set e = Ok true →
  ∃ a m, a ∈ set ∧ pin_authority_id a = re_authority_id e ∧ pin_active a = true ∧
    reconciliation_signing_payload e = Ok m ∧ ed25519_verify (pin_public_key a) (re_proof e) m = true ∧
    ∀ e', ReconciliationEvidence_post_init e' = Ok () → reconciliation_signing_payload e' = Ok m →
      re_contract_id e' = re_contract_id e ∧ re_operation_id e' = re_operation_id e ∧
      re_outcome e' = re_outcome e ∧
      re_observed_state_version e' = re_observed_state_version e ∧
      re_verified_target_fingerprint e' = re_verified_target_fingerprint e ∧
      re_verified_lifecycle_locator e' = re_verified_lifecycle_locator e.
Proof.
  intros Hp (_ & m & Hm & (a & Hin & Ha & Hact & Hv)%verify_signature_inv)%reconciliation_verify_inv.
  exists a, m. split_and!; [done..|]. intros e' Hp' Hm'.
  destruct (reconciliation_payload_fields _ _ _ Hp Hp' Hm Hm') as (_ & _ & ? & ? & ? & ? & ? & ? & _).
  done.
Qed.

(** A confirmation signature is never a reconciliation signature: the
    two verifiers, even with the same pinned keys, never accept evidence
    whose signed bytes are the same. *)
Theorem signature_domains_disjoint set set' e e' m :
  confirmation_verify set e = Ok true → reconciliation_verify set' e' = Ok true →
  confirmation_signing_payload e = Ok m → ¬ reconciliation_signing_payload e' = Ok m.
Proof.
  intros [Ea _]%confirmation_verify_inv [Ea' _]%reconciliation_verify_inv Hm Hm'.
  destruct (canonical_json_form _ _ _ Hm Hm') as (j & Hj & Hj').
  assert (ce_algorithm e = re_algorithm e') as E.
  { eapply (literal_agree_str _ _ _ "algorithm" _ _ Hj Hj');
      [in_list|in_list|done|by rewrite Ea|by rewrite Ea']. }
  rewrite Ea, Ea' in E. discriminate E.
Qed.
End properties.

(** ** Concrete evidence *)

Module SampleEvidence.
(** A stand-in signature scheme: the signature is the hash of the key and
    the message. *)
#[export] Instance ed25519 : Ed25519 :=
  {| ed25519_verify key s m := bool_decide (s = @sha256 Sample.hash (key ++ m)) |}.

Definition key : bytes := replicate 32 Byte.x05.
Definition authorities : list PinnedAuthority :=
  [{| pin_authority_id := u "owner"; pin_public_key := key; pin_active := true |}].

Definition bytes_of (r : result bytes) : bytes := match r with Ok b => b | Raise _ => [] end.

Definition unsigned_confirmation (c : RecoveryContract) (proof : bytes) : ConfirmationEvidence := {|
  ce_authority_id := u "owner"; ce_algorithm := CONFIRMATION_ALGORITHM; ce_nonce := u "n1";
  ce_contract_id := rc_contract_id c; ce_operation_id := rc_operation_id c;
  ce_target_identity_digest := rc_target_identity_digest c;
  ce_target_fingerprint := rc_target_fingerprint c; ce_intent_digest := rc_intent_digest c;
  ce_expires_at := rc_expires_at c; ce_issued_at := Sample.day 1 3; ce_proof := proof |}.

Definition sign (r : result bytes) : bytes := @sha256 Sample.hash (key ++ bytes_of r).

Definition confirmation (c : RecoveryContract) : ConfirmationEvidence :=
  unsigned_confirmation c
    (sign (@confirmation_signing_payload Sample.unicode (unsigned_confirmation c []))).

Definition unsigned_reconciliation (c : RecoveryContract) (o : ReconciliationOutcome)
    (fp : option pystr) (loc : option Z) (proof : bytes) : ReconciliationEvidence := {|
  re_authority_id := u "owner"; re_algorithm := RECONCILIATION_ALGORITHM;
  re_contract_id := rc_contract_id c; re_operation_id := rc_operation_id c;
  re_observed_state_version := rc_state_version c; re_outcome := o; re_issued_at := Sample.day 1 6;
  re_proof := proof; re_verified_target_fingerprint := fp; re_verified_lifecycle_locator := loc |}.

Definition reconciliation (c : RecoveryContract) (o : ReconciliationOutcome)
    (fp : option pystr) (loc : option Z) : ReconciliationEvidence :=
  unsigned_reconciliation c o fp loc
    (sign (@reconciliation_signing_payload Sample.unicode (unsigned_reconciliation c o fp loc []))).
End SampleEvidence.
#[local] Existing Instances Sample.hash Sample.unicode SampleEvidence.ed25519.

Definition sample_contract : RecoveryContract := Sample.contract "c1" "o1" PREPARED 1.

Lemma confirmation_attested_witness :
  ∃ a m, a ∈ SampleEvidence.authorities ∧
    ed25519_verify (pin_public_key a) (ce_proof (SampleEvidence.confirmation sample_contract)) m = true.
Proof.
  destruct (@confirmation_attested _ _ SampleEvidence.authorities (SampleEvidence.confirmation sample_contract))
    as (a & m & Hin & _ & _ & _ & Hv & _); [vm_compute; reflexivity..|].
  exact (ex_intro _ a (ex_intro _ m (conj Hin Hv))).
Defined.

Definition sample_resolution : ReconciliationEvidence :=
  SampleEvidence.reconciliation sample_contract CONFIRMED_NOT_APPLIED None None.

Lemma reconciliation_attested_witness :
  ∃ a m, a ∈ SampleEvidence.authorities ∧ ed25519_verify (pin_public_key a) (re_proof sample_resolution) m = true.
Proof.
  destruct (@reconciliation_attested _ _ SampleEvidence.authorities sample_resolution)
    as (a & m & Hin & _ & _ & _ & Hv & _); [vm_compute; reflexivity..|].
  exact (ex_intro _ a (ex_intro _ m (conj Hin Hv))).
Defined.

Lemma signature_domains_disjoint_witness :
  ¬ reconciliation_signing_payload sample_resolution =
    Ok (SampleEvidence.bytes_of (confirmation_signing_payload (SampleEvidence.confirmation sample_contract))).
Proof.
  apply (@signature_domains_disjoint _ _ SampleEvidence.authorities SampleEvidence.authorities
    (SampleEvidence.confirmation sample_contract) sample_resolution); vm_compute; reflexivity.
Defined.
