(* ===== verification/StoreCodec.v ===== *)
(** * The stored form of a contract

    The serialisation half of [tier1/store.py]: [_contract_payload] and
    [_contract_from_payload] with their helpers, and the domain-separated
    HMAC [_mac].  [payload_round_trip] is the round trip every read of the
    store depends on. *)

From S2P Require Import Prelude PyStr Sha256 PyDatetime Json Base64 Capability StateMachine.
From S2P Require Import Canonical Contract.

(** ** Writing *)

Definition artifact_to_dict (a : ProtectedArtifact) : json :=
  JObj [(u "algorithm", JStr (pa_algorithm a));
        (u "ciphertext", JStr (b64encode (pa_ciphertext a)));
        (u "key_id", JStr (pa_key_id a))].

Definition provenance_to_dict (provenance : option AuthorizationProvenance) : json :=
  match provenance with
  | None => JNull
  | Some p =>
    JObj [(u "appliance_target_digest", JStr (ap_appliance_target_digest p));
          (u "authority_id", JStr (ap_authority_id p));
          (u "authorization_expires_at", JStr (isoformat (ap_authorization_expires_at p)));
          (u "authorization_id", JStr (ap_authorization_id p));
          (u "authorization_issued_at", JStr (isoformat (ap_authorization_issued_at p)));
          (u "execution_intent_digest", JStr (ap_execution_intent_digest p));
          (u "plan_authorization_schema_version", JInt (ap_plan_authorization_schema_version p));
          (u "plan_digest", JStr (ap_plan_digest p));
          (u "schema_version", JInt (ap_schema_version p));
          (u "step_id", JStr (ap_step_id p))]
  end.

Definition json_opt_str (o : option pystr) : json := match o with Some s => JStr s | None => JNull end.

Definition contract_items (c : RecoveryContract) : list (pystr * json) :=
  [(u "capability", JStr (capability_name (rc_capability c)));
   (u "confirmation_digest", json_opt_str (rc_confirmation_digest c));
   (u "confirmed_at", json_opt_str (isoformat <$> rc_confirmed_at c));
   (u "contract_id", JStr (rc_contract_id c));
   (u "created_at", JStr (isoformat (rc_created_at c)));
   (u "endpoint_symbol", JStr (rc_endpoint_symbol c));
   (u "expires_at", JStr (isoformat (rc_expires_at c)));
   (u "http_method", JStr (rc_http_method c));
   (u "idempotency_key", JStr (rc_idempotency_key c));
   (u "intent_digest", JStr (rc_intent_digest c));
   (u "lifecycle_locator", JInt (rc_lifecycle_locator c));
   (u "operation_id", JStr (rc_operation_id c));
   (u "protected_intent", artifact_to_dict (rc_protected_intent c));
   (u "protected_snapshot", artifact_to_dict (rc_protected_snapshot c));
   (u "protected_target_identity", artifact_to_dict (rc_protected_target_identity c));
   (u "rollback_plan_version", JStr (rc_rollback_plan_version c));
   (u "security_class", JStr (security_class_value (rc_security_class c)));
   (u "snapshot_digest", JStr (rc_snapshot_digest c));
   (u "state", JStr (state_value (rc_state c)));
   (u "state_version", JInt (rc_state_version c));
   (u "target_fingerprint", JStr (rc_target_fingerprint c));
   (u "target_identity_digest", JStr (rc_target_identity_digest c));
   (u "verified_target_fingerprint", json_opt_str (rc_verified_target_fingerprint c));
   (u "authorization_provenance", provenance_to_dict (rc_authorization_provenance c))].

Definition contract_json (c : RecoveryContract) : json := JObj (contract_items c).

(** [json.dumps(..., sort_keys=True, separators=(",", ":")).encode("utf-8")]:
    with [ensure_ascii] the text is ASCII, so each character is one byte
    ([contract_payload_utf8]). *)
Definition ascii_bytes (s : pystr) : bytes := byte_of_N <$> s.
Definition contract_payload (c : RecoveryContract) : bytes := ascii_bytes (dumps true [] (contract_json c)).

(** ** Reading *)

Definition CONTRACT_FIELDS : list pystr :=
  [u "capability"; u "confirmation_digest"; u "confirmed_at"; u "contract_id"; u "created_at";
   u "endpoint_symbol"; u "expires_at"; u "http_method"; u "idempotency_key"; u "intent_digest";
   u "lifecycle_locator"; u "operation_id"; u "protected_intent"; u "protected_snapshot";
   u "protected_target_identity"; u "rollback_plan_version"; u "security_class"; u "snapshot_digest";
   u "state"; u "state_version"; u "target_fingerprint"; u "target_identity_digest";
   u "verified_target_fingerprint"; u "authorization_provenance"].

Definition without (names : list pystr) (l : list pystr) : list pystr :=
  filter (λ f, f ∉ names) l.

(** [_CONTRACT_FIELDS_V8] and [_LEGACY_CONTRACT_FIELDS] *)
Definition CONTRACT_FIELDS_V8 : list pystr := without [u "security_class"] CONTRACT_FIELDS.
Definition LEGACY_CONTRACT_FIELDS : list pystr :=
  without [u "authorization_provenance"; u "security_class"] CONTRACT_FIELDS.

(** [set(items) == set(fields)], for distinct keys. *)
Definition fields_are {A} (items : list (pystr * A)) (fields : list pystr) : bool :=
  (length items =? length fields)%nat && forallb (λ f, existsb (λ kv, pystr_eqb f (fst kv)) items) fields.

(** [_strict_object] on every object of the document. *)
Fixpoint distinct_keys {A} (items : list (pystr * A)) : bool :=
  match items with
  | [] => true
  | (k, _) :: items => negb (existsb (λ kv, pystr_eqb k (fst kv)) items) && distinct_keys items
  end.

Fixpoint strict_objects (v : json) : bool :=
  match v with
  | JList l => forallb strict_objects l
  | JObj l => distinct_keys l && forallb (λ kv, strict_objects (snd kv)) l
  | _ => true
  end.

(** [value[field]] *)
Definition field {A} (k : string) (items : list (pystr * A)) : result A :=
  of_option (lookup_item (u k) items) KeyError.

(** A value the constructor requires to be of the type. *)
Definition as_str (v : json) : result pystr :=
  match v with JStr s => Ok s | _ => Raise ContractValidationError end.
Definition as_int (v : json) : result Z :=
  match v with JInt z => Ok z | _ => Raise ContractValidationError end.
Definition as_opt_str (v : json) : result (option pystr) :=
  match v with JStr s => Ok (Some s) | JNull => Ok None | _ => Raise ContractValidationError end.
(** [datetime.fromisoformat(v)] *)
Definition as_datetime (v : json) : result datetime :=
  match v with JStr s => fromisoformat s | _ => Raise TypeError end.

(** [bool(v)], for the values other than floats. *)
Definition truthy (v : json) : bool :=
  match v with
  | JNull | JBool false | JInt 0 | JStr [] | JList [] | JObj [] => false
  | _ => true
  end.

(** [except (classes in cs) as exc: raise ContractIntegrityError from exc] *)
Definition integrity_of {A} (cs : list exn) (m : result A) : result A :=
  try_except m (λ e, if bool_decide (e ∈ cs) then Some (Raise ContractIntegrityError) else None).

Section reading.
Context `{Hash} `{UnicodeData}.

Definition artifact_from_dict (value : json) : result ProtectedArtifact :=
  match value with
  | JObj items =>
    _ ← require (fields_are items [u "algorithm"; u "ciphertext"; u "key_id"]) ContractIntegrityError;
    match lookup_item (u "algorithm") items, lookup_item (u "ciphertext") items,
          lookup_item (u "key_id") items with
    | Some (JStr algorithm), Some (JStr ciphertext), Some (JStr key_id) =>
      integrity_of [ValueError; ContractValidationError]
        (ct ← of_option (b64decode ciphertext) ValueError;
         ProtectedArtifact_new
           {| pa_key_id := key_id; pa_algorithm := algorithm; pa_ciphertext := ct |})
    | _, _, _ => Raise ContractIntegrityError
    end
  | _ => Raise ContractIntegrityError
  end.

Definition provenance_fields : list pystr :=
  [u "appliance_target_digest"; u "authority_id"; u "authorization_expires_at";
   u "authorization_id"; u "authorization_issued_at"; u "execution_intent_digest";
   u "plan_authorization_schema_version"; u "plan_digest"; u "schema_version"; u "step_id"].

Definition provenance_from_dict (value : json) : result (option AuthorizationProvenance) :=
  match value with
  | JNull => Ok None
  | JObj v =>
    _ ← require (fields_are v provenance_fields) ContractIntegrityError;
    issued ← field "authorization_issued_at" v ≫= as_datetime;
    expires ← field "authorization_expires_at" v ≫= as_datetime;
    schema_version ← field "schema_version" v ≫= as_int;
    authorization_id ← field "authorization_id" v ≫= as_str;
    authority_id ← field "authority_id" v ≫= as_str;
    plan_version ← field "plan_authorization_schema_version" v ≫= as_int;
    plan_digest ← field "plan_digest" v ≫= as_str;
    step_id ← field "step_id" v ≫= as_str;
    intent_digest ← field "execution_intent_digest" v ≫= as_str;
    target_digest ← field "appliance_target_digest" v ≫= as_str;
    p ← AuthorizationProvenance_new {|
      ap_schema_version := schema_version; ap_authorization_id := authorization_id;
      ap_authority_id := authority_id; ap_plan_authorization_schema_version := plan_version;
      ap_plan_digest := plan_digest; ap_step_id := step_id;
      ap_execution_intent_digest := intent_digest; ap_authorization_issued_at := issued;
      ap_authorization_expires_at := expires; ap_appliance_target_digest := target_digest |};
    Ok (Some p)
  | _ => Raise ContractIntegrityError
  end.

(** [_recovery_contract_from_fields]: the conversions the argument list
    performs, then the constructor. *)
Definition recovery_contract_from_fields (v : list (pystr * json)) (security_class : WriteSecurityClass)
    : result RecoveryContract :=
  contract_id ← field "contract_id" v ≫= as_str;
  operation_id ← field "operation_id" v ≫= as_str;
  idempotency_key ← field "idempotency_key" v ≫= as_str;
  capability ← (s ← field "capability" v;
                match s with JStr s => capability_of_name s | _ => Raise KeyError end);
  endpoint_symbol ← field "endpoint_symbol" v ≫= as_str;
  http_method ← field "http_method" v ≫= as_str;
  target_identity_digest ← field "target_identity_digest" v ≫= as_str;
  target_fingerprint ← field "target_fingerprint" v ≫= as_str;
  intent_digest ← field "intent_digest" v ≫= as_str;
  lifecycle_locator ← field "lifecycle_locator" v ≫= as_int;
  snapshot_digest ← field "snapshot_digest" v ≫= as_str;
  rollback_plan_version ← field "rollback_plan_version" v ≫= as_str;
  created_at ← field "created_at" v ≫= as_datetime;
  expires_at ← field "expires_at" v ≫= as_datetime;
  state ← (s ← field "state" v; match s with JStr s => state_of_value s | _ => Raise ValueError end);
  state_version ← field "state_version" v ≫= as_int;
  protected_target_identity ← field "protected_target_identity" v ≫= artifact_from_dict;
  protected_intent ← field "protected_intent" v ≫= artifact_from_dict;
  protected_snapshot ← field "protected_snapshot" v ≫= artifact_from_dict;
  confirmation_digest ← field "confirmation_digest" v ≫= as_opt_str;
  confirmed_at ← (t ← field "confirmed_at" v; if truthy t then Some <$> as_datetime t else Ok None);
  verified_target_fingerprint ← field "verified_target_fingerprint" v ≫= as_opt_str;
  authorization_provenance ←
    provenance_from_dict (default JNull (lookup_item (u "authorization_provenance") v));
  RecoveryContract_new (mk_RecoveryContract contract_id operation_id idempotency_key capability
    security_class endpoint_symbol http_method target_identity_digest target_fingerprint
    lifecycle_locator intent_digest snapshot_digest rollback_plan_version created_at expires_at
    state state_version protected_target_identity protected_intent protected_snapshot
    authorization_provenance confirmation_digest confirmed_at verified_target_fingerprint).

(** [json.loads(payload, object_pairs_hook=_strict_object)] *)
Definition loads_strict (payload : bytes) : result json :=
  text ← of_option (utf8_decode payload) ValueError;
  value ← of_option (loads text) ValueError;
  _ ← require (strict_objects value) ContractIntegrityError;
  Ok value.

Definition contract_from_payload (payload : bytes) : result RecoveryContract :=
  integrity_of [KeyError; TypeError; ValueError; ContractValidationError]
    (value ← loads_strict payload;
     match value with
     | JObj v =>
       if fields_are v CONTRACT_FIELDS then
         security_class ← (s ← field "security_class" v;
           match s with JStr s => security_class_of_value s | _ => Raise ValueError end);
         recovery_contract_from_fields v security_class
       else if fields_are v LEGACY_CONTRACT_FIELDS then
         recovery_contract_from_fields v HIGH_ASSURANCE_TIER1
       else Raise ContractIntegrityError
     | _ => Raise ContractIntegrityError
     end).
End reading.

(** ** Message authentication *)

(** [_mac]: the store identifier and every component, length-framed. *)
Definition mac_message (store_id : pystr) (components : list bytes) : result bytes :=
  head ← frame_str store_id;
  foldl (λ acc component, framed ← acc; f ← frame_bytes component; Ok (framed ++ f)) (Ok head) components.

(** ** Well-formed contracts *)

Section wf.
Context `{Hash} `{UnicodeData}.

Definition wf_artifact (a : ProtectedArtifact) : Prop := ProtectedArtifact_post_init a = Ok ().

Definition wf_provenance (p : AuthorizationProvenance) : Prop :=
  AuthorizationProvenance_post_init p = Ok () ∧
  dt_valid (ap_authorization_issued_at p) = true ∧ dt_valid (ap_authorization_expires_at p) = true.

(** What holds of every [RecoveryContract] object of a Python program: its
    constructor and those of its parts ran, and its times are [datetime]
    values. *)
Record wf_contract (c : RecoveryContract) : Prop := {
  wc_facts : contract_facts c;
  wc_target : wf_artifact (rc_protected_target_identity c);
  wc_intent : wf_artifact (rc_protected_intent c);
  wc_snapshot : wf_artifact (rc_protected_snapshot c);
  wc_provenance : ∀ p, rc_authorization_provenance c = Some p → wf_provenance p;
  wc_created : dt_valid (rc_created_at c) = true;
  wc_expires : dt_valid (rc_expires_at c) = true;
  wc_confirmed : ∀ t, rc_confirmed_at c = Some t → dt_valid t = true;
}.
End wf.

(** ** Lookups in sorted documents *)

Section sorted.
Context {A : Type}.
Implicit Types l : list (pystr * A).

Lemma existsb_key k l : existsb (λ kv, pystr_eqb k (fst kv)) l = true ↔ k ∈ l.*1.
Proof.
  rewrite existsb_exists, list_elem_of_fmap. split.
  - intros ([k' v] & Hin & E%pystr_eqb_eq). simpl in E. subst. exists (k', v).
    by rewrite list_elem_of_In.
  - intros ([k' v] & -> & Hin). exists (k', v). rewrite <-list_elem_of_In. by rewrite pystr_eqb_refl.
Qed.

Lemma distinct_keys_NoDup l : distinct_keys l = true ↔ NoDup (l.*1).
Proof.
  induction l as [|[k v] l IH]; [by split; [constructor|]|]. simpl.
  rewrite andb_true_iff, negb_true_iff, <-not_true_iff_false, existsb_key, IH.
  by rewrite NoDup_cons.
Qed.

Lemma distinct_keys_perm l l' : l ≡ₚ l' → distinct_keys l = distinct_keys l'.
Proof. intros Hp. apply eq_true_iff_eq. rewrite !distinct_keys_NoDup. by rewrite Hp. Qed.

Lemma fields_are_perm l l' fs : l ≡ₚ l' → fields_are l fs = fields_are l' fs.
Proof.
  intros Hp. unfold fields_are. rewrite (Permutation_length Hp). f_equal.
  induction fs as [|f fs IH]; [done|]. cbn [forallb]. f_equal; [|done].
  apply eq_true_iff_eq. rewrite !existsb_key. by rewrite Hp.
Qed.
End sorted.

Definition sorted_items (l : list (pystr * json)) : list (pystr * json) :=
  sort_items (map (λ kv, (fst kv, sort_keys (snd kv))) l).

Lemma sort_keys_obj l : sort_keys (JObj l) = JObj (sorted_items l).
Proof. done. Qed.

Lemma map_keys (l : list (pystr * json)) :
  (map (λ kv, (fst kv, sort_keys (snd kv))) l).*1 = l.*1.
Proof. induction l as [|[k v] l IH]; [done|]. simpl. f_equal. exact IH. Qed.

Lemma distinct_sorted l : distinct_keys (sorted_items l) = distinct_keys l.
Proof.
  unfold sorted_items. rewrite (distinct_keys_perm _ _ (sort_items_perm _)).
  apply eq_true_iff_eq. by rewrite !distinct_keys_NoDup, map_keys.
Qed.

Lemma fields_are_sorted l fs : fields_are (sorted_items l) fs = fields_are l fs.
Proof.
  unfold sorted_items. rewrite (fields_are_perm _ _ _ (sort_items_perm _)). unfold fields_are.
  rewrite length_map. f_equal. induction fs as [|f fs IH]; [done|]. cbn [forallb]. f_equal; [|done].
  apply eq_true_iff_eq. by rewrite !existsb_key, map_keys.
Qed.

Lemma lookup_sorted_items k l :
  distinct_keys l = true → lookup_item k (sorted_items l) = sort_keys <$> lookup_item k l.
Proof.
  intros Hd%distinct_keys_NoDup. unfold sorted_items.
  rewrite lookup_item_sort by (by rewrite map_keys). clear Hd.
  induction l as [|[k' v] l IH]; [done|]. simpl. by destruct (pystr_eqb k k').
Qed.

Lemma field_sorted k l x :
  distinct_keys l = true → lookup_item (u k) l = Some x → field k (sorted_items l) = Ok (sort_keys x).
Proof. intros Hd Hx. unfold field. by rewrite lookup_sorted_items, Hx. Qed.

Lemma strict_sort_keys v : strict_objects v = true → strict_objects (sort_keys v) = true.
Proof.
  induction v as [|b|z|t|s|l IH|l IH] using json_ind'; intros Hs; try done.
  - cbn [sort_keys strict_objects] in *. rewrite Forall_forall in IH. apply forallb_elem_of.
    pose proof (proj1 (forallb_elem_of _ _) Hs) as Hall.
    intros x (y & -> & Hy)%list_elem_of_fmap. auto.
  - rewrite sort_keys_obj. cbn [strict_objects] in *. apply andb_true_iff in Hs as [Hd Hs].
    rewrite distinct_sorted, Hd. rewrite Forall_forall in IH. apply forallb_elem_of.
    pose proof (proj1 (forallb_elem_of _ _) Hs) as Hall. intros [k x] Hx. unfold sorted_items in Hx.
    rewrite sort_items_perm in Hx. apply list_elem_of_fmap in Hx as ([k' y] & [= -> ->] & Hy). simpl.
    apply (IH _ Hy), (Hall _ Hy).
Qed.

(** ** Round trip *)

Section round_trip.
Context `{Hash} `{UnicodeData}.

Lemma ascii_scalar s : is_ascii s = true → forallb is_scalar s = true.
Proof. apply is_ascii_forallb_scalar. Qed.

Lemma wf_artifact_spec a : wf_artifact a →
  match_token (pa_key_id a) = true ∧ match_token (pa_algorithm a) = true.
Proof.
  unfold wf_artifact, ProtectedArtifact_post_init. rewrite require_bind. intros [Ha _]. by split_andb.
Qed.

Lemma json_ok_artifact a : wf_artifact a → json_ok (artifact_to_dict a) = true.
Proof.
  intros [Hk Ha]%wf_artifact_spec. cbn [artifact_to_dict json_ok forallb fst snd].
  rewrite !ascii_scalar by first [by apply match_token_ascii|apply b64encode_ascii]. done.
Qed.

Lemma artifact_round_trip a :
  wf_artifact a → artifact_from_dict (sort_keys (artifact_to_dict a)) = Ok a.
Proof.
  intros Ha. unfold artifact_to_dict. rewrite sort_keys_obj. unfold artifact_from_dict.
  rewrite fields_are_sorted. change (fields_are _ _) with true. simpl (require true _ ≫= _).
  rewrite b64decode_encode. cbn. destruct a as [k al ct]. cbn.
  unfold ProtectedArtifact_new. unfold wf_artifact in Ha. cbn in Ha. by rewrite Ha.
Qed.

Lemma wf_provenance_ascii p : wf_provenance p →
  Forall (λ s, is_ascii s = true)
    [ap_appliance_target_digest p; ap_authority_id p; ap_authorization_id p;
     ap_execution_intent_digest p; ap_plan_digest p; ap_step_id p].
Proof.
  intros (Hp & _ & _). unfold AuthorizationProvenance_post_init in Hp. rewrite !require_bind in Hp.
  destruct Hp as (_ & _ & Ht & Hd & _). cbn [forallb] in Ht, Hd. split_andb.
  repeat apply Forall_cons_2; [..|apply Forall_nil_2];
    first [by apply match_token_ascii|by apply match_hex64_ascii].
Qed.

Lemma json_ok_provenance o :
  (∀ p, o = Some p → wf_provenance p) → json_ok (provenance_to_dict o) = true.
Proof.
  intros Ho. destruct o as [p|]; [|done]. specialize (Ho p eq_refl).
  apply wf_provenance_ascii in Ho. rewrite !Forall_cons in Ho. destruct_and?.
  cbn [provenance_to_dict json_ok forallb fst snd].
  by rewrite !(ascii_scalar _ (isoformat_ascii _)), !ascii_scalar by done.
Qed.

(** Read one field of a sorted document. *)
Ltac read_field :=
  match goal with
  | |- context [field ?k (sorted_items ?l)] =>
      let E := fresh in
      pose proof (field_sorted k l _ eq_refl eq_refl) as E; rewrite E; clear E
  end.

Lemma provenance_round_trip o :
  (∀ p, o = Some p → wf_provenance p) →
  provenance_from_dict (sort_keys (provenance_to_dict o)) = Ok o.
Proof.
  intros Ho. destruct o as [p|]; [|done]. destruct (Ho p eq_refl) as (Hp & Hi & He).
  unfold provenance_to_dict. rewrite sort_keys_obj. unfold provenance_from_dict.
  rewrite fields_are_sorted. change (fields_are _ _) with true. simpl (require true _ ≫= _).
  repeat (read_field; cbn [mbind result_bind sort_keys as_str as_int as_datetime]).
  rewrite !fromisoformat_isoformat by done. cbn [mbind result_bind].
  repeat (read_field; cbn [mbind result_bind sort_keys as_str as_int as_datetime]).
  unfold AuthorizationProvenance_new. destruct p; cbn in *. by rewrite Hp.
Qed.

Lemma json_ok_opt_str o :
  (∀ s, o = Some s → is_ascii s = true) → json_ok (json_opt_str o) = true.
Proof. destruct o as [s|]; intros Hs; [|done]. cbn. by apply ascii_scalar, Hs. Qed.

Lemma hex_opt_ascii o : none_or match_hex64 o = true → ∀ s, o = Some s → is_ascii s = true.
Proof. intros Ho s ->. by apply match_hex64_ascii. Qed.

Lemma json_ok_contract c : wf_contract c → json_ok (contract_json c) = true.
Proof.
  intros Hc. pose proof (facts_ascii c (wc_facts c Hc)) as Ha. rewrite !Forall_cons in Ha.
  destruct_and?. unfold contract_json, contract_items. cbn [json_ok forallb fst snd].
  rewrite !json_ok_artifact by apply Hc. rewrite json_ok_provenance by apply Hc.
  rewrite !json_ok_opt_str;
    [|apply hex_opt_ascii, Hc|intros s (t & _ & ->)%fmap_Some; apply isoformat_ascii|
      apply hex_opt_ascii, Hc].
  by rewrite !(ascii_scalar _ (isoformat_ascii _)), !(ascii_scalar _ (capability_name_ascii _)),
    !(ascii_scalar _ (state_value_ascii _)), !(ascii_scalar _ (security_class_value_ascii _)),
    !ascii_scalar by done.
Qed.

Lemma strict_artifact a : strict_objects (artifact_to_dict a) = true.
Proof. done. Qed.

Lemma strict_contract c : strict_objects (contract_json c) = true.
Proof.
  unfold contract_json, contract_items. cbn [strict_objects forallb snd].
  rewrite !strict_artifact. by destruct (rc_confirmation_digest c), (rc_confirmed_at c),
    (rc_verified_target_fingerprint c), (rc_authorization_provenance c).
Qed.

Lemma utf8_decode_ascii s : is_ascii s = true → utf8_decode (ascii_bytes s) = Some s.
Proof. intros Hs. by apply utf8_decode_encode, utf8_encode_ascii. Qed.

Lemma loads_strict_dumps v :
  json_ok v = true → strict_objects v = true →
  loads_strict (ascii_bytes (dumps true [] v)) = Ok (sort_keys v).
Proof.
  intros Hok Hs. unfold loads_strict. rewrite utf8_decode_ascii by (by apply dumps_ascii).
  cbn [of_option mbind result_bind]. rewrite loads_dumps by done. cbn [of_option mbind result_bind].
  by rewrite strict_sort_keys.
Qed.

Lemma contract_payload_utf8 c :
  wf_contract c → utf8_encode (dumps true [] (contract_json c)) = Ok (contract_payload c).
Proof. intros Hc. apply utf8_encode_ascii, dumps_ascii; [done|]. by apply json_ok_contract. Qed.

Lemma as_opt_str_json o : as_opt_str (sort_keys (json_opt_str o)) = Ok o.
Proof. by destruct o. Qed.

Lemma read_confirmed_at o :
  (∀ t, o = Some t → dt_valid t = true) →
  (if truthy (sort_keys (json_opt_str (isoformat <$> o)))
   then Some <$> as_datetime (sort_keys (json_opt_str (isoformat <$> o))) else Ok None) = Ok o.
Proof.
  destruct o as [t|]; intros Ht; [|done]. cbn [json_opt_str fmap option_fmap option_map sort_keys as_datetime].
  rewrite fromisoformat_isoformat by auto. by destruct (isoformat t) eqn:E.
Qed.

Lemma distinct_contract_items c : distinct_keys (contract_items c) = true.
Proof. reflexivity. Qed.

Lemma fields_round_trip c :
  wf_contract c →
  recovery_contract_from_fields (sorted_items (contract_items c)) (rc_security_class c) = Ok c.
Proof.
  intros Hc. unfold recovery_contract_from_fields. repeat read_field.
  cbn [mbind result_bind sort_keys as_str as_int as_datetime].
  rewrite capability_of_name_name. cbn [mbind result_bind].
  rewrite (fromisoformat_isoformat _ (wc_created c Hc)), (fromisoformat_isoformat _ (wc_expires c Hc)). cbn [mbind result_bind].
  rewrite state_of_value_value. cbn [mbind result_bind].
  rewrite !artifact_round_trip by apply Hc. cbn [mbind result_bind].
  rewrite !as_opt_str_json. cbn [mbind result_bind].
  rewrite read_confirmed_at by apply Hc. cbn [mbind result_bind].
  rewrite (lookup_sorted_items _ _ (distinct_contract_items c)).
  change (default JNull (sort_keys <$> lookup_item (u "authorization_provenance") (contract_items c)))
    with (sort_keys (provenance_to_dict (rc_authorization_provenance c))).
  rewrite provenance_round_trip by apply Hc. cbn [mbind result_bind].
  pose proof (proj2 (RecoveryContract_new_Ok c c) (conj eq_refl (wc_facts c Hc))) as E.
  destruct c. exact E.
Qed.

Lemma contract_payload_read c : wf_contract c → contract_from_payload (contract_payload c) = Ok c.
Proof.
  intros Hc. unfold contract_from_payload, contract_payload.
  rewrite loads_strict_dumps; [|by apply json_ok_contract|apply strict_contract].
  unfold contract_json. rewrite sort_keys_obj. cbn [mbind result_bind].
  rewrite fields_are_sorted. change (fields_are (contract_items c) CONTRACT_FIELDS) with true.
  cbv iota. rewrite (field_sorted "security_class" _ _ (distinct_contract_items c) eq_refl).
  cbn [mbind result_bind sort_keys]. rewrite security_class_of_value_value. cbn [mbind result_bind].
  by rewrite fields_round_trip.
Qed.
End round_trip.

(** Framing keeps the components apart. *)
Lemma mac_message_seq sid cs m :
  mac_message sid cs = Ok m → ∃ e, utf8_encode sid = Ok e ∧ frame_seq (e :: cs) = Ok m.
Proof.
  unfold mac_message. intros (h & Hh & Hm)%bind_Ok. apply frame_str_bytes in Hh as (e & He & Hf).
  exists e. split; [done|]. cbn [frame_seq]. rewrite Hf. cbn [mbind result_bind]. clear He Hf.
  revert h m Hm. induction cs as [|c cs IH]; intros h m Hm.
  - cbn [foldl] in Hm. injection Hm as <-. cbn [frame_seq mbind result_bind]. by rewrite app_nil_r.
  - cbn [foldl mbind result_bind] in Hm. cbn [frame_seq]. destruct (frame_bytes c) as [f|x]; cbn [mbind result_bind] in *.
    + apply IH in Hm. destruct (frame_seq cs) as [r|]; [|done]. cbn [mbind result_bind] in *.
      injection Hm as <-. by rewrite (assoc_L app).
    + exfalso. clear -Hm. induction cs; [done|]. cbn [foldl mbind result_bind] in Hm. auto.
Qed.

Lemma mac_message_inj sid cs cs' : ∀ m, mac_message sid cs = Ok m → mac_message sid cs' = Ok m → cs = cs'.
Proof.
  intros m (e & He & Hs)%mac_message_seq (e' & He' & Hs')%mac_message_seq.
  pose proof (frame_seq_inj _ _ _ Hs Hs') as Heq. by injection Heq.
Qed.

Section payload.
Context `{Hash} `{UnicodeData}.

(** [C37] The payload codec is exact: what [_contract_from_payload] reads
    from the payload of a well-formed contract is that contract, every
    field of it, and two contracts with one payload are one contract. *)
Theorem payload_round_trip c c' :
  wf_contract c → wf_contract c' →
  contract_from_payload (contract_payload c) = Ok c ∧
  (contract_payload c = contract_payload c' → c = c').
Proof.
  intros Hc Hc'. split; [by apply contract_payload_read|]. intros Heq.
  pose proof (contract_payload_read c Hc) as E. rewrite Heq, contract_payload_read in E by done.
  by injection E.
Qed.
End payload.

Lemma sample_wf : @wf_contract Sample.hash Sample.unicode (Sample.contract "c1" "o1" PREPARING 0).
Proof.
  split; [apply post_init_facts; vm_compute; reflexivity|vm_compute; reflexivity..|done| | |done];
    vm_compute; reflexivity.
Qed.

Lemma payload_round_trip_witness :
  @contract_from_payload Sample.hash Sample.unicode (contract_payload (Sample.contract "c1" "o1" PREPARING 0)) =
    Ok (Sample.contract "c1" "o1" PREPARING 0).
Proof. exact (proj1 (@payload_round_trip Sample.hash Sample.unicode _ _ sample_wf sample_wf)). Defined.
