(* ===== verification/JsonTorn.v ===== *)
(** * A JSON text that was cut off is not read

    Reading does not look past the value it reads: an object read at the
    front of a text is read the same when more text follows
    ([readers_app]).  So no strict prefix of a printed object is the text of
    an object ([prefix_not_object]), and what a stopped writer leaves behind
    is refused. *)

From S2P Require Import Prelude PyStr Json JsonPrefix PyJson StoreCodec.

(** ** Extension *)

(** The characters that may follow a value inside an object. *)
Definition delimiter (c : N) : bool := is_ws c || ((c =? 44) || (c =? 93) || (c =? 125))%N.

Definition delimited (r : pystr) : Prop := ∃ c r', r = c :: r' ∧ delimiter c = true.

Lemma delimiter_cases c : delimiter c = true →
  (c = 32 ∨ c = 9 ∨ c = 10 ∨ c = 13 ∨ c = 44 ∨ c = 93 ∨ c = 125)%N.
Proof. unfold delimiter, is_ws. rewrite !orb_true_iff, !N.eqb_eq. naive_solver. Qed.

Lemma skip_ws_extend s c r q : skip_ws s = c :: r → skip_ws (s ++ q) = c :: r ++ q.
Proof.
  induction s as [|d s IH]; [done|]. cbn [skip_ws app]. destruct (is_ws d); [exact IH|]. by intros [= <- <-].
Qed.

(** A value after which [skip_ws] finds a separator is delimited. *)
Lemma skip_ws_delimited r c r' : skip_ws r = c :: r' → ((c =? 44) || (c =? 93) || (c =? 125))%N = true → delimited r.
Proof.
  destruct r as [|d r]; [done|]. cbn [skip_ws]. intros Hr Hc. exists d, r. split; [done|]. unfold delimiter.
  destruct (is_ws d); [done|]. by injection Hr as <- <-.
Qed.

Lemma read_hex4_app s n r q : read_hex4 s = Some (n, r) → read_hex4 (s ++ q) = Some (n, r ++ q).
Proof.
  destruct s as [|a [|b [|c [|d s]]]]; try done. cbn [read_hex4 app].
  destruct (unhex_digit a); [|done]. destruct (unhex_digit b); [|done]. destruct (unhex_digit c); [|done].
  destruct (unhex_digit d); [|done]. cbn [mbind option_bind]. by intros [= <- <-].
Qed.

(** A string literal that closes is not changed by what follows. *)
Lemma scanstring_app q : ∀ f s x r f', scanstring f s = Some (x, r) → (f ≤ f')%nat →
  scanstring f' (s ++ q) = Some (x, r ++ q).
Proof.
  induction f as [|f IH]; intros s x r f' Hp Hf; [done|]. destruct s as [|c s1]; [done|].
  destruct f' as [|f']; [lia|]. apply le_S_n in Hf.
  assert (∀ d t, cons_str d (scanstring f t) = Some (x, r) → cons_str d (scanstring f' (t ++ q)) = Some (x, r ++ q)) as Hgo.
  { intros d t. destruct (scanstring f t) as [[y r0]|] eqn:Ht; [|done]. intros [= <- <-]. by rewrite (IH _ _ _ f' Ht). }
  cbn [scanstring app] in *. destruct (c =? 34)%N; [by injection Hp as <- <-|].
  destruct (c =? 92)%N; [|destruct (c <? 32)%N; [done|by apply Hgo]].
  destruct s1 as [|e s2]; [done|]. cbn [app]. destruct (e =? 117)%N.
  - apply bind_Some in Hp as ([n r0] & Hh%(read_hex4_app _ _ _ q) & Hp). rewrite Hh. cbn [mbind option_bind].
    destruct (is_hi n); [|by apply Hgo].
    destruct r0 as [|a [|b r1]].
    + exfalso. by destruct f.
    + assert (a = 34%N) as -> by (destruct f as [|f]; [done|]; cbn in Hp; destruct (N.eqb_spec a 34); [done|];
        destruct (a =? 92)%N; [done|]; destruct (a <? 32)%N; [done|]; by destruct f).
      cbn [app]. pose proof (Hgo _ _ Hp) as Hq. by destruct q.
    + cbn [app]. destruct (_ && _); [|by apply (Hgo n (a :: b :: r1))].
      apply bind_Some in Hp as ([n2 r2] & Hh2%(read_hex4_app _ _ _ q) & Hp). rewrite Hh2. cbn [mbind option_bind].
      destruct (is_lo n2); [by apply Hgo|by apply (Hgo n (a :: b :: r1))].
  - apply bind_Some in Hp as (z & Hz & Hp). rewrite Hz. by apply Hgo.
Qed.

(** Numbers end at a delimiter. *)
Lemma span_digits_extend s d c r q : span_digits s = (d, c :: r) → span_digits (s ++ q) = (d, c :: r ++ q).
Proof.
  revert d. induction s as [|a s IH]; intros d; [done|]. cbn [span_digits app]. destruct (is_digit a); [|by intros [= <- <- <-]].
  destruct (span_digits s) as [d' r'] eqn:Hs. intros [= <- ->]. by rewrite (IH _ eq_refl).
Qed.

Lemma read_frac_app s f c r q : read_frac s = (f, c :: r) → c ≠ 46%N → read_frac (s ++ q) = (f, c :: r ++ q).
Proof.
  destruct s as [|a t]; [done|]. cbn [read_frac app]. destruct (N.eqb_spec a 46) as [->|]; [|by intros [= <- <- <-] _].
  destruct (span_digits t) as [[|x d] t'] eqn:Ht; [by intros [= <- <- <-]|]. intros [= <- ->] _.
  by rewrite (span_digits_extend _ _ _ _ _ Ht).
Qed.

Lemma read_exp_app s e c r q : read_exp s = (e, c :: r) → delimiter c = true → read_exp (s ++ q) = (e, c :: r ++ q).
Proof.
  destruct s as [|a t]; [done|]. cbn [read_exp app]. destruct (_ || _) eqn:Ha; [|by intros [= <- <- <-] _].
  intros Hp Hc. assert (∀ d, ([] : pystr, a :: d) ≠ (e, c :: r)) as Hno.
  { intros d [= <- <- <-]. apply orb_true_iff in Ha. rewrite !N.eqb_eq in Ha.
    apply delimiter_cases in Hc. lia. }
  destruct t as [|g t1]; [by destruct (Hno [])|]. cbn [app].
  destruct (_ || _) eqn:Hg in Hp; rewrite Hg.
  - destruct (span_digits t1) as [[|x d] t'] eqn:Ht; [by destruct (Hno (g :: t1))|]. injection Hp as <- ->.
    by rewrite (span_digits_extend _ _ _ _ _ Ht).
  - destruct (span_digits (g :: t1)) as [[|x d] t'] eqn:Ht; [by destruct (Hno (g :: t1))|]. injection Hp as <- ->.
    pose proof (span_digits_extend _ _ _ _ q Ht) as Hq. cbn [app] in Hq. by rewrite Hq.
Qed.

Lemma read_int_app s d c r q : read_int s = (d, c :: r) → read_int (s ++ q) = (d, c :: r ++ q).
Proof.
  destruct s as [|a t]; [done|]. cbn [read_int app]. destruct (a =? 48)%N; [by intros [= <- ->]|].
  apply (span_digits_extend (a :: t)).
Qed.

Lemma read_exp_head s e r : read_exp s = (e, r) → delimited r → ∃ c s', s = c :: s' ∧ c ≠ 46%N.
Proof.
  intros Hp (c & r' & -> & Hc). destruct s as [|a t]; [done|]. exists a, t. split; [done|]. intros ->.
  injection Hp as <- <- <-. done.
Qed.

Lemma read_frac_rest s f r : read_frac s = (f, r) → r ≠ [] → s ≠ [].
Proof. destruct s; [|done]. by intros [= <- <-]. Qed.

Lemma read_num_app s v r q : read_num s = Some (v, r) → delimited r → read_num (s ++ q) = Some (v, r ++ q).
Proof.
  unfold read_num. destruct (read_sign s) as [neg s1] eqn:Hs. destruct (read_int s1) as [ds r0] eqn:Hi.
  destruct (read_frac r0) as [fr r1] eqn:Hf. destruct (read_exp r1) as [ex r2] eqn:He. intros Hp Hd.
  assert (r = r2) as -> by (by destruct ds, fr, ex; simplify_eq).
  destruct (read_exp_head _ _ _ He Hd) as (c1 & r1' & -> & Hc1). destruct Hd as (c & r' & -> & Hc).
  destruct r0 as [|c0 r0']; [done|].
  assert (read_sign (s ++ q) = (neg, s1 ++ q)) as ->.
  { destruct s as [|a t]; [by injection Hs as <- <-|]. cbn [read_sign app] in *. destruct (a =? 45)%N; by injection Hs as <- <-. }
  rewrite (read_int_app _ _ _ _ q Hi). rewrite (read_frac_app (c0 :: r0') _ _ _ q Hf Hc1 : read_frac (c0 :: r0' ++ q) = _).
  rewrite (read_exp_app (c1 :: r1') _ _ _ q He Hc : read_exp (c1 :: r1' ++ q) = _).
  by destruct ds, fr, ex; simplify_eq.
Qed.

Lemma strip_prefix_eq p s r : strip_prefix p s = Some r → s = p ++ r.
Proof.
  revert s. induction p as [|a p IH]; intros s; [by intros [= ->]|]. destruct s as [|b s]; [done|]. cbn [strip_prefix].
  destruct (N.eqb_spec a b) as [->|]; [|done]. by intros ->%IH.
Qed.

(** A number begins with a digit, or a sign and a digit. *)
Lemma read_num_head s x : read_num s = Some x →
  ∃ d t, is_digit d = true ∧ (s = d :: t ∨ s = 45%N :: d :: t).
Proof.
  unfold read_num. destruct s as [|a t]; [done|]. cbn [read_sign]. destruct (N.eqb_spec a 45) as [->|Ha].
  - destruct (read_int t) as [[|d ds] r] eqn:Hi; [done|]. intros _. destruct t as [|b t]; [done|]. exists b, t.
    split; [|by right]. cbn [read_int] in Hi. destruct (N.eqb_spec b 48) as [->|]; [done|]. cbn [span_digits] in Hi.
    by destruct (is_digit b).
  - destruct (read_int (a :: t)) as [[|d ds] r] eqn:Hi; [done|]. intros _. exists a, t. split; [|by left].
    cbn [read_int] in Hi. destruct (N.eqb_spec a 48) as [->|]; [done|]. cbn [span_digits] in Hi. by destruct (is_digit a).
Qed.

Lemma read_const_number s : (∃ x, read_num s = Some x) → read_const s = read_num s.
Proof.
  intros [x Hx]. destruct (read_num_head _ _ Hx) as (d & t & Hd & Hs). unfold is_digit in Hd. apply in_range_spec in Hd.
  assert (∀ p, match p with c :: _ => ((c <? 45) || (57 <? c))%N | [] => false end = true → strip_prefix p s = None) as Hn.
  { intros [|c p] Hc; [done|]. rewrite orb_true_iff, !N.ltb_lt in Hc. destruct Hs as [-> | ->]; cbn [strip_prefix];
      [by destruct (N.eqb_spec c d); [lia|]|by destruct (N.eqb_spec c 45); [lia|]]. }
  assert (strip_prefix (u "-Infinity") s = None) as Hm.
  { change (u "-Infinity") with (45%N :: u "Infinity"). destruct Hs as [-> | ->]; cbn [strip_prefix];
      [by destruct (N.eqb_spec 45 d); [lia|]|]. change (45 =? 45)%N with true. cbv iota.
    change (u "Infinity") with (73%N :: u "nfinity"). cbn [strip_prefix]. by destruct (N.eqb_spec 73 d); [lia|]. }
  unfold read_const.
  by rewrite Hm, (Hn (u "null")), (Hn (u "true")), (Hn (u "false")), (Hn (u "NaN")), (Hn (u "Infinity")).
Qed.

Lemma read_const_app s v r q : read_const s = Some (v, r) → delimited r → read_const (s ++ q) = Some (v, r ++ q).
Proof.
  intros Hp Hd. destruct (read_num s) as [[v' r']|] eqn:Hn.
  - rewrite read_const_number in Hp by eauto. pose proof (read_num_app _ _ _ q Hp Hd) as Hq.
    by rewrite read_const_number by eauto.
  - unfold read_const in Hp.
    repeat match type of Hp with match strip_prefix ?p s with _ => _ end = _ =>
      destruct (strip_prefix p s) as [?|] eqn:Hq;
      [apply strip_prefix_eq in Hq as ->; injection Hp as <- <-; rewrite <-app_assoc; reflexivity|clear Hq] end.
    congruence.
Qed.

(** ** Values *)

Definition object (v : json) : Prop := ∃ l, v = JObj l.

(** A reader reads the same in front of more text: a value at a delimiter,
    an object anywhere, the rest of a list or an object anywhere. *)
Lemma readers_app q f :
  (∀ s v r f', read_value f s = Some (v, r) → delimited r ∨ object v → (f ≤ f')%nat →
     read_value f' (s ++ q) = Some (v, r ++ q)) ∧
  (∀ s l r f', read_elems f s = Some (l, r) → (f ≤ f')%nat → read_elems f' (s ++ q) = Some (l, r ++ q)) ∧
  (∀ s l r f', read_members f s = Some (l, r) → (f ≤ f')%nat → read_members f' (s ++ q) = Some (l, r ++ q)).
Proof.
  induction f as [|f (IHv & IHe & IHm)]; [done|]. split_and!; intros s l r [|f'] Hp; [lia|intros Hd Hf%le_S_n|lia|intros Hf%le_S_n|lia|intros Hf%le_S_n].
  - destruct s as [|c s1]; [done|]. cbn [read_value app] in *. destruct (c =? 34)%N.
    { apply bind_Some in Hp as ([x r0] & Hx & [= <- <-]).
      by rewrite (scanstring_app q _ _ _ _ (length (s1 ++ q)) Hx) by (rewrite length_app; lia). }
    destruct (c =? 91)%N; [|destruct (c =? 123)%N].
    1, 2: destruct (skip_ws s1) as [|d r0] eqn:Hw; [done|]; rewrite (skip_ws_extend _ _ _ q Hw).
    + destruct (d =? 93)%N; [by injection Hp as <- <-|]. apply bind_Some in Hp as ([l' r1] & Hl & [= <- <-]).
      by rewrite (IHe (d :: r0) _ _ f' Hl Hf : read_elems f' (d :: r0 ++ q) = _).
    + destruct (d =? 125)%N; [by injection Hp as <- <-|]. apply bind_Some in Hp as ([l' r1] & Hl & [= <- <-]).
      by rewrite (IHm (d :: r0) _ _ f' Hl Hf : read_members f' (d :: r0 ++ q) = _).
    + destruct Hd as [Hd|[l' ->]]; [by apply (read_const_app (c :: s1))|].
      apply read_const_suffix in Hp as [_ Hn]. by destruct (Hn l').
  - cbn [read_elems] in *. apply bind_Some in Hp as ([v r0] & Hv & Hp).
    destruct (skip_ws r0) as [|c r1] eqn:Hw; [done|].
    assert (((c =? 44) || (c =? 93) || (c =? 125))%N = true) as Hc.
    { destruct (c =? 44)%N; [done|]. by destruct (c =? 93)%N. }
    rewrite (IHv _ _ _ f' Hv (or_introl (skip_ws_delimited _ _ _ Hw Hc)) Hf). cbn [mbind option_bind].
    rewrite (skip_ws_extend _ _ _ q Hw). destruct (c =? 44)%N.
    + apply bind_Some in Hp as ([l' r2] & Hl & [= <- <-]). destruct (skip_ws r1) as [|d r1'] eqn:Hw1; [by destruct f as [|[]]|].
      rewrite (skip_ws_extend _ _ _ q Hw1).
      by rewrite (IHe (d :: r1') _ _ f' Hl Hf : read_elems f' (d :: r1' ++ q) = _).
    + destruct (c =? 93)%N; [|done]. by injection Hp as <- <-.
  - destruct s as [|c s1]; [done|]. cbn [read_members app] in *. destruct (c =? 34)%N; [|done].
    apply bind_Some in Hp as ([k r0] & Hk & Hp).
    rewrite (scanstring_app q _ _ _ _ (length (s1 ++ q)) Hk) by (rewrite length_app; lia). cbn [mbind option_bind].
    destruct (skip_ws r0) as [|c1 r1] eqn:Hw1; [done|]. rewrite (skip_ws_extend _ _ _ q Hw1).
    destruct (c1 =? 58)%N; [|done]. apply bind_Some in Hp as ([v r2] & Hv & Hp).
    destruct (skip_ws r1) as [|d1 r1'] eqn:Hw1'; [by destruct f|]. rewrite (skip_ws_extend _ _ _ q Hw1').
    destruct (skip_ws r2) as [|c2 r3] eqn:Hw2; [done|].
    assert (((c2 =? 44) || (c2 =? 93) || (c2 =? 125))%N = true) as Hc.
    { destruct (c2 =? 44)%N; [done|]. destruct (c2 =? 125)%N; [|done]. by rewrite orb_true_r. }
    rewrite (IHv (d1 :: r1') _ _ f' Hv (or_introl (skip_ws_delimited _ _ _ Hw2 Hc)) Hf : read_value f' (d1 :: r1' ++ q) = _).
    cbn [mbind option_bind]. rewrite (skip_ws_extend _ _ _ q Hw2). destruct (c2 =? 44)%N.
    + apply bind_Some in Hp as ([l' r4] & Hl & [= <- <-]). destruct (skip_ws r3) as [|d r3'] eqn:Hw3; [by destruct f|].
      rewrite (skip_ws_extend _ _ _ q Hw3).
      by rewrite (IHm (d :: r3') _ _ f' Hl Hf : read_members f' (d :: r3' ++ q) = _).
    + destruct (c2 =? 125)%N; [|done]. by injection Hp as <- <-.
Qed.

(** No strict prefix of the text of a value reads as an object. *)
Lemma prefix_not_object s q w l : loads (s ++ q) = Some w → loads s = Some (JObj l) →
  (∀ c s', s ++ q = c :: s' → is_ws c = false) → forallb is_ws q = true.
Proof.
  unfold loads. intros ([v r] & Hv & Hq)%bind_Some ([v' r'] & Hv' & Hs)%bind_Some Hns.
  destruct (skip_ws r') eqn:Hr'; [|done]. injection Hs as ->. destruct (skip_ws r) eqn:Hr; [|done].
  destruct s as [|c s]; [done|].
  assert (is_ws c = false) as Hc by by eapply Hns.
  cbn [skip_ws app] in Hv, Hv'. rewrite Hc in Hv, Hv'.
  destruct (readers_app q (2 * length (c :: s))) as (Hval & _ & _).
  assert (2 * length (c :: s) ≤ 2 * length ((c :: s) ++ q))%nat as Hf by (rewrite length_app; lia).
  pose proof (Hval (c :: s) _ _ _ Hv' (or_intror (ex_intro _ l eq_refl)) Hf) as Hext. cbn [app] in Hext, Hv.
  rewrite Hext in Hv.
  injection Hv as _ <-. clear -Hr. induction r' as [|a r' IH]; cbn [app skip_ws] in Hr.
  - induction q as [|a q IH]; [done|]. cbn [skip_ws forallb] in *. destruct (is_ws a); [by apply IH|done].
  - destruct (is_ws a); [by apply IH|done].
Qed.

(** ** Bytes *)

(** [json.loads] takes a text that begins like an object for UTF-8. *)
Lemma detect_object y r : (y =? 34)%N || (y =? 125)%N = true →
  detect_encoding (utf8_char 123 ++ utf8_char y ++ r) = (Utf8, utf8_char 123 ++ utf8_char y ++ r).
Proof.
  rewrite orb_true_iff, !N.eqb_eq. intros [-> | ->]; destruct r as [|b0 [|b1 r]]; reflexivity.
Qed.

Lemma dumps_object ea l : ∃ y t, dumps ea [] (JObj l) = 123%N :: y :: t ∧ (y =? 34)%N || (y =? 125)%N = true.
Proof.
  unfold dumps. cbn [sort_keys print]. destruct (sort_items _) as [|[k x] [|kx l']]; [by exists 125%N, []|by eexists 34%N, _..].
Qed.

Lemma decode_ascii ok s : is_ascii s = true → utf8_decode_with ok (ascii_bytes s) = Some s.
Proof.
  unfold is_ascii, ascii_bytes. induction s as [|c s IH]; [done|]. cbn [forallb fmap list_fmap utf8_decode_with].
  intros [Hc Hs]%andb_true_iff. apply N.ltb_lt in Hc as Hc'. rewrite to_N_byte_of_N, N.mod_small, Hc by lia.
  by rewrite (IH Hs).
Qed.

(** The bytes of a printed object, and of every prefix of it, are read as
    the characters they are. *)
Lemma decode_object k l : json_ok (JObj l) = true →
  decode_bytes (take k (ascii_bytes (dumps true [] (JObj l)))) = Some (take k (dumps true [] (JObj l))).
Proof.
  intros Hok. assert (is_ascii (dumps true [] (JObj l)) = true) as Ha by by apply dumps_ascii.
  assert (is_ascii (take k (dumps true [] (JObj l))) = true) as Hk.
  { unfold is_ascii in *. rewrite forallb_elem_of in *. intros c Hc%elem_of_take. destruct Hc as (i & Hi & _).
    apply Ha. by eapply list_elem_of_lookup_2. }
  unfold ascii_bytes in *. rewrite <-fmap_take. unfold decode_bytes.
  assert (detect_encoding (byte_of_N <$> take k (dumps true [] (JObj l))) =
    (Utf8, byte_of_N <$> take k (dumps true [] (JObj l)))) as ->; [|by apply decode_ascii].
  destruct (dumps_object true l) as (y & t & Ht & Hy). rewrite Ht. destruct k as [|[|k]]; [done..|].
  cbn [take fmap list_fmap]. rewrite orb_true_iff, !N.eqb_eq in Hy.
  pose proof (λ H, detect_object y (byte_of_N <$> take k t) H) as Hdet.
  destruct Hy as [-> | ->]; exact (Hdet eq_refl).
Qed.

Lemma loads_bytes_dumps l : json_ok (JObj l) = true →
  loads_bytes (ascii_bytes (dumps true [] (JObj l))) = Ok (as_dicts (sort_keys (JObj l))).
Proof.
  intros Hok. pose proof (decode_object (length (ascii_bytes (dumps true [] (JObj l)))) l Hok) as Hd.
  rewrite take_ge in Hd by done. unfold loads_bytes. rewrite Hd. cbn [of_option mbind result_bind].
  rewrite take_ge by (unfold ascii_bytes; by rewrite length_fmap). unfold loads_dict. by rewrite loads_dumps.
Qed.

(** A printed object that was cut off is no object. *)
Lemma torn_object k l items : json_ok (JObj l) = true → (k < length (ascii_bytes (dumps true [] (JObj l))))%nat →
  loads_bytes (take k (ascii_bytes (dumps true [] (JObj l)))) ≠ Ok (JObj items).
Proof.
  intros Hok Hk. unfold loads_bytes. rewrite decode_object by done. cbn [of_option mbind result_bind].
  unfold loads_dict. destruct (loads (take k _)) as [v|] eqn:Hv; [|done]. cbn [fmap option_fmap option_map of_option].
  intros [= Hi]. destruct v as [| | | | | |l']; try done. set (s := dumps true [] (JObj l)) in *.
  unfold ascii_bytes in Hk. rewrite length_fmap in Hk.
  assert (forallb is_ws (drop k s) = true) as Hws.
  { eapply (prefix_not_object (take k s)); [rewrite take_drop; by apply loads_dumps|exact Hv|].
    rewrite take_drop. intros c s' Hs. subst s. destruct (dumps_object true l) as (y & t & Ht & _).
    rewrite Ht in Hs. by injection Hs as <- <-. }
  assert (last s = Some 125%N) as Hlast.
  { subst s. unfold dumps. rewrite sort_keys_obj. cbn [print]. by rewrite app_assoc, last_snoc. }
  clearbody s. rewrite forallb_elem_of in Hws. rewrite <-(take_drop k s), last_app in Hlast.
  destruct (last (drop k s)) as [c|] eqn:Hd; [|apply last_None in Hd; apply (f_equal length) in Hd; rewrite length_drop in Hd; cbn in Hd; lia].
  injection Hlast as ->. apply last_Some_elem_of in Hd. by specialize (Hws _ Hd).
Qed.

(** ** Printed objects *)

Lemma strict_distinct v : strict_objects v = true → distinct_deep v.
Proof.
  induction v as [| | | | |l IH|l IH] using json_ind'; try done; cbn [strict_objects distinct_deep].
  - rewrite forallb_elem_of, distinct_list, Forall_forall in *. intros Hl x Hx. by apply IH, Hl.
  - intros [Hd Hl]%andb_true_iff. rewrite distinct_keys_NoDup in Hd. split; [done|].
    rewrite forallb_elem_of, distinct_items, Forall_forall in *. intros x Hx. by apply IH, Hl.
Qed.

Lemma loads_bytes_object_dumps l : json_ok (JObj l) = true → strict_objects (JObj l) = true →
  loads_bytes (ascii_bytes (dumps true [] (JObj l))) = Ok (JObj (sorted_items l)).
Proof.
  intros Hok Hs. rewrite loads_bytes_dumps by done. f_equal. rewrite <-sort_keys_obj.
  by apply as_dicts_distinct, strict_distinct; rewrite strict_sort_keys.
Qed.
