(* ===== verification/Database.v ===== *)
(** * The SQLite tables of the recovery store

    The tables [SqliteRecoveryContractStore._initialize_schema] creates
    ([tier1/store.py]), with the constraints of that schema, and the
    statements the program executes on them.  A statement that violates a
    constraint raises [SqliteIntegrityError] ([sqlite3.IntegrityError]) and
    leaves the tables unchanged.  Tables with a text primary key are finite
    maps; [target_reservations] is keyed by its second unique column,
    [contract_id].  [INTEGER] columns hold unbounded integers. *)

From S2P Require Import Prelude PyStr Json StateMachine.

Record contract_row : Type := {
  r_operation_id : pystr;
  r_idempotency_key : pystr;
  r_target_identity_digest : pystr;
  r_state : pystr;
  r_state_version : Z;
  r_payload : bytes;
  r_mac : pystr;
}.

Record audit_row : Type := {
  a_contract_id : pystr;
  a_event_type : pystr;
  a_previous_state : option pystr;
  a_current_state : pystr;
  a_state_version : Z;
  a_recorded_at : pystr;
  a_mac : pystr;
}.

Record DB : Type := {
  t_contracts : gmap pystr contract_row;
  t_target_reservations : gmap pystr pystr;      (* contract_id -> target_identity_digest *)
  t_audit_events : list audit_row;               (* in order of sequence *)
  t_anchor_state : gmap pystr (pystr * pystr);   (* key -> value, mac *)
  t_rate_cooldowns : gmap pystr pystr;           (* target_identity_digest -> cooldown_until *)
}.

Definition empty_db : DB := {|
  t_contracts := ∅; t_target_reservations := ∅; t_audit_events := [];
  t_anchor_state := ∅; t_rate_cooldowns := ∅ |}.

Definition set_contracts (d : DB) (m : gmap pystr contract_row) : DB :=
  {| t_contracts := m; t_target_reservations := t_target_reservations d;
     t_audit_events := t_audit_events d; t_anchor_state := t_anchor_state d;
     t_rate_cooldowns := t_rate_cooldowns d |}.
Definition set_reservations (d : DB) (m : gmap pystr pystr) : DB :=
  {| t_contracts := t_contracts d; t_target_reservations := m;
     t_audit_events := t_audit_events d; t_anchor_state := t_anchor_state d;
     t_rate_cooldowns := t_rate_cooldowns d |}.
Definition set_audit (d : DB) (l : list audit_row) : DB :=
  {| t_contracts := t_contracts d; t_target_reservations := t_target_reservations d;
     t_audit_events := l; t_anchor_state := t_anchor_state d;
     t_rate_cooldowns := t_rate_cooldowns d |}.
Definition set_anchor (d : DB) (m : gmap pystr (pystr * pystr)) : DB :=
  {| t_contracts := t_contracts d; t_target_reservations := t_target_reservations d;
     t_audit_events := t_audit_events d; t_anchor_state := m;
     t_rate_cooldowns := t_rate_cooldowns d |}.
Definition set_cooldowns (d : DB) (m : gmap pystr pystr) : DB :=
  {| t_contracts := t_contracts d; t_target_reservations := t_target_reservations d;
     t_audit_events := t_audit_events d; t_anchor_state := t_anchor_state d;
     t_rate_cooldowns := m |}.

(** ** contracts *)

(** [state IN (_ACTIVE_IDEMPOTENCY_STATES_SQL)] *)
Definition blocking_values : list pystr := state_value <$> BLOCKING_IDEMPOTENCY_STATES.
Definition is_blocking_value (s : pystr) : bool := existsb (pystr_eqb s) blocking_values.

(** [UNIQUE(operation_id)] and [ux_contracts_active_idempotency] for a row
    [r] stored under [id]. *)
Definition row_conflicts (id : pystr) (r : contract_row) (other : pystr * contract_row) : bool :=
  negb (pystr_eqb id (fst other)) &&
  (pystr_eqb (r_operation_id r) (r_operation_id (snd other)) ||
   (is_blocking_value (r_state r) && is_blocking_value (r_state (snd other)) &&
    pystr_eqb (r_idempotency_key r) (r_idempotency_key (snd other)))).

Definition row_allowed (d : DB) (id : pystr) (r : contract_row) : bool :=
  forallb (λ other, negb (row_conflicts id r other)) (map_to_list (t_contracts d)).

(** [INSERT INTO contracts VALUES (...)] *)
Definition insert_contract (d : DB) (id : pystr) (r : contract_row) : result DB :=
  _ ← require (match t_contracts d !! id with Some _ => false | None => row_allowed d id r end)
        SqliteIntegrityError;
  Ok (set_contracts d (<[id := r]> (t_contracts d))).

(** [UPDATE contracts SET state, state_version, payload, mac WHERE contract_id
    = ? AND state = ? AND state_version = ?], with its row count. *)
Definition update_contract (d : DB) (id old_state : pystr) (old_version : Z)
    (state : pystr) (version : Z) (payload : bytes) (mac : pystr) : result (nat * DB) :=
  match t_contracts d !! id with
  | Some r =>
    if pystr_eqb (r_state r) old_state && (r_state_version r =? old_version)%Z then
      let r' := {| r_operation_id := r_operation_id r; r_idempotency_key := r_idempotency_key r;
        r_target_identity_digest := r_target_identity_digest r; r_state := state;
        r_state_version := version; r_payload := payload; r_mac := mac |} in
      _ ← require (row_allowed d id r') SqliteIntegrityError;
      Ok (1%nat, set_contracts d (<[id := r']> (t_contracts d)))
    else Ok (0%nat, d)
  | None => Ok (0%nat, d)
  end.

(** [SELECT ... FROM contracts WHERE contract_id = ?] *)
Definition select_contract (id : pystr) (d : DB) : option contract_row := t_contracts d !! id.
(** [SELECT ... FROM contracts ORDER BY contract_id] *)
Definition select_all_contracts (d : DB) : list (pystr * contract_row) :=
  sort_items (map_to_list (t_contracts d)).
(** [... WHERE idempotency_key = ? ORDER BY contract_id] *)
Definition select_by_key (key : pystr) (d : DB) : list (pystr * contract_row) :=
  filter (λ kr, pystr_eqb (r_idempotency_key (snd kr)) key = true) (select_all_contracts d).
(** [... WHERE idempotency_key = ? AND state IN (...)], [fetchone()] *)
Definition select_blocking_by_key (key : pystr) (d : DB) : option (pystr * contract_row) :=
  head (filter (λ kr, is_blocking_value (r_state (snd kr)) = true) (select_by_key key d)).

(** [SELECT COUNT(( * )) FROM contracts WHERE ...] *)
Definition count_contracts (p : contract_row → bool) (d : DB) : Z :=
  Z.of_nat (length (filter (λ kr, p (snd kr) = true) (map_to_list (t_contracts d)))).

(** ** target_reservations *)

Definition reserved_elsewhere (d : DB) (target : pystr) : bool :=
  existsb (λ kv, pystr_eqb target (snd kv)) (map_to_list (t_target_reservations d)).

Definition insert_reservation (d : DB) (target id : pystr) : result DB :=
  _ ← require (match t_target_reservations d !! id with
               | Some _ => false | None => negb (reserved_elsewhere d target) end)
        SqliteIntegrityError;
  Ok (set_reservations d (<[id := target]> (t_target_reservations d))).

Definition delete_reservation (d : DB) (id : pystr) : DB :=
  set_reservations d (delete id (t_target_reservations d)).

Definition select_reservation (id : pystr) (d : DB) : option pystr := t_target_reservations d !! id.

(** ** audit_events *)

Definition same_event_slot (r r' : audit_row) : bool :=
  pystr_eqb (a_contract_id r) (a_contract_id r') && (a_state_version r =? a_state_version r')%Z.

(** [UNIQUE(contract_id, state_version)] *)
Definition insert_audit_row (d : DB) (r : audit_row) : result DB :=
  _ ← require (negb (existsb (same_event_slot r) (t_audit_events d))) SqliteIntegrityError;
  Ok (set_audit d (t_audit_events d ++ [r])).

Fixpoint insert_event (r : audit_row) (l : list audit_row) : list audit_row :=
  match l with
  | [] => [r]
  | r' :: l' => if (a_state_version r <=? a_state_version r')%Z then r :: l else r' :: insert_event r l'
  end.

(** [SELECT ... FROM audit_events WHERE contract_id = ? ORDER BY state_version] *)
Definition events_of (id : pystr) (d : DB) : list audit_row :=
  filter (λ r, pystr_eqb (a_contract_id r) id = true) (t_audit_events d).
Definition select_audit (id : pystr) (d : DB) : list audit_row :=
  foldr insert_event [] (events_of id d).

(** ** anchor_state and rate_cooldowns *)

Definition insert_anchor_row (d : DB) (key value mac : pystr) : result DB :=
  _ ← require (match t_anchor_state d !! key with Some _ => false | None => true end)
        SqliteIntegrityError;
  Ok (set_anchor d (<[key := (value, mac)]> (t_anchor_state d))).

(** [INSERT ... ON CONFLICT(key) DO UPDATE] *)
Definition upsert_anchor_row (d : DB) (key value mac : pystr) : DB :=
  set_anchor d (<[key := (value, mac)]> (t_anchor_state d)).

Definition upsert_cooldown (d : DB) (target until : pystr) : DB :=
  set_cooldowns d (<[target := until]> (t_rate_cooldowns d)).

(** ** Statements in the effect monad

    The world of the store is its database and an environment [E]: the
    clock, the anchor, the verifiers and whatever else the configured
    objects keep. *)

Record World (E : Type) : Type := mkWorld { db : DB; env : E }.
Arguments mkWorld {_} _ _.
Arguments db {_} _.
Arguments env {_} _.

Section statements.
Context {E : Type}.

(** What other processes commit between two of our statements. *)
Context (other_writers : E → DB → DB * E).

(** A call of a configured object, which cannot touch the database. *)
Definition env_call {A} (m : prog E A) : prog (World E) A := λ w,
  let '(r, e) := m (env w) in (r, mkWorld (db w) e).

Definition interfere (w : World E) : World E :=
  let '(d, e) := other_writers (env w) (db w) in mkWorld d e.

Inductive mode : Type := Autocommit | InTransaction.

(** A [SELECT]: outside a transaction it sees what others committed. *)
Definition select {A} (m : mode) (f : DB → A) : prog (World E) A := λ w,
  let w := match m with Autocommit => interfere w | InTransaction => w end in
  (Ok (f (db w)), w).

(** A modifying statement inside the current transaction. *)
Definition execute {A} (f : DB → result (A * DB)) : prog (World E) A := λ w,
  match f (db w) with
  | Ok (a, d) => (Ok a, mkWorld d (env w))
  | Raise e => (Raise e, w)
  end.

Definition execute_ (f : DB → result DB) : prog (World E) () :=
  execute (λ d, d' ← f d; Ok ((), d')).

(** A modifying statement in autocommit mode. *)
Definition execute_autocommit (f : DB → result DB) : prog (World E) () := λ w,
  execute_ f (interfere w).

(** [BEGIN IMMEDIATE; body; COMMIT], with [ROLLBACK] when the body raises. *)
Definition transaction {A} (body : prog (World E) A) : prog (World E) A := λ w,
  let w0 := interfere w in
  match body w0 with
  | (Ok a, w1) => (Ok a, w1)
  | (Raise e, w1) => (Raise e, mkWorld (db w0) (env w1))
  end.
End statements.
