(* ===== verification/RatePolicy.v ===== *)
(** * Rate and blast-radius limits

    [tier1/rate_policy.py]: the numeric limits and the three statements the
    store runs inside its transactions. *)

From S2P Require Import Prelude PyStr PyDatetime Json Capability StateMachine Contract Database.

Definition COOLDOWN_STATES : list RecoveryState := [VERIFIED; FAILED; ROLLED_BACK; ROLLBACK_FAILED].
Definition IN_FLIGHT_STATES : list RecoveryState := [EXECUTING; ROLLING_BACK].

Record RateLimits : Type := {
  max_outstanding_prepared_per_target : Z;
  max_global_in_flight : Z;
  target_cooldown_seconds : Z;
  reconciliation_lockout_threshold : Z;
}.

Definition RateLimits_new (l : RateLimits) : result RateLimits :=
  _ ← require (forallb (λ z, (0 <=? z)%Z)
        [max_outstanding_prepared_per_target l; max_global_in_flight l;
         target_cooldown_seconds l; reconciliation_lockout_threshold l]) RateLimitExceededError;
  Ok l.

Definition has_state (s : RecoveryState) (r : contract_row) : bool := pystr_eqb (r_state r) (state_value s).

(** [check_prepare_allowed]; an unreadable cooldown is a [ValueError]. *)
Definition check_prepare_allowed (limits : RateLimits) (target_identity_digest : pystr) (now : datetime)
    (d : DB) : result () :=
  _ ← require (is_utc now) RateLimitExceededError;
  _ ← require (negb (reconciliation_lockout_threshold limits <=?
                     count_contracts (has_state RECONCILIATION) d)%Z) RateLimitExceededError;
  _ ← require (negb (max_outstanding_prepared_per_target limits <=?
                     count_contracts (λ r, pystr_eqb (r_target_identity_digest r) target_identity_digest &&
                                           has_state PREPARED r) d)%Z) RateLimitExceededError;
  match t_rate_cooldowns d !! target_identity_digest with
  | None => Ok ()
  | Some text =>
    until ← fromisoformat text;
    _ ← require (negb (is_none (dt_tz until))) TypeError;
    require (negb (dt_ltb now until)) RateLimitExceededError
  end.

Definition check_execute_allowed (limits : RateLimits) (now : datetime) (d : DB) : result () :=
  _ ← require (is_utc now) RateLimitExceededError;
  require (negb (max_global_in_flight limits <=?
                 count_contracts (λ r, existsb (λ s, has_state s r) IN_FLIGHT_STATES) d)%Z)
    RateLimitExceededError.

Definition record_terminal (limits : RateLimits) (target_identity_digest : pystr) (now : datetime)
    (d : DB) : result DB :=
  _ ← require (is_utc now) RateLimitExceededError;
  cooldown_until ← dt_add_seconds now (target_cooldown_seconds limits);
  Ok (upsert_cooldown d target_identity_digest (isoformat cooldown_until)).

Definition is_cooldown_state (state : RecoveryState) : bool := existsb (state_eqb state) COOLDOWN_STATES.

(** ** The limits, characterised *)

Lemma check_prepare_allowed_Ok l target now d :
  check_prepare_allowed l target now d = Ok () ↔
  is_utc now = true ∧
  (count_contracts (has_state RECONCILIATION) d < reconciliation_lockout_threshold l)%Z ∧
  (count_contracts (λ r, pystr_eqb (r_target_identity_digest r) target && has_state PREPARED r) d
     < max_outstanding_prepared_per_target l)%Z ∧
  match t_rate_cooldowns d !! target with
  | None => True
  | Some text => ∃ until, fromisoformat text = Ok until ∧ is_none (dt_tz until) = false ∧
                          dt_ltb now until = false
  end.
Proof.
  unfold check_prepare_allowed. rewrite !require_bind, !negb_true_iff, !Z.leb_gt.
  destruct (t_rate_cooldowns d !! target) as [text|]; [|tauto].
  rewrite bind_Ok. setoid_rewrite require_bind. setoid_rewrite require_Ok.
  setoid_rewrite negb_true_iff. tauto.
Qed.

Lemma check_execute_allowed_Ok l now d :
  check_execute_allowed l now d = Ok () ↔
  is_utc now = true ∧
  (count_contracts (λ r, existsb (λ s, has_state s r) IN_FLIGHT_STATES) d < max_global_in_flight l)%Z.
Proof. unfold check_execute_allowed. by rewrite require_bind, require_Ok, negb_true_iff, Z.leb_gt. Qed.

Lemma record_terminal_Ok l target t d d' :
  dt_valid t = true → record_terminal l target t d = Ok d' →
  ∃ until, fromisoformat (isoformat until) = Ok until ∧ is_utc until = true ∧
    dt_instant until = (dt_instant t + target_cooldown_seconds l * 1000000)%Z ∧
    d' = upsert_cooldown d target (isoformat until).
Proof.
  intros Hv. unfold record_terminal. rewrite require_bind. intros (Hu & (c & Hc & [= <-])%bind_Ok).
  exists c. pose proof (dt_add_seconds_valid _ _ _ Hv Hc) as Hvc.
  apply dt_add_seconds_instant in Hc as [Hi Ht]. split_and!; [by apply fromisoformat_isoformat| |done|done].
  unfold is_utc in *. by rewrite Ht.
Qed.

(** The cooldown works through its text column: once [record_terminal]
    ran for a target at the instant [t], a new preparation for that target
    is admitted at [now] exactly when the whole cooldown has passed and the
    two counts are below their limits. *)
Theorem cooldown_window l target t d d' now :
  dt_valid t = true → record_terminal l target t d = Ok d' →
  check_prepare_allowed l target now d' = Ok () ↔
    is_utc now = true ∧
    (dt_instant t + target_cooldown_seconds l * 1000000 <= dt_instant now)%Z ∧
    (count_contracts (has_state RECONCILIATION) d < reconciliation_lockout_threshold l)%Z ∧
    (count_contracts (λ r, pystr_eqb (r_target_identity_digest r) target && has_state PREPARED r) d
       < max_outstanding_prepared_per_target l)%Z.
Proof.
  intros Hv (until & Hiso & Hu & Hi & ->)%record_terminal_Ok; [|done].
  rewrite check_prepare_allowed_Ok. cbn [upsert_cooldown set_cooldowns t_rate_cooldowns].
  rewrite lookup_insert_eq, Hiso. unfold dt_ltb, count_contracts. cbn [t_contracts].
  assert (is_none (dt_tz until) = false) as Hn by (unfold is_utc in Hu; by destruct (dt_tz until)).
  split.
  - intros (? & ? & ? & x & [= <-] & _ & Hlt%Z.ltb_ge). rewrite Hi in Hlt. tauto.
  - intros (? & Hle & ? & ?). split_and!; try done. exists until. split_and!; [done..|].
    apply Z.ltb_ge. lia.
Qed.

Example cooldown_window_witness :
  let t := mk_datetime 2026 2 28 23 59 30 0 (Some 0%Z) in
  let l := {| max_outstanding_prepared_per_target := 1; max_global_in_flight := 1;
              target_cooldown_seconds := 60; reconciliation_lockout_threshold := 1 |}%Z in
  let d' := upsert_cooldown empty_db (u "t") (u "2026-03-01T00:00:30+00:00") in
  record_terminal l (u "t") t empty_db = Ok d' ∧
  check_prepare_allowed l (u "t") (mk_datetime 2026 3 1 0 0 30 0 (Some 0%Z)) d' = Ok ().
Proof.
  cbv zeta. split; [vm_compute; reflexivity|].
  apply (cooldown_window _ _ (mk_datetime 2026 2 28 23 59 30 0 (Some 0%Z)) empty_db);
    [vm_compute; reflexivity|vm_compute; reflexivity|].
  split_and!; vm_compute; (reflexivity || congruence).
Defined.
