(* ===== verification/AntiRollback.v ===== *)
(** * The whole-store anti-rollback mark

    [tier1/anti_rollback.py]: the anchor protocol, the authenticated
    high-water mark and the provisioning record, with the two store methods
    that provision and report them ([provision_anchor_baseline],
    [anchor_provisioning_status] of [tier1/store.py]).  The anchor itself (a
    TPM counter behind a witness service) is a parameter. *)

From S2P Require Import Prelude PyStr Sha256 PyDatetime Json PyJson StateMachine Canonical.
From S2P Require Import Contract StoreCodec Database.

(** [AntiRollbackAnchor] *)
Record Anchor (E : Type) : Type := {
  anchor_read : prog E Z;
  anchor_advance : Z → prog E Z;      (* expected_current *)
}.
Arguments anchor_read {_} _.
Arguments anchor_advance {_} _ _.

(** [int(text)], for ASCII digits with an optional sign and surrounding
    blanks.  Python also accepts single underscores between digits and the
    decimal digits of other scripts; the mark and its tag are written by
    [str(value)], so an authentic text holds neither. *)
Definition digits_value (s : pystr) : option N :=
  match s with
  | [] => None
  | _ => if forallb is_digit s then Some (N.of_uint (str_uint s)) else None
  end.
Definition int_of_text (s : pystr) : option Z :=
  match strip s with
  | 45%N :: s => Z.opp <$> (Z.of_N <$> digits_value s)
  | 43%N :: s => Z.of_N <$> digits_value s
  | s => Z.of_N <$> digits_value s
  end.

Definition high_water_mark_KEY : pystr := u "high_water_mark".
Definition provisioning_KEY : pystr := u "anchor_provisioning_complete".

Section anti_rollback.
Context `{Hash} `{UnicodeData} {E : Type}.
Context (integrity_key : bytes) (store_id : pystr).

(** The tag of a labelled component: [HighWaterMark._mac] and
    [ProvisioningRecord._mac] with their two labels. *)
Definition labelled_mac (label : pystr) (component : pystr) : result pystr :=
  a ← frame_str store_id;
  b ← frame_str label;
  encoded ← utf8_encode component;
  c ← frame_bytes encoded;
  Ok (hmac_hex integrity_key (a ++ b ++ c)).

Definition hwm_mac (value : Z) : result pystr :=
  labelled_mac (u "anchor-high-water-mark") (int_str value).
Definition provisioning_mac (payload : pystr) : result pystr :=
  labelled_mac (u "anchor-provisioning-complete") payload.

(** [HighWaterMark.read] *)
Definition hwm_read (d : DB) : result Z :=
  match t_anchor_state d !! high_water_mark_KEY with
  | None => Ok 0%Z
  | Some (value_text, supplied_mac) =>
    value ← of_option (int_of_text value_text) ContractIntegrityError;
    if (value <? 0)%Z then Raise ContractIntegrityError else
    mac ← hwm_mac value;
    _ ← authentic supplied_mac mac;
    Ok value
  end.

Definition hwm_is_seeded (d : DB) : bool :=
  match t_anchor_state d !! high_water_mark_KEY with Some _ => true | None => false end.

(** [except sqlite3.IntegrityError: raise AnchorAlreadyProvisionedError] *)
Definition already_provisioned {A} (m : result A) : result A :=
  try_except m (λ e, if bool_decide (e = SqliteIntegrityError)
                     then Some (Raise AnchorAlreadyProvisionedError) else None).

Definition hwm_seed (value : Z) (d : DB) : result DB :=
  _ ← require (0 <=? value)%Z ContractValidationError;
  _ ← require (negb (hwm_is_seeded d)) AnchorAlreadyProvisionedError;
  mac ← hwm_mac value;
  already_provisioned (insert_anchor_row d high_water_mark_KEY (int_str value) mac).

Definition hwm_persist (value : Z) (d : DB) : result DB :=
  mac ← hwm_mac value;
  Ok (upsert_anchor_row d high_water_mark_KEY (int_str value) mac).

Definition is_complete (d : DB) : result bool :=
  match t_anchor_state d !! provisioning_KEY with
  | None => Ok false
  | Some (payload, supplied_mac) =>
    mac ← provisioning_mac payload;
    _ ← authentic supplied_mac mac;
    Ok true
  end.

(** [ProvisioningRecord.read] *)
Definition provisioning_read (d : DB) : result (option (list (pystr * json))) :=
  match t_anchor_state d !! provisioning_KEY with
  | None => Ok None
  | Some (payload, supplied_mac) =>
    mac ← provisioning_mac payload;
    _ ← authentic supplied_mac mac;
    parsed ← of_option (loads_dict payload) ValueError;
    match parsed with
    | JObj items =>
      _ ← require (fields_are items [u "handle"; u "verified_value"; u "provisioned_at"])
            ContractIntegrityError;
      Ok (Some items)
    | _ => Raise ContractIntegrityError
    end
  end.

Definition provisioning_payload (handle : pystr) (verified_value : Z) (provisioned_at : pystr) : result pystr :=
  b ← canonical_json (pdict [("handle", PStr handle); ("verified_value", PInt verified_value);
                             ("provisioned_at", PStr provisioned_at)]);
  of_option (utf8_decode b) ValueError.

(** [mark_complete] *)
Definition mark_complete (handle : pystr) (verified_value : Z) (provisioned_at : pystr) (d : DB) : result DB :=
  _ ← require (hwm_is_seeded d) ContractValidationError;
  current ← hwm_read d;
  _ ← require (current =? verified_value)%Z ContractValidationError;
  _ ← require (negb (length handle =? 0)%nat) ContractValidationError;
  complete ← is_complete d;
  _ ← require (negb complete) AnchorAlreadyProvisionedError;
  payload ← provisioning_payload handle verified_value provisioned_at;
  mac ← provisioning_mac payload;
  already_provisioned (insert_anchor_row d provisioning_KEY payload mac).

(** [before_executing_transition], inside the caller's transaction. *)
Definition before_executing_transition (anchor : Anchor E) : prog (World E) () :=
  persisted ← (λ w, (hwm_read (db w), w));
  current ← env_call (anchor_read anchor);
  if negb (current =? persisted)%Z then raise WholeStoreRollbackDetected else
  advanced ← env_call (anchor_advance anchor current);
  execute_ (hwm_persist advanced).
End anti_rollback.

(** ** Reading what was written *)

Lemma digits_value_nat n : digits_value (nat_str n) = Some n.
Proof.
  unfold digits_value. pose proof (nat_str_digits n) as Hd. pose proof (nat_str_value n) as Hv.
  destruct (nat_str_head n) as [[E _]|(c & s & E & _)]; rewrite E in *; by rewrite Hd, Hv.
Qed.

Lemma int_of_text_str z : (0 <= z)%Z → int_of_text (int_str z) = Some z.
Proof.
  intros Hz. unfold int_of_text, int_str. rewrite (proj2 (Z.ltb_ge _ _)) by done.
  rewrite strip_nonblank by (apply digit_nonblank, nat_str_digits). pose proof (digits_value_nat (Z.to_N z)) as Hv.
  destruct (nat_str_head (Z.to_N z)) as [[E _]|(c & s & E & Hc & _)]; rewrite E in *.
  - rewrite Hv. cbn. f_equal. lia.
  - assert (c ≠ 45%N ∧ c ≠ 43%N) as [H1 H2]
      by (unfold is_digit, in_range in Hc; rewrite andb_true_iff, !N.leb_le in Hc; lia).
    transitivity (Z.of_N <$> digits_value (c :: s)).
    + destruct c as [|p]; [done|]. do 6 (try (destruct p as [p|p|]; try done)).
    + rewrite Hv. cbn. f_equal. lia.
Qed.

Section mark.
Context `{Hash} `{UnicodeData} {E : Type} (key : bytes) (sid : pystr).

Lemma labelled_mac_ascii label c tag : labelled_mac key sid label c = Ok tag → is_ascii tag = true.
Proof. unfold labelled_mac. intros H'. inv_result. subst. apply match_hex64_ascii, hmac_hex_match. Qed.

(** The mark reads back as it was written. *)
Lemma hwm_persist_read v d d' : (0 <= v)%Z → hwm_persist key sid v d = Ok d' → hwm_read key sid d' = Ok v.
Proof.
  unfold hwm_persist. intros Hv (tag & Ht & [= <-])%bind_Ok. unfold hwm_read. cbn.
  rewrite lookup_insert_eq, int_of_text_str by done. cbn [of_option mbind result_bind].
  rewrite (proj2 (Z.ltb_ge _ _)) by done. rewrite Ht. cbn [mbind result_bind].
  rewrite authentic_refl; [done|by eapply labelled_mac_ascii].
Qed.

(** A row whose tag the key did not produce for its value is refused. *)
Lemma hwm_read_authentic d v : hwm_read key sid d = Ok v →
  t_anchor_state d !! high_water_mark_KEY = None ∧ v = 0%Z ∨
  ∃ text tag, t_anchor_state d !! high_water_mark_KEY = Some (text, tag) ∧ (0 <= v)%Z ∧
              int_of_text text = Some v ∧ hwm_mac key sid v = Ok tag.
Proof.
  unfold hwm_read. destruct (t_anchor_state d !! _) as [[text tag]|]; [|by intros [= <-]; left].
  intros (z & Hz%of_option_Ok & Hv)%bind_Ok. right. destruct (Z.ltb_spec z 0); [done|].
  apply bind_Ok in Hv as (t & Ht & ([] & Hc%authentic_Ok & [= <-])%bind_Ok).
  exists text, tag. split_and!; try done. by rewrite Ht, Hc.
Qed.

(** [before_executing_transition], case by case; [e1] and [e2] are the
    environment after the anchor was read and after it was advanced. *)
Lemma before_executing_transition_run (a : Anchor E) w v :
  hwm_read key sid (db w) = Ok v →
  before_executing_transition key sid a w =
    match anchor_read a (env w) with
    | (Raise x, e1) => (Raise x, mkWorld (db w) e1)
    | (Ok current, e1) =>
      if (current =? v)%Z then
        match anchor_advance a v e1 with
        | (Raise x, e2) => (Raise x, mkWorld (db w) e2)
        | (Ok advanced, e2) =>
          match hwm_persist key sid advanced (db w) with
          | Ok d => (Ok (), mkWorld d e2)
          | Raise x => (Raise x, mkWorld (db w) e2)
          end
        end
      else (Raise WholeStoreRollbackDetected, mkWorld (db w) e1)
    end.
Proof.
  intros Hv. unfold before_executing_transition, mbind, prog_bind, env_call. rewrite Hv.
  destruct (anchor_read a (env w)) as [[current|x] e1]; [|done].
  destruct (Z.eqb_spec current v) as [->|]; [|done]. cbn [negb db env].
  destruct (anchor_advance a v e1) as [[advanced|x] e2]; [|done].
  unfold execute_, execute. cbn [db env]. by destruct (hwm_persist key sid advanced (db w)).
Qed.
End mark.
