(* ===== verification/Store.v ===== *)
(** * The recovery contract store

    The operations of [SqliteRecoveryContractStore] ([tier1/store.py]) on the
    tables of [Database.v].  Each public method is a program over the world
    of database and environment; statements outside a transaction may see
    the commits of other processes ([other_writers]), those between
    [BEGIN IMMEDIATE] and [COMMIT] may not.  [_prepare_path], the pragmas,
    the schema check and the migrations are not here. *)

From S2P Require Import Prelude PyStr Sha256 PyDatetime Json Capability StateMachine Canonical.
From S2P Require Import Contract Evidence StoreCodec Database RatePolicy AntiRollback.

Record Config (E : Type) : Type := {
  integrity_key : bytes;
  store_id : pystr;
  clock : E → datetime * E;
  fault_hook : option (pystr → prog E ());
  other_writers : E → DB → DB * E;
  confirmation_verifier : option (ConfirmationEvidence → prog E bool);
  reconciliation_verifier : option (ReconciliationEvidence → prog E bool);
  anti_rollback_anchor : option (Anchor E);
  rate_policy : option RateLimits;
}.
Arguments integrity_key {_} _.
Arguments store_id {_} _.
Arguments clock {_} _ _.
Arguments fault_hook {_} _.
Arguments other_writers {_} _ _ _.
Arguments confirmation_verifier {_} _.
Arguments reconciliation_verifier {_} _.
Arguments anti_rollback_anchor {_} _.
Arguments rate_policy {_} _.

(** The validation of [__init__]. *)
Definition Store_init {E} (cfg : Config E) : result () :=
  _ ← require (32 <=? length (integrity_key cfg))%nat ContractValidationError;
  require (match_token (store_id cfg)) ContractValidationError.

Definition RESERVATION_STATES : list RecoveryState :=
  [EXECUTING; RECONCILIATION; ROLLING_BACK; ROLLBACK_FAILED].
Definition INTERRUPTED_STATES : list RecoveryState := [EXECUTING; ROLLING_BACK].
Definition in_states (s : RecoveryState) (l : list RecoveryState) : bool := existsb (state_eqb s) l.

(** A read-only audit event as [audit_events] returns it. *)
Record audit_event : Type := {
  ev_event_type : pystr; ev_previous_state : option pystr; ev_current_state : pystr;
  ev_state_version : Z; ev_recorded_at : pystr }.

Definition opt_str_eqb (a b : option pystr) : bool :=
  match a, b with
  | Some s, Some t => pystr_eqb s t
  | None, None => true
  | _, _ => false
  end.

Section store.
Context `{Hash} `{UnicodeData} {E : Type} (cfg : Config E).
Implicit Types c current updated contract : RecoveryContract.

Notation M A := (prog (World E) A).
Notation select := (select (other_writers cfg)).
Notation transaction := (transaction (other_writers cfg)).

(** [_mac] *)
Definition mac (components : list bytes) : result pystr :=
  m ← mac_message (store_id cfg) components;
  Ok (hmac_hex (integrity_key cfg) m).

(** [_audit_mac] *)
Definition audit_json (contract_id event_type : pystr) (previous_state : option pystr)
    (current_state : pystr) (state_version : Z) (recorded_at : pystr) : json :=
  JObj [(u "contract_id", JStr contract_id); (u "current_state", JStr current_state);
        (u "event_type", JStr event_type); (u "previous_state", json_opt_str previous_state);
        (u "recorded_at", JStr recorded_at); (u "state_version", JInt state_version)].

Definition audit_mac (contract_id event_type : pystr) (previous_state : option pystr)
    (current_state : pystr) (state_version : Z) (recorded_at : pystr) : result pystr :=
  mac [ascii_bytes (u "audit-event");
       ascii_bytes (dumps true [] (audit_json contract_id event_type previous_state current_state
         state_version recorded_at))].

(** [_now] *)
Definition now_ : M datetime := λ w,
  let '(instant, e) := clock cfg (env w) in
  (if is_utc instant then Ok instant else Raise ContractValidationError, mkWorld (db w) e).

(** [_invoke_fault] *)
Definition invoke_fault (point : string) : M () :=
  match fault_hook cfg with Some h => env_call (h (u point)) | None => mret () end.

(** [_decode_row]; the row carries its [contract_id]. *)
Definition decode_row (id : pystr) (row : contract_row) : result RecoveryContract :=
  m ← mac [r_payload row];
  _ ← authentic (r_mac row) m;
  contract ← contract_from_payload (r_payload row);
  _ ← require
    (pystr_eqb id (rc_contract_id contract) &&
     pystr_eqb (r_operation_id row) (rc_operation_id contract) &&
     pystr_eqb (r_idempotency_key row) (rc_idempotency_key contract) &&
     pystr_eqb (r_target_identity_digest row) (rc_target_identity_digest contract) &&
     pystr_eqb (r_state row) (state_value (rc_state contract)) &&
     (r_state_version row =? rc_state_version contract)%Z) ContractIntegrityError;
  Ok contract.

(** [_verify_reservation] *)
Definition reservation_ok contract (actual : option pystr) : bool :=
  opt_str_eqb actual
    (if in_states (rc_state contract) RESERVATION_STATES
     then Some (rc_target_identity_digest contract) else None).

Definition verify_reservation (m : mode) contract : M () :=
  actual ← select m (select_reservation (rc_contract_id contract));
  lift (require (reservation_ok contract actual) ContractIntegrityError).

(** One iteration of the loop of [_verified_audit_rows]; the result is the
    new [previous_current]. *)
Definition check_event contract (expected_version : Z) (previous_current : option pystr)
    (row : audit_row) : result pystr :=
  _ ← require (pystr_eqb (a_contract_id row) (rc_contract_id contract) &&
               (a_state_version row =? expected_version)%Z) ContractIntegrityError;
  _ ← require
    (if (expected_version =? 0)%Z
     then pystr_eqb (a_event_type row) (u "contract_created") && is_none (a_previous_state row)
     else opt_str_eqb (a_previous_state row) previous_current) ContractIntegrityError;
  recorded ← integrity_of [ValueError] (fromisoformat (a_recorded_at row));
  _ ← require (is_utc recorded) ContractIntegrityError;
  expected_mac ← audit_mac (a_contract_id row) (a_event_type row) (a_previous_state row)
    (a_current_state row) (a_state_version row) (a_recorded_at row);
  _ ← authentic (a_mac row) expected_mac;
  Ok (a_current_state row).

Fixpoint audit_loop contract (rows : list audit_row) (expected_version : Z)
    (previous_current : option pystr) : result (option pystr) :=
  match rows with
  | [] => Ok previous_current
  | row :: rows =>
    current ← check_event contract expected_version previous_current row;
    audit_loop contract rows (expected_version + 1) (Some current)
  end.

Definition check_audit_rows contract (rows : list audit_row) : result () :=
  _ ← require (Z.of_nat (length rows) =? rc_state_version contract + 1)%Z ContractIntegrityError;
  previous_current ← audit_loop contract rows 0 None;
  require (opt_str_eqb previous_current (Some (state_value (rc_state contract)))) ContractIntegrityError.

(** [_verified_audit_rows] *)
Definition verified_audit_rows (m : mode) contract : M (list audit_row) :=
  rows ← select m (select_audit (rc_contract_id contract));
  _ ← lift (check_audit_rows contract rows);
  mret rows.

Definition verify_related_state (m : mode) contract : M () :=
  _ ← verify_reservation m contract;
  _ ← verified_audit_rows m contract;
  mret ().

(** [_insert_audit] *)
Definition insert_audit contract (event_type : pystr) (previous_state : option RecoveryState) : M () :=
  instant ← now_;
  let recorded_at := isoformat instant in
  let previous := state_value <$> previous_state in
  let current := state_value (rc_state contract) in
  m ← lift (audit_mac (rc_contract_id contract) event_type previous current
              (rc_state_version contract) recorded_at);
  execute_ (λ d, insert_audit_row d {|
    a_contract_id := rc_contract_id contract; a_event_type := event_type;
    a_previous_state := previous; a_current_state := current;
    a_state_version := rc_state_version contract; a_recorded_at := recorded_at; a_mac := m |}).

(** [except sqlite3.IntegrityError: rollback; raise ContractConflictError] *)
Definition conflict_on_integrity_error {A} (m : M A) : M A :=
  catch m (λ e, raise (if bool_decide (e = SqliteIntegrityError) then ContractConflictError else e)).

(** The row a contract is stored as. *)
Definition row_of contract (m : pystr) : contract_row := {|
  r_operation_id := rc_operation_id contract;
  r_idempotency_key := rc_idempotency_key contract;
  r_target_identity_digest := rc_target_identity_digest contract;
  r_state := state_value (rc_state contract);
  r_state_version := rc_state_version contract;
  r_payload := contract_payload contract;
  r_mac := m |}.

(** [create]: the transaction's body. *)
Definition create_body contract (now : datetime) : M () :=
  _ ← match rate_policy cfg with
      | Some limits =>
        select InTransaction
          (check_prepare_allowed limits (rc_target_identity_digest contract) now) ≫= lift
      | None => mret ()
      end;
  m ← lift (mac [contract_payload contract]);
  _ ← execute_ (λ d, insert_contract d (rc_contract_id contract) (row_of contract m));
  _ ← insert_audit contract (u "contract_created") None;
  _ ← invoke_fault "after_record_write";
  invoke_fault "before_commit".

Definition create contract : M () :=
  if negb (state_eqb (rc_state contract) PREPARING) || negb (rc_state_version contract =? 0)%Z ||
     is_confirmed contract then raise ContractValidationError else
  now ← now_;
  expired ← lift (is_expired contract now);
  if dt_ltb now (rc_created_at contract) || expired then raise ContractValidationError else
  _ ← conflict_on_integrity_error
    (_ ← invoke_fault "before_transaction"; transaction (create_body contract now));
  invoke_fault "after_commit".

Definition create_authorized contract : M () :=
  if is_none (rc_authorization_provenance contract) then raise ContractValidationError
  else create contract.

(** [load] *)
Definition load (contract_id : pystr) : M RecoveryContract :=
  row ← select Autocommit (select_contract contract_id);
  match row with
  | None => raise ContractNotFoundError
  | Some row =>
    contract ← lift (decode_row contract_id row);
    if negb (pystr_eqb (rc_contract_id contract) contract_id) then raise ContractIntegrityError else
    _ ← verify_related_state Autocommit contract;
    mret contract
  end.

Definition find_by_idempotency_key (idempotency_key : pystr) : M (option RecoveryContract) :=
  row ← select Autocommit (select_blocking_by_key idempotency_key);
  match row with
  | None => mret None
  | Some (id, row) =>
    contract ← lift (decode_row id row);
    if negb (pystr_eqb (rc_idempotency_key contract) idempotency_key) then raise ContractIntegrityError else
    if negb (is_blocking_value (state_value (rc_state contract))) then raise ContractIntegrityError else
    _ ← verify_related_state Autocommit contract;
    mret (Some contract)
  end.

(** The loop of [find_historical_by_idempotency_key]. *)
Fixpoint verified_history (idempotency_key : pystr) (rows : list (pystr * contract_row))
    : M (list RecoveryContract) :=
  match rows with
  | [] => mret []
  | (id, row) :: rows =>
    contract ← lift (decode_row id row);
    if negb (pystr_eqb (rc_idempotency_key contract) idempotency_key) then raise ContractIntegrityError else
    _ ← verify_related_state Autocommit contract;
    contracts ← verified_history idempotency_key rows;
    mret (contract :: contracts)
  end.

Definition find_historical_by_idempotency_key (idempotency_key : pystr) : M (list RecoveryContract) :=
  rows ← select Autocommit (select_by_key idempotency_key);
  verified_history idempotency_key rows.

Fixpoint decode_rows (rows : list (pystr * contract_row)) : result (list RecoveryContract) :=
  match rows with
  | [] => Ok []
  | (id, row) :: rows => c ← decode_row id row; cs ← decode_rows rows; Ok (c :: cs)
  end.

Fixpoint verify_all (contracts : list RecoveryContract) : M () :=
  match contracts with
  | [] => mret ()
  | c :: cs => _ ← verify_related_state Autocommit c; verify_all cs
  end.

Definition all_contracts : M (list RecoveryContract) :=
  rows ← select Autocommit select_all_contracts;
  contracts ← lift (decode_rows rows);
  _ ← verify_all contracts;
  mret contracts.

Definition interrupted : M (list RecoveryContract) :=
  contracts ← all_contracts;
  mret (filter (λ c, in_states (rc_state c) INTERRUPTED_STATES = true) contracts).

Definition audit_events (contract_id : pystr) : M (list audit_event) :=
  row ← select Autocommit (select_contract contract_id);
  match row with
  | None => raise ContractNotFoundError
  | Some row =>
    contract ← lift (decode_row contract_id row);
    _ ← verify_reservation Autocommit contract;
    rows ← verified_audit_rows Autocommit contract;
    mret (map (λ r, {| ev_event_type := a_event_type r; ev_previous_state := a_previous_state r;
                       ev_current_state := a_current_state r; ev_state_version := a_state_version r;
                       ev_recorded_at := a_recorded_at r |}) rows)
  end.

(** The transaction of [_replace]: compare-and-set, reservation, audit. *)
Definition replace_body current updated (event_type : pystr) : M () :=
  row ← select InTransaction (select_contract (rc_contract_id current));
  match row with
  | None => raise ContractNotFoundError
  | Some row =>
    authoritative ← lift (decode_row (rc_contract_id current) row);
    _ ← verify_related_state InTransaction authoritative;
    if negb (state_eqb (rc_state authoritative) (rc_state current)) ||
       negb (rc_state_version authoritative =? rc_state_version current)%Z
    then raise ContractConflictError else
    _ ← (if in_states (rc_state updated) RESERVATION_STATES &&
            negb (in_states (rc_state current) RESERVATION_STATES) then
           execute_ (λ d, insert_reservation d (rc_target_identity_digest updated) (rc_contract_id updated))
         else if negb (in_states (rc_state updated) RESERVATION_STATES) &&
                 in_states (rc_state current) RESERVATION_STATES then
           execute_ (λ d, Ok (delete_reservation d (rc_contract_id updated)))
         else mret ());
    m ← lift (mac [contract_payload updated]);
    rowcount ← execute (λ d, update_contract d (rc_contract_id updated)
      (state_value (rc_state current)) (rc_state_version current)
      (state_value (rc_state updated)) (rc_state_version updated) (contract_payload updated) m);
    if negb (rowcount =? 1)%nat then raise ContractConflictError else
    _ ← insert_audit updated event_type (Some (rc_state current));
    _ ← match rate_policy cfg with
        | Some limits =>
          if is_cooldown_state (rc_state updated) then
            instant ← now_;
            execute_ (record_terminal limits (rc_target_identity_digest updated) instant)
          else mret ()
        | None => mret ()
        end;
    _ ← invoke_fault "after_record_write";
    invoke_fault "before_commit"
  end.

Definition replace_ current updated (event_type : pystr) : M RecoveryContract :=
  _ ← conflict_on_integrity_error
    (_ ← invoke_fault "before_transaction"; transaction (replace_body current updated event_type));
  _ ← invoke_fault "after_commit";
  mret updated.

(** [replace(current, ...)] for the fields the store changes, validated by
    the constructor. *)
Definition with_changes c (state : RecoveryState) (target_identity intent snapshot : ProtectedArtifact)
    (verified_target_fingerprint : option pystr) : RecoveryContract :=
  mk_RecoveryContract (rc_contract_id c) (rc_operation_id c) (rc_idempotency_key c)
    (rc_capability c) (rc_security_class c) (rc_endpoint_symbol c) (rc_http_method c)
    (rc_target_identity_digest c) (rc_target_fingerprint c) (rc_lifecycle_locator c)
    (rc_intent_digest c) (rc_snapshot_digest c) (rc_rollback_plan_version c) (rc_created_at c)
    (rc_expires_at c) state (rc_state_version c + 1)%Z target_identity intent snapshot
    (rc_authorization_provenance c) (rc_confirmation_digest c) (rc_confirmed_at c)
    verified_target_fingerprint.

Definition replace_state c (state : RecoveryState) (fingerprint : option pystr) : result RecoveryContract :=
  RecoveryContract_new (with_changes c state (rc_protected_target_identity c)
    (rc_protected_intent c) (rc_protected_snapshot c) fingerprint).

(** The transaction [transition] commits before it writes EXECUTING. *)
Definition execution_checks (policy : ExecutionSecurityPolicy) (instant : datetime) : M () :=
  _ ← match anti_rollback_anchor cfg with
      | Some anchor =>
        if participates_in_witness policy
        then before_executing_transition (integrity_key cfg) (store_id cfg) anchor
        else mret ()
      | None => mret ()
      end;
  match rate_policy cfg with
  | Some limits => select InTransaction (check_execute_allowed limits instant) ≫= lift
  | None => mret ()
  end.

(** The block of [transition] for [target_state == EXECUTING]. *)
Definition enter_executing current (instant : datetime) (policy : option ExecutionSecurityPolicy) : M () :=
  refused ← (if negb (is_confirmed current) then mret true else lift (is_expired current instant));
  if refused : bool then raise ContractConflictError else
  match policy with
  | None => raise ContractValidationError
  | Some policy =>
    match anti_rollback_anchor cfg, rate_policy cfg with
    | None, None => mret ()
    | _, _ => transaction (execution_checks policy instant)
    end
  end.

(** [transition]; [event_type] is the keyword with default
    ["state_transition"]. *)
Definition transition (contract_id : pystr) (expected_state : RecoveryState) (expected_version : Z)
    (target_state : RecoveryState) (execution_policy : option ExecutionSecurityPolicy)
    (event_type : pystr) : M RecoveryContract :=
  _ ← lift (require (negb (length event_type =? 0)%nat) ContractValidationError);
  _ ← lift (require_transition expected_state target_state false);
  if state_eqb target_state VERIFIED then raise ContractConflictError else
  if state_eqb target_state ROLLED_BACK then raise ContractConflictError else
  current ← load contract_id;
  if negb (state_eqb (rc_state current) expected_state) ||
     negb (rc_state_version current =? expected_version)%Z then raise ContractConflictError else
  instant ← now_;
  stale ← (if in_states (rc_state current) [PREPARING; PREPARED]
           then lift (is_expired current instant) else mret false);
  if stale && negb (state_eqb target_state EXPIRED) then raise ContractConflictError else
  _ ← (if state_eqb target_state EXECUTING then enter_executing current instant execution_policy else mret ());
  updated ← lift (replace_state current target_state (rc_verified_target_fingerprint current));
  replace_ current updated event_type.

Definition state_transition : pystr := u "state_transition".

(** [expire_prepared] *)
Definition expire_prepared (contract_id : pystr) (expected_version : Z) (now : datetime) : M RecoveryContract :=
  contract ← load contract_id;
  if negb (state_eqb (rc_state contract) PREPARED) then raise ContractConflictError else
  if is_confirmed contract then raise ContractConflictError else
  expired ← lift (is_expired contract now);
  if negb expired then raise ContractConflictError else
  if negb (rc_state_version contract =? expected_version)%Z then raise ContractConflictError else
  transition contract_id PREPARED expected_version EXPIRED None state_transition.

(** [try: verified = verifier.verify(evidence) except Exception: raise
    ConfirmationError] *)
Definition guarded_verify {A} (verifier : option (A → prog E bool)) (evidence : A) : M () :=
  match verifier with
  | None => raise ConfirmationError
  | Some verify =>
    verified ← catch (env_call (verify evidence)) (λ _, raise ConfirmationError);
    lift (require verified ConfirmationError)
  end.

(** [confirm] *)
Definition confirm (contract_id : pystr) (evidence : ConfirmationEvidence) (expected_version : Z)
    : M RecoveryContract :=
  current ← load contract_id;
  if negb (rc_state_version current =? expected_version)%Z then raise ContractConflictError else
  confirmed_at ← now_;
  expired ← lift (is_expired current confirmed_at);
  if expired : bool then raise ContractConflictError else
  _ ← lift (ce_verify_bindings evidence current);
  _ ← guarded_verify (confirmation_verifier cfg) evidence;
  evidence_digest ← lift (ce_evidence_digest evidence);
  confirmed ← lift (with_confirmation current (ce_authority_id evidence) evidence_digest confirmed_at);
  replace_ current confirmed (u "contract_confirmed").

Definition forward_outcomes : list ReconciliationOutcome := [CONFIRMED_APPLIED; CONFIRMED_NOT_APPLIED].
Definition rollback_outcomes : list ReconciliationOutcome :=
  [CONFIRMED_ROLLBACK_APPLIED; CONFIRMED_ROLLBACK_NOT_APPLIED].

(** [resolve_reconciliation] *)
Definition resolve_reconciliation (contract_id : pystr) (evidence : ReconciliationEvidence)
    : M RecoveryContract :=
  current ← load contract_id;
  if negb (state_eqb (rc_state current) RECONCILIATION) then raise ContractConflictError else
  events ← audit_events contract_id;
  let origin := match last events with Some e => ev_previous_state e | None => None end in
  let from s := opt_str_eqb origin (Some (state_value s)) in
  if (from EXECUTING && negb (bool_decide (re_outcome evidence ∈ forward_outcomes))) ||
     (from ROLLING_BACK && negb (bool_decide (re_outcome evidence ∈ rollback_outcomes)))
  then raise ConfirmationError else
  if negb (from EXECUTING || from ROLLING_BACK) then raise ConfirmationError else
  _ ← lift (re_verify_bindings evidence (rc_contract_id current) (rc_operation_id current)
              (rc_state_version current) (rc_lifecycle_locator current));
  _ ← guarded_verify (reconciliation_verifier cfg) evidence;
  let target_state := OUTCOME_TARGET_STATE (re_outcome evidence) in
  _ ← lift (require_transition (rc_state current) target_state true);
  updated ← lift (replace_state current target_state
    (if bool_decide (re_outcome evidence = CONFIRMED_APPLIED)
     then re_verified_target_fingerprint evidence else rc_verified_target_fingerprint current));
  replace_ current updated (u "reconciliation_resolved").

(** [rotate_artifacts] *)
Definition rotate_artifacts (contract_id : pystr) (expected_version : Z)
    (protected_target_identity protected_intent protected_snapshot : ProtectedArtifact)
    : M RecoveryContract :=
  current ← load contract_id;
  if negb (rc_state_version current =? expected_version)%Z then raise ContractConflictError else
  updated ← lift (RecoveryContract_new (with_changes current (rc_state current)
    protected_target_identity protected_intent protected_snapshot
    (rc_verified_target_fingerprint current)));
  replace_ current updated (u "artifacts_rotated").

(** [mark_execution_verified] *)
Definition mark_execution_verified (contract_id : pystr) (expected_version : Z)
    (verified_target_fingerprint : pystr) (verified_lifecycle_locator : Z) : M RecoveryContract :=
  current ← load contract_id;
  if negb (state_eqb (rc_state current) EXECUTING) ||
     negb (rc_state_version current =? expected_version)%Z then raise ContractConflictError else
  if negb (verified_lifecycle_locator =? rc_lifecycle_locator current)%Z
  then raise ContractConflictError else
  updated ← lift (replace_state current VERIFIED (Some verified_target_fingerprint));
  replace_ current updated state_transition.

(** [mark_rollback_verified] *)
Definition mark_rollback_verified (contract_id : pystr) (expected_version : Z)
    (verified_lifecycle_locator : Z) : M RecoveryContract :=
  current ← load contract_id;
  if negb (state_eqb (rc_state current) ROLLING_BACK) ||
     negb (rc_state_version current =? expected_version)%Z then raise ContractConflictError else
  if negb (verified_lifecycle_locator =? rc_lifecycle_locator current)%Z
  then raise ContractConflictError else
  updated ← lift (replace_state current ROLLED_BACK (rc_verified_target_fingerprint current));
  replace_ current updated state_transition.

(** [reconcile_interrupted] *)
Fixpoint reconcile_each (contracts : list RecoveryContract) : M (list RecoveryContract) :=
  match contracts with
  | [] => mret []
  | current :: contracts =>
    c ← transition (rc_contract_id current) (rc_state current) (rc_state_version current)
          RECONCILIATION None state_transition;
    cs ← reconcile_each contracts;
    mret (c :: cs)
  end.

Definition reconcile_interrupted : M (list RecoveryContract) :=
  contracts ← interrupted;
  reconcile_each contracts.

(** [provision_anchor_baseline]: the connection is in autocommit mode and
    no transaction is opened, so each [INSERT] commits by itself. *)
Definition provision_anchor_baseline (value : Z) (handle : pystr) : M () :=
  _ ← lift (require (negb (length handle =? 0)%nat) ContractValidationError);
  instant ← now_;
  let ours {A} (f : bytes → pystr → A) := f (integrity_key cfg) (store_id cfg) in
  _ ← execute_autocommit (other_writers cfg) (ours hwm_seed value);
  reread ← select Autocommit (ours hwm_read) ≫= lift;
  if negb (reread =? value)%Z then raise ContractIntegrityError else
  execute_autocommit (other_writers cfg) (ours mark_complete handle value (isoformat instant)).

Record AnchorProvisioningStatus : Type := {
  aps_seeded : bool; aps_baseline : option Z; aps_complete : bool;
  aps_handle : option json; aps_provisioned_at : option json }.

(** [anchor_provisioning_status], before the two [str] conversions. *)
Definition anchor_provisioning_status : M AnchorProvisioningStatus :=
  seeded ← select Autocommit hwm_is_seeded;
  baseline ← (if seeded : bool
              then b ← select Autocommit (hwm_read (integrity_key cfg) (store_id cfg)) ≫= lift;
                   mret (Some b)
              else mret None);
  marker ← select Autocommit (provisioning_read (integrity_key cfg) (store_id cfg)) ≫= lift;
  mret {| aps_seeded := seeded; aps_baseline := baseline;
          aps_complete := match marker with Some _ => true | None => false end;
          aps_handle := marker ≫= lookup_item (u "handle");
          aps_provisioned_at := marker ≫= lookup_item (u "provisioned_at") |}.
End store.
