(* ===== verification/StoreInv.v ===== *)
(** * The invariant of the store

    [rep d m] says that the tables [d] hold exactly the contracts [m], every
    one readable, with its reservation and its complete, legal audit trail,
    and that no two of them share an operation, a reserved target or a
    blocking idempotency key.  [evolves] is what any writer may do to the
    contracts; other processes are assumed to keep both (rely), and
    [StoreOps.v] shows that every operation does (guarantee). *)

From S2P Require Import Prelude PyStr Sha256 PyDatetime Json Capability StateMachine Canonical.
From S2P Require Import Contract Evidence StoreCodec Database RatePolicy AntiRollback Store.

(** ** Programs that returned *)

Section inversion.
Context {W : Type}.

Lemma bind_inv {A B} (p : prog W A) (f : A → prog W B) w b w' :
  (p ≫= f) w = (Ok b, w') → ∃ a w1, p w = (Ok a, w1) ∧ f a w1 = (Ok b, w').
Proof. unfold mbind, prog_bind. destruct (p w) as [[a|e] w1]; [eauto|done]. Qed.

Lemma lift_inv {A} (m : result A) (w : W) a w' : lift m w = (Ok a, w') → m = Ok a ∧ w' = w.
Proof. unfold lift. by intros [= -> ->]. Qed.

Lemma ret_inv {A} (a b : A) (w : W) w' : mret (M:=prog W) a w = (Ok b, w') → b = a ∧ w' = w.
Proof. by intros [= -> ->]. Qed.

Lemma catch_raise_inv {A} (m : prog W A) (f : exn → exn) w a w' :
  catch m (λ e, raise (f e)) w = (Ok a, w') → m w = (Ok a, w').
Proof. unfold catch, raise. by destruct (m w) as [[?|?] ?]. Qed.
End inversion.

(** Open a program that returned, one step after the other. *)
Ltac inv_prog :=
  repeat match goal with
  | H : mbind _ _ _ = (Ok _, _) |- _ =>
      let a := fresh "a" in let w := fresh "w" in let H' := fresh "Hp" in
      apply bind_inv in H; destruct H as (a & w & H' & H)
  | H : lift _ _ = (Ok _, _) |- _ => apply lift_inv in H; destruct H as [H ->]
  | H : mret _ _ = (Ok _, _) |- _ =>
      let Eq := fresh "Eq" in apply ret_inv in H; destruct H as [Eq ->]; try subst
  | H : raise _ _ = (Ok _, _) |- _ => discriminate H
  | H : (if ?b then _ else _) _ = (Ok _, _) |- _ => let E := fresh "E" in destruct b eqn:E
  | a : () |- _ => destruct a
  end.

Lemma opt_str_eqb_eq a b : opt_str_eqb a b = true ↔ a = b.
Proof. destruct a, b; simpl; rewrite ?pystr_eqb_eq; naive_solver. Qed.

Lemma in_states_eq s l : in_states s l = true ↔ s ∈ l.
Proof.
  unfold in_states. rewrite existsb_exists. split.
  - intros (x & Hx%list_elem_of_In & E). unfold state_eqb in E. by apply bool_decide_eq_true in E as <-.
  - intros Hs. exists s. split; [by apply list_elem_of_In|]. by apply bool_decide_eq_true.
Qed.

Lemma state_eqb_eq s t : state_eqb s t = true ↔ s = t.
Proof. apply bool_decide_eq_true. Qed.

Lemma state_eqb_refl s : state_eqb s s = true.
Proof. by apply state_eqb_eq. Qed.

Lemma is_blocking_value_state s :
  is_blocking_value (state_value s) = blocks_fresh_idempotency_attempt s.
Proof. by destruct s. Qed.

(** ** What never changes *)

Definition identity_of (c : RecoveryContract) :=
  (rc_contract_id c, rc_operation_id c, rc_idempotency_key c, rc_capability c, rc_security_class c,
   rc_endpoint_symbol c, rc_http_method c, rc_target_identity_digest c, rc_target_fingerprint c,
   rc_lifecycle_locator c, rc_intent_digest c, rc_snapshot_digest c, rc_rollback_plan_version c,
   rc_created_at c, rc_expires_at c, rc_authorization_provenance c).

Definition reach (s t : RecoveryState) : Prop := rtc (λ s t, s = t ∨ edge true s t) s t.

(** A later form of a contract. *)
Definition advanced (c c' : RecoveryContract) : Prop :=
  identity_of c = identity_of c' ∧ reach (rc_state c) (rc_state c') ∧
  (c' = c ∨ (rc_state_version c < rc_state_version c')%Z).

Definition evolves (m m' : gmap pystr RecoveryContract) : Prop :=
  ∀ id c, m !! id = Some c → ∃ c', m' !! id = Some c' ∧ advanced c c'.

(** One step of a contract: what [_replace] is given. *)
Definition successor (c c' : RecoveryContract) : Prop :=
  identity_of c = identity_of c' ∧ rc_state_version c' = (rc_state_version c + 1)%Z ∧
  (rc_state c = rc_state c' ∨ edge true (rc_state c) (rc_state c')).

#[global] Instance advanced_preorder : PreOrder advanced.
Proof.
  split.
  - intros c. split; [done|]. split; [apply rtc_refl|]. by left.
  - intros c1 c2 c3 (I1 & R1 & V1) (I2 & R2 & V2). split; [congruence|]. split; [unfold reach in *; by etrans|].
    destruct V1 as [->|V1], V2 as [->|V2]; [by left|by right|by right|right; lia].
Qed.

#[global] Instance evolves_preorder : PreOrder evolves.
Proof.
  split.
  - intros m id c Hc. exists c. split; [done|]. reflexivity.
  - intros m1 m2 m3 H12 H23 id c Hc. destruct (H12 id c Hc) as (c2 & Hc2 & A1).
    destruct (H23 id c2 Hc2) as (c3 & Hc3 & A2). exists c3. split; [done|]. by etrans.
Qed.

Lemma successor_advanced c c' : successor c c' → advanced c c'.
Proof.
  intros (Hi & Hv & Hs). split; [done|]. split; [|right; lia]. by apply rtc_once.
Qed.

Lemma evolves_insert m id c c' :
  m !! id = Some c → successor c c' → evolves m (<[id := c']> m).
Proof.
  intros Hc Hs k x Hx. destruct (decide (k = id)) as [->|Hk].
  - exists c'. rewrite lookup_insert_eq. split; [done|]. simplify_eq. by apply successor_advanced.
  - exists x. rewrite lookup_insert_ne by done. split; [done|]. reflexivity.
Qed.

Lemma evolves_new m id c : m !! id = None → evolves m (<[id := c]> m).
Proof.
  intros Hn k x Hx. exists x. rewrite lookup_insert_ne by congruence. split; [done|]. reflexivity.
Qed.

Lemma identity_fields c c' : identity_of c = identity_of c' →
  rc_contract_id c = rc_contract_id c' ∧ rc_operation_id c = rc_operation_id c' ∧
  rc_idempotency_key c = rc_idempotency_key c' ∧
  rc_target_identity_digest c = rc_target_identity_digest c' ∧
  rc_lifecycle_locator c = rc_lifecycle_locator c'.
Proof. unfold identity_of. intros E. by injection E as -> -> -> _ _ _ _ -> _ -> _ _ _ _ _ _. Qed.

(** ** The invariant *)

Section invariant.
Context `{Hash} `{UnicodeData} {E : Type} (cfg : Config E).

Definition reserved (c : RecoveryContract) : bool := in_states (rc_state c) RESERVATION_STATES.
Definition reserved_target (c : RecoveryContract) : option pystr :=
  if reserved c then Some (rc_target_identity_digest c) else None.
Definition blocking (c : RecoveryContract) : bool := blocks_fresh_idempotency_attempt (rc_state c).

(** An audit row records the creation or one legal step. *)
Definition legal_event (r : audit_row) : Prop :=
  match a_previous_state r with
  | None => a_current_state r = state_value PREPARING ∧ a_state_version r = 0%Z
  | Some p => ∃ s t, p = state_value s ∧ a_current_state r = state_value t ∧ (s = t ∨ edge true s t)
  end.

Record rep (d : DB) (m : gmap pystr RecoveryContract) : Prop := {
  rep_rows : ∀ id, match t_contracts d !! id, m !! id with
    | Some row, Some c => ∃ tag, mac cfg [contract_payload c] = Ok tag ∧ row = row_of c tag
    | None, None => True
    | _, _ => False
    end;
  rep_wf : ∀ id c, m !! id = Some c → rc_contract_id c = id ∧ wf_contract c;
  rep_reservations : ∀ id, t_target_reservations d !! id = m !! id ≫= reserved_target;
  rep_targets : ∀ id id' c c', m !! id = Some c → m !! id' = Some c' →
    reserved c = true → reserved c' = true →
    rc_target_identity_digest c = rc_target_identity_digest c' → id = id';
  rep_audit : ∀ id c, m !! id = Some c →
    check_audit_rows cfg c (events_of id d) = Ok () ∧ Forall legal_event (events_of id d);
  rep_audit_owned : ∀ r, r ∈ t_audit_events d → is_Some (m !! a_contract_id r);
  rep_keys : ∀ id id' c c', m !! id = Some c → m !! id' = Some c' →
    blocking c = true → blocking c' = true → rc_idempotency_key c = rc_idempotency_key c' → id = id';
  rep_operations : ∀ id id' c c', m !! id = Some c → m !! id' = Some c' →
    rc_operation_id c = rc_operation_id c' → id = id';
}.

Lemma rep_empty : rep empty_db ∅.
Proof.
  split; try done; intros; try (by rewrite lookup_empty in * ); set_solver.
Qed.

(** The invariant reads three of the five tables. *)
Definition same_tables (d d' : DB) : Prop :=
  t_contracts d' = t_contracts d ∧ t_target_reservations d' = t_target_reservations d ∧
  t_audit_events d' = t_audit_events d.

Lemma rep_same_tables d d' m : rep d m → same_tables d d' → rep d' m.
Proof.
  intros [] (E1 & E2 & E3). split; try done; unfold events_of; rewrite ?E1, ?E2, ?E3; done.
Qed.

Lemma rep_row d m id c : rep d m → m !! id = Some c →
  ∃ tag, mac cfg [contract_payload c] = Ok tag ∧ t_contracts d !! id = Some (row_of c tag).
Proof.
  intros Hr Hc. pose proof (rep_rows _ _ Hr id) as Hrow. rewrite Hc in Hrow.
  destruct (t_contracts d !! id) as [row|]; [|done]. destruct Hrow as (tag & Ht & ->). eauto.
Qed.

Lemma rep_row_inv d m id row : rep d m → t_contracts d !! id = Some row →
  ∃ c tag, m !! id = Some c ∧ mac cfg [contract_payload c] = Ok tag ∧ row = row_of c tag.
Proof.
  intros Hr Hrow. pose proof (rep_rows _ _ Hr id) as H'. rewrite Hrow in H'.
  destruct (m !! id) as [c|]; [|done]. destruct H' as (tag & Ht & ->). eauto.
Qed.

Lemma rep_none d m id : rep d m → t_contracts d !! id = None ↔ m !! id = None.
Proof.
  intros Hr. pose proof (rep_rows _ _ Hr id) as H'.
  by destruct (t_contracts d !! id), (m !! id).
Qed.

(** ** Reading back *)

Lemma mac_ascii components tag : mac cfg components = Ok tag → is_ascii tag = true.
Proof. unfold mac. intros (m & _ & [= <-])%bind_Ok. apply match_hex64_ascii, hmac_hex_match. Qed.

Lemma decode_row_of c tag :
  wf_contract c → mac cfg [contract_payload c] = Ok tag → decode_row cfg (rc_contract_id c) (row_of c tag) = Ok c.
Proof.
  intros Hc Ht. unfold decode_row. cbn [row_of r_payload r_mac]. rewrite Ht. cbn [mbind result_bind].
  rewrite authentic_refl by (by eapply mac_ascii). cbn [mbind result_bind].
  rewrite contract_payload_read by done. cbn [mbind result_bind row_of r_operation_id r_idempotency_key
    r_target_identity_digest r_state r_state_version].
  by rewrite !pystr_eqb_refl, Z.eqb_refl.
Qed.

Lemma rep_decode d m id row : rep d m → t_contracts d !! id = Some row →
  ∃ c, m !! id = Some c ∧ decode_row cfg id row = Ok c.
Proof.
  intros Hr Hrow. destruct (rep_row_inv _ _ _ _ Hr Hrow) as (c & tag & Hc & Ht & ->).
  exists c. split; [done|]. destruct (rep_wf _ _ Hr id c Hc) as [<- Hwf]. by apply decode_row_of.
Qed.

(** ** Audit trails *)

Lemma check_event_id c c' v p r :
  rc_contract_id c = rc_contract_id c' → check_event cfg c v p r = check_event cfg c' v p r.
Proof. intros E'. unfold check_event. by rewrite E'. Qed.

Lemma audit_loop_id c c' rows v p :
  rc_contract_id c = rc_contract_id c' → audit_loop cfg c rows v p = audit_loop cfg c' rows v p.
Proof.
  intros E'. revert v p. induction rows as [|r rows IH]; intros v p; [done|]. cbn [audit_loop].
  rewrite (check_event_id c c') by done. destruct (check_event cfg c' v p r); [|done]. apply IH.
Qed.

Lemma audit_loop_snoc c rows r v p :
  audit_loop cfg c (rows ++ [r]) v p =
    q ← audit_loop cfg c rows v p;
    x ← check_event cfg c (v + Z.of_nat (length rows)) q r; Ok (Some x).
Proof.
  revert v p. induction rows as [|r' rows IH]; intros v p.
  - cbn [app audit_loop length mbind result_bind]. by rewrite Z.add_0_r.
  - cbn [app audit_loop length]. destruct (check_event cfg c v p r') as [x|e]; [|done].
    cbn [mbind result_bind]. rewrite IH.
    replace (v + 1 + Z.of_nat (length rows))%Z with (v + Z.of_nat (S (length rows)))%Z by lia. done.
Qed.

Lemma check_event_version c v p r x : check_event cfg c v p r = Ok x → a_state_version r = v.
Proof.
  unfold check_event. rewrite require_bind, andb_true_iff, Z.eqb_eq. by intros [[_ ->] _].
Qed.

Lemma audit_loop_sorted c rows v p q :
  audit_loop cfg c rows v p = Ok q → foldr insert_event [] rows = rows ∧
    (∀ r, r ∈ rows → v <= a_state_version r < v + Z.of_nat (length rows))%Z.
Proof.
  revert v p. induction rows as [|r rows IH]; intros v p Hl; [by split; [|intros ? ?%elem_of_nil]|].
  cbn [audit_loop] in Hl. apply bind_Ok in Hl as (x & Hx%check_event_version & Hl).
  destruct (IH _ _ Hl) as [Hs Hv]. split.
  - cbn [foldr]. rewrite Hs. destruct rows as [|r' rows]; [done|]. cbn [insert_event].
    rewrite (proj2 (Z.leb_le _ _)); [done|]. specialize (Hv r' ltac:(left)). lia.
  - intros r' [->|Hr']%elem_of_cons; cbn [length]; [lia|]. specialize (Hv r' Hr'). lia.
Qed.

Lemma check_audit_rows_inv c rows : check_audit_rows cfg c rows = Ok () →
  Z.of_nat (length rows) = (rc_state_version c + 1)%Z ∧
  audit_loop cfg c rows 0 None = Ok (Some (state_value (rc_state c))).
Proof.
  unfold check_audit_rows. rewrite require_bind, Z.eqb_eq, bind_Ok.
  intros (Hl & q & Hq & Hr%require_Ok%opt_str_eqb_eq). by subst.
Qed.

Lemma check_audit_rows_intro c rows :
  Z.of_nat (length rows) = (rc_state_version c + 1)%Z →
  audit_loop cfg c rows 0 None = Ok (Some (state_value (rc_state c))) →
  check_audit_rows cfg c rows = Ok ().
Proof.
  intros Hl Hq. unfold check_audit_rows. rewrite require_bind, Z.eqb_eq, Hq. split; [done|].
  cbn [mbind result_bind]. by rewrite (proj2 (opt_str_eqb_eq _ _)).
Qed.

(** What the reader's loop accepted. *)
Lemma trail_shape_from c rows v p q :
  audit_loop cfg c rows v p = Ok q →
  (∀ i row, rows !! i = Some row → a_state_version row = (v + Z.of_nat i)%Z) ∧
  (v ≠ 0%Z → ∀ row, rows !! 0%nat = Some row → a_previous_state row = p) ∧
  (v = 0%Z → ∀ row, rows !! 0%nat = Some row → a_previous_state row = None) ∧
  (0 <= v → ∀ i row row', rows !! i = Some row → rows !! S i = Some row' →
    a_previous_state row' = Some (a_current_state row))%Z ∧
  ((rows = [] ∧ q = p) ∨ ∃ row, last rows = Some row ∧ q = Some (a_current_state row)).
Proof.
  revert v p. induction rows as [|r rows IH]; intros v p Hl.
  { injection Hl as <-. split_and!; try done. by left. }
  cbn [audit_loop] in Hl. apply bind_Ok in Hl as (x & Hx & Hl).
  destruct (IH _ _ Hl) as (I1 & I2 & I3 & I4 & I5). clear IH.
  assert (a_state_version r = v ∧ x = a_current_state r ∧
    (if (v =? 0)%Z then a_previous_state r = None else a_previous_state r = p)) as (Hv & -> & Hp).
  { split; [by eapply check_event_version|]. unfold check_event in Hx. rewrite !require_bind in Hx.
    destruct Hx as (_ & Hp & (rec & _ & Hx)%bind_Ok). rewrite require_bind in Hx.
    destruct Hx as (_ & (t & _ & (? & _ & [= <-])%bind_Ok)%bind_Ok).
    split; [done|]. destruct (v =? 0)%Z.
    - apply andb_true_iff in Hp as [_ Hp]. by destruct (a_previous_state r).
    - by apply opt_str_eqb_eq. }
  split_and!.
  - intros [|i] row Hi; simpl in Hi; [injection Hi as <-; lia|]. rewrite (I1 i row Hi). lia.
  - intros Hne row [= <-]. by destruct (Z.eqb_spec v 0).
  - intros -> row [= <-]. done.
  - intros Hpos [|i] row row' Hi Hi'; simpl in Hi, Hi'.
    + injection Hi as <-. apply I2; [lia|done].
    + apply (I4 ltac:(lia) i); done.
  - right. destruct I5 as [[-> ->]|(row & Hlast & ->)]; [by exists r|]. exists row. split; [|done].
    by rewrite last_cons, Hlast.
Qed.

Lemma trail_shape c rows v q :
  v = 0%Z → audit_loop cfg c rows v None = Ok q →
  (∀ i row, rows !! i = Some row → a_state_version row = Z.of_nat i) ∧
  (∀ row, rows !! 0%nat = Some row → a_previous_state row = None) ∧
  (∀ i row row', rows !! i = Some row → rows !! S i = Some row' →
    a_previous_state row' = Some (a_current_state row)) ∧
  ((rows = [] ∧ q = None) ∨ ∃ row, last rows = Some row ∧ q = Some (a_current_state row)).
Proof.
  intros -> (I1 & _ & I3 & I4 & I5)%trail_shape_from. split_and!; [|by apply I3|by apply I4|done].
  intros i row Hi. by rewrite (I1 i row Hi).
Qed.

Lemma rep_select_audit d m id c : rep d m → m !! id = Some c → select_audit id d = events_of id d.
Proof.
  intros Hr Hc. destruct (rep_audit _ _ Hr id c Hc) as [[_ Hl]%check_audit_rows_inv _].
  by apply audit_loop_sorted in Hl as [? _].
Qed.
End invariant.

(** ** The constraints, as propositions *)

Lemma row_allowed_spec d id r :
  row_allowed d id r = true ↔
  ∀ id' r', t_contracts d !! id' = Some r' → id' ≠ id →
    r_operation_id r ≠ r_operation_id r' ∧
    (is_blocking_value (r_state r) = true → is_blocking_value (r_state r') = true →
     r_idempotency_key r ≠ r_idempotency_key r').
Proof.
  unfold row_allowed. rewrite forallb_elem_of. split.
  - intros Hall id' r' Hr Hne. specialize (Hall (id', r')).
    rewrite elem_of_map_to_list in Hall. specialize (Hall Hr). unfold row_conflicts in Hall. simpl in Hall.
    rewrite (proj2 (pystr_eqb_neq _ _)) in Hall by congruence. simpl in Hall.
    rewrite negb_true_iff, orb_false_iff, pystr_eqb_neq in Hall. destruct Hall as [Ho Hk].
    split; [done|]. intros B1 B2. rewrite B1, B2 in Hk. by apply pystr_eqb_neq.
  - intros Hall [id' r'] Hin%elem_of_map_to_list. unfold row_conflicts. simpl.
    destruct (pystr_eqb id id') eqn:E; [done|]. apply pystr_eqb_neq in E. simpl.
    destruct (Hall id' r' Hin ltac:(congruence)) as [Ho Hk].
    rewrite negb_true_iff, orb_false_iff, pystr_eqb_neq. split; [done|].
    destruct (is_blocking_value (r_state r)), (is_blocking_value (r_state r')); try done.
    apply pystr_eqb_neq. auto.
Qed.

Lemma reserved_elsewhere_false d target :
  reserved_elsewhere d target = false ↔ ∀ id, t_target_reservations d !! id ≠ Some target.
Proof.
  unfold reserved_elsewhere. rewrite <-not_true_iff_false, existsb_exists. split.
  - intros Hn id Hid. apply Hn. exists (id, target). rewrite <-list_elem_of_In, elem_of_map_to_list.
    split; [done|]. apply pystr_eqb_refl.
  - intros Hall ([id t] & Hin & Heq). rewrite <-list_elem_of_In, elem_of_map_to_list in Hin.
    simpl in Heq. apply pystr_eqb_eq in Heq as <-. by apply (Hall id).
Qed.

Lemma events_of_audit id d d' rows :
  t_audit_events d' = t_audit_events d ++ rows → events_of id d' =
    events_of id d ++ filter (λ r, pystr_eqb (a_contract_id r) id = true) rows.
Proof. unfold events_of. intros ->. by rewrite filter_app. Qed.

(** ** One contract changes *)

Section change.
Context `{Hash} `{UnicodeData} {E : Type} (cfg : Config E).
Implicit Types (d : DB) (m : gmap pystr RecoveryContract).

(** The effect of [_replace]'s statements on the tables the invariant
    reads. *)
Record replaced (d d' : DB) (cur upd : RecoveryContract) (tag : pystr) (row : audit_row) : Prop := {
  rpl_contracts : t_contracts d' = <[rc_contract_id upd := row_of upd tag]> (t_contracts d);
  rpl_allowed : row_allowed d (rc_contract_id upd) (row_of upd tag) = true;
  rpl_reservations : ∀ id, t_target_reservations d' !! id =
    if decide (id = rc_contract_id upd) then reserved_target upd else t_target_reservations d !! id;
  rpl_free : reserved cur = false → reserved upd = true →
    reserved_elsewhere d (rc_target_identity_digest upd) = false;
  rpl_audit : t_audit_events d' = t_audit_events d ++ [row];
  rpl_owner : a_contract_id row = rc_contract_id upd;
  rpl_event : check_event cfg upd (rc_state_version upd) (Some (state_value (rc_state cur))) row =
    Ok (state_value (rc_state upd));
  rpl_legal : legal_event row;
}.

Lemma check_audit_snoc cur upd rows row :
  check_audit_rows cfg cur rows = Ok () → rc_contract_id cur = rc_contract_id upd →
  rc_state_version upd = (rc_state_version cur + 1)%Z →
  check_event cfg upd (rc_state_version upd) (Some (state_value (rc_state cur))) row =
    Ok (state_value (rc_state upd)) →
  check_audit_rows cfg upd (rows ++ [row]) = Ok ().
Proof.
  intros [Hl Hq]%check_audit_rows_inv Hid Hv He. apply check_audit_rows_intro.
  - rewrite length_app. simpl. lia.
  - rewrite audit_loop_snoc, (audit_loop_id _ upd cur) by done. rewrite Hq. cbn [mbind result_bind].
    replace (0 + Z.of_nat (length rows))%Z with (rc_state_version upd) by lia. by rewrite He.
Qed.

Lemma reserved_lookup d m id t :
  rep cfg d m → t_target_reservations d !! id = Some t ↔
    ∃ c, m !! id = Some c ∧ reserved c = true ∧ rc_target_identity_digest c = t.
Proof.
  intros Hr. rewrite (rep_reservations _ _ _ Hr). unfold reserved_target. split.
  - intros (c & Hc & Ht)%bind_Some. destruct (reserved c) eqn:Eq; [|done]. injection Ht as <-. eauto.
  - intros (c & -> & Eq & <-). simpl. by rewrite Eq.
Qed.

Lemma filter_other id row :
  a_contract_id row ≠ id → filter (λ r, pystr_eqb (a_contract_id r) id = true) [row] = [].
Proof. intros Hne. rewrite filter_cons_False; [done|]. by rewrite pystr_eqb_eq. Qed.

Lemma filter_own id row :
  a_contract_id row = id → filter (λ r, pystr_eqb (a_contract_id r) id = true) [row] = [row].
Proof. intros <-. rewrite filter_cons_True; [done|]. apply pystr_eqb_refl. Qed.

Lemma rep_replaced d d' m cur upd tag row :
  rep cfg d m → m !! rc_contract_id cur = Some cur → successor cur upd → wf_contract upd →
  mac cfg [contract_payload upd] = Ok tag → replaced d d' cur upd tag row →
  rep cfg d' (<[rc_contract_id upd := upd]> m).
Proof.
  intros Hr Hcur (Hid & Hv & Hst) Hwf Htag Hd. pose proof (identity_fields _ _ Hid) as (E1 & E2 & E3 & E4 & _).
  assert (Hcur' : m !! rc_contract_id upd = Some cur) by (by rewrite <-E1).
  pose proof (proj1 (row_allowed_spec _ _ _) (rpl_allowed _ _ _ _ _ _ Hd)) as Hallow.
  assert (Hother : ∀ id c, m !! id = Some c → id ≠ rc_contract_id upd →
    rc_operation_id upd ≠ rc_operation_id c ∧
    (blocking upd = true → blocking c = true → rc_idempotency_key upd ≠ rc_idempotency_key c)).
  { intros id c Hc Hne. destruct (rep_row _ _ _ _ _ Hr Hc) as (t & _ & Hrow).
    destruct (Hallow _ _ Hrow Hne) as [Ho Hk]. cbn [row_of r_operation_id r_idempotency_key r_state] in *.
    rewrite !is_blocking_value_state in Hk. done. }
  assert (Hfree : ∀ id c, m !! id = Some c → id ≠ rc_contract_id upd → reserved c = true →
    reserved upd = true → rc_target_identity_digest upd ≠ rc_target_identity_digest c).
  { intros id c Hc Hne Hres Hupd Heq. destruct (reserved cur) eqn:Ecur.
    - apply Hne. apply (rep_targets _ _ _ Hr id (rc_contract_id upd) c cur); congruence.
    - pose proof (proj1 (reserved_elsewhere_false _ _) (rpl_free _ _ _ _ _ _ Hd Ecur Hupd) id) as Hn.
      apply Hn. apply (reserved_lookup _ _ _ _ Hr). eauto. }
  split.
  - intros id. rewrite (rpl_contracts _ _ _ _ _ _ Hd). destruct (decide (id = rc_contract_id upd)) as [->|Hne].
    + rewrite !lookup_insert_eq. eauto.
    + rewrite !lookup_insert_ne by done. apply (rep_rows _ _ _ Hr).
  - intros id c [[<- <-]|[Hne Hc]]%lookup_insert_Some; [done|]. by apply (rep_wf _ _ _ Hr).
  - intros id. rewrite (rpl_reservations _ _ _ _ _ _ Hd). case_decide as Hne.
    + subst. by rewrite lookup_insert_eq.
    + rewrite lookup_insert_ne by done. apply (rep_reservations _ _ _ Hr).
  - intros id id' c c' [[<- <-]|[Hne Hc]]%lookup_insert_Some [[<- <-]|[Hne' Hc']]%lookup_insert_Some R R' Ht.
    + done.
    + exfalso. by apply (Hfree id' c').
    + exfalso. by apply (Hfree id c).
    + by apply (rep_targets _ _ _ Hr id id' c c').
  - intros id c [[<- <-]|[Hne Hc]]%lookup_insert_Some; rewrite (events_of_audit _ _ _ _ (rpl_audit _ _ _ _ _ _ Hd)).
    + destruct (rep_audit _ _ _ Hr _ _ Hcur') as [Ha Hl]. rewrite filter_own by apply Hd. split.
      * eapply check_audit_snoc; [exact Ha|done|done|apply Hd].
      * apply Forall_app. split; [done|]. constructor; [apply Hd|constructor].
    + rewrite filter_other by (by rewrite (rpl_owner _ _ _ _ _ _ Hd)). rewrite app_nil_r.
      by apply (rep_audit _ _ _ Hr).
  - intros r. rewrite (rpl_audit _ _ _ _ _ _ Hd), elem_of_app, list_elem_of_singleton. intros [Hin| ->].
    + destruct (rep_audit_owned _ _ _ Hr r Hin) as [c Hc].
      destruct (decide (a_contract_id r = rc_contract_id upd)) as [->|Hne].
      * rewrite lookup_insert_eq. by eexists.
      * rewrite lookup_insert_ne by done. by eexists.
    + rewrite (rpl_owner _ _ _ _ _ _ Hd), lookup_insert_eq. by eexists.
  - intros id id' c c' [[<- <-]|[Hne Hc]]%lookup_insert_Some [[<- <-]|[Hne' Hc']]%lookup_insert_Some B B' Hk.
    + done.
    + exfalso. by apply (proj2 (Hother id' c' Hc' ltac:(congruence))).
    + exfalso. by apply (proj2 (Hother id c Hc ltac:(congruence))).
    + by apply (rep_keys _ _ _ Hr id id' c c').
  - intros id id' c c' [[<- <-]|[Hne Hc]]%lookup_insert_Some [[<- <-]|[Hne' Hc']]%lookup_insert_Some Ho.
    + done.
    + exfalso. by apply (proj1 (Hother id' c' Hc' ltac:(congruence))).
    + exfalso. by apply (proj1 (Hother id c Hc ltac:(congruence))).
    + by apply (rep_operations _ _ _ Hr id id' c c').
Qed.

(** The effect of [create]'s statements. *)
Record created (d d' : DB) (c : RecoveryContract) (tag : pystr) (row : audit_row) : Prop := {
  crt_fresh : t_contracts d !! rc_contract_id c = None;
  crt_contracts : t_contracts d' = <[rc_contract_id c := row_of c tag]> (t_contracts d);
  crt_allowed : row_allowed d (rc_contract_id c) (row_of c tag) = true;
  crt_reservations : t_target_reservations d' = t_target_reservations d;
  crt_audit : t_audit_events d' = t_audit_events d ++ [row];
  crt_owner : a_contract_id row = rc_contract_id c;
  crt_event : check_event cfg c 0 None row = Ok (state_value (rc_state c));
  crt_legal : legal_event row;
}.

Lemma rep_events_fresh d m id : rep cfg d m → m !! id = None → events_of id d = [].
Proof.
  intros Hr Hn. destruct (events_of id d) as [|r l] eqn:Ev; [done|].
  assert (r ∈ events_of id d) as Hin by (rewrite Ev; left). unfold events_of in Hin.
  apply list_elem_of_filter in Hin as [Hid%pystr_eqb_eq Hin].
  destruct (rep_audit_owned _ _ _ Hr r Hin) as [c Hc]. congruence.
Qed.

Lemma rep_created d d' m c tag row :
  rep cfg d m → rc_state c = PREPARING → rc_state_version c = 0%Z → wf_contract c →
  mac cfg [contract_payload c] = Ok tag → created d d' c tag row →
  rep cfg d' (<[rc_contract_id c := c]> m) ∧ m !! rc_contract_id c = None.
Proof.
  intros Hr Hs Hv Hwf Htag Hd. pose proof (proj1 (rep_none _ _ _ _ Hr) (crt_fresh _ _ _ _ _ Hd)) as Hn.
  split; [|done].
  assert (reserved c = false) as Hres by (unfold reserved; by rewrite Hs).
  pose proof (proj1 (row_allowed_spec _ _ _) (crt_allowed _ _ _ _ _ Hd)) as Hallow.
  assert (Hother : ∀ id c', m !! id = Some c' → id ≠ rc_contract_id c →
    rc_operation_id c ≠ rc_operation_id c' ∧
    (blocking c = true → blocking c' = true → rc_idempotency_key c ≠ rc_idempotency_key c')).
  { intros id c' Hc Hne. destruct (rep_row _ _ _ _ _ Hr Hc) as (t & _ & Hrow).
    destruct (Hallow _ _ Hrow Hne) as [Ho Hk]. cbn [row_of r_operation_id r_idempotency_key r_state] in *.
    rewrite !is_blocking_value_state in Hk. done. }
  split.
  - intros id. rewrite (crt_contracts _ _ _ _ _ Hd). destruct (decide (id = rc_contract_id c)) as [->|Hne].
    + rewrite !lookup_insert_eq. eauto.
    + rewrite !lookup_insert_ne by done. apply (rep_rows _ _ _ Hr).
  - intros id x [[<- <-]|[Hne Hc]]%lookup_insert_Some; [done|]. by apply (rep_wf _ _ _ Hr).
  - intros id. rewrite (crt_reservations _ _ _ _ _ Hd), (rep_reservations _ _ _ Hr).
    destruct (decide (id = rc_contract_id c)) as [->|Hne].
    + rewrite lookup_insert_eq, Hn. cbn [mbind option_bind]. unfold reserved_target. by rewrite Hres.
    + by rewrite lookup_insert_ne by done.
  - intros id id' x x' [[<- <-]|[Hne Hc]]%lookup_insert_Some [[<- <-]|[Hne' Hc']]%lookup_insert_Some R R' Ht;
      [done|congruence|congruence|]. by apply (rep_targets _ _ _ Hr id id' x x').
  - intros id x [[<- <-]|[Hne Hc]]%lookup_insert_Some; rewrite (events_of_audit _ _ _ _ (crt_audit _ _ _ _ _ Hd)).
    + rewrite (rep_events_fresh _ _ _ Hr Hn), filter_own by apply Hd. cbn [app]. split.
      * apply check_audit_rows_intro; [by rewrite Hv|]. cbn [audit_loop].
        by rewrite (crt_event _ _ _ _ _ Hd).
      * constructor; [apply Hd|constructor].
    + rewrite filter_other by (by rewrite (crt_owner _ _ _ _ _ Hd)). rewrite app_nil_r.
      by apply (rep_audit _ _ _ Hr).
  - intros r. rewrite (crt_audit _ _ _ _ _ Hd), elem_of_app, list_elem_of_singleton. intros [Hin| ->].
    + destruct (rep_audit_owned _ _ _ Hr r Hin) as [x Hx].
      destruct (decide (a_contract_id r = rc_contract_id c)) as [->|Hne].
      * rewrite lookup_insert_eq. by eexists.
      * rewrite lookup_insert_ne by done. by eexists.
    + rewrite (crt_owner _ _ _ _ _ Hd), lookup_insert_eq. by eexists.
  - intros id id' x x' [[<- <-]|[Hne Hc]]%lookup_insert_Some [[<- <-]|[Hne' Hc']]%lookup_insert_Some B B' Hk.
    + done.
    + exfalso. by apply (proj2 (Hother id' x' Hc' ltac:(congruence))).
    + exfalso. by apply (proj2 (Hother id x Hc ltac:(congruence))).
    + by apply (rep_keys _ _ _ Hr id id' x x').
  - intros id id' x x' [[<- <-]|[Hne Hc]]%lookup_insert_Some [[<- <-]|[Hne' Hc']]%lookup_insert_Some Ho.
    + done.
    + exfalso. by apply (proj1 (Hother id' x' Hc' ltac:(congruence))).
    + exfalso. by apply (proj1 (Hother id x Hc ltac:(congruence))).
    + by apply (rep_operations _ _ _ Hr id id' x x').
Qed.
End change.
