(* ===== verification/StoreOps.v ===== *)
(** * Every operation of the store keeps its invariant

    A small program logic over [rep] ([holds]: from tables that hold the
    contracts [m], the program ends in tables that hold an evolution [m'] of
    [m], whatever other processes do in between and whether it returns or
    raises), the two writing transactions, and the specification of each
    public method. *)

From S2P Require Import Prelude PyStr Sha256 PyDatetime Json Capability StateMachine Canonical.
From S2P Require Import Contract Evidence StoreCodec Database RatePolicy AntiRollback Store.
From S2P Require Import StoreInv.

(** Python's [datetime] objects are valid calendar times. *)
Definition clock_valid {E} (cfg : Config E) : Prop := ∀ e, dt_valid (fst (clock cfg e)) = true.

(** Other processes run this program (or do nothing): they keep the
    invariant and only move contracts forward. *)
Definition others_behave `{Hash} `{UnicodeData} {E} (cfg : Config E) : Prop :=
  ∀ e d m, rep cfg d m → ∃ m', rep cfg (fst (other_writers cfg e d)) m' ∧ evolves m m'.

Section bodies.
Context `{Hash} `{UnicodeData} {E : Type} (cfg : Config E).
Context (Hclock : clock_valid cfg).
Implicit Types (w : World E) (c cur upd : RecoveryContract).

Lemma now_inv w t w' : now_ cfg w = (Ok t, w') → db w' = db w ∧ is_utc t = true ∧ dt_valid t = true.
Proof.
  unfold now_. pose proof (Hclock (env w)) as Hv. destruct (clock cfg (env w)) as [i e]. simpl in Hv.
  destruct (is_utc i) eqn:Hu; [|done]. by intros [= -> <-].
Qed.

Lemma env_call_inv {A} (p : prog E A) w r w' : env_call p w = (r, w') → db w' = db w.
Proof. unfold env_call. destruct (p (env w)). by intros [= <- <-]. Qed.

Lemma invoke_fault_inv pt w r w' : invoke_fault cfg pt w = (r, w') → db w' = db w.
Proof.
  unfold invoke_fault. destruct (fault_hook cfg); [apply env_call_inv|]. by intros [= <- <-].
Qed.

Lemma select_tx_inv {A} (f : DB → A) w a w' :
  select (other_writers cfg) InTransaction f w = (Ok a, w') → a = f (db w) ∧ w' = w.
Proof. unfold select. by intros [= <- <-]. Qed.

Lemma execute_inv {A} (f : DB → result (A * DB)) w a w' :
  execute f w = (Ok a, w') → f (db w) = Ok (a, db w').
Proof. unfold execute. destruct (f (db w)) as [[x d]|]; [|done]. by intros [= -> <-]. Qed.

Lemma execute__inv (f : DB → result DB) w a w' : execute_ f w = (Ok a, w') → f (db w) = Ok (db w').
Proof.
  unfold execute_. intros Hp. apply execute_inv, bind_Ok in Hp as (d & Hd & Heq). by simplify_eq.
Qed.

(** What [_insert_audit] appends, and that it passes the reader's check. *)
Lemma insert_audit_inv c et prev w a w' :
  insert_audit cfg c et prev w = (Ok a, w') →
  ∃ row, db w' = set_audit (db w) (t_audit_events (db w) ++ [row]) ∧
    a_contract_id row = rc_contract_id c ∧ a_previous_state row = state_value <$> prev ∧
    a_current_state row = state_value (rc_state c) ∧ a_state_version row = rc_state_version c ∧
    ∀ q, (if (rc_state_version c =? 0)%Z then et = u "contract_created" ∧ prev = None
          else q = state_value <$> prev) →
         check_event cfg c (rc_state_version c) q row = Ok (state_value (rc_state c)).
Proof.
  unfold insert_audit. intros Hp. inv_prog.
  apply now_inv in Hp0 as (Hdb & Hu & Hv). apply execute__inv in Hp. unfold insert_audit_row in Hp.
  rewrite require_bind in Hp. destruct Hp as [_ [= <-]]. rewrite Hdb. eexists. split; [done|].
  cbn [a_contract_id a_previous_state a_current_state a_state_version].
  split_and!; [done..|]. intros q Hq. unfold check_event.
  cbn [a_contract_id a_event_type a_previous_state a_current_state a_state_version a_recorded_at a_mac].
  rewrite pystr_eqb_refl, Z.eqb_refl. cbn [andb require mbind result_bind].
  assert ((if (rc_state_version c =? 0)%Z
           then pystr_eqb et (u "contract_created") && is_none (state_value <$> prev)
           else opt_str_eqb (state_value <$> prev) q) = true) as ->.
  { destruct (rc_state_version c =? 0)%Z.
    - destruct Hq as [-> ->]. by rewrite pystr_eqb_refl.
    - by apply opt_str_eqb_eq. }
  cbn [require mbind result_bind]. rewrite fromisoformat_isoformat by done.
  cbn [integrity_of try_except mbind result_bind]. rewrite Hu. cbn [require mbind result_bind].
  rewrite Hp1. cbn [mbind result_bind]. rewrite authentic_refl; [done|by eapply mac_ascii].
Qed.

Lemma verify_reservation_tx m cur w :
  rep cfg (db w) m → m !! rc_contract_id cur = Some cur →
  verify_reservation cfg InTransaction cur w = (Ok (), w).
Proof.
  intros Hr Hc. unfold verify_reservation, select, mbind, prog_bind. cbn.
  unfold select_reservation. rewrite (rep_reservations _ _ _ Hr), Hc. cbn [mbind option_bind].
  unfold reservation_ok, reserved_target, reserved.
  rewrite (proj2 (opt_str_eqb_eq _ _)) by done. done.
Qed.

(** The statements of [_replace], run to their end on tables that hold
    [m]: the compare-and-set found exactly the contract it was given. *)
Lemma replace_body_inv m cur a upd et w w' :
  rep cfg (db w) m → m !! rc_contract_id cur = Some a → advanced cur a → successor cur upd →
  replace_body cfg cur upd et w = (Ok (), w') →
  a = cur ∧ ∃ tag row, mac cfg [contract_payload upd] = Ok tag ∧ replaced cfg (db w) (db w') cur upd tag row.
Proof.
  intros Hr Ha Hadv Hsuc Hp. pose proof Hsuc as (Hid & Hv & Hst).
  pose proof (identity_fields _ _ Hid) as (E1 & E2 & E3 & E4 & _).
  destruct (rep_row _ _ _ _ _ Hr Ha) as (tag0 & Ht0 & Hrow).
  destruct (rep_wf _ _ _ Hr _ _ Ha) as [Eid Hwfa].
  unfold replace_body in Hp. apply bind_inv in Hp as (row & w1 & Hsel & Hp).
  apply select_tx_inv in Hsel as [-> ->]. unfold select_contract in Hp. rewrite Hrow in Hp.
  apply bind_inv in Hp as (au & w2 & Hdec & Hp). apply lift_inv in Hdec as [Hdec ->].
  rewrite <-Eid, decode_row_of in Hdec by done. injection Hdec as <-.
  apply bind_inv in Hp as ([] & w3 & Hver & Hp).
  assert (w3 = w) as ->.
  { clear Hp. unfold verify_related_state, verified_audit_rows in Hver.
    apply bind_inv in Hver as ([] & w4 & Hv1 & Hver). rewrite <-Eid in Ha.
    rewrite (verify_reservation_tx m a w) in Hv1 by done. injection Hv1 as <-.
    inv_prog. match goal with Hs : select _ _ _ _ = _ |- _ => by apply select_tx_inv in Hs as [_ ->] end. }
  clear Hver. destruct (_ || _) eqn:Ecas in Hp; [done|].
  apply orb_false_iff in Ecas as [Ec1 Ec2]. rewrite negb_false_iff in Ec1, Ec2.
  apply Z.eqb_eq in Ec2.
  assert (a = cur) as -> by (destruct Hadv as (_ & _ & [|Hlt]); [done|lia]).
  split; [done|]. clear Ec1 Ec2 Eid.
  apply bind_inv in Hp as ([] & w1 & Hres & Hp).
  apply bind_inv in Hp as (tag & w2 & Htag & Hp). apply lift_inv in Htag as [Htag ->].
  apply bind_inv in Hp as (n & w2 & Hupd & Hp). apply execute_inv in Hupd.
  destruct (n =? 1)%nat eqn:En; [|done]. cbn [negb] in Hp. apply Nat.eqb_eq in En as ->.
  apply bind_inv in Hp as ([] & w3 & Haud & Hp).
  apply insert_audit_inv in Haud as (row & Hdb3 & Ho & Hprev & Hcur & Hver & Hchk).
  apply bind_inv in Hp as ([] & w4 & Hrate & Hp).
  apply bind_inv in Hp as ([] & w5 & Hf1 & Hf2).
  apply invoke_fault_inv in Hf1. apply invoke_fault_inv in Hf2.
  assert (t_contracts (db w4) = t_contracts (db w3) ∧ t_target_reservations (db w4) = t_target_reservations (db w3)
    ∧ t_audit_events (db w4) = t_audit_events (db w3)) as (C1 & C2 & C3).
  { clear -Hrate Hclock. destruct (rate_policy cfg) as [limits|]; inv_prog; [|done|done].
    apply now_inv in Hp as (Hdb & _). apply execute__inv in Hrate.
    unfold record_terminal in Hrate. rewrite require_bind in Hrate. destruct Hrate as [_ Hrate].
    apply bind_Ok in Hrate as (t & _ & [= <-]). by rewrite Hdb. }
  (* the reservation step *)
  assert (t_contracts (db w1) = t_contracts (db w) ∧ t_audit_events (db w1) = t_audit_events (db w) ∧
    (∀ id, t_target_reservations (db w1) !! id =
      if decide (id = rc_contract_id upd) then reserved_target upd else t_target_reservations (db w) !! id) ∧
    (reserved cur = false → reserved upd = true →
      reserved_elsewhere (db w) (rc_target_identity_digest upd) = false)) as (D1 & D2 & D3 & D4).
  { pose proof (rep_reservations _ _ _ Hr (rc_contract_id upd)) as Hown. rewrite <-E1, Ha in Hown.
    cbn [mbind option_bind] in Hown. unfold reserved_target, reserved in *.
    destruct (in_states (rc_state upd) RESERVATION_STATES) eqn:Eu,
      (in_states (rc_state cur) RESERVATION_STATES) eqn:Ec; cbn [andb negb] in Hres.
    - apply ret_inv in Hres as [_ ->]. split_and!; [done..| |done].
      intros id. case_decide as Hd; [|done]. subst. rewrite <-E1, Hown. by rewrite E4.
    - apply execute__inv in Hres. unfold insert_reservation in Hres. rewrite require_bind in Hres.
      destruct Hres as [Hq [= <-]]. rewrite <-E1, Hown in Hq. split_and!; [done..| |].
      + intros id. cbn. case_decide as Hd; [subst; by rewrite lookup_insert_eq|by rewrite lookup_insert_ne].
      + intros _ _. by apply negb_true_iff.
    - apply execute__inv in Hres. injection Hres as <-. split_and!; [done..| |done].
      intros id. cbn. case_decide as Hd; [subst; by rewrite lookup_delete_eq|by rewrite lookup_delete_ne].
    - apply ret_inv in Hres as [_ ->]. split_and!; [done..| |done].
      intros id. case_decide as Hd; [|done]. subst. by rewrite <-E1, Hown. }
  (* the update *)
  unfold update_contract in Hupd. rewrite <-E1, D1, Hrow in Hupd.
  cbn [row_of r_state r_state_version] in Hupd. rewrite pystr_eqb_refl, Z.eqb_refl in Hupd.
  cbn [andb r_operation_id r_idempotency_key r_target_identity_digest] in Hupd.
  rewrite require_bind in Hupd. destruct Hupd as [Hall [= Hdb2]].
  assert (row_of upd tag = {| r_operation_id := rc_operation_id cur; r_idempotency_key := rc_idempotency_key cur;
      r_target_identity_digest := rc_target_identity_digest cur; r_state := state_value (rc_state upd);
      r_state_version := rc_state_version upd; r_payload := contract_payload upd; r_mac := tag |}) as Erow
    by (unfold row_of; by rewrite E2, E3, E4).
  assert (row_allowed (db w1) (rc_contract_id cur) (row_of upd tag) = true) as Hall' by (rewrite Erow; exact Hall).
  assert (set_contracts (db w1) (<[rc_contract_id cur := row_of upd tag]> (t_contracts (db w))) = db w2) as Hdb2'
    by (rewrite Erow; exact Hdb2).
  clear Hall Hdb2.
  exists tag, row. split; [done|]. split.
  - rewrite Hf2, Hf1, C1, Hdb3, <-Hdb2', <-E1. done.
  - rewrite <-E1. apply row_allowed_spec. rewrite <-D1. by apply row_allowed_spec.
  - intros id. rewrite Hf2, Hf1, C2, Hdb3, <-Hdb2'. apply D3.
  - done.
  - rewrite Hf2, Hf1, C3, Hdb3, <-Hdb2'. cbn. by rewrite D2.
  - done.
  - apply Hchk. pose proof (cf_version _ (wc_facts _ Hwfa)). destruct (Z.eqb_spec (rc_state_version upd) 0); [lia|done].
  - unfold legal_event. rewrite Hprev. cbn. exists (rc_state cur), (rc_state upd). done.
Qed.

Lemma create_body_inv c t w w' :
  rc_state c = PREPARING → rc_state_version c = 0%Z →
  create_body cfg c t w = (Ok (), w') →
  ∃ tag row, mac cfg [contract_payload c] = Ok tag ∧ created cfg (db w) (db w') c tag row.
Proof.
  intros Hs Hv Hp. unfold create_body in Hp. apply bind_inv in Hp as ([] & w1 & Hrate & Hp).
  assert (w1 = w) as ->.
  { clear Hp. destruct (rate_policy cfg); inv_prog; [|done].
    match goal with Hs : select _ _ _ _ = _ |- _ => by apply select_tx_inv in Hs as [_ ->] end. }
  apply bind_inv in Hp as (tag & w2 & Htag & Hp). apply lift_inv in Htag as [Htag ->].
  apply bind_inv in Hp as ([] & w2 & Hins & Hp). apply execute__inv in Hins.
  apply bind_inv in Hp as ([] & w3 & Haud & Hp).
  apply insert_audit_inv in Haud as (row & Hdb3 & Ho & Hprev & Hcur & Hver & Hchk).
  apply bind_inv in Hp as ([] & w5 & Hf1 & Hf2).
  apply invoke_fault_inv in Hf1. apply invoke_fault_inv in Hf2.
  unfold insert_contract in Hins. rewrite require_bind in Hins. destruct Hins as [Hok [= Hdb2]].
  exists tag, row. split; [done|].
  destruct (t_contracts (db w) !! rc_contract_id c) eqn:Ef; [done|].
  split; try done.
  - by rewrite Hf2, Hf1, Hdb3, <-Hdb2.
  - by rewrite Hf2, Hf1, Hdb3, <-Hdb2.
  - by rewrite Hf2, Hf1, Hdb3, <-Hdb2.
  - rewrite <-Hv. apply Hchk. by rewrite Hv.
  - unfold legal_event. rewrite Hprev. cbn. by rewrite Hcur, Hver, Hs, Hv.
Qed.
End bodies.

(** ** The program logic *)

Section logic.
Context `{Hash} `{UnicodeData} {E : Type} (cfg : Config E).
Context (Hclock : clock_valid cfg) (Hothers : others_behave cfg).
Implicit Types (m : gmap pystr RecoveryContract) (c cur upd : RecoveryContract).

(** From tables holding [m] the program ends in tables holding an
    evolution of [m], which satisfies [Q] when the program returns. *)
Definition holds {A} m (p : prog (World E) A) (Q : A → gmap pystr RecoveryContract → Prop) : Prop :=
  ∀ w, rep cfg (db w) m → ∃ m', rep cfg (db (snd (p w))) m' ∧ evolves m m' ∧
    ∀ a, fst (p w) = Ok a → Q a m'.

Lemma holds_bind {A B} m (p : prog (World E) A) (f : A → prog (World E) B) R Q :
  holds m p R → (∀ a m', evolves m m' → R a m' → holds m' (f a) Q) → holds m (p ≫= f) Q.
Proof.
  intros Hp Hf w Hr. destruct (Hp w Hr) as (m1 & Hr1 & He1 & HR). unfold mbind, prog_bind.
  destruct (p w) as [[a|e] w1]; simpl in *; [|by exists m1].
  destruct (Hf a m1 He1 (HR a eq_refl) w1 Hr1) as (m2 & Hr2 & He2 & HQ).
  exists m2. split; [done|]. split; [by etrans|done].
Qed.

Lemma holds_conseq {A} m (p : prog (World E) A) R (Q : A → gmap pystr RecoveryContract → Prop) :
  holds m p R → (∀ a m', evolves m m' → R a m' → Q a m') → holds m p Q.
Proof. intros Hp HQ w Hr. destruct (Hp w Hr) as (m1 & Hr1 & He1 & HR). exists m1. eauto. Qed.

Lemma holds_ret {A} m (a : A) (Q : A → gmap pystr RecoveryContract → Prop) : Q a m → holds m (mret a) Q.
Proof. intros HQ w Hr. exists m. split; [done|]. split; [reflexivity|]. by intros ? [= <-]. Qed.

Lemma holds_raise {A} m e (Q : A → gmap pystr RecoveryContract → Prop) : holds m (raise e) Q.
Proof. intros w Hr. exists m. split; [done|]. split; [reflexivity|done]. Qed.

Lemma holds_lift {A} m (r : result A) (Q : A → gmap pystr RecoveryContract → Prop) :
  (∀ a, r = Ok a → Q a m) → holds m (lift r) Q.
Proof. intros HQ w Hr. exists m. split; [done|]. split; [reflexivity|done]. Qed.

(** A program that leaves the database alone. *)
Lemma holds_pure_db {A} m (p : prog (World E) A) (Q : A → gmap pystr RecoveryContract → Prop) :
  (∀ w, db (snd (p w)) = db w) → (∀ w a, fst (p w) = Ok a → Q a m) → holds m p Q.
Proof.
  intros Hdb HQ w Hr. exists m. rewrite Hdb. split; [done|]. split; [reflexivity|]. eauto.
Qed.

Lemma holds_env_call {A} m (p : prog E A) : holds m (env_call p) (λ _ m', m' = m).
Proof.
  apply holds_pure_db; [|done]. intros w. destruct (env_call p w) as [r w'] eqn:Ew.
  by apply env_call_inv in Ew.
Qed.

Lemma holds_fault m pt : holds m (invoke_fault cfg pt) (λ _ m', m' = m).
Proof.
  apply holds_pure_db; [|done]. intros w. destruct (invoke_fault cfg pt w) as [r w'] eqn:Ew.
  by apply invoke_fault_inv in Ew.
Qed.

Lemma holds_now m : holds m (now_ cfg) (λ t m', m' = m ∧ is_utc t = true ∧ dt_valid t = true).
Proof.
  apply holds_pure_db.
  - intros w. unfold now_. by destruct (clock cfg (env w)).
  - intros w t Ht. destruct (now_ cfg w) as [r w'] eqn:Ew. simpl in Ht. subst.
    by apply now_inv in Ew as (_ & ? & ?).
Qed.

Lemma holds_select {A} m (f : DB → A) :
  holds m (select (other_writers cfg) Autocommit f) (λ a m', ∃ d, rep cfg d m' ∧ a = f d).
Proof.
  intros w Hr. unfold select, interfere. destruct (Hothers (env w) (db w) m Hr) as (m' & Hr' & He).
  destruct (other_writers cfg (env w) (db w)) as [d e]. simpl in *. exists m'.
  split; [done|]. split; [done|]. intros a [= <-]. eauto.
Qed.

Lemma holds_catch_raise {A} m (p : prog (World E) A) (f : exn → exn) Q :
  holds m p Q → holds m (catch p (λ e, raise (f e))) Q.
Proof.
  intros Hp w Hr. destruct (Hp w Hr) as (m1 & Hr1 & He1 & HR). exists m1. unfold catch, raise.
  by destruct (p w) as [[a|e] w1].
Qed.

(** A transaction: its body is only judged when it commits. *)
Lemma holds_transaction {A} m (body : prog (World E) A) (Q : A → gmap pystr RecoveryContract → Prop) :
  (∀ w m1 a w', rep cfg (db w) m1 → evolves m m1 → body w = (Ok a, w') →
     ∃ m2, rep cfg (db w') m2 ∧ evolves m1 m2 ∧ Q a m2) →
  holds m (transaction (other_writers cfg) body) Q.
Proof.
  intros Hb w Hr. unfold transaction, interfere.
  destruct (Hothers (env w) (db w) m Hr) as (m1 & Hr1 & He).
  destruct (other_writers cfg (env w) (db w)) as [d e]. simpl in *.
  destruct (body (mkWorld d e)) as [[a|x] w'] eqn:Ew; simpl.
  - destruct (Hb (mkWorld d e) m1 a w' Hr1 He Ew) as (m2 & Hr2 & He2 & HQ). exists m2.
    split; [done|]. split; [by etrans|]. by intros ? [= <-].
  - exists m1. done.
Qed.

(** The contract [c] was read for [id] and is still (an earlier form of)
    the contract stored there. *)
Definition known m (id : pystr) (c : RecoveryContract) : Prop :=
  rc_contract_id c = id ∧ wf_contract c ∧ ∃ c', m !! id = Some c' ∧ advanced c c'.

Lemma known_evolves m m' id c : evolves m m' → known m id c → known m' id c.
Proof.
  intros He (Hid & Hwf & c1 & Hc1 & Ha). destruct (He _ _ Hc1) as (c2 & Hc2 & Ha2).
  split; [done|]. split; [done|]. exists c2. split; [done|]. by etrans.
Qed.

Lemma known_lookup d m id c : rep cfg d m → m !! id = Some c → known m id c.
Proof.
  intros Hr Hc. destruct (rep_wf _ _ _ Hr _ _ Hc). split; [done|]. split; [done|].
  exists c. split; [done|]. reflexivity.
Qed.

Lemma holds_verify m md c : md = Autocommit → holds m (verify_related_state cfg md c) (λ _ _, True).
Proof.
  intros ->. unfold verify_related_state, verify_reservation, verified_audit_rows.
  apply (holds_bind _ _ _ (λ _ _, True)); [|intros; apply (holds_bind _ _ _ (λ _ _, True))].
  - eapply holds_bind; [apply holds_select|]. intros. by apply holds_lift.
  - eapply holds_bind; [apply holds_select|]. intros.
    apply (holds_bind _ _ _ (λ _ _, True)); [by apply holds_lift|]. intros. by apply holds_ret.
  - intros. by apply holds_ret.
Qed.

Lemma holds_load m id : holds m (load cfg id) (λ c m', known m' id c).
Proof.
  unfold load. eapply holds_bind; [apply holds_select|]. intros row m1 _ (d & Hr & ->).
  unfold select_contract. destruct (t_contracts d !! id) as [row|] eqn:Erow; [|apply holds_raise].
  destruct (rep_decode _ _ _ _ _ Hr Erow) as (c & Hc & Hdec). rewrite Hdec.
  eapply holds_bind; [apply (holds_lift m1 (Ok c) (λ x m', x = c ∧ m' = m1)); by intros ? [= <-]|].
  intros ? ? _ [-> ->]. destruct (negb _); [apply holds_raise|].
  eapply holds_bind; [by apply holds_verify|]. intros _ m2 He _. apply holds_ret.
  eapply known_evolves; [exact He|]. by eapply known_lookup.
Qed.

Lemma holds_replace m cur upd et :
  known m (rc_contract_id cur) cur → successor cur upd → wf_contract upd →
  holds m (replace_ cfg cur upd et) (λ r m', r = upd ∧ m' !! rc_contract_id cur = Some upd).
Proof.
  intros Hk Hs Hwf. unfold replace_. eapply holds_bind.
  { apply (holds_catch_raise _ _ (λ e, if bool_decide (e = SqliteIntegrityError)
      then ContractConflictError else e)).
    eapply holds_bind; [apply holds_fault|]. intros _ m1 _ ->.
    apply (holds_transaction m _ (λ _ m', m' !! rc_contract_id cur = Some upd)).
    intros w m1 [] w' Hr He Hb. pose proof (known_evolves _ _ _ _ He Hk) as (_ & _ & a & Ha & Hadv).
    destruct (replace_body_inv cfg Hclock m1 cur a upd et w w' Hr Ha Hadv Hs Hb) as (-> & tag & row & Htag & Hd).
    pose proof Hs as (Hid & _). pose proof (identity_fields _ _ Hid) as (E1 & _).
    exists (<[rc_contract_id cur := upd]> m1). split_and!.
    - rewrite E1. by eapply rep_replaced.
    - by apply (evolves_insert _ _ cur).
    - by rewrite lookup_insert_eq. }
  intros [] m1 _ Hl. eapply holds_bind; [apply holds_fault|]. intros _ m2 _ ->. by apply holds_ret.
Qed.

Lemma holds_create m c :
  wf_contract c →
  holds m (create cfg c) (λ _ m', m' !! rc_contract_id c = Some c ∧ rc_state c = PREPARING).
Proof.
  intros Hwf. unfold create. destruct (_ || _) eqn:Eg; [apply holds_raise|].
  rewrite !orb_false_iff, !negb_false_iff in Eg. destruct Eg as [[Es%state_eqb_eq Ev%Z.eqb_eq] _].
  eapply holds_bind; [apply holds_now|]. intros t m1 _ (-> & _).
  eapply holds_bind; [by apply (holds_lift m _ (λ _ m', m' = m))|]. intros ex m1 _ ->.
  destruct (_ || _); [apply holds_raise|]. eapply holds_bind.
  { apply (holds_catch_raise _ _ (λ e, if bool_decide (e = SqliteIntegrityError)
      then ContractConflictError else e)).
    eapply holds_bind; [apply holds_fault|]. intros _ m1 _ ->.
    apply (holds_transaction m _ (λ _ m', m' !! rc_contract_id c = Some c)).
    intros w m1 [] w' Hr He Hb.
    destruct (create_body_inv cfg Hclock c t w w' Es Ev Hb) as (tag & row & Htag & Hd).
    destruct (rep_created cfg _ _ _ _ _ _ Hr Es Ev Hwf Htag Hd) as [Hr' Hn].
    exists (<[rc_contract_id c := c]> m1). split_and!; [done|by apply evolves_new|by rewrite lookup_insert_eq]. }
  intros [] m1 _ Hl. eapply holds_conseq; [apply holds_fault|]. by intros _ ? _ ->.
Qed.
End logic.

(** ** The public methods *)

Section methods.
Context `{Hash} `{UnicodeData} {E : Type} (cfg : Config E).
Context (Hclock : clock_valid cfg) (Hothers : others_behave cfg).
Implicit Types (m : gmap pystr RecoveryContract) (c cur upd : RecoveryContract).
Notation holds := (holds cfg).

Lemma with_changes_wf cur s ti int snap fp upd :
  wf_contract cur → wf_artifact ti → wf_artifact int → wf_artifact snap →
  RecoveryContract_new (with_changes cur s ti int snap fp) = Ok upd →
  upd = with_changes cur s ti int snap fp ∧ wf_contract upd.
Proof.
  intros [] Hti Hint Hsnap [-> Hf]%RecoveryContract_new_Ok. split; [done|]. by split.
Qed.

Lemma with_changes_successor cur s ti int snap fp :
  rc_state cur = s ∨ edge true (rc_state cur) s → successor cur (with_changes cur s ti int snap fp).
Proof. done. Qed.

Lemma replace_state_spec cur s fp upd :
  wf_contract cur → replace_state cur s fp = Ok upd → edge true (rc_state cur) s →
  wf_contract upd ∧ successor cur upd ∧ rc_state upd = s ∧
  rc_verified_target_fingerprint upd = fp ∧ rc_confirmation_digest upd = rc_confirmation_digest cur.
Proof.
  intros Hwf Hrep He. apply with_changes_wf in Hrep as [-> Hwf']; try done; try apply Hwf.
  split_and!; try done. apply with_changes_successor. by right.
Qed.

(** The encrypted artifacts a step leaves alone. *)
Definition same_artifacts (c c' : RecoveryContract) : Prop :=
  rc_protected_target_identity c' = rc_protected_target_identity c ∧
  rc_protected_intent c' = rc_protected_intent c ∧ rc_protected_snapshot c' = rc_protected_snapshot c.

Lemma replace_state_sealed cur s fp upd : replace_state cur s fp = Ok upd → same_artifacts cur upd.
Proof. by intros [-> _]%RecoveryContract_new_Ok. Qed.

Lemma with_confirmation_sealed c authority evidence at_ c' :
  with_confirmation c authority evidence at_ = Ok c' → same_artifacts c c'.
Proof. by intros (_ & _ & _ & _ & d & _ & -> & _)%with_confirmation_inv. Qed.

(** [replace_] after [replace_state]. *)
Lemma holds_replace_state m id cur s fp et :
  known m id cur → edge true (rc_state cur) s →
  holds m (updated ← lift (replace_state cur s fp); replace_ cfg cur updated et)
    (λ r m', m' !! id = Some r ∧ successor cur r ∧ rc_state r = s ∧
             rc_verified_target_fingerprint r = fp ∧
             rc_confirmation_digest r = rc_confirmation_digest cur).
Proof.
  intros Hk He. pose proof Hk as (Hid & Hwf & _). eapply holds_bind.
  { apply (holds_lift _ _ _ (λ upd m', m' = m ∧ replace_state cur s fp = Ok upd)). done. }
  intros upd m1 _ [-> Hupd]. destruct (replace_state_spec _ _ _ _ Hwf Hupd He) as (Hwf' & Hs & Hst & Hfp & Hcd).
  eapply holds_conseq; [apply holds_replace; [done|done|by rewrite Hid|done|done]|].
  intros r m1 _ (-> & Hl). rewrite <-Hid. done.
Qed.

(** The final tables hold the final contracts. *)
Lemma holds_rep {A} m (p : prog (World E) A) Q :
  holds m p Q → holds m p (λ a m', Q a m' ∧ ∃ d, rep cfg d m').
Proof. intros Hp w Hr. destruct (Hp w Hr) as (m' & Hr' & He & HQ). exists m'. eauto 10. Qed.

Lemma holds_frame_tx m (body : prog (World E) ()) :
  (∀ w a w', body w = (Ok a, w') → same_tables (db w) (db w')) →
  holds m (transaction (other_writers cfg) body) (λ _ _, True).
Proof.
  intros Hb. apply holds_transaction; [done|]. intros w m1 a w' Hr _ Hw.
  exists m1. split_and!; [|reflexivity|done]. by eapply rep_same_tables, Hb.
Qed.

Lemma anchor_step_frame (anchor : Anchor E) w a w' :
  before_executing_transition (integrity_key cfg) (store_id cfg) anchor w = (Ok a, w') →
  same_tables (db w) (db w').
Proof.
  unfold before_executing_transition. intros Hp.
  apply bind_inv in Hp as (p & w1 & [= _ <-] & Hp).
  apply bind_inv in Hp as (cur & w2 & Hc%env_call_inv & Hp).
  destruct (negb _); [done|]. apply bind_inv in Hp as (adv & w3 & Ha%env_call_inv & Hp).
  apply execute__inv in Hp. apply bind_Ok in Hp as (tag & _ & [= <-]). rewrite Ha, Hc. done.
Qed.

Lemma execution_checks_frame policy t w a w' :
  execution_checks cfg policy t w = (Ok a, w') → same_tables (db w) (db w').
Proof.
  unfold execution_checks. intros Hp. apply bind_inv in Hp as ([] & w1 & Ha & Hl).
  assert (w' = w1) as ->.
  { destruct (rate_policy cfg); [|by apply ret_inv in Hl as [_ ->]].
    apply bind_inv in Hl as (chk & wx & [_ ->]%select_tx_inv & [_ ->]%lift_inv). done. }
  destruct (anti_rollback_anchor cfg) as [an|]; [|by apply ret_inv in Ha as [_ ->]].
  destruct (participates_in_witness policy); [|by apply ret_inv in Ha as [_ ->]].
  by apply anchor_step_frame in Ha.
Qed.

Lemma holds_transition m id es ev ts policy et :
  holds m (transition cfg id es ev ts policy et)
    (λ r m', known m' id r ∧ m' !! id = Some r ∧
      rc_state r = ts ∧ rc_state_version r = (ev + 1)%Z ∧ edge false es ts ∧
      (ts = EXECUTING → is_confirmed r = true ∧ is_none policy = false)).
Proof.
  unfold transition. eapply holds_bind.
  { by apply (holds_lift _ _ _ (λ _ m', m' = m)). }
  intros [] m1 _ ->. eapply holds_bind.
  { apply (holds_lift _ _ _ (λ _ m', m' = m ∧ edge false es ts)). by intros []. }
  intros [] m1 _ [-> Hedge]. destruct (state_eqb ts VERIFIED); [apply holds_raise|].
  destruct (state_eqb ts ROLLED_BACK); [apply holds_raise|].
  eapply holds_bind; [by apply holds_load|]. intros cur m1 _ Hk.
  destruct (_ || _) eqn:Ecas; [apply holds_raise|].
  rewrite orb_false_iff, !negb_false_iff, state_eqb_eq, Z.eqb_eq in Ecas. destruct Ecas as [Es Ev].
  eapply holds_bind; [by apply holds_now|]. intros t m2 _ (-> & _).
  eapply (holds_bind _ _ _ _ (λ _ m', m' = m1)).
  { destruct (in_states _ _); [by apply holds_lift|by apply holds_ret]. }
  intros stale m2 _ ->. destruct (stale && _); [apply holds_raise|].
  eapply (holds_bind _ _ _ _ (λ _ _, ts = EXECUTING → is_confirmed cur = true ∧ is_none policy = false)).
  - destruct (state_eqb ts EXECUTING) eqn:Ex.
    2: { apply holds_ret. intros ->. by rewrite state_eqb_refl in Ex. }
    unfold enter_executing.
    eapply (holds_bind _ _ _ _ (λ r m', m' = m1 ∧ (r = false → is_confirmed cur = true))).
    { destruct (is_confirmed cur); cbn [negb]; [by apply holds_lift|by apply holds_ret]. }
    intros refused m2 _ [-> Hc]. destruct refused; [apply holds_raise|].
    destruct policy as [policy|]; [|apply holds_raise].
    apply (holds_conseq _ _ _ (λ _ _, True)); [|intros; by split; [apply Hc|]].
    destruct (anti_rollback_anchor cfg), (rate_policy cfg); try (by apply holds_frame_tx, execution_checks_frame).
    by apply holds_ret.
  - intros [] m2 He Hx. pose proof Hk as (Hcid & _ & _).
    eapply holds_conseq; [apply holds_rep, (holds_replace_state m2 id)|].
    + by eapply known_evolves.
    + rewrite Es. by apply edge_manual in Hedge.
    + intros r m3 _ [(Hl & (Hid & Hv & _) & Hst & _ & Hcd) [d Hr]]. cbn beta.
      split_and!; [by eapply known_lookup|done|done|lia|done|].
      intros Hts. destruct (Hx Hts) as [Hc Hp]. split; [|done]. unfold is_confirmed in *. by rewrite Hcd.
Qed.

(** The common end of the compare-and-set methods. *)
Lemma holds_mark m id cur s fp et :
  known m id cur → edge true (rc_state cur) s →
  holds m (updated ← lift (replace_state cur s fp); replace_ cfg cur updated et)
    (λ r m', known m' id r ∧ m' !! id = Some r ∧ rc_state r = s ∧
             rc_state_version r = (rc_state_version cur + 1)%Z ∧
             identity_of r = identity_of cur ∧ rc_verified_target_fingerprint r = fp).
Proof.
  intros Hk He. eapply holds_conseq; [by apply holds_rep, (holds_replace_state m id)|].
  intros r m3 _ [(Hl & (Hid & Hv & _) & Hst & Hfp & _) [d Hr]].
  split_and!; [by eapply known_lookup|done..].
Qed.

Lemma holds_mark_execution_verified m id ev fp loc :
  holds m (mark_execution_verified cfg id ev fp loc)
    (λ r m', known m' id r ∧ m' !! id = Some r ∧ rc_state r = VERIFIED ∧
             rc_state_version r = (ev + 1)%Z ∧ rc_verified_target_fingerprint r = Some fp ∧
             rc_lifecycle_locator r = loc).
Proof.
  unfold mark_execution_verified. eapply holds_bind; [by apply holds_load|]. intros cur m1 _ Hk.
  destruct (_ || _) eqn:Ecas; [apply holds_raise|].
  rewrite orb_false_iff, !negb_false_iff, state_eqb_eq, Z.eqb_eq in Ecas. destruct Ecas as [Es Ev].
  destruct (loc =? _)%Z eqn:El; [|apply holds_raise]. apply Z.eqb_eq in El. cbn [negb].
  eapply holds_conseq; [apply (holds_mark m1 id); [done|by rewrite Es]|].
  intros r m2 _ (Hk' & Hl & Hs & Hv & Hid & Hfp). cbn beta. rewrite <-Ev.
  apply identity_fields in Hid as (_ & _ & _ & _ & Hloc). rewrite Hloc. done.
Qed.

Lemma holds_mark_rollback_verified m id ev loc :
  holds m (mark_rollback_verified cfg id ev loc)
    (λ r m', known m' id r ∧ m' !! id = Some r ∧ rc_state r = ROLLED_BACK ∧
             rc_state_version r = (ev + 1)%Z ∧ rc_lifecycle_locator r = loc).
Proof.
  unfold mark_rollback_verified. eapply holds_bind; [by apply holds_load|]. intros cur m1 _ Hk.
  destruct (_ || _) eqn:Ecas; [apply holds_raise|].
  rewrite orb_false_iff, !negb_false_iff, state_eqb_eq, Z.eqb_eq in Ecas. destruct Ecas as [Es Ev].
  destruct (loc =? _)%Z eqn:El; [|apply holds_raise]. apply Z.eqb_eq in El. cbn [negb].
  eapply holds_conseq; [apply (holds_mark m1 id); [done|by rewrite Es]|].
  intros r m2 _ (Hk' & Hl & Hs & Hv & Hid & Hfp). cbn beta. rewrite <-Ev.
  apply identity_fields in Hid as (_ & _ & _ & _ & Hloc). rewrite Hloc. done.
Qed.

Lemma holds_guarded_verify {A} m (v : option (A → prog E bool)) (x : A) :
  holds m (guarded_verify v x) (λ _ m', m' = m ∧ is_none v = false).
Proof.
  unfold guarded_verify. destruct v as [v|]; [|apply holds_raise].
  eapply (holds_bind _ _ _ _ (λ _ m', m' = m)).
  - apply (holds_catch_raise cfg _ _ (λ _, ConfirmationError)). apply holds_env_call.
  - intros b m1 _ ->. by apply holds_lift.
Qed.

Lemma holds_skip {A} m (r : result A) : holds m (lift r) (λ a m', m' = m ∧ r = Ok a).
Proof. by apply holds_lift. Qed.

Lemma holds_confirm m id e ev :
  holds m (confirm cfg id e ev)
    (λ r m', m' !! id = Some r ∧ rc_contract_id r = id ∧ rc_state r = PREPARED ∧
             is_confirmed r = true ∧ rc_state_version r = (ev + 1)%Z ∧
             is_none (confirmation_verifier cfg) = false).
Proof.
  unfold confirm. eapply holds_bind; [by apply holds_load|]. intros cur m1 _ Hk.
  destruct (_ =? ev)%Z eqn:Ev; [|apply holds_raise]. apply Z.eqb_eq in Ev. cbn [negb].
  eapply holds_bind; [by apply holds_now|]. intros t m2 _ (-> & Hu & Hvt).
  eapply holds_bind; [apply holds_skip|]. intros ex m2 _ [-> _]. destruct ex; [apply holds_raise|].
  eapply holds_bind; [apply holds_skip|]. intros [] m2 _ [-> _].
  eapply holds_bind; [apply holds_guarded_verify|]. intros [] m2 _ [-> Hver].
  eapply holds_bind; [apply holds_skip|]. intros ed m2 _ [-> _].
  eapply holds_bind; [apply holds_skip|]. intros upd m2 _ [-> Hupd].
  apply with_confirmation_inv in Hupd as (Es & Ec & _ & _ & dg & _ & -> & Hf).
  pose proof Hk as (Hid & Hwf & _).
  eapply holds_conseq; [apply holds_replace; [done|done|by rewrite Hid|..]|].
  - by split_and!; [| |left].
  - destruct Hwf. split; try done. by intros ? [= <-].
  - intros r m2 _ (-> & Hl). rewrite Hid in Hl. cbn beta. rewrite <-Ev. done.
Qed.

Lemma holds_rotate_artifacts m id ev ti int snap :
  wf_artifact ti → wf_artifact int → wf_artifact snap →
  holds m (rotate_artifacts cfg id ev ti int snap)
    (λ r m', m' !! id = Some r ∧ rc_contract_id r = id ∧ rc_state_version r = (ev + 1)%Z ∧
             rc_protected_target_identity r = ti ∧ rc_protected_intent r = int ∧
             rc_protected_snapshot r = snap).
Proof.
  intros Hti Hint Hsn. unfold rotate_artifacts. eapply holds_bind; [by apply holds_load|]. intros cur m1 _ Hk.
  destruct (_ =? ev)%Z eqn:Ev; [|apply holds_raise]. apply Z.eqb_eq in Ev. cbn [negb].
  eapply holds_bind; [apply holds_skip|]. intros upd m2 _ [-> Hupd]. pose proof Hk as (Hid & Hwf & _).
  apply with_changes_wf in Hupd as [-> Hwf']; [|done..].
  eapply holds_conseq; [apply holds_replace; [done|done|by rewrite Hid|..|done]|].
  - apply with_changes_successor. by left.
  - intros r m2 _ (-> & Hl). rewrite Hid in Hl. cbn beta. rewrite <-Ev. done.
Qed.

Lemma holds_audit_events m id : holds m (audit_events cfg id) (λ _ _, True).
Proof.
  unfold audit_events. eapply holds_bind; [by apply holds_select|]. intros row m1 _ _.
  destruct row as [row|]; [|apply holds_raise].
  eapply holds_bind; [apply holds_skip|]. intros c m2 _ [-> _].
  unfold verify_reservation, verified_audit_rows.
  apply (holds_bind _ _ _ _ (λ _ _, True)).
  - eapply holds_bind; [by apply holds_select|]. intros. by apply holds_lift.
  - intros. apply (holds_bind _ _ _ _ (λ _ _, True)); [|intros; by apply holds_ret].
    eapply holds_bind; [by apply holds_select|]. intros.
    apply (holds_bind _ _ _ _ (λ _ _, True)); [by apply holds_lift|]. intros. by apply holds_ret.
Qed.

Lemma holds_resolve_reconciliation m id e :
  holds m (resolve_reconciliation cfg id e)
    (λ r m', known m' id r ∧ m' !! id = Some r ∧ rc_state r = OUTCOME_TARGET_STATE (re_outcome e) ∧
             rc_state_version r = (re_observed_state_version e + 1)%Z ∧
             is_none (reconciliation_verifier cfg) = false ∧
             (re_outcome e = CONFIRMED_APPLIED →
              rc_verified_target_fingerprint r = re_verified_target_fingerprint e)).
Proof.
  unfold resolve_reconciliation. eapply holds_bind; [by apply holds_load|]. intros cur m1 _ Hk.
  destruct (state_eqb _ _) eqn:Es; [|apply holds_raise]. apply state_eqb_eq in Es. cbn [negb].
  eapply holds_bind; [by apply holds_audit_events|]. intros evs m2 He _. cbv zeta.
  destruct (_ || _); [apply holds_raise|]. destruct (negb _); [apply holds_raise|].
  eapply holds_bind; [apply holds_skip|]. intros [] m3 _ [-> Hb].
  eapply holds_bind; [apply holds_guarded_verify|]. intros [] m3 _ [-> Hver].
  eapply holds_bind; [apply holds_skip|]. intros [] m3 _ [-> Hreq].
  eapply holds_conseq; [apply (holds_mark m2 id); [by eapply known_evolves|done]|].
  intros r m4 _ (Hk' & Hl & Hs & Hv & Hid & Hfp). cbn beta. split_and!; try done.
  - unfold re_verify_bindings in Hb. apply require_Ok in Hb.
    rewrite negb_true_iff, !orb_false_iff, !negb_false_iff, Z.eqb_eq in Hb. lia.
  - intros Eo. by rewrite Hfp, bool_decide_eq_true_2.
Qed.

Lemma holds_expire_prepared m id ev now :
  holds m (expire_prepared cfg id ev now)
    (λ r m', known m' id r ∧ m' !! id = Some r ∧ rc_state r = EXPIRED ∧ rc_state_version r = (ev + 1)%Z ∧
             dt_leb (rc_expires_at r) now = true).
Proof.
  unfold expire_prepared. eapply holds_bind; [by apply holds_load|]. intros c m1 _ Hk.
  destruct (state_eqb _ _) eqn:Es; [|apply holds_raise]. apply state_eqb_eq in Es. cbn [negb].
  destruct (is_confirmed c) eqn:Ec; [apply holds_raise|].
  eapply holds_bind; [apply holds_skip|]. intros ex m2 _ [-> Hex]. destruct ex; [|apply holds_raise].
  cbn [negb]. destruct (_ =? ev)%Z eqn:Ev; [|apply holds_raise]. cbn [negb].
  intros w Hr. destruct (holds_transition m1 id PREPARED ev EXPIRED None state_transition w Hr)
    as (m2 & Hr2 & He & HQ).
  exists m2. split; [done|]. split; [done|]. intros r Hres. destruct (HQ r Hres) as (Hk' & Hl & Hs & Hv & _).
  split_and!; try done. unfold is_expired in Hex. rewrite require_bind in Hex. destruct Hex as [_ [= Hex]].
  pose proof (known_evolves _ _ _ _ He Hk) as (_ & _ & c' & Hc' & Hid & _). simplify_eq.
  assert (rc_expires_at c = rc_expires_at r) as <- by done. done.
Qed.

Lemma holds_interrupted m : holds m (interrupted cfg) (λ _ _, True).
Proof.
  unfold interrupted, all_contracts. apply (holds_bind _ _ _ _ (λ _ _, True)); [|intros; by apply holds_ret].
  eapply holds_bind; [by apply holds_select|]. intros rows m1 _ _.
  eapply holds_bind; [apply holds_skip|]. intros cs m2 _ [-> _].
  apply (holds_bind _ _ _ _ (λ _ _, True)); [|intros; by apply holds_ret].
  induction cs as [|c cs IH] in m1 |-*; [by apply holds_ret|]. cbn [verify_all].
  eapply holds_bind; [by apply holds_verify|]. auto.
Qed.

Lemma holds_reconcile_interrupted m : holds m (reconcile_interrupted cfg) (λ _ _, True).
Proof.
  unfold reconcile_interrupted. eapply holds_bind; [apply holds_interrupted|]. intros cs m1 _ _.
  induction cs as [|c cs IH] in m1 |-*; [by apply holds_ret|]. cbn [reconcile_each].
  eapply holds_bind; [apply holds_transition|]. intros r m2 _ _.
  apply (holds_bind _ _ _ _ (λ _ _, True)); [apply IH|]. intros. by apply holds_ret.
Qed.

Lemma holds_execute_autocommit m (f : DB → result DB) :
  (∀ d d', f d = Ok d' → same_tables d d') →
  holds m (execute_autocommit (other_writers cfg) f) (λ _ _, True).
Proof.
  intros Hf w Hr. unfold execute_autocommit, interfere.
  destruct (Hothers (env w) (db w) m Hr) as (m1 & Hr1 & He).
  destruct (other_writers cfg (env w) (db w)) as [d e]. simpl in *. exists m1.
  destruct (execute_ f (mkWorld d e)) as [[a|x] w'] eqn:Ew; simpl.
  - apply execute__inv in Ew. simpl in Ew. split_and!; [|done|done]. by eapply rep_same_tables, Hf.
  - unfold execute_, execute in Ew. destruct (d' ← f _; _) as [[? ?]|] in Ew; [done|].
    injection Ew as _ <-. done.
Qed.

Lemma holds_provision_anchor_baseline m v h : holds m (provision_anchor_baseline cfg v h) (λ _ _, True).
Proof.
  unfold provision_anchor_baseline. eapply holds_bind; [apply holds_skip|]. intros [] m1 _ [-> _].
  eapply holds_bind; [by apply holds_now|]. intros t m1 _ (-> & _).
  eapply holds_bind.
  { apply holds_execute_autocommit. intros d d'. unfold hwm_seed, already_provisioned, insert_anchor_row.
    rewrite !require_bind. intros (_ & _ & (tag & _ & Ht)%bind_Ok).
    destruct (require _ SqliteIntegrityError) as [[]|x]; cbn in Ht; [by injection Ht as <-|].
    by case_bool_decide. }
  intros [] m2 _ _. apply (holds_bind _ _ _ _ (λ _ _, True)).
  { eapply holds_bind; [by apply holds_select|]. intros. by apply holds_lift. }
  intros z m3 _ _. destruct (negb _); [apply holds_raise|].
  apply holds_execute_autocommit. intros d d'. unfold mark_complete, already_provisioned, insert_anchor_row.
  rewrite !require_bind. intros (_ & (cu & _ & Hd)%bind_Ok). rewrite !require_bind in Hd.
  destruct Hd as (_ & _ & (co & _ & Hd)%bind_Ok). rewrite require_bind in Hd.
  destruct Hd as (_ & (pl & _ & (tag & _ & Ht)%bind_Ok)%bind_Ok).
  destruct (require _ SqliteIntegrityError) as [[]|x]; cbn in Ht; [by injection Ht as <-|].
  by case_bool_decide.
Qed.
End methods.
