(* ===== verification/StoreProps.v ===== *)
(** * Properties of the store

    Histories of calls on one store ([reachable]), what every reachable
    table satisfies, and the functional behaviour of the operations when no
    other process interferes ([quiet]). *)

From S2P Require Import Prelude PyStr Sha256 PyDatetime Json Capability StateMachine Canonical.
From S2P Require Import Contract Evidence StoreCodec Database RatePolicy AntiRollback Store.
From S2P Require Import StoreInv StoreOps.

(** ** Histories *)

Inductive call : Type :=
  | Create (c : RecoveryContract)
  | CreateAuthorized (c : RecoveryContract)
  | Transition (id : pystr) (expected : RecoveryState) (version : Z) (target : RecoveryState)
      (policy : option ExecutionSecurityPolicy) (event_type : pystr)
  | ExpirePrepared (id : pystr) (version : Z) (now : datetime)
  | Confirm (id : pystr) (evidence : ConfirmationEvidence) (version : Z)
  | ResolveReconciliation (id : pystr) (evidence : ReconciliationEvidence)
  | RotateArtifacts (id : pystr) (version : Z) (target intent snapshot : ProtectedArtifact)
  | MarkExecutionVerified (id : pystr) (version : Z) (fingerprint : pystr) (locator : Z)
  | MarkRollbackVerified (id : pystr) (version : Z) (locator : Z)
  | ReconcileInterrupted
  | ProvisionAnchorBaseline (value : Z) (handle : pystr).

Section histories.
Context `{Hash} `{UnicodeData} {E : Type} (cfg : Config E).

Definition ignore {A} (p : prog (World E) A) : prog (World E) () := _ ← p; mret ().

Definition run_call (k : call) : prog (World E) () :=
  match k with
  | Create c => create cfg c
  | CreateAuthorized c => create_authorized cfg c
  | Transition id es v ts p et => ignore (transition cfg id es v ts p et)
  | ExpirePrepared id v t => ignore (expire_prepared cfg id v t)
  | Confirm id e v => ignore (confirm cfg id e v)
  | ResolveReconciliation id e => ignore (resolve_reconciliation cfg id e)
  | RotateArtifacts id v ti int sn => ignore (rotate_artifacts cfg id v ti int sn)
  | MarkExecutionVerified id v fp l => ignore (mark_execution_verified cfg id v fp l)
  | MarkRollbackVerified id v l => ignore (mark_rollback_verified cfg id v l)
  | ReconcileInterrupted => ignore (reconcile_interrupted cfg)
  | ProvisionAnchorBaseline v h => provision_anchor_baseline cfg v h
  end.

(** The arguments are objects Python could construct. *)
Definition call_ok (k : call) : Prop :=
  match k with
  | Create c | CreateAuthorized c => wf_contract c
  | RotateArtifacts _ _ ti int sn => wf_artifact ti ∧ wf_artifact int ∧ wf_artifact sn
  | _ => True
  end.

(** Calls in any order, each returning or raising, from an empty store;
    between and during them other processes act, and between them the rest
    of the world (clock, anchor, device) moves as it likes. *)
Inductive reachable : World E → Prop :=
  | reachable_start e : reachable (mkWorld empty_db e)
  | reachable_call w k : reachable w → call_ok k → reachable (snd (run_call k w))
  | reachable_env w e : reachable w → reachable (mkWorld (db w) e).

Context (Hclock : clock_valid cfg) (Hothers : others_behave cfg).

Lemma holds_any {A} m (p : prog (World E) A) Q : holds cfg m p Q → holds cfg m p (λ _ _, True).
Proof. intros Hp. by eapply holds_conseq. Qed.

Lemma holds_ignore {A} m (p : prog (World E) A) Q :
  holds cfg m p Q → holds cfg m (ignore p) (λ _ _, True).
Proof. intros Hp. eapply holds_bind; [exact Hp|]. intros. by apply holds_ret. Qed.

Lemma holds_create_authorized m c :
  wf_contract c → holds cfg m (create_authorized cfg c) (λ _ m', m' !! rc_contract_id c = Some c).
Proof.
  intros Hwf. unfold create_authorized. destruct (is_none _); [apply holds_raise|].
  eapply holds_conseq; [by apply holds_create|]. by intros _ ? _ [? _].
Qed.

Lemma holds_run_call m k : call_ok k → holds cfg m (run_call k) (λ _ _, True).
Proof.
  destruct k; simpl; intros Hk; try (destruct Hk as (? & ? & ?));
    first [eapply holds_any; by apply holds_create
          |eapply holds_any; by apply holds_create_authorized
          |eapply holds_ignore; by apply holds_transition
          |eapply holds_ignore; by apply holds_expire_prepared
          |eapply holds_ignore; by apply holds_confirm
          |eapply holds_ignore; by apply holds_resolve_reconciliation
          |eapply holds_ignore; by apply holds_rotate_artifacts
          |eapply holds_ignore; by apply holds_mark_execution_verified
          |eapply holds_ignore; by apply holds_mark_rollback_verified
          |eapply holds_ignore; by apply holds_reconcile_interrupted
          |by apply holds_provision_anchor_baseline].
Qed.

Lemma reachable_rep w : reachable w → ∃ m, rep cfg (db w) m.
Proof.
  induction 1 as [e|w k _ [m Hr] Hk|w e _ IH]; [exists ∅; apply rep_empty| |exact IH].
  destruct (holds_run_call m k Hk w Hr) as (m' & Hr' & _). by exists m'.
Qed.

(** More calls after [w]. *)
Definition later : World E → World E → Prop :=
  rtc (λ w w', (∃ k, call_ok k ∧ w' = snd (run_call k w)) ∨ ∃ e, w' = mkWorld (db w) e).

Lemma later_reachable w w' : reachable w → later w w' → reachable w'.
Proof.
  intros Hw. induction 1 as [|w w1 w' [(k & Hk & ->)|(e & ->)] _ IH]; [done|apply IH; by constructor..].
Qed.

(** Contracts only move forward. *)
Lemma later_evolves w w' m :
  rep cfg (db w) m → later w w' → ∃ m', rep cfg (db w') m' ∧ evolves m m'.
Proof.
  intros Hr Hl. revert m Hr. induction Hl as [w|w w1 w' [(k & Hk & ->)|(e & ->)] _ IH]; intros m Hr.
  - exists m. split; [done|]. reflexivity.
  - destruct (holds_run_call m k Hk w Hr) as (m1 & Hr1 & He1 & _).
    destruct (IH m1 Hr1) as (m2 & Hr2 & He2). exists m2. split; [done|]. by etrans.
  - by apply IH.
Qed.
End histories.

(** ** Reading without interference *)

Definition quiet {E} (cfg : Config E) : Prop := ∀ e d, other_writers cfg e d = (d, e).

Section reading.
Context `{Hash} `{UnicodeData} {E : Type} (cfg : Config E).
Context (Hquiet : quiet cfg).

Lemma quiet_others_behave : others_behave cfg.
Proof. intros e d m Hr. rewrite Hquiet. exists m. split; [done|]. reflexivity. Qed.

Lemma interfere_quiet w : interfere (other_writers cfg) w = w.
Proof. unfold interfere. rewrite Hquiet. by destruct w. Qed.

Lemma select_quiet {A} md (f : DB → A) w : select (other_writers cfg) md f w = (Ok (f (db w)), w).
Proof. unfold select. destruct md; [|done]. by rewrite interfere_quiet. Qed.

Lemma verify_reservation_quiet md m c w :
  rep cfg (db w) m → m !! rc_contract_id c = Some c → verify_reservation cfg md c w = (Ok (), w).
Proof.
  intros Hr Hc. unfold verify_reservation. erewrite bind_ok by apply select_quiet.
  unfold select_reservation. rewrite (rep_reservations _ _ _ Hr), Hc. cbn [mbind option_bind].
  unfold reservation_ok, reserved_target, reserved. by rewrite (proj2 (opt_str_eqb_eq _ _)).
Qed.

Lemma verified_audit_quiet md m c w :
  rep cfg (db w) m → m !! rc_contract_id c = Some c →
  verified_audit_rows cfg md c w = (Ok (events_of (rc_contract_id c) (db w)), w).
Proof.
  intros Hr Hc. unfold verified_audit_rows. erewrite bind_ok by apply select_quiet.
  rewrite (rep_select_audit _ _ _ _ _ Hr Hc). destruct (rep_audit _ _ _ Hr _ _ Hc) as [Ha _].
  unfold lift. erewrite bind_ok; [reflexivity|]. by rewrite Ha.
Qed.

Lemma verify_related_quiet md m c w :
  rep cfg (db w) m → m !! rc_contract_id c = Some c → verify_related_state cfg md c w = (Ok (), w).
Proof.
  intros Hr Hc. unfold verify_related_state.
  erewrite bind_ok by (by eapply verify_reservation_quiet).
  by erewrite bind_ok by (by eapply verified_audit_quiet).
Qed.

(** [load] is lookup. *)
Lemma load_quiet m id w :
  rep cfg (db w) m →
  load cfg id w = (match m !! id with Some c => Ok c | None => Raise ContractNotFoundError end, w).
Proof.
  intros Hr. unfold load. erewrite bind_ok by apply select_quiet. unfold select_contract.
  pose proof (rep_rows _ _ _ Hr id) as Hrow.
  destruct (t_contracts (db w) !! id) as [row|] eqn:Er, (m !! id) as [c|] eqn:Ec; try done.
  destruct (rep_decode _ _ _ _ _ Hr Er) as (c' & Hc' & Hdec). simplify_eq.
  destruct (rep_wf _ _ _ Hr _ _ Ec) as [Eid _].
  erewrite bind_ok by (unfold lift; by rewrite Hdec). rewrite Eid, pystr_eqb_refl. cbn [negb].
  rewrite <-Eid in Ec. by erewrite bind_ok by (by eapply verify_related_quiet).
Qed.

Definition event_of (r : audit_row) : audit_event :=
  {| ev_event_type := a_event_type r; ev_previous_state := a_previous_state r;
     ev_current_state := a_current_state r; ev_state_version := a_state_version r;
     ev_recorded_at := a_recorded_at r |}.

Lemma audit_events_quiet m id c w :
  rep cfg (db w) m → m !! id = Some c →
  audit_events cfg id w = (Ok (map event_of (events_of id (db w))), w).
Proof.
  intros Hr Hc. unfold audit_events. erewrite bind_ok by apply select_quiet. unfold select_contract.
  destruct (rep_row _ _ _ _ _ Hr Hc) as (tag & _ & Er). rewrite Er.
  destruct (rep_decode _ _ _ _ _ Hr Er) as (c' & Hc' & Hdec). simplify_eq.
  destruct (rep_wf _ _ _ Hr _ _ Hc) as [Eid _]. pose proof Hc as Hc'. rewrite <-Eid in Hc'.
  erewrite bind_ok by (unfold lift; by rewrite Hdec).
  erewrite bind_ok by (by eapply verify_reservation_quiet).
  erewrite bind_ok by (by eapply verified_audit_quiet). by rewrite Eid.
Qed.
End reading.

(** ** A concrete store *)

Module SampleStore.
#[local] Existing Instances Sample.hash Sample.unicode SampleEvidence.ed25519.

(** The environment is a counter, the anchor; the clock stands still. *)
Definition anchor : Anchor Z := {|
  anchor_read := λ e, (Ok e, e);
  anchor_advance := λ expected e,
    if (e =? expected)%Z then (Ok (e + 1)%Z, (e + 1)%Z) else (Raise AnchorConflictError, e) |}.

Definition config (an : option (Anchor Z)) (limits : option RateLimits) : Config Z := {|
  integrity_key := replicate 32 Byte.x0b; store_id := u "store-1";
  clock := λ e, (Sample.day 1 10, e); fault_hook := None; other_writers := λ e d, (d, e);
  confirmation_verifier := Some (λ e, lift (confirmation_verify SampleEvidence.authorities e));
  reconciliation_verifier := Some (λ e, lift (reconciliation_verify SampleEvidence.authorities e));
  anti_rollback_anchor := an; rate_policy := limits |}.

Definition plain : Config Z := config None None.
Definition contract : RecoveryContract := Sample.contract "c1" "o1" PREPARING 0.
Definition start : World Z := mkWorld empty_db 0%Z.

Definition prepared_contract : RecoveryContract := Sample.contract "c1" "o1" PREPARED 1.
Definition to_executing (p : option ExecutionSecurityPolicy) : list call :=
  [Create contract;
   Transition (u "c1") PREPARING 0 PREPARED None state_transition;
   Confirm (u "c1") (SampleEvidence.confirmation prepared_contract) 1;
   Transition (u "c1") PREPARED 2 EXECUTING p state_transition].

Fixpoint run (cfg : Config Z) (ks : list call) (w : World Z) : World Z :=
  match ks with [] => w | k :: ks => run cfg ks (snd (run_call cfg k w)) end.
End SampleStore.

Example sample_runs :
  r_state <$> (t_contracts (db (SampleStore.run SampleStore.plain
    (SampleStore.to_executing (Some HighAssuranceTier1ExecutionPolicy)) SampleStore.start)) !! u "c1")
  = Some (state_value EXECUTING).
Proof. vm_compute. reflexivity. Qed.

(** ** Properties of every history *)

Section safety.
Context `{Hash} `{UnicodeData} {E : Type} (cfg : Config E).

(** [C22] In every state of the store that any sequence of calls can reach,
    returning or failing at any point and interleaved with other
    well-behaved processes, no canonical target is in flight twice: two
    rows for one target, both EXECUTING, awaiting reconciliation, rolling
    back or failed to roll back, are one row. *)
Theorem target_never_shared w id id' r r' :
  clock_valid cfg → others_behave cfg → reachable cfg w →
  t_contracts (db w) !! id = Some r → t_contracts (db w) !! id' = Some r' →
  r_state r ∈ state_value <$> RESERVATION_STATES → r_state r' ∈ state_value <$> RESERVATION_STATES →
  r_target_identity_digest r = r_target_identity_digest r' → id = id'.
Proof.
  intros Hc Ho Hw Hr Hr' Hs Hs' Ht. destruct (reachable_rep cfg Hc Ho w Hw) as [m Hm].
  destruct (rep_row_inv _ _ _ _ _ Hm Hr) as (c & tag & Hl & _ & ->).
  destruct (rep_row_inv _ _ _ _ _ Hm Hr') as (c' & tag' & Hl' & _ & ->).
  apply (rep_targets _ _ _ Hm id id' c c'); try done.
  - by apply in_states_eq, state_value_in.
  - by apply in_states_eq, state_value_in.
Qed.

(** The reservation table is exactly the set of contracts in flight:
    a target is reserved for a contract if and only if that contract's row
    is in a reservation state with that target. *)
Theorem reservations_exact w id t :
  clock_valid cfg → others_behave cfg → reachable cfg w →
  t_target_reservations (db w) !! id = Some t ↔
    ∃ r, t_contracts (db w) !! id = Some r ∧ r_target_identity_digest r = t ∧
         r_state r ∈ state_value <$> RESERVATION_STATES.
Proof.
  intros Hc Ho Hw. destruct (reachable_rep cfg Hc Ho w Hw) as [m Hm].
  rewrite (reserved_lookup _ _ _ _ _ Hm). split.
  - intros (c & Hl & Hres & <-). destruct (rep_row _ _ _ _ _ Hm Hl) as (tag & _ & Hr).
    eexists. split_and!; [exact Hr|done|]. by apply state_value_in, in_states_eq.
  - intros (r & Hr & <- & Hs). destruct (rep_row_inv _ _ _ _ _ Hm Hr) as (c & tag & Hl & _ & ->).
    exists c. split_and!; [done| |done]. by apply in_states_eq, state_value_in.
Qed.

(** [C23] An idempotency key has at most one unresolved attempt, and an
    operation identifier at most one contract, in every reachable store. *)
Theorem one_active_attempt w id id' r r' :
  clock_valid cfg → others_behave cfg → reachable cfg w →
  t_contracts (db w) !! id = Some r → t_contracts (db w) !! id' = Some r' →
  (r_operation_id r = r_operation_id r' ∨
   r_idempotency_key r = r_idempotency_key r' ∧
   r_state r ∈ state_value <$> BLOCKING_IDEMPOTENCY_STATES ∧
   r_state r' ∈ state_value <$> BLOCKING_IDEMPOTENCY_STATES) → id = id'.
Proof.
  intros Hc Ho Hw Hr Hr' Hs. destruct (reachable_rep cfg Hc Ho w Hw) as [m Hm].
  destruct (rep_row_inv _ _ _ _ _ Hm Hr) as (c & tag & Hl & _ & ->).
  destruct (rep_row_inv _ _ _ _ _ Hm Hr') as (c' & tag' & Hl' & _ & ->).
  destruct Hs as [Hs|(Hk & Hb & Hb')]; [by apply (rep_operations _ _ _ Hm id id' c c')|].
  apply (rep_keys _ _ _ Hm id id' c c'); try done; apply bool_decide_eq_true; by apply state_value_in.
Qed.

(** [C24] The audit trail of every stored contract is complete and legal: it
    starts with the creation in PREPARING, its versions are 0, 1, ..., each
    row starts in the state the row before ended in, moves along an edge of
    the state machine or not at all, and the last row is in the contract's
    own state. *)
Theorem audit_trail_legal w id r :
  clock_valid cfg → others_behave cfg → reachable cfg w →
  t_contracts (db w) !! id = Some r →
  let rows := select_audit id (db w) in
  Z.of_nat (length rows) = (r_state_version r + 1)%Z ∧
  (∀ i row, rows !! i = Some row → a_state_version row = Z.of_nat i) ∧
  (∀ row, rows !! 0%nat = Some row →
     a_previous_state row = None ∧ a_current_state row = state_value PREPARING) ∧
  (∀ i row row', rows !! i = Some row → rows !! S i = Some row' →
     ∃ s t, a_current_state row = state_value s ∧ a_previous_state row' = Some (state_value s) ∧
            a_current_state row' = state_value t ∧ (s = t ∨ edge true s t)) ∧
  (∃ row, last rows = Some row ∧ a_current_state row = r_state r).
Proof.
  intros Hc Ho Hw Hr rows. destruct (reachable_rep cfg Hc Ho w Hw) as [m Hm].
  destruct (rep_row_inv _ _ _ _ _ Hm Hr) as (c & tag & Hl & _ & ->). subst rows.
  rewrite (rep_select_audit _ _ _ _ _ Hm Hl). destruct (rep_audit _ _ _ Hm _ _ Hl) as [Ha Hleg].
  apply check_audit_rows_inv in Ha as [Hlen Hloop]. cbn [row_of r_state_version r_state].
  destruct (trail_shape cfg c _ _ _ eq_refl Hloop) as (Hv & Hfst & Hstep & Hlast).
  pose proof (cf_version _ (wc_facts _ (proj2 (rep_wf _ _ _ Hm _ _ Hl)))) as Hver.
  rewrite Forall_forall in Hleg. split_and!; [lia|..].
  - done.
  - intros row Hrow. specialize (Hfst row Hrow). split; [done|].
    pose proof (Hleg _ (list_elem_of_lookup_2 _ _ _ Hrow)) as Hlr. unfold legal_event in Hlr.
    rewrite Hfst in Hlr. tauto.
  - intros i row row' Hi Hi'. specialize (Hstep i row row' Hi Hi').
    pose proof (Hleg _ (list_elem_of_lookup_2 _ _ _ Hi')) as Hlr. unfold legal_event in Hlr.
    rewrite Hstep in Hlr. destruct Hlr as (s & t & E1 & E2 & E3). exists s, t. split_and!; congruence.
  - destruct Hlast as [[Hnil _]|(row & Hlast & [= Hq])]; [rewrite Hnil in Hlen; simpl in Hlen; lia|].
    by exists row.
Qed.
End safety.
