(* ===== verification/StoreBehaviour.v ===== *)
(** * Functional behaviour of the store's operations

    Reads are exact on every reachable store, writes are all-or-nothing and
    compare-and-set.  The gates of [transition] are in [StoreGate.v]. *)

From S2P Require Import Prelude PyStr Sha256 PyDatetime Json Capability StateMachine Canonical.
From S2P Require Import Contract Evidence StoreCodec Database RatePolicy AntiRollback Store.
From S2P Require Import StoreInv StoreOps StoreProps.

Section reads.
Context `{Hash} `{UnicodeData} {E : Type} (cfg : Config E).

(** [c] is what the store holds under its identifier. *)
Definition stored (w : World E) (c : RecoveryContract) : Prop :=
  load cfg (rc_contract_id c) w = (Ok c, w).

Lemma stored_lookup m w c :
  quiet cfg → rep cfg (db w) m → stored w c ↔ m !! rc_contract_id c = Some c.
Proof.
  intros Hq Hr. unfold stored. rewrite (load_quiet cfg Hq m) by done.
  destruct (m !! rc_contract_id c); split; congruence.
Qed.

Lemma select_all_elem d id r : (id, r) ∈ select_all_contracts d ↔ t_contracts d !! id = Some r.
Proof. unfold select_all_contracts. by rewrite sort_items_perm, elem_of_map_to_list. Qed.

Lemma select_by_key_elem d key id r :
  (id, r) ∈ select_by_key key d ↔ t_contracts d !! id = Some r ∧ r_idempotency_key r = key.
Proof.
  unfold select_by_key. rewrite list_elem_of_filter, select_all_elem, pystr_eqb_eq. simpl. tauto.
Qed.

Lemma select_blocking_elem d key id r :
  select_blocking_by_key key d = Some (id, r) →
  t_contracts d !! id = Some r ∧ r_idempotency_key r = key ∧ is_blocking_value (r_state r) = true.
Proof.
  unfold select_blocking_by_key. intros Hh%head_Some_elem_of.
  apply list_elem_of_filter in Hh as [Hb Hin]. apply select_by_key_elem in Hin as [? ?]. done.
Qed.

Lemma select_blocking_none d key :
  select_blocking_by_key key d = None →
  ∀ id r, t_contracts d !! id = Some r → r_idempotency_key r = key → is_blocking_value (r_state r) = false.
Proof.
  unfold select_blocking_by_key. intros Hn id r Hr Hk.
  destruct (is_blocking_value (r_state r)) eqn:Hb; [|done].
  destruct (filter _ (select_by_key key d)) as [|x l] eqn:Hf; [|done].
  assert ((id, r) ∈ filter (λ kr : pystr * contract_row, is_blocking_value (r_state (snd kr)) = true)
    (select_by_key key d)) as Hin by (apply list_elem_of_filter; split; [done|by apply select_by_key_elem]).
  rewrite Hf in Hin. by apply elem_of_nil in Hin.
Qed.

(** Every reachable store can be read back completely: [load] finds
    exactly the rows of the table, decodes each to the well-formed contract
    it was written from, never reports an integrity failure on what the
    program wrote, and changes nothing. *)
Theorem store_readable w id :
  clock_valid cfg → quiet cfg → reachable cfg w →
  match t_contracts (db w) !! id with
  | None => load cfg id w = (Raise ContractNotFoundError, w)
  | Some r => ∃ c, load cfg id w = (Ok c, w) ∧ rc_contract_id c = id ∧
                   r = row_of c (r_mac r) ∧ contract_facts c
  end.
Proof.
  intros Hc Hq Hw. destruct (reachable_rep cfg Hc (quiet_others_behave cfg Hq) w Hw) as [m Hm].
  rewrite (load_quiet cfg Hq m) by done.
  destruct (t_contracts (db w) !! id) as [r|] eqn:Er.
  - destruct (rep_row_inv _ _ _ _ _ Hm Er) as (c & tag & Hl & _ & ->). rewrite Hl. exists c.
    destruct (rep_wf _ _ _ Hm _ _ Hl) as [Hid Hwf]. by split_and!; [| | |apply Hwf].
  - by rewrite (proj1 (rep_none _ _ _ _ Hm) Er).
Qed.

(** [find_by_idempotency_key] decides whether a fresh attempt is
    blocked: on a reachable store it never fails, and it returns a contract
    exactly when a stored contract with that key is unresolved, namely that
    contract. *)
Theorem find_by_key_exact w key :
  clock_valid cfg → quiet cfg → reachable cfg w →
  ∃ o, find_by_idempotency_key cfg key w = (Ok o, w) ∧
    ∀ c, o = Some c ↔ stored w c ∧ rc_idempotency_key c = key ∧
                      blocks_fresh_idempotency_attempt (rc_state c) = true.
Proof.
  intros Hc Hq Hw. destruct (reachable_rep cfg Hc (quiet_others_behave cfg Hq) w Hw) as [m Hm].
  unfold find_by_idempotency_key. erewrite bind_ok by (by apply select_quiet).
  destruct (select_blocking_by_key key (db w)) as [[id r]|] eqn:Es.
  - apply select_blocking_elem in Es as (Er & Hk & Hb).
    destruct (rep_row_inv _ _ _ _ _ Hm Er) as (c & tag & Hl & Ht & ->).
    destruct (rep_wf _ _ _ Hm _ _ Hl) as [<- Hwf]. cbn [row_of r_idempotency_key r_state] in Hk, Hb.
    erewrite bind_ok by (unfold lift; by rewrite decode_row_of). subst key.
    rewrite pystr_eqb_refl, Hb. cbn [negb].
    erewrite bind_ok by (by eapply verify_related_quiet). exists (Some c). split; [done|].
    rewrite is_blocking_value_state in Hb. intros c'. rewrite (stored_lookup m) by done. split.
    + by intros [= <-].
    + intros (Hl' & Hk' & Hb'). f_equal.
      assert (rc_contract_id c = rc_contract_id c') as Eid by by apply (rep_keys _ _ _ Hm _ _ c c').
      rewrite <-Eid in Hl'. congruence.
  - exists None. split; [done|]. intros c. split; [done|]. rewrite (stored_lookup m) by done.
    intros (Hl & Hk & Hb). destruct (rep_row _ _ _ _ _ Hm Hl) as (tag & _ & Er).
    pose proof (select_blocking_none _ _ Es _ _ Er Hk) as Hn. cbn [row_of r_state] in Hn.
    rewrite is_blocking_value_state in Hn. congruence.
Qed.

(** A row cannot be passed off as another: whatever is in the columns
    of a row, if it decodes at all and its tag is the tag the store computed
    for the payload of a contract, it decodes to that contract under that
    contract's identifier, unless the two HMAC messages collide. *)
Theorem decode_authentic id row c c0 m m0 :
  wf_contract c0 → decode_row cfg id row = Ok c →
  mac_message (store_id cfg) [contract_payload c0] = Ok m0 →
  mac_message (store_id cfg) [r_payload row] = Ok m →
  r_mac row = hmac_hex (integrity_key cfg) m0 →
  (c = c0 ∧ id = rc_contract_id c0) ∨ hmac_collides (integrity_key cfg) m m0.
Proof.
  intros Hwf Hd Hm0 Hm Ht. unfold decode_row, mac in Hd. rewrite Hm in Hd. cbn [mbind result_bind] in Hd.
  apply bind_Ok in Hd as ([] & Hcmp%authentic_Ok & (c1 & Hc1 & Hd)%bind_Ok).
  rewrite require_bind in Hd. destruct Hd as (Hix & [= ->]). rewrite Ht in Hcmp.
  destruct (hmac_hex_inj _ _ _ (eq_sym Hcmp)) as [->|]; [left|by right].
  pose proof (mac_message_inj _ _ _ _ Hm Hm0) as Eq. injection Eq as Eq.
  rewrite Eq, contract_payload_read in Hc1 by done. injection Hc1 as <-. split_andb.
  split; [done|]. by apply pystr_eqb_eq.
Qed.

(** What a wrong tag raises.  A stored tag that is not the one the store
    computes for its row is refused, with [ContractIntegrityError] if its
    text is ASCII and with [TypeError], which is no [Tier1Error], if it is
    not: for a contract's row, for the high water mark and for the
    provisioning marker alike. *)
Theorem tampered_tag_raises id row tag d text label expected (v : Z) :
  let refusal := if is_ascii tag then ContractIntegrityError else TypeError in
  (mac cfg [r_payload row] = Ok expected → r_mac row = tag → tag ≠ expected → decode_row cfg id row = Raise refusal) ∧
  (t_anchor_state d !! high_water_mark_KEY = Some (text, tag) → int_of_text text = Some v → (0 <= v)%Z →
   hwm_mac (integrity_key cfg) (store_id cfg) v = Ok label → tag ≠ label →
   hwm_read (integrity_key cfg) (store_id cfg) d = Raise refusal) ∧
  (t_anchor_state d !! provisioning_KEY = Some (text, tag) →
   provisioning_mac (integrity_key cfg) (store_id cfg) text = Ok label → tag ≠ label →
   is_complete (integrity_key cfg) (store_id cfg) d = Raise refusal ∧
   provisioning_read (integrity_key cfg) (store_id cfg) d = Raise refusal).
Proof.
  split_and!.
  - intros Hm Ht Hne. unfold decode_row. rewrite Hm, Ht. cbn [mbind result_bind].
    rewrite authentic_other; [done|by eapply mac_ascii|done].
  - intros Hrow Hi Hv Hm Hne. unfold hwm_read. rewrite Hrow, Hi. cbn [of_option mbind result_bind].
    rewrite (proj2 (Z.ltb_ge _ _)) by done. rewrite Hm. cbn [mbind result_bind].
    rewrite authentic_other; [done|by eapply labelled_mac_ascii|done].
  - intros Hrow Hm Hne. unfold is_complete, provisioning_read. rewrite Hrow, Hm. cbn [mbind result_bind].
    rewrite authentic_other; [done|by eapply labelled_mac_ascii|done].
Qed.

(** The tag of an audit event is never the tag of a contract payload:
    the two HMAC messages differ whatever the payloads are. *)
Theorem audit_tag_domain payload event m m' :
  mac_message (store_id cfg) [payload] = Ok m →
  mac_message (store_id cfg) [ascii_bytes (u "audit-event"); event] = Ok m' → m ≠ m'.
Proof. intros Hm Hm' ->. by pose proof (mac_message_inj _ _ _ _ Hm Hm'). Qed.
End reads.

(** ** Writes *)

Section writes.
Context `{Hash} `{UnicodeData} {E : Type} (cfg : Config E).

Lemma transaction_quiet {A} (body : prog (World E) A) w :
  quiet cfg →
  transaction (other_writers cfg) body w =
    match body w with
    | (Ok a, w1) => (Ok a, w1)
    | (Raise e, w1) => (Raise e, mkWorld (db w) (env w1))
    end.
Proof. intros Hq. unfold transaction. by rewrite interfere_quiet. Qed.

(** The shape shared by [create] and [_replace]. *)
Lemma guarded_transaction_cases (body : prog (World E) ()) w r w' :
  quiet cfg →
  (_ ← conflict_on_integrity_error
     (_ ← invoke_fault cfg "before_transaction"; transaction (other_writers cfg) body);
   invoke_fault cfg "after_commit") w = (r, w') →
  (db w' = db w ∧ ∃ e, r = Raise e) ∨
  (∃ w0 w1, db w0 = db w ∧ body w0 = (Ok (), w1) ∧ db w' = db w1 ∧
            (r = Ok () ∨ is_none (fault_hook cfg) = false)).
Proof.
  intros Hq Hp. unfold mbind, prog_bind, conflict_on_integrity_error, catch in Hp.
  destruct (invoke_fault cfg "before_transaction" w) as [[[]|e] w0] eqn:E0;
    pose proof (invoke_fault_inv _ _ _ _ _ E0) as D0.
  2: { unfold raise in Hp. injection Hp as <- <-. left. split; [done|]. by eexists. }
  rewrite transaction_quiet in Hp by done. destruct (body w0) as [[[]|e] w1] eqn:E1.
  - right. exists w0, w1. pose proof (invoke_fault_inv _ _ _ _ _ Hp) as D1. split_and!; try done.
    destruct (fault_hook cfg) eqn:Eh; [by right|]. left. unfold invoke_fault in Hp. rewrite Eh in Hp.
    by injection Hp as <- _.
  - unfold raise in Hp. injection Hp as <- <-. left. split; [done|]. by eexists.
Qed.

(** [create] is all or nothing: either it leaves the database exactly
    as it was, or the row and the first audit event are both in place; it
    succeeds only in the second case, and without a fault hook it fails
    only in the first. *)
Theorem create_all_or_nothing c w :
  clock_valid cfg → quiet cfg →
  let r := fst (create cfg c w) in
  let d' := db (snd (create cfg c w)) in
  (d' = db w ∧ ∃ e, r = Raise e) ∨
  (∃ tag row, created cfg (db w) d' c tag row ∧ (r = Ok () ∨ is_none (fault_hook cfg) = false)).
Proof.
  intros Hc Hq r d'. subst r d'. destruct (create cfg c w) as [r w'] eqn:Hp. cbn [fst snd].
  unfold create in Hp. destruct (_ || _) eqn:Eg in Hp.
  { injection Hp as <- <-. left. by split; [|eexists]. }
  rewrite !orb_false_iff, !negb_false_iff in Eg. destruct Eg as [[Es%state_eqb_eq Ev%Z.eqb_eq] _].
  unfold mbind at 1, prog_bind at 1 in Hp. destruct (now_ cfg w) as [[t|e] w1] eqn:En.
  2: { injection Hp as <- <-. left. split; [|by eexists]. unfold now_ in En.
       destruct (clock cfg (env w)). by injection En as _ <-. }
  apply now_inv in En as (Dn & _); [|done].
  unfold mbind at 1, prog_bind at 1, lift in Hp. destruct (is_expired c t) as [ex|e].
  2: { injection Hp as <- <-. left. split; [done|by eexists]. }
  destruct (_ || _) in Hp.
  { injection Hp as <- <-. left. split; [done|by eexists]. }
  destruct (guarded_transaction_cases _ _ _ _ Hq Hp) as [[D He]|(w2 & w3 & D2 & Hb & D3 & Hr)].
  - left. split; [congruence|done].
  - right. destruct (create_body_inv cfg Hc c t w2 w3 Es Ev Hb) as (tag & row & Ht & Hd).
    exists tag, row. split; [|done]. rewrite D3, <-Dn, <-D2. done.
Qed.

Lemma replace_cases m cur upd et w r w' :
  clock_valid cfg → quiet cfg → rep cfg (db w) m → m !! rc_contract_id cur = Some cur → successor cur upd →
  replace_ cfg cur upd et w = (r, w') →
  (db w' = db w ∧ ∃ e, r = Raise e) ∨
  (∃ tag row, replaced cfg (db w) (db w') cur upd tag row ∧
     (r = Ok upd ∨ is_none (fault_hook cfg) = false)).
Proof.
  intros Hc Hq Hr Hl Hs Hp. unfold replace_ in Hp.
  set (first := conflict_on_integrity_error _) in Hp.
  assert (∃ r0, (_ ← first; invoke_fault cfg "after_commit") w = (r0, w') ∧
    ((∃ e, r0 = Raise e ∧ r = Raise e) ∨ (r0 = Ok () ∧ r = Ok upd))) as (r0 & Hp0 & Hr0).
  { unfold mbind, prog_bind in *. destruct (first w) as [[[]|e] w1].
    - destruct (invoke_fault cfg "after_commit" w1) as [[[]|e] w2].
      + injection Hp as <- <-. exists (Ok ()). split; [done|]. by right.
      + injection Hp as <- <-. exists (Raise e). split; [done|]. left. by exists e.
    - injection Hp as <- <-. exists (Raise e). split; [done|]. left. by exists e. }
  destruct (guarded_transaction_cases _ _ _ _ Hq Hp0) as [[D [e He]]|(w2 & w3 & D2 & Hb & D3 & He)].
  - left. split; [done|]. destruct Hr0 as [(e' & _ & ->)|[? _]]; [by eexists|congruence].
  - right. rewrite <-D2 in Hr.
    destruct (replace_body_inv cfg Hc m cur cur upd et w2 w3 Hr Hl (PreOrder_Reflexive _) Hs Hb)
      as (_ & tag & row & _ & Hd).
    exists tag, row. split; [by rewrite D3, <-D2|]. destruct He as [->|He]; [|by right].
    destruct Hr0 as [(e' & ? & _)|[_ ->]]; [done|by left].
Qed.
End writes.
