(* ===== verification/StoreGate.v ===== *)
(** * The gates of the store's transitions

    [transition] opened into its checks: what must hold before a contract
    enters EXECUTING, what a store that was rolled back or an anchor that
    moved does to it, and the compare-and-set that lets one of two racing
    callers through. *)

From S2P Require Import Prelude PyStr Sha256 PyDatetime Json Capability StateMachine Canonical.
From S2P Require Import Contract Evidence StoreCodec Database RatePolicy AntiRollback Store.
From S2P Require Import StoreInv StoreOps StoreProps StoreBehaviour.

Section gates.
Context `{Hash} `{UnicodeData} {E : Type} (cfg : Config E).

Lemma expired_false c t b : is_expired c t = Ok b → is_utc t = true ∧ b = dt_leb (rc_expires_at c) t.
Proof. unfold is_expired. rewrite require_bind. by intros [? [= <-]]. Qed.

Lemma dt_leb_ltb a b : dt_leb a b = false → dt_ltb b a = true.
Proof. unfold dt_leb, dt_ltb. rewrite Z.leb_gt, Z.ltb_lt. done. Qed.

(** The checks of [transition], when they pass. *)
Lemma execution_checks_inv policy t w w' :
  execution_checks cfg policy t w = (Ok (), w') →
  same_tables (db w) (db w') ∧
  (∀ a, anti_rollback_anchor cfg = Some a → participates_in_witness policy = true →
     before_executing_transition (integrity_key cfg) (store_id cfg) a w = (Ok (), w')) ∧
  (∀ l, rate_policy cfg = Some l → check_execute_allowed l t (db w') = Ok ()).
Proof.
  intros Hp. split; [by eapply execution_checks_frame|]. unfold execution_checks in Hp.
  apply bind_inv in Hp as ([] & w1 & Ha & Hl).
  assert (w' = w1 ∧ ∀ l, rate_policy cfg = Some l → check_execute_allowed l t (db w1) = Ok ()) as [-> Hlim].
  { destruct (rate_policy cfg) as [l|]; [|by apply ret_inv in Hl as [_ ->]].
    apply bind_inv in Hl as (x & w2 & [-> ->]%select_tx_inv & [Hx ->]%lift_inv).
    split; [done|]. by intros ? [= <-]. }
  split; [|done]. intros a Ea Hpart. by rewrite Ea, Hpart in Ha.
Qed.

(** The block that guards EXECUTING, in a world where nobody interferes. *)
Lemma enter_executing_inv cur t policy w w' :
  quiet cfg → enter_executing cfg cur t policy w = (Ok (), w') →
  is_confirmed cur = true ∧ dt_ltb t (rc_expires_at cur) = true ∧ same_tables (db w) (db w') ∧
  ∃ p, policy = Some p ∧
    (∀ a, anti_rollback_anchor cfg = Some a → participates_in_witness p = true →
       before_executing_transition (integrity_key cfg) (store_id cfg) a w = (Ok (), w')) ∧
    (∀ l, rate_policy cfg = Some l → check_execute_allowed l t (db w') = Ok ()).
Proof.
  intros Hq Hp. unfold enter_executing in Hp. apply bind_inv in Hp as (refused & w1 & Hc & Hp).
  assert (w1 = w ∧ (refused = false → is_confirmed cur = true ∧ dt_ltb t (rc_expires_at cur) = true))
    as [-> Hok].
  { destruct (is_confirmed cur); cbn [negb] in Hc.
    - apply lift_inv in Hc as [[_ ->]%expired_false ->]. split; [done|]. intros Hf.
      split; [done|]. by apply dt_leb_ltb.
    - by apply ret_inv in Hc as [-> ->]. }
  destruct refused; [done|]. destruct (Hok eq_refl) as [Hconf Hexp]. split; [done|]. split; [done|].
  destruct policy as [p|]; [|done].
  assert ((anti_rollback_anchor cfg = None ∧ rate_policy cfg = None ∧ w' = w) ∨
    transaction (other_writers cfg) (execution_checks cfg p t) w = (Ok (), w')) as [(Ha & Hl & ->)|Htx].
  { destruct (anti_rollback_anchor cfg), (rate_policy cfg); try (right; exact Hp).
    apply ret_inv in Hp as [_ ->]. by left. }
  - split; [done|]. exists p. split_and!; [done| |]; intros ?; congruence.
  - rewrite transaction_quiet in Htx by done.
    destruct (execution_checks cfg p t w) as [[[]|x] w1] eqn:Ex; [|done]. injection Htx as <-.
    apply execution_checks_inv in Ex as (Hs & Ha & Hl). split; [done|]. by exists p.
Qed.

(** A refused block leaves the database as it was. *)
Lemma enter_executing_raise cur t policy w e w' :
  quiet cfg → enter_executing cfg cur t policy w = (Raise e, w') → db w' = db w.
Proof.
  intros Hq. unfold enter_executing, mbind, prog_bind.
  destruct (is_confirmed cur); cbn [negb].
  2: { cbn. by intros [= _ <-]. }
  unfold lift. destruct (is_expired cur t) as [[]|]; [by intros [= _ <-]| |by intros [= _ <-]].
  destruct policy as [p|]; [|by intros [= _ <-]].
  assert (∀ w', transaction (other_writers cfg) (execution_checks cfg p t) w = (Raise e, w') → db w' = db w)
    as Htx.
  { intros w1. rewrite transaction_quiet by done.
    destruct (execution_checks cfg p t w) as [[?|?] ?]; [done|]. by intros [= _ <-]. }
  destruct (anti_rollback_anchor cfg), (rate_policy cfg); by auto.
Qed.

Lemma load_world id w : quiet cfg → snd (load cfg id w) = w.
Proof.
  intros Hq. unfold load. erewrite bind_ok by (by apply select_quiet).
  destruct (select_contract id (db w)) as [row|]; [|done].
  unfold mbind, prog_bind, lift. destruct (decode_row cfg id row) as [c|]; [|done].
  destruct (negb _); [done|]. unfold verify_related_state, verify_reservation, verified_audit_rows,
    mbind, prog_bind. rewrite !select_quiet by done. unfold lift.
  destruct (require _ _) as [a|]; [|done]. rewrite select_quiet by done. by destruct (check_audit_rows _ _ _).
Qed.

(** [transition] stops before its gates, leaving the database alone, or
    runs them on the contract it read, and then [_replace]. *)
Lemma transition_cases id es ev ts policy et w :
  quiet cfg →
  let out := transition cfg id es ev ts policy et w in
  (∃ e, fst out = Raise e ∧ db (snd out) = db w) ∨
  (∃ cur, load cfg id w = (Ok cur, w) ∧ rc_state cur = es ∧ rc_state_version cur = ev ∧
     edge false es ts ∧ ts ≠ VERIFIED ∧ ts ≠ ROLLED_BACK ∧
     ∃ t w1, now_ cfg w = (Ok t, w1) ∧ db w1 = db w ∧ env w1 = snd (clock cfg (env w)) ∧
     out = (_ ← (if state_eqb ts EXECUTING then enter_executing cfg cur t policy else mret ());
            updated ← lift (replace_state cur ts (rc_verified_target_fingerprint cur));
            replace_ cfg cur updated et) w1).
Proof.
  intros Hq out. destruct out as [r w'] eqn:Hp. subst out. cbn [fst snd].
  assert (∀ w0, db w0 = db w → (∃ e, (Raise (A:=RecoveryContract) e, w0) = (r, w')) →
    (∃ e, r = Raise e ∧ db w' = db w)) as Hstop.
  { intros w0 Hd [e [= <- <-]]. by exists e. }
  unfold transition, mbind at 1, prog_bind at 1, lift at 1 in Hp.
  destruct (require _ _) as [[]|] in Hp; [|left; eapply Hstop; [done|by eexists]].
  unfold mbind at 1, prog_bind at 1, lift at 1 in Hp.
  destruct (require_transition es ts false) as [[]|] eqn:He in Hp; [|left; eapply Hstop; [done|by eexists]].
  destruct (state_eqb ts VERIFIED) eqn:E1 in Hp; [left; eapply Hstop; [done|by eexists]|].
  destruct (state_eqb ts ROLLED_BACK) eqn:E2 in Hp; [left; eapply Hstop; [done|by eexists]|].
  unfold mbind at 1, prog_bind at 1 in Hp. pose proof (load_world id w Hq) as Hw.
  destruct (load cfg id w) as [[cur|e] w0] eqn:Hl; cbn [snd] in Hw; subst w0;
    [|left; eapply Hstop; [done|by eexists]].
  destruct (_ || _) eqn:Ecas in Hp; [left; eapply Hstop; [done|by eexists]|].
  rewrite orb_false_iff, !negb_false_iff, state_eqb_eq, Z.eqb_eq in Ecas. destruct Ecas as [Es Ev].
  unfold mbind at 1, prog_bind at 1 in Hp. destruct (now_ cfg w) as [r1 w1] eqn:En.
  assert (db w1 = db w ∧ env w1 = snd (clock cfg (env w))) as [Hd1 He1].
  { unfold now_ in En. destruct (clock cfg (env w)). by injection En as _ <-. }
  destruct r1 as [t|e]; [|left; eapply Hstop; [done|by eexists]].
  unfold mbind at 1, prog_bind at 1 in Hp.
  assert (∃ r, (if in_states (rc_state cur) [PREPARING; PREPARED]
                then lift (is_expired cur t) else mret false) w1 = (r, w1)) as [r2 Hr2].
  { destruct (in_states _ _); by eexists. }
  rewrite Hr2 in Hp. destruct r2 as [stale|x]; [|left; eapply Hstop; [done|by eexists]].
  destruct (stale && _) in Hp; [left; eapply Hstop; [done|by eexists]|]. right. exists cur.
  split_and!; [done..|by intros ->|by intros ->|]. exists t, w1. by rewrite <-Hp.
Qed.

(** ** What [_replace] leaves alone *)

(** [keeps P p]: every run of [p] keeps the property [P] of the tables. *)
Definition keeps {A} (P : DB → Prop) (p : prog (World E) A) : Prop := preserves (λ w, P (db w)) p.

Lemma keeps_env_call {A} P (p : prog E A) : keeps P (env_call p).
Proof. intros w Hw. destruct (env_call p w) as [r w'] eqn:Hp. apply env_call_inv in Hp. cbn. by rewrite Hp. Qed.

Lemma keeps_fault P pt : keeps P (invoke_fault cfg pt).
Proof. intros w Hw. destruct (invoke_fault cfg pt w) as [r w'] eqn:Hp. apply invoke_fault_inv in Hp. cbn. by rewrite Hp. Qed.

Lemma keeps_now P : keeps P (now_ cfg).
Proof. intros w Hw. unfold now_. by destruct (clock cfg (env w)). Qed.

Lemma keeps_select {A} P md (f : DB → A) : quiet cfg → keeps P (select (other_writers cfg) md f).
Proof. intros Hq w Hw. by rewrite select_quiet. Qed.

Lemma keeps_execute {A} (P : DB → Prop) (f : DB → result (A * DB)) :
  (∀ d a d', P d → f d = Ok (a, d') → P d') → keeps P (execute f).
Proof. intros Hf w Hw. unfold execute. destruct (f (db w)) as [[a d]|] eqn:Ef; [by eapply Hf|done]. Qed.

Lemma keeps_execute_ (P : DB → Prop) (f : DB → result DB) :
  (∀ d d', P d → f d = Ok d' → P d') → keeps P (execute_ f).
Proof. intros Hf. apply keeps_execute. intros d [] d' Hd (x & Hx & [= <-])%bind_Ok. by eapply Hf. Qed.

Lemma keeps_transaction {A} P (p : prog (World E) A) :
  quiet cfg → keeps P p → keeps P (transaction (other_writers cfg) p).
Proof.
  intros Hq Hp w Hw. rewrite transaction_quiet by done. specialize (Hp w Hw).
  by destruct (p w) as [[a|e] w1].
Qed.

#[local] Hint Resolve keeps_env_call keeps_fault keeps_now : tier1.

Lemma keeps_insert_audit (P : DB → Prop) c et prev :
  (∀ d l, P d → P (set_audit d l)) → keeps P (insert_audit cfg c et prev).
Proof.
  intros Ha. apply preserves_bind; [apply keeps_now|]. intros t.
  apply preserves_bind; [apply preserves_lift|]. intros tag. apply keeps_execute_. intros d d' Hd.
  unfold insert_audit_row. rewrite require_bind. intros [_ [= <-]]. by apply Ha.
Qed.

(** [_replace] touches the contracts, their reservations, the audit trail
    and the cooldowns, and nothing else. *)
Lemma keeps_replace (P : DB → Prop) cur upd et :
  quiet cfg →
  (∀ d l, P d → P (set_audit d l)) → (∀ d t, P d → P (set_contracts d t)) →
  (∀ d t, P d → P (set_reservations d t)) → (∀ d t, P d → P (set_cooldowns d t)) →
  keeps P (replace_ cfg cur upd et).
Proof.
  intros Hq Ha Hc Hr Hl. unfold replace_, conflict_on_integrity_error.
  apply preserves_bind; [|intros; apply preserves_bind; auto with tier1; apply keeps_fault].
  apply preserves_catch; [|intros; apply preserves_raise].
  apply preserves_bind; [apply keeps_fault|]. intros _. apply keeps_transaction; [done|]. unfold replace_body.
  apply preserves_bind; [by apply keeps_select|]. intros [row|]; [|apply preserves_raise].
  apply preserves_bind; [apply preserves_lift|]. intros au.
  apply preserves_bind; [|intros _].
  { unfold verify_related_state, verify_reservation, verified_audit_rows.
    repeat (apply preserves_bind; intros); auto using keeps_select with tier1; by apply keeps_select. }
  destruct (_ || _); [apply preserves_raise|]. apply preserves_bind; [|intros _].
  { case_match; [|case_match; [|apply preserves_ret]]; apply keeps_execute_; intros d d' Hd.
    - unfold insert_reservation. rewrite require_bind. intros [_ [= <-]]. by apply Hr.
    - intros [= <-]. by apply Hr. }
  apply preserves_bind; [apply preserves_lift|]. intros tag. apply preserves_bind; [|intros n].
  { apply keeps_execute. intros d k d' Hd. unfold update_contract.
    destruct (_ !! _) as [r|]; [|by intros [= _ <-]]. case_match; [|by intros [= _ <-]].
    rewrite require_bind. intros [_ [= _ <-]]. by apply Hc. }
  destruct (negb _); [apply preserves_raise|]. apply preserves_bind; [by apply keeps_insert_audit|]. intros _.
  apply preserves_bind; [|intros; apply preserves_bind; intros; apply keeps_fault].
  destruct (rate_policy cfg) as [l|]; [|apply preserves_ret]. case_match; [|apply preserves_ret].
  apply preserves_bind; [apply keeps_now|]. intros t. apply keeps_execute_. intros d d' Hd.
  unfold record_terminal. rewrite require_bind. intros (_ & (x & _ & [= <-])%bind_Ok). by apply Hl.
Qed.

Lemma replace_result cur upd et w r w' : replace_ cfg cur upd et w = (Ok r, w') → r = upd.
Proof.
  unfold replace_. intros Hp. apply bind_inv in Hp as ([] & w1 & _ & Hp).
  apply bind_inv in Hp as ([] & w2 & _ & Hp). by apply ret_inv in Hp as [-> _].
Qed.

Lemma replace_ok m cur upd et w r w' :
  clock_valid cfg → quiet cfg → rep cfg (db w) m → m !! rc_contract_id cur = Some cur →
  successor cur upd → wf_contract upd → replace_ cfg cur upd et w = (Ok r, w') →
  r = upd ∧ rep cfg (db w') (<[rc_contract_id cur := upd]> m) ∧
  ∃ tag row, replaced cfg (db w) (db w') cur upd tag row.
Proof.
  intros Hc Hq Hr Hl Hs Hwf Hp. split; [by eapply replace_result|].
  unfold replace_ in Hp. apply bind_inv in Hp as ([] & w1 & Ht & Hp).
  apply bind_inv in Hp as ([] & w2 & Hf%invoke_fault_inv & Hp). apply ret_inv in Hp as [_ ->].
  unfold conflict_on_integrity_error in Ht. apply catch_raise_inv, bind_inv in Ht as ([] & w3 & Hf0%invoke_fault_inv & Ht).
  rewrite transaction_quiet in Ht by done.
  destruct (replace_body cfg cur upd et w3) as [[[]|x] w4] eqn:Hb; [|done]. injection Ht as <-.
  rewrite <-Hf0 in Hr.
  destruct (replace_body_inv cfg Hc m cur cur upd et w3 w4 Hr Hl (PreOrder_Reflexive _) Hs Hb)
    as (_ & tag & row & Htag & Hd).
  pose proof (identity_fields _ _ (proj1 Hs)) as (E1 & _). rewrite Hf, E1, <-Hf0.
  split; [by eapply rep_replaced|by eexists _, _].
Qed.

(** A transition that returned, on tables that hold [m]. *)
Lemma transition_ok m id es ev ts policy et w r w' :
  clock_valid cfg → quiet cfg → rep cfg (db w) m →
  transition cfg id es ev ts policy et w = (Ok r, w') →
  ∃ cur w1 w2, m !! id = Some cur ∧ rc_state cur = es ∧ rc_state_version cur = ev ∧ edge false es ts ∧
    db w1 = db w ∧ env w1 = snd (clock cfg (env w)) ∧
    (ts = EXECUTING → enter_executing cfg cur (fst (clock cfg (env w))) policy w1 = (Ok (), w2)) ∧
    (ts ≠ EXECUTING → w2 = w1) ∧ same_tables (db w) (db w2) ∧
    successor cur r ∧ rc_state r = ts ∧ replace_ cfg cur r et w2 = (Ok r, w') ∧
    rep cfg (db w') (<[id := r]> m).
Proof.
  intros Hc Hq Hr Hp. destruct (transition_cases id es ev ts policy et w Hq)
    as [(e & He & _)|(cur & Hl & Es & Ev & Hed & Hn1 & Hn2 & t & w1 & Hnow & Hd & Henv & Hout)];
    [by rewrite Hp in He|].
  rewrite Hp in Hout. symmetry in Hout. apply bind_inv in Hout as ([] & w2 & Hg & Hout).
  apply bind_inv in Hout as (upd & w3 & [Hupd ->]%lift_inv & Hrep).
  pose proof (replace_result _ _ _ _ _ _ Hrep) as ->.
  rewrite (load_quiet cfg Hq m) in Hl by done. destruct (m !! id) as [x|] eqn:Hm; [|done].
  injection Hl as ->. destruct (rep_wf _ _ _ Hr _ _ Hm) as [Hid Hwf].
  apply replace_state_spec in Hupd as (Hwfu & Hsuc & Hst & _ & _); [|done|rewrite Es; by eapply edge_manual].
  assert (t = fst (clock cfg (env w))) as ->.
  { unfold now_ in Hnow. destruct (clock cfg (env w)) as [i e]. destruct (is_utc i); [|done].
    by injection Hnow as ->. }
  assert ((ts = EXECUTING → enter_executing cfg cur (fst (clock cfg (env w))) policy w1 = (Ok (), w2)) ∧
          (ts ≠ EXECUTING → w2 = w1) ∧ same_tables (db w) (db w2)) as (Hg1 & Hg2 & Hsame).
  { destruct (state_eqb ts EXECUTING) eqn:Ets.
    - apply state_eqb_eq in Ets as ->. split_and!; [done|done|]. rewrite <-Hd.
      by apply enter_executing_inv in Hg as (_ & _ & ? & _).
    - apply ret_inv in Hg as [_ ->]. split_and!; [|done|by rewrite Hd].
      intros ->. by rewrite state_eqb_refl in Ets. }
  exists cur, w1, w2. split_and!; try done. rewrite <-Hid. rewrite <-Hid in Hm.
  exact (proj1 (proj2 (replace_ok m cur upd et w2 upd w' Hc Hq (rep_same_tables _ _ _ _ Hr Hsame) Hm Hsuc Hwfu Hrep))).
Qed.

(** A transition leaves the encrypted artifacts alone. *)
Lemma transition_sealed m id es ev ts policy et w r w' :
  quiet cfg → rep cfg (db w) m → transition cfg id es ev ts policy et w = (Ok r, w') →
  ∃ cur, m !! id = Some cur ∧ same_artifacts cur r.
Proof.
  intros Hq Hr Hp. destruct (transition_cases id es ev ts policy et w Hq)
    as [(e & He & _)|(cur & Hl & _ & _ & _ & _ & _ & t & w1 & _ & _ & _ & Hout)]; [by rewrite Hp in He|].
  rewrite Hp in Hout. symmetry in Hout. apply bind_inv in Hout as ([] & w2 & _ & Hout).
  apply bind_inv in Hout as (upd & w3 & [Hupd ->]%lift_inv & Hrep). apply replace_result in Hrep as ->.
  rewrite (load_quiet cfg Hq m) in Hl by done. destruct (m !! id) as [x|]; [|done]. injection Hl as ->.
  exists cur. split; [done|]. by eapply replace_state_sealed.
Qed.

(** What the anchor said and what the mark became. *)
Lemma anchor_gate (a : Anchor E) (w w' : World E) :
  before_executing_transition (integrity_key cfg) (store_id cfg) a w = (Ok (), w') →
  ∃ v advanced e1 e2, hwm_read (integrity_key cfg) (store_id cfg) (db w) = Ok v ∧
    anchor_read a (env w) = (Ok v, e1) ∧ anchor_advance a v e1 = (Ok advanced, e2) ∧
    hwm_persist (integrity_key cfg) (store_id cfg) advanced (db w) = Ok (db w').
Proof.
  intros Hp. destruct (hwm_read (integrity_key cfg) (store_id cfg) (db w)) as [v|x] eqn:Hv.
  - rewrite (before_executing_transition_run _ _ _ _ v) in Hp by done.
    destruct (anchor_read a (env w)) as [[cur|x] e1] eqn:Hread; [|done].
    destruct (Z.eqb_spec cur v) as [->|]; [|done].
    destruct (anchor_advance a v e1) as [[adv|x] e2] eqn:Hadv; [|done].
    destruct (hwm_persist _ _ adv (db w)) as [d|x] eqn:Hd; [|done]. injection Hp as <-.
    by exists v, adv, e1, e2.
  - unfold before_executing_transition, mbind, prog_bind in Hp. by rewrite Hv in Hp.
Qed.

(** [C17] Nothing enters EXECUTING unless every gate agreed.  When
    [transition] to EXECUTING returns on a reachable store, the stored
    contract was PREPARED at the expected version, carried a confirmation,
    had not expired by the store's own clock, and a policy was supplied; a
    configured anchor, for a policy that participates, held exactly the
    value of the store's authenticated mark and was advanced, and the mark
    now reads as the advanced value; the number of contracts in flight was
    below a configured limit; and what is stored afterwards is that
    contract, one version later, in EXECUTING. *)
Theorem executing_gated (w w' : World E) id es ev policy et r :
  clock_valid cfg → quiet cfg → reachable cfg w →
  transition cfg id es ev EXECUTING policy et w = (Ok r, w') →
  ∃ cur p, stored cfg w cur ∧ rc_contract_id cur = id ∧ rc_state cur = PREPARED ∧
    rc_state_version cur = ev ∧ is_confirmed cur = true ∧
    dt_ltb (fst (clock cfg (env w))) (rc_expires_at cur) = true ∧ policy = Some p ∧
    (∀ a, anti_rollback_anchor cfg = Some a → participates_in_witness p = true →
       ∃ v advanced e1 e2, hwm_read (integrity_key cfg) (store_id cfg) (db w) = Ok v ∧
         anchor_read a (snd (clock cfg (env w))) = (Ok v, e1) ∧
         anchor_advance a v e1 = (Ok advanced, e2) ∧
         ((0 <= advanced)%Z → hwm_read (integrity_key cfg) (store_id cfg) (db w') = Ok advanced)) ∧
    (∀ l, rate_policy cfg = Some l →
       (count_contracts (λ row, existsb (λ s, has_state s row) IN_FLIGHT_STATES) (db w)
          < max_global_in_flight l)%Z) ∧
    stored cfg w' r ∧ successor cur r ∧ rc_state r = EXECUTING.
Proof.
  intros Hc Hq Hw Hp. destruct (reachable_rep cfg Hc (quiet_others_behave cfg Hq) w Hw) as [m Hr].
  destruct (transition_ok m _ _ _ _ _ _ _ _ _ Hc Hq Hr Hp)
    as (cur & w1 & w2 & Hm & Es & Ev & Hed & Hd & Henv & Hg & _ & Hsame & Hsuc & Hst & Hrep & Hr').
  destruct (enter_executing_inv _ _ _ _ _ Hq (Hg eq_refl)) as (Hconf & Hexp & _ & p & -> & Ha & Hl).
  destruct (rep_wf _ _ _ Hr _ _ Hm) as [Hid _]. subst id.
  assert (rc_contract_id r = rc_contract_id cur) as Er
    by (destruct Hsuc as (Hi & _); by apply identity_fields in Hi as (-> & _)).
  assert (es = PREPARED) as Hes by (destruct es; by cbv in Hed).
  exists cur, p. split_and!; try done; try congruence.
  - by apply (stored_lookup cfg m).
  - intros a Ea Hpart. destruct (anchor_gate a w1 w2 (Ha a Ea Hpart)) as (v & adv & e1 & e2 & Hv & Hrd & Had & Hper).
    exists v, adv, e1, e2. rewrite <-Henv. split_and!; try congruence. intros Hpos.
    rewrite Hd in Hper. apply (hwm_persist_read _ _ _ _ _ Hpos) in Hper. revert Hper.
    unfold hwm_read. assert (t_anchor_state (db w') = t_anchor_state (db w2)) as ->; [|done].
    pose proof (keeps_replace (λ d, t_anchor_state d = t_anchor_state (db w2)) cur r et Hq) as Hk.
    specialize (Hk ltac:(done) ltac:(done) ltac:(done) ltac:(done) w2 eq_refl). by rewrite Hrep in Hk.
  - intros l El. specialize (Hl l El). apply check_execute_allowed_Ok in Hl as [_ Hl].
    unfold count_contracts in *. by rewrite (proj1 Hsame) in Hl.
  - apply (stored_lookup cfg _ _ _ Hq Hr'). by rewrite Er, lookup_insert_eq.
Qed.

(** [C19] A store put back to an older copy cannot act.  Whatever the tables
    hold, if the mark they carry differs from what the anchor reports, no
    [transition] to EXECUTING under a policy that participates returns:
    it raises and leaves every table as it was. *)
Theorem stale_store_refused (a : Anchor E) p (w : World E) id es ev et v v' :
  quiet cfg → anti_rollback_anchor cfg = Some a → participates_in_witness p = true →
  hwm_read (integrity_key cfg) (store_id cfg) (db w) = Ok v →
  fst (anchor_read a (snd (clock cfg (env w)))) = Ok v' → v ≠ v' →
  ∃ e, fst (transition cfg id es ev EXECUTING (Some p) et w) = Raise e ∧
       db (snd (transition cfg id es ev EXECUTING (Some p) et w)) = db w.
Proof.
  intros Hq Ha Hpart Hv Hread Hne.
  destruct (transition_cases id es ev EXECUTING (Some p) et w Hq)
    as [Hc|(cur & _ & _ & _ & _ & _ & _ & t & w1 & _ & Hd & Henv & ->)]; [done|].
  unfold mbind, prog_bind. rewrite state_eqb_refl.
  destruct (enter_executing cfg cur t (Some p) w1) as [[[]|e] w2] eqn:Hg.
  - apply enter_executing_inv in Hg as (_ & _ & _ & q & [= <-] & Hg & _); [|done].
    apply (Hg a Ha) in Hpart as (v1 & adv & e1 & e2 & Hv1 & Hr1 & _)%anchor_gate.
    rewrite Hd, Hv in Hv1. rewrite Henv in Hr1. rewrite Hr1 in Hread. simpl in Hread. congruence.
  - exists e. split; [done|]. simpl. apply enter_executing_raise in Hg; [|done]. congruence.
Qed.

(** A refusal after the anchor moved leaves the store unable to
    execute.  The mark is written in the transaction that also applies the
    rate limit; the anchor is not part of it.  When the gates pass, the
    anchor is advanced from [v] to [v'] and the limit then refuses, the
    rollback takes the new mark back while the anchor keeps [v']: the call
    raises the limit's error, the tables are as before, and the anchor is
    ahead of the mark. *)
Theorem refusal_desynchronises (a : Anchor E) l p (w : World E) cur ev et v v' x e1 e2 :
  quiet cfg → anti_rollback_anchor cfg = Some a → rate_policy cfg = Some l →
  participates_in_witness p = true →
  stored cfg w cur → rc_state cur = PREPARED → rc_state_version cur = ev → is_confirmed cur = true →
  is_utc (fst (clock cfg (env w))) = true →
  dt_ltb (fst (clock cfg (env w))) (rc_expires_at cur) = true → et ≠ [] →
  hwm_read (integrity_key cfg) (store_id cfg) (db w) = Ok v →
  anchor_read a (snd (clock cfg (env w))) = (Ok v, e1) → anchor_advance a v e1 = (Ok v', e2) →
  is_Ok (hwm_mac (integrity_key cfg) (store_id cfg) v') →
  check_execute_allowed l (fst (clock cfg (env w))) (db w) = Raise x →
  transition cfg (rc_contract_id cur) PREPARED ev EXECUTING (Some p) et w =
    (Raise x, mkWorld (db w) e2).
Proof.
  intros Hq Ha Hl Hpart Hload Hs Hv Hc Hu Hexp Het Hm Hread Hadv [tag Htag] Hlim.
  unfold transition, mbind at 1, prog_bind at 1, lift at 1.
  assert (negb (length et =? 0)%nat = true) as -> by (by destruct et).
  cbn [require]. unfold mbind at 1, prog_bind at 1, lift at 1.
  change (require_transition PREPARED EXECUTING false) with (Ok (A:=()) ()). cbv iota.
  change (state_eqb EXECUTING VERIFIED) with false. change (state_eqb EXECUTING ROLLED_BACK) with false.
  cbv iota. rewrite (bind_ok _ _ _ _ _ Hload), Hs, Hv, state_eqb_refl, Z.eqb_refl. cbn [negb orb].
  unfold mbind at 1, prog_bind at 1, now_ at 1. destruct (clock cfg (env w)) as [i e0]. cbn [fst snd] in *.
  rewrite Hu. change (in_states PREPARED [PREPARING; PREPARED]) with true. cbv iota.
  unfold is_expired at 1. rewrite Hu. unfold dt_ltb in Hexp. apply Z.ltb_lt in Hexp.
  assert (dt_leb (rc_expires_at cur) i = false) as Hle by (unfold dt_leb; by apply Z.leb_gt).
  cbn [require mbind result_bind]. rewrite Hle.
  change (state_eqb EXECUTING EXECUTING) with true. cbv iota.
  unfold mbind at 1, prog_bind at 1, lift at 1. cbn [andb]. apply bind_raise.
  unfold enter_executing. rewrite Hc. cbn [negb]. unfold is_expired. rewrite Hu, Hle.
  unfold mbind at 1, prog_bind at 1, lift at 1. cbn [require mbind result_bind]. rewrite Ha.
  rewrite transaction_quiet by done. unfold execution_checks. rewrite Ha, Hl, Hpart.
  unfold mbind at 1, prog_bind at 1. rewrite (before_executing_transition_run _ _ _ _ v) by done.
  cbn [env db]. rewrite Hread, Z.eqb_refl, Hadv. unfold hwm_persist. rewrite Htag.
  cbn [mbind result_bind]. unfold mbind, prog_bind. cbn. unfold check_execute_allowed, count_contracts in *.
  cbn [upsert_anchor_row set_anchor t_contracts] in *. by rewrite Hlim.
Qed.
End gates.

(** ** Two callers and one version *)

Section race.
Context `{Hash} `{UnicodeData} {E : Type} (cfg : Config E).

(** [transition] up to [_replace]: what a caller has read, and what it is
    about to put in its place. *)
Definition transition_read (contract_id : pystr) (expected_state : RecoveryState) (expected_version : Z)
    (target_state : RecoveryState) (execution_policy : option ExecutionSecurityPolicy) (event_type : pystr)
    : prog (World E) (RecoveryContract * RecoveryContract) :=
  _ ← lift (require (negb (length event_type =? 0)%nat) ContractValidationError);
  _ ← lift (require_transition expected_state target_state false);
  if state_eqb target_state VERIFIED then raise ContractConflictError else
  if state_eqb target_state ROLLED_BACK then raise ContractConflictError else
  current ← load cfg contract_id;
  if negb (state_eqb (rc_state current) expected_state) ||
     negb (rc_state_version current =? expected_version)%Z then raise ContractConflictError else
  instant ← now_ cfg;
  stale ← (if in_states (rc_state current) [PREPARING; PREPARED]
           then lift (is_expired current instant) else mret false);
  if stale && negb (state_eqb target_state EXPIRED) then raise ContractConflictError else
  _ ← (if state_eqb target_state EXECUTING then enter_executing cfg current instant execution_policy else mret ());
  updated ← lift (replace_state current target_state (rc_verified_target_fingerprint current));
  mret (current, updated).

(** And the rest. *)
Definition transition_write (event_type : pystr) (read : RecoveryContract * RecoveryContract)
    : prog (World E) RecoveryContract := replace_ cfg (fst read) (snd read) event_type.

Lemma transition_split id es ev ts policy et w :
  transition cfg id es ev ts policy et w =
    (transition_read id es ev ts policy et ≫= transition_write et) w.
Proof.
  unfold transition, transition_read, transition_write, mbind, prog_bind, lift, raise.
  destruct (require _ _); [|done]. destruct (require_transition _ _ _); [|done].
  destruct (state_eqb ts VERIFIED); [done|]. destruct (state_eqb ts ROLLED_BACK); [done|].
  destruct (load cfg id w) as [[cur|] w1]; [|done]. destruct (_ || _); [done|].
  destruct (now_ cfg w1) as [[t|] w2]; [|done].
  repeat (case_match; simplify_eq; try done).
Qed.

Context (Hclock : clock_valid cfg) (Hothers : others_behave cfg).
Implicit Types (m : gmap pystr RecoveryContract) (c cur upd : RecoveryContract).

Lemma holds_load_fresh m id : holds cfg m (load cfg id) (λ c m', known m' id c ∧ ∀ a, m !! id = Some a → advanced a c).
Proof.
  unfold load. eapply holds_bind; [by apply holds_select|]. intros row m1 He (d & Hr & ->).
  unfold select_contract. destruct (t_contracts d !! id) as [row|] eqn:Erow; [|apply holds_raise].
  destruct (rep_decode _ _ _ _ _ Hr Erow) as (c & Hc & Hdec). rewrite Hdec.
  eapply holds_bind; [apply (holds_lift cfg m1 (Ok c) (λ x m', x = c ∧ m' = m1)); by intros ? [= <-]|].
  intros ? ? _ [-> ->]. destruct (negb _); [apply holds_raise|].
  eapply holds_bind; [by apply holds_verify|]. intros _ m2 He2 _. apply holds_ret. split.
  - eapply known_evolves; [exact He2|]. by eapply known_lookup.
  - intros a Ha. destruct (He _ _ Ha) as (c' & Hc' & Hadv). congruence.
Qed.

(** What a read part that returned has decided: the successor of a contract
    at the expected version, which was the stored one at some moment since
    the call began. *)
Definition decided m (id : pystr) (ev : Z) (read : RecoveryContract * RecoveryContract) : Prop :=
  known m id (fst read) ∧ rc_state_version (fst read) = ev ∧ successor (fst read) (snd read) ∧ wf_contract (snd read).

Lemma decided_evolves m m' id ev read : evolves m m' → decided m id ev read → decided m' id ev read.
Proof. intros He (Hk & Hrest). split; [by eapply known_evolves|done]. Qed.

Lemma holds_transition_read m id es ev ts policy et :
  holds cfg m (transition_read id es ev ts policy et)
    (λ read m', decided m' id ev read ∧ ∀ a, m !! id = Some a → (rc_state_version a <= ev)%Z).
Proof.
  unfold transition_read. eapply holds_bind.
  { by apply (holds_lift _ _ _ (λ _ m', m' = m)). }
  intros [] m1 _ ->. eapply holds_bind.
  { apply (holds_lift _ _ _ (λ _ m', m' = m ∧ edge false es ts)). by intros []. }
  intros [] m1 _ [-> Hedge]. destruct (state_eqb ts VERIFIED); [apply holds_raise|].
  destruct (state_eqb ts ROLLED_BACK); [apply holds_raise|].
  eapply holds_bind; [by apply holds_load_fresh|]. intros cur m1 _ [Hk Hfresh].
  destruct (_ || _) eqn:Ecas; [apply holds_raise|].
  rewrite orb_false_iff, !negb_false_iff, state_eqb_eq, Z.eqb_eq in Ecas. destruct Ecas as [Es Ev].
  assert (∀ a, m !! id = Some a → (rc_state_version a <= ev)%Z) as Hle.
  { intros a (_ & _ & [->|Hlt])%Hfresh; lia. }
  eapply holds_bind; [by apply holds_now|]. intros t m2 _ (-> & _).
  eapply (holds_bind _ _ _ _ (λ _ m', m' = m1)).
  { destruct (in_states _ _); [by apply holds_lift|by apply holds_ret]. }
  intros stale m2 _ ->. destruct (stale && _); [apply holds_raise|].
  eapply (holds_bind _ _ _ _ (λ _ _, True)).
  - destruct (state_eqb ts EXECUTING); [|by apply holds_ret]. unfold enter_executing.
    eapply (holds_bind _ _ _ _ (λ r m', m' = m1)).
    { destruct (is_confirmed cur); cbn [negb]; [by apply holds_lift|by apply holds_ret]. }
    intros refused m2 _ ->. destruct refused; [apply holds_raise|]. destruct policy as [policy|]; [|apply holds_raise].
    destruct (anti_rollback_anchor cfg), (rate_policy cfg); try (by apply holds_frame_tx, execution_checks_frame).
    by apply holds_ret.
  - intros [] m2 He _. eapply holds_bind; [apply (holds_lift _ _ _ (λ upd m', m' = m2 ∧ replace_state cur ts (rc_verified_target_fingerprint cur) = Ok upd)); by intros|].
    intros upd m3 _ [-> Hupd]. apply holds_ret. pose proof Hk as (_ & Hwf & _).
    apply replace_state_spec in Hupd as (Hwfu & Hsuc & _); [|done|rewrite Es; by apply edge_manual in Hedge].
    split; [|done]. split; [by eapply known_evolves|done].
Qed.

(** A contract is at a version or beyond it. *)
Definition beyond m (id : pystr) (ev : Z) : Prop := ∃ a, m !! id = Some a ∧ (ev < rc_state_version a)%Z.

Lemma beyond_evolves m m' id ev : evolves m m' → beyond m id ev → beyond m' id ev.
Proof. intros He (a & Ha & Hv). destruct (He _ _ Ha) as (a2 & Ha2 & Hadv); exists a2; split; [done|]; destruct Hadv as (_ & _ & [->|?]); lia. Qed.

(** A write that returns has moved the contract beyond the version, *)
Lemma holds_write m id ev et read :
  decided m id ev read → holds cfg m (transition_write et read) (λ _ m', beyond m' id ev).
Proof.
  intros ((Hid & Hwf & Hk) & Hv & Hs & Hwfu). unfold transition_write. rewrite <-Hid in Hk |- *.
  eapply holds_conseq; [apply holds_replace; [done|done| |done|done]|].
  { split_and!; [done|done|exact Hk]. }
  intros r m' _ [-> Hl]. exists (snd read). split; [done|]. destruct Hs as (_ & Hv' & _). lia.
Qed.

(** and beyond it no write for the version returns. *)
Lemma holds_write_late m id ev et read :
  decided m id ev read → beyond m id ev → holds cfg m (transition_write et read) (λ _ _, False).
Proof.
  intros ((Hid & Hwf & Hk) & Hv & Hs & Hwfu) Hb. unfold transition_write, replace_. eapply holds_bind.
  { apply (holds_catch_raise _ _ _ (λ e, if bool_decide (e = SqliteIntegrityError) then ContractConflictError else e) (λ _ _, False)).
    eapply holds_bind; [apply holds_fault|]. intros _ m1 _ ->. apply (holds_transaction cfg Hothers).
    intros w m1 [] w' Hr He Hbody. destruct (beyond_evolves _ _ _ _ He Hb) as (a & Ha & Hlt).
    destruct Hk as (a0 & Ha0 & Hadv0). destruct (He _ _ Ha0) as (a1 & Ha1 & Hadv1). assert (a1 = a) as -> by congruence.
    destruct (replace_body_inv cfg Hclock m1 (fst read) a (snd read) et w w' Hr) as [-> _];
      [by rewrite Hid|by etrans|done|done|lia]. }
  by intros.
Qed.

Lemma holds_run {A} m (p : prog (World E) A) Q w r w' :
  holds cfg m p Q → rep cfg (db w) m → p w = (r, w') →
  ∃ m', rep cfg (db w') m' ∧ evolves m m' ∧ ∀ a, r = Ok a → Q a m'.
Proof. intros Hp Hr Hw. destruct (Hp w Hr) as (m' & Hr' & He & HQ). rewrite Hw in Hr', HQ. by exists m'. Qed.

(** One write, and then another for the same version. *)
Lemma second_write m id ev et1 et2 read1 read2 w r w1 w2 :
  rep cfg (db w) m → decided m id ev read1 → decided m id ev read2 →
  transition_write et1 read1 w = (Ok r, w1) → later cfg w1 w2 →
  ∃ e, fst (transition_write et2 read2 w2) = Raise e.
Proof.
  intros Hr H1 H2 Hw Hl. destruct (holds_run _ _ _ _ _ _ (holds_write _ _ _ et1 _ H1) Hr Hw) as (m1 & Hr1 & He1 & Hb).
  specialize (Hb r eq_refl). destruct (later_evolves cfg Hclock Hothers w1 w2 _ Hr1 Hl) as (m2 & Hr2 & He2).
  assert (decided m2 id ev read2) as Hd by (by do 2 (eapply decided_evolves; [done|])).
  destruct (transition_write et2 read2 w2) as [[a|e] w3] eqn:Hw2; [|by exists e].
  destruct (holds_run _ _ _ _ _ _ (holds_write_late _ _ _ et2 _ Hd (beyond_evolves _ _ _ _ He2 Hb)) Hr2 Hw2) as (? & _ & _ & Hf).
  destruct (Hf a eq_refl).
Qed.

(** [C18] A version is used up by the first writer, whoever else writes in
    between.  A [transition] is a read and then a [_replace].  Of two
    callers that have both read a contract at version [ev], in whatever
    order, with any calls before, between and after, and with other
    processes writing between any two transactions of each, the one whose
    [_replace] comes second raises when the first one's returned; and so
    does every [transition] at that version that begins later.  So one of
    them at most enters EXECUTING. *)
Theorem version_used_once (w wa wb wc wd : World E) id ev es1 ts1 policy1 et1 es2 ts2 policy2 et2 read1 read2 :
  reachable cfg w →
  transition_read id es1 ev ts1 policy1 et1 w = (Ok read1, wa) → later cfg wa wb →
  transition_read id es2 ev ts2 policy2 et2 wb = (Ok read2, wc) → later cfg wc wd →
  (∀ w', transition cfg id es1 ev ts1 policy1 et1 w' =
     (transition_read id es1 ev ts1 policy1 et1 ≫= transition_write et1) w') ∧
  (∀ r we wf, transition_write et2 read2 wd = (Ok r, we) → later cfg we wf →
     ∃ e, fst (transition_write et1 read1 wf) = Raise e) ∧
  (∀ r we wf, transition_write et1 read1 wd = (Ok r, we) → later cfg we wf →
     (∃ e, fst (transition_write et2 read2 wf) = Raise e) ∧
     ∀ es ts policy et, ∃ e, fst (transition cfg id es ev ts policy et wf) = Raise e).
Proof.
  intros Hw R1 L1 R2 L2. destruct (reachable_rep cfg Hclock Hothers w Hw) as [m Hr].
  destruct (holds_run _ _ _ _ _ _ (holds_transition_read m id es1 ev ts1 policy1 et1) Hr R1) as (ma & Ha & _ & D1).
  destruct (D1 _ eq_refl) as [D1' _]. destruct (later_evolves cfg Hclock Hothers wa wb _ Ha L1) as (mb & Hb & E1).
  destruct (holds_run _ _ _ _ _ _ (holds_transition_read mb id es2 ev ts2 policy2 et2) Hb R2) as (mc & Hc & E2 & D2).
  destruct (D2 _ eq_refl) as [D2' _]. destruct (later_evolves cfg Hclock Hothers wc wd _ Hc L2) as (md & Hd & E3).
  assert (decided md id ev read1) as F1 by (by do 3 (eapply decided_evolves; [done|])).
  assert (decided md id ev read2) as F2 by (by eapply decided_evolves).
  split_and!.
  - intros w'. apply transition_split.
  - intros r we wf Hwr Hl. by eapply (second_write md id ev et2 et1 read2 read1).
  - intros r we wf Hwr Hl. split; [by eapply (second_write md id ev et1 et2 read1 read2)|]. intros es ts policy et.
    destruct (holds_run _ _ _ _ _ _ (holds_write _ _ _ et1 _ F1) Hd Hwr) as (me & He & _ & Hbe). specialize (Hbe r eq_refl).
    destruct (later_evolves cfg Hclock Hothers we wf _ He Hl) as (mf & Hf & E4).
    rewrite transition_split. unfold mbind, prog_bind.
    destruct (transition_read id es ev ts policy et wf) as [[read|e] wg] eqn:R3; [exfalso|by exists e].
    destruct (holds_run _ _ _ _ _ _ (holds_transition_read mf id es ev ts policy et) Hf R3) as (mg & _ & _ & D3).
    destruct (D3 _ eq_refl) as [_ Hle]. destruct (beyond_evolves _ _ _ _ E4 Hbe) as (a & Haf & Hlt).
    specialize (Hle a Haf). lia.
Qed.
End race.
