(* ===== verification/StoreResolve.v ===== *)
(** * Confirmation, reconciliation, provisioning

    What the operations that take evidence demand of it, and two places where
    the operations combine badly: a rotation while a contract awaits
    reconciliation removes the record of where it came from, and a failed
    provisioning keeps its first half. *)

From S2P Require Import Prelude PyStr Sha256 PyDatetime Json Capability StateMachine Canonical.
From S2P Require Import Contract Evidence StoreCodec Database RatePolicy AntiRollback Store.
From S2P Require Import StoreInv StoreOps StoreProps StoreBehaviour StoreGate.

Section evidence.
Context `{Hash} `{UnicodeData} {E : Type} (cfg : Config E).

Lemma guarded_verify_inv {A} (verifier : option (A → prog E bool)) x w w' :
  guarded_verify verifier x w = (Ok (), w') →
  db w' = db w ∧ ∃ verify, verifier = Some verify ∧ fst (verify x (env w)) = Ok true.
Proof.
  unfold guarded_verify. destruct verifier as [verify|]; [|done]. intros Hp.
  apply bind_inv in Hp as (b & w1 & Hc & [->%require_Ok ->]%lift_inv).
  apply (catch_raise_inv _ (λ _, ConfirmationError)) in Hc. split; [by apply env_call_inv in Hc|].
  exists verify. split; [done|]. unfold env_call in Hc. destruct (verify x (env w)) as [r e].
  by injection Hc as ->.
Qed.

Lemma load_ok m id w c w' :
  quiet cfg → rep cfg (db w) m → load cfg id w = (Ok c, w') → w' = w ∧ m !! id = Some c.
Proof.
  intros Hq Hr. rewrite (load_quiet cfg Hq m) by done. destruct (m !! id); [|done]. by intros [= -> ->].
Qed.

(** A confirmation that returned, on tables that hold [m]. *)
Lemma confirm_inv m id e ev (w w' : World E) r :
  clock_valid cfg → quiet cfg → rep cfg (db w) m → confirm cfg id e ev w = (Ok r, w') →
  ∃ cur verify d w1, m !! id = Some cur ∧ rc_contract_id cur = id ∧ rc_state cur = PREPARED ∧
    is_confirmed cur = false ∧ rc_state_version cur = ev ∧
    dt_ltb (fst (clock cfg (env w))) (rc_expires_at cur) = true ∧
    ce_verify_bindings e cur = Ok () ∧
    confirmation_verifier cfg = Some verify ∧ fst (verify e (env w1)) = Ok true ∧
    ce_evidence_digest e = Ok d ∧
    with_confirmation cur (ce_authority_id e) d (fst (clock cfg (env w))) = Ok r ∧ rep cfg (db w') (<[id := r]> m).
Proof.
  intros Hc Hq Hr Hp. unfold confirm in Hp. apply bind_inv in Hp as (cur & w1 & Hl & Hp).
  apply (load_ok m) in Hl as [-> Hm]; [|done..].
  destruct (_ =? ev)%Z eqn:Ev in Hp; [|done]. apply Z.eqb_eq in Ev. cbn [negb] in Hp.
  apply bind_inv in Hp as (t & w1 & Hn & Hp).
  assert (t = fst (clock cfg (env w))) as ->.
  { unfold now_ in Hn. destruct (clock cfg (env w)) as [i ?]. destruct (is_utc i); [|done]. by injection Hn as ->. }
  apply now_inv in Hn as (Hd & Hu & Hv); [|done].
  apply bind_inv in Hp as (ex & w2 & [[_ Hex]%expired_false ->]%lift_inv & Hp). destruct ex; [done|].
  apply bind_inv in Hp as ([] & w2 & [Hb ->]%lift_inv & Hp).
  apply bind_inv in Hp as ([] & w2 & (Hd2 & verify & Hver & Hok)%guarded_verify_inv & Hp).
  apply bind_inv in Hp as (d & w3 & [Hdg ->]%lift_inv & Hp).
  apply bind_inv in Hp as (upd & w3 & [Hupd ->]%lift_inv & Hp).
  destruct (rep_wf _ _ _ Hr _ _ Hm) as [Hid Hwf]. pose proof Hupd as Hupd'.
  apply with_confirmation_inv in Hupd as (Es & Ec & _ & _ & dg & _ & -> & Hf).
  rewrite <-Hid in Hm. apply (replace_ok cfg m) in Hp as (-> & Hr' & _);
    [|done|done|by rewrite Hd2, Hd|done|by split_and!; [| |left]|destruct Hwf; split; try done; by intros ? [= <-]].
  rewrite Hid in *. exists cur, verify, d, w1. split_and!; try done.
  - unfold is_confirmed. by rewrite Ec.
  - by apply dt_leb_ltb.
Qed.

(** [C25] A contract is confirmed only on evidence for exactly that
    contract: when [confirm] returns on a reachable store, the stored
    contract was PREPARED, unconfirmed, at the expected version and not
    expired by the store's clock, every binding of the evidence (contract,
    operation, target, intent, snapshot, plan, lifetime) matched it, the
    configured verifier accepted the evidence, and what is stored
    afterwards is that contract with the confirmation digest of this
    evidence, one version later. *)
Theorem confirm_requires_evidence (w w' : World E) id ev e r :
  clock_valid cfg → quiet cfg → reachable cfg w → confirm cfg id e ev w = (Ok r, w') →
  ∃ cur verify d w1, stored cfg w cur ∧ rc_contract_id cur = id ∧ rc_state cur = PREPARED ∧
    is_confirmed cur = false ∧ rc_state_version cur = ev ∧
    dt_ltb (fst (clock cfg (env w))) (rc_expires_at cur) = true ∧
    ce_verify_bindings e cur = Ok () ∧
    confirmation_verifier cfg = Some verify ∧ fst (verify e (env w1)) = Ok true ∧
    ce_evidence_digest e = Ok d ∧
    with_confirmation cur (ce_authority_id e) d (fst (clock cfg (env w))) = Ok r ∧ stored cfg w' r.
Proof.
  intros Hc Hq Hw Hp. destruct (reachable_rep cfg Hc (quiet_others_behave cfg Hq) w Hw) as [m Hr].
  destruct (confirm_inv m id e ev w w' r Hc Hq Hr Hp)
    as (cur & verify & d & w1 & Hm & Hid & Hs & Hn & Hv & Hx & Hb & Hf & Hok & Hd & Hu & Hr').
  exists cur, verify, d, w1. split_and!; try done; [apply (stored_lookup cfg m); [done|done|by rewrite Hid]|].
  apply (stored_lookup cfg _ _ _ Hq Hr'). apply with_confirmation_inv in Hu as (_ & _ & _ & _ & dg & _ & -> & _).
  cbn [rc_contract_id set_confirmation]. by rewrite Hid, lookup_insert_eq.
Qed.

Lemma audit_events_ok m id c w l w' :
  quiet cfg → rep cfg (db w) m → m !! id = Some c → audit_events cfg id w = (Ok l, w') →
  w' = w ∧ l = map event_of (select_audit id (db w)).
Proof.
  intros Hq Hr Hm. rewrite (audit_events_quiet cfg Hq m id c) by done.
  rewrite (rep_select_audit cfg _ _ _ _ Hr Hm). by intros [= <- <-].
Qed.

(** [C26] Reconciliation is resolved only along the branch it came from:
    when [resolve_reconciliation] returns on a reachable store, the stored
    contract was in RECONCILIATION, its last audit event came from
    EXECUTING and the outcome is a forward one, or from ROLLING_BACK and
    the outcome is a rollback one; the evidence is bound to this contract
    at this version, the configured verifier accepted it, and the contract
    is now in the state the outcome stands for. *)
Theorem resolve_requires_origin (w w' : World E) id e r :
  clock_valid cfg → quiet cfg → reachable cfg w → resolve_reconciliation cfg id e w = (Ok r, w') →
  ∃ cur ev verify w1, stored cfg w cur ∧ rc_contract_id cur = id ∧ rc_state cur = RECONCILIATION ∧
    last (select_audit id (db w)) = Some ev ∧
    (a_previous_state ev = Some (state_value EXECUTING) ∧ re_outcome e ∈ forward_outcomes ∨
     a_previous_state ev = Some (state_value ROLLING_BACK) ∧ re_outcome e ∈ rollback_outcomes) ∧
    re_verify_bindings e id (rc_operation_id cur) (rc_state_version cur) (rc_lifecycle_locator cur) = Ok () ∧
    reconciliation_verifier cfg = Some verify ∧ fst (verify e (env w1)) = Ok true ∧
    stored cfg w' r ∧ successor cur r ∧ rc_state r = OUTCOME_TARGET_STATE (re_outcome e).
Proof.
  intros Hc Hq Hw Hp. destruct (reachable_rep cfg Hc (quiet_others_behave cfg Hq) w Hw) as [m Hr].
  unfold resolve_reconciliation in Hp.
  apply bind_inv in Hp as (cur & w1 & Hl & Hp). apply (load_ok m) in Hl as [-> Hm]; [|done..].
  destruct (state_eqb _ _) eqn:Es in Hp; [|done]. apply state_eqb_eq in Es. cbn [negb] in Hp.
  apply bind_inv in Hp as (evs & w1 & Hl & Hp).
  apply (audit_events_ok m id cur) in Hl as [-> ->]; [|done..]. cbv zeta in Hp.
  destruct (_ || _) eqn:Eo in Hp; [done|]. destruct (negb _) eqn:Ef in Hp; [done|].
  apply bind_inv in Hp as ([] & w1 & [Hb ->]%lift_inv & Hp).
  apply bind_inv in Hp as ([] & w1 & (Hd2 & verify & Hver & Hok)%guarded_verify_inv & Hp).
  apply bind_inv in Hp as ([] & w2 & [Hreq ->]%lift_inv & Hp).
  apply bind_inv in Hp as (upd & w2 & [Hupd ->]%lift_inv & Hp).
  destruct (rep_wf _ _ _ Hr _ _ Hm) as [Hid Hwf]. apply replace_state_spec in Hupd as (Hwfu & Hsuc & Hst & _ & _); [|done..].
  rewrite <-Hid in Hm. apply (replace_ok cfg m) in Hp as (-> & Hr' & _); [|done|done|by rewrite Hd2|done..].
  assert (∃ ev, last (select_audit id (db w)) = Some ev ∧
    (a_previous_state ev = Some (state_value EXECUTING) ∧ re_outcome e ∈ forward_outcomes ∨
     a_previous_state ev = Some (state_value ROLLING_BACK) ∧ re_outcome e ∈ rollback_outcomes)) as (ev & Hlast & Hor).
  { revert Eo Ef. change (map event_of) with (fmap (M:=list) event_of). rewrite fmap_last.
    destruct (last (select_audit id (db w))) as [ev|]; [|done]. cbn [fmap option_fmap option_map event_of ev_previous_state].
    intros Eo Ef. exists ev. split; [done|]. rewrite negb_false_iff, orb_true_iff, !opt_str_eqb_eq in Ef.
    rewrite orb_false_iff, !andb_false_iff, !negb_false_iff, !bool_decide_eq_true in Eo.
    destruct Eo as [Eo1 Eo2], Ef as [Ef|Ef]; [left|right]; (split; [done|]).
    - destruct Eo1 as [Eo1|]; [|done]. by rewrite Ef in Eo1.
    - destruct Eo2 as [Eo2|]; [|done]. by rewrite Ef in Eo2. }
  exists cur, ev, verify, w. split_and!; try done.
  - by apply (stored_lookup cfg m).
  - by rewrite <-Hid.
  - apply (stored_lookup cfg _ _ _ Hq Hr'). destruct Hsuc as (Hi & _).
    apply identity_fields in Hi as (-> & _). by rewrite lookup_insert_eq.
Qed.

(** The event [_replace] appends to a trail. *)
Lemma replaced_last_event d d' m cur upd tag row :
  rep cfg d m → m !! rc_contract_id cur = Some cur → successor cur upd → rep cfg d' (<[rc_contract_id cur := upd]> m) →
  replaced cfg d d' cur upd tag row →
  last (select_audit (rc_contract_id cur) d') = Some row ∧
  a_previous_state row = Some (state_value (rc_state cur)).
Proof.
  intros Hr Hm (Hi & Hv & _) Hr' Hd. apply identity_fields in Hi as (E1 & _). split.
  - rewrite (rep_select_audit cfg _ _ _ upd Hr') by by rewrite lookup_insert_eq.
    rewrite (events_of_audit _ _ _ _ (rpl_audit _ _ _ _ _ _ _ Hd)), filter_own
      by (by rewrite (rpl_owner _ _ _ _ _ _ _ Hd)). apply last_snoc.
  - pose proof (rpl_event _ _ _ _ _ _ _ Hd) as He. unfold check_event in He. rewrite !require_bind in He.
    destruct He as (_ & He & _). destruct (rep_wf _ _ _ Hr _ _ Hm) as [_ Hwf].
    pose proof (cf_version _ (wc_facts _ Hwf)). rewrite (proj2 (Z.eqb_neq _ _)) in He by lia.
    by apply opt_str_eqb_eq.
Qed.

(** Rotating the artifacts of a contract that awaits reconciliation
    strands it.  The rotation appends an event whose previous state is
    RECONCILIATION itself, and the last event is where
    [resolve_reconciliation] looks for the interrupted operation: from
    then on it refuses every evidence whatever its outcome and
    signature. *)
Theorem rotation_strands_reconciliation (w w' : World E) cur ev ti int snap r e :
  clock_valid cfg → quiet cfg → reachable cfg w → stored cfg w cur → rc_state cur = RECONCILIATION →
  wf_artifact ti → wf_artifact int → wf_artifact snap →
  rotate_artifacts cfg (rc_contract_id cur) ev ti int snap w = (Ok r, w') →
  resolve_reconciliation cfg (rc_contract_id cur) e w' = (Raise ConfirmationError, w').
Proof.
  intros Hc Hq Hw Hst Hs Hti Hint Hsn Hp.
  destruct (reachable_rep cfg Hc (quiet_others_behave cfg Hq) w Hw) as [m Hr].
  apply (stored_lookup cfg m _ _ Hq Hr) in Hst as Hm. unfold rotate_artifacts in Hp.
  apply bind_inv in Hp as (c & w1 & Hl & Hp). apply (load_ok m) in Hl as [-> Hm']; [|done..].
  rewrite Hm in Hm'. injection Hm' as <-. destruct (negb _) in Hp; [done|].
  apply bind_inv in Hp as (upd & w1 & [Hupd ->]%lift_inv & Hp).
  destruct (rep_wf _ _ _ Hr _ _ Hm) as [_ Hwf]. apply with_changes_wf in Hupd as [Eupd Hwf']; [|done..].
  assert (successor cur upd) as Hsuc by (subst upd; apply with_changes_successor; by left).
  apply (replace_ok cfg m) in Hp as (-> & Hr' & tag & row & Hd); [|done..].
  destruct (replaced_last_event _ _ _ _ _ _ _ Hr Hm Hsuc Hr' Hd) as [Hlast Hprev].
  assert (<[rc_contract_id cur := upd]> m !! rc_contract_id cur = Some upd) as Hm' by by rewrite lookup_insert_eq.
  unfold resolve_reconciliation. erewrite bind_ok by (rewrite (load_quiet cfg Hq (<[rc_contract_id cur := upd]> m)), Hm' by done; done).
  assert (rc_state upd = RECONCILIATION) as -> by by subst upd. rewrite state_eqb_refl. cbn [negb].
  erewrite bind_ok by exact (audit_events_quiet cfg Hq _ _ upd w' Hr' Hm').
  rewrite <-(rep_select_audit cfg (db w') _ _ upd Hr' Hm').
  change (map event_of) with (fmap (M:=list) event_of). cbv zeta. rewrite fmap_last, Hlast.
  cbn [fmap option_fmap option_map event_of ev_previous_state]. by rewrite Hprev, Hs.
Qed.
End evidence.

(** ** Provisioning *)

Section provisioning.
Context `{Hash} `{UnicodeData} {E : Type} (cfg : Config E).

Lemma seeded_refuses v d d' : hwm_is_seeded d = true → hwm_seed (integrity_key cfg) (store_id cfg) v d ≠ Ok d'.
Proof. intros Hs. unfold hwm_seed. rewrite !require_bind, Hs. by intros (_ & ? & _). Qed.

Lemma provision_seeded v h (w : World E) :
  quiet cfg → hwm_is_seeded (db w) = true →
  ∃ y e, provision_anchor_baseline cfg v h w = (Raise y, mkWorld (db w) e).
Proof.
  intros Hq Hs. destruct w as [d e0]. cbn [db] in *.
  unfold provision_anchor_baseline. destruct (negb (length h =? 0)%nat); [|by eexists _, _].
  cbn [require]. unfold mbind at 1, prog_bind at 1, lift at 1.
  unfold mbind at 1, prog_bind at 1, now_ at 1. cbn [env db].
  destruct (clock cfg e0) as [i e]. destruct (is_utc i); [|by eexists _, _]. cbv zeta beta.
  assert (∃ y, execute_autocommit (other_writers cfg) (hwm_seed (integrity_key cfg) (store_id cfg) v)
    (mkWorld d e) = (Raise y, mkWorld d e)) as [y Hy].
  { unfold execute_autocommit. rewrite interfere_quiet by done. unfold execute_, execute. cbn [db env].
    destruct (hwm_seed _ _ v d) as [d'|y] eqn:Es; [by apply seeded_refuses in Es|by exists y]. }
  rewrite (bind_raise _ _ _ _ _ Hy). by exists y, e.
Qed.

(** Provisioning is not atomic.  When the completion marker cannot be
    written after the baseline was seeded, the error is raised with the
    baseline still in the tables, and every later attempt, whatever its
    value and handle, raises without completing. *)
Theorem provisioning_keeps_seed (w : World E) v h x :
  quiet cfg → h ≠ [] → (0 <= v)%Z → hwm_is_seeded (db w) = false →
  is_utc (fst (clock cfg (env w))) = true →
  is_Ok (hwm_mac (integrity_key cfg) (store_id cfg) v) →
  (∀ d, hwm_seed (integrity_key cfg) (store_id cfg) v (db w) = Ok d →
     mark_complete (integrity_key cfg) (store_id cfg) h v (isoformat (fst (clock cfg (env w)))) d = Raise x) →
  let w' := snd (provision_anchor_baseline cfg v h w) in
  fst (provision_anchor_baseline cfg v h w) = Raise x ∧
  hwm_read (integrity_key cfg) (store_id cfg) (db w') = Ok v ∧
  ∀ v2 h2, (∃ y, fst (provision_anchor_baseline cfg v2 h2 w') = Raise y) ∧
           db (snd (provision_anchor_baseline cfg v2 h2 w')) = db w'.
Proof.
  intros Hq Hh Hv Hns Hu [tag Htag] Hmark.
  set (d := upsert_anchor_row (db w) high_water_mark_KEY (int_str v) tag).
  assert (hwm_seed (integrity_key cfg) (store_id cfg) v (db w) = Ok d) as Hseed.
  { unfold hwm_seed. rewrite (proj2 (Z.leb_le _ _)), Hns, Htag by done. cbn [require negb mbind result_bind].
    unfold insert_anchor_row. unfold hwm_is_seeded in Hns.
    by destruct (t_anchor_state (db w) !! high_water_mark_KEY). }
  assert (hwm_read (integrity_key cfg) (store_id cfg) d = Ok v) as Hread.
  { apply (hwm_persist_read _ _ _ (db w)); [done|]. unfold hwm_persist. by rewrite Htag. }
  assert (∀ e, (select (other_writers cfg) Autocommit (hwm_read (integrity_key cfg) (store_id cfg)) ≫= lift)
    (mkWorld d e) = (Ok v, mkWorld d e)) as Hsel.
  { intros e. erewrite bind_ok by (by apply select_quiet). unfold lift. cbn [db]. by rewrite Hread. }
  assert (provision_anchor_baseline cfg v h w = (Raise x, mkWorld d (snd (clock cfg (env w))))) as Hrun.
  { unfold provision_anchor_baseline. assert (negb (length h =? 0)%nat = true) as -> by by destruct h.
    cbn [require]. unfold mbind at 1, prog_bind at 1, lift at 1.
    unfold mbind at 1, prog_bind at 1, now_ at 1. destruct (clock cfg (env w)) as [i e]. cbn [fst snd] in *.
    rewrite Hu. cbv zeta beta.
    erewrite bind_ok by (unfold execute_autocommit; rewrite interfere_quiet by done;
      unfold execute_, execute; cbn [db env]; rewrite Hseed; done).
    rewrite (bind_ok _ _ _ _ _ (Hsel e)).
    rewrite Z.eqb_refl. cbn [negb db env]. unfold execute_autocommit. rewrite interfere_quiet by done.
    unfold execute_, execute. cbn [db env]. by rewrite (Hmark d Hseed). }
  rewrite Hrun. cbv zeta. cbn [fst snd db]. split_and!; [done..|]. intros v2 h2.
  assert (hwm_is_seeded d = true) as Hs.
  { unfold hwm_is_seeded, d. cbn. by rewrite lookup_insert_eq. }
  destruct (provision_seeded v2 h2 (mkWorld d (snd (clock cfg (env w)))) Hq Hs) as (y & e & Hy).
  rewrite Hy. split; [by eexists|done].
Qed.
End provisioning.
