(* ===== verification/StoreWitness.v ===== *)
(** * Concrete histories of the store

    A store with an anchor and limits is driven through the life of one
    contract; every world on the way is a literal, so that the theorems of
    the store files can be applied at it. *)

From S2P Require Import Prelude PyStr Sha256 PyDatetime Json Capability StateMachine Canonical.
From S2P Require Import Contract Evidence StoreCodec Database RatePolicy AntiRollback Store.
From S2P Require Import StoreInv StoreOps StoreProps StoreBehaviour StoreGate StoreResolve.

Module Scenario.
#[export] Existing Instances Sample.hash Sample.unicode SampleEvidence.ed25519.
Import SampleStore.

Definition limits (in_flight : Z) : RateLimits := {|
  max_outstanding_prepared_per_target := 2; max_global_in_flight := in_flight;
  target_cooldown_seconds := 60; reconciliation_lockout_threshold := 2 |}%Z.

Definition gated : Config Z := config (Some anchor) (Some (limits 1)).
(** The same store under a limit that admits nothing. *)
Definition strict : Config Z := config (Some anchor) (Some (limits 0)).
Definition policy : ExecutionSecurityPolicy := HighAssuranceTier1ExecutionPolicy.

Definition confirmation : ConfirmationEvidence := SampleEvidence.confirmation prepared_contract.
Definition to_prepared : list call :=
  [Create contract; Transition (u "c1") PREPARING 0 PREPARED None state_transition].
Definition to_executing : list call :=
  [Confirm (u "c1") confirmation 1; Transition (u "c1") PREPARED 2 EXECUTING (Some policy) state_transition].
Definition to_reconciliation : list call :=
  [Transition (u "c1") EXECUTING 3 RECONCILIATION None state_transition].

Definition prepared : World Z := Eval vm_compute in run gated to_prepared start.
Definition ready : World Z := Eval vm_compute in run gated (take 1 to_executing) prepared.
Definition executing : World Z := Eval vm_compute in run gated (drop 1 to_executing) ready.
Definition uncertain : World Z := Eval vm_compute in run gated to_reconciliation executing.

Lemma run_reachable cfg ks w : reachable cfg w → Forall call_ok ks → reachable cfg (run cfg ks w).
Proof.
  intros Hw Hks. revert w Hw. induction Hks as [|k ks Hk _ IH]; intros w Hw; [done|].
  apply IH. by constructor.
Qed.

Lemma prepared_reachable : reachable gated prepared.
Proof.
  assert (prepared = run gated to_prepared start) as -> by (vm_compute; reflexivity).
  apply run_reachable; [constructor|]. constructor; [apply sample_wf|]. repeat constructor.
Qed.

Lemma ready_reachable : reachable gated ready.
Proof.
  assert (ready = run gated (take 1 to_executing) prepared) as -> by (vm_compute; reflexivity).
  apply run_reachable; [apply prepared_reachable|]. repeat constructor.
Qed.

Lemma executing_reachable : reachable gated executing.
Proof.
  assert (executing = run gated (drop 1 to_executing) ready) as -> by (vm_compute; reflexivity).
  apply run_reachable; [apply ready_reachable|]. repeat constructor.
Qed.

Lemma uncertain_reachable : reachable gated uncertain.
Proof.
  assert (uncertain = run gated to_reconciliation executing) as -> by (vm_compute; reflexivity).
  apply run_reachable; [apply executing_reachable|]. repeat constructor.
Qed.

Lemma clock_ok an l : clock_valid (config an l).
Proof. intros e. vm_compute. reflexivity. Qed.

Lemma quiet_ok an l : quiet (config an l).
Proof. done. Qed.

Lemma others_ok : others_behave gated.
Proof. apply quiet_others_behave, quiet_ok. Qed.

(** What a world stores, decoded. *)
Definition read (cfg : Config Z) (w : World Z) : RecoveryContract :=
  match load cfg (u "c1") w with (Ok c, _) => c | _ => contract end.
Definition ready_contract : RecoveryContract := Eval vm_compute in read gated ready.
Definition executing_contract : RecoveryContract := Eval vm_compute in read gated executing.
Definition uncertain_contract : RecoveryContract := Eval vm_compute in read gated uncertain.
Definition executing_row : contract_row := Eval vm_compute in
  row_of executing_contract (default [] (r_mac <$> (t_contracts (db executing) !! u "c1"))).
End Scenario.
Import Scenario.
#[local] Existing Instances Sample.hash Sample.unicode SampleEvidence.ed25519.

Definition c1 : pystr := u "c1".

Lemma executing_row_in : t_contracts (db executing) !! c1 = Some executing_row.
Proof. vm_compute. reflexivity. Qed.

Lemma executing_reserved : r_state executing_row ∈ state_value <$> RESERVATION_STATES.
Proof. vm_compute. by constructor. Qed.

Lemma target_never_shared_witness :
  Forall (λ kr, snd kr = executing_row → c1 = fst kr) (map_to_list (t_contracts (db executing))).
Proof.
  apply Forall_forall. intros [id r] Hin%elem_of_map_to_list. cbn. intros ->.
  exact (target_never_shared gated executing c1 id executing_row executing_row
    (clock_ok _ _) others_ok executing_reachable executing_row_in Hin executing_reserved executing_reserved eq_refl).
Defined.

Lemma reservations_exact_witness :
  t_target_reservations (db executing) !! c1 = Some (r_target_identity_digest executing_row).
Proof.
  apply (reservations_exact gated executing c1 _ (clock_ok _ _) others_ok executing_reachable).
  exists executing_row. split; [exact executing_row_in|]. split; [done|exact executing_reserved].
Defined.

Lemma one_active_attempt_witness :
  Forall (λ kr, r_operation_id (snd kr) = u "o1" → c1 = fst kr) (map_to_list (t_contracts (db executing))).
Proof.
  apply Forall_forall. intros [id r] Hin%elem_of_map_to_list. cbn. intros Ho.
  refine (one_active_attempt gated executing c1 id executing_row r
    (clock_ok _ _) others_ok executing_reachable executing_row_in Hin (or_introl _)).
  by rewrite Ho.
Defined.

Lemma audit_trail_legal_witness :
  length (select_audit c1 (db executing)) = 4%nat.
Proof.
  destruct (audit_trail_legal gated executing c1 executing_row (clock_ok _ _) others_ok executing_reachable
    executing_row_in) as [Hlen _].
  apply Nat2Z.inj. rewrite Hlen. reflexivity.
Defined.

Lemma store_readable_witness : ∃ c, load gated c1 executing = (Ok c, executing) ∧ rc_contract_id c = c1.
Proof.
  pose proof (store_readable gated executing c1 (clock_ok _ _) (quiet_ok _ _) executing_reachable) as Hl.
  rewrite executing_row_in in Hl. destruct Hl as (c & Hl & Hid & _). exact (ex_intro _ c (conj Hl Hid)).
Defined.

Lemma find_by_key_exact_witness :
  ∃ o, find_by_idempotency_key gated (r_idempotency_key executing_row) executing = (Ok o, executing).
Proof.
  destruct (find_by_key_exact gated executing (r_idempotency_key executing_row) (clock_ok _ _) (quiet_ok _ _)
    executing_reachable) as (o & Ho & _). exact (ex_intro _ o Ho).
Defined.

Lemma create_all_or_nothing_witness :
  let out := create gated SampleStore.contract SampleStore.start in
  (db (snd out) = empty_db ∧ ∃ e, fst out = Raise e) ∨
  (∃ tag row, created gated empty_db (db (snd out)) SampleStore.contract tag row ∧
     (fst out = Ok () ∨ is_none (fault_hook gated) = false)).
Proof.
  exact (create_all_or_nothing gated SampleStore.contract SampleStore.start (clock_ok _ _) (quiet_ok _ _)).
Defined.

Definition message (r : result bytes) : bytes := SampleEvidence.bytes_of r.

Lemma decode_authentic_witness :
  let m := message (mac_message (store_id gated) [contract_payload executing_contract]) in
  (executing_contract = executing_contract ∧ c1 = rc_contract_id executing_contract) ∨
  hmac_collides (integrity_key gated) m m.
Proof.
  exact (decode_authentic gated c1 executing_row executing_contract executing_contract _ _
    ltac:(split; [apply post_init_facts; vm_compute; reflexivity|vm_compute; reflexivity..|done| | |
            intros ? [= <-]]; vm_compute; reflexivity)
    ltac:(vm_compute; reflexivity) ltac:(vm_compute; reflexivity) ltac:(vm_compute; reflexivity)
    ltac:(vm_compute; reflexivity)).
Defined.

(** The executing row with one character outside ASCII for its tag. *)
Definition tampered_row : contract_row := {|
  r_operation_id := r_operation_id executing_row; r_idempotency_key := r_idempotency_key executing_row;
  r_target_identity_digest := r_target_identity_digest executing_row; r_state := r_state executing_row;
  r_state_version := r_state_version executing_row; r_payload := r_payload executing_row; r_mac := [233%N] |}.

Lemma tampered_tag_raises_witness : decode_row gated c1 tampered_row = Raise TypeError.
Proof.
  assert (mac gated [r_payload tampered_row] = Ok (r_mac executing_row)) as Hm by (vm_compute; reflexivity).
  exact (proj1 (tampered_tag_raises gated c1 tampered_row [233%N] (db executing) [] [] (r_mac executing_row) 0)
    Hm eq_refl ltac:(vm_compute; discriminate)).
Defined.

Lemma audit_tag_domain_witness :
  ¬ message (mac_message (store_id gated) [contract_payload executing_contract]) =
    message (mac_message (store_id gated) [ascii_bytes (u "audit-event"); contract_payload executing_contract]).
Proof.
  apply (audit_tag_domain gated (contract_payload executing_contract) (contract_payload executing_contract));
    vm_compute; reflexivity.
Defined.

(** ** The gates *)

Definition outcome {A} (p : prog (World Z) A) (w : World Z) : result A * World Z := p w.

Lemma executing_step :
  transition gated c1 PREPARED 2 EXECUTING (Some policy) state_transition ready = (Ok executing_contract, executing).
Proof. vm_compute. reflexivity. Qed.

Lemma executing_gated_witness :
  ∃ cur, stored gated ready cur ∧ is_confirmed cur = true ∧ stored gated executing executing_contract.
Proof.
  destruct (executing_gated gated ready executing c1 PREPARED 2 (Some policy) state_transition executing_contract
    (clock_ok _ _) (quiet_ok _ _) ready_reachable executing_step)
    as (cur & p & Hst & _ & _ & _ & Hc & _ & _ & _ & _ & Hst' & _).
  exact (ex_intro _ cur (conj Hst (conj Hc Hst'))).
Defined.

(** The tables of [ready] restored under an anchor that counted to 7. *)
Definition restored : World Z := mkWorld (db ready) 7%Z.

Lemma stale_store_refused_witness :
  ∃ e, fst (transition gated c1 PREPARED 2 EXECUTING (Some policy) state_transition restored) = Raise e.
Proof.
  destruct (stale_store_refused gated SampleStore.anchor policy restored c1 PREPARED 2 state_transition 0 7
    (quiet_ok _ _) eq_refl eq_refl ltac:(vm_compute; reflexivity) eq_refl ltac:(done)) as (e & He & _).
  exact (ex_intro _ e He).
Defined.

(** Two callers read [ready] one after the other; the first writes, and the
    second one's [_replace] is refused. *)
Definition caller : prog (World Z) (RecoveryContract * RecoveryContract) :=
  transition_read gated c1 PREPARED 2 EXECUTING (Some policy) state_transition.
Definition both_read : result (RecoveryContract * RecoveryContract) * World Z := caller (snd (caller ready)).
Definition one_wrote : result RecoveryContract * World Z :=
  transition_write gated state_transition (ready_contract, executing_contract) (snd both_read).

Lemma first_read : caller ready = (Ok (ready_contract, executing_contract), snd (caller ready)).
Proof. vm_compute. reflexivity. Qed.
Lemma second_read : caller (snd (caller ready)) = (Ok (ready_contract, executing_contract), snd both_read).
Proof. vm_compute. reflexivity. Qed.
Lemma first_write :
  transition_write gated state_transition (ready_contract, executing_contract) (snd both_read) =
    (Ok executing_contract, snd one_wrote).
Proof. vm_compute. reflexivity. Qed.

Lemma version_used_once_witness :
  (∃ e, fst (transition_write gated state_transition (ready_contract, executing_contract) (snd one_wrote)) = Raise e) ∧
  ∃ e, fst (transition gated c1 PREPARED 2 EXECUTING (Some policy) state_transition (snd one_wrote)) = Raise e.
Proof.
  destruct (version_used_once gated (clock_ok _ _) others_ok ready _ _ _ _ c1 2 PREPARED EXECUTING (Some policy)
    state_transition PREPARED EXECUTING (Some policy) state_transition _ _ ready_reachable
    first_read (rtc_refl _ _) second_read (rtc_refl _ _)) as (_ & _ & Hfirst).
  destruct (Hfirst _ _ _ first_write (rtc_refl _ _)) as [Hlost Hlate].
  exact (conj Hlost (Hlate PREPARED EXECUTING (Some policy) state_transition)).
Defined.

Lemma refusal_desynchronises_witness :
  transition strict (rc_contract_id ready_contract) PREPARED 2 EXECUTING (Some policy) state_transition ready =
    (Raise RateLimitExceededError, mkWorld (db ready) 1%Z).
Proof.
  exact (@refusal_desynchronises Sample.hash Sample.unicode Z strict SampleStore.anchor (limits 0) policy ready ready_contract 2
    state_transition 0 1 RateLimitExceededError 0%Z 1%Z (quiet_ok _ _) eq_refl eq_refl eq_refl
    ltac:(vm_compute; reflexivity) eq_refl eq_refl eq_refl ltac:(vm_compute; reflexivity)
    ltac:(vm_compute; reflexivity) ltac:(done) ltac:(vm_compute; reflexivity) eq_refl eq_refl
    ltac:(vm_compute; eexists; reflexivity) ltac:(vm_compute; reflexivity)).
Defined.

(** ** Evidence *)

Lemma confirm_requires_evidence_witness :
  ∃ cur, stored gated prepared cur ∧ ce_verify_bindings confirmation cur = Ok () ∧ stored gated ready ready_contract.
Proof.
  destruct (@confirm_requires_evidence Sample.hash Sample.unicode Z gated prepared ready c1 1 confirmation ready_contract
    (clock_ok _ _) (quiet_ok _ _) prepared_reachable ltac:(vm_compute; reflexivity))
    as (cur & v & d & w1 & Hst & _ & _ & _ & _ & _ & Hb & _ & _ & _ & _ & Hst').
  exact (ex_intro _ cur (conj Hst (conj Hb Hst'))).
Defined.

Definition not_applied : ReconciliationEvidence := Eval vm_compute in
  SampleEvidence.reconciliation uncertain_contract CONFIRMED_NOT_APPLIED None None.
Definition resolved_out : result RecoveryContract * World Z := Eval vm_compute in
  resolve_reconciliation gated c1 not_applied uncertain.
Definition resolved_contract : RecoveryContract :=
  match resolved_out with (Ok c, _) => c | _ => uncertain_contract end.

Lemma resolve_requires_origin_witness :
  ∃ ev, last (select_audit c1 (db uncertain)) = Some ev ∧ rc_state resolved_contract = FAILED.
Proof.
  destruct (@resolve_requires_origin Sample.hash Sample.unicode Z gated uncertain (snd resolved_out) c1 not_applied resolved_contract
    (clock_ok _ _) (quiet_ok _ _) uncertain_reachable ltac:(vm_compute; reflexivity))
    as (cur & ev & v & w1 & _ & _ & _ & Hl & _ & _ & _ & _ & _ & _ & Hs).
  exact (ex_intro _ ev (conj Hl Hs)).
Defined.

Definition rotated_out : result RecoveryContract * World Z := Eval vm_compute in
  rotate_artifacts gated c1 4 Sample.artifact Sample.artifact Sample.artifact uncertain.
Definition rotated_contract : RecoveryContract :=
  match rotated_out with (Ok c, _) => c | _ => uncertain_contract end.

Lemma rotation_strands_reconciliation_witness :
  resolve_reconciliation gated (rc_contract_id uncertain_contract) not_applied (snd rotated_out) =
    (Raise ConfirmationError, snd rotated_out).
Proof.
  exact (@rotation_strands_reconciliation Sample.hash Sample.unicode Z gated uncertain (snd rotated_out) uncertain_contract 4
    Sample.artifact Sample.artifact Sample.artifact rotated_contract not_applied
    (clock_ok _ _) (quiet_ok _ _) uncertain_reachable ltac:(vm_compute; reflexivity) eq_refl
    ltac:(vm_compute; reflexivity) ltac:(vm_compute; reflexivity) ltac:(vm_compute; reflexivity)
    ltac:(vm_compute; reflexivity)).
Defined.

(** A handle that is no Unicode text: the marker cannot be encoded. *)
Definition bad_handle : pystr := [55296%N].
Definition provisioned : result () * World Z := Eval vm_compute in
  provision_anchor_baseline SampleStore.plain 5 bad_handle SampleStore.start.

Lemma provisioning_keeps_seed_witness :
  fst (provision_anchor_baseline SampleStore.plain 5 bad_handle SampleStore.start) = fst provisioned.
Proof.
  destruct (@provisioning_keeps_seed Sample.hash Sample.unicode Z SampleStore.plain SampleStore.start 5 bad_handle CanonicalizationError
    (quiet_ok _ _) ltac:(done) ltac:(done) ltac:(vm_compute; reflexivity) ltac:(vm_compute; reflexivity)
    ltac:(vm_compute; eexists; reflexivity)
    ltac:(intros d Hd; vm_compute in Hd; injection Hd as <-; vm_compute; reflexivity)) as [Hr _].
  exact Hr.
Defined.
