(* ===== verification/Literals.v ===== *)
(** * Lists and nested objects of a canonical text

    What two texts written by [canonical_json] from dict literals agree on
    when a value of the literal is a list, or an object of its own. *)

From S2P Require Import Prelude PyStr Json Canonical PyJson.

Section literals.
Context `{Hash} `{UnicodeData}.

Lemma denote_plist d l x : denote d (PList l) = Some x → ∃ xs, x = JList xs ∧ mapM (denote (d + 1)) l = Some xs.
Proof.
  cbn [denote]. repeat case_match; try done. intros (xs & Hxs & ->)%fmap_Some. by exists xs.
Qed.

Lemma denote_pbool d b x : denote d (PBool b) = Some x → x = JBool b.
Proof. cbn [denote]. case_match; [done|]. by intros [= <-]. Qed.

Lemma denote_pnone d x : denote d PNone = Some x → x = JNull.
Proof. cbn [denote]. case_match; [done|]. by intros [= <-]. Qed.

(** The entries of a nested dict literal, in its own order. *)
Lemma denote_pdict d l x :
  denote d (pdict l) = Some x → forallb (λ kv, is_ascii (u (fst kv))) l = true →
  ∃ es, x = JObj es ∧ es.*1 = map (λ kv, u (fst kv)) l ∧
    Forall2 (λ kv e, denote (d + 1) (snd kv) = Some (snd e)) l es.
Proof.
  intros Hx Ha. pose proof (denote_shallow _ _ _ Hx) as Hd. unfold pdict in Hx. rewrite denote_dict in Hx by done.
  destruct (too_big _); [done|]. apply bind_Some in Hx as (es & Hes & Hx). case_decide; [|done].
  injection Hx as <-. exists es. split_and!; [done|by eapply literal_keys|]. clear -Hes.
  revert es Hes. induction l as [|[k v] l IH]; intros es Hm; [by injection Hm as <-|].
  cbn [map fst snd] in Hm. rewrite mapM_cons in Hm.
  apply bind_Some in Hm as ([key x] & He & (r & Hr & [= <-])%bind_Some). constructor; [|by apply IH].
  unfold denote_entry in He. cbn [fst snd] in He.
  by apply bind_Some in He as (k' & _ & (x' & Hx & [= <- <-])%bind_Some).
Qed.

Definition entries (d : N) (l : list (string * pyobj)) (es : list (pystr * json)) : Prop :=
  es.*1 = map (λ kv, u (fst kv)) l ∧ Forall2 (λ kv e, denote (d + 1) (snd kv) = Some (snd e)) l es.

Lemma entries_cons d k v l es :
  entries d ((k, v) :: l) es → ∃ x r, es = (u k, x) :: r ∧ denote (d + 1) v = Some x ∧ entries d l r.
Proof.
  intros [Hk Hf]. destruct es as [|[k' x] r]; [by apply Forall2_cons_nil_inv in Hf|].
  apply Forall2_cons_1 in Hf as [Hx Hf]. cbn [fmap list_fmap fst map] in Hk. injection Hk as -> Hk.
  exists x, r. by split_and!.
Qed.

Lemma entries_nil d es : entries d [] es → es = [].
Proof. intros [Hk _]. by destruct es. Qed.

Lemma denote_pdict_entries d l x :
  denote d (pdict l) = Some x → forallb (λ kv, is_ascii (u (fst kv))) l = true →
  ∃ es, x = JObj es ∧ entries d l es.
Proof. intros Hx Ha. destruct (denote_pdict _ _ _ Hx Ha) as (es & -> & Hk & Hf). by exists es. Qed.

(** Dict literals of one shape, read at the same values. *)
Lemma mapM_sorted {A} (f : A → pyobj) (g : A → json) d (l : list A) xs :
  mapM (denote d) (map f l) = Some xs → (∀ a x, a ∈ l → denote d (f a) = Some x → sort_keys x = g a) →
  map sort_keys xs = map g l.
Proof.
  revert xs. induction l as [|a l IH]; intros xs Hm Hg; [by injection Hm as <-|].
  cbn [map] in *. rewrite mapM_cons in Hm. apply bind_Some in Hm as (x & Hx & (r & Hr & [= <-])%bind_Some).
  cbn [map]. f_equal; [by apply Hg; [left|]|]. apply IH; [done|]. intros b y Hb. apply Hg. by right.
Qed.

(** Two literals with one canonical form agree on the lists under a key,
    element by element, as far as [g] sees. *)
Lemma literal_agree_list {A} (f : A → pyobj) (g : A → json) l l' j k (la la' : list A) :
  canonical_form (pdict l) j → canonical_form (pdict l') j →
  (k, PList (map f la)) ∈ l → (k, PList (map f la')) ∈ l' → is_ascii (u k) = true →
  (∀ a x, a ∈ la ∨ a ∈ la' → denote 2 (f a) = Some x → sort_keys x = g a) →
  map g la = map g la'.
Proof.
  intros Hj Hj' Hin Hin' Hk Hg.
  destruct (literal_agree _ _ _ _ _ _ Hj Hj' Hin Hin' Hk) as (x & x' & Hx & Hx' & E).
  apply denote_plist in Hx as (xs & -> & Hxs), Hx' as (xs' & -> & Hxs'). cbn [sort_keys] in E. injection E as E.
  rewrite <-(mapM_sorted f g _ la xs Hxs), <-(mapM_sorted f g _ la' xs' Hxs'); [done|..];
    intros a y Ha; apply Hg; auto.
Qed.

(** Two literals with one canonical form agree on the strings and integers
    of an object under a key. *)
Lemma literal_agree_bool l l' j k b b' :
  canonical_form (pdict l) j → canonical_form (pdict l') j →
  (k, PBool b) ∈ l → (k, PBool b') ∈ l' → is_ascii (u k) = true → b = b'.
Proof.
  intros Hj Hj' Hin Hin' Hk.
  destruct (literal_agree _ _ _ _ _ _ Hj Hj' Hin Hin' Hk) as (x & x' & Hx & Hx' & E).
  apply denote_pbool in Hx as ->, Hx' as ->. by injection E.
Qed.
End literals.

(** ** The evidence fingerprint

    Its six entries, in a plan's digest and in the payloads of the
    authorizations. *)

(** The entries of a literal, one hypothesis each. *)
Ltac literal_entries :=
  repeat match goal with
  | H : entries _ (_ :: _) _ |- _ => apply entries_cons in H as (? & ? & -> & ? & H)
  | H : entries _ [] _ |- _ => apply entries_nil in H as ->
  end.

Section fingerprint.
Context `{Hash} `{UnicodeData}.

Definition opt_str_obj (o : option pystr) : pyobj := match o with Some s => PStr s | None => PNone end.
Definition opt_int_obj (o : option Z) : pyobj := match o with Some z => PInt z | None => PNone end.

Definition fingerprint_literal (a b c : pystr) (d e : option Z) (f : option pystr) : list (string * pyobj) :=
  [("capability_posture_value", PStr a); ("anchor_assurance_value", PStr b); ("anchor_evidence_state", PStr c);
   ("anchor_baseline", opt_int_obj d); ("anchor_witness_value", opt_int_obj e);
   ("anchor_provisioned_at", opt_str_obj f)].

Lemma denote_str_nfc d s x : denote d (PStr s) = Some x → x = JStr (nfc s).
Proof. cbn [denote]. case_match; [done|]. by intros (t & ->%ok_string_nfc & ->)%fmap_Some. Qed.

Lemma denote_int_eq d z x : denote d (PInt z) = Some x → x = JInt z.
Proof. cbn [denote]. by repeat case_match; intros [= <-]. Qed.

Definition opt_str_json (o : option pystr) : json := match o with Some s => JStr (nfc s) | None => JNull end.
Definition opt_int_json (o : option Z) : json := match o with Some z => JInt z | None => JNull end.

Lemma denote_opt_str d o x : denote d (opt_str_obj o) = Some x → x = opt_str_json o.
Proof. destruct o; [apply denote_str_nfc|apply denote_pnone]. Qed.

Lemma denote_opt_int d o x : denote d (opt_int_obj o) = Some x → x = opt_int_json o.
Proof. destruct o; [apply denote_int_eq|apply denote_pnone]. Qed.

Lemma opt_int_json_inj o o' : opt_int_json o = opt_int_json o' → o = o'.
Proof. destruct o, o'; cbn; congruence. Qed.

Lemma opt_str_json_inj o o' : opt_str_json o = opt_str_json o' → nfc <$> o = nfc <$> o'.
Proof. destruct o, o'; cbn; congruence. Qed.

(** Sorted by key. *)
Lemma fingerprint_denoted n a b c d e f x :
  denote n (pdict (fingerprint_literal a b c d e f)) = Some x →
  sort_keys x = JObj [
    (u "anchor_assurance_value", JStr (nfc b)); (u "anchor_baseline", opt_int_json d);
    (u "anchor_evidence_state", JStr (nfc c)); (u "anchor_provisioned_at", opt_str_json f);
    (u "anchor_witness_value", opt_int_json e); (u "capability_posture_value", JStr (nfc a))].
Proof.
  intros (es & -> & He)%denote_pdict_entries; [|reflexivity]. unfold fingerprint_literal in He. literal_entries.
  repeat match goal with
  | H : denote _ (PStr _) = Some _ |- _ => apply denote_str_nfc in H as ->
  | H : denote _ (opt_int_obj _) = Some _ |- _ => apply denote_opt_int in H as ->
  | H : denote _ (opt_str_obj _) = Some _ |- _ => apply denote_opt_str in H as ->
  end.
  destruct d, e, f; vm_compute; reflexivity.
Qed.

Lemma fingerprint_agree l l' j k a b c d e f a' b' c' d' e' f' :
  canonical_form (pdict l) j → canonical_form (pdict l') j →
  (k, pdict (fingerprint_literal a b c d e f)) ∈ l → (k, pdict (fingerprint_literal a' b' c' d' e' f')) ∈ l' →
  is_ascii (u k) = true →
  nfc a = nfc a' ∧ nfc b = nfc b' ∧ nfc c = nfc c' ∧ d = d' ∧ e = e' ∧ nfc <$> f = nfc <$> f'.
Proof.
  intros Hj Hj' Hin Hin' Hk. destruct (literal_agree _ _ _ _ _ _ Hj Hj' Hin Hin' Hk) as (x & x' & Hx & Hx' & E).
  rewrite (fingerprint_denoted _ _ _ _ _ _ _ _ Hx), (fingerprint_denoted _ _ _ _ _ _ _ _ Hx') in E.
  injection E as E1 E2 E3 E4 E5 E6. apply opt_int_json_inj in E2, E5. apply opt_str_json_inj in E4. done.
Qed.
End fingerprint.
