(* ===== verification/Plan.v ===== *)
(** * Security posture plans

    [security_posture_types.py], [security_plan.py] and
    [security_plan_digest.py]: the two axes of the posture, the pure planner
    that turns a discovered posture and a target into ordered steps, and the
    digest by which an authorization names a plan.  The texts of a plan
    (actions, descriptions, reasons, evidence, notes) are left out: the
    digest does not cover them and nothing branches on them. *)

From S2P Require Import Prelude PyStr Sha256 PyDatetime Json Canonical PyJson Literals Contract Evidence.

(** ** The two axes *)

Inductive CapabilityPosture : Type := READ_ONLY | WRITE_PROTECTED.

Inductive AnchorAssurance : Type := NONE | SOFTWARE | HARDWARE_WITNESS | UNKNOWN.

Inductive AnchorEvidenceState : Type :=
  | UNCONFIGURED | CONFIGURATION_INVALID | CONFIGURED_NOT_CREATED | STORE_ERROR
  | CONFIGURED_UNPROVISIONED | PROVISIONED_UNVERIFIED | PROVISIONED_UNREACHABLE
  | PROVISIONED_VERIFIED | PROVISIONED_MISMATCH.

#[global] Instance CapabilityPosture_eq_dec : EqDecision CapabilityPosture.
Proof. solve_decision. Defined.
#[global] Instance AnchorAssurance_eq_dec : EqDecision AnchorAssurance.
Proof. solve_decision. Defined.
#[global] Instance AnchorEvidenceState_eq_dec : EqDecision AnchorEvidenceState.
Proof. solve_decision. Defined.

Definition posture_value (p : CapabilityPosture) : pystr :=
  match p with READ_ONLY => u "read_only" | WRITE_PROTECTED => u "write_protected" end.

Definition assurance_value (a : AnchorAssurance) : pystr :=
  match a with
  | NONE => u "none" | SOFTWARE => u "software"
  | HARDWARE_WITNESS => u "hardware_witness" | UNKNOWN => u "unknown"
  end.

Definition evidence_state_value (s : AnchorEvidenceState) : pystr :=
  match s with
  | UNCONFIGURED => u "unconfigured"
  | CONFIGURATION_INVALID => u "configuration_invalid"
  | CONFIGURED_NOT_CREATED => u "configured_not_created"
  | STORE_ERROR => u "store_error"
  | CONFIGURED_UNPROVISIONED => u "configured_unprovisioned"
  | PROVISIONED_UNVERIFIED => u "provisioned_unverified"
  | PROVISIONED_UNREACHABLE => u "provisioned_unreachable"
  | PROVISIONED_VERIFIED => u "provisioned_verified"
  | PROVISIONED_MISMATCH => u "provisioned_mismatch"
  end.

Record CapabilityPostureDiscovery : Type := {
  cd_value : CapabilityPosture; cd_configured_profile_name : pystr; cd_configured_profile_valid : bool;
  cd_write_capabilities_active : nat; cd_write_capabilities_total : nat;
  cd_allow_list_entries : list pystr }.

Record AnchorAssuranceDiscovery : Type := {
  ad_value : AnchorAssurance; ad_evidence_state : AnchorEvidenceState; ad_store_configured : bool;
  ad_store_exists : option bool; ad_seeded : option bool; ad_complete : option bool;
  ad_handle : option pystr; ad_baseline : option Z; ad_provisioned_at : option pystr;
  ad_witness_configured : bool; ad_witness_reachable : option bool; ad_witness_value : option Z;
  ad_witness_matches_baseline : option bool }.

Record SecurityPostureDiscovery : Type := {
  capability_posture : CapabilityPostureDiscovery; anchor_assurance : AnchorAssuranceDiscovery }.

(** ** The vocabulary of a plan *)

Inductive TargetValidity : Type := VALID | INVALID_COMBINATION | VALID_NOT_IMPLEMENTED.

Inductive AxisTransitionKind : Type := NO_CHANGE | UPGRADE | DOWNGRADE | LATERAL.

Inductive MutationClass : Type :=
  | MUTATION_NONE | CONFIGURATION | ANCHOR_PROVISIONING | SERVICE_DEPLOYMENT
  | ACTIVATION | DEACTIVATION | DESTRUCTIVE_DEPROVISIONING.

Inductive AuthorizationLevel : Type :=
  | NONE_REQUIRED | CONFIGURATION_CHANGE | INTERACTIVE_HARDWARE_CONFIRMATION
  | MILESTONE_9_ACTIVATION_DECISION | SEPARATE_DEPROVISION_AUTHORIZATION
  | UNDETERMINED_NOT_IMPLEMENTED.

Inductive SecurityImpact : Type :=
  | IMPACT_NONE | INCREASES_ASSURANCE | DECREASES_ASSURANCE
  | ENABLES_MUTATION_CAPABILITY | DISABLES_MUTATION_CAPABILITY.

Inductive PlanOverallStatus : Type :=
  | ALREADY_SATISFIED | PLAN_GENERATED | BLOCKED_INVALID_TARGET | BLOCKED_NOT_IMPLEMENTED
  | BLOCKED_ANOMALY_DETECTED | BLOCKED_INDETERMINATE_CURRENT_STATE.

#[global] Instance AuthorizationLevel_eq_dec : EqDecision AuthorizationLevel.
Proof. solve_decision. Defined.
#[global] Instance MutationClass_eq_dec : EqDecision MutationClass.
Proof. solve_decision. Defined.

Definition validity_value (v : TargetValidity) : pystr :=
  match v with
  | VALID => u "valid" | INVALID_COMBINATION => u "invalid_combination"
  | VALID_NOT_IMPLEMENTED => u "valid_not_implemented"
  end.

Definition mutation_class_value (c : MutationClass) : pystr :=
  match c with
  | MUTATION_NONE => u "none"
  | CONFIGURATION => u "configuration"
  | ANCHOR_PROVISIONING => u "anchor_provisioning"
  | SERVICE_DEPLOYMENT => u "service_deployment"
  | ACTIVATION => u "activation"
  | DEACTIVATION => u "deactivation"
  | DESTRUCTIVE_DEPROVISIONING => u "destructive_deprovisioning"
  end.

Definition level_value (l : AuthorizationLevel) : pystr :=
  match l with
  | NONE_REQUIRED => u "none_required"
  | CONFIGURATION_CHANGE => u "configuration_change"
  | INTERACTIVE_HARDWARE_CONFIRMATION => u "interactive_hardware_confirmation"
  | MILESTONE_9_ACTIVATION_DECISION => u "milestone_9_activation_decision"
  | SEPARATE_DEPROVISION_AUTHORIZATION => u "separate_deprovision_authorization"
  | UNDETERMINED_NOT_IMPLEMENTED => u "undetermined_not_implemented"
  end.

Definition overall_status_value (s : PlanOverallStatus) : pystr :=
  match s with
  | ALREADY_SATISFIED => u "already_satisfied"
  | PLAN_GENERATED => u "plan_generated"
  | BLOCKED_INVALID_TARGET => u "blocked_invalid_target"
  | BLOCKED_NOT_IMPLEMENTED => u "blocked_not_implemented"
  | BLOCKED_ANOMALY_DETECTED => u "blocked_anomaly_detected"
  | BLOCKED_INDETERMINATE_CURRENT_STATE => u "blocked_indeterminate_current_state"
  end.

Record PlanStep : Type := {
  st_step_id : pystr; st_order : Z; st_axis : pystr; st_mutation_class : MutationClass;
  st_authorization_required : AuthorizationLevel; st_implementation_available : bool;
  st_reversible : option bool; st_security_impact : SecurityImpact;
  st_prerequisite_satisfied : option bool; st_blocked : bool }.

Record SecurityPosturePlan : Type := {
  pl_current : SecurityPostureDiscovery; pl_target_capability_posture : CapabilityPosture;
  pl_target_anchor_assurance : AnchorAssurance; pl_target_validity : TargetValidity;
  pl_capability_posture_transition : AxisTransitionKind;
  pl_anchor_assurance_transition : AxisTransitionKind; pl_overall_status : PlanOverallStatus;
  pl_safe_to_proceed : bool; pl_steps : list PlanStep }.

Definition ALIAS_DESCRIPTION_WRITE_TARGET_CAPABILITY_POSTURE : CapabilityPosture := WRITE_PROTECTED.
Definition ALIAS_DESCRIPTION_WRITE_TARGET_ANCHOR_ASSURANCE : AnchorAssurance := HARDWARE_WITNESS.
Definition ALIAS_DESCRIPTION_WRITE_STEP_ID : pystr := u "capability_posture.milestone_9_activation".
Definition ALIAS_DESCRIPTION_WRITE_REQUIRED_RISK_CLASS : AuthorizationLevel := MILESTONE_9_ACTIVATION_DECISION.

(** ** The planner *)

Definition evaluate_target_validity (capability : CapabilityPosture) (anchor : AnchorAssurance) : TargetValidity :=
  if bool_decide (capability = WRITE_PROTECTED) && bool_decide (anchor = NONE) then INVALID_COMBINATION
  else if bool_decide (anchor = SOFTWARE) then VALID_NOT_IMPLEMENTED
  else VALID.

Definition anchor_transition_kind (current target : AnchorAssurance) : AxisTransitionKind :=
  if bool_decide (current = target) then NO_CHANGE
  else if bool_decide (current = NONE) then UPGRADE
  else if bool_decide (target = NONE) then DOWNGRADE
  else LATERAL.

Definition capability_transition_kind (current target : CapabilityPosture) : AxisTransitionKind :=
  if bool_decide (current = target) then NO_CHANGE
  else if bool_decide (target = WRITE_PROTECTED) then UPGRADE
  else DOWNGRADE.

Definition anchor_evidence_is_clean (evidence_state : AnchorEvidenceState) (target : AnchorAssurance) : bool :=
  if bool_decide (target = NONE) then bool_decide (evidence_state = UNCONFIGURED)
  else bool_decide (evidence_state = PROVISIONED_VERIFIED).

Definition anchor_axis : pystr := u "anchor_assurance".
Definition capability_axis : pystr := u "capability_posture".

(** The value is the steps and the next order, like the code's pair. *)
Definition anchor_assurance_steps (current : SecurityPostureDiscovery) (target : AnchorAssurance)
    (transition : AxisTransitionKind) (order_start : Z) : list PlanStep * Z :=
  let current_value := ad_value (anchor_assurance current) in
  match transition with
  | NO_CHANGE =>
    ([{| st_step_id := u "anchor_assurance.no_change"; st_order := order_start; st_axis := anchor_axis;
         st_mutation_class := MUTATION_NONE; st_authorization_required := NONE_REQUIRED;
         st_implementation_available := true; st_reversible := None; st_security_impact := IMPACT_NONE;
         st_prerequisite_satisfied := Some true; st_blocked := false |}], (order_start + 1)%Z)
  | DOWNGRADE =>
    let implementation_available := bool_decide (current_value = HARDWARE_WITNESS) in
    ([{| st_step_id := u "anchor_assurance.deactivate_anchor"; st_order := order_start; st_axis := anchor_axis;
         st_mutation_class := DEACTIVATION; st_authorization_required := CONFIGURATION_CHANGE;
         st_implementation_available := implementation_available;
         st_reversible := if implementation_available then Some true else None;
         st_security_impact := DECREASES_ASSURANCE; st_prerequisite_satisfied := Some true;
         st_blocked := negb implementation_available |}], (order_start + 1)%Z)
  | UPGRADE | LATERAL =>
    let switch :=
      match transition with LATERAL => bool_decide (current_value = HARDWARE_WITNESS) | _ => false end in
    let deactivate :=
      if switch then
        [{| st_step_id := u "anchor_assurance.deactivate_current_anchor"; st_order := order_start;
            st_axis := anchor_axis; st_mutation_class := DEACTIVATION;
            st_authorization_required := CONFIGURATION_CHANGE; st_implementation_available := true;
            st_reversible := Some true; st_security_impact := DECREASES_ASSURANCE;
            st_prerequisite_satisfied := Some true; st_blocked := false |}]
      else [] in
    let order := (if switch then order_start + 1 else order_start)%Z in
    match target with
    | HARDWARE_WITNESS =>
      (deactivate ++
       [{| st_step_id := u "anchor_assurance.provision_hardware_witness_anchor"; st_order := order;
           st_axis := anchor_axis; st_mutation_class := ANCHOR_PROVISIONING;
           st_authorization_required := INTERACTIVE_HARDWARE_CONFIRMATION; st_implementation_available := true;
           st_reversible := Some false; st_security_impact := INCREASES_ASSURANCE;
           st_prerequisite_satisfied := Some true; st_blocked := false |};
        {| st_step_id := u "anchor_assurance.deploy_witness_daemon"; st_order := (order + 1)%Z;
           st_axis := anchor_axis; st_mutation_class := SERVICE_DEPLOYMENT;
           st_authorization_required := INTERACTIVE_HARDWARE_CONFIRMATION; st_implementation_available := true;
           st_reversible := Some true; st_security_impact := INCREASES_ASSURANCE;
           st_prerequisite_satisfied := Some true; st_blocked := false |}], (order + 2)%Z)
    | SOFTWARE =>
      (deactivate ++
       [{| st_step_id := u "anchor_assurance.provision_software_witness_anchor"; st_order := order;
           st_axis := anchor_axis; st_mutation_class := ANCHOR_PROVISIONING;
           st_authorization_required := UNDETERMINED_NOT_IMPLEMENTED; st_implementation_available := false;
           st_reversible := None; st_security_impact := INCREASES_ASSURANCE;
           st_prerequisite_satisfied := Some false; st_blocked := true |}], (order + 1)%Z)
    | _ => (deactivate, order)
    end
  end.

Definition milestone_9_activation_step (order : Z) (anchor_ready_now : bool) : PlanStep :=
  {| st_step_id := ALIAS_DESCRIPTION_WRITE_STEP_ID; st_order := order; st_axis := capability_axis;
     st_mutation_class := ACTIVATION; st_authorization_required := MILESTONE_9_ACTIVATION_DECISION;
     st_implementation_available := true; st_reversible := None;
     st_security_impact := ENABLES_MUTATION_CAPABILITY;
     st_prerequisite_satisfied := Some anchor_ready_now; st_blocked := true |}.

Definition capability_posture_steps (target : CapabilityPosture) (transition : AxisTransitionKind)
    (anchor_ready_now : bool) (order_start : Z) : list PlanStep * Z :=
  match transition with
  | NO_CHANGE =>
    let no_change :=
      {| st_step_id := u "capability_posture.no_change"; st_order := order_start; st_axis := capability_axis;
         st_mutation_class := MUTATION_NONE; st_authorization_required := NONE_REQUIRED;
         st_implementation_available := true; st_reversible := None; st_security_impact := IMPACT_NONE;
         st_prerequisite_satisfied := Some true; st_blocked := false |} in
    if bool_decide (target = WRITE_PROTECTED)
    then ([no_change; milestone_9_activation_step (order_start + 1) anchor_ready_now], (order_start + 2)%Z)
    else ([no_change], (order_start + 1)%Z)
  | DOWNGRADE =>
    ([{| st_step_id := u "capability_posture.deactivate_write_protection"; st_order := order_start;
         st_axis := capability_axis; st_mutation_class := DEACTIVATION;
         st_authorization_required := CONFIGURATION_CHANGE; st_implementation_available := true;
         st_reversible := Some true; st_security_impact := DISABLES_MUTATION_CAPABILITY;
         st_prerequisite_satisfied := Some true; st_blocked := false |}], (order_start + 1)%Z)
  | UPGRADE | LATERAL =>
    ([{| st_step_id := u "capability_posture.populate_write_endpoints"; st_order := order_start;
         st_axis := capability_axis; st_mutation_class := CONFIGURATION;
         st_authorization_required := CONFIGURATION_CHANGE; st_implementation_available := true;
         st_reversible := Some true; st_security_impact := ENABLES_MUTATION_CAPABILITY;
         st_prerequisite_satisfied := Some anchor_ready_now; st_blocked := negb anchor_ready_now |};
      {| st_step_id := u "capability_posture.set_profile_engineer"; st_order := (order_start + 1)%Z;
         st_axis := capability_axis; st_mutation_class := CONFIGURATION;
         st_authorization_required := CONFIGURATION_CHANGE; st_implementation_available := true;
         st_reversible := Some true; st_security_impact := ENABLES_MUTATION_CAPABILITY;
         st_prerequisite_satisfied := Some anchor_ready_now; st_blocked := negb anchor_ready_now |};
      milestone_9_activation_step (order_start + 2) anchor_ready_now], (order_start + 3)%Z)
  end.

(** [PlanStep(..., order=start + offset, ...)] *)
Definition with_order (step : PlanStep) (order : Z) : PlanStep :=
  {| st_step_id := st_step_id step; st_order := order; st_axis := st_axis step;
     st_mutation_class := st_mutation_class step;
     st_authorization_required := st_authorization_required step;
     st_implementation_available := st_implementation_available step; st_reversible := st_reversible step;
     st_security_impact := st_security_impact step;
     st_prerequisite_satisfied := st_prerequisite_satisfied step; st_blocked := st_blocked step |}.

Definition reorder (steps : list PlanStep) (start : Z) : list PlanStep :=
  imap (λ offset step, with_order step (start + Z.of_nat offset)) steps.

Definition block_for_mismatch (step : PlanStep) : PlanStep :=
  if bool_decide (st_mutation_class step = MUTATION_NONE) then step else
  {| st_step_id := st_step_id step; st_order := st_order step; st_axis := st_axis step;
     st_mutation_class := st_mutation_class step;
     st_authorization_required := st_authorization_required step;
     st_implementation_available := st_implementation_available step; st_reversible := st_reversible step;
     st_security_impact := st_security_impact step;
     st_prerequisite_satisfied := Some false; st_blocked := true |}.

(** The targets are members of the enumerations; what is left of the
    function is the refusal of [UNKNOWN]. *)
Definition coerce_and_validate_targets (capability : CapabilityPosture) (anchor : AnchorAssurance)
    : result (CapabilityPosture * AnchorAssurance) :=
  _ ← require (negb (bool_decide (anchor = UNKNOWN))) ValueError;
  Ok (capability, anchor).

(** The two plans without steps. *)
Definition blocked_plan (current : SecurityPostureDiscovery) (capability : CapabilityPosture)
    (anchor : AnchorAssurance) (validity : TargetValidity) (status : PlanOverallStatus) : SecurityPosturePlan :=
  {| pl_current := current; pl_target_capability_posture := capability; pl_target_anchor_assurance := anchor;
     pl_target_validity := validity; pl_capability_posture_transition := NO_CHANGE;
     pl_anchor_assurance_transition := NO_CHANGE; pl_overall_status := status;
     pl_safe_to_proceed := false; pl_steps := [] |}.

(** The steps of both axes, in the order to take them. *)
Definition ordered_steps (current : SecurityPostureDiscovery) (capability : CapabilityPosture)
    (anchor : AnchorAssurance) : list PlanStep :=
  let found := anchor_assurance current in
  let capability_transition := capability_transition_kind (cd_value (capability_posture current)) capability in
  let anchor_transition := anchor_transition_kind (ad_value found) anchor in
  let anchor_ready_now :=
    bool_decide (ad_value found = anchor) && anchor_evidence_is_clean (ad_evidence_state found) anchor in
  let anchor_steps := fst (anchor_assurance_steps current anchor anchor_transition 1) in
  let capability_steps := fst (capability_posture_steps capability capability_transition anchor_ready_now 1) in
  let capability_must_go_first :=
    match capability_transition with DOWNGRADE => true | _ => false end && bool_decide (anchor = NONE) &&
    match anchor_transition with NO_CHANGE => false | _ => true end in
  let length_of (l : list PlanStep) := Z.of_nat (length l) in
  if capability_must_go_first
  then reorder capability_steps 1 ++ reorder anchor_steps (1 + length_of capability_steps)
  else reorder anchor_steps 1 ++ reorder capability_steps (1 + length_of anchor_steps).

Definition build_plan_from_discovery (current : SecurityPostureDiscovery) (capability : CapabilityPosture)
    (anchor : AnchorAssurance) : SecurityPosturePlan :=
  let validity := evaluate_target_validity capability anchor in
  let found := anchor_assurance current in
  match validity with
  | INVALID_COMBINATION => blocked_plan current capability anchor validity BLOCKED_INVALID_TARGET
  | _ =>
    if bool_decide (ad_value found = UNKNOWN)
    then blocked_plan current capability anchor validity BLOCKED_INDETERMINATE_CURRENT_STATE else
    let capability_transition := capability_transition_kind (cd_value (capability_posture current)) capability in
    let anchor_transition := anchor_transition_kind (ad_value found) anchor in
    let steps := ordered_steps current capability anchor in
    let mismatch := bool_decide (ad_evidence_state found = PROVISIONED_MISMATCH) in
    {| pl_current := current; pl_target_capability_posture := capability;
       pl_target_anchor_assurance := anchor; pl_target_validity := validity;
       pl_capability_posture_transition := capability_transition;
       pl_anchor_assurance_transition := anchor_transition;
       pl_overall_status :=
         if mismatch then BLOCKED_ANOMALY_DETECTED else
         match validity, capability_transition, anchor_transition with
         | VALID_NOT_IMPLEMENTED, _, _ => BLOCKED_NOT_IMPLEMENTED
         | _, NO_CHANGE, NO_CHANGE => ALREADY_SATISFIED
         | _, _, _ => PLAN_GENERATED
         end;
       pl_safe_to_proceed := match validity with VALID => negb mismatch | _ => false end;
       pl_steps := if mismatch then map block_for_mismatch steps else steps |}
  end.

Definition generate_security_posture_plan_from_discovery (current : SecurityPostureDiscovery)
    (capability : CapabilityPosture) (anchor : AnchorAssurance) : result SecurityPosturePlan :=
  targets ← coerce_and_validate_targets capability anchor;
  Ok (build_plan_from_discovery current (fst targets) (snd targets)).

(** ** The digest of a plan *)

Definition PLAN_DIGEST_SCHEMA_VERSION : Z := 1.

Definition step_payload (step : PlanStep) : pyobj := pdict [
  ("step_id", PStr (st_step_id step));
  ("order", PInt (st_order step));
  ("axis", PStr (st_axis step));
  ("mutation_class", PStr (mutation_class_value (st_mutation_class step)));
  ("authorization_required", PStr (level_value (st_authorization_required step)))].

Definition evidence_fingerprint_payload (plan : SecurityPosturePlan) : pyobj :=
  let anchor := anchor_assurance (pl_current plan) in
  pdict [
  ("capability_posture_value", PStr (posture_value (cd_value (capability_posture (pl_current plan)))));
  ("anchor_assurance_value", PStr (assurance_value (ad_value anchor)));
  ("anchor_evidence_state", PStr (evidence_state_value (ad_evidence_state anchor)));
  ("anchor_baseline", py_opt_int (ad_baseline anchor));
  ("anchor_witness_value", py_opt_int (ad_witness_value anchor));
  ("anchor_provisioned_at", py_opt_str (ad_provisioned_at anchor))].

Definition plan_body (plan : SecurityPosturePlan) : list (string * pyobj) :=
  [("schema_version", PInt PLAN_DIGEST_SCHEMA_VERSION);
   ("target_capability_posture", PStr (posture_value (pl_target_capability_posture plan)));
   ("target_anchor_assurance", PStr (assurance_value (pl_target_anchor_assurance plan)));
   ("target_validity", PStr (validity_value (pl_target_validity plan)));
   ("steps", PList (map step_payload (pl_steps plan)));
   ("evidence_fingerprint", evidence_fingerprint_payload plan);
   ("overall_status", PStr (overall_status_value (pl_overall_status plan)));
   ("safe_to_proceed", PBool (pl_safe_to_proceed plan))].

Section digest.
Context `{Hash} `{UnicodeData}.

Definition compute_plan_digest (plan : SecurityPosturePlan) : result pystr :=
  digest_value PLAN (pdict (plan_body plan)) [].

Definition verify_plan_digest (plan : SecurityPosturePlan) (expected_digest : pystr) : result bool :=
  digest ← compute_plan_digest plan;
  compare_digest_str digest expected_digest.
End digest.
