(* ===== verification/PlanProps.v ===== *)
(** * What a plan promises, and what its digest names

    The planner's steps, for every discovered posture and every target; the
    fields a plan's digest fixes; and what the digest does not see. *)

From S2P Require Import Prelude PyStr Sha256 PyDatetime Json Canonical PyJson Literals Contract Evidence Plan.

(** ** Checking every combination

    A plan's steps depend on the two discovered values, the evidence state
    and the two targets, so the checks below are decided for each of their
    combinations. *)

Definition evidence_of (d : SecurityPostureDiscovery) : AnchorEvidenceState := ad_evidence_state (anchor_assurance d).
Definition anchor_of (d : SecurityPostureDiscovery) : AnchorAssurance := ad_value (anchor_assurance d).
Definition posture_of (d : SecurityPostureDiscovery) : CapabilityPosture := cd_value (capability_posture d).

Definition impact_is (i : SecurityImpact) (s : PlanStep) : bool :=
  match i, st_security_impact s with
  | IMPACT_NONE, IMPACT_NONE | INCREASES_ASSURANCE, INCREASES_ASSURANCE
  | DECREASES_ASSURANCE, DECREASES_ASSURANCE
  | ENABLES_MUTATION_CAPABILITY, ENABLES_MUTATION_CAPABILITY
  | DISABLES_MUTATION_CAPABILITY, DISABLES_MUTATION_CAPABILITY => true
  | _, _ => false
  end.

(** The steps are numbered from 1, their identifiers are distinct tokens,
    none is destructive, and the activation step is the one that needs the
    activation decision. *)
Definition step_ok (s : PlanStep) : bool :=
  match_token (st_step_id s) && is_ascii (st_axis s) &&
  negb (bool_decide (st_mutation_class s = DESTRUCTIVE_DEPROVISIONING)) &&
  negb (bool_decide (st_authorization_required s = SEPARATE_DEPROVISION_AUTHORIZATION)) &&
  implb (bool_decide (st_authorization_required s = UNDETERMINED_NOT_IMPLEMENTED)) (st_blocked s) &&
  eqb (pystr_eqb (st_step_id s) ALIAS_DESCRIPTION_WRITE_STEP_ID)
      (bool_decide (st_authorization_required s = ALIAS_DESCRIPTION_WRITE_REQUIRED_RISK_CLASS)) &&
  implb (pystr_eqb (st_step_id s) ALIAS_DESCRIPTION_WRITE_STEP_ID) (st_blocked s).

(** A step that lowers the anchor while the server may write comes after
    the one that takes writing away. *)
Definition lowering_ok (p : SecurityPosturePlan) (s : PlanStep) : bool :=
  implb (impact_is DECREASES_ASSURANCE s)
    (st_blocked s || negb (pl_safe_to_proceed p) || bool_decide (posture_of (pl_current p) = READ_ONLY) ||
     existsb (λ s', impact_is DISABLES_MUTATION_CAPABILITY s' && (st_order s' <? st_order s)%Z) (pl_steps p)).

(** A step towards writing that is not blocked has a verified anchor. *)
Definition enabling_ok (p : SecurityPosturePlan) (s : PlanStep) : bool :=
  implb (impact_is ENABLES_MUTATION_CAPABILITY s && negb (st_blocked s))
    (bool_decide (anchor_of (pl_current p) = pl_target_anchor_assurance p) &&
     negb (bool_decide (pl_target_anchor_assurance p = NONE)) &&
     bool_decide (evidence_of (pl_current p) = PROVISIONED_VERIFIED)).

Definition mismatch_ok (p : SecurityPosturePlan) (s : PlanStep) : bool :=
  implb (bool_decide (evidence_of (pl_current p) = PROVISIONED_MISMATCH) &&
         negb (bool_decide (st_mutation_class s = MUTATION_NONE))) (st_blocked s).

Definition steps_numbered (p : SecurityPosturePlan) : bool :=
  bool_decide (map st_order (pl_steps p) = Z.of_nat <$> seq 1 (length (pl_steps p))) &&
  bool_decide (NoDup (map st_step_id (pl_steps p))).

Definition plan_checked (p : SecurityPosturePlan) : bool :=
  steps_numbered p &&
  forallb (λ s, step_ok s && lowering_ok p s && enabling_ok p s && mismatch_ok p s) (pl_steps p).

Ltac plan_cases d cap anc :=
  destruct d as [[[] ? ? ? ? ?] [[] [] ? ? ? ? ? ? ? ? ? ? ?]], cap, anc.

Lemma plan_always_checked d cap anc :
  anc ≠ UNKNOWN → plan_checked (build_plan_from_discovery d cap anc) = true.
Proof. intros Hne. plan_cases d cap anc; first [vm_compute; reflexivity|by destruct Hne]. Qed.

Lemma generate_inv d cap anc p :
  generate_security_posture_plan_from_discovery d cap anc = Ok p →
  anc ≠ UNKNOWN ∧ p = build_plan_from_discovery d cap anc.
Proof.
  unfold generate_security_posture_plan_from_discovery, coerce_and_validate_targets.
  intros (? & (_ & Ha%require_Ok_any & [= <-])%bind_Ok & [= <-])%bind_Ok. split; [|done].
  by apply negb_true_iff, bool_decide_eq_false_1 in Ha.
Qed.

Lemma built_target d cap anc :
  let p := build_plan_from_discovery d cap anc in
  pl_current p = d ∧ pl_target_capability_posture p = cap ∧ pl_target_anchor_assurance p = anc.
Proof.
  unfold build_plan_from_discovery. destruct (evaluate_target_validity cap anc); [case_bool_decide| |case_bool_decide]; done.
Qed.

(** What the check decides, step by step. *)
Lemma generated_step d cap anc p s :
  generate_security_posture_plan_from_discovery d cap anc = Ok p → s ∈ pl_steps p →
  step_ok s = true ∧ lowering_ok p s = true ∧ enabling_ok p s = true ∧ mismatch_ok p s = true.
Proof.
  intros [Ha ->]%generate_inv Hs. pose proof (plan_always_checked d cap anc Ha) as Hc.
  unfold plan_checked in Hc. apply andb_true_iff in Hc as [_ Hc]. rewrite forallb_elem_of in Hc.
  specialize (Hc s Hs). rewrite !andb_true_iff in Hc. by destruct Hc as [[[? ?] ?] ?].
Qed.

Lemma impact_is_spec i s : impact_is i s = true ↔ st_security_impact s = i.
Proof. unfold impact_is. destruct i, (st_security_impact s); done. Qed.

(** ** Properties of the planner *)

(** Every plan is well formed.  Its steps are numbered from 1 without
    a gap and their identifiers are distinct; no step is destructive or
    needs the separate deprovisioning authorization; a step whose
    authorization is undetermined is blocked; the activation step, and it
    alone, needs the activation decision that the write path checks for,
    and it is always blocked; and it is in the plan exactly when writing is
    the target, over a target and a current anchor that permit a plan. *)
Theorem plan_well_formed d cap anc p :
  generate_security_posture_plan_from_discovery d cap anc = Ok p →
  map st_order (pl_steps p) = Z.of_nat <$> seq 1 (length (pl_steps p)) ∧
  NoDup (map st_step_id (pl_steps p)) ∧
  (∀ s, s ∈ pl_steps p →
     st_mutation_class s ≠ DESTRUCTIVE_DEPROVISIONING ∧
     st_authorization_required s ≠ SEPARATE_DEPROVISION_AUTHORIZATION ∧
     (st_authorization_required s = UNDETERMINED_NOT_IMPLEMENTED → st_blocked s = true) ∧
     (st_step_id s = ALIAS_DESCRIPTION_WRITE_STEP_ID ↔
      st_authorization_required s = ALIAS_DESCRIPTION_WRITE_REQUIRED_RISK_CLASS) ∧
     (st_step_id s = ALIAS_DESCRIPTION_WRITE_STEP_ID → st_blocked s = true)) ∧
  (ALIAS_DESCRIPTION_WRITE_STEP_ID ∈ map st_step_id (pl_steps p) ↔
   cap = WRITE_PROTECTED ∧ anc ≠ NONE ∧ anchor_of d ≠ UNKNOWN).
Proof.
  intros Hg. pose proof Hg as [Ha Hp]%generate_inv. pose proof (plan_always_checked d cap anc Ha) as Hc.
  rewrite <-Hp in Hc. unfold plan_checked, steps_numbered in Hc. rewrite !andb_true_iff in Hc.
  destruct Hc as [[Hn%bool_decide_eq_true_1 Hd%bool_decide_eq_true_1] _]. split_and!; [done|done| |].
  - intros s Hs. destruct (generated_step _ _ _ _ _ Hg Hs) as (Hk & _). unfold step_ok in Hk.
    rewrite !andb_true_iff, !negb_true_iff, !implb_true_iff, eqb_true_iff, !bool_decide_eq_false,
      !bool_decide_eq_true, pystr_eqb_eq in Hk.
    destruct Hk as ((((((_ & _) & H1) & H2) & H3) & H4) & H5). split_and!; [done..| |done].
    rewrite <-pystr_eqb_eq, H4. apply bool_decide_eq_true.
  - subst p. clear -Ha. unfold anchor_of.
    plan_cases d cap anc; cbn [anchor_assurance ad_value]; try done;
      (split; [intros Hin; first [by split_and!|exfalso; revert Hin; apply (bool_decide_unpack _); vm_compute; exact I]
             |intros (? & ? & ?); first [done|apply (bool_decide_unpack _); vm_compute; exact I]]).
Qed.

(** [C31] Writing is never planned without its anchor.  A plan for writing
    over no anchor has no steps; a step towards writing that is not blocked
    has the anchor already at its target, verified against the witness, so
    never over a mismatch; a step that lowers the anchor of a server that
    may write comes after the step that takes writing away, unless it is
    blocked or the plan says not to proceed; and over a mismatch every step
    that changes anything is blocked and the plan says not to proceed. *)
Theorem write_never_unanchored d cap anc p :
  generate_security_posture_plan_from_discovery d cap anc = Ok p →
  (cap = WRITE_PROTECTED → anc = NONE → pl_steps p = [] ∧ pl_safe_to_proceed p = false) ∧
  (∀ s, s ∈ pl_steps p → st_security_impact s = ENABLES_MUTATION_CAPABILITY → st_blocked s = false →
     anchor_of d = anc ∧ anc ≠ NONE ∧ evidence_of d = PROVISIONED_VERIFIED) ∧
  (∀ s, s ∈ pl_steps p → st_security_impact s = DECREASES_ASSURANCE → posture_of d = WRITE_PROTECTED →
     st_blocked s = true ∨ pl_safe_to_proceed p = false ∨
     ∃ s', s' ∈ pl_steps p ∧ st_security_impact s' = DISABLES_MUTATION_CAPABILITY ∧ (st_order s' < st_order s)%Z) ∧
  (evidence_of d = PROVISIONED_MISMATCH →
     pl_safe_to_proceed p = false ∧
     ∀ s, s ∈ pl_steps p → st_mutation_class s ≠ MUTATION_NONE → st_blocked s = true).
Proof.
  intros Hg. pose proof Hg as [Ha Hp]%generate_inv. destruct (built_target d cap anc) as (Ed & Ec & Et).
  rewrite <-Hp in Ed, Ec, Et. split_and!.
  - intros -> ->. by subst p.
  - intros s Hs Hi Hb. destruct (generated_step _ _ _ _ _ Hg Hs) as (_ & _ & Hk & _). unfold enabling_ok in Hk.
    rewrite (proj2 (impact_is_spec _ _) Hi), Hb, Ed, Et in Hk. cbn [andb negb implb] in Hk.
    rewrite !andb_true_iff, negb_true_iff, !bool_decide_eq_true, bool_decide_eq_false in Hk. naive_solver.
  - intros s Hs Hi Hw. destruct (generated_step _ _ _ _ _ Hg Hs) as (_ & Hk & _). unfold lowering_ok in Hk.
    rewrite (proj2 (impact_is_spec _ _) Hi), Ed, Hw in Hk. cbn [implb] in Hk.
    rewrite !orb_true_iff, negb_true_iff, existsb_exists in Hk.
    destruct Hk as [[[?|?]|?]|(s' & Hin%list_elem_of_In & Hs')]; [by left|by right; left|done|].
    right; right. exists s'. rewrite andb_true_iff, impact_is_spec, Z.ltb_lt in Hs'. by destruct Hs'.
  - intros He. split.
    + subst p. unfold build_plan_from_discovery. unfold evidence_of in He.
      destruct (evaluate_target_validity cap anc); [| |]; try case_bool_decide; try done.
      cbn [pl_safe_to_proceed]. by rewrite He.
    + intros s Hs Hm. destruct (generated_step _ _ _ _ _ Hg Hs) as (_ & _ & _ & Hk). unfold mismatch_ok in Hk.
      rewrite Ed, (bool_decide_eq_true_2 _ He), (bool_decide_eq_false_2 _ Hm) in Hk. exact Hk.
Qed.

(** ** The digest of a plan *)

Section digests.
Context `{Hash} `{UnicodeData}.

(** The values of the enumerations are distinct ASCII texts. *)
Lemma posture_value_inj p q : posture_value p = posture_value q → p = q.
Proof. by destruct p, q. Qed.
Lemma assurance_value_inj p q : assurance_value p = assurance_value q → p = q.
Proof. by destruct p, q. Qed.
Lemma evidence_state_value_inj p q : evidence_state_value p = evidence_state_value q → p = q.
Proof. by destruct p, q. Qed.
Lemma posture_value_ascii p : is_ascii (posture_value p) = true.
Proof. by destruct p. Qed.
Lemma assurance_value_ascii p : is_ascii (assurance_value p) = true.
Proof. by destruct p. Qed.
Lemma evidence_state_value_ascii p : is_ascii (evidence_state_value p) = true.
Proof. by destruct p. Qed.

(** What a generated plan takes from the discovery. *)
Lemma plan_depends d d' cap anc :
  posture_of d = posture_of d' → anchor_of d = anchor_of d' → evidence_of d = evidence_of d' →
  let p := build_plan_from_discovery d cap anc in
  let p' := build_plan_from_discovery d' cap anc in
  pl_steps p = pl_steps p' ∧ pl_target_validity p = pl_target_validity p' ∧
  pl_overall_status p = pl_overall_status p' ∧ pl_safe_to_proceed p = pl_safe_to_proceed p'.
Proof.
  unfold posture_of, anchor_of, evidence_of. intros Ep Ea Ee. unfold build_plan_from_discovery.
  rewrite Ea. assert (ordered_steps d cap anc = ordered_steps d' cap anc) as Eo.
  { unfold ordered_steps, anchor_assurance_steps. by rewrite Ep, Ea, Ee. }
  rewrite Ep, Ee, Eo. destruct (evaluate_target_validity cap anc); [| |]; try case_bool_decide; done.
Qed.

(** The digest-relevant values of a discovery. *)
Definition same_fingerprint (d d' : SecurityPostureDiscovery) : Prop :=
  posture_of d = posture_of d' ∧ anchor_of d = anchor_of d' ∧ evidence_of d = evidence_of d' ∧
  ad_baseline (anchor_assurance d) = ad_baseline (anchor_assurance d') ∧
  ad_witness_value (anchor_assurance d) = ad_witness_value (anchor_assurance d') ∧
  nfc <$> ad_provisioned_at (anchor_assurance d) = nfc <$> ad_provisioned_at (anchor_assurance d').

Lemma fingerprint_entry p :
  ("evidence_fingerprint", pdict (fingerprint_literal
    (posture_value (posture_of (pl_current p))) (assurance_value (anchor_of (pl_current p)))
    (evidence_state_value (evidence_of (pl_current p))) (ad_baseline (anchor_assurance (pl_current p)))
    (ad_witness_value (anchor_assurance (pl_current p))) (ad_provisioned_at (anchor_assurance (pl_current p)))))
  ∈ plan_body p.
Proof. unfold plan_body. do 5 apply list_elem_of_further. apply list_elem_of_here. Qed.

Lemma same_form_fingerprint p p' j :
  canonical_form (pdict (plan_body p)) j → canonical_form (pdict (plan_body p')) j →
  same_fingerprint (pl_current p) (pl_current p').
Proof.
  intros Hj Hj'.
  destruct (fingerprint_agree _ _ _ _ _ _ _ _ _ _ _ _ _ _ _ _ Hj Hj' (fingerprint_entry p) (fingerprint_entry p') eq_refl)
    as (E1 & E2 & E3 & E4 & E5 & E6).
  rewrite !nfc_ascii in E1 by apply posture_value_ascii. rewrite !nfc_ascii in E2 by apply assurance_value_ascii.
  rewrite !nfc_ascii in E3 by apply evidence_state_value_ascii.
  split_and!; [by apply posture_value_inj|by apply assurance_value_inj|by apply evidence_state_value_inj|done..].
Qed.

Lemma same_form_targets p p' j :
  canonical_form (pdict (plan_body p)) j → canonical_form (pdict (plan_body p')) j →
  pl_target_capability_posture p = pl_target_capability_posture p' ∧
  pl_target_anchor_assurance p = pl_target_anchor_assurance p'.
Proof.
  intros Hj Hj'. split; [apply posture_value_inj|apply assurance_value_inj].
  - eapply (literal_agree_str _ _ _ "target_capability_posture" _ _ Hj Hj'); [in_list|in_list|done|..];
      apply posture_value_ascii.
  - eapply (literal_agree_str _ _ _ "target_anchor_assurance" _ _ Hj Hj'); [in_list|in_list|done|..];
      apply assurance_value_ascii.
Qed.

(** A plan's digest names the plan.  Two generated plans with one
    digest have the same targets, come from discoveries that agree on the
    evidence fingerprint (the provisioning time up to Unicode
    normalisation), and are the same plan: the same steps, every field of
    them, the same validity, status and verdict; or else their preimages are
    a collision of SHA-256. *)
Theorem plan_digest_names d d' cap cap' anc anc' p p' x :
  generate_security_posture_plan_from_discovery d cap anc = Ok p →
  generate_security_posture_plan_from_discovery d' cap' anc' = Ok p' →
  compute_plan_digest p = Ok x → compute_plan_digest p' = Ok x →
  (cap = cap' ∧ anc = anc' ∧ same_fingerprint d d' ∧ pl_steps p = pl_steps p' ∧
   pl_target_validity p = pl_target_validity p' ∧ pl_overall_status p = pl_overall_status p' ∧
   pl_safe_to_proceed p = pl_safe_to_proceed p')
  ∨ digest_collides PLAN (pdict (plan_body p)) [] PLAN (pdict (plan_body p')) [].
Proof.
  intros [_ Hp]%generate_inv [_ Hp']%generate_inv Hx Hx'.
  destruct (digest_value_pins _ _ _ _ _ _ _ Hx Hx') as [(_ & _ & j & Hj & Hj')|Hc]; [left|by right].
  destruct (same_form_targets _ _ _ Hj Hj') as [Ec Ea]. pose proof (same_form_fingerprint _ _ _ Hj Hj') as Hf.
  destruct (built_target d cap anc) as (B1 & B2 & B3), (built_target d' cap' anc') as (B1' & B2' & B3').
  rewrite <-Hp in B1, B2, B3. rewrite <-Hp' in B1', B2', B3'. rewrite B1, B1' in Hf.
  assert (cap = cap') as -> by congruence. assert (anc = anc') as -> by congruence.
  pose proof Hf as (E1 & E2 & E3 & _). subst p p'.
  split_and!; [done|done|done|by apply plan_depends..].
Qed.

Lemma plan_body_same d d' cap anc :
  posture_of d = posture_of d' → anchor_of d = anchor_of d' → evidence_of d = evidence_of d' →
  ad_baseline (anchor_assurance d) = ad_baseline (anchor_assurance d') →
  ad_witness_value (anchor_assurance d) = ad_witness_value (anchor_assurance d') →
  ad_provisioned_at (anchor_assurance d) = ad_provisioned_at (anchor_assurance d') →
  plan_body (build_plan_from_discovery d cap anc) = plan_body (build_plan_from_discovery d' cap anc).
Proof.
  intros E1 E2 E3 E4 E5 E6. destruct (plan_depends d d' cap anc E1 E2 E3) as (F1 & F2 & F3 & F4).
  destruct (built_target d cap anc) as (B1 & B2 & B3), (built_target d' cap anc) as (B1' & B2' & B3').
  revert F1 F2 F3 F4 B1 B2 B3 B1' B2' B3'.
  generalize (build_plan_from_discovery d cap anc) (build_plan_from_discovery d' cap anc). intros p p'; intros.
  unfold plan_body, evidence_fingerprint_payload, posture_of, anchor_of, evidence_of in *. congruence.
Qed.

(** [C38] The digest depends on nothing else: two discoveries that agree on
    the six values of the fingerprint give, for one target, plans with the
    same digest, or the same refusal, whatever else they found (store and
    witness configuration, profile name, counts, allow-list).  So a plan
    from an authenticated export and the one from the live store have one
    digest. *)
Theorem plan_digest_evidence_only d d' cap anc :
  posture_of d = posture_of d' → anchor_of d = anchor_of d' → evidence_of d = evidence_of d' →
  ad_baseline (anchor_assurance d) = ad_baseline (anchor_assurance d') →
  ad_witness_value (anchor_assurance d) = ad_witness_value (anchor_assurance d') →
  ad_provisioned_at (anchor_assurance d) = ad_provisioned_at (anchor_assurance d') →
  generate_security_posture_plan_from_discovery d cap anc ≫= compute_plan_digest =
  generate_security_posture_plan_from_discovery d' cap anc ≫= compute_plan_digest.
Proof.
  intros E1 E2 E3 E4 E5 E6. unfold generate_security_posture_plan_from_discovery.
  destruct (coerce_and_validate_targets cap anc) as [[c a]|e]; [|done]. cbn [mbind result_bind fst snd].
  unfold compute_plan_digest. by rewrite (plan_body_same d d').
Qed.

(** Verification of a plan's digest: it holds exactly when the expected
    text is the digest recomputed from the plan; any other ASCII text,
    malformed or empty, is refused; and a text outside ASCII raises
    [TypeError], from [hmac.compare_digest]. *)
Theorem plan_digest_verified p expected :
  (verify_plan_digest p expected = Ok true ↔ compute_plan_digest p = Ok expected) ∧
  (∀ x, compute_plan_digest p = Ok x →
     verify_plan_digest p expected = if is_ascii expected then Ok (pystr_eqb x expected) else Raise TypeError).
Proof.
  assert (∀ x, compute_plan_digest p = Ok x → is_ascii x = true) as Ha
    by (intros x Hx; by eapply match_hex64_ascii, digest_value_match).
  assert (∀ x, compute_plan_digest p = Ok x →
    verify_plan_digest p expected = if is_ascii expected then Ok (pystr_eqb x expected) else Raise TypeError) as Hv.
  { intros x Hx. unfold verify_plan_digest. rewrite Hx. cbn [mbind result_bind]. unfold compare_digest_str.
    rewrite (Ha x Hx). by destruct (is_ascii expected). }
  split; [|done]. split.
  - destruct (compute_plan_digest p) as [x|e] eqn:Hx; [|by unfold verify_plan_digest; rewrite Hx].
    rewrite (Hv x eq_refl). destruct (is_ascii expected); [|done]. intros [= ->%pystr_eqb_eq]. done.
  - intros Hx. rewrite (Hv _ Hx), (Ha _ Hx), pystr_eqb_refl. done.
Qed.
End digests.

(** ** Concrete plans *)

Module SamplePlan.
Definition posture (p : CapabilityPosture) : CapabilityPostureDiscovery := {|
  cd_value := p; cd_configured_profile_name := u "write_protected"; cd_configured_profile_valid := true;
  cd_write_capabilities_active := 1; cd_write_capabilities_total := 8;
  cd_allow_list_entries := [u "FIREWALL_ALIAS"] |}.

(** A provisioned anchor whose witness holds [w]. *)
Definition anchored (w : Z) : AnchorAssuranceDiscovery := {|
  ad_value := HARDWARE_WITNESS;
  ad_evidence_state := if (w =? 7)%Z then PROVISIONED_VERIFIED else PROVISIONED_MISMATCH;
  ad_store_configured := true; ad_store_exists := Some true; ad_seeded := Some true; ad_complete := Some true;
  ad_handle := Some (u "0x01500001"); ad_baseline := Some 7%Z;
  ad_provisioned_at := Some (u "2026-08-11T10:00:00+00:00"); ad_witness_configured := true;
  ad_witness_reachable := Some true; ad_witness_value := Some w;
  ad_witness_matches_baseline := Some (w =? 7)%Z |}.

Definition verified : SecurityPostureDiscovery :=
  {| capability_posture := posture WRITE_PROTECTED; anchor_assurance := anchored 7 |}.
Definition mismatched : SecurityPostureDiscovery :=
  {| capability_posture := posture WRITE_PROTECTED; anchor_assurance := anchored 6 |}.
(** The same evidence from another source. *)
Definition exported : SecurityPostureDiscovery :=
  {| capability_posture :=
       {| cd_value := WRITE_PROTECTED; cd_configured_profile_name := u "signer"; cd_configured_profile_valid := false;
          cd_write_capabilities_active := 0; cd_write_capabilities_total := 8; cd_allow_list_entries := [] |};
     anchor_assurance := anchored 7 |}.

Definition plan_of (d : SecurityPostureDiscovery) (cap : CapabilityPosture) (anc : AnchorAssurance) :
    SecurityPosturePlan := build_plan_from_discovery d cap anc.
Definition write_plan : SecurityPosturePlan := plan_of verified WRITE_PROTECTED HARDWARE_WITNESS.
Definition digest : pystr := Eval vm_compute in
  match @compute_plan_digest Sample.hash Sample.unicode write_plan with Ok x => x | Raise _ => [] end.

Lemma exported_plans : generate_security_posture_plan_from_discovery exported WRITE_PROTECTED HARDWARE_WITNESS =
  Ok (plan_of exported WRITE_PROTECTED HARDWARE_WITNESS).
Proof. vm_compute. reflexivity. Qed.
Lemma write_plans : generate_security_posture_plan_from_discovery verified WRITE_PROTECTED HARDWARE_WITNESS =
  Ok write_plan.
Proof. vm_compute. reflexivity. Qed.
End SamplePlan.

#[local] Existing Instances Sample.hash Sample.unicode.

Lemma plan_well_formed_witness :
  map st_order (pl_steps (SamplePlan.plan_of SamplePlan.verified READ_ONLY NONE)) = [1; 2]%Z.
Proof.
  exact (proj1 (plan_well_formed SamplePlan.verified READ_ONLY NONE
    (SamplePlan.plan_of SamplePlan.verified READ_ONLY NONE) eq_refl)).
Defined.

Lemma write_never_unanchored_witness :
  pl_safe_to_proceed (SamplePlan.plan_of SamplePlan.mismatched WRITE_PROTECTED HARDWARE_WITNESS) = false.
Proof.
  exact (proj1 (proj2 (proj2 (proj2 (write_never_unanchored SamplePlan.mismatched WRITE_PROTECTED HARDWARE_WITNESS
    (SamplePlan.plan_of SamplePlan.mismatched WRITE_PROTECTED HARDWARE_WITNESS) eq_refl))) eq_refl)).
Defined.

Lemma plan_digest_names_witness :
  pl_steps (SamplePlan.plan_of SamplePlan.exported WRITE_PROTECTED HARDWARE_WITNESS) =
    pl_steps SamplePlan.write_plan ∨
  digest_collides PLAN (pdict (plan_body (SamplePlan.plan_of SamplePlan.exported WRITE_PROTECTED HARDWARE_WITNESS))) []
    PLAN (pdict (plan_body SamplePlan.write_plan)) [].
Proof.
  destruct (@plan_digest_names Sample.hash Sample.unicode SamplePlan.exported SamplePlan.verified WRITE_PROTECTED WRITE_PROTECTED
    HARDWARE_WITNESS HARDWARE_WITNESS (SamplePlan.plan_of SamplePlan.exported WRITE_PROTECTED HARDWARE_WITNESS)
    SamplePlan.write_plan SamplePlan.digest SamplePlan.exported_plans SamplePlan.write_plans ltac:(vm_compute; reflexivity) ltac:(vm_compute; reflexivity))
    as [(_ & _ & _ & Hs & _)|Hc].
  - exact (or_introl Hs).
  - exact (or_intror Hc).
Defined.

Lemma plan_digest_evidence_only_witness :
  (generate_security_posture_plan_from_discovery SamplePlan.exported WRITE_PROTECTED HARDWARE_WITNESS
     ≫= compute_plan_digest) =
  (generate_security_posture_plan_from_discovery SamplePlan.verified WRITE_PROTECTED HARDWARE_WITNESS
     ≫= compute_plan_digest).
Proof.
  exact (@plan_digest_evidence_only Sample.hash Sample.unicode SamplePlan.exported SamplePlan.verified WRITE_PROTECTED HARDWARE_WITNESS
    eq_refl eq_refl eq_refl eq_refl eq_refl eq_refl).
Defined.
