(* ===== verification/PreparedIntent.v ===== *)
(** * The prepared execution intent

    [tier1/prepared_execution_intent.py]: the one immutable object an
    authorization binds, with its deeply frozen values, and the digest of
    it.  A frozen value thaws to the canonical form of the value it was made
    from, and equal digests name equal intents. *)

From S2P Require Import Prelude PyStr Sha256 Json Capability Canonical PyJson Literals Contract.

Definition PREPARED_EXECUTION_INTENT_SCHEMA_VERSION : Z := 1.
Definition DIGEST_CONTEXT : list pystr := [u "PreparedExecutionIntentV1"].

(** ** Frozen values *)

(** [_FrozenCanonicalValue] *)
Inductive FrozenCanonicalValue : Type :=
  | FrozenCanonicalScalar (v : json)
  | FrozenCanonicalList (items : list FrozenCanonicalValue)
  | FrozenCanonicalObject (items : list (pystr * FrozenCanonicalValue)).

Fixpoint freeze (value : json) : FrozenCanonicalValue :=
  match value with
  | JList l => FrozenCanonicalList (map freeze l)
  | JObj l => FrozenCanonicalObject (sort_items (map (λ kv, (fst kv, freeze (snd kv))) l))
  | _ => FrozenCanonicalScalar value
  end.

Fixpoint thaw (value : FrozenCanonicalValue) : json :=
  match value with
  | FrozenCanonicalScalar v => v
  | FrozenCanonicalList items => JList (map thaw items)
  | FrozenCanonicalObject items => JObj (map (λ kv, (fst kv, thaw (snd kv))) items)
  end.

Section intent.
Context `{Hash} `{UnicodeData}.

(** [_validated_frozen] *)
Definition validated_frozen (value : pyobj) (require_object : bool) : result FrozenCanonicalValue :=
  canonical ← try_except (validate_canonical_value value) (λ e,
    if bool_decide (e = CanonicalizationError) then Some (Raise PreparedExecutionIntentError) else None);
  _ ← require (match canonical with JNull => false | _ => true end) PreparedExecutionIntentError;
  _ ← require (negb require_object || match canonical with JObj _ => true | _ => false end)
        PreparedExecutionIntentError;
  Ok (freeze canonical).

(** ** The intent *)

Record PreparedExecutionIntentV1 : Type := {
  pi_schema_version : Z;
  pi_capability : Capability;
  pi_endpoint_symbol : pystr;
  pi_http_method : pystr;
  pi_adapter_version : pystr;
  pi_rollback_plan_version : pystr;
  pi_resource_target_ : FrozenCanonicalValue;
  pi_target_precondition_ : FrozenCanonicalValue;
  pi_normalized_mutation_intent_ : FrozenCanonicalValue;
  pi_rollback_snapshot_ : FrozenCanonicalValue;
}.

(** [__init__] *)
Definition PreparedExecutionIntentV1_new (schema_version : Z) (capability : Capability)
    (endpoint_symbol http_method adapter_version : pystr)
    (resource_target target_precondition normalized_mutation_intent rollback_snapshot : pyobj)
    (rollback_plan_version : pystr) : result PreparedExecutionIntentV1 :=
  _ ← require (schema_version =? PREPARED_EXECUTION_INTENT_SCHEMA_VERSION)%Z PreparedExecutionIntentError;
  _ ← require (is_write_capability capability) PreparedExecutionIntentError;
  _ ← require (forallb match_token [endpoint_symbol; adapter_version; rollback_plan_version])
        PreparedExecutionIntentError;
  _ ← require (is_mutating_method http_method) PreparedExecutionIntentError;
  frozen_target ← validated_frozen resource_target false;
  frozen_precondition ← validated_frozen target_precondition false;
  frozen_intent ← validated_frozen normalized_mutation_intent true;
  frozen_snapshot ← validated_frozen rollback_snapshot false;
  Ok {| pi_schema_version := schema_version; pi_capability := capability;
        pi_endpoint_symbol := endpoint_symbol; pi_http_method := http_method;
        pi_adapter_version := adapter_version; pi_rollback_plan_version := rollback_plan_version;
        pi_resource_target_ := frozen_target; pi_target_precondition_ := frozen_precondition;
        pi_normalized_mutation_intent_ := frozen_intent; pi_rollback_snapshot_ := frozen_snapshot |}.

(** The properties: every access returns a fresh value. *)
Definition resource_target (i : PreparedExecutionIntentV1) : pyobj := py_of_json (thaw (pi_resource_target_ i)).
Definition target_precondition (i : PreparedExecutionIntentV1) : pyobj :=
  py_of_json (thaw (pi_target_precondition_ i)).
Definition normalized_mutation_intent (i : PreparedExecutionIntentV1) : pyobj :=
  py_of_json (thaw (pi_normalized_mutation_intent_ i)).
Definition rollback_snapshot (i : PreparedExecutionIntentV1) : pyobj :=
  py_of_json (thaw (pi_rollback_snapshot_ i)).

Definition prepared_execution_intent_payload_of (i : PreparedExecutionIntentV1) : list (string * pyobj) :=
  [("schema_version", PInt (pi_schema_version i));
   ("capability", PStr (capability_name (pi_capability i)));
   ("endpoint_symbol", PStr (pi_endpoint_symbol i));
   ("http_method", PStr (pi_http_method i));
   ("adapter_version", PStr (pi_adapter_version i));
   ("resource_target", resource_target i);
   ("target_precondition", target_precondition i);
   ("normalized_mutation_intent", normalized_mutation_intent i);
   ("rollback_snapshot", rollback_snapshot i);
   ("rollback_plan_version", PStr (pi_rollback_plan_version i))].

Definition compute_execution_intent_digest (i : PreparedExecutionIntentV1) : result pystr :=
  digest_value EXECUTION_INTENT (pdict (prepared_execution_intent_payload_of i)) DIGEST_CONTEXT.
End intent.

(** ** Thawing *)

Lemma insert_item_map {A B} (f : A → B) k v (l : list (pystr * A)) :
  insert_item k (f v) (map (λ kv, (fst kv, f (snd kv))) l) = map (λ kv, (fst kv, f (snd kv))) (insert_item k v l).
Proof.
  induction l as [|[k' v'] l IH]; [done|]. cbn [map insert_item fst snd]. destruct (pystr_leb k k'); [done|].
  cbn [map fst snd]. by rewrite <-IH.
Qed.

Lemma sort_items_map {A B} (f : A → B) (l : list (pystr * A)) :
  sort_items (map (λ kv, (fst kv, f (snd kv))) l) = map (λ kv, (fst kv, f (snd kv))) (sort_items l).
Proof.
  induction l as [|[k v] l IH]; [done|]. unfold sort_items in *. cbn [map foldr fst snd]. rewrite IH.
  apply insert_item_map.
Qed.

Lemma thaw_freeze v : thaw (freeze v) = sort_keys v.
Proof.
  induction v as [| | | | |l IH|l IH] using json_ind'; [done..| |]; cbn [freeze thaw sort_keys]; f_equal.
  - rewrite map_map. apply map_ext_in. intros x Hin%list_elem_of_In. rewrite Forall_forall in IH. by apply IH.
  - rewrite <-(sort_items_map thaw), map_map. f_equal. apply map_ext_in. intros [k x] Hin%list_elem_of_In. cbn [fst snd].
    f_equal. rewrite Forall_forall in IH. by apply (IH (k, x)).
Qed.

(** Sorting twice is sorting. *)
Lemma sort_items_sorted_id {A} (l : list (pystr * A)) : StronglySorted key_le l → sort_items l = l.
Proof.
  induction 1 as [|[k v] l _ IH Hall]; [done|]. unfold sort_items in *. cbn [foldr fst snd]. rewrite IH.
  destruct l as [|[k' v'] l]; [done|]. cbn [insert_item]. apply Forall_cons in Hall as [Hle _].
  unfold key_le, pystr_le in Hle. cbn [fst] in Hle. by rewrite Hle.
Qed.

Lemma sort_keys_idem v : sort_keys (sort_keys v) = sort_keys v.
Proof.
  induction v as [| | | | |l IH|l IH] using json_ind'; [done..| |]; cbn [sort_keys]; f_equal.
  - rewrite map_map. apply map_ext_in. intros x Hin%list_elem_of_In. rewrite Forall_forall in IH. by apply IH.
  - rewrite <-(sort_items_map sort_keys), map_map.
    assert (map (λ x : pystr * json, (fst (fst x, sort_keys (snd x)), sort_keys (snd (fst x, sort_keys (snd x))))) l
      = map (λ kv, (fst kv, sort_keys (snd kv))) l) as ->.
    { apply map_ext_in. intros [k x] Hin%list_elem_of_In. cbn [fst snd]. f_equal.
      rewrite Forall_forall in IH. by apply (IH (k, x)). }
    apply sort_items_sorted_id, sort_items_sorted.
Qed.

(** ** Normalised values *)

Section normalised.
Context `{Hash} `{UnicodeData}.

(** Every string and key of the value is its own normal form. *)
Fixpoint normalised (v : json) : bool :=
  match v with
  | JStr s => pystr_eqb (nfc s) s
  | JList l => forallb normalised l
  | JObj l => forallb (λ kv, pystr_eqb (nfc (fst kv)) (fst kv) && normalised (snd kv)) l
  | JFloat _ => false
  | _ => true
  end.

Lemma ok_string_fixed s t : ok_string s = Some t → pystr_eqb (nfc t) t = true.
Proof. intros ->%ok_string_nfc. by rewrite nfc_idem, pystr_eqb_refl. Qed.

Lemma denote_normalised v d j : denote d v = Some j → normalised j = true.
Proof.
  revert d j. induction v as [|b|z| |s|l IH|l IH|l IH|] using pyobj_ind'; intros d j Hj;
    pose proof (denote_shallow _ _ _ Hj) as Hd.
  8: { rewrite denote_dict in Hj by done. destruct (too_big l); [done|].
    apply bind_Some in Hj as (es & Hes & Hj). case_decide; [|done]. injection Hj as <-.
    cbn [normalised]. rewrite forallb_forall. intros e Hin%list_elem_of_In. revert e Hin. rewrite <-Forall_forall.
    eapply (mapM_Forall_2 (denote_entry (denote (d + 1))) (λ kv, ∀ d j, denote d (snd kv) = Some j → normalised j = true) _ l es);
      [|done|done].
    intros [key w] [k x] Hw He. unfold denote_entry in He. cbn [fst snd] in *. destruct key; try done.
    apply bind_Some in He as (k' & Hk & (x' & Hx & [= <- <-])%bind_Some).
    rewrite (ok_string_fixed _ _ Hk). cbn [andb]. by eapply Hw. }
  all: cbn [denote] in Hj; rewrite Hd in Hj; try done.
  - by injection Hj as <-.
  - by injection Hj as <-.
  - destruct (_ && _); [|done]. by injection Hj as <-.
  - apply fmap_Some in Hj as (x & Hx & ->). by apply ok_string_fixed in Hx.
  - destruct (too_big l); [done|]. apply fmap_Some in Hj as (xs & Hxs & ->). cbn [normalised].
    rewrite forallb_forall. intros e Hin%list_elem_of_In. revert e Hin. rewrite <-Forall_forall.
    exact (mapM_Forall_2 _ _ _ l xs (λ a b Ha Hb, Ha _ _ Hb) IH Hxs).
  - destruct (too_big l); [done|]. apply fmap_Some in Hj as (xs & Hxs & ->). cbn [normalised].
    rewrite forallb_forall. intros e Hin%list_elem_of_In. revert e Hin. rewrite <-Forall_forall.
    exact (mapM_Forall_2 _ _ _ l xs (λ a b Ha Hb, Ha _ _ Hb) IH Hxs).
Qed.

Lemma normalised_sort_keys v : normalised v = true → normalised (sort_keys v) = true.
Proof.
  induction v as [| | | | |l IH|l IH] using json_ind'; intros Hv; try done; cbn [sort_keys normalised] in *;
    rewrite forallb_elem_of in *; rewrite Forall_forall in IH.
  - intros x (y & -> & Hy)%list_elem_of_fmap. auto.
  - intros [k x] Hx. rewrite sort_items_perm in Hx. apply list_elem_of_fmap in Hx as ([k' y] & [= -> ->] & Hy).
    specialize (Hv _ Hy). cbn [fst snd] in *. apply andb_true_iff in Hv as [-> Hv]. cbn [andb]. by apply (IH _ Hy).
Qed.

(** Such a value, where it is accepted, denotes itself. *)
Lemma denote_fixed w d x : normalised w = true → denote d (py_of_json w) = Some x → x = w.
Proof.
  revert d x. induction w as [|b|z|t|s|l IH|l IH] using json_ind'; intros d x Hw Hx;
    pose proof (denote_shallow _ _ _ Hx) as Hd; [cbn [py_of_json denote normalised] in *; rewrite Hd in Hx..|].
  - by injection Hx.
  - by injection Hx.
  - destruct (_ && _); [|done]. by injection Hx.
  - done.
  - apply fmap_Some in Hx as (t & ->%ok_string_nfc & ->). f_equal. by apply pystr_eqb_eq.
  - destruct (too_big _); [done|]. apply fmap_Some in Hx as (xs & Hxs & ->). f_equal. clear -IH Hw Hxs.
    revert xs Hxs. induction IH as [|w l Hl _ IHl]; intros xs Hxs; [by injection Hxs as <-|].
    cbn [map forallb] in *. apply andb_true_iff in Hw as [Hw Hws]. rewrite mapM_cons in Hxs.
    apply bind_Some in Hxs as (y & Hy & (r & Hr & [= <-])%bind_Some). f_equal; eauto.
  - cbn [py_of_json] in Hx. rewrite denote_dict in Hx by done. destruct (too_big _); [done|].
    apply bind_Some in Hx as (es & Hes & Hx). case_decide; [|done]. injection Hx as <-. f_equal.
    cbn [normalised] in Hw. clear -IH Hw Hes.
    revert es Hes. induction IH as [|[k w] l Hl _ IHl]; intros es Hes; [by injection Hes as <-|].
    cbn [map forallb fst snd] in *. apply andb_true_iff in Hw as [[Hk Hw]%andb_true_iff Hws]. rewrite mapM_cons in Hes.
    apply bind_Some in Hes as ([k' y] & Hy & (r & Hr & [= <-])%bind_Some). unfold denote_entry in Hy. cbn [fst snd] in Hy.
    apply bind_Some in Hy as (k2 & ->%ok_string_nfc & (y2 & Hy & [= <- <-])%bind_Some).
    apply pystr_eqb_eq in Hk. f_equal; [|eauto]. f_equal; eauto.
Qed.

(** ** What a digest names *)

(** A value [__init__] froze. *)
Definition frozen (f : FrozenCanonicalValue) : Prop := ∃ v j, validate_canonical_value v = Ok j ∧ f = freeze j.

Lemma validated_frozen_inv v b f : validated_frozen v b = Ok f → ∃ j, validate_canonical_value v = Ok j ∧ f = freeze j.
Proof.
  unfold validated_frozen. intros (j & Hj & Hf)%bind_Ok. rewrite !require_bind in Hf. destruct Hf as (_ & _ & [= <-]).
  exists j. split; [|done]. unfold try_except in Hj. destruct (validate_canonical_value v) as [j'|e]; [by injection Hj as ->|].
  by destruct (bool_decide _).
Qed.

Lemma thaw_denoted f d x : frozen f → denote d (py_of_json (thaw f)) = Some x → sort_keys x = thaw f.
Proof.
  intros (v & j & [Hj _]%validate_denote & ->) Hx. rewrite thaw_freeze in *.
  apply denote_fixed in Hx as ->; [apply sort_keys_idem|]. by eapply normalised_sort_keys, denote_normalised.
Qed.

Lemma literal_agree_frozen l l' j k f f' :
  canonical_form (pdict l) j → canonical_form (pdict l') j → frozen f → frozen f' →
  (k, py_of_json (thaw f)) ∈ l → (k, py_of_json (thaw f')) ∈ l' → is_ascii (u k) = true → thaw f = thaw f'.
Proof.
  intros Hj Hj' Hf Hf' Hin Hin' Hk. destruct (literal_agree _ _ _ _ _ _ Hj Hj' Hin Hin' Hk) as (x & x' & Hx & Hx' & E).
  by rewrite <-(thaw_denoted _ _ _ Hf Hx), <-(thaw_denoted _ _ _ Hf' Hx').
Qed.

(** What the frozen value reads back as. *)
Lemma validated_frozen_form v b f : validated_frozen v b = Ok f →
  (∃ j, canonical_form v j ∧ py_of_json (thaw f) = py_of_json j ∧ py_of_json (thaw f) ≠ PNone) ∧
  (b = true → ∃ items, py_of_json (thaw f) = PDict items).
Proof.
  intros Hf. pose proof Hf as (j & Hj & ->)%validated_frozen_inv. unfold validated_frozen, try_except in Hf.
  rewrite Hj, thaw_freeze in *. cbn [mbind result_bind] in Hf. rewrite !require_bind in Hf. destruct Hf as (Hn & Ho & _).
  split.
  - exists (sort_keys j). split_and!; [by exists j|done|by destruct j].
  - intros ->. destruct j; try done. by eexists.
Qed.

(** An object [__init__] returned. *)
Definition prepared_intent (i : PreparedExecutionIntentV1) : Prop :=
  ∃ sv cap es m av rt tp nmi rs rv, PreparedExecutionIntentV1_new sv cap es m av rt tp nmi rs rv = Ok i.

Record intent_facts (i : PreparedExecutionIntentV1) : Prop := {
  if_schema : pi_schema_version i = PREPARED_EXECUTION_INTENT_SCHEMA_VERSION;
  if_write : is_write_capability (pi_capability i) = true;
  if_endpoint : match_token (pi_endpoint_symbol i) = true;
  if_adapter : match_token (pi_adapter_version i) = true;
  if_rollback : match_token (pi_rollback_plan_version i) = true;
  if_method : is_mutating_method (pi_http_method i) = true;
  if_target : frozen (pi_resource_target_ i);
  if_precondition : frozen (pi_target_precondition_ i);
  if_intent : frozen (pi_normalized_mutation_intent_ i);
  if_snapshot : frozen (pi_rollback_snapshot_ i);
}.

Lemma intent_facts_of i : prepared_intent i → intent_facts i.
Proof.
  intros (sv & cap & es & m & av & rt & tp & nmi & rs & rv & Hi). unfold PreparedExecutionIntentV1_new in Hi.
  rewrite !require_bind in Hi. destruct Hi as (Hsv%Z.eqb_eq & Hw & Hids & Hm & Hi).
  cbn [forallb] in Hids. rewrite !andb_true_iff in Hids.
  apply bind_Ok in Hi as (a & Ha & (b & Hb & (c & Hc & (d & Hd & [= <-])%bind_Ok)%bind_Ok)%bind_Ok).
  apply validated_frozen_inv in Ha as (ja & ? & ?), Hb as (jb & ? & ?), Hc as (jc & ? & ?), Hd as (jd & ? & ?).
  split; [done|done|tauto..|exact Hm|by exists rt, ja|by exists tp, jb|by exists nmi, jc|by exists rs, jd].
Qed.
End normalised.

(** ** Sorting keeps the canonical text *)

Section sorted.
Context `{Hash} `{UnicodeData}.

Lemma mapM_fixed {A B} (f : B → option A) (g : A → B) l :
  mapM f (map g l) = Some l ↔ ∀ a, a ∈ l → f (g a) = Some a.
Proof.
  induction l as [|a l IH]; [split; [by intros _ ? ?%elem_of_nil|done]|]. cbn [map]. rewrite mapM_cons. split.
  - intros (b & Hb & (r & Hr & [= -> ->])%bind_Some)%bind_Some x [->|Hx]%elem_of_cons; [done|]. by apply IH.
  - intros Hall. rewrite (Hall a) by left. cbn [mbind option_bind].
    rewrite (proj2 IH) by (intros x Hx; apply Hall; by right). done.
Qed.

Definition entry_obj (kv : pystr * json) : pyobj * pyobj := (PStr (fst kv), py_of_json (snd kv)).

Lemma denote_entry_fixed d (kv : pystr * json) :
  denote_entry (denote d) (entry_obj kv) = Some kv ↔
    ok_string (fst kv) = Some (fst kv) ∧ denote d (py_of_json (snd kv)) = Some (snd kv).
Proof.
  destruct kv as [k x]. unfold denote_entry, entry_obj. cbn [fst snd]. split.
  - by intros (k' & Hk & (x' & Hx & [= -> ->])%bind_Some)%bind_Some.
  - intros [-> Hx]. cbn [mbind option_bind]. by rewrite Hx.
Qed.

Lemma node_count_sum {A} (f g : A → N) l : (∀ a, a ∈ l → f a = g a) →
  foldr N.add 0%N (map f l) = foldr N.add 0%N (map g l).
Proof.
  induction l as [|a l IH]; intros Hfg; [done|]. cbn [map foldr]. rewrite (Hfg a) by left. f_equal.
  apply IH. intros x Hx. apply Hfg. by right.
Qed.

Lemma node_count_perm_map (l l' : list (pystr * json)) : l ≡ₚ l' →
  foldr N.add 0%N (map (λ kv, node_count (snd kv)) (map entry_obj l)) =
  foldr N.add 0%N (map (λ kv, node_count (snd kv)) (map entry_obj l')).
Proof. induction 1; cbn [map foldr]; lia. Qed.

Lemma denote_sorted j d : denote d (py_of_json j) = Some j →
  denote d (py_of_json (sort_keys j)) = Some (sort_keys j) ∧
  node_count (py_of_json (sort_keys j)) = node_count (py_of_json j).
Proof.
  revert d. induction j as [| | | | |l IH|l IH] using json_ind'; intros d Hj; [done..| |];
    pose proof (denote_shallow _ _ _ Hj) as Hd; rewrite Forall_forall in IH.
  - cbn [py_of_json sort_keys denote node_count] in *. rewrite Hd in *.
    destruct (too_big (map py_of_json l)) eqn:Hb; [done|]. apply fmap_Some in Hj as (xs & Hxs & [= <-]).
    rewrite mapM_fixed in Hxs. rewrite (too_big_length _ (map py_of_json l)) by (by rewrite !length_map). rewrite Hb. split.
    + rewrite (proj2 (mapM_fixed _ _ _)); [done|]. intros x (y & -> & Hy)%list_elem_of_fmap. by apply IH, Hxs.
    + f_equal. rewrite !map_map. apply node_count_sum. intros x Hx. by eapply IH, Hxs.
  - cbn [py_of_json sort_keys node_count] in *. rewrite denote_dict in * by done.
    set (l' := sort_items _). assert (l' ≡ₚ map (λ kv, (fst kv, sort_keys (snd kv))) l) as Hp by apply sort_items_perm.
    destruct (too_big (map _ l)) eqn:Hb; [done|].
    rewrite (too_big_length _ (map entry_obj l)) by (by rewrite !length_map, Hp, length_map). unfold entry_obj. rewrite Hb.
    apply bind_Some in Hj as (es & Hes & Hj). case_decide as Hnd; [|done]. injection Hj as ->.
    pose proof (proj1 (mapM_fixed _ entry_obj _) Hes) as Hall. clear Hes. rename Hall into Hes.
    assert ((map (λ kv : pystr * json, (fst kv, sort_keys (snd kv))) l).*1 = l.*1) as Hkeys
      by (rewrite <-list_fmap_compose; by apply list_fmap_ext; intros ? []).
    split.
    + rewrite (proj2 (mapM_fixed _ entry_obj l')).
      * cbn [mbind option_bind]. by rewrite decide_True by (by rewrite Hp, Hkeys).
      * intros kv Hkv. rewrite Hp in Hkv. apply list_elem_of_fmap in Hkv as ([k x] & -> & Hx).
        specialize (Hes _ Hx). rewrite denote_entry_fixed in *. destruct Hes as [Hk Hden]. split; [done|]. by apply (IH _ Hx).
    + f_equal. etrans; [by apply (node_count_perm_map l')|]. rewrite !map_map. apply node_count_sum.
      intros [k x] Hx. cbn [fst snd]. specialize (Hes _ Hx). rewrite denote_entry_fixed in Hes.
      by eapply (IH _ Hx), Hes.
Qed.

(** A value and its sorted canonical form have one digest. *)
Lemma canonical_json_sorted v j :
  validate_canonical_value v = Ok j → canonical_json (py_of_json (sort_keys j)) = canonical_json v.
Proof.
  intros Hv. unfold canonical_json. rewrite Hv. apply validate_denote in Hv as [Hd Hn].
  pose proof (denote_canonical _ _ _ Hd) as (_ & Hf & Hc). destruct (denote_sorted _ _ Hf) as [Hs Hc'].
  assert (validate_canonical_value (py_of_json (sort_keys j)) = Ok (sort_keys j)) as ->
    by (apply validate_denote; split; [done|by rewrite Hc', Hc]).
  cbn [mbind result_bind].
  unfold dumps. by rewrite sort_keys_idem.
Qed.

Lemma digest_value_frozen p v b f c :
  validated_frozen v b = Ok f → digest_value p (py_of_json (thaw f)) c = digest_value p v c.
Proof.
  intros (j & Hj & ->)%validated_frozen_inv. rewrite thaw_freeze. unfold digest_value, digest_preimage.
  by rewrite (canonical_json_sorted _ _ Hj).
Qed.
End sorted.

(** The entry at a position of the payload. *)
Tactic Notation "payload_entry" integer(n) := do n apply list_elem_of_further; apply list_elem_of_here.

(** ** Properties *)

Section properties.
Context `{Hash} `{UnicodeData}.

(** The prepared object holds what it was given.  When the constructor
    accepts, each of the four values reads back as the canonical form of
    the argument, whatever the caller does with the argument later; the
    mutation intent is an object, and none of them is null. *)
Theorem prepared_values sv cap es m av rt tp nmi rs rv i :
  PreparedExecutionIntentV1_new sv cap es m av rt tp nmi rs rv = Ok i →
  Forall2 (λ v w, ∃ j, canonical_form v j ∧ w = py_of_json j ∧ w ≠ PNone)
    [rt; tp; nmi; rs] [resource_target i; target_precondition i; normalized_mutation_intent i; rollback_snapshot i] ∧
  ∃ items, normalized_mutation_intent i = PDict items.
Proof.
  unfold PreparedExecutionIntentV1_new. intros Hi. rewrite !require_bind in Hi. destruct Hi as (_ & _ & _ & _ & Hi).
  apply bind_Ok in Hi as (a & Ha & (b & Hb & (c & Hc & (d & Hd & [= <-])%bind_Ok)%bind_Ok)%bind_Ok).
  apply validated_frozen_form in Ha as [Ha _], Hb as [Hb _], Hc as [Hc Ho], Hd as [Hd _].
  split; [|by apply Ho]. by repeat constructor.
Qed.

(** An execution-intent digest names one intent.  Two prepared intents
    with one digest have the same capability, endpoint, method, adapter
    version, rollback plan version, resource target, target precondition,
    mutation intent and rollback snapshot, unless their own preimages are a
    collision of SHA-256. *)
Theorem execution_intent_digest_names i i' d :
  prepared_intent i → prepared_intent i' →
  compute_execution_intent_digest i = Ok d → compute_execution_intent_digest i' = Ok d →
  (pi_capability i = pi_capability i' ∧ pi_endpoint_symbol i = pi_endpoint_symbol i' ∧
   pi_http_method i = pi_http_method i' ∧ pi_adapter_version i = pi_adapter_version i' ∧
   pi_rollback_plan_version i = pi_rollback_plan_version i' ∧
   resource_target i = resource_target i' ∧ target_precondition i = target_precondition i' ∧
   normalized_mutation_intent i = normalized_mutation_intent i' ∧ rollback_snapshot i = rollback_snapshot i') ∨
  digest_collides EXECUTION_INTENT (pdict (prepared_execution_intent_payload_of i)) DIGEST_CONTEXT
    EXECUTION_INTENT (pdict (prepared_execution_intent_payload_of i')) DIGEST_CONTEXT.
Proof.
  intros Hi%intent_facts_of Hi'%intent_facts_of Hd Hd'.
  destruct (digest_value_pins _ _ _ _ _ _ _ Hd Hd') as [(_ & _ & j & Hj & Hj')|Hc]; [left|by right].
  pose proof (λ k s s', literal_agree_str _ _ _ k s s' Hj Hj') as Hs.
  pose proof (λ k f f', literal_agree_frozen _ _ _ k f f' Hj Hj') as Hf.
  unfold resource_target, target_precondition, normalized_mutation_intent, rollback_snapshot. split_and!.
  - apply capability_name_inj, (Hs "capability"); [payload_entry 1|payload_entry 1|done|apply capability_name_ascii..].
  - apply (Hs "endpoint_symbol"); [payload_entry 2|payload_entry 2|done|apply match_token_ascii, if_endpoint; done..].
  - apply (Hs "http_method"); [payload_entry 3|payload_entry 3|done|apply method_ascii, if_method; done..].
  - apply (Hs "adapter_version"); [payload_entry 4|payload_entry 4|done|apply match_token_ascii, if_adapter; done..].
  - apply (Hs "rollback_plan_version"); [payload_entry 9|payload_entry 9|done|apply match_token_ascii, if_rollback; done..].
  - f_equal. apply (Hf "resource_target"); [apply if_target; done..|payload_entry 5|payload_entry 5|done].
  - f_equal. apply (Hf "target_precondition"); [apply if_precondition; done..|payload_entry 6|payload_entry 6|done].
  - f_equal. apply (Hf "normalized_mutation_intent"); [apply if_intent; done..|payload_entry 7|payload_entry 7|done].
  - f_equal. apply (Hf "rollback_snapshot"); [apply if_snapshot; done..|payload_entry 8|payload_entry 8|done].
Qed.
End properties.
