(* ===== verification/SealedApproval.v ===== *)
(** * Sealed-write approvals

    [tier1/sealed_write_approval.py]: the owner's signed approval of one
    contract version for a STANDARD capability, its signing bytes, its file
    format and the composite check the executor runs.  The signer's private
    key is a parameter. *)

From S2P Require Import Prelude PyStr Sha256 PyDatetime Json PyJson Capability StateMachine.
From S2P Require Import Canonical Contract Evidence StoreCodec.

Definition SEALED_WRITE_APPROVAL_SCHEMA_VERSION : Z := 1.
Definition SIGNING_DOMAIN : pystr := u "pfsense-mcp-standard-sealed-write-approval-v1".
Definition STANDARD_SEALED_WRITE_APPROVAL_AUTHORITY_ID : pystr :=
  u "standard-sealed-write-approval-authority-v1".
Definition ED25519_SIGNATURE_BYTES : nat := 64.

Record SealedWriteApprovalPayload : Type := {
  sp_schema_version : Z;
  sp_contract_id : pystr;
  sp_state_version : Z;
  sp_security_class : WriteSecurityClass;
  sp_execution_intent_digest : pystr;
  sp_target_identity_digest : pystr;
  sp_issued_at : datetime;
  sp_expires_at : datetime;
}.

Record SealedWriteApproval : Type := {
  sa_schema_version : Z;
  sa_contract_id : pystr;
  sa_state_version : Z;
  sa_security_class : WriteSecurityClass;
  sa_execution_intent_digest : pystr;
  sa_target_identity_digest : pystr;
  sa_issued_at : datetime;
  sa_expires_at : datetime;
  sa_authority_id : pystr;
  sa_proof : bytes;
}.

Section approvals.
Context `{Hash} `{UnicodeData} `{Ed25519}.

Definition SealedWriteApprovalPayload_post_init (p : SealedWriteApprovalPayload) : result () :=
  _ ← require (sp_schema_version p =? SEALED_WRITE_APPROVAL_SCHEMA_VERSION)%Z SealedWriteApprovalError;
  _ ← require (match_token (sp_contract_id p)) SealedWriteApprovalError;
  _ ← require (0 <=? sp_state_version p)%Z SealedWriteApprovalError;
  _ ← require (match_hex64 (sp_execution_intent_digest p)) SealedWriteApprovalError;
  _ ← require (match_hex64 (sp_target_identity_digest p)) SealedWriteApprovalError;
  require (is_utc (sp_issued_at p) && is_utc (sp_expires_at p) &&
           negb (dt_leb (sp_expires_at p) (sp_issued_at p))) SealedWriteApprovalError.

Definition SealedWriteApprovalPayload_new (p : SealedWriteApprovalPayload) : result SealedWriteApprovalPayload :=
  _ ← SealedWriteApprovalPayload_post_init p; Ok p.

Definition build_sealed_write_approval_payload (contract_id : pystr) (state_version : Z)
    (security_class : WriteSecurityClass) (execution_intent_digest target_identity_digest : pystr)
    (issued_at expires_at : datetime) : result SealedWriteApprovalPayload :=
  SealedWriteApprovalPayload_new {|
    sp_schema_version := SEALED_WRITE_APPROVAL_SCHEMA_VERSION; sp_contract_id := contract_id;
    sp_state_version := state_version; sp_security_class := security_class;
    sp_execution_intent_digest := execution_intent_digest;
    sp_target_identity_digest := target_identity_digest;
    sp_issued_at := issued_at; sp_expires_at := expires_at |}.

Definition signing_body (p : SealedWriteApprovalPayload) : list (string * pyobj) :=
  [("digest_purpose", PStr SIGNING_DOMAIN);
   ("schema_version", PInt (sp_schema_version p));
   ("contract_id", PStr (sp_contract_id p));
   ("state_version", PInt (sp_state_version p));
   ("security_class", PStr (security_class_value (sp_security_class p)));
   ("execution_intent_digest", PStr (sp_execution_intent_digest p));
   ("target_identity_digest", PStr (sp_target_identity_digest p));
   ("issued_at", PStr (isoformat (sp_issued_at p)));
   ("expires_at", PStr (isoformat (sp_expires_at p)))].

Definition sealed_write_approval_signing_payload (p : SealedWriteApprovalPayload) : result bytes :=
  canonical_json (pdict (signing_body p)).

Definition payload_fields (a : SealedWriteApproval) : SealedWriteApprovalPayload := {|
  sp_schema_version := sa_schema_version a; sp_contract_id := sa_contract_id a;
  sp_state_version := sa_state_version a; sp_security_class := sa_security_class a;
  sp_execution_intent_digest := sa_execution_intent_digest a;
  sp_target_identity_digest := sa_target_identity_digest a;
  sp_issued_at := sa_issued_at a; sp_expires_at := sa_expires_at a |}.

Definition SealedWriteApproval_post_init (a : SealedWriteApproval) : result () :=
  _ ← SealedWriteApprovalPayload_new (payload_fields a);
  _ ← require (match_token (sa_authority_id a)) SealedWriteApprovalError;
  require (length (sa_proof a) =? ED25519_SIGNATURE_BYTES)%nat SealedWriteApprovalError.

Definition SealedWriteApproval_new (a : SealedWriteApproval) : result SealedWriteApproval :=
  _ ← SealedWriteApproval_post_init a; Ok a.

Definition sealed_write_approval_payload_of (a : SealedWriteApproval) : result SealedWriteApprovalPayload :=
  SealedWriteApprovalPayload_new (payload_fields a).

(** [sign] is [private_key.sign]. *)
Definition sign_sealed_write_approval (sign : bytes → bytes) (p : SealedWriteApprovalPayload)
    (authority_id : pystr) : result SealedWriteApproval :=
  _ ← require (match_token authority_id) SealedWriteApprovalError;
  message ← sealed_write_approval_signing_payload p;
  SealedWriteApproval_new {|
    sa_schema_version := sp_schema_version p; sa_contract_id := sp_contract_id p;
    sa_state_version := sp_state_version p; sa_security_class := sp_security_class p;
    sa_execution_intent_digest := sp_execution_intent_digest p;
    sa_target_identity_digest := sp_target_identity_digest p;
    sa_issued_at := sp_issued_at p; sa_expires_at := sp_expires_at p;
    sa_authority_id := authority_id; sa_proof := sign message |}.

Definition verify_sealed_write_approval_signature (a : SealedWriteApproval) (authorities : list PinnedAuthority)
    : result bool :=
  payload ← sealed_write_approval_payload_of a;
  message ← sealed_write_approval_signing_payload payload;
  Ok (verify_signature authorities (sa_authority_id a) message (sa_proof a)).

Definition verify_sealed_write_approval (a : SealedWriteApproval) (authorities : list PinnedAuthority)
    (now : datetime) (contract_id : pystr) (state_version : Z) (security_class : WriteSecurityClass)
    (execution_intent_digest target_identity_digest : pystr) : result bool :=
  if negb (is_utc now) then Ok false else
  if negb (pystr_eqb (sa_authority_id a) STANDARD_SEALED_WRITE_APPROVAL_AUTHORITY_ID) then Ok false else
  if negb (pystr_eqb (sa_contract_id a) contract_id) ||
     negb (sa_state_version a =? state_version)%Z ||
     negb (bool_decide (sa_security_class a = security_class)) ||
     negb (pystr_eqb (sa_execution_intent_digest a) execution_intent_digest) ||
     negb (pystr_eqb (sa_target_identity_digest a) target_identity_digest) then Ok false else
  if negb (dt_leb (sa_issued_at a) now && dt_ltb now (sa_expires_at a)) then Ok false else
  verify_sealed_write_approval_signature a authorities.

Definition approval_body (p : SealedWriteApprovalPayload) (authority_id : pystr) (proof : bytes)
    : list (string * pyobj) :=
  [("schema_version", PInt (sp_schema_version p));
   ("contract_id", PStr (sp_contract_id p));
   ("state_version", PInt (sp_state_version p));
   ("security_class", PStr (security_class_value (sp_security_class p)));
   ("execution_intent_digest", PStr (sp_execution_intent_digest p));
   ("target_identity_digest", PStr (sp_target_identity_digest p));
   ("issued_at", PStr (isoformat (sp_issued_at p)));
   ("expires_at", PStr (isoformat (sp_expires_at p)));
   ("authority_id", PStr authority_id);
   ("proof_hex", PStr (hex proof))].

Definition sealed_write_approval_to_bytes (a : SealedWriteApproval) : result bytes :=
  payload ← sealed_write_approval_payload_of a;
  canonical_json (pdict (approval_body payload (sa_authority_id a) (sa_proof a))).

Definition approval_file_fields : list pystr :=
  [u "schema_version"; u "contract_id"; u "state_version"; u "security_class";
   u "execution_intent_digest"; u "target_identity_digest"; u "issued_at"; u "expires_at";
   u "authority_id"; u "proof_hex"].

(** A conversion whose failure, of whatever kind, is refused with
    [SealedWriteApprovalError]: the [except] clauses of
    [sealed_write_approval_from_bytes] and the type checks of the
    constructor. *)
Definition refused {A} (m : result A) : result A :=
  match m with Ok a => Ok a | Raise _ => Raise SealedWriteApprovalError end.

Definition sealed_write_approval_from_bytes (raw : bytes) : result SealedWriteApproval :=
  text ← of_option (utf8_decode raw) SealedWriteApprovalError;
  body ← of_option (loads_dict text) SealedWriteApprovalError;
  match body with
  | JObj body =>
    _ ← require (fields_are body approval_file_fields) SealedWriteApprovalError;
    issued_at ← refused (field "issued_at" body ≫= as_datetime);
    expires_at ← refused (field "expires_at" body ≫= as_datetime);
    proof ← refused (v ← field "proof_hex" body;
                     match v with JStr s => of_option (fromhex s) ValueError | _ => Raise TypeError end);
    security_class ← refused (v ← field "security_class" body;
                     match v with JStr s => security_class_of_value s | _ => Raise ValueError end);
    schema_version ← refused (field "schema_version" body ≫= as_int);
    contract_id ← refused (field "contract_id" body ≫= as_str);
    state_version ← refused (field "state_version" body ≫= as_int);
    execution_intent_digest ← refused (field "execution_intent_digest" body ≫= as_str);
    target_identity_digest ← refused (field "target_identity_digest" body ≫= as_str);
    authority_id ← refused (field "authority_id" body ≫= as_str);
    SealedWriteApproval_new {|
      sa_schema_version := schema_version; sa_contract_id := contract_id;
      sa_state_version := state_version; sa_security_class := security_class;
      sa_execution_intent_digest := execution_intent_digest;
      sa_target_identity_digest := target_identity_digest;
      sa_issued_at := issued_at; sa_expires_at := expires_at;
      sa_authority_id := authority_id; sa_proof := proof |}
  | _ => Raise SealedWriteApprovalError
  end.
End approvals.

(** ** Reading an approval back *)

Section reading.
Context `{Hash} `{UnicodeData}.

Lemma fields_are_keys {A} (items : list (pystr * A)) fs : items.*1 ≡ₚ fs → fields_are items fs = true.
Proof.
  intros Hp. unfold fields_are. rewrite andb_true_iff, Nat.eqb_eq. split.
  - rewrite <-Hp. by rewrite length_fmap.
  - apply forallb_elem_of. intros k Hk. apply existsb_key. by rewrite Hp.
Qed.

Lemma literal_field l items k v x :
  canonical_form (pdict l) (JObj items) → (k, v) ∈ l → is_ascii (u k) = true → denote 1 v = Some x →
  field k items = Ok (sort_keys x).
Proof.
  intros Hf Hin Hk Hx. destruct (literal_form _ _ _ _ Hf Hin Hk) as (it & y & [= <-] & Hy & Hl).
  unfold field. rewrite Hl. cbn. congruence.
Qed.

Lemma literal_field_str l items k s :
  canonical_form (pdict l) (JObj items) → (k, PStr s) ∈ l → is_ascii (u k) = true → is_ascii s = true →
  field k items = Ok (JStr s).
Proof.
  intros Hf Hin Hk Hs. destruct (literal_form _ _ _ _ Hf Hin Hk) as (it & y & [= <-] & Hy & Hl).
  apply denote_str in Hy as ->; [|done]. unfold field. by rewrite Hl.
Qed.

Lemma literal_field_int l items k z :
  canonical_form (pdict l) (JObj items) → (k, PInt z) ∈ l → is_ascii (u k) = true →
  field k items = Ok (JInt z).
Proof.
  intros Hf Hin Hk. destruct (literal_form _ _ _ _ Hf Hin Hk) as (it & y & [= <-] & Hy & Hl).
  apply denote_int in Hy as ->. unfold field. by rewrite Hl.
Qed.
End reading.

Lemma fromhex_hex b : fromhex (hex b) = Some b.
Proof.
  unfold hex. induction b as [|c b IH]; [done|]. cbn [flat_map]. unfold hex_byte at 1. cbn [app fromhex].
  destruct (byte_nibbles c) as [Ha Hb].
  assert (is_ascii_space (hex_digit (Byte.to_N c / 16)) = false) as ->.
  { pose proof (hex_digit_char _ Ha) as Hc. unfold is_hex_char in Hc. unfold is_ascii_space.
    rewrite orb_true_iff, !in_range_spec in Hc. rewrite orb_false_iff, N.eqb_neq.
    split; [rewrite <-not_true_iff_false, in_range_spec|]; lia. }
  rewrite !unhex_hex_digit by done. simpl.
  replace (Byte.to_N c / 16 * 16 + Byte.to_N c mod 16)%N with (Byte.to_N c).
  - rewrite IH. simpl. by rewrite byte_of_to_N.
  - rewrite N.mul_comm. apply N.div_mod'.
Qed.

Section facts.
Context `{Hash} `{UnicodeData} `{Ed25519}.

(** What the constructor checked. *)
Lemma approval_facts a : SealedWriteApproval_post_init a = Ok () ↔
  SealedWriteApprovalPayload_post_init (payload_fields a) = Ok () ∧
  match_token (sa_authority_id a) = true ∧ length (sa_proof a) = ED25519_SIGNATURE_BYTES.
Proof.
  unfold SealedWriteApproval_post_init, SealedWriteApprovalPayload_new.
  split.
  - intros (p & ([] & Hp & _)%bind_Ok & Hr)%bind_Ok. rewrite require_bind in Hr.
    destruct Hr as [Ht Hl%require_Ok%Nat.eqb_eq]. done.
  - intros (Hp & Ht & Hl). rewrite Hp. cbn [mbind result_bind]. rewrite Ht, Hl. done.
Qed.

Lemma payload_ascii p : SealedWriteApprovalPayload_post_init p = Ok () →
  is_ascii (sp_contract_id p) = true ∧ is_ascii (sp_execution_intent_digest p) = true ∧
  is_ascii (sp_target_identity_digest p) = true ∧ sp_schema_version p = SEALED_WRITE_APPROVAL_SCHEMA_VERSION.
Proof.
  unfold SealedWriteApprovalPayload_post_init. rewrite !require_bind.
  intros (Hs%Z.eqb_eq & Hc & _ & Hi & Ht & _).
  split_and!; [by apply match_token_ascii|by apply match_hex64_ascii|by apply match_hex64_ascii|done].
Qed.

Lemma security_class_value_inj c c' : security_class_value c = security_class_value c' → c = c'.
Proof. by destruct c, c'. Qed.

(** The signed bytes fix every field of the payload. *)
Lemma signing_payload_inj p p' m :
  SealedWriteApprovalPayload_post_init p = Ok () → SealedWriteApprovalPayload_post_init p' = Ok () →
  dt_valid (sp_issued_at p) = true → dt_valid (sp_issued_at p') = true →
  dt_valid (sp_expires_at p) = true → dt_valid (sp_expires_at p') = true →
  sealed_write_approval_signing_payload p = Ok m → sealed_write_approval_signing_payload p' = Ok m → p = p'.
Proof.
  intros Hp Hp' V1 V2 V3 V4 Hm Hm'.
  destruct (payload_ascii p Hp) as (A1 & A2 & A3 & A4), (payload_ascii p' Hp') as (B1 & B2 & B3 & B4).
  destruct (canonical_json_form _ _ _ Hm Hm') as (j & Hj & Hj').
  assert (∀ k s s', (k, PStr s) ∈ signing_body p → (k, PStr s') ∈ signing_body p' → is_ascii (u k) = true →
    is_ascii s = true → is_ascii s' = true → s = s') as Hs
    by (intros k s s' ? ? ? ? ?; by eapply (literal_agree_str _ _ _ k _ _ Hj Hj')).
  assert (sp_state_version p = sp_state_version p') as Ev
    by (eapply (literal_agree_int _ _ _ "state_version" _ _ Hj Hj'); [in_list|in_list|done]).
  assert (sp_contract_id p = sp_contract_id p') as Ec by (apply (Hs "contract_id"); [in_list|in_list|done..]).
  assert (sp_execution_intent_digest p = sp_execution_intent_digest p') as Ei
    by (apply (Hs "execution_intent_digest"); [in_list|in_list|done..]).
  assert (sp_target_identity_digest p = sp_target_identity_digest p') as Et
    by (apply (Hs "target_identity_digest"); [in_list|in_list|done..]).
  assert (sp_security_class p = sp_security_class p') as Es.
  { apply security_class_value_inj, (Hs "security_class"); [in_list|in_list|done|..];
      apply security_class_value_ascii. }
  assert (sp_issued_at p = sp_issued_at p') as E1.
  { apply isoformat_inj; [done|done|]. apply (Hs "issued_at"); [in_list|in_list|done|..]; apply isoformat_ascii. }
  assert (sp_expires_at p = sp_expires_at p') as E2.
  { apply isoformat_inj; [done|done|]. apply (Hs "expires_at"); [in_list|in_list|done|..]; apply isoformat_ascii. }
  destruct p, p'; simpl in *. by subst.
Qed.

Lemma verify_inv a set now cid sv sc i t :
  verify_sealed_write_approval a set now cid sv sc i t = Ok true →
  is_utc now = true ∧ sa_authority_id a = STANDARD_SEALED_WRITE_APPROVAL_AUTHORITY_ID ∧
  sa_contract_id a = cid ∧ sa_state_version a = sv ∧ sa_security_class a = sc ∧
  sa_execution_intent_digest a = i ∧ sa_target_identity_digest a = t ∧
  dt_leb (sa_issued_at a) now = true ∧ dt_ltb now (sa_expires_at a) = true ∧
  ∃ m, sealed_write_approval_signing_payload (payload_fields a) = Ok m ∧
       verify_signature set (sa_authority_id a) m (sa_proof a) = true.
Proof.
  unfold verify_sealed_write_approval. destruct (is_utc now); [|done]. cbn [negb].
  destruct (pystr_eqb _ STANDARD_SEALED_WRITE_APPROVAL_AUTHORITY_ID) eqn:Ea; [|done].
  apply pystr_eqb_eq in Ea. cbn [negb].
  destruct (_ || _) eqn:Eb; [done|].
  rewrite !orb_false_iff, !negb_false_iff, !pystr_eqb_eq, Z.eqb_eq in Eb.
  destruct Eb as ((((Ec & Ev) & Es%bool_decide_eq_true_1) & Ei) & Et).
  destruct (dt_leb _ _ && dt_ltb _ _) eqn:Ew; [|done]. apply andb_true_iff in Ew as [W1 W2]. cbn [negb].
  unfold verify_sealed_write_approval_signature, sealed_write_approval_payload_of, SealedWriteApprovalPayload_new.
  intros (p & ([] & _ & [= <-])%bind_Ok & (m & Hm & [= Hv])%bind_Ok)%bind_Ok. split_and!; try done. by exists m.
Qed.
End facts.

(** ** Properties *)

Section properties.
Context `{Hash} `{UnicodeData} `{Ed25519}.

(** [C27] An approval the executor accepts names this contract, this state
    version, its class, intent and target, is within its window at [now],
    and carries a signature by the one dedicated STANDARD authority, active
    in the pinned set, over the signing payload of exactly these fields; and
    those bytes fix all of them: any other payload with the same signed bytes
    is the same payload. *)
Theorem approval_attested a set now cid sv sc i t :
  SealedWriteApproval_post_init a = Ok () →
  verify_sealed_write_approval a set now cid sv sc i t = Ok true →
  sa_contract_id a = cid ∧ sa_state_version a = sv ∧ sa_security_class a = sc ∧
  sa_execution_intent_digest a = i ∧ sa_target_identity_digest a = t ∧
  dt_leb (sa_issued_at a) now = true ∧ dt_ltb now (sa_expires_at a) = true ∧
  ∃ authority m, authority ∈ set ∧ pin_active authority = true ∧
    pin_authority_id authority = STANDARD_SEALED_WRITE_APPROVAL_AUTHORITY_ID ∧
    sealed_write_approval_signing_payload (payload_fields a) = Ok m ∧
    ed25519_verify (pin_public_key authority) (sa_proof a) m = true ∧
    ∀ p, SealedWriteApprovalPayload_post_init p = Ok () →
      dt_valid (sp_issued_at p) = true → dt_valid (sp_expires_at p) = true →
      dt_valid (sa_issued_at a) = true → dt_valid (sa_expires_at a) = true →
      sealed_write_approval_signing_payload p = Ok m → p = payload_fields a.
Proof.
  intros (Hp & _ & _)%approval_facts (_ & Ha & ? & ? & ? & ? & ? & ? & ? & m & Hm & Hv)%verify_inv.
  apply verify_signature_inv in Hv as (au & Hin & Hid & Hact & Hver).
  split_and!; [done..|]. exists au, m. split_and!; [done|done|congruence|done|done|].
  intros p Hp' V1 V2 V3 V4 Hm'. exact (signing_payload_inj p (payload_fields a) m Hp' Hp V1 V3 V2 V4 Hm' Hm).
Qed.

Lemma refused_Raise {A} (m : result A) e : refused m = Raise e → e = SealedWriteApprovalError.
Proof. destruct m; [done|]. by intros [= <-]. Qed.

Lemma approval_new_Raise a e : SealedWriteApproval_new a = Raise e → e = SealedWriteApprovalError.
Proof.
  unfold SealedWriteApproval_new, SealedWriteApproval_post_init, SealedWriteApprovalPayload_new,
    SealedWriteApprovalPayload_post_init.
  repeat match goal with |- context [require ?b _] => destruct b; cbn [require mbind result_bind] end;
    by intros [= <-].
Qed.

(** Whatever is read, the only refusal is [SealedWriteApprovalError]. *)
Lemma approval_from_bytes_Raise raw e :
  sealed_write_approval_from_bytes raw = Raise e → e = SealedWriteApprovalError.
Proof.
  unfold sealed_write_approval_from_bytes.
  destruct (utf8_decode raw) as [text|]; [|by intros [= <-]]. cbn [of_option mbind result_bind].
  destruct (loads_dict text) as [body|]; [|by intros [= <-]]. cbn [of_option mbind result_bind].
  destruct body as [| | | | | |body]; try by intros [= <-].
  destruct (fields_are body approval_file_fields); [|by intros [= <-]]. cbn [require mbind result_bind].
  repeat (intros [Hr|(? & _ & Hr)]%bind_Raise; [by eapply refused_Raise|revert Hr]).
  apply approval_new_Raise.
Qed.

(** The approval file loses nothing and is never partly read: an
    approval written by [sealed_write_approval_to_bytes] is read back as
    itself, and bytes that are not read are refused with
    [SealedWriteApprovalError] and no other exception. *)
Theorem approval_file_round_trip a raw :
  SealedWriteApproval_post_init a = Ok () →
  dt_valid (sa_issued_at a) = true → dt_valid (sa_expires_at a) = true →
  sealed_write_approval_to_bytes a = Ok raw →
  sealed_write_approval_from_bytes raw = Ok a ∧
  ∀ raw' e, sealed_write_approval_from_bytes raw' = Raise e → e = SealedWriteApprovalError.
Proof.
  intros Hi V1 V2 Hw. split; [|intros; by eapply approval_from_bytes_Raise]. pose proof Hi as (Hp & Htok & Hlen)%approval_facts.
  unfold sealed_write_approval_to_bytes, sealed_write_approval_payload_of, SealedWriteApprovalPayload_new in Hw.
  rewrite Hp in Hw. cbn [mbind result_bind] in Hw. set (p := payload_fields a) in *.
  destruct (payload_ascii p Hp) as (A1 & A2 & A3 & _).
  destruct (canonical_read _ _ Hw) as (j & s & Hj & Hs & Hl).
  destruct (literal_form_keys _ _ Hj eq_refl) as (items & -> & Hnd & Hk).
  unfold sealed_write_approval_from_bytes. rewrite Hs. cbn [of_option mbind result_bind]. rewrite Hl.
  cbn [of_option mbind result_bind]. rewrite fields_are_keys by exact Hk. cbn [require mbind result_bind].
  assert (∀ k x, (k, PStr x) ∈ approval_body p (sa_authority_id a) (sa_proof a) → is_ascii (u k) = true →
    is_ascii x = true → field k items = Ok (JStr x)) as Fs by (intros; by eapply literal_field_str).
  assert (∀ k z, (k, PInt z) ∈ approval_body p (sa_authority_id a) (sa_proof a) → is_ascii (u k) = true →
    field k items = Ok (JInt z)) as Fi by (intros; by eapply literal_field_int).
  rewrite (Fs "issued_at" (isoformat (sp_issued_at p)) ltac:(in_list) eq_refl (isoformat_ascii _)).
  rewrite (Fs "expires_at" (isoformat (sp_expires_at p)) ltac:(in_list) eq_refl (isoformat_ascii _)).
  rewrite (Fs "proof_hex" (hex (sa_proof a)) ltac:(in_list) eq_refl (hex_ascii _)).
  rewrite (Fs "security_class" (security_class_value (sp_security_class p)) ltac:(in_list) eq_refl (security_class_value_ascii _)).
  rewrite (Fi "schema_version" (sp_schema_version p) ltac:(in_list) eq_refl).
  rewrite (Fs "contract_id" (sp_contract_id p) ltac:(in_list) eq_refl A1).
  rewrite (Fi "state_version" (sp_state_version p) ltac:(in_list) eq_refl).
  rewrite (Fs "execution_intent_digest" (sp_execution_intent_digest p) ltac:(in_list) eq_refl A2).
  rewrite (Fs "target_identity_digest" (sp_target_identity_digest p) ltac:(in_list) eq_refl A3).
  rewrite (Fs "authority_id" (sa_authority_id a) ltac:(in_list) eq_refl (match_token_ascii _ Htok)).
  cbn [mbind result_bind as_datetime as_str as_int refused].
  subst p. cbn [payload_fields sp_issued_at sp_expires_at sp_security_class].
  rewrite !fromisoformat_isoformat by done. cbn [refused mbind result_bind].
  rewrite fromhex_hex, security_class_of_value_value. cbn [of_option refused mbind result_bind].
  unfold SealedWriteApproval_new. destruct a. cbn in *. by rewrite Hi.
Qed.

Lemma absent_key k (l : list pystr) : existsb (pystr_eqb k) l = false → k ∉ l.
Proof.
  intros Hf Hin. rewrite <-not_true_iff_false, existsb_exists in Hf. apply Hf. exists k.
  by rewrite pystr_eqb_refl, <-list_elem_of_In.
Qed.

(** An approval signature serves no other purpose: the bytes signed
    for an approval are signed for no confirmation and no reconciliation
    evidence. *)
Theorem approval_domain_separated p m :
  sealed_write_approval_signing_payload p = Ok m →
  (∀ e, confirmation_signing_payload e ≠ Ok m) ∧ (∀ e, reconciliation_signing_payload e ≠ Ok m).
Proof.
  intros Hm. assert (∀ l, forallb (λ kv, is_ascii (u (fst kv))) l = true →
    u "digest_purpose" ∉ map (λ kv : string * pyobj, u (fst kv)) l → canonical_json (pdict l) ≠ Ok m) as Hd.
  { intros l Ha Hni Hl. destruct (canonical_json_form _ _ _ Hm Hl) as (j & Hj & Hj').
    destruct (literal_form_keys _ _ Hj eq_refl) as (items & -> & _ & Hk).
    destruct (literal_form_keys _ _ Hj' Ha) as (items' & [= <-] & _ & Hk').
    apply Hni. rewrite <-Hk', Hk. apply list_elem_of_fmap. eexists. split; [|in_list]. done. }
  split; intros e; apply Hd; try done; apply absent_key; reflexivity.
Qed.
End properties.

#[local] Existing Instances Sample.hash Sample.unicode SampleEvidence.ed25519.

Module SampleApproval.
Definition payload : SealedWriteApprovalPayload := {|
  sp_schema_version := 1; sp_contract_id := u "c1"; sp_state_version := 2;
  sp_security_class := STANDARD_SEALED_WRITE; sp_execution_intent_digest := Sample.intent_digest;
  sp_target_identity_digest := Sample.target_digest;
  sp_issued_at := Sample.day 1 3; sp_expires_at := Sample.day 1 20 |}.

(** The stand-in signature of [SampleEvidence], twice, for 64 bytes. *)
Definition authorities : list PinnedAuthority :=
  [{| pin_authority_id := STANDARD_SEALED_WRITE_APPROVAL_AUTHORITY_ID;
      pin_public_key := SampleEvidence.key; pin_active := true |}].
Definition signature (m : bytes) : bytes :=
  @sha256 Sample.hash (SampleEvidence.key ++ m) ++ @sha256 Sample.hash (SampleEvidence.key ++ m).
Definition ed25519 : Ed25519 :=
  {| ed25519_verify key s m := bool_decide (s = @sha256 Sample.hash (key ++ m) ++ @sha256 Sample.hash (key ++ m)) |}.

Definition approval : SealedWriteApproval := Eval vm_compute in
  match sign_sealed_write_approval signature payload STANDARD_SEALED_WRITE_APPROVAL_AUTHORITY_ID with
  | Ok a => a
  | Raise _ => {| sa_schema_version := 0; sa_contract_id := []; sa_state_version := 0;
      sa_security_class := STANDARD_SEALED_WRITE; sa_execution_intent_digest := [];
      sa_target_identity_digest := []; sa_issued_at := Sample.day 1 3; sa_expires_at := Sample.day 1 3;
      sa_authority_id := []; sa_proof := [] |}
  end.
Definition message : bytes := Eval vm_compute in
  SampleEvidence.bytes_of (sealed_write_approval_signing_payload payload).
Definition raw : bytes := Eval vm_compute in
  SampleEvidence.bytes_of (sealed_write_approval_to_bytes approval).
End SampleApproval.

Lemma approval_attested_witness :
  dt_ltb (Sample.day 1 10) (sa_expires_at SampleApproval.approval) = true.
Proof.
  exact (proj1 (proj2 (proj2 (proj2 (proj2 (proj2 (proj2
    (@approval_attested Sample.unicode SampleApproval.ed25519 SampleApproval.approval SampleApproval.authorities (Sample.day 1 10)
      (u "c1") 2 STANDARD_SEALED_WRITE Sample.intent_digest Sample.target_digest
      ltac:(vm_compute; reflexivity) ltac:(vm_compute; reflexivity))))))))).
Defined.

Lemma approval_file_round_trip_witness :
  sealed_write_approval_from_bytes SampleApproval.raw = Ok SampleApproval.approval.
Proof.
  exact (proj1 (@approval_file_round_trip Sample.unicode SampleApproval.approval SampleApproval.raw
    ltac:(vm_compute; reflexivity) eq_refl eq_refl ltac:(vm_compute; reflexivity))).
Defined.

Lemma approval_domain_separated_witness :
  confirmation_signing_payload (SampleEvidence.confirmation sample_contract) ≠
    sealed_write_approval_signing_payload SampleApproval.payload.
Proof.
  assert (sealed_write_approval_signing_payload SampleApproval.payload = Ok SampleApproval.message) as Hm
    by (vm_compute; reflexivity).
  rewrite Hm.
  exact (proj1 (@approval_domain_separated Sample.unicode SampleApproval.payload SampleApproval.message Hm)
    (SampleEvidence.confirmation sample_contract)).
Defined.
