(* ===== verification/Crypto.v ===== *)
(** * Protected artifacts

    [tier1/crypto.py]: the nonce, the associated data and the AES-256-GCM
    codec of a contract's protected artifacts.  The cipher itself is the
    [cryptography] package's. *)

From S2P Require Import Prelude PyStr Sha256 PyDatetime Json Capability StateMachine Canonical.
From S2P Require Import Contract.

(** [AESGCM(key)]: [None] is [InvalidTag]. *)
Class AESGCM : Type := {
  aead_encrypt : bytes → bytes → bytes → bytes → bytes;         (* key nonce data associated_data *)
  aead_decrypt : bytes → bytes → bytes → bytes → option bytes;
  aead_decrypt_encrypt k n p ad : aead_decrypt k n (aead_encrypt k n p ad) ad = Some p;
  aead_length k n p ad : length (aead_encrypt k n p ad) = (length p + 16)%nat;
}.

Definition KEY_BYTES : nat := 32.
Definition NONCE_BYTES : nat := 12.
Definition MAX_EPOCH : Z := 2 ^ 32.
Definition MAX_COUNTER : Z := 2 ^ 64.
Definition ARTIFACT_DOMAIN_PREFIX : pystr := u "pfSense-MCP/Tier1/ArtifactAEAD/v1".
Definition AES_256_GCM_V1 : pystr := u "aes-256-gcm-v1".

Inductive ArtifactRole : Type := ROLE_TARGET_IDENTITY | ROLE_INTENT | ROLE_SNAPSHOT.

#[global] Instance ArtifactRole_eq_dec : EqDecision ArtifactRole.
Proof. solve_decision. Defined.

Definition role_value (r : ArtifactRole) : pystr :=
  match r with
  | ROLE_TARGET_IDENTITY => u "target-identity"
  | ROLE_INTENT => u "intent"
  | ROLE_SNAPSHOT => u "snapshot"
  end.

(** [build_nonce] *)
Definition build_nonce (epoch counter : Z) : result bytes :=
  _ ← require ((0 <=? epoch) && (epoch <? MAX_EPOCH))%Z ArtifactDecryptionError;
  _ ← require ((0 <=? counter) && (counter <? MAX_COUNTER))%Z ArtifactDecryptionError;
  a ← int_to_bytes 4 (Z.to_N epoch);
  b ← int_to_bytes 8 (Z.to_N counter);
  Ok (a ++ b).

Section codec.
Context `{AESGCM}.

(** [_associated_data] *)
Definition associated_data (contract_id : pystr) (role : ArtifactRole) : result bytes :=
  frame_all [ARTIFACT_DOMAIN_PREFIX; contract_id; role_value role].

Definition encrypt_artifact (key : bytes) (key_id contract_id : pystr) (role : ArtifactRole)
    (plaintext nonce : bytes) : result ProtectedArtifact :=
  _ ← require (length key =? KEY_BYTES)%nat ArtifactDecryptionError;
  _ ← require (length nonce =? NONCE_BYTES)%nat ArtifactDecryptionError;
  ad ← associated_data contract_id role;
  ProtectedArtifact_new {|
    pa_key_id := key_id; pa_algorithm := AES_256_GCM_V1;
    pa_ciphertext := nonce ++ aead_encrypt key nonce plaintext ad |}.

Definition decrypt_artifact (key : bytes) (artifact : ProtectedArtifact) (contract_id : pystr)
    (role : ArtifactRole) : result bytes :=
  _ ← require (length key =? KEY_BYTES)%nat ArtifactDecryptionError;
  _ ← require (pystr_eqb (pa_algorithm artifact) AES_256_GCM_V1) ArtifactDecryptionError;
  _ ← require (negb (length (pa_ciphertext artifact) <=? NONCE_BYTES)%nat) ArtifactDecryptionError;
  let nonce := take NONCE_BYTES (pa_ciphertext artifact) in
  let sealed := drop NONCE_BYTES (pa_ciphertext artifact) in
  ad ← associated_data contract_id role;
  of_option (aead_decrypt key nonce sealed ad) ArtifactDecryptionError.
End codec.

(** ** Properties *)

Lemma int_to_bytes_inj k n m b :
  int_to_bytes k n = Ok b → int_to_bytes k m = Ok b → n = m.
Proof.
  intros (_ & Hn & ->)%int_to_bytes_length (_ & Hm & E)%int_to_bytes_length. by apply (be_split_inj k).
Qed.

Lemma build_nonce_Ok e c n : build_nonce e c = Ok n →
  (0 <= e < MAX_EPOCH)%Z ∧ (0 <= c < MAX_COUNTER)%Z ∧
  ∃ a b, n = a ++ b ∧ int_to_bytes 4 (Z.to_N e) = Ok a ∧ int_to_bytes 8 (Z.to_N c) = Ok b.
Proof.
  unfold build_nonce. rewrite !require_bind, !andb_true_iff, !Z.leb_le, !Z.ltb_lt.
  intros (He & Hc & (a & Ha & (b & Hb & [= <-])%bind_Ok)%bind_Ok). split; [done|]. split; [done|]. eauto.
Qed.

(** A nonce is twelve bytes and names its epoch and counter: two calls
    of [build_nonce] give one nonce only for the same epoch and the same
    counter, so a key whose counter values are never issued twice never
    repeats a nonce; and every epoch and counter in range gets one. *)
Theorem nonce_injective :
  (∀ e c e' c' n, build_nonce e c = Ok n → build_nonce e' c' = Ok n → e = e' ∧ c = c') ∧
  (∀ e c n, build_nonce e c = Ok n → length n = NONCE_BYTES) ∧
  (∀ e c, (0 <= e < MAX_EPOCH)%Z → (0 <= c < MAX_COUNTER)%Z → ∃ n, build_nonce e c = Ok n).
Proof.
  split_and!.
  - intros e c e' c' n (He & Hc & a & b & -> & Ha & Hb)%build_nonce_Ok
      (He' & Hc' & a' & b' & E & Ha' & Hb')%build_nonce_Ok.
    apply app_inj_1 in E as [<- <-]; [|by apply int_to_bytes_length in Ha as [-> _], Ha' as [-> _]].
    pose proof (int_to_bytes_inj _ _ _ _ Ha Ha'). pose proof (int_to_bytes_inj _ _ _ _ Hb Hb'). lia.
  - intros e c n (_ & _ & a & b & -> & [Ha _]%int_to_bytes_length & [Hb _]%int_to_bytes_length)%build_nonce_Ok.
    rewrite length_app, Ha, Hb. done.
  - intros e c He Hc. unfold build_nonce, MAX_EPOCH, MAX_COUNTER in *.
    rewrite !(proj2 (Z.leb_le _ _)), !(proj2 (Z.ltb_lt _ _)) by lia. cbn [andb require mbind result_bind].
    unfold int_to_bytes.
    rewrite !(proj2 (N.ltb_lt _ _)).
    + by eexists.
    + change (256 ^ N.of_nat 8)%N with (2 ^ 64)%N. lia.
    + change (256 ^ N.of_nat 4)%N with (2 ^ 32)%N. lia.
Qed.

Section binding.
Context `{AESGCM}.

Lemma role_value_inj r r' : role_value r = role_value r' → r = r'.
Proof. by destruct r, r'. Qed.

Lemma associated_data_inj c r c' r' ad :
  associated_data c r = Ok ad → associated_data c' r' = Ok ad → c = c' ∧ r = r'.
Proof.
  intros (es & Hes & Hf)%frame_all_seq (es' & Hes' & Hf')%frame_all_seq.
  pose proof (frame_seq_inj _ _ _ Hf Hf') as <-.
  pose proof (mapM_encode_inj _ _ _ Hes Hes') as [= -> Hr]. split; [done|]. by apply role_value_inj.
Qed.

(** The cipher accepted a ciphertext under other associated data than it
    was made for. *)
Definition forged (key nonce plaintext ad ad' : bytes) : Prop :=
  ad ≠ ad' ∧ is_Some (aead_decrypt key nonce (aead_encrypt key nonce plaintext ad) ad').

Lemma encrypt_artifact_Ok key kid cid role p nonce a :
  encrypt_artifact key kid cid role p nonce = Ok a →
  length key = KEY_BYTES ∧ length nonce = NONCE_BYTES ∧ ∃ ad, associated_data cid role = Ok ad ∧
    a = {| pa_key_id := kid; pa_algorithm := AES_256_GCM_V1;
           pa_ciphertext := nonce ++ aead_encrypt key nonce p ad |}.
Proof.
  unfold encrypt_artifact, ProtectedArtifact_new. rewrite !require_bind, !Nat.eqb_eq.
  intros (Hk & Hn & (ad & Had & (() & _ & [= <-])%bind_Ok)%bind_Ok). split; [done|]. split; [done|]. by exists ad.
Qed.

Lemma decrypt_encrypted key kid cid role p nonce a cid' role' :
  encrypt_artifact key kid cid role p nonce = Ok a →
  decrypt_artifact key a cid' role' =
    ad' ← associated_data cid' role';
    of_option (aead_decrypt key nonce (drop NONCE_BYTES (pa_ciphertext a)) ad') ArtifactDecryptionError.
Proof.
  intros (Hk & Hn & ad & Had & ->)%encrypt_artifact_Ok. unfold decrypt_artifact. cbn [pa_algorithm pa_ciphertext].
  rewrite Hk, pystr_eqb_refl, length_app, Hn, aead_length, take_app_length' by done.
  rewrite (proj2 (Nat.leb_gt (NONCE_BYTES + _) _)) by (unfold NONCE_BYTES; lia). reflexivity.
Qed.

(** A protected artifact opens under its own contract and role and
    under no other: decryption returns the plaintext it was made from, and
    if it returns anything under a contract and role, these are the ones it
    was made for, or the cipher has accepted a ciphertext under associated
    data it was not sealed with. *)
Theorem artifact_bound key kid cid role p nonce a :
  encrypt_artifact key kid cid role p nonce = Ok a →
  decrypt_artifact key a cid role = Ok p ∧
  ∀ cid' role' p', decrypt_artifact key a cid' role' = Ok p' →
    (cid' = cid ∧ role' = role ∧ p' = p) ∨
    ∃ ad ad', associated_data cid role = Ok ad ∧ associated_data cid' role' = Ok ad' ∧ forged key nonce p ad ad'.
Proof.
  intros He. pose proof (decrypt_encrypted _ _ _ _ _ _ _ cid role He) as Hd.
  pose proof He as (Hk & Hn & ad & Had & Ea)%encrypt_artifact_Ok.
  assert (drop NONCE_BYTES (pa_ciphertext a) = aead_encrypt key nonce p ad) as Hc
    by (subst a; cbn [pa_ciphertext]; by rewrite drop_app_length').
  assert (decrypt_artifact key a cid role = Ok p) as Hown
    by (by rewrite Hd, Had, Hc; cbn [mbind result_bind]; rewrite aead_decrypt_encrypt).
  split; [done|]. intros cid' role' p' Hd'.
  pose proof Hd' as Hd2. rewrite (decrypt_encrypted _ _ _ _ _ _ _ cid' role' He), Hc in Hd2.
  apply bind_Ok in Hd2 as (ad' & Had' & Hp%of_option_Ok).
  destruct (decide (ad = ad')) as [<-|Hne].
  - left. destruct (associated_data_inj _ _ _ _ _ Had Had') as [-> ->]. split_and!; [done..|]. congruence.
  - right. exists ad, ad'. split_and!; [done..|]. split; [done|by exists p'].
Qed.
End binding.

(** A stand-in cipher: the plaintext in clear, and a tag over everything. *)
Module SampleCipher.
Definition tag (k n p ad : bytes) : bytes := take 16 (@sha256 Sample.hash (k ++ n ++ p ++ ad) ++ replicate 16 Byte.x00).
Definition seal (k n p ad : bytes) : bytes := p ++ tag k n p ad.
Definition open (k n c ad : bytes) : option bytes :=
  let p := take (length c - 16) c in if decide (drop (length c - 16) c = tag k n p ad) then Some p else None.

Lemma tag_length k n p ad : length (tag k n p ad) = 16%nat.
Proof. unfold tag. rewrite length_take, length_app, length_replicate. lia. Qed.

#[export, program] Instance cipher : AESGCM := {| aead_encrypt := seal; aead_decrypt := open |}.
Next Obligation.
  intros k n p ad. unfold open, seal. rewrite length_app, tag_length.
  replace (length p + 16 - 16)%nat with (length p) by lia.
  rewrite take_app_length, drop_app_length. by rewrite decide_True.
Qed.
Next Obligation. intros k n p ad. unfold seal. by rewrite length_app, tag_length. Qed.

Definition key : bytes := replicate 32 Byte.x07.
Definition nonce : bytes := replicate 12 Byte.x01.
Definition artifact : ProtectedArtifact := Eval vm_compute in
  match encrypt_artifact key (u "key-1") (u "c1") ROLE_INTENT [Byte.x61] nonce with
  | Ok a => a | Raise _ => Sample.artifact end.
End SampleCipher.

Lemma artifact_bound_witness :
  @decrypt_artifact SampleCipher.cipher SampleCipher.key SampleCipher.artifact (u "c1") ROLE_INTENT = Ok [Byte.x61].
Proof.
  exact (proj1 (@artifact_bound SampleCipher.cipher SampleCipher.key (u "key-1") (u "c1") ROLE_INTENT [Byte.x61]
    SampleCipher.nonce SampleCipher.artifact ltac:(vm_compute; reflexivity))).
Defined.
