(* ===== verification/Authorization.v ===== *)
(** * Plan authorizations

    [security_authorization.py] and [security_authorization_verifier.py]: the
    signed artifacts by which an owner approves steps of a plan (version 1),
    exact step-to-intent bindings (version 2) or a deprovisioning, their
    signing payloads, the builders that derive them from a plan, and the checks a
    caller composes. *)

From S2P Require Import Prelude PyStr Sha256 PyDatetime Json Canonical PyJson Contract Evidence Plan SealedApproval.

(** ** Levels *)

(** [None] for the members the table does not rank. *)
Definition AUTHORIZATION_LEVEL_RANK (l : AuthorizationLevel) : option nat :=
  match l with
  | NONE_REQUIRED => Some 0%nat
  | CONFIGURATION_CHANGE => Some 1%nat
  | INTERACTIVE_HARDWARE_CONFIRMATION => Some 2%nat
  | MILESTONE_9_ACTIVATION_DECISION => Some 3%nat
  | _ => None
  end.

Definition authorization_level_at_least (level minimum : AuthorizationLevel) : bool :=
  match AUTHORIZATION_LEVEL_RANK level, AUTHORIZATION_LEVEL_RANK minimum with
  | Some r, Some r' => (r' <=? r)%nat
  | _, _ => false
  end.

Definition ranked (l : AuthorizationLevel) : bool := negb (is_none (AUTHORIZATION_LEVEL_RANK l)).

(** ** Evidence fingerprints *)

Record AuthorizationEvidenceFingerprint : Type := {
  ef_capability_posture_value : pystr; ef_anchor_assurance_value : pystr; ef_anchor_evidence_state : pystr;
  ef_anchor_baseline : option Z; ef_anchor_witness_value : option Z; ef_anchor_provisioned_at : option pystr }.

Definition nonempty (s : pystr) : bool := negb (length s =? 0)%nat.

Definition AuthorizationEvidenceFingerprint_post_init (f : AuthorizationEvidenceFingerprint) : result () :=
  require (nonempty (ef_capability_posture_value f) && nonempty (ef_anchor_assurance_value f) &&
           nonempty (ef_anchor_evidence_state f)) SecurityAuthorizationError.

Definition fingerprint_payload (f : AuthorizationEvidenceFingerprint) : pyobj := pdict [
  ("capability_posture_value", PStr (ef_capability_posture_value f));
  ("anchor_assurance_value", PStr (ef_anchor_assurance_value f));
  ("anchor_evidence_state", PStr (ef_anchor_evidence_state f));
  ("anchor_baseline", py_opt_int (ef_anchor_baseline f));
  ("anchor_witness_value", py_opt_int (ef_anchor_witness_value f));
  ("anchor_provisioned_at", py_opt_str (ef_anchor_provisioned_at f))].

Definition AUTHORIZATION_SIGNING_ALGORITHM : pystr := u "ed25519-v1".
Definition PLAN_AUTHORIZATION_SCHEMA_VERSION : Z := 1.
Definition PLAN_AUTHORIZATION_V2_SCHEMA_VERSION : Z := 2.
Definition DEPROVISION_AUTHORIZATION_SCHEMA_VERSION : Z := 1.

Definition distinct (l : list pystr) : bool := bool_decide (NoDup l).

(** The checks the three artifacts share. *)
Definition metadata_ok (authorization_id authority_id algorithm : pystr) : result () :=
  _ ← require (match_token authorization_id && match_token authority_id && match_token algorithm)
        SecurityAuthorizationError;
  require (pystr_eqb algorithm AUTHORIZATION_SIGNING_ALGORITHM) SecurityAuthorizationError.

Definition window_ok (issued_at expires_at : datetime) : result () :=
  require (is_utc issued_at && is_utc expires_at && dt_ltb issued_at expires_at) SecurityAuthorizationError.

(** ** PlanAuthorization *)

Record PlanAuthorizationPayload : Type := {
  pa1_schema_version : Z; pa1_authorization_id : pystr; pa1_plan_digest : pystr;
  pa1_authorized_step_ids : list pystr; pa1_authority_id : pystr; pa1_algorithm : pystr;
  pa1_issued_at : datetime; pa1_expires_at : datetime; pa1_risk_class : AuthorizationLevel;
  pa1_evidence_fingerprint : AuthorizationEvidenceFingerprint }.

Record PlanAuthorization : Type := { a1_payload : PlanAuthorizationPayload; a1_proof : bytes }.

(** [__post_init__], in the code's order. *)
Definition PlanAuthorization_post_init (a : PlanAuthorization) : result () :=
  let p := a1_payload a in
  _ ← require (pa1_schema_version p =? PLAN_AUTHORIZATION_SCHEMA_VERSION)%Z SecurityAuthorizationError;
  _ ← metadata_ok (pa1_authorization_id p) (pa1_authority_id p) (pa1_algorithm p);
  _ ← require (match_hex64 (pa1_plan_digest p)) SecurityAuthorizationError;
  _ ← require (negb (length (pa1_authorized_step_ids p) =? 0)%nat &&
               forallb nonempty (pa1_authorized_step_ids p) &&
               distinct (pa1_authorized_step_ids p)) SecurityAuthorizationError;
  _ ← require (length (a1_proof a) =? ED25519_SIGNATURE_BYTES)%nat SecurityAuthorizationError;
  _ ← window_ok (pa1_issued_at p) (pa1_expires_at p);
  require (ranked (pa1_risk_class p)) SecurityAuthorizationError.

(** [sorted] on strings. *)
Definition sorted_strs (l : list pystr) : list pystr := (sort_items (map (λ s, (s, ())) l)).*1.

Section signing.
Context `{UnicodeData}.

Definition plan_authorization_body (p : PlanAuthorizationPayload) : list (string * pyobj) :=
  [("digest_purpose", PStr (purpose_value PLAN_AUTHORIZATION));
   ("schema_version", PInt (pa1_schema_version p));
   ("authorization_id", PStr (pa1_authorization_id p));
   ("plan_digest", PStr (pa1_plan_digest p));
   ("authorized_step_ids", PList (map PStr (sorted_strs (pa1_authorized_step_ids p))));
   ("authority_id", PStr (pa1_authority_id p));
   ("algorithm", PStr (pa1_algorithm p));
   ("issued_at", PStr (isoformat (pa1_issued_at p)));
   ("expires_at", PStr (isoformat (pa1_expires_at p)));
   ("risk_class", PStr (level_value (pa1_risk_class p)));
   ("evidence_fingerprint", fingerprint_payload (pa1_evidence_fingerprint p))].

Definition plan_authorization_signing_payload (p : PlanAuthorizationPayload) : result bytes :=
  canonical_json (pdict (plan_authorization_body p)).
End signing.

(** [plan_authorization_payload_of] *)
Definition plan_authorization_payload_of (a : PlanAuthorization) : PlanAuthorizationPayload := a1_payload a.

(** ** PlanAuthorization v2 *)

Record PlanAuthorizationStepBinding : Type := { sb_step_id : pystr; sb_execution_intent_digest : pystr }.

Definition PlanAuthorizationStepBinding_post_init (b : PlanAuthorizationStepBinding) : result () :=
  _ ← require (match_token (sb_step_id b)) SecurityAuthorizationError;
  require (match_hex64 (sb_execution_intent_digest b)) SecurityAuthorizationError.

Definition binding_payload (b : PlanAuthorizationStepBinding) : pyobj := pdict [
  ("step_id", PStr (sb_step_id b)); ("execution_intent_digest", PStr (sb_execution_intent_digest b))].

Record PlanAuthorizationV2Payload : Type := {
  pa2_schema_version : Z; pa2_authorization_id : pystr; pa2_plan_digest : pystr;
  pa2_authorized_executions : list PlanAuthorizationStepBinding; pa2_authority_id : pystr;
  pa2_algorithm : pystr; pa2_issued_at : datetime; pa2_expires_at : datetime;
  pa2_risk_class : AuthorizationLevel; pa2_evidence_fingerprint : AuthorizationEvidenceFingerprint }.

Definition PlanAuthorizationV2Payload_post_init (p : PlanAuthorizationV2Payload) : result () :=
  _ ← require (pa2_schema_version p =? PLAN_AUTHORIZATION_V2_SCHEMA_VERSION)%Z SecurityAuthorizationError;
  _ ← metadata_ok (pa2_authorization_id p) (pa2_authority_id p) (pa2_algorithm p);
  _ ← require (match_hex64 (pa2_plan_digest p)) SecurityAuthorizationError;
  _ ← require (negb (length (pa2_authorized_executions p) =? 0)%nat) SecurityAuthorizationError;
  _ ← require (distinct (map sb_step_id (pa2_authorized_executions p))) SecurityAuthorizationError;
  _ ← window_ok (pa2_issued_at p) (pa2_expires_at p);
  require (ranked (pa2_risk_class p)) SecurityAuthorizationError.

Record PlanAuthorizationV2 : Type := { a2_fields : PlanAuthorizationV2Payload; a2_proof : bytes }.

Definition PlanAuthorizationV2_post_init (a : PlanAuthorizationV2) : result () :=
  let p := a2_fields a in
  _ ← require (pa2_schema_version p =? PLAN_AUTHORIZATION_V2_SCHEMA_VERSION)%Z SecurityAuthorizationError;
  _ ← metadata_ok (pa2_authorization_id p) (pa2_authority_id p) (pa2_algorithm p);
  _ ← require (match_hex64 (pa2_plan_digest p)) SecurityAuthorizationError;
  _ ← require (negb (length (pa2_authorized_executions p) =? 0)%nat) SecurityAuthorizationError;
  _ ← require (distinct (map sb_step_id (pa2_authorized_executions p))) SecurityAuthorizationError;
  _ ← require (length (a2_proof a) =? ED25519_SIGNATURE_BYTES)%nat SecurityAuthorizationError;
  _ ← window_ok (pa2_issued_at p) (pa2_expires_at p);
  require (ranked (pa2_risk_class p)) SecurityAuthorizationError.

(** [sorted(bindings, key=lambda b: (b.step_id, b.execution_intent_digest))]:
    the step identifiers of an artifact are distinct, so the first key
    decides. *)
Definition sorted_bindings (l : list PlanAuthorizationStepBinding) : list PlanAuthorizationStepBinding :=
  (sort_items (map (λ b, (sb_step_id b, b)) l)).*2.

Section signing_v2.
Context `{UnicodeData}.

Definition plan_authorization_v2_body (p : PlanAuthorizationV2Payload) : list (string * pyobj) :=
  [("digest_purpose", PStr (purpose_value PLAN_AUTHORIZATION_V2));
   ("schema_version", PInt (pa2_schema_version p));
   ("authorization_id", PStr (pa2_authorization_id p));
   ("plan_digest", PStr (pa2_plan_digest p));
   ("authorized_executions", PList (map binding_payload (sorted_bindings (pa2_authorized_executions p))));
   ("authority_id", PStr (pa2_authority_id p));
   ("algorithm", PStr (pa2_algorithm p));
   ("issued_at", PStr (isoformat (pa2_issued_at p)));
   ("expires_at", PStr (isoformat (pa2_expires_at p)));
   ("risk_class", PStr (level_value (pa2_risk_class p)));
   ("evidence_fingerprint", fingerprint_payload (pa2_evidence_fingerprint p))].

Definition plan_authorization_v2_signing_payload (p : PlanAuthorizationV2Payload) : result bytes :=
  canonical_json (pdict (plan_authorization_v2_body p)).

(** [plan_authorization_v2_payload_of] constructs a payload, which is
    validated again. *)
Definition plan_authorization_v2_payload_of (a : PlanAuthorizationV2) : result PlanAuthorizationV2Payload :=
  _ ← PlanAuthorizationV2Payload_post_init (a2_fields a);
  Ok (a2_fields a).

(** [sign_plan_authorization_v2]; [sign] is [private_key.sign]. *)
Definition sign_plan_authorization_v2 (sign : bytes → bytes) (p : PlanAuthorizationV2Payload)
    : result PlanAuthorizationV2 :=
  m ← plan_authorization_v2_signing_payload p;
  let a := {| a2_fields := p; a2_proof := sign m |} in
  _ ← PlanAuthorizationV2_post_init a;
  Ok a.

Definition sign_plan_authorization (sign : bytes → bytes) (p : PlanAuthorizationPayload)
    : result PlanAuthorization :=
  m ← plan_authorization_signing_payload p;
  let a := {| a1_payload := p; a1_proof := sign m |} in
  _ ← PlanAuthorization_post_init a;
  Ok a.
End signing_v2.

(** ** DeprovisionAuthorization *)

Record DeprovisionAuthorizationPayload : Type := {
  pd_schema_version : Z; pd_authorization_id : pystr; pd_target_identity_digest : pystr;
  pd_authority_id : pystr; pd_algorithm : pystr; pd_issued_at : datetime; pd_expires_at : datetime }.

Definition build_deprovision_authorization_payload (p : DeprovisionAuthorizationPayload)
    : result DeprovisionAuthorizationPayload :=
  _ ← require (match_hex64 (pd_target_identity_digest p)) SecurityAuthorizationError;
  _ ← require (match_token (pd_authorization_id p)) SecurityAuthorizationError;
  _ ← require (match_token (pd_authority_id p)) SecurityAuthorizationError;
  _ ← require (pystr_eqb (pd_algorithm p) AUTHORIZATION_SIGNING_ALGORITHM) SecurityAuthorizationError;
  _ ← require (pd_schema_version p =? DEPROVISION_AUTHORIZATION_SCHEMA_VERSION)%Z SecurityAuthorizationError;
  _ ← window_ok (pd_issued_at p) (pd_expires_at p);
  Ok p.

Section signing_deprovision.
Context `{UnicodeData}.

Definition deprovision_body (p : DeprovisionAuthorizationPayload) : list (string * pyobj) :=
  [("digest_purpose", PStr (purpose_value DEPROVISION_AUTHORIZATION));
   ("schema_version", PInt (pd_schema_version p));
   ("authorization_id", PStr (pd_authorization_id p));
   ("target_identity_digest", PStr (pd_target_identity_digest p));
   ("authority_id", PStr (pd_authority_id p));
   ("algorithm", PStr (pd_algorithm p));
   ("issued_at", PStr (isoformat (pd_issued_at p)));
   ("expires_at", PStr (isoformat (pd_expires_at p)))].

Definition deprovision_authorization_signing_payload (p : DeprovisionAuthorizationPayload) : result bytes :=
  canonical_json (pdict (deprovision_body p)).
End signing_deprovision.

(** ** DeprovisionAuthorization, signed *)

Record DeprovisionAuthorization : Type := { da_fields : DeprovisionAuthorizationPayload; da_proof : bytes }.

Definition DeprovisionAuthorization_post_init (a : DeprovisionAuthorization) : result () :=
  let p := da_fields a in
  _ ← require (pd_schema_version p =? DEPROVISION_AUTHORIZATION_SCHEMA_VERSION)%Z SecurityAuthorizationError;
  _ ← metadata_ok (pd_authorization_id p) (pd_authority_id p) (pd_algorithm p);
  _ ← require (match_hex64 (pd_target_identity_digest p)) SecurityAuthorizationError;
  _ ← require (length (da_proof a) =? ED25519_SIGNATURE_BYTES)%nat SecurityAuthorizationError;
  window_ok (pd_issued_at p) (pd_expires_at p).

Definition sign_deprovision_authorization `{UnicodeData} (sign : bytes → bytes)
    (p : DeprovisionAuthorizationPayload) : result DeprovisionAuthorization :=
  m ← deprovision_authorization_signing_payload p;
  let a := {| da_fields := p; da_proof := sign m |} in
  _ ← DeprovisionAuthorization_post_init a;
  Ok a.

(** ** Building a payload from a plan *)

(** [AuthorizationEvidenceFingerprint.from_plan] *)
Definition from_plan (plan : SecurityPosturePlan) : result AuthorizationEvidenceFingerprint :=
  let anchor := anchor_assurance (pl_current plan) in
  let f := {|
    ef_capability_posture_value := posture_value (cd_value (capability_posture (pl_current plan)));
    ef_anchor_assurance_value := assurance_value (ad_value anchor);
    ef_anchor_evidence_state := evidence_state_value (ad_evidence_state anchor);
    ef_anchor_baseline := ad_baseline anchor; ef_anchor_witness_value := ad_witness_value anchor;
    ef_anchor_provisioned_at := ad_provisioned_at anchor |} in
  _ ← AuthorizationEvidenceFingerprint_post_init f;
  Ok f.

Definition NEVER_PLAN_AUTHORIZATION_LEVELS (l : AuthorizationLevel) : bool :=
  match l with SEPARATE_DEPROVISION_AUTHORIZATION | UNDETERMINED_NOT_IMPLEMENTED => true | _ => false end.

(** [{step.step_id: step for step in plan.steps}.get(step_id)] *)
Definition step_by_id (steps : list PlanStep) (step_id : pystr) : option PlanStep :=
  find (λ s, pystr_eqb (st_step_id s) step_id) (rev steps).

(** The loop over the step identifiers. *)
Fixpoint select_levels (steps : list PlanStep) (step_ids : list pystr) : result (list AuthorizationLevel) :=
  match step_ids with
  | [] => Ok []
  | step_id :: step_ids =>
    step ← of_option (step_by_id steps step_id) SecurityAuthorizationError;
    _ ← require (negb (NEVER_PLAN_AUTHORIZATION_LEVELS (st_authorization_required step)))
          SecurityAuthorizationError;
    levels ← select_levels steps step_ids;
    Ok (st_authorization_required step :: levels)
  end.

(** [max(levels, key=rank)]: the first of the highest. *)
Fixpoint max_level (best : AuthorizationLevel) (levels : list AuthorizationLevel) : AuthorizationLevel :=
  match levels with
  | [] => best
  | l :: levels =>
    let rank x := default 0%nat (AUTHORIZATION_LEVEL_RANK x) in
    max_level (if (rank best <? rank l)%nat then l else best) levels
  end.

(** The checks both builders make of their keyword arguments. *)
Definition keywords_ok (authorization_id authority_id algorithm : pystr) (schema_version supported : Z)
    (issued_at expires_at : datetime) : result () :=
  _ ← require (match_token authorization_id) SecurityAuthorizationError;
  _ ← require (match_token authority_id) SecurityAuthorizationError;
  _ ← require (pystr_eqb algorithm AUTHORIZATION_SIGNING_ALGORITHM) SecurityAuthorizationError;
  _ ← require (schema_version =? supported)%Z SecurityAuthorizationError;
  _ ← require (is_utc issued_at && is_utc expires_at) SecurityAuthorizationError;
  require (negb (dt_leb expires_at issued_at)) SecurityAuthorizationError.

Section builders.
Context `{Hash} `{UnicodeData}.

Definition build_plan_authorization_payload (plan : SecurityPosturePlan) (step_ids : list pystr)
    (authorization_id authority_id : pystr) (issued_at expires_at : datetime) (algorithm : pystr)
    (schema_version : Z) : result PlanAuthorizationPayload :=
  _ ← require (negb (length step_ids =? 0)%nat) SecurityAuthorizationError;
  _ ← require (forallb nonempty step_ids) SecurityAuthorizationError;
  _ ← require (distinct step_ids) SecurityAuthorizationError;
  selected ← select_levels (pl_steps plan) step_ids;
  _ ← keywords_ok authorization_id authority_id algorithm schema_version PLAN_AUTHORIZATION_SCHEMA_VERSION
        issued_at expires_at;
  plan_digest ← compute_plan_digest plan;
  fingerprint ← from_plan plan;
  Ok {| pa1_schema_version := schema_version; pa1_authorization_id := authorization_id;
        pa1_plan_digest := plan_digest; pa1_authorized_step_ids := step_ids; pa1_authority_id := authority_id;
        pa1_algorithm := algorithm; pa1_issued_at := issued_at; pa1_expires_at := expires_at;
        pa1_risk_class := max_level (hd NONE_REQUIRED selected) (List.tl selected);
        pa1_evidence_fingerprint := fingerprint |}.

Definition build_plan_authorization_v2_payload (plan : SecurityPosturePlan)
    (bindings : list PlanAuthorizationStepBinding) (authorization_id authority_id : pystr)
    (issued_at expires_at : datetime) (algorithm : pystr) (schema_version : Z)
    : result PlanAuthorizationV2Payload :=
  _ ← require (negb (length bindings =? 0)%nat) SecurityAuthorizationError;
  let step_ids := map sb_step_id bindings in
  _ ← require (distinct step_ids) SecurityAuthorizationError;
  selected ← select_levels (pl_steps plan) step_ids;
  _ ← keywords_ok authorization_id authority_id algorithm schema_version PLAN_AUTHORIZATION_V2_SCHEMA_VERSION
        issued_at expires_at;
  plan_digest ← compute_plan_digest plan;
  fingerprint ← from_plan plan;
  let p := {| pa2_schema_version := schema_version; pa2_authorization_id := authorization_id;
        pa2_plan_digest := plan_digest; pa2_authorized_executions := bindings;
        pa2_authority_id := authority_id; pa2_algorithm := algorithm; pa2_issued_at := issued_at;
        pa2_expires_at := expires_at; pa2_risk_class := max_level (hd NONE_REQUIRED selected) (List.tl selected);
        pa2_evidence_fingerprint := fingerprint |} in
  _ ← PlanAuthorizationV2Payload_post_init p;
  Ok p.
End builders.

(** ** The verifier *)

Section verifier.
Context `{UnicodeData} `{Ed25519}.

Definition verify_plan_authorization_signature (a : PlanAuthorization) (authorities : list PinnedAuthority)
    : result bool :=
  if negb (pystr_eqb (pa1_algorithm (a1_payload a)) AUTHORIZATION_SIGNING_ALGORITHM) then Ok false else
  message ← plan_authorization_signing_payload (plan_authorization_payload_of a);
  Ok (verify_signature authorities (pa1_authority_id (a1_payload a)) message (a1_proof a)).

Definition verify_plan_authorization_v2_signature (a : PlanAuthorizationV2) (authorities : list PinnedAuthority)
    : result bool :=
  if negb (pystr_eqb (pa2_algorithm (a2_fields a)) AUTHORIZATION_SIGNING_ALGORITHM) then Ok false else
  payload ← plan_authorization_v2_payload_of a;
  message ← plan_authorization_v2_signing_payload payload;
  Ok (verify_signature authorities (pa2_authority_id (a2_fields a)) message (a2_proof a)).
End verifier.

Definition plan_authorization_is_current (expires_at now : datetime) : result bool :=
  _ ← require (is_utc now) SecurityAuthorizationError;
  Ok (dt_ltb now expires_at).

Definition str_in (s : pystr) (l : list pystr) : bool := existsb (pystr_eqb s) l.

Definition plan_authorization_authorizes_step (a : PlanAuthorization) (plan_digest step_id : pystr) : result bool :=
  digest_matches ← compare_digest_str (pa1_plan_digest (a1_payload a)) plan_digest;
  Ok (digest_matches && str_in step_id (pa1_authorized_step_ids (a1_payload a))).

(** [any(... for binding in bindings)]: the comparison of digests is only
    reached for the step asked for. *)
Fixpoint any_binding (step_id digest : pystr) (l : list PlanAuthorizationStepBinding) : result bool :=
  match l with
  | [] => Ok false
  | b :: l =>
    if pystr_eqb (sb_step_id b) step_id then
      matches ← compare_digest_str (sb_execution_intent_digest b) digest;
      if matches : bool then Ok true else any_binding step_id digest l
    else any_binding step_id digest l
  end.

Definition plan_authorization_v2_authorizes_execution (a : PlanAuthorizationV2)
    (plan_digest step_id execution_intent_digest : pystr) : result bool :=
  digest_matches ← compare_digest_str (pa2_plan_digest (a2_fields a)) plan_digest;
  if negb digest_matches then Ok false else
  any_binding step_id execution_intent_digest (pa2_authorized_executions (a2_fields a)).

Definition plan_authorization_v2_satisfies_required_risk_class (a : PlanAuthorizationV2)
    (required_risk_class : AuthorizationLevel) : bool :=
  authorization_level_at_least (pa2_risk_class (a2_fields a)) required_risk_class.
