(* ===== verification/AuthorizationProps.v ===== *)
(** * What a plan authorization binds

    The payload an owner signs and the artifact a server verifies: what the
    signed bytes fix, that they serve no other purpose, what the builder
    derives from the plan, and that signing and verifying agree. *)

From S2P Require Import Prelude PyStr Sha256 PyDatetime Json Canonical PyJson Literals Contract Evidence Plan PlanProps.
From S2P Require Import SealedApproval Authorization.

(** ** Levels *)

Lemma level_value_inj l l' : level_value l = level_value l' → l = l'.
Proof. by destruct l, l'. Qed.
Lemma level_value_ascii l : is_ascii (level_value l) = true.
Proof. by destruct l. Qed.

Definition rank (l : AuthorizationLevel) : nat := default 0%nat (AUTHORIZATION_LEVEL_RANK l).

Lemma at_least_ranked l m :
  ranked l = true → ranked m = true → authorization_level_at_least l m = (rank m <=? rank l)%nat.
Proof. by destruct l, m. Qed.

Lemma max_level_spec ls : ∀ best, max_level best ls ∈ best :: ls ∧ ∀ l, l ∈ best :: ls → (rank l <= rank (max_level best ls))%nat.
Proof.
  induction ls as [|l ls IH]; intros best; cbn [max_level].
  { split; [by left|]. intros l ->%list_elem_of_singleton. done. }
  change (default 0%nat (AUTHORIZATION_LEVEL_RANK best)) with (rank best).
  change (default 0%nat (AUTHORIZATION_LEVEL_RANK l)) with (rank l).
  destruct (IH (if (rank best <? rank l)%nat then l else best)) as [Hin Hmax]. split.
  - destruct (rank best <? rank l)%nat; set_solver.
  - intros x [->|[->|Hx]%elem_of_cons]%elem_of_cons.
    + etrans; [|apply Hmax; left]. destruct (Nat.ltb_spec (rank best) (rank l)); lia.
    + etrans; [|apply Hmax; left]. destruct (Nat.ltb_spec (rank best) (rank l)); lia.
    + apply Hmax. by right.
Qed.

Lemma never_ranked l : NEVER_PLAN_AUTHORIZATION_LEVELS l = negb (ranked l).
Proof. by destruct l. Qed.

Lemma step_by_id_elem steps id s : step_by_id steps id = Some s → s ∈ steps ∧ st_step_id s = id.
Proof.
  unfold step_by_id. intros [Hin Hid%pystr_eqb_eq]%find_some. split; [|done].
  apply in_rev in Hin. by apply list_elem_of_In.
Qed.

(** Every selected level is the requirement of the step of that name. *)
Definition selected (steps : list PlanStep) (id : pystr) (l : AuthorizationLevel) : Prop :=
  ranked l = true ∧ ∃ s, s ∈ steps ∧ st_step_id s = id ∧ st_authorization_required s = l.

Lemma select_levels_inv steps ids ls : select_levels steps ids = Ok ls → Forall2 (selected steps) ids ls.
Proof.
  revert ls. induction ids as [|id ids IH]; intros ls Hs; cbn [select_levels] in Hs; [by injection Hs as <-|].
  inv_result. subst. match goal with H : step_by_id _ _ = Some ?s |- _ => apply step_by_id_elem in H as [Hin Hid] end.
  constructor; [|by apply IH]. rewrite never_ranked, negb_involutive in *. by split; [|eexists].
Qed.

#[global] Instance binding_eq_dec : EqDecision PlanAuthorizationStepBinding.
Proof. solve_decision. Defined.

(** The artifact's own checks are its payload's and the length of the
    proof. *)
Lemma post_init_with_proof a :
  PlanAuthorizationV2Payload_post_init (a2_fields a) = Ok () → length (a2_proof a) = ED25519_SIGNATURE_BYTES →
  PlanAuthorizationV2_post_init a = Ok ().
Proof.
  unfold PlanAuthorizationV2Payload_post_init, PlanAuthorizationV2_post_init. intros Hp Hl. rewrite Hl, Nat.eqb_refl.
  exact Hp.
Qed.

(** ** Signed texts and their purposes *)

Section purposes.
Context `{UnicodeData}.

(** The artifacts signed under a [digest_purpose]. *)
Inductive Purpose : Type := Sealed | PlanV1 | PlanV2 | Deprovision.

Definition purpose_tag (k : Purpose) : pystr :=
  match k with
  | Sealed => SIGNING_DOMAIN
  | PlanV1 => purpose_value PLAN_AUTHORIZATION
  | PlanV2 => purpose_value PLAN_AUTHORIZATION_V2
  | Deprovision => purpose_value DEPROVISION_AUTHORIZATION
  end.

Inductive signed_for : Purpose → bytes → Prop :=
  | signed_sealed p m : sealed_write_approval_signing_payload p = Ok m → signed_for Sealed m
  | signed_v1 p m : plan_authorization_signing_payload p = Ok m → signed_for PlanV1 m
  | signed_v2 p m : plan_authorization_v2_signing_payload p = Ok m → signed_for PlanV2 m
  | signed_deprovision p m : deprovision_authorization_signing_payload p = Ok m → signed_for Deprovision m.

Lemma signed_tagged k m : signed_for k m → ∃ l, canonical_json (pdict l) = Ok m ∧ ("digest_purpose", PStr (purpose_tag k)) ∈ l.
Proof.
  destruct 1; eexists; (split; [eassumption|]); apply list_elem_of_here.
Qed.

Lemma purpose_tag_inj k k' : purpose_tag k = purpose_tag k' → k = k'.
Proof. by destruct k, k'. Qed.
Lemma purpose_tag_ascii k : is_ascii (purpose_tag k) = true.
Proof. by destruct k. Qed.
End purposes.

(** ** What the signed bytes of a version 2 authorization fix *)

Section binding.
Context `{UnicodeData}.

Definition wf_binding (b : PlanAuthorizationStepBinding) : Prop := PlanAuthorizationStepBinding_post_init b = Ok ().

Lemma wf_binding_ascii b : wf_binding b →
  is_ascii (sb_step_id b) = true ∧ is_ascii (sb_execution_intent_digest b) = true.
Proof.
  unfold wf_binding, PlanAuthorizationStepBinding_post_init. intros Hb. rewrite require_bind in Hb.
  destruct Hb as [Ht Hh%require_Ok]. split; [by apply match_token_ascii|by apply match_hex64_ascii].
Qed.

(** The canonical form of a binding. *)
Definition binding_json (b : PlanAuthorizationStepBinding) : json := JObj [
  (u "execution_intent_digest", JStr (sb_execution_intent_digest b)); (u "step_id", JStr (sb_step_id b))].

Lemma binding_json_inj b b' : binding_json b = binding_json b' → b = b'.
Proof. destruct b, b'. unfold binding_json. cbn. congruence. Qed.

Lemma binding_denoted d b x :
  wf_binding b → denote d (binding_payload b) = Some x → sort_keys x = binding_json b.
Proof.
  intros [A1 A2]%wf_binding_ascii (es & -> & He)%denote_pdict_entries; [|reflexivity]. literal_entries.
  repeat match goal with H : denote _ (PStr _) = Some _ |- _ => apply denote_str in H as ->; [|done] end.
  reflexivity.
Qed.

Lemma sorted_bindings_perm l : sorted_bindings l ≡ₚ l.
Proof.
  unfold sorted_bindings. rewrite sort_items_perm. induction l as [|b l IH]; [done|]. cbn. by rewrite IH.
Qed.

Lemma metadata_ok_inv i a al : metadata_ok i a al = Ok () →
  match_token i = true ∧ match_token a = true ∧ al = AUTHORIZATION_SIGNING_ALGORITHM.
Proof.
  unfold metadata_ok. rewrite require_bind, !andb_true_iff. by intros [[[? ?] _] ?%require_Ok%pystr_eqb_eq].
Qed.

(** What the constructor of a payload checked. *)
Definition v2_ok (p : PlanAuthorizationV2Payload) : Prop :=
  PlanAuthorizationV2Payload_post_init p = Ok () ∧ Forall wf_binding (pa2_authorized_executions p) ∧
  dt_valid (pa2_issued_at p) = true ∧ dt_valid (pa2_expires_at p) = true.

Lemma v2_facts p : PlanAuthorizationV2Payload_post_init p = Ok () →
  pa2_schema_version p = PLAN_AUTHORIZATION_V2_SCHEMA_VERSION ∧
  match_token (pa2_authorization_id p) = true ∧ match_token (pa2_authority_id p) = true ∧
  pa2_algorithm p = AUTHORIZATION_SIGNING_ALGORITHM ∧ match_hex64 (pa2_plan_digest p) = true ∧
  NoDup (map sb_step_id (pa2_authorized_executions p)) ∧
  dt_ltb (pa2_issued_at p) (pa2_expires_at p) = true ∧ ranked (pa2_risk_class p) = true.
Proof.
  unfold PlanAuthorizationV2Payload_post_init. intros Hp. rewrite require_bind in Hp. destruct Hp as [Hs%Z.eqb_eq Hp].
  apply bind_Ok in Hp as ([] & (? & ? & ?)%metadata_ok_inv & Hp). rewrite !require_bind in Hp.
  destruct Hp as (Hh & _ & Hd%bool_decide_eq_true_1 & ([] & Hw%require_Ok & Hr%require_Ok)%bind_Ok).
  rewrite !andb_true_iff in Hw. by split_and!; [..|apply Hw|].
Qed.

(** What two payloads with the same signed bytes share. *)
Definition same_grant (p p' : PlanAuthorizationV2Payload) : Prop :=
  pa2_authorization_id p = pa2_authorization_id p' ∧ pa2_authority_id p = pa2_authority_id p' ∧
  pa2_plan_digest p = pa2_plan_digest p' ∧
  pa2_authorized_executions p ≡ₚ pa2_authorized_executions p' ∧
  pa2_issued_at p = pa2_issued_at p' ∧ pa2_expires_at p = pa2_expires_at p' ∧
  pa2_risk_class p = pa2_risk_class p'.

Lemma v2_signing_inj p p' m :
  v2_ok p → v2_ok p' → plan_authorization_v2_signing_payload p = Ok m →
  plan_authorization_v2_signing_payload p' = Ok m → same_grant p p'.
Proof.
  intros (Hp & Hb & V1 & V2) (Hp' & Hb' & V1' & V2') Hm Hm'.
  destruct (v2_facts p Hp) as (_ & T1 & T2 & _ & T3 & _), (v2_facts p' Hp') as (_ & T1' & T2' & _ & T3' & _).
  destruct (canonical_json_form _ _ _ Hm Hm') as (j & Hj & Hj').
  assert (∀ k s s', (k, PStr s) ∈ plan_authorization_v2_body p → (k, PStr s') ∈ plan_authorization_v2_body p' →
    is_ascii (u k) = true → is_ascii s = true → is_ascii s' = true → s = s') as Hs
    by (intros k s s' ? ? ? ? ?; by eapply (literal_agree_str _ _ _ k _ _ Hj Hj')).
  unfold same_grant. split_and!.
  - apply (Hs "authorization_id"); [in_list|in_list|done|..]; by apply match_token_ascii.
  - apply (Hs "authority_id"); [in_list|in_list|done|..]; by apply match_token_ascii.
  - apply (Hs "plan_digest"); [in_list|in_list|done|..]; by apply match_hex64_ascii.
  - rewrite <-(sorted_bindings_perm (pa2_authorized_executions p)), <-(sorted_bindings_perm (pa2_authorized_executions p')).
    assert (map binding_json (sorted_bindings (pa2_authorized_executions p)) =
            map binding_json (sorted_bindings (pa2_authorized_executions p'))) as E.
    { eapply (literal_agree_list binding_payload binding_json _ _ _ "authorized_executions" _ _ Hj Hj');
        [unfold plan_authorization_v2_body; do 4 apply list_elem_of_further; apply list_elem_of_here..|done|].
      rewrite Forall_forall in Hb, Hb'. intros b x Hin. apply binding_denoted.
      destruct Hin as [Hin|Hin]; rewrite sorted_bindings_perm in Hin; auto. }
    apply (list_fmap_eq_inj binding_json) in E; [by rewrite E|]. intros b b'. apply binding_json_inj.
  - apply isoformat_inj; [done|done|]. apply (Hs "issued_at"); [in_list|in_list|done|..]; apply isoformat_ascii.
  - apply isoformat_inj; [done|done|]. apply (Hs "expires_at"); [in_list|in_list|done|..]; apply isoformat_ascii.
  - apply level_value_inj, (Hs "risk_class"); [in_list|in_list|done|..]; apply level_value_ascii.
Qed.
End binding.

(** ** What the signed bytes of a version 1 authorization fix *)

Section binding_v1.
Context `{UnicodeData}.

(** A payload an artifact can carry. *)
Definition v1_ok (p : PlanAuthorizationPayload) : Prop :=
  (∃ proof, PlanAuthorization_post_init {| a1_payload := p; a1_proof := proof |} = Ok ()) ∧
  dt_valid (pa1_issued_at p) = true ∧ dt_valid (pa1_expires_at p) = true.

Lemma v1_facts p : v1_ok p →
  match_token (pa1_authorization_id p) = true ∧ match_token (pa1_authority_id p) = true ∧
  match_hex64 (pa1_plan_digest p) = true.
Proof.
  intros [[proof Hp] _]. unfold PlanAuthorization_post_init in Hp. rewrite require_bind in Hp.
  destruct Hp as (_ & ([] & (? & ? & _)%metadata_ok_inv & Hp)%bind_Ok). rewrite require_bind in Hp.
  by destruct Hp as [Hh _].
Qed.

Lemma sorted_strs_perm l : sorted_strs l ≡ₚ l.
Proof. unfold sorted_strs. rewrite sort_items_perm. induction l as [|s l IH]; [done|]. cbn. by rewrite IH. Qed.

(** What two payloads with the same signed bytes share; the step
    identifiers up to Unicode normalisation, and in some order. *)
Definition same_grant_v1 (p p' : PlanAuthorizationPayload) : Prop :=
  pa1_authorization_id p = pa1_authorization_id p' ∧ pa1_authority_id p = pa1_authority_id p' ∧
  pa1_plan_digest p = pa1_plan_digest p' ∧
  map nfc (pa1_authorized_step_ids p) ≡ₚ map nfc (pa1_authorized_step_ids p') ∧
  pa1_issued_at p = pa1_issued_at p' ∧ pa1_expires_at p = pa1_expires_at p' ∧
  pa1_risk_class p = pa1_risk_class p'.

Lemma v1_signing_inj p p' m :
  v1_ok p → v1_ok p' → plan_authorization_signing_payload p = Ok m →
  plan_authorization_signing_payload p' = Ok m → same_grant_v1 p p'.
Proof.
  intros Hp Hp' Hm Hm'. pose proof Hp as (_ & V1 & V2). pose proof Hp' as (_ & V1' & V2').
  destruct (v1_facts p Hp) as (T1 & T2 & T3), (v1_facts p' Hp') as (T1' & T2' & T3').
  destruct (canonical_json_form _ _ _ Hm Hm') as (j & Hj & Hj').
  assert (∀ k s s', (k, PStr s) ∈ plan_authorization_body p → (k, PStr s') ∈ plan_authorization_body p' →
    is_ascii (u k) = true → is_ascii s = true → is_ascii s' = true → s = s') as Hs
    by (intros k s s' ? ? ? ? ?; by eapply (literal_agree_str _ _ _ k _ _ Hj Hj')).
  unfold same_grant_v1. split_and!.
  - apply (Hs "authorization_id"); [in_list|in_list|done|..]; by apply match_token_ascii.
  - apply (Hs "authority_id"); [in_list|in_list|done|..]; by apply match_token_ascii.
  - apply (Hs "plan_digest"); [in_list|in_list|done|..]; by apply match_hex64_ascii.
  - rewrite <-(sorted_strs_perm (pa1_authorized_step_ids p)), <-(sorted_strs_perm (pa1_authorized_step_ids p')).
    assert (map (λ s, JStr (nfc s)) (sorted_strs (pa1_authorized_step_ids p)) =
            map (λ s, JStr (nfc s)) (sorted_strs (pa1_authorized_step_ids p'))) as E.
    { eapply (literal_agree_list PStr _ _ _ _ "authorized_step_ids" _ _ Hj Hj');
        [unfold plan_authorization_body; do 4 apply list_elem_of_further; apply list_elem_of_here..|done|].
      by intros s x _ ->%denote_str_nfc. }
    rewrite <-!(map_map nfc JStr) in E. apply (list_fmap_eq_inj JStr) in E; [by rewrite E|]. by intros ? ? [= ->].
  - apply isoformat_inj; [done|done|]. apply (Hs "issued_at"); [in_list|in_list|done|..]; apply isoformat_ascii.
  - apply isoformat_inj; [done|done|]. apply (Hs "expires_at"); [in_list|in_list|done|..]; apply isoformat_ascii.
  - apply level_value_inj, (Hs "risk_class"); [in_list|in_list|done|..]; apply level_value_ascii.
Qed.
End binding_v1.

(** ** The verifier's answers *)

Section verifier.
Context `{Hash} `{UnicodeData} `{Ed25519}.

Lemma compare_digest_str_true a b : compare_digest_str a b = Ok true → a = b ∧ is_ascii a = true.
Proof.
  unfold compare_digest_str. intros ([] & Ha%require_Ok & [= Hc%pystr_eqb_eq])%bind_Ok.
  apply andb_true_iff in Ha as [Ha _]. done.
Qed.

Lemma any_binding_true s i l : any_binding s i l = Ok true →
  {| sb_step_id := s; sb_execution_intent_digest := i |} ∈ l.
Proof.
  induction l as [|b l IH]; [done|]. cbn [any_binding]. destruct (pystr_eqb (sb_step_id b) s) eqn:Es; [|by right; auto].
  apply pystr_eqb_eq in Es. intros ([] & Hc & Hr)%bind_Ok; [|by right; auto].
  apply compare_digest_str_true in Hc as [Hi _]. rewrite <-Es, <-Hi. destruct b. left.
Qed.

Lemma any_binding_exact b l :
  Forall wf_binding l → wf_binding b →
  any_binding (sb_step_id b) (sb_execution_intent_digest b) l = Ok (bool_decide (b ∈ l)).
Proof.
  intros Hl Hb. apply wf_binding_ascii in Hb as [_ Hb]. induction l as [|b' l IH]; [by rewrite bool_decide_false by apply not_elem_of_nil|].
  apply Forall_cons in Hl as [Hb' Hl]. specialize (IH Hl). cbn [any_binding].
  destruct (pystr_eqb (sb_step_id b') _) eqn:Es.
  - apply pystr_eqb_eq in Es. unfold compare_digest_str.
    rewrite (proj2 (wf_binding_ascii _ Hb')), Hb. cbn [andb require mbind result_bind]. unfold compare_digest.
    destruct (pystr_eqb (sb_execution_intent_digest b') _) eqn:Ei.
    + apply pystr_eqb_eq in Ei. rewrite bool_decide_true; [done|]. destruct b, b'. cbn in *. subst. left.
    + rewrite IH. f_equal. apply bool_decide_ext. rewrite elem_of_cons. split; [tauto|]. intros [->|?]; [|done].
      by rewrite pystr_eqb_refl in Ei.
  - rewrite IH. f_equal. apply bool_decide_ext. rewrite elem_of_cons. split; [tauto|]. intros [->|?]; [|done].
    by rewrite pystr_eqb_refl in Es.
Qed.

Lemma verify_v2_inv a set : verify_plan_authorization_v2_signature a set = Ok true →
  PlanAuthorizationV2Payload_post_init (a2_fields a) = Ok () ∧
  ∃ m authority, plan_authorization_v2_signing_payload (a2_fields a) = Ok m ∧ authority ∈ set ∧
    pin_authority_id authority = pa2_authority_id (a2_fields a) ∧ pin_active authority = true ∧
    ed25519_verify (pin_public_key authority) (a2_proof a) m = true.
Proof.
  unfold verify_plan_authorization_v2_signature. destruct (negb _); [done|].
  intros (p & ([] & Hp & [= <-])%bind_Ok & (m & Hm & [= Hv])%bind_Ok)%bind_Ok. split; [done|].
  apply verify_signature_inv in Hv as (au & ? & ? & ? & ?). by exists m, au.
Qed.

Lemma verify_v1_inv a set : verify_plan_authorization_signature a set = Ok true →
  pa1_algorithm (a1_payload a) = AUTHORIZATION_SIGNING_ALGORITHM ∧
  ∃ m authority, plan_authorization_signing_payload (a1_payload a) = Ok m ∧ authority ∈ set ∧
    pin_authority_id authority = pa1_authority_id (a1_payload a) ∧ pin_active authority = true ∧
    ed25519_verify (pin_public_key authority) (a1_proof a) m = true.
Proof.
  unfold verify_plan_authorization_signature. destruct (pystr_eqb _ _) eqn:E; [|done]. cbn [negb].
  intros (m & Hm & [= Hv])%bind_Ok. split; [by apply pystr_eqb_eq|].
  apply verify_signature_inv in Hv as (au & ? & ? & ? & ?). by exists m, au.
Qed.

(** ** Properties *)

(** [C28] A verified authorization grants what an owner signed.  When the
    signature of a version 2 artifact verifies and it authorizes an
    execution, an active authority pinned under its name verified its
    signature over the signing payload of its own fields, and every payload
    with that signed text, not only this artifact's, has this identifier, this plan digest, this
    window and this risk class, and the same bindings in some order, among
    them the one asked for. *)
Theorem authorization_attested a set plan_digest step_id intent_digest :
  Forall wf_binding (pa2_authorized_executions (a2_fields a)) →
  dt_valid (pa2_issued_at (a2_fields a)) = true → dt_valid (pa2_expires_at (a2_fields a)) = true →
  verify_plan_authorization_v2_signature a set = Ok true →
  plan_authorization_v2_authorizes_execution a plan_digest step_id intent_digest = Ok true →
  ∃ authority m, authority ∈ set ∧ pin_active authority = true ∧
    pin_authority_id authority = pa2_authority_id (a2_fields a) ∧
    plan_authorization_v2_signing_payload (a2_fields a) = Ok m ∧
    ed25519_verify (pin_public_key authority) (a2_proof a) m = true ∧
    ∀ p, v2_ok p → plan_authorization_v2_signing_payload p = Ok m →
      same_grant p (a2_fields a) ∧ pa2_plan_digest p = plan_digest ∧
      {| sb_step_id := step_id; sb_execution_intent_digest := intent_digest |} ∈ pa2_authorized_executions p.
Proof.
  intros Hb V1 V2 (Hp & m & au & Hm & Hin & Hid & Hact & Hv)%verify_v2_inv He.
  exists au, m. split_and!; [done..|]. intros p Hok Hm'.
  assert (same_grant p (a2_fields a)) as Hg
    by exact (v2_signing_inj p (a2_fields a) m Hok (conj Hp (conj Hb (conj V1 V2))) Hm' Hm).
  unfold plan_authorization_v2_authorizes_execution in He.
  apply bind_Ok in He as (b & Hd & He). destruct b; [|done]. cbn [negb] in He.
  apply compare_digest_str_true in Hd as [Hd _].
  apply any_binding_true in He. pose proof Hg as (_ & _ & Ed & Ex & _). split_and!; [done|congruence|].
  by rewrite Ex.
Qed.

(** A signature serves one purpose.  The text signed for a sealed write
    approval, a version 1 or version 2 plan authorization or a
    deprovisioning authorization is signed for none of the others, whatever
    the payloads hold, even under one key. *)
Theorem authorization_domains_disjoint k k' m : signed_for k m → signed_for k' m → k = k'.
Proof.
  intros (l & Hl & Hin)%signed_tagged (l' & Hl' & Hin')%signed_tagged. apply purpose_tag_inj.
  destruct (canonical_json_form _ _ _ Hl Hl') as (j & Hj & Hj').
  exact (literal_agree_str _ _ _ _ _ _ Hj Hj' Hin Hin' eq_refl (purpose_tag_ascii k) (purpose_tag_ascii k')).
Qed.

Lemma build_v2_inv plan bindings i au t1 t2 al sv p :
  build_plan_authorization_v2_payload plan bindings i au t1 t2 al sv = Ok p →
  pa2_authorized_executions p = bindings ∧ pa2_authority_id p = au ∧
  compute_plan_digest plan = Ok (pa2_plan_digest p) ∧ PlanAuthorizationV2Payload_post_init p = Ok () ∧
  pa2_issued_at p = t1 ∧ pa2_expires_at p = t2 ∧
  ∃ l ls, Forall2 (selected (pl_steps plan)) (map sb_step_id bindings) (l :: ls) ∧ pa2_risk_class p = max_level l ls.
Proof.
  unfold build_plan_authorization_v2_payload. intros Hb. rewrite !require_bind in Hb.
  destruct Hb as (Hne & _ & (ls & Hls & ([] & _ & (d & Hd & (f & _ & ([] & Hpi & [= <-])%bind_Ok)%bind_Ok)%bind_Ok)%bind_Ok)%bind_Ok).
  apply select_levels_inv in Hls. split_and!; [done..|]. destruct ls as [|l ls].
  - apply Forall2_nil_inv_r in Hls. by destruct bindings.
  - by exists l, ls.
Qed.

(** The builder asks for no less than the plan does.  A version 2
    payload built from a plan names that plan's digest and exactly the
    bindings given; every bound step is a step of the plan that an
    authorization can cover; and the risk class signed is at least the
    level each of them requires and is the level of one of them. *)
Theorem built_authorization_covers plan bindings i au t1 t2 al sv p :
  build_plan_authorization_v2_payload plan bindings i au t1 t2 al sv = Ok p →
  compute_plan_digest plan = Ok (pa2_plan_digest p) ∧ pa2_authorized_executions p = bindings ∧
  (∀ b, b ∈ bindings → ∃ s, s ∈ pl_steps plan ∧ st_step_id s = sb_step_id b ∧
     NEVER_PLAN_AUTHORIZATION_LEVELS (st_authorization_required s) = false ∧
     authorization_level_at_least (pa2_risk_class p) (st_authorization_required s) = true) ∧
  ∃ s, s ∈ pl_steps plan ∧ st_step_id s ∈ map sb_step_id bindings ∧
    st_authorization_required s = pa2_risk_class p.
Proof.
  intros (Hb & _ & Hd & Hpi & _ & _ & l & ls & Hf & Hr)%build_v2_inv. split_and!; [done|done| |].
  - intros b Hin. apply list_elem_of_lookup_1 in Hin as [n Hn].
    assert (map sb_step_id bindings !! n = Some (sb_step_id b)) as Hn' by (by rewrite list_lookup_fmap, Hn).
    destruct (Forall2_lookup_l _ _ _ _ _ Hf Hn') as (x & Hx & Hrk & s & Hs & Hid & Hl). exists s.
    split_and!; [done|done|by rewrite Hl, never_ranked, Hrk|].
    rewrite Hl, Hr, at_least_ranked; [|by rewrite <-Hr; apply v2_facts|done].
    apply Nat.leb_le, max_level_spec. by eapply list_elem_of_lookup_2.
  - destruct (max_level_spec ls l) as [Hin _]. apply list_elem_of_lookup_1 in Hin as [n Hn].
    destruct (Forall2_lookup_r _ _ _ _ _ Hf Hn) as (id & Hid & _ & s & Hs & Es & Hl). exists s.
    split_and!; [done|rewrite Es; by eapply list_elem_of_lookup_2|congruence].
Qed.

(** An authorization that is built and signed is accepted.  When the
    builder returns a payload for well-formed bindings, signing it returns an artifact for every
    key whose signatures have 64 bytes and verify, unless the canonical
    text refuses the fingerprint; a server that pins that key as active
    verifies its signature, and it authorizes exactly the bindings it was
    built for. *)
Theorem authorization_round_trip plan bindings i au t1 t2 al sv p m key (sign : bytes → bytes) set :
  build_plan_authorization_v2_payload plan bindings i au t1 t2 al sv = Ok p → Forall wf_binding bindings →
  plan_authorization_v2_signing_payload p = Ok m →
  length (sign m) = ED25519_SIGNATURE_BYTES → ed25519_verify key (sign m) m = true →
  find (λ a, pystr_eqb (pin_authority_id a) au) set =
    Some {| pin_authority_id := au; pin_public_key := key; pin_active := true |} →
  ∃ a, sign_plan_authorization_v2 sign p = Ok a ∧ verify_plan_authorization_v2_signature a set = Ok true ∧
    ∀ b, wf_binding b →
      plan_authorization_v2_authorizes_execution a (pa2_plan_digest p) (sb_step_id b) (sb_execution_intent_digest b)
        = Ok (bool_decide (b ∈ bindings)).
Proof.
  intros (Eb & Ea & _ & Hpi & _)%build_v2_inv Hw Hm Hlen Hsig Hset.
  set (a := {| a2_fields := p; a2_proof := sign m |}). exists a.
  pose proof (v2_facts p Hpi) as (_ & _ & _ & Hal & Hh & _).
  assert (plan_authorization_v2_payload_of a = Ok p) as Hof
    by (unfold plan_authorization_v2_payload_of; cbn [a2_fields a]; by rewrite Hpi).
  split_and!.
  - unfold sign_plan_authorization_v2. rewrite Hm. cbn [mbind result_bind]. fold a.
    assert (PlanAuthorizationV2_post_init a = Ok ()) as ->; [|done].
    by apply post_init_with_proof.
  - unfold verify_plan_authorization_v2_signature. rewrite Hof. cbn [a2_fields a]. rewrite Hal, pystr_eqb_refl.
    cbn [negb mbind result_bind]. rewrite Hm. cbn [mbind result_bind]. unfold verify_signature.
    rewrite Ea, Hset. cbn [pin_active negb pin_public_key a a2_proof]. by rewrite Hsig.
  - intros b Hb. unfold plan_authorization_v2_authorizes_execution. cbn [a2_fields a].
    unfold compare_digest_str at 1. rewrite (match_hex64_ascii _ Hh). cbn [andb require mbind result_bind].
    unfold compare_digest. rewrite pystr_eqb_refl. cbn [negb mbind result_bind]. rewrite Eb. by apply any_binding_exact.
Qed.
End verifier.

(** ** A concrete authorization *)

#[local] Existing Instances Sample.hash Sample.unicode.

Module SampleAuthorization.
Definition binding : PlanAuthorizationStepBinding :=
  {| sb_step_id := ALIAS_DESCRIPTION_WRITE_STEP_ID; sb_execution_intent_digest := Sample.intent_digest |}.
Definition built : result PlanAuthorizationV2Payload :=
  build_plan_authorization_v2_payload SamplePlan.write_plan [binding] (u "authz-1") (u "owner")
    (Sample.day 1 3) (Sample.day 1 20) AUTHORIZATION_SIGNING_ALGORITHM 2.
Definition absent : PlanAuthorizationV2Payload := {|
  pa2_schema_version := 0; pa2_authorization_id := []; pa2_plan_digest := []; pa2_authorized_executions := [];
  pa2_authority_id := []; pa2_algorithm := []; pa2_issued_at := Sample.day 1 3; pa2_expires_at := Sample.day 1 3;
  pa2_risk_class := NONE_REQUIRED; pa2_evidence_fingerprint := {|
    ef_capability_posture_value := []; ef_anchor_assurance_value := []; ef_anchor_evidence_state := [];
    ef_anchor_baseline := None; ef_anchor_witness_value := None; ef_anchor_provisioned_at := None |} |}.
Definition payload : PlanAuthorizationV2Payload := Eval vm_compute in
  match built with Ok p => p | Raise _ => absent end.
Definition message : bytes := Eval vm_compute in
  SampleEvidence.bytes_of (plan_authorization_v2_signing_payload payload).
Definition artifact : PlanAuthorizationV2 := Eval vm_compute in
  {| a2_fields := payload; a2_proof := SampleApproval.signature message |}.
Definition authorities : list PinnedAuthority :=
  [{| pin_authority_id := u "owner"; pin_public_key := SampleEvidence.key; pin_active := true |}].

Lemma built_ok : built = Ok payload.
Proof. vm_compute. reflexivity. Qed.
Lemma message_ok : plan_authorization_v2_signing_payload payload = Ok message.
Proof. vm_compute. reflexivity. Qed.
Lemma bindings_ok : Forall wf_binding (pa2_authorized_executions payload).
Proof. repeat constructor. Qed.
Lemma verified : @verify_plan_authorization_v2_signature Sample.unicode SampleApproval.ed25519 artifact authorities = Ok true.
Proof. vm_compute. reflexivity. Qed.
Lemma authorizes : plan_authorization_v2_authorizes_execution artifact SamplePlan.digest
  ALIAS_DESCRIPTION_WRITE_STEP_ID Sample.intent_digest = Ok true.
Proof. vm_compute. reflexivity. Qed.
Lemma signature_ok : @ed25519_verify SampleApproval.ed25519 SampleEvidence.key (SampleApproval.signature message) message = true.
Proof. vm_compute. reflexivity. Qed.
Lemma signature_length : length (SampleApproval.signature message) = ED25519_SIGNATURE_BYTES.
Proof. vm_compute. reflexivity. Qed.
End SampleAuthorization.

Lemma authorization_attested_witness :
  ∃ authority m, authority ∈ SampleAuthorization.authorities ∧
    @ed25519_verify SampleApproval.ed25519 (pin_public_key authority) (a2_proof SampleAuthorization.artifact) m = true.
Proof.
  destruct (@authorization_attested Sample.unicode SampleApproval.ed25519 SampleAuthorization.artifact
    SampleAuthorization.authorities SamplePlan.digest ALIAS_DESCRIPTION_WRITE_STEP_ID Sample.intent_digest
    SampleAuthorization.bindings_ok eq_refl eq_refl SampleAuthorization.verified SampleAuthorization.authorizes)
    as (au & m & Hin & _ & _ & _ & Hv & _).
  exact (ex_intro _ au (ex_intro _ m (conj Hin Hv))).
Defined.

Lemma authorization_domains_disjoint_witness : ¬ signed_for Deprovision SampleAuthorization.message.
Proof.
  intros Hd. pose proof (@authorization_domains_disjoint Sample.unicode PlanV2 Deprovision SampleAuthorization.message
    (signed_v2 _ _ SampleAuthorization.message_ok) Hd) as E. discriminate E.
Defined.

Lemma built_authorization_covers_witness :
  ∃ s, s ∈ pl_steps SamplePlan.write_plan ∧
    st_step_id s ∈ map sb_step_id [SampleAuthorization.binding] ∧
    st_authorization_required s = pa2_risk_class SampleAuthorization.payload.
Proof.
  exact (proj2 (proj2 (proj2 (@built_authorization_covers Sample.hash Sample.unicode SamplePlan.write_plan
    [SampleAuthorization.binding] (u "authz-1") (u "owner") (Sample.day 1 3) (Sample.day 1 20)
    AUTHORIZATION_SIGNING_ALGORITHM 2 SampleAuthorization.payload SampleAuthorization.built_ok)))).
Defined.

Lemma authorization_round_trip_witness :
  ∃ a, sign_plan_authorization_v2 SampleApproval.signature SampleAuthorization.payload = Ok a ∧
    @verify_plan_authorization_v2_signature Sample.unicode SampleApproval.ed25519 a SampleAuthorization.authorities = Ok true.
Proof.
  destruct (@authorization_round_trip Sample.hash Sample.unicode SampleApproval.ed25519 SamplePlan.write_plan
    [SampleAuthorization.binding] (u "authz-1") (u "owner") (Sample.day 1 3) (Sample.day 1 20)
    AUTHORIZATION_SIGNING_ALGORITHM 2 SampleAuthorization.payload SampleAuthorization.message SampleEvidence.key
    SampleApproval.signature SampleAuthorization.authorities SampleAuthorization.built_ok
    SampleAuthorization.bindings_ok SampleAuthorization.message_ok SampleAuthorization.signature_length
    SampleAuthorization.signature_ok eq_refl) as (a & Hs & Hv & _).
  exact (ex_intro _ a (conj Hs Hv)).
Defined.
