(* ===== verification/Consumption.v ===== *)
(** * One-time consumption of authorizations

    [tier1/authorization_consumption_store.py]: the interface
    [AuthorizationConsumptionStore], as a class with its laws, and the SQLite
    store that implements it.  A statement is a step of the environment that
    may fail, followed by its effect on the tables; between the two
    connections of a call other processes run the same code. *)

From S2P Require Import Prelude PyStr Sha256 PyDatetime Json Canonical Contract StoreCodec StoreInv.

(** ** The interface *)

(** What a store of consumed identifiers promises its callers: [True] is
    returned for an identifier at most once, ever. *)
Class ConsumptionStore (W : Type) : Type := {
  consume : pystr → prog W bool;
  consumed : W → pystr → Prop;
  consume_fresh id w w' : consume id w = (Ok true, w') → ¬ consumed w id ∧ consumed w' id;
  consume_keeps id w r w' x : consume id w = (r, w') → consumed w x → consumed w' x;
}.

(** ** The tables *)

(** [consumed_authorizations] and [metadata], with the environment. *)
Record Ledger (E : Type) : Type := mkLedger {
  l_rows : gmap pystr (pystr * pystr);     (* authorization_id → consumed_at, mac *)
  l_metadata : gmap pystr pystr;
  l_env : E;
}.
Arguments mkLedger {_} _ _ _.
Arguments l_rows {_} _.
Arguments l_metadata {_} _.
Arguments l_env {_} _.

Inductive statement : Type :=
  | CREATE_TABLES | SELECT_METADATA | SELECT_EXISTS | INSERT_METADATA (key : pystr)
  | BEGIN_IMMEDIATE | INSERT_ROW | COMMIT | SELECT_ROW.

(** [sqlite3.DatabaseError] and its subclasses. *)
Definition is_DatabaseError (e : exn) : bool :=
  bool_decide (e = SqliteIntegrityError) || bool_decide (e = SqliteOperationalError).

Record ConsumptionConfig (E : Type) : Type := mkConsumptionConfig {
  cc_integrity_key : bytes;
  cc_store_id : pystr;
  cc_clock : prog E datetime;
  cc_prepare_path : prog E ();             (* [_prepare_path] *)
  cc_chmod : prog E ();
  cc_open : prog E ();                     (* connecting, with its two pragmas *)
  cc_schema_matches : prog E bool;         (* what [PRAGMA table_info] shows *)
  cc_sql : statement → prog E ();          (* whether a statement fails *)
  cc_others : gmap pystr (pystr * pystr) → gmap pystr (pystr * pystr);
}.
Arguments cc_integrity_key {_} _.
Arguments cc_store_id {_} _.
Arguments cc_clock {_} _.
Arguments cc_prepare_path {_} _.
Arguments cc_chmod {_} _.
Arguments cc_open {_} _.
Arguments cc_schema_matches {_} _.
Arguments cc_sql {_} _ _.
Arguments cc_others {_} _ _.

Section store.
Context `{Hash} {E : Type} (cfg : ConsumptionConfig E).

Definition on_env {A} (m : prog E A) : prog (Ledger E) A := λ l,
  let '(r, e) := m (l_env l) in (r, mkLedger (l_rows l) (l_metadata l) e).

Definition set_rows (rows : gmap pystr (pystr * pystr)) : prog (Ledger E) () := λ l,
  (Ok (), mkLedger rows (l_metadata l) (l_env l)).

Definition set_metadata (key value : pystr) : prog (Ledger E) () := λ l,
  (Ok (), mkLedger (l_rows l) (<[key := value]> (l_metadata l)) (l_env l)).

Definition sql (s : statement) : prog (Ledger E) () := on_env (cc_sql cfg s).

(** [_now] *)
Definition consumption_now : prog (Ledger E) datetime :=
  instant ← on_env (cc_clock cfg);
  if is_utc instant then mret instant else raise AuthorizationConsumptionError.

(** [_connect] *)
Definition connect : prog (Ledger E) () :=
  catch (on_env (cc_open cfg))
    (λ e, raise (if is_DatabaseError e then AuthorizationConsumptionError else e)).

(** [_mac] *)
Definition consumption_mac (components : list bytes) : result pystr :=
  framed ← mac_message (cc_store_id cfg) components;
  Ok (hmac_hex (cc_integrity_key cfg) framed).

Definition row_mac (authorization_id consumed_at : pystr) : result pystr :=
  a ← frame_str authorization_id;
  b ← frame_str consumed_at;
  consumption_mac [ascii_bytes (u "consumed-authorization"); a ++ b].

(** ** Opening the store *)

Definition expected_metadata : gmap pystr pystr :=
  <[u "schema_version" := u "1"]> (<[u "store_id" := cc_store_id cfg]> ∅).

(** One row of [executemany]: the connection is in autocommit mode, so each
    row is committed by itself. *)
Definition insert_metadata (key value : pystr) : prog (Ledger E) () :=
  _ ← sql (INSERT_METADATA key);
  set_metadata key value.

(** [_initialize_schema] with [_verify_schema] *)
Definition initialize_schema : prog (Ledger E) () :=
  _ ← connect;
  _ ← sql CREATE_TABLES;
  schema_matches ← on_env (cc_schema_matches cfg);
  if negb schema_matches then raise AuthorizationConsumptionError else
  _ ← sql SELECT_METADATA;
  l ← get_world;
  let existing := l_metadata l in
  if negb (bool_decide (existing = ∅)) && negb (bool_decide (existing = expected_metadata))
  then raise AuthorizationConsumptionError else
  _ ← (if negb (bool_decide (existing = ∅)) then mret () else
       _ ← sql SELECT_EXISTS;
       if negb (bool_decide (l_rows l = ∅)) then raise AuthorizationConsumptionError else
       _ ← insert_metadata (u "schema_version") (u "1");
       insert_metadata (u "store_id") (cc_store_id cfg));
  on_env (cc_chmod cfg).

(** [__init__] *)
Definition SqliteAuthorizationConsumptionStore_init : prog (Ledger E) () :=
  if (length (cc_integrity_key cfg) <? 32)%nat then raise AuthorizationConsumptionError else
  if negb (match_token (cc_store_id cfg)) then raise AuthorizationConsumptionError else
  _ ← on_env (cc_prepare_path cfg);
  initialize_schema.

(** ** Consuming *)

(** [INSERT INTO consumed_authorizations ...] *)
Definition insert_row (authorization_id consumed_at mac : pystr) : prog (Ledger E) () :=
  _ ← sql INSERT_ROW;
  l ← get_world;
  match l_rows l !! authorization_id with
  | Some _ => raise SqliteIntegrityError
  | None => set_rows (<[authorization_id := (consumed_at, mac)]> (l_rows l))
  end.

(** The first [with] block: one transaction, rolled back by every
    exception; an [IntegrityError] goes on to the second block. *)
Definition record_consumption (authorization_id consumed_at mac : pystr) : prog (Ledger E) bool :=
  _ ← connect;
  before ← get_world;
  catch (_ ← sql BEGIN_IMMEDIATE;
         _ ← insert_row authorization_id consumed_at mac;
         _ ← sql COMMIT;
         mret true)
        (λ e, _ ← set_rows (l_rows before);
              if bool_decide (e = SqliteIntegrityError) then mret false else raise e).

(** The second block: the row already there is verified before a replay is
    reported. *)
Definition verify_replay (authorization_id : pystr) : prog (Ledger E) bool :=
  _ ← connect;
  _ ← sql SELECT_ROW;
  l ← get_world;
  match l_rows l !! authorization_id with
  | None => raise AuthorizationConsumptionError
  | Some (stored_consumed_at, stored_mac) =>
    expected_mac ← lift (row_mac authorization_id stored_consumed_at);
    matches ← lift (compare_digest_str stored_mac expected_mac);
    if negb matches then raise AuthorizationConsumptionError else mret false
  end.

(** Other processes run between the two connections. *)
Definition others_run : prog (Ledger E) () := λ l,
  (Ok (), mkLedger (cc_others cfg (l_rows l)) (l_metadata l) (l_env l)).

Definition try_consume (authorization_id : pystr) : prog (Ledger E) bool :=
  if negb (match_token authorization_id) then raise AuthorizationConsumptionError else
  instant ← consumption_now;
  let consumed_at := isoformat instant in
  mac ← lift (row_mac authorization_id consumed_at);
  inserted ← record_consumption authorization_id consumed_at mac;
  if inserted : bool then mret true else
  _ ← others_run;
  verify_replay authorization_id.
End store.
