(* ===== verification/ConsumptionProps.v ===== *)
(** * An authorization is consumed once

    Over any interleaving of the transactions of any number of processes,
    with statements that fail and processes that stop. *)

From S2P Require Import Prelude PyStr Sha256 PyDatetime Json Canonical Contract StoreCodec StoreInv Consumption.

Section facts.
Context `{Hash} {E : Type} (cfg : ConsumptionConfig E).
Implicit Types (l : Ledger E).

(** A program that leaves the rows [R]. *)
Definition with_rows (R : gmap pystr (pystr * pystr)) l : Prop := l_rows l = R.

Lemma preserves_on_env {A} R (m : prog E A) : preserves (with_rows R) (on_env m).
Proof. intros l Hl. unfold on_env. by destruct (m (l_env l)). Qed.

Lemma preserves_connect R : preserves (with_rows R) (connect cfg).
Proof. apply preserves_catch; [apply preserves_on_env|]. intros e. apply preserves_raise. Qed.

Lemma preserves_sql R s : preserves (with_rows R) (sql cfg s).
Proof. apply preserves_on_env. Qed.

Lemma preserves_set_metadata R k v : preserves (with_rows R) (set_metadata (E:=E) k v).
Proof. by intros l Hl. Qed.

Lemma preserves_if {A} R (b : bool) (m n : prog (Ledger E) A) :
  preserves (with_rows R) m → preserves (with_rows R) n → preserves (with_rows R) (if b then m else n).
Proof. by destruct b. Qed.

Hint Resolve preserves_on_env preserves_connect preserves_sql preserves_set_metadata preserves_if : tier1.

Lemma preserves_initialize R : preserves (with_rows R) (initialize_schema cfg).
Proof. unfold initialize_schema, insert_metadata. eauto 30 with tier1. Qed.

Lemma preserves_init R : preserves (with_rows R) (SqliteAuthorizationConsumptionStore_init cfg).
Proof.
  unfold SqliteAuthorizationConsumptionStore_init. pose proof (preserves_initialize R). eauto 10 with tier1.
Qed.

Lemma preserves_now R : preserves (with_rows R) (consumption_now cfg).
Proof. unfold consumption_now. eauto with tier1. Qed.

Lemma preserves_verify_replay R id : preserves (with_rows R) (verify_replay cfg id).
Proof.
  unfold verify_replay. apply preserves_bind; [eauto with tier1|intros _].
  apply preserves_bind; [eauto with tier1|intros _]. apply preserves_bind; [eauto with tier1|intros l].
  destruct (l_rows l !! id) as [[a m]|]; eauto 10 with tier1.
Qed.

(** The rows after a step that keeps them. *)
Lemma kept_rows {A} (p : prog (Ledger E) A) l r l' :
  (∀ R, preserves (with_rows R) p) → p l = (r, l') → l_rows l' = l_rows l.
Proof. intros Hp Hr. pose proof (Hp (l_rows l) l eq_refl) as Hk. unfold preserves, triple in *. by rewrite Hr in Hk. Qed.

Lemma insert_row_inv id a m l r l' : insert_row cfg id a m l = (r, l') →
  (r = Ok () ∧ l_rows l !! id = None ∧ l_rows l' = <[id := (a, m)]> (l_rows l)) ∨ (∃ e, r = Raise e).
Proof.
  unfold insert_row, mbind, prog_bind. destruct (sql cfg INSERT_ROW l) as [[[]|e] l1] eqn:Hs; [|by intros [= <- <-]; eauto].
  apply (kept_rows _ _ _ _ (λ R, preserves_sql R INSERT_ROW)) in Hs. cbn [get_world]. rewrite Hs.
  destruct (l_rows l !! id) as [x|] eqn:Hl; [by intros [= <- <-]; eauto|]. intros [= <- <-]. by left.
Qed.

(** The transaction: either it inserted a new row and returned [True], or
    it left the table as it was. *)
Lemma record_consumption_inv id a m l r l' : record_consumption cfg id a m l = (r, l') →
  (r = Ok true ∧ l_rows l !! id = None ∧ l_rows l' = <[id := (a, m)]> (l_rows l)) ∨
  (r ≠ Ok true ∧ l_rows l' = l_rows l).
Proof.
  unfold record_consumption. unfold mbind at 1, prog_bind at 1.
  destruct (connect cfg l) as [[[]|e] l1] eqn:Hc; apply (kept_rows _ _ _ _ preserves_connect) in Hc;
    [|by intros [= <- <-]; right].
  unfold mbind at 1, prog_bind at 1. cbn [get_world]. unfold catch.
  destruct ((_ ← sql cfg BEGIN_IMMEDIATE; _ ← insert_row cfg id a m; _ ← sql cfg COMMIT; mret true) l1)
    as [[b|e] l2] eqn:Ht.
  - intros [= <- <-]. left.
    apply bind_inv in Ht as ([] & l3 & Hs & Ht). apply (kept_rows _ _ _ _ (λ R, preserves_sql R _)) in Hs.
    apply bind_inv in Ht as ([] & l4 & Hi & Ht). apply insert_row_inv in Hi as [(_ & Hn & Hi)|[? ?]]; [|done].
    apply bind_inv in Ht as ([] & l5 & Hs' & Ht). apply (kept_rows _ _ _ _ (λ R, preserves_sql R _)) in Hs'.
    injection Ht as <- <-. rewrite Hs', Hi, Hs, Hc. split_and!; [done|congruence|done].
  - unfold mbind, prog_bind, set_rows. cbn [l_rows l_metadata l_env].
    destruct (bool_decide (e = SqliteIntegrityError)); intros [= <- <-]; right; by split.
Qed.

Lemma verify_replay_inv id l l' b : verify_replay cfg id l = (Ok b, l') →
  b = false ∧ l_rows l' = l_rows l ∧
  ∃ a m, l_rows l !! id = Some (a, m) ∧ row_mac cfg id a = Ok m.
Proof.
  intros Hv. pose proof (kept_rows _ _ _ _ (λ R, preserves_verify_replay R id) Hv) as Hk. unfold verify_replay in Hv.
  apply bind_inv in Hv as ([] & l1 & Hc & Hv). apply (kept_rows _ _ _ _ preserves_connect) in Hc.
  apply bind_inv in Hv as ([] & l2 & Hs & Hv). apply (kept_rows _ _ _ _ (λ R, preserves_sql R _)) in Hs.
  apply bind_inv in Hv as (l3 & l4 & [= -> ->] & Hv). rewrite Hs, Hc in Hv.
  destruct (l_rows l !! id) as [[a m]|]; [|done].
  apply bind_inv in Hv as (x & l5 & [Hx ->]%lift_inv & Hv).
  apply bind_inv in Hv as (y & l5 & [Hy ->]%lift_inv & Hv). destruct y; [|done]. injection Hv as <- <-.
  unfold compare_digest_str in Hy. apply bind_Ok in Hy as ([] & _ & [= Hy%pystr_eqb_eq]). subst x.
  split_and!; [done|done|]. by exists a, m.
Qed.

(** What a call does to the table. *)
Lemma try_consume_inv id l r l' : try_consume cfg id l = (r, l') →
  (r = Ok true ∧ l_rows l !! id = None ∧ match_token id = true ∧
   ∃ a m, row_mac cfg id a = Ok m ∧ l_rows l' = <[id := (a, m)]> (l_rows l)) ∨
  (r = Ok false ∧ l_rows l' = cc_others cfg (l_rows l) ∧
   ∃ a m, l_rows l' !! id = Some (a, m) ∧ row_mac cfg id a = Ok m) ∨
  (∃ e, r = Raise e ∧ (l_rows l' = l_rows l ∨ l_rows l' = cc_others cfg (l_rows l))).
Proof.
  unfold try_consume. destruct (match_token id) eqn:Hid; [|intros [= <- <-]; right; right; by eauto]. cbn [negb].
  unfold mbind at 1, prog_bind at 1. destruct (consumption_now cfg l) as [[t|e] l1] eqn:Hn;
    apply (kept_rows _ _ _ _ preserves_now) in Hn; [|intros [= <- <-]; right; right; by eauto].
  unfold mbind at 1, prog_bind at 1, lift at 1.
  destruct (row_mac cfg id (isoformat t)) as [m|e] eqn:Hm; [|intros [= <- <-]; right; right; by eauto].
  unfold mbind at 1, prog_bind at 1.
  destruct (record_consumption cfg id (isoformat t) m l1) as [[b|e] l2] eqn:Hr;
    apply record_consumption_inv in Hr as [(Hb & Hnone & Hr)|(Hb & Hr)]; try done.
  - injection Hb as ->. intros [= <- <-]. left. rewrite Hr, <-Hn. split_and!; [done..|]. by eauto.
  - destruct b; [done|]. unfold mbind, prog_bind, others_run.
    destruct (verify_replay cfg id _) as [[b|e] l3] eqn:Hv.
    + apply verify_replay_inv in Hv as (-> & Hk & a & m' & Hrow & Hmac). cbn [l_rows] in Hk, Hrow.
      intros [= <- <-]. right; left. rewrite Hr, Hn in Hk, Hrow. rewrite Hk. split_and!; [done..|]. by eauto.
    + apply (kept_rows _ _ _ _ (λ R, preserves_verify_replay R id)) in Hv. cbn [l_rows] in Hv.
      intros [= <- <-]. right; right. exists e. split; [done|]. right. by rewrite Hv, Hr, Hn.
  - intros [= <- <-]. right; right. exists e. split; [done|]. left. by rewrite Hr.
Qed.
End facts.

(** ** The laws of the interface *)

Section laws.
Context `{Hash} {E : Type} (cfg : ConsumptionConfig E).
Implicit Types (l : Ledger E).

(** Other processes run this code: they add rows and remove none. *)
Context (Hothers : ∀ rows, rows ⊆ cc_others cfg rows).

Definition row_exists l (id : pystr) : Prop := is_Some (l_rows l !! id).

Lemma try_consume_fresh id l l' :
  try_consume cfg id l = (Ok true, l') → ¬ row_exists l id ∧ row_exists l' id.
Proof.
  intros [(_ & Hn & _ & a & m & _ & Hr)|[(? & _)|(? & ? & _)]]%try_consume_inv; [|done..]. unfold row_exists.
  rewrite Hr, Hn, lookup_insert_eq. split; [by intros [? ?]|by eexists].
Qed.

Lemma try_consume_keeps id l r l' x : try_consume cfg id l = (r, l') → row_exists l x → row_exists l' x.
Proof.
  unfold row_exists. intros Ht [v Hv].
  assert (is_Some (cc_others cfg (l_rows l) !! x)) as Ho by (exists v; by eapply lookup_weaken).
  destruct (try_consume_inv _ _ _ _ _ Ht) as [(_ & Hn & _ & a & m & _ & Hr)|[(_ & Hr & _)|(e & _ & [Hr|Hr])]];
    rewrite Hr; eauto.
  destruct (decide (x = id)) as [->|]; [by rewrite lookup_insert_eq; eauto|].
  rewrite lookup_insert_ne by done. by eexists.
Qed.

Definition sqlite_consumption : ConsumptionStore (Ledger E) := {|
  consume := try_consume cfg; consumed := row_exists;
  consume_fresh := try_consume_fresh; consume_keeps := try_consume_keeps |}.
End laws.

(** ** Many processes *)

Section interleaving.
Context `{Hash} {E : Type} (cfg : ConsumptionConfig E).
Implicit Types (l : Ledger E) (ids : list pystr).

(** One transaction of some process, with the identifier for which that
    process goes on to return [True], if it does.  A call is a
    [step_record], followed by a [step_verify] when it returned [False]; a
    process may stop after any of them.  The rest of the world moves
    freely. *)
Inductive ledger_step : Ledger E → list pystr → Ledger E → Prop :=
  | step_record id a m l b l' :
    record_consumption cfg id a m l = (Ok b, l') → ledger_step l (if b : bool then [id] else []) l'
  | step_record_raises id a m l e l' : record_consumption cfg id a m l = (Raise e, l') → ledger_step l [] l'
  | step_verify id l r l' : verify_replay cfg id l = (r, l') → ledger_step l [] l'
  | step_open l r l' : SqliteAuthorizationConsumptionStore_init cfg l = (r, l') → ledger_step l [] l'
  | step_env l e : ledger_step l [] (mkLedger (l_rows l) (l_metadata l) e).

Inductive ledger_history : Ledger E → list pystr → Ledger E → Prop :=
  | ledger_nil l : ledger_history l [] l
  | ledger_snoc l ids l1 new l2 :
    ledger_history l ids l1 → ledger_step l1 new l2 → ledger_history l (ids ++ new) l2.

Lemma ledger_step_rows l new l' : ledger_step l new l' →
  l_rows l ⊆ l_rows l' ∧ (new = [] ∨ ∃ id, new = [id] ∧ l_rows l !! id = None ∧ is_Some (l_rows l' !! id)).
Proof.
  destruct 1 as [id a m l b l' Hr|id a m l e l' Hr|id l r l' Hr|l r l' Hr|l e].
  - apply record_consumption_inv in Hr as [([= ->] & Hn & Hr)|(Hb & Hr)]; rewrite Hr.
    + split; [by apply insert_subseteq|]. right. exists id. by rewrite lookup_insert_eq.
    + destruct b; [done|]. by split; [|left].
  - apply record_consumption_inv in Hr as [(? & _)|(_ & Hr)]; [done|]. rewrite Hr. by split; [|left].
  - apply (kept_rows _ _ _ _ (λ R, preserves_verify_replay cfg R id)) in Hr. rewrite Hr. by split; [|left].
  - apply (kept_rows _ _ _ _ (preserves_init cfg)) in Hr. rewrite Hr. by split; [|left].
  - by split; [|left].
Qed.

(** [C29] An authorization is consumed at most once, by anybody.  Over any
    interleaving of the transactions of any number of processes on one
    database, with statements failing and processes stopping anywhere, no
    identifier is granted twice; an identifier recorded before is never
    granted, and one that is granted stays recorded. *)
Theorem consumed_once l ids l' : ledger_history l ids l' →
  NoDup ids ∧ (∀ id, id ∈ ids → l_rows l !! id = None ∧ is_Some (l_rows l' !! id)) ∧ l_rows l ⊆ l_rows l'.
Proof.
  induction 1 as [l|l ids l1 new l2 _ (IHn & IHi & IHs) [Hsub Hnew]%ledger_step_rows].
  { split_and!; [constructor|by intros ? ?%elem_of_nil|done]. }
  assert (∀ id, is_Some (l_rows l1 !! id) → is_Some (l_rows l2 !! id)) as Hmono
    by (intros id [v Hv]; exists v; by eapply lookup_weaken).
  split_and!; [| |by etrans].
  - destruct Hnew as [->|(id & -> & Hn & _)]; [by rewrite app_nil_r|]. apply NoDup_app. split_and!; [done| |apply NoDup_singleton].
    intros x Hx ->%list_elem_of_singleton. destruct (IHi id Hx) as [_ [v Hv]]. congruence.
  - intros id [Hi|Hi]%elem_of_app; [destruct (IHi id Hi); auto|].
    destruct Hnew as [->|(id' & -> & Hn & Hs)]; [by apply elem_of_nil in Hi|].
    apply list_elem_of_singleton in Hi as ->. split; [|done]. by eapply lookup_weaken_None.
Qed.

(** A call that returns [True] is one of those transactions. *)
Lemma try_consume_records id l l' : try_consume cfg id l = (Ok true, l') →
  ∃ a m l1, l_rows l1 = l_rows l ∧ record_consumption cfg id a m l1 = (Ok true, l').
Proof.
  unfold try_consume. destruct (negb _); [done|]. intros Ht.
  apply bind_inv in Ht as (t & l1 & Hn & Ht). apply (kept_rows _ _ _ _ (preserves_now cfg)) in Hn.
  apply bind_inv in Ht as (m & l2 & [Hm ->]%lift_inv & Ht).
  apply bind_inv in Ht as (b & l3 & Hr & Ht). exists (isoformat t), m, l1. destruct b.
  - injection Ht as <-. by split.
  - apply bind_inv in Ht as (? & l4 & _ & Ht). by apply verify_replay_inv in Ht as [? _].
Qed.
End interleaving.

(** ** Tags exist *)

Section tags.
Context `{Hash} {E : Type} (cfg : ConsumptionConfig E).

(** A frame of a short component. *)
Lemma frame_bytes_short b : (length b <= 1000)%nat → ∃ f, frame_bytes b = Ok f ∧ length f = (4 + length b)%nat.
Proof.
  intros Hb. unfold frame_bytes, int_to_bytes. rewrite (proj2 (N.ltb_lt _ _)) by (unfold blen; simpl; lia).
  eexists. split; [reflexivity|]. by rewrite length_app, length_be_split.
Qed.

Lemma frame_str_short s :
  is_ascii s = true → (length s <= 500)%nat → ∃ f, frame_str s = Ok f ∧ length f = (4 + length s)%nat.
Proof.
  intros Ha Hs. destruct (frame_bytes_short (byte_of_N <$> s)) as (f & Hf & Hl); [by rewrite length_fmap; lia|].
  exists f. rewrite length_fmap in Hl. split; [|done]. unfold frame_str, utf8_or_canonical_error, try_except.
  rewrite utf8_encode_ascii by done. cbn [mbind result_bind].
  rewrite (proj2 (N.leb_le _ _)); [exact Hf|]. unfold blen, MAX_CANONICAL_STRING_BYTES. rewrite length_fmap. lia.
Qed.

Lemma match_token_length s : match_token s = true → (length s <= 128)%nat.
Proof. destruct s as [|c s]; [done|]. cbn. rewrite !andb_true_iff, Nat.leb_le. lia. Qed.

Lemma fixw_length k z : length (fixw k z) = k.
Proof. revert z. induction k as [|k IH]; intros z; [done|]. cbn [fixw]. rewrite length_app, IH. cbn. lia. Qed.

Lemma isoformat_length d : (length (isoformat d) <= 42)%nat.
Proof.
  unfold isoformat, tz_str, tz_sign.
  repeat (rewrite length_app || rewrite fixw_length || case_match); apply Nat.leb_le; reflexivity.
Qed.

Lemma row_mac_total id t :
  match_token (cc_store_id cfg) = true → match_token id = true → ∃ m, row_mac cfg id (isoformat t) = Ok m.
Proof.
  intros Hs Hi. pose proof (match_token_length _ Hs). pose proof (match_token_length _ Hi).
  pose proof (isoformat_length t).
  destruct (frame_str_short id (match_token_ascii _ Hi)) as (a & Ea & La); [lia|].
  destruct (frame_str_short (isoformat t) (isoformat_ascii t)) as (b & Eb & Lb); [lia|].
  destruct (frame_str_short (cc_store_id cfg) (match_token_ascii _ Hs)) as (h & Eh & _); [lia|].
  destruct (frame_bytes_short (ascii_bytes (u "consumed-authorization"))) as (c & Ec & _); [vm_compute; lia|].
  destruct (frame_bytes_short (a ++ b)) as (d & Ed & _); [rewrite length_app; lia|].
  unfold row_mac, consumption_mac, mac_message. rewrite Ea, Eb. cbn [mbind result_bind]. rewrite Eh.
  cbn [mbind result_bind foldl]. rewrite Ec. cbn [mbind result_bind]. rewrite Ed. cbn [mbind result_bind]. eauto.
Qed.
End tags.

(** ** A store that works *)

Section working.
Context `{Hash} {E : Type} (cfg : ConsumptionConfig E).
Implicit Types (l : Ledger E).

(** [m] succeeds wherever it is run. *)
Definition always {A} (P : A → Prop) (m : prog E A) : Prop := ∀ e, ∃ a e', m e = (Ok a, e') ∧ P a.

Context (Hclock : always (λ t, is_utc t = true) (cc_clock cfg)) (Hopen : always (λ _, True) (cc_open cfg)).
Context (Hstore : match_token (cc_store_id cfg) = true).

Lemma on_env_always {A} (P : A → Prop) (m : prog E A) l :
  always P m → ∃ a l', on_env m l = (Ok a, l') ∧ P a ∧ l_rows l' = l_rows l ∧ l_metadata l' = l_metadata l.
Proof.
  intros Hm. destruct (Hm (l_env l)) as (a & e & Ha & HP). unfold on_env. rewrite Ha. by eexists a, _.
Qed.

Lemma connect_always l : ∃ l', connect cfg l = (Ok (), l') ∧ l_rows l' = l_rows l ∧ l_metadata l' = l_metadata l.
Proof.
  destruct (on_env_always _ _ l Hopen) as ([] & l' & Hl & _ & ? & ?). exists l'. unfold connect, catch. by rewrite Hl.
Qed.

Lemma now_always l : ∃ t l', consumption_now cfg l = (Ok t, l') ∧ l_rows l' = l_rows l.
Proof.
  destruct (on_env_always _ _ l Hclock) as (t & l' & Hl & Hu & Hr & _). exists t, l'.
  unfold consumption_now, mbind, prog_bind. by rewrite Hl, Hu.
Qed.

Lemma sql_always s l : always (λ _, True) (cc_sql cfg s) →
  ∃ l', sql cfg s l = (Ok (), l') ∧ l_rows l' = l_rows l ∧ l_metadata l' = l_metadata l.
Proof. intros Hs. destruct (on_env_always _ _ l Hs) as ([] & l' & ? & _ & ? & ?). by exists l'. Qed.

(** Up to the transaction of a call. *)
Lemma try_consume_starts id l :
  match_token id = true →
  ∃ a m l1, row_mac cfg id a = Ok m ∧ l_rows l1 = l_rows l ∧
    try_consume cfg id l = (inserted ← record_consumption cfg id a m;
      if inserted : bool then mret true else _ ← others_run cfg; verify_replay cfg id) l1.
Proof.
  intros Hid. destruct (now_always l) as (t & l1 & Hn & Hr). destruct (row_mac_total cfg id t Hstore Hid) as [m Hm].
  exists (isoformat t), m, l1. split_and!; [done|done|]. unfold try_consume. rewrite Hid. cbn [negb].
  unfold mbind at 1, prog_bind at 1. rewrite Hn. unfold mbind at 1, prog_bind at 1, lift at 1. by rewrite Hm.
Qed.

(** The transaction when no statement fails. *)
Lemma record_consumption_works id a m l : (∀ s, always (λ _, True) (cc_sql cfg s)) →
  ∃ l', record_consumption cfg id a m l = (Ok (bool_decide (l_rows l !! id = None)), l') ∧
    l_rows l' = if bool_decide (l_rows l !! id = None) then <[id := (a, m)]> (l_rows l) else l_rows l.
Proof.
  intros Hsql. unfold record_consumption. destruct (connect_always l) as (l1 & Hc & Hr1 & _).
  unfold mbind at 1, prog_bind at 1. rewrite Hc. unfold mbind at 1, prog_bind at 1. cbn [get_world]. unfold catch.
  destruct (sql_always BEGIN_IMMEDIATE l1 (Hsql _)) as (l2 & Hb & Hr2 & _).
  unfold mbind at 1, prog_bind at 1. rewrite Hb. unfold mbind at 1, prog_bind at 1. unfold insert_row at 1.
  destruct (sql_always INSERT_ROW l2 (Hsql _)) as (l3 & Hi & Hr3 & _).
  unfold mbind at 1, prog_bind at 1. rewrite Hi. unfold mbind at 1, prog_bind at 1. cbn [get_world].
  rewrite Hr3, Hr2, Hr1. destruct (l_rows l !! id) as [v|] eqn:Hl.
  - rewrite bool_decide_false by done. cbn [raise]. unfold mbind, prog_bind, set_rows.
    rewrite bool_decide_true by done. eexists. split; [reflexivity|done].
  - rewrite bool_decide_true by done. unfold set_rows. unfold mbind at 1, prog_bind at 1.
    destruct (sql_always COMMIT (mkLedger (<[id:=(a, m)]> (l_rows l)) (l_metadata l3) (l_env l3)) (Hsql _))
      as (l4 & Hco & Hr4 & _). rewrite Hco. eexists. split; [reflexivity|done].
Qed.

(** The replay check when no statement fails. *)
Lemma verify_replay_works id a tag m l :
  always (λ _, True) (cc_sql cfg SELECT_ROW) → l_rows l !! id = Some (a, tag) → row_mac cfg id a = Ok m →
  ∃ l', l_rows l' = l_rows l ∧ verify_replay cfg id l =
    (if pystr_eqb tag m then Ok false else
     Raise (if is_ascii tag then AuthorizationConsumptionError else TypeError), l').
Proof.
  intros Hsql Hl Hm. unfold verify_replay. destruct (connect_always l) as (l1 & Hc & Hr1 & _).
  unfold mbind at 1, prog_bind at 1. rewrite Hc. destruct (sql_always SELECT_ROW l1 Hsql) as (l2 & Hs & Hr2 & _).
  unfold mbind at 1, prog_bind at 1. rewrite Hs. unfold mbind at 1, prog_bind at 1. cbn [get_world].
  rewrite Hr2, Hr1, Hl. exists l2. split; [congruence|]. unfold mbind, prog_bind, lift. rewrite Hm.
  unfold compare_digest_str, compare_digest.
  assert (is_ascii m = true) as Ha.
  { unfold row_mac, consumption_mac in Hm. inv_result. subst. apply match_hex64_ascii, hmac_hex_match. }
  rewrite Ha, andb_true_r. destruct (pystr_eqb tag m) eqn:Et.
  - apply pystr_eqb_eq in Et as ->. by rewrite Ha.
  - by destruct (is_ascii tag).
Qed.

(** A call decides by the table.  When no statement fails and the clock
    is UTC, a well-formed identifier that is not recorded is granted and
    recorded with a tag over it and the time; one that is recorded is
    refused, without a change, if its row carries its tag; a row with any
    other tag raises: [AuthorizationConsumptionError] for ASCII text,
    [TypeError] otherwise.  Never is a recorded identifier granted. *)
Theorem consumption_decides id l :
  (∀ s, always (λ _, True) (cc_sql cfg s)) → (∀ rows, cc_others cfg rows = rows) → match_token id = true →
  ∃ r l', try_consume cfg id l = (r, l') ∧
    match l_rows l !! id with
    | None => r = Ok true ∧ ∃ a m, row_mac cfg id a = Ok m ∧ l_rows l' = <[id := (a, m)]> (l_rows l)
    | Some (a, tag) => l_rows l' = l_rows l ∧ ∀ m, row_mac cfg id a = Ok m →
        r = if pystr_eqb tag m then Ok false
            else Raise (if is_ascii tag then AuthorizationConsumptionError else TypeError)
    end.
Proof.
  intros Hsql Halone Hid. destruct (try_consume_starts id l Hid) as (a & m & l1 & Hm & Hr1 & ->).
  destruct (record_consumption_works id a m l1 Hsql) as (l2 & Hrec & Hr2). rewrite Hr1 in Hrec, Hr2.
  unfold mbind at 1, prog_bind at 1. rewrite Hrec. destruct (l_rows l !! id) as [[a' tag]|] eqn:Hl.
  - rewrite bool_decide_false in * by done. unfold mbind, prog_bind, others_run. rewrite Hr2, Halone.
    set (l3 := mkLedger (l_rows l) (l_metadata l2) (l_env l2)).
    destruct (verify_replay cfg id l3) as [r l4] eqn:Hv. exists r, l4. split; [done|]. split.
    + by apply (kept_rows _ _ _ _ (λ R, preserves_verify_replay cfg R id)) in Hv.
    + intros m' Hm'. destruct (verify_replay_works id a' tag m' l3 (Hsql _) Hl Hm') as (l5 & _ & Ev). congruence.
  - rewrite bool_decide_true in * by done. eexists _, _. split; [reflexivity|]. split; [done|]. by exists a, m.
Qed.

(** A database failure is not sanitised.  When [BEGIN IMMEDIATE] fails,
    as it does when the database stays locked, the call raises what SQLite
    raised and records nothing; the interface promises
    [AuthorizationConsumptionError] for every database failure, and a
    caller that catches only that lets it through. *)
Theorem database_failure_escapes id l failure :
  match_token id = true → failure ≠ SqliteIntegrityError →
  (∀ e, ∃ e', cc_sql cfg BEGIN_IMMEDIATE e = (Raise failure, e')) →
  ∃ l', try_consume cfg id l = (Raise failure, l') ∧ l_rows l' = l_rows l.
Proof.
  intros Hid Hne Hf. destruct (try_consume_starts id l Hid) as (a & m & l1 & Hm & Hr1 & ->).
  unfold record_consumption. destruct (connect_always l1) as (l2 & Hc & Hr2 & _).
  destruct (Hf (l_env l2)) as [e' He].
  unfold mbind, prog_bind. rewrite Hc. cbn [get_world]. unfold catch, sql, on_env, set_rows. rewrite He.
  rewrite bool_decide_false by done. eexists. split; [reflexivity|]. cbn [l_rows]. by rewrite Hr2.
Qed.
End working.

(** ** A store whose creation was interrupted *)

Section torn.
Context `{Hash} {E : Type} (cfg : ConsumptionConfig E).
Implicit Types (l : Ledger E).

Definition torn_metadata : gmap pystr pystr := {[u "schema_version" := u "1"]}.

Lemma torn_unexpected : torn_metadata ≠ expected_metadata cfg ∧ torn_metadata ≠ ∅.
Proof.
  unfold torn_metadata, expected_metadata. split; intros Heq.
  - apply (f_equal (lookup (u "store_id"))) in Heq.
    rewrite lookup_singleton_ne, lookup_insert_ne, lookup_insert_eq in Heq by (vm_compute; discriminate). done.
  - apply (f_equal (lookup (u "schema_version"))) in Heq. rewrite lookup_singleton_eq, lookup_empty in Heq. done.
Qed.

Lemma on_env_kept {A} (m : prog E A) l r l' : on_env m l = (r, l') → l_metadata l' = l_metadata l ∧ l_rows l' = l_rows l.
Proof. unfold on_env. destruct (m (l_env l)). by intros [= <- <-]. Qed.

Definition torn l : Prop := l_metadata l = torn_metadata.

(** A program that raises from a torn store and leaves it torn. *)
Definition refuses {A} (m : prog (Ledger E) A) : Prop := triple torn m (λ r l, (∃ e, r = Raise e) ∧ torn l).

Lemma refuses_after {A B} (m : prog (Ledger E) A) (f : A → prog (Ledger E) B) :
  preserves torn m → (∀ a, refuses (f a)) → refuses (m ≫= f).
Proof. intros Hm Hf. eapply triple_bind; [exact Hm|by eauto|exact Hf]. Qed.

Lemma torn_on_env {A} (m : prog E A) : preserves torn (on_env m).
Proof. intros l Hl. unfold on_env. by destruct (m (l_env l)). Qed.

Lemma torn_connect : preserves torn (connect cfg).
Proof. apply preserves_catch; [apply torn_on_env|]. intros e. apply preserves_raise. Qed.

Lemma refuses_raise {A} e : refuses (raise (A:=A) e).
Proof. apply triple_raise. by eauto. Qed.

Lemma initialize_refuses : refuses (initialize_schema cfg).
Proof.
  destruct torn_unexpected as [Hne Hne']. unfold initialize_schema.
  apply refuses_after; [apply torn_connect|intros _]. apply refuses_after; [apply torn_on_env|intros _].
  apply refuses_after; [apply torn_on_env|intros []]; [|apply refuses_raise]. cbn [negb].
  apply refuses_after; [apply torn_on_env|intros _]. intros l Hl. unfold mbind, prog_bind. cbn [get_world].
  unfold torn in Hl. rewrite Hl, !bool_decide_false by done. cbn. by eauto.
Qed.

(** An interrupted creation is final.  The two rows of the metadata are
    written one by one, each committed by itself: when the second insertion
    fails or the process stops before it, the store holds only its schema
    version, and from then on opening it never succeeds and never repairs
    it, although it holds no consumed authorization. *)
Theorem torn_metadata_refused l failure :
  (length (cc_integrity_key cfg) >= 32)%nat → match_token (cc_store_id cfg) = true →
  (l_metadata l = ∅ → l_rows l = ∅ →
   always (λ _, True) (cc_prepare_path cfg) → always (λ _, True) (cc_open cfg) →
   always (λ b, b = true) (cc_schema_matches cfg) →
   (∀ s, s ≠ INSERT_METADATA (u "store_id") → always (λ _, True) (cc_sql cfg s)) →
   (∀ e, ∃ e', cc_sql cfg (INSERT_METADATA (u "store_id")) e = (Raise failure, e')) →
   ∃ l', SqliteAuthorizationConsumptionStore_init cfg l = (Raise failure, l') ∧
     l_metadata l' = torn_metadata ∧ l_rows l' = ∅) ∧
  (l_metadata l = torn_metadata → ∀ r l', SqliteAuthorizationConsumptionStore_init cfg l = (r, l') →
     (∃ e, r = Raise e) ∧ l_metadata l' = torn_metadata).
Proof.
  intros Hkey Hid. unfold SqliteAuthorizationConsumptionStore_init.
  rewrite (proj2 (Nat.ltb_ge _ _)) by lia. rewrite Hid. cbn [negb]. split.
  - intros Hmeta Hrows Hp Ho Hsm Hsql Hf. unfold initialize_schema.
    destruct (on_env_always _ _ l Hp) as ([] & l1 & E1 & _ & R1 & M1). unfold mbind at 1, prog_bind at 1. rewrite E1.
    destruct (connect_always cfg Ho l1) as (l2 & E2 & R2 & M2). unfold mbind at 1, prog_bind at 1. rewrite E2.
    destruct (sql_always cfg CREATE_TABLES l2 (Hsql CREATE_TABLES ltac:(discriminate))) as (l3 & E3 & R3 & M3).
    unfold mbind at 1, prog_bind at 1. rewrite E3.
    destruct (on_env_always _ _ l3 Hsm) as (b & l4 & E4 & -> & R4 & M4). unfold mbind at 1, prog_bind at 1. rewrite E4.
    cbn [negb]. destruct (sql_always cfg SELECT_METADATA l4 (Hsql SELECT_METADATA ltac:(discriminate))) as (l5 & E5 & R5 & M5).
    unfold mbind at 1, prog_bind at 1. rewrite E5. unfold mbind at 1, prog_bind at 1. cbn [get_world].
    assert (l_metadata l5 = ∅) as M by congruence. assert (l_rows l5 = ∅) as R by congruence. rewrite M, R.
    rewrite !(bool_decide_eq_true_2 (∅ = ∅)) by done. cbn [negb andb]. unfold mbind at 1, prog_bind at 1.
    destruct (sql_always cfg SELECT_EXISTS l5 (Hsql SELECT_EXISTS ltac:(discriminate))) as (l6 & E6 & R6 & M6).
    unfold mbind at 1, prog_bind at 1. rewrite E6. cbn [negb]. unfold insert_metadata.
    destruct (sql_always cfg (INSERT_METADATA (u "schema_version")) l6 (Hsql (INSERT_METADATA (u "schema_version")) ltac:(vm_compute; discriminate))) as (l7 & E7 & R7 & M7).
    unfold mbind at 1, prog_bind at 1. unfold mbind at 1, prog_bind at 1. rewrite E7. cbn [set_metadata].
    unfold mbind, prog_bind, sql, on_env, set_metadata. cbn [l_env l_rows l_metadata].
    destruct (Hf (l_env l7)) as [e' He]. rewrite He. eexists. split; [reflexivity|]. cbn [l_metadata l_rows].
    split; [|congruence]. unfold torn_metadata. by rewrite M7, M6, M.
  - intros Hm r l' Hr. pose proof (initialize_refuses l Hm) as Hi. unfold mbind, prog_bind in Hr.
    destruct (on_env (cc_prepare_path cfg) l) as [[[]|e] l1] eqn:E1; apply on_env_kept in E1 as [M1 _].
    + assert (l_metadata l1 = torn_metadata) as M by congruence. pose proof (initialize_refuses l1 M) as Hi1.
      rewrite Hr in Hi1. exact Hi1.
    + injection Hr as <- <-. split; [by eexists|congruence].
Qed.
End torn.
