(* ===== verification/Coordinator.v ===== *)
(** * The pre-execution authorization gates

    [security_plan_freshness.py] and [tier1/execution_coordinator.py]: the
    freshness of a plan digest against the posture as it is now, and the
    coordinator that runs every gate in a fixed order and ends at one-time
    consumption.  The coordinator is written against the interface
    [ConsumptionStore], as the code is against its Protocol; discovery reads
    the environment and is a parameter. *)

From S2P Require Import Prelude PyStr Sha256 PyDatetime Json Canonical PyJson Literals Contract Evidence Plan PlanProps.
From S2P Require Import SealedApproval Authorization AuthorizationProps StoreInv Consumption ConsumptionProps.

Section coordinator.
Context `{Hash} `{UnicodeData} `{Ed25519} {W : Type} `{Store : ConsumptionStore W}.
Context (discover_security_posture : prog W SecurityPostureDiscovery).

(** [generate_security_posture_plan] *)
Definition generate_security_posture_plan (capability : CapabilityPosture) (anchor : AnchorAssurance)
    : prog W SecurityPosturePlan :=
  targets ← lift (coerce_and_validate_targets capability anchor);
  current ← discover_security_posture;
  mret (build_plan_from_discovery current (fst targets) (snd targets)).

Definition plan_authorization_is_fresh (capability : CapabilityPosture) (anchor : AnchorAssurance)
    (expected_plan_digest : pystr) : prog W bool :=
  catch (fresh_plan ← generate_security_posture_plan capability anchor;
         lift (verify_plan_digest fresh_plan expected_plan_digest))
        (λ _, raise PlanFreshnessError).

(** ** The coordinator *)

(** [_is_current] *)
Definition is_current (a : PlanAuthorization) (now : datetime) : result bool :=
  try_except (plan_authorization_is_current (pa1_expires_at (a1_payload a)) now)
    (λ e, if bool_decide (e = SecurityAuthorizationError) then Some (Ok false) else None).

(** [_is_fresh] *)
Definition is_fresh (a : PlanAuthorization) (capability : CapabilityPosture) (anchor : AnchorAssurance) : prog W bool :=
  catch (plan_authorization_is_fresh capability anchor (pa1_plan_digest (a1_payload a)))
    (λ e, if bool_decide (e = PlanFreshnessError) then mret false else raise e).

(** [_try_consume] *)
Definition try_consume_ (authorization_id : pystr) : prog W bool :=
  catch (consume authorization_id)
    (λ e, if bool_decide (e = AuthorizationConsumptionError) then mret false else raise e).

(** A failed gate. *)
Definition gate (passed : bool) : prog W () :=
  if passed then mret () else raise PreExecutionAuthorizationDenied.

(** [authorize_and_consume]; the value is the [authorization_id] of the
    granted marker.  The arguments have their types, so what is left of the
    first gate is the step identifier. *)
Definition authorize_and_consume (authorities : list PinnedAuthority) (a : PlanAuthorization)
    (requested_plan_digest requested_step_id : pystr) (capability : CapabilityPosture)
    (anchor : AnchorAssurance) (now : datetime) : prog W pystr :=
  _ ← gate (nonempty requested_step_id);
  signed ← lift (verify_plan_authorization_signature a authorities);
  _ ← gate signed;
  current ← lift (is_current a now);
  _ ← gate current;
  authorizes ← lift (plan_authorization_authorizes_step a requested_plan_digest requested_step_id);
  _ ← gate authorizes;
  fresh ← is_fresh a capability anchor;
  _ ← gate fresh;
  granted ← try_consume_ (pa1_authorization_id (a1_payload a));
  _ ← gate granted;
  mret (pa1_authorization_id (a1_payload a)).

(** ** What a grant means *)

Lemma gate_inv b w x w' : gate b w = (Ok x, w') → b = true ∧ w' = w.
Proof. by destruct b; [intros [= _ <-]|]. Qed.

Lemma is_current_true a now : is_current a now = Ok true →
  is_utc now = true ∧ dt_ltb now (pa1_expires_at (a1_payload a)) = true.
Proof.
  unfold is_current, plan_authorization_is_current, try_except. destruct (is_utc now); [by intros [= ->]|done].
Qed.

Lemma str_in_elem s l : str_in s l = true → s ∈ l.
Proof.
  unfold str_in. intros (x & Hx & E%pystr_eqb_eq)%existsb_exists. subst. by apply list_elem_of_In.
Qed.

Lemma authorizes_step_true a d s : plan_authorization_authorizes_step a d s = Ok true →
  pa1_plan_digest (a1_payload a) = d ∧ s ∈ pa1_authorized_step_ids (a1_payload a).
Proof.
  unfold plan_authorization_authorizes_step. intros (b & Hd & [= Hb])%bind_Ok. apply andb_true_iff in Hb as [-> Hs].
  split; [by apply compare_digest_str_true in Hd as [Hd _]|by apply str_in_elem].
Qed.

Lemma plan_fresh_true cap anc d w w' : plan_authorization_is_fresh cap anc d w = (Ok true, w') →
  ∃ posture plan, discover_security_posture w = (Ok posture, w') ∧
    generate_security_posture_plan_from_discovery posture cap anc = Ok plan ∧ compute_plan_digest plan = Ok d.
Proof.
  unfold plan_authorization_is_fresh, catch, raise.
  destruct ((fresh_plan ← _; lift _) w) as [[b|e] w1] eqn:Hr; [|done].
  intros [= -> <-]. apply bind_inv in Hr as (plan & w2 & Hg & [Hv ->]%lift_inv).
  unfold generate_security_posture_plan in Hg. apply bind_inv in Hg as ([c x] & w3 & [Hc ->]%lift_inv & Hg).
  apply bind_inv in Hg as (p & w4 & Hd & Hg). injection Hg as <- <-. exists p, (build_plan_from_discovery p c x).
  split_and!; [done| |].
  - unfold generate_security_posture_plan_from_discovery. by rewrite Hc.
  - unfold verify_plan_digest in Hv. apply bind_Ok in Hv as (y & Hy & Hc'). by apply compare_digest_str_true in Hc' as [<- _].
Qed.

Lemma is_fresh_true a cap anc w w' : is_fresh a cap anc w = (Ok true, w') →
  ∃ d plan, discover_security_posture w = (Ok d, w') ∧
    generate_security_posture_plan_from_discovery d cap anc = Ok plan ∧
    compute_plan_digest plan = Ok (pa1_plan_digest (a1_payload a)).
Proof.
  intros Hf. apply plan_fresh_true. revert Hf. unfold is_fresh, catch, raise.
  destruct (plan_authorization_is_fresh _ _ _ w) as [[b|e] w1]; [done|]. by case_bool_decide.
Qed.

Lemma try_consume_true id w w' : try_consume_ id w = (Ok true, w') → consume id w = (Ok true, w').
Proof.
  unfold try_consume_, catch, raise. destruct (consume id w) as [[b|e] w1]; [done|]. by case_bool_decide.
Qed.

(** The gates of a granted call. *)
Lemma coordinator_inv authorities a d s cap anc now w id w' :
  authorize_and_consume authorities a d s cap anc now w = (Ok id, w') →
  id = pa1_authorization_id (a1_payload a) ∧
  verify_plan_authorization_signature a authorities = Ok true ∧ is_current a now = Ok true ∧
  plan_authorization_authorizes_step a d s = Ok true ∧
  ∃ w1, is_fresh a cap anc w = (Ok true, w1) ∧ consume id w1 = (Ok true, w').
Proof.
  unfold authorize_and_consume. intros Hp.
  apply bind_inv in Hp as ([] & ? & [_ ->]%gate_inv & Hp).
  apply bind_inv in Hp as (b1 & ? & [H1' ->]%lift_inv & Hp). apply bind_inv in Hp as ([] & ? & [-> ->]%gate_inv & Hp).
  apply bind_inv in Hp as (b2 & ? & [H2 ->]%lift_inv & Hp). apply bind_inv in Hp as ([] & ? & [-> ->]%gate_inv & Hp).
  apply bind_inv in Hp as (b3 & ? & [H3 ->]%lift_inv & Hp). apply bind_inv in Hp as ([] & ? & [-> ->]%gate_inv & Hp).
  apply bind_inv in Hp as (b4 & w1 & H4 & Hp). apply bind_inv in Hp as ([] & ? & [-> ->]%gate_inv & Hp).
  apply bind_inv in Hp as (b5 & w2 & H5 & Hp).
  apply bind_inv in Hp as ([] & ? & [-> ->]%gate_inv & Hp). injection Hp as <- <-.
  split_and!; [done..|]. exists w1. split; [done|]. by apply try_consume_true.
Qed.

(** What a grant means.  When the coordinator grants, an active pinned
    authority verified the artifact's signature over a text, and every
    version 1 payload with that text carries the requested plan digest and,
    up to Unicode normalisation, the requested step; the artifact has not
    expired; the digest is that of the plan the planner makes, for the
    given target, of the posture discovered during this very call; and the
    identifier had not been consumed and now is. *)
Theorem grant_means authorities a d s cap anc now w id w' :
  v1_ok (a1_payload a) → (∀ w r w1, discover_security_posture w = (r, w1) → ∀ x, consumed w x → consumed w1 x) →
  authorize_and_consume authorities a d s cap anc now w = (Ok id, w') →
  id = pa1_authorization_id (a1_payload a) ∧
  (∃ authority m, authority ∈ authorities ∧ pin_active authority = true ∧
     pin_authority_id authority = pa1_authority_id (a1_payload a) ∧
     ed25519_verify (pin_public_key authority) (a1_proof a) m = true ∧
     ∀ p, v1_ok p → plan_authorization_signing_payload p = Ok m →
       pa1_authorization_id p = id ∧ pa1_plan_digest p = d ∧ nfc s ∈ map nfc (pa1_authorized_step_ids p)) ∧
  dt_ltb now (pa1_expires_at (a1_payload a)) = true ∧
  (∃ posture plan, fst (discover_security_posture w) = Ok posture ∧
     generate_security_posture_plan_from_discovery posture cap anc = Ok plan ∧ compute_plan_digest plan = Ok d) ∧
  ¬ consumed w id ∧ consumed w' id.
Proof.
  intros Hok Hkeep (-> & Hv & Hcur & Hstep & w1 & Hf & Hc)%coordinator_inv.
  apply verify_v1_inv in Hv as (_ & m & au & Hm & Hin & Hid & Hact & Hsig).
  apply is_current_true in Hcur as [_ Hcur]. apply authorizes_step_true in Hstep as [Hd Hs].
  apply is_fresh_true in Hf as (posture & plan & Hdis & Hg & Hpd). apply consume_fresh in Hc as [Hn Hc].
  split_and!; [done| |done| | |done].
  - exists au, m. split_and!; [done..|]. intros p Hp Hm'.
    destruct (v1_signing_inj p (a1_payload a) m Hp Hok Hm' Hm) as (E1 & _ & E2 & E3 & _).
    split_and!; [done|congruence|]. rewrite E3. by apply list_elem_of_fmap_2.
  - exists posture, plan. rewrite Hdis. split_and!; [done..|]. by rewrite Hpd, Hd.
  - intros Hw. apply Hn. by eapply Hkeep.
Qed.

(** ** Sequences of calls *)

(** Coordinator calls on one world, between them anything that forgets no
    consumption; the identifiers granted. *)
Inductive granted_history : W → list pystr → W → Prop :=
  | granted_nil w : granted_history w [] w
  | granted_call w ids w1 authorities a d s cap anc now r w2 :
    granted_history w ids w1 →
    authorize_and_consume authorities a d s cap anc now w1 = (r, w2) →
    granted_history w (ids ++ match r with Ok id => [id] | Raise _ => [] end) w2
  | granted_other w ids w1 w2 :
    granted_history w ids w1 → (∀ x, consumed w1 x → consumed w2 x) → granted_history w ids w2.

(** [keeps m]: no consumption is forgotten. *)
Definition remembers {A} (m : prog W A) : Prop := ∀ w r w', m w = (r, w') → ∀ x, consumed w x → consumed w' x.

Lemma remembers_bind {A B} (m : prog W A) (f : A → prog W B) :
  remembers m → (∀ a, remembers (f a)) → remembers (m ≫= f).
Proof.
  intros Hm Hf w r w'. unfold mbind, prog_bind. destruct (m w) as [[a|e] w1] eqn:Hr.
  - intros Hr' x Hx. by eapply Hf, Hm.
  - intros [= <- <-] x Hx. by eapply Hm.
Qed.

Lemma remembers_pure {A} (m : result A) : remembers (λ w, (m, w)).
Proof. by intros w r w' [= <- <-]. Qed.

Lemma remembers_catch {A} (m : prog W A) h : remembers m → (∀ e, remembers (h e)) → remembers (catch m h).
Proof.
  intros Hm Hh w r w'. unfold catch. destruct (m w) as [[a|e] w1] eqn:Hr.
  - intros [= <- <-] x Hx. by eapply Hm.
  - intros Hr' x Hx. by eapply Hh, Hm.
Qed.

Lemma remembers_if {A} (b : bool) (m n : prog W A) : remembers m → remembers n → remembers (if b then m else n).
Proof. by destruct b. Qed.

Lemma remembers_gate b : remembers (gate b).
Proof. apply remembers_if; apply remembers_pure. Qed.

Lemma remembers_consume id : remembers (try_consume_ id).
Proof.
  apply remembers_catch; [|intros e; apply remembers_if; apply remembers_pure].
  intros w r w' Hr x. by eapply consume_keeps.
Qed.

Lemma remembers_fresh a cap anc : remembers discover_security_posture → remembers (is_fresh a cap anc).
Proof.
  intros Hd. apply remembers_catch; [|intros e; apply remembers_if; apply remembers_pure].
  apply remembers_catch; [|intros e; apply remembers_pure].
  apply remembers_bind; [|intros plan; apply remembers_pure].
  apply remembers_bind; [apply remembers_pure|intros t].
  apply remembers_bind; [done|intros d; apply remembers_pure].
Qed.

Lemma remembers_authorize authorities a d s cap anc now :
  remembers discover_security_posture → remembers (authorize_and_consume authorities a d s cap anc now).
Proof.
  intros Hd. unfold authorize_and_consume.
  repeat (apply remembers_bind; [first [apply remembers_gate|apply remembers_pure|by apply remembers_fresh|apply remembers_consume]|intros ?]).
  apply remembers_pure.
Qed.

(** One grant per authorization.  Over any sequence of coordinator
    calls, with any artifacts, targets and times, and anything in between
    that forgets no consumption, no identifier is granted twice, and none
    that was consumed before. *)
Theorem granted_once w ids w' :
  remembers discover_security_posture → granted_history w ids w' →
  NoDup ids ∧ ∀ id, id ∈ ids → ¬ consumed w id ∧ consumed w' id.
Proof.
  intros Hd Hh.
  assert (NoDup ids ∧ (∀ id, id ∈ ids → ¬ consumed w id ∧ consumed w' id) ∧ ∀ x, consumed w x → consumed w' x)
    as (? & ? & _); [|done].
  induction Hh as [w|w ids w1 au a d s cap anc now r w2 _ (IHn & IHi & IHk) Hr|w ids w1 w2 _ (IHn & IHi & IHk) Hk].
  - split_and!; [constructor|by intros ? ?%elem_of_nil|done].
  - pose proof (remembers_authorize au a d s cap anc now Hd _ _ _ Hr) as Hm. destruct r as [id|e].
    + apply coordinator_inv in Hr as (_ & _ & _ & _ & w3 & Hf & [Hn Hc]%consume_fresh).
      assert (¬ consumed w1 id) as Hn1 by (intros Hx; apply Hn; by eapply (remembers_fresh a cap anc Hd)).
      split_and!.
      * apply NoDup_app. split_and!; [done| |apply NoDup_singleton]. intros x Hx ->%list_elem_of_singleton.
        by destruct (IHi id Hx).
      * intros x [Hx| ->%list_elem_of_singleton]%elem_of_app; [destruct (IHi x Hx); auto|]. split; auto.
      * auto.
    + rewrite app_nil_r. split_and!; [done| |auto]. intros x Hx. destruct (IHi x Hx). auto.
  - split_and!; [done| |auto]. intros x Hx. destruct (IHi x Hx). auto.
Qed.
End coordinator.
