(* ===== verification/ConsumptionWitness.v ===== *)
(** * Concrete consumption and coordination

    An empty and a filled ledger, a signed version 1 authorization for the
    sample plan, and the properties of [ConsumptionProps] and [Coordinator]
    at them. *)

From S2P Require Import Prelude PyStr Sha256 PyDatetime Json Canonical Contract Evidence Plan PlanProps.
From S2P Require Import SealedApproval Authorization AuthorizationProps StoreCodec StoreInv Consumption.
From S2P Require Import ConsumptionProps Coordinator.

#[local] Existing Instances Sample.hash Sample.unicode.

Module SampleConsumption.
(** A clock at noon; a statement fails when the environment says so. *)
Definition config (fails : statement → option exn) : ConsumptionConfig () := {|
  cc_integrity_key := replicate 32 Byte.x09; cc_store_id := u "consumption-1";
  cc_clock := mret (Sample.day 1 12); cc_prepare_path := mret (); cc_chmod := mret (); cc_open := mret ();
  cc_schema_matches := mret true;
  cc_sql s := match fails s with Some e => raise e | None => mret () end;
  cc_others rows := rows |}.
Definition works : ConsumptionConfig () := config (λ _, None).
Definition locked : ConsumptionConfig () :=
  config (λ s, match s with BEGIN_IMMEDIATE => Some SqliteOperationalError | _ => None end).
Definition interrupted : ConsumptionConfig () :=
  config (λ s, match s with INSERT_METADATA k =>
      if pystr_eqb k (u "store_id") then Some SqliteOperationalError else None | _ => None end).

Definition empty : Ledger () := mkLedger ∅ ∅ ().
Definition id : pystr := u "authz-1".
Definition tag : pystr := Eval vm_compute in Sample.value_of (@row_mac Sample.hash () works id (isoformat (Sample.day 1 12))).
Definition row : pystr * pystr := Eval vm_compute in (isoformat (Sample.day 1 12), tag).
Definition spent : Ledger () := mkLedger {[id := row]} ∅ ().

Lemma granted : @try_consume Sample.hash () works id empty = (Ok true, spent).
Proof. vm_compute. reflexivity. Qed.
Lemma refused : @try_consume Sample.hash () works id spent = (Ok false, spent).
Proof. vm_compute. reflexivity. Qed.
Lemma recorded : @record_consumption () works id (fst row) tag empty = (Ok true, spent).
Proof. vm_compute. reflexivity. Qed.

Lemma works_always s : always (λ _, True) (cc_sql works s).
Proof. intros e. by exists (), e. Qed.
Lemma clock_always fails : always (λ t, is_utc t = true) (cc_clock (config fails)).
Proof. intros e. by exists (Sample.day 1 12), e. Qed.
Lemma open_always fails : always (λ _, True) (cc_open (config fails)).
Proof. intros e. by exists (), e. Qed.
Lemma interrupted_only s : s ≠ INSERT_METADATA (u "store_id") → always (λ _, True) (cc_sql interrupted s).
Proof.
  intros Hs e. exists (), e. split; [|done]. unfold interrupted, config. cbn [cc_sql].
  destruct s as [| | |k| | | |]; try done. destruct (pystr_eqb k (u "store_id")) eqn:Ek; [|done].
  apply pystr_eqb_eq in Ek as ->. done.
Qed.
Lemma key_ok fails : (length (cc_integrity_key (config fails)) >= 32)%nat.
Proof. unfold ge. apply Nat.leb_le. reflexivity. Qed.
Lemma others_grow rows : rows ⊆ cc_others works rows.
Proof. done. Qed.

(** The interface over that store. *)
Definition store : ConsumptionStore (Ledger ()) := @sqlite_consumption Sample.hash () works others_grow.
Definition discover : prog (Ledger ()) SecurityPostureDiscovery := mret SamplePlan.verified.

(** A version 1 authorization of the sample plan's write step. *)
Definition built : result PlanAuthorization :=
  p ← build_plan_authorization_payload SamplePlan.write_plan [ALIAS_DESCRIPTION_WRITE_STEP_ID] id (u "owner")
    (Sample.day 1 3) (Sample.day 1 20) AUTHORIZATION_SIGNING_ALGORITHM 1;
  sign_plan_authorization SampleApproval.signature p.
Definition absent : PlanAuthorization := {| a1_proof := []; a1_payload := {|
  pa1_schema_version := 0; pa1_authorization_id := []; pa1_plan_digest := []; pa1_authorized_step_ids := [];
  pa1_authority_id := []; pa1_algorithm := []; pa1_issued_at := Sample.day 1 3; pa1_expires_at := Sample.day 1 3;
  pa1_risk_class := NONE_REQUIRED;
  pa1_evidence_fingerprint := pa2_evidence_fingerprint SampleAuthorization.absent |} |}.
Definition artifact : PlanAuthorization := Eval vm_compute in match built with Ok a => a | Raise _ => absent end.

Definition call : prog (Ledger ()) pystr :=
  @authorize_and_consume Sample.hash Sample.unicode SampleApproval.ed25519 (Ledger ()) store discover
    SampleAuthorization.authorities artifact SamplePlan.digest ALIAS_DESCRIPTION_WRITE_STEP_ID
    WRITE_PROTECTED HARDWARE_WITNESS (Sample.day 1 12).

Lemma call_granted : call empty = (Ok id, spent).
Proof. vm_compute. reflexivity. Qed.
Lemma call_denied : call spent = (Raise PreExecutionAuthorizationDenied, spent).
Proof. vm_compute. reflexivity. Qed.
Lemma artifact_ok : v1_ok (a1_payload artifact).
Proof. split; [|by split]. exists (a1_proof artifact). vm_compute. reflexivity. Qed.
Lemma discover_keeps : @remembers (Ledger ()) store _ discover.
Proof. intros w r w' [= <- <-] x Hx. exact Hx. Qed.
Lemma called_twice : @granted_history Sample.hash Sample.unicode SampleApproval.ed25519 (Ledger ()) store discover
  empty ([] ++ [id] ++ []) spent.
Proof.
  rewrite app_assoc.
  refine (granted_call discover _ _ _ _ _ _ _ _ _ _ (Raise PreExecutionAuthorizationDenied) _
    (granted_call discover _ _ _ _ _ _ _ _ _ _ (Ok id) _ (granted_nil discover _) call_granted) call_denied).
Qed.
End SampleConsumption.

Lemma consumed_once_witness : NoDup ([] ++ [SampleConsumption.id]) ∧ l_rows SampleConsumption.empty ⊆ l_rows SampleConsumption.spent.
Proof.
  destruct (@consumed_once Sample.hash () SampleConsumption.works SampleConsumption.empty ([] ++ [SampleConsumption.id])
    SampleConsumption.spent
    (ledger_snoc _ _ _ _ _ _ (ledger_nil _ _) (step_record _ _ _ _ _ _ _ SampleConsumption.recorded)))
    as (Hn & _ & Hs).
  exact (conj Hn Hs).
Defined.

Lemma consumption_decides_witness :
  ∃ r l', @try_consume Sample.hash () SampleConsumption.works SampleConsumption.id SampleConsumption.spent = (r, l') ∧
    l_rows l' = l_rows SampleConsumption.spent.
Proof.
  destruct (@consumption_decides Sample.hash () SampleConsumption.works
    (SampleConsumption.clock_always (λ _, None)) (SampleConsumption.open_always (λ _, None)) eq_refl
    SampleConsumption.id SampleConsumption.spent SampleConsumption.works_always (λ _, eq_refl) eq_refl)
    as (r & l' & Hr & Hrow).
  exact (ex_intro _ r (ex_intro _ l' (conj Hr (proj1 Hrow)))).
Defined.

Lemma database_failure_escapes_witness :
  ∃ l', @try_consume Sample.hash () SampleConsumption.locked SampleConsumption.id SampleConsumption.empty
    = (Raise SqliteOperationalError, l') ∧ l_rows l' = ∅.
Proof.
  exact (@database_failure_escapes Sample.hash () SampleConsumption.locked
    (SampleConsumption.clock_always _) (SampleConsumption.open_always _) eq_refl
    SampleConsumption.id SampleConsumption.empty SqliteOperationalError eq_refl ltac:(discriminate)
    (λ e, ex_intro _ e eq_refl)).
Defined.

Lemma torn_metadata_refused_witness :
  ∃ l' r l'', @SqliteAuthorizationConsumptionStore_init () SampleConsumption.interrupted SampleConsumption.empty
      = (Raise SqliteOperationalError, l') ∧ l_metadata l' = torn_metadata ∧
    @SqliteAuthorizationConsumptionStore_init () SampleConsumption.works (mkLedger ∅ torn_metadata ()) = (r, l'') ∧
    ∃ e, r = Raise e.
Proof.
  destruct (proj1 (@torn_metadata_refused () SampleConsumption.interrupted SampleConsumption.empty SqliteOperationalError
    (SampleConsumption.key_ok _) eq_refl) eq_refl eq_refl (λ e, ex_intro _ () (ex_intro _ e (conj eq_refl I)))
    (SampleConsumption.open_always _) (λ e, ex_intro _ true (ex_intro _ e (conj eq_refl eq_refl)))
    SampleConsumption.interrupted_only (λ e, ex_intro _ e eq_refl)) as (l' & H1 & H2 & _).
  destruct (SqliteAuthorizationConsumptionStore_init SampleConsumption.works (mkLedger ∅ torn_metadata ())) as [r l''] eqn:E.
  exists l', r, l''. split; [exact H1|]. split; [exact H2|]. split; [reflexivity|].
  exact (proj1 (proj2 (@torn_metadata_refused () SampleConsumption.works (mkLedger ∅ torn_metadata ()) SqliteOperationalError
    (SampleConsumption.key_ok _) eq_refl) eq_refl r l'' E)).
Defined.

Lemma grant_means_witness :
  dt_ltb (Sample.day 1 12) (pa1_expires_at (a1_payload SampleConsumption.artifact)) = true.
Proof.
  destruct (@grant_means Sample.hash Sample.unicode SampleApproval.ed25519 (Ledger ()) SampleConsumption.store
    SampleConsumption.discover SampleAuthorization.authorities SampleConsumption.artifact SamplePlan.digest
    ALIAS_DESCRIPTION_WRITE_STEP_ID WRITE_PROTECTED HARDWARE_WITNESS (Sample.day 1 12) SampleConsumption.empty
    SampleConsumption.id SampleConsumption.spent SampleConsumption.artifact_ok SampleConsumption.discover_keeps
    SampleConsumption.call_granted) as (_ & _ & Hcur & _).
  exact Hcur.
Defined.

Lemma granted_once_witness : NoDup ([] ++ [SampleConsumption.id] ++ []).
Proof.
  exact (proj1 (@granted_once Sample.hash Sample.unicode SampleApproval.ed25519 (Ledger ()) SampleConsumption.store
    SampleConsumption.discover SampleConsumption.empty _ SampleConsumption.spent SampleConsumption.discover_keeps
    SampleConsumption.called_twice)).
Defined.
