(* ===== verification/KeyLifecycle.v ===== *)
(** * Key material and the nonce counter

    [tier1/key_lifecycle.py] with [secure_file.py]: loading a key record from
    its file, and the durable counter from which the nonces of a key are
    drawn.  A path is a node of the file system; a write is not atomic: a
    process or machine that stops in the middle leaves any prefix of the
    text it was writing.  A call reads the file and then writes it, and
    takes no lock; what other callers do in between is part of the model. *)

From S2P Require Import Prelude PyStr Json JsonPrefix Canonical PyJson StoreCodec.

(** ** Files *)

Record file : Type := {
  f_regular : bool;    (* [S_ISREG] *)
  f_own : bool;        (* owned by the effective user *)
  f_private : bool;    (* no group or other permission bits *)
  f_content : bytes;
}.

Inductive node : Type := Absent | Symlink (target_exists : bool) | File (f : file).

(** [Path.exists] *)
Definition node_exists (n : node) : bool :=
  match n with Absent => false | Symlink b => b | File _ => true end.

Definition open_nofollow (on_error : exn) (n : node) : result file :=
  match n with File f => Ok f | _ => Raise on_error end.

Definition validate_descriptor (max_bytes : nat) (on_error : exn) (f : file) : result () :=
  _ ← require (f_regular f) on_error;
  _ ← require (f_own f) on_error;
  _ ← require (f_private f) on_error;
  require (length (f_content f) <=? max_bytes)%nat on_error.

(** The opening, checking and reading both readers start with, and the
    JSON value of the text. *)
Definition read_json (max_bytes : nat) (n : node) : result json :=
  f ← open_nofollow KeyMaterialError n;
  _ ← validate_descriptor max_bytes KeyMaterialError f;
  let raw := take (max_bytes + 1) (f_content f) in
  _ ← require (length raw <=? max_bytes)%nat KeyMaterialError;
  text ← of_option (utf8_decode raw) KeyMaterialError;
  of_option (loads_dict (strip text)) KeyMaterialError.

(** ** Key records *)

Definition KEY_MATERIAL_BYTES : nat := 32.
Definition KEY_FILE_MAX_BYTES : nat := 4096.
Definition COUNTER_FILE_MAX_BYTES : nat := 64.
Definition MAX_NONCE_COUNTER : Z := 2 ^ 32.

Inductive KeyPurpose : Type := ENCRYPTION | INTEGRITY.

Record KeyRecord : Type := {
  key_id : pystr; epoch : Z; material : bytes; purpose : KeyPurpose; retired : bool }.

Definition KeyRecord_post_init (k : KeyRecord) : result () :=
  _ ← require (match_token (key_id k)) KeyMaterialError;
  _ ← require (0 <=? epoch k)%Z KeyMaterialError;
  require (length (material k) =? KEY_MATERIAL_BYTES)%nat KeyMaterialError.

Definition load_key_material (p : KeyPurpose) (n : node) : result KeyRecord :=
  value ← read_json KEY_FILE_MAX_BYTES n;
  match value with
  | JObj items =>
    _ ← require (fields_are items [u "key_id"; u "epoch"; u "material_hex"]) KeyMaterialError;
    match lookup_item (u "key_id") items, lookup_item (u "epoch") items,
          lookup_item (u "material_hex") items with
    | Some (JStr id), Some (JInt e), Some (JStr h) =>
      _ ← require (match_token id && (0 <=? e)%Z && match_hex64 h) KeyMaterialError;
      m ← of_option (unhex h) ValueError;
      let k := {| key_id := id; epoch := e; material := m; purpose := p; retired := false |} in
      _ ← KeyRecord_post_init k;
      Ok k
    | _, _, _ => Raise KeyMaterialError
    end
  | _ => Raise KeyMaterialError
  end.

(** ** The nonce counter *)

Section counter.
Context (kid : pystr).

(** [json.dumps({"key_id": ..., "counter": ...}).encode()] *)
Definition counter_payload (counter : Z) : bytes :=
  ascii_bytes (print true [32%N] (JObj [(u "key_id", JStr kid); (u "counter", JInt counter)])).

(** [_read] *)
Definition counter_read (n : node) : result Z :=
  value ← read_json COUNTER_FILE_MAX_BYTES n;
  match value with
  | JObj items =>
    _ ← require (fields_are items [u "key_id"; u "counter"]) KeyMaterialError;
    match lookup_item (u "key_id") items, lookup_item (u "counter") items with
    | Some (JStr id), Some (JInt c) =>
      _ ← require (pystr_eqb id kid && (0 <=? c)%Z) KeyMaterialError;
      Ok c
    | _, _ => Raise KeyMaterialError
    end
  | _ => Raise KeyMaterialError
  end.

(** The node after [os.open(path, O_WRONLY | O_CREAT | O_NOFOLLOW, 0o600)],
    truncation and writing [b]; [None] when the open fails.  A file that
    exists has passed [counter_read] by then. *)
Definition rewrite_node (b : bytes) (n : node) : option node :=
  match n with
  | Absent => Some (File {| f_regular := true; f_own := true; f_private := true; f_content := b |})
  | Symlink _ => None
  | File f => Some (File {| f_regular := f_regular f; f_own := f_own f; f_private := f_private f; f_content := b |})
  end.

(** [_write] *)
Definition counter_write (counter : Z) : prog node () := λ n,
  match rewrite_node (counter_payload counter) n with
  | Some n' => (Ok (), n')
  | None => (Raise (OtherError 40), n)     (* [OSError], [ELOOP] *)
  end.

Definition counter_read_ : prog node Z := λ n, (counter_read n, n).

(** [_prepare] and [next] up to what they write, and the writing.  No lock
    is held from the one to the other. *)
Definition path_missing : prog node bool := λ n, (Ok (negb (node_exists n)), n).

Definition next_read : prog node Z :=
  current ← counter_read_;
  if (MAX_NONCE_COUNTER <=? current)%Z then raise KeyExhaustedError else mret (current + 1)%Z.

Definition next_write (updated : Z) : prog node Z := _ ← counter_write updated; mret updated.

(** [__init__] with [_prepare] *)
Definition NonceCounter_init : prog node () :=
  _ ← lift (require (match_token kid) KeyMaterialError);
  missing ← path_missing;
  if missing : bool then counter_write 0 else _ ← counter_read_; mret ().

Definition next : prog node Z := updated ← next_read; next_write updated.

(** Where a caller that has read is: about to create the file, or about to
    count. *)
Inductive stage : Type := Creating | Adding (updated : Z).

Definition stage_value (g : stage) : Z := match g with Creating => 0 | Adding updated => updated end.
Definition stage_returned (g : stage) : list Z := match g with Creating => [] | Adding updated => [updated] end.

(** The file, and the callers between their reading and their writing. *)
Record counters : Type := mkCounters { c_file : node; c_stages : gmap nat stage }.

(** One event in the life of a counter file, with the value [next] returned,
    if it did: a caller reads, or is refused; writes, and returns; or stops,
    before the write or in the middle of it, when a prefix of the new text
    is left.  When the callers are [exclusive], none begins while another is
    between its reading and its writing. *)
Inductive counter_step (exclusive : bool) : counters → list Z → counters → Prop :=
  | begin_next p n ps updated :
    (exclusive = true → ps = ∅) → ps !! p = None → next_read n = (Ok updated, n) →
    counter_step exclusive (mkCounters n ps) [] (mkCounters n (<[p := Adding updated]> ps))
  | next_refused n ps e :
    next_read n = (Raise e, n) → counter_step exclusive (mkCounters n ps) [] (mkCounters n ps)
  | begin_creating p n ps :
    (exclusive = true → ps = ∅) → ps !! p = None → path_missing n = (Ok true, n) →
    counter_step exclusive (mkCounters n ps) [] (mkCounters n (<[p := Creating]> ps))
  | reopened n ps :
    path_missing n = (Ok false, n) → counter_step exclusive (mkCounters n ps) [] (mkCounters n ps)
  | wrote p g n ps n' :
    ps !! p = Some g → counter_write (stage_value g) n = (Ok (), n') →
    counter_step exclusive (mkCounters n ps) (stage_returned g) (mkCounters n' (delete p ps))
  | not_written p n ps : counter_step exclusive (mkCounters n ps) [] (mkCounters n (delete p ps))
  | torn_write p g n ps k n' :
    ps !! p = Some g → rewrite_node (take k (counter_payload (stage_value g))) n = Some n' →
    counter_step exclusive (mkCounters n ps) [] (mkCounters n' (delete p ps)).

Inductive counter_history (exclusive : bool) : counters → list Z → counters → Prop :=
  | history_nil s : counter_history exclusive s [] s
  | history_snoc s vs s1 l s2 :
    counter_history exclusive s vs s1 → counter_step exclusive s1 l s2 → counter_history exclusive s (vs ++ l) s2.
End counter.

(** ** The counter's file *)

Lemma token_char_escape c : is_token_char c = true → esc_char true c = [c] ∧ c ≠ 125%N.
Proof.
  unfold is_token_char, is_alnum. rewrite !orb_true_iff, !in_range_spec, !N.eqb_eq. intros Hc.
  assert (32 < c < 126 ∧ c ≠ 34 ∧ c ≠ 92 ∧ c ≠ 125)%N as (Hr & H1 & H2 & H3) by lia.
  split; [|done]. unfold esc_char.
  repeat match goal with |- context [(c =? ?n)%N] => destruct (N.eqb_spec c n); [lia|] end.
  destruct (N.ltb_spec c 32); [lia|]. destruct (N.ltb_spec 126 c); [lia|]. done.
Qed.

Lemma token_chars s : match_token s = true → ∀ c, c ∈ s → is_token_char c = true.
Proof.
  destruct s as [|c s]; [done|]. cbn [match_token]. rewrite !andb_true_iff, forallb_elem_of.
  intros [[Hc Hs] _] x [->|Hx]%elem_of_cons; [|by apply Hs]. unfold is_token_char. by rewrite Hc.
Qed.

Lemma print_token s : match_token s = true → print_str true s = 34%N :: s ++ [34%N].
Proof.
  intros Hs. unfold print_str. assert (flat_map (esc_char true) s = s) as ->; [|done].
  pose proof (token_chars s Hs) as Hc. clear Hs. induction s as [|c s IH]; [done|]. cbn [flat_map].
  rewrite (proj1 (token_char_escape c (Hc c (list_elem_of_here _ _)))), IH; [done|].
  intros x Hx. apply Hc. by right.
Qed.

(** The first and last character of a text keep it from being stripped. *)
Lemma strip_framed c m d : py_isspace c = false → py_isspace d = false → strip (c :: m ++ [d]) = c :: m ++ [d].
Proof.
  intros Hc Hd. unfold strip. cbn [lstrip]. rewrite Hc. rewrite app_comm_cons, rev_unit. cbn [lstrip]. rewrite Hd.
  transitivity (rev (rev (c :: m)) ++ [d]); [done|by rewrite rev_involutive].
Qed.

Lemma lstrip_suffix s : lstrip s `suffix_of` s.
Proof. induction s as [|c s IH]; [done|]. cbn [lstrip]. destruct (py_isspace c); [by apply suffix_cons_r|done]. Qed.

Lemma strip_elem c s : c ∈ strip s → c ∈ s.
Proof.
  assert (∀ t : pystr, c ∈ rev t → c ∈ t) as Hrev by (intros t; rewrite !list_elem_of_In; apply in_rev).
  unfold strip. intros Hc%Hrev%(suffix_elem _ _ _ (lstrip_suffix _))%Hrev.
  by apply (suffix_elem _ _ _ (lstrip_suffix _)).
Qed.

Section counter_file.
Context (kid : pystr) (Hkid : match_token kid = true).

(** The text up to the closing brace. *)
Definition counter_text (counter : Z) : pystr :=
  u "{" ++ [34%N] ++ u "key_id" ++ [34%N] ++ u ": " ++ 34%N :: kid ++ [34%N] ++ u ", " ++
  [34%N] ++ u "counter" ++ [34%N] ++ u ": " ++ int_str counter.

Lemma counter_payload_text c : counter_payload kid c = ascii_bytes (counter_text c ++ [125%N]).
Proof.
  unfold counter_payload. f_equal. cbn [print map fst snd join]. rewrite (print_token kid) by done.
  unfold counter_text. cbn. repeat (rewrite <-!app_assoc; cbn). done.
Qed.

(** ASCII, and no closing brace. *)
Definition plain (x : N) : bool := (x <? 0x80)%N && negb (x =? 125)%N.

Lemma counter_text_plain c : (0 <= c)%Z → forallb plain (counter_text c) = true.
Proof.
  intros Hc. assert (forallb plain kid = true) as Hk.
  { apply forallb_elem_of. intros x Hx%(token_chars kid Hkid). unfold plain.
    rewrite is_token_char_ascii by done. apply token_char_escape in Hx as [_ Hx]. by apply N.eqb_neq in Hx as ->. }
  assert (forallb plain (int_str c) = true) as Hd.
  { unfold int_str. destruct (Z.ltb_spec c 0); [lia|]. pose proof (nat_str_digits (Z.to_N c)) as Hd.
    rewrite forallb_elem_of in *. intros x Hx%Hd. unfold is_digit in Hx. apply in_range_spec in Hx. unfold plain.
    rewrite (proj2 (N.ltb_lt _ _)) by lia. by rewrite (proj2 (N.eqb_neq _ _)) by lia. }
  unfold counter_text. rewrite !forallb_app. cbn [forallb]. rewrite !forallb_app, Hk, Hd. reflexivity.
Qed.

Lemma plain_ascii s : forallb plain s = true → is_ascii s = true.
Proof.
  unfold is_ascii. rewrite !forallb_elem_of. intros Hs x Hx. specialize (Hs x Hx).
  by apply andb_true_iff in Hs as [Hs _].
Qed.

Lemma counter_json_text c :
  counter_text c ++ [125%N] = print true [32%N] (JObj [(u "key_id", JStr kid); (u "counter", JInt c)]).
Proof.
  cbn [print map fst snd join]. rewrite (print_token kid) by done.
  unfold counter_text. cbn. repeat (rewrite <-!app_assoc; cbn). done.
Qed.

Lemma strip_counter_text c : strip (counter_text c ++ [125%N]) = counter_text c ++ [125%N].
Proof. exact (strip_framed 123%N (List.tl (counter_text c)) 125%N eq_refl eq_refl). Qed.

(** A private regular file. *)
Definition sound_file (b : bytes) : file :=
  {| f_regular := true; f_own := true; f_private := true; f_content := b |}.

Definition counter_length (c : Z) : nat := (27 + length kid + length (int_str c))%nat.

Lemma length_counter_payload c : length (counter_payload kid c) = counter_length c.
Proof.
  rewrite counter_payload_text. unfold ascii_bytes, counter_text, counter_length.
  rewrite length_fmap, !length_app. cbn [length]. rewrite !length_app.
  repeat match goal with |- context [length (u ?s)] =>
    let n := eval vm_compute in (length (u s)) in change (length (u s)) with n end.
  cbn [length]. lia.
Qed.

(** The whole text reads back as the counter, if it is not too long. *)
Lemma read_counter_payload f c :
  (0 <= c)%Z → f_content f = counter_payload kid c →
  counter_read kid (File f) =
    if f_regular f && f_own f && f_private f && (counter_length c <=? 64)%nat then Ok c else Raise KeyMaterialError.
Proof.
  intros Hc Hf. unfold counter_read, read_json, validate_descriptor. cbn [open_nofollow mbind result_bind].
  destruct (f_regular f), (f_own f), (f_private f); try done. cbn [require mbind result_bind andb].
  rewrite Hf, length_counter_payload. change COUNTER_FILE_MAX_BYTES with 64%nat.
  destruct (Nat.leb_spec (counter_length c) 64) as [Hle|]; [|done]. cbn [require mbind result_bind].
  rewrite take_ge by (rewrite length_counter_payload; lia). rewrite length_counter_payload.
  rewrite (proj2 (Nat.leb_le _ _) Hle). cbn [require mbind result_bind].
  rewrite counter_payload_text, utf8_decode_ascii.
  2: { rewrite is_ascii_app. apply andb_true_iff. split; [|done]. by apply plain_ascii, counter_text_plain. }
  cbn [of_option mbind result_bind]. rewrite strip_counter_text, counter_json_text.
  unfold loads_dict. rewrite loads_print; [|done|].
  2: { cbn [json_ok forallb snd fst]. rewrite (is_ascii_forallb_scalar kid) by (by apply match_token_ascii). done. }
  transitivity (_ ← require (pystr_eqb kid kid && (0 <=? c)%Z) KeyMaterialError; Ok c); [reflexivity|].
  rewrite pystr_eqb_refl. by rewrite (proj2 (Z.leb_le _ _)) by done.
Qed.

(** A text that was cut off reads as nothing. *)
Lemma read_torn_payload f c k :
  (0 <= c)%Z → (k < length (counter_payload kid c))%nat → f_content f = take k (counter_payload kid c) →
  counter_read kid (File f) = Raise KeyMaterialError.
Proof.
  intros Hc Hk Hf. unfold counter_read, read_json, validate_descriptor. cbn [open_nofollow mbind result_bind].
  destruct (f_regular f), (f_own f), (f_private f); try done. cbn [require mbind result_bind].
  destruct (length (f_content f) <=? COUNTER_FILE_MAX_BYTES)%nat eqn:Hle; [|done]. cbn [require mbind result_bind].
  rewrite (take_ge (f_content f)) by (apply Nat.leb_le in Hle; lia). rewrite Hle. cbn [require mbind result_bind].
  assert (f_content f = ascii_bytes (take k (counter_text c))) as ->.
  { rewrite Hf, counter_payload_text. unfold ascii_bytes. rewrite <-fmap_take. f_equal. apply take_app_le.
    rewrite counter_payload_text in Hk. unfold ascii_bytes in Hk. rewrite length_fmap, length_app in Hk. cbn in Hk. lia. }
  pose proof (counter_text_plain c Hc) as Hp. rewrite <-(take_drop k (counter_text c)), forallb_app in Hp.
  apply andb_true_iff in Hp as [Hp _]. rewrite utf8_decode_ascii by (by apply plain_ascii).
  cbn [of_option mbind result_bind]. unfold loads_dict.
  destruct (loads (strip (take k (counter_text c)))) as [v|] eqn:Hl; [|done]. cbn [fmap option_fmap option_map of_option].
  destruct v as [| | | | | |l]; try done. apply loads_object, strip_elem in Hl. rewrite forallb_elem_of in Hp.
  by specialize (Hp _ Hl).
Qed.

Lemma counter_read_inv n c :
  counter_read kid n = Ok c → (0 <= c)%Z ∧ ∃ f, n = File f ∧ f_regular f = true ∧ f_own f = true ∧ f_private f = true.
Proof.
  unfold counter_read, read_json, validate_descriptor, open_nofollow. intros Hr. destruct n as [| |f]; try done.
  inv_result. destruct x as [| | | | | |l]; try done. inv_result.
  destruct (lookup_item (u "key_id") l) as [[]|]; try done. destruct (lookup_item (u "counter") l) as [[]|]; try done.
  inv_result. split_andb. subst. split; [by apply Z.leb_le|]. by eexists.
Qed.

(** What the reading half of [next] does. *)
Lemma next_read_cases n r n' :
  next_read kid n = (r, n') →
  n' = n ∧ ((∃ e, r = Raise e) ∨
    ∃ c f, n = File f ∧ counter_read kid n = Ok c ∧ (0 <= c < MAX_NONCE_COUNTER)%Z ∧ r = Ok (c + 1)%Z).
Proof.
  unfold next_read, counter_read_, mbind, prog_bind. destruct (counter_read kid n) as [c|e] eqn:Hr.
  2: { intros [= <- <-]. split; [done|]. left. by eexists. }
  destruct (Z.leb_spec MAX_NONCE_COUNTER c); intros [= <- <-]; (split; [done|]); [left; by eexists|].
  destruct (counter_read_inv n c Hr) as (Hc & f & -> & _). right. by exists c, f.
Qed.

Lemma next_exact c :
  (0 <= c)%Z → let n := File (sound_file (counter_payload kid c)) in
  next kid n =
    if (64 <? 27 + length kid + length (int_str c))%nat then (Raise KeyMaterialError, n)
    else if (MAX_NONCE_COUNTER <=? c)%Z then (Raise KeyExhaustedError, n)
    else (Ok (c + 1)%Z, File (sound_file (counter_payload kid (c + 1)))).
Proof.
  intros Hc n. subst n. unfold next, next_read, counter_read_, mbind, prog_bind.
  rewrite (read_counter_payload (sound_file (counter_payload kid c)) c Hc eq_refl).
  cbn [f_regular f_own f_private sound_file andb]. fold (counter_length c).
  destruct (Nat.leb_spec (counter_length c) 64), (Nat.ltb_spec 64 (counter_length c)); try lia; [|done].
  by destruct (MAX_NONCE_COUNTER <=? c)%Z.
Qed.

(** The values handed out are below what the file says, and once a file is
    there it stays. *)
Definition counted (vs : list Z) (n : node) : Prop :=
  (∀ c, counter_read kid n = Ok c → Forall (λ v, v <= c)%Z vs) ∧ (n = Absent → vs = []).

Lemma counted_file vs c f :
  (0 <= c)%Z → f_content f = counter_payload kid c → Forall (λ v, v <= c)%Z vs → counted vs (File f).
Proof.
  intros Hc Hf Hvs. split; [|done]. intros c' Hr. rewrite (read_counter_payload f c Hc Hf) in Hr.
  destruct (_ && _); [|done]. by injection Hr as <-.
Qed.

Lemma counted_torn vs c k f :
  (0 <= c)%Z → f_content f = take k (counter_payload kid c) → Forall (λ v, v <= c)%Z vs → counted vs (File f).
Proof.
  intros Hc Hf Hvs. destruct (decide (k < length (counter_payload kid c))%nat) as [Hk|Hk].
  - split; [|done]. intros c' Hr. by rewrite (read_torn_payload f c k Hc Hk Hf) in Hr.
  - apply (counted_file vs c); [done| |done]. by rewrite Hf, take_ge by lia.
Qed.

Lemma Forall_le_weaken (vs : list Z) c c' : (c <= c')%Z → Forall (λ v, v <= c)%Z vs → Forall (λ v, v <= c')%Z vs.
Proof. intros Hle Hv. eapply Forall_impl; [exact Hv|]. intros v ?. simpl in *. lia. Qed.

(** Callers that exclude each other: at most one is between its reading and
    its writing, and the file is still as it read it. *)
Definition serial (vs : list Z) (s : counters) : Prop :=
  counted vs (c_file s) ∧
  (c_stages s = ∅ ∨
   (∃ p, c_stages s = {[p := Creating]} ∧ node_exists (c_file s) = false) ∨
   ∃ p c f, c_stages s = {[p := Adding (c + 1)]} ∧ c_file s = File f ∧
     counter_read kid (c_file s) = Ok c ∧ (0 <= c < MAX_NONCE_COUNTER)%Z).

(** The file after a write, whole or torn, by the one caller there is. *)
Lemma serial_write vs n ps p g k n' :
  serial vs (mkCounters n ps) → ps !! p = Some g →
  rewrite_node (take k (counter_payload kid (stage_value g))) n = Some n' →
  serial vs (mkCounters n' (delete p ps)) ∧
  (rewrite_node (counter_payload kid (stage_value g)) n = Some n' → serial (vs ++ stage_returned g) (mkCounters n' (delete p ps))) ∧
  Forall (λ v, 0 < v <= MAX_NONCE_COUNTER ∧ Forall (λ w, w < v) vs)%Z (stage_returned g).
Proof.
  intros [[Hv Ha] Hps] Hg Hn. cbn in Ha, Hv, Hps.
  destruct Hps as [->|[(q & -> & He)|(q & c & f & -> & -> & Hr & Hc)]]; [done|..];
    apply lookup_singleton_Some in Hg as [-> <-]; rewrite delete_singleton_eq; cbn [stage_value stage_returned] in *.
  - destruct n as [|b|]; [|done..]. injection Hn as <-. rewrite Ha by done.
    split_and!; [|rewrite app_nil_r; intros [= Hk]|constructor].
    + split; [by apply (counted_torn [] 0 k)|by left].
    + split; [by apply (counted_file [] 0)|by left].
  - specialize (Hv c Hr). injection Hn as <-. split_and!; [|intros [= Hk]|].
    + split; [|by left]. apply (counted_torn _ (c + 1) k); [lia|done|]. by eapply Forall_le_weaken; [|exact Hv]; lia.
    + split; [|by left]. apply (counted_file _ (c + 1)); [lia|done|]. apply Forall_app.
      split; [|by apply Forall_singleton]. by eapply Forall_le_weaken; [|exact Hv]; lia.
    + apply Forall_singleton. split; [lia|]. eapply Forall_impl; [exact Hv|]. intros w Hw. simpl in *. lia.
Qed.

Lemma serial_delete vs n ps p : serial vs (mkCounters n ps) → serial vs (mkCounters n (delete p ps)).
Proof.
  intros [Hc Hps]. split; [done|]. cbn in *.
  assert (∀ (q : nat) (g : stage), delete p {[q := g]} = (∅ : gmap nat stage) ∨ delete p {[q := g]} = ({[q := g]} : gmap nat stage)) as Hd.
  { intros q g. destruct (decide (p = q)) as [->|]; [left; apply delete_singleton_eq|right; by apply delete_singleton_ne]. }
  destruct Hps as [->|[(q & -> & Hn)|(q & c & f & -> & Hrest)]].
  - left. apply delete_empty.
  - destruct (Hd q Creating) as [->| ->]; [by left|]. right. left. by exists q.
  - destruct (Hd q (Adding (c + 1))) as [->| ->]; [by left|]. right. right. by exists q, c, f.
Qed.

Lemma counter_step_serial vs s l s' :
  serial vs s → counter_step kid true s l s' →
  serial (vs ++ l) s' ∧ Forall (λ v, 0 < v <= MAX_NONCE_COUNTER ∧ Forall (λ w, w < v) vs)%Z l ∧ (length l <= 1)%nat.
Proof.
  intros Hser Hs.
  destruct Hs as [p n ps v Hex Hp Hn|n ps e _|p n ps Hex Hp Hn|n ps _|p g n ps n' Hg Hw|p n ps|p g n ps k n' Hg Hw];
    rewrite ?app_nil_r; try (split_and!; [done|constructor|simpl; lia]).
  - split_and!; [|constructor|simpl; lia]. apply next_read_cases in Hn as (_ & [(e & ?)|(c & f & -> & Hr & Hc & [= ->])]); [done|].
    split; [apply Hser|]. right. right. exists p, c, f. by rewrite (Hex eq_refl).
  - split_and!; [|constructor|simpl; lia]. split; [apply Hser|]. right. left. exists p. rewrite (Hex eq_refl).
    split; [done|]. injection Hn as Hn. by apply negb_true_iff in Hn.
  - unfold counter_write in Hw. destruct (rewrite_node _ n) as [n1|] eqn:Hn; [|done]. injection Hw as ->.
    pose proof Hn as Hk. rewrite <-(take_ge (counter_payload kid (stage_value g)) (length (counter_payload kid (stage_value g)))) in Hk by lia.
    destruct (serial_write _ _ _ _ _ _ _ Hser Hg Hk) as (_ & Hs & Hl). split_and!; [by apply Hs|done|destruct g; simpl; lia].
  - split_and!; [by apply serial_delete|constructor|simpl; lia].
  - split_and!; [by eapply serial_write|constructor|simpl; lia].
Qed.

(** Every value is above all values before it. *)
Lemma history_serial s vs s' :
  counter_history kid true s vs s' →
  ∀ vs0, serial vs0 s → serial (vs0 ++ vs) s' ∧ StronglySorted Z.lt vs ∧
    Forall (λ v, 0 < v <= MAX_NONCE_COUNTER)%Z vs.
Proof.
  induction 1 as [s|s vs s1 l s2 _ IH Hs]; intros vs0 Hv; [rewrite app_nil_r; split_and!; [done|constructor..]|].
  destruct (IH vs0 Hv) as (Hv1 & Hsort & Hr). destruct (counter_step_serial _ _ _ _ Hv1 Hs) as (Hv2 & Hl & Hlen).
  rewrite app_assoc. split; [done|]. destruct l as [|v [|]]; [by rewrite app_nil_r| |simpl in Hlen; lia].
  apply Forall_singleton in Hl as [Hrange Hbelow]. apply Forall_app in Hbelow as [_ Hbelow]. split.
  - clear -Hsort Hbelow. induction Hsort as [|w vs Hs IHs Hw]; [repeat constructor|]. apply Forall_cons in Hbelow as [Hlt Hb].
    cbn [app]. constructor; [by apply IHs|]. apply Forall_app. split; [done|by apply Forall_singleton].
  - apply Forall_app. split; [done|by apply Forall_singleton].
Qed.
End counter_file.

(** ** Callers that overlap *)

Section overlap.
Context (kid : pystr) (exclusive : bool).
Implicit Types (n : node) (ps : gmap nat stage).

Lemma history_app s vs s1 ws s2 :
  counter_history kid exclusive s vs s1 → counter_history kid exclusive s1 ws s2 →
  counter_history kid exclusive s (vs ++ ws) s2.
Proof.
  intros H1 H2. induction H2 as [|s1 ws s2 l s3 _ IH Hs]; [by rewrite app_nil_r|].
  rewrite app_assoc. eapply history_snoc; [by apply IH|done].
Qed.

Lemma history_step s l s' : counter_step kid exclusive s l s' → counter_history kid exclusive s l s'.
Proof. intros Hs. by apply (history_snoc kid exclusive s [] s l), Hs; constructor. Qed.

Lemma next_inv n v n' :
  next kid n = (Ok v, n') → next_read kid n = (Ok v, n) ∧ counter_write kid v n = (Ok (), n').
Proof.
  unfold next, mbind, prog_bind. destruct (next_read kid n) as [[x|e] n1] eqn:Hr; [|done].
  pose proof (next_read_cases kid n _ _ Hr) as [-> _]. unfold next_write, mbind, prog_bind.
  destruct (counter_write kid x n) as [[[]|] n2] eqn:Hw; [|done]. by intros [= -> ->].
Qed.

(** A write that was prepared, and nobody else's business. *)
Lemma history_wrote p g n ps n' :
  ps !! p = None → counter_write kid (stage_value g) n = (Ok (), n') →
  counter_history kid exclusive (mkCounters n (<[p := g]> ps)) (stage_returned g) (mkCounters n' ps).
Proof.
  intros Hp Hw. apply history_step. rewrite <-(delete_insert_id ps p g) at 2 by done.
  apply wrote; [apply lookup_insert_eq|done].
Qed.

(** A call nobody disturbs is two steps. *)
Lemma history_next p n ps v n' :
  (exclusive = true → ps = ∅) → ps !! p = None → next kid n = (Ok v, n') →
  counter_history kid exclusive (mkCounters n ps) [v] (mkCounters n' ps).
Proof.
  intros Hex Hp [Hr Hw]%next_inv.
  apply (history_app _ [] (mkCounters n (<[p := Adding v]> ps)) [v]); [by apply history_step, begin_next|].
  by apply (history_wrote p (Adding v)).
Qed.
End overlap.

Lemma overlapping_next kid n v n' :
  next kid n = (Ok v, n') → ∃ s', counter_history kid false (mkCounters n ∅) [v; v] s'.
Proof.
  intros [Hr Hw]%next_inv. assert (∃ n2, counter_write kid v n' = (Ok (), n2)) as [n2 Hw2].
  { unfold counter_write in *. destruct n as [|b|f]; cbn in *; [|done|]; injection Hw as <-; by eexists. }
  exists (mkCounters n2 ∅).
  apply (history_app kid false _ [] (mkCounters n (<[0%nat := Adding v]> (<[1%nat := Adding v]> ∅))) [v; v]).
  - eapply (history_app kid false _ [] _ []); apply history_step; by apply begin_next.
  - apply (history_app kid false _ [v] (mkCounters n' (<[1%nat := Adding v]> ∅)) [v]);
      by apply (history_wrote kid false _ (Adding v)).
Qed.

Lemma overlapping_init kid :
  match_token kid = true → (length kid <= 36)%nat →
  ∃ s', counter_history kid false (mkCounters Absent ∅) [1; 1]%Z s'.
Proof.
  intros Hkid Hlen. set (at_ c := File (sound_file (counter_payload kid c))). exists (mkCounters (at_ 1%Z) ∅).
  assert (next kid (at_ 0%Z) = (Ok 1%Z, at_ 1%Z)) as Hnext.
  { pose proof (next_exact kid Hkid 0 ltac:(done)) as Hn. cbv zeta in Hn. unfold at_. rewrite Hn.
    change (length (int_str 0)) with 1%nat. destruct (Nat.ltb_spec 64 (27 + length kid + 1)); [lia|done]. }
  apply (history_app kid false _ [] (mkCounters Absent (<[0%nat := Creating]> (<[1%nat := Creating]> ∅))) [1; 1]%Z).
  { eapply (history_app kid false _ [] _ []); apply history_step; by apply begin_creating. }
  apply (history_app kid false _ [] (mkCounters (at_ 0%Z) (<[1%nat := Creating]> ∅)) [1; 1]%Z).
  { by apply (history_wrote kid false 0 Creating). }
  apply (history_app kid false _ [1]%Z (mkCounters (at_ 1%Z) (<[1%nat := Creating]> ∅)) [1]%Z).
  { by apply (history_next kid false 0). }
  apply (history_app kid false _ [] (mkCounters (at_ 0%Z) ∅) [1]%Z).
  { by apply (history_wrote kid false 1 Creating). }
  by apply (history_next kid false 0).
Qed.

(** [C32] No nonce is used twice by callers that exclude each other, and
    callers that do not may use one twice.  Whatever happens to the file of
    a counter through this class while no construction or call of [next]
    begins before the one under way has written or stopped (calls that
    return or raise, stops before a write or in the middle of it, in any
    order), the values returned are strictly increasing and lie between 1
    and 2^32: a stop can skip values or leave a file that is refused, never
    repeat one.  But nothing in the code excludes callers.  From every file
    that [next] would count from, two calls that both read before either
    writes return the same value; and of two constructions that both find
    no file, the later one's write starts the count again under the other's
    first call. *)
Theorem nonce_never_repeats kid :
  match_token kid = true →
  (∀ n vs s', counter_history kid true (mkCounters n ∅) vs s' →
     StronglySorted Z.lt vs ∧ NoDup vs ∧ Forall (λ v, 0 < v <= MAX_NONCE_COUNTER)%Z vs) ∧
  (∀ exclusive n v n', next kid n = (Ok v, n') →
     counter_history kid exclusive (mkCounters n ∅) [v] (mkCounters n' ∅)) ∧
  (∀ n v n', next kid n = (Ok v, n') → ∃ s', counter_history kid false (mkCounters n ∅) [v; v] s') ∧
  ((length kid <= 36)%nat → ∃ s', counter_history kid false (mkCounters Absent ∅) [1; 1]%Z s').
Proof.
  intros Hkid. split_and!.
  - intros n vs s' Hh. destruct (history_serial kid Hkid _ vs s' Hh []) as (_ & Hs & Hr).
    { split; [split; [constructor|done]|by left]. }
    split_and!; [done| |done]. clear -Hs. induction Hs as [|v vs _ IH Hv]; constructor; [|done].
    intros Hin. rewrite Forall_forall in Hv. specialize (Hv v Hin). lia.
  - intros exclusive n v n'. by apply (history_next kid exclusive 0).
  - apply overlapping_next.
  - by apply overlapping_init.
Qed.

(** [C39] How far a counter counts.  A fresh counter is created at 0, and
    from a file holding [c] the next call returns [c + 1] and leaves a file
    holding it, until 2^32 is reached; except that the file of 27
    characters, the key's identifier and the digits of [c] must fit 64
    bytes to be read again.  So an identifier of 37 or more characters
    (valid up to 128) gives a counter that is constructed and then refuses
    every call, and one of 28 to 36 a counter that stops at a power of ten. *)
Theorem counter_capacity kid :
  match_token kid = true →
  NonceCounter_init kid Absent = (Ok (), File (sound_file (counter_payload kid 0))) ∧
  (∀ c, (0 <= c)%Z → let n := File (sound_file (counter_payload kid c)) in
     next kid n =
       if (64 <? 27 + length kid + length (int_str c))%nat then (Raise KeyMaterialError, n)
       else if (MAX_NONCE_COUNTER <=? c)%Z then (Raise KeyExhaustedError, n)
       else (Ok (c + 1)%Z, File (sound_file (counter_payload kid (c + 1))))) ∧
  ((37 <= length kid)%nat → ∀ c, (0 <= c)%Z →
     fst (next kid (File (sound_file (counter_payload kid c)))) = Raise KeyMaterialError).
Proof.
  intros Hkid. pose proof (next_exact kid Hkid) as Hnext.
  split_and!; [|exact Hnext|].
  - unfold NonceCounter_init, mbind, prog_bind, lift. by rewrite Hkid.
  - intros Hlen c Hc. rewrite Hnext by done. assert (1 <= length (int_str c))%nat.
    { unfold int_str. destruct (Z.ltb_spec c 0); [lia|]. destruct (nat_str_cons (Z.to_N c)) as (x & s & -> & _). cbn. lia. }
    destruct (Nat.ltb_spec 64 (27 + length kid + length (int_str c))); [done|lia].
Qed.

(** ** Concrete counters *)

Module SampleCounter.
Definition kid : pystr := u "key-1".
Definition count0 : node := Eval vm_compute in File (sound_file (counter_payload kid 0)).
Definition count1 : node := Eval vm_compute in File (sound_file (counter_payload kid 1)).
Definition count2 : node := Eval vm_compute in File (sound_file (counter_payload kid 2)).
(** The third value was being written. *)
Definition torn : node := Eval vm_compute in File (sound_file (take 20 (counter_payload kid 3))).

Definition alone (n : node) : counters := mkCounters n ∅.

Lemma extend s l s' : counter_history kid true s l s' → ∀ vs s0, counter_history kid true s0 vs s → counter_history kid true s0 (vs ++ l) s'.
Proof. intros H2 vs s0 H1. by apply (history_app kid true _ _ s). Qed.

Lemma created : counter_history kid true (alone Absent) [] (alone count0).
Proof.
  apply (history_app kid true _ [] (mkCounters Absent (<[0%nat := Creating]> ∅)) []).
  - by apply history_step, begin_creating.
  - apply (history_wrote kid true 0 Creating); [done|]. vm_compute. reflexivity.
Qed.
Lemma first : counter_history kid true (alone count0) [1]%Z (alone count1).
Proof. apply (history_next kid true 0); [done..|]. vm_compute. reflexivity. Qed.
Lemma second : counter_history kid true (alone count1) [2]%Z (alone count2).
Proof. apply (history_next kid true 0); [done..|]. vm_compute. reflexivity. Qed.
Lemma stopped : counter_history kid true (alone count2) [] (alone torn).
Proof.
  apply (history_app kid true _ [] (mkCounters count2 (<[0%nat := Adding 3]> ∅)) []).
  - apply history_step, begin_next; [done..|]. vm_compute. reflexivity.
  - apply history_step. unfold alone. rewrite <-(delete_insert_id (∅ : gmap nat stage) 0 (Adding 3)) at 2 by done.
    apply (torn_write kid true 0 (Adding 3) count2 (<[0%nat := Adding 3]> ∅) 20 torn); [done|].
    vm_compute. reflexivity.
Qed.
Lemma torn_refused : counter_history kid true (alone torn) [] (alone torn).
Proof. apply history_step, (next_refused kid true _ _ KeyMaterialError). vm_compute. reflexivity. Qed.

Lemma story : counter_history kid true (alone Absent) [1; 2]%Z (alone torn).
Proof.
  exact (extend _ _ _ torn_refused _ _ (extend _ _ _ stopped _ _ (extend _ _ _ second _ _ (extend _ _ _ first _ _ created)))).
Qed.

(** Forty characters. *)
Definition long : pystr := u "tier1-encryption-2026-09-production-lab1".
End SampleCounter.

Lemma nonce_never_repeats_witness :
  NoDup [1; 2]%Z ∧
  (∃ s', counter_history SampleCounter.kid false (mkCounters SampleCounter.count1 ∅) [2; 2]%Z s') ∧
  ∃ s', counter_history SampleCounter.kid false (mkCounters Absent ∅) [1; 1]%Z s'.
Proof.
  destruct (nonce_never_repeats SampleCounter.kid ltac:(vm_compute; reflexivity)) as (Hserial & _ & Hnext & Hinit).
  split; [exact (proj1 (proj2 (Hserial Absent [1; 2]%Z _ SampleCounter.story)))|].
  split; [apply (Hnext _ _ SampleCounter.count2); vm_compute; reflexivity|].
  apply Hinit. vm_compute. lia.
Defined.

Lemma counter_capacity_witness :
  match_token SampleCounter.long = true ∧
  fst (next SampleCounter.long (File (sound_file (counter_payload SampleCounter.long 0)))) = Raise KeyMaterialError.
Proof.
  split; [vm_compute; reflexivity|].
  exact (proj2 (proj2 (counter_capacity SampleCounter.long ltac:(vm_compute; reflexivity)))
    ltac:(vm_compute; lia) 0%Z ltac:(lia)).
Defined.
