(* ===== verification/WriteApi.v ===== *)
(** * The mutation chokepoint

    [write_api_client.py] and [write_endpoints.py]: the allow-list of write
    endpoints and the three methods that can reach the transport with a
    non-GET request; [transport/http.py]: the transport's classification of
    what [httpx] raised; [tier1/acceptance.py]: the context of the
    first-live-acceptance path.

    The world of a session is the store's world together with the list of
    requests handed to the transport so far, each with the tables of the
    store at that moment and what came back.  The list is an observation:
    no definition reads it. *)

From S2P Require Import Prelude PyStr PyDatetime StateMachine Database.

(** ** Transport *)

Record TransportResponse : Type := { status_code : Z; text : pystr }.

(** What [httpx.Client.request] can end in: a response, one of the
    exception classes [HttpTransport.request] names, another
    [httpx.TransportError] ([ReadError], [WriteError], [CloseError],
    [RemoteProtocolError], ...), or any other exception. *)
Inductive httpx_outcome : Type :=
  | HxResponse (r : TransportResponse)
  | HxConnectError | HxConnectTimeout | HxPoolTimeout
  | HxOtherTimeout          (* [ReadTimeout], [WriteTimeout] *)
  | HxOtherTransportError
  | HxOther (e : exn).

Definition is_TransportConnectionError (e : exn) : bool :=
  bool_decide (e ∈ [TransportConnectionError; TransportRequestNotSentError]).

(** [HttpTransport.request]; [client] is [httpx.Client.request]. *)
Definition HttpTransport_request {E} (client : pystr → pystr → option bytes → E → httpx_outcome * E)
    (method path : pystr) (body : option bytes) : prog E TransportResponse := λ e,
  let '(o, e') := client method path body e in
  (match o with
   | HxResponse r => Ok r
   | HxConnectError | HxConnectTimeout | HxPoolTimeout => Raise TransportRequestNotSentError
   | HxOtherTimeout => Raise TransportTimeoutError
   | HxOtherTransportError => Raise TransportConnectionError
   | HxOther x => Raise x
   end, e').

(** ** Write endpoints *)

Inductive ApiVersion : Type := V2.
Definition version_value (v : ApiVersion) : pystr := match v with V2 => u "v2" end.
Definition VERSION_ORDER (v : ApiVersion) : nat := match v with V2 => 2 end.
Definition version_at_least (current minimum : ApiVersion) : bool :=
  (VERSION_ORDER minimum <=? VERSION_ORDER current)%nat.

Record WriteEndpointInfo : Type := {
  path_suffix : pystr;
  we_http_method : pystr;
  verified : bool;
  min_api_version : ApiVersion;
  reversible : bool;
  dry_run_supported : bool;
  acceptance_eligible : bool;
}.

(** The attributes of [WriteEndpoints]. *)
Definition patch_entry (path : string) (verified : bool) : WriteEndpointInfo := {|
  path_suffix := u path; we_http_method := u "PATCH"; verified := verified; min_api_version := V2;
  reversible := true; dry_run_supported := true; acceptance_eligible := true |}.

Definition WriteEndpoints : list (pystr * WriteEndpointInfo) := [
  (u "FIREWALL_ALIAS_DESCRIPTION", patch_entry "/firewall/alias" true);
  (u "NTP_TIME_SERVER_PREFER", patch_entry "/services/ntp/time_server" false);
  (u "NTP_SETTINGS_OBSERVABILITY_TOGGLES", patch_entry "/services/ntp/settings" false);
  (u "LOG_DISPLAY_PREFERENCES", patch_entry "/status/logs/settings" false);
  (u "LOG_RETENTION_SETTINGS", patch_entry "/status/logs/settings" false);
  (u "SYSTEM_TIMEZONE", patch_entry "/system/timezone" false)].

Definition active_entries : list pystr := WriteEndpoints.*1.

Definition resolve_endpoint (endpoint_symbol : pystr) : option WriteEndpointInfo :=
  snd <$> find (λ kv, pystr_eqb (fst kv) endpoint_symbol) WriteEndpoints.

(** ** Sessions *)

(** One call of [Transport.request]. *)
Record Send : Type := {
  sent_method : pystr; sent_path : pystr; sent_body : option bytes;
  sent_tables : DB; sent_reply : result TransportResponse }.

Record Session (E : Type) : Type := mkSession { world : World E; sends : list Send }.
Arguments mkSession {_} _ _.
Arguments world {_} _.
Arguments sends {_} _.

Section session.
Context {E : Type}.

(** A call of the store, and one of any other object. *)
Definition on_store {A} (p : prog (World E) A) : prog (Session E) A := λ s,
  let '(r, w) := p (world s) in (r, mkSession w (sends s)).
Definition on_env {A} (p : prog E A) : prog (Session E) A := on_store (env_call p).
End session.

(** ** The write client *)

Record WriteApiClient (E : Type) : Type := {
  transport_request : pystr → pystr → option bytes → prog E TransportResponse;
  identity : pystr;
  api_version : ApiVersion;
}.
Arguments transport_request {_} _ _ _ _.
Arguments identity {_} _.
Arguments api_version {_} _.

(** [AcceptanceExecutionContext] *)
Record AcceptanceExecutionContext : Type := {
  ac_endpoint_symbol : pystr; ac_http_method : pystr; ac_target_identity : pystr; ac_issued_at : datetime }.

Inductive ContractStatus : Type := OPEN | COMMITTED | ROLLED_BACK_TIER0 | EXPIRED_TIER0.

#[global] Instance ContractStatus_eq_dec : EqDecision ContractStatus.
Proof. solve_decision. Defined.

(** The fields of the Tier 0 contract and plan that [WriteApiClient.execute] reads. *)
Record Tier0Contract : Type := {
  t0_contract_id : pystr; t0_endpoint_symbol : pystr; t0_expires_at_utc : datetime;
  t0_status : ContractStatus }.
Record MutationPlan : Type := { mp_endpoint_symbol : pystr; mp_http_method : pystr }.

Definition t0_is_expired (c : Tier0Contract) (now : datetime) : bool := dt_leb (t0_expires_at_utc c) now.

Section client.
Context {E : Type} (client : WriteApiClient E).

(** [_request] *)
Definition request (method path : pystr) (body : option bytes) : prog (Session E) TransportResponse := λ s,
  let '(r, e) := transport_request client method path body (env (world s)) in
  (r, mkSession (mkWorld (db (world s)) e)
        (sends s ++ [{| sent_method := method; sent_path := path; sent_body := body;
                        sent_tables := db (world s); sent_reply := r |}])).

(** [f"/api/{version}{path_suffix}"] *)
Definition request_path (endpoint : WriteEndpointInfo) : pystr :=
  u "/api/" ++ version_value (api_version client) ++ path_suffix endpoint.

Definition send_for_tier1 (endpoint_symbol http_method : pystr) (body : bytes)
    : prog (Session E) TransportResponse :=
  match resolve_endpoint endpoint_symbol with
  | None => raise WriteNotAllowedError
  | Some endpoint =>
    if negb (verified endpoint) then raise WriteNotAllowedError else
    if negb (pystr_eqb (we_http_method endpoint) http_method) then raise WriteNotAllowedError else
    if negb (version_at_least (api_version client) (min_api_version endpoint))
    then raise WriteNotAllowedError else
    request http_method (request_path endpoint) (Some body)
  end.

Definition send_for_tier1_acceptance (acceptance_context : AcceptanceExecutionContext)
    (endpoint_symbol http_method : pystr) (body : bytes) : prog (Session E) TransportResponse :=
  match resolve_endpoint endpoint_symbol with
  | None => raise WriteNotAllowedError
  | Some endpoint =>
    if negb (acceptance_eligible endpoint) then raise WriteNotAllowedError else
    if verified endpoint then raise WriteNotAllowedError else
    if negb (pystr_eqb (we_http_method endpoint) http_method) then raise WriteNotAllowedError else
    if negb (pystr_eqb (ac_endpoint_symbol acceptance_context) endpoint_symbol)
    then raise WriteNotAllowedError else
    if negb (pystr_eqb (ac_http_method acceptance_context) http_method) then raise WriteNotAllowedError else
    if negb (pystr_eqb (ac_target_identity acceptance_context) (identity client))
    then raise WriteNotAllowedError else
    if negb (version_at_least (api_version client) (min_api_version endpoint))
    then raise WriteNotAllowedError else
    request http_method (request_path endpoint) (Some body)
  end.

(** [WriteApiClient.execute], the Tier 0 entry; [now] is the clock [is_expired] reads.  The
    result is the status code. *)
Definition WriteApiClient_execute (now : datetime) (plan : MutationPlan) (contract : option Tier0Contract)
    : prog (Session E) (pystr * Z) :=
  match resolve_endpoint (mp_endpoint_symbol plan) with
  | None => raise WriteNotAllowedError
  | Some endpoint =>
    if negb (pystr_eqb (we_http_method endpoint) (mp_http_method plan)) then raise WriteNotAllowedError else
    match contract with
    | None => raise WriteNotAllowedError
    | Some contract =>
      if negb (bool_decide (t0_status contract = OPEN)) || t0_is_expired contract now
      then raise WriteNotAllowedError else
      if negb (version_at_least (api_version client) (min_api_version endpoint))
      then raise WriteNotAllowedError else
      response ← request (mp_http_method plan) (request_path endpoint) None;
      mret (t0_contract_id contract, status_code response)
    end
  end.
End client.

(** ** Acceptance contexts *)

Definition ACCEPTANCE_TARGET_BASE_URL : pystr := u "https://pfsense-test.lab.invalid".
Definition ACCEPTANCE_TARGET_IDENTITY : pystr := u "pfsense_lab1".
Definition CONTEXT_MAX_AGE : Z := 1800.     (* seconds *)

Definition AcceptanceExecutionContext_new (c : AcceptanceExecutionContext) : result AcceptanceExecutionContext :=
  _ ← require (negb (length (ac_endpoint_symbol c) =? 0)%nat) AcceptanceError;
  _ ← require (negb (length (ac_http_method c) =? 0)%nat) AcceptanceError;
  _ ← require (pystr_eqb (ac_target_identity c) ACCEPTANCE_TARGET_IDENTITY) AcceptanceError;
  _ ← require (is_utc (ac_issued_at c)) AcceptanceError;
  Ok c.

Definition is_fresh (c : AcceptanceExecutionContext) (now : datetime) : result bool :=
  _ ← require (is_utc now) AcceptanceError;
  if dt_leb (ac_issued_at c) now then
    until ← dt_add_seconds (ac_issued_at c) CONTEXT_MAX_AGE;
    Ok (dt_ltb now until)
  else Ok false.

Definition issue_acceptance_context (base_url identity endpoint_symbol : pystr) (now : datetime)
    : result AcceptanceExecutionContext :=
  _ ← require (pystr_eqb base_url ACCEPTANCE_TARGET_BASE_URL) AcceptanceError;
  _ ← require (pystr_eqb identity ACCEPTANCE_TARGET_IDENTITY) AcceptanceError;
  endpoint ← of_option (resolve_endpoint endpoint_symbol) AcceptanceError;
  _ ← require (acceptance_eligible endpoint) AcceptanceError;
  _ ← require (negb (verified endpoint)) AcceptanceError;
  AcceptanceExecutionContext_new {|
    ac_endpoint_symbol := endpoint_symbol; ac_http_method := we_http_method endpoint;
    ac_target_identity := identity; ac_issued_at := now |}.

(** ** Properties *)

(** One goal per entry of the allow-list. *)
Ltac endpoint_cases H :=
  unfold WriteEndpoints in H; rewrite !elem_of_cons in H;
  destruct_or! H; try (by apply elem_of_nil in H); injection H as -> ->.

Lemma resolve_endpoint_elem sym ep : resolve_endpoint sym = Some ep ↔ (sym, ep) ∈ WriteEndpoints.
Proof.
  unfold resolve_endpoint. rewrite fmap_Some. split.
  - intros ([k v] & [Hin Hk]%find_some & ->). apply pystr_eqb_eq in Hk. cbn in Hk. subst.
    by apply list_elem_of_In.
  - intros Hin. endpoint_cases Hin; eexists; split; vm_compute; reflexivity.
Qed.

Lemma request_spec {E} (client : WriteApiClient E) m p b s r s' :
  request client m p b s = (r, s') →
  db (world s') = db (world s) ∧
  transport_request client m p b (env (world s)) = (r, env (world s')) ∧
  sends s' = sends s ++ [{| sent_method := m; sent_path := p; sent_body := b;
                            sent_tables := db (world s); sent_reply := r |}].
Proof. unfold request. destruct (transport_request _ _ _ _ _) as [x e]. by intros [= -> <-]. Qed.

(** Both Tier 1 entries refuse without touching anything, or make one
    request for an entry of the allow-list under its own method. *)
Definition one_request {E} (client : WriteApiClient E) (symbol method : pystr) (body : bytes) (was_verified : bool)
    (out : Session E → result TransportResponse * Session E) (s : Session E) : Prop :=
  out s = (Raise WriteNotAllowedError, s) ∨
  ∃ ep, (symbol, ep) ∈ WriteEndpoints ∧ we_http_method ep = method ∧ verified ep = was_verified ∧
        out s = request client method (request_path client ep) (Some body) s.

Lemma send_for_tier1_one {E} (client : WriteApiClient E) symbol method body s :
  one_request client symbol method body true (send_for_tier1 client symbol method body) s.
Proof.
  unfold one_request, send_for_tier1. destruct (resolve_endpoint symbol) as [ep|] eqn:Er; [|by left].
  apply resolve_endpoint_elem in Er. destruct (verified ep) eqn:Ev; cbn [negb]; [|by left].
  destruct (pystr_eqb (we_http_method ep) method) eqn:Em; cbn [negb]; [|by left].
  destruct (version_at_least _ _); cbn [negb]; [|by left]. right. exists ep.
  by apply pystr_eqb_eq in Em.
Qed.

Lemma send_for_tier1_acceptance_one {E} (client : WriteApiClient E) ctx symbol method body s :
  one_request client symbol method body false (send_for_tier1_acceptance client ctx symbol method body) s.
Proof.
  unfold one_request, send_for_tier1_acceptance. destruct (resolve_endpoint symbol) as [ep|] eqn:Er; [|by left].
  apply resolve_endpoint_elem in Er. destruct (acceptance_eligible ep); cbn [negb]; [|by left].
  destruct (verified ep) eqn:Ev; [by left|].
  destruct (pystr_eqb (we_http_method ep) method) eqn:Em; cbn [negb]; [|by left].
  repeat case_match; try (by left). right. exists ep. by apply pystr_eqb_eq in Em.
Qed.

(** [C20] The chokepoint is closed.  In this build [send_for_tier1] reaches
    the transport for one symbol and one method only, the alias
    description by PATCH on its one path, with exactly one request; every
    other call raises [WriteNotAllowedError] and changes nothing.  The
    acceptance entry never reaches it for that symbol, and for any other
    only under a context for this very call and this client's identity. *)
Theorem chokepoint_closed {E} (client : WriteApiClient E) symbol method body s :
  (if pystr_eqb symbol (u "FIREWALL_ALIAS_DESCRIPTION") && pystr_eqb method (u "PATCH") then
     send_for_tier1 client symbol method body s =
       request client method (u "/api/v2/firewall/alias") (Some body) s ∧
     ∀ ctx, send_for_tier1_acceptance client ctx symbol method body s = (Raise WriteNotAllowedError, s)
   else
     send_for_tier1 client symbol method body s = (Raise WriteNotAllowedError, s) ∧
     ∀ ctx r s', send_for_tier1_acceptance client ctx symbol method body s = (r, s') →
       s' = s ∧ r = Raise WriteNotAllowedError ∨
       method = u "PATCH" ∧ symbol ∈ active_entries ∧ length (sends s') = S (length (sends s)) ∧
       ac_endpoint_symbol ctx = symbol ∧ ac_http_method ctx = method ∧
       ac_target_identity ctx = identity client).
Proof.
  destruct (pystr_eqb symbol _ && _) eqn:Eb.
  - rewrite andb_true_iff, !pystr_eqb_eq in Eb. destruct Eb as [-> ->]. split; [|done].
    unfold send_for_tier1, request_path. by destruct (api_version client).
  - split.
    + destruct (send_for_tier1_one client symbol method body s) as [?|(ep & Hin & Hm & Hv & _)]; [done|].
      exfalso. endpoint_cases Hin; simpl in Hv, Hm; try done. subst method. by rewrite !pystr_eqb_refl in Eb.
    + intros ctx r s'. unfold send_for_tier1_acceptance. destruct (resolve_endpoint symbol) as [ep|] eqn:Er;
        [|intros [= <- <-]; by left].
      apply resolve_endpoint_elem in Er as Hin.
      destruct (acceptance_eligible ep); cbn [negb]; [|intros [= <- <-]; by left].
      destruct (verified ep); [intros [= <- <-]; by left|].
      destruct (pystr_eqb (we_http_method ep) method) eqn:Em; cbn [negb]; [|intros [= <- <-]; by left].
      destruct (pystr_eqb (ac_endpoint_symbol ctx) symbol) eqn:E1; cbn [negb]; [|intros [= <- <-]; by left].
      destruct (pystr_eqb (ac_http_method ctx) method) eqn:E2; cbn [negb]; [|intros [= <- <-]; by left].
      destruct (pystr_eqb (ac_target_identity ctx) _) eqn:E3; cbn [negb]; [|intros [= <- <-]; by left].
      destruct (version_at_least _ _); cbn [negb]; [|intros [= <- <-]; by left].
      intros (_ & _ & Hs)%request_spec. right. rewrite !pystr_eqb_eq in *. rewrite Hs, length_app. cbn.
      split_and!; try done; [|by apply (list_elem_of_fmap_2 fst) in Hin|lia]. subst method.
      by endpoint_cases Hin.
Qed.

(** The Tier 0 entry is not closed.  [WriteApiClient.execute] never
    looks at [verified], at the endpoint the contract was opened for or at
    the plan's payload: under any open, unexpired contract it hands the
    transport one request for any entry of the allow-list, verified or
    not, and the request has no body. *)
Theorem tier0_execute_unverified {E} (client : WriteApiClient E) now symbol ep contract s :
  (symbol, ep) ∈ WriteEndpoints → t0_status contract = OPEN → t0_is_expired contract now = false →
  ∃ x, sends (snd (WriteApiClient_execute client now
         {| mp_endpoint_symbol := symbol; mp_http_method := we_http_method ep |} (Some contract) s)) =
       sends s ++ [x] ∧
       sent_method x = u "PATCH" ∧ sent_path x = request_path client ep ∧ sent_body x = None.
Proof.
  intros Hin Hs He. unfold WriteApiClient_execute. cbn [mp_endpoint_symbol mp_http_method].
  assert (we_http_method ep = u "PATCH" ∧ version_at_least (api_version client) (min_api_version ep) = true)
    as [Hm Hv].
  { endpoint_cases Hin; by destruct (api_version client). }
  apply resolve_endpoint_elem in Hin as ->. rewrite pystr_eqb_refl, Hs, He, Hv. cbn [negb orb].
  rewrite bool_decide_true by done. cbn [negb orb]. unfold mbind, prog_bind. destruct (request client _ _ _ _) as [r s'] eqn:Hr.
  apply request_spec in Hr as (_ & _ & Hr). exists {| sent_method := we_http_method ep;
    sent_path := request_path client ep; sent_body := None; sent_tables := db (world s); sent_reply := r |}.
  by destruct r.
Qed.

Module SampleClient.
(** A network that answers 200 and counts the requests. *)
Definition client : WriteApiClient Z := {|
  transport_request _ _ _ := λ n, (Ok {| status_code := 200; text := [] |}, (n + 1)%Z);
  identity := u "pfsense"; api_version := V2 |}.
Definition start : Session Z := mkSession (mkWorld empty_db 0%Z) [].
Definition contract : Tier0Contract := {|
  t0_contract_id := u "c0"; t0_endpoint_symbol := u "FIREWALL_ALIAS_DESCRIPTION";
  t0_expires_at_utc := mk_datetime 2026 9 6 12 0 0 0 (Some 0%Z); t0_status := OPEN |}.
End SampleClient.

Lemma tier0_execute_unverified_witness :
  ∃ x, sends (snd (WriteApiClient_execute SampleClient.client (mk_datetime 2026 9 6 11 0 0 0 (Some 0%Z))
         {| mp_endpoint_symbol := u "SYSTEM_TIMEZONE"; mp_http_method := u "PATCH" |}
         (Some SampleClient.contract) SampleClient.start)) = [x] ∧ sent_body x = None.
Proof.
  destruct (tier0_execute_unverified SampleClient.client (mk_datetime 2026 9 6 11 0 0 0 (Some 0%Z))
    (u "SYSTEM_TIMEZONE") (patch_entry "/system/timezone" false) SampleClient.contract SampleClient.start)
    as (x & Hx & _ & _ & Hb); [|reflexivity|reflexivity|].
  - apply resolve_endpoint_elem. vm_compute. reflexivity.
  - exact (ex_intro _ x (conj Hx Hb)).
Defined.
