(* ===== verification/Executor.v ===== *)
(** * The sealed mutation executor

    [tier1/executor.py], with [tier1/transport_target.py].  An execution is
    a program over a session: the recovery store's world and the requests
    handed to the transport.  Capability adapters, the read client and the
    request models are parameters; message texts are not modelled. *)

From S2P Require Import Prelude PyStr Sha256 PyDatetime Json Capability StateMachine.
From S2P Require Import Canonical PyJson Contract Evidence StoreCodec Database RatePolicy.
From S2P Require Import AntiRollback Store SealedApproval Crypto WriteApi.

(** [ResolvedTransportTarget] *)
Record ResolvedTransportTarget : Type := { numeric_locator : Z; tt_target_identity_digest : pystr }.

Definition ResolvedTransportTarget_new (t : ResolvedTransportTarget) : result ResolvedTransportTarget :=
  _ ← require ((0 <=? numeric_locator t) && (numeric_locator t <=? 2147483647))%Z ContractValidationError;
  _ ← require (match_hex64 (tt_target_identity_digest t)) ContractValidationError;
  Ok t.

(** [CapabilityAdapter].  [Raw] is what [read_target] returns, [Request] a
    typed request model; [None] is an object that is no [BaseModel]. *)
Record CapabilityAdapter (E Raw Request : Type) : Type := {
  ad_endpoint_symbol : pystr;
  ad_http_method : pystr;
  ad_capability : Capability;
  read_target : pyobj → prog E Raw;
  natural_identity : Raw → result pyobj;
  fingerprint : Raw → result pyobj;
  transport_locator : Raw → result Z;
  build_request : pyobj → ResolvedTransportTarget → result (option Request);
  parse_response : TransportResponse → result ();
  is_semantically_verified : Raw → Raw → pyobj → result bool;
  build_rollback_request : pyobj → ResolvedTransportTarget → result (option Request);
  is_rollback_verified : pyobj → Raw → result bool;
}.
Arguments ad_endpoint_symbol {_ _ _} _.
Arguments ad_http_method {_ _ _} _.
Arguments ad_capability {_ _ _} _.
Arguments read_target {_ _ _} _ _.
Arguments natural_identity {_ _ _} _ _.
Arguments fingerprint {_ _ _} _ _.
Arguments transport_locator {_ _ _} _ _.
Arguments build_request {_ _ _} _ _ _.
Arguments parse_response {_ _ _} _ _.
Arguments is_semantically_verified {_ _ _} _ _ _ _.
Arguments build_rollback_request {_ _ _} _ _ _.
Arguments is_rollback_verified {_ _ _} _ _ _.

(** What [__init__] keeps, with the parameters: the settings of the read
    client ([read_only], [None] for a value that is no [bool]),
    [request.model_dump_json().encode()], and the view of a canonical value
    as a raw target ([intent["raw_target_hint"]]). *)
Record MutationExecutor (E Raw Request : Type) : Type := {
  x_store : Config E;
  x_write_client : WriteApiClient E;
  get_system_restapi_settings : prog E (option bool);
  x_policy : Policy.MutationPolicy;
  x_encryption_key : bytes;
  capability_security_classes : Capability → option WriteSecurityClass;
  approval_authorities : option (list PinnedAuthority);
  approval_source : option (pystr → prog E (option SealedWriteApproval));
  x_clock : E → datetime * E;
  model_dump_json : Request → result bytes;
  of_hint : pyobj → Raw;
}.
Arguments x_store {_ _ _} _.
Arguments x_write_client {_ _ _} _.
Arguments get_system_restapi_settings {_ _ _} _.
Arguments x_policy {_ _ _} _.
Arguments x_encryption_key {_ _ _} _.
Arguments capability_security_classes {_ _ _} _ _.
Arguments approval_authorities {_ _ _} _.
Arguments approval_source {_ _ _} _.
Arguments x_clock {_ _ _} _ _.
Arguments model_dump_json {_ _ _} _ _.
Arguments of_hint {_ _ _} _ _.

Record ExecutionOutcome : Type := { out_contract_id : pystr; out_state : RecoveryState }.

Record AuthoritativeReconciliationObservation : Type := {
  ob_contract_id : pystr; ob_operation_id : pystr; ob_state_version : Z;
  ob_uncertainty_origin : RecoveryState; ob_target_fingerprint : pystr; ob_lifecycle_locator : Z }.

(** [d[key]] for a string key. *)
Definition dict_get (key : pystr) (d : list (pyobj * pyobj)) : result pyobj :=
  of_option (snd <$> find (λ kv, match fst kv with PStr k => pystr_eqb k key | _ => false end) d) KeyError.

(** [try: value = p except Exception as exc: ...]: the exception becomes a
    value. *)
Definition attempt {W A} (p : prog W A) : prog W (result A) := λ w,
  let '(r, w') := p w in (Ok r, w').

Section executor.
Context `{Hash} `{UnicodeData} `{AESGCM} `{Ed25519} {E Raw Request : Type}.
Context (x : MutationExecutor E Raw Request).
Implicit Types contract executing : RecoveryContract.
Implicit Types adapter : CapabilityAdapter E Raw Request.

Notation M A := (prog (Session E) A).

(** [_now] *)
Definition x_now : M datetime :=
  on_env (λ e, let '(instant, e') := x_clock x e in
    (if is_utc instant then Ok instant else Raise ContractValidationError, e')).

(** ** Shared helpers *)

(** [_fingerprint_digest] *)
Definition fingerprint_digest contract (raw_fingerprint : pyobj) : result pystr :=
  digest_value TARGET_FINGERPRINT raw_fingerprint
    [capability_name (rc_capability contract); rc_endpoint_symbol contract; rc_http_method contract].

(** [_resolve_transport_target] *)
Definition resolve_transport_target contract adapter (raw_target : Raw) : result ResolvedTransportTarget :=
  identity ← natural_identity adapter raw_target;
  identity_digest ← digest_value TARGET_IDENTITY identity [capability_name (rc_capability contract)];
  _ ← require (compare_digest identity_digest (rc_target_identity_digest contract)) ContractValidationError;
  locator ← transport_locator adapter raw_target;
  _ ← require (locator =? rc_lifecycle_locator contract)%Z ContractValidationError;
  ResolvedTransportTarget_new {| numeric_locator := locator; tt_target_identity_digest := identity_digest |}.

(** [_decrypt] *)
Definition decrypt contract (artifact : ProtectedArtifact) (role : ArtifactRole) : result pyobj :=
  plaintext_bytes ← decrypt_artifact (x_encryption_key x) artifact (rc_contract_id contract) role;
  value ← loads_bytes plaintext_bytes;
  plaintext ← validate_canonical_value (py_of_json value);
  Ok (py_of_json plaintext).

(** [_send]: what a reply, or the exception raised for it, proves. *)
Definition classify_reply (reply : result TransportResponse)
    : MutationBoundary * EffectKnowledge * option TransportResponse :=
  match reply with
  | Raise e =>
    if bool_decide (e = WriteNotAllowedError) then (BEFORE_SEND, PROVEN_NONE, None)
    else if is_TransportConnectionError e then (BEFORE_SEND, PROVEN_NONE, None)
    else (AFTER_SEND, AMBIGUOUS, None)
  | Ok response =>
    if ((200 <=? status_code response) && (status_code response <? 300))%Z
    then (AFTER_SEND, VERIFIED_SUCCESS, Some response)
    else if ((400 <=? status_code response) && (status_code response <? 500))%Z
    then (AFTER_SEND, VERIFIED_FAILURE, Some response)
    else (AFTER_SEND, AMBIGUOUS, Some response)
  end.

Definition send contract (request : Request) (acceptance_context : option AcceptanceExecutionContext)
    : M (MutationBoundary * EffectKnowledge * option TransportResponse) :=
  body ← lift (model_dump_json x request);
  reply ← attempt
    match acceptance_context with
    | None => send_for_tier1 (x_write_client x) (rc_endpoint_symbol contract) (rc_http_method contract) body
    | Some c =>
      send_for_tier1_acceptance (x_write_client x) c (rc_endpoint_symbol contract) (rc_http_method contract) body
    end;
  mret (classify_reply reply).

(** ** execute *)

(** [_verify_standard_sealed_write_approval] *)
Definition verify_standard_sealed_write_approval contract : M bool :=
  match approval_authorities x, approval_source x with
  | Some authorities, Some source =>
    approval ← attempt (on_env (source (rc_contract_id contract)));
    match approval with
    | Raise _ | Ok None => mret false
    | Ok (Some approval) =>
      now ← x_now;
      lift (verify_sealed_write_approval approval authorities now (rc_contract_id contract)
        (rc_state_version contract) (rc_security_class contract) (rc_intent_digest contract)
        (rc_target_identity_digest contract))
    end
  | _, _ => mret false
  end.

(** [_require_pfrest_writable] *)
Definition require_pfrest_writable : M () :=
  settings ← attempt (on_env (get_system_restapi_settings x));
  match settings with
  | Raise _ => raise GlobalReadOnlyBlockedError
  | Ok read_only => lift (require (bool_decide (read_only = Some false)) GlobalReadOnlyBlockedError)
  end.

(** [_finish_execute] *)
Definition finish_execute contract (target_state : RecoveryState) : M ExecutionOutcome :=
  updated ← on_store (transition (x_store x) (rc_contract_id contract) EXECUTING (rc_state_version contract)
    target_state None state_transition);
  mret {| out_contract_id := rc_contract_id contract; out_state := rc_state updated |}.

(** The part of [execute] after the send, for a 2xx response. *)
Definition verify_execution executing adapter (target_identity plaintext_intent : pyobj) (pre : Raw)
    (raw_response : TransportResponse) : M ExecutionOutcome :=
  verification ← attempt
    (post ← on_env (read_target adapter target_identity);
     post_transport_target ← lift (resolve_transport_target executing adapter post);
     _ ← lift (parse_response adapter raw_response);
     verified ← lift (is_semantically_verified adapter pre post plaintext_intent);
     verified_target_fingerprint ←
       (if verified : bool
        then d ← lift (fingerprint adapter post ≫= fingerprint_digest executing); mret (Some d)
        else mret None);
     mret (post_transport_target, verified_target_fingerprint));
  match verification with
  | Raise _ => finish_execute executing RECONCILIATION
  | Ok (post_transport_target, Some verified_target_fingerprint) =>
    updated ← on_store (mark_execution_verified (x_store x) (rc_contract_id executing)
      (rc_state_version executing) verified_target_fingerprint (numeric_locator post_transport_target));
    mret {| out_contract_id := rc_contract_id executing; out_state := rc_state updated |}
  | Ok (_, None) =>
    finish_execute executing (target_state (classify_fault AFTER_SEND VERIFIED_FAILURE))
  end.

(** The part of [execute] from the EXECUTING transition on. *)
Definition run_executing executing adapter (target_identity : pyobj)
    (acceptance_context : option AcceptanceExecutionContext) : M ExecutionOutcome :=
  read ← attempt (on_env (read_target adapter target_identity));
  match read with
  | Raise _ => finish_execute executing FAILED
  | Ok pre =>
    match fingerprint adapter pre ≫= fingerprint_digest executing with
    | Raise _ => finish_execute executing FAILED
    | Ok pre_fingerprint =>
      if negb (pystr_eqb pre_fingerprint (rc_target_fingerprint executing))
      then finish_execute executing FAILED else
      match resolve_transport_target executing adapter pre with
      | Raise _ => finish_execute executing FAILED
      | Ok transport_target =>
        match (plaintext_intent ← decrypt executing (rc_protected_intent executing) ROLE_INTENT;
               request ← build_request adapter plaintext_intent transport_target;
               Ok (plaintext_intent, request)) with
        | Raise _ | Ok (_, None) => finish_execute executing FAILED
        | Ok (plaintext_intent, Some request) =>
          sent ← send executing request acceptance_context;
          let '(boundary, knowledge, raw_response) := sent in
          match knowledge, raw_response with
          | VERIFIED_SUCCESS, Some raw_response =>
            verify_execution executing adapter target_identity plaintext_intent pre raw_response
          | _, _ => finish_execute executing (target_state (classify_fault boundary knowledge))
          end
        end
      end
    end
  end.

(** The refusals of [execute] that close the contract before EXECUTING. *)
Definition refuse_prepared contract (event_type : pystr) : M ExecutionOutcome :=
  failed ← on_store (transition (x_store x) (rc_contract_id contract) PREPARED (rc_state_version contract)
    FAILED None event_type);
  mret {| out_contract_id := rc_contract_id failed; out_state := rc_state failed |}.

Definition execute (contract_id : pystr) adapter (intent : list (pyobj * pyobj))
    (acceptance_context : option AcceptanceExecutionContext) : M ExecutionOutcome :=
  contract ← on_store (load (x_store x) contract_id);
  if negb (state_eqb (rc_state contract) PREPARED) then raise ContractConflictError else
  unusable ← (if negb (is_confirmed contract) then mret true
              else now ← x_now; lift (is_expired contract now));
  if unusable : bool then raise ContractConflictError else
  match capability_security_classes x (rc_capability contract) with
  | None => refuse_prepared contract (u "security_class_mismatch")
  | Some registry_class =>
    if negb (bool_decide (registry_class = rc_security_class contract))
    then refuse_prepared contract (u "security_class_mismatch") else
    approved ← (if bool_decide (registry_class = STANDARD_SEALED_WRITE)
                then verify_standard_sealed_write_approval contract else mret true);
    if negb approved then refuse_prepared contract (u "sealed_write_approval_rejected") else
    _ ← lift (Policy.authorize (x_policy x) (ad_capability adapter) (ad_endpoint_symbol adapter)
                (ad_http_method adapter));
    hint ← lift (dict_get (u "raw_target_hint") intent);
    target_identity ← lift (natural_identity adapter (of_hint x hint));
    target_precondition ← lift (fingerprint adapter (of_hint x hint));
    _ ← lift (verify_bindings contract (ad_capability adapter) (ad_endpoint_symbol adapter)
                (ad_http_method adapter) target_identity target_precondition (PDict intent));
    _ ← require_pfrest_writable;
    executing ← on_store (transition (x_store x) contract_id PREPARED (rc_state_version contract)
      EXECUTING (Some (EXECUTION_POLICIES registry_class)) state_transition);
    run_executing executing adapter target_identity acceptance_context
  end.

(** ** rollback *)

(** [_finish_rollback] *)
Definition finish_rollback contract (target_state : RecoveryState) : M ExecutionOutcome :=
  updated ← on_store (transition (x_store x) (rc_contract_id contract) ROLLING_BACK
    (rc_state_version contract) target_state None state_transition);
  mret {| out_contract_id := rc_contract_id contract; out_state := rc_state updated |}.

(** The part of [rollback] after the send, for a 2xx response. *)
Definition verify_rollback rolling_back adapter (target_identity plaintext_snapshot : pyobj)
    : M ExecutionOutcome :=
  verification ← attempt
    (post_rollback ← on_env (read_target adapter target_identity);
     post_rollback_target ← lift (resolve_transport_target rolling_back adapter post_rollback);
     verified ← lift (is_rollback_verified adapter plaintext_snapshot post_rollback);
     mret (post_rollback_target, verified : bool));
  match verification with
  | Raise _ => finish_rollback rolling_back RECONCILIATION
  | Ok (post_rollback_target, true) =>
    updated ← on_store (mark_rollback_verified (x_store x) (rc_contract_id rolling_back)
      (rc_state_version rolling_back) (numeric_locator post_rollback_target));
    mret {| out_contract_id := rc_contract_id rolling_back; out_state := rc_state updated |}
  | Ok (_, false) =>
    finish_rollback rolling_back (target_state (classify_fault DURING_ROLLBACK VERIFIED_FAILURE))
  end.

(** The part of [rollback] from the ROLLING_BACK transition on. *)
Definition run_rolling_back rolling_back adapter : M ExecutionOutcome :=
  read ← attempt
    (target_identity ← lift (decrypt rolling_back (rc_protected_target_identity rolling_back) ROLE_TARGET_IDENTITY);
     pre ← on_env (read_target adapter target_identity);
     mret (target_identity, pre));
  match read with
  | Raise _ => finish_rollback rolling_back ROLLBACK_FAILED
  | Ok (target_identity, pre) =>
    match fingerprint adapter pre ≫= fingerprint_digest rolling_back with
    | Raise _ => finish_rollback rolling_back ROLLBACK_FAILED
    | Ok pre_fingerprint =>
      if negb (opt_str_eqb (Some pre_fingerprint) (rc_verified_target_fingerprint rolling_back))
      then finish_rollback rolling_back ROLLBACK_FAILED else
      match resolve_transport_target rolling_back adapter pre with
      | Raise _ => finish_rollback rolling_back ROLLBACK_FAILED
      | Ok transport_target =>
        match (plaintext_snapshot ← decrypt rolling_back (rc_protected_snapshot rolling_back) ROLE_SNAPSHOT;
               request ← build_rollback_request adapter plaintext_snapshot transport_target;
               Ok (plaintext_snapshot, request)) with
        | Raise _ | Ok (_, None) => finish_rollback rolling_back ROLLBACK_FAILED
        | Ok (plaintext_snapshot, Some request) =>
          sent ← send rolling_back request None;
          let '(_, knowledge, _) := sent in
          match knowledge with
          | VERIFIED_SUCCESS => verify_rollback rolling_back adapter target_identity plaintext_snapshot
          | _ => finish_rollback rolling_back (target_state (classify_fault DURING_ROLLBACK knowledge))
          end
        end
      end
    end
  end.

Definition rollback (contract_id : pystr) adapter : M ExecutionOutcome :=
  contract ← on_store (load (x_store x) contract_id);
  if negb (state_eqb (rc_state contract) VERIFIED) then raise ContractConflictError else
  if is_none (rc_verified_target_fingerprint contract) then raise ContractConflictError else
  rolling_back ← on_store (transition (x_store x) contract_id VERIFIED (rc_state_version contract)
    ROLLING_BACK None state_transition);
  run_rolling_back rolling_back adapter.

(** ** observe_reconciliation_target and construction *)

Definition observe_reconciliation_target (contract_id : pystr) adapter
    : M AuthoritativeReconciliationObservation :=
  contract ← on_store (load (x_store x) contract_id);
  if negb (state_eqb (rc_state contract) RECONCILIATION) then raise ContractConflictError else
  if negb (capability_eqb (ad_capability adapter) (rc_capability contract)) ||
     negb (pystr_eqb (ad_endpoint_symbol adapter) (rc_endpoint_symbol contract)) ||
     negb (pystr_eqb (ad_http_method adapter) (rc_http_method contract))
  then raise ContractValidationError else
  events ← on_store (audit_events (x_store x) (rc_contract_id contract));
  match last events with
  | None => raise ContractValidationError
  | Some latest =>
    match ev_previous_state latest ≫= λ v, find (λ s, pystr_eqb (state_value s) v) all_states with
    | None => raise ContractValidationError
    | Some origin =>
      if negb (pystr_eqb (ev_current_state latest) (state_value RECONCILIATION)) ||
         negb (ev_state_version latest =? rc_state_version contract)%Z ||
         negb (in_states origin [EXECUTING; ROLLING_BACK])
      then raise ContractValidationError else
      observation ← attempt
        (target_identity ← lift (decrypt contract (rc_protected_target_identity contract) ROLE_TARGET_IDENTITY);
         raw_target ← on_env (read_target adapter target_identity);
         resolved_target ← lift (resolve_transport_target contract adapter raw_target);
         target_fingerprint ← lift (fingerprint adapter raw_target ≫= fingerprint_digest contract);
         mret (resolved_target, target_fingerprint));
      match observation with
      | Raise _ => raise ContractValidationError
      | Ok (resolved_target, target_fingerprint) =>
        mret {| ob_contract_id := rc_contract_id contract; ob_operation_id := rc_operation_id contract;
                ob_state_version := rc_state_version contract; ob_uncertainty_origin := origin;
                ob_target_fingerprint := target_fingerprint;
                ob_lifecycle_locator := numeric_locator resolved_target |}
      end
    end
  end.

(** The last statement of [__init__], after its type checks. *)
Definition MutationExecutor_init : M () :=
  _ ← on_store (reconcile_interrupted (x_store x)); mret ().
End executor.
