(* ===== verification/ExecutorInv.v ===== *)
(** * A logic for executor sessions

    Weakest preconditions over sessions, the specification of one send and
    of the two ways an execution or rollback ends, and from these what a run
    does from the moment the contract is EXECUTING (ROLLING_BACK). *)

From S2P Require Import Prelude PyStr Sha256 PyDatetime Json Capability StateMachine.
From S2P Require Import Canonical PyJson Contract Evidence StoreCodec Database RatePolicy.
From S2P Require Import AntiRollback Store StoreInv StoreOps StoreProps StoreBehaviour StoreGate.
From S2P Require Import StoreResolve SealedApproval Crypto WriteApi Executor.

(** ** Weakest preconditions *)

Section wp.
Context {E : Type}.
Implicit Types s : Session E.

Definition wp {A} (p : prog (Session E) A) (Q : result A → Session E → Prop) s : Prop :=
  Q (fst (p s)) (snd (p s)).

Lemma wp_elim {A} (p : prog (Session E) A) Q s r s' : wp p Q s → p s = (r, s') → Q r s'.
Proof. unfold wp. by intros Hw Hp; rewrite Hp in Hw. Qed.

Lemma wp_intro {A} (p : prog (Session E) A) (Q : result A → Session E → Prop) s :
  (∀ r s', p s = (r, s') → Q r s') → wp p Q s.
Proof. intros HQ. unfold wp. apply HQ. by destruct (p s). Qed.

Lemma wp_bind {A B} (p : prog (Session E) A) (f : A → prog (Session E) B) Q s :
  wp p (λ r s', match r with Ok a => wp (f a) Q s' | Raise e => Q (Raise e) s' end) s → wp (p ≫= f) Q s.
Proof. unfold wp, mbind, prog_bind. by destruct (p s) as [[a|e] s']. Qed.

Lemma wp_ret {A} (a : A) Q s : Q (Ok a) s → wp (mret a) Q s.
Proof. done. Qed.

Lemma wp_raise {A} e (Q : result A → Session E → Prop) s : Q (Raise e) s → wp (raise e) Q s.
Proof. done. Qed.

Lemma wp_lift {A} (r : result A) Q s : Q r s → wp (lift r) Q s.
Proof. done. Qed.

Lemma wp_attempt {A} (p : prog (Session E) A) Q s : wp p (λ r, Q (Ok r)) s → wp (attempt p) Q s.
Proof. unfold wp, attempt. by destruct (p s). Qed.

Lemma wp_mono {A} (p : prog (Session E) A) (Q Q' : result A → Session E → Prop) s :
  wp p Q s → (∀ r s', Q r s' → Q' r s') → wp p Q' s.
Proof. unfold wp. auto. Qed.

(** Objects other than the store change neither tables nor sends. *)
Lemma wp_on_env_here {A} (p : prog E A) Q s :
  (∀ r e', p (env (world s)) = (r, e') → Q r (mkSession (mkWorld (db (world s)) e') (sends s))) → wp (on_env p) Q s.
Proof.
  intros HQ. unfold wp, on_env, on_store, env_call. destruct (p (env (world s))) as [r e] eqn:Hp.
  by apply HQ.
Qed.

Lemma wp_on_env {A} (p : prog E A) Q s :
  (∀ r e e', p e = (r, e') → Q r (mkSession (mkWorld (db (world s)) e') (sends s))) → wp (on_env p) Q s.
Proof. intros HQ. apply wp_on_env_here. intros r e'. apply HQ. Qed.

Lemma wp_on_store {A} (p : prog (World E) A) Q s :
  (∀ r w, p (world s) = (r, w) → Q r (mkSession w (sends s))) → wp (on_store p) Q s.
Proof. intros HQ. unfold wp, on_store. destruct (p (world s)) as [r w] eqn:Hp. by apply HQ. Qed.

(** The tables and the sends of a session. *)
Definition at_point (d : DB) (l : list Send) s : Prop := db (world s) = d ∧ sends s = l.
End wp.

(** ** One send *)

Section runs.
Context `{Hash} `{UnicodeData} `{AESGCM} `{Ed25519} {E Raw Request : Type}.
Context (x : MutationExecutor E Raw Request) (adapter : CapabilityAdapter E Raw Request).
Context (Hclock : clock_valid (x_store x)) (Hquiet : quiet (x_store x)).
Implicit Types (m : gmap pystr RecoveryContract) (c cur upd : RecoveryContract) (s : Session E).

(** The target as the adapter read it at some moment: same semantic
    identity, same locator. *)
Definition read_as c (ti : pyobj) (raw : Raw) (tt : ResolvedTransportTarget) : Prop :=
  (∃ e, fst (read_target adapter ti e) = Ok raw) ∧ resolve_transport_target c adapter raw = Ok tt.

(** The transport made [y] of the environment [e] and left [e']. *)
Definition exchanged (y : Send) (e e' : E) : Prop :=
  transport_request (x_write_client x) (sent_method y) (sent_path y) (sent_body y) e = (sent_reply y, e').

(** One target read twice with nothing in between but the exchange of [y]:
    [pre] up to the moment it was handed over, [post] from the moment its
    reply was there. *)
Definition read_around (y : Send) (ti : pyobj) (pre post : Raw) : Prop :=
  ∃ e0 e1 e2, read_target adapter ti e0 = (Ok pre, e1) ∧ exchanged y e1 e2 ∧ fst (read_target adapter ti e2) = Ok post.

(** A request for [c]'s own endpoint, from the allow-list. *)
Definition allow_listed c (accepting : bool) (y : Send) : Prop :=
  ∃ ep, (rc_endpoint_symbol c, ep) ∈ WriteEndpoints ∧ we_http_method ep = rc_http_method c ∧
        verified ep = negb accepting ∧ sent_method y = rc_http_method c ∧
        sent_path y = request_path (x_write_client x) ep.

Lemma wp_send c req ctx d l Q s :
  at_point d l s →
  (∀ e, model_dump_json x req = Raise e → ∀ s', at_point d l s' → Q (Raise e) s') →
  (∀ body, model_dump_json x req = Ok body →
     (∀ s', at_point d l s' → Q (Ok (BEFORE_SEND, PROVEN_NONE, None)) s') ∧
     (∀ y s', sent_tables y = d → sent_body y = Some body → allow_listed c (negb (is_none ctx)) y →
        exchanged y (env (world s)) (env (world s')) → at_point d (l ++ [y]) s' → Q (Ok (classify_reply (sent_reply y))) s')) →
  wp (send x c req ctx) Q s.
Proof.
  intros [Hd Hl] Hr Ho. unfold send. apply wp_bind, wp_lift.
  destruct (model_dump_json x req) as [body|e]; [|by apply Hr].
  destruct (Ho body eq_refl) as [Hnone Hsent]. apply wp_bind, wp_attempt, wp_intro. intros r s' Hp.
  assert (one_request (x_write_client x) (rc_endpoint_symbol c) (rc_http_method c) body (negb (negb (is_none ctx)))
    (match ctx with
     | None => send_for_tier1 (x_write_client x) (rc_endpoint_symbol c) (rc_http_method c) body
     | Some a => send_for_tier1_acceptance (x_write_client x) a (rc_endpoint_symbol c) (rc_http_method c) body
     end) s) as Hone.
  { destruct ctx; [apply send_for_tier1_acceptance_one|apply send_for_tier1_one]. }
  apply wp_ret. destruct Hone as [Hone|(ep & Hin & Hm & Hv & Hone)].
  - pose proof (eq_trans (eq_sym Hp) Hone) as Eq. injection Eq as -> ->. by apply Hnone.
  - pose proof (eq_trans (eq_sym Hone) Hp) as Eq. apply request_spec in Eq as (Hd' & Hx & Hs).
    set (y := {| sent_method := rc_http_method c; sent_path := request_path (x_write_client x) ep;
      sent_body := Some body; sent_tables := db (world s); sent_reply := r |}) in Hs.
    apply (Hsent y); [done|done| |exact Hx|by split; congruence]. exists ep.
    split_and!; done.
Qed.

(** ** How a run ends *)

(** The run ended after the requests [l] with tables that evolved from
    [m]; [K] holds of each request; if it returned, the contract [id] is
    stored in the state it reported, and [J] holds of the requests and that
    contract. *)
Definition finished m (id : pystr) (l0 : list Send) (K : Send → Prop)
    (J : list Send → RecoveryContract → Prop) (r : result ExecutionOutcome) s : Prop :=
  ∃ l m', sends s = l0 ++ l ∧ rep (x_store x) (db (world s)) m' ∧ evolves m m' ∧
    (length l ≤ 1)%nat ∧ Forall K l ∧
    match r with
    | Ok out => out_contract_id out = id ∧
        ∃ c', m' = <[id := c']> m ∧ rc_contract_id c' = id ∧ rc_state c' = out_state out ∧ J l c'
    | Raise _ => True
    end.

Lemma others_quiet : others_behave (x_store x).
Proof. by apply quiet_others_behave. Qed.

(** The last store operation of a run, when its successes are known. *)
Lemma wp_close {A} m c (p : prog (World E) A) (f : A → RecoveryState) K J l0 l R s :
  rep (x_store x) (db (world s)) m → sends s = l0 ++ l → (length l ≤ 1)%nat → Forall K l →
  holds (x_store x) m p R →
  (∀ a w', p (world s) = (Ok a, w') →
     ∃ c', rep (x_store x) (db w') (<[rc_contract_id c := c']> m) ∧ evolves m (<[rc_contract_id c := c']> m) ∧
           rc_contract_id c' = rc_contract_id c ∧ rc_state c' = f a ∧ J l c') →
  wp (a ← on_store p; mret {| out_contract_id := rc_contract_id c; out_state := f a |})
     (finished m (rc_contract_id c) l0 K J) s.
Proof.
  intros Hr Hl Hlen HK Hh Hok. apply wp_bind, wp_on_store. intros [a|e] w' Hp.
  - apply wp_ret. destruct (Hok a w' Hp) as (c' & Hr' & He & Hid & Hst & HJ).
    exists l, (<[rc_contract_id c := c']> m). split_and!; try done. by exists c'.
  - destruct (Hh (world s) Hr) as (m' & Hr' & He & _). rewrite Hp in Hr'. by exists l, m'.
Qed.

Lemma wp_finish_transition m c es ts K J l0 l s :
  rep (x_store x) (db (world s)) m → m !! rc_contract_id c = Some c → sends s = l0 ++ l → (length l ≤ 1)%nat →
  Forall K l →
  (∀ c', rc_state c' = ts → J l c') →
  wp (updated ← on_store (transition (x_store x) (rc_contract_id c) es (rc_state_version c) ts None state_transition);
      mret {| out_contract_id := rc_contract_id c; out_state := rc_state updated |})
     (finished m (rc_contract_id c) l0 K J) s.
Proof.
  intros Hr Hm Hl Hlen HK HJ. eapply (wp_close m c _ rc_state); [done..| |].
  { by apply holds_transition; [|apply others_quiet]. }
  intros r w' Hp. destruct (transition_ok _ m _ _ _ _ _ _ _ _ _ Hclock Hquiet Hr Hp)
    as (cur & w1 & w2 & Hm' & _ & _ & _ & _ & _ & _ & _ & _ & Hs & Hst & _ & Hr').
  assert (cur = c) as -> by congruence. exists r. pose proof (identity_fields _ _ (proj1 Hs)) as [Hid _].
  split_and!; try done; [by eapply evolves_insert|by apply HJ].
Qed.

(** [mark_execution_verified] and [mark_rollback_verified], when they
    return: both replace the stored contract by its successor. *)
Lemma mark_ok m cur ts fp w r w' :
  rep (x_store x) (db w) m → m !! rc_contract_id cur = Some cur → edge true (rc_state cur) ts →
  (updated ← lift (replace_state cur ts fp); replace_ (x_store x) cur updated state_transition) w = (Ok r, w') →
  rep (x_store x) (db w') (<[rc_contract_id cur := r]> m) ∧ successor cur r ∧ rc_state r = ts ∧
  rc_verified_target_fingerprint r = fp.
Proof.
  intros Hr Hm He Hp. apply bind_inv in Hp as (upd & w1 & [Hupd ->]%lift_inv & Hp).
  destruct (rep_wf _ _ _ Hr _ _ Hm) as [_ Hwf].
  apply replace_state_spec in Hupd as (Hwf' & Hs & Hst & Hfp & _); [|done..].
  destruct (replace_ok _ m cur upd _ w r w' Hclock Hquiet Hr Hm Hs Hwf' Hp) as (-> & Hr' & _). done.
Qed.

Lemma mark_execution_ok m c fp loc w r w' :
  rep (x_store x) (db w) m → m !! rc_contract_id c = Some c → rc_state c = EXECUTING →
  mark_execution_verified (x_store x) (rc_contract_id c) (rc_state_version c) fp loc w = (Ok r, w') →
  rep (x_store x) (db w') (<[rc_contract_id c := r]> m) ∧ successor c r ∧ rc_state r = VERIFIED ∧
  rc_verified_target_fingerprint r = Some fp.
Proof.
  intros Hr Hm Hst Hp. unfold mark_execution_verified in Hp. apply bind_inv in Hp as (cur & w1 & Hl & Hp).
  apply (load_ok _ m) in Hl as [-> Hm']; [|done..]. assert (cur = c) as -> by congruence.
  destruct (_ || _) in Hp; [done|]. destruct (negb _) in Hp; [done|].
  eapply mark_ok; [done|done|by rewrite Hst|exact Hp].
Qed.

Lemma mark_rollback_ok m c loc w r w' :
  rep (x_store x) (db w) m → m !! rc_contract_id c = Some c → rc_state c = ROLLING_BACK →
  mark_rollback_verified (x_store x) (rc_contract_id c) (rc_state_version c) loc w = (Ok r, w') →
  rep (x_store x) (db w') (<[rc_contract_id c := r]> m) ∧ successor c r ∧ rc_state r = ROLLED_BACK.
Proof.
  intros Hr Hm Hst Hp. unfold mark_rollback_verified in Hp. apply bind_inv in Hp as (cur & w1 & Hl & Hp).
  apply (load_ok _ m) in Hl as [-> Hm']; [|done..]. assert (cur = c) as -> by congruence.
  destruct (_ || _) in Hp; [done|]. destruct (negb _) in Hp; [done|].
  destruct (mark_ok m c ROLLED_BACK (rc_verified_target_fingerprint c) w r w' Hr Hm) as (? & ? & ? & _);
    [by rewrite Hst|exact Hp|done].
Qed.

(** ** A forward run *)

(** What was read before the send: the target, unchanged since the
    contract was made, and the decrypted intent. *)
Definition forward_inputs c (ti : pyobj) (pre : Raw) (tt : ResolvedTransportTarget) (plain : pyobj) : Prop :=
  read_as c ti pre tt ∧ (fingerprint adapter pre ≫= fingerprint_digest c) = Ok (rc_target_fingerprint c) ∧
  decrypt x c (rc_protected_intent c) ROLE_INTENT = Ok plain.

Definition forward_request d c ti (ctx : option AcceptanceExecutionContext) (y : Send) : Prop :=
  sent_tables y = d ∧ allow_listed c (negb (is_none ctx)) y ∧
  ∃ pre tt plain req body, forward_inputs c ti pre tt plain ∧
    build_request adapter plain tt = Ok (Some req) ∧ model_dump_json x req = Ok body ∧ sent_body y = Some body.

(** The final state a reply justifies. *)
Definition forward_verdict c ti (y : Send) (c' : RecoveryContract) : Prop :=
  match snd (fst (classify_reply (sent_reply y))) with
  | PROVEN_NONE | VERIFIED_FAILURE => rc_state c' = FAILED
  | AMBIGUOUS => rc_state c' = RECONCILIATION
  | VERIFIED_SUCCESS =>
    rc_state c' = RECONCILIATION ∨
    ∃ pre tt plain post tt', forward_inputs c ti pre tt plain ∧ read_around y ti pre post ∧
      resolve_transport_target c adapter post = Ok tt' ∧
      ((is_semantically_verified adapter pre post plain = Ok true ∧ rc_state c' = VERIFIED ∧
        ∃ fp, (fingerprint adapter post ≫= fingerprint_digest c) = Ok fp ∧
              rc_verified_target_fingerprint c' = Some fp) ∨
       (is_semantically_verified adapter pre post plain = Ok false ∧ rc_state c' = FAILED))
  end.

Definition forward_outcome c ti (l : list Send) (c' : RecoveryContract) : Prop :=
  match l with [] => rc_state c' = FAILED | y :: _ => forward_verdict c ti y c' end.

Lemma classify_success y b k r :
  classify_reply y = (b, k, r) → k = VERIFIED_SUCCESS → ∃ resp, r = Some resp.
Proof.
  unfold classify_reply. destruct y as [resp|e].
  - repeat case_match; intros [= <- <- <-]; try done; by eexists.
  - repeat case_match; by intros [= <- <- <-].
Qed.

(** The verification after a 2xx response. *)
Lemma wp_verify_execution m c ti ctx pre tt plain resp y e0 e1 l0 s :
  read_target adapter ti e0 = (Ok pre, e1) → exchanged y e1 (env (world s)) →
  rep (x_store x) (db (world s)) m → m !! rc_contract_id c = Some c → rc_state c = EXECUTING →
  forward_inputs c ti pre tt plain →
  forward_request (db (world s)) c ti ctx y → sends s = l0 ++ [y] →
  snd (fst (classify_reply (sent_reply y))) = VERIFIED_SUCCESS →
  wp (verify_execution x c adapter ti plain pre resp)
     (finished m (rc_contract_id c) l0 (forward_request (db (world s)) c ti ctx) (forward_outcome c ti)) s.
Proof.
  intros Hpre Hex Hr Hm Hst Hin Hreq Hl Hcl. set (d := db (world s)) in *.
  assert (∀ s' ts, at_point d (l0 ++ [y]) s' → (∀ c', rc_state c' = ts → forward_verdict c ti y c') →
    wp (finish_execute x c ts) (finished m (rc_contract_id c) l0 (forward_request d c ti ctx)
      (forward_outcome c ti)) s') as Hfin.
  { intros s' ts [Hd' Hl'] Hv. apply (wp_finish_transition m c EXECUTING ts _ _ l0 [y]); try done.
    - by rewrite Hd'.
    - by apply Forall_singleton. }
  unfold verify_execution. apply wp_bind, wp_attempt, wp_bind, wp_on_env_here. intros r e' Hread.
  set (s1 := mkSession (mkWorld (db (world s)) e') (sends s)).
  assert (at_point d (l0 ++ [y]) s1) as Hs1 by done.
  assert (wp (finish_execute x c RECONCILIATION) (finished m (rc_contract_id c) l0 (forward_request d c ti ctx)
      (forward_outcome c ti)) s1) as Hrec.
  { apply Hfin; [done|]. intros c' Hc'. unfold forward_verdict. rewrite Hcl. by left. }
  destruct r as [post|]; [|exact Hrec]. apply wp_bind, wp_lift.
  destruct (resolve_transport_target c adapter post) as [tt'|] eqn:Hres; [|exact Hrec].
  apply wp_bind, wp_lift. destruct (parse_response adapter resp) as [[]|]; [|exact Hrec].
  apply wp_bind, wp_lift. destruct (is_semantically_verified adapter pre post plain) as [v|] eqn:Hv; [|exact Hrec].
  assert (read_around y ti pre post) as Hpost by (exists e0, e1, (env (world s)); by rewrite Hread).
  destruct v.
  - apply wp_bind, wp_bind, wp_lift.
    destruct (fingerprint adapter post ≫= fingerprint_digest c) as [fp|] eqn:Hfp; [|exact Hrec].
    apply wp_ret, wp_ret.
    eapply (wp_close m c _ rc_state _ _ l0 [y]); [done|done|simpl; lia|by apply Forall_singleton| |].
    { apply holds_mark_execution_verified; [done|by apply others_quiet]. }
    intros r w' Hp. apply (mark_execution_ok m) in Hp as (Hr' & Hs & Hst' & Hfp'); [|done..].
    exists r. pose proof (identity_fields _ _ (proj1 Hs)) as [Hid _].
    split_and!; try done; [by eapply evolves_insert|]. unfold forward_outcome, forward_verdict. rewrite Hcl.
    right. exists pre, tt, plain, post, tt'. split_and!; try done. left. eauto.
  - apply wp_bind, wp_ret, wp_ret. apply Hfin; [done|]. intros c' Hc'. unfold forward_verdict. rewrite Hcl.
    right. exists pre, tt, plain, post, tt'. split_and!; try done. by right.
Qed.

(** From EXECUTING to the end. *)
Lemma wp_run_executing m c ti ctx l0 s :
  rep (x_store x) (db (world s)) m → m !! rc_contract_id c = Some c → rc_state c = EXECUTING → sends s = l0 →
  wp (run_executing x c adapter ti ctx)
     (finished m (rc_contract_id c) l0 (forward_request (db (world s)) c ti ctx) (forward_outcome c ti)) s.
Proof.
  intros Hr Hm Hst Hl. set (d := db (world s)) in *.
  set (K := forward_request d c ti ctx). set (Q := finished m (rc_contract_id c) l0 K (forward_outcome c ti)).
  assert (∀ s' ts l, at_point d (l0 ++ l) s' → (length l ≤ 1)%nat → Forall K l →
    (∀ c', rc_state c' = ts → forward_outcome c ti l c') → wp (finish_execute x c ts) Q s') as Hfin.
  { intros s' ts l [Hd' Hl'] Hlen HK Hv. apply (wp_finish_transition m c EXECUTING ts _ _ l0 l); try done.
    by rewrite Hd'. }
  assert (∀ s', at_point d l0 s' → wp (finish_execute x c FAILED) Q s') as Hnone.
  { intros s' Hs'. apply (Hfin s' FAILED []); [by rewrite app_nil_r|simpl; lia|done|done]. }
  unfold run_executing. apply wp_bind, wp_attempt, wp_on_env. intros r e e' Hread.
  set (s1 := mkSession (mkWorld (db (world s)) e') (sends s)). assert (at_point d l0 s1) as Hs1 by done.
  destruct r as [pre|]; [|by apply Hnone].
  destruct (fingerprint adapter pre ≫= fingerprint_digest c) as [fp|] eqn:Hfp; [|by apply Hnone].
  destruct (pystr_eqb fp (rc_target_fingerprint c)) eqn:Heq; cbn [negb]; [|by apply Hnone].
  apply pystr_eqb_eq in Heq as ->.
  destruct (resolve_transport_target c adapter pre) as [tt|] eqn:Hres; [|by apply Hnone].
  destruct (decrypt x c (rc_protected_intent c) ROLE_INTENT) as [plain|] eqn:Hdec; [|by apply Hnone].
  cbn [mbind result_bind].
  destruct (build_request adapter plain tt) as [[req|]|] eqn:Hreq; [|by apply Hnone..].
  assert (forward_inputs c ti pre tt plain) as Hin.
  { split_and!; try done. split; [exists e; by rewrite Hread|done]. }
  apply wp_bind, (wp_send c req ctx d l0); [done| |].
  { intros x' _ s' [Hd' Hl']. exists [], m. rewrite app_nil_r, Hd'.
    split_and!; try done. simpl. lia. }
  intros body Hbody. split.
  { intros s' Hs'. by apply Hnone. }
  intros y s' Hty Hby Hal Hex Hs'. destruct (classify_reply (sent_reply y)) as [[b k] resp] eqn:Hcl.
  assert (K y) as HK by (split_and!; try done; by exists pre, tt, plain, req, body).
  assert (k ≠ VERIFIED_SUCCESS → wp (finish_execute x c (target_state (classify_fault b k))) Q s') as Hother.
  { intros Hk. apply (Hfin s' _ [y]); [done|simpl; lia|by apply Forall_singleton|].
    intros c' Hc'. unfold forward_outcome, forward_verdict. rewrite Hcl. cbn [fst snd].
    rewrite Hc'. unfold classify_reply in Hcl. repeat case_match; simplify_eq/=; done. }
  destruct (decide (k = VERIFIED_SUCCESS)) as [->|Hk]; [|by destruct k; try (by apply Hother)].
  destruct (classify_success _ _ _ _ Hcl eq_refl) as [rr ->]. destruct Hs' as [Hd' Hl'].
  subst Q K. rewrite <-Hd' in *. apply (wp_verify_execution m c ti ctx pre tt plain rr y e e'); try done; by rewrite ?Hd', ?Hcl.
Qed.

(** ** A rollback run *)

Definition rollback_inputs c (ti : pyobj) (pre : Raw) (tt : ResolvedTransportTarget) (plain : pyobj) : Prop :=
  decrypt x c (rc_protected_target_identity c) ROLE_TARGET_IDENTITY = Ok ti ∧ read_as c ti pre tt ∧
  (∃ fp, (fingerprint adapter pre ≫= fingerprint_digest c) = Ok fp ∧ rc_verified_target_fingerprint c = Some fp) ∧
  decrypt x c (rc_protected_snapshot c) ROLE_SNAPSHOT = Ok plain.

Definition rollback_request d c (y : Send) : Prop :=
  sent_tables y = d ∧ allow_listed c false y ∧
  ∃ ti pre tt plain req body, rollback_inputs c ti pre tt plain ∧
    build_rollback_request adapter plain tt = Ok (Some req) ∧ model_dump_json x req = Ok body ∧
    sent_body y = Some body.

Definition rollback_verdict c (y : Send) (c' : RecoveryContract) : Prop :=
  match snd (fst (classify_reply (sent_reply y))) with
  | PROVEN_NONE | VERIFIED_FAILURE => rc_state c' = ROLLBACK_FAILED
  | AMBIGUOUS => rc_state c' = RECONCILIATION
  | VERIFIED_SUCCESS =>
    rc_state c' = RECONCILIATION ∨
    ∃ ti pre tt plain post tt', rollback_inputs c ti pre tt plain ∧ read_around y ti pre post ∧
      resolve_transport_target c adapter post = Ok tt' ∧
      ((is_rollback_verified adapter plain post = Ok true ∧ rc_state c' = ROLLED_BACK) ∨
       (is_rollback_verified adapter plain post = Ok false ∧ rc_state c' = ROLLBACK_FAILED))
  end.

Definition rollback_outcome c (l : list Send) (c' : RecoveryContract) : Prop :=
  match l with [] => rc_state c' = ROLLBACK_FAILED | y :: _ => rollback_verdict c y c' end.

Lemma wp_verify_rollback m c ti pre tt plain y e0 e1 l0 s :
  read_target adapter ti e0 = (Ok pre, e1) → exchanged y e1 (env (world s)) →
  rep (x_store x) (db (world s)) m → m !! rc_contract_id c = Some c → rc_state c = ROLLING_BACK →
  rollback_inputs c ti pre tt plain →
  rollback_request (db (world s)) c y → sends s = l0 ++ [y] →
  snd (fst (classify_reply (sent_reply y))) = VERIFIED_SUCCESS →
  wp (verify_rollback x c adapter ti plain)
     (finished m (rc_contract_id c) l0 (rollback_request (db (world s)) c) (rollback_outcome c)) s.
Proof.
  intros Hpre Hex Hr Hm Hst Hplain Hreq Hl Hcl. set (d := db (world s)) in *.
  assert (∀ s' ts, at_point d (l0 ++ [y]) s' → (∀ c', rc_state c' = ts → rollback_verdict c y c') →
    wp (finish_rollback x c ts) (finished m (rc_contract_id c) l0 (rollback_request d c) (rollback_outcome c)) s')
    as Hfin.
  { intros s' ts [Hd' Hl'] Hv. apply (wp_finish_transition m c ROLLING_BACK ts _ _ l0 [y]); try done.
    - by rewrite Hd'.
    - by apply Forall_singleton. }
  unfold verify_rollback. apply wp_bind, wp_attempt, wp_bind, wp_on_env_here. intros r e' Hread.
  set (s1 := mkSession (mkWorld (db (world s)) e') (sends s)).
  assert (at_point d (l0 ++ [y]) s1) as Hs1 by done.
  assert (wp (finish_rollback x c RECONCILIATION)
    (finished m (rc_contract_id c) l0 (rollback_request d c) (rollback_outcome c)) s1) as Hrec.
  { apply Hfin; [done|]. intros c' Hc'. unfold rollback_verdict. rewrite Hcl. by left. }
  destruct r as [post|]; [|exact Hrec]. apply wp_bind, wp_lift.
  destruct (resolve_transport_target c adapter post) as [tt'|] eqn:Hres; [|exact Hrec].
  apply wp_bind, wp_lift. destruct (is_rollback_verified adapter plain post) as [v|] eqn:Hv; [|exact Hrec].
  assert (read_around y ti pre post) as Hpost by (exists e0, e1, (env (world s)); by rewrite Hread).
  apply wp_ret. destruct v.
  - eapply (wp_close m c _ rc_state _ _ l0 [y]); [done|done|simpl; lia|by apply Forall_singleton| |].
    { apply holds_mark_rollback_verified; [done|by apply others_quiet]. }
    intros r w' Hp. apply (mark_rollback_ok m) in Hp as (Hr' & Hs & Hst'); [|done..].
    exists r. pose proof (identity_fields _ _ (proj1 Hs)) as [Hid _].
    split_and!; try done; [by eapply evolves_insert|]. unfold rollback_outcome, rollback_verdict. rewrite Hcl.
    right. exists ti, pre, tt, plain, post, tt'. split_and!; try done. by left.
  - apply Hfin; [done|]. intros c' Hc'. unfold rollback_verdict. rewrite Hcl.
    right. exists ti, pre, tt, plain, post, tt'. split_and!; try done. by right.
Qed.

(** From ROLLING_BACK to the end. *)
Lemma wp_run_rolling_back m c l0 s :
  rep (x_store x) (db (world s)) m → m !! rc_contract_id c = Some c → rc_state c = ROLLING_BACK → sends s = l0 →
  wp (run_rolling_back x c adapter)
     (finished m (rc_contract_id c) l0 (rollback_request (db (world s)) c) (rollback_outcome c)) s.
Proof.
  intros Hr Hm Hst Hl. set (d := db (world s)) in *.
  set (K := rollback_request d c). set (Q := finished m (rc_contract_id c) l0 K (rollback_outcome c)).
  assert (∀ s' ts l, at_point d (l0 ++ l) s' → (length l ≤ 1)%nat → Forall K l →
    (∀ c', rc_state c' = ts → rollback_outcome c l c') → wp (finish_rollback x c ts) Q s') as Hfin.
  { intros s' ts l [Hd' Hl'] Hlen HK Hv. apply (wp_finish_transition m c ROLLING_BACK ts _ _ l0 l); try done.
    by rewrite Hd'. }
  assert (∀ s', at_point d l0 s' → wp (finish_rollback x c ROLLBACK_FAILED) Q s') as Hnone.
  { intros s' Hs'. apply (Hfin s' ROLLBACK_FAILED []); [by rewrite app_nil_r|simpl; lia|done|done]. }
  unfold run_rolling_back. apply wp_bind, wp_attempt, wp_bind, wp_lift.
  destruct (decrypt x c (rc_protected_target_identity c) ROLE_TARGET_IDENTITY) as [ti|] eqn:Hti; [|by apply Hnone].
  apply wp_bind, wp_on_env. intros r e e' Hread.
  set (s1 := mkSession (mkWorld (db (world s)) e') (sends s)). assert (at_point d l0 s1) as Hs1 by done.
  destruct r as [pre|]; [|by apply Hnone]. apply wp_ret.
  destruct (fingerprint adapter pre ≫= fingerprint_digest c) as [fp|] eqn:Hfp; [|by apply Hnone].
  destruct (opt_str_eqb (Some fp) (rc_verified_target_fingerprint c)) eqn:Heq; [|by apply Hnone].
  apply opt_str_eqb_eq in Heq. cbn [negb].
  destruct (resolve_transport_target c adapter pre) as [tt|] eqn:Hres; [|by apply Hnone].
  destruct (decrypt x c (rc_protected_snapshot c) ROLE_SNAPSHOT) as [plain|] eqn:Hdec; [|by apply Hnone].
  cbn [mbind result_bind].
  destruct (build_rollback_request adapter plain tt) as [[req|]|] eqn:Hreq; [|by apply Hnone..].
  assert (rollback_inputs c ti pre tt plain) as Hin.
  { split_and!; try done; [split; [exists e; by rewrite Hread|done]|by exists fp]. }
  apply wp_bind, (wp_send c req None d l0); [done| |].
  { intros x' _ s' [Hd' Hl']. exists [], m. rewrite app_nil_r, Hd'.
    split_and!; try done. simpl. lia. }
  intros body Hbody. split.
  { intros s' Hs'. by apply Hnone. }
  intros y s' Hty Hby Hal Hex Hs'. destruct (classify_reply (sent_reply y)) as [[b k] resp] eqn:Hcl.
  assert (K y) as HK by (split_and!; try done; by exists ti, pre, tt, plain, req, body).
  assert (k ≠ VERIFIED_SUCCESS → wp (finish_rollback x c (target_state (classify_fault DURING_ROLLBACK k))) Q s')
    as Hother.
  { intros Hk. apply (Hfin s' _ [y]); [done|simpl; lia|by apply Forall_singleton|].
    intros c' Hc'. unfold rollback_outcome, rollback_verdict. rewrite Hcl. cbn [fst snd]. rewrite Hc'.
    by destruct k. }
  destruct (decide (k = VERIFIED_SUCCESS)) as [->|Hk]; [|by destruct k; try (by apply Hother)].
  destruct Hs' as [Hd' Hl']. subst Q K. rewrite <-Hd' in *.
  apply (wp_verify_rollback m c ti pre tt plain y e e'); try done; by rewrite ?Hd', ?Hcl.
Qed.
End runs.
