(* ===== verification/ExecutorProps.v ===== *)
(** * What the executor guarantees

    From any reachable store, over any adapter, network and clock: what must
    have held for a request to be sent, and what the state an execution or
    rollback reports says about the request that was made. *)

From S2P Require Import Prelude PyStr Sha256 PyDatetime Json Capability StateMachine.
From S2P Require Import Canonical PyJson Contract Evidence StoreCodec Database RatePolicy.
From S2P Require Import AntiRollback Store StoreInv StoreOps StoreProps StoreBehaviour StoreGate.
From S2P Require Import StoreResolve SealedApproval Crypto WriteApi Executor ExecutorInv.

Section executor_props.
Context `{Hash} `{UnicodeData} `{AESGCM} `{Ed25519} {E Raw Request : Type}.
Context (x : MutationExecutor E Raw Request) (adapter : CapabilityAdapter E Raw Request).
Implicit Types (m : gmap pystr RecoveryContract) (c cur upd : RecoveryContract) (s : Session E).

(** An approval the pinned authorities accept for [c], at some instant. *)
Definition approval_present c : Prop :=
  ∃ authorities source approval e now,
    approval_authorities x = Some authorities ∧ approval_source x = Some source ∧
    fst (source (rc_contract_id c) e) = Ok (Some approval) ∧
    verify_sealed_write_approval approval authorities now (rc_contract_id c) (rc_state_version c)
      (rc_security_class c) (rc_intent_digest c) (rc_target_identity_digest c) = Ok true.

(** Everything [execute] checks before the EXECUTING transition. *)
Record execute_gates (c : RecoveryContract) (intent : list (pyobj * pyobj)) (ti : pyobj) : Prop := {
  eg_prepared : rc_state c = PREPARED;
  eg_confirmed : is_confirmed c = true;
  eg_class : capability_security_classes x (rc_capability c) = Some (rc_security_class c);
  eg_approval : rc_security_class c = STANDARD_SEALED_WRITE → approval_present c;
  eg_policy : Policy.authorize (x_policy x) (ad_capability adapter) (ad_endpoint_symbol adapter)
    (ad_http_method adapter) = Ok ();
  eg_identity : ∃ hint, dict_get (u "raw_target_hint") intent = Ok hint ∧
    natural_identity adapter (of_hint x hint) = Ok ti;
  eg_bindings : ∃ tp, verify_bindings c (ad_capability adapter) (ad_endpoint_symbol adapter)
    (ad_http_method adapter) ti tp (PDict intent) = Ok ();
  eg_writable : ∃ e, fst (get_system_restapi_settings x e) = Ok (Some false);
}.

Context (Hclock : clock_valid (x_store x)) (Hquiet : quiet (x_store x)).

Definition refused m s (r : result ExecutionOutcome) s' : Prop :=
  sends s' = sends s ∧ (∃ e, r = Raise e) ∧ ∃ m', rep (x_store x) (db (world s')) m' ∧ evolves m m'.

Lemma refused_here m s s' e :
  rep (x_store x) (db (world s)) m → db (world s') = db (world s) → sends s' = sends s →
  refused m s (Raise e) s'.
Proof. intros Hr Hd Hs. split_and!; [done|by eexists|]. exists m. by rewrite Hd. Qed.

(** Closed as FAILED before EXECUTING. *)
Definition closed m s (id : pystr) (r : result ExecutionOutcome) s' : Prop :=
  sends s' = sends s ∧ ∃ cur c' out, m !! id = Some cur ∧ r = Ok out ∧ out_state out = FAILED ∧
    out_contract_id out = id ∧ rep (x_store x) (db (world s')) (<[id := c']> m) ∧
    rc_contract_id c' = id ∧ rc_state c' = FAILED ∧ successor cur c'.

Lemma wp_transition m c es ts policy et s Q :
  rep (x_store x) (db (world s)) m → m !! rc_contract_id c = Some c →
  (∀ e s', refused m s (Raise e) s' → Q (Raise e) s') →
  (∀ c' s', successor c c' → same_artifacts c c' → rc_state c' = ts → sends s' = sends s →
     rep (x_store x) (db (world s')) (<[rc_contract_id c := c']> m) → Q (Ok c') s') →
  wp (on_store (transition (x_store x) (rc_contract_id c) es (rc_state_version c) ts policy et)) Q s.
Proof.
  intros Hr Hm Hraise Hok. apply wp_on_store. intros [r|e] w Hp.
  - destruct (transition_ok _ m _ _ _ _ _ _ _ _ _ Hclock Hquiet Hr Hp)
      as (cur & w1 & w2 & Hm' & _ & _ & _ & _ & _ & _ & _ & _ & Hs & Hst & _ & Hr').
    assert (cur = c) as -> by congruence. apply (transition_sealed _ m) in Hp as (cur & Hm2 & Hsame); [|done..].
    assert (cur = c) as -> by congruence. by apply Hok.
  - apply Hraise. split_and!; [done|by eexists|].
    assert (others_behave (x_store x)) as Ho by (by apply quiet_others_behave).
    destruct (holds_transition (x_store x) Hclock Ho m (rc_contract_id c) es (rc_state_version c) ts policy et
      (world s) Hr) as (m' & Hr' & He & _). rewrite Hp in Hr'. by exists m'.
Qed.

Lemma wp_refuse_prepared m c et s Q :
  rep (x_store x) (db (world s)) m → m !! rc_contract_id c = Some c →
  (∀ r s', closed m s (rc_contract_id c) r s' ∨ refused m s r s' → Q r s') →
  wp (refuse_prepared x c et) Q s.
Proof.
  intros Hr Hm HQ. unfold refuse_prepared. apply wp_bind, (wp_transition m c); [done|done| |].
  - intros e s' Href. apply HQ. by right.
  - intros c' s' Hs _ Hst Hse Hr'. apply wp_ret, HQ. left.
    pose proof (identity_fields _ _ (proj1 Hs)) as [Hid _]. split; [done|]. eexists c, c', _. by rewrite <-Hid.
Qed.

Lemma wp_load m id s Q :
  rep (x_store x) (db (world s)) m →
  (∀ e, Q (Raise e) s) → (∀ c, m !! id = Some c → rc_contract_id c = id → Q (Ok c) s) →
  wp (on_store (load (x_store x) id)) Q s.
Proof.
  intros Hr Hraise Hok. apply wp_on_store. intros r w Hp.
  rewrite (load_quiet (x_store x) Hquiet m) in Hp by done. injection Hp as <- <-.
  assert (mkSession (world s) (sends s) = s) as -> by (by destruct s).
  destruct (m !! id) as [c|] eqn:Hm; [|apply Hraise]. apply Hok; [done|]. by apply (rep_wf _ _ _ Hr _ _ Hm).
Qed.

(** The approval check leaves tables and sends alone, and says [true] only
    on an accepted approval. *)
Lemma wp_approval c s Q :
  (∀ r s', db (world s') = db (world s) → sends s' = sends s →
     (r = Ok true → approval_present c) → Q r s') →
  wp (verify_standard_sealed_write_approval x c) Q s.
Proof.
  intros HQ. unfold verify_standard_sealed_write_approval.
  destruct (approval_authorities x) as [auths|] eqn:Ea; [|by apply wp_ret, HQ].
  destruct (approval_source x) as [source|] eqn:Es; [|by apply wp_ret, HQ].
  apply wp_bind, wp_attempt, wp_on_env. intros r e e' Hsrc.
  destruct r as [[a|]|]; [|by apply wp_ret, HQ..].
  apply wp_bind. unfold x_now. apply wp_on_env. intros r2 e2 e2' Hnow.
  destruct r2 as [now|]; [|by apply HQ].
  apply wp_lift, HQ; [done|done|]. intros Hv. exists auths, source, a, e, now. by rewrite Hsrc.
Qed.

Lemma wp_writable s Q :
  (∀ e s', db (world s') = db (world s) → sends s' = sends s → Q (Raise e) s') →
  (∀ s', db (world s') = db (world s) → sends s' = sends s →
     (∃ e, fst (get_system_restapi_settings x e) = Ok (Some false)) → Q (Ok ()) s') →
  wp (require_pfrest_writable x) Q s.
Proof.
  intros Hraise Hok. unfold require_pfrest_writable. apply wp_bind, wp_attempt, wp_on_env. intros r e e' Hp.
  destruct r as [v|]; [|by apply wp_raise, Hraise]. apply wp_lift.
  destruct (bool_decide (v = Some false)) eqn:Hv; [|by apply Hraise].
  apply bool_decide_eq_true in Hv as ->. apply Hok; [done..|]. exists e. by rewrite Hp.
Qed.

Lemma last_map_event l : last (map event_of l) = event_of <$> last l.
Proof. change (map event_of l) with (event_of <$> l). apply fmap_last. Qed.

Lemma resolve_locator c raw tt :
  resolve_transport_target c adapter raw = Ok tt → numeric_locator tt = rc_lifecycle_locator c.
Proof.
  unfold resolve_transport_target. intros (i & _ & (d & _ & Hp)%bind_Ok)%bind_Ok.
  rewrite require_bind in Hp. destruct Hp as [_ (loc & _ & Hp)%bind_Ok].
  rewrite require_bind in Hp. destruct Hp as [->%Z.eqb_eq Hp].
  unfold ResolvedTransportTarget_new in Hp. rewrite !require_bind in Hp. by destruct Hp as (_ & _ & [= <-]).
Qed.

(** The three ways an execution goes. *)
Definition executed m s (id : pystr) intent ctx (r : result ExecutionOutcome) s' : Prop :=
  refused m s r s' ∨ closed m s id r s' ∨
  ∃ cur executing d ti, m !! id = Some cur ∧ execute_gates cur intent ti ∧
    dt_ltb (fst (x_clock x (env (world s)))) (rc_expires_at cur) = true ∧
    successor cur executing ∧ same_artifacts cur executing ∧ rc_state executing = EXECUTING ∧
    rep (x_store x) d (<[id := executing]> m) ∧
    finished x (<[id := executing]> m) id (sends s)
      (forward_request x adapter d executing ti ctx) (forward_outcome x adapter executing ti) r s'.

Lemma wp_execute m id intent ctx s :
  rep (x_store x) (db (world s)) m →
  wp (execute x id adapter intent ctx) (executed m s id intent ctx) s.
Proof.
  intros Hr. unfold execute. apply wp_bind, (wp_load m); [done|intros; left; by apply refused_here|].
  intros c Hm Hid. subst id.
  destruct (state_eqb (rc_state c) PREPARED) eqn:Hst; cbn [negb]; [|left; by apply refused_here].
  apply state_eqb_eq in Hst. apply wp_bind.
  assert (wp (if negb (is_confirmed c) then mret true else now ← x_now x; lift (is_expired c now))
    (λ r s', db (world s') = db (world s) ∧ sends s' = sends s ∧
       (r = Ok false → is_confirmed c = true ∧
         dt_ltb (fst (x_clock x (env (world s)))) (rc_expires_at c) = true)) s) as Husable.
  { destruct (is_confirmed c) eqn:Hc; cbn [negb]; [|by apply wp_ret].
    apply wp_bind. unfold x_now. apply wp_intro. intros r s' Hp.
    unfold on_env, on_store, env_call in Hp. destruct (x_clock x (env (world s))) as [i e'].
    destruct (is_utc i); injection Hp as <- <-; [|done].
    apply wp_lift. split_and!; [done..|]. intros [_ Hf]%expired_false. split; [done|]. by apply dt_leb_ltb. }
  eapply wp_mono; [exact Husable|]. intros r s1 (Hd1 & Hs1 & Hu).
  destruct r as [[]|]; [left; by apply refused_here| |left; by apply refused_here].
  destruct (Hu eq_refl) as [Hconf Hexp].
  (* From here on: the session's tables and sends are still those of [s]. *)
  assert (∀ s', db (world s') = db (world s) → sends s' = sends s → ∀ et,
    wp (refuse_prepared x c et) (executed m s (rc_contract_id c) intent ctx) s') as Hrefuse.
  { intros s' Hd Hs et. apply (wp_refuse_prepared m c); [by rewrite Hd|done|].
    intros r s'' [[Ha Hb]|(Ha & Hb)]; [right; left|left]; split; try done; by rewrite <-Hs. }
  destruct (capability_security_classes x (rc_capability c)) as [cls|] eqn:Hcls; [|by apply Hrefuse].
  destruct (bool_decide (cls = rc_security_class c)) eqn:Heq; cbn [negb]; [|by apply Hrefuse].
  apply bool_decide_eq_true in Heq as ->. apply wp_bind.
  assert (wp (if bool_decide (rc_security_class c = STANDARD_SEALED_WRITE)
    then verify_standard_sealed_write_approval x c else mret true)
    (λ r s', db (world s') = db (world s) ∧ sends s' = sends s ∧
       (r = Ok true → rc_security_class c = STANDARD_SEALED_WRITE → approval_present c)) s1) as Happ.
  { case_bool_decide; [|by apply wp_ret]. apply wp_approval. intros r s' Hd Hs Ha.
    rewrite Hd, Hs. split_and!; auto. }
  eapply wp_mono; [exact Happ|]. intros r s2 (Hd2 & Hs2 & Ha).
  destruct r as [[]|]; cbn [negb]; [|by apply Hrefuse|left; by apply refused_here].
  specialize (Ha eq_refl). apply wp_bind, wp_lift.
  destruct (Policy.authorize _ _ _ _) as [[]|] eqn:Hpol; [|left; by apply refused_here].
  apply wp_bind, wp_lift. destruct (dict_get _ _) as [hint|] eqn:Hhint; [|left; by apply refused_here].
  apply wp_bind, wp_lift. destruct (natural_identity _ _) as [ti|] eqn:Hti; [|left; by apply refused_here].
  apply wp_bind, wp_lift. destruct (fingerprint _ _) as [tp|] eqn:Htp; [|left; by apply refused_here].
  apply wp_bind, wp_lift. destruct (verify_bindings _ _ _ _ _ _ _) as [[]|] eqn:Hb; [|left; by apply refused_here].
  apply wp_bind, wp_writable.
  { intros e s' Hd Hs. left. apply refused_here; [done|by rewrite Hd|by rewrite Hs]. }
  intros s3 Hd3 Hs3 Hw. apply wp_bind, (wp_transition m c); [by rewrite Hd3, Hd2|done| |].
  { intros e s' (Ha' & Hb' & Hc'). left. split; [by rewrite Ha', Hs3|done]. }
  intros ex s4 Hsuc Hsame Hst4 Hs4 Hr4. pose proof (identity_fields _ _ (proj1 Hsuc)) as [Hid4 _].
  eapply wp_mono.
  - apply (wp_run_executing x adapter Hclock Hquiet (<[rc_contract_id c:=ex]> m) ex ti ctx (sends s) s4);
      [done|by rewrite <-Hid4, lookup_insert_eq|done|congruence].
  - intros r s5 Hfin. right. right. exists c, ex, (db (world s4)), ti. rewrite <-Hid4 in Hfin.
    split_and!; try done. split; try done; [by exists hint|by exists tp].
Qed.

(** [C2] Nothing is sent unless everything was checked.  Whatever an
    execution does, it hands the transport at most one request; and if it
    hands it one, then the stored contract was PREPARED, confirmed and
    unexpired by the executor's clock, its security class was the
    registry's, a STANDARD contract had an approval the pinned authorities
    accept for this very version, the policy allows the mutation, the
    intent matched the contract's bindings and the device was not in
    read-only mode; at the moment of the request the store held the
    contract in EXECUTING, one version later; and the request goes to the
    contract's own allow-listed endpoint, with a body the adapter built
    from the decrypted intent for a target it had just read unchanged. *)
Theorem execute_send_authorized id intent ctx s r s' :
  reachable (x_store x) (world s) → execute x id adapter intent ctx s = (r, s') →
  ∃ l, sends s' = sends s ++ l ∧ (length l ≤ 1)%nat ∧
    ∀ y, y ∈ l → ∃ cur executing ti row, stored (x_store x) (world s) cur ∧ rc_contract_id cur = id ∧
      execute_gates cur intent ti ∧
      dt_ltb (fst (x_clock x (env (world s)))) (rc_expires_at cur) = true ∧
      successor cur executing ∧ rc_state executing = EXECUTING ∧
      t_contracts (sent_tables y) !! id = Some row ∧ r_state row = state_value EXECUTING ∧
      r_state_version row = (rc_state_version cur + 1)%Z ∧
      forward_request x adapter (sent_tables y) executing ti ctx y.
Proof.
  intros Hw Hp. destruct (reachable_rep _ Hclock (quiet_others_behave _ Hquiet) _ Hw) as [m Hr].
  pose proof (wp_elim _ _ _ _ _ (wp_execute m id intent ctx s Hr) Hp)
    as [(Hs & _)|[(Hs & _)|(cur & ex & d & ti & Hm & Hg & Hexp & Hsuc & _ & Hst & Hrd & l & m' & Hl & _ & _ & Hlen & HK & _)]].
  1, 2: exists []; rewrite app_nil_r; split_and!; [done|simpl; lia|]; intros y Hy; by apply elem_of_nil in Hy.
  exists l. split_and!; [done|done|]. intros y Hy. rewrite Forall_forall in HK. pose proof (HK y Hy) as Hreq.
  pose proof (proj1 Hreq) as Hd. destruct (rep_wf _ _ _ Hr _ _ Hm) as [Hid _].
  destruct (rep_row _ _ _ id ex Hrd) as (tag & _ & Hrow); [by rewrite lookup_insert_eq|].
  exists cur, ex, ti, (row_of ex tag). rewrite Hd. split_and!; try done.
  - apply (stored_lookup _ m); [done|done|]. by rewrite Hid.
  - cbn. by rewrite Hst.
  - cbn. apply Hsuc.
Qed.

(** [C4] The reported state is the stored state, and it is the one the
    reply and a fresh read lead to.  If an execution returns, the store
    holds the contract in the state reported.  Without a request that is
    FAILED.  With one it follows the code's classification of the reply:
    FAILED for a refusal and for what the code takes for a request that
    never left (which includes a connection that broke after the request
    left: [lost_reply_taken_for_unsent]), RECONCILIATION for a reply that
    leaves the effect open.  After a 2xx reply it is VERIFIED only when the
    target, read in the environment that this very exchange left, satisfied
    the adapter's check against the target read immediately before the
    exchange, and its fingerprint was recorded; FAILED only when that read
    failed the check; and the only other state is RECONCILIATION. *)
Theorem execute_outcome_justified id intent ctx s out s' :
  reachable (x_store x) (world s) → execute x id adapter intent ctx s = (Ok out, s') →
  out_contract_id out = id ∧
  ∃ l c', sends s' = sends s ++ l ∧ stored (x_store x) (world s') c' ∧ rc_contract_id c' = id ∧
    rc_state c' = out_state out ∧
    match l with
    | [] => out_state out = FAILED
    | [y] => ∃ executing ti, rc_contract_id executing = id ∧ forward_verdict x adapter executing ti y c'
    | _ => False
    end.
Proof.
  intros Hw Hp. destruct (reachable_rep _ Hclock (quiet_others_behave _ Hquiet) _ Hw) as [m Hr].
  pose proof (wp_elim _ _ _ _ _ (wp_execute m id intent ctx s Hr) Hp)
    as [(_ & (e & He) & _)|[(Hs & cur & c' & o & Hm & [= <-] & Ho & Hid & Hr' & Hid' & Hst' & _)
       |(cur & ex & d & ti & Hm & Hg & _ & Hsuc & _ & Hst & Hrd & l & m' & Hl & Hr' & _ & Hlen & _ & Hid & c' & -> & Hid' & Hst' & Hv)]];
    [done| |].
  - split; [done|]. exists [], c'. rewrite app_nil_r. split_and!; try done; [|congruence].
    apply (stored_lookup _ _ _ _ Hquiet Hr'). by rewrite Hid', lookup_insert_eq.
  - split; [done|]. exists l, c'. split_and!; try done.
    + apply (stored_lookup _ _ _ _ Hquiet Hr'). by rewrite Hid', lookup_insert_eq.
    + destruct l as [|y [|]]; [by rewrite <-Hst'| |simpl in Hlen; lia]. exists ex, ti. split; [|done].
      pose proof (identity_fields _ _ (proj1 Hsuc)) as [<- _]. by apply (rep_wf _ _ _ Hr _ _ Hm).
Qed.

(** ** Rollback *)

Lemma wp_rollback m id s :
  rep (x_store x) (db (world s)) m →
  wp (rollback x id adapter) (λ r s', refused m s r s' ∨
    ∃ cur rb d, m !! id = Some cur ∧ rc_state cur = VERIFIED ∧ successor cur rb ∧ rc_state rb = ROLLING_BACK ∧
      rep (x_store x) d (<[id := rb]> m) ∧
      finished x (<[id := rb]> m) id (sends s) (rollback_request x adapter d rb) (rollback_outcome x adapter rb) r s') s.
Proof.
  intros Hr. unfold rollback. apply wp_bind, (wp_load m); [done|intros; left; by apply refused_here|].
  intros c Hm Hid. subst id.
  destruct (state_eqb (rc_state c) VERIFIED) eqn:Hst; cbn [negb]; [|left; by apply refused_here].
  apply state_eqb_eq in Hst. destruct (is_none _); [left; by apply refused_here|].
  apply wp_bind, (wp_transition m c); [done|done|intros; by left|].
  intros rb s1 Hsuc _ Hst1 Hs1 Hr1. pose proof (identity_fields _ _ (proj1 Hsuc)) as [Hid _].
  eapply wp_mono.
  - apply (wp_run_rolling_back x adapter Hclock Hquiet (<[rc_contract_id c:=rb]> m) rb (sends s) s1);
      [done|by rewrite <-Hid, lookup_insert_eq|done|done].
  - intros r s2 Hfin. right. exists c, rb, (db (world s1)). by rewrite <-Hid in Hfin.
Qed.

(** [C6] A rollback sends at most one request, and only for a contract that
    was VERIFIED and is stored as ROLLING_BACK at that moment, to its own
    verified endpoint, with a body built from the decrypted snapshot, and
    only when the target still has the fingerprint recorded when the
    execution was verified.  If it returns, the store holds the state it
    reports: ROLLBACK_FAILED without a request, for a refusal and for what
    the code takes for a request that never left (a connection that broke
    after the request left included: [lost_reply_taken_for_unsent]),
    RECONCILIATION for a reply that leaves the effect open; after a 2xx
    reply ROLLED_BACK only when the target, read in the environment that
    this very exchange left, satisfied the adapter's check,
    ROLLBACK_FAILED only when that read failed it, and the only other state
    is RECONCILIATION. *)
Theorem rollback_justified id s r s' :
  reachable (x_store x) (world s) → rollback x id adapter s = (r, s') →
  ∃ l, sends s' = sends s ++ l ∧ (length l ≤ 1)%nat ∧
    (∀ y, y ∈ l → ∃ cur rb row, stored (x_store x) (world s) cur ∧ rc_contract_id cur = id ∧
       rc_state cur = VERIFIED ∧ successor cur rb ∧
       t_contracts (sent_tables y) !! id = Some row ∧ r_state row = state_value ROLLING_BACK ∧
       rollback_request x adapter (sent_tables y) rb y) ∧
    (∀ out, r = Ok out → ∃ c', stored (x_store x) (world s') c' ∧ rc_contract_id c' = id ∧
       rc_state c' = out_state out ∧
       match l with
       | [] => out_state out = ROLLBACK_FAILED
       | y :: _ => ∃ rb, rc_contract_id rb = id ∧ rollback_verdict x adapter rb y c'
       end).
Proof.
  intros Hw Hp. destruct (reachable_rep _ Hclock (quiet_others_behave _ Hquiet) _ Hw) as [m Hr].
  pose proof (wp_elim _ _ _ _ _ (wp_rollback m id s Hr) Hp)
    as [(Hs & (e & ->) & _)|(cur & rb & d & Hm & Hv & Hsuc & Hst & Hrd & l & m' & Hl & Hr' & _ & Hlen & HK & Hout)].
  { exists []. rewrite app_nil_r. split_and!; [done|simpl; lia| |done]. intros y Hy. by apply elem_of_nil in Hy. }
  destruct (rep_wf _ _ _ Hr _ _ Hm) as [Hid _]. exists l. split_and!; [done|done| |].
  - intros y Hy. rewrite Forall_forall in HK. pose proof (HK y Hy) as Hreq. pose proof (proj1 Hreq) as Hd.
    destruct (rep_row _ _ _ id rb Hrd) as (tag & _ & Hrow); [by rewrite lookup_insert_eq|].
    exists cur, rb, (row_of rb tag). rewrite Hd. split_and!; try done; [|cbn; by rewrite Hst].
    apply (stored_lookup _ m); [done|done|]. by rewrite Hid.
  - intros out ->. destruct Hout as (_ & c' & -> & Hid' & Hst' & Hvd). exists c'. split_and!; try done.
    + apply (stored_lookup _ _ _ _ Hquiet Hr'). by rewrite Hid', lookup_insert_eq.
    + destruct l as [|y l]; [by rewrite <-Hst'|]. exists rb. split; [|done].
      by pose proof (identity_fields _ _ (proj1 Hsuc)) as [<- _].
Qed.

(** ** Observation *)

(** An observation reads and nothing else.  It leaves tables and sends
    as they were, whatever it meets; what it returns is for a stored
    contract in RECONCILIATION at its current version, names the state the
    last audit event came from, and reports a fingerprint and locator of a
    target just read whose semantic identity and locator are the
    contract's. *)
Theorem observation_reads_only id s r s' :
  reachable (x_store x) (world s) → observe_reconciliation_target x id adapter s = (r, s') →
  db (world s') = db (world s) ∧ sends s' = sends s ∧
  ∀ ob, r = Ok ob → ∃ cur ti raw tt, stored (x_store x) (world s) cur ∧ rc_contract_id cur = id ∧
    rc_state cur = RECONCILIATION ∧ ob_contract_id ob = id ∧ ob_state_version ob = rc_state_version cur ∧
    (∃ ev, last (select_audit id (db (world s))) = Some ev ∧
       a_previous_state ev = Some (state_value (ob_uncertainty_origin ob))) ∧
    ob_uncertainty_origin ob ∈ [EXECUTING; ROLLING_BACK] ∧
    read_as adapter cur ti raw tt ∧ ob_lifecycle_locator ob = rc_lifecycle_locator cur ∧
    (fingerprint adapter raw ≫= fingerprint_digest cur) = Ok (ob_target_fingerprint ob).
Proof.
  intros Hw Hp. destruct (reachable_rep _ Hclock (quiet_others_behave _ Hquiet) _ Hw) as [m Hr].
  pattern r, s'. match goal with |- ?Q _ _ => refine (wp_elim _ Q _ _ _ _ Hp) end. clear r s' Hp. unfold observe_reconciliation_target.
  apply wp_bind, (wp_load m); [done|done|]. intros c Hm Hid. subst id.
  destruct (state_eqb (rc_state c) RECONCILIATION) eqn:Hst; cbn [negb]; [|done]. apply state_eqb_eq in Hst.
  destruct (_ || _); [done|]. apply wp_bind, wp_on_store. intros r0 w Hev.
  rewrite (audit_events_quiet _ Hquiet m _ c) in Hev by done. injection Hev as <- <-.
  assert (mkSession (world s) (sends s) = s) as -> by (by destruct s).
  rewrite last_map_event. destruct (last (events_of (rc_contract_id c) (db (world s)))) as [ev|] eqn:Hlast; [|done].
  cbn [fmap option_fmap option_map event_of ev_previous_state ev_current_state ev_state_version].
  destruct (a_previous_state ev ≫= _) as [origin|] eqn:Horig; [|done].
  destruct (_ || _) eqn:Eg; [done|]. rewrite !orb_false_iff, !negb_false_iff in Eg. destruct Eg as [_ Hor].
  apply bind_Some in Horig as (v & Hv & [_ Hfind]%find_some). apply pystr_eqb_eq in Hfind.
  apply wp_bind, wp_attempt, wp_bind, wp_lift.
  destruct (decrypt x c _ ROLE_TARGET_IDENTITY) as [ti|]; [|done].
  apply wp_bind, wp_on_env. intros r1 e e' Hread. destruct r1 as [raw|]; [|done].
  apply wp_bind, wp_lift. destruct (resolve_transport_target c adapter raw) as [tt|] eqn:Hres; [|done].
  apply wp_bind, wp_lift. destruct (fingerprint adapter raw ≫= _) as [fp|] eqn:Hfp; [|done].
  apply wp_ret, wp_ret. split_and!; [done|done|]. intros ob [= <-]. exists c, ti, raw, tt.
  assert (numeric_locator tt = rc_lifecycle_locator c) as Hloc by (by eapply resolve_locator).
  split_and!; try done.
  - by apply (stored_lookup _ m).
  - exists ev. rewrite (rep_select_audit _ _ _ _ _ Hr Hm). split; [done|]. cbn. by rewrite Hfind, Hv.
  - by apply in_states_eq.
  - split; [exists e; by rewrite Hread|done].
Qed.

(** ** What a lost reply is taken for *)

(** The state an attempt ends in for what [httpx] made of its request;
    [None] for a 2xx response, which is verified by a fresh read. *)
Definition concluded (o : httpx_outcome) : option RecoveryState :=
  match o with
  | HxResponse r =>
    if ((200 <=? status_code r) && (status_code r <? 300))%Z then None
    else if ((400 <=? status_code r) && (status_code r <? 500))%Z then Some FAILED else Some RECONCILIATION
  | HxConnectError | HxConnectTimeout | HxPoolTimeout | HxOtherTransportError => Some FAILED
  | HxOtherTimeout => Some RECONCILIATION
  | HxOther e =>
    if bool_decide (e = WriteNotAllowedError) || is_TransportConnectionError e
    then Some FAILED else Some RECONCILIATION
  end.

(** [C21] What a request that went out proves, case by case.  Over the HTTP
    transport, sending a contract for the alias endpoint makes one request
    and concludes: FAILED for a 4xx reply and for a connection that was
    never established, RECONCILIATION for a timeout of the reply, a reply
    of any other class or an unknown exception.  But a connection that
    broke after the request was handed over ([httpx.ReadError],
    [RemoteProtocolError], ...) is classed with the connections never
    established: boundary [BEFORE_SEND], knowledge [PROVEN_NONE], FAILED,
    whatever the device did with the request. *)
Theorem lost_reply_taken_for_unsent client contract req body s o e' :
  transport_request (x_write_client x) = HttpTransport_request client →
  rc_endpoint_symbol contract = u "FIREWALL_ALIAS_DESCRIPTION" → rc_http_method contract = u "PATCH" →
  model_dump_json x req = Ok body →
  client (u "PATCH") (u "/api/v2/firewall/alias") (Some body) (env (world s)) = (o, e') →
  ∃ b k resp s', send x contract req None s = (Ok (b, k, resp), s') ∧
    env (world s') = e' ∧ db (world s') = db (world s) ∧ length (sends s') = S (length (sends s)) ∧
    (k = VERIFIED_SUCCESS ↔ concluded o = None) ∧
    (∀ st, concluded o = Some st → target_state (classify_fault b k) = st) ∧
    (o = HxOtherTransportError → b = BEFORE_SEND ∧ k = PROVEN_NONE).
Proof.
  intros Ht Hs Hm Hb Hc.
  assert (send_for_tier1 (x_write_client x) (rc_endpoint_symbol contract) (rc_http_method contract) body s =
    request (x_write_client x) (u "PATCH") (u "/api/v2/firewall/alias") (Some body) s) as Hreq.
  { rewrite Hs, Hm. unfold send_for_tier1, request_path. by destruct (api_version (x_write_client x)). }
  destruct (request (x_write_client x) (u "PATCH") (u "/api/v2/firewall/alias") (Some body) s) as [r s'] eqn:Hr.
  destruct (request_spec _ _ _ _ _ _ _ Hr) as (Hd & He & Hl). rewrite Ht in He. unfold HttpTransport_request in He.
  rewrite Hc in He. injection He as <- He'.
  match type of Hr with _ = (?r, _) => destruct (classify_reply r) as [[b k] resp] eqn:Hk end.
  exists b, k, resp, s'. split.
  { unfold send, attempt, mbind, prog_bind, lift. rewrite Hb, Hreq. cbv iota. by rewrite Hk. }
  rewrite Hl, length_app. split_and!; [done|done|simpl; lia|..];
    unfold classify_reply, concluded in *; destruct o; repeat case_match; simplify_eq; naive_solver.
Qed.
End executor_props.
