(* ===== verification/AliasDescription.v ===== *)
(** * The alias description capability

    [tier1/alias_description.py], with the model [models/firewall_alias.py]:
    the two-field request, the authoritative alias state, the capability
    adapter the sealed executor drives and the preparer that makes the
    execution intent.  The read client is a parameter, and so is pydantic's
    strict validation of a raw alias; the syntax check of the configured
    base URL is left out. *)

From S2P Require Import Prelude PyStr Sha256 Json Capability Canonical PyJson Contract Executor.
From S2P Require Import PreparedIntent WriteApi.

Definition SEMANTIC_UNIT : pystr := u "set_firewall_alias_description_v1".
Definition ENDPOINT_SYMBOL : pystr := u "FIREWALL_ALIAS_DESCRIPTION".
Definition HTTP_METHOD : pystr := u "PATCH".
Definition ADAPTER_VERSION : pystr := u "firewall-alias-description-v1".
Definition ROLLBACK_VERSION : pystr := u "firewall-alias-description-rollback-v1".

(** [_ALIAS_NAME] *)
Definition match_alias_name (s : pystr) : bool :=
  match s with
  | [] => false
  | c :: s => is_alnum c && forallb (λ c, is_alnum c || (c =? 95)%N) s && (length s <=? 31)%nat
  end.

Definition ALIAS_TYPES : list pystr := [u "host"; u "network"; u "port"].
Definition is_alias_type (s : pystr) : bool := existsb (pystr_eqb s) ALIAS_TYPES.

(** ** Python dicts *)

Definition py_dict (v : pyobj) : option (list (pyobj * pyobj)) :=
  match v with PDict d => Some d | _ => None end.

(** [d[key]], for a key that is there. *)
Definition item (key : string) (d : list (pyobj * pyobj)) : option pyobj :=
  snd <$> find (λ kv, match fst kv with PStr k => pystr_eqb k (u key) | _ => false end) d.

(** [set(d) == {...}] *)
Definition keys_are (keys : list string) (d : list (pyobj * pyobj)) : bool :=
  forallb (λ kv, match fst kv with PStr k => existsb (λ key, pystr_eqb k (u key)) keys | _ => false end) d &&
  forallb (λ key, negb (is_none (item key d))) keys.

Definition py_str (v : pyobj) : option pystr := match v with PStr s => Some s | _ => None end.
Definition py_strs (v : pyobj) : option (list pystr) := match v with PList l => mapM py_str l | _ => None end.

(** A value whose hash exists; [in] a frozenset raises for any other. *)
Fixpoint hashable (v : pyobj) : bool :=
  match v with PList _ | PDict _ => false | PTuple l => forallb hashable l | _ => true end.

Section alias.
Context `{Hash} `{UnicodeData}.

(** ** The request *)

(** [_normalize_description] *)
Definition normalize_description (value : pystr) : result pystr :=
  let normalized := nfc value in
  _ ← require (length normalized <=? 1024)%nat ValueError;
  _ ← require (negb (existsb (λ c, (c =? 0)%N || (c =? 1)%N || in_range 0xD800 0xDFFF c) normalized)) ValueError;
  Ok normalized.

Record AliasDescriptionChangeV1 : Type := { ch_alias_name : pystr; ch_description : pystr }.

(** The validated model: a [ValidationError] is a [ValueError]. *)
Definition AliasDescriptionChangeV1_new (alias_name description : pystr) : result AliasDescriptionChangeV1 :=
  let normalized := nfc alias_name in
  _ ← require (match_alias_name normalized) ValueError;
  descr ← normalize_description description;
  Ok {| ch_alias_name := normalized; ch_description := descr |}.

Record AliasDescriptionPatchV1 : Type := { pt_id : Z; pt_descr : pystr; pt_apply : bool }.

(** ** The authoritative state *)

Record FirewallAlias : Type := {
  fa_descr : pystr; fa_id : Z; fa_name : pystr; fa_type : pystr;
  fa_address : option (list pystr); fa_detail : option (list pystr) }.

Record AliasStateV1 : Type := {
  as_name : pystr; as_numeric_locator : Z; as_alias_type : pystr; as_descr : pystr;
  as_address : list pystr; as_detail : list pystr }.

Definition is_nfc (s : pystr) : bool := pystr_eqb s (nfc s).

(** [from_model] *)
Definition from_model (alias : FirewallAlias) : result AliasStateV1 :=
  match fa_address alias, fa_detail alias with
  | Some address, Some detail =>
    _ ← require (is_nfc (fa_name alias) && match_alias_name (fa_name alias) && is_alias_type (fa_type alias) &&
                 (length address =? length detail)%nat && ((0 <=? fa_id alias) && (fa_id alias <=? 2147483647))%Z)
          PreparedExecutionIntentError;
    _ ← require (forallb is_nfc (fa_descr alias :: address ++ detail)) PreparedExecutionIntentError;
    Ok {| as_name := fa_name alias; as_numeric_locator := fa_id alias; as_alias_type := fa_type alias;
          as_descr := fa_descr alias; as_address := address; as_detail := detail |}
  | _, _ => Raise PreparedExecutionIntentError
  end.

Definition identity (s : AliasStateV1) : pyobj := pdict [("alias_name", PStr (as_name s))].

Definition state_fingerprint (s : AliasStateV1) : pyobj :=
  pdict [("name", PStr (as_name s)); ("type", PStr (as_alias_type s)); ("descr", PStr (as_descr s));
         ("address", PList (map PStr (as_address s))); ("detail", PList (map PStr (as_detail s)))].

(** ** Protected values, read back *)

Record AliasFingerprint : Type := {
  fp_name : pystr; fp_type : pystr; fp_descr : pystr; fp_address : list pystr; fp_detail : list pystr }.

#[global] Instance AliasFingerprint_eq_dec : EqDecision AliasFingerprint.
Proof. solve_decision. Defined.

Definition fingerprint_of (s : AliasStateV1) : AliasFingerprint := {|
  fp_name := as_name s; fp_type := as_alias_type s; fp_descr := as_descr s;
  fp_address := as_address s; fp_detail := as_detail s |}.

(** [_fingerprint] *)
Definition fingerprint_ (value : pyobj) : result AliasFingerprint :=
  d ← of_option (py_dict value) PreparedExecutionIntentError;
  _ ← require (keys_are ["name"; "type"; "descr"; "address"; "detail"] d) PreparedExecutionIntentError;
  name ← of_option (item "name" d ≫= py_str) PreparedExecutionIntentError;
  _ ← require (match_alias_name name) PreparedExecutionIntentError;
  _ ← require (match item "type" d with Some t => hashable t | None => true end) TypeError;
  alias_type ← of_option (item "type" d ≫= py_str) PreparedExecutionIntentError;
  _ ← require (is_alias_type alias_type) PreparedExecutionIntentError;
  description ← of_option (item "descr" d ≫= py_str) PreparedExecutionIntentError;
  address ← of_option (item "address" d ≫= py_strs) PreparedExecutionIntentError;
  detail ← of_option (item "detail" d ≫= py_strs) PreparedExecutionIntentError;
  _ ← require (length address =? length detail)%nat PreparedExecutionIntentError;
  _ ← require (forallb is_nfc (name :: description :: address ++ detail)) PreparedExecutionIntentError;
  Ok {| fp_name := name; fp_type := alias_type; fp_descr := description; fp_address := address; fp_detail := detail |}.

Record AliasIntent : Type := {
  in_alias_name : pystr; in_new_description : pystr; in_appliance_target_digest : pystr }.

(** [_intent] *)
Definition intent_ (value : pyobj) : result AliasIntent :=
  d ← of_option (py_dict value) PreparedExecutionIntentError;
  _ ← require (keys_are ["operation"; "raw_target_hint"; "new_description"; "appliance_target_digest"] d)
        PreparedExecutionIntentError;
  operation ← of_option (item "operation" d ≫= py_str) PreparedExecutionIntentError;
  _ ← require (pystr_eqb operation SEMANTIC_UNIT) PreparedExecutionIntentError;
  hint ← of_option (item "raw_target_hint" d ≫= py_dict) PreparedExecutionIntentError;
  _ ← require (keys_are ["alias_name"] hint) PreparedExecutionIntentError;
  alias_name ← of_option (item "alias_name" hint ≫= py_str) PreparedExecutionIntentError;
  _ ← require (match_alias_name alias_name) PreparedExecutionIntentError;
  new_description ← of_option (item "new_description" d ≫= py_str) PreparedExecutionIntentError;
  normalized ← normalize_description new_description;
  _ ← require (pystr_eqb normalized new_description) PreparedExecutionIntentError;
  target_digest ← of_option (item "appliance_target_digest" d ≫= py_str) PreparedExecutionIntentError;
  _ ← require (match_hex64 target_digest) PreparedExecutionIntentError;
  Ok {| in_alias_name := alias_name; in_new_description := new_description;
        in_appliance_target_digest := target_digest |}.
End alias.

(** ** The adapter *)

(** The raw target of [WriteExecutionCore] and [AliasDescriptionExecutionCoreV1._raw_target]. *)
Definition raw_target_items (s : AliasStateV1) : list (string * pyobj) :=
  [("name", PStr (as_name s)); ("id", PInt (as_numeric_locator s)); ("type", PStr (as_alias_type s));
   ("descr", PStr (as_descr s)); ("address", PList (map PStr (as_address s)));
   ("detail", PList (map PStr (as_detail s)))].

Definition model_of (s : AliasStateV1) : FirewallAlias := {|
  fa_descr := as_descr s; fa_id := as_numeric_locator s; fa_name := as_name s; fa_type := as_alias_type s;
  fa_address := Some (as_address s); fa_detail := Some (as_detail s) |}.

(** [FirewallAlias.model_validate(value, strict=True)]: pydantic accepts a
    dict whose fields have the declared types, in any order. *)
Class AliasModel : Type := {
  model_validate : pyobj → option FirewallAlias;
  model_validate_fields s l : l ≡ₚ raw_target_items s →
    forallb (forallb is_scalar) (as_name s :: as_alias_type s :: as_descr s :: as_address s ++ as_detail s) = true →
    model_validate (pdict l) = Some (model_of s);
}.

(** What [read_target] returns, or the dict of a target hint. *)
Inductive RawTarget : Type := RawState (s : AliasStateV1) | RawValue (v : pyobj).

Record AliasDescriptionReadClient (E : Type) : Type := {
  get_firewall_aliases : Z → prog E (list FirewallAlias);     (* the limit *)
  get_system_status_netgate_id : prog E (option pystr);
  get_system_hasync_pfhostid : prog E (option pystr);
}.
Arguments get_firewall_aliases {_} _ _.
Arguments get_system_status_netgate_id {_} _.
Arguments get_system_hasync_pfhostid {_} _.

Section adapter.
Context `{Hash} `{UnicodeData} `{AliasModel} {E : Type} (read_client : AliasDescriptionReadClient E).

(** [_state] *)
Definition state_ (raw_target : RawTarget) : result AliasStateV1 :=
  match raw_target with
  | RawState s => Ok s
  | RawValue v =>
    d ← of_option (py_dict v) PreparedExecutionIntentError;
    _ ← require (keys_are ["name"; "id"; "type"; "descr"; "address"; "detail"] d) PreparedExecutionIntentError;
    alias ← of_option (model_validate v) PreparedExecutionIntentError;
    from_model alias
  end.

(** [read_target], up to the name it looks for. *)
Definition read_named (name : pystr) : prog E AliasStateV1 :=
  aliases ← get_firewall_aliases read_client 500;
  _ ← lift (require (length aliases <? 500)%nat PreparedExecutionIntentError);
  matches ← lift (mapM from_model (filter (λ alias, fa_name alias = name) aliases));
  match matches with
  | [state] => mret state
  | _ => raise PreparedExecutionIntentError
  end.

Definition read_target_name (natural_identity : pyobj) : result pystr :=
  d ← of_option (py_dict natural_identity) PreparedExecutionIntentError;
  _ ← require (keys_are ["alias_name"] d) PreparedExecutionIntentError;
  name ← of_option (item "alias_name" d ≫= py_str) PreparedExecutionIntentError;
  _ ← require (match_alias_name name) PreparedExecutionIntentError;
  Ok name.

Definition alias_read_target (natural_identity : pyobj) : prog E RawTarget :=
  name ← lift (read_target_name natural_identity);
  state ← read_named name;
  mret (RawState state).

Definition alias_build_request (intent : pyobj) (target : ResolvedTransportTarget)
    : result (option AliasDescriptionPatchV1) :=
  normalized ← intent_ intent;
  Ok (Some {| pt_id := numeric_locator target; pt_descr := in_new_description normalized; pt_apply := false |}).

Definition alias_is_semantically_verified (pre post : RawTarget) (intent : pyobj) : result bool :=
  before ← state_ pre;
  after ← state_ post;
  normalized ← intent_ intent;
  Ok (pystr_eqb (as_descr after) (in_new_description normalized) &&
      pystr_eqb (as_name before) (as_name after) && pystr_eqb (as_alias_type before) (as_alias_type after) &&
      bool_decide (as_address before = as_address after) && bool_decide (as_detail before = as_detail after)).

Definition alias_build_rollback_request (pre : pyobj) (target : ResolvedTransportTarget)
    : result (option AliasDescriptionPatchV1) :=
  fingerprint ← fingerprint_ pre;
  Ok (Some {| pt_id := numeric_locator target; pt_descr := fp_descr fingerprint; pt_apply := false |}).

Definition alias_is_rollback_verified (pre : pyobj) (post_rollback : RawTarget) : result bool :=
  fingerprint ← fingerprint_ pre;
  state ← state_ post_rollback;
  Ok (bool_decide (fingerprint = fingerprint_of state)).

(** [AliasDescriptionAdapterV1] *)
Definition AliasDescriptionAdapterV1 : CapabilityAdapter E RawTarget AliasDescriptionPatchV1 := {|
  ad_endpoint_symbol := ENDPOINT_SYMBOL; ad_http_method := HTTP_METHOD; ad_capability := ALIAS_WRITE;
  read_target := alias_read_target;
  natural_identity raw_target := s ← state_ raw_target; Ok (identity s);
  fingerprint raw_target := s ← state_ raw_target; Ok (state_fingerprint s);
  transport_locator raw_target := s ← state_ raw_target; Ok (as_numeric_locator s);
  build_request := alias_build_request;
  parse_response _ := Ok ();
  is_semantically_verified := alias_is_semantically_verified;
  build_rollback_request := alias_build_rollback_request;
  is_rollback_verified := alias_is_rollback_verified |}.

(** ** The preparer *)

Inductive TLSMode : Type := STRICT | AUTO | INSECURE.
Definition tls_mode_value (m : TLSMode) : pystr :=
  match m with STRICT => u "strict" | AUTO => u "auto" | INSECURE => u "insecure" end.

(** The facts of the target; [__post_init__] (the syntax of the URL, no
    INSECURE mode, a CA digest exactly in AUTO mode) is the caller's
    business here: no theorem uses it. *)
Record ConfiguredApplianceTargetV1 : Type := {
  ct_base_url : pystr; ct_tls_mode : TLSMode; ct_ca_certificate_digest : option pystr }.

Record PreparedAliasDescriptionExecutionV1 : Type := {
  pa_intent : PreparedExecutionIntentV1; pa_authoritative_a : AliasStateV1; pa_appliance_target_digest : pystr }.

Context (configured_target : ConfiguredApplianceTargetV1).

Definition nonempty_str (o : option pystr) : option pystr :=
  match o with Some ((_ :: _) as s) => Some s | _ => None end.

(** [_read_appliance_target_digest] *)
Definition read_appliance_target_digest : prog E pystr :=
  netgate_id ← get_system_status_netgate_id read_client;
  identity ←
    match nonempty_str netgate_id with
    | Some id => mret (Some (u "netgate_id", id))
    | None => pfhostid ← get_system_hasync_pfhostid read_client;
              mret ((λ id, (u "pfhostid", id)) <$> nonempty_str pfhostid)
    end;
  match identity with
  | None => raise PreparedExecutionIntentError
  | Some (kind, id) =>
    lift (digest_value TARGET_IDENTITY
      (pdict [("configured_base_url", PStr (ct_base_url configured_target));
              ("tls_mode", PStr (tls_mode_value (ct_tls_mode configured_target)));
              ("ca_certificate_digest",
                 match ct_ca_certificate_digest configured_target with Some d => PStr d | None => PNone end);
              ("installation_identity_kind", PStr kind); ("installation_identity", PStr id)])
      [u "configured-pfsense-appliance-v1"])
  end.

Definition alias_intent_items (request : AliasDescriptionChangeV1) (appliance_digest : pystr) : list (string * pyobj) :=
  [("operation", PStr SEMANTIC_UNIT);
   ("raw_target_hint", pdict [("alias_name", PStr (ch_alias_name request))]);
   ("new_description", PStr (ch_description request));
   ("appliance_target_digest", PStr appliance_digest)].

(** [prepare] *)
Definition prepare (request : AliasDescriptionChangeV1) : prog E PreparedAliasDescriptionExecutionV1 :=
  name ← lift (read_target_name (pdict [("alias_name", PStr (ch_alias_name request))]));
  state ← read_named name;
  if pystr_eqb (as_descr state) (ch_description request) then raise PreparedExecutionIntentError else
  appliance_digest ← read_appliance_target_digest;
  prepared ← lift (PreparedExecutionIntentV1_new PREPARED_EXECUTION_INTENT_SCHEMA_VERSION ALIAS_WRITE
    ENDPOINT_SYMBOL HTTP_METHOD ADAPTER_VERSION (identity state) (state_fingerprint state)
    (pdict (alias_intent_items request appliance_digest)) (state_fingerprint state) ROLLBACK_VERSION);
  mret {| pa_intent := prepared; pa_authoritative_a := state; pa_appliance_target_digest := appliance_digest |}.
End adapter.
