(* ===== verification/AliasProps.v ===== *)
(** * Properties of the alias description capability

    What the adapter makes of the values an intent protects, read back from
    their canonical form: the request, the rollback, the two verifications
    and the binding of the target. *)

From S2P Require Import Prelude PyStr Sha256 Json Capability Canonical PyJson Literals Contract Executor.
From S2P Require Import PreparedIntent StoreInv AliasDescription.

Section facts.
Context `{Hash} `{UnicodeData} `{AliasModel}.

(** A state [from_model] returned. *)
Record state_ok (s : AliasStateV1) : Prop := {
  so_name : match_alias_name (as_name s) = true;
  so_type : is_alias_type (as_alias_type s) = true;
  so_lengths : length (as_address s) = length (as_detail s);
  so_locator : (0 <= as_numeric_locator s <= 2147483647)%Z;
  so_nfc_name : nfc (as_name s) = as_name s;
  so_nfc_descr : nfc (as_descr s) = as_descr s;
  so_nfc_address : Forall (λ x, nfc x = x) (as_address s);
  so_nfc_detail : Forall (λ x, nfc x = x) (as_detail s);
}.

Lemma is_nfc_eq s : is_nfc s = true ↔ nfc s = s.
Proof. unfold is_nfc. rewrite pystr_eqb_eq. by split. Qed.

Lemma is_nfc_all l : forallb is_nfc l = true ↔ Forall (λ x, nfc x = x) l.
Proof. induction l as [|x l IH]; [by split|]. cbn [forallb]. by rewrite andb_true_iff, Forall_cons, IH, is_nfc_eq. Qed.

Lemma from_model_inv m s : from_model m = Ok s → m = model_of s ∧ state_ok s.
Proof.
  unfold from_model. destruct m as [descr id name type [address|] [detail|]]; try done.
  cbn [fa_descr fa_id fa_name fa_type fa_address fa_detail forallb].
  rewrite !require_bind, forallb_app. intros (G1 & G2 & [= <-]). rewrite !andb_true_iff in *.
  destruct G1 as [[[[G1 G3] G4] G5%Nat.eqb_eq] [G6%Z.leb_le G7%Z.leb_le]]. destruct G2 as [G8 [G9 G10]].
  rewrite is_nfc_eq in G1, G8. rewrite is_nfc_all in G9, G10. by split.
Qed.

Lemma from_model_ok s : state_ok s → from_model (model_of s) = Ok s.
Proof.
  intros [Hn Ht Hl [G1 G2] N1 N2 N3 N4]. unfold from_model, model_of. cbn [fa_descr fa_id fa_name fa_type fa_address fa_detail forallb].
  rewrite forallb_app, !(proj2 (is_nfc_eq _)), !(proj2 (is_nfc_all _)), Hn, Ht, Hl, Nat.eqb_refl by done.
  rewrite !(proj2 (Z.leb_le _ _)) by done. by destruct s.
Qed.

Lemma alias_type_ascii t : is_alias_type t = true → is_ascii t = true.
Proof.
  unfold is_alias_type. rewrite existsb_exists. intros (x & Hx & ->%pystr_eqb_eq). by destruct Hx as [<-|[<-|[<-|[]]]].
Qed.

(** ** Values read back *)

Definition fingerprint_value (s : AliasStateV1) : pyobj :=
  pdict [("address", PList (map PStr (as_address s))); ("descr", PStr (as_descr s));
         ("detail", PList (map PStr (as_detail s))); ("name", PStr (as_name s)); ("type", PStr (as_alias_type s))].

Definition intent_value (name descr digest : pystr) : pyobj :=
  pdict [("appliance_target_digest", PStr digest); ("new_description", PStr descr);
         ("operation", PStr SEMANTIC_UNIT); ("raw_target_hint", pdict [("alias_name", PStr name)])].

Lemma denote_strs d l x : Forall (λ s, nfc s = s) l → denote d (PList (map PStr l)) = Some x → x = JList (map JStr l).
Proof.
  intros Hl (xs & -> & Hxs)%denote_plist. f_equal. revert xs Hxs. induction Hl as [|s l Hs _ IH]; intros xs Hxs; [by injection Hxs as <-|].
  cbn [map] in *. rewrite mapM_cons in Hxs. apply bind_Some in Hxs as (y & ->%denote_str_nfc & (r & Hr & [= <-])%bind_Some).
  rewrite Hs. f_equal. by apply IH.
Qed.

Lemma py_of_strs l : map py_of_json (map sort_keys (map JStr l)) = map PStr l.
Proof. induction l as [|s l IH]; [done|]. cbn [map sort_keys py_of_json]. by rewrite IH. Qed.

Lemma fingerprint_frozen s b f : state_ok s →
  validated_frozen (state_fingerprint s) b = Ok f → py_of_json (thaw f) = fingerprint_value s.
Proof.
  intros [Hn Ht Hl _ N1 N2 N3 N4] (j & [Hd _]%validate_denote & ->)%validated_frozen_inv. rewrite thaw_freeze.
  apply denote_pdict_entries in Hd as (es & -> & He); [|reflexivity]. literal_entries.
  repeat match goal with
  | H : denote _ (PStr _) = Some _ |- _ => apply denote_str_nfc in H as ->
  | H : denote _ (PList _) = Some _ |- _ => apply denote_strs in H as ->; [|done]
  end.
  rewrite N1, N2, (nfc_ascii (as_alias_type s)) by (by apply alias_type_ascii).
  change (py_of_json (sort_keys (JObj [(u "name", JStr (as_name s)); (u "type", JStr (as_alias_type s));
      (u "descr", JStr (as_descr s)); (u "address", JList (map JStr (as_address s)));
      (u "detail", JList (map JStr (as_detail s)))]))) with
    (pdict [("address", PList (map py_of_json (map sort_keys (map JStr (as_address s))))); ("descr", PStr (as_descr s));
      ("detail", PList (map py_of_json (map sort_keys (map JStr (as_detail s))))); ("name", PStr (as_name s));
      ("type", PStr (as_alias_type s))]).
  by rewrite !py_of_strs.
Qed.

Lemma intent_frozen r d b f :
  nfc (ch_alias_name r) = ch_alias_name r → nfc (ch_description r) = ch_description r → is_ascii d = true →
  validated_frozen (pdict (alias_intent_items r d)) b = Ok f →
  py_of_json (thaw f) = intent_value (ch_alias_name r) (ch_description r) d.
Proof.
  intros N1 N2 Hd (j & [Hj _]%validate_denote & ->)%validated_frozen_inv. rewrite thaw_freeze.
  apply denote_pdict_entries in Hj as (es & -> & He); [|reflexivity]. unfold alias_intent_items in He. literal_entries.
  repeat match goal with
  | H : denote _ (PStr _) = Some _ |- _ => apply denote_str_nfc in H as ->
  | H : denote _ (pdict _) = Some _ |- _ => apply denote_pdict_entries in H as (? & -> & ?); [|reflexivity]
  end.
  literal_entries.
  repeat match goal with H : denote _ (PStr _) = Some _ |- _ => apply denote_str_nfc in H as -> end.
  rewrite N1, N2, (nfc_ascii d), (nfc_ascii SEMANTIC_UNIT) by done. reflexivity.
Qed.

Lemma py_strs_map l : py_strs (PList (map PStr l)) = Some l.
Proof. cbn [py_strs]. induction l as [|s l IH]; [done|]. cbn [map]. by rewrite mapM_cons, IH. Qed.

(** The adapter reads both back. *)
Lemma fingerprint_read s : state_ok s → fingerprint_ (fingerprint_value s) = Ok (fingerprint_of s).
Proof.
  intros [Hn Ht Hl _ N1 N2 N3 N4]. unfold fingerprint_, fingerprint_value, pdict. cbn [py_dict of_option mbind result_bind].
  set (d := map _ _). change (keys_are ["name"; "type"; "descr"; "address"; "detail"] d) with true.
  change (item "name" d) with (Some (PStr (as_name s))). change (item "type" d) with (Some (PStr (as_alias_type s))).
  change (item "descr" d) with (Some (PStr (as_descr s))). change (item "address" d) with (Some (PList (map PStr (as_address s)))).
  change (item "detail" d) with (Some (PList (map PStr (as_detail s)))). clear d. cbn [mbind option_bind hashable].
  rewrite !py_strs_map. cbn [py_str of_option mbind result_bind require forallb].
  rewrite forallb_app, !(proj2 (is_nfc_eq _)), !(proj2 (is_nfc_all _)), Hn, Ht, Hl, Nat.eqb_refl by done. done.
Qed.

Lemma intent_read name descr digest :
  match_alias_name name = true → normalize_description descr = Ok descr → match_hex64 digest = true →
  intent_ (intent_value name descr digest) =
    Ok {| in_alias_name := name; in_new_description := descr; in_appliance_target_digest := digest |}.
Proof.
  intros Hn Hd Hh. unfold intent_, intent_value, pdict at 1. cbn [py_dict of_option mbind result_bind].
  set (d := map _ _).
  change (keys_are ["operation"; "raw_target_hint"; "new_description"; "appliance_target_digest"] d) with true.
  change (item "operation" d) with (Some (PStr SEMANTIC_UNIT)).
  change (item "raw_target_hint" d) with (Some (PDict [(PStr (u "alias_name"), PStr name)])).
  change (item "new_description" d) with (Some (PStr descr)).
  change (item "appliance_target_digest" d) with (Some (PStr digest)). clear d.
  cbn [mbind option_bind result_bind py_str py_dict of_option require].
  change (pystr_eqb SEMANTIC_UNIT SEMANTIC_UNIT) with true.
  change (keys_are ["alias_name"] [(PStr (u "alias_name"), PStr name)]) with true.
  change (item "alias_name" [(PStr (u "alias_name"), PStr name)]) with (Some (PStr name)).
  cbn [mbind option_bind result_bind py_str of_option require]. rewrite Hn, Hd. cbn [mbind result_bind].
  rewrite pystr_eqb_refl, Hh. done.
Qed.
End facts.

(** ** The preparer and the adapter *)

Section adapter.
Context `{Hash} `{UnicodeData} `{AliasModel} {E : Type}.
Context (rc : AliasDescriptionReadClient E) (ct : ConfiguredApplianceTargetV1).
Implicit Types (e : E) (r : AliasDescriptionChangeV1) (s post : AliasStateV1).

(** A request the model accepted. *)
Definition request_ok r : Prop :=
  match_alias_name (ch_alias_name r) = true ∧ nfc (ch_alias_name r) = ch_alias_name r ∧
  nfc (ch_description r) = ch_description r ∧ normalize_description (ch_description r) = Ok (ch_description r).

Lemma request_new name descr r : AliasDescriptionChangeV1_new name descr = Ok r → request_ok r.
Proof.
  unfold AliasDescriptionChangeV1_new. rewrite require_bind. intros (Hn & (d & Hd & [= <-])%bind_Ok).
  unfold normalize_description in Hd. rewrite !require_bind in Hd. destruct Hd as (Hl & Hc & [= <-]).
  split_and!; cbn [ch_alias_name ch_description]; [done|apply nfc_idem..|].
  unfold normalize_description. rewrite nfc_idem, Hl, Hc. done.
Qed.

Lemma read_named_inv name e s e' : read_named rc name e = (Ok s, e') →
  state_ok s ∧ as_name s = name ∧ ∃ aliases, get_firewall_aliases rc 500 e = (Ok aliases, e') ∧
    (length aliases < 500)%nat ∧ filter (λ a, fa_name a = name) aliases = [model_of s].
Proof.
  unfold read_named. intros (aliases & e1 & Ha & Hr)%bind_inv.
  apply bind_inv in Hr as ([] & e2 & [Hl ->]%lift_inv & Hr). apply bind_inv in Hr as (l & e3 & [Hm ->]%lift_inv & Hr).
  destruct l as [|s' [|]]; try done. injection Hr as -> ->.
  assert (filter (λ a, fa_name a = name) aliases = [model_of s]) as Hf.
  { destruct (filter _ aliases) as [|m l]; [done|]. change (mapM from_model (m :: l)) with
      (x ← from_model m; k ← mapM from_model l; Ok (x :: k)) in Hm.
    apply bind_Ok in Hm as (x & [-> _]%from_model_inv & (k & Hk & [= -> ->])%bind_Ok).
    destruct l as [|m' l]; [done|]. change (mapM from_model (m' :: l)) with
      (x ← from_model m'; k ← mapM from_model l; Ok (x :: k)) in Hk.
    by apply bind_Ok in Hk as (? & _ & (? & _ & ?)%bind_Ok). }
  assert (model_of s ∈ filter (λ a, fa_name a = name) aliases) as Hin by (rewrite Hf; left).
  apply list_elem_of_filter in Hin as [Hname _]. rewrite Hf in Hm.
  change (mapM from_model [model_of s]) with (x ← from_model (model_of s); k ← Ok []; Ok (x :: k)) in Hm.
  apply bind_Ok in Hm as (x & [_ Hok]%from_model_inv & [= ->]). split_and!; [done..|].
  exists aliases. split_and!; [done| |done]. destruct (length aliases <? 500)%nat eqn:El; [by apply Nat.ltb_lt|done].
Qed.

Lemma appliance_digest_match e d e' : read_appliance_target_digest rc ct e = (Ok d, e') → match_hex64 d = true.
Proof.
  unfold read_appliance_target_digest. intros (n & e1 & _ & Hr)%bind_inv. apply bind_inv in Hr as ([[k i]|] & e2 & _ & Hr); [|done].
  apply lift_inv in Hr as [Hr _]. by apply digest_value_match in Hr.
Qed.

Lemma target_name_inv n name : read_target_name (pdict [("alias_name", PStr n)]) = Ok name → name = n.
Proof.
  unfold read_target_name. cbn [py_dict of_option mbind result_bind pdict map fst snd].
  change (keys_are ["alias_name"] [(PStr (u "alias_name"), PStr n)]) with true.
  change (item "alias_name" [(PStr (u "alias_name"), PStr n)]) with (Some (PStr n)).
  cbn [mbind option_bind result_bind py_str of_option require].
  destruct (match_alias_name n); [|done]. by intros [= <-].
Qed.

(** What [prepare] went through. *)
Lemma prepare_inv r e p e' : prepare rc ct r e = (Ok p, e') →
  let s := pa_authoritative_a p in let d := pa_appliance_target_digest p in
  (∃ aliases e1, get_firewall_aliases rc 500 e = (Ok aliases, e1) ∧
     filter (λ a, fa_name a = ch_alias_name r) aliases = [model_of s]) ∧
  state_ok s ∧ as_name s = ch_alias_name r ∧ as_descr s ≠ ch_description r ∧ match_hex64 d = true ∧
  PreparedExecutionIntentV1_new PREPARED_EXECUTION_INTENT_SCHEMA_VERSION ALIAS_WRITE
    ENDPOINT_SYMBOL HTTP_METHOD ADAPTER_VERSION (identity s) (state_fingerprint s)
    (pdict (alias_intent_items r d)) (state_fingerprint s) ROLLBACK_VERSION = Ok (pa_intent p).
Proof.
  unfold prepare. intros (name & e1 & [->%target_name_inv ->]%lift_inv & Hr)%bind_inv.
  apply bind_inv in Hr as (s & e2 & (Hok & Hname & aliases & Hget & _ & Hf)%read_named_inv & Hr).
  destruct (pystr_eqb (as_descr s) (ch_description r)) eqn:Ed; [done|]. apply pystr_eqb_neq in Ed.
  apply bind_inv in Hr as (d & e3 & Hd%appliance_digest_match & Hr).
  apply bind_inv in Hr as (i & e4 & [Hi ->]%lift_inv & Hr). injection Hr as <- <-.
  split_and!; [by exists aliases, e2|done..].
Qed.

(** The frozen values of an alias intent. *)
Lemma alias_intent_values s r d i :
  state_ok s → request_ok r → match_hex64 d = true →
  PreparedExecutionIntentV1_new PREPARED_EXECUTION_INTENT_SCHEMA_VERSION ALIAS_WRITE
    ENDPOINT_SYMBOL HTTP_METHOD ADAPTER_VERSION (identity s) (state_fingerprint s)
    (pdict (alias_intent_items r d)) (state_fingerprint s) ROLLBACK_VERSION = Ok i →
  target_precondition i = fingerprint_value s ∧ rollback_snapshot i = fingerprint_value s ∧
  normalized_mutation_intent i = intent_value (ch_alias_name r) (ch_description r) d ∧
  (∀ p c, digest_value p (resource_target i) c = digest_value p (identity s) c) ∧
  (∀ p c, digest_value p (target_precondition i) c = digest_value p (state_fingerprint s) c).
Proof.
  intros Hs (_ & N1 & N2 & _) Hd Hi. unfold PreparedExecutionIntentV1_new in Hi. rewrite !require_bind in Hi.
  destruct Hi as (_ & _ & _ & _ & (a & Ha & (b & Hb & (c & Hc & (f & Hf & [= <-])%bind_Ok)%bind_Ok)%bind_Ok)%bind_Ok).
  split_and!.
  - by eapply fingerprint_frozen.
  - by eapply fingerprint_frozen.
  - eapply intent_frozen; [done|done|by apply match_hex64_ascii|done].
  - intros p c'. by eapply digest_value_frozen.
  - intros p c'. by eapply digest_value_frozen.
Qed.

Definition with_description (f : AliasFingerprint) (descr : pystr) : AliasFingerprint := {|
  fp_name := fp_name f; fp_type := fp_type f; fp_descr := descr; fp_address := fp_address f; fp_detail := fp_detail f |}.

(** The adapter's check after a change: everything but the description is
    as before. *)
Lemma verified_iff s post intent n : intent_ intent = Ok n →
  alias_is_semantically_verified (RawState s) (RawState post) intent =
    Ok (bool_decide (fingerprint_of post = with_description (fingerprint_of s) (in_new_description n))).
Proof.
  intros Hi. unfold alias_is_semantically_verified. cbn [state_ mbind result_bind]. rewrite Hi. cbn [mbind result_bind].
  f_equal. apply Bool.eq_iff_eq_true. rewrite !andb_true_iff, !bool_decide_eq_true, !pystr_eqb_eq.
  unfold fingerprint_of, with_description. split; [intros [[[[-> ->] ->] ->] ->]; done|by intros [= -> -> -> -> ->]].
Qed.

Lemma rollback_verified_eq s post : state_ok s →
  alias_is_rollback_verified (fingerprint_value s) (RawState post) = Ok (bool_decide (fingerprint_of s = fingerprint_of post)).
Proof. intros Hs. unfold alias_is_rollback_verified. by rewrite fingerprint_read by done. Qed.

(** [C33] The prepared change is the one asked for, and can be undone.  When
    preparation accepts a validated request, it found exactly one alias of
    that name, with another description.  From the values the intent
    protects the adapter builds the PATCH of the requested description and,
    for the rollback, the PATCH of the old one, neither applied; it accepts
    the result exactly when the alias is as it was except for the requested
    description, and a rollback exactly when it is as it was. *)
Theorem prepared_change r e p e' :
  request_ok r → prepare rc ct r e = (Ok p, e') →
  let s := pa_authoritative_a p in let i := pa_intent p in
  (∃ aliases e1, get_firewall_aliases rc 500 e = (Ok aliases, e1) ∧
     filter (λ a, fa_name a = ch_alias_name r) aliases = [model_of s]) ∧
  as_descr s ≠ ch_description r ∧ prepared_intent i ∧
  (∀ t, build_request (AliasDescriptionAdapterV1 rc) (normalized_mutation_intent i) t =
     Ok (Some {| pt_id := numeric_locator t; pt_descr := ch_description r; pt_apply := false |})) ∧
  (∀ t, build_rollback_request (AliasDescriptionAdapterV1 rc) (rollback_snapshot i) t =
     Ok (Some {| pt_id := numeric_locator t; pt_descr := as_descr s; pt_apply := false |})) ∧
  (∀ post, is_semantically_verified (AliasDescriptionAdapterV1 rc) (RawState s) (RawState post)
       (normalized_mutation_intent i) =
     Ok (bool_decide (fingerprint_of post = with_description (fingerprint_of s) (ch_description r)))) ∧
  (∀ post, is_rollback_verified (AliasDescriptionAdapterV1 rc) (rollback_snapshot i) (RawState post) =
     Ok (bool_decide (fingerprint_of s = fingerprint_of post))).
Proof.
  intros Hr (Hone & Hs & _ & Hne & Hd & Hi)%prepare_inv. cbv zeta.
  destruct (alias_intent_values _ _ _ _ Hs Hr Hd Hi) as (_ & Hsnap & Hint & _). rewrite Hsnap, Hint.
  destruct Hr as (Hn & _ & _ & Hdesc). pose proof (intent_read _ _ _ Hn Hdesc Hd) as Hread.
  split_and!; [done|done| | | | |].
  - by eexists _, _, _, _, _, _, _, _, _, _.
  - intros t. cbn [build_request AliasDescriptionAdapterV1]. unfold alias_build_request. by rewrite Hread.
  - intros t. cbn [build_rollback_request AliasDescriptionAdapterV1]. unfold alias_build_rollback_request.
    by rewrite fingerprint_read.
  - intros post. exact (verified_iff _ _ _ _ Hread).
  - intros post. exact (rollback_verified_eq _ _ Hs).
Qed.
End adapter.
