(* ===== verification/ArtifactExchange.v ===== *)
(** * The artifact files of the product operation

    [tier1/artifact_exchange.py]: the files through which production and the
    off-host signer exchange artifacts.  Two are written here, once and
    never over an existing file, with an integrity tag (the authorization
    preview and the pending confirmation request); two are read here (the
    signed authorization and the signed confirmation).  Reading a path is
    [KeyLifecycle.node]; a failure of the operating system after a
    successful open is left out for readers and is an outcome for the
    writer. *)

From S2P Require Import Prelude PyStr Sha256 PyDatetime Json Base64 Canonical PyJson Contract Evidence StoreCodec JsonTorn.
From S2P Require Import KeyLifecycle Plan SealedApproval Authorization PreparedIntent AliasDescription.

(** ** Files *)

Definition MAX_FILE : nat := N.to_nat 16384.

(** [_read_secure] *)
Definition read_secure (n : node) : result bytes :=
  f ← open_nofollow ArtifactExchangeError n;
  _ ← validate_descriptor MAX_FILE ArtifactExchangeError f;
  Ok (take (MAX_FILE + 1) (f_content f)).

(** What the operating system does with a new file: refuse to create it,
    take every byte, or stop after [k] bytes, by a write that takes nothing
    or by an [OSError] of [write], [fsync] or [close]; the removal of the
    incomplete file may fail too. *)
Inductive write_outcome : Type :=
  | CreateRefused
  | Written
  | WroteNothing (k : nat) (unlinked : bool)
  | WriteOSError (k : nat) (unlinked : bool).

Definition new_file (content : bytes) : node :=
  File {| f_regular := true; f_own := true; f_private := true; f_content := content |}.

Definition OSError : exn := OtherError 40.

(** [write_secure_new]: [O_EXCL] refuses every path where something is. *)
Definition write_secure_new (o : write_outcome) (value : bytes) : prog node () := λ n,
  match n with
  | Absent =>
    match o with
    | CreateRefused => (Raise ArtifactExchangeError, Absent)
    | Written => (Ok (), new_file value)
    | WroteNothing k unlinked =>
      (Raise ArtifactExchangeError, if unlinked then Absent else new_file (take k value))
    | WriteOSError k unlinked => (Raise OSError, if unlinked then Absent else new_file (take k value))
    end
  | _ => (Raise ArtifactExchangeError, n)
  end.

(** ** Decoding *)

(** [except (KeyError, TypeError, ValueError, ...): raise
    ArtifactExchangeError]: every exception the conversions of a reader and
    the constructors raise is in its clause. *)
Definition malformed {A} (m : result A) : result A :=
  match m with Ok a => Ok a | Raise _ => Raise ArtifactExchangeError end.

(** The digits of a float text with the decimal exponent: [m * 10 ^ e]. *)
Definition float_parts (s : pystr) : Z * Z :=
  let '(neg, s1) := read_sign s in
  let '(ds, r) := read_int s1 in
  let '(fr, r1) := read_frac r in
  let exponent :=
    match r1 with
    | _ :: t => match t with
      | g :: ds => let n := Z.of_N (N.of_uint (str_uint (if is_digit g then t else ds))) in
                   if (g =? 45)%N then - n else n
      | [] => 0
      end
    | [] => 0
    end%Z in
  let m := Z.of_N (N.of_uint (str_uint (ds ++ drop 1 fr))) in
  ((if neg then - m else m)%Z, (exponent - Z.of_nat (length (drop 1 fr)))%Z).

(** [float(text) == n] for [n] a power of two: the decimal value rounds to
    [n], ties going to the even mantissa of [n]. *)
Definition float_equals (text : pystr) (n : Z) : bool :=
  if existsb is_digit text then
    let '(m, e) := float_parts text in
    let (num, den) := if (0 <=? e)%Z then (m * 10 ^ e, 1)%Z else (m, 10 ^ - e)%Z in
    ((n * (2 ^ 54 - 1) * den <=? num * 2 ^ 54) && (num * 2 ^ 53 <=? n * (2 ^ 53 + 1) * den))%Z
  else false.

(** [raw["schema_version"] == n], for [n] 1 or 2. *)
Definition equals_int (v : json) (n : Z) : bool :=
  match v with
  | JInt z => (z =? n)%Z
  | JBool b => ((if b then 1 else 0) =? n)%Z
  | JFloat text => float_equals text n
  | _ => false
  end.

Definition schema_is (n : Z) (items : list (pystr * json)) : bool :=
  match lookup_item (u "schema_version") items with Some v => equals_int v n | None => false end.

(** [Enum(v)] *)
Definition member_of_value {A} (value : A → pystr) (members : list A) (v : json) : result A :=
  match v with
  | JStr s => of_option (find (λ a, pystr_eqb (value a) s) members) ValueError
  | _ => Raise ValueError
  end.

Definition as_opt_int (v : json) : result (option Z) :=
  match v with JInt z => Ok (Some z) | JNull => Ok None | _ => Raise SecurityAuthorizationError end.

(** [base64.b64decode(v, validate=True)] *)
Definition as_base64 (v : json) : result bytes :=
  match v with JStr s => of_option (b64decode s) ValueError | _ => Raise TypeError end.

Definition as_object (v : json) : result (list (pystr * json)) :=
  match v with JObj items => Ok items | _ => Raise TypeError end.

(** The first checks of every reader: an object with exactly these keys and
    this schema version. *)
Definition expect_fields (fields : list pystr) (version : Z) (raw : json) : result (list (pystr * json)) :=
  items ← as_object raw;
  _ ← require (fields_are items fields && schema_is version items) ValueError;
  Ok items.

(** [json.dumps(payload, sort_keys=True, separators=(",", ":")).encode()] *)
Definition file_bytes (items : list (pystr * json)) : bytes := ascii_bytes (dumps true [] (JObj items)).

(** ** Signed authorizations *)

Definition ALL_LEVELS : list AuthorizationLevel :=
  [NONE_REQUIRED; CONFIGURATION_CHANGE; INTERACTIVE_HARDWARE_CONFIRMATION; MILESTONE_9_ACTIVATION_DECISION;
   SEPARATE_DEPROVISION_AUTHORIZATION; UNDETERMINED_NOT_IMPLEMENTED].

Definition json_opt_int (o : option Z) : json := match o with Some z => JInt z | None => JNull end.

Definition binding_entry (b : PlanAuthorizationStepBinding) : json :=
  JObj [(u "step_id", JStr (sb_step_id b)); (u "execution_intent_digest", JStr (sb_execution_intent_digest b))].

Definition fingerprint_items (f : AuthorizationEvidenceFingerprint) : list (pystr * json) :=
  [(u "capability_posture_value", JStr (ef_capability_posture_value f));
   (u "anchor_assurance_value", JStr (ef_anchor_assurance_value f));
   (u "anchor_evidence_state", JStr (ef_anchor_evidence_state f));
   (u "anchor_baseline", json_opt_int (ef_anchor_baseline f));
   (u "anchor_witness_value", json_opt_int (ef_anchor_witness_value f));
   (u "anchor_provisioned_at", json_opt_str (ef_anchor_provisioned_at f))].

Definition authorization_items (a : PlanAuthorizationV2) : list (pystr * json) :=
  let p := a2_fields a in
  [(u "schema_version", JInt (pa2_schema_version p));
   (u "authorization_id", JStr (pa2_authorization_id p));
   (u "plan_digest", JStr (pa2_plan_digest p));
   (u "authorized_executions", JList (map binding_entry (pa2_authorized_executions p)));
   (u "authority_id", JStr (pa2_authority_id p));
   (u "algorithm", JStr (pa2_algorithm p));
   (u "proof", JStr (b64encode (a2_proof a)));
   (u "issued_at", JStr (isoformat (pa2_issued_at p)));
   (u "expires_at", JStr (isoformat (pa2_expires_at p)));
   (u "risk_class", JStr (level_value (pa2_risk_class p)));
   (u "evidence_fingerprint", JObj (fingerprint_items (pa2_evidence_fingerprint p)))].

Definition plan_authorization_v2_to_bytes (a : PlanAuthorizationV2) : bytes := file_bytes (authorization_items a).

Definition authorization_fields : list pystr :=
  [u "schema_version"; u "authorization_id"; u "plan_digest"; u "authorized_executions"; u "authority_id";
   u "algorithm"; u "proof"; u "issued_at"; u "expires_at"; u "risk_class"; u "evidence_fingerprint"].

(** [binding["step_id"]]: further keys of a binding are not looked at. *)
Definition binding_of (v : json) : result PlanAuthorizationStepBinding :=
  b ← as_object v;
  step_id ← field "step_id" b ≫= as_str;
  digest ← field "execution_intent_digest" b ≫= as_str;
  let binding := {| sb_step_id := step_id; sb_execution_intent_digest := digest |} in
  _ ← PlanAuthorizationStepBinding_post_init binding;
  Ok binding.

Definition fingerprint_of_json (v : json) : result AuthorizationEvidenceFingerprint :=
  f ← as_object v;
  capability ← field "capability_posture_value" f ≫= as_str;
  anchor ← field "anchor_assurance_value" f ≫= as_str;
  evidence_state ← field "anchor_evidence_state" f ≫= as_str;
  baseline ← field "anchor_baseline" f ≫= as_opt_int;
  witness ← field "anchor_witness_value" f ≫= as_opt_int;
  provisioned_at ← field "anchor_provisioned_at" f ≫= as_opt_str;
  let fingerprint := {| ef_capability_posture_value := capability; ef_anchor_assurance_value := anchor;
    ef_anchor_evidence_state := evidence_state; ef_anchor_baseline := baseline; ef_anchor_witness_value := witness;
    ef_anchor_provisioned_at := provisioned_at |} in
  _ ← AuthorizationEvidenceFingerprint_post_init fingerprint;
  Ok fingerprint.

Definition authorization_of_items (raw : list (pystr * json)) : result PlanAuthorizationV2 :=
  executions ← field "authorized_executions" raw;
  bindings ← match executions with JList ((_ :: _) as l) => mapM binding_of l | _ => Raise ValueError end;
  fingerprint ← field "evidence_fingerprint" raw ≫= fingerprint_of_json;
  schema_version ← field "schema_version" raw ≫= as_int;
  authorization_id ← field "authorization_id" raw ≫= as_str;
  plan_digest ← field "plan_digest" raw ≫= as_str;
  authority_id ← field "authority_id" raw ≫= as_str;
  algorithm ← field "algorithm" raw ≫= as_str;
  proof ← field "proof" raw ≫= as_base64;
  issued_at ← field "issued_at" raw ≫= as_datetime;
  expires_at ← field "expires_at" raw ≫= as_datetime;
  risk_class ← field "risk_class" raw ≫= member_of_value level_value ALL_LEVELS;
  let a := {| a2_fields := {| pa2_schema_version := schema_version; pa2_authorization_id := authorization_id;
      pa2_plan_digest := plan_digest; pa2_authorized_executions := bindings; pa2_authority_id := authority_id;
      pa2_algorithm := algorithm; pa2_issued_at := issued_at; pa2_expires_at := expires_at;
      pa2_risk_class := risk_class; pa2_evidence_fingerprint := fingerprint |}; a2_proof := proof |} in
  _ ← PlanAuthorizationV2_post_init a;
  Ok a.

Definition load_signed_plan_authorization_v2 (n : node) : result PlanAuthorizationV2 :=
  malformed (
    raw ← read_secure n ≫= loads_bytes;
    items ← expect_fields authorization_fields PLAN_AUTHORIZATION_V2_SCHEMA_VERSION raw;
    authorization_of_items items).

(** ** Signed confirmations *)

Definition CONFIRMATION_EVIDENCE_ARTIFACT_SCHEMA_VERSION : Z := 1.

Definition confirmation_items (e : ConfirmationEvidence) : list (pystr * json) :=
  [(u "schema_version", JInt CONFIRMATION_EVIDENCE_ARTIFACT_SCHEMA_VERSION);
   (u "authority_id", JStr (ce_authority_id e));
   (u "algorithm", JStr (ce_algorithm e));
   (u "nonce", JStr (ce_nonce e));
   (u "contract_id", JStr (ce_contract_id e));
   (u "operation_id", JStr (ce_operation_id e));
   (u "target_identity_digest", JStr (ce_target_identity_digest e));
   (u "target_fingerprint", JStr (ce_target_fingerprint e));
   (u "intent_digest", JStr (ce_intent_digest e));
   (u "issued_at", JStr (isoformat (ce_issued_at e)));
   (u "expires_at", JStr (isoformat (ce_expires_at e)));
   (u "proof", JStr (b64encode (ce_proof e)))].

Definition confirmation_evidence_to_bytes (e : ConfirmationEvidence) : bytes := file_bytes (confirmation_items e).

Definition confirmation_fields : list pystr :=
  [u "schema_version"; u "authority_id"; u "algorithm"; u "nonce"; u "contract_id"; u "operation_id";
   u "target_identity_digest"; u "target_fingerprint"; u "intent_digest"; u "issued_at"; u "expires_at"; u "proof"].

Definition confirmation_of_items (raw : list (pystr * json)) : result ConfirmationEvidence :=
  authority_id ← field "authority_id" raw ≫= as_str;
  algorithm ← field "algorithm" raw ≫= as_str;
  nonce ← field "nonce" raw ≫= as_str;
  contract_id ← field "contract_id" raw ≫= as_str;
  operation_id ← field "operation_id" raw ≫= as_str;
  target_identity_digest ← field "target_identity_digest" raw ≫= as_str;
  target_fingerprint ← field "target_fingerprint" raw ≫= as_str;
  intent_digest ← field "intent_digest" raw ≫= as_str;
  issued_at ← field "issued_at" raw ≫= as_datetime;
  expires_at ← field "expires_at" raw ≫= as_datetime;
  proof ← field "proof" raw ≫= as_base64;
  let e := {| ce_authority_id := authority_id; ce_algorithm := algorithm; ce_nonce := nonce;
    ce_contract_id := contract_id; ce_operation_id := operation_id;
    ce_target_identity_digest := target_identity_digest; ce_target_fingerprint := target_fingerprint;
    ce_intent_digest := intent_digest; ce_expires_at := expires_at; ce_issued_at := issued_at; ce_proof := proof |} in
  _ ← ConfirmationEvidence_post_init e;
  Ok e.

Definition load_signed_confirmation_evidence (n : node) : result ConfirmationEvidence :=
  malformed (
    raw ← read_secure n ≫= loads_bytes;
    items ← expect_fields confirmation_fields CONFIRMATION_EVIDENCE_ARTIFACT_SCHEMA_VERSION raw;
    confirmation_of_items items).

(** ** Files with an integrity tag *)

(** The tag of a payload under a domain. *)
Definition envelope_mac `{Hash} (domain key : bytes) (items : list (pystr * json)) : result pystr :=
  _ ← require (32 <=? length key)%nat ArtifactExchangeError;
  Ok (hmac_hex key (domain ++ file_bytes items)).

Definition envelope_to_bytes `{Hash} (domain key : bytes) (items : list (pystr * json)) : result bytes :=
  mac ← envelope_mac domain key items;
  Ok (file_bytes (items ++ [(u "integrity_mac", JStr mac)])).

(** A payload type: its items, what is read back from an object, the keys
    and the domain of its files. *)
Record Envelope (A : Type) : Type := {
  ev_items : A → list (pystr * json);
  ev_of_items : list (pystr * json) → result A;
  ev_fields : list pystr;
  ev_version : Z;
  ev_domain : bytes }.
Arguments ev_items {_} _ _.
Arguments ev_of_items {_} _ _.
Arguments ev_fields {_} _.
Arguments ev_version {_} _.
Arguments ev_domain {_} _.

Section envelopes.
Context `{Hash} {A : Type} (ev : Envelope A) (integrity_key : bytes).

Definition envelope_write (a : A) : result bytes := envelope_to_bytes (ev_domain ev) integrity_key (ev_items ev a).

(** The [try] block of a reader: the value and the tag beside it. *)
Definition envelope_parse (n : node) : result (A * pystr) :=
  malformed (
    raw ← read_secure n ≫= loads_bytes;
    items ← expect_fields (ev_fields ev ++ [u "integrity_mac"]) (ev_version ev) raw;
    a ← ev_of_items ev items;
    mac ← field "integrity_mac" items ≫= as_str;
    Ok (a, mac)).

Definition envelope_load (n : node) : result A :=
  parsed ← envelope_parse n;
  let '(a, mac) := parsed in
  expected ← envelope_mac (ev_domain ev) integrity_key (ev_items ev a);
  same ← compare_digest_str mac expected;
  _ ← require same ArtifactExchangeError;
  Ok a.
End envelopes.

Definition MAX_ALIAS_NAME_LENGTH : nat := 32.
Definition MAX_DESCRIPTION_LENGTH : nat := 1024.

Definition zero_terminated (s : string) : bytes := ascii_bytes (u s) ++ [Byte.x00].

Definition ALL_POSTURES : list CapabilityPosture := [READ_ONLY; WRITE_PROTECTED].
Definition ALL_ASSURANCES : list AnchorAssurance := [NONE; SOFTWARE; HARDWARE_WITNESS; UNKNOWN].

(** [datetime.fromisoformat(v)] and the [_is_utc] check behind it. *)
Definition as_utc (v : json) : result datetime :=
  t ← as_datetime v;
  _ ← require (is_utc t) ValueError;
  Ok t.

(** ** The authorization preview *)

Record AuthorizationPreview : Type := {
  av_operation : pystr; av_alias_name : pystr; av_previous_description : pystr; av_requested_description : pystr;
  av_execution_intent_digest : pystr; av_requested_plan_digest : pystr; av_requested_step_id : pystr;
  av_target_capability_posture : CapabilityPosture; av_target_anchor_assurance : AnchorAssurance;
  av_generated_at : datetime }.

Definition alias_text_ok (alias_name previous requested : pystr) : bool :=
  nonempty alias_name && (length alias_name <=? MAX_ALIAS_NAME_LENGTH)%nat &&
  (length previous <=? MAX_DESCRIPTION_LENGTH)%nat && (length requested <=? MAX_DESCRIPTION_LENGTH)%nat.

Definition AuthorizationPreview_post_init (p : AuthorizationPreview) : result () :=
  _ ← require (pystr_eqb (av_operation p) SEMANTIC_UNIT) ArtifactExchangeError;
  _ ← require (alias_text_ok (av_alias_name p) (av_previous_description p) (av_requested_description p))
        ArtifactExchangeError;
  _ ← require (match_hex64 (av_execution_intent_digest p) && match_hex64 (av_requested_plan_digest p))
        ArtifactExchangeError;
  _ ← require (match_token (av_requested_step_id p)) ArtifactExchangeError;
  require (is_utc (av_generated_at p)) ArtifactExchangeError.

Definition AuthorizationPreview_new (p : AuthorizationPreview) : result AuthorizationPreview :=
  _ ← AuthorizationPreview_post_init p; Ok p.

Definition AUTHORIZATION_PREVIEW_SCHEMA_VERSION : Z := 1.

Definition authorization_preview_payload (p : AuthorizationPreview) : list (pystr * json) :=
  [(u "schema_version", JInt AUTHORIZATION_PREVIEW_SCHEMA_VERSION);
   (u "operation", JStr (av_operation p));
   (u "alias_name", JStr (av_alias_name p));
   (u "previous_description", JStr (av_previous_description p));
   (u "requested_description", JStr (av_requested_description p));
   (u "execution_intent_digest", JStr (av_execution_intent_digest p));
   (u "requested_plan_digest", JStr (av_requested_plan_digest p));
   (u "requested_step_id", JStr (av_requested_step_id p));
   (u "target_capability_posture", JStr (posture_value (av_target_capability_posture p)));
   (u "target_anchor_assurance", JStr (assurance_value (av_target_anchor_assurance p)));
   (u "generated_at", JStr (isoformat (av_generated_at p)))].

Definition authorization_preview_of_items (raw : list (pystr * json)) : result AuthorizationPreview :=
  generated_at ← field "generated_at" raw ≫= as_utc;
  operation ← field "operation" raw ≫= as_str;
  alias_name ← field "alias_name" raw ≫= as_str;
  previous ← field "previous_description" raw ≫= as_str;
  requested ← field "requested_description" raw ≫= as_str;
  intent_digest ← field "execution_intent_digest" raw ≫= as_str;
  plan_digest ← field "requested_plan_digest" raw ≫= as_str;
  step_id ← field "requested_step_id" raw ≫= as_str;
  capability ← field "target_capability_posture" raw ≫= member_of_value posture_value ALL_POSTURES;
  anchor ← field "target_anchor_assurance" raw ≫= member_of_value assurance_value ALL_ASSURANCES;
  AuthorizationPreview_new {| av_operation := operation; av_alias_name := alias_name;
    av_previous_description := previous; av_requested_description := requested;
    av_execution_intent_digest := intent_digest; av_requested_plan_digest := plan_digest;
    av_requested_step_id := step_id; av_target_capability_posture := capability;
    av_target_anchor_assurance := anchor; av_generated_at := generated_at |}.

Definition preview_envelope : Envelope AuthorizationPreview := {|
  ev_items := authorization_preview_payload;
  ev_of_items := authorization_preview_of_items;
  ev_fields := [u "schema_version"; u "operation"; u "alias_name"; u "previous_description";
    u "requested_description"; u "execution_intent_digest"; u "requested_plan_digest"; u "requested_step_id";
    u "target_capability_posture"; u "target_anchor_assurance"; u "generated_at"];
  ev_version := AUTHORIZATION_PREVIEW_SCHEMA_VERSION;
  ev_domain := zero_terminated "tier1-authorization-preview-v1" |}.

(** ** The pending confirmation request *)

Record PendingConfirmationRequest : Type := {
  pr_operation : pystr; pr_contract_id : pystr; pr_operation_id : pystr; pr_alias_name : pystr;
  pr_previous_description : pystr; pr_requested_description : pystr; pr_target_identity_digest : pystr;
  pr_target_fingerprint : pystr; pr_intent_digest : pystr; pr_expires_at : datetime;
  pr_expected_authority_id : pystr; pr_expected_algorithm : pystr }.

Definition PendingConfirmationRequest_post_init (p : PendingConfirmationRequest) : result () :=
  _ ← require (pystr_eqb (pr_operation p) SEMANTIC_UNIT) ArtifactExchangeError;
  _ ← require (forallb match_token [pr_contract_id p; pr_operation_id p; pr_expected_authority_id p;
                                    pr_expected_algorithm p]) ArtifactExchangeError;
  _ ← require (alias_text_ok (pr_alias_name p) (pr_previous_description p) (pr_requested_description p))
        ArtifactExchangeError;
  _ ← require (forallb match_hex64 [pr_target_identity_digest p; pr_target_fingerprint p; pr_intent_digest p])
        ArtifactExchangeError;
  require (is_utc (pr_expires_at p)) ArtifactExchangeError.

Definition PendingConfirmationRequest_new (p : PendingConfirmationRequest) : result PendingConfirmationRequest :=
  _ ← PendingConfirmationRequest_post_init p; Ok p.

(** [pending_confirmation_request_from_contract]; the algorithm is the
    default of the parameter. *)
Definition pending_confirmation_request_from_contract (contract : RecoveryContract)
    (alias_name previous_description requested_description expected_authority_id : pystr)
    : result PendingConfirmationRequest :=
  PendingConfirmationRequest_new {| pr_operation := SEMANTIC_UNIT; pr_contract_id := rc_contract_id contract;
    pr_operation_id := rc_operation_id contract; pr_alias_name := alias_name;
    pr_previous_description := previous_description; pr_requested_description := requested_description;
    pr_target_identity_digest := rc_target_identity_digest contract;
    pr_target_fingerprint := rc_target_fingerprint contract; pr_intent_digest := rc_intent_digest contract;
    pr_expires_at := rc_expires_at contract; pr_expected_authority_id := expected_authority_id;
    pr_expected_algorithm := CONFIRMATION_ALGORITHM |}.

Definition PENDING_CONFIRMATION_SCHEMA_VERSION : Z := 2.

Definition pending_confirmation_payload (p : PendingConfirmationRequest) : list (pystr * json) :=
  [(u "schema_version", JInt PENDING_CONFIRMATION_SCHEMA_VERSION);
   (u "operation", JStr (pr_operation p));
   (u "contract_id", JStr (pr_contract_id p));
   (u "operation_id", JStr (pr_operation_id p));
   (u "alias_name", JStr (pr_alias_name p));
   (u "previous_description", JStr (pr_previous_description p));
   (u "requested_description", JStr (pr_requested_description p));
   (u "target_identity_digest", JStr (pr_target_identity_digest p));
   (u "target_fingerprint", JStr (pr_target_fingerprint p));
   (u "intent_digest", JStr (pr_intent_digest p));
   (u "expires_at", JStr (isoformat (pr_expires_at p)));
   (u "expected_authority_id", JStr (pr_expected_authority_id p));
   (u "expected_algorithm", JStr (pr_expected_algorithm p))].

Definition pending_confirmation_of_items (raw : list (pystr * json)) : result PendingConfirmationRequest :=
  expires_at ← field "expires_at" raw ≫= as_utc;
  operation ← field "operation" raw ≫= as_str;
  contract_id ← field "contract_id" raw ≫= as_str;
  operation_id ← field "operation_id" raw ≫= as_str;
  alias_name ← field "alias_name" raw ≫= as_str;
  previous ← field "previous_description" raw ≫= as_str;
  requested ← field "requested_description" raw ≫= as_str;
  identity_digest ← field "target_identity_digest" raw ≫= as_str;
  fingerprint ← field "target_fingerprint" raw ≫= as_str;
  intent_digest ← field "intent_digest" raw ≫= as_str;
  authority_id ← field "expected_authority_id" raw ≫= as_str;
  algorithm ← field "expected_algorithm" raw ≫= as_str;
  PendingConfirmationRequest_new {| pr_operation := operation; pr_contract_id := contract_id;
    pr_operation_id := operation_id; pr_alias_name := alias_name; pr_previous_description := previous;
    pr_requested_description := requested; pr_target_identity_digest := identity_digest;
    pr_target_fingerprint := fingerprint; pr_intent_digest := intent_digest; pr_expires_at := expires_at;
    pr_expected_authority_id := authority_id; pr_expected_algorithm := algorithm |}.

Definition pending_envelope : Envelope PendingConfirmationRequest := {|
  ev_items := pending_confirmation_payload;
  ev_of_items := pending_confirmation_of_items;
  ev_fields := [u "schema_version"; u "operation"; u "contract_id"; u "operation_id"; u "alias_name";
    u "previous_description"; u "requested_description"; u "target_identity_digest"; u "target_fingerprint";
    u "intent_digest"; u "expires_at"; u "expected_authority_id"; u "expected_algorithm"];
  ev_version := PENDING_CONFIRMATION_SCHEMA_VERSION;
  ev_domain := zero_terminated "tier1-pending-confirmation-request-v2" |}.

Section artifact_files.
Context `{Hash} `{UnicodeData}.

(** [authorization_preview_from_preparation]: the digest is always that of
    the preparation. *)
Definition authorization_preview_from_preparation (request : AliasDescriptionChangeV1)
    (prepared : PreparedAliasDescriptionExecutionV1) (requested_plan_digest requested_step_id : pystr)
    (capability : CapabilityPosture) (anchor : AnchorAssurance) (generated_at : datetime)
    : result AuthorizationPreview :=
  digest ← compute_execution_intent_digest (pa_intent prepared);
  AuthorizationPreview_new {| av_operation := SEMANTIC_UNIT; av_alias_name := ch_alias_name request;
    av_previous_description := as_descr (pa_authoritative_a prepared);
    av_requested_description := ch_description request; av_execution_intent_digest := digest;
    av_requested_plan_digest := requested_plan_digest; av_requested_step_id := requested_step_id;
    av_target_capability_posture := capability; av_target_anchor_assurance := anchor;
    av_generated_at := generated_at |}.

Definition authorization_preview_to_bytes (p : AuthorizationPreview) (integrity_key : bytes) : result bytes :=
  envelope_write preview_envelope integrity_key p.
Definition load_authorization_preview (n : node) (integrity_key : bytes) : result AuthorizationPreview :=
  envelope_load preview_envelope integrity_key n.
Definition pending_confirmation_request_to_bytes (p : PendingConfirmationRequest) (integrity_key : bytes) : result bytes :=
  envelope_write pending_envelope integrity_key p.
Definition load_pending_confirmation_request (n : node) (integrity_key : bytes) : result PendingConfirmationRequest :=
  envelope_load pending_envelope integrity_key n.
End artifact_files.
