(* ===== verification/ArtifactProps.v ===== *)
(** * Properties of the artifact files

    What is written is read back as itself or, when the writer was stopped,
    not at all; a reader of a signed artifact loses nothing and refuses with
    one exception; a tagged file is accepted only with the tag of its own
    content. *)

From S2P Require Import Prelude PyStr Sha256 PyDatetime Json Base64 Canonical PyJson Contract Evidence StoreCodec JsonTorn.
From S2P Require Import KeyLifecycle Plan SealedApproval Authorization AuthorizationProps PreparedIntent AliasDescription.
From S2P Require Import ArtifactExchange.

(** ** Reading *)

Lemma malformed_Ok {A} (m : result A) a : malformed m = Ok a ↔ m = Ok a.
Proof. by destruct m. Qed.

Lemma malformed_Raise {A} (m : result A) e : malformed m = Raise e → e = ArtifactExchangeError.
Proof. destruct m; [done|]. by intros [= <-]. Qed.

Lemma read_new_file b : (length b ≤ MAX_FILE)%nat → read_secure (new_file b) = Ok b.
Proof.
  intros Hl. unfold read_secure, new_file. cbn [open_nofollow mbind result_bind validate_descriptor f_regular f_own f_private
    f_content require]. rewrite (proj2 (Nat.leb_le _ _) Hl). cbn [require mbind result_bind].
  rewrite take_ge by lia. done.
Qed.

Lemma read_secure_length n b : read_secure n = Ok b → ∃ f, n = File f ∧ (length (f_content f) ≤ MAX_FILE)%nat ∧ b = f_content f.
Proof.
  unfold read_secure. intros (f & Hn & ([] & Hv & [= <-])%bind_Ok)%bind_Ok. destruct n; try done. injection Hn as ->.
  unfold validate_descriptor in Hv. rewrite !require_bind in Hv. destruct Hv as (_ & _ & _ & Hl%require_Ok%Nat.leb_le).
  exists f. split_and!; [done..|]. apply take_ge. etrans; [exact Hl|]. apply Nat.leb_le. by vm_compute.
Qed.

Lemma schema_sorted items n : distinct_keys items = true → lookup_item (u "schema_version") items = Some (JInt n) →
  schema_is n (sorted_items items) = true.
Proof. intros Hd Hl. unfold schema_is. rewrite lookup_sorted_items, Hl by done. apply Z.eqb_refl. Qed.

(** A printed object with the expected keys and version is read as its
    items. *)
Lemma expect_printed items fields version : json_ok (JObj items) = true → strict_objects (JObj items) = true →
  fields_are items fields = true → lookup_item (u "schema_version") items = Some (JInt version) →
  (raw ← loads_bytes (file_bytes items); expect_fields fields version raw) = Ok (sorted_items items).
Proof.
  intros Hok Hs Hf Hv. unfold file_bytes. rewrite loads_bytes_object_dumps by done. cbn [mbind result_bind expect_fields as_object].
  rewrite fields_are_sorted, Hf. pose proof Hs as Hd. cbn [strict_objects] in Hd. apply andb_true_iff in Hd as [Hd _].
  by rewrite schema_sorted.
Qed.

(** A printed object that was cut off never gets past [expect_fields]. *)
Lemma expect_torn items k fields version l : json_ok (JObj items) = true →
  (k < length (file_bytes items))%nat →
  (raw ← loads_bytes (take k (file_bytes items)); expect_fields fields version raw) ≠ Ok l.
Proof.
  intros Hok Hk (raw & Hr & Hx)%bind_Ok. unfold expect_fields in Hx. apply bind_Ok in Hx as (d & Hd & _).
  destruct raw as [| | | | | |d']; try done. by eapply torn_object.
Qed.

(** The members of the enumerations are told apart by their values. *)
Lemma level_of_value l : member_of_value level_value ALL_LEVELS (JStr (level_value l)) = Ok l.
Proof. by destruct l. Qed.
Lemma posture_of_value c : member_of_value posture_value ALL_POSTURES (JStr (posture_value c)) = Ok c.
Proof. by destruct c. Qed.
Lemma assurance_of_value a : member_of_value assurance_value ALL_ASSURANCES (JStr (assurance_value a)) = Ok a.
Proof. by destruct a. Qed.

(** Look a literal key up in a printed object. *)
Ltac read_field k :=
  match goal with |- context [field k (sorted_items ?l)] =>
    let Hk := fresh in
    eassert (field k (sorted_items l) = Ok _) as Hk by (apply field_sorted; reflexivity);
    rewrite Hk; clear Hk; cbn [mbind result_bind sort_keys as_str as_int as_datetime as_base64]
  end.

Lemma json_ok_snoc l k v : json_ok (JObj (l ++ [(k, v)])) = json_ok (JObj l) && (forallb is_scalar k && json_ok v).
Proof. cbn [json_ok]. rewrite forallb_app. cbn [forallb fst snd]. by rewrite andb_true_r. Qed.

(** ** Tagged files *)

Section tagged.
Context `{Hash} {A : Type} (ev : Envelope A).

(** What the payload types promise: [valid] values print as flat objects
    with the keys of the reader and read back as themselves, beside any
    tag. *)
Class EnvelopeLaws (valid : A → Prop) : Prop := {
  el_ok a : valid a → json_ok (JObj (ev_items ev a)) = true;
  el_strict a mac : strict_objects (JObj (ev_items ev a ++ [(u "integrity_mac", JStr mac)])) = true;
  el_fields a mac : fields_are (ev_items ev a ++ [(u "integrity_mac", JStr mac)]) (ev_fields ev ++ [u "integrity_mac"]) = true;
  el_version a mac : lookup_item (u "schema_version") (ev_items ev a ++ [(u "integrity_mac", JStr mac)]) = Some (JInt (ev_version ev));
  el_mac a mac : lookup_item (u "integrity_mac") (ev_items ev a ++ [(u "integrity_mac", JStr mac)]) = Some (JStr mac);
  el_round a mac : valid a → ev_of_items ev (sorted_items (ev_items ev a ++ [(u "integrity_mac", JStr mac)])) = Ok a;
}.

Context {valid : A → Prop} `{!EnvelopeLaws valid} (key : bytes).

Lemma envelope_mac_Ok items mac : envelope_mac (ev_domain ev) key items = Ok mac →
  mac = hmac_hex key (ev_domain ev ++ file_bytes items) ∧ is_ascii mac = true ∧ (32 <= length key)%nat.
Proof.
  unfold envelope_mac. rewrite require_bind. intros [Hk%Nat.leb_le [= <-]]. split_and!; [done| |done].
  apply match_hex64_ascii, hmac_hex_match.
Qed.

Lemma envelope_write_Ok a b : envelope_write ev key a = Ok b →
  ∃ mac, envelope_mac (ev_domain ev) key (ev_items ev a) = Ok mac ∧
    b = file_bytes (ev_items ev a ++ [(u "integrity_mac", JStr mac)]).
Proof. unfold envelope_write, envelope_to_bytes. intros (mac & Hm & [= <-])%bind_Ok. by exists mac. Qed.

Lemma tagged_ok a mac : valid a → is_ascii mac = true →
  json_ok (JObj (ev_items ev a ++ [(u "integrity_mac", JStr mac)])) = true.
Proof.
  intros Hv Hm. rewrite json_ok_snoc, (el_ok a Hv). cbn [json_ok]. by rewrite (is_ascii_forallb_scalar _ Hm).
Qed.

Lemma envelope_loads a mac : valid a → forallb is_scalar mac = true →
  (length (file_bytes (ev_items ev a ++ [(u "integrity_mac", JStr mac)])) ≤ MAX_FILE)%nat →
  envelope_parse ev (new_file (file_bytes (ev_items ev a ++ [(u "integrity_mac", JStr mac)]))) = Ok (a, mac).
Proof.
  intros Hv Hm Hl. unfold envelope_parse. rewrite read_new_file by done. cbn [mbind result_bind].
  pose proof (el_strict a mac) as Hs.
  assert (json_ok (JObj (ev_items ev a ++ [(u "integrity_mac", JStr mac)])) = true) as Hok.
  { rewrite json_ok_snoc, (el_ok a Hv). cbn [json_ok]. by rewrite Hm. }
  pose proof (expect_printed _ _ _ Hok Hs (el_fields a mac) (el_version a mac)) as He.
  apply bind_Ok in He as (raw & Hraw & He). rewrite Hraw. cbn [mbind result_bind]. rewrite He. cbn [mbind result_bind].
  rewrite el_round by done. cbn [mbind result_bind]. cbn [strict_objects] in Hs. apply andb_true_iff in Hs as [Hd _].
  by rewrite (field_sorted "integrity_mac" _ (JStr mac) Hd (el_mac a mac)).
Qed.

Lemma envelope_round_trip a b : valid a → envelope_write ev key a = Ok b → (length b ≤ MAX_FILE)%nat →
  envelope_load ev key (new_file b) = Ok a.
Proof.
  intros Hv (mac & Hm & ->)%envelope_write_Ok Hl. unfold envelope_load.
  destruct (envelope_mac_Ok _ _ Hm) as (_ & Ha & _).
  rewrite envelope_loads by (done || by apply is_ascii_forallb_scalar). cbn [mbind result_bind]. rewrite Hm.
  cbn [mbind result_bind]. unfold compare_digest_str. rewrite Ha. cbn [andb require mbind result_bind].
  unfold compare_digest. by rewrite pystr_eqb_refl.
Qed.

Lemma envelope_oversized b : (MAX_FILE < length b)%nat → envelope_load ev key (new_file b) = Raise ArtifactExchangeError.
Proof.
  intros Hl. unfold envelope_load, envelope_parse, read_secure, new_file. cbn [open_nofollow mbind result_bind validate_descriptor
    f_regular f_own f_private f_content require]. by rewrite (proj2 (Nat.leb_gt _ _) Hl).
Qed.

Lemma envelope_torn a b k : valid a → envelope_write ev key a = Ok b → (k < length b)%nat →
  envelope_load ev key (new_file (take k b)) = Raise ArtifactExchangeError.
Proof.
  intros Hv (mac & Hm & ->)%envelope_write_Ok Hk. destruct (envelope_mac_Ok _ _ Hm) as (_ & Ha & _).
  unfold envelope_load. destruct (envelope_parse ev _) as [[a' mac']|e] eqn:Hp.
  - exfalso. unfold envelope_parse in Hp. apply malformed_Ok, bind_Ok in Hp as (raw & Hraw & Hp).
    apply bind_Ok in Hraw as (b & Hb & Hraw). apply read_secure_length in Hb as (f & [= <-] & _ & ->). cbn [f_content] in Hraw.
    apply bind_Ok in Hp as (l & Hl & _). eapply (expect_torn _ k _ _ l (tagged_ok a mac Hv Ha) Hk). by rewrite Hraw.
  - cbn [mbind result_bind]. unfold envelope_parse in Hp. by apply malformed_Raise in Hp as ->.
Qed.
End tagged.
Arguments EnvelopeLaws {_} _ _.

(** ** The two payload types *)

Lemma posture_ascii c : is_ascii (posture_value c) = true.
Proof. by destruct c. Qed.
Lemma assurance_ascii a : is_ascii (assurance_value a) = true.
Proof. by destruct a. Qed.
Lemma level_ascii l : is_ascii (level_value l) = true.
Proof. by destruct l. Qed.

(** Close [json_ok] of a literal object whose strings are scalar or ASCII
    by the hypotheses. *)
Ltac items_ok :=
  cbn [json_ok forallb fst snd];
  repeat match goal with
  | H : forallb is_scalar ?s = true |- context [forallb is_scalar ?s] => rewrite H; clear H
  | H : is_ascii ?s = true |- context [forallb is_scalar ?s] => rewrite (is_ascii_forallb_scalar _ H); clear H
  | H : match_token ?s = true |- context [forallb is_scalar ?s] =>
    rewrite (is_ascii_forallb_scalar _ (match_token_ascii _ H)); clear H
  | H : match_hex64 ?s = true |- context [forallb is_scalar ?s] =>
    rewrite (is_ascii_forallb_scalar _ (match_hex64_ascii _ H)); clear H
  | |- context [forallb is_scalar (isoformat ?d)] => rewrite (is_ascii_forallb_scalar _ (isoformat_ascii d))
  | |- context [forallb is_scalar (b64encode ?b)] => rewrite (is_ascii_forallb_scalar _ (b64encode_ascii b))
  | |- context [forallb is_scalar (posture_value ?c)] => rewrite (is_ascii_forallb_scalar _ (posture_ascii c))
  | |- context [forallb is_scalar (level_value ?c)] => rewrite (is_ascii_forallb_scalar _ (level_ascii c))
  | |- context [forallb is_scalar (assurance_value ?c)] => rewrite (is_ascii_forallb_scalar _ (assurance_ascii c))
  end;
  reflexivity.

Section payloads.
Context `{Hash}.

(** A preview whose texts Python can encode. *)
Definition preview_ok (p : AuthorizationPreview) : Prop :=
  AuthorizationPreview_post_init p = Ok () ∧ dt_valid (av_generated_at p) = true ∧
  forallb is_scalar (av_alias_name p) && forallb is_scalar (av_previous_description p) &&
  forallb is_scalar (av_requested_description p) = true.

Definition pending_ok (p : PendingConfirmationRequest) : Prop :=
  PendingConfirmationRequest_post_init p = Ok () ∧ dt_valid (pr_expires_at p) = true ∧
  forallb is_scalar (pr_alias_name p) && forallb is_scalar (pr_previous_description p) &&
  forallb is_scalar (pr_requested_description p) = true.

#[export] Instance preview_laws : EnvelopeLaws preview_envelope preview_ok.
Proof.
  split; try done.
  - intros p (Hp & _ & Hs). unfold AuthorizationPreview_post_init in Hp. rewrite !require_bind in Hp.
    destruct Hp as (Ho & _ & Hd & Ht & _). split_andb. apply pystr_eqb_eq in Ho.
    unfold preview_envelope, authorization_preview_payload. cbn [ev_items]. rewrite Ho. items_ok.
  - intros p mac (Hp & Hv & _). unfold preview_envelope, authorization_preview_payload, authorization_preview_of_items.
    cbn [ev_items ev_of_items].
    pose proof Hp as Hp'. unfold AuthorizationPreview_post_init in Hp'. rewrite !require_bind in Hp'.
    destruct Hp' as (_ & _ & _ & _ & Hu%require_Ok).
    read_field "generated_at". unfold as_utc. cbn [as_datetime]. rewrite fromisoformat_isoformat by done.
    cbn [mbind result_bind]. rewrite Hu. cbn [require mbind result_bind].
    read_field "operation". read_field "alias_name". read_field "previous_description". read_field "requested_description".
    read_field "execution_intent_digest". read_field "requested_plan_digest". read_field "requested_step_id".
    read_field "target_capability_posture". rewrite posture_of_value. cbn [mbind result_bind].
    read_field "target_anchor_assurance". rewrite assurance_of_value. cbn [mbind result_bind].
    unfold AuthorizationPreview_new. destruct p. cbn in *. by rewrite Hp.
Qed.

#[export] Instance pending_laws : EnvelopeLaws pending_envelope pending_ok.
Proof.
  split; try done.
  - intros p (Hp & _ & Hs). unfold PendingConfirmationRequest_post_init in Hp. rewrite !require_bind in Hp.
    destruct Hp as (Ho & Ht & _ & Hd & _). cbn [forallb] in Ht, Hd. split_andb. apply pystr_eqb_eq in Ho.
    unfold pending_envelope, pending_confirmation_payload. cbn [ev_items]. rewrite Ho. items_ok.
  - intros p mac (Hp & Hv & _). unfold pending_envelope, pending_confirmation_payload, pending_confirmation_of_items.
    cbn [ev_items ev_of_items].
    pose proof Hp as Hp'. unfold PendingConfirmationRequest_post_init in Hp'. rewrite !require_bind in Hp'.
    destruct Hp' as (_ & _ & _ & _ & Hu%require_Ok).
    read_field "expires_at". unfold as_utc. cbn [as_datetime]. rewrite fromisoformat_isoformat by done.
    cbn [mbind result_bind]. rewrite Hu. cbn [require mbind result_bind].
    read_field "operation". read_field "contract_id". read_field "operation_id". read_field "alias_name".
    read_field "previous_description". read_field "requested_description". read_field "target_identity_digest".
    read_field "target_fingerprint". read_field "intent_digest". read_field "expected_authority_id".
    read_field "expected_algorithm".
    unfold PendingConfirmationRequest_new. destruct p. cbn in *. by rewrite Hp.
Qed.
End payloads.

(** ** Signed artifacts *)

(** An authorization whose fingerprint was validated and can be encoded. *)
Definition authorization_ok (a : PlanAuthorizationV2) : Prop :=
  let f := pa2_evidence_fingerprint (a2_fields a) in
  PlanAuthorizationV2_post_init a = Ok () ∧ Forall wf_binding (pa2_authorized_executions (a2_fields a)) ∧
  dt_valid (pa2_issued_at (a2_fields a)) = true ∧ dt_valid (pa2_expires_at (a2_fields a)) = true ∧
  AuthorizationEvidenceFingerprint_post_init f = Ok () ∧
  forallb is_scalar (ef_capability_posture_value f) && forallb is_scalar (ef_anchor_assurance_value f) &&
  forallb is_scalar (ef_anchor_evidence_state f) && none_or (forallb is_scalar) (ef_anchor_provisioned_at f) = true.

Definition confirmation_ok (e : ConfirmationEvidence) : Prop :=
  ConfirmationEvidence_post_init e = Ok () ∧ dt_valid (ce_issued_at e) = true ∧ dt_valid (ce_expires_at e) = true.

Lemma binding_round b : wf_binding b → binding_of (sort_keys (binding_entry b)) = Ok b.
Proof.
  intros Hb. unfold binding_entry, binding_of. rewrite sort_keys_obj. cbn [as_object mbind result_bind].
  read_field "step_id". read_field "execution_intent_digest". destruct b as [s d]. unfold wf_binding in Hb.
  cbv zeta. cbn [sb_step_id sb_execution_intent_digest]. by rewrite Hb.
Qed.

Lemma bindings_round l : Forall wf_binding l → mapM binding_of (map sort_keys (map binding_entry l)) = Ok l.
Proof.
  induction 1 as [|b l Hb _ IH]; [done|]. cbn [map mapM]. rewrite (binding_round _ Hb).
  cbn [mbind result_bind]. by rewrite IH.
Qed.

Lemma fingerprint_round f : AuthorizationEvidenceFingerprint_post_init f = Ok () →
  fingerprint_of_json (sort_keys (JObj (fingerprint_items f))) = Ok f.
Proof.
  intros Hf. rewrite sort_keys_obj. unfold fingerprint_of_json, fingerprint_items. cbn [as_object mbind result_bind].
  read_field "capability_posture_value". read_field "anchor_assurance_value". read_field "anchor_evidence_state".
  read_field "anchor_baseline". read_field "anchor_witness_value". read_field "anchor_provisioned_at".
  destruct f as [c an es b w p]. cbn in *. by destruct b, w, p; cbn; rewrite Hf.
Qed.

Lemma binding_entries_ok l : Forall wf_binding l → forallb json_ok (map binding_entry l) && forallb strict_objects (map binding_entry l) = true.
Proof.
  induction 1 as [|b l [Hs Hd]%wf_binding_ascii _ IH]; [done|]. cbn [map forallb]. rewrite andb_true_iff in IH. destruct IH as [-> ->].
  unfold binding_entry at 1. rewrite !andb_true_r. items_ok.
Qed.

Lemma printed_load {A} (of_items : list (pystr * json) → result A) items fields version a :
  json_ok (JObj items) = true → strict_objects (JObj items) = true → fields_are items fields = true →
  lookup_item (u "schema_version") items = Some (JInt version) → (length (file_bytes items) ≤ MAX_FILE)%nat →
  of_items (sorted_items items) = Ok a →
  malformed (raw ← read_secure (new_file (file_bytes items)) ≫= loads_bytes;
    d ← expect_fields fields version raw; of_items d) = Ok a.
Proof.
  intros Hok Hs Hf Hv Hl Ha. rewrite malformed_Ok, read_new_file by done. cbn [mbind result_bind].
  pose proof (expect_printed _ _ _ Hok Hs Hf Hv) as (raw & Hraw & He)%bind_Ok. rewrite Hraw. cbn [mbind result_bind].
  rewrite He. exact Ha.
Qed.

Lemma authorization_items_ok a : authorization_ok a →
  json_ok (JObj (authorization_items a)) = true ∧ strict_objects (JObj (authorization_items a)) = true.
Proof.
  intros (Hp & Hb & _ & _ & _ & Hs). unfold PlanAuthorizationV2_post_init in Hp. rewrite require_bind in Hp.
  destruct Hp as [_ Hp]. apply bind_Ok in Hp as ([] & (T1 & T2 & T3)%metadata_ok_inv & Hp). rewrite require_bind in Hp.
  destruct Hp as [Hd _]. pose proof (binding_entries_ok _ Hb) as [B1 B2]%andb_true_iff. split_andb. split.
  - assert (json_ok (JObj (fingerprint_items (pa2_evidence_fingerprint (a2_fields a)))) = true) as Hf.
    { unfold fingerprint_items. destruct (pa2_evidence_fingerprint _) as [c an es b w p]. cbn in *.
      repeat match goal with H : forallb is_scalar _ = true |- _ => rewrite H end. by destruct b, w, p; cbn; rewrite ?andb_true_r. }
    assert (json_ok (JList (map binding_entry (pa2_authorized_executions (a2_fields a)))) = true) as Hl by done.
    unfold authorization_items. cbv zeta. rewrite T3.
    set (x := JList (map binding_entry _)) in *. set (y := JObj (fingerprint_items _)) in *. clearbody x y.
    cbn [json_ok forallb fst snd]. rewrite Hl, Hf. items_ok.
  - unfold authorization_items. cbn [strict_objects forallb snd]. rewrite B2.
    by destruct (pa2_evidence_fingerprint _) as [c an es [] [] []].
Qed.

Lemma authorization_round a : authorization_ok a → authorization_of_items (sorted_items (authorization_items a)) = Ok a.
Proof.
  intros (Hp & Hb & V1 & V2 & Hf & _). unfold authorization_of_items, authorization_items. cbv zeta.
  read_field "authorized_executions".
  assert (match pa2_authorized_executions (a2_fields a) with [] => False | _ => True end) as Hne.
  { pose proof Hp as Hp'. unfold PlanAuthorizationV2_post_init in Hp'. rewrite require_bind in Hp'. destruct Hp' as [_ Hp'].
    apply bind_Ok in Hp' as ([] & _ & Hp'). rewrite !require_bind in Hp'. destruct Hp' as (_ & Hn & _).
    by destruct (pa2_authorized_executions _). }
  pose proof (bindings_round _ Hb) as Hl.
  destruct (pa2_authorized_executions (a2_fields a)) as [|b l] eqn:Hbl; [done|]. cbn [map] in Hl |- *. rewrite Hl.
  cbn [mbind result_bind].
  eassert (field "evidence_fingerprint" (sorted_items _) = Ok _) as -> by (apply field_sorted; reflexivity).
  cbn [mbind result_bind]. rewrite fingerprint_round by done. cbn [mbind result_bind].
  read_field "schema_version". read_field "authorization_id". read_field "plan_digest". read_field "authority_id".
  read_field "algorithm". read_field "proof". rewrite b64decode_encode. cbn [of_option mbind result_bind].
  read_field "issued_at". rewrite fromisoformat_isoformat by done. cbn [mbind result_bind].
  read_field "expires_at". rewrite fromisoformat_isoformat by done. cbn [mbind result_bind].
  read_field "risk_class". rewrite level_of_value. cbn [mbind result_bind]. rewrite <-Hbl.
  destruct a as [[sv ai pd ae au al ia ea rc ef] proof]. cbn [a2_fields a2_proof pa2_schema_version pa2_authorization_id pa2_plan_digest
    pa2_authorized_executions pa2_authority_id pa2_algorithm pa2_issued_at pa2_expires_at pa2_risk_class
    pa2_evidence_fingerprint] in *. by rewrite Hp.
Qed.

Lemma confirmation_items_ok e : confirmation_ok e →
  json_ok (JObj (confirmation_items e)) = true ∧ strict_objects (JObj (confirmation_items e)) = true.
Proof.
  intros (Hp & _). unfold ConfirmationEvidence_post_init in Hp. rewrite !require_bind in Hp. destruct Hp as (Ht & Hd & _).
  cbn [forallb] in Ht, Hd. split_andb. split; [|done]. unfold confirmation_items. items_ok.
Qed.

Lemma confirmation_round e : confirmation_ok e → confirmation_of_items (sorted_items (confirmation_items e)) = Ok e.
Proof.
  intros (Hp & V1 & V2). unfold confirmation_of_items, confirmation_items.
  read_field "authority_id". read_field "algorithm". read_field "nonce". read_field "contract_id". read_field "operation_id".
  read_field "target_identity_digest". read_field "target_fingerprint". read_field "intent_digest".
  read_field "issued_at". rewrite fromisoformat_isoformat by done. cbn [mbind result_bind].
  read_field "expires_at". rewrite fromisoformat_isoformat by done. cbn [mbind result_bind].
  read_field "proof". rewrite b64decode_encode. cbn [of_option mbind result_bind].
  destruct e as [au al no ci oi ti tf id ex ia pr]. cbn [ce_authority_id ce_algorithm ce_nonce ce_contract_id ce_operation_id ce_target_identity_digest
    ce_target_fingerprint ce_intent_digest ce_expires_at ce_issued_at ce_proof] in *. by rewrite Hp.
Qed.

(** ** Properties *)

(** The signed artifacts lose nothing on the way: an authorization or
    a confirmation that was validated and fits the size limit is read from
    its file as itself; and whatever else lies at the path, the readers
    refuse it with [ArtifactExchangeError] and no other exception (of a text
    nested beyond Python's recursion limit, which the parser of [Json] does
    not have, nothing is said). *)
Theorem signed_artifacts_round_trip :
  (∀ a, authorization_ok a → (length (plan_authorization_v2_to_bytes a) ≤ MAX_FILE)%nat →
     load_signed_plan_authorization_v2 (new_file (plan_authorization_v2_to_bytes a)) = Ok a) ∧
  (∀ e, confirmation_ok e → (length (confirmation_evidence_to_bytes e) ≤ MAX_FILE)%nat →
     load_signed_confirmation_evidence (new_file (confirmation_evidence_to_bytes e)) = Ok e) ∧
  (∀ n x, load_signed_plan_authorization_v2 n = Raise x → x = ArtifactExchangeError) ∧
  (∀ n x, load_signed_confirmation_evidence n = Raise x → x = ArtifactExchangeError).
Proof.
  split_and!.
  - intros a Ha Hl. destruct (authorization_items_ok a Ha). unfold load_signed_plan_authorization_v2.
    apply printed_load; [done..| |done|by apply authorization_round].
    destruct Ha as (Hp & _). unfold PlanAuthorizationV2_post_init in Hp. rewrite require_bind in Hp.
    destruct Hp as [Hs%Z.eqb_eq _]. unfold authorization_items. cbv zeta. by rewrite Hs.
  - intros e He Hl. destruct (confirmation_items_ok e He). unfold load_signed_confirmation_evidence.
    by apply printed_load; [..|by apply confirmation_round].
  - intros n x. apply malformed_Raise.
  - intros n x. apply malformed_Raise.
Qed.

Section tagged_properties.
Context `{Hash} {A : Type} (ev : Envelope A) {valid : A → Prop} `{!EnvelopeLaws ev valid} (key : bytes).

(** [C16] An artifact production writes appears whole or not at all.  Where
    something lies at the path nothing is changed.  On an empty path a
    completed write leaves exactly the bytes written, and the reader takes
    them for the value that was written when they are at most 16 KiB and
    refuses them otherwise: the writers do not check that bound, and texts
    the constructors accept can go past it.  Whatever an interrupted write
    leaves (after any number of bytes, removed or not) is nothing, or the
    whole file, or refused by the reader; never another value. *)
Theorem artifact_published_whole a b o n r n' :
  valid a → envelope_write ev key a = Ok b → write_secure_new o b n = (r, n') →
  (n ≠ Absent → r = Raise ArtifactExchangeError ∧ n' = n) ∧
  (n = Absent →
     (r = Ok () → n' = new_file b ∧
        envelope_load ev key n' = if (length b <=? MAX_FILE)%nat then Ok a else Raise ArtifactExchangeError) ∧
     (n' = Absent ∨ (n' = new_file b ∧ envelope_load ev key n' = Ok a) ∨
        envelope_load ev key n' = Raise ArtifactExchangeError)).
Proof.
  intros Hv Hb Hw.
  assert (envelope_load ev key (new_file b) = if (length b <=? MAX_FILE)%nat then Ok a else Raise ArtifactExchangeError) as Hwhole.
  { destruct (Nat.leb_spec (length b) MAX_FILE); [by eapply envelope_round_trip|]. by apply envelope_oversized. }
  assert (∀ n', n' = new_file b → n' = Absent ∨ (n' = new_file b ∧ envelope_load ev key n' = Ok a) ∨
    envelope_load ev key n' = Raise ArtifactExchangeError) as Hnew.
  { intros ? ->. rewrite Hwhole. destruct (_ <=? _)%nat; [by right; left|by right; right]. }
  assert (∀ k n', n' = new_file (take k b) → n' = Absent ∨ (n' = new_file b ∧ envelope_load ev key n' = Ok a) ∨
    envelope_load ev key n' = Raise ArtifactExchangeError) as Hk.
  { intros k ? ->. destruct (decide (k < length b)%nat); [right; right; by eapply envelope_torn|].
    apply Hnew. by rewrite take_ge by lia. }
  split.
  - destruct n; [done|..]; by injection Hw as <- <-.
  - intros ->. cbn in Hw. destruct o as [| |k ul|k ul]; injection Hw as <- <-.
    + by split; [|left].
    + split; [by rewrite Hwhole|by apply Hnew].
    + split; [done|]. destruct ul; [by left|by eapply Hk].
    + split; [done|]. destruct ul; [by left|by eapply Hk].
Qed.

(** What the tag of an artifact decides: a file is accepted only with
    the HMAC of its own content under its own domain; a refusal is
    [ArtifactExchangeError], except that a tag with a character outside
    ASCII makes [hmac.compare_digest] raise [TypeError]. *)
Theorem tag_decides n :
  (∀ a, envelope_load ev key n = Ok a → ∃ mac, envelope_parse ev n = Ok (a, mac) ∧
     mac = hmac_hex key (ev_domain ev ++ file_bytes (ev_items ev a))) ∧
  (∀ x, envelope_load ev key n = Raise x → x = ArtifactExchangeError ∨
     x = TypeError ∧ ∃ a mac, envelope_parse ev n = Ok (a, mac) ∧ is_ascii mac = false) ∧
  (∀ a mac, valid a → (32 <= length key)%nat → forallb is_scalar mac = true → is_ascii mac = false →
     n = new_file (file_bytes (ev_items ev a ++ [(u "integrity_mac", JStr mac)])) →
     (length (file_bytes (ev_items ev a ++ [(u "integrity_mac", JStr mac)])) ≤ MAX_FILE)%nat →
     envelope_load ev key n = Raise TypeError).
Proof.
  unfold envelope_load. split_and!.
  - intros a ([a' mac] & Hp & (x & [-> [Ha Hk]]%envelope_mac_Ok & Hc)%bind_Ok)%bind_Ok.
    apply bind_Ok in Hc as (same & Hc & Hr). rewrite require_bind in Hr. destruct Hr as [-> [= <-]].
    exists mac. split; [done|]. by apply compare_digest_str_true in Hc as [-> _].
  - intros x [Hp|([a mac] & Hp & Hx)]%bind_Raise.
    { left. unfold envelope_parse in Hp. by apply malformed_Raise in Hp. }
    apply bind_Raise in Hx as [Hx|(y & [-> [Ha _]]%envelope_mac_Ok & Hx)].
    { left. unfold envelope_mac in Hx. by destruct (_ <=? _)%nat; [|injection Hx as <-]. }
    apply bind_Raise in Hx as [Hx|(same & _ & Hx)].
    + right. unfold compare_digest_str in Hx. rewrite Ha, andb_true_r in Hx.
      destruct (is_ascii mac) eqn:Hm; [done|]. injection Hx as <-. split; [done|]. by exists a, mac.
    + left. by destruct same; [|injection Hx as <-].
  - intros a mac Hv Hk Hs Hm -> Hl. rewrite (envelope_loads ev a mac Hv Hs Hl). cbn [mbind result_bind].
    unfold envelope_mac. rewrite (proj2 (Nat.leb_le _ _) Hk). cbn [require mbind result_bind].
    unfold compare_digest_str. by rewrite Hm.
Qed.
End tagged_properties.
