(* ===== verification/WriteCore.v ===== *)
(** * From an authorization to one execution

    [tier1/write_execution_core.py], and its twin for alias descriptions in
    [tier1/alias_description_execution.py]: every gate of an authorization,
    its one-time consumption, the creation of the contract, the handoff of a
    confirmed contract to the sealed executor, and the reconstruction of a
    handoff after a restart.  The consumption store is used through its
    interface; the preparer, discovery and [uuid.uuid4] are parameters.
    The arguments have their types. *)

From S2P Require Import Prelude PyStr Sha256 PyDatetime Json Capability StateMachine Canonical PyJson.
From S2P Require Import Contract Evidence Plan SealedApproval Authorization Consumption Coordinator.
From S2P Require Import Crypto StoreCodec Database RatePolicy AntiRollback Store KeyLifecycle.
From S2P Require Import PreparedIntent WriteApi Executor.

(** [PreparedWriteExecutionV1] *)
Record PreparedWriteExecutionV1 (State : Type) : Type := {
  pw_intent : PreparedExecutionIntentV1; pw_authoritative_a : State; pw_appliance_target_digest : pystr }.
Arguments pw_intent {_} _.
Arguments pw_authoritative_a {_} _.
Arguments pw_appliance_target_digest {_} _.

Record PendingExecution : Type := {
  pe_contract_id : pystr; pe_executor_intent : list (pyobj * pyobj); pe_provenance : AuthorizationProvenance }.

Record IdempotencyDerivation : Type := {
  id_target_identity_digest : pystr; id_target_fingerprint_digest : pystr; id_intent_digest : pystr;
  id_snapshot_digest : pystr; id_idempotency_key : pystr; id_executor_intent : list (pyobj * pyobj) }.

(** The [owner_token] of an instance is an object compared by identity. *)
Record AuthorizedWriteExecution : Type := { ah_contract_id : pystr; ah_owner_token : nat }.

(** What [__init__] keeps, with the parameters.  The validity is a whole
    number of seconds. *)
Record WriteExecutionCoreV1 (E Raw Request Change State : Type) : Type := {
  wc_contract_id_prefix : pystr;
  wc_raw_target : State → list (string * pyobj);
  wc_numeric_locator : State → Z;
  wc_prepare : Change → prog E (PreparedWriteExecutionV1 State);
  wc_adapter : CapabilityAdapter E Raw Request;
  wc_authorities : list PinnedAuthority;
  wc_store : Config E;
  wc_executor : MutationExecutor E Raw Request;
  wc_encryption_key : KeyRecord;
  wc_security_class : WriteSecurityClass;
  wc_contract_validity : Z;
  wc_owner_token : nat;
  wc_uuid4_hex : prog E pystr;
  wc_discover : prog (World E) SecurityPostureDiscovery;
}.
Arguments wc_contract_id_prefix {_ _ _ _ _} _.
Arguments wc_raw_target {_ _ _ _ _} _ _.
Arguments wc_numeric_locator {_ _ _ _ _} _ _.
Arguments wc_prepare {_ _ _ _ _} _ _.
Arguments wc_adapter {_ _ _ _ _} _.
Arguments wc_authorities {_ _ _ _ _} _.
Arguments wc_store {_ _ _ _ _} _.
Arguments wc_executor {_ _ _ _ _} _.
Arguments wc_encryption_key {_ _ _ _ _} _.
Arguments wc_security_class {_ _ _ _ _} _.
Arguments wc_contract_validity {_ _ _ _ _} _.
Arguments wc_owner_token {_ _ _ _ _} _.
Arguments wc_uuid4_hex {_ _ _ _ _} _.
Arguments wc_discover {_ _ _ _ _} _.

(** The world of an instance: the contract store with the requests sent,
    the consumption store, the counter file and [_pending]. *)
Record Core (E L : Type) : Type := mkCore {
  c_session : Session E; c_ledger : L; c_counter : node; c_pending : gmap pystr PendingExecution }.
Arguments mkCore {_ _} _ _ _ _.
Arguments c_session {_ _} _.
Arguments c_ledger {_ _} _.
Arguments c_counter {_ _} _.
Arguments c_pending {_ _} _.

Section core.
Context `{Hash} `{UnicodeData} `{AESGCM} `{Ed25519} {E L Raw Request Change State : Type} `{ConsumptionStore L}.
Context (core : WriteExecutionCoreV1 E Raw Request Change State).
Implicit Types (prepared fresh : PreparedWriteExecutionV1 State) (now : datetime).

Notation M A := (prog (Core E L) A).

Definition on_session {A} (p : prog (Session E) A) : M A := λ w,
  let '(r, s) := p (c_session w) in (r, mkCore s (c_ledger w) (c_counter w) (c_pending w)).
Definition on_ledger {A} (p : prog L A) : M A := λ w,
  let '(r, l) := p (c_ledger w) in (r, mkCore (c_session w) l (c_counter w) (c_pending w)).
Definition on_counter {A} (p : prog node A) : M A := λ w,
  let '(r, n) := p (c_counter w) in (r, mkCore (c_session w) (c_ledger w) n (c_pending w)).
Definition set_pending (pending : gmap pystr PendingExecution) : M () := λ w,
  (Ok (), mkCore (c_session w) (c_ledger w) (c_counter w) pending).

Definition on_contracts {A} (p : prog (World E) A) : M A := on_session (on_store p).
Definition on_outside {A} (p : prog E A) : M A := on_session (on_env p).

(** [raise BoundExecutionError(_DENIED)] unless [passed]. *)
Definition deny_unless (passed : bool) : M () :=
  if passed then mret () else raise BoundExecutionError.

(** [except BoundExecutionError: raise], [except Exception: raise BoundExecutionError(_DENIED) from None]. *)
Definition sanitised {A} (m : M A) : M A := catch m (λ _, raise BoundExecutionError).

(** The validation of [__init__]. *)
Definition WriteExecutionCoreV1_init : result () :=
  _ ← require (negb (retired (wc_encryption_key core)) &&
               match purpose (wc_encryption_key core) with ENCRYPTION => true | INTEGRITY => false end)
        BoundExecutionError;
  _ ← require (0 <? wc_contract_validity core)%Z BoundExecutionError;
  require (nonempty (wc_contract_id_prefix core) && is_ascii (wc_contract_id_prefix core)) BoundExecutionError.

(** ** Idempotency *)

(** [{**d, key: value}]: a key that is there keeps its place. *)
Fixpoint dict_set (key : pystr) (value : pyobj) (d : list (pyobj * pyobj)) : list (pyobj * pyobj) :=
  match d with
  | [] => [(PStr key, value)]
  | (k, v) :: d =>
    if match k with PStr s => pystr_eqb s key | _ => false end then (k, value) :: d else (k, v) :: dict_set key value d
  end.

Definition dict_items (v : pyobj) : result (list (pyobj * pyobj)) :=
  match v with PDict d => Ok d | _ => Raise TypeError end.

(** The intent the executor binds: the semantic one, with the whole target
    as its hint. *)
Definition executor_intent_of prepared : result (list (pyobj * pyobj)) :=
  d ← dict_items (normalized_mutation_intent (pw_intent prepared));
  Ok (dict_set (u "raw_target_hint") (pdict (wc_raw_target core (pw_authoritative_a prepared))) d).

Definition digest_context (i : PreparedExecutionIntentV1) : list pystr :=
  [capability_name (pi_capability i); pi_endpoint_symbol i; pi_http_method i].

(** [_derive_idempotency] *)
Definition derive_idempotency prepared : result IdempotencyDerivation :=
  let intent := pw_intent prepared in
  executor_intent ← executor_intent_of prepared;
  target_digest ← digest_value TARGET_IDENTITY (resource_target intent) [capability_name (pi_capability intent)];
  fingerprint_digest ← digest_value TARGET_FINGERPRINT (target_precondition intent) (digest_context intent);
  intent_digest ← digest_value INTENT (PDict executor_intent) (digest_context intent);
  snapshot_digest ← digest_value SNAPSHOT (rollback_snapshot intent) (digest_context intent);
  idempotency_key ← derive_idempotency_key (pi_capability intent) (pi_endpoint_symbol intent) (pi_http_method intent)
    target_digest fingerprint_digest (wc_numeric_locator core (pw_authoritative_a prepared)) intent_digest
    snapshot_digest (pi_rollback_plan_version intent);
  Ok {| id_target_identity_digest := target_digest; id_target_fingerprint_digest := fingerprint_digest;
        id_intent_digest := intent_digest; id_snapshot_digest := snapshot_digest;
        id_idempotency_key := idempotency_key; id_executor_intent := executor_intent |}.

Definition compute_idempotency_key prepared : result pystr :=
  derived ← derive_idempotency prepared; Ok (id_idempotency_key derived).

(** ** The gates *)

Definition Material : Type :=
  PreparedWriteExecutionV1 State * datetime * datetime * AuthorizationProvenance.

(** [_contract_material] *)
Definition contract_material prepared (created_at expires_at : datetime) (provenance : AuthorizationProvenance)
    : M Material :=
  _ ← deny_unless (negb (dt_leb expires_at created_at) &&
                   pystr_eqb (pw_appliance_target_digest prepared) (ap_appliance_target_digest provenance));
  d ← lift (dict_items (normalized_mutation_intent (pw_intent prepared)));
  _ ← deny_unless (match dict_get (u "appliance_target_digest") d with
                   | Ok (PStr s) => pystr_eqb s (ap_appliance_target_digest provenance)
                   | _ => false
                   end);
  mret (prepared, created_at, expires_at, provenance).

(** [min(now + validity, expires_at)] *)
Definition contract_expiry now (authorization_expires_at : datetime) : result datetime :=
  until ← dt_add_seconds now (wc_contract_validity core);
  Ok (if dt_ltb authorization_expires_at until then authorization_expires_at else until).

(** The first [try] block of [authorize_and_create]; the step's own
    validation is [_validate_inputs]. *)
Definition authorize_gates (request : Change) (authorized_preparation : PreparedWriteExecutionV1 State)
    (authorization : PlanAuthorizationV2) (requested_plan_digest requested_step_id : pystr)
    (required_risk_class : AuthorizationLevel) (capability : CapabilityPosture) (anchor : AnchorAssurance)
    now : M Material :=
  let a := a2_fields authorization in
  _ ← deny_unless ((pa2_schema_version a =? PLAN_AUTHORIZATION_V2_SCHEMA_VERSION)%Z &&
                   pystr_eqb requested_plan_digest (pa2_plan_digest a) && nonempty requested_step_id && is_utc now);
  authorized_digest ← lift (compute_execution_intent_digest (pw_intent authorized_preparation));
  signed ← lift (verify_plan_authorization_v2_signature authorization (wc_authorities core));
  _ ← deny_unless signed;
  _ ← deny_unless (dt_leb (pa2_issued_at a) now && dt_ltb now (pa2_expires_at a));
  authorizes ← lift (plan_authorization_v2_authorizes_execution authorization requested_plan_digest
                       requested_step_id authorized_digest);
  _ ← deny_unless authorizes;
  _ ← deny_unless (plan_authorization_v2_satisfies_required_risk_class authorization required_risk_class);
  is_fresh ← on_contracts (plan_authorization_is_fresh (wc_discover core) capability anchor requested_plan_digest);
  _ ← deny_unless is_fresh;
  fresh ← on_outside (wc_prepare core request);
  fresh_digest ← lift (compute_execution_intent_digest (pw_intent fresh));
  _ ← deny_unless (compare_digest authorized_digest fresh_digest &&
                   (wc_numeric_locator core (pw_authoritative_a fresh) =?
                    wc_numeric_locator core (pw_authoritative_a authorized_preparation))%Z);
  derived ← lift (derive_idempotency fresh);
  existing ← on_contracts (find_by_idempotency_key (wc_store core) (id_idempotency_key derived));
  _ ← deny_unless (is_none existing);
  expires_at ← lift (contract_expiry now (pa2_expires_at a));
  provenance ← lift (AuthorizationProvenance_new {|
    ap_schema_version := AUTHORIZATION_PROVENANCE_SCHEMA_VERSION;
    ap_authorization_id := pa2_authorization_id a; ap_authority_id := pa2_authority_id a;
    ap_plan_authorization_schema_version := pa2_schema_version a; ap_plan_digest := requested_plan_digest;
    ap_step_id := requested_step_id; ap_execution_intent_digest := fresh_digest;
    ap_authorization_issued_at := pa2_issued_at a; ap_authorization_expires_at := pa2_expires_at a;
    ap_appliance_target_digest := pw_appliance_target_digest fresh |});
  contract_material fresh now expires_at provenance.

(** ** Creation *)

(** [_encrypt] *)
Definition encrypt_ (contract_id : pystr) (role : ArtifactRole) (value : pyobj) : M ProtectedArtifact :=
  let key := wc_encryption_key core in
  counter ← on_counter (next (key_id key));
  nonce ← lift (build_nonce (epoch key) counter);
  plaintext ← lift (canonical_json value);
  lift (encrypt_artifact (material key) (key_id key) contract_id role plaintext nonce).

(** [_create_contract] *)
Definition create_contract (m : Material) : M (RecoveryContract * list (pyobj * pyobj)) :=
  let '(prepared, created_at, expires_at, provenance) := m in
  let intent := pw_intent prepared in
  h1 ← on_outside (wc_uuid4_hex core);
  let contract_id := wc_contract_id_prefix core ++ u "-" ++ h1 in
  h2 ← on_outside (wc_uuid4_hex core);
  let operation_id := wc_contract_id_prefix core ++ u "-op-" ++ h2 in
  derived ← lift (derive_idempotency prepared);
  protected_target_identity ← encrypt_ contract_id ROLE_TARGET_IDENTITY (resource_target intent);
  protected_intent ← encrypt_ contract_id ROLE_INTENT (normalized_mutation_intent intent);
  protected_snapshot ← encrypt_ contract_id ROLE_SNAPSHOT (rollback_snapshot intent);
  contract ← lift (RecoveryContract_new (mk_RecoveryContract contract_id operation_id
    (id_idempotency_key derived) (pi_capability intent) (wc_security_class core) (pi_endpoint_symbol intent)
    (pi_http_method intent) (id_target_identity_digest derived) (id_target_fingerprint_digest derived)
    (wc_numeric_locator core (pw_authoritative_a prepared)) (id_intent_digest derived) (id_snapshot_digest derived)
    (pi_rollback_plan_version intent) created_at expires_at PREPARING 0
    protected_target_identity protected_intent protected_snapshot (Some provenance) None None None));
  mret (contract, id_executor_intent derived).

(** The last [try] block: whatever fails here, the authorization is spent. *)
Definition create_pending (m : Material) : M AuthorizedWriteExecution :=
  created ← create_contract m;
  let '(contract, executor_intent) := created in
  _ ← on_contracts (create_authorized (wc_store core) contract);
  prepared_contract ← on_contracts (transition (wc_store core) (rc_contract_id contract) PREPARING 0 PREPARED None
                                      state_transition);
  let id := rc_contract_id prepared_contract in
  w ← get_world;
  _ ← set_pending (<[id := {| pe_contract_id := id; pe_executor_intent := executor_intent;
                              pe_provenance := snd m |}]> (c_pending w));
  mret {| ah_contract_id := id; ah_owner_token := wc_owner_token core |}.

(** [authorize_and_create] *)
Definition authorize_and_create (request : Change) (authorized_preparation : PreparedWriteExecutionV1 State)
    (authorization : PlanAuthorizationV2) (requested_plan_digest requested_step_id : pystr)
    (required_risk_class : AuthorizationLevel) (capability : CapabilityPosture) (anchor : AnchorAssurance)
    now : M AuthorizedWriteExecution :=
  m ← sanitised (authorize_gates request authorized_preparation authorization requested_plan_digest
        requested_step_id required_risk_class capability anchor now);
  consumed ← sanitised (on_ledger (consume (pa2_authorization_id (a2_fields authorization))));
  _ ← deny_unless consumed;
  sanitised (create_pending m).

(** ** Handoff *)

(** Dataclass equality: instants are compared, not their fields. *)
Definition provenance_eqb (p q : AuthorizationProvenance) : bool :=
  (ap_schema_version p =? ap_schema_version q)%Z &&
  pystr_eqb (ap_authorization_id p) (ap_authorization_id q) && pystr_eqb (ap_authority_id p) (ap_authority_id q) &&
  (ap_plan_authorization_schema_version p =? ap_plan_authorization_schema_version q)%Z &&
  pystr_eqb (ap_plan_digest p) (ap_plan_digest q) && pystr_eqb (ap_step_id p) (ap_step_id q) &&
  pystr_eqb (ap_execution_intent_digest p) (ap_execution_intent_digest q) &&
  dt_eqb (ap_authorization_issued_at p) (ap_authorization_issued_at q) &&
  dt_eqb (ap_authorization_expires_at p) (ap_authorization_expires_at q) &&
  pystr_eqb (ap_appliance_target_digest p) (ap_appliance_target_digest q).

Definition has_provenance (o : option AuthorizationProvenance) (p : AuthorizationProvenance) : bool :=
  match o with Some q => provenance_eqb q p | None => false end.

Definition within (issued_at now expires_at : datetime) : bool := dt_leb issued_at now && dt_ltb now expires_at.

(** The [try] block that confirms the contract. *)
Definition confirm_pending (contract_id : pystr) (pending : PendingExecution) (confirmation : ConfirmationEvidence)
    now : M RecoveryContract :=
  let p := pe_provenance pending in
  contract ← on_contracts (load (wc_store core) contract_id);
  _ ← deny_unless (state_eqb (rc_state contract) PREPARED && negb (is_confirmed contract) &&
                   has_provenance (rc_authorization_provenance contract) p &&
                   within (ap_authorization_issued_at p) now (ap_authorization_expires_at p) &&
                   within (ce_issued_at confirmation) now (ce_expires_at confirmation));
  confirmed ← on_contracts (confirm (wc_store core) (rc_contract_id contract) confirmation (rc_state_version contract));
  _ ← deny_unless (has_provenance (rc_authorization_provenance confirmed) p);
  mret confirmed.

(** [confirm_and_handoff] *)
Definition confirm_and_handoff (handle : AuthorizedWriteExecution) (confirmation : ConfirmationEvidence) now
    (acceptance_context : option AcceptanceExecutionContext) : M ExecutionOutcome :=
  _ ← deny_unless ((ah_owner_token handle =? wc_owner_token core)%nat && is_utc now);
  w ← get_world;
  match c_pending w !! ah_contract_id handle with
  | None => raise BoundExecutionError
  | Some pending =>
    confirmed ← sanitised (confirm_pending (ah_contract_id handle) pending confirmation now);
    w ← get_world;
    _ ← set_pending (delete (ah_contract_id handle) (c_pending w));
    sanitised (on_session (execute (wc_executor core) (rc_contract_id confirmed) (wc_adapter core)
      (pe_executor_intent pending) acceptance_context))
  end.

(** ** Resumption *)

(** The comparisons of a fresh preparation with the stored contract. *)
Definition same_digests prepared (executor_intent : list (pyobj * pyobj)) (contract : RecoveryContract) : result bool :=
  let intent := pw_intent prepared in
  target_digest ← digest_value TARGET_IDENTITY (resource_target intent) [capability_name (pi_capability intent)];
  fingerprint_digest ← digest_value TARGET_FINGERPRINT (target_precondition intent) (digest_context intent);
  intent_digest ← digest_value INTENT (PDict executor_intent) (digest_context intent);
  snapshot_digest ← digest_value SNAPSHOT (rollback_snapshot intent) (digest_context intent);
  Ok (compare_digest target_digest (rc_target_identity_digest contract) &&
      compare_digest fingerprint_digest (rc_target_fingerprint contract) &&
      compare_digest intent_digest (rc_intent_digest contract) &&
      compare_digest snapshot_digest (rc_snapshot_digest contract) &&
      pystr_eqb (pi_rollback_plan_version intent) (rc_rollback_plan_version contract)).

(** The [try] block of [resume_prepared]. *)
Definition resume_gates (contract_id : pystr) (request : Change) now
    : M (RecoveryContract * list (pyobj * pyobj) * AuthorizationProvenance) :=
  _ ← deny_unless (nonempty contract_id && is_utc now);
  contract ← on_contracts (load (wc_store core) contract_id);
  _ ← deny_unless (state_eqb (rc_state contract) PREPARED);
  match rc_authorization_provenance contract with
  | None => raise BoundExecutionError
  | Some p =>
    _ ← deny_unless (within (ap_authorization_issued_at p) now (ap_authorization_expires_at p));
    expired ← lift (is_expired contract now);
    _ ← deny_unless (negb expired);
    fresh ← on_outside (wc_prepare core request);
    let intent := pw_intent fresh in
    _ ← deny_unless (capability_eqb (pi_capability intent) (rc_capability contract) &&
                     pystr_eqb (pi_endpoint_symbol intent) (rc_endpoint_symbol contract) &&
                     pystr_eqb (pi_http_method intent) (rc_http_method contract) &&
                     pystr_eqb (pw_appliance_target_digest fresh) (ap_appliance_target_digest p));
    fresh_digest ← lift (compute_execution_intent_digest intent);
    _ ← deny_unless (compare_digest fresh_digest (ap_execution_intent_digest p));
    _ ← deny_unless (wc_numeric_locator core (pw_authoritative_a fresh) =? rc_lifecycle_locator contract)%Z;
    executor_intent ← lift (executor_intent_of fresh);
    same ← lift (same_digests fresh executor_intent contract);
    _ ← deny_unless same;
    mret (contract, executor_intent, p)
  end.

(** [resume_prepared] *)
Definition resume_prepared (contract_id : pystr) (request : Change) now : M AuthorizedWriteExecution :=
  resumed ← sanitised (resume_gates contract_id request now);
  let '(contract, executor_intent, provenance) := resumed in
  let id := rc_contract_id contract in
  w ← get_world;
  _ ← set_pending (<[id := {| pe_contract_id := id; pe_executor_intent := executor_intent;
                              pe_provenance := provenance |}]> (c_pending w));
  mret {| ah_contract_id := id; ah_owner_token := wc_owner_token core |}.
End core.
