(* ===== verification/WriteCoreProps.v ===== *)
(** * Properties of the execution core

    What a returned handle means, what a failed call leaves behind, and that
    the sealed executor accepts what the core hands it. *)

From S2P Require Import Prelude PyStr Sha256 PyDatetime Json Capability StateMachine Canonical PyJson.
From S2P Require Import Contract Evidence Plan SealedApproval Authorization AuthorizationProps Consumption Coordinator.
From S2P Require Import Crypto StoreCodec Database RatePolicy AntiRollback Store StoreInv StoreOps StoreProps StoreGate.
From S2P Require Import StoreResolve KeyLifecycle PreparedIntent WriteApi Executor AliasDescription AliasProps WriteCore.

(** ** Steps of a call *)

Section steps.
Context `{Hash} `{UnicodeData} `{AESGCM} `{Ed25519} {E L Raw Request Change State : Type} `{Store : ConsumptionStore L}.
Context (core : WriteExecutionCoreV1 E Raw Request Change State).
Implicit Types (w : Core E L).

(** The world of the contract store, and the rest with another one. *)
Definition contracts w : World E := world (c_session w).
Definition with_contracts w (x : World E) : Core E L :=
  mkCore (mkSession x (sends (c_session w))) (c_ledger w) (c_counter w) (c_pending w).

Lemma on_contracts_inv {A} (p : prog (World E) A) w r w' :
  on_contracts p w = (r, w') → ∃ x, p (contracts w) = (r, x) ∧ w' = with_contracts w x.
Proof.
  unfold on_contracts, on_session, on_store, contracts. destruct (p (world (c_session w))) as [r' x].
  intros [= <- <-]. by exists x.
Qed.

Lemma on_outside_inv {A} (p : prog E A) w r w' : on_outside p w = (r, w') →
  ∃ e, p (env (contracts w)) = (r, e) ∧ w' = with_contracts w (mkWorld (db (contracts w)) e).
Proof.
  unfold on_outside, on_env, on_session, on_store, env_call, contracts.
  destruct (p (env (world (c_session w)))) as [r' e] eqn:Hp. intros [= <- <-]. by exists e.
Qed.

Lemma on_ledger_inv {A} (p : prog L A) w r w' : on_ledger p w = (r, w') →
  ∃ l, p (c_ledger w) = (r, l) ∧ w' = mkCore (c_session w) l (c_counter w) (c_pending w).
Proof. unfold on_ledger. destruct (p (c_ledger w)) as [r' l]. intros [= <- <-]. by exists l. Qed.

Lemma sanitised_inv {A} (p : prog (Core E L) A) w a w' : sanitised p w = (Ok a, w') → p w = (Ok a, w').
Proof. unfold sanitised, catch, raise. by destruct (p w) as [[?|?] ?]. Qed.

Lemma sanitised_raise {A} (p : prog (Core E L) A) w e w' : sanitised p w = (Raise e, w') →
  e = BoundExecutionError ∧ ∃ e', p w = (Raise e', w').
Proof. unfold sanitised, catch, raise. destruct (p w) as [[?|e'] ?]; [done|]. intros [= <- <-]. eauto. Qed.

Lemma deny_unless_inv b w x w' : deny_unless b w = (Ok x, w') → b = true ∧ w' = w.
Proof. destruct b; [by intros [= _ <-]|done]. Qed.

(** The facts of passed gates. *)
Definition gates_passed (request : Change) (ap : PreparedWriteExecutionV1 State) (a : PlanAuthorizationV2)
    (d s : pystr) (risk : AuthorizationLevel) (cap : CapabilityPosture) (anc : AnchorAssurance) (now : datetime)
    w (m : Material) w' : Prop :=
  ∃ fresh digest ex x1 e2 x3 derived,
    let f := a2_fields a in
    let p := {| ap_schema_version := AUTHORIZATION_PROVENANCE_SCHEMA_VERSION;
      ap_authorization_id := pa2_authorization_id f; ap_authority_id := pa2_authority_id f;
      ap_plan_authorization_schema_version := pa2_schema_version f; ap_plan_digest := d;
      ap_step_id := s; ap_execution_intent_digest := digest;
      ap_authorization_issued_at := pa2_issued_at f; ap_authorization_expires_at := pa2_expires_at f;
      ap_appliance_target_digest := pw_appliance_target_digest fresh |} in
    d = pa2_plan_digest f ∧ is_utc now = true ∧
    verify_plan_authorization_v2_signature a (wc_authorities core) = Ok true ∧
    dt_leb (pa2_issued_at f) now = true ∧ dt_ltb now (pa2_expires_at f) = true ∧
    compute_execution_intent_digest (pw_intent ap) = Ok digest ∧
    plan_authorization_v2_authorizes_execution a d s digest = Ok true ∧
    authorization_level_at_least (pa2_risk_class f) risk = true ∧
    plan_authorization_is_fresh (wc_discover core) cap anc d (contracts w) = (Ok true, x1) ∧
    wc_prepare core request (env x1) = (Ok fresh, e2) ∧
    compute_execution_intent_digest (pw_intent fresh) = Ok digest ∧
    wc_numeric_locator core (pw_authoritative_a fresh) = wc_numeric_locator core (pw_authoritative_a ap) ∧
    derive_idempotency core fresh = Ok derived ∧
    find_by_idempotency_key (wc_store core) (id_idempotency_key derived) (mkWorld (db x1) e2) = (Ok None, x3) ∧
    contract_expiry core now (pa2_expires_at f) = Ok ex ∧ dt_ltb now ex = true ∧
    AuthorizationProvenance_post_init p = Ok () ∧ m = (fresh, now, ex, p) ∧ w' = with_contracts w x3.

Lemma gates_inv request ap a d s risk cap anc now w m w' :
  authorize_gates core request ap a d s risk cap anc now w = (Ok m, w') →
  gates_passed request ap a d s risk cap anc now w m w'.
Proof.
  unfold authorize_gates. cbv zeta. intros Hp.
  apply bind_inv in Hp as ([] & ? & [Hin ->]%deny_unless_inv & Hp). rewrite !andb_true_iff, pystr_eqb_eq in Hin.
  destruct Hin as [[[_ Hd] _] Hu].
  apply bind_inv in Hp as (digest & ? & [Hdg ->]%lift_inv & Hp). apply bind_inv in Hp as (b & ? & [Hs ->]%lift_inv & Hp).
  apply bind_inv in Hp as ([] & ? & [-> ->]%deny_unless_inv & Hp).
  apply bind_inv in Hp as ([] & ? & [[W1 W2]%andb_true_iff ->]%deny_unless_inv & Hp).
  apply bind_inv in Hp as (b & ? & [Ha ->]%lift_inv & Hp). apply bind_inv in Hp as ([] & ? & [-> ->]%deny_unless_inv & Hp).
  apply bind_inv in Hp as ([] & ? & [Hr ->]%deny_unless_inv & Hp).
  apply bind_inv in Hp as (b & ? & (x1 & Hf & ->)%on_contracts_inv & Hp).
  apply bind_inv in Hp as ([] & ? & [-> ->]%deny_unless_inv & Hp).
  apply bind_inv in Hp as (fresh & ? & (e2 & Hpr & ->)%on_outside_inv & Hp).
  apply bind_inv in Hp as (digest' & ? & [Hdg' ->]%lift_inv & Hp).
  apply bind_inv in Hp as ([] & ? & [[Ec%pystr_eqb_eq El%Z.eqb_eq]%andb_true_iff ->]%deny_unless_inv & Hp). subst digest'.
  apply bind_inv in Hp as (derived & ? & [Hder ->]%lift_inv & Hp).
  apply bind_inv in Hp as (o & ? & (x3 & Hfind & ->)%on_contracts_inv & Hp).
  apply bind_inv in Hp as ([] & ? & [Ho ->]%deny_unless_inv & Hp). destruct o; [done|].
  apply bind_inv in Hp as (ex & ? & [Hex ->]%lift_inv & Hp).
  apply bind_inv in Hp as (p & ? & [([] & Hpv & [= <-])%bind_Ok ->]%lift_inv & Hp).
  unfold contract_material in Hp.
  apply bind_inv in Hp as ([] & ? & [[Hlt _]%andb_true_iff ->]%deny_unless_inv & Hp).
  apply bind_inv in Hp as (dd & ? & [_ ->]%lift_inv & Hp). apply bind_inv in Hp as ([] & ? & [_ ->]%deny_unless_inv & Hp).
  injection Hp as <- <-. apply negb_true_iff, dt_leb_ltb in Hlt.
  exists fresh, digest, ex, x1, e2, x3, derived. by split_and!.
Qed.
End steps.

(** ** Creation *)

Section creation.
Context `{Hash} `{UnicodeData} `{AESGCM} `{Ed25519} {E L Raw Request Change State : Type} `{Store : ConsumptionStore L}.
Context (core : WriteExecutionCoreV1 E Raw Request Change State).
Implicit Types (w : Core E L) (fresh : PreparedWriteExecutionV1 State).

(** Everything of the world but the counter file and the environment. *)
Definition rest w := (db (contracts w), sends (c_session w), c_ledger w, c_pending w).

Lemma encrypt_inv id role v w a w' :
  encrypt_ (L:=L) core id role v w = (Ok a, w') → wf_artifact a ∧ rest w' = rest w.
Proof.
  unfold encrypt_. intros (n & w1 & Hn & Hp)%bind_inv.
  apply bind_inv in Hp as (b & ? & [_ ->]%lift_inv & Hp). apply bind_inv in Hp as (t & ? & [_ ->]%lift_inv & Hp).
  apply lift_inv in Hp as [He ->]. split.
  - unfold encrypt_artifact in He. rewrite !require_bind in He. destruct He as (_ & _ & (ad & _ & He)%bind_Ok).
    by apply bind_Ok in He as ([] & He & [= <-]).
  - unfold on_counter in Hn. destruct (next _ (c_counter w)). by injection Hn as _ <-.
Qed.

(** The contract made of a preparation, before and after it is stored. *)
Definition made_of fresh (now ex : datetime) (p : AuthorizationProvenance) (d : IdempotencyDerivation)
    (c : RecoveryContract) : Prop :=
  let i := pw_intent fresh in
  identity_of c = (rc_contract_id c, rc_operation_id c, id_idempotency_key d, pi_capability i, wc_security_class core,
    pi_endpoint_symbol i, pi_http_method i, id_target_identity_digest d, id_target_fingerprint_digest d,
    wc_numeric_locator core (pw_authoritative_a fresh), id_intent_digest d, id_snapshot_digest d,
    pi_rollback_plan_version i, now, ex, Some p).

Lemma made_of_identity fresh now ex p d c c' : made_of fresh now ex p d c → identity_of c = identity_of c' →
  made_of fresh now ex p d c'.
Proof. unfold made_of, identity_of. cbv zeta. congruence. Qed.

Lemma create_contract_inv fresh now ex p w c ei w' :
  dt_valid now = true → dt_valid ex = true → wf_provenance p →
  create_contract (L:=L) core (fresh, now, ex, p) w = (Ok (c, ei), w') →
  ∃ derived, derive_idempotency core fresh = Ok derived ∧ ei = id_executor_intent derived ∧
    made_of fresh now ex p derived c ∧ wf_contract c ∧ rest w' = rest w.
Proof.
  intros Hn He Hp Hc. unfold create_contract in Hc. cbv zeta in Hc.
  apply bind_inv in Hc as (h1 & ? & (e1 & _ & ->)%on_outside_inv & Hc).
  apply bind_inv in Hc as (h2 & ? & (e2 & _ & ->)%on_outside_inv & Hc).
  apply bind_inv in Hc as (derived & ? & [Hd ->]%lift_inv & Hc).
  apply bind_inv in Hc as (a1 & w1 & [A1 R1]%encrypt_inv & Hc). apply bind_inv in Hc as (a2 & w2 & [A2 R2]%encrypt_inv & Hc).
  apply bind_inv in Hc as (a3 & w3 & [A3 R3]%encrypt_inv & Hc).
  apply bind_inv in Hc as (c' & ? & [[-> Hf]%RecoveryContract_new_Ok ->]%lift_inv & Hc). injection Hc as <- <- <-.
  exists derived. split_and!; [done|done|done| |by rewrite R3, R2, R1].
  split; [exact Hf|done|done|done|by intros ? [= <-]|done|done|done].
Qed.

Lemma create_contract_rest m w x w' : create_contract (L:=L) core m w = (Ok x, w') → rest w' = rest w.
Proof.
  destruct m as [[[fresh now] ex] p]. unfold create_contract. cbv zeta. intros Hc.
  apply bind_inv in Hc as (h1 & ? & (e1 & _ & ->)%on_outside_inv & Hc).
  apply bind_inv in Hc as (h2 & ? & (e2 & _ & ->)%on_outside_inv & Hc).
  apply bind_inv in Hc as (derived & ? & [_ ->]%lift_inv & Hc).
  apply bind_inv in Hc as (a1 & w1 & [_ R1]%encrypt_inv & Hc). apply bind_inv in Hc as (a2 & w2 & [_ R2]%encrypt_inv & Hc).
  apply bind_inv in Hc as (a3 & w3 & [_ R3]%encrypt_inv & Hc). apply bind_inv in Hc as (c & ? & [_ ->]%lift_inv & Hc).
  injection Hc as <- <-. by rewrite R3, R2, R1.
Qed.

Lemma create_ledger m w h w' : create_pending core m w = (Ok h, w') → c_ledger w' = c_ledger w.
Proof.
  unfold create_pending. intros ([c ei] & w1 & R%create_contract_rest & Hc)%bind_inv. injection R as _ _ RL _.
  apply bind_inv in Hc as ([] & ? & (x2 & _ & ->)%on_contracts_inv & Hc).
  apply bind_inv in Hc as (r & ? & (x3 & _ & ->)%on_contracts_inv & Hc).
  apply bind_inv in Hc as (w4 & ? & [= <- <-] & Hc). apply bind_inv in Hc as ([] & ? & [= <-] & Hc). by injection Hc as _ <-.
Qed.

(** What the core holds for a handle. *)
Definition pending_for (h : AuthorizedWriteExecution) w (pe : PendingExecution) : Prop :=
  ah_owner_token h = wc_owner_token core ∧ c_pending w !! ah_contract_id h = Some pe ∧
  pe_contract_id pe = ah_contract_id h.

(** The stored contract under [id], in state PREPARED. *)
Definition stored_prepared w (id : pystr) (r : RecoveryContract) : Prop :=
  ∃ row, t_contracts (db (contracts w)) !! id = Some row ∧ decode_row (wc_store core) id row = Ok r ∧
    rc_contract_id r = id ∧ rc_state r = PREPARED.

Context (Hclock : clock_valid (wc_store core)) (Hothers : others_behave (wc_store core)).

Lemma create_pending_inv m0 fresh now ex p w h w' :
  rep (wc_store core) (db (contracts w)) m0 →
  dt_valid now = true → dt_valid ex = true → wf_provenance p →
  create_pending core (fresh, now, ex, p) w = (Ok h, w') →
  ∃ derived r, derive_idempotency core fresh = Ok derived ∧ made_of fresh now ex p derived r ∧
    stored_prepared w' (ah_contract_id h) r ∧ rc_state_version r = 1%Z ∧
    pending_for h w' {| pe_contract_id := ah_contract_id h; pe_executor_intent := id_executor_intent derived;
                        pe_provenance := p |} ∧
    sends (c_session w') = sends (c_session w) ∧ c_ledger w' = c_ledger w.
Proof.
  intros Hr Hn He Hp Hc. unfold create_pending in Hc.
  apply bind_inv in Hc as ([c ei] & w1 & (derived & Hd & -> & Hm & Hwf & R1)%create_contract_inv & Hc); [|done..].
  unfold rest in R1. injection R1 as R1 S1 L1 _.
  apply bind_inv in Hc as ([] & ? & (x2 & Hcr & ->)%on_contracts_inv & Hc).
  apply bind_inv in Hc as (r & ? & (x3 & Htr & ->)%on_contracts_inv & Hc). cbn [contracts c_session world with_contracts] in Htr.
  rewrite <-R1 in Hr.
  destruct (holds_create_authorized (wc_store core) Hclock Hothers m0 c Hwf _ Hr) as (m1 & Hr1 & _ & Hq1).
  rewrite Hcr in Hr1, Hq1. specialize (Hq1 () eq_refl). cbn beta in Hq1.
  destruct (holds_transition (wc_store core) Hclock Hothers m1 (rc_contract_id c) PREPARING 0 PREPARED None state_transition x2 Hr1)
    as (m2 & Hr2 & He2 & Hq2).
  rewrite Htr in Hr2, Hq2. destruct (Hq2 r eq_refl) as ((Hid & Hwfr & _) & Hl2 & Hst & Hv & _). clear Hq2.
  destruct (He2 _ _ Hq1) as (r' & Hl2' & Hadv). assert (r' = r) as -> by congruence.
  destruct (rep_row _ _ _ _ _ Hr2 Hl2) as (tag & Htag & Hrow).
  apply bind_inv in Hc as (w4 & ? & [= <- <-] & Hc). apply bind_inv in Hc as ([] & ? & [= <-] & Hc). injection Hc as <- <-.
  cbn [ah_contract_id ah_owner_token c_pending c_session c_ledger sends contracts world with_contracts].
  exists derived, r. split_and!; [done|exact (made_of_identity _ _ _ _ _ _ _ Hm (proj1 Hadv))| |exact Hv| |exact S1|exact L1].
  - exists (row_of r tag). cbn [snd] in Hrow. rewrite Hid. split_and!; [exact Hrow| |done|done].
    rewrite <-Hid. by apply decode_row_of.
  - unfold pending_for. cbn [ah_contract_id ah_owner_token c_pending]. split_and!; [done|by rewrite lookup_insert_eq|done].
Qed.
End creation.

(** ** What the executor will check *)

Section acceptance.
Context `{Hash} `{UnicodeData} `{AESGCM} `{Ed25519} {E L Raw Request Change State : Type} `{Store : ConsumptionStore L}.
Context (core : WriteExecutionCoreV1 E Raw Request Change State).
Implicit Types (w : Core E L) (fresh : PreparedWriteExecutionV1 State) (ei : list (pyobj * pyobj)).

(** The hint of an executor intent, as the executor's adapter reads it. *)
Definition hint_of fresh : Raw :=
  of_hint (wc_executor core) (pdict (wc_raw_target core (pw_authoritative_a fresh))).

(** What a capability promises the core: the adapter reads the target hint
    back as the target the preparer froze. *)
Definition capability_laws : Prop := ∀ request e fresh e',
  wc_prepare core request e = (Ok fresh, e') →
  let i := pw_intent fresh in
  ad_capability (wc_adapter core) = pi_capability i ∧ ad_endpoint_symbol (wc_adapter core) = pi_endpoint_symbol i ∧
  ad_http_method (wc_adapter core) = pi_http_method i ∧
  ∃ ti tp, natural_identity (wc_adapter core) (hint_of fresh) = Ok ti ∧
    fingerprint (wc_adapter core) (hint_of fresh) = Ok tp ∧
    (∀ p c, digest_value p ti c = digest_value p (resource_target i) c) ∧
    (∀ p c, digest_value p tp c = digest_value p (target_precondition i) c).

(** The check [execute] makes of an intent, before it touches anything. *)
Definition executor_accepts ei (r : RecoveryContract) : Prop :=
  ∃ hint ti tp, dict_get (u "raw_target_hint") ei = Ok hint ∧
    natural_identity (wc_adapter core) (of_hint (wc_executor core) hint) = Ok ti ∧
    fingerprint (wc_adapter core) (of_hint (wc_executor core) hint) = Ok tp ∧
    verify_bindings r (ad_capability (wc_adapter core)) (ad_endpoint_symbol (wc_adapter core))
      (ad_http_method (wc_adapter core)) ti tp (PDict ei) = Ok ().

Lemma dict_get_set key v d : dict_get key (dict_set key v d) = Ok v.
Proof.
  induction d as [|[k x] d IH]; [unfold dict_get; cbn; by rewrite pystr_eqb_refl|]. unfold dict_get in *. cbn [dict_set].
  destruct k; cbn [find fst snd]; try exact IH. destruct (pystr_eqb s key) eqn:Es; cbn [find fst snd]; rewrite Es; [done|exact IH].
Qed.

(** The digests of a preparation are those of the contract. *)
Definition digests_of fresh ei (r : RecoveryContract) : Prop :=
  let i := pw_intent fresh in
  rc_capability r = pi_capability i ∧ rc_endpoint_symbol r = pi_endpoint_symbol i ∧ rc_http_method r = pi_http_method i ∧
  digest_value TARGET_IDENTITY (resource_target i) [capability_name (pi_capability i)] = Ok (rc_target_identity_digest r) ∧
  digest_value TARGET_FINGERPRINT (target_precondition i) (digest_context i) = Ok (rc_target_fingerprint r) ∧
  digest_value INTENT (PDict ei) (digest_context i) = Ok (rc_intent_digest r) ∧
  digest_value SNAPSHOT (rollback_snapshot i) (digest_context i) = Ok (rc_snapshot_digest r).

Lemma accepted request e fresh e' ei r :
  capability_laws → wc_prepare core request e = (Ok fresh, e') → executor_intent_of core fresh = Ok ei →
  digests_of fresh ei r → executor_accepts ei r.
Proof.
  intros Hlaws Hp Hei (C1 & C2 & C3 & D1 & D2 & D3 & _). destruct (Hlaws _ _ _ _ Hp) as (A1 & A2 & A3 & ti & tp & N & F & L1 & L2).
  unfold executor_intent_of in Hei. apply bind_Ok in Hei as (d & _ & [= <-]).
  eexists _, ti, tp. split_and!; [apply dict_get_set|exact N|exact F|].
  unfold verify_bindings. rewrite L1, L2, A1, A2, A3, C1, C2, C3. unfold digest_context in *. rewrite D1, D2, D3.
  cbn [mbind result_bind]. by rewrite (proj2 (capability_eqb_eq _ _)), !pystr_eqb_refl.
Qed.

Lemma derive_inv fresh d : derive_idempotency core fresh = Ok d →
  let i := pw_intent fresh in
  executor_intent_of core fresh = Ok (id_executor_intent d) ∧
  digest_value TARGET_IDENTITY (resource_target i) [capability_name (pi_capability i)] = Ok (id_target_identity_digest d) ∧
  digest_value TARGET_FINGERPRINT (target_precondition i) (digest_context i) = Ok (id_target_fingerprint_digest d) ∧
  digest_value INTENT (PDict (id_executor_intent d)) (digest_context i) = Ok (id_intent_digest d) ∧
  digest_value SNAPSHOT (rollback_snapshot i) (digest_context i) = Ok (id_snapshot_digest d).
Proof.
  unfold derive_idempotency. cbv zeta. intros (ei & Hei & (d1 & D1 & (d2 & D2 & (d3 & D3 & (d4 & D4 & Hk)%bind_Ok)%bind_Ok)%bind_Ok)%bind_Ok)%bind_Ok.
  by apply bind_Ok in Hk as (k & _ & [= <-]).
Qed.

Lemma made_of_digests fresh now ex p d r : derive_idempotency core fresh = Ok d → made_of core fresh now ex p d r →
  digests_of fresh (id_executor_intent d) r.
Proof.
  intros (_ & D1 & D2 & D3 & D4)%derive_inv Hm. unfold made_of, identity_of in Hm. cbv zeta in Hm.
  injection Hm. intros. unfold digests_of. cbv zeta. split_and!; congruence.
Qed.

Lemma same_digests_inv fresh ei r : same_digests fresh ei r = Ok true →
  rc_capability r = pi_capability (pw_intent fresh) → rc_endpoint_symbol r = pi_endpoint_symbol (pw_intent fresh) →
  rc_http_method r = pi_http_method (pw_intent fresh) → digests_of fresh ei r.
Proof.
  unfold same_digests, compare_digest. cbv zeta. intros (d1 & D1 & (d2 & D2 & (d3 & D3 & (d4 & D4 & [= Hb])%bind_Ok)%bind_Ok)%bind_Ok)%bind_Ok.
  rewrite !andb_true_iff, !pystr_eqb_eq in Hb. destruct Hb as [[[[-> ->] ->] ->] _]. done.
Qed.
End acceptance.

(** ** A returned handle *)

Section granted.
Context `{Hash} `{UnicodeData} `{AESGCM} `{Ed25519} {E L Raw Request Change State : Type} `{Store : ConsumptionStore L}.
Context (core : WriteExecutionCoreV1 E Raw Request Change State).
Implicit Types (w : Core E L) (a : PlanAuthorizationV2).

(** The store and discovery this section is about. *)
Context (Hclock : clock_valid (wc_store core)) (Hothers : others_behave (wc_store core)).
Context (Hdiscover : ∀ x, db (snd (wc_discover core x)) = db x).

Lemma holds_find m key : holds (wc_store core) m (find_by_idempotency_key (wc_store core) key) (λ _ _, True).
Proof.
  unfold find_by_idempotency_key. eapply holds_bind; [by apply holds_select|]. intros [[id row]|] m1 _ _; [|by apply holds_ret].
  eapply (holds_bind _ _ _ _ (λ _ _, True)); [by apply holds_lift|]. intros c m2 _ _.
  destruct (negb _); [apply holds_raise|]. destruct (negb _); [apply holds_raise|].
  eapply (holds_bind _ _ _ _ (λ _ _, True)); [by apply holds_verify|]. intros. by apply holds_ret.
Qed.

(** The world the gates read: discovery first, then the preparer. *)
Definition discovered w : result SecurityPostureDiscovery * World E := wc_discover core (contracts w).

(** The provenance written for an authorization. *)
Definition provenance_of a (d s digest appliance : pystr) : AuthorizationProvenance := {|
  ap_schema_version := AUTHORIZATION_PROVENANCE_SCHEMA_VERSION;
  ap_authorization_id := pa2_authorization_id (a2_fields a); ap_authority_id := pa2_authority_id (a2_fields a);
  ap_plan_authorization_schema_version := pa2_schema_version (a2_fields a); ap_plan_digest := d;
  ap_step_id := s; ap_execution_intent_digest := digest;
  ap_authorization_issued_at := pa2_issued_at (a2_fields a);
  ap_authorization_expires_at := pa2_expires_at (a2_fields a); ap_appliance_target_digest := appliance |}.

Lemma contract_expiry_ok now ex ex' : contract_expiry core now ex = Ok ex' →
  dt_valid now = true → dt_valid ex = true → dt_valid ex' = true ∧ dt_leb ex' ex = true.
Proof.
  unfold contract_expiry. intros (t & Ht & [= <-])%bind_Ok Hn He. pose proof (dt_add_seconds_valid _ _ _ Hn Ht).
  unfold dt_leb, dt_ltb. destruct (Z.ltb_spec (dt_instant ex) (dt_instant t)); (split; [done|]); apply Z.leb_le; lia.
Qed.

(** The parts of a successful call. *)
Lemma creation_inv request ap a d s risk cap anc now w h w' :
  authorize_and_create core request ap a d s risk cap anc now w = (Ok h, w') →
  ∃ m w1 l, gates_passed core request ap a d s risk cap anc now w m w1 ∧
    consume (pa2_authorization_id (a2_fields a)) (c_ledger w1) = (Ok true, l) ∧
    create_pending core m (mkCore (c_session w1) l (c_counter w1) (c_pending w1)) = (Ok h, w').
Proof.
  unfold authorize_and_create. intros (m & w1 & Hg%sanitised_inv%gates_inv & Hp)%bind_inv.
  apply bind_inv in Hp as (b & ? & (l & Hc & ->)%sanitised_inv%on_ledger_inv & Hp).
  apply bind_inv in Hp as ([] & ? & [-> ->]%deny_unless_inv & Hp). apply sanitised_inv in Hp. by exists m, w1, l.
Qed.

(** [C36] What a created execution rests on.  When [authorize_and_create]
    returns a handle, the key of an active pinned authority verifies the
    artifact's signature over the artifact's own signing payload, a text
    that fixes the whole grant; the call happened
    inside the authorization's window; its risk class covers the required
    one; the plan digest is that of the plan made of the posture discovered
    during this call; the binding of step and execution intent is in the
    grant, and the intent is both the one the caller was authorized for and
    the one freshly prepared, on the same target; and the authorization was
    unused before and is used now. *)
Theorem creation_authorized request ap a d s risk cap anc now w h w' :
  v2_ok (a2_fields a) →
  authorize_and_create core request ap a d s risk cap anc now w = (Ok h, w') →
  (∃ authority m, authority ∈ wc_authorities core ∧ pin_active authority = true ∧
     pin_authority_id authority = pa2_authority_id (a2_fields a) ∧
     plan_authorization_v2_signing_payload (a2_fields a) = Ok m ∧
     ed25519_verify (pin_public_key authority) (a2_proof a) m = true ∧
     ∀ p, v2_ok p → plan_authorization_v2_signing_payload p = Ok m → same_grant p (a2_fields a)) ∧
  dt_leb (pa2_issued_at (a2_fields a)) now = true ∧ dt_ltb now (pa2_expires_at (a2_fields a)) = true ∧
  authorization_level_at_least (pa2_risk_class (a2_fields a)) risk = true ∧
  (∃ posture plan, fst (discovered w) = Ok posture ∧
     generate_security_posture_plan_from_discovery posture cap anc = Ok plan ∧ compute_plan_digest plan = Ok d) ∧
  (∃ fresh digest, fst (wc_prepare core request (env (snd (discovered w)))) = Ok fresh ∧
     compute_execution_intent_digest (pw_intent fresh) = Ok digest ∧
     compute_execution_intent_digest (pw_intent ap) = Ok digest ∧
     wc_numeric_locator core (pw_authoritative_a fresh) = wc_numeric_locator core (pw_authoritative_a ap) ∧
     {| sb_step_id := s; sb_execution_intent_digest := digest |} ∈ pa2_authorized_executions (a2_fields a)) ∧
  ¬ consumed (c_ledger w) (pa2_authorization_id (a2_fields a)) ∧
  consumed (c_ledger w') (pa2_authorization_id (a2_fields a)).
Proof.
  intros Hok (m & w1 & l & Hg & Hc & Hp)%creation_inv.
  destruct Hg as (fresh & digest & ex & x1 & e2 & x3 & derived & Hg). cbv zeta in Hg.
  destruct Hg as (-> & Hu & Hs & W1 & W2 & Hd & Ha & Hr & Hf & Hpr & Hd' & Hl & _ & _ & _ & _ & _ & -> & ->).
  apply plan_fresh_true in Hf as (posture & plan & Hdis & Hgen & Hpd).
  apply verify_v2_inv in Hs as (_ & msg & au & Hm & Hin & Hid & Hact & Hv).
  unfold plan_authorization_v2_authorizes_execution in Ha. apply bind_Ok in Ha as (b & _ & Ha). destruct b; [|done].
  apply any_binding_true in Ha. apply consume_fresh in Hc as [Hn Hc].
  assert (c_ledger w' = l) as Hlw by (by apply create_ledger in Hp).
  split_and!; [|done|done|done| | |exact Hn|by rewrite Hlw].
  - exists au, msg. split_and!; [done..|]. intros p Hokp Hmp. exact (v2_signing_inj p (a2_fields a) msg Hokp Hok Hmp Hm).
  - exists posture, plan. unfold discovered. rewrite Hdis. done.
  - exists fresh, digest. unfold discovered. rewrite Hdis. cbn [snd]. rewrite Hpr. done.
Qed.

(** [C8] What is created.  When [authorize_and_create] returns a handle, on
    any store this program wrote, the row under the handle's identifier
    decodes to a contract in state PREPARED, at version 1, that carries the
    provenance of this authorization and expires no later than it; the
    executor's own check accepts, for that contract, the intent kept for
    the handle; and nothing was sent. *)
Theorem created_contract_accepted request ap a d s risk cap anc now w h w' :
  capability_laws core → reachable (wc_store core) (contracts w) → dt_valid now = true → v2_ok (a2_fields a) →
  authorize_and_create core request ap a d s risk cap anc now w = (Ok h, w') →
  ∃ r pe digest appliance, stored_prepared core w' (ah_contract_id h) r ∧ rc_state_version r = 1%Z ∧
    rc_authorization_provenance r = Some (provenance_of a d s digest appliance) ∧
    rc_security_class r = wc_security_class core ∧
    dt_leb (rc_expires_at r) (pa2_expires_at (a2_fields a)) = true ∧
    pending_for core h w' pe ∧ pe_provenance pe = provenance_of a d s digest appliance ∧
    executor_accepts core (pe_executor_intent pe) r ∧ sends (c_session w') = sends (c_session w).
Proof.
  intros Hlaws Hreach Hnow (_ & _ & V1 & V2) (m & w1 & l & Hg & Hc & Hp)%creation_inv.
  destruct Hg as (fresh & digest & ex & x1 & e2 & x3 & derived & Hg). cbv zeta in Hg.
  destruct Hg as (-> & _ & _ & _ & _ & _ & _ & _ & Hf & Hpr & _ & _ & Hder & Hfind & Hex & _ & Hprov & -> & ->).
  apply plan_fresh_true in Hf as (posture & plan & Hdis & _). pose proof (Hdiscover (contracts w)) as Hdb. rewrite Hdis in Hdb.
  destruct (reachable_rep (wc_store core) Hclock Hothers _ Hreach) as [m0 Hr]. cbn [snd] in Hdb. rewrite <-Hdb in Hr.
  destruct (holds_find m0 (id_idempotency_key derived) (mkWorld (db x1) e2) Hr) as (m1 & Hr1 & _). rewrite Hfind in Hr1.
  destruct (contract_expiry_ok _ _ _ Hex Hnow V2) as [Vex Hle].
  apply (create_pending_inv core Hclock Hothers m1) in Hp
    as (derived' & r & Hder' & Hm & Hst & Hv & Hpe & Hsends & _); [|exact Hr1|done|done|by split].
  pose proof (made_of_digests core _ _ _ _ _ _ Hder' Hm) as Hdig. pose proof (derive_inv core _ _ Hder') as (Hei & _).
  unfold made_of, identity_of in Hm. cbv zeta in Hm. injection Hm. intros.
  eexists r, _, digest, (pw_appliance_target_digest fresh). split_and!; [exact Hst|exact Hv|done|done| |exact Hpe|done| |exact Hsends].
  - congruence.
  - cbn [pe_executor_intent]. by eapply accepted.
Qed.
End granted.

(** ** A failed call *)

Section failed.
Context `{Hash} `{UnicodeData} `{AESGCM} `{Ed25519} {E L Raw Request Change State : Type} `{Store : ConsumptionStore L}.
Context (core : WriteExecutionCoreV1 E Raw Request Change State).
Implicit Types (w : Core E L) (a : PlanAuthorizationV2).

Context (Hquiet : quiet (wc_store core)) (Hdiscover : ∀ x, db (snd (wc_discover core x)) = db x).

(** The world but for the environment. *)
Definition frame w := (db (contracts w), sends (c_session w), c_ledger w, c_counter w, c_pending w).

Definition framed {A} (p : prog (Core E L) A) : Prop := ∀ F, preserves (λ w, frame w = F) p.

Lemma framed_bind {A B} (p : prog (Core E L) A) (f : A → prog (Core E L) B) :
  framed p → (∀ x, framed (f x)) → framed (p ≫= f).
Proof. intros Hp Hf F. apply preserves_bind; [apply Hp|]. intros x. apply Hf. Qed.

Lemma framed_pure {A} (r : result A) : framed (lift r).
Proof. intros F. apply preserves_lift. Qed.

Lemma framed_deny b : framed (deny_unless b).
Proof. intros F. destruct b; [apply preserves_ret|apply preserves_raise]. Qed.

Lemma framed_outside {A} (p : prog E A) : framed (on_outside p).
Proof. intros F w Hw. destruct (on_outside p w) as [r w'] eqn:Hp. apply on_outside_inv in Hp as (e & _ & ->). exact Hw. Qed.

Lemma framed_contracts {A} (p : prog (World E) A) : (∀ d, keeps (λ d', d' = d) p) → framed (on_contracts p).
Proof.
  intros Hp F w Hw. destruct (on_contracts p w) as [r w'] eqn:Hr. apply on_contracts_inv in Hr as (x & Hx & ->).
  pose proof (Hp (db (contracts w)) (contracts w) eq_refl) as Hk. rewrite Hx in Hk. cbn in Hk.
  unfold frame in *. cbn. by rewrite Hk.
Qed.

Lemma keeps_find d key : keeps (λ d', d' = d) (find_by_idempotency_key (wc_store core) key).
Proof.
  unfold find_by_idempotency_key. apply preserves_bind; [by apply (keeps_select (wc_store core) (λ d', d' = d))|]. intros [[id row]|]; [|apply preserves_ret].
  apply preserves_bind; [apply preserves_lift|]. intros c. destruct (negb _); [apply preserves_raise|].
  destruct (negb _); [apply preserves_raise|]. apply preserves_bind; [|intros _; apply preserves_ret].
  unfold verify_related_state, verify_reservation, verified_audit_rows.
  repeat (apply preserves_bind; intros); first [by apply (keeps_select (wc_store core) (λ d', d' = d))|apply preserves_lift|apply preserves_ret].
Qed.

Lemma keeps_fresh d cap anc digest : keeps (λ d', d' = d) (plan_authorization_is_fresh (wc_discover core) cap anc digest).
Proof.
  unfold plan_authorization_is_fresh, generate_security_posture_plan. apply preserves_catch; [|intros; apply preserves_raise].
  apply preserves_bind; [|intros; apply preserves_lift]. apply preserves_bind; [apply preserves_lift|]. intros t.
  apply preserves_bind; [|intros; apply preserves_ret]. intros x Hx. pose proof (Hdiscover x) as Hd.
  destruct (wc_discover core x) as [r x']. cbn in *. by rewrite Hd.
Qed.

Lemma framed_gates request ap a d s risk cap anc now : framed (authorize_gates core request ap a d s risk cap anc now).
Proof.
  unfold authorize_gates, contract_material.
  repeat first
    [apply framed_bind; [first [apply framed_pure|apply framed_deny|apply framed_outside
       |apply framed_contracts; intros; first [apply keeps_fresh|apply keeps_find]]|intros ?]
    |apply framed_pure|intros F; apply preserves_ret].
Qed.

Lemma frame_of {A} (p : prog (Core E L) A) w r w' : framed p → p w = (r, w') → frame w' = frame w.
Proof. intros Hf Hp. specialize (Hf (frame w) w eq_refl). by rewrite Hp in Hf. Qed.

Lemma sanitised_frame {A} (p : prog (Core E L) A) w r w' :
  framed p → sanitised p w = (r, w') → frame w' = frame w ∧ (∀ e, r = Raise e → e = BoundExecutionError).
Proof.
  intros Hf Hp. destruct r as [x|e].
  - apply sanitised_inv in Hp. split; [by eapply frame_of|done].
  - apply sanitised_raise in Hp as [-> (e' & Hp)]. split; [by eapply frame_of|by intros ? [= <-]].
Qed.

(** Nothing is sent while a contract is made. *)
Lemma create_pending_sends m w r w' : create_pending core m w = (r, w') →
  sends (c_session w') = sends (c_session w) ∧ c_ledger w' = c_ledger w.
Proof.
  set (I := λ w', sends (c_session w') = sends (c_session w) ∧ c_ledger w' = c_ledger w).
  assert (∀ A (p : prog (World E) A), preserves I (on_contracts p)) as Hc.
  { intros A p w1 Hw. destruct (on_contracts p w1) as [r1 w2] eqn:Hp. by apply on_contracts_inv in Hp as (x & _ & ->). }
  assert (∀ A (p : prog E A), preserves I (on_outside p)) as Ho.
  { intros A p w1 Hw. destruct (on_outside p w1) as [r1 w2] eqn:Hp. by apply on_outside_inv in Hp as (x & _ & ->). }
  assert (∀ id role v, preserves I (encrypt_ core id role v)) as He.
  { intros id role v. unfold encrypt_. apply preserves_bind; [|intros; repeat (apply preserves_bind; intros); apply preserves_lift].
    intros w1 Hw. unfold on_counter. by destruct (next _ _). }
  assert (preserves I (create_pending core m)) as Hp.
  { unfold create_pending, create_contract. destruct m as [[[fresh now] ex] p].
    repeat first [apply He|apply preserves_bind; [|intros ?]|case_match|apply Hc|apply Ho|apply preserves_lift
      |apply preserves_ret|apply preserves_get|by intros w1 Hw]. }
  intros Hr. specialize (Hp w (conj eq_refl eq_refl)). by rewrite Hr in Hp.
Qed.

(** [C7] Spent before created.  Whatever [authorize_and_create] returns or
    raises, it sends nothing and raises only [BoundExecutionError]; and
    either the authorization was unused before the call and is used after
    it, or the call raised and the contract store, the counter file and the
    handles are exactly as they were, and no other consumption was
    forgotten. *)
Theorem spent_before_created request ap a d s risk cap anc now w r w' :
  authorize_and_create core request ap a d s risk cap anc now w = (r, w') →
  sends (c_session w') = sends (c_session w) ∧ (∀ e, r = Raise e → e = BoundExecutionError) ∧
  ((¬ consumed (c_ledger w) (pa2_authorization_id (a2_fields a)) ∧
    consumed (c_ledger w') (pa2_authorization_id (a2_fields a))) ∨
   (r = Raise BoundExecutionError ∧ db (contracts w') = db (contracts w) ∧ c_counter w' = c_counter w ∧
    c_pending w' = c_pending w ∧ ∀ x, consumed (c_ledger w) x → consumed (c_ledger w') x)).
Proof.
  unfold authorize_and_create. unfold mbind at 1, prog_bind at 1.
  destruct (sanitised (authorize_gates _ _ _ _ _ _ _ _ _ _) w) as [r1 w1] eqn:Hg.
  apply sanitised_frame in Hg as [Hf He]; [|apply framed_gates]. injection Hf as F1 F2 F3 F4 F5.
  destruct r1 as [m|e]; [|intros [= <- <-]; rewrite (He e) by done; split_and!; [done|by intros ? [= <-]|right; by rewrite F3]].
  unfold mbind at 1, prog_bind at 1.
  destruct (sanitised (on_ledger _) w1) as [[b|e] w2] eqn:Hc.
  - apply sanitised_inv, on_ledger_inv in Hc as (l & Hc & ->). unfold mbind at 1, prog_bind at 1. rewrite F3 in Hc.
    destruct b; cbn [deny_unless raise].
    + intros Hp. assert (sends (c_session w') = sends (c_session w1) ∧ c_ledger w' = l ∧
        (∀ e, r = Raise e → e = BoundExecutionError)) as (S1 & L1 & He').
      { destruct r as [h|e]; [apply sanitised_inv in Hp|apply sanitised_raise in Hp as [-> (e' & Hp)]];
          apply create_pending_sends in Hp as [-> ->]; split_and!; try done. by intros ? [= <-]. }
      apply consume_fresh in Hc. split_and!; [by rewrite S1|done|left; by rewrite L1].
    + intros [= <- <-]. split_and!; [exact F2|by intros ? [= <-]|right]. split_and!; [done|exact F1|exact F4|exact F5|].
      intros x. cbn [c_ledger]. by eapply consume_keeps.
  - intros [= <- <-]. apply sanitised_raise in Hc as [-> (e' & Hc)]. apply on_ledger_inv in Hc as (l & Hc & ->).
    rewrite F3 in Hc. split_and!; [exact F2|by intros ? [= <-]|right]. split_and!; [done|exact F1|exact F4|exact F5|].
    intros x. cbn [c_ledger]. by eapply consume_keeps.
Qed.
End failed.

(** ** Handoff and resumption *)

Section handoff.
Context `{Hash} `{UnicodeData} `{AESGCM} `{Ed25519} {E L Raw Request Change State : Type} `{Store : ConsumptionStore L}.
Context (core : WriteExecutionCoreV1 E Raw Request Change State).
Implicit Types (w : Core E L) (h : AuthorizedWriteExecution).

Lemma load_id (cfg : Config E) id x c x' : load cfg id x = (Ok c, x') → rc_contract_id c = id.
Proof.
  unfold load. intros ([row|] & x1 & _ & Hp)%bind_inv; [|done]. apply bind_inv in Hp as (c' & ? & [_ ->]%lift_inv & Hp).
  destruct (pystr_eqb (rc_contract_id c') id) eqn:Ei; [|done]. apply pystr_eqb_eq in Ei.
  apply bind_inv in Hp as ([] & x2 & _ & Hp). by injection Hp as -> ->.
Qed.

(** What confirming a pending contract checked. *)
Definition confirmed_pending (id : pystr) (pe : PendingExecution) (conf : ConfirmationEvidence) (now : datetime)
    (x : World E) (confirmed : RecoveryContract) (x' : World E) : Prop :=
  ∃ c x1, load (wc_store core) id x = (Ok c, x1) ∧ rc_contract_id c = id ∧ rc_state c = PREPARED ∧ is_confirmed c = false ∧
    has_provenance (rc_authorization_provenance c) (pe_provenance pe) = true ∧
    within (ap_authorization_issued_at (pe_provenance pe)) now (ap_authorization_expires_at (pe_provenance pe)) = true ∧
    within (ce_issued_at conf) now (ce_expires_at conf) = true ∧
    confirm (wc_store core) id conf (rc_state_version c) x1 = (Ok confirmed, x') ∧
    has_provenance (rc_authorization_provenance confirmed) (pe_provenance pe) = true.

Lemma confirm_pending_inv id pe conf now w c w' : confirm_pending core id pe conf now w = (Ok c, w') →
  ∃ x, confirmed_pending id pe conf now (contracts w) c x ∧ w' = with_contracts w x.
Proof.
  unfold confirm_pending. cbv zeta. intros (c0 & ? & (x1 & Hl & ->)%on_contracts_inv & Hp)%bind_inv.
  pose proof (load_id _ _ _ _ _ Hl) as Hid.
  apply bind_inv in Hp as ([] & ? & [Hb ->]%deny_unless_inv & Hp). rewrite !andb_true_iff, negb_true_iff in Hb.
  destruct Hb as [[[[Hs%state_eqb_eq Hc] Hp1] Hw1] Hw2].
  apply bind_inv in Hp as (c1 & ? & (x2 & Hcf & ->)%on_contracts_inv & Hp).
  apply bind_inv in Hp as ([] & ? & [Hp2 ->]%deny_unless_inv & Hp). injection Hp as <- <-.
  exists x2. split; [|done]. exists c0, x1. rewrite Hid in Hcf. by split_and!.
Qed.

Lemma confirm_pending_sends id pe conf now w r w' : confirm_pending core id pe conf now w = (r, w') →
  sends (c_session w') = sends (c_session w) ∧ c_pending w' = c_pending w.
Proof.
  set (I := λ w', sends (c_session w') = sends (c_session w) ∧ c_pending w' = c_pending w).
  assert (∀ A (p : prog (World E) A), preserves I (on_contracts p)) as Hc.
  { intros A p w1 Hw. destruct (on_contracts p w1) as [r1 w2] eqn:Hp. by apply on_contracts_inv in Hp as (x & _ & ->). }
  assert (∀ b, preserves I (deny_unless b)) as Hd by (intros []; [apply preserves_ret|apply preserves_raise]).
  assert (preserves I (confirm_pending core id pe conf now)) as Hp.
  { unfold confirm_pending. cbv zeta. repeat first [apply preserves_bind; [|intros ?]|apply Hc|apply Hd|apply preserves_ret]. }
  intros Hr. specialize (Hp w (conj eq_refl eq_refl)). by rewrite Hr in Hp.
Qed.

(** A handoff either sends nothing or runs the executor once on the
    contract it confirmed. *)
Lemma handoff_cases h conf now ctx w r w' :
  confirm_and_handoff core h conf now ctx w = (r, w') →
  sends (c_session w') = sends (c_session w) ∧ r = Raise BoundExecutionError ∨
  ah_owner_token h = wc_owner_token core ∧
  ∃ pe confirmed x r0, c_pending w !! ah_contract_id h = Some pe ∧
    confirmed_pending (ah_contract_id h) pe conf now (contracts w) confirmed x ∧
    execute (wc_executor core) (rc_contract_id confirmed) (wc_adapter core) (pe_executor_intent pe) ctx
      (mkSession x (sends (c_session w))) = (r0, c_session w') ∧
    c_pending w' = delete (ah_contract_id h) (c_pending w) ∧
    r = match r0 with Ok out => Ok out | Raise _ => Raise BoundExecutionError end.
Proof.
  intros Hp. unfold confirm_and_handoff in Hp.
  destruct ((ah_owner_token h =? wc_owner_token core)%nat && is_utc now) eqn:Hg; [|left; by injection Hp as <- <-].
  apply andb_true_iff in Hg as [Htok%Nat.eqb_eq _]. rewrite (bind_ok _ _ w () w), (bind_ok _ _ w w w) in Hp by done.
  destruct (c_pending w !! ah_contract_id h) as [pe|] eqn:Hpe; [|left; by injection Hp as <- <-].
  destruct (sanitised (confirm_pending core (ah_contract_id h) pe conf now) w) as [[c|e] w1] eqn:Hc.
  2: { rewrite (bind_raise _ _ w e w1 Hc) in Hp. apply sanitised_raise in Hc as [-> (e' & [S1 _]%confirm_pending_sends)].
       left. by injection Hp as <- <-. }
  rewrite (bind_ok _ _ w c w1 Hc) in Hp. apply sanitised_inv in Hc.
  pose proof (confirm_pending_sends _ _ _ _ _ _ _ Hc) as [S1 P1]. apply confirm_pending_inv in Hc as (x & Hc & ->).
  rewrite (bind_ok _ _ _ _ _ (eq_refl : get_world (with_contracts w x) = _)), (bind_ok (set_pending _) _ _ () _ eq_refl) in Hp.
  unfold sanitised, catch, on_session in Hp. cbn [c_session c_ledger c_counter c_pending with_contracts] in Hp.
  destruct (execute _ _ _ _ _ _) as [r0 s0] eqn:Hex in Hp.
  assert (c_session w' = s0 ∧ c_pending w' = delete (ah_contract_id h) (c_pending w) ∧
    r = match r0 with Ok out => Ok out | Raise _ => Raise BoundExecutionError end) as (-> & Hpend & Hr)
    by (destruct r0; by injection Hp as <- <-).
  right. split; [done|]. by exists pe, c, x, r0.
Qed.

Lemma handoff_unknown h conf now ctx w : c_pending w !! ah_contract_id h = None →
  confirm_and_handoff core h conf now ctx w = (Raise BoundExecutionError, w).
Proof.
  intros Hpend. unfold confirm_and_handoff. destruct (_ && _); [|done].
  by rewrite (bind_ok (deny_unless true) _ _ () _ eq_refl), (bind_ok get_world _ _ _ _ eq_refl), Hpend.
Qed.

(** [C9] A handoff is confirmed, current and single.  When
    [confirm_and_handoff] sends anything, the handle was made by this
    instance and still pending; the stored contract was PREPARED,
    unconfirmed and carried the provenance kept for the handle; both the
    authorization and the confirmation were inside their windows; and the
    store had confirmed the contract on that evidence.  The handle is then
    used up: presenting it again raises without touching anything. *)
Theorem handoff_gated h conf now ctx w r w' :
  confirm_and_handoff core h conf now ctx w = (r, w') → sends (c_session w') ≠ sends (c_session w) →
  ah_owner_token h = wc_owner_token core ∧
  (∃ pe confirmed x, c_pending w !! ah_contract_id h = Some pe ∧
     confirmed_pending (ah_contract_id h) pe conf now (contracts w) confirmed x ∧
     ∃ r0, execute (wc_executor core) (rc_contract_id confirmed) (wc_adapter core) (pe_executor_intent pe) ctx
       (mkSession x (sends (c_session w))) = (r0, c_session w')) ∧
  ∀ conf2 now2 ctx2, confirm_and_handoff core h conf2 now2 ctx2 w' = (Raise BoundExecutionError, w').
Proof.
  intros [[? _]|(Htok & pe & c & x & r0 & Hpe & Hc & Hex & Hpend & _)]%handoff_cases Hne; [done|].
  split_and!; [done|by exists pe, c, x; split_and!; [done|done|exists r0]|]. intros conf2 now2 ctx2.
  apply handoff_unknown. by rewrite Hpend, lookup_delete_eq.
Qed.

(** [C30] A resumed execution is the authorized one.  When [resume_prepared]
    returns a handle, the stored contract was PREPARED, inside the window
    of the authorization it carries and not expired; the target prepared
    anew has the execution-intent digest the authorization bound; the
    executor's own check accepts, for that contract, the intent kept for
    the handle; and nothing was consumed, created or sent. *)
Theorem resumed_accepted id request now w h w' :
  capability_laws core → resume_prepared core id request now w = (Ok h, w') →
  ah_contract_id h = id ∧
  ∃ c x p pe fresh, load (wc_store core) id (contracts w) = (Ok c, x) ∧ rc_state c = PREPARED ∧
    rc_authorization_provenance c = Some p ∧
    within (ap_authorization_issued_at p) now (ap_authorization_expires_at p) = true ∧ is_expired c now = Ok false ∧
    fst (wc_prepare core request (env x)) = Ok fresh ∧
    compute_execution_intent_digest (pw_intent fresh) = Ok (ap_execution_intent_digest p) ∧
    pending_for core h w' pe ∧ pe_provenance pe = p ∧ executor_accepts core (pe_executor_intent pe) c ∧
    sends (c_session w') = sends (c_session w) ∧ c_ledger w' = c_ledger w ∧ c_counter w' = c_counter w ∧
    db (contracts w') = db x.
Proof.
  intros Hlaws. unfold resume_prepared. intros ([[c ei] p] & w1 & Hg%sanitised_inv & Hp)%bind_inv.
  unfold resume_gates in Hg. cbv zeta in Hg.
  apply bind_inv in Hg as ([] & ? & [_ ->]%deny_unless_inv & Hg).
  apply bind_inv in Hg as (c0 & ? & (x & Hl & ->)%on_contracts_inv & Hg). pose proof (load_id _ _ _ _ _ Hl) as Hid.
  apply bind_inv in Hg as ([] & ? & [Hs%state_eqb_eq ->]%deny_unless_inv & Hg).
  destruct (rc_authorization_provenance c0) as [p0|] eqn:Hprov; [|done].
  apply bind_inv in Hg as ([] & ? & [Hw ->]%deny_unless_inv & Hg).
  apply bind_inv in Hg as (ex & ? & [Hex ->]%lift_inv & Hg). apply bind_inv in Hg as ([] & ? & [Hnex ->]%deny_unless_inv & Hg).
  apply negb_true_iff in Hnex as ->.
  apply bind_inv in Hg as (fresh & ? & (e2 & Hpr & ->)%on_outside_inv & Hg).
  apply bind_inv in Hg as ([] & ? & [Hb ->]%deny_unless_inv & Hg). rewrite !andb_true_iff, !pystr_eqb_eq, capability_eqb_eq in Hb.
  destruct Hb as [[[Hb1 Hb2] Hb3] _].
  apply bind_inv in Hg as (dg & ? & [Hdg ->]%lift_inv & Hg).
  apply bind_inv in Hg as ([] & ? & [Hcd%pystr_eqb_eq ->]%deny_unless_inv & Hg). subst dg.
  apply bind_inv in Hg as ([] & ? & [_ ->]%deny_unless_inv & Hg).
  apply bind_inv in Hg as (ei0 & ? & [Hei ->]%lift_inv & Hg). apply bind_inv in Hg as (b & ? & [Hsame ->]%lift_inv & Hg).
  apply bind_inv in Hg as ([] & ? & [-> ->]%deny_unless_inv & Hg). injection Hg as <- <- <- <-.
  apply bind_inv in Hp as (w4 & ? & [= <- <-] & Hp). apply bind_inv in Hp as ([] & ? & [= <-] & Hp). injection Hp as <- <-.
  split; [exact Hid|].
  exists c0, x, p0, {| pe_contract_id := rc_contract_id c0; pe_executor_intent := ei0; pe_provenance := p0 |}, fresh.
  split_and!; try done; [exact (f_equal fst Hpr)|by split_and!; [|apply lookup_insert_eq|]|].
  eapply accepted; [exact Hlaws|exact Hpr|exact Hei|]. apply same_digests_inv; [exact Hsame|by symmetry..].
Qed.
End handoff.
