(* ===== verification/AliasCore.v ===== *)
(** * The alias description execution core

    [tier1/alias_description_execution.py]: the generic core of
    [WriteCore.v] with the literals of the alias description capability, and
    the proof that the capability keeps the promise the core relies on. *)

From S2P Require Import Prelude PyStr Sha256 PyDatetime Json Capability StateMachine Canonical PyJson Literals.
From S2P Require Import Contract Evidence Plan SealedApproval Authorization Consumption Crypto StoreCodec Database RatePolicy.
From S2P Require Import AntiRollback Store StoreInv KeyLifecycle PreparedIntent WriteApi Executor.
From S2P Require Import AliasDescription AliasProps WriteCore WriteCoreProps.

Section alias_core.
Context `{Hash} `{UnicodeData} `{AESGCM} `{Ed25519} `{AliasModel} {E L : Type} `{Store : ConsumptionStore L}.
Context (read_client : AliasDescriptionReadClient E) (configured_target : ConfiguredApplianceTargetV1).

(** The preparer, as the core calls it. *)
Definition prepare_alias (request : AliasDescriptionChangeV1) : prog E (PreparedWriteExecutionV1 AliasStateV1) :=
  p ← prepare read_client configured_target request;
  mret {| pw_intent := pa_intent p; pw_authoritative_a := pa_authoritative_a p;
          pw_appliance_target_digest := pa_appliance_target_digest p |}.

(** [AliasDescriptionExecutionCoreV1] *)
Definition AliasDescriptionExecutionCoreV1 (authorities : list PinnedAuthority) (contract_store : Config E)
    (executor : MutationExecutor E RawTarget AliasDescriptionPatchV1) (encryption_key : KeyRecord)
    (contract_validity : Z) (owner_token : nat) (uuid4_hex : prog E pystr)
    (discover : prog (World E) SecurityPostureDiscovery)
    : WriteExecutionCoreV1 E RawTarget AliasDescriptionPatchV1 AliasDescriptionChangeV1 AliasStateV1 := {|
  wc_contract_id_prefix := u "aliasdescr";
  wc_raw_target := raw_target_items;
  wc_numeric_locator := as_numeric_locator;
  wc_prepare := prepare_alias;
  wc_adapter := AliasDescriptionAdapterV1 read_client;
  wc_authorities := authorities;
  wc_store := contract_store;
  wc_executor := executor;
  wc_encryption_key := encryption_key;
  wc_security_class := HIGH_ASSURANCE_TIER1;
  wc_contract_validity := contract_validity;
  wc_owner_token := owner_token;
  wc_uuid4_hex := uuid4_hex;
  wc_discover := discover |}.

(** ** The methods *)

Section methods.
Context (authorities : list PinnedAuthority) (contract_store : Config E)
  (executor : MutationExecutor E RawTarget AliasDescriptionPatchV1) (encryption_key : KeyRecord)
  (contract_validity : Z) (owner_token : nat) (uuid4_hex : prog E pystr)
  (discover : prog (World E) SecurityPostureDiscovery).
Let self := AliasDescriptionExecutionCoreV1 authorities contract_store executor encryption_key contract_validity
  owner_token uuid4_hex discover.

Definition alias_authorize_and_create (request : AliasDescriptionChangeV1)
    (authorized_preparation : PreparedWriteExecutionV1 AliasStateV1) (authorization : PlanAuthorizationV2)
    (requested_plan_digest requested_step_id : pystr) (required_risk_class : AuthorizationLevel)
    (capability : CapabilityPosture) (anchor : AnchorAssurance) (now : datetime)
    : prog (Core E L) AuthorizedWriteExecution :=
  authorize_and_create self request authorized_preparation authorization requested_plan_digest requested_step_id
    required_risk_class capability anchor now.

Definition alias_confirm_and_handoff (handle : AuthorizedWriteExecution) (confirmation : ConfirmationEvidence)
    (now : datetime) (acceptance_context : option AcceptanceExecutionContext) : prog (Core E L) ExecutionOutcome :=
  confirm_and_handoff self handle confirmation now acceptance_context.

Definition alias_resume_prepared (contract_id : pystr) (request : AliasDescriptionChangeV1) (now : datetime)
    : prog (Core E L) AuthorizedWriteExecution :=
  resume_prepared self contract_id request now.

Definition alias_derive_idempotency (prepared : PreparedWriteExecutionV1 AliasStateV1) : result IdempotencyDerivation :=
  derive_idempotency self prepared.

Definition alias_create_contract (material : Material) : prog (Core E L) (RecoveryContract * list (pyobj * pyobj)) :=
  create_contract self material.
End methods.

(** ** The target hint is read back as the target *)

Lemma denote_str_scalar d s x : nfc s = s → denote d (PStr s) = Some x → forallb is_scalar s = true.
Proof.
  intros Hs Hd. cbn [denote] in Hd. case_match; [done|]. apply fmap_Some in Hd as (t & Ht & _).
  pose proof (ok_string_scalar _ _ Ht) as Hsc. apply ok_string_nfc in Ht as ->. by rewrite Hs in Hsc.
Qed.

Lemma denote_strs_scalar d l x : Forall (λ s, nfc s = s) l → denote d (PList (map PStr l)) = Some x →
  forallb (forallb is_scalar) l = true.
Proof.
  intros Hl (xs & _ & Hxs)%denote_plist. revert xs Hxs. induction Hl as [|s l Hs _ IH]; intros xs Hxs; [done|].
  cbn [map] in Hxs. rewrite mapM_cons in Hxs. apply bind_Some in Hxs as (y & Hy & (k & Hk & _)%bind_Some).
  cbn [forallb]. by rewrite (denote_str_scalar _ _ _ Hs Hy), (IH _ Hk).
Qed.

(** What pydantic refuses, the canonical form refused before it. *)
Lemma fingerprint_scalars s b f : state_ok s → validated_frozen (state_fingerprint s) b = Ok f →
  forallb (forallb is_scalar) (as_name s :: as_alias_type s :: as_descr s :: as_address s ++ as_detail s) = true.
Proof.
  intros [Hn Ht Hl _ N1 N2 N3 N4] (j & [Hd _]%validate_denote & _)%validated_frozen_inv.
  apply denote_pdict_entries in Hd as (es & -> & He); [|reflexivity]. literal_entries. cbn [forallb].
  pose proof (nfc_ascii _ (alias_type_ascii _ Ht)) as N5. rewrite forallb_app.
  repeat match goal with
  | Hd : denote _ (PStr ?s) = Some _, N : nfc ?s = ?s |- _ => rewrite (denote_str_scalar _ _ _ N Hd); clear Hd
  | Hd : denote _ (PList (map _ ?l)) = Some _, N : Forall _ ?l |- _ =>
    pose proof (denote_strs_scalar _ _ _ N Hd); clear Hd
  end.
  by rewrite !andb_true_iff.
Qed.

Lemma hint_state s : state_ok s →
  forallb (forallb is_scalar) (as_name s :: as_alias_type s :: as_descr s :: as_address s ++ as_detail s) = true →
  state_ (RawValue (pdict (raw_target_items s))) = Ok s.
Proof.
  intros Hs Hsc. unfold state_. change (py_dict (pdict (raw_target_items s))) with
    (Some (map (λ kv, (PStr (u (fst kv)), snd kv)) (raw_target_items s))). cbn [of_option mbind result_bind].
  match goal with |- context [keys_are ?k ?d] => change (keys_are k d) with true end. cbn [require mbind result_bind].
  rewrite (model_validate_fields s) by done. cbn [of_option mbind result_bind]. by apply from_model_ok.
Qed.

(** What [prepare] makes is read back: the laws the core relies on. *)
Lemma alias_capability_laws authorities store executor key validity token uuid discover :
  of_hint executor = RawValue →
  capability_laws (AliasDescriptionExecutionCoreV1 authorities store executor key validity token uuid discover).
Proof.
  intros Hhint request e fresh e' (p & e1 & (_ & Hs & _ & _ & _ & Hi)%prepare_inv & [= <- <-])%bind_inv. cbv zeta in Hi.
  cbn [pw_intent wc_adapter AliasDescriptionExecutionCoreV1 AliasDescriptionAdapterV1 ad_capability ad_endpoint_symbol
       ad_http_method natural_identity fingerprint]. unfold hint_of. cbn [wc_executor wc_raw_target pw_authoritative_a AliasDescriptionExecutionCoreV1].
  rewrite Hhint. unfold PreparedExecutionIntentV1_new in Hi. rewrite !require_bind in Hi.
  destruct Hi as (_ & _ & _ & _ & (a & Ha & (b & Hb & (c & Hc & (f & Hf & [= <-])%bind_Ok)%bind_Ok)%bind_Ok)%bind_Ok).
  rewrite (hint_state _ Hs) by by eapply fingerprint_scalars. cbn [mbind result_bind].
  split_and!; [done..|]. eexists _, _. split_and!; [done|done|intros; symmetry; by eapply digest_value_frozen..].
Qed.
End alias_core.
