(* ===== verification/EndToEnd.v ===== *)
(** * From a signed intent to the request on the wire

    The core, the stores, the cipher and the executor composed: what a
    confirmed handoff sends is built from the very intent whose digest the
    owner signed. *)

From S2P Require Import Prelude PyStr Sha256 PyDatetime Json Capability StateMachine Canonical PyJson JsonTorn.
From S2P Require Import Contract Evidence Plan SealedApproval Authorization AuthorizationProps StoreCodec Database.
From S2P Require Import RatePolicy AntiRollback Store StoreInv StoreOps StoreProps StoreGate StoreResolve.
From S2P Require Import Consumption Coordinator Crypto KeyLifecycle WriteApi Executor ExecutorInv ExecutorProps.
From S2P Require Import PreparedIntent WriteCore WriteCoreProps AliasDescription AliasProps AliasCore.

(** ** Reading back an encrypted object *)

Lemma utf8_decode_weaken (ok ok' : N → bool) : (∀ c, ok c = true → ok' c = true) →
  ∀ b s, utf8_decode_with ok b = Some s → utf8_decode_with ok' b = Some s.
Proof.
  intros Hok b. induction b as [b IH] using (induction_ltof1 _ length). intros s. unfold ltof in IH.
  destruct b as [|b l1]; [done|]. cbn [utf8_decode_with].
  assert (∀ l c s, (length l < length (b :: l1))%nat → (c ::.) <$> utf8_decode_with ok l = Some s →
    (c ::.) <$> utf8_decode_with ok' l = Some s) as Hgo.
  { intros l c t Hl (r & Hr & ->)%fmap_Some. by rewrite (IH l Hl r Hr). }
  destruct (_ <? 0x80)%N; [apply Hgo; cbn; lia|]. destruct (_ <? 0xC0)%N; [done|]. destruct (_ <? 0xE0)%N.
  { destruct l1 as [|b1 l2]; [done|]. destruct (_ && _); [apply Hgo; cbn; lia|done]. }
  destruct (_ <? 0xF0)%N.
  - destruct l1 as [|b1 [|b2 l3]]; [done..|]. destruct (_ && ok _) eqn:Hc; [|done].
    apply andb_true_iff in Hc as [-> ->%Hok]. apply Hgo. cbn. lia.
  - destruct l1 as [|b1 [|b2 [|b3 l4]]]; [done..|]. destruct (_ && ok _) eqn:Hc; [|done].
    apply andb_true_iff in Hc as [-> ->%Hok]. apply Hgo. cbn. lia.
Qed.

Section opened.
Context `{Hash} `{UnicodeData}.

Lemma loads_bytes_object l b : utf8_encode (dumps false [] (JObj l)) = Ok b → decode_bytes b = Some (dumps false [] (JObj l)).
Proof.
  intros Hb. pose proof (utf8_decode_encode _ _ Hb) as Hd. destruct (dumps_object false l) as (y & t & Ht & Hy). rewrite Ht in *.
  unfold utf8_encode in Hb. destruct (forallb is_scalar _); [|done]. injection Hb as Hb.
  assert (b = utf8_char 123 ++ utf8_char y ++ flat_map utf8_char t) as -> by (by rewrite <-Hb).
  unfold decode_bytes. rewrite detect_object by done.
  eapply utf8_decode_weaken; [|exact Hd]. intros c Hc. by apply N.ltb_lt, is_scalar_lt.
Qed.

(** An object [__init__] froze is its own canonical form. *)
Lemma frozen_canonical f : frozen f → validate_canonical_value (py_of_json (thaw f)) = Ok (thaw f).
Proof.
  intros (v & j & Hj & ->). rewrite thaw_freeze. apply validate_denote in Hj as [Hd Hn].
  pose proof (denote_canonical _ _ _ Hd) as (_ & Hf & Hc). destruct (denote_sorted _ _ Hf) as [Hs Hc'].
  apply validate_denote. split; [done|]. by rewrite Hc', Hc.
Qed.

(** What was encrypted for a contract, in a role. *)
Definition seals (key : KeyRecord) (c : RecoveryContract) (role : ArtifactRole) (v : pyobj) (a : ProtectedArtifact)
    `{AESGCM} : Prop :=
  ∃ plaintext nonce, canonical_json v = Ok plaintext ∧
    encrypt_artifact (material key) (key_id key) (rc_contract_id c) role plaintext nonce = Ok a.

Lemma intent_object i : prepared_intent i → ∃ l, thaw (pi_normalized_mutation_intent_ i) = JObj l.
Proof.
  intros (sv & cap & es & m & av & rt & tp & nmi & rs & rv & Hi). unfold PreparedExecutionIntentV1_new in Hi.
  rewrite !require_bind in Hi. destruct Hi as (_ & _ & _ & _ & Hi).
  apply bind_Ok in Hi as (a & _ & (b & _ & (c & [_ Ho]%validated_frozen_form & (d & _ & [= <-])%bind_Ok)%bind_Ok)%bind_Ok).
  destruct (Ho eq_refl) as [items Hitems]. cbn [pi_normalized_mutation_intent_]. destruct (thaw c); try done. by eexists.
Qed.

Lemma sealed_opened `{AESGCM} {E Raw Request} (x : MutationExecutor E Raw Request) key c role f l a :
  material key = x_encryption_key x → frozen f → thaw f = JObj l →
  seals key c role (py_of_json (thaw f)) a → decrypt x c a role = Ok (py_of_json (thaw f)).
Proof.
  intros Hk Hf Hl (b & n & Hb & Ha). pose proof (frozen_canonical _ Hf) as Hv.
  pose proof (decrypt_encrypted _ _ _ _ _ _ _ (rc_contract_id c) role Ha) as Hdec.
  apply encrypt_artifact_Ok in Ha as (_ & Hn & ad & Had & ->). rewrite Had in Hdec. cbn [pa_ciphertext mbind result_bind] in Hdec.
  rewrite drop_app_length' in Hdec by done. rewrite aead_decrypt_encrypt in Hdec. unfold decrypt. rewrite <-Hk, Hdec.
  cbn [of_option mbind result_bind]. destruct (canonical_read _ _ Hb) as (j & t & (w & Hw & ->) & Ht & Hj).
  assert (w = thaw f) as -> by congruence.
  apply canonical_json_text in Hb as (w & Hw' & Henc). assert (w = thaw f) as -> by congruence.
  assert (sort_keys (thaw f) = thaw f) as Hsort.
  { destruct Hf as (v & j & _ & ->). by rewrite thaw_freeze, sort_keys_idem. }
  unfold loads_bytes. rewrite Hl in Henc. rewrite (loads_bytes_object _ _ Henc).
  apply utf8_decode_encode in Henc. assert (t = dumps false [] (JObj l)) as -> by congruence.
  cbn [of_option mbind result_bind]. rewrite Hj. cbn [of_option mbind result_bind]. by rewrite Hsort, Hv.
Qed.
End opened.

(** ** The chain *)

Section chain.
Context `{Hash} `{UnicodeData} `{AESGCM} `{Ed25519} {E L Raw Request Change State : Type} `{Store : ConsumptionStore L}.
Context (core : WriteExecutionCoreV1 E Raw Request Change State).
Implicit Types (w : Core E L) (a : PlanAuthorizationV2) (fresh : PreparedWriteExecutionV1 State).

(** One process, one store: no other writer, a clock that shows instants,
    a discovery that only reads, an executor over the same store with the
    same encryption key, and a preparer whose intents were validated. *)
Record wired : Prop := {
  wd_quiet : quiet (wc_store core);
  wd_clock : clock_valid (wc_store core);
  wd_discover : ∀ x, db (snd (wc_discover core x)) = db x;
  wd_store : x_store (wc_executor core) = wc_store core;
  wd_key : x_encryption_key (wc_executor core) = material (wc_encryption_key core);
  wd_prepare : ∀ request e fresh e', wc_prepare core request e = (Ok fresh, e') → prepared_intent (pw_intent fresh);
}.
Context (Hw : wired).

Notation store := (wc_store core).

Lemma encrypt_seals (c : RecoveryContract) role v w b w' :
  encrypt_ (L:=L) core (rc_contract_id c) role v w = (Ok b, w') → seals (wc_encryption_key core) c role v b.
Proof.
  unfold encrypt_. intros (n & w1 & _ & Hp)%bind_inv. apply bind_inv in Hp as (nonce & ? & [_ ->]%lift_inv & Hp).
  apply bind_inv in Hp as (t & ? & [Ht ->]%lift_inv & [Ha ->]%lift_inv). by exists t, nonce.
Qed.

Lemma create_contract_sealed fresh now ex p w c ei w' :
  create_contract (L:=L) core (fresh, now, ex, p) w = (Ok (c, ei), w') →
  seals (wc_encryption_key core) c ROLE_INTENT (normalized_mutation_intent (pw_intent fresh)) (rc_protected_intent c).
Proof.
  unfold create_contract. cbv zeta. intros (h1 & ? & (e1 & _ & ->)%on_outside_inv & Hc)%bind_inv.
  apply bind_inv in Hc as (h2 & ? & (e2 & _ & ->)%on_outside_inv & Hc).
  apply bind_inv in Hc as (derived & ? & [Hd ->]%lift_inv & Hc).
  apply bind_inv in Hc as (a1 & w1 & _ & Hc). apply bind_inv in Hc as (a2 & w2 & A2 & Hc).
  apply bind_inv in Hc as (a3 & w3 & _ & Hc).
  apply bind_inv in Hc as (c' & ? & [[-> Hf]%RecoveryContract_new_Ok ->]%lift_inv & Hc). injection Hc as <- <- <-.
  by eapply encrypt_seals.
Qed.

(** What is stored for a handle that was returned. *)
Lemma create_pending_sealed fresh now ex p w m0 h w' :
  rep store (db (contracts w)) m0 → dt_valid now = true → dt_valid ex = true → wf_provenance p →
  create_pending core (fresh, now, ex, p) w = (Ok h, w') →
  ∃ derived m r, derive_idempotency core fresh = Ok derived ∧ rep store (db (contracts w')) m ∧
    m !! ah_contract_id h = Some r ∧ rc_state r = PREPARED ∧ made_of core fresh now ex p derived r ∧
    seals (wc_encryption_key core) r ROLE_INTENT (normalized_mutation_intent (pw_intent fresh)) (rc_protected_intent r).
Proof.
  destruct Hw as [Hq Hclock _ _ _ _]. intros Hr Hn He Hp Hc. unfold create_pending in Hc.
  apply bind_inv in Hc as ([c ei] & w1 & Hmk & Hc). pose proof (create_contract_sealed _ _ _ _ _ _ _ _ Hmk) as Hseal.
  apply create_contract_inv in Hmk as (derived & Hd & -> & Hm & Hwf & R1); [|done..]. injection R1 as R1 _ _ _.
  apply bind_inv in Hc as ([] & ? & (x2 & Hcr & ->)%on_contracts_inv & Hc).
  apply bind_inv in Hc as (r & ? & (x3 & Htr & ->)%on_contracts_inv & Hc). cbn [contracts c_session world with_contracts] in Htr.
  rewrite <-R1 in Hr. pose proof (quiet_others_behave store Hq) as Ho.
  destruct (holds_create_authorized store Hclock Ho m0 c Hwf _ Hr) as (m1 & Hr1 & _ & Hq1).
  rewrite Hcr in Hr1, Hq1. specialize (Hq1 () eq_refl). cbn beta in Hq1.
  pose proof (transition_ok _ _ _ _ _ _ _ _ _ _ _ Hclock Hq Hr1 Htr)
    as (cur & ? & ? & Hl & _ & _ & _ & _ & _ & _ & _ & _ & Hsuc & Hst & _ & Hr2).
  apply (transition_sealed _ m1) in Htr as (cur' & Hl' & (_ & Hs & _)); [|done..].
  assert (cur = c) as -> by congruence. assert (cur' = c) as -> by congruence.
  apply bind_inv in Hc as (w4 & ? & [= <- <-] & Hc). apply bind_inv in Hc as ([] & ? & [= <-] & Hc). injection Hc as <- <-.
  destruct (identity_fields _ _ (proj1 Hsuc)) as [Hid _]. exists derived, (<[rc_contract_id c := r]> m1), r.
  cbn [ah_contract_id]. rewrite <-Hid, lookup_insert_eq. split_and!; [done|exact Hr2|done|exact Hst| |].
  - by eapply made_of_identity; [|apply Hsuc].
  - rewrite Hs. unfold seals in *. by rewrite <-Hid.
Qed.

(** What a handoff over tables that hold [m] sends passed every gate of the
    executor, for a contract that is the stored one up to its state. *)
Lemma handoff_through_gates h conf now ctx m w out w' :
  rep store (db (contracts w)) m → confirm_and_handoff core h conf now ctx w = (out, w') →
  ∃ l, sends (c_session w') = sends (c_session w) ++ l ∧ (length l ≤ 1)%nat ∧
    ∀ y, y ∈ l → ∃ r cur ex d intent ti, m !! ah_contract_id h = Some r ∧ identity_of r = identity_of ex ∧
      identity_of cur = identity_of ex ∧ rc_protected_intent ex = rc_protected_intent r ∧
      execute_gates (wc_executor core) (wc_adapter core) cur intent ti ∧
      forward_request (wc_executor core) (wc_adapter core) d ex ti ctx y.
Proof.
  destruct Hw as [Hq Hclock _ Hst _ _]. intros Hr Hp.
  destruct (handoff_cases _ _ _ _ _ _ _ _ Hp) as [[-> _]|(_ & pe & confirmed & x & r0 & _ & Hc & Hx & _)].
  { exists []. rewrite app_nil_r. split_and!; [done|cbn; lia|]. intros y Hy. by apply elem_of_nil in Hy. }
  destruct Hc as (r & x1 & Hl & Hid & _ & _ & _ & _ & _ & Hcf & _).
  apply (load_ok _ m) in Hl as [-> Hmc]; [|done..].
  destruct (confirm_inv _ m _ _ _ _ _ _ Hclock Hq Hr Hcf)
    as (cur & verify & d & w1 & Hm' & _ & _ & _ & _ & _ & _ & _ & _ & _ & Hwc & Hr').
  assert (cur = r) as -> by congruence. pose proof (with_confirmation_sealed _ _ _ _ _ Hwc) as (_ & Hs & _).
  apply with_confirmation_inv in Hwc as (_ & _ & _ & _ & dg & _ & Hcd & _).
  assert (identity_of r = identity_of confirmed) as Hident by (by rewrite Hcd).
  set (m2 := <[ah_contract_id h := confirmed]> m) in *.
  pose proof (wp_elim _ _ _ _ _ (wp_execute (wc_executor core) (wc_adapter core) (eq_rect_r clock_valid Hclock Hst)
    (eq_rect_r quiet Hq Hst) m2 _ (pe_executor_intent pe) ctx (mkSession x (sends (c_session w)))
    (eq_rect_r (λ s, rep s _ _) Hr' Hst)) Hx)
    as [(Hs1 & _)|[(Hs1 & _)|(cur & ex & dd & ti & Hm2 & Hg & _ & Hsuc & (_ & Hsame & _) & _ & _ & l & m' & Hll & _ & _ & Hlen & HK & _)]].
  1, 2: exists []; rewrite app_nil_r; split_and!; [exact Hs1|cbn; lia|]; intros y Hy; by apply elem_of_nil in Hy.
  destruct (identity_fields _ _ Hident) as [Hid1 _]. rewrite <-Hid1, Hid in Hm2. subst m2. rewrite lookup_insert_eq in Hm2.
  injection Hm2 as <-. exists l. split_and!; [exact Hll|done|]. intros y Hy. rewrite Forall_forall in HK.
  exists r, confirmed, ex, dd, (pe_executor_intent pe), ti.
  split_and!; [done|exact (eq_trans Hident (proj1 Hsuc))|apply Hsuc|by rewrite Hsame|exact Hg|by apply HK].
Qed.

(** And was built from the intent that was sealed for it. *)
Lemma handoff_sends h conf now ctx m r w out w' i :
  rep store (db (contracts w)) m → m !! ah_contract_id h = Some r → prepared_intent i →
  seals (wc_encryption_key core) r ROLE_INTENT (normalized_mutation_intent i) (rc_protected_intent r) →
  confirm_and_handoff core h conf now ctx w = (out, w') →
  ∃ l, sends (c_session w') = sends (c_session w) ++ l ∧ (length l ≤ 1)%nat ∧
    ∀ y, y ∈ l → sent_method y = rc_http_method r ∧
      (∃ ep, (rc_endpoint_symbol r, ep) ∈ WriteEndpoints ∧ verified ep = is_none ctx ∧
         sent_path y = request_path (x_write_client (wc_executor core)) ep) ∧
      ∃ tt req body, numeric_locator tt = rc_lifecycle_locator r ∧
        build_request (wc_adapter core) (normalized_mutation_intent i) tt = Ok (Some req) ∧
        model_dump_json (wc_executor core) req = Ok body ∧ sent_body y = Some body.
Proof.
  intros Hr Hm Hi Hseal Hp. destruct (handoff_through_gates _ _ _ _ _ _ _ _ Hr Hp) as (l & Hl & Hlen & Hy).
  exists l. split_and!; [done|done|]. intros y Hin.
  destruct (Hy y Hin) as (r' & cur & ex & dd & intent & ti & Hm' & Hex & _ & Hart & _ & Hreq).
  assert (r' = r) as -> by congruence.
  assert (decrypt (wc_executor core) ex (rc_protected_intent ex) ROLE_INTENT = Ok (normalized_mutation_intent i)) as Hdec.
  { destruct (intent_object i Hi) as [items Hobj].
    eapply sealed_opened; [symmetry; apply Hw|apply intent_facts_of, Hi|exact Hobj|].
    rewrite Hart. unfold seals in *. by rewrite <-(proj1 (identity_fields _ _ Hex)). }
  destruct Hreq as (_ & (ep & Hep & _ & Hver & Hmeth & Hpath) & pre & tt & plain & req & body & ((_ & Hres) & _ & Hplain) & Hb & Hj & Hbody).
  assert (plain = normalized_mutation_intent i) as -> by congruence.
  destruct (identity_fields _ _ Hex) as (_ & _ & _ & _ & ->). unfold identity_of in Hex. injection Hex as _ _ _ _ _ -> -> _ _ _ _ _ _ _ _ _.
  rewrite negb_involutive in Hver.
  split_and!; [done|by exists ep|]. exists tt, req, body. split_and!; try done. by eapply resolve_locator.
Qed.

(** Time passes outside the process: the tables and the handles stay. *)
Definition waits w w' : Prop :=
  db (contracts w') = db (contracts w) ∧ c_pending w' = c_pending w.

(** What is stored for a handle that [authorize_and_create] returned. *)
Lemma creation_sealed request ap a d s risk cap anc now w h w1 :
  reachable store (contracts w) → dt_valid now = true → v2_ok (a2_fields a) →
  authorize_and_create core request ap a d s risk cap anc now w = (Ok h, w1) →
  ∃ fresh digest e e' ex p derived m r, wc_prepare core request e = (Ok fresh, e') ∧
    compute_execution_intent_digest (pw_intent fresh) = Ok digest ∧
    compute_execution_intent_digest (pw_intent ap) = Ok digest ∧
    {| sb_step_id := s; sb_execution_intent_digest := digest |} ∈ pa2_authorized_executions (a2_fields a) ∧
    wc_numeric_locator core (pw_authoritative_a fresh) = wc_numeric_locator core (pw_authoritative_a ap) ∧
    rep store (db (contracts w1)) m ∧ m !! ah_contract_id h = Some r ∧ rc_state r = PREPARED ∧
    made_of core fresh now ex p derived r ∧
    seals (wc_encryption_key core) r ROLE_INTENT (normalized_mutation_intent (pw_intent fresh)) (rc_protected_intent r).
Proof.
  destruct Hw as [Hq Hclock Hdisc _ _ Hprep]. intros Hreach Hnow (_ & _ & V1 & V2) Hcreate.
  apply creation_inv in Hcreate as (mat & wg & lg & Hg & Hc & Hp).
  destruct Hg as (fresh & digest & ex & x1 & e2 & x3 & derived & Hg). cbv zeta in Hg.
  destruct Hg as (-> & _ & _ & _ & _ & Hap & Hauth & _ & Hf & Hpr & Hfd & Hloc & _ & Hfind & Hex & _ & Hprov & -> & ->).
  apply plan_fresh_true in Hf as (posture & plan & Hdis & _). pose proof (Hdisc (contracts w)) as Hdb1. rewrite Hdis in Hdb1.
  pose proof (quiet_others_behave store Hq) as Ho. destruct (reachable_rep store Hclock Ho _ Hreach) as [m0 Hr].
  cbn [snd] in Hdb1. rewrite <-Hdb1 in Hr.
  destruct (holds_find core Ho m0 (id_idempotency_key derived) (mkWorld (db x1) e2) Hr) as (m1 & Hr1 & _). rewrite Hfind in Hr1.
  destruct (contract_expiry_ok core _ _ _ Hex Hnow V2) as [Vex _].
  apply (create_pending_sealed _ _ _ _ _ m1) in Hp as (derived' & m & r & _ & Hrep & Hm & Hst & Hmade & Hseal);
    [|exact Hr1|done|done|by split].
  unfold plan_authorization_v2_authorizes_execution in Hauth. apply bind_Ok in Hauth as (b & _ & Hauth). destruct b; [|done].
  apply any_binding_true in Hauth. by exists fresh, digest, (env x1), e2, ex, (provenance_of a (pa2_plan_digest (a2_fields a)) s digest (pw_appliance_target_digest fresh)), derived', m, r.
Qed.

(** [y] is the request intent [i] asks for at a locator: its method, its
    endpoint, and a body the adapter builds from its mutation intent. *)
Definition carries_out (i : PreparedExecutionIntentV1) (locator : Z) (y : Send) : Prop :=
  sent_method y = pi_http_method i ∧
  (∃ ep, (pi_endpoint_symbol i, ep) ∈ WriteEndpoints ∧
     sent_path y = request_path (x_write_client (wc_executor core)) ep) ∧
  ∃ tt req body, numeric_locator tt = locator ∧
    build_request (wc_adapter core) (normalized_mutation_intent i) tt = Ok (Some req) ∧
    model_dump_json (wc_executor core) req = Ok body ∧ sent_body y = Some body.

(** Two intents whose preimages under the execution-intent digest are a
    collision of SHA-256. *)
Definition intents_collide (i i' : PreparedExecutionIntentV1) : Prop :=
  digest_collides EXECUTION_INTENT (pdict (prepared_execution_intent_payload_of i)) DIGEST_CONTEXT
    EXECUTION_INTENT (pdict (prepared_execution_intent_payload_of i')) DIGEST_CONTEXT.

(** Every intent with the digest of the one carried out is carried out. *)
Lemma digest_carried_out i i' d locator y :
  prepared_intent i → prepared_intent i' →
  compute_execution_intent_digest i = Ok d → compute_execution_intent_digest i' = Ok d →
  carries_out i' locator y → carries_out i locator y ∨ intents_collide i i'.
Proof.
  intros Hi Hi' Hd Hd' Hc. destruct (execution_intent_digest_names _ _ _ Hi Hi' Hd Hd') as [Heq|Hcol]; [left|by right].
  destruct Heq as (_ & Eep & Em & _ & _ & _ & _ & En & _). unfold carries_out in *. by rewrite Eep, Em, En.
Qed.

(** An authorization, and later the handoff of what it created. *)
Lemma created_then_sent request ap a d s risk cap anc now w h w1 conf now2 ctx w2 out w3 :
  reachable store (contracts w) → dt_valid now = true → v2_ok (a2_fields a) →
  authorize_and_create core request ap a d s risk cap anc now w = (Ok h, w1) → waits w1 w2 →
  confirm_and_handoff core h conf now2 ctx w2 = (out, w3) →
  ∃ fresh digest e e' l, wc_prepare core request e = (Ok fresh, e') ∧ prepared_intent (pw_intent fresh) ∧
    compute_execution_intent_digest (pw_intent fresh) = Ok digest ∧
    compute_execution_intent_digest (pw_intent ap) = Ok digest ∧
    {| sb_step_id := s; sb_execution_intent_digest := digest |} ∈ pa2_authorized_executions (a2_fields a) ∧
    sends (c_session w3) = sends (c_session w2) ++ l ∧ (length l ≤ 1)%nat ∧
    ∀ y, y ∈ l → sent_method y = pi_http_method (pw_intent fresh) ∧
      (∃ ep, (pi_endpoint_symbol (pw_intent fresh), ep) ∈ WriteEndpoints ∧ verified ep = is_none ctx ∧
         sent_path y = request_path (x_write_client (wc_executor core)) ep) ∧
      ∃ tt req body, numeric_locator tt = wc_numeric_locator core (pw_authoritative_a ap) ∧
        build_request (wc_adapter core) (normalized_mutation_intent (pw_intent fresh)) tt = Ok (Some req) ∧
        model_dump_json (wc_executor core) req = Ok body ∧ sent_body y = Some body.
Proof.
  intros Hreach Hnow Ha Hcreate [Hdb Hpend] Hoff.
  destruct (creation_sealed _ _ _ _ _ _ _ _ _ _ _ _ Hreach Hnow Ha Hcreate)
    as (fresh & digest & e & e' & ex & p & derived & m & r & Hpr & Hfd & Hap & Hauth & Hloc & Hrep & Hm & _ & Hmade & Hseal).
  rewrite <-Hdb in Hrep. pose proof (wd_prepare Hw _ _ _ _ Hpr) as Hi.
  destruct (handoff_sends _ _ _ _ _ _ _ _ _ _ Hrep Hm Hi Hseal Hoff) as (l & Hl & Hlen & Hy).
  unfold made_of, identity_of in Hmade. cbv zeta in Hmade. injection Hmade as _ _ _ Eep Emeth _ _ Eloc _ _ _ _ _ _.
  exists fresh, digest, e, e', l. split_and!; try done. intros y Hin. specialize (Hy y Hin).
  by rewrite Eep, Emeth, Eloc, Hloc in Hy.
Qed.

(** Whatever intent the owner signed the digest of is carried out by the
    request that is sent. *)
Lemma signed_carried_out (l : list Send) fresh digest locator :
  prepared_intent (pw_intent fresh) → compute_execution_intent_digest (pw_intent fresh) = Ok digest →
  (∀ y, y ∈ l → carries_out (pw_intent fresh) locator y) →
  ∀ i, prepared_intent i → compute_execution_intent_digest i = Ok digest →
    ∀ y, y ∈ l → carries_out i locator y ∨ intents_collide i (pw_intent fresh).
Proof. intros Hf Hd Hy i Hi Hdi y Hin. eapply digest_carried_out; [exact Hi|exact Hf|done..|by apply Hy]. Qed.
End chain.

(** ** The alias description *)

Section alias.
Context `{Hash} `{UnicodeData} `{AESGCM} `{Ed25519} `{AliasModel} {E L : Type} `{Store : ConsumptionStore L}.
Context (read_client : AliasDescriptionReadClient E) (configured_target : ConfiguredApplianceTargetV1)
  (authorities : list PinnedAuthority) (contract_store : Config E)
  (executor : MutationExecutor E RawTarget AliasDescriptionPatchV1) (encryption_key : KeyRecord)
  (contract_validity : Z) (owner_token : nat) (uuid4_hex : prog E pystr)
  (discover : prog (World E) SecurityPostureDiscovery).
Notation core := (AliasDescriptionExecutionCoreV1 read_client configured_target authorities contract_store executor
  encryption_key contract_validity owner_token uuid4_hex discover).
Implicit Types (w : Core E L) (a : PlanAuthorizationV2).

Lemma alias_wired : quiet contract_store → clock_valid contract_store → (∀ x, db (snd (discover x)) = db x) →
  x_store executor = contract_store → x_encryption_key executor = material encryption_key → wired core.
Proof.
  intros Hq Hc Hd Hs Hk. split; try done.
  intros r e fresh e' (p & e1 & (_ & _ & _ & _ & _ & Hi)%prepare_inv & [= <- <-])%bind_inv.
  cbn [pw_intent]. by eexists _, _, _, _, _, _, _, _, _, _.
Qed.

(** [C1] The request on the wire is the one that was signed.  From a
    version 2 authorization to the device: when [authorize_and_create]
    returns a handle for a validated request and the handle is handed off,
    however much later, at most one request is sent; it is the PATCH of
    the alias description endpoint, and its body is the one that gives the
    alias at the authorized locator the requested description, unapplied.
    The owner's artifact binds one digest to the requested step, and the
    request carries out whatever intent has that digest: its method, its
    endpoint and the body built from its mutation intent are that intent's,
    unless that intent and the one prepared inside [authorize_and_create],
    which has the same digest, are a collision of SHA-256. *)
Theorem signed_change_sent request ap a d s risk cap anc now w h w1 conf now2 ctx w2 out w3 :
  wired core → request_ok request → reachable contract_store (contracts w) → dt_valid now = true → v2_ok (a2_fields a) →
  authorize_and_create core request ap a d s risk cap anc now w = (Ok h, w1) → waits w1 w2 →
  confirm_and_handoff core h conf now2 ctx w2 = (out, w3) →
  ∃ digest prepared l, compute_execution_intent_digest (pw_intent ap) = Ok digest ∧
    {| sb_step_id := s; sb_execution_intent_digest := digest |} ∈ pa2_authorized_executions (a2_fields a) ∧
    prepared_intent prepared ∧ compute_execution_intent_digest prepared = Ok digest ∧
    sends (c_session w3) = sends (c_session w2) ++ l ∧ (length l ≤ 1)%nat ∧
    (∀ i, prepared_intent i → compute_execution_intent_digest i = Ok digest →
       ∀ y, y ∈ l → carries_out core i (as_numeric_locator (pw_authoritative_a ap)) y ∨
         intents_collide i prepared) ∧
    ∀ y, y ∈ l → sent_method y = u "PATCH" ∧
      (∃ ep, (u "FIREWALL_ALIAS_DESCRIPTION", ep) ∈ WriteEndpoints ∧
         sent_path y = request_path (x_write_client executor) ep) ∧
      ∃ body, sent_body y = Some body ∧ model_dump_json executor {|
        pt_id := as_numeric_locator (pw_authoritative_a ap); pt_descr := ch_description request; pt_apply := false |} = Ok body.
Proof.
  intros Hwired Hreq Hreach Hnow Ha Hcreate Hwait Hoff.
  destruct (created_then_sent core Hwired _ _ _ _ _ _ _ _ _ _ _ _ _ _ _ _ _ _ Hreach Hnow Ha Hcreate Hwait Hoff)
    as (fresh & digest & e & e' & l & Hpr & Hprep & Hfd & Hap & Hbound & Hl & Hlen & Hy).
  exists digest, (pw_intent fresh), l. split_and!; [done..| |].
  { apply (signed_carried_out core); [done|done|]. intros y Hin.
    destruct (Hy y Hin) as (Hmeth & (ep & Hep & _ & Hpath) & Hbody). split_and!; [done|by exists ep|exact Hbody]. }
  intros y Hin. destruct (Hy y Hin) as (Hmeth & (ep & Hep & _ & Hpath) & tt & req & body & Htt & Hb & Hj & Hbody).
  apply bind_inv in Hpr as (p & e1 & (_ & Hs & _ & _ & Hd & Hi)%prepare_inv & [= <- <-]). cbn [pw_intent] in *.
  destruct (alias_intent_values _ _ _ _ Hs Hreq Hd Hi) as (_ & _ & Hint & _). rewrite Hint in Hb.
  destruct Hreq as (Hn & _ & _ & Hdesc). cbn [wc_adapter AliasDescriptionExecutionCoreV1 build_request AliasDescriptionAdapterV1] in Hb.
  unfold alias_build_request in Hb. rewrite (intent_read _ _ _ Hn Hdesc Hd) in Hb. injection Hb as <-.
  unfold PreparedExecutionIntentV1_new in Hi. rewrite !require_bind in Hi.
  destruct Hi as (_ & _ & _ & _ & (v1 & _ & (v2 & _ & (v3 & _ & (v4 & _ & Hi)%bind_Ok)%bind_Ok)%bind_Ok)%bind_Ok).
  injection Hi as Hi. rewrite <-Hi in Hmeth, Hep.
  split_and!; [exact Hmeth|by exists ep|]. exists body. split; [done|]. by rewrite Htt in Hj.
Qed.
End alias.
