(* ===== verification/ProductOperation.v ===== *)
(** * The product operation

    The one operation behind a product change: it prepares the change anew,
    finds out from the store and four fixed artifact files how far it has
    come, and takes it as far as the artifacts allow.  The source has it
    twice, for the alias description in [tier1/production_runtime.py] and
    for the five batch-1 capabilities in
    [tier1/shape_a_acceptance_orchestration.py], with the same steps in the
    same order; here it is one operation over a record of what differs: the
    core, the preparer, and what is written into the two files for the
    signer.  [ProductionRuntime.v] and [ShapeAOrchestration.v] are its
    instances.

    The files lie outside the process: before every look at one of them the
    operator and other processes may have changed all four
    ([pt_operator]). *)

From S2P Require Import Prelude PyStr Sha256 PyDatetime Json Capability StateMachine Canonical PyJson.
From S2P Require Import Contract Evidence Plan SealedApproval Authorization Consumption Coordinator.
From S2P Require Import Crypto StoreCodec Database RatePolicy AntiRollback Store KeyLifecycle.
From S2P Require Import PreparedIntent WriteApi Executor ArtifactExchange WriteCore.

(** ** Outcomes *)

Inductive ProductOutcomeState : Type :=
  | REQUESTED | AWAITING_CONFIRMATION | PRODUCT_VERIFIED | RECONCILIATION_REQUIRED | REFUSED.

#[global] Instance ProductOutcomeState_eq_dec : EqDecision ProductOutcomeState.
Proof. solve_decision. Defined.

Record ProductOutcome : Type := { po_state : ProductOutcomeState; po_contract_id : option pystr }.

(** [_project_recovery_state] *)
Definition project_recovery_state (state : RecoveryState) : ProductOutcomeState :=
  match state with
  | VERIFIED => PRODUCT_VERIFIED
  | RECONCILIATION => RECONCILIATION_REQUIRED
  | _ => REFUSED
  end.

Definition without_contract (state : ProductOutcomeState) : ProductOutcome :=
  {| po_state := state; po_contract_id := None |}.
Definition of_contract (state : ProductOutcomeState) (contract_id : pystr) : ProductOutcome :=
  {| po_state := state; po_contract_id := Some contract_id |}.

(** ** The four files *)

Record Files : Type := {
  authorization_inbox : node; confirmation_pending : node; confirmation_signed : node; authorization_preview : node }.

Definition set_pending_file (n : node) (f : Files) : Files := {|
  authorization_inbox := authorization_inbox f; confirmation_pending := n;
  confirmation_signed := confirmation_signed f; authorization_preview := authorization_preview f |}.
Definition set_preview_file (n : node) (f : Files) : Files := {|
  authorization_inbox := authorization_inbox f; confirmation_pending := confirmation_pending f;
  confirmation_signed := confirmation_signed f; authorization_preview := n |}.

(** [_artifact_present]: [path.is_symlink() or path.exists()] *)
Definition artifact_present (n : node) : bool := match n with Absent => false | _ => true end.

(** What an instance is given: its core and preparer, the bytes of the two
    files it writes for the signer, and the outside world of the files. *)
Record ProductRuntime (E Raw Request Change State : Type) : Type := {
  pt_core : WriteExecutionCoreV1 E Raw Request Change State;
  pt_prepare : Change → prog E (PreparedWriteExecutionV1 State);
  pt_preview : Change → PreparedWriteExecutionV1 State → pystr → pystr → CapabilityPosture → AnchorAssurance →
               datetime → result bytes;
  pt_pending : RecoveryContract → Change → PreparedWriteExecutionV1 State → result bytes;
  pt_operator : Files → prog E Files;
  pt_write : prog E write_outcome }.
Arguments pt_core {_ _ _ _ _} _.
Arguments pt_prepare {_ _ _ _ _} _ _.
Arguments pt_preview {_ _ _ _ _} _ _ _ _ _ _ _ _.
Arguments pt_pending {_ _ _ _ _} _ _ _ _.
Arguments pt_operator {_ _ _ _ _} _ _.
Arguments pt_write {_ _ _ _ _} _.

Record Product (E L : Type) : Type := mkProduct { p_core : Core E L; p_files : Files }.
Arguments mkProduct {_ _} _ _.
Arguments p_core {_ _} _.
Arguments p_files {_ _} _.

Section product.
Context `{Hash} `{UnicodeData} `{AESGCM} `{Ed25519} {E L Raw Request Change State : Type} `{Store : ConsumptionStore L}.
Context (runtime : ProductRuntime E Raw Request Change State).

Notation core := (pt_core runtime).
Notation store := (wc_store (pt_core runtime)).
Notation M A := (prog (Product E L) A).
Implicit Types (request : Change) (prepared : PreparedWriteExecutionV1 State).

Definition on_core {A} (p : prog (Core E L) A) : M A := λ w,
  let '(r, c) := p (p_core w) in (r, mkProduct c (p_files w)).

(** A look at the files. *)
Definition look : M Files := λ w,
  match on_core (on_outside (pt_operator runtime (p_files w))) w with
  | (Ok f, w') => (Ok f, mkProduct (p_core w') f)
  | (Raise e, w') => (Raise e, w')
  end.

(** [write_secure_new(path, value)] *)
Definition put_file (set : node → Files → Files) (f : Files) (written : result () * node) : M () := λ w,
  (fst written, mkProduct (p_core w) (set (snd written) f)).
Definition write_file (file : Files → node) (set : node → Files → Files) (value : bytes) : M () :=
  f ← look;
  outcome ← on_core (on_outside (pt_write runtime));
  put_file set f (write_secure_new outcome value (file f)).

(** [with contextlib.suppress(ArtifactExchangeError):] *)
Definition suppressed (m : M ()) : M () :=
  catch m (λ e, if bool_decide (e = ArtifactExchangeError) then mret () else raise e).

(** [_ensure_authorization_preview] *)
Definition ensure_authorization_preview request prepared (requested_plan_digest requested_step_id : pystr)
    (capability : CapabilityPosture) (anchor : AnchorAssurance) (now : datetime) : M () :=
  f ← look;
  if artifact_present (authorization_preview f) then mret () else
  suppressed (
    value ← lift (pt_preview runtime request prepared requested_plan_digest requested_step_id capability anchor now);
    write_file authorization_preview set_preview_file value).

(** [_ensure_pending_confirmation_request] *)
Definition ensure_pending_confirmation_request (contract : RecoveryContract) request prepared : M () :=
  f ← look;
  if artifact_present (confirmation_pending f) then mret () else
  suppressed (
    value ← lift (pt_pending runtime contract request prepared);
    write_file confirmation_pending set_pending_file value).

(** [try: ... except BoundExecutionError:] *)
Definition unless_bound {A} (m : M A) : M (option A) :=
  catch (a ← m; mret (Some a)) (λ e, if bool_decide (e = BoundExecutionError) then mret None else raise e).

(** The first [try] block. *)
Definition find_existing request : M (PreparedWriteExecutionV1 State * pystr * option RecoveryContract) :=
  prepared ← on_core (on_outside (pt_prepare runtime request));
  key ← lift (compute_idempotency_key core prepared);
  existing ← on_core (on_contracts (find_by_idempotency_key store key));
  mret (prepared, key, existing).

(** The recorded attempt that already used an authorization. *)
Definition used_for (authorization_id : pystr) (historical : RecoveryContract) : bool :=
  match rc_authorization_provenance historical with
  | Some p => pystr_eqb (ap_authorization_id p) authorization_id
  | None => false
  end.

(** What a branch hands on: an outcome returned early, or the handle and
    the contract to be confirmed. *)
Definition Branch : Type := ProductOutcome + AuthorizedWriteExecution * RecoveryContract.

Definition resume_existing (existing : RecoveryContract) request (now : datetime) : M Branch :=
  resumed ← unless_bound (on_core (resume_prepared core (rc_contract_id existing) request now));
  mret (match resumed with
        | None => inl (of_contract REFUSED (rc_contract_id existing))
        | Some handle => inr (handle, existing)
        end).

(** The branch without an existing contract. *)
Definition authorize_new request prepared (idempotency_key requested_plan_digest requested_step_id : pystr)
    (required_risk_class : AuthorizationLevel) (capability : CapabilityPosture) (anchor : AnchorAssurance)
    (now : datetime) : M Branch :=
  _ ← ensure_authorization_preview request prepared requested_plan_digest requested_step_id capability anchor now;
  f ← look;
  if negb (artifact_present (authorization_inbox f)) then mret (inl (without_contract REQUESTED)) else
  f ← look;
  match load_signed_plan_authorization_v2 (authorization_inbox f) with
  | Raise e => if bool_decide (e = ArtifactExchangeError) then mret (inl (without_contract REFUSED)) else raise e
  | Ok authorization =>
    history ← on_core (on_contracts (find_historical_by_idempotency_key store idempotency_key));
    match find (used_for (pa2_authorization_id (a2_fields authorization))) history with
    | Some historical => mret (inl (of_contract REFUSED (rc_contract_id historical)))
    | None =>
      created ← unless_bound (on_core (authorize_and_create core request prepared authorization
        requested_plan_digest requested_step_id required_risk_class capability anchor now));
      match created with
      | None => mret (inl (without_contract REFUSED))
      | Some handle =>
        catch (contract ← on_core (on_contracts (load store (ah_contract_id handle))); mret (inr (handle, contract)))
          (λ _, mret (inl (of_contract AWAITING_CONFIRMATION (ah_contract_id handle))))
      end
    end
  end.

(** The rest: the confirmation artifacts and the handoff. *)
Definition deliver_confirmation (handle : AuthorizedWriteExecution) (contract : RecoveryContract) request prepared
    (now : datetime) (acceptance_context : option AcceptanceExecutionContext) : M ProductOutcome :=
  let id := ah_contract_id handle in
  _ ← ensure_pending_confirmation_request contract request prepared;
  f ← look;
  if negb (artifact_present (confirmation_signed f)) then mret (of_contract AWAITING_CONFIRMATION id) else
  f ← look;
  match load_signed_confirmation_evidence (confirmation_signed f) with
  | Raise e => if bool_decide (e = ArtifactExchangeError) then mret (of_contract REFUSED id) else raise e
  | Ok confirmation =>
    outcome ← unless_bound (on_core (confirm_and_handoff core handle confirmation now acceptance_context));
    mret (match outcome with
          | None => of_contract REFUSED id
          | Some out => of_contract (project_recovery_state (out_state out)) id
          end)
  end.

(** [request_change] *)
Definition request_change request (requested_plan_digest requested_step_id : pystr)
    (required_risk_class : AuthorizationLevel) (capability : CapabilityPosture) (anchor : AnchorAssurance)
    (now : datetime) (acceptance_context : option AcceptanceExecutionContext) : M ProductOutcome :=
  found ← catch (x ← find_existing request; mret (Some x)) (λ _, mret None);
  match found with
  | None => mret (without_contract REFUSED)
  | Some (prepared, idempotency_key, existing) =>
    branch ←
      match existing with
      | Some c =>
        if negb (state_eqb (rc_state c) PREPARED)
        then mret (inl (of_contract (project_recovery_state (rc_state c)) (rc_contract_id c)))
        else resume_existing c request now
      | None => authorize_new request prepared idempotency_key requested_plan_digest requested_step_id
                  required_risk_class capability anchor now
      end;
    match branch with
    | inl outcome => mret outcome
    | inr (handle, contract) => deliver_confirmation handle contract request prepared now acceptance_context
    end
  end.
End product.
