(* ===== verification/ProductProps.v ===== *)
(** * Properties of the product operation

    What an outcome says about the store, when anything is sent, and what a
    repeated call reports. *)

From S2P Require Import Prelude PyStr Sha256 PyDatetime Json Capability StateMachine Canonical PyJson.
From S2P Require Import Contract Evidence Plan SealedApproval Authorization AuthorizationProps Consumption Coordinator.
From S2P Require Import Crypto StoreCodec Database RatePolicy AntiRollback Store StoreInv StoreOps StoreProps StoreBehaviour.
From S2P Require Import StoreGate StoreResolve KeyLifecycle PreparedIntent WriteApi Executor ExecutorInv ExecutorProps.
From S2P Require Import ArtifactExchange ArtifactProps WriteCore WriteCoreProps EndToEnd ProductOperation.

(** ** Loaded authorizations *)

Lemma fromisoformat_valid s d : fromisoformat s = Ok d → dt_valid d = true.
Proof.
  unfold fromisoformat. intros Hd%of_option_Ok.
  repeat (apply bind_Some in Hd as ([? ?] & _ & Hd) || apply bind_Some in Hd as (? & _ & Hd)).
  cbv zeta in Hd. case_match eqn:Hv; [|done]. by injection Hd as <-.
Qed.

Lemma bindings_wf l bs : mapM binding_of l = Ok bs → Forall wf_binding bs.
Proof.
  revert bs. induction l as [|v l IH]; intros bs; cbn [mapM]; [by intros [= <-]|].
  intros (b & Hb & (bs' & Hbs & [= <-])%bind_Ok)%bind_Ok. constructor; [|by apply IH].
  unfold binding_of in Hb. inv_result. by subst.
Qed.

(** What the reader of the inbox accepts is a validated authorization. *)
Lemma loaded_authorization n a : load_signed_plan_authorization_v2 n = Ok a → v2_ok (a2_fields a).
Proof.
  unfold load_signed_plan_authorization_v2. intros (raw & _ & (items & _ & Ha)%bind_Ok)%malformed_Ok%bind_Ok.
  unfold authorization_of_items in Ha. apply bind_Ok in Ha as (ex & _ & Ha). apply bind_Ok in Ha as (bs & Hbs & Ha).
  assert (Forall wf_binding bs) as Hwf by (destruct ex as [| | | | |[]|]; try done; by eapply bindings_wf).
  do 7 (apply bind_Ok in Ha as (? & _ & Ha)).
  apply bind_Ok in Ha as (t1 & (j1 & _ & H1)%bind_Ok & Ha). apply bind_Ok in Ha as (t2 & (j2 & _ & H2)%bind_Ok & Ha).
  apply bind_Ok in Ha as (rk & _ & Ha). cbv zeta in Ha. apply bind_Ok in Ha as ([] & Hi & [= <-]).
  cbn [a2_fields]. unfold PlanAuthorizationV2_post_init in Hi. cbv zeta in Hi. cbn [a2_fields a2_proof] in Hi.
  assert (dt_valid t1 = true) as V1 by (destruct j1; try done; by eapply fromisoformat_valid).
  assert (dt_valid t2 = true) as V2 by (destruct j2; try done; by eapply fromisoformat_valid).
  split_and!; [|done|done|done]. unfold PlanAuthorizationV2Payload_post_init.
  apply require_bind in Hi as [-> Hi]. cbn [require mbind result_bind].
  apply bind_Ok in Hi as ([] & -> & Hi). cbn [mbind result_bind].
  apply require_bind in Hi as [-> Hi]. cbn [require mbind result_bind].
  apply require_bind in Hi as [-> Hi]. cbn [require mbind result_bind].
  apply require_bind in Hi as [-> Hi]. cbn [require mbind result_bind].
  by apply require_bind in Hi as [_ Hi].
Qed.

(** ** Steps *)

Section steps.
Context `{Hash} `{UnicodeData} `{AESGCM} `{Ed25519} {E L Raw Request Change State : Type} `{Store : ConsumptionStore L}.
Context (runtime : ProductRuntime E Raw Request Change State).
Notation core := (pt_core runtime).
Notation store := (wc_store (pt_core runtime)).
Implicit Types (w : Product E L) (request : Change).

Lemma on_core_inv {A} (p : prog (Core E L) A) w r w' : on_core p w = (r, w') →
  ∃ c, p (p_core w) = (r, c) ∧ w' = mkProduct c (p_files w).
Proof. unfold on_core. destruct (p (p_core w)) as [r0 c]. intros [= <- <-]. by exists c. Qed.

(** Everything of the core but the environment. *)
Definition settled w := frame (p_core w).

(** Steps that leave the tables, the requests, the consumptions, the
    counter and the handles alone: they read, or touch only the files. *)
Definition calm {A} (p : prog (Product E L) A) : Prop := ∀ F, preserves (λ w, settled w = F) p.

Lemma calm_ret {A} (a : A) : calm (mret a).
Proof. intros F. apply preserves_ret. Qed.
Lemma calm_raise {A} e : calm (raise (A:=A) e).
Proof. intros F. apply preserves_raise. Qed.
Lemma calm_lift {A} (r : result A) : calm (lift r).
Proof. intros F. apply preserves_lift. Qed.
Lemma calm_bind {A B} (p : prog (Product E L) A) (f : A → prog (Product E L) B) : calm p → (∀ x, calm (f x)) → calm (p ≫= f).
Proof. intros Hp Hf F. apply preserves_bind; [apply Hp|]. intros x. apply Hf. Qed.
Lemma calm_catch {A} (p : prog (Product E L) A) h : calm p → (∀ e, calm (h e)) → calm (catch p h).
Proof. intros Hp Hh F. apply preserves_catch; [apply Hp|]. intros e. apply Hh. Qed.

Lemma calm_core {A} (p : prog (Core E L) A) : framed p → calm (on_core p).
Proof.
  intros Hp F w Hw. destruct (on_core p w) as [r w'] eqn:Hr. apply on_core_inv in Hr as (c & Hc & ->).
  specialize (Hp F (p_core w) Hw). by rewrite Hc in Hp.
Qed.

Lemma calm_look : calm (look runtime).
Proof.
  intros F w Hw. pose proof (calm_core (on_outside (pt_operator runtime (p_files w))) (framed_outside _) F w Hw) as Hk.
  unfold look. by destruct (on_core _ w) as [[f|e] w'].
Qed.

Lemma calm_write file set b : calm (write_file runtime file set b).
Proof.
  unfold write_file. apply calm_bind; [apply calm_look|]. intros f. apply calm_bind; [apply calm_core, framed_outside|].
  intros o F w Hw. exact Hw.
Qed.

Lemma calm_suppressed p : calm p → calm (suppressed p).
Proof. intros Hp. apply calm_catch; [done|]. intros e. case_bool_decide; [apply calm_ret|apply calm_raise]. Qed.

Lemma calm_preview request prepared d s cap anc now : calm (ensure_authorization_preview runtime request prepared d s cap anc now).
Proof.
  unfold ensure_authorization_preview. apply calm_bind; [apply calm_look|]. intros f. case_match; [apply calm_ret|].
  apply calm_suppressed. repeat (apply calm_bind; [apply calm_lift|]; intros ?). apply calm_write.
Qed.

Lemma calm_pending c request prepared : calm (ensure_pending_confirmation_request runtime c request prepared).
Proof.
  unfold ensure_pending_confirmation_request. apply calm_bind; [apply calm_look|]. intros f. case_match; [apply calm_ret|].
  apply calm_suppressed. repeat (apply calm_bind; [apply calm_lift|]; intros ?). apply calm_write.
Qed.

Lemma calm_inv {A} (p : prog (Product E L) A) w r w' : calm p → p w = (r, w') → settled w' = settled w.
Proof. intros Hc Hp. specialize (Hc (settled w) w eq_refl). by rewrite Hp in Hc. Qed.

Lemma settled_db w w' : settled w' = settled w →
  db (contracts (p_core w')) = db (contracts (p_core w)) ∧ sends (c_session (p_core w')) = sends (c_session (p_core w)) ∧
  c_ledger (p_core w') = c_ledger (p_core w).
Proof. unfold settled, frame. by intros [= -> -> ->]. Qed.

Lemma unless_bound_inv {A} (p : prog (Product E L) A) w o w' : unless_bound p w = (Ok o, w') →
  match o with Some a => p w = (Ok a, w') | None => p w = (Raise BoundExecutionError, w') end.
Proof.
  unfold unless_bound, catch, mbind, prog_bind, raise. destruct (p w) as [[a|e] w1]; [by intros [= <- <-]|].
  case_bool_decide as He; [|done]. subst. by intros [= <- <-].
Qed.

(** Tables with the same contracts are as reachable. *)
Lemma reachable_db (x y : World E) : reachable store x → db y = db x → reachable store y.
Proof. destruct y as [d e]. cbn. intros Hx ->. by constructor. Qed.

(** ** The first look *)

Context (Hw : wired core).

Lemma find_existing_inv request w x w' : reachable store (contracts (p_core w)) →
  find_existing runtime request w = (Ok x, w') →
  ∃ prepared key o e', x = (prepared, key, o) ∧ pt_prepare runtime request (env (contracts (p_core w))) = (Ok prepared, e') ∧
    compute_idempotency_key core prepared = Ok key ∧ settled w' = settled w ∧
    ∀ c, o = Some c → stored store (contracts (p_core w')) c ∧ blocks_fresh_idempotency_attempt (rc_state c) = true.
Proof.
  destruct Hw as [Hq Hclock _ _ _ _]. intros Hr Hp. unfold find_existing in Hp.
  apply bind_inv in Hp as (prepared & ? & (c1 & (e1 & He & ->)%on_outside_inv & ->)%on_core_inv & Hp).
  apply bind_inv in Hp as (key & ? & [Hk ->]%lift_inv & Hp).
  apply bind_inv in Hp as (o & ? & (c2 & (x2 & Hf & ->)%on_contracts_inv & ->)%on_core_inv & Hp). injection Hp as <- <-.
  cbn [p_core p_files] in *.
  match type of Hf with _ _ _ ?y = _ => assert (reachable store y) as Hr1 by (by apply (reachable_db (contracts (p_core w)))) end.
  destruct (find_by_key_exact store _ key Hclock Hq Hr1) as (o' & Ho & Hc). rewrite Hf in Ho. injection Ho as <- ->.
  exists prepared, key, o, e1. split_and!; [done|exact He|done|done|]. intros c Hcc. apply Hc in Hcc as (Hs & _ & Hb). done.
Qed.
(** ** Resuming *)

Lemma framed_load id : framed (on_contracts (load store id) : prog (Core E L) _).
Proof.
  apply framed_contracts. intros d x Hx. pose proof (load_world store id x (wd_quiet _ Hw)) as Hl.
  unfold keeps. by rewrite Hl.
Qed.

Lemma framed_resume_gates id request now : framed (resume_gates (L:=L) core id request now).
Proof.
  unfold resume_gates. apply framed_bind; [apply framed_deny|intros _]. apply framed_bind; [apply framed_load|intros c].
  apply framed_bind; [apply framed_deny|intros _]. destruct (rc_authorization_provenance c) as [p|]; [|intros F; apply preserves_raise].
  repeat first
    [apply framed_bind; [first [apply framed_pure|apply framed_deny|apply framed_outside]|intros ?]
    |intros F; apply preserves_ret].
Qed.

Lemma resume_keeps id request now (w : Core E L) r (w' : Core E L) : resume_prepared core id request now w = (r, w') →
  db (contracts w') = db (contracts w) ∧ sends (c_session w') = sends (c_session w) ∧ c_ledger w' = c_ledger w ∧
  c_counter w' = c_counter w ∧ (∀ h, r = Ok h → ah_contract_id h = id).
Proof.
  unfold resume_prepared, mbind at 1, prog_bind at 1.
  destruct (sanitised (resume_gates core id request now) w) as [[[[c ei] p]|e] w1] eqn:Hg.
  - rewrite (bind_ok get_world _ w1 w1 w1 eq_refl), (bind_ok (set_pending _) _ _ () _ eq_refl). intros Hp. injection Hp as <- <-.
    apply sanitised_inv in Hg. pose proof (frame_of _ _ _ _ (framed_resume_gates id request now) Hg) as Hf.
    unfold frame in Hf. injection Hf as F1 F2 F3 F4 _. cbn. split_and!; [exact F1|exact F2|exact F3|exact F4|]. intros h [= <-]. cbn.
    unfold resume_gates in Hg. apply bind_inv in Hg as ([] & ? & [_ ->]%deny_unless_inv & Hg).
    apply bind_inv in Hg as (c0 & ? & (x & Hl & ->)%on_contracts_inv & Hg). apply load_id in Hl.
    apply bind_inv in Hg as ([] & ? & [_ ->]%deny_unless_inv & Hg). destruct (rc_authorization_provenance c0); [|done].
    repeat (apply bind_inv in Hg as (? & ? & _ & Hg)). by injection Hg as -> _ _ _.
  - intros [= <- <-]. apply sanitised_raise in Hg as [_ (e' & Hg)].
    pose proof (frame_of _ _ _ _ (framed_resume_gates id request now) Hg) as Hf.
    unfold frame in Hf. injection Hf as F1 F2 F3 F4 _. by split_and!.
Qed.

(** ** Creating *)

(** The contract [id] is in the tables, in this state. *)
Definition holds_in w (id : pystr) (state : RecoveryState) : Prop :=
  ∃ m c, rep store (db (contracts (p_core w))) m ∧ m !! id = Some c ∧ rc_state c = state.

Lemma holds_in_db w w' id st : db (contracts (p_core w')) = db (contracts (p_core w)) → holds_in w id st → holds_in w' id st.
Proof. intros Hd (m & c & Hr & Hc). exists m, c. by rewrite Hd. Qed.

(** What a branch promises to the part that delivers. *)
Definition branch_ok w (b : Branch) w' : Prop :=
  match b with
  | inl o =>
    match po_state o with
    | REQUESTED => po_contract_id o = None ∧ settled w' = settled w
    | AWAITING_CONFIRMATION => ∃ id, po_contract_id o = Some id ∧ holds_in w' id PREPARED
    | REFUSED => True
    | _ => False
    end
  | inr (h, c) => ah_contract_id h = rc_contract_id c ∧ holds_in w' (ah_contract_id h) PREPARED
  end.

Lemma find_used (f : RecoveryContract → bool) (l : list RecoveryContract) c : find f l = Some c → f c = true ∧ c ∈ l.
Proof. intros [Hin Hf]%find_some. by rewrite list_elem_of_In. Qed.

Lemma framed_history key : framed (on_contracts (find_historical_by_idempotency_key store key) : prog (Core E L) _).
Proof.
  apply framed_contracts. intros d. unfold find_historical_by_idempotency_key.
  apply preserves_bind; [by apply (keeps_select store (λ d', d' = d)), Hw|]. intros rows.
  induction rows as [|[id row] rows IH]; cbn [verified_history]; [apply preserves_ret|].
  apply preserves_bind; [apply preserves_lift|]. intros c. case_match; [apply preserves_raise|].
  apply preserves_bind; [|intros _; apply preserves_bind; [exact IH|intros; apply preserves_ret]].
  unfold verify_related_state, verify_reservation, verified_audit_rows.
  repeat (apply preserves_bind; intros); first [by apply (keeps_select store (λ d', d' = d)), Hw|apply preserves_lift|apply preserves_ret].
Qed.

(** Creating sends nothing, whatever comes of it. *)
Lemma creation_sends request ap a d s risk cap anc now (w : Core E L) r (w' : Core E L) :
  authorize_and_create core request ap a d s risk cap anc now w = (r, w') →
  sends (c_session w') = sends (c_session w).
Proof.
  unfold authorize_and_create. unfold mbind at 1, prog_bind at 1.
  destruct (sanitised (authorize_gates _ _ _ _ _ _ _ _ _ _) _) as [r1 w1] eqn:Hg.
  apply sanitised_frame in Hg as [Hf _]; [|by apply framed_gates; apply Hw].
  unfold frame in Hf. injection Hf as _ <- _ _ _. destruct r1 as [m|e]; [|by intros [= _ <-]].
  unfold mbind at 1, prog_bind at 1. destruct (sanitised (on_ledger _) w1) as [[b|e] w2] eqn:Hc.
  - apply sanitised_inv, on_ledger_inv in Hc as (l & _ & ->). unfold mbind at 1, prog_bind at 1.
    destruct b; [|by intros [= _ <-]]. cbn [deny_unless].
    destruct r as [h|e]; [intros Hp%sanitised_inv|intros [_ (e' & Hp)]%sanitised_raise]; by apply create_pending_sends in Hp as [-> _].
  - intros [= _ <-]. apply sanitised_raise in Hc as [_ (e' & Hc)]. by apply on_ledger_inv in Hc as (l & _ & ->).
Qed.

(** Reading the created contract back. *)
Lemma read_back_inv (h : AuthorizedWriteExecution) w b w' :
  catch (contract ← on_core (on_contracts (load store (ah_contract_id h))); mret (inr (h, contract) : Branch))
    (λ _, mret (inl (of_contract AWAITING_CONFIRMATION (ah_contract_id h)))) w = (Ok b, w') →
  settled w' = settled w ∧
  (b = inl (of_contract AWAITING_CONFIRMATION (ah_contract_id h)) ∨
   ∃ c, b = inr (h, c) ∧ rc_contract_id c = ah_contract_id h).
Proof.
  unfold catch, mbind, prog_bind. destruct (on_core _ w) as [[c|e] w1] eqn:Hl; intros [= <- <-];
    (split; [exact (calm_inv _ _ _ _ (calm_core _ (framed_load _)) Hl)|]); [right|by left].
  exists c. split; [done|]. apply on_core_inv in Hl as (c1 & (x & Hl & _)%on_contracts_inv & _). by apply load_id in Hl.
Qed.

Lemma authorize_new_ok request prepared key d s risk cap anc now w b w' :
  reachable store (contracts (p_core w)) → dt_valid now = true →
  authorize_new runtime request prepared key d s risk cap anc now w = (Ok b, w') →
  sends (c_session (p_core w')) = sends (c_session (p_core w)) ∧ branch_ok w b w'.
Proof.
  intros Hr Hnow Hp. unfold authorize_new in Hp.
  apply bind_inv in Hp as ([] & w1 & K1%calm_inv & Hp); [|apply calm_preview].
  apply bind_inv in Hp as (f1 & w2 & K2%calm_inv & Hp); [|apply calm_look].
  destruct (artifact_present _); cbn [negb] in Hp.
  2: { injection Hp as <- <-. rewrite K1 in K2. split; [by apply settled_db|]. by split. }
  apply bind_inv in Hp as (f2 & w3 & K3%calm_inv & Hp); [|apply calm_look]. rewrite K2, K1 in K3.
  destruct (load_signed_plan_authorization_v2 _) as [a|e] eqn:Ha.
  2: { case_bool_decide; [|done]. injection Hp as <- <-. split; [by apply settled_db in K3 as (_ & -> & _)|done]. }
  apply loaded_authorization in Ha.
  apply bind_inv in Hp as (history & w4 & K4%calm_inv & Hp); [|apply calm_core, framed_history]. rewrite K3 in K4.
  destruct (settled_db _ _ K4) as (D4 & S4 & _).
  destruct (find _ history) as [c|]; [by injection Hp as <- <-|].
  apply bind_inv in Hp as ([h|] & w5 & K5%unless_bound_inv & Hp); apply on_core_inv in K5 as (c5 & K5 & ->).
  - pose proof (creation_sends _ _ _ _ _ _ _ _ _ _ _ _ K5) as S5.
    apply creation_sealed in K5 as (? & ? & ? & ? & ? & ? & ? & m & r & _ & _ & _ & _ & _ & Hrep & Hm & Hst & _); [|exact Hw| |done|done].
    2: by apply (reachable_db (contracts (p_core w))).
    apply read_back_inv in Hp as [(D7 & S7 & _)%settled_db Hb]. cbn [p_core] in D7, S7.
    assert (holds_in w' (ah_contract_id h) PREPARED) as Hin by (exists m, r; by rewrite D7).
    split; [by rewrite S7, S5|]. destruct Hb as [->|(c & -> & Hid)]; [by exists (ah_contract_id h)|by split].
  - injection Hp as <- <-. split; [|done]. cbn [p_core]. by rewrite (creation_sends _ _ _ _ _ _ _ _ _ _ _ _ K5).
Qed.
(** ** Delivering *)

(** A handoff on tables that hold [m]: at most one request, and a reported
    state is the stored one. *)
Lemma handoff_result m h conf now ctx (w : Core E L) r (w' : Core E L) :
  rep store (db (contracts w)) m → confirm_and_handoff core h conf now ctx w = (r, w') →
  ∃ l, sends (c_session w') = sends (c_session w) ++ l ∧ (length l ≤ 1)%nat ∧
    ∀ out, r = Ok out → ∃ m' c, rep store (db (contracts w')) m' ∧ m' !! ah_contract_id h = Some c ∧ rc_state c = out_state out.
Proof.
  destruct Hw as [Hq Hclock _ Hst _ _]. intros Hr Hp.
  destruct (handoff_cases _ _ _ _ _ _ _ _ Hp) as [[-> ->]|(_ & pe & confirmed & x & r0 & _ & Hc & Hx & _ & ->)].
  { exists []. rewrite app_nil_r. split_and!; [done|cbn; lia|done]. }
  destruct Hc as (c & x1 & Hl & Hid & _ & _ & _ & _ & _ & Hcf & _).
  apply (load_ok _ m) in Hl as [-> Hmc]; [|done..].
  destruct (confirm_inv _ m _ _ _ _ _ _ Hclock Hq Hr Hcf)
    as (cur & verify & d & w1 & Hm' & Hid' & _ & _ & _ & _ & _ & _ & _ & _ & Hwc & Hr').
  assert (rc_contract_id confirmed = ah_contract_id h) as Hidc.
  { apply with_confirmation_inv in Hwc as (_ & _ & _ & _ & dg & _ & Hcd & _). by rewrite Hcd. }
  rewrite Hidc in Hx. set (m2 := <[ah_contract_id h := confirmed]> m) in *.
  pose proof (wp_elim _ _ _ _ _ (wp_execute (wc_executor core) (wc_adapter core) (eq_rect_r clock_valid Hclock Hst)
    (eq_rect_r quiet Hq Hst) m2 _ (pe_executor_intent pe) ctx (mkSession x (sends (c_session w)))
    (eq_rect_r (λ s, rep s _ _) Hr' Hst)) Hx)
    as [(Hs & (e & ->) & _)|[(Hs & cu & c' & o & _ & -> & Ho & _ & Hrc & _ & Hs' & _)
       |(cu & ex & dd & ti & _ & _ & _ & _ & _ & _ & _ & l & m' & Hll & Hrc & _ & Hlen & _ & Hout)]].
  - exists []. rewrite app_nil_r. split_and!; [exact Hs|cbn; lia|done].
  - exists []. rewrite app_nil_r. split_and!; [exact Hs|cbn; lia|]. intros out [= <-]. rewrite Hst in Hrc.
    eexists _, c'. split_and!; [exact Hrc|apply lookup_insert_eq|]. by rewrite Hs', Ho.
  - exists l. split_and!; [exact Hll|done|]. intros out Heq. destruct r0 as [o|]; [|done]. injection Heq as ->.
    destruct Hout as (_ & c' & -> & _ & Hs' & _). rewrite Hst in Hrc. eexists _, c'.
    split_and!; [exact Hrc|apply lookup_insert_eq|done].
Qed.

(** What an outcome says. *)
Definition outcome_ok w (o : ProductOutcome) w' : Prop :=
  match po_state o with
  | REQUESTED => po_contract_id o = None ∧ settled w' = settled w
  | AWAITING_CONFIRMATION => ∃ id, po_contract_id o = Some id ∧ holds_in w' id PREPARED
  | PRODUCT_VERIFIED => ∃ id, po_contract_id o = Some id ∧ holds_in w' id VERIFIED
  | RECONCILIATION_REQUIRED => ∃ id, po_contract_id o = Some id ∧ holds_in w' id RECONCILIATION
  | REFUSED => True
  end.

Lemma projected_ok w id st w' : holds_in w' id st → outcome_ok w (of_contract (project_recovery_state st) id) w'.
Proof. intros Hin. destruct st; try done; by exists id. Qed.

(** The requests a call added. *)
Definition at_most_one w w' : Prop :=
  ∃ l, sends (c_session (p_core w')) = sends (c_session (p_core w)) ++ l ∧ (length l ≤ 1)%nat.

Lemma same_sends w w' : sends (c_session (p_core w')) = sends (c_session (p_core w)) → at_most_one w w'.
Proof. intros Hs. exists []. rewrite app_nil_r. split; [done|cbn; lia]. Qed.

(** Delivering ends without a handoff, reporting at most that a confirmation
    is awaited, or with the one handoff whose state it reports. *)
Lemma deliver_cases h c request prepared now ctx w r w' :
  deliver_confirmation runtime h c request prepared now ctx w = (r, w') →
  let id := ah_contract_id h in
  (settled w' = settled w ∧ ∀ o, r = Ok o → o = of_contract REFUSED id ∨ o = of_contract AWAITING_CONFIRMATION id) ∨
  ∃ conf w3 r5, settled w3 = settled w ∧ confirm_and_handoff core h conf now ctx (p_core w3) = (r5, p_core w') ∧
    ∀ o, r = Ok o → o = of_contract REFUSED id ∨
      ∃ out, r5 = Ok out ∧ o = of_contract (project_recovery_state (out_state out)) id.
Proof.
  intros Hp id. unfold deliver_confirmation in Hp. cbv zeta in Hp. unfold mbind at 1, prog_bind at 1 in Hp.
  destruct (ensure_pending_confirmation_request _ _ _ _ w) as [r1 w1] eqn:K1. apply calm_inv in K1; [|apply calm_pending].
  destruct r1 as [[]|e]; [|by injection Hp as <- <-; left].
  unfold mbind at 1, prog_bind at 1 in Hp. destruct (look runtime w1) as [r2 w2] eqn:K2.
  apply calm_inv in K2; [|apply calm_look]. rewrite K1 in K2.
  destruct r2 as [f1|e]; [|by injection Hp as <- <-; left].
  destruct (artifact_present _); cbn [negb] in Hp.
  2: { injection Hp as <- <-. left. split; [done|]. intros o [= <-]. by right. }
  unfold mbind at 1, prog_bind at 1 in Hp. destruct (look runtime w2) as [r3 w3] eqn:K3.
  apply calm_inv in K3; [|apply calm_look]. rewrite K2 in K3.
  destruct r3 as [f2|e]; [|by injection Hp as <- <-; left].
  destruct (load_signed_confirmation_evidence _) as [conf|e].
  2: { case_bool_decide; injection Hp as <- <-; left; (split; [done|]); [intros o [= <-]; by left|done]. }
  unfold mbind at 1, prog_bind at 1 in Hp. right. exists conf, w3.
  unfold unless_bound, catch, mbind, prog_bind, on_core, raise in Hp.
  destruct (confirm_and_handoff _ _ _ _ _ (p_core w3)) as [r5 c5]. exists r5.
  destruct r5 as [out|e]; [|case_bool_decide]; injection Hp as <- <-; (split_and!; [done..|]); intros o [= <-];
    [right; by exists out|by left].
Qed.

Lemma deliver_ok w0 h c request prepared now ctx w r w' : holds_in w (ah_contract_id h) PREPARED →
  deliver_confirmation runtime h c request prepared now ctx w = (r, w') →
  at_most_one w w' ∧ ∀ o, r = Ok o → outcome_ok w0 o w'.
Proof.
  intros Hin [[(Hd & Hs & _)%settled_db Ho]|(conf & w3 & r5 & (D3 & S3 & _)%settled_db & Hh & Ho)]%deliver_cases.
  - split; [by apply same_sends|]. intros o [->| ->]%Ho; [done|]. exists (ah_contract_id h). split; [done|]. by eapply holds_in_db.
  - destruct Hin as (m & cc & Hrep & _). rewrite <-D3 in Hrep.
    destruct (handoff_result _ _ _ _ _ _ _ _ Hrep Hh) as (l & Hl & Hlen & Hout). rewrite S3 in Hl. split; [by exists l|].
    intros o [->|(out & -> & ->)]%Ho; [done|]. destruct (Hout out eq_refl) as (m' & c' & ? & ? & <-).
    apply projected_ok. by exists m', c'.
Qed.

(** ** The operation *)

(** Steps that send nothing, whether they return or raise. *)
Definition silent {A} (p : prog (Product E L) A) : Prop := ∀ S, preserves (λ w, sends (c_session (p_core w)) = S) p.

Lemma calm_silent {A} (p : prog (Product E L) A) : calm p → silent p.
Proof.
  intros Hp S w <-. destruct (p w) as [r w'] eqn:Hr. by apply (calm_inv _ _ _ _ Hp), settled_db in Hr as (_ & Hs & _).
Qed.

Lemma silent_bind {A B} (p : prog (Product E L) A) (f : A → prog (Product E L) B) :
  silent p → (∀ x, silent (f x)) → silent (p ≫= f).
Proof. intros Hp Hf S. apply preserves_bind; [apply Hp|]. intros x. apply Hf. Qed.

Lemma silent_catch {A} (p : prog (Product E L) A) h : silent p → (∀ e, silent (h e)) → silent (catch p h).
Proof. intros Hp Hh S. apply preserves_catch; [apply Hp|]. intros e. apply Hh. Qed.

Lemma silent_core {A} (p : prog (Core E L) A) :
  (∀ c r c', p c = (r, c') → sends (c_session c') = sends (c_session c)) → silent (on_core p).
Proof.
  intros Hp S w <-. destruct (on_core p w) as [r w'] eqn:Hr. apply on_core_inv in Hr as (c & Hc & ->). by apply Hp in Hc.
Qed.

Lemma silent_unless {A} (p : prog (Product E L) A) : silent p → silent (unless_bound p).
Proof.
  intros Hp. apply silent_catch; [apply silent_bind; [done|intros; apply calm_silent, calm_ret]|].
  intros e. case_bool_decide; apply calm_silent; [apply calm_ret|apply calm_raise].
Qed.

Lemma calm_find_existing request : calm (find_existing runtime request).
Proof.
  unfold find_existing. apply calm_bind; [apply calm_core, framed_outside|]. intros p.
  apply calm_bind; [apply calm_lift|]. intros k. apply calm_bind; [|intros; apply calm_ret].
  apply calm_core, framed_contracts. intros d. by apply keeps_find, Hw.
Qed.

Lemma silent_resume c request now : silent (resume_existing runtime c request now).
Proof.
  unfold resume_existing. apply silent_bind; [|intros; apply calm_silent, calm_ret].
  apply silent_unless, silent_core. intros x r x' Hx. by apply resume_keeps in Hx as (_ & ? & _).
Qed.

Lemma silent_new request prepared key d s risk cap anc now :
  silent (authorize_new runtime request prepared key d s risk cap anc now).
Proof.
  unfold authorize_new. apply silent_bind; [apply calm_silent, calm_preview|intros _].
  apply silent_bind; [apply calm_silent, calm_look|]. intros f. case_match; [apply calm_silent, calm_ret|].
  apply silent_bind; [apply calm_silent, calm_look|]. intros f2. case_match.
  2: { case_bool_decide; apply calm_silent; [apply calm_ret|apply calm_raise]. }
  apply silent_bind; [apply calm_silent, calm_core, framed_history|]. intros hs. case_match; [apply calm_silent, calm_ret|].
  apply silent_bind; [apply silent_unless, silent_core; intros; by eapply creation_sends|].
  intros [h|]; apply calm_silent; [|apply calm_ret].
  apply calm_catch; [|intros; apply calm_ret]. apply calm_bind; [apply calm_core, framed_load|intros; apply calm_ret].
Qed.

Lemma resume_existing_ok c request now w b w' : reachable store (contracts (p_core w)) →
  stored store (contracts (p_core w)) c → rc_state c = PREPARED →
  resume_existing runtime c request now w = (Ok b, w') → branch_ok w b w'.
Proof.
  intros Hr Hs Hst Hp. destruct (reachable_rep store (wd_clock _ Hw) (quiet_others_behave _ (wd_quiet _ Hw)) _ Hr) as [m Hm].
  apply (stored_lookup store m) in Hs; [|apply Hw|done].
  unfold resume_existing in Hp. apply bind_inv in Hp as (o & w1 & K%unless_bound_inv & Hp). injection Hp as <- <-.
  destruct o as [h|]; [|done]. apply on_core_inv in K as (c1 & K & ->).
  apply resume_keeps in K as (Hd & _ & _ & _ & Hid). specialize (Hid h eq_refl). cbn. rewrite Hid. split; [done|].
  exists m, c. cbn. by rewrite Hd.
Qed.

(** Where the operation stands once the branch is known. *)
Lemma operation_branch request d s risk cap anc now ctx w r w' :
  reachable store (contracts (p_core w)) → dt_valid now = true →
  request_change runtime request d s risk cap anc now ctx w = (r, w') →
  (sends (c_session (p_core w')) = sends (c_session (p_core w)) ∧ ∀ o, r = Ok o → outcome_ok w o w') ∨
  ∃ h c prepared w1, sends (c_session (p_core w1)) = sends (c_session (p_core w)) ∧
    holds_in w1 (ah_contract_id h) PREPARED ∧ deliver_confirmation runtime h c request prepared now ctx w1 = (r, w').
Proof.
  intros Hr Hnow Hp. unfold request_change in Hp. unfold mbind at 1, prog_bind at 1 in Hp.
  destruct (catch _ _ w) as [rf wf] eqn:Hf. unfold catch in Hf. unfold mbind, prog_bind in Hf.
  destruct (find_existing runtime request w) as [[x|e] w1] eqn:Hx; injection Hf as <- <-;
    destruct (settled_db _ _ (calm_inv _ _ _ _ (calm_find_existing _) Hx)) as (D1 & S1 & _).
  2: { injection Hp as <- <-. left. split; [done|by intros o [= <-]]. }
  destruct (find_existing_inv _ _ _ _ Hr Hx) as (p & key & o & e & -> & _ & _ & K1 & Hstored).
  assert (reachable store (contracts (p_core w1))) as Hr1 by by apply (reachable_db (contracts (p_core w))).
  unfold mbind at 1, prog_bind at 1 in Hp.
  match type of Hp with (match ?br w1 with _ => _ end) = _ => destruct (br w1) as [rb w2] eqn:Hb end.
  assert (sends (c_session (p_core w2)) = sends (c_session (p_core w1)) ∧ ∀ b, rb = Ok b →
    branch_ok w b w2 ∨ ∃ i st, b = inl (of_contract (project_recovery_state st) i) ∧ holds_in w2 i st) as [S2 Hbr].
  { destruct o as [c|].
    - destruct (Hstored c eq_refl) as [Hs _]. destruct (negb (state_eqb (rc_state c) PREPARED)) eqn:Est.
      + injection Hb as <- <-. split; [done|]. intros b [= <-]. right. eexists _, _. split; [done|].
        destruct (reachable_rep store (wd_clock _ Hw) (quiet_others_behave _ (wd_quiet _ Hw)) _ Hr1) as [m Hm].
        apply (stored_lookup store m) in Hs; [|apply Hw|done]. by exists m, c.
      + pose proof (silent_resume c request now _ w1 eq_refl) as Hs2. rewrite Hb in Hs2. split; [done|]. intros b ->. left.
        apply negb_false_iff, bool_decide_eq_true in Est. pose proof (resume_existing_ok _ _ _ _ _ _ Hr1 Hs Est Hb) as Hk.
        destruct b as [oc|[h c']]; cbn in Hk |- *; [|done]. by destruct (po_state oc); [rewrite <- K1|..].
    - pose proof (silent_new request p key d s risk cap anc now _ w1 eq_refl) as Hs2. rewrite Hb in Hs2. split; [done|].
      intros b ->. left. apply authorize_new_ok in Hb as [_ Hk]; [|done..].
      destruct b as [oc|[h c']]; cbn in Hk |- *; [|done]. by destruct (po_state oc); [rewrite <- K1|..]. }
  destruct rb as [b|e']; [|injection Hp as <- <-; left; split; [congruence|done]].
  destruct (Hbr b eq_refl) as [Hk|(i & st & -> & Hin)].
  - destruct b as [oc|[h c']].
    + injection Hp as <- <-. left. split; [congruence|]. intros o' [= <-]. unfold outcome_ok. cbn in Hk. by destruct (po_state oc).
    + right. exists h, c', p, w2. split_and!; [congruence|apply Hk|done].
  - injection Hp as <- <-. left. split; [congruence|]. intros o' [= <-]. by apply projected_ok.
Qed.

(** What a call sends, a handoff sends. *)
Lemma operation_sends request d s risk cap anc now ctx w r w' :
  reachable store (contracts (p_core w)) → dt_valid now = true →
  request_change runtime request d s risk cap anc now ctx w = (r, w') →
  sends (c_session (p_core w')) = sends (c_session (p_core w)) ∨
  ∃ h conf x r5 m, rep store (db (contracts x)) m ∧ sends (c_session x) = sends (c_session (p_core w)) ∧
    confirm_and_handoff core h conf now ctx x = (r5, p_core w').
Proof.
  intros Hr Hnow Hp. destruct (operation_branch _ _ _ _ _ _ _ _ _ _ _ Hr Hnow Hp)
    as [[Hs _]|(h & c & p & w1 & Hs & (m & cc & Hm & _) & Hd)]; [by left|].
  apply deliver_cases in Hd as [[(_ & Hs' & _)%settled_db _]|(conf & w3 & r5 & (D3 & S3 & _)%settled_db & Hh & _)].
  - left. by rewrite Hs', Hs.
  - right. exists h, conf, (p_core w3), r5, m. by rewrite D3, S3, Hs.
Qed.

(** [C12] A reported outcome is true of the store.  From any reachable store
    one call of the operation sends at most one request, whether it returns
    or raises.  When it reports AWAITING_CONFIRMATION, PRODUCT_VERIFIED or
    RECONCILIATION_REQUIRED for a contract, the tables are those of a map
    in which that contract is PREPARED, VERIFIED or RECONCILIATION; when
    it reports REQUESTED it names no contract, and the tables, the
    requests, the consumptions, the nonce counter and the handles are as
    they were. *)
Theorem outcome_reported request d s risk cap anc now ctx w r w' :
  reachable store (contracts (p_core w)) → dt_valid now = true →
  request_change runtime request d s risk cap anc now ctx w = (r, w') →
  at_most_one w w' ∧ ∀ o, r = Ok o → outcome_ok w o w'.
Proof.
  intros Hr Hnow Hp. destruct (operation_branch _ _ _ _ _ _ _ _ _ _ _ Hr Hnow Hp)
    as [[Hs Ho]|(h & c & p & w1 & Hs & Hin & Hd)]; [by split; [apply same_sends|]|].
  apply (deliver_ok w) in Hd as [(l & Hl & Hlen) Ho]; [|done]. split; [|done].
  exists l. by rewrite Hl, Hs.
Qed.

(** ** Calling again *)

(** A preparation that fails is a refusal that changes nothing. *)
Lemma refused_preparation request d s risk cap anc now ctx w e e' :
  pt_prepare runtime request (env (contracts (p_core w))) = (Raise e, e') →
  ∃ w', request_change runtime request d s risk cap anc now ctx w = (Ok (without_contract REFUSED), w') ∧
    settled w' = settled w.
Proof.
  intros Hp. destruct (find_existing runtime request w) as [rf w1] eqn:Hf.
  pose proof (calm_inv _ _ _ _ (calm_find_existing _) Hf) as K1.
  assert (∃ e1, rf = Raise e1) as [e1 ->].
  { destruct rf as [x|e1]; [|by exists e1]. unfold find_existing in Hf.
    apply bind_inv in Hf as (p & ? & (c1 & (x1 & He & _)%on_outside_inv & _)%on_core_inv & _). congruence. }
  exists w1. split; [|done]. unfold request_change.
  unfold mbind at 1, prog_bind at 1, catch at 1. unfold mbind at 1, prog_bind at 1. by rewrite Hf.
Qed.

Lemma core_outside {A} (p : prog E A) w r e : p (env (contracts (p_core w))) = (r, e) →
  on_core (on_outside p) w =
    (r, mkProduct (with_contracts (p_core w) (mkWorld (db (contracts (p_core w))) e)) (p_files w)).
Proof.
  unfold contracts, on_core, on_outside, on_env, on_session, on_store, env_call. intros Hp. by rewrite Hp.
Qed.

Lemma core_contracts {A} (p : prog (World E) A) w r x : p (contracts (p_core w)) = (r, x) →
  on_core (on_contracts p) w = (r, mkProduct (with_contracts (p_core w) x) (p_files w)).
Proof. unfold contracts, on_core, on_contracts, on_session, on_store. intros Hp. by rewrite Hp. Qed.

(** A blocking contract that is past PREPARED is reported as it is. *)
Lemma existing_reported request d s risk cap anc now ctx w prepared e' key c :
  reachable store (contracts (p_core w)) →
  pt_prepare runtime request (env (contracts (p_core w))) = (Ok prepared, e') →
  compute_idempotency_key core prepared = Ok key →
  stored store (contracts (p_core w)) c → rc_idempotency_key c = key →
  blocks_fresh_idempotency_attempt (rc_state c) = true → rc_state c ≠ PREPARED →
  ∃ w', request_change runtime request d s risk cap anc now ctx w =
    (Ok (of_contract (project_recovery_state (rc_state c)) (rc_contract_id c)), w') ∧ settled w' = settled w.
Proof.
  intros Hr Hp Hk Hs Hkey Hb Hne. destruct Hw as [Hq Hclock _ _ _ _].
  set (x1 := mkWorld (db (contracts (p_core w))) e').
  assert (reachable store x1) as Hr1 by by apply (reachable_db (contracts (p_core w))).
  destruct (reachable_rep store Hclock (quiet_others_behave _ Hq) _ Hr) as [m Hm].
  assert (stored store x1 c) as Hs1 by (by apply (stored_lookup store m); [..|apply (stored_lookup store m) in Hs]).
  destruct (find_by_key_exact store x1 key Hclock Hq Hr1) as (o & Ho & Hc).
  rewrite (proj2 (Hc c) (conj Hs1 (conj Hkey Hb))) in Ho.
  destruct (find_existing runtime request w) as [rf w1] eqn:Hf.
  pose proof (calm_inv _ _ _ _ (calm_find_existing _) Hf) as K1.
  assert (rf = Ok (prepared, key, Some c)) as ->.
  { pose proof (core_contracts _ (mkProduct (with_contracts (p_core w) x1) (p_files w)) _ _ Ho) as Ho'.
    unfold find_existing in Hf. erewrite bind_ok in Hf by by apply core_outside.
    erewrite bind_ok in Hf by (unfold lift; by rewrite Hk). erewrite bind_ok in Hf by exact Ho'. by injection Hf as <- _. }
  exists w1. split; [|done]. unfold request_change.
  unfold mbind at 1, prog_bind at 1, catch at 1. unfold mbind at 1, prog_bind at 1. rewrite Hf. cbn [mret prog_ret].
  by replace (state_eqb (rc_state c) PREPARED) with false by (symmetry; by apply bool_decide_eq_false).
Qed.
End steps.
