(* ===== verification/ProductionRuntime.v ===== *)
(** * The runtime of the alias description

    [tier1/production_runtime.py]: the product operation of
    [ProductOperation.v] for the alias description, the decision between
    disabled, partial and complete configuration, and the pinned authority
    files.  Opening the witness client, TLS and the transports is not
    modelled. *)

From S2P Require Import Prelude PyStr Sha256 PyDatetime Json Capability StateMachine Canonical PyJson.
From S2P Require Import Contract Evidence Plan SealedApproval Authorization Consumption Coordinator.
From S2P Require Import Crypto StoreCodec Database RatePolicy AntiRollback Store KeyLifecycle.
From S2P Require Import PreparedIntent WriteApi Executor AliasDescription ArtifactExchange WriteCore AliasCore.
From S2P Require Import ProductOperation.

(** What [__init__] keeps; the execution core is the alias core over the
    same preparer and store. *)
Record ProductionAliasDescriptionRuntime (E : Type) : Type := {
  rt_core : WriteExecutionCoreV1 E RawTarget AliasDescriptionPatchV1 AliasDescriptionChangeV1 AliasStateV1;
  rt_prepare : AliasDescriptionChangeV1 → prog E PreparedAliasDescriptionExecutionV1;
  rt_confirmation_authority_id : pystr;
  rt_artifact_integrity_key : bytes;
  rt_operator : Files → prog E Files;
  rt_write : prog E write_outcome }.
Arguments rt_core {_} _.
Arguments rt_prepare {_} _ _.
Arguments rt_confirmation_authority_id {_} _.
Arguments rt_artifact_integrity_key {_} _.
Arguments rt_operator {_} _ _.
Arguments rt_write {_} _.

(** A prepared alias change as the core takes it, and as the preparer made
    it. *)
Definition as_prepared (p : PreparedAliasDescriptionExecutionV1) : PreparedWriteExecutionV1 AliasStateV1 :=
  {| pw_intent := pa_intent p; pw_authoritative_a := pa_authoritative_a p;
     pw_appliance_target_digest := pa_appliance_target_digest p |}.
Definition of_prepared (p : PreparedWriteExecutionV1 AliasStateV1) : PreparedAliasDescriptionExecutionV1 :=
  {| pa_intent := pw_intent p; pa_authoritative_a := pw_authoritative_a p;
     pa_appliance_target_digest := pw_appliance_target_digest p |}.

Section product.
Context `{Hash} `{UnicodeData} `{AESGCM} `{Ed25519} {E L : Type} `{Store : ConsumptionStore L}.
Context (runtime : ProductionAliasDescriptionRuntime E).

(** [_ensure_authorization_preview]: what is written *)
Definition alias_preview (request : AliasDescriptionChangeV1) (prepared : PreparedWriteExecutionV1 AliasStateV1)
    (requested_plan_digest requested_step_id : pystr) (capability : CapabilityPosture) (anchor : AnchorAssurance)
    (now : datetime) : result bytes :=
  preview ← authorization_preview_from_preparation request (of_prepared prepared) requested_plan_digest requested_step_id
              capability anchor now;
  authorization_preview_to_bytes preview (rt_artifact_integrity_key runtime).

(** [_ensure_pending_confirmation_request]: what is written *)
Definition alias_pending (contract : RecoveryContract) (request : AliasDescriptionChangeV1)
    (prepared : PreparedWriteExecutionV1 AliasStateV1) : result bytes :=
  pending ← pending_confirmation_request_from_contract contract (ch_alias_name request)
              (as_descr (pw_authoritative_a prepared)) (ch_description request) (rt_confirmation_authority_id runtime);
  pending_confirmation_request_to_bytes pending (rt_artifact_integrity_key runtime).

Definition alias_product : ProductRuntime E RawTarget AliasDescriptionPatchV1 AliasDescriptionChangeV1 AliasStateV1 := {|
  pt_core := rt_core runtime;
  pt_prepare request := (p ← rt_prepare runtime request; mret (as_prepared p));
  pt_preview := alias_preview; pt_pending := alias_pending;
  pt_operator := rt_operator runtime; pt_write := rt_write runtime |}.

(** [request_alias_description_change] *)
Definition request_alias_description_change (request : AliasDescriptionChangeV1)
    (requested_plan_digest requested_step_id : pystr) (required_risk_class : AuthorizationLevel)
    (capability : CapabilityPosture) (anchor : AnchorAssurance) (now : datetime)
    (acceptance_context : option AcceptanceExecutionContext) : prog (Product E L) ProductOutcome :=
  request_change alias_product request requested_plan_digest requested_step_id required_risk_class capability anchor
    now acceptance_context.

(** [resolve_reconciliation] *)
Definition runtime_resolve_reconciliation (contract_id : pystr) (evidence : ReconciliationEvidence)
    : prog (Product E L) RecoveryContract :=
  on_core (on_contracts (resolve_reconciliation (wc_store (rt_core runtime)) contract_id evidence)).
End product.

(** ** Construction *)

(** [_REQUIRED_VARS] *)
Definition REQUIRED_VARS : list string :=
  ["PFSENSE_TIER1_STORE_PATH"; "PFSENSE_TIER1_STORE_KEY_FILE"; "PFSENSE_TIER1_CONSUMPTION_STORE_PATH";
   "PFSENSE_TIER1_CONSUMPTION_STORE_KEY_FILE"; "PFSENSE_TIER1_ENCRYPTION_KEY_FILE";
   "PFSENSE_TIER1_NONCE_COUNTER_FILE"; "PFSENSE_TIER1_AUTHORIZATION_AUTHORITY_FILE";
   "PFSENSE_TIER1_CONFIRMATION_AUTHORITY_FILE"; "PFSENSE_TIER1_RECONCILIATION_AUTHORITY_FILE";
   "PFSENSE_TIER1_WITNESS_BASE_URL"; "PFSENSE_TIER1_WITNESS_CLIENT_CERT_FILE";
   "PFSENSE_TIER1_WITNESS_CLIENT_KEY_FILE"; "PFSENSE_TIER1_WITNESS_SERVER_CA_FILE";
   "PFSENSE_TIER1_AUTHORIZATION_INBOX_FILE"; "PFSENSE_TIER1_CONFIRMATION_PENDING_FILE";
   "PFSENSE_TIER1_CONFIRMATION_SIGNED_FILE"; "PFSENSE_TIER1_AUTHORIZATION_PREVIEW_FILE"].

(** [_missing_required_vars]: unset and empty variables. *)
Definition missing_required_vars (source : string → option pystr) : list string :=
  filter (λ name, match source name with Some (_ :: _) => false | _ => true end = true) REQUIRED_VARS.

(** The first decision of [build_production_runtime]: disabled ([None]),
    refused, or all variables present. *)
Definition configured_source (source : string → option pystr) : result (option ()) :=
  let missing := missing_required_vars source in
  if (length missing =? length REQUIRED_VARS)%nat then Ok None
  else if (length missing =? 0)%nat then Ok (Some ()) else Raise Tier1ConfigurationError.

Definition AUTHORITY_FILE_MAX_BYTES : nat := N.to_nat 4096.

(** [_load_pinned_authority] *)
Definition load_pinned_authority (n : node) : result PinnedAuthority :=
  f ← open_nofollow Tier1ConfigurationError n;
  _ ← validate_descriptor AUTHORITY_FILE_MAX_BYTES Tier1ConfigurationError f;
  let raw := take (AUTHORITY_FILE_MAX_BYTES + 1) (f_content f) in
  _ ← require (length raw <=? AUTHORITY_FILE_MAX_BYTES)%nat Tier1ConfigurationError;
  text ← of_option (utf8_decode raw) Tier1ConfigurationError;
  value ← of_option (loads_dict (strip text)) Tier1ConfigurationError;
  match value with
  | JObj items =>
    _ ← require (fields_are items [u "authority_id"; u "public_key_hex"]) Tier1ConfigurationError;
    match lookup_item (u "authority_id") items, lookup_item (u "public_key_hex") items with
    | Some (JStr authority_id), Some (JStr public_key_hex) =>
      _ ← require (match_hex64 public_key_hex) Tier1ConfigurationError;
      key ← of_option (fromhex public_key_hex) ValueError;
      match PinnedAuthority_new {| pin_authority_id := authority_id; pin_public_key := key; pin_active := true |} with
      | Ok authority => Ok authority
      | Raise e => Raise Tier1ConfigurationError
      end
    | _, _ => Raise Tier1ConfigurationError
    end
  | _ => Raise Tier1ConfigurationError
  end.

(** The gate on the provisioning record: [seeded] and [complete]. *)
Definition provisioned (status : AnchorProvisioningStatus) : result () :=
  require (aps_seeded status && aps_complete status) Tier1ConfigurationError.
