(* ===== verification/ProductionProps.v ===== *)
(** * Properties of the alias description runtime

    What a repeated call of the product operation reports about an alias
    description that was changed. *)

From S2P Require Import Prelude PyStr Sha256 PyDatetime Json Capability StateMachine Canonical PyJson.
From S2P Require Import Contract Evidence Plan SealedApproval Authorization AuthorizationProps Consumption Coordinator.
From S2P Require Import Crypto StoreCodec Database RatePolicy AntiRollback Store StoreInv StoreOps StoreProps StoreBehaviour.
From S2P Require Import KeyLifecycle PreparedIntent WriteApi Executor ExecutorInv ExecutorProps AliasDescription AliasProps.
From S2P Require Import WriteCore WriteCoreProps AliasCore EndToEnd ProductOperation ProductProps ProductionRuntime.

Section steps.
Context `{Hash} `{UnicodeData} `{AESGCM} `{Ed25519} {E L : Type} `{Store : ConsumptionStore L}.
Context (runtime : ProductionAliasDescriptionRuntime E).
Notation core := (rt_core runtime).
Notation store := (wc_store (rt_core runtime)).
Implicit Types (w : Product E L) (request : AliasDescriptionChangeV1).
Context (Hw : wired core).

(** [C15] What a repeated call reports about a change that was made.  While
    the device shows the requested description, a call is refused: it names
    no contract and changes nothing.  A call reports the verified contract
    of the change exactly from a preparation in which the device shows
    another description, such as after the change was undone by hand: then
    PRODUCT_VERIFIED is reported although the description is not there, and
    nothing is sent. *)
Theorem repeated_call_inverted `{AliasModel} (rc : AliasDescriptionReadClient E) (ct : ConfiguredApplianceTargetV1) request d s risk cap anc now ctx w :
  reachable store (contracts (p_core w)) → rt_prepare runtime = prepare rc ct → 
  (∀ a e', read_named rc (ch_alias_name request) (env (contracts (p_core w))) = (Ok a, e') →
     as_descr a = ch_description request →
     ∃ w', request_alias_description_change runtime request d s risk cap anc now ctx w = (Ok (without_contract REFUSED), w') ∧
       settled w' = settled w) ∧
  (∀ prepared e' key c, prepare rc ct request (env (contracts (p_core w))) = (Ok prepared, e') →
     compute_idempotency_key core (as_prepared prepared) = Ok key →
     stored store (contracts (p_core w)) c → rc_idempotency_key c = key → rc_state c = VERIFIED →
     as_descr (pa_authoritative_a prepared) ≠ ch_description request ∧
     ∃ w', request_alias_description_change runtime request d s risk cap anc now ctx w =
         (Ok (of_contract PRODUCT_VERIFIED (rc_contract_id c)), w') ∧ settled w' = settled w).
Proof.
  intros Hr Hp. split.
  - intros a e' Ha Hd. destruct (prepare rc ct request (env (contracts (p_core w)))) as [[p|e] e1] eqn:Hpr.
    + exfalso. unfold prepare in Hpr. apply bind_inv in Hpr as (name & e2 & [Hn ->]%lift_inv & Hpr).
      assert (name = ch_alias_name request) as ->. 
      { by eapply target_name_inv. }
      apply bind_inv in Hpr as (a' & e3 & Ha' & Hpr). rewrite Ha' in Ha. injection Ha as -> ->.
      by rewrite Hd, pystr_eqb_refl in Hpr.
    + eapply (refused_preparation (alias_product runtime) Hw). cbn. unfold mbind, prog_bind. by rewrite Hp, Hpr.
  - intros prepared e' key c Hpr Hk Hs Hkey Hst. split; [by apply prepare_inv in Hpr as (_ & _ & _ & ? & _)|].
    change PRODUCT_VERIFIED with (project_recovery_state VERIFIED). rewrite <- Hst.
    eapply (existing_reported (alias_product runtime) Hw); [done| |exact Hk|done..| |]; [|by rewrite Hst..].
    cbn. unfold mbind, prog_bind. by rewrite Hp, Hpr.
Qed.
End steps.
