(* ===== verification/SettingsUnit.v ===== *)
(** * The settings capabilities

    [tier1/write_adapter_support.py] and the four capabilities that change
    fields of one settings object of the appliance:
    [tier1/ntp_settings_observability.py], [log_display_preferences.py],
    [log_retention_settings.py] and [system_timezone_write.py].  The four
    modules are one text up to their tables (field names, literals,
    validators), so the adapter and the preparer are modelled once over a
    record of those tables, [SettingsUnit].  The read client is a parameter,
    and so is pydantic's strict validation of a raw object. *)

From S2P Require Import Prelude PyStr Sha256 Json Capability Canonical PyJson Contract Executor.
From S2P Require Import PreparedIntent WriteApi AliasDescription.

(** ** Python values *)

(** [==] on canonical values: [True == 1], dicts up to the order of their
    items. *)
Definition as_number (v : pyobj) : option Z :=
  match v with PBool b => Some (if b then 1 else 0)%Z | PInt z => Some z | _ => None end.
Fixpoint py_eqb (v w : pyobj) : bool :=
  match v, w with
  | PNone, PNone => true
  | PStr s, PStr t => pystr_eqb s t
  | PList l, PList m | PTuple l, PTuple m =>
    (fix all l m := match l, m with [], [] => true | x :: l, y :: m => py_eqb x y && all l m | _, _ => false end) l m
  | PDict l, PDict m =>
    (length l =? length m)%nat &&
    (fix all l := match l with
                  | [] => true
                  | (k, x) :: l => existsb (λ kv, py_eqb k (fst kv) && py_eqb x (snd kv)) m && all l
                  end) l
  | _, _ => match as_number v, as_number w with Some a, Some b => (a =? b)%Z | _, _ => false end
  end.

(** ** Fields *)

(** The values of the fields of a settings object, by name; the order of the
    items of a dict is not observable in anything below. *)
Definition Snapshot : Type := list (string * pyobj).

Definition get_field (k : string) (s : Snapshot) : option pyobj := snd <$> find (λ kv, String.eqb (fst kv) k) s.

Inductive field_type : Type := BoolField | IntField | StrField | OptBoolField | OptStrField | OptStrsField.

(** [isinstance], without [bool] for [int]; what a strict model holds. *)
Definition has_type (t : field_type) (v : pyobj) : bool :=
  match t, v with
  | (BoolField | OptBoolField), PBool _ => true
  | IntField, PInt _ => true
  | (StrField | OptStrField), PStr _ => true
  | (OptBoolField | OptStrField | OptStrsField), PNone => true
  | OptStrsField, PList l => forallb (λ x, negb (is_none (py_str x))) l
  | _, _ => false
  end.

(** [fields_equal] *)
Definition fields_equal (before after : Snapshot) (fields : list string) : bool :=
  forallb (λ k, match get_field k before, get_field k after with Some v, Some w => py_eqb v w | _, _ => false end) fields.

(** [fields_match] *)
Definition fields_match (actual expected : Snapshot) : bool :=
  forallb (λ kv, match get_field (fst kv) actual with Some v => py_eqb v (snd kv) | None => false end) expected.

Definition SINGLETON_LOCATOR : Z := 0.

(** [v not in frozenset(...)]: the hash of the value comes first. *)
Definition in_frozenset (members : list pystr) (v : pyobj) : result () :=
  _ ← require (hashable v) TypeError;
  require (match v with PStr s => existsb (pystr_eqb s) members | _ => false end) PreparedExecutionIntentError.

(** ** The appliance *)

Section appliance.
Context `{Hash} `{UnicodeData}.

(** [write_adapter_support.read_appliance_target_digest] *)
Definition read_adapter_target_digest {E} (netgate pfhost : prog E (option pystr))
    (configured_target : ConfiguredApplianceTargetV1) : prog E pystr :=
  netgate_id ← netgate;
  identity ←
    match nonempty_str netgate_id with
    | Some id => mret (Some (u "netgate_id", id))
    | None => pfhostid ← pfhost;
              mret ((λ id, (u "pfhostid", id)) <$> nonempty_str pfhostid)
    end;
  match identity with
  | None => raise PreparedExecutionIntentError
  | Some (kind, id) =>
    lift (digest_value TARGET_IDENTITY
      (pdict [("configured_base_url", PStr (ct_base_url configured_target));
              ("tls_mode", PStr (tls_mode_value (ct_tls_mode configured_target)));
              ("ca_certificate_digest",
                 match ct_ca_certificate_digest configured_target with Some d => PStr d | None => PNone end);
              ("installation_identity_kind", PStr kind); ("installation_identity", PStr id)])
      [u "configured-pfsense-appliance-v1"])
  end.

End appliance.

(** ** What a capability fixes *)

Record SettingsUnit : Type := {
  su_semantic_unit : pystr;
  su_endpoint_symbol : pystr;
  su_capability : Capability;
  su_adapter_version : pystr;
  su_rollback_version : pystr;
  su_resource : pystr;
  su_fields : list (string * field_type);             (* of the settings model *)
  su_allowed : list string;                           (* [_ALLOWED_FIELDS] *)
  su_request : Snapshot → option Snapshot;            (* the request model: what it keeps *)
  su_from_model : Snapshot → result Snapshot;         (* [from_model] of the state *)
  su_intent_check : string → pyobj → result ();       (* the check of a field in [_intent] *)
  su_fingerprint_check : string → pyobj → bool;       (* the check of a field in [_fingerprint] *)
}.

Definition su_names (unit : SettingsUnit) : list string := (su_fields unit).*1.

Definition su_forbidden (unit : SettingsUnit) : list string :=
  filter (λ k, existsb (String.eqb k) (su_allowed unit) = false) (su_names unit).

Definition field_type_of (unit : SettingsUnit) (k : string) : option field_type :=
  snd <$> find (λ kv, String.eqb (fst kv) k) (su_fields unit).

Definition typed_field (unit : SettingsUnit) (k : string) (v : pyobj) : bool :=
  match field_type_of unit k with Some t => has_type t v | None => false end.

(** [_IDENTITY] *)
Definition su_identity (unit : SettingsUnit) : pyobj := pdict [("resource", PStr (su_resource unit))].

(** [v == _IDENTITY] *)
Definition is_identity (unit : SettingsUnit) (v : pyobj) : bool := py_eqb v (su_identity unit).

(** A request: every allowed field with its value, as the model keeps it. *)
Definition SettingsChange_new (unit : SettingsUnit) (values : Snapshot) : result Snapshot :=
  of_option (su_request unit values) ValueError.

(** A PATCH body: the allowed fields and their values. *)
Record SettingsPatch : Type := { sp_values : Snapshot }.

(** ** Protected values, read back *)

Section values.
Context (unit : SettingsUnit).

(** The checks of [_intent] on the fields, in their order. *)
Fixpoint check_fields (d : list (pyobj * pyobj)) (fields : list string) : result Snapshot :=
  match fields with
  | [] => Ok []
  | k :: fields =>
    v ← of_option (item k d) KeyError;
    _ ← su_intent_check unit k v;
    rest ← check_fields d fields;
    Ok ((k, v) :: rest)
  end.

(** [_intent]: the values of the allowed fields. *)
Definition settings_intent (value : pyobj) : result Snapshot :=
  d ← of_option (py_dict value) PreparedExecutionIntentError;
  _ ← require (keys_are (["operation"; "raw_target_hint"; "appliance_target_digest"] ++ su_allowed unit) d)
        PreparedExecutionIntentError;
  _ ← require (match item "operation" d with Some v => py_eqb v (PStr (su_semantic_unit unit)) | None => false end)
        PreparedExecutionIntentError;
  _ ← require (match item "raw_target_hint" d with Some v => is_identity unit v | None => false end)
        PreparedExecutionIntentError;
  _ ← of_option (item "appliance_target_digest" d ≫= py_str) PreparedExecutionIntentError;
  check_fields d (su_allowed unit).

(** [_fingerprint] *)
Definition settings_fingerprint (value : pyobj) : result (list (pyobj * pyobj)) :=
  d ← of_option (py_dict value) PreparedExecutionIntentError;
  _ ← require (keys_are (su_names unit) d) PreparedExecutionIntentError;
  _ ← require (forallb (λ k, match item k d with Some v => su_fingerprint_check unit k v | None => false end)
                 (su_names unit)) PreparedExecutionIntentError;
  Ok d.

(** [_patch_from_values] *)
Definition patch_from_values (value_of : string → option pyobj) : result SettingsPatch :=
  values ← mapM (λ k, v ← of_option (value_of k) KeyError; Ok (k, v)) (su_allowed unit);
  _ ← require (forallb (λ kv, typed_field unit (fst kv) (snd kv)) values) PreparedExecutionIntentError;
  Ok {| sp_values := values |}.
End values.

(** ** The adapter *)

(** What [read_target] returns, or the dict of a target hint. *)
Inductive RawSettings : Type := RawSnapshot (s : Snapshot) | RawDict (v : pyobj).

(** What pydantic holds in a validated settings model: every field with its
    type, and no lone surrogate in a text. *)
Definition scalar_value (v : pyobj) : bool :=
  match v with
  | PStr s => forallb is_scalar s
  | PList l => forallb (λ x, match x with PStr s => forallb is_scalar s | _ => true end) l
  | _ => true
  end.
Definition model_ok (unit : SettingsUnit) (s : Snapshot) : Prop :=
  s.*1 = su_names unit ∧ Forall (λ kv, typed_field unit (fst kv) (snd kv) = true ∧ scalar_value (snd kv) = true) s.

(** [Model.model_validate(value, strict=True)]: a dict of the fields with
    their types is accepted, in any order, and gives the model. *)
Class SettingsModel (unit : SettingsUnit) : Type := {
  settings_validate : pyobj → option Snapshot;
  settings_validate_fields s l : model_ok unit s → l ≡ₚ s → settings_validate (pdict l) = Some s;
}.
Arguments settings_validate _ {_} _.

Record SettingsReadClient (E : Type) : Type := {
  get_settings : prog E Snapshot;
  st_netgate_id : prog E (option pystr);
  st_pfhostid : prog E (option pystr);
}.
Arguments get_settings {_} _.
Arguments st_netgate_id {_} _.
Arguments st_pfhostid {_} _.

Record PreparedSettingsExecution : Type := {
  ps_intent : PreparedExecutionIntentV1; ps_authoritative_a : Snapshot; ps_appliance_target_digest : pystr }.

Section adapter.
Context `{Hash} `{UnicodeData} {E : Type} (unit : SettingsUnit) `{!SettingsModel unit} (read_client : SettingsReadClient E).

(** [_state] *)
Definition settings_state (raw_target : RawSettings) : result Snapshot :=
  match raw_target with
  | RawSnapshot s => Ok s
  | RawDict v =>
    d ← of_option (py_dict v) PreparedExecutionIntentError;
    _ ← require (keys_are (su_names unit) d) PreparedExecutionIntentError;
    s ← of_option (settings_validate unit v) PreparedExecutionIntentError;
    su_from_model unit s
  end.

(** [read_target] *)
Definition settings_read_target (natural_identity : pyobj) : prog E Snapshot :=
  if negb (is_identity unit natural_identity) then raise PreparedExecutionIntentError else
  settings ← get_settings read_client;
  lift (su_from_model unit settings).

Definition settings_build_request (intent : pyobj) : result (option SettingsPatch) :=
  normalized ← settings_intent unit intent;
  patch ← patch_from_values unit (λ k, get_field k normalized);
  Ok (Some patch).

(** [is_semantically_verified]; a capability with no other field does not
    look at the target before. *)
Definition settings_verified (pre post : RawSettings) (intent : pyobj) : result bool :=
  before ← match su_forbidden unit with [] => Ok [] | _ => settings_state pre end;
  after ← settings_state post;
  requested ← settings_intent unit intent;
  Ok (fields_match after requested && fields_equal before after (su_forbidden unit)).

Definition settings_build_rollback_request (pre : pyobj) : result (option SettingsPatch) :=
  fingerprint ← settings_fingerprint unit pre;
  patch ← patch_from_values unit (λ k, item k fingerprint);
  Ok (Some patch).

Definition settings_rollback_verified (pre : pyobj) (post_rollback : RawSettings) : result bool :=
  fingerprint ← settings_fingerprint unit pre;
  state ← settings_state post_rollback;
  Ok (py_eqb (PDict fingerprint) (pdict state)).

Definition SettingsAdapter : CapabilityAdapter E RawSettings SettingsPatch := {|
  ad_endpoint_symbol := su_endpoint_symbol unit; ad_http_method := HTTP_METHOD; ad_capability := su_capability unit;
  read_target identity := (s ← settings_read_target identity; mret (RawSnapshot s));
  natural_identity raw_target := (_ ← settings_state raw_target; Ok (su_identity unit));
  fingerprint raw_target := (s ← settings_state raw_target; Ok (pdict s));
  transport_locator raw_target := (_ ← settings_state raw_target; Ok SINGLETON_LOCATOR);
  build_request intent _ := settings_build_request intent;
  parse_response _ := Ok ();
  is_semantically_verified := settings_verified;
  build_rollback_request pre _ := settings_build_rollback_request pre;
  is_rollback_verified := settings_rollback_verified |}.

(** ** The preparer *)

Context (configured_target : ConfiguredApplianceTargetV1).

(** [requested == current]: both have the allowed fields. *)
Definition same_values (requested current : Snapshot) : bool := fields_equal requested current (su_allowed unit).

Definition settings_intent_items (request : Snapshot) (appliance_digest : pystr) : list (string * pyobj) :=
  [("operation", PStr (su_semantic_unit unit)); ("raw_target_hint", su_identity unit);
   ("appliance_target_digest", PStr appliance_digest)] ++ request.

(** [prepare] *)
Definition settings_prepare (request : Snapshot) : prog E PreparedSettingsExecution :=
  state ← settings_read_target (su_identity unit);
  if same_values request state then raise PreparedExecutionIntentError else
  appliance_digest ← read_adapter_target_digest (st_netgate_id read_client) (st_pfhostid read_client) configured_target;
  prepared ← lift (PreparedExecutionIntentV1_new PREPARED_EXECUTION_INTENT_SCHEMA_VERSION (su_capability unit)
    (su_endpoint_symbol unit) HTTP_METHOD (su_adapter_version unit) (su_identity unit) (pdict state)
    (pdict (settings_intent_items request appliance_digest)) (pdict state) (su_rollback_version unit));
  mret {| ps_intent := prepared; ps_authoritative_a := state; ps_appliance_target_digest := appliance_digest |}.
End adapter.
