(* ===== verification/SettingsUnits.v ===== *)
(** * The four settings capabilities of batch 1

    The tables of [tier1/ntp_settings_observability.py],
    [log_display_preferences.py], [log_retention_settings.py] and
    [system_timezone_write.py], with the fields of the models
    [models/ntp_settings.py], [models/log_settings.py] and
    [models/system_timezone.py]. *)

From S2P Require Import Prelude PyStr Sha256 Json Capability Canonical PyJson Executor AliasDescription SettingsUnit.

Definition is_type (t : field_type) (v : pyobj) : result () := require (has_type t v) PreparedExecutionIntentError.

(** A request with exactly these fields, all of their types. *)
Definition request_fields (fields : list (string * field_type)) (values : Snapshot) : bool :=
  bool_decide (values.*1 = fields.*1) &&
  forallb (λ kt, match get_field (fst kt) values with Some v => has_type (snd kt) v | None => false end) fields.

Definition in_range_field (k : string) (lo hi : Z) (values : Snapshot) : bool :=
  match get_field k values with Some (PInt z) => ((lo <=? z) && (z <=? hi))%Z | _ => false end.
Definition one_of_field (k : string) (members : list pystr) (values : Snapshot) : bool :=
  match get_field k values with Some (PStr s) => existsb (pystr_eqb s) members | _ => false end.

Definition keep_if (b : bool) (values : Snapshot) : option Snapshot := if b then Some values else None.

(** ** NTP observability *)

Definition NTP_FIELDS : list (string * field_type) :=
  [("logpeer", BoolField); ("logsys", BoolField); ("clockstats", BoolField); ("loopstats", BoolField);
   ("peerstats", BoolField); ("statsgraph", BoolField); ("enable", BoolField); ("interface", OptStrsField);
   ("leapsec", OptStrField); ("dnsresolv", StrField); ("ntpmaxpeers", IntField); ("ntpmaxpoll", OptStrField);
   ("ntpminpoll", OptStrField); ("orphan", IntField); ("serverauth", BoolField); ("serverauthalgo", StrField)].
Definition NTP_ALLOWED : list string := ["logpeer"; "logsys"; "clockstats"; "loopstats"; "peerstats"; "statsgraph"].

Definition NtpSettingsObservability : SettingsUnit := {|
  su_semantic_unit := u "set_ntp_settings_observability_v1";
  su_endpoint_symbol := u "NTP_SETTINGS_OBSERVABILITY_TOGGLES";
  su_capability := NTP_SETTINGS_OBSERVABILITY_WRITE;
  su_adapter_version := u "ntp-settings-observability-v1";
  su_rollback_version := u "ntp-settings-observability-rollback-v1";
  su_resource := u "ntp_settings";
  su_fields := NTP_FIELDS; su_allowed := NTP_ALLOWED;
  su_request values := keep_if (request_fields (map (λ k, (k, BoolField)) NTP_ALLOWED) values) values;
  su_from_model s := Ok s;
  su_intent_check _ v := is_type BoolField v;
  su_fingerprint_check _ _ := true |}.

(** ** The log settings *)

Definition LOG_FIELDS : list (string * field_type) :=
  [("format", StrField); ("reverseorder", BoolField); ("nentries", IntField); ("nologdefaultblock", BoolField);
   ("nologdefaultpass", BoolField); ("nologbogons", BoolField); ("nologprivatenets", BoolField);
   ("nolognginx", BoolField); ("rawfilter", BoolField); ("disablelocallogging", BoolField);
   ("logconfigchanges", BoolField); ("filterdescriptions", IntField); ("logfilesize", IntField);
   ("rotatecount", IntField); ("logcompressiontype", StrField); ("enableremotelogging", BoolField);
   ("ipprotocol", OptStrField); ("sourceip", OptStrField); ("remoteserver", OptStrField);
   ("remoteserver2", OptStrField); ("remoteserver3", OptStrField); ("logall", OptBoolField);
   ("filter", OptBoolField); ("dhcp", OptBoolField); ("auth", OptBoolField); ("portalauth", OptBoolField);
   ("vpn", OptBoolField); ("dpinger", OptBoolField); ("hostapd", OptBoolField); ("system", OptBoolField);
   ("resolver", OptBoolField); ("ppp", OptBoolField); ("routing", OptBoolField); ("ntpd", OptBoolField)].

Definition FORMAT_VALUES : list pystr := [u "rfc3164"; u "rfc5424"].
Definition COMPRESSION_VALUES : list pystr := [u "bzip2"; u "gzip"; u "xz"; u "zstd"; u "none"].

Definition DISPLAY_FIELDS : list (string * field_type) :=
  [("format", StrField); ("reverseorder", BoolField); ("nentries", IntField); ("filterdescriptions", IntField);
   ("rawfilter", BoolField)].

(** [LogDisplayPreferencesChangeV1] and its validators *)
Definition display_request (values : Snapshot) : option Snapshot :=
  keep_if (request_fields DISPLAY_FIELDS values && one_of_field "format" FORMAT_VALUES values &&
           in_range_field "filterdescriptions" 0 2 values && in_range_field "nentries" 0 1000000 values) values.

(** [filterdescriptions not in (0, 1, 2)]: a tuple, so [True] is in it. *)
Definition in_0_1_2 (v : pyobj) : bool :=
  match as_number v with Some z => ((0 <=? z) && (z <=? 2))%Z | None => false end.

Definition display_intent_check (k : string) (v : pyobj) : result () :=
  if String.eqb k "format" then in_frozenset FORMAT_VALUES v
  else if String.eqb k "nentries" then is_type IntField v
  else if String.eqb k "filterdescriptions" then require (in_0_1_2 v) PreparedExecutionIntentError
  else is_type BoolField v.

Definition LogDisplayPreferences : SettingsUnit := {|
  su_semantic_unit := u "set_log_display_preferences_v1";
  su_endpoint_symbol := u "LOG_DISPLAY_PREFERENCES";
  su_capability := LOG_DISPLAY_PREFERENCES_WRITE;
  su_adapter_version := u "log-display-preferences-v1";
  su_rollback_version := u "log-display-preferences-rollback-v1";
  su_resource := u "status_logs_settings";
  su_fields := LOG_FIELDS; su_allowed := DISPLAY_FIELDS.*1;
  su_request := display_request;
  su_from_model s := Ok s;
  su_intent_check := display_intent_check;
  su_fingerprint_check _ _ := true |}.

Definition RETENTION_FIELDS : list (string * field_type) :=
  [("logfilesize", IntField); ("rotatecount", IntField); ("logcompressiontype", StrField)].

(** [LogRetentionSettingsChangeV1] and its validators *)
Definition retention_request (values : Snapshot) : option Snapshot :=
  keep_if (request_fields RETENTION_FIELDS values && in_range_field "logfilesize" 1 2147483647 values &&
           in_range_field "rotatecount" 0 100000 values && one_of_field "logcompressiontype" COMPRESSION_VALUES values)
    values.

Definition retention_intent_check (k : string) (v : pyobj) : result () :=
  if String.eqb k "logcompressiontype" then in_frozenset COMPRESSION_VALUES v else is_type IntField v.

Definition LogRetentionSettings : SettingsUnit := {|
  su_semantic_unit := u "set_log_retention_settings_v1";
  su_endpoint_symbol := u "LOG_RETENTION_SETTINGS";
  su_capability := LOG_RETENTION_SETTINGS_WRITE;
  su_adapter_version := u "log-retention-settings-v1";
  su_rollback_version := u "log-retention-settings-rollback-v1";
  su_resource := u "status_logs_settings";
  su_fields := LOG_FIELDS; su_allowed := RETENTION_FIELDS.*1;
  su_request := retention_request;
  su_from_model s := Ok s;
  su_intent_check := retention_intent_check;
  su_fingerprint_check _ _ := true |}.

(** ** The time zone *)

(** [_TIMEZONE] *)
Definition match_timezone (s : pystr) : bool :=
  (0 <? length s)%nat && (length s <=? 64)%nat &&
  forallb (λ c, is_alnum c || (c =? 95) || (c =? 43) || (c =? 45) || (c =? 47))%N s.
Definition is_timezone (v : pyobj) : bool := match v with PStr s => match_timezone s | _ => false end.

Section timezone.
Context `{UnicodeData}.

(** [SystemTimezoneChangeV1] *)
Definition timezone_request (values : Snapshot) : option Snapshot :=
  match values with
  | [("timezone", PStr s)] => keep_if (match_timezone (nfc s)) [("timezone", PStr (nfc s))]
  | _ => None
  end.

(** [SystemTimezoneStateV1.from_model] *)
Definition timezone_from_model (s : Snapshot) : result Snapshot :=
  match get_field "timezone" s with
  | Some (PStr tz) =>
    _ ← require (match_timezone (nfc tz)) PreparedExecutionIntentError;
    Ok [("timezone", PStr (nfc tz))]
  | _ => Raise PreparedExecutionIntentError
  end.

Definition SystemTimezone : SettingsUnit := {|
  su_semantic_unit := u "set_system_timezone_v1";
  su_endpoint_symbol := u "SYSTEM_TIMEZONE";
  su_capability := SYSTEM_TIMEZONE_WRITE;
  su_adapter_version := u "system-timezone-v1";
  su_rollback_version := u "system-timezone-rollback-v1";
  su_resource := u "system_timezone";
  su_fields := [("timezone", StrField)]; su_allowed := ["timezone"];
  su_request := timezone_request;
  su_from_model := timezone_from_model;
  su_intent_check _ v := require (is_timezone v) PreparedExecutionIntentError;
  su_fingerprint_check _ v := is_timezone v |}.
End timezone.

(** ** The adapters and preparers *)

Section adapters.
Context `{Hash} `{UnicodeData} {E : Type} (read_client : SettingsReadClient E) (configured_target : ConfiguredApplianceTargetV1).
Context `{!SettingsModel NtpSettingsObservability} `{!SettingsModel LogDisplayPreferences}.
Context `{!SettingsModel LogRetentionSettings} `{!SettingsModel SystemTimezone}.

Definition NtpSettingsObservabilityAdapterV1 : CapabilityAdapter E RawSettings SettingsPatch :=
  SettingsAdapter NtpSettingsObservability read_client.
Definition LogDisplayPreferencesAdapterV1 : CapabilityAdapter E RawSettings SettingsPatch :=
  SettingsAdapter LogDisplayPreferences read_client.
Definition LogRetentionSettingsAdapterV1 : CapabilityAdapter E RawSettings SettingsPatch :=
  SettingsAdapter LogRetentionSettings read_client.
Definition SystemTimezoneAdapterV1 : CapabilityAdapter E RawSettings SettingsPatch :=
  SettingsAdapter SystemTimezone read_client.

Definition NtpSettingsObservabilityPreparerV1 : Snapshot → prog E PreparedSettingsExecution :=
  settings_prepare NtpSettingsObservability read_client configured_target.
Definition LogDisplayPreferencesPreparerV1 : Snapshot → prog E PreparedSettingsExecution :=
  settings_prepare LogDisplayPreferences read_client configured_target.
Definition LogRetentionSettingsPreparerV1 : Snapshot → prog E PreparedSettingsExecution :=
  settings_prepare LogRetentionSettings read_client configured_target.
Definition SystemTimezonePreparerV1 : Snapshot → prog E PreparedSettingsExecution :=
  settings_prepare SystemTimezone read_client configured_target.
End adapters.
