(* ===== verification/PyDict.v ===== *)
(** * Dicts of fields

    What the adapters of the capabilities share: lookups in a dict that was
    frozen and thawed, in whatever order its items came back, and [==] on
    the values of fields. *)

From S2P Require Import Prelude PyStr Sha256 Json Capability Canonical PyJson Literals Contract Executor.
From S2P Require Import PreparedIntent StoreInv AliasDescription AliasProps SettingsUnit.

Lemma u_inj s t : u s = u t → s = t.
Proof.
  unfold u. intros Hu. rewrite <-(String.string_of_list_ascii_of_string s), <-(String.string_of_list_ascii_of_string t).
  f_equal. revert Hu. generalize (String.list_ascii_of_string s), (String.list_ascii_of_string t).
  intros l. induction l as [|a l IH]; intros [|b m]; try done. intros [= Hab Hl]. f_equal; [|by apply IH].
  by rewrite <-(Ascii.ascii_N_embedding a), Hab, Ascii.ascii_N_embedding.
Qed.

(** The items of a dict with text keys. *)
Definition items (l : Snapshot) : list (pyobj * pyobj) := map (λ kv, (PStr (u (fst kv)), snd kv)) l.

Lemma get_field_in k v (l : Snapshot) : NoDup l.*1 → (k, v) ∈ l → get_field k l = Some v.
Proof.
  intros Hn Hin. unfold get_field. induction l as [|[k' v'] l IH]; [by apply not_elem_of_nil in Hin|].
  cbn [fmap list_fmap fst find] in *. apply NoDup_cons in Hn as [Hk Hn]. destruct (String.eqb_spec k' k) as [->|Hne].
  - apply elem_of_cons in Hin as [[= ->]|Hin]; [done|]. destruct Hk. apply list_elem_of_fmap. by exists (k, v).
  - apply elem_of_cons in Hin as [[= -> ->]|Hin]; [done|]. by apply IH.
Qed.

Lemma get_field_elem k v (l : Snapshot) : get_field k l = Some v → (k, v) ∈ l.
Proof.
  unfold get_field. intros ([k' v'] & Hf & [= <-])%fmap_Some. apply find_some in Hf as [Hin Hk].
  apply String.eqb_eq in Hk as <-. by apply list_elem_of_In.
Qed.

Lemma get_field_key k (l : Snapshot) : k ∈ l.*1 → ∃ v, get_field k l = Some v.
Proof.
  intros Hin. destruct (get_field k l) as [v|] eqn:Hg; [by exists v|]. exfalso. unfold get_field in Hg.
  destruct (find _ l) eqn:Hf; [done|]. apply list_elem_of_fmap in Hin as ([k' v'] & -> & Hin).
  apply list_elem_of_In in Hin. pose proof (find_none _ _ Hf _ Hin) as Hne. cbn in Hne. by rewrite String.eqb_refl in Hne.
Qed.

Lemma get_field_perm k (l l' : Snapshot) : NoDup l.*1 → l ≡ₚ l' → get_field k l = get_field k l'.
Proof.
  intros Hn Hp. assert (NoDup l'.*1) as Hn' by by rewrite <-Hp.
  destruct (get_field k l) as [v|] eqn:Hg.
  - apply get_field_elem in Hg. symmetry. apply get_field_in; [done|]. by rewrite <-Hp.
  - destruct (get_field k l') as [v|] eqn:Hg'; [|done]. apply get_field_elem in Hg'. rewrite <-Hp in Hg'.
    by rewrite (get_field_in _ _ _ Hn Hg') in Hg.
Qed.

Lemma item_items k l : item k (items l) = get_field k l.
Proof.
  unfold item, get_field, items. induction l as [|[k' v] l IH]; [done|]. cbn [map find fst snd].
  destruct (String.eqb_spec k' k) as [->|Hne]; [by rewrite pystr_eqb_refl|].
  destruct (pystr_eqb (u k') (u k)) eqn:He; [|exact IH]. apply pystr_eqb_eq in He. by apply u_inj in He.
Qed.

Lemma keys_are_items ks l : keys_are ks (items l) = true ↔ (∀ k, k ∈ ks ↔ k ∈ l.*1).
Proof.
  unfold keys_are. rewrite andb_true_iff, !forallb_forall. split.
  - intros [H1 H2] k. split.
    + intros Hk%list_elem_of_In. specialize (H2 k Hk). rewrite item_items in H2.
      destruct (get_field k l) as [v|] eqn:Hg; [|done]. apply get_field_elem in Hg. apply list_elem_of_fmap. by exists (k, v).
    + intros ([k' v] & -> & Hin)%list_elem_of_fmap. specialize (H1 (PStr (u k'), v)). cbn [fst] in H1.
      assert (In (PStr (u k'), v) (items l)) as Hi.
      { apply in_map_iff. exists (k', v). split; [done|]. by apply list_elem_of_In. }
      apply H1, existsb_exists in Hi as (k'' & Hk & He%pystr_eqb_eq%u_inj). subst. by apply list_elem_of_In.
  - intros Hk. split.
    + intros kv (kv' & <- & Hin)%in_map_iff. cbn [fst]. apply existsb_exists. exists (fst kv').
      rewrite pystr_eqb_refl. split; [|done]. apply list_elem_of_In, Hk, list_elem_of_fmap. exists kv'.
      by rewrite list_elem_of_In.
    + intros k Hin%list_elem_of_In. rewrite item_items. apply Hk, get_field_key in Hin as [v ->]. done.
Qed.

(** ** Values in canonical form *)

Section canonical_values.
Context `{Hash} `{UnicodeData}.

Definition normal_leaf (v : pyobj) : pyobj := match v with PStr s => PStr (nfc s) | _ => v end.
Definition normal (v : pyobj) : pyobj :=
  match v with
  | PList l => PList (map normal_leaf l)
  | PDict l => PDict (map (λ kv, (normal_leaf (fst kv), normal_leaf (snd kv))) l)
  | _ => normal_leaf v
  end.
Definition normal_items (l : Snapshot) : Snapshot := map (λ kv, (fst kv, normal (snd kv))) l.

(** The shapes of the values of a settings object, and of an identity. *)
Definition shape (v : pyobj) : bool :=
  match v with
  | PNone | PBool _ | PInt _ | PStr _ => true
  | PList l => forallb (λ x, negb (is_none (py_str x))) l
  | PDict [(PStr k, PStr s)] => true
  | _ => false
  end.

Lemma shape_type t v : has_type t v = true → shape v = true.
Proof. by destruct t, v. Qed.

Lemma normal_type t v : has_type t v = true → has_type t (normal v) = true.
Proof.
  destruct t, v; try done. cbn [has_type normal normal_leaf]. induction l as [|x l IH]; [done|].
  cbn [forallb map]. rewrite !andb_true_iff. intros [Hx Hl]. split; [by destruct x|by apply IH].
Qed.

Lemma denote_leaves d l xs : forallb (λ x, negb (is_none (py_str x))) l = true → mapM (denote d) l = Some xs →
  map py_of_json (map sort_keys xs) = map normal_leaf l.
Proof.
  revert xs. induction l as [|v l IH]; intros xs Hl Hm; [by injection Hm as <-|].
  cbn [forallb] in Hl. apply andb_true_iff in Hl as [Hv Hl]. rewrite mapM_cons in Hm.
  apply bind_Some in Hm as (x & Hx & (r & Hr & [= <-])%bind_Some). cbn [map]. f_equal; [|by apply IH].
  destruct v; try done. by apply denote_str_nfc in Hx as ->.
Qed.

Lemma denote_shape d v x : shape v = true → denote d v = Some x → py_of_json (sort_keys x) = normal v.
Proof.
  destruct v as [| | | | |l| |l|]; try done; intros Hs Hx.
  - by apply denote_pnone in Hx as ->.
  - by apply denote_pbool in Hx as ->.
  - by apply denote_int_eq in Hx as ->.
  - by apply denote_str_nfc in Hx as ->.
  - apply denote_plist in Hx as (xs & -> & Hxs). cbn [sort_keys py_of_json normal]. f_equal. by eapply denote_leaves.
  - destruct l as [|[[| | | |k| | | |] [| | | |s| | | |]] [|]]; try done.
    pose proof (denote_shallow _ _ _ Hx) as Hd. rewrite denote_dict in Hx by done. destruct (too_big _); [done|].
    apply bind_Some in Hx as (es & Hes & Hx). case_decide; [|done]. injection Hx as <-.
    cbn [mapM] in Hes. apply bind_Some in Hes as ([k' x'] & He & Hes). injection Hes as <-.
    unfold denote_entry in He. cbn [fst snd] in He. apply bind_Some in He as (k2 & Hk & (x2 & Hx & [= <- <-])%bind_Some).
    apply denote_str_nfc in Hx as ->. apply ok_string_nfc in Hk as ->. done.
Qed.

(** What a dict of such values is after it was frozen and thawed. *)
Lemma frozen_items l b f : Forall (λ kv, shape (snd kv) = true) l → forallb (λ kv, is_ascii (u (fst kv))) l = true →
  validated_frozen (pdict l) b = Ok f → ∃ l', py_of_json (thaw f) = pdict l' ∧ l' ≡ₚ normal_items l.
Proof.
  intros Hs Ha (j & [Hd _]%validate_denote & ->)%validated_frozen_inv. rewrite thaw_freeze.
  apply denote_pdict in Hd as (es & -> & Hk & Hf); [|done]. cbn [sort_keys py_of_json].
  set (F := λ kv : pystr * json, (PStr (fst kv), py_of_json (snd kv))).
  set (es' := map (λ kv, (fst kv, sort_keys (snd kv))) es).
  assert (map F es' = items (normal_items l)) as He.
  { subst F es'. clear Ha. revert es Hk Hf. induction Hs as [|[k v] l Hv _ IH]; intros es Hk Hf.
    - by apply Forall2_nil_inv_l in Hf as ->.
    - apply Forall2_cons_inv_l in Hf as ([k' x] & es' & Hx & Hf & ->). cbn [fmap list_fmap map fst snd] in *.
      injection Hk as -> Hk. rewrite (denote_shape _ _ _ Hv Hx), (IH es' Hk Hf). done. }
  assert (map F (sort_items es') ≡ₚ items (normal_items l)) as Hp.
  { rewrite <-He. by apply fmap_Permutation, sort_items_perm. }
  apply Permutation_map_inv in Hp as (l' & Hl & Hp). exists l'. split; [|by symmetry].
  unfold pdict. fold F. f_equal. exact Hl.
Qed.
End canonical_values.

(** ** Equality *)

Lemma py_eqb_type t v w : has_type t v = true → has_type t w = true → py_eqb v w = true ↔ v = w.
Proof.
  intros Hv Hw. destruct t, v, w; try done; cbn [py_eqb as_number].
  all: try (rewrite Z.eqb_eq || rewrite pystr_eqb_eq; split; congruence).
  all: try (destruct b, b0; split; done).
  revert l0 Hv Hw. cbn [has_type]. induction l as [|x l IH]; intros [|y m] Hv Hw; try done.
  cbn [forallb] in Hv, Hw. apply andb_true_iff in Hv as [Hx Hl], Hw as [Hy Hm].
  destruct x; try done. destruct y; try done. cbn [py_eqb]. rewrite andb_true_iff, (IH m Hl Hm), pystr_eqb_eq.
  split; [intros [-> [= ->]]; done|by intros [= -> ->]].
Qed.

Lemma identity_eq unit : is_identity unit (su_identity unit) = true.
Proof.
  unfold is_identity, su_identity, pdict. cbn [map fst snd py_eqb length existsb andb orb Nat.eqb].
  by rewrite !pystr_eqb_refl.
Qed.

(** Two dicts of values with the same types. *)
Lemma py_eqb_items (l m : Snapshot) : NoDup l.*1 → m.*1 = l.*1 →
  (∀ k v w, (k, v) ∈ l → (k, w) ∈ m → py_eqb v w = true ↔ v = w) →
  ∀ l', l' ≡ₚ l → py_eqb (pdict l') (pdict m) = true ↔ l = m.
Proof.
  intros Hn Hm Heq l' Hp. unfold pdict. change (py_eqb (PDict (items l')) (PDict (items m)) = true ↔ l = m).
  assert (py_eqb (PDict (items l')) (PDict (items m)) =
    ((length l' =? length m)%nat && forallb (λ kv, existsb (λ kw, pystr_eqb (u (fst kv)) (u (fst kw)) && py_eqb (snd kv) (snd kw)) m) l')) as ->.
  { cbn [py_eqb]. unfold items at 1 2. rewrite !length_map. f_equal. clear Hp. induction l' as [|[k v] l' IH]; [done|].
    cbn [items map forallb fst snd]. f_equal; [|exact IH]. clear IH Hn Hm Heq. induction m as [|[k' w] m IH]; [done|].
    cbn [items map existsb fst snd]. f_equal. exact IH. }
  rewrite andb_true_iff, Nat.eqb_eq, forallb_forall. split.
  - intros [_ Hall]. assert (∀ k v, (k, v) ∈ l → (k, v) ∈ m) as Hsub.
    { intros k v Hin. assert (In (k, v) l') as Hi by (apply list_elem_of_In; by rewrite Hp).
      apply Hall, existsb_exists in Hi as ([k' w] & Hw & [He%pystr_eqb_eq%u_inj Hvw]%andb_true_iff).
      cbn [fst snd] in *. subst k'. apply list_elem_of_In in Hw. by apply (Heq k v w Hin Hw) in Hvw as ->. }
    clear Hall Heq Hp. revert m Hm Hsub. induction l as [|[k v] l IH]; intros [|[k' w] m] Hm Hsub; try done.
    cbn [fmap list_fmap fst] in *. injection Hm as -> Hm. apply NoDup_cons in Hn as [Hk Hn].
    assert (v = w) as ->.
    { assert ((k, v) ∈ (k, w) :: m) as Hin by (apply Hsub; left). apply elem_of_cons in Hin as [[= ->]|Hin]; [done|].
      destruct Hk. rewrite <-Hm. apply list_elem_of_fmap. by exists (k, v). }
    f_equal. apply IH; [done|done|]. intros k1 v1 Hin. assert ((k1, v1) ∈ (k, w) :: m) as Hc by (apply Hsub; by right).
    apply elem_of_cons in Hc as [[= -> ->]|Hc]; [|done]. destruct Hk. apply list_elem_of_fmap. by exists (k, w).
  - intros <-. split; [by apply Permutation_length|]. intros [k v] Hin. apply existsb_exists. exists (k, v). cbn [fst snd].
    apply list_elem_of_In in Hin. rewrite Hp in Hin. rewrite pystr_eqb_refl. split; [by apply list_elem_of_In|].
    by apply (Heq k v v Hin Hin).
Qed.

(** ** The appliance *)

Lemma adapter_digest_match `{Hash} `{UnicodeData} {E} (netgate pfhost : prog E (option pystr)) ct e d e' :
  read_adapter_target_digest netgate pfhost ct e = (Ok d, e') → match_hex64 d = true.
Proof.
  unfold read_adapter_target_digest. intros (n & e1 & _ & Hr)%bind_inv. apply bind_inv in Hr as ([[k i]|] & e2 & _ & Hr); [|done].
  apply lift_inv in Hr as [Hr _]. by apply digest_value_match in Hr.
Qed.
