(* ===== verification/SettingsProps.v ===== *)
(** * Properties of the settings capabilities

    What an adapter of [SettingsUnit] makes of the values an intent
    protects, read back from their canonical form; proved over the class
    [SettingsLaws] of what the tables of a capability must satisfy, with the
    four instances. *)

From S2P Require Import Prelude PyStr Sha256 Json Capability Canonical PyJson Literals Contract Executor.
From S2P Require Import PreparedIntent StoreInv WriteApi AliasDescription AliasProps SettingsUnit SettingsUnits PyDict.

(** ** What the tables of a capability satisfy *)

Definition reserved : list string := ["operation"; "raw_target_hint"; "appliance_target_digest"].

Class SettingsLaws `{UnicodeData} (unit : SettingsUnit) : Prop := {
  sl_names : NoDup (su_names unit);
  sl_ascii : forallb (λ k, is_ascii (u k)) (su_names unit) = true;
  sl_allowed : ∀ k, k ∈ su_allowed unit → k ∈ su_names unit;
  sl_keys : NoDup (reserved ++ su_allowed unit);
  sl_texts : is_ascii (su_semantic_unit unit) && is_ascii (su_resource unit) = true;
  sl_unverified ep : (su_endpoint_symbol unit, ep) ∈ WriteEndpoints → verified ep = false;
  sl_request v r : su_request unit v = Some r → r.*1 = su_allowed unit ∧
    ∀ k x, (k, x) ∈ r → typed_field unit k x = true ∧ normal x = x ∧ su_intent_check unit k x = Ok ();
  sl_from_model s s' : model_ok unit s → su_from_model unit s = Ok s' →
    model_ok unit s' ∧ su_from_model unit s' = Ok s' ∧
    ∀ k v, (k, v) ∈ s' → su_fingerprint_check unit k (normal v) = true;
}.

(** A request the model accepted. *)
Definition settings_request_ok `{UnicodeData} (unit : SettingsUnit) (r : Snapshot) : Prop :=
  ∃ v, SettingsChange_new unit v = Ok r.

(** A state that was read. *)
Record settings_ok `{UnicodeData} (unit : SettingsUnit) (s : Snapshot) : Prop := {
  so_model : model_ok unit s;
  so_stable : su_from_model unit s = Ok s;
  so_checked : ∀ k v, (k, v) ∈ s → su_fingerprint_check unit k (normal v) = true;
}.

Section reading.
Context `{Hash} `{UnicodeData} (unit : SettingsUnit) `{!SettingsLaws unit}.
Implicit Types (s r : Snapshot).

Lemma allowed_nodup : NoDup (su_allowed unit).
Proof. pose proof sl_keys as Hk. by apply NoDup_app in Hk as (_ & _ & Hk). Qed.

Lemma snapshot_typed s k v : model_ok unit s → (k, v) ∈ s → ∃ t, field_type_of unit k = Some t ∧ has_type t v = true.
Proof.
  intros [_ Ht] Hin. rewrite Forall_forall in Ht. destruct (Ht _ Hin) as [Hv _]. cbn [fst snd] in Hv.
  unfold typed_field in Hv. destruct (field_type_of unit k) as [t|]; [by exists t|done].
Qed.

Lemma normal_items_keys s : (normal_items s).*1 = s.*1.
Proof. unfold normal_items. rewrite <-list_fmap_compose. by apply list_fmap_ext. Qed.

Lemma normal_items_get k s : get_field k (normal_items s) = normal <$> get_field k s.
Proof.
  unfold get_field, normal_items. induction s as [|[k' v] s IH]; [done|]. cbn [map find fst snd].
  by destruct (String.eqb k' k).
Qed.

(** The snapshot an intent protects. *)
Lemma snapshot_frozen s b f : settings_ok unit s → validated_frozen (pdict s) b = Ok f →
  ∃ l, py_of_json (thaw f) = pdict l ∧ l ≡ₚ normal_items s.
Proof.
  intros Hs. apply frozen_items.
  - rewrite Forall_forall. intros [k v] Hin. destruct (snapshot_typed s k v (so_model _ _ Hs) Hin) as (t & _ & Ht).
    by eapply shape_type.
  - destruct (so_model _ _ Hs) as [Hk _]. apply forallb_forall. intros [k v] Hin%list_elem_of_In. cbn [fst].
    pose proof sl_ascii as Ha. rewrite forallb_forall in Ha. apply Ha, list_elem_of_In. rewrite <-Hk.
    apply list_elem_of_fmap. by exists (k, v).
Qed.

(** [_fingerprint] accepts it. *)
Lemma snapshot_read s l : settings_ok unit s → l ≡ₚ normal_items s →
  settings_fingerprint unit (pdict l) = Ok (items l).
Proof.
  intros [Hm _ Hc] Hp. pose proof Hm as [Hk _]. unfold settings_fingerprint, pdict. cbn [py_dict of_option mbind result_bind].
  fold (items l). rewrite (proj2 (keys_are_items (su_names unit) l)).
  2: { intros k. by rewrite Hp, normal_items_keys, Hk. }
  cbn [require mbind result_bind].
  match goal with |- context [require ?b _] => replace b with true; [done|] end.
  symmetry. apply forallb_forall. intros k Hin%list_elem_of_In. rewrite item_items.
  rewrite (get_field_perm k l (normal_items s)); [|by rewrite Hp, normal_items_keys, Hk; apply sl_names|done].
  rewrite normal_items_get. rewrite <-Hk in Hin. apply get_field_key in Hin as [v Hv]. rewrite Hv.
  apply Hc. by apply get_field_elem.
Qed.

(** ** Intents *)

Lemma request_inv r : settings_request_ok unit r → r.*1 = su_allowed unit ∧
  ∀ k x, (k, x) ∈ r → typed_field unit k x = true ∧ normal x = x ∧ su_intent_check unit k x = Ok ().
Proof. intros (v & Hr%of_option_Ok). by apply sl_request in Hr. Qed.

Lemma request_normal r : settings_request_ok unit r → normal_items r = r.
Proof.
  intros [_ Hr]%request_inv. unfold normal_items. rewrite <-(map_id r) at 2. apply map_ext_in.
  intros [k x] Hin%list_elem_of_In. cbn [fst snd]. by destruct (Hr k x Hin) as (_ & -> & _).
Qed.

Lemma intent_keys r d : settings_request_ok unit r →
  (settings_intent_items unit r d).*1 = reserved ++ su_allowed unit.
Proof. intros [Hk _]%request_inv. unfold settings_intent_items, reserved. rewrite fmap_app, Hk. done. Qed.

Lemma intent_normal r d : settings_request_ok unit r → is_ascii d = true →
  normal_items (settings_intent_items unit r d) = settings_intent_items unit r d.
Proof.
  intros Hr Hd. pose proof sl_texts as [Hu Hs]%andb_true_iff. unfold settings_intent_items, normal_items. rewrite map_app.
  fold (normal_items r). rewrite request_normal by done. f_equal.
  unfold su_identity, pdict. cbn [map fst snd normal normal_leaf].
  rewrite (nfc_ascii d), (nfc_ascii (su_semantic_unit unit)), (nfc_ascii (su_resource unit)), (nfc_ascii (u "resource")) by done.
  done.
Qed.

Lemma intent_frozen_items r d b f : settings_request_ok unit r → is_ascii d = true →
  validated_frozen (pdict (settings_intent_items unit r d)) b = Ok f →
  ∃ l, py_of_json (thaw f) = pdict l ∧ l ≡ₚ settings_intent_items unit r d.
Proof.
  intros Hr Hd Hf. assert (∃ l, py_of_json (thaw f) = pdict l ∧ l ≡ₚ normal_items (settings_intent_items unit r d)) as Hl;
    [|by rewrite intent_normal in Hl].
  revert Hf. pose proof (request_inv r Hr) as [Hrk Ht]. apply frozen_items.
  - unfold settings_intent_items. rewrite Forall_app. split; [by repeat constructor|]. rewrite Forall_forall.
    intros [k x] Hin. destruct (Ht k x Hin) as (Hx & _). unfold typed_field in Hx. cbn [snd].
    destruct (field_type_of unit k); [|done]. by eapply shape_type.
  - unfold settings_intent_items. rewrite forallb_app. apply andb_true_iff. split; [done|]. apply forallb_forall.
    intros [k x] Hin%list_elem_of_In. cbn [fst]. pose proof sl_ascii as Ha. rewrite forallb_forall in Ha.
    apply Ha, list_elem_of_In, sl_allowed. rewrite <-Hrk. apply list_elem_of_fmap. by exists (k, x).
Qed.

Lemma check_fields_read l ks r : r.*1 = ks → (∀ k x, (k, x) ∈ r → get_field k l = Some x ∧ su_intent_check unit k x = Ok ()) →
  check_fields unit (items l) ks = Ok r.
Proof.
  intros <- Hr. induction r as [|[k x] r IH]; [done|]. cbn [fmap list_fmap fst check_fields].
  destruct (Hr k x ltac:(left)) as [Hg Hc]. rewrite item_items, Hg. cbn [of_option mbind result_bind]. rewrite Hc.
  cbn [mbind result_bind]. rewrite IH; [done|]. intros k1 x1 Hin. apply Hr. by right.
Qed.

(** [_intent] reads the request back. *)
Lemma intent_read_back r d l : settings_request_ok unit r → l ≡ₚ settings_intent_items unit r d →
  settings_intent unit (pdict l) = Ok r.
Proof.
  intros Hr Hp. pose proof (request_inv r Hr) as [Hrk Ht]. pose proof (intent_keys r d Hr) as Hk. pose proof sl_keys as Hn.
  assert (∀ k, get_field k l = get_field k (settings_intent_items unit r d)) as Hg.
  { intros k. apply get_field_perm; [|done]. by rewrite Hp, Hk. }
  unfold settings_intent, pdict. cbn [py_dict of_option mbind result_bind]. fold (items l).
  rewrite (proj2 (keys_are_items _ l)) by (intros k; by rewrite Hp, Hk). cbn [require mbind result_bind].
  rewrite !item_items, !Hg. unfold settings_intent_items at 1 2 3. unfold get_field at 1 2 3.
  cbn [app find fst snd fmap option_fmap option_map String.eqb Ascii.eqb Bool.eqb].
  cbn [py_eqb]. rewrite pystr_eqb_refl, identity_eq. cbn [require mbind result_bind option_bind py_str of_option].
  apply check_fields_read; [done|]. intros k x Hin. rewrite Hg. destruct (Ht k x Hin) as (_ & _ & Hc). split; [|done].
  apply get_field_in; [by rewrite Hk|]. unfold settings_intent_items. apply elem_of_app. by right.
Qed.

(** ** Patches *)

Lemma patch_read (value_of : string → option pyobj) r :
  r.*1 = su_allowed unit → (∀ k x, (k, x) ∈ r → value_of k = Some x ∧ typed_field unit k x = true) →
  patch_from_values unit value_of = Ok {| sp_values := r |}.
Proof.
  intros Hk Hr. unfold patch_from_values. rewrite <-Hk.
  assert (mapM (λ k, v ← of_option (value_of k) KeyError; Ok (k, v)) r.*1 = Ok r) as ->.
  { clear Hk. induction r as [|[k x] r IH]; [done|]. destruct (Hr k x ltac:(left)) as [Hg _].
    change (mapM ?f ((k, x) :: r).*1) with (y ← f k; ys ← mapM f r.*1; Ok (y :: ys)). cbv beta. rewrite Hg.
    cbn [of_option mbind result_bind]. rewrite IH; [done|]. intros k1 x1 Hin. apply Hr. by right. }
  cbn [mbind result_bind]. match goal with |- context [require ?b _] => replace b with true; [done|] end.
  symmetry. apply forallb_forall. intros [k x] Hin%list_elem_of_In. by apply Hr.
Qed.

(** The allowed fields of a snapshot. *)
Definition projected s : Snapshot := omap (λ k, (λ v, (k, v)) <$> get_field k s) (su_allowed unit).

Lemma projected_spec s : model_ok unit s → (projected s).*1 = su_allowed unit ∧
  ∀ k x, (k, x) ∈ projected s ↔ k ∈ su_allowed unit ∧ get_field k s = Some x.
Proof.
  intros [Hk _]. unfold projected. assert (∀ k, k ∈ su_allowed unit → k ∈ s.*1) as Hin by (intros k ?; rewrite Hk; by apply sl_allowed).
  split.
  - revert Hin. induction (su_allowed unit) as [|k ks IH]; intros Hin; [done|]. destruct (get_field_key k s (Hin k ltac:(left))) as [v Hv].
    cbn [omap list_omap]. rewrite Hv. cbn [fmap option_fmap option_map list_fmap fst]. f_equal. apply IH. intros k1 ?. apply Hin. by right.
  - intros k x. rewrite list_elem_of_omap. split.
    + intros (k' & Hk' & (v & Hv & [= -> ->])%fmap_Some). done.
    + intros [Hk' Hv]. exists k. by rewrite Hv.
Qed.

Lemma build_request_eq r d l : settings_request_ok unit r → l ≡ₚ settings_intent_items unit r d →
  settings_build_request unit (pdict l) = Ok (Some {| sp_values := r |}).
Proof.
  intros Hr Hp. unfold settings_build_request. rewrite (intent_read_back r d l Hr Hp). cbn [mbind result_bind].
  pose proof (request_inv r Hr) as [Hrk Ht]. rewrite (patch_read _ r Hrk); [done|]. intros k x Hin.
  destruct (Ht k x Hin) as (Hx & _). split; [|done]. apply get_field_in; [|done]. rewrite Hrk. apply allowed_nodup.
Qed.

Lemma rollback_request_eq s l : settings_ok unit s → l ≡ₚ normal_items s →
  settings_build_rollback_request unit (pdict l) = Ok (Some {| sp_values := normal_items (projected s) |}).
Proof.
  intros Hs Hp. unfold settings_build_rollback_request. rewrite (snapshot_read s l Hs Hp). cbn [mbind result_bind].
  pose proof (so_model _ _ Hs) as Hm. destruct (projected_spec s Hm) as [Hk He]. pose proof Hm as [Hnames _].
  rewrite (patch_read _ (normal_items (projected s))); [done|by rewrite normal_items_keys|].
  intros k x ([k' v] & [= -> ->] & Hin)%list_elem_of_fmap. apply He in Hin as [Hin Hv]. split.
  - rewrite item_items, (get_field_perm k' l (normal_items s)), normal_items_get, Hv; [done| |done].
    rewrite Hp, normal_items_keys, Hnames. apply sl_names.
  - unfold typed_field. destruct (snapshot_typed s k' v Hm) as (t & -> & Ht); [by apply get_field_elem|]. by apply normal_type.
Qed.
End reading.

(** ** The verifications *)

Section verifying.
Context `{Hash} `{UnicodeData} {E : Type} (unit : SettingsUnit) `{!SettingsModel unit} `{!SettingsLaws unit}.
Implicit Types (s post r : Snapshot).

Lemma typed_eq k v w : typed_field unit k v = true → typed_field unit k w = true → py_eqb v w = true ↔ v = w.
Proof. unfold typed_field. destruct (field_type_of unit k); [apply py_eqb_type|done]. Qed.

Lemma model_typed s k v : model_ok unit s → get_field k s = Some v → typed_field unit k v = true.
Proof. intros [_ Ht] Hg%get_field_elem. rewrite Forall_forall in Ht. by apply Ht in Hg as [? _]. Qed.

Lemma model_get s k : model_ok unit s → k ∈ su_names unit → ∃ v, get_field k s = Some v ∧ typed_field unit k v = true.
Proof.
  intros Hm Hin. pose proof Hm as [Hk _]. rewrite <-Hk in Hin. apply get_field_key in Hin as [v Hv]. exists v.
  split; [done|]. by eapply model_typed.
Qed.

Lemma fields_match_iff post r : model_ok unit post → settings_request_ok unit r →
  fields_match post r = true ↔ ∀ k, k ∈ su_allowed unit → get_field k post = get_field k r.
Proof.
  intros Hm Hr. destruct (request_inv unit r Hr) as [Hk Ht]. unfold fields_match. rewrite forallb_forall. split.
  - intros Hall k Hin. pose proof Hin as Hin'. rewrite <-Hk in Hin'. apply get_field_key in Hin' as [x Hx]. rewrite Hx.
    pose proof (get_field_elem _ _ _ Hx) as He. destruct (model_get post k Hm (sl_allowed k Hin)) as (v & Hv & Hty).
    specialize (Hall (k, x)). cbn [fst snd] in Hall. rewrite Hv in Hall |- *. f_equal.
    apply (typed_eq k); [done|by apply Ht|]. apply Hall. by apply list_elem_of_In.
  - intros Heq [k x] Hin%list_elem_of_In. cbn [fst snd]. assert (k ∈ su_allowed unit) as Ha.
    { rewrite <-Hk. apply list_elem_of_fmap. by exists (k, x). }
    rewrite (Heq k Ha), (get_field_in k x r); [|rewrite Hk; apply (allowed_nodup unit)|done].
    destruct (Ht k x Hin) as (Hty & _). by apply (typed_eq k).
Qed.

Lemma fields_equal_iff s post ks : model_ok unit s → model_ok unit post → (∀ k, k ∈ ks → k ∈ su_names unit) →
  fields_equal s post ks = true ↔ ∀ k, k ∈ ks → get_field k post = get_field k s.
Proof.
  intros Hs Hm Hks. unfold fields_equal. rewrite forallb_forall. split.
  - intros Hall k Hin. destruct (model_get s k Hs (Hks k Hin)) as (v & Hv & Hv').
    destruct (model_get post k Hm (Hks k Hin)) as (w & Hw & Hw'). specialize (Hall k).
    rewrite Hv, Hw in Hall |- *. f_equal. symmetry. apply (typed_eq k); [done..|]. apply Hall. by apply list_elem_of_In.
  - intros Heq k Hin%list_elem_of_In. destruct (model_get s k Hs (Hks k Hin)) as (v & Hv & Hv').
    rewrite (Heq k Hin), Hv. by apply (typed_eq k).
Qed.

Lemma forbidden_iff k : k ∈ su_forbidden unit ↔ k ∈ su_names unit ∧ k ∉ su_allowed unit.
Proof.
  unfold su_forbidden. rewrite list_elem_of_filter. rewrite <-not_true_iff_false, existsb_exists. split.
  - intros [Hn Hin]. split; [done|]. intros Ha. apply Hn. exists k. split; [by apply list_elem_of_In|]. apply String.eqb_refl.
  - intros [Hin Hn]. split; [|done]. intros (k' & Hk & <-%String.eqb_eq). apply Hn. by apply list_elem_of_In.
Qed.

(** The target with the requested fields changed. *)
Definition changed_to s r post : Prop := ∀ k, k ∈ su_names unit →
  get_field k post = if decide (k ∈ su_allowed unit) then get_field k r else get_field k s.

Lemma verified_iff_changed s r d l post : settings_ok unit s → settings_ok unit post → settings_request_ok unit r →
  l ≡ₚ settings_intent_items unit r d →
  ∃ b, settings_verified unit (RawSnapshot s) (RawSnapshot post) (pdict l) = Ok b ∧ (b = true ↔ changed_to s r post).
Proof.
  intros Hs Hpost Hr Hp. pose proof (so_model _ _ Hs) as Hsm. pose proof (so_model _ _ Hpost) as Hpm.
  exists (fields_match post r && fields_equal s post (su_forbidden unit)). split.
  - unfold settings_verified. cbn [settings_state]. rewrite (intent_read_back unit r d l Hr Hp).
    by destruct (su_forbidden unit).
  - rewrite andb_true_iff, fields_match_iff, fields_equal_iff by (done || by intros k [? _]%forbidden_iff). split.
    + intros [H1 H2] k Hk. case_decide; [by apply H1|]. apply H2. by apply forbidden_iff.
    + intros Hc. split.
      * intros k Hk. rewrite (Hc k (sl_allowed k Hk)). by rewrite decide_True.
      * intros k [Hk Hn]%forbidden_iff. rewrite (Hc k Hk). by rewrite decide_False.
Qed.

Lemma rollback_iff s l post : settings_ok unit s → settings_ok unit post → l ≡ₚ normal_items s →
  ∃ b, settings_rollback_verified unit (pdict l) (RawSnapshot post) = Ok b ∧ (b = true ↔ post = normal_items s).
Proof.
  intros Hs Hpost Hp. pose proof (so_model _ _ Hs) as [Hk _]. pose proof (so_model _ _ Hpost) as [Hk' _].
  eexists. split.
  - unfold settings_rollback_verified. rewrite (snapshot_read unit s l Hs Hp). cbn [settings_state mbind result_bind]. done.
  - change (PDict (items l)) with (pdict l). rewrite (py_eqb_items (normal_items s) post); [| | | |done].
    + split; congruence.
    + rewrite normal_items_keys, Hk. apply sl_names.
    + by rewrite normal_items_keys, Hk, Hk'.
    + intros k v w ([k1 v1] & [= -> ->] & Hin)%list_elem_of_fmap Hw.
      destruct (snapshot_typed unit s k1 v1 (so_model _ _ Hs) Hin) as (t & Hf & Ht).
      destruct (snapshot_typed unit post k1 w (so_model _ _ Hpost) Hw) as (t' & Hf' & Ht'). rewrite Hf in Hf'. injection Hf' as <-.
      apply (py_eqb_type t); [by apply normal_type|done].
Qed.
End verifying.

(** ** The preparer *)

Section preparing.
Context `{Hash} `{UnicodeData} {E : Type} (unit : SettingsUnit) `{!SettingsModel unit} `{!SettingsLaws unit}.
Context (rc : SettingsReadClient E) (ct : ConfiguredApplianceTargetV1).
(** The read client returns models pydantic validated. *)
Context (Hread : ∀ e s e', get_settings rc e = (Ok s, e') → model_ok unit s).
Implicit Types (s post r : Snapshot).

Lemma settings_prepare_inv r e p e' : settings_prepare unit rc ct r e = (Ok p, e') →
  let s := ps_authoritative_a p in let d := ps_appliance_target_digest p in
  (∃ m e1, get_settings rc e = (Ok m, e1) ∧ su_from_model unit m = Ok s) ∧
  settings_ok unit s ∧ same_values unit r s = false ∧ match_hex64 d = true ∧
  PreparedExecutionIntentV1_new PREPARED_EXECUTION_INTENT_SCHEMA_VERSION (su_capability unit)
    (su_endpoint_symbol unit) HTTP_METHOD (su_adapter_version unit) (su_identity unit) (pdict s)
    (pdict (settings_intent_items unit r d)) (pdict s) (su_rollback_version unit) = Ok (ps_intent p).
Proof.
  unfold settings_prepare, settings_read_target. rewrite identity_eq. cbn [negb].
  intros (s & e1 & (m & e2 & Hm & [Hs ->]%lift_inv)%bind_inv & Hp)%bind_inv.
  pose proof (sl_from_model m s (Hread _ _ _ Hm) Hs) as (H1 & H2 & H3).
  destruct (same_values unit r s) eqn:Hsame; [done|].
  apply bind_inv in Hp as (d & e3 & Hd%adapter_digest_match & Hp). apply bind_inv in Hp as (i & e4 & [Hi ->]%lift_inv & Hp).
  injection Hp as <- <-. split_and!; [by exists m, e2|by split|done..].
Qed.

(** The protected values, read back. *)
Lemma settings_values s r d i : settings_ok unit s → settings_request_ok unit r → match_hex64 d = true →
  PreparedExecutionIntentV1_new PREPARED_EXECUTION_INTENT_SCHEMA_VERSION (su_capability unit)
    (su_endpoint_symbol unit) HTTP_METHOD (su_adapter_version unit) (su_identity unit) (pdict s)
    (pdict (settings_intent_items unit r d)) (pdict s) (su_rollback_version unit) = Ok i →
  (∃ l, rollback_snapshot i = pdict l ∧ l ≡ₚ normal_items s) ∧
  (∃ l, normalized_mutation_intent i = pdict l ∧ l ≡ₚ settings_intent_items unit r d) ∧
  (∀ p c, digest_value p (resource_target i) c = digest_value p (su_identity unit) c) ∧
  (∀ p c, digest_value p (target_precondition i) c = digest_value p (pdict s) c).
Proof.
  intros Hs Hr Hd Hi. unfold PreparedExecutionIntentV1_new in Hi. rewrite !require_bind in Hi.
  destruct Hi as (_ & _ & _ & _ & (a & Ha & (b & Hb & (c & Hc & (f & Hf & [= <-])%bind_Ok)%bind_Ok)%bind_Ok)%bind_Ok).
  split_and!.
  - by eapply snapshot_frozen.
  - eapply intent_frozen_items; [done|done|by apply match_hex64_ascii|done].
  - intros p c'. by eapply digest_value_frozen.
  - intros p c'. by eapply digest_value_frozen.
Qed.

Lemma changed_field s r : settings_ok unit s → settings_request_ok unit r → same_values unit r s = false →
  ∃ k, k ∈ su_allowed unit ∧ get_field k r ≠ get_field k s.
Proof.
  intros Hs Hr Hsame. destruct (request_inv unit r Hr) as [Hk Ht]. unfold same_values, fields_equal in Hsame.
  match type of Hsame with forallb ?g _ = _ => set (f := g) in Hsame end.
  apply not_true_iff_false in Hsame. rewrite forallb_forall in Hsame.
  destruct (decide (Forall (λ k, f k = true) (su_allowed unit))) as [Hall|Hall].
  - destruct Hsame. rewrite Forall_forall in Hall. intros k Hin%list_elem_of_In. by apply Hall.
  - apply not_Forall_Exists, Exists_exists in Hall as (k & Hin & Hne); [|apply _]. exists k. split; [done|].
    intros Heq. apply Hne. subst f. cbv beta. destruct (model_get unit s k (so_model _ _ Hs) (sl_allowed k Hin)) as (v & Hv & Hty).
    rewrite Heq, Hv. by apply (typed_eq unit k).
Qed.

(** [C34] A prepared settings change is the one asked for.  When preparation
    accepts a validated request it has read a settings object that differs
    from it in an allowed field.  From the values the intent protects the
    adapter builds the PATCH of exactly the requested fields and, for the
    rollback, the PATCH of their old values; it accepts the result exactly
    when the object is as it was except for the requested fields.  A
    rollback is accepted exactly when the object is the old one with its
    texts in normal form C: so no rollback of an object that holds another
    text is ever accepted, the complete one included. *)
Theorem prepared_settings_change r e p e' :
  settings_request_ok unit r → settings_prepare unit rc ct r e = (Ok p, e') →
  let s := ps_authoritative_a p in let i := ps_intent p in
  settings_ok unit s ∧ (∃ k, k ∈ su_allowed unit ∧ get_field k r ≠ get_field k s) ∧ prepared_intent i ∧
  settings_build_request unit (normalized_mutation_intent i) = Ok (Some {| sp_values := r |}) ∧
  settings_build_rollback_request unit (rollback_snapshot i) = Ok (Some {| sp_values := normal_items (projected unit s) |}) ∧
  (∀ post, settings_ok unit post → ∃ b,
     settings_verified unit (RawSnapshot s) (RawSnapshot post) (normalized_mutation_intent i) = Ok b ∧
     (b = true ↔ changed_to unit s r post)) ∧
  (∀ post, settings_ok unit post → ∃ b,
     settings_rollback_verified unit (rollback_snapshot i) (RawSnapshot post) = Ok b ∧ (b = true ↔ post = normal_items s)).
Proof.
  intros Hr (_ & Hs & Hsame & Hd & Hi)%settings_prepare_inv. cbv zeta.
  destruct (settings_values _ _ _ _ Hs Hr Hd Hi) as ((l & Hsnap & Hl) & (l' & Hint & Hl') & _). rewrite Hsnap, Hint.
  split_and!; [done| | |by eapply build_request_eq|by apply rollback_request_eq|..].
  - by eapply changed_field.
  - by eexists _, _, _, _, _, _, _, _, _, _.
  - intros post Hpost. by eapply verified_iff_changed.
  - intros post Hpost. by apply rollback_iff.
Qed.
End preparing.

(** ** The four capabilities *)

Section instances.
Context `{UnicodeData}.

(** The entries of a request a strict model accepted. *)
Lemma request_entry fields values k x : request_fields fields values = true → NoDup fields.*1 → (k, x) ∈ values →
  ∃ t, (k, t) ∈ fields ∧ has_type t x = true.
Proof.
  unfold request_fields. intros [Hk%bool_decide_eq_true Ht]%andb_true_iff Hn Hin.
  assert (k ∈ fields.*1) as Hkf by (rewrite <-Hk; apply list_elem_of_fmap; by exists (k, x)).
  apply list_elem_of_fmap in Hkf as ([k' t] & -> & Hf). exists t. split; [done|]. cbn [fst] in Hin.
  rewrite forallb_forall in Ht. specialize (Ht (k', t) ltac:(by apply list_elem_of_In)). cbn [fst snd] in Ht.
  by rewrite (get_field_in k' x) in Ht by (done || by rewrite Hk).
Qed.

Lemma request_keys fields values : request_fields fields values = true → values.*1 = fields.*1.
Proof. unfold request_fields. by intros [Hk%bool_decide_eq_true _]%andb_true_iff. Qed.

Lemma one_of_entry k members values x : one_of_field k members values = true → forallb is_ascii members = true →
  NoDup values.*1 → (k, x) ∈ values → normal x = x ∧ in_frozenset members x = Ok ().
Proof.
  unfold one_of_field. intros Hs Ha Hn Hin. rewrite (get_field_in k x) in Hs by done. destruct x; try done. split.
  - cbn. f_equal. apply nfc_ascii. apply existsb_exists in Hs as (m & Hm & ->%pystr_eqb_eq). rewrite forallb_forall in Ha. by apply Ha.
  - unfold in_frozenset. cbn [hashable require mbind result_bind]. by rewrite Hs.
Qed.

(** A snapshot taken over as it is. *)
Lemma plain_from_model (unit : SettingsUnit) s s' : su_from_model unit = (λ s, Ok s) → su_fingerprint_check unit = (λ _ _, true) →
  model_ok unit s → su_from_model unit s = Ok s' →
  model_ok unit s' ∧ su_from_model unit s' = Ok s' ∧ ∀ k v, (k, v) ∈ s' → su_fingerprint_check unit k (normal v) = true.
Proof. intros Hf Hc Hm. rewrite Hf, Hc. by intros [= <-]. Qed.

Lemma decided {P : Prop} `{Decision P} : bool_decide P = true → P.
Proof. by rewrite bool_decide_eq_true. Qed.
Lemma decided_all {A} (P : A → Prop) `{∀ x, Decision (P x)} l : bool_decide (Forall P l) = true → ∀ x, x ∈ l → P x.
Proof. rewrite bool_decide_eq_true. apply Forall_forall. Qed.

(** Facts about a table are computed. *)
Ltac table := first [by intros ep Hin%resolve_endpoint_elem; vm_compute in Hin; injection Hin as <-|apply decided; vm_compute; reflexivity|match goal with |- ∀ k, _ → k ∈ ?l => apply (decided_all (λ k, k ∈ l)); vm_compute; reflexivity end|vm_compute; reflexivity].
Ltac each_entry Hin := repeat (apply elem_of_cons in Hin as [[= -> ->]|Hin]); [..|by apply not_elem_of_nil in Hin].

#[export] Instance ntp_laws : SettingsLaws NtpSettingsObservability.
Proof.
  split; [table..| |].
  - intros v r. cbn [su_request NtpSettingsObservability]. unfold keep_if. destruct (request_fields _ _) eqn:Hf; [|done].
    intros [= <-]. split; [by apply request_keys in Hf|]. intros k x Hin.
    eapply request_entry in Hin as (t & Hin & Hx); [|exact Hf|table]. cbn in Hin.
    each_entry Hin; by destruct x.
  - intros s s'. by apply plain_from_model.
Qed.

#[export] Instance display_laws : SettingsLaws LogDisplayPreferences.
Proof.
  split; [table..| |].
  - intros v r. cbn [su_request LogDisplayPreferences]. unfold display_request, keep_if. destruct (_ && _) eqn:Hf; [|done].
    intros [= <-]. rewrite !andb_true_iff in Hf. destruct Hf as [[[Hf Hfmt] Hdesc] _].
    pose proof (request_keys _ _ Hf) as Hk. assert (NoDup v.*1) as Hn by (rewrite Hk; table).
    split; [done|]. intros k x Hin. pose proof Hin as Hin'. eapply request_entry in Hin as (t & Hin & Hx); [|exact Hf|table].
    each_entry Hin; try by destruct x.
    + destruct (one_of_entry _ _ _ _ Hfmt eq_refl Hn Hin') as [H1 H2]. by destruct x.
    + unfold in_range_field in Hdesc. rewrite (get_field_in _ _ _ Hn Hin') in Hdesc. destruct x; try done. split_and!; [done..|].
      cbn. unfold in_0_1_2. cbn [as_number]. by rewrite Hdesc.
  - intros s s'. by apply plain_from_model.
Qed.

#[export] Instance retention_laws : SettingsLaws LogRetentionSettings.
Proof.
  split; [table..| |].
  - intros v r. cbn [su_request LogRetentionSettings]. unfold retention_request, keep_if. destruct (_ && _) eqn:Hf; [|done].
    intros [= <-]. rewrite !andb_true_iff in Hf. destruct Hf as [[[Hf _] _] Hcodec].
    pose proof (request_keys _ _ Hf) as Hk. assert (NoDup v.*1) as Hn by (rewrite Hk; table).
    split; [done|]. intros k x Hin. pose proof Hin as Hin'. eapply request_entry in Hin as (t & Hin & Hx); [|exact Hf|table].
    each_entry Hin; try by destruct x.
    destruct (one_of_entry _ _ _ _ Hcodec eq_refl Hn Hin') as [H1 H2]. by destruct x.
  - intros s s'. by apply plain_from_model.
Qed.

Lemma match_timezone_ascii s : match_timezone s = true → is_ascii s = true.
Proof.
  unfold match_timezone. intros [_ Hs]%andb_true_iff. unfold is_ascii. rewrite !forallb_forall in *. intros c Hc.
  specialize (Hs c Hc). unfold is_alnum, in_range in Hs. rewrite !orb_true_iff, !andb_true_iff, !N.eqb_eq, !N.leb_le in Hs.
  apply N.ltb_lt. lia.
Qed.

#[export] Instance timezone_laws : SettingsLaws SystemTimezone.
Proof.
  split; [table..| |].
  - intros v r. cbn [su_request SystemTimezone]. unfold timezone_request, keep_if.
    destruct v as [|[k [| | | |s| | | |]] [|]]; try done; try by repeat case_match.
    destruct (String.eqb_spec k "timezone") as [->|Hne]; [|by repeat case_match].
    destruct (match_timezone (nfc s)) eqn:Hm; [|done]. intros [= <-]. split; [done|]. intros k x Hin. each_entry Hin.
    split_and!; [done|cbn; by rewrite nfc_idem|]. cbn [su_intent_check SystemTimezone is_timezone]. by rewrite Hm.
  - intros s s' [Hk Ht]. cbn [su_from_model SystemTimezone]. unfold timezone_from_model.
    destruct (get_field "timezone" s) as [[| | | |tz| | | |]|]; try done. rewrite require_bind. intros [Hm [= <-]].
    pose proof (match_timezone_ascii _ Hm) as Ha. split_and!.
    + split; [done|]. repeat constructor. cbn. unfold is_ascii in Ha. rewrite !forallb_forall in *. intros c Hc.
      by apply is_ascii_scalar, Ha.
    + cbn. by rewrite nfc_idem, Hm.
    + intros k x Hin. each_entry Hin. cbn. by rewrite nfc_idem.
Qed.
End instances.
