(* ===== verification/NtpTimeServer.v ===== *)
(** * The preferred NTP time server

    [tier1/ntp_time_server_prefer.py], with the model
    [models/ntp_time_server.py]: the one capability of batch 1 whose target
    is found by name in a collection, as the alias of [AliasDescription.v]
    is, and the one that is a standard sealed write.  The read client is a
    parameter, and so is pydantic's strict validation of a raw server. *)

From S2P Require Import Prelude PyStr Sha256 Json Capability Canonical PyJson Contract Executor.
From S2P Require Import PreparedIntent WriteApi AliasDescription SettingsUnit.

Module NtpTimeServerPrefer.

Definition SEMANTIC_UNIT : pystr := u "set_ntp_time_server_prefer_v1".
Definition ENDPOINT_SYMBOL : pystr := u "NTP_TIME_SERVER_PREFER".
Definition ADAPTER_VERSION : pystr := u "ntp-time-server-prefer-v1".
Definition ROLLBACK_VERSION : pystr := u "ntp-time-server-prefer-rollback-v1".
Definition MAX_ENUMERATION : Z := 100.
Definition NTP_TYPES : list pystr := [u "server"; u "pool"; u "peer"].

Definition nonempty (s : pystr) : bool := match s with [] => false | _ => true end.

(** ** Requests and states *)

Record NtpTimeServerPreferChangeV1 : Type := { nc_timeserver : pystr; nc_prefer : bool }.
Record NtpTimeServerPreferPatchV1 : Type := { np_id : Z; np_prefer : bool }.

Record NtpTimeServer : Type := {
  nt_id : Z; nt_noselect : bool; nt_prefer : bool; nt_timeserver : pystr; nt_type : pystr }.

Record NtpTimeServerStateV1 : Type := {
  ns_numeric_locator : Z; ns_timeserver : pystr; ns_server_type : pystr; ns_prefer : bool; ns_noselect : bool }.

Section state.
Context `{UnicodeData}.

(** The validated model *)
Definition NtpTimeServerPreferChangeV1_new (timeserver : pystr) (prefer : bool) : result NtpTimeServerPreferChangeV1 :=
  let normalized := nfc timeserver in
  _ ← require (nonempty normalized && (length normalized <=? 255)%nat) ValueError;
  Ok {| nc_timeserver := normalized; nc_prefer := prefer |}.

(** [from_model] *)
Definition ntp_from_model (server : NtpTimeServer) : result NtpTimeServerStateV1 :=
  _ ← require (((0 <=? nt_id server) && (nt_id server <=? 2147483647))%Z && nonempty (nt_timeserver server) &&
               is_nfc (nt_timeserver server) && existsb (pystr_eqb (nt_type server)) NTP_TYPES)
        PreparedExecutionIntentError;
  Ok {| ns_numeric_locator := nt_id server; ns_timeserver := nt_timeserver server;
        ns_server_type := nt_type server; ns_prefer := nt_prefer server; ns_noselect := nt_noselect server |}.
End state.

(** [identity], [fingerprint] and [raw_target_hint] *)
Definition ntp_identity (s : NtpTimeServerStateV1) : pyobj := pdict [("timeserver", PStr (ns_timeserver s))].
Definition ntp_fingerprint_items (s : NtpTimeServerStateV1) : list (string * pyobj) :=
  [("timeserver", PStr (ns_timeserver s)); ("type", PStr (ns_server_type s)); ("prefer", PBool (ns_prefer s));
   ("noselect", PBool (ns_noselect s))].
Definition ntp_fingerprint (s : NtpTimeServerStateV1) : pyobj := pdict (ntp_fingerprint_items s).
Definition ntp_raw_target_items (s : NtpTimeServerStateV1) : list (string * pyobj) :=
  [("timeserver", PStr (ns_timeserver s)); ("id", PInt (ns_numeric_locator s)); ("type", PStr (ns_server_type s));
   ("prefer", PBool (ns_prefer s)); ("noselect", PBool (ns_noselect s))].

(** ** Protected values, read back *)

Definition py_bool (v : pyobj) : option bool := match v with PBool b => Some b | _ => None end.
Definition nonempty_py_str (v : pyobj) : option pystr := nonempty_str (py_str v).

(** [_fingerprint] *)
Definition ntp_fingerprint_ (value : pyobj) : result (list (pyobj * pyobj)) :=
  d ← of_option (py_dict value) PreparedExecutionIntentError;
  _ ← require (keys_are ["timeserver"; "type"; "prefer"; "noselect"] d) PreparedExecutionIntentError;
  _ ← of_option (item "timeserver" d ≫= nonempty_py_str) PreparedExecutionIntentError;
  server_type ← of_option (item "type" d) KeyError;
  _ ← in_frozenset NTP_TYPES server_type;
  _ ← of_option (item "prefer" d ≫= py_bool) PreparedExecutionIntentError;
  _ ← of_option (item "noselect" d ≫= py_bool) PreparedExecutionIntentError;
  Ok d.

(** [_intent]: the value of [prefer]; the other fields of the result are
    not looked at. *)
Definition ntp_intent (value : pyobj) : result bool :=
  d ← of_option (py_dict value) PreparedExecutionIntentError;
  _ ← require (keys_are ["operation"; "raw_target_hint"; "prefer"; "appliance_target_digest"] d)
        PreparedExecutionIntentError;
  _ ← require (match item "operation" d with Some v => py_eqb v (PStr SEMANTIC_UNIT) | None => false end)
        PreparedExecutionIntentError;
  hint ← of_option (item "raw_target_hint" d ≫= py_dict) PreparedExecutionIntentError;
  _ ← require (keys_are ["timeserver"] hint) PreparedExecutionIntentError;
  _ ← of_option (item "timeserver" hint ≫= nonempty_py_str) PreparedExecutionIntentError;
  prefer ← of_option (item "prefer" d ≫= py_bool) PreparedExecutionIntentError;
  _ ← of_option (item "appliance_target_digest" d ≫= py_str) PreparedExecutionIntentError;
  Ok prefer.

(** ** The adapter *)

Definition ntp_model_of (s : NtpTimeServerStateV1) : NtpTimeServer := {|
  nt_id := ns_numeric_locator s; nt_noselect := ns_noselect s; nt_prefer := ns_prefer s;
  nt_timeserver := ns_timeserver s; nt_type := ns_server_type s |}.

(** [NtpTimeServer.model_validate(value, strict=True)], of the dict that
    [_state] makes. *)
Class NtpTimeServerModel : Type := {
  server_validate : pyobj → option NtpTimeServer;
  server_validate_fields s :
    forallb is_scalar (ns_timeserver s) && forallb is_scalar (ns_server_type s) = true →
    server_validate (pdict [("id", PInt (ns_numeric_locator s)); ("timeserver", PStr (ns_timeserver s));
      ("type", PStr (ns_server_type s)); ("prefer", PBool (ns_prefer s)); ("noselect", PBool (ns_noselect s))]) =
    Some (ntp_model_of s);
}.

Inductive RawServer : Type := RawServerState (s : NtpTimeServerStateV1) | RawServerValue (v : pyobj).

Record NtpTimeServerPreferReadClient (E : Type) : Type := {
  get_ntp_time_servers : Z → prog E (list NtpTimeServer);     (* the limit *)
  nt_netgate_id : prog E (option pystr);
  nt_pfhostid : prog E (option pystr);
}.
Arguments get_ntp_time_servers {_} _ _.
Arguments nt_netgate_id {_} _.
Arguments nt_pfhostid {_} _.

Record PreparedNtpTimeServerPreferExecutionV1 : Type := {
  pn_intent : PreparedExecutionIntentV1; pn_authoritative_a : NtpTimeServerStateV1; pn_appliance_target_digest : pystr }.

Section adapter.
Context `{Hash} `{UnicodeData} `{NtpTimeServerModel} {E : Type} (read_client : NtpTimeServerPreferReadClient E).

(** [_state] *)
Definition ntp_state (raw_target : RawServer) : result NtpTimeServerStateV1 :=
  match raw_target with
  | RawServerState s => Ok s
  | RawServerValue v =>
    d ← of_option (py_dict v) PreparedExecutionIntentError;
    _ ← require (keys_are ["timeserver"; "id"; "type"; "prefer"; "noselect"] d) PreparedExecutionIntentError;
    fields ← mapM (λ k, x ← of_option (item k d) KeyError; Ok (k, x)) ["id"; "timeserver"; "type"; "prefer"; "noselect"];
    server ← of_option (server_validate (pdict fields)) PreparedExecutionIntentError;
    ntp_from_model server
  end.

(** [read_target] *)
Definition ntp_target_name (natural_identity : pyobj) : result pystr :=
  d ← of_option (py_dict natural_identity) PreparedExecutionIntentError;
  _ ← require (keys_are ["timeserver"] d) PreparedExecutionIntentError;
  of_option (item "timeserver" d ≫= nonempty_py_str) PreparedExecutionIntentError.

Definition ntp_read_target (natural_identity : pyobj) : prog E NtpTimeServerStateV1 :=
  timeserver ← lift (ntp_target_name natural_identity);
  servers ← get_ntp_time_servers read_client MAX_ENUMERATION;
  _ ← lift (require (Z.of_nat (length servers) <? MAX_ENUMERATION)%Z PreparedExecutionIntentError);
  matches ← lift (mapM ntp_from_model (filter (λ s, nt_timeserver s = timeserver) servers));
  match matches with
  | [state] => mret state
  | _ => raise PreparedExecutionIntentError
  end.

Definition ntp_build_request (intent : pyobj) (target : ResolvedTransportTarget)
    : result (option NtpTimeServerPreferPatchV1) :=
  prefer ← ntp_intent intent;
  Ok (Some {| np_id := numeric_locator target; np_prefer := prefer |}).

Definition ntp_is_semantically_verified (pre post : RawServer) (intent : pyobj) : result bool :=
  before ← ntp_state pre;
  after ← ntp_state post;
  prefer ← ntp_intent intent;
  Ok (Bool.eqb (ns_prefer after) prefer && pystr_eqb (ns_timeserver before) (ns_timeserver after) &&
      pystr_eqb (ns_server_type before) (ns_server_type after) && Bool.eqb (ns_noselect before) (ns_noselect after)).

Definition ntp_build_rollback_request (pre : pyobj) (target : ResolvedTransportTarget)
    : result (option NtpTimeServerPreferPatchV1) :=
  fingerprint ← ntp_fingerprint_ pre;
  prefer ← of_option (item "prefer" fingerprint ≫= py_bool) PreparedExecutionIntentError;
  Ok (Some {| np_id := numeric_locator target; np_prefer := prefer |}).

Definition ntp_is_rollback_verified (pre : pyobj) (post_rollback : RawServer) : result bool :=
  fingerprint ← ntp_fingerprint_ pre;
  state ← ntp_state post_rollback;
  Ok (py_eqb (PDict fingerprint) (ntp_fingerprint state)).

(** [NtpTimeServerPreferAdapterV1] *)
Definition NtpTimeServerPreferAdapterV1 : CapabilityAdapter E RawServer NtpTimeServerPreferPatchV1 := {|
  ad_endpoint_symbol := ENDPOINT_SYMBOL; ad_http_method := HTTP_METHOD; ad_capability := NTP_TIME_SERVER_PREFER_WRITE;
  read_target identity := (s ← ntp_read_target identity; mret (RawServerState s));
  natural_identity raw_target := (s ← ntp_state raw_target; Ok (ntp_identity s));
  fingerprint raw_target := (s ← ntp_state raw_target; Ok (ntp_fingerprint s));
  transport_locator raw_target := (s ← ntp_state raw_target; Ok (ns_numeric_locator s));
  build_request := ntp_build_request;
  parse_response _ := Ok ();
  is_semantically_verified := ntp_is_semantically_verified;
  build_rollback_request := ntp_build_rollback_request;
  is_rollback_verified := ntp_is_rollback_verified |}.

(** ** The preparer *)

Context (configured_target : ConfiguredApplianceTargetV1).

Definition ntp_intent_items (request : NtpTimeServerPreferChangeV1) (appliance_digest : pystr) : list (string * pyobj) :=
  [("operation", PStr SEMANTIC_UNIT);
   ("raw_target_hint", pdict [("timeserver", PStr (nc_timeserver request))]);
   ("prefer", PBool (nc_prefer request));
   ("appliance_target_digest", PStr appliance_digest)].

(** [prepare] *)
Definition ntp_prepare (request : NtpTimeServerPreferChangeV1) : prog E PreparedNtpTimeServerPreferExecutionV1 :=
  state ← ntp_read_target (pdict [("timeserver", PStr (nc_timeserver request))]);
  if Bool.eqb (ns_prefer state) (nc_prefer request) then raise PreparedExecutionIntentError else
  appliance_digest ← read_adapter_target_digest (nt_netgate_id read_client) (nt_pfhostid read_client) configured_target;
  prepared ← lift (PreparedExecutionIntentV1_new PREPARED_EXECUTION_INTENT_SCHEMA_VERSION NTP_TIME_SERVER_PREFER_WRITE
    ENDPOINT_SYMBOL HTTP_METHOD ADAPTER_VERSION (ntp_identity state) (ntp_fingerprint state)
    (pdict (ntp_intent_items request appliance_digest)) (ntp_fingerprint state) ROLLBACK_VERSION);
  mret {| pn_intent := prepared; pn_authoritative_a := state; pn_appliance_target_digest := appliance_digest |}.
End adapter.
End NtpTimeServerPrefer.
