(* ===== verification/NtpProps.v ===== *)
(** * Properties of the preferred NTP time server

    The adapter of [NtpTimeServer.v] over the values an intent protects, as
    [AliasProps.v] has them for the alias description. *)

From S2P Require Import Prelude PyStr Sha256 Json Capability Canonical PyJson Literals Contract Executor.
From S2P Require Import PreparedIntent StoreInv AliasDescription AliasProps SettingsUnit PyDict NtpTimeServer.

Module NtpProps.
Import NtpTimeServerPrefer.

Section facts.
Context `{Hash} `{UnicodeData}.
Implicit Types (s post : NtpTimeServerStateV1) (r : NtpTimeServerPreferChangeV1).

(** A state that was read, and a request the model accepted. *)
Record ntp_state_ok s : Prop := {
  nso_range : ((0 <=? ns_numeric_locator s) && (ns_numeric_locator s <=? 2147483647))%Z = true;
  nso_nonempty : nonempty (ns_timeserver s) = true;
  nso_nfc : nfc (ns_timeserver s) = ns_timeserver s;
  nso_type : existsb (pystr_eqb (ns_server_type s)) NTP_TYPES = true;
}.

Definition ntp_request_ok r : Prop := ∃ timeserver prefer, NtpTimeServerPreferChangeV1_new timeserver prefer = Ok r.

Lemma ntp_request_inv r : ntp_request_ok r → nonempty (nc_timeserver r) = true ∧ nfc (nc_timeserver r) = nc_timeserver r.
Proof.
  intros (t & p & Hr). unfold NtpTimeServerPreferChangeV1_new in Hr. rewrite require_bind in Hr.
  destruct Hr as ([Hn _]%andb_true_iff & [= <-]). split; [done|apply nfc_idem].
Qed.

Lemma ntp_from_model_inv m s : ntp_from_model m = Ok s → m = ntp_model_of s ∧ ntp_state_ok s.
Proof.
  unfold ntp_from_model. rewrite require_bind, !andb_true_iff. intros [[[[[H1 H2] Hne] Hn%is_nfc_eq] Ht] [= <-]].
  split; [by destruct m|]. split; cbn; [|done..]. by rewrite H1, H2.
Qed.

Lemma ntp_from_model_ok s : ntp_state_ok s → ntp_from_model (ntp_model_of s) = Ok s.
Proof.
  intros [Hr Hne Hn%is_nfc_eq Ht]. destruct s. cbn in *. unfold ntp_from_model. cbn.
  by rewrite Hr, Hne, Hn, Ht.
Qed.

Lemma ntp_type_ascii s : ntp_state_ok s → is_ascii (ns_server_type s) = true.
Proof.
  intros [_ _ _ Ht]. apply existsb_exists in Ht as (t & Hin & ->%pystr_eqb_eq).
  by repeat (destruct Hin as [<-|Hin]; [reflexivity|]).
Qed.

(** ** The values, frozen and thawed *)

Lemma ntp_fingerprint_frozen s b f : ntp_state_ok s → validated_frozen (ntp_fingerprint s) b = Ok f →
  ∃ l, py_of_json (thaw f) = pdict l ∧ l ≡ₚ ntp_fingerprint_items s.
Proof.
  intros Hs Hf. apply frozen_items in Hf as (l & Hl & Hp); [|by repeat constructor|done]. exists l. split; [done|].
  rewrite Hp. unfold normal_items, ntp_fingerprint_items. cbn [map fst snd normal normal_leaf].
  by rewrite (nso_nfc _ Hs), (nfc_ascii _ (ntp_type_ascii _ Hs)).
Qed.

Lemma ntp_intent_frozen r d b f : ntp_request_ok r → is_ascii d = true →
  validated_frozen (pdict (ntp_intent_items r d)) b = Ok f →
  ∃ l, py_of_json (thaw f) = pdict l ∧ l ≡ₚ ntp_intent_items r d.
Proof.
  intros [_ Hn]%ntp_request_inv Hd Hf. apply frozen_items in Hf as (l & Hl & Hp); [|by repeat constructor|done].
  exists l. split; [done|]. rewrite Hp. unfold normal_items, ntp_intent_items, pdict. cbn [map fst snd normal normal_leaf].
  by rewrite Hn, (nfc_ascii d), (nfc_ascii SEMANTIC_UNIT), (nfc_ascii (u "timeserver")) by done.
Qed.

(** A dict with the items of [l], in any order. *)
Lemma permuted_dict (l l' : Snapshot) ks : l ≡ₚ l' → bool_decide (NoDup l'.*1) = true → bool_decide (ks ≡ₚ l'.*1) = true →
  keys_are ks (items l) = true ∧ ∀ k, item k (items l) = get_field k l'.
Proof.
  rewrite !bool_decide_eq_true. intros Hp Hn Hk. split.
  - apply keys_are_items. intros k. by rewrite Hp, Hk.
  - intros k. rewrite item_items. apply get_field_perm; [|done]. by rewrite Hp.
Qed.

Lemma ntp_fingerprint_read s l : ntp_state_ok s → l ≡ₚ ntp_fingerprint_items s →
  ntp_fingerprint_ (pdict l) = Ok (items l).
Proof.
  intros [_ Hne _ Ht] Hp. destruct (permuted_dict l _ ["timeserver"; "type"; "prefer"; "noselect"] Hp eq_refl eq_refl) as [Hk Hg].
  unfold ntp_fingerprint_, pdict. cbn [py_dict of_option mbind result_bind]. fold (items l). rewrite Hk, !Hg.
  unfold get_field, ntp_fingerprint_items.
  cbn [require of_option mbind result_bind option_bind fmap option_fmap option_map find fst snd String.eqb Ascii.eqb Bool.eqb py_bool].
  unfold nonempty_py_str. cbn [py_str]. unfold nonempty_str. destruct (ns_timeserver s); [done|].
  cbn [of_option mbind result_bind]. unfold in_frozenset. cbn [hashable require mbind result_bind].
  assert (existsb (pystr_eqb (ns_server_type s)) NTP_TYPES = true) as -> by done. done.
Qed.

Lemma ntp_intent_read r d l : ntp_request_ok r → l ≡ₚ ntp_intent_items r d → ntp_intent (pdict l) = Ok (nc_prefer r).
Proof.
  intros [Hne _]%ntp_request_inv Hp.
  destruct (permuted_dict l _ ["operation"; "raw_target_hint"; "prefer"; "appliance_target_digest"] Hp eq_refl eq_refl) as [Hk Hg].
  unfold ntp_intent, pdict. cbn [py_dict of_option mbind result_bind]. fold (items l). rewrite Hk, !Hg.
  unfold get_field, ntp_intent_items, pdict.
  cbn [require of_option mbind result_bind option_bind fmap option_fmap option_map find fst snd map String.eqb Ascii.eqb Bool.eqb py_eqb].
  rewrite pystr_eqb_refl. cbn [require of_option mbind result_bind option_bind py_dict].
  change (keys_are ["timeserver"] [(PStr (u "timeserver"), PStr (nc_timeserver r))]) with true.
  change (item "timeserver" [(PStr (u "timeserver"), PStr (nc_timeserver r))]) with (Some (PStr (nc_timeserver r))).
  cbn [require of_option mbind result_bind option_bind]. unfold nonempty_py_str. cbn [py_str]. unfold nonempty_str.
  by destruct (nc_timeserver r).
Qed.
End facts.

(** ** The preparer and the adapter *)

Section adapter.
Context `{Hash} `{UnicodeData} `{NtpTimeServerModel} {E : Type}.
Context (rc : NtpTimeServerPreferReadClient E) (ct : ConfiguredApplianceTargetV1).
Implicit Types (s post : NtpTimeServerStateV1) (r : NtpTimeServerPreferChangeV1).

Lemma ntp_target_name_inv n name : ntp_target_name (pdict [("timeserver", PStr n)]) = Ok name → name = n.
Proof.
  unfold ntp_target_name. cbn [py_dict of_option mbind result_bind pdict map fst snd].
  change (keys_are ["timeserver"] [(PStr (u "timeserver"), PStr n)]) with true.
  change (item "timeserver" [(PStr (u "timeserver"), PStr n)]) with (Some (PStr n)).
  cbn [require mbind option_bind result_bind]. unfold nonempty_py_str. cbn [py_str]. unfold nonempty_str.
  destruct n; [done|]. by intros [= <-].
Qed.

(** Exactly one server has the name, among fewer than a hundred. *)
Definition found r s (servers : list NtpTimeServer) : Prop :=
  (Z.of_nat (length servers) < MAX_ENUMERATION)%Z ∧
  filter (λ m, nt_timeserver m = nc_timeserver r) servers = [ntp_model_of s].

Lemma ntp_read_target_inv r e s e' : ntp_read_target rc (pdict [("timeserver", PStr (nc_timeserver r))]) e = (Ok s, e') →
  ntp_state_ok s ∧ ∃ servers, get_ntp_time_servers rc MAX_ENUMERATION e = (Ok servers, e') ∧ found r s servers.
Proof.
  unfold ntp_read_target. intros (name & e1 & [->%ntp_target_name_inv ->]%lift_inv & Hr)%bind_inv.
  apply bind_inv in Hr as (servers & e1 & Ha & Hr). apply bind_inv in Hr as ([] & e2 & [Hl ->]%lift_inv & Hr).
  apply bind_inv in Hr as (l & e3 & [Hm ->]%lift_inv & Hr). destruct l as [|s' [|]]; try done. injection Hr as -> ->.
  assert (ntp_state_ok s ∧ filter (λ m, nt_timeserver m = nc_timeserver r) servers = [ntp_model_of s]) as [Hok Hf].
  { destruct (filter _ servers) as [|m l]; [done|]. change (mapM ntp_from_model (m :: l)) with
      (x ← ntp_from_model m; k ← mapM ntp_from_model l; Ok (x :: k)) in Hm.
    apply bind_Ok in Hm as (x & [-> Hok]%ntp_from_model_inv & (k & Hk & [= -> ->])%bind_Ok). split; [done|].
    destruct l as [|m' l]; [done|]. change (mapM ntp_from_model (m' :: l)) with
      (x ← ntp_from_model m'; k ← mapM ntp_from_model l; Ok (x :: k)) in Hk.
    by apply bind_Ok in Hk as (? & _ & (? & _ & ?)%bind_Ok). }
  split; [done|]. exists servers. split; [done|split; [|done]].
  destruct (Z.of_nat (length servers) <? MAX_ENUMERATION)%Z eqn:El; [by apply Z.ltb_lt|done].
Qed.

(** What [prepare] went through. *)
Lemma ntp_prepare_inv r e p e' : ntp_prepare rc ct r e = (Ok p, e') →
  let s := pn_authoritative_a p in let d := pn_appliance_target_digest p in
  (∃ servers e1, get_ntp_time_servers rc MAX_ENUMERATION e = (Ok servers, e1) ∧ found r s servers) ∧
  ntp_state_ok s ∧ ns_prefer s ≠ nc_prefer r ∧ match_hex64 d = true ∧
  PreparedExecutionIntentV1_new PREPARED_EXECUTION_INTENT_SCHEMA_VERSION NTP_TIME_SERVER_PREFER_WRITE
    ENDPOINT_SYMBOL HTTP_METHOD ADAPTER_VERSION (ntp_identity s) (ntp_fingerprint s)
    (pdict (ntp_intent_items r d)) (ntp_fingerprint s) ROLLBACK_VERSION = Ok (pn_intent p).
Proof.
  unfold ntp_prepare. intros (s & e1 & (Hok & servers & Hget & Hf)%ntp_read_target_inv & Hr)%bind_inv.
  destruct (Bool.eqb (ns_prefer s) (nc_prefer r)) eqn:Ed; [done|]. apply Bool.eqb_false_iff in Ed.
  apply bind_inv in Hr as (d & e3 & Hd%adapter_digest_match & Hr). apply bind_inv in Hr as (i & e4 & [Hi ->]%lift_inv & Hr).
  injection Hr as <- <-. split_and!; [by exists servers, e1|done..].
Qed.

(** The protected values, read back. *)
Lemma ntp_intent_values s r d i : ntp_state_ok s → ntp_request_ok r → match_hex64 d = true →
  PreparedExecutionIntentV1_new PREPARED_EXECUTION_INTENT_SCHEMA_VERSION NTP_TIME_SERVER_PREFER_WRITE
    ENDPOINT_SYMBOL HTTP_METHOD ADAPTER_VERSION (ntp_identity s) (ntp_fingerprint s)
    (pdict (ntp_intent_items r d)) (ntp_fingerprint s) ROLLBACK_VERSION = Ok i →
  (∃ l, rollback_snapshot i = pdict l ∧ l ≡ₚ ntp_fingerprint_items s) ∧
  (∃ l, normalized_mutation_intent i = pdict l ∧ l ≡ₚ ntp_intent_items r d).
Proof.
  intros Hs Hr Hd Hi. unfold PreparedExecutionIntentV1_new in Hi. rewrite !require_bind in Hi.
  destruct Hi as (_ & _ & _ & _ & (a & Ha & (b & Hb & (c & Hc & (f & Hf & [= <-])%bind_Ok)%bind_Ok)%bind_Ok)%bind_Ok).
  split; [by eapply ntp_fingerprint_frozen|]. eapply ntp_intent_frozen; [done|by apply match_hex64_ascii|done].
Qed.

Definition with_prefer s (prefer : bool) (locator : Z) : NtpTimeServerStateV1 := {|
  ns_numeric_locator := locator; ns_timeserver := ns_timeserver s; ns_server_type := ns_server_type s;
  ns_prefer := prefer; ns_noselect := ns_noselect s |}.

Lemma ntp_verified_iff s post intent prefer : ntp_intent intent = Ok prefer →
  ∃ b, ntp_is_semantically_verified (RawServerState s) (RawServerState post) intent = Ok b ∧
    (b = true ↔ post = with_prefer s prefer (ns_numeric_locator post)).
Proof.
  intros Hi. unfold ntp_is_semantically_verified. cbn [ntp_state mbind result_bind]. rewrite Hi. eexists. split; [done|].
  rewrite !andb_true_iff, !Bool.eqb_true_iff, !pystr_eqb_eq. destruct post. cbn.
  split; [intros [[[-> <-] <-] <-]; done|by intros [= -> -> -> ->]].
Qed.

Lemma ntp_rollback_iff s post l : ntp_state_ok s → l ≡ₚ ntp_fingerprint_items s →
  ∃ b, ntp_is_rollback_verified (pdict l) (RawServerState post) = Ok b ∧
    (b = true ↔ post = with_prefer s (ns_prefer s) (ns_numeric_locator post)).
Proof.
  intros Hs Hp. unfold ntp_is_rollback_verified. rewrite (ntp_fingerprint_read s l) by done. eexists. split; [done|].
  cbn [ntp_state mbind result_bind]. fold (pdict l). change (PDict (items l)) with (pdict l). unfold ntp_fingerprint.
  rewrite (py_eqb_items (ntp_fingerprint_items s) (ntp_fingerprint_items post)); [| | | |done].
  - destruct s, post. cbn. split; [by intros [= -> -> -> ->]|by intros [= -> -> -> ->]].
  - apply (bool_decide_eq_true_1 (NoDup _)). reflexivity.
  - done.
  - unfold ntp_fingerprint_items. intros k v w Hv Hw.
    repeat (apply elem_of_cons in Hv as [[= -> ->]|Hv];
            [repeat (apply elem_of_cons in Hw as [Hw|Hw];
                     [first [discriminate Hw|by injection Hw as ->; apply (py_eqb_type StrField)|by injection Hw as ->; apply (py_eqb_type BoolField)]|]);
             by apply not_elem_of_nil in Hw|]).
    by apply not_elem_of_nil in Hv.
Qed.

(** A prepared change of the preferred server is the one asked for, and can
    be undone.  When preparation accepts a validated request, it found
    exactly one server of that name, with the other value of the flag.  From
    the values the intent protects the adapter builds the PATCH of the flag
    asked for and, for the rollback, of the old one; it accepts the result
    exactly when the server is as it was except for the flag, and a rollback
    exactly when it is as it was, at whatever locator. *)
Theorem prepared_prefer_change r e p e' :
  ntp_request_ok r → ntp_prepare rc ct r e = (Ok p, e') →
  let s := pn_authoritative_a p in let i := pn_intent p in
  (∃ servers e1, get_ntp_time_servers rc MAX_ENUMERATION e = (Ok servers, e1) ∧ found r s servers) ∧
  ns_prefer s = negb (nc_prefer r) ∧ prepared_intent i ∧
  (∀ t, ntp_build_request (normalized_mutation_intent i) t =
     Ok (Some {| np_id := numeric_locator t; np_prefer := nc_prefer r |})) ∧
  (∀ t, ntp_build_rollback_request (rollback_snapshot i) t =
     Ok (Some {| np_id := numeric_locator t; np_prefer := ns_prefer s |})) ∧
  (∀ post, ∃ b, ntp_is_semantically_verified (RawServerState s) (RawServerState post) (normalized_mutation_intent i) = Ok b ∧
     (b = true ↔ post = with_prefer s (nc_prefer r) (ns_numeric_locator post))) ∧
  (∀ post, ∃ b, ntp_is_rollback_verified (rollback_snapshot i) (RawServerState post) = Ok b ∧
     (b = true ↔ post = with_prefer s (ns_prefer s) (ns_numeric_locator post))).
Proof.
  intros Hr (Hone & Hs & Hne & Hd & Hi)%ntp_prepare_inv. cbv zeta.
  destruct (ntp_intent_values _ _ _ _ Hs Hr Hd Hi) as [(l & Hsnap & Hl) (l' & Hint & Hl')].
  pose proof (ntp_intent_read _ _ _ Hr Hl') as Hread. split_and!; [done| | | | | |].
  - by destruct (ns_prefer _), (nc_prefer r).
  - by eexists _, _, _, _, _, _, _, _, _, _.
  - intros t. unfold ntp_build_request. by rewrite Hint, Hread.
  - intros t. unfold ntp_build_rollback_request. rewrite Hsnap, (ntp_fingerprint_read _ _ Hs Hl).
    destruct (permuted_dict l _ ["timeserver"; "type"; "prefer"; "noselect"] Hl eq_refl eq_refl) as [_ Hg].
    cbn [mbind result_bind]. by rewrite Hg.
  - intros post. rewrite Hint. by apply ntp_verified_iff.
  - intros post. rewrite Hsnap. by apply ntp_rollback_iff.
Qed.
End adapter.
End NtpProps.
