(* ===== verification/Batch1Runtime.v ===== *)
(** * The runtime of the batch-1 capabilities

    [tier1/shape_a_registry.py] and [tier1/write_batch1_production_runtime.py]:
    the closed registry of the five capabilities with their security
    classes, and the runtime that gives each its execution core over one
    shared contract store.  What opening files, TLS and the transports
    yields is a parameter, as in [ProductionRuntime.v]. *)

From S2P Require Import Prelude PyStr Sha256 PyDatetime Json Capability StateMachine Canonical PyJson.
From S2P Require Import Contract Evidence Plan SealedApproval Authorization Consumption Crypto StoreCodec Database RatePolicy.
From S2P Require Import AntiRollback Store KeyLifecycle PreparedIntent WriteApi Executor.
From S2P Require Import AliasDescription SettingsUnit SettingsUnits NtpTimeServer WriteCore ProductOperation ProductionRuntime.
Import NtpTimeServerPrefer.

(** ** The registry *)

(** The request and prepared types are the types of the cores below. *)
Record ShapeARegistration : Type := {
  sr_capability_symbol : pystr; sr_contract_id_prefix : pystr; sr_runtime_core_attr : pystr;
  sr_runtime_preparer_attr : pystr; sr_security_class : WriteSecurityClass }.

Definition registration (symbol prefix core : string) (security_class : WriteSecurityClass) : ShapeARegistration := {|
  sr_capability_symbol := u symbol; sr_contract_id_prefix := u prefix; sr_runtime_core_attr := u core;
  sr_runtime_preparer_attr := u core ++ u "_preparer"; sr_security_class := security_class |}.

Definition SHAPE_A_REGISTRATIONS : list ShapeARegistration := [
  registration "NTP_TIME_SERVER_PREFER" "ntppref" "ntp_time_server_prefer" STANDARD_SEALED_WRITE;
  registration "NTP_SETTINGS_OBSERVABILITY_TOGGLES" "ntpobs" "ntp_settings_observability" HIGH_ASSURANCE_TIER1;
  registration "LOG_DISPLAY_PREFERENCES" "logdisp" "log_display_preferences" HIGH_ASSURANCE_TIER1;
  registration "LOG_RETENTION_SETTINGS" "logret" "log_retention_settings" HIGH_ASSURANCE_TIER1;
  registration "SYSTEM_TIMEZONE" "systz" "system_timezone" HIGH_ASSURANCE_TIER1].

Definition REGISTRATION_SYMBOL_TO_CAPABILITY : list (pystr * Capability) := [
  (u "NTP_TIME_SERVER_PREFER", NTP_TIME_SERVER_PREFER_WRITE);
  (u "NTP_SETTINGS_OBSERVABILITY_TOGGLES", NTP_SETTINGS_OBSERVABILITY_WRITE);
  (u "LOG_DISPLAY_PREFERENCES", LOG_DISPLAY_PREFERENCES_WRITE);
  (u "LOG_RETENTION_SETTINGS", LOG_RETENTION_SETTINGS_WRITE);
  (u "SYSTEM_TIMEZONE", SYSTEM_TIMEZONE_WRITE)].

Definition is_registered_capability (capability_symbol : pystr) : bool :=
  existsb (λ r, pystr_eqb capability_symbol (sr_capability_symbol r)) SHAPE_A_REGISTRATIONS.

(** The capabilities with their classes: the alias literal, and one entry
    per registration. *)
Definition security_class_entries : list (Capability * WriteSecurityClass) :=
  (ALIAS_WRITE, HIGH_ASSURANCE_TIER1) ::
  omap (λ r, (λ kv, (snd kv, sr_security_class r)) <$>
               find (λ kv, pystr_eqb (fst kv) (sr_capability_symbol r)) REGISTRATION_SYMBOL_TO_CAPABILITY)
    SHAPE_A_REGISTRATIONS.

Definition WRITE_CAPABILITY_SECURITY_CLASS (capability : Capability) : option WriteSecurityClass :=
  snd <$> find (λ kv, bool_decide (fst kv = capability)) security_class_entries.

(** The two checks an import makes: the tables agree, and exactly one
    capability is a standard sealed write. *)
Definition registry_consistent : bool :=
  forallb (λ kv, is_registered_capability (fst kv)) REGISTRATION_SYMBOL_TO_CAPABILITY &&
  forallb (λ r, existsb (λ kv, pystr_eqb (fst kv) (sr_capability_symbol r)) REGISTRATION_SYMBOL_TO_CAPABILITY)
    SHAPE_A_REGISTRATIONS &&
  bool_decide (map sr_capability_symbol (filter (λ r, sr_security_class r = STANDARD_SEALED_WRITE) SHAPE_A_REGISTRATIONS) =
               [u "NTP_TIME_SERVER_PREFER"]).

Lemma registry_imports : registry_consistent = true.
Proof. reflexivity. Qed.

(** ** The runtime *)

Definition SettingsCore (E : Type) : Type := WriteExecutionCoreV1 E RawSettings SettingsPatch Snapshot Snapshot.
Definition PreferCore (E : Type) : Type :=
  WriteExecutionCoreV1 E RawServer NtpTimeServerPreferPatchV1 NtpTimeServerPreferChangeV1 NtpTimeServerStateV1.

Record ProductionWriteBatch1Runtime (E : Type) : Type := {
  b1_ntp_time_server_prefer : PreferCore E;
  b1_ntp_settings_observability : SettingsCore E;
  b1_log_display_preferences : SettingsCore E;
  b1_log_retention_settings : SettingsCore E;
  b1_system_timezone : SettingsCore E;
  b1_contract_store : Config E;
}.
Arguments b1_ntp_time_server_prefer {_} _.
Arguments b1_ntp_settings_observability {_} _.
Arguments b1_log_display_preferences {_} _.
Arguments b1_log_retention_settings {_} _.
Arguments b1_system_timezone {_} _.
Arguments b1_contract_store {_} _.

(** What [build_write_batch1_production_runtime] opens.  The bodies of the
    two kinds of PATCH are written by pydantic. *)
Record Batch1Parts (E : Type) : Type := {
  bp_store : Config E;
  bp_authorities : list PinnedAuthority;
  bp_encryption_key : KeyRecord;
  bp_write_client : WriteApiClient E;
  bp_restapi_settings : prog E (option bool);
  bp_configured_target : ConfiguredApplianceTargetV1;
  bp_ntp_time_servers : Z → prog E (list NtpTimeServer);
  bp_ntp_settings : prog E Snapshot;
  bp_logs_settings : prog E Snapshot;
  bp_timezone : prog E Snapshot;
  bp_netgate_id : prog E (option pystr);
  bp_pfhostid : prog E (option pystr);
  bp_clock : E → datetime * E;
  bp_dump_prefer : NtpTimeServerPreferPatchV1 → result bytes;
  bp_dump_settings : SettingsPatch → result bytes;
  bp_contract_validity : Z;
  bp_owner_token : nat → nat;                       (* of each core *)
  bp_uuid4_hex : prog E pystr;
  bp_discover : prog (World E) SecurityPostureDiscovery;
}.
Arguments bp_store {_} _.
Arguments bp_authorities {_} _.
Arguments bp_encryption_key {_} _.
Arguments bp_write_client {_} _.
Arguments bp_restapi_settings {_} _.
Arguments bp_configured_target {_} _.
Arguments bp_ntp_time_servers {_} _ _.
Arguments bp_ntp_settings {_} _.
Arguments bp_logs_settings {_} _.
Arguments bp_timezone {_} _.
Arguments bp_netgate_id {_} _.
Arguments bp_pfhostid {_} _.
Arguments bp_clock {_} _ _.
Arguments bp_dump_prefer {_} _ _.
Arguments bp_dump_settings {_} _ _.
Arguments bp_contract_validity {_} _.
Arguments bp_owner_token {_} _ _.
Arguments bp_uuid4_hex {_} _.
Arguments bp_discover {_} _.

Section runtime.
Context `{Hash} `{UnicodeData} {E : Type} (parts : Batch1Parts E).

(** The executor of one core: its one rule, the registry's classes, and
    neither approval authorities nor an approval source. *)
Definition batch1_executor {Raw Request} (capability : Capability) (endpoint_symbol http_method : pystr)
    (dump : Request → result bytes) (hint : pyobj → Raw) : result (MutationExecutor E Raw Request) :=
  rule ← Policy.MutationRule_new {| Policy.rule_capability := capability;
           Policy.rule_endpoint_symbol := endpoint_symbol; Policy.rule_http_method := http_method |};
  Ok {| x_store := bp_store parts; x_write_client := bp_write_client parts;
        get_system_restapi_settings := bp_restapi_settings parts;
        x_policy := [rule]; x_encryption_key := material (bp_encryption_key parts);
        capability_security_classes := WRITE_CAPABILITY_SECURITY_CLASS;
        approval_authorities := None; approval_source := None;
        x_clock := bp_clock parts; model_dump_json := dump; of_hint := hint |}.

(** [_core] *)
Definition batch1_core {Raw Request Change State} (number : nat) (capability : Capability)
    (endpoint_symbol http_method contract_id_prefix : pystr) (prepare : Change → prog E (PreparedWriteExecutionV1 State))
    (adapter : CapabilityAdapter E Raw Request) (raw_target : State → list (string * pyobj)) (locator : State → Z)
    (dump : Request → result bytes) (hint : pyobj → Raw) : result (WriteExecutionCoreV1 E Raw Request Change State) :=
  executor ← batch1_executor capability endpoint_symbol http_method dump hint;
  security_class ← of_option (WRITE_CAPABILITY_SECURITY_CLASS capability) KeyError;
  Ok {| wc_contract_id_prefix := contract_id_prefix; wc_raw_target := raw_target; wc_numeric_locator := locator;
        wc_prepare := prepare; wc_adapter := adapter; wc_authorities := bp_authorities parts;
        wc_store := bp_store parts; wc_executor := executor; wc_encryption_key := bp_encryption_key parts;
        wc_security_class := security_class; wc_contract_validity := bp_contract_validity parts;
        wc_owner_token := bp_owner_token parts number; wc_uuid4_hex := bp_uuid4_hex parts;
        wc_discover := bp_discover parts |}.

Definition settings_client (get : prog E Snapshot) : SettingsReadClient E := {|
  get_settings := get; st_netgate_id := bp_netgate_id parts; st_pfhostid := bp_pfhostid parts |}.
Definition prefer_client : NtpTimeServerPreferReadClient E := {|
  get_ntp_time_servers := bp_ntp_time_servers parts;
  nt_netgate_id := bp_netgate_id parts; nt_pfhostid := bp_pfhostid parts |}.

(** The preparers, as the cores call them. *)
Definition prepare_settings (unit : SettingsUnit) (get : prog E Snapshot) (request : Snapshot)
    : prog E (PreparedWriteExecutionV1 Snapshot) :=
  p ← settings_prepare unit (settings_client get) (bp_configured_target parts) request;
  mret {| pw_intent := ps_intent p; pw_authoritative_a := ps_authoritative_a p;
          pw_appliance_target_digest := ps_appliance_target_digest p |}.
Definition prepare_prefer (request : NtpTimeServerPreferChangeV1) : prog E (PreparedWriteExecutionV1 NtpTimeServerStateV1) :=
  p ← ntp_prepare prefer_client (bp_configured_target parts) request;
  mret {| pw_intent := pn_intent p; pw_authoritative_a := pn_authoritative_a p;
          pw_appliance_target_digest := pn_appliance_target_digest p |}.

(** The core of a settings capability: the hint is the state itself. *)
Definition settings_core (unit : SettingsUnit) `{!SettingsModel unit} (number : nat) (prefix : string)
    (get : prog E Snapshot) : result (SettingsCore E) :=
  batch1_core number (su_capability unit) (su_endpoint_symbol unit) HTTP_METHOD (u prefix)
    (prepare_settings unit get) (SettingsAdapter unit (settings_client get)) (λ s, s) (λ _, SINGLETON_LOCATOR)
    (bp_dump_settings parts) RawDict.

Context `{!NtpTimeServerModel} `{!SettingsModel NtpSettingsObservability} `{!SettingsModel LogDisplayPreferences}.
Context `{!SettingsModel LogRetentionSettings} `{!SettingsModel SystemTimezone}.

(** The end of [build_write_batch1_production_runtime]. *)
Definition compose_batch1_runtime : result (ProductionWriteBatch1Runtime E) :=
  prefer ← batch1_core 0 NTP_TIME_SERVER_PREFER_WRITE ENDPOINT_SYMBOL HTTP_METHOD (u "ntppref") prepare_prefer
             (NtpTimeServerPreferAdapterV1 prefer_client) ntp_raw_target_items ns_numeric_locator
             (bp_dump_prefer parts) RawServerValue;
  observability ← settings_core NtpSettingsObservability 1 "ntpobs" (bp_ntp_settings parts);
  display ← settings_core LogDisplayPreferences 2 "logdisp" (bp_logs_settings parts);
  retention ← settings_core LogRetentionSettings 3 "logret" (bp_logs_settings parts);
  timezone ← settings_core SystemTimezone 4 "systz" (bp_timezone parts);
  Ok {| b1_ntp_time_server_prefer := prefer; b1_ntp_settings_observability := observability;
        b1_log_display_preferences := display; b1_log_retention_settings := retention;
        b1_system_timezone := timezone; b1_contract_store := bp_store parts |}.
End runtime.

(** ** The configuration *)

(** [_REQUIRED_VARS]: the stores are the module's own, the authorities and
    the witness those of [production_runtime.py]. *)
Definition BATCH1_REQUIRED_VARS : list string :=
  ["PFSENSE_TIER1_WRITE_BATCH1_STORE_PATH"; "PFSENSE_TIER1_WRITE_BATCH1_STORE_KEY_FILE";
   "PFSENSE_TIER1_WRITE_BATCH1_CONSUMPTION_STORE_PATH"; "PFSENSE_TIER1_WRITE_BATCH1_CONSUMPTION_STORE_KEY_FILE";
   "PFSENSE_TIER1_WRITE_BATCH1_ENCRYPTION_KEY_FILE"; "PFSENSE_TIER1_WRITE_BATCH1_NONCE_COUNTER_FILE";
   "PFSENSE_TIER1_AUTHORIZATION_AUTHORITY_FILE"; "PFSENSE_TIER1_CONFIRMATION_AUTHORITY_FILE";
   "PFSENSE_TIER1_RECONCILIATION_AUTHORITY_FILE"; "PFSENSE_TIER1_WITNESS_BASE_URL";
   "PFSENSE_TIER1_WITNESS_CLIENT_CERT_FILE"; "PFSENSE_TIER1_WITNESS_CLIENT_KEY_FILE";
   "PFSENSE_TIER1_WITNESS_SERVER_CA_FILE"].

Definition batch1_missing_vars (source : string → option pystr) : list string :=
  filter (λ name, match source name with Some (_ :: _) => false | _ => true end = true) BATCH1_REQUIRED_VARS.

(** [build_write_batch1_production_runtime]: disabled, refused, or a runtime
    over a store whose anchor is provisioned. *)
Definition build_write_batch1_production_runtime {R} (source : string → option pystr) (status : AnchorProvisioningStatus)
    (compose : result R) : result (option R) :=
  let missing := batch1_missing_vars source in
  if (length missing =? length BATCH1_REQUIRED_VARS)%nat then Ok None
  else if negb (length missing =? 0)%nat then Raise Tier1ConfigurationError else
  _ ← provisioned status;
  runtime ← compose;
  Ok (Some runtime).
