(* ===== verification/Batch1Props.v ===== *)
(** * Properties of the batch-1 runtime

    The five cores of [Batch1Runtime.v] keep the promise the execution core
    relies on; so an authorization and its handoff send the signed change
    and nothing else, as for the alias description in [EndToEnd.v].  The
    runtime is closed: without an acceptance context it sends nothing, and
    one of its capabilities never sends anything. *)

From S2P Require Import Prelude PyStr Sha256 PyDatetime Json Capability StateMachine Canonical PyJson.
From S2P Require Import Contract Evidence Plan SealedApproval Authorization AuthorizationProps Consumption Crypto StoreCodec Database RatePolicy.
From S2P Require Import AntiRollback Store StoreInv StoreOps StoreProps StoreGate StoreResolve KeyLifecycle PreparedIntent WriteApi Executor ExecutorInv ExecutorProps.
From S2P Require Import Literals AliasDescription SettingsUnit SettingsUnits PyDict SettingsProps NtpTimeServer NtpProps.
From S2P Require Import StoreBehaviour WriteCore WriteCoreProps AliasCore EndToEnd Batch1Runtime.
Import NtpTimeServerPrefer NtpProps.

(** A contract for an endpoint that is not verified is not rolled back. *)
Lemma unverified_rollback {E Raw Request} `{Hash} `{UnicodeData} `{AESGCM} `{Ed25519} (x : MutationExecutor E Raw Request)
    adapter c s r s' : clock_valid (x_store x) → quiet (x_store x) → reachable (x_store x) (world s) →
  stored (x_store x) (world s) c → (∀ ep, (rc_endpoint_symbol c, ep) ∈ WriteEndpoints → verified ep = false) →
  rollback x (rc_contract_id c) adapter s = (r, s') →
  sends s' = sends s ∧ ∀ out, r = Ok out → out_state out = ROLLBACK_FAILED.
Proof.
  intros Hclock Hquiet Hw Hst Hep Hp. destruct (reachable_rep _ Hclock (quiet_others_behave _ Hquiet) _ Hw) as [m Hr].
  apply (stored_lookup _ m) in Hst; [|done..].
  pose proof (wp_elim _ _ _ _ _ (wp_rollback x adapter Hclock Hquiet m _ s Hr) Hp)
    as [(Hs & (e & ->) & _)|(cur & rb & d & Hm & _ & Hsuc & _ & _ & l & m' & -> & _ & _ & _ & HK & Hout)]; [done|].
  assert (cur = c) as -> by congruence. destruct l as [|y l].
  - rewrite app_nil_r. split; [done|]. intros out ->. destruct Hout as (_ & c' & _ & _ & <- & Hc'). exact Hc'.
  - apply Forall_cons in HK as [(_ & (ep & Hin & _ & Hv & _) & _) _].
    assert (rc_endpoint_symbol rb = rc_endpoint_symbol c) as Hes.
    { pose proof (proj1 Hsuc) as Hid. unfold identity_of in Hid. injection Hid. congruence. }
    rewrite Hes in Hin. apply Hep in Hin. cbn in Hv. congruence.
Qed.

Section cores.
Context `{Hash} `{UnicodeData} `{AESGCM} `{Ed25519} {E L : Type} `{Store : ConsumptionStore L}.
Context (parts : Batch1Parts E).

Lemma batch1_core_inv {Raw Request Change State} n cap es m prefix prepare adapter raw locator dump hint core :
  batch1_core (Raw:=Raw) (Request:=Request) (Change:=Change) (State:=State) parts n cap es m prefix prepare adapter raw
    locator dump hint = Ok core →
  ∃ x, wc_executor core = x ∧ x_store x = bp_store parts ∧ x_write_client x = bp_write_client parts ∧
    x_encryption_key x = material (bp_encryption_key parts) ∧ capability_security_classes x = WRITE_CAPABILITY_SECURITY_CLASS ∧
    approval_authorities x = None ∧ model_dump_json x = dump ∧ of_hint x = hint ∧
    wc_store core = bp_store parts ∧ wc_encryption_key core = bp_encryption_key parts ∧ wc_discover core = bp_discover parts ∧
    wc_prepare core = prepare ∧ wc_adapter core = adapter ∧ wc_raw_target core = raw ∧ wc_numeric_locator core = locator.
Proof.
  unfold batch1_core, batch1_executor. intros (x & (rule & _ & [= <-])%bind_Ok & (class & _ & [= <-])%bind_Ok)%bind_Ok.
  by eexists.
Qed.

(** One process, one store. *)
Record batch1_alone : Prop := {
  ba_quiet : quiet (bp_store parts);
  ba_clock : clock_valid (bp_store parts);
  ba_discover : ∀ x, db (snd (bp_discover parts x)) = db x;
}.

Lemma batch1_core_wired {Raw Request Change State} n cap es m prefix prepare adapter raw locator dump hint core :
  batch1_alone → (∀ request e fresh e', prepare request e = (Ok fresh, e') → prepared_intent (pw_intent fresh)) →
  batch1_core (Raw:=Raw) (Request:=Request) (Change:=Change) (State:=State) parts n cap es m prefix prepare adapter raw
    locator dump hint = Ok core → wired core.
Proof.
  intros [Hq Hc Hd] Hp (x & Hx & Hst & _ & Hk & _ & _ & _ & _ & Hs & Hek & Hdis & Hprep & _)%batch1_core_inv.
  split; rewrite ?Hx, ?Hs, ?Hek, ?Hdis, ?Hprep; done.
Qed.

(** ** The settings capabilities *)

Section settings.
Context (unit : SettingsUnit) `{!SettingsModel unit} `{!SettingsLaws unit} (get : prog E Snapshot).
Context (Hread : ∀ e s e', get e = (Ok s, e') → model_ok unit s).

Lemma prepare_settings_inv r e fresh e' : prepare_settings parts unit get r e = (Ok fresh, e') →
  let s := pw_authoritative_a fresh in let d := pw_appliance_target_digest fresh in
  settings_ok unit s ∧ same_values unit r s = false ∧ match_hex64 d = true ∧
  PreparedExecutionIntentV1_new PREPARED_EXECUTION_INTENT_SCHEMA_VERSION (su_capability unit)
    (su_endpoint_symbol unit) HTTP_METHOD (su_adapter_version unit) (su_identity unit) (pdict s)
    (pdict (settings_intent_items unit r d)) (pdict s) (su_rollback_version unit) = Ok (pw_intent fresh).
Proof.
  intros (p & e1 & Hp & [= <- _])%bind_inv. by apply settings_prepare_inv in Hp as (_ & Hs & Hsame & Hd & Hi).
Qed.

Lemma settings_hint s : settings_ok unit s → settings_state unit (RawDict (pdict s)) = Ok s.
Proof.
  intros [Hm Hst _]. unfold settings_state. change (py_dict (pdict s)) with (Some (items s)).
  cbn [of_option mbind result_bind]. rewrite (proj2 (keys_are_items _ s)) by (intros k; by rewrite (proj1 Hm)).
  cbn [require mbind result_bind]. by rewrite (settings_validate_fields s s Hm).
Qed.

Lemma settings_capability_laws n prefix core : settings_core parts unit n prefix get = Ok core → capability_laws core.
Proof.
  intros (x & Hx & _ & _ & _ & _ & _ & _ & Hh & _ & _ & _ & Hprep & Had & Hraw & _)%batch1_core_inv request e fresh e'.
  rewrite Hprep, Had. intros (Hs & _ & _ & Hi)%prepare_settings_inv. cbv zeta.
  unfold hint_of. rewrite Hx, Hh, Hraw. cbn [ad_capability ad_endpoint_symbol ad_http_method SettingsAdapter natural_identity fingerprint].
  rewrite settings_hint by done. unfold PreparedExecutionIntentV1_new in Hi. rewrite !require_bind in Hi.
  destruct Hi as (_ & _ & _ & _ & (a & Ha & (b & Hb & (c & Hc & (f & Hf & Hi)%bind_Ok)%bind_Ok)%bind_Ok)%bind_Ok).
  injection Hi as <-. split_and!; [done..|]. eexists _, _.
  split_and!; [done|done|intros; symmetry; by eapply digest_value_frozen..].
Qed.

Lemma settings_wired n prefix core : batch1_alone → settings_core parts unit n prefix get = Ok core → wired core.
Proof.
  intros Ha. apply batch1_core_wired; [done|]. intros r e fresh e' (p & e1 & Hp & [= <- _])%bind_inv.
  unfold settings_prepare in Hp. apply bind_inv in Hp as (s & e2 & _ & Hp). destruct (same_values unit r s); [done|].
  apply bind_inv in Hp as (d & e3 & _ & Hp). apply bind_inv in Hp as (i & e4 & [Hi _]%lift_inv & Hp). injection Hp as <- _.
  by eexists _, _, _, _, _, _, _, _, _, _.
Qed.

Lemma bindings_target c cap es m ti tp ni : verify_bindings c cap es m ti tp ni = Ok () →
  rc_capability c = cap ∧ rc_endpoint_symbol c = es ∧ rc_http_method c = m.
Proof.
  unfold verify_bindings. intros Hb. repeat (apply bind_Ok in Hb as (? & _ & Hb)). apply require_Ok in Hb.
  rewrite !andb_true_iff in Hb. destruct_and! Hb. rewrite capability_eqb_eq, !pystr_eqb_eq in *. done.
Qed.

(** What a handoff sends needs an acceptance context. *)
Lemma settings_handoff n prefix core m h conf now ctx (w : Core E L) out w' :
  settings_core parts unit n prefix get = Ok core → batch1_alone → rep (wc_store core) (db (contracts w)) m →
  confirm_and_handoff core h conf now ctx w = (out, w') →
  ∃ l, sends (c_session w') = sends (c_session w) ++ l ∧ (length l ≤ 1)%nat ∧ (ctx = None → l = []) ∧
    ∀ y, y ∈ l → sent_method y = u "PATCH" ∧
      ∃ ep, (su_endpoint_symbol unit, ep) ∈ WriteEndpoints ∧ sent_path y = request_path (bp_write_client parts) ep.
Proof.
  intros Hcore Halone Hr Hp. pose proof (settings_wired _ _ _ Halone Hcore) as Hwired.
  pose proof (batch1_core_inv _ _ _ _ _ _ _ _ _ _ _ _ Hcore)
    as (x & Hx & _ & Hcl & _ & _ & _ & _ & _ & _ & _ & _ & _ & Had & _).
  destruct (handoff_through_gates core Hwired _ _ _ _ _ _ _ _ Hr Hp) as (l & Hl & Hlen & Hy). exists l.
  assert (∀ y, y ∈ l → sent_method y = u "PATCH" ∧ ∃ ep, (su_endpoint_symbol unit, ep) ∈ WriteEndpoints ∧
    verified ep = is_none ctx ∧ sent_path y = request_path (bp_write_client parts) ep) as Hreq.
  { intros y Hin. destruct (Hy y Hin) as (r & cur & ex & d & intent & ti & _ & _ & Hex & _ & Hg & (_ & (ep & Hep & _ & Hv & Hm & Hpath) & _)).
    destruct (eg_bindings _ _ _ _ _ Hg) as [tp (_ & Hes & Hme)%bindings_target]. unfold identity_of in Hex. injection Hex. intros.
    rewrite negb_involutive in Hv. rewrite Had in Hes, Hme. cbn [SettingsAdapter ad_endpoint_symbol ad_http_method] in Hes, Hme.
    change HTTP_METHOD with (u "PATCH") in Hme. split; [congruence|]. exists ep. rewrite <-Hes, <-Hcl, <-Hx. split_and!; [congruence|done|done]. }
  split_and!; [done|done| |intros y Hin; by destruct (Hreq y Hin) as (? & ep & ? & _ & ?); split; [|exists ep]].
  intros ->. destruct l as [|y l]; [done|]. destruct (Hreq y ltac:(left)) as (_ & ep & Hep%sl_unverified & Hv & _).
  cbn in Hv. congruence.
Qed.

(** What was accepted is not undone. *)
Lemma settings_only_accepted n prefix core (w : Core E L) :
  settings_core parts unit n prefix get = Ok core → batch1_alone → reachable (bp_store parts) (contracts w) →
  (∀ h conf now ctx out w', confirm_and_handoff core h conf now ctx w = (out, w') →
   ∃ l, sends (c_session w') = sends (c_session w) ++ l ∧ (length l ≤ 1)%nat ∧ (ctx = None → l = []) ∧
     ∀ y, y ∈ l → sent_method y = u "PATCH" ∧
       ∃ ep, (su_endpoint_symbol unit, ep) ∈ WriteEndpoints ∧ sent_path y = request_path (bp_write_client parts) ep) ∧
  (∀ c r s', stored (bp_store parts) (contracts w) c → rc_endpoint_symbol c = su_endpoint_symbol unit →
   rollback (wc_executor core) (rc_contract_id c) (wc_adapter core) (c_session w) = (r, s') →
   sends s' = sends (c_session w) ∧ ∀ out, r = Ok out → out_state out = ROLLBACK_FAILED).
Proof.
  intros Hcore Ha Hr. split; [intros h conf now ctx out w'|intros c r s' Hst Hes Hp].
  { pose proof (settings_wired _ _ _ Ha Hcore) as Hwired.
    pose proof (batch1_core_inv _ _ _ _ _ _ _ _ _ _ _ _ Hcore) as (x & _ & _ & _ & _ & _ & _ & _ & _ & Hst & _).
    rewrite <-Hst in Hr. destruct (reachable_rep _ (wd_clock _ Hwired) (quiet_others_behave _ (wd_quiet _ Hwired)) _ Hr) as [m Hm].
    by eapply settings_handoff. }
  destruct (batch1_core_inv _ _ _ _ _ _ _ _ _ _ _ _ Hcore) as (x & Hx & Hxs & _). destruct Ha as [Hq Hc _].
  rewrite Hx in Hp. rewrite <-Hxs in *. eapply unverified_rollback; try done. intros ep. rewrite Hes. apply sl_unverified.
Qed.

(** [C10] The settings request on the wire is the one that was signed.  For
    each of the four settings capabilities: when [authorize_and_create]
    returns a handle for a validated request and the handle is handed off,
    however much later, at most one request is sent, and none at all
    without an acceptance context; it is the PATCH of the capability's own
    endpoint with exactly the requested fields.  The owner's artifact binds
    one digest to the requested step, and the request carries out whatever
    intent has that digest: its method, its endpoint and the body built
    from its mutation intent are that intent's, unless that intent and the
    one prepared inside [authorize_and_create], which has the same digest,
    are a collision of SHA-256. *)
Theorem signed_settings_sent n prefix core request ap a d s risk cap anc now (w : Core E L) h w1 conf now2 ctx w2 out w3 :
  settings_core parts unit n prefix get = Ok core → batch1_alone → settings_request_ok unit request →
  reachable (bp_store parts) (contracts w) → dt_valid now = true → v2_ok (a2_fields a) →
  authorize_and_create core request ap a d s risk cap anc now w = (Ok h, w1) → waits w1 w2 →
  confirm_and_handoff core h conf now2 ctx w2 = (out, w3) →
  ∃ digest prepared l, compute_execution_intent_digest (pw_intent ap) = Ok digest ∧
    {| sb_step_id := s; sb_execution_intent_digest := digest |} ∈ pa2_authorized_executions (a2_fields a) ∧
    prepared_intent prepared ∧ compute_execution_intent_digest prepared = Ok digest ∧
    sends (c_session w3) = sends (c_session w2) ++ l ∧ (length l ≤ 1)%nat ∧ (ctx = None → l = []) ∧
    (∀ i, prepared_intent i → compute_execution_intent_digest i = Ok digest →
       ∀ y, y ∈ l → carries_out core i (wc_numeric_locator core (pw_authoritative_a ap)) y ∨
         intents_collide i prepared) ∧
    ∀ y, y ∈ l → sent_method y = u "PATCH" ∧
      (∃ ep, (su_endpoint_symbol unit, ep) ∈ WriteEndpoints ∧ sent_path y = request_path (bp_write_client parts) ep) ∧
      ∃ body, sent_body y = Some body ∧ bp_dump_settings parts {| sp_values := request |} = Ok body.
Proof.
  intros Hcore Halone Hreq Hreach Hnow Ha Hcreate Hwait Hoff. pose proof (settings_wired _ _ _ Halone Hcore) as Hwired.
  pose proof (batch1_core_inv _ _ _ _ _ _ _ _ _ _ _ _ Hcore)
    as (x & Hx & _ & Hcl & _ & _ & _ & Hdump & _ & Hst & _ & _ & Hprep & Had & _). rewrite <-Hst in Hreach.
  destruct (created_then_sent core Hwired _ _ _ _ _ _ _ _ _ _ _ _ _ _ _ _ _ _ Hreach Hnow Ha Hcreate Hwait Hoff)
    as (fresh & digest & e & e' & l & Hpr & Hpi & Hfd & Hap & Hbound & Hl & Hlen & Hy).
  assert (∀ y, y ∈ l → carries_out core (pw_intent fresh) (wc_numeric_locator core (pw_authoritative_a ap)) y) as Hcarry.
  { intros y Hin. destruct (Hy y Hin) as (Hmeth & (ep & Hep & _ & Hpath) & Hbody). split_and!; [done|by exists ep|exact Hbody]. }
  rewrite Hprep in Hpr. apply prepare_settings_inv in Hpr as (Hs & _ & Hd & Hi).
  destruct (settings_values unit _ _ _ _ Hs Hreq Hd Hi) as (_ & (l' & Hint & Hl') & _).
  unfold PreparedExecutionIntentV1_new in Hi. rewrite !require_bind in Hi.
  destruct Hi as (_ & _ & _ & _ & (v1 & _ & (v2 & _ & (v3 & _ & (v4 & _ & Hi)%bind_Ok)%bind_Ok)%bind_Ok)%bind_Ok).
  injection Hi as Hi. rewrite <-Hi in Hy. cbn [pi_http_method pi_endpoint_symbol] in Hy. rewrite Hi in Hy.
  exists digest, (pw_intent fresh), l. split_and!; [done..| |by apply (signed_carried_out core)|].
  - intros ->. destruct l as [|y l]; [done|]. destruct (Hy y ltac:(left)) as (_ & (ep & Hep%sl_unverified & Hv & _) & _).
    cbn in Hv. congruence.
  - intros y Hin. destruct (Hy y Hin) as (Hmeth & (ep & Hep & _ & Hpath) & tt & req & body & _ & Hb & Hj & Hbody).
    split_and!; [exact Hmeth|exists ep; by rewrite <-Hcl, <-Hx|]. exists body. split; [done|].
    rewrite Had in Hb. cbn [SettingsAdapter build_request] in Hb. rewrite Hint, (build_request_eq unit request _ l') in Hb by done.
    injection Hb as <-. by rewrite <-Hdump, <-Hx.
Qed.
End settings.

(** ** The preferred time server *)

Section prefer.
Context `{!NtpTimeServerModel}.

Lemma prepare_prefer_inv r e fresh e' : prepare_prefer parts r e = (Ok fresh, e') →
  let s := pw_authoritative_a fresh in let d := pw_appliance_target_digest fresh in
  ntp_state_ok s ∧ PreparedExecutionIntentV1_new PREPARED_EXECUTION_INTENT_SCHEMA_VERSION NTP_TIME_SERVER_PREFER_WRITE
    ENDPOINT_SYMBOL HTTP_METHOD ADAPTER_VERSION (ntp_identity s) (ntp_fingerprint s)
    (pdict (ntp_intent_items r d)) (ntp_fingerprint s) ROLLBACK_VERSION = Ok (pw_intent fresh).
Proof. by intros (p & e1 & (_ & Hs & _ & _ & Hi)%ntp_prepare_inv & [= <- _])%bind_inv. Qed.

Definition PreferCore_of (core : PreferCore E) : Prop :=
  batch1_core parts 0 NTP_TIME_SERVER_PREFER_WRITE ENDPOINT_SYMBOL HTTP_METHOD (u "ntppref") (prepare_prefer parts)
    (NtpTimeServerPreferAdapterV1 (prefer_client parts)) ntp_raw_target_items ns_numeric_locator
    (bp_dump_prefer parts) RawServerValue = Ok core.

(** The target hint is read back as the target. *)
Lemma prefer_hint s b f : ntp_state_ok s → validated_frozen (ntp_fingerprint s) b = Ok f →
  ntp_state (RawServerValue (pdict (ntp_raw_target_items s))) = Ok s.
Proof.
  intros Hs Hf. apply validated_frozen_inv in Hf as (j & [Hd _]%validate_denote & _).
  apply denote_pdict_entries in Hd as (es & -> & He); [|reflexivity]. unfold ntp_fingerprint_items in He. literal_entries.
  unfold ntp_state. change (py_dict (pdict (ntp_raw_target_items s))) with (Some (items (ntp_raw_target_items s))).
  cbn [of_option mbind result_bind].
  match goal with |- context [keys_are ?k ?d] => change (keys_are k d) with true end. cbn [require mbind result_bind].
  match goal with |- context [mapM ?f ?l] => change (mapM f l) with (Ok [("id", PInt (ns_numeric_locator s));
    ("timeserver", PStr (ns_timeserver s)); ("type", PStr (ns_server_type s)); ("prefer", PBool (ns_prefer s));
    ("noselect", PBool (ns_noselect s))]) end.
  cbn [mbind result_bind].
  rewrite server_validate_fields; [by apply ntp_from_model_ok|]. apply andb_true_iff. split.
  - eapply denote_str_scalar; [apply nso_nfc, Hs|done].
  - eapply denote_str_scalar; [apply nfc_ascii, ntp_type_ascii, Hs|done].
Qed.

Lemma prefer_capability_laws core : PreferCore_of core → capability_laws core.
Proof.
  intros (x & Hx & _ & _ & _ & _ & _ & _ & Hh & _ & _ & _ & Hprep & Had & Hraw & _)%batch1_core_inv request e fresh e'.
  rewrite Hprep, Had. intros (Hs & Hi)%prepare_prefer_inv. cbv zeta.
  unfold hint_of. rewrite Hx, Hh, Hraw.
  cbn [ad_capability ad_endpoint_symbol ad_http_method NtpTimeServerPreferAdapterV1 natural_identity fingerprint].
  unfold PreparedExecutionIntentV1_new in Hi. rewrite !require_bind in Hi.
  destruct Hi as (_ & _ & _ & _ & (a & Ha & (b & Hb & (c & Hc & (f & Hf & Hi)%bind_Ok)%bind_Ok)%bind_Ok)%bind_Ok).
  injection Hi as <-. erewrite prefer_hint by done. split_and!; [done..|]. eexists _, _.
  split_and!; [done|done|intros; symmetry; by eapply digest_value_frozen..].
Qed.

Lemma prefer_wired core : batch1_alone → PreferCore_of core → wired core.
Proof.
  intros Ha. apply batch1_core_wired; [done|]. intros r e fresh e' (_ & Hi)%prepare_prefer_inv.
  by eexists _, _, _, _, _, _, _, _, _, _.
Qed.

(** The registry makes it a standard sealed write, which needs an approval
    no executor of this runtime can find. *)
Lemma prefer_refused core m h conf now ctx (w : Core E L) out w' : PreferCore_of core → batch1_alone →
  rep (wc_store core) (db (contracts w)) m → confirm_and_handoff core h conf now ctx w = (out, w') →
  sends (c_session w') = sends (c_session w).
Proof.
  intros Hcore Halone Hr Hp. pose proof (prefer_wired _ Halone Hcore) as Hwired.
  pose proof (batch1_core_inv _ _ _ _ _ _ _ _ _ _ _ _ Hcore)
    as (x & Hx & _ & _ & _ & Hcls & Hno & _ & _ & _ & _ & _ & _ & Had & _).
  destruct (handoff_through_gates core Hwired _ _ _ _ _ _ _ _ Hr Hp) as (l & -> & _ & Hy).
  destruct l as [|y l]; [by rewrite app_nil_r|]. exfalso.
  destruct (Hy y ltac:(left)) as (r & cur & ex & d & intent & ti & _ & _ & _ & _ & [_ _ Hc Happ _ _ [tp Hb] _] & _).
  apply bindings_target in Hb as [Hb _]. rewrite Hx, Hcls, Hb, Had in Hc.
  assert (rc_security_class cur = STANDARD_SEALED_WRITE) as Hstd.
  { cbn [ad_capability NtpTimeServerPreferAdapterV1] in Hc. vm_compute in Hc. by injection Hc. }
  destruct (Happ Hstd) as (au & src & ap & e & i & Hau & _). rewrite Hx, Hno in Hau. done.
Qed.
End prefer.

(** ** The runtime *)

Section runtime.
Context `{!NtpTimeServerModel} `{!SettingsModel NtpSettingsObservability} `{!SettingsModel LogDisplayPreferences}.
Context `{!SettingsModel LogRetentionSettings} `{!SettingsModel SystemTimezone}.

Lemma compose_inv rt : compose_batch1_runtime parts = Ok rt →
  b1_contract_store rt = bp_store parts ∧ PreferCore_of (b1_ntp_time_server_prefer rt) ∧
  settings_core parts NtpSettingsObservability 1 "ntpobs" (bp_ntp_settings parts) = Ok (b1_ntp_settings_observability rt) ∧
  settings_core parts LogDisplayPreferences 2 "logdisp" (bp_logs_settings parts) = Ok (b1_log_display_preferences rt) ∧
  settings_core parts LogRetentionSettings 3 "logret" (bp_logs_settings parts) = Ok (b1_log_retention_settings rt) ∧
  settings_core parts SystemTimezone 4 "systz" (bp_timezone parts) = Ok (b1_system_timezone rt).
Proof.
  unfold compose_batch1_runtime.
  by intros (c0 & H0' & (c1 & H1' & (c2 & H2' & (c3 & H3' & (c4 & H4' & [= <-])%bind_Ok)%bind_Ok)%bind_Ok)%bind_Ok)%bind_Ok.
Qed.

(** The endpoints of the settings cores. *)
Definition settings_symbols : list pystr :=
  [u "NTP_SETTINGS_OBSERVABILITY_TOGGLES"; u "LOG_DISPLAY_PREFERENCES"; u "LOG_RETENTION_SETTINGS"; u "SYSTEM_TIMEZONE"].
Definition settings_cores (rt : ProductionWriteBatch1Runtime E) : list (SettingsCore E) :=
  [b1_ntp_settings_observability rt; b1_log_display_preferences rt; b1_log_retention_settings rt; b1_system_timezone rt].

(** [C11] The batch-1 runtime is closed.  Whatever its stores hold that their
    operations can have put there, and whatever handle, confirmation and
    moment a handoff is given: without an acceptance context no core of the
    composed runtime sends anything; with one, a settings core sends at
    most one PATCH, to its own endpoint.  The preferred-time-server core
    sends nothing under any context: the registry makes its capability a
    standard sealed write, and the runtime composes its executor with no
    approval authority and no approval source. *)
Theorem batch1_closed rt (w : Core E L) :
  compose_batch1_runtime parts = Ok rt → batch1_alone → reachable (b1_contract_store rt) (contracts w) →
  (∀ h conf now ctx out w', confirm_and_handoff (b1_ntp_time_server_prefer rt) h conf now ctx w = (out, w') →
     sends (c_session w') = sends (c_session w)) ∧
  ∀ k symbol core, settings_symbols !! k = Some symbol → settings_cores rt !! k = Some core →
    (∀ h conf now ctx out w', confirm_and_handoff core h conf now ctx w = (out, w') →
     ∃ l, sends (c_session w') = sends (c_session w) ++ l ∧ (length l ≤ 1)%nat ∧ (ctx = None → l = []) ∧
       ∀ y, y ∈ l → sent_method y = u "PATCH" ∧
         ∃ ep, (symbol, ep) ∈ WriteEndpoints ∧ sent_path y = request_path (bp_write_client parts) ep) ∧
    (∀ c r s', stored (b1_contract_store rt) (contracts w) c → rc_endpoint_symbol c = symbol →
     rollback (wc_executor core) (rc_contract_id c) (wc_adapter core) (c_session w) = (r, s') →
     sends s' = sends (c_session w) ∧ ∀ out, r = Ok out → out_state out = ROLLBACK_FAILED).
Proof.
  intros (Hst & Hp & H1' & H2' & H3' & H4')%compose_inv Ha Hr. rewrite Hst in *. split.
  - intros h conf now ctx out w'. pose proof (prefer_wired _ Ha Hp) as Hwired.
    pose proof (batch1_core_inv _ _ _ _ _ _ _ _ _ _ _ _ Hp) as (x & _ & _ & _ & _ & _ & _ & _ & _ & Hs & _). rewrite <-Hs in Hr.
    destruct (reachable_rep _ (wd_clock _ Hwired) (quiet_others_behave _ (wd_quiet _ Hwired)) _ Hr) as [m Hm].
    by apply prefer_refused with m.
  - intros k symbol core Hs Hc. destruct k as [|[|[|[|k]]]]; [..|done]; injection Hs as <-; injection Hc as <-.
    + by eapply (settings_only_accepted NtpSettingsObservability).
    + by eapply (settings_only_accepted LogDisplayPreferences).
    + by eapply (settings_only_accepted LogRetentionSettings).
    + by eapply (settings_only_accepted SystemTimezone).
Qed.
End runtime.
End cores.
