(* ===== verification/PyText.v ===== *)
(** * [str] and [repr]

    The text Python makes of a value: of the values a capability's request
    and state hold ([str_of]), and of a value [json.loads] returned
    ([str_json]). *)

From S2P Require Import Prelude PyStr Json Canonical.

(** What is not computed here: which characters outside ASCII are printable
    (the Unicode data of Python), the shortest text of a float, and the
    texts of the values that [PFloat] and [POther] stand for. *)
Class TextData : Type := {
  printable : N → bool;
  float_repr : pystr → pystr;
  other_repr : pyobj → pystr;
}.

Definition hex2 (n : N) : pystr := [hex_digit (n / 16 mod 16); hex_digit (n mod 16)].
Definition hex8 (n : N) : pystr := hex4 (n / 65536) ++ hex4 n.

Definition is_printable `{TextData} (c : N) : bool :=
  (if c <? 127 then 32 <=? c else if c =? 127 then false else printable c)%N.

(** The quote of a literal: the single one, unless only that one occurs. *)
Definition quote_of (s : pystr) : N := (if existsb (N.eqb 39) s && negb (existsb (N.eqb 34) s) then 34 else 39)%N.

Definition repr_char `{TextData} (quote c : N) : pystr :=
  (if (c =? quote) || (c =? 92) then [92; c]
   else if c =? 9 then [92; 116]
   else if c =? 10 then [92; 110]
   else if c =? 13 then [92; 114]
   else if is_printable c then [c]
   else if c <? 256 then [92; 120] ++ hex2 c
   else if c <? 65536 then [92; 117] ++ hex4 c
   else [92; 85] ++ hex8 c)%N.

Definition repr_str `{TextData} (s : pystr) : pystr :=
  [quote_of s] ++ flat_map (repr_char (quote_of s)) s ++ [quote_of s].

Definition comma : pystr := u ", ".
Definition repr_bool (b : bool) : pystr := if b then u "True" else u "False".
Definition repr_list (l : list pystr) : pystr := u "[" ++ join comma l ++ u "]".
Definition repr_tuple (l : list pystr) : pystr :=
  match l with
  | [x] => u "(" ++ x ++ u ",)"
  | _ => u "(" ++ join comma l ++ u ")"
  end.
Definition repr_dict (l : list (pystr * pystr)) : pystr :=
  u "{" ++ join comma (map (λ kv, fst kv ++ u ": " ++ snd kv) l) ++ u "}".

Fixpoint repr_of `{TextData} (v : pyobj) : pystr :=
  match v with
  | PNone => u "None"
  | PBool b => repr_bool b
  | PInt z => int_str z
  | PStr s => repr_str s
  | PList l => repr_list (map repr_of l)
  | PTuple l => repr_tuple (map repr_of l)
  | PDict l => repr_dict (map (λ kv, (repr_of (fst kv), repr_of (snd kv))) l)
  | PFloat | POther => other_repr v
  end.
Definition str_of `{TextData} (v : pyobj) : pystr := match v with PStr s => s | _ => repr_of v end.

Fixpoint repr_json `{TextData} (v : json) : pystr :=
  match v with
  | JNull => u "None"
  | JBool b => repr_bool b
  | JInt z => int_str z
  | JFloat text => float_repr text
  | JStr s => repr_str s
  | JList l => repr_list (map repr_json l)
  | JObj l => repr_dict (map (λ kv, (repr_str (fst kv), repr_json (snd kv))) l)
  end.
Definition str_json `{TextData} (v : json) : pystr := match v with JStr s => s | _ => repr_json v end.
