(* ===== verification/ShapeAExchange.v ===== *)
(** * The artifact files of the batch-1 capabilities

    [tier1/shape_a_artifact_exchange.py]: the two tagged files of
    [ArtifactExchange.v] for a registered capability, with the fields a human
    signer reviews rendered from the request and the state.  Reading and
    writing files, and the codecs of the signed authorization and
    confirmation, repeat those of [tier1/artifact_exchange.py] and are
    [ArtifactExchange.v]'s. *)

From S2P Require Import Prelude PyStr Sha256 PyDatetime Json Canonical PyJson Contract Evidence StoreCodec KeyLifecycle.
From S2P Require Import Plan SealedApproval Authorization PreparedIntent AliasDescription ArtifactExchange WriteCore.
From S2P Require Import SettingsUnit SettingsUnits NtpTimeServer PyText Batch1Runtime.
Import NtpTimeServerPrefer.

Definition MAX_SEMANTIC_FIELDS : nat := 16.
Definition MAX_SEMANTIC_LABEL_LENGTH : nat := 64.
Definition MAX_SEMANTIC_VALUE_LENGTH : nat := 256.

(** ** The fields under review *)

(** A label and a text. *)
Notation SemanticFields := (list (pystr * pystr)).

(** The items of [request.model_dump()] and the fields of the dataclass
    [prepared.authoritative_a], by name. *)
Notation FieldValues := (list (string * pyobj)).

Section rendering.
Context `{TextData}.

Definition shown_value (v : pyobj) : pystr := take MAX_SEMANTIC_VALUE_LENGTH (str_of v).

(** [sorted(items)], of distinct names. *)
Definition sorted_fields (fields : FieldValues) : list (pystr * pyobj) :=
  sort_items (map (λ kv, (u (fst kv), snd kv)) fields).

(** [_render_semantic_fields] *)
Definition render_semantic_fields (request state : FieldValues) : SemanticFields :=
  let requested := map (λ kv, (u "requested." ++ fst kv, shown_value (snd kv))) (sorted_fields request) in
  let previous := map (λ kv, (u "previous." ++ u (fst kv), shown_value (snd kv))) state in
  map (λ entry, (take MAX_SEMANTIC_LABEL_LENGTH (fst entry), snd entry)) (take MAX_SEMANTIC_FIELDS (requested ++ previous)).
End rendering.

(** [_validate_semantic_fields] *)
Definition semantic_field_ok (entry : pystr * pystr) : bool :=
  nonempty (fst entry) && (length (fst entry) <=? MAX_SEMANTIC_LABEL_LENGTH)%nat &&
  (length (snd entry) <=? MAX_SEMANTIC_VALUE_LENGTH)%nat.
Definition validate_semantic_fields (fields : SemanticFields) : result () :=
  require ((length fields <=? MAX_SEMANTIC_FIELDS)%nat && forallb semantic_field_ok fields) ArtifactExchangeError.

(** The dataclasses of the states.  [NtpSettingsStateV1] holds the
    interfaces as a tuple; [LogSettingsStateV1] holds all its values in one
    field. *)
Definition LOCATOR_FIELD : string * pyobj := ("numeric_locator", PInt SINGLETON_LOCATOR).
Definition settings_fields (s : Snapshot) : FieldValues :=
  map (λ kv, (fst kv, match snd kv with PList l => PTuple l | v => v end)) s ++ [LOCATOR_FIELD].
Definition log_settings_fields (s : Snapshot) : FieldValues :=
  [("values", PTuple (map (λ kv, PTuple [PStr (fst kv); snd kv]) (sorted_fields s))); LOCATOR_FIELD].
Definition prefer_request_fields (c : NtpTimeServerPreferChangeV1) : FieldValues :=
  [("timeserver", PStr (nc_timeserver c)); ("prefer", PBool (nc_prefer c))].
Definition prefer_state_fields (s : NtpTimeServerStateV1) : FieldValues :=
  [("numeric_locator", PInt (ns_numeric_locator s)); ("timeserver", PStr (ns_timeserver s));
   ("server_type", PStr (ns_server_type s)); ("prefer", PBool (ns_prefer s)); ("noselect", PBool (ns_noselect s))].

(** ** Their texts in a file *)

(** [[list(pair) for pair in fields]] *)
Definition semantic_entry (entry : pystr * pystr) : json := JList [JStr (fst entry); JStr (snd entry)].
Definition semantic_json (fields : SemanticFields) : json := JList (map semantic_entry fields).

(** What a reader makes of them: the entries that are lists of two. *)
Definition semantic_of_json `{TextData} (v : json) : result SemanticFields :=
  match v with
  | JList l => Ok (omap (λ e, match e with JList [a; b] => Some (str_json a, str_json b) | _ => None end) l)
  | _ => Raise ValueError
  end.

(** ** The authorization preview *)

Record ShapeAAuthorizationPreview : Type := {
  sv_capability_symbol : pystr; sv_semantic_fields : SemanticFields; sv_execution_intent_digest : pystr;
  sv_requested_plan_digest : pystr; sv_requested_step_id : pystr; sv_target_capability_posture : CapabilityPosture;
  sv_target_anchor_assurance : AnchorAssurance; sv_generated_at : datetime }.

Definition ShapeAAuthorizationPreview_init (p : ShapeAAuthorizationPreview) : result () :=
  _ ← require (is_registered_capability (sv_capability_symbol p)) ArtifactExchangeError;
  _ ← validate_semantic_fields (sv_semantic_fields p);
  _ ← require (match_hex64 (sv_execution_intent_digest p) && match_hex64 (sv_requested_plan_digest p))
        ArtifactExchangeError;
  _ ← require (match_token (sv_requested_step_id p)) ArtifactExchangeError;
  require (is_utc (sv_generated_at p)) ArtifactExchangeError.
Definition ShapeAAuthorizationPreview_new (p : ShapeAAuthorizationPreview) : result ShapeAAuthorizationPreview :=
  _ ← ShapeAAuthorizationPreview_init p; Ok p.

Definition SHAPE_A_PREVIEW_SCHEMA_VERSION : Z := 1.

(** [_preview_payload] *)
Definition shape_a_preview_payload (p : ShapeAAuthorizationPreview) : list (pystr * json) :=
  [(u "schema_version", JInt SHAPE_A_PREVIEW_SCHEMA_VERSION);
   (u "capability_symbol", JStr (sv_capability_symbol p));
   (u "semantic_fields", semantic_json (sv_semantic_fields p));
   (u "execution_intent_digest", JStr (sv_execution_intent_digest p));
   (u "requested_plan_digest", JStr (sv_requested_plan_digest p));
   (u "requested_step_id", JStr (sv_requested_step_id p));
   (u "target_capability_posture", JStr (posture_value (sv_target_capability_posture p)));
   (u "target_anchor_assurance", JStr (assurance_value (sv_target_anchor_assurance p)));
   (u "generated_at", JStr (isoformat (sv_generated_at p)))].

Definition shape_a_preview_of_items `{TextData} (raw : list (pystr * json)) : result ShapeAAuthorizationPreview :=
  generated_at ← field "generated_at" raw ≫= as_utc;
  semantic_fields ← field "semantic_fields" raw ≫= semantic_of_json;
  capability_symbol ← field "capability_symbol" raw ≫= as_str;
  intent_digest ← field "execution_intent_digest" raw ≫= as_str;
  plan_digest ← field "requested_plan_digest" raw ≫= as_str;
  step_id ← field "requested_step_id" raw ≫= as_str;
  capability ← field "target_capability_posture" raw ≫= member_of_value posture_value ALL_POSTURES;
  anchor ← field "target_anchor_assurance" raw ≫= member_of_value assurance_value ALL_ASSURANCES;
  ShapeAAuthorizationPreview_new {| sv_capability_symbol := capability_symbol; sv_semantic_fields := semantic_fields;
    sv_execution_intent_digest := intent_digest; sv_requested_plan_digest := plan_digest;
    sv_requested_step_id := step_id; sv_target_capability_posture := capability; sv_target_anchor_assurance := anchor;
    sv_generated_at := generated_at |}.

Definition shape_a_preview_envelope `{TextData} : Envelope ShapeAAuthorizationPreview := {|
  ev_items := shape_a_preview_payload;
  ev_of_items := shape_a_preview_of_items;
  ev_fields := [u "schema_version"; u "capability_symbol"; u "semantic_fields"; u "execution_intent_digest";
    u "requested_plan_digest"; u "requested_step_id"; u "target_capability_posture"; u "target_anchor_assurance";
    u "generated_at"];
  ev_version := SHAPE_A_PREVIEW_SCHEMA_VERSION;
  ev_domain := zero_terminated "tier1-shape-a-authorization-preview-v1" |}.

(** ** The pending confirmation request *)

Record ShapeAPendingConfirmationRequest : Type := {
  sq_capability_symbol : pystr; sq_contract_id : pystr; sq_operation_id : pystr; sq_semantic_fields : SemanticFields;
  sq_target_identity_digest : pystr; sq_target_fingerprint : pystr; sq_intent_digest : pystr; sq_expires_at : datetime;
  sq_expected_authority_id : pystr; sq_expected_algorithm : pystr }.

Definition ShapeAPendingConfirmationRequest_init (p : ShapeAPendingConfirmationRequest) : result () :=
  _ ← require (is_registered_capability (sq_capability_symbol p)) ArtifactExchangeError;
  _ ← validate_semantic_fields (sq_semantic_fields p);
  _ ← require (forallb match_token [sq_contract_id p; sq_operation_id p; sq_expected_authority_id p;
                                    sq_expected_algorithm p]) ArtifactExchangeError;
  _ ← require (forallb match_hex64 [sq_target_identity_digest p; sq_target_fingerprint p; sq_intent_digest p])
        ArtifactExchangeError;
  require (is_utc (sq_expires_at p)) ArtifactExchangeError.
Definition ShapeAPendingConfirmationRequest_new (p : ShapeAPendingConfirmationRequest)
    : result ShapeAPendingConfirmationRequest :=
  _ ← ShapeAPendingConfirmationRequest_init p; Ok p.

Definition SHAPE_A_PENDING_SCHEMA_VERSION : Z := 1.

(** [_pending_payload] *)
Definition shape_a_pending_payload (p : ShapeAPendingConfirmationRequest) : list (pystr * json) :=
  [(u "schema_version", JInt SHAPE_A_PENDING_SCHEMA_VERSION);
   (u "capability_symbol", JStr (sq_capability_symbol p));
   (u "contract_id", JStr (sq_contract_id p));
   (u "operation_id", JStr (sq_operation_id p));
   (u "semantic_fields", semantic_json (sq_semantic_fields p));
   (u "target_identity_digest", JStr (sq_target_identity_digest p));
   (u "target_fingerprint", JStr (sq_target_fingerprint p));
   (u "intent_digest", JStr (sq_intent_digest p));
   (u "expires_at", JStr (isoformat (sq_expires_at p)));
   (u "expected_authority_id", JStr (sq_expected_authority_id p));
   (u "expected_algorithm", JStr (sq_expected_algorithm p))].

Definition shape_a_pending_of_items `{TextData} (raw : list (pystr * json)) : result ShapeAPendingConfirmationRequest :=
  expires_at ← field "expires_at" raw ≫= as_utc;
  semantic_fields ← field "semantic_fields" raw ≫= semantic_of_json;
  capability_symbol ← field "capability_symbol" raw ≫= as_str;
  contract_id ← field "contract_id" raw ≫= as_str;
  operation_id ← field "operation_id" raw ≫= as_str;
  identity_digest ← field "target_identity_digest" raw ≫= as_str;
  fingerprint ← field "target_fingerprint" raw ≫= as_str;
  intent_digest ← field "intent_digest" raw ≫= as_str;
  authority_id ← field "expected_authority_id" raw ≫= as_str;
  algorithm ← field "expected_algorithm" raw ≫= as_str;
  ShapeAPendingConfirmationRequest_new {| sq_capability_symbol := capability_symbol; sq_contract_id := contract_id;
    sq_operation_id := operation_id; sq_semantic_fields := semantic_fields;
    sq_target_identity_digest := identity_digest; sq_target_fingerprint := fingerprint;
    sq_intent_digest := intent_digest; sq_expires_at := expires_at; sq_expected_authority_id := authority_id;
    sq_expected_algorithm := algorithm |}.

Definition shape_a_pending_envelope `{TextData} : Envelope ShapeAPendingConfirmationRequest := {|
  ev_items := shape_a_pending_payload;
  ev_of_items := shape_a_pending_of_items;
  ev_fields := [u "schema_version"; u "capability_symbol"; u "contract_id"; u "operation_id"; u "semantic_fields";
    u "target_identity_digest"; u "target_fingerprint"; u "intent_digest"; u "expires_at"; u "expected_authority_id";
    u "expected_algorithm"];
  ev_version := SHAPE_A_PENDING_SCHEMA_VERSION;
  ev_domain := zero_terminated "tier1-shape-a-pending-confirmation-request-v1" |}.

(** ** Made from a preparation and a contract *)

Section artifact_files.
Context `{Hash} `{UnicodeData} `{TextData}.

(** [preview_from_preparation]; the digest is always that of the
    preparation. *)
Definition preview_from_preparation {State} (capability_symbol : pystr) (request state : FieldValues)
    (prepared : PreparedWriteExecutionV1 State) (requested_plan_digest requested_step_id : pystr)
    (capability : CapabilityPosture) (anchor : AnchorAssurance) (generated_at : datetime)
    : result ShapeAAuthorizationPreview :=
  digest ← compute_execution_intent_digest (pw_intent prepared);
  ShapeAAuthorizationPreview_new {| sv_capability_symbol := capability_symbol;
    sv_semantic_fields := render_semantic_fields request state; sv_execution_intent_digest := digest;
    sv_requested_plan_digest := requested_plan_digest; sv_requested_step_id := requested_step_id;
    sv_target_capability_posture := capability; sv_target_anchor_assurance := anchor;
    sv_generated_at := generated_at |}.

(** [pending_confirmation_request_from_contract]; the algorithm is the
    default of the parameter. *)
Definition shape_a_pending_from_contract (contract : RecoveryContract) (capability_symbol : pystr)
    (request state : FieldValues) (expected_authority_id : pystr) : result ShapeAPendingConfirmationRequest :=
  ShapeAPendingConfirmationRequest_new {| sq_capability_symbol := capability_symbol;
    sq_contract_id := rc_contract_id contract; sq_operation_id := rc_operation_id contract;
    sq_semantic_fields := render_semantic_fields request state;
    sq_target_identity_digest := rc_target_identity_digest contract;
    sq_target_fingerprint := rc_target_fingerprint contract; sq_intent_digest := rc_intent_digest contract;
    sq_expires_at := rc_expires_at contract; sq_expected_authority_id := expected_authority_id;
    sq_expected_algorithm := CONFIRMATION_ALGORITHM |}.

Definition shape_a_authorization_preview_to_bytes (p : ShapeAAuthorizationPreview) (integrity_key : bytes) : result bytes :=
  envelope_write shape_a_preview_envelope integrity_key p.
Definition load_shape_a_authorization_preview (n : node) (integrity_key : bytes) : result ShapeAAuthorizationPreview :=
  envelope_load shape_a_preview_envelope integrity_key n.
Definition shape_a_pending_confirmation_request_to_bytes (p : ShapeAPendingConfirmationRequest) (integrity_key : bytes)
    : result bytes :=
  envelope_write shape_a_pending_envelope integrity_key p.
Definition load_shape_a_pending_confirmation_request (n : node) (integrity_key : bytes)
    : result ShapeAPendingConfirmationRequest :=
  envelope_load shape_a_pending_envelope integrity_key n.
End artifact_files.
