(* ===== verification/ShapeAExchangeProps.v ===== *)
(** * Properties of the files of the batch-1 capabilities

    The two payload types keep the promise of [ArtifactProps.EnvelopeLaws],
    so the properties of tagged files hold of them; and what a signer sees of
    a change in them. *)

From S2P Require Import Prelude PyStr Sha256 PyDatetime Json Base64 Canonical PyJson Contract Evidence StoreCodec JsonTorn.
From S2P Require Import KeyLifecycle Plan SealedApproval Authorization AuthorizationProps PreparedIntent AliasDescription.
From S2P Require Import ArtifactExchange ArtifactProps WriteCore SettingsUnit SettingsUnits PyDict SettingsProps NtpTimeServer.
From S2P Require Import PyText Batch1Runtime ShapeAExchange.
Import NtpTimeServerPrefer.

(** ** Fields in a file *)

Lemma semantic_json_strict fields : strict_objects (semantic_json fields) = true.
Proof. unfold semantic_json. cbn [strict_objects]. by induction fields. Qed.

Lemma semantic_json_ok fields : forallb (λ e, forallb is_scalar (fst e) && forallb is_scalar (snd e)) fields = true →
  json_ok (semantic_json fields) = true.
Proof.
  unfold semantic_json. cbn [json_ok]. induction fields as [|[l v] fields IH]; [done|]. cbn. rewrite !andb_true_iff.
  intros [[Hl Hv] Hf]. rewrite Hl, Hv. by split; [|apply IH].
Qed.

Lemma semantic_round `{TextData} fields : semantic_of_json (sort_keys (semantic_json fields)) = Ok fields.
Proof.
  unfold semantic_json. cbn [sort_keys semantic_of_json]. f_equal.
  induction fields as [|[l v] fields IH]; [done|]. cbn. by rewrite IH.
Qed.

Lemma registered_ascii s : is_registered_capability s = true → is_ascii s = true.
Proof.
  unfold is_registered_capability. intros (r & Hr & ->%pystr_eqb_eq)%existsb_exists.
  unfold SHAPE_A_REGISTRATIONS in Hr. cbn in Hr.
  repeat (destruct Hr as [<-|Hr]; [reflexivity|]). done.
Qed.

(** ** The payload types *)

Section payloads.
Context `{Hash} `{TextData}.

Definition fields_scalar (fields : SemanticFields) : Prop :=
  forallb (λ e, forallb is_scalar (fst e) && forallb is_scalar (snd e)) fields = true.

Definition shape_a_preview_ok (p : ShapeAAuthorizationPreview) : Prop :=
  ShapeAAuthorizationPreview_init p = Ok () ∧ dt_valid (sv_generated_at p) = true ∧ fields_scalar (sv_semantic_fields p).
Definition shape_a_pending_ok (p : ShapeAPendingConfirmationRequest) : Prop :=
  ShapeAPendingConfirmationRequest_init p = Ok () ∧ dt_valid (sq_expires_at p) = true ∧ fields_scalar (sq_semantic_fields p).

#[export] Instance shape_a_preview_laws : EnvelopeLaws shape_a_preview_envelope shape_a_preview_ok.
Proof.
  split.
  - intros p (Hp & _ & Hs). unfold ShapeAAuthorizationPreview_init in Hp. rewrite !require_bind in Hp.
    destruct Hp as (Hr%registered_ascii & Hp). apply bind_Ok in Hp as ([] & _ & Hp). rewrite !require_bind in Hp.
    destruct Hp as (Hd & Ht & _). split_andb. apply semantic_json_ok in Hs.
    unfold shape_a_preview_envelope, shape_a_preview_payload. cbn [ev_items].
    set (x := semantic_json _) in *. clearbody x. cbn [json_ok forallb fst snd]. rewrite Hs. items_ok.
  - intros p mac. unfold shape_a_preview_envelope, shape_a_preview_payload. cbn [ev_items app].
    pose proof (semantic_json_strict (sv_semantic_fields p)) as Hs. set (x := semantic_json _) in *. clearbody x.
    cbn [strict_objects forallb snd]. by rewrite Hs.
  - done.
  - done.
  - done.
  - intros p mac (Hp & Hv & _). unfold shape_a_preview_envelope, shape_a_preview_payload, shape_a_preview_of_items.
    cbn [ev_items ev_of_items].
    pose proof Hp as Hp'. unfold ShapeAAuthorizationPreview_init in Hp'. rewrite !require_bind in Hp'.
    destruct Hp' as (_ & Hp'). apply bind_Ok in Hp' as ([] & _ & Hp'). rewrite !require_bind in Hp'.
    destruct Hp' as (_ & _ & Hu%require_Ok).
    read_field "generated_at". unfold as_utc. cbn [as_datetime]. rewrite fromisoformat_isoformat by done.
    cbn [mbind result_bind]. rewrite Hu. cbn [require mbind result_bind].
    eassert (field "semantic_fields" (sorted_items _) = Ok _) as -> by (apply field_sorted; reflexivity).
    cbn [mbind result_bind]. rewrite semantic_round. cbn [mbind result_bind].
    read_field "capability_symbol". read_field "execution_intent_digest". read_field "requested_plan_digest".
    read_field "requested_step_id".
    read_field "target_capability_posture". rewrite posture_of_value. cbn [mbind result_bind].
    read_field "target_anchor_assurance". rewrite assurance_of_value. cbn [mbind result_bind].
    unfold ShapeAAuthorizationPreview_new. destruct p. cbn in *. by rewrite Hp.
Qed.

#[export] Instance shape_a_pending_laws : EnvelopeLaws shape_a_pending_envelope shape_a_pending_ok.
Proof.
  split.
  - intros p (Hp & _ & Hs). unfold ShapeAPendingConfirmationRequest_init in Hp. rewrite !require_bind in Hp.
    destruct Hp as (Hr%registered_ascii & Hp). apply bind_Ok in Hp as ([] & _ & Hp). rewrite !require_bind in Hp.
    destruct Hp as (Ht & Hd & _). cbn [forallb] in Ht, Hd. split_andb. apply semantic_json_ok in Hs.
    unfold shape_a_pending_envelope, shape_a_pending_payload. cbn [ev_items].
    set (x := semantic_json _) in *. clearbody x. cbn [json_ok forallb fst snd]. rewrite Hs. items_ok.
  - intros p mac. unfold shape_a_pending_envelope, shape_a_pending_payload. cbn [ev_items app].
    pose proof (semantic_json_strict (sq_semantic_fields p)) as Hs. set (x := semantic_json _) in *. clearbody x.
    cbn [strict_objects forallb snd]. by rewrite Hs.
  - done.
  - done.
  - done.
  - intros p mac (Hp & Hv & _). unfold shape_a_pending_envelope, shape_a_pending_payload, shape_a_pending_of_items.
    cbn [ev_items ev_of_items].
    pose proof Hp as Hp'. unfold ShapeAPendingConfirmationRequest_init in Hp'. rewrite !require_bind in Hp'.
    destruct Hp' as (_ & Hp'). apply bind_Ok in Hp' as ([] & _ & Hp'). rewrite !require_bind in Hp'.
    destruct Hp' as (_ & _ & Hu%require_Ok).
    read_field "expires_at". unfold as_utc. cbn [as_datetime]. rewrite fromisoformat_isoformat by done.
    cbn [mbind result_bind]. rewrite Hu. cbn [require mbind result_bind].
    eassert (field "semantic_fields" (sorted_items _) = Ok _) as -> by (apply field_sorted; reflexivity).
    cbn [mbind result_bind]. rewrite semantic_round. cbn [mbind result_bind].
    read_field "capability_symbol". read_field "contract_id". read_field "operation_id".
    read_field "target_identity_digest". read_field "target_fingerprint". read_field "intent_digest".
    read_field "expected_authority_id". read_field "expected_algorithm".
    unfold ShapeAPendingConfirmationRequest_new. destruct p. cbn in *. by rewrite Hp.
Qed.
End payloads.

(** ** What a signer sees *)

Section review.
Context `{UnicodeData} `{TextData}.

Lemma rendered_valid request state : validate_semantic_fields (render_semantic_fields request state) = Ok ().
Proof.
  unfold validate_semantic_fields, render_semantic_fields. apply require_Ok. apply andb_true_iff. split.
  - apply Nat.leb_le. rewrite length_map, length_take. lia.
  - apply forallb_forall. intros e He. apply in_map_iff in He as ([l v] & <- & Hin%list_elem_of_In).
    apply elem_of_take in Hin as (i & Hi%list_elem_of_lookup_2 & _). cbn [fst snd].
    assert (nonempty l = true ∧ (length v <= MAX_SEMANTIC_VALUE_LENGTH)%nat) as [Hl Hv].
    { apply elem_of_app in Hi as [Hi|Hi]; apply list_elem_of_In, in_map_iff in Hi as ([k x] & [= <- <-] & _);
        (split; [done|]); unfold shown_value; rewrite length_take; lia. }
    unfold semantic_field_ok. cbn [fst snd]. rewrite !andb_true_iff. split_and!.
    + by destruct l.
    + apply Nat.leb_le. rewrite length_take. lia.
    + by apply Nat.leb_le.
Qed.

Lemma length_sorted fields : length (sorted_fields fields) = length fields.
Proof. unfold sorted_fields. by rewrite sort_items_perm, length_map. Qed.

Lemma short_label p k : (length p + length (u k) <= 64)%nat → take MAX_SEMANTIC_LABEL_LENGTH (p ++ u k) = p ++ u k.
Proof. intros Hl. apply take_ge. rewrite length_app. change MAX_SEMANTIC_LABEL_LENGTH with 64%nat. lia. Qed.

(** Up to sixteen requested values are all there. *)
Lemma requested_shown request state k v : (length request <= 16)%nat → (length (u k) <= 54)%nat → (k, v) ∈ request →
  (u "requested." ++ u k, shown_value v) ∈ render_semantic_fields request state.
Proof.
  intros Hn Hk Hin. unfold render_semantic_fields.
  assert ((u k, v) ∈ sorted_fields request) as Hs.
  { unfold sorted_fields. rewrite sort_items_perm. apply list_elem_of_In, in_map_iff. exists (k, v). by rewrite <-list_elem_of_In. }
  rewrite take_app_ge by (rewrite length_map, length_sorted; exact Hn). rewrite map_app. apply elem_of_app. left.
  rewrite map_map. apply list_elem_of_In, in_map_iff. exists (u k, v). split; [|by apply list_elem_of_In].
  cbn [fst snd]. by rewrite short_label by (change (length (u "requested.")) with 10%nat; lia).
Qed.

(** Previous values are, as far as there is room. *)
Lemma previous_shown request state i k v : state !! i = Some (k, v) → (length request + i < 16)%nat →
  (length (u k) <= 55)%nat → (u "previous." ++ u k, shown_value v) ∈ render_semantic_fields request state.
Proof.
  intros Hi Hn Hk. unfold render_semantic_fields. apply list_elem_of_In, in_map_iff.
  exists (u "previous." ++ u k, shown_value v). split; [cbn [fst snd]; by rewrite short_label by (change (length (u "previous.")) with 9%nat; lia)|].
  apply list_elem_of_In, list_elem_of_lookup. exists (length request + i)%nat.
  rewrite lookup_take_lt by exact Hn. rewrite lookup_app_r by (rewrite length_map, length_sorted; lia).
  rewrite length_map, length_sorted. replace (length request + i - length request)%nat with i by lia.
  change (map ?f state) with (f <$> state). rewrite list_lookup_fmap. apply fmap_Some. by exists (k, v).
Qed.

(** ** The log settings, in one field *)

(** The names before [logcompressiontype] in the sorted snapshot, and the
    others. *)
Definition shown_names : list string :=
  ["auth"; "dhcp"; "disablelocallogging"; "dpinger"; "enableremotelogging"; "filter"; "filterdescriptions"; "format";
   "hostapd"; "ipprotocol"; "logall"].
Definition cut_names : list string :=
  ["logconfigchanges"; "logfilesize"; "nentries"; "nologbogons"; "nologdefaultblock"; "nologdefaultpass"; "nolognginx";
   "nologprivatenets"; "ntpd"; "portalauth"; "ppp"; "rawfilter"; "remoteserver"; "remoteserver2"; "remoteserver3";
   "resolver"; "reverseorder"; "rotatecount"; "routing"; "sourceip"; "system"; "vpn"].

Definition value_of (s : Snapshot) (k : string) : pyobj := default PNone (get_field k s).

Lemma snapshot_values s : NoDup s.*1 → s = map (λ k, (k, value_of s k)) s.*1.
Proof.
  intros Hn. rewrite <-(map_id s) at 1. change (s.*1) with (map fst s). rewrite map_map. apply map_ext_in.
  intros [k v] Hin%list_elem_of_In. cbn [fst id]. unfold value_of. by rewrite (get_field_in k v s Hn Hin).
Qed.

Lemma sorted_log_fields (f : string → pyobj) :
  sorted_fields (map (λ k, (k, f k)) LOG_FIELDS.*1) = map (λ k, (u k, f k)) (shown_names ++ "logcompressiontype" :: cut_names).
Proof. vm_compute. reflexivity. Qed.

Lemma join_app sep l x r : join sep (l ++ x :: r) = flat_map (λ y, y ++ sep) l ++ join sep (x :: r).
Proof.
  induction l as [|y l IH]; [done|]. cbn [app flat_map]. rewrite <-app_assoc, <-app_assoc, <-IH.
  destruct l; reflexivity.
Qed.

Definition log_entry (f : string → pyobj) (k : string) : pystr := u "(" ++ repr_str (u k) ++ comma ++ repr_of (f k) ++ u ")".

(** What the text begins with. *)
Definition log_prefix (f : string → pyobj) : pystr :=
  u "(" ++ flat_map (λ k, log_entry f k ++ comma) shown_names ++ u "('logcompressiontype', ".

Lemma log_text (f : string → pyobj) : ∃ rest,
  str_of (PTuple (map (λ kv, PTuple [PStr (fst kv); snd kv]) (sorted_fields (map (λ k, (k, f k)) LOG_FIELDS.*1)))) =
  log_prefix f ++ rest.
Proof.
  rewrite sorted_log_fields, map_map. cbn [str_of repr_of fst snd]. rewrite map_map.
  assert (∀ k, repr_of (PTuple [PStr (u k); f k]) = log_entry f k) as He.
  { intros k. cbn [repr_of map repr_tuple join]. unfold log_entry. by rewrite <-!app_assoc. }
  rewrite (map_ext _ _ He), map_app. cbn [map].
  unfold repr_tuple. case_match eqn:Hl; [by destruct shown_names|]. case_match; [done|]. rewrite <-Hl. clear.
  rewrite join_app. destruct cut_names as [|c cs] eqn:Hc; [done|]. cbn [map join].
  eexists. unfold log_prefix, log_entry. rewrite flat_map_concat_map, (flat_map_concat_map _ shown_names), map_map, <-!app_assoc.
  reflexivity.
Qed.

(** The least number of characters of a value of a type. *)
Definition least_text (t : field_type) : nat :=
  match t with BoolField | OptBoolField => 4 | IntField => 1 | _ => 2 end.

Lemma nat_str_nonempty n : (1 <= length (nat_str n))%nat.
Proof. destruct (nat_str_head n) as [[-> _]|(c & s & -> & _)]; cbn; lia. Qed.

Lemma repr_str_length s : (2 <= length (repr_str s))%nat.
Proof. unfold repr_str. rewrite !length_app. cbn. lia. Qed.

Lemma repr_length t v : has_type t v = true → (least_text t <= length (repr_of v))%nat.
Proof.
  destruct v; destruct t; try done; intros _; cbn [least_text repr_of];
    first [apply repr_str_length | by apply Nat.leb_le | destruct b; by apply Nat.leb_le | idtac].
  - unfold int_str. pose proof (nat_str_nonempty (Z.to_N (- z))). pose proof (nat_str_nonempty (Z.to_N z)).
    destruct (z <? 0)%Z; cbn [length]; lia.
  - unfold repr_list. rewrite !length_app. change (length (u "[")) with 1%nat. change (length (u "]")) with 1%nat. lia.
Qed.

(** A snapshot of the log settings, in a format that pfSense has. *)
Record log_snapshot (s : Snapshot) : Prop := {
  ls_names : s.*1 = LOG_FIELDS.*1;
  ls_types : Forall (λ kv, typed_field LogRetentionSettings (fst kv) (snd kv) = true) s;
  ls_format : ∃ f, f ∈ FORMAT_VALUES ∧ get_field "format" s = Some (PStr f);
}.

Lemma value_typed s k t : log_snapshot s → field_type_of LogRetentionSettings k = Some t → has_type t (value_of s k) = true.
Proof.
  intros [Hn Ht _] Hk. assert (k ∈ s.*1) as Hin.
  { rewrite Hn. unfold field_type_of in Hk. apply fmap_Some in Hk as ([k' t'] & Hf & ->). apply find_some in Hf as [Hf Heq].
    apply String.eqb_eq in Heq as <-. apply list_elem_of_fmap. exists (k', t'). by rewrite list_elem_of_In. }
  destruct (get_field_key k s Hin) as [v Hv]. unfold value_of. rewrite Hv. cbn [default].
  apply get_field_elem in Hv. rewrite Forall_forall in Ht. apply Ht in Hv. unfold typed_field in Hv. cbn [fst snd] in Hv.
  by rewrite Hk in Hv.
Qed.

Lemma format_length s : log_snapshot s → length (repr_of (value_of s "format")) = 9%nat.
Proof.
  intros [_ _ (f & Hf & Hfmt)]. unfold value_of. rewrite Hfmt. cbn [default]. unfold FORMAT_VALUES in Hf.
  apply elem_of_cons in Hf as [->|Hf]; [by vm_compute|]. apply list_elem_of_singleton in Hf as ->. by vm_compute.
Qed.

(** It is longer than what is shown of it. *)
Lemma log_prefix_length s : log_snapshot s → (256 <= length (log_prefix (value_of s)))%nat.
Proof.
  intros Hs. pose proof (format_length s Hs) as Hformat.
  assert (∀ k t, field_type_of LogRetentionSettings k = Some t → (least_text t <= length (repr_of (value_of s k)))%nat) as Hl.
  { intros k t Hk. apply repr_length. by apply value_typed. }
  unfold log_prefix, log_entry, shown_names. cbn [flat_map]. rewrite !length_app.
  repeat match goal with |- context [length (repr_str (u ?x))] =>
    let n := eval vm_compute in (length (repr_str (u x))) in change (length (repr_str (u x))) with n end.
  repeat match goal with |- context [length (repr_of (value_of s ?k))] =>
    first [rewrite Hformat | let Hk := fresh in pose proof (Hl k _ eq_refl) as Hk; cbn [least_text snd] in Hk;
      generalize dependent (length (repr_of (value_of s k))); intros ? Hk] end.
  change (length (u "(")) with 1%nat. change (length (u ")")) with 1%nat. change (length comma) with 2%nat.
  change (length (u "('logcompressiontype', ")) with 23%nat. cbn [length]. lia.
Qed.

Lemma values_shown s : log_snapshot s →
  shown_value (PTuple (map (λ kv, PTuple [PStr (fst kv); snd kv]) (sorted_fields s))) = take 256 (log_prefix (value_of s)).
Proof.
  intros Hs. assert (NoDup s.*1) as Hn.
  { rewrite (ls_names s Hs). apply (bool_decide_eq_true_1 _). vm_compute. reflexivity. }
  rewrite (snapshot_values s Hn) at 1. rewrite (ls_names s Hs). destruct (log_text (value_of s)) as [rest Hr].
  unfold shown_value. rewrite Hr. apply take_app_le, log_prefix_length, Hs.
Qed.

(** Two snapshots that agree on the shown names are shown alike. *)
Lemma log_shown_alike s s' request : log_snapshot s → log_snapshot s' →
  (∀ k, k ∈ shown_names → get_field k s = get_field k s') →
  render_semantic_fields request (log_settings_fields s) = render_semantic_fields request (log_settings_fields s').
Proof.
  intros Hs Hs' Heq. unfold render_semantic_fields, log_settings_fields. cbn [map fst snd].
  rewrite (values_shown s Hs), (values_shown s' Hs').
  assert (log_prefix (value_of s) = log_prefix (value_of s')) as ->; [|done].
  unfold log_prefix. do 2 f_equal. rewrite !flat_map_concat_map. f_equal. apply map_ext_in.
  intros k Hk%list_elem_of_In. unfold log_entry, value_of. by rewrite (Heq k Hk).
Qed.

(** ** The others, field by field *)

(** The fields that may be set come first, are flags or texts, and leave
    room for both values of each. *)
Definition flat_unit (unit : SettingsUnit) : bool :=
  bool_decide (take (length (su_allowed unit)) (su_names unit) = su_allowed unit) && bool_decide (NoDup (su_names unit)) &&
  (2 * length (su_allowed unit) <=? 16)%nat &&
  forallb (λ k, (length (u k) <=? 54)%nat &&
                match field_type_of unit k with Some (BoolField | StrField) => true | _ => false end) (su_allowed unit).

Lemma field_requested unit r k : r.*1 = su_allowed unit → (length (su_allowed unit) <= 16)%nat →
  k ∈ su_allowed unit → (length (u k) <= 54)%nat →
  ∃ v, get_field k r = Some v ∧ ∀ state, (u "requested." ++ u k, shown_value v) ∈ render_semantic_fields r state.
Proof.
  intros Hr Hn Hk Hl. destruct (get_field_key k r) as [v Hv]; [by rewrite Hr|]. exists v. split; [done|]. intros state.
  apply requested_shown; [|done|by apply get_field_elem]. rewrite <-(length_fmap fst), Hr. exact Hn.
Qed.

Lemma field_previous unit r s k : flat_unit unit = true → r.*1 = su_allowed unit → model_ok unit s → k ∈ su_allowed unit →
  ∃ v, get_field k s = Some v ∧ (u "previous." ++ u k, shown_value v) ∈ render_semantic_fields r (settings_fields s).
Proof.
  unfold flat_unit. rewrite !andb_true_iff. intros (((Ht%bool_decide_eq_true & Hnd%bool_decide_eq_true) & Hn%Nat.leb_le) & Hf) Hr [Hs Hty] Hk.
  pose proof Hk as (i & Hi)%list_elem_of_lookup.
  rewrite forallb_forall in Hf. specialize (Hf k (proj1 (list_elem_of_In _ _) Hk)). apply andb_true_iff in Hf as [Hl%Nat.leb_le Hf].
  pose proof (lookup_lt_Some _ _ _ Hi) as Hlt. rewrite <-Ht in Hi. rewrite lookup_take_lt in Hi by done. rewrite <-Hs in Hi.
  rewrite list_lookup_fmap in Hi. apply fmap_Some in Hi as ([k' v] & Hi & ->). cbn [fst] in *.
  pose proof (list_elem_of_lookup_2 _ _ _ Hi) as Hin. rewrite Forall_forall in Hty. destruct (Hty _ Hin) as [Hv _].
  exists v. split; [apply get_field_in; [by rewrite Hs|done]|]. apply previous_shown with i.
  - unfold settings_fields. rewrite lookup_app_l by (rewrite length_map; by eapply lookup_lt_Some).
    change (map ?f s) with (f <$> s). rewrite list_lookup_fmap. apply fmap_Some. exists (k', v). split; [done|].
    cbn [fst snd] in *. unfold typed_field in Hv. by destruct (field_type_of unit k') as [[]|], v.
  - rewrite <-(length_fmap fst r), Hr. lia.
  - lia.
Qed.

(** ** The property *)

Lemma elem_of_two {A} (P : A → Prop) a b x : x ∈ [a; b] → P a → P b → P x.
Proof. intros [->|Hx]%elem_of_cons; [done|]. by apply list_elem_of_singleton in Hx as ->. Qed.

(** [C14] What a signer sees of a batch-1 change.  Every rendering is accepted
    by the two payload types.  For the observability and time zone
    capabilities and for the preferred time server, the review shows each
    value that is to be set and the value it replaces.  For the two log
    capabilities it shows the values to be set, but of the previous state
    only a text cut off before [logcompressiontype]: two states of the
    appliance that differ in any other fields, among them every field the
    retention capability replaces, are reviewed in the same words. *)
Theorem what_the_signer_sees :
  (∀ request state, validate_semantic_fields (render_semantic_fields request state) = Ok ()) ∧
  (∀ unit r s k, unit ∈ [NtpSettingsObservability; SystemTimezone] → settings_request_ok unit r → model_ok unit s →
     k ∈ su_allowed unit →
     ∃ v v', get_field k r = Some v ∧ get_field k s = Some v' ∧
       (u "requested." ++ u k, shown_value v) ∈ render_semantic_fields r (settings_fields s) ∧
       (u "previous." ++ u k, shown_value v') ∈ render_semantic_fields r (settings_fields s)) ∧
  (∀ c s, (u "requested.prefer", repr_bool (nc_prefer c)) ∈ render_semantic_fields (prefer_request_fields c) (prefer_state_fields s) ∧
     (u "previous.prefer", repr_bool (ns_prefer s)) ∈ render_semantic_fields (prefer_request_fields c) (prefer_state_fields s)) ∧
  (∀ unit r s, unit ∈ [LogDisplayPreferences; LogRetentionSettings] → settings_request_ok unit r → log_snapshot s →
     (∀ k, k ∈ su_allowed unit → ∃ v, get_field k r = Some v ∧
        (u "requested." ++ u k, shown_value v) ∈ render_semantic_fields r (log_settings_fields s)) ∧
     ∀ s', log_snapshot s' → (∀ k, k ∈ shown_names → get_field k s = get_field k s') →
       render_semantic_fields r (log_settings_fields s) = render_semantic_fields r (log_settings_fields s')) ∧
  (∀ k, k ∈ su_allowed LogRetentionSettings → k ∉ shown_names).
Proof.
  split_and!.
  - apply rendered_valid.
  - intros unit r s k Hu Hr Hs Hk. assert (flat_unit unit = true ∧ r.*1 = su_allowed unit) as [Hf Hr1].
    { revert Hr. pattern unit. apply (elem_of_two _ _ _ _ Hu); intros Hr; (split; [by vm_compute|exact (proj1 (request_inv _ r Hr))]). }
    destruct (field_previous unit r s k Hf Hr1 Hs Hk) as (v' & Hv' & Hp).
    unfold flat_unit in Hf. rewrite !andb_true_iff in Hf. destruct Hf as ((_ & Hn%Nat.leb_le) & Hf).
    rewrite forallb_forall in Hf. specialize (Hf k (proj1 (list_elem_of_In _ _) Hk)). apply andb_true_iff in Hf as [Hl%Nat.leb_le _].
    destruct (field_requested unit r k Hr1 ltac:(lia) Hk Hl) as (v & Hv & Hq). by exists v, v'.
  - intros c s. assert (∀ b, shown_value (PBool b) = repr_bool b) as Hb by (by intros []). rewrite <-!Hb. split.
    + apply (requested_shown _ _ "prefer" (PBool (nc_prefer c))); [cbn; lia|by apply Nat.leb_le|right; left].
    + apply (previous_shown _ _ 3 "prefer" (PBool (ns_prefer s))); [done|cbn; lia|by apply Nat.leb_le].
  - intros unit r s Hu Hr Hs. split; [|intros; by apply log_shown_alike].
    intros k Hk. assert (r.*1 = su_allowed unit ∧ (length (su_allowed unit) <= 16)%nat ∧
      forallb (λ k, (length (u k) <=? 54)%nat) (su_allowed unit) = true) as (Hr1 & Hn & Hl).
    { revert Hr. pattern unit. apply (elem_of_two _ _ _ _ Hu); intros Hr;
        (split_and!; [exact (proj1 (request_inv _ r Hr))|apply Nat.leb_le; by vm_compute|by vm_compute]). }
    rewrite forallb_forall in Hl. specialize (Hl k (proj1 (list_elem_of_In _ _) Hk)). apply Nat.leb_le in Hl.
    destruct (field_requested unit r k Hr1 Hn Hk Hl) as (v & Hv & Hq). by exists v.
  - intros k Hk Hs. assert (forallb (λ k, negb (existsb (String.eqb k) shown_names)) (su_allowed LogRetentionSettings) = true) as Hf
      by (by vm_compute).
    rewrite forallb_forall in Hf. specialize (Hf k (proj1 (list_elem_of_In _ _) Hk)). apply negb_true_iff in Hf.
    assert (existsb (String.eqb k) shown_names = true); [|congruence].
    apply existsb_exists. exists k. split; [by apply list_elem_of_In|apply String.eqb_refl].
Qed.
End review.
