(* ===== verification/ShapeAOrchestration.v ===== *)
(** * The orchestration of the batch-1 capabilities

    [tier1/shape_a_acceptance_orchestration.py]: the product operation of
    [ProductOperation.v] for one registered capability.  The registry names
    the attributes of the runtime that hold its core and preparer; a
    capability is kept with the types of its core.  Creating the directory
    of the artifact files is not modelled. *)

From S2P Require Import Prelude PyStr Sha256 PyDatetime Json Capability StateMachine Canonical PyJson.
From S2P Require Import Contract Evidence Plan SealedApproval Authorization Consumption Crypto StoreCodec Database RatePolicy.
From S2P Require Import AntiRollback Store KeyLifecycle PreparedIntent WriteApi Executor AliasDescription ArtifactExchange.
From S2P Require Import SettingsUnit SettingsUnits NtpTimeServer WriteCore ProductOperation PyText Batch1Runtime ShapeAExchange.
Import NtpTimeServerPrefer.

(** ** Paths *)

(** The parts of a path. *)
Definition Path : Type := list pystr.

Record ShapeAArtifactPaths : Type := {
  authorization_preview_file : Path; authorization_inbox_file : Path;
  confirmation_pending_file : Path; confirmation_signed_file : Path }.

Definition artifact_paths_for (base_directory : Path) (capability_symbol : pystr) : ShapeAArtifactPaths :=
  let root := base_directory ++ [capability_symbol] in {|
    authorization_preview_file := root ++ [u "authorization-preview.json"];
    authorization_inbox_file := root ++ [u "authorization-inbox.json"];
    confirmation_pending_file := root ++ [u "confirmation-pending.json"];
    confirmation_signed_file := root ++ [u "confirmation-signed.json"] |}.

Definition path_list (p : ShapeAArtifactPaths) : list Path :=
  [authorization_preview_file p; authorization_inbox_file p; confirmation_pending_file p; confirmation_signed_file p].

(** ** Capabilities *)

(** What a caller passes: an object of one of the five request models, or
    another object. *)
Inductive ShapeARequest : Type :=
  | PreferRequest (r : NtpTimeServerPreferChangeV1)
  | ObservabilityRequest (r : Snapshot)
  | DisplayRequest (r : Snapshot)
  | RetentionRequest (r : Snapshot)
  | TimezoneRequest (r : Snapshot)
  | OtherRequest.

(** [isinstance(request, request_type)] of the settings models. *)
Definition observability_request (r : ShapeARequest) : option Snapshot :=
  match r with ObservabilityRequest s => Some s | _ => None end.
Definition display_preferences_request (r : ShapeARequest) : option Snapshot :=
  match r with DisplayRequest s => Some s | _ => None end.
Definition log_retention_request (r : ShapeARequest) : option Snapshot :=
  match r with RetentionRequest s => Some s | _ => None end.
Definition system_timezone_request (r : ShapeARequest) : option Snapshot :=
  match r with TimezoneRequest s => Some s | _ => None end.
Definition prefer_request (r : ShapeARequest) : option NtpTimeServerPreferChangeV1 :=
  match r with PreferRequest c => Some c | _ => None end.

(** A core with its types, the requests it takes, and the fields of its
    requests and states; the preparer beside it is the one it was built
    with. *)
Record ShapeACapability (E : Type) : Type := {
  sc_Raw : Type; sc_Request : Type; sc_Change : Type; sc_State : Type;
  sc_core : WriteExecutionCoreV1 E sc_Raw sc_Request sc_Change sc_State;
  sc_isinstance : ShapeARequest → option sc_Change;
  sc_request_fields : sc_Change → FieldValues;
  sc_state_fields : sc_State → FieldValues }.
Arguments sc_Raw {_} _.
Arguments sc_Request {_} _.
Arguments sc_Change {_} _.
Arguments sc_State {_} _.
Arguments sc_core {_} _.
Arguments sc_isinstance {_} _ _.
Arguments sc_request_fields {_} _ _.
Arguments sc_state_fields {_} _ _.

Definition settings_capability {E} (core : SettingsCore E) (isinstance : ShapeARequest → option Snapshot)
    (state_fields : Snapshot → FieldValues) : ShapeACapability E := {|
  sc_core := core; sc_isinstance := isinstance; sc_request_fields := λ r, r; sc_state_fields := state_fields |}.
Definition prefer_capability {E} (core : PreferCore E) : ShapeACapability E := {|
  sc_core := core; sc_isinstance := prefer_request; sc_request_fields := prefer_request_fields;
  sc_state_fields := prefer_state_fields |}.

(** The attributes of the runtime. *)
Definition runtime_attributes {E} (runtime : ProductionWriteBatch1Runtime E) : list (pystr * ShapeACapability E) :=
  [(u "ntp_time_server_prefer", prefer_capability (b1_ntp_time_server_prefer runtime));
   (u "ntp_settings_observability",
      settings_capability (b1_ntp_settings_observability runtime) observability_request settings_fields);
   (u "log_display_preferences",
      settings_capability (b1_log_display_preferences runtime) display_preferences_request log_settings_fields);
   (u "log_retention_settings",
      settings_capability (b1_log_retention_settings runtime) log_retention_request log_settings_fields);
   (u "system_timezone", settings_capability (b1_system_timezone runtime) system_timezone_request settings_fields)].

Definition AttributeError : exn := OtherError 41.

(** [ShapeARegistration.core]: [getattr(runtime, self.runtime_core_attr)] *)
Definition registration_core {E} (r : ShapeARegistration) (runtime : ProductionWriteBatch1Runtime E)
    : result (ShapeACapability E) :=
  of_option (snd <$> find (λ kv, pystr_eqb (fst kv) (sr_runtime_core_attr r)) (runtime_attributes runtime)) AttributeError.

(** ** The orchestrator *)

Record ShapeAAcceptanceOrchestrator (E : Type) : Type := {
  so_registration : ShapeARegistration;
  so_capability : ShapeACapability E;
  so_paths : ShapeAArtifactPaths;
  so_confirmation_authority_id : pystr;
  so_artifact_integrity_key : bytes;
  so_operator : Files → prog E Files;          (* on the four files at [so_paths] *)
  so_write : prog E write_outcome }.
Arguments so_registration {_} _.
Arguments so_capability {_} _.
Arguments so_paths {_} _.
Arguments so_confirmation_authority_id {_} _.
Arguments so_artifact_integrity_key {_} _.
Arguments so_operator {_} _ _.
Arguments so_write {_} _.

(** [__init__]; [UnregisteredShapeACapabilityError] is an
    [ArtifactExchangeError]. *)
Definition ShapeAAcceptanceOrchestrator_new {E} (capability_symbol : pystr) (runtime : ProductionWriteBatch1Runtime E)
    (artifact_base_directory : Path) (confirmation_authority_id : pystr) (artifact_integrity_key : bytes)
    (operator : ShapeAArtifactPaths → Files → prog E Files) (write : prog E write_outcome)
    : result (ShapeAAcceptanceOrchestrator E) :=
  _ ← require (is_registered_capability capability_symbol) ArtifactExchangeError;
  registration ← of_option (find (λ r, pystr_eqb (sr_capability_symbol r) capability_symbol) SHAPE_A_REGISTRATIONS) KeyError;
  capability ← registration_core registration runtime;
  let paths := artifact_paths_for artifact_base_directory capability_symbol in
  Ok {| so_registration := registration; so_capability := capability; so_paths := paths;
        so_confirmation_authority_id := confirmation_authority_id; so_artifact_integrity_key := artifact_integrity_key;
        so_operator := operator paths; so_write := write |}.

Section orchestration.
Context `{Hash} `{UnicodeData} `{TextData} `{AESGCM} `{Ed25519} {E L : Type} `{Store : ConsumptionStore L}.
Context (self : ShapeAAcceptanceOrchestrator E).

Notation capability := (so_capability self).
Notation symbol := (sr_capability_symbol (so_registration self)).
Implicit Types (request : sc_Change capability) (prepared : PreparedWriteExecutionV1 (sc_State capability)).

(** [_ensure_authorization_preview]: what is written *)
Definition orchestrated_preview request prepared (requested_plan_digest requested_step_id : pystr)
    (posture : CapabilityPosture) (anchor : AnchorAssurance) (now : datetime) : result bytes :=
  preview ← preview_from_preparation symbol (sc_request_fields capability request)
              (sc_state_fields capability (pw_authoritative_a prepared)) prepared requested_plan_digest requested_step_id
              posture anchor now;
  shape_a_authorization_preview_to_bytes preview (so_artifact_integrity_key self).

(** [_ensure_pending_confirmation_request]: what is written *)
Definition orchestrated_pending (contract : RecoveryContract) request prepared : result bytes :=
  pending ← shape_a_pending_from_contract contract symbol (sc_request_fields capability request)
              (sc_state_fields capability (pw_authoritative_a prepared)) (so_confirmation_authority_id self);
  shape_a_pending_confirmation_request_to_bytes pending (so_artifact_integrity_key self).

Definition orchestrated_product
    : ProductRuntime E (sc_Raw capability) (sc_Request capability) (sc_Change capability) (sc_State capability) := {|
  pt_core := sc_core capability; pt_prepare := wc_prepare (sc_core capability);
  pt_preview := orchestrated_preview; pt_pending := orchestrated_pending;
  pt_operator := so_operator self; pt_write := so_write self |}.

(** [request_change] *)
Definition orchestrated_change (request : ShapeARequest) (requested_plan_digest requested_step_id : pystr)
    (required_risk_class : AuthorizationLevel) (posture : CapabilityPosture) (anchor : AnchorAssurance) (now : datetime)
    (acceptance_context : option AcceptanceExecutionContext) : prog (Product E L) ProductOutcome :=
  match sc_isinstance capability request with
  | None => mret (without_contract REFUSED)
  | Some r => request_change orchestrated_product r requested_plan_digest requested_step_id required_risk_class
                posture anchor now acceptance_context
  end.
End orchestration.
