(* ===== verification/ShapeAOrchestrationProps.v ===== *)
(** * Properties of the batch-1 orchestration

    An orchestrator drives the one capability it was made for, through the
    core of its own endpoint and files of its own. *)

From S2P Require Import Prelude PyStr Sha256 PyDatetime Json Capability StateMachine Canonical PyJson.
From S2P Require Import Contract Evidence Plan SealedApproval Authorization AuthorizationProps Consumption Crypto StoreCodec Database RatePolicy.
From S2P Require Import AntiRollback Store StoreInv StoreOps StoreProps StoreGate StoreResolve KeyLifecycle PreparedIntent WriteApi Executor ExecutorInv ExecutorProps.
From S2P Require Import AliasDescription ArtifactExchange SettingsUnit SettingsUnits PyDict SettingsProps NtpTimeServer NtpProps.
From S2P Require Import StoreBehaviour WriteCore WriteCoreProps EndToEnd ProductOperation ProductProps PyText Batch1Runtime Batch1Props.
From S2P Require Import ShapeAExchange ShapeAOrchestration.
Import NtpTimeServerPrefer NtpProps.

(** The files of two capabilities are different files. *)
Lemma paths_apart base a b p : a ≠ b → p ∈ path_list (artifact_paths_for base a) → p ∉ path_list (artifact_paths_for base b).
Proof.
  intros Hne Ha Hb. apply Hne. unfold path_list, artifact_paths_for in *. cbn in Ha, Hb.
  assert (∀ x, p ∈ [(base ++ [x]) ++ [u "authorization-preview.json"]; (base ++ [x]) ++ [u "authorization-inbox.json"];
    (base ++ [x]) ++ [u "confirmation-pending.json"]; (base ++ [x]) ++ [u "confirmation-signed.json"]] →
    ∃ y, p = (base ++ [x]) ++ [y]) as Hp.
  { intros x Hx. rewrite !elem_of_cons in Hx. destruct Hx as [->|[->|[->|[->|[]%not_elem_of_nil]]]]; by eexists. }
  destruct (Hp _ Ha) as [y ->]. destruct (Hp _ Hb) as [z Hz]. apply app_inj_2 in Hz as [Hz _]; [|done].
  apply app_inj_2 in Hz as [_ Hz]; [|done]. by injection Hz.
Qed.

Section orchestration.
Context `{Hash} `{UnicodeData} `{TextData} `{AESGCM} `{Ed25519} {E L : Type} `{Store : ConsumptionStore L}.
Context `{!NtpTimeServerModel} `{!SettingsModel NtpSettingsObservability} `{!SettingsModel LogDisplayPreferences}.
Context `{!SettingsModel LogRetentionSettings} `{!SettingsModel SystemTimezone}.
Context (parts : Batch1Parts E).
Implicit Types (w : Product E L).

(** The capability of an orchestrator: the preferred time server, or a
    settings capability of the registered endpoint. *)
Lemma orchestrator_inv symbol rt base authority key operator write self :
  compose_batch1_runtime parts = Ok rt →
  ShapeAAcceptanceOrchestrator_new symbol rt base authority key operator write = Ok self →
  (∃ core, PreferCore_of parts core ∧ so_capability self = prefer_capability core ∧ symbol = u "NTP_TIME_SERVER_PREFER") ∨
  (∃ (unit : SettingsUnit) (_ : SettingsModel unit) (_ : SettingsLaws unit) n prefix get core isinstance fields,
     settings_core parts unit n prefix get = Ok core ∧ symbol = su_endpoint_symbol unit ∧
     su_endpoint_symbol unit ≠ u "NTP_TIME_SERVER_PREFER" ∧
     so_capability self = settings_capability core isinstance fields).
Proof.
  intros (_ & Hp & H1' & H2' & H3' & H4')%compose_inv. unfold ShapeAAcceptanceOrchestrator_new. rewrite require_bind.
  intros (_ & (r & Hr%of_option_Ok & (cap & Hc & [= <-])%bind_Ok)%bind_Ok). cbn [so_capability].
  apply find_some in Hr as [Hin Hs]. apply pystr_eqb_eq in Hs as <-. unfold SHAPE_A_REGISTRATIONS in Hin. cbn [In] in Hin.
  destruct Hin as [<-|[<-|[<-|[<-|[<-|[]]]]]]; injection Hc as <-.
  - left. by eexists.
  - right. exists NtpSettingsObservability, _, _. do 6 eexists. by split_and!; [exact H1'|..].
  - right. exists LogDisplayPreferences, _, _. do 6 eexists. by split_and!; [exact H2'|..].
  - right. exists LogRetentionSettings, _, _. do 6 eexists. by split_and!; [exact H3'|..].
  - right. exists SystemTimezone, _, _. do 6 eexists. by split_and!; [exact H4'|..].
Qed.

(** The requests an orchestrator may send. *)
Definition own_requests (symbol : pystr) (ctx : option AcceptanceExecutionContext) (l : list Send) : Prop :=
  (length l ≤ 1)%nat ∧ (ctx = None → l = []) ∧ (symbol = u "NTP_TIME_SERVER_PREFER" → l = []) ∧
  ∀ y, y ∈ l → sent_method y = u "PATCH" ∧
    ∃ ep, (symbol, ep) ∈ WriteEndpoints ∧ sent_path y = request_path (bp_write_client parts) ep.

Lemma own_requests_nil symbol ctx : own_requests symbol ctx [].
Proof. split_and!; [cbn; lia|done..|]. by intros y Hy%not_elem_of_nil. Qed.

Lemma orchestrated_wired symbol rt base authority key operator write self :
  compose_batch1_runtime parts = Ok rt → batch1_alone parts →
  ShapeAAcceptanceOrchestrator_new symbol rt base authority key operator write = Ok self →
  wired (sc_core (so_capability self)) ∧ wc_store (sc_core (so_capability self)) = bp_store parts.
Proof.
  intros Hrt Ha [(core & Hc & -> & _)|(unit & ? & ? & n & prefix & get & core & inst & fields & Hc & _ & _ & ->)]%(orchestrator_inv _ _ _ _ _ _ _ _ Hrt);
    cbn [settings_capability prefer_capability sc_core].
  - split; [by eapply prefer_wired|]. by apply batch1_core_inv in Hc as (ex & _ & _ & _ & _ & _ & _ & _ & _ & Hs & _).
  - split; [by eapply settings_wired|]. by apply batch1_core_inv in Hc as (ex & _ & _ & _ & _ & _ & _ & _ & _ & Hs & _).
Qed.

Lemma orchestrated_handoff symbol rt base authority key operator write self h conf now ctx m (w w' : Core E L) r :
  compose_batch1_runtime parts = Ok rt → batch1_alone parts →
  ShapeAAcceptanceOrchestrator_new symbol rt base authority key operator write = Ok self →
  rep (wc_store (sc_core (so_capability self))) (db (contracts w)) m →
  confirm_and_handoff (sc_core (so_capability self)) h conf now ctx w = (r, w') →
  ∃ l, sends (c_session w') = sends (c_session w) ++ l ∧ own_requests symbol ctx l.
Proof.
  intros Hrt Ha [(core & Hc & -> & ->)|(unit & ? & ? & n & prefix & get & core & inst & fields & Hc & -> & Hne & ->)]%(orchestrator_inv _ _ _ _ _ _ _ _ Hrt);
    cbn [settings_capability prefer_capability sc_core]; intros Hm Hp.
  - exists []. rewrite app_nil_r. split; [by eapply prefer_refused|apply own_requests_nil].
  - destruct (settings_handoff parts unit get _ _ _ _ _ _ _ _ _ _ _ Hc Ha Hm Hp) as (l & Hl & Hlen & Hnone & Hy).
    exists l. split; [done|]. by split_and!.
Qed.

(** [C13] An orchestrator confines a change to its capability.  Only the five
    registered symbols have one.  A request of another model is refused and
    nothing is touched.  Every outcome reported is true of the store, and a
    call sends at most one request: never for the preferred time server,
    never without an acceptance context, and otherwise a PATCH of the
    orchestrator's own endpoint. *)
Theorem orchestrated_change_confined symbol rt base authority key operator write :
  compose_batch1_runtime parts = Ok rt → batch1_alone parts →
  (is_registered_capability symbol = false →
     ShapeAAcceptanceOrchestrator_new symbol rt base authority key operator write = Raise ArtifactExchangeError) ∧
  (is_registered_capability symbol = true →
     ∃ self, ShapeAAcceptanceOrchestrator_new symbol rt base authority key operator write = Ok self) ∧
  ∀ self request d s risk cap anc now ctx w r w',
    ShapeAAcceptanceOrchestrator_new symbol rt base authority key operator write = Ok self →
    reachable (bp_store parts) (contracts (p_core w)) → dt_valid now = true →
    orchestrated_change self request d s risk cap anc now ctx w = (r, w') →
    (sc_isinstance (so_capability self) request = None → r = Ok (without_contract REFUSED) ∧ w' = w) ∧
    (∀ o, r = Ok o → outcome_ok (orchestrated_product self) w o w') ∧
    ∃ l, sends (c_session (p_core w')) = sends (c_session (p_core w)) ++ l ∧ own_requests symbol ctx l.
Proof.
  intros Hrt Ha. split_and!.
  - intros Hs. unfold ShapeAAcceptanceOrchestrator_new. by rewrite Hs.
  - intros (x & Hin & Heq%pystr_eqb_eq)%existsb_exists. subst symbol. unfold SHAPE_A_REGISTRATIONS in Hin. cbn [In] in Hin.
    destruct Hin as [<-|[<-|[<-|[<-|[<-|[]]]]]]; by eexists.
  - intros self request d s risk cap anc now ctx w r w' Hself Hr Hnow Hp.
    destruct (orchestrated_wired _ _ _ _ _ _ _ _ Hrt Ha Hself) as [Hw Hst]. rewrite <-Hst in Hr.
    unfold orchestrated_change in Hp. destruct (sc_isinstance (so_capability self) request) as [q|].
    2: { injection Hp as <- <-. split_and!; [done|by intros o [= <-]|]. exists []. rewrite app_nil_r.
         split; [done|apply own_requests_nil]. }
    split; [done|]. split.
    + intros o ->. destruct (operation_branch (orchestrated_product self) Hw _ _ _ _ _ _ _ _ _ _ _ Hr Hnow Hp)
        as [[_ Ho]|(h & c & p & w1 & _ & Hin & Hd)]; [by apply Ho|].
      by apply (deliver_ok (orchestrated_product self) Hw w) in Hd as [_ Ho]; [apply Ho|].
    + destruct (operation_sends (orchestrated_product self) Hw _ _ _ _ _ _ _ _ _ _ _ Hr Hnow Hp)
        as [Hs|(h & conf & x & r5 & m & Hm & Hs & Hh)].
      * exists []. rewrite app_nil_r. split; [done|apply own_requests_nil].
      * destruct (orchestrated_handoff _ _ _ _ _ _ _ _ _ _ _ _ _ _ _ _ Hrt Ha Hself Hm Hh) as (l & Hl & Ho).
        exists l. by rewrite Hl, Hs.
Qed.
End orchestration.
