(* ===== verification/WriteCoreWitness.v ===== *)
(** * A concrete authorized write

    One appliance with one alias, a signed version 2 authorization of the
    change of its description, and the core driven from the authorization
    to the request on the wire; the properties of [PreparedIntent],
    [AliasProps] and [WriteCoreProps] at that run. *)

From S2P Require Import Prelude PyStr Sha256 PyDatetime Json Capability StateMachine Canonical PyJson.
From S2P Require Import Contract Evidence Plan PlanProps SealedApproval Authorization AuthorizationProps.
From S2P Require Import StoreCodec Database RatePolicy AntiRollback Store StoreInv StoreProps StoreWitness.
From S2P Require Import Consumption Coordinator ConsumptionWitness Crypto KeyLifecycle WriteApi Executor.
From S2P Require Import PreparedIntent AliasDescription AliasProps WriteCore WriteCoreProps AliasCore EndToEnd.

Module SampleWrite.
#[export] Existing Instances Sample.hash Sample.unicode SampleCipher.cipher SampleApproval.ed25519.

(** ** Strict validation of a raw alias *)

Definition validate_alias (v : pyobj) : option FirewallAlias :=
  d ← py_dict v;
  name ← item "name" d ≫= py_str;
  id ← item "id" d ≫= (λ x, match x with PInt z => Some z | _ => None end);
  alias_type ← item "type" d ≫= py_str;
  descr ← item "descr" d ≫= py_str;
  address ← item "address" d ≫= py_strs;
  detail ← item "detail" d ≫= py_strs;
  Some {| fa_descr := descr; fa_id := id; fa_name := name; fa_type := alias_type;
          fa_address := Some address; fa_detail := Some detail |}.

Lemma item_in key (l : list (string * pyobj)) v : NoDup (map u l.*1) → (key, v) ∈ l →
  item key (map (λ kv, (PStr (u (fst kv)), snd kv)) l) = Some v.
Proof.
  intros Hn Hin. unfold item. induction l as [|[k x] l IH]; [by apply not_elem_of_nil in Hin|].
  cbn [map fmap list_fmap fst snd find] in *. apply NoDup_cons in Hn as [Hk Hn].
  destruct (pystr_eqb (u k) (u key)) eqn:Ek.
  - apply pystr_eqb_eq in Ek. apply elem_of_cons in Hin as [[= -> ->]|Hin]; [done|]. destruct Hk. rewrite Ek.
    apply list_elem_of_In, in_map, list_elem_of_In. apply list_elem_of_fmap. by exists (key, v).
  - apply elem_of_cons in Hin as [[= -> ->]|Hin]; [by rewrite pystr_eqb_refl in Ek|]. by apply IH.
Qed.

#[export, program] Instance alias_model : AliasModel := {| model_validate := validate_alias |}.
Next Obligation.
  intros s l Hl _. unfold validate_alias, pdict. cbn [py_dict mbind option_bind].
  assert (NoDup (map u l.*1)) as Hn.
  { rewrite Hl. apply NoDup_ListNoDup. repeat constructor; cbn; intuition discriminate. }
  assert (∀ key v, (key, v) ∈ raw_target_items s →
    item key (map (λ kv, (PStr (u (fst kv)), snd kv)) l) = Some v) as Hi.
  { intros key v Hin. apply item_in; [done|]. by rewrite Hl. }
  unfold raw_target_items in Hi.
  rewrite (Hi "name" (PStr (as_name s))), (Hi "id" (PInt (as_numeric_locator s))), (Hi "type" (PStr (as_alias_type s))),
    (Hi "descr" (PStr (as_descr s))), (Hi "address" (PList (map PStr (as_address s)))),
    (Hi "detail" (PList (map PStr (as_detail s)))) by set_solver.
  cbn [mbind option_bind py_str]. by rewrite !py_strs_map.
Qed.

(** ** The appliance *)

(** The environment is the device: 0 when the alias has its old
    description, 1 when it has the new one. *)
Definition state_of (device : Z) : AliasStateV1 := {|
  as_name := u "lan_hosts"; as_numeric_locator := 3; as_alias_type := u "host";
  as_descr := u (if (device =? 0)%Z then "old" else "new");
  as_address := [u "10.0.0.1"]; as_detail := [u "printer"] |}.

Definition read_client : AliasDescriptionReadClient Z := {|
  get_firewall_aliases _ := λ device, (Ok [model_of (state_of device)], device);
  get_system_status_netgate_id := mret (Some (u "ng-1"));
  get_system_hasync_pfhostid := mret None |}.
Definition configured : ConfiguredApplianceTargetV1 :=
  {| ct_base_url := u "https://fw.example"; ct_tls_mode := STRICT; ct_ca_certificate_digest := None |}.
Definition request : AliasDescriptionChangeV1 := {| ch_alias_name := u "lan_hosts"; ch_description := u "new" |}.

Definition network (method path : pystr) (body : option bytes) (device : Z) : httpx_outcome * Z :=
  (HxResponse {| status_code := 200; text := [] |}, (1 - device)%Z).
Definition executor : MutationExecutor Z RawTarget AliasDescriptionPatchV1 := {|
  x_store := SampleStore.plain;
  x_write_client := {| transport_request := HttpTransport_request network; WriteApi.identity := u "pfsense";
    api_version := V2 |};
  get_system_restapi_settings := mret (Some false);
  x_policy := [{| Policy.rule_capability := ALIAS_WRITE; Policy.rule_endpoint_symbol := ENDPOINT_SYMBOL;
    Policy.rule_http_method := HTTP_METHOD |}];
  x_encryption_key := SampleCipher.key;
  capability_security_classes _ := Some HIGH_ASSURANCE_TIER1;
  approval_authorities := None; approval_source := None;
  x_clock := λ e, (Sample.day 1 10, e);
  model_dump_json r := canonical_json (pdict [("id", PInt (pt_id r)); ("descr", PStr (pt_descr r)); ("apply", PBool (pt_apply r))]);
  of_hint := RawValue |}.
Definition key : KeyRecord := {|
  key_id := SampleCounter.kid; epoch := 1; material := SampleCipher.key; purpose := ENCRYPTION; retired := false |}.

Definition core : WriteExecutionCoreV1 Z RawTarget AliasDescriptionPatchV1 AliasDescriptionChangeV1 AliasStateV1 :=
  AliasDescriptionExecutionCoreV1 read_client configured SampleAuthorization.authorities SampleStore.plain executor key
    300 1 (mret (u "0123")) (mret SamplePlan.verified).

(** ** The authorization *)

Definition absent_preparation : PreparedWriteExecutionV1 AliasStateV1 := {|
  pw_intent := {| pi_schema_version := 0; pi_capability := ALIAS_WRITE; pi_endpoint_symbol := []; pi_http_method := [];
    pi_adapter_version := []; pi_resource_target_ := FrozenCanonicalScalar JNull; pi_target_precondition_ := FrozenCanonicalScalar JNull;
    pi_normalized_mutation_intent_ := FrozenCanonicalScalar JNull; pi_rollback_snapshot_ := FrozenCanonicalScalar JNull;
    pi_rollback_plan_version := [] |};
  pw_authoritative_a := state_of 0; pw_appliance_target_digest := [] |}.
Definition preparation : PreparedWriteExecutionV1 AliasStateV1 := Eval vm_compute in
  match fst (wc_prepare core request 0%Z) with Ok p => p | Raise _ => absent_preparation end.
Definition intent_digest : pystr := Eval vm_compute in
  Sample.value_of (compute_execution_intent_digest (pw_intent preparation)).

Definition built : result PlanAuthorizationV2Payload :=
  build_plan_authorization_v2_payload SamplePlan.write_plan
    [{| sb_step_id := ALIAS_DESCRIPTION_WRITE_STEP_ID; sb_execution_intent_digest := intent_digest |}]
    (u "authz-1") (u "owner") (Sample.day 1 3) (Sample.day 1 20) AUTHORIZATION_SIGNING_ALGORITHM 2.
Definition authorization : PlanAuthorizationV2 := Eval vm_compute in
  match (p ← built; m ← plan_authorization_v2_signing_payload p; Ok {| a2_fields := p; a2_proof := SampleApproval.signature m |}) with
  | Ok a => a | Raise _ => {| a2_fields := SampleAuthorization.absent; a2_proof := [] |} end.

(** ** The run *)

Notation World := (Core Z (Ledger ())).
Definition store : ConsumptionStore (Ledger ()) := SampleConsumption.store.
#[export] Existing Instance store.

Definition before : World := mkCore (mkSession SampleStore.start []) SampleConsumption.empty SampleCounter.count0 ∅.
Definition authorize : prog World AuthorizedWriteExecution :=
  authorize_and_create core request preparation authorization SamplePlan.digest ALIAS_DESCRIPTION_WRITE_STEP_ID
    CONFIGURATION_CHANGE WRITE_PROTECTED HARDWARE_WITNESS (Sample.day 1 10).
Definition created : World := Eval vm_compute in snd (authorize before).
Definition handle : AuthorizedWriteExecution := {| ah_contract_id := u "aliasdescr-0123"; ah_owner_token := 1 |}.

Lemma authorized : authorize before = (Ok handle, created).
Proof. vm_compute. reflexivity. Qed.

Definition contract : RecoveryContract := Eval vm_compute in
  match load SampleStore.plain (u "aliasdescr-0123") (contracts created) with (Ok c, _) => c | _ => SampleStore.contract end.
Definition handoff : prog World ExecutionOutcome :=
  confirm_and_handoff core handle (SampleEvidence.confirmation contract) (Sample.day 1 10) None.
Definition executed : World := Eval vm_compute in snd (handoff created).
Lemma handed_off : handoff created = (Ok {| out_contract_id := u "aliasdescr-0123"; out_state := VERIFIED |}, executed).
Proof. vm_compute. reflexivity. Qed.

(** Another instance, after a restart. *)
Definition restarted : World := Eval vm_compute in mkCore (c_session created) (c_ledger created) (c_counter created) ∅.
Definition resume : prog World AuthorizedWriteExecution :=
  resume_prepared core (u "aliasdescr-0123") request (Sample.day 1 10).
Definition resumed : World := Eval vm_compute in snd (resume restarted).
Lemma resumes : resume restarted = (Ok handle, resumed).
Proof. vm_compute. reflexivity. Qed.

(** ** What the properties ask for *)

Lemma laws : capability_laws core.
Proof. by apply alias_capability_laws. Qed.
Lemma fresh_reachable : reachable (wc_store core) (contracts before).
Proof. constructor. Qed.
Lemma authorization_ok : v2_ok (a2_fields authorization).
Proof. split_and!; [by vm_compute| |done|done]. repeat constructor. Qed.
Lemma request_accepted : request_ok request.
Proof. by split_and!; vm_compute. Qed.
End SampleWrite.
Import SampleWrite.

Definition sample_intent : PreparedExecutionIntentV1 := pw_intent preparation.

Lemma sample_prepared : @prepare Sample.hash Sample.unicode Z read_client configured request 0%Z =
  (Ok {| pa_intent := sample_intent; pa_authoritative_a := state_of 0;
         pa_appliance_target_digest := pw_appliance_target_digest preparation |}, 0%Z).
Proof. vm_compute. reflexivity. Qed.

Lemma sample_new : @PreparedExecutionIntentV1_new Sample.unicode PREPARED_EXECUTION_INTENT_SCHEMA_VERSION ALIAS_WRITE
  ENDPOINT_SYMBOL HTTP_METHOD ADAPTER_VERSION (AliasDescription.identity (state_of 0)) (state_fingerprint (state_of 0))
  (pdict (alias_intent_items request (pw_appliance_target_digest preparation))) (state_fingerprint (state_of 0))
  ROLLBACK_VERSION = Ok sample_intent.
Proof. vm_compute. reflexivity. Qed.

Lemma sample_digest : @compute_execution_intent_digest Sample.hash Sample.unicode sample_intent = Ok intent_digest.
Proof. vm_compute. reflexivity. Qed.

Lemma sample_is_prepared : @prepared_intent Sample.unicode sample_intent.
Proof. by eexists _, _, _, _, _, _, _, _, _, _; apply sample_new. Qed.

Lemma prepared_values_witness : ∃ items, normalized_mutation_intent sample_intent = PDict items.
Proof. exact (proj2 (@prepared_values Sample.unicode _ _ _ _ _ _ _ _ _ _ _ sample_new)). Defined.

Lemma execution_intent_digest_names_witness :
  pi_capability sample_intent = pi_capability sample_intent ∨
  @digest_collides Sample.hash Sample.unicode EXECUTION_INTENT (pdict (prepared_execution_intent_payload_of sample_intent))
    DIGEST_CONTEXT EXECUTION_INTENT (pdict (prepared_execution_intent_payload_of sample_intent)) DIGEST_CONTEXT.
Proof.
  destruct (@execution_intent_digest_names Sample.hash Sample.unicode sample_intent sample_intent intent_digest
    sample_is_prepared sample_is_prepared sample_digest sample_digest) as [Hl|Hr].
  - exact (or_introl (proj1 Hl)).
  - exact (or_intror Hr).
Defined.

Lemma prepared_change_witness : as_descr (state_of 0) ≠ ch_description request ∧
  @is_rollback_verified Z _ _ (@AliasDescriptionAdapterV1 Sample.unicode alias_model Z read_client)
    (rollback_snapshot sample_intent) (RawState (state_of 0)) = Ok true.
Proof.
  destruct (@prepared_change Sample.hash Sample.unicode alias_model Z read_client configured request 0%Z _ _
    request_accepted sample_prepared) as (_ & Hne & _ & _ & _ & _ & Hr).
  split; [exact Hne|]. exact (Hr (state_of 0)).
Defined.

Lemma creation_authorized_witness :
  ¬ consumed (c_ledger before) (u "authz-1") ∧ consumed (c_ledger created) (u "authz-1").
Proof.
  destruct (@creation_authorized Sample.hash Sample.unicode SampleCipher.cipher SampleApproval.ed25519 Z (Ledger ())
    RawTarget AliasDescriptionPatchV1 AliasDescriptionChangeV1 AliasStateV1 store core request preparation authorization
    SamplePlan.digest ALIAS_DESCRIPTION_WRITE_STEP_ID CONFIGURATION_CHANGE WRITE_PROTECTED HARDWARE_WITNESS
    (Sample.day 1 10) before handle created authorization_ok authorized) as (_ & _ & _ & _ & _ & _ & Hb & Ha).
  exact (conj Hb Ha).
Defined.

Lemma created_contract_accepted_witness : ∃ r pe, @stored_prepared Sample.hash Sample.unicode Z (Ledger ()) RawTarget
    AliasDescriptionPatchV1 AliasDescriptionChangeV1 AliasStateV1 core created (u "aliasdescr-0123") r ∧
  executor_accepts core (pe_executor_intent pe) r.
Proof.
  destruct (@created_contract_accepted Sample.hash Sample.unicode SampleCipher.cipher SampleApproval.ed25519 Z (Ledger ())
    RawTarget AliasDescriptionPatchV1 AliasDescriptionChangeV1 AliasStateV1 store core
    (Scenario.clock_ok None None) (quiet_others_behave _ (Scenario.quiet_ok None None)) (λ x, eq_refl)
    request preparation authorization SamplePlan.digest ALIAS_DESCRIPTION_WRITE_STEP_ID CONFIGURATION_CHANGE
    WRITE_PROTECTED HARDWARE_WITNESS (Sample.day 1 10) before handle created laws fresh_reachable eq_refl
    authorization_ok authorized) as (r & pe & _ & _ & Hr & _ & _ & _ & _ & _ & _ & Ha & _).
  exists r, pe. exact (conj Hr Ha).
Defined.

Lemma spent_before_created_witness : sends (c_session created) = [].
Proof.
  exact (proj1 (@spent_before_created Sample.hash Sample.unicode SampleCipher.cipher SampleApproval.ed25519 Z (Ledger ())
    RawTarget AliasDescriptionPatchV1 AliasDescriptionChangeV1 AliasStateV1 store core (Scenario.quiet_ok None None) (λ x, eq_refl)
    request preparation authorization SamplePlan.digest ALIAS_DESCRIPTION_WRITE_STEP_ID CONFIGURATION_CHANGE
    WRITE_PROTECTED HARDWARE_WITNESS (Sample.day 1 10) before (Ok handle) created authorized)).
Defined.

Lemma handoff_gated_witness : length (sends (c_session executed)) = 1%nat ∧ env (contracts executed) = 1%Z ∧
  ∀ conf now ctx, confirm_and_handoff core handle conf now ctx executed = (Raise BoundExecutionError, executed).
Proof.
  split; [reflexivity|]. split; [reflexivity|].
  exact (proj2 (proj2 (@handoff_gated Sample.hash Sample.unicode SampleCipher.cipher SampleApproval.ed25519 Z (Ledger ())
    RawTarget AliasDescriptionPatchV1 AliasDescriptionChangeV1 AliasStateV1 core handle
    (SampleEvidence.confirmation contract) (Sample.day 1 10) None created _ executed handed_off ltac:(discriminate)))).
Defined.

Lemma resumed_accepted_witness : ∃ c pe, rc_state c = PREPARED ∧ executor_accepts core (pe_executor_intent pe) c.
Proof.
  destruct (@resumed_accepted Sample.hash Sample.unicode Z (Ledger ()) RawTarget AliasDescriptionPatchV1
    AliasDescriptionChangeV1 AliasStateV1 core (u "aliasdescr-0123") request (Sample.day 1 10) restarted handle resumed
    laws resumes) as (_ & c & x & p & pe & fresh & _ & Hs & _ & _ & _ & _ & _ & _ & _ & Ha & _).
  exists c, pe. exact (conj Hs Ha).
Defined.

Lemma sample_wired : @wired Sample.unicode Z RawTarget AliasDescriptionPatchV1 AliasDescriptionChangeV1 AliasStateV1 core.
Proof. by apply alias_wired; [apply Scenario.quiet_ok|apply Scenario.clock_ok|..]. Qed.

Definition expected_body : bytes := Eval vm_compute in
  match canonical_json (pdict [("id", PInt 3); ("descr", PStr (u "new")); ("apply", PBool false)]) with Ok b => b | Raise _ => [] end.

(** The request that reached the device. *)
Definition sent_request : Send :=
  match sends (c_session executed) with y :: _ => y | [] => Build_Send [] [] None empty_db (Raise KeyError) end.

Lemma signed_change_sent_witness : sends (c_session executed) = [sent_request] ∧
  sent_method sent_request = u "PATCH" ∧ sent_body sent_request = Some expected_body.
Proof.
  split; [reflexivity|].
  destruct (@signed_change_sent Sample.hash Sample.unicode SampleCipher.cipher SampleApproval.ed25519 alias_model Z (Ledger ())
    store read_client configured SampleAuthorization.authorities SampleStore.plain executor key 300 1 (mret (u "0123"))
    (mret SamplePlan.verified) request preparation authorization SamplePlan.digest ALIAS_DESCRIPTION_WRITE_STEP_ID
    CONFIGURATION_CHANGE WRITE_PROTECTED HARDWARE_WITNESS (Sample.day 1 10) before handle created
    (SampleEvidence.confirmation contract) (Sample.day 1 10) None created _ executed sample_wired request_accepted
    fresh_reachable eq_refl authorization_ok authorized (conj eq_refl eq_refl) handed_off)
    as (digest & fresh & l & _ & _ & _ & _ & Hl & _ & _ & Hy).
  assert (sent_request ∈ l) as Hin by (change (sends (c_session executed) = l) in Hl; rewrite <-Hl; left).
  destruct (Hy sent_request Hin) as (Hm & _ & body & Hb & Hj).
  split; [exact Hm|]. rewrite Hb. f_equal. vm_compute in Hj. by injection Hj as <-.
Defined.
