(* ===== verification/ProductionWitness.v ===== *)
(** * A concrete product operation

    The appliance, the authorization and the core of [WriteCoreWitness]
    behind the product operation: one call that runs from the signed files
    to the verified change, a call after it, and a call after the change was
    undone by hand; the properties of [ArtifactProps], [ProductProps]
    and [ProductionProps] there. *)

From S2P Require Import Prelude PyStr Sha256 PyDatetime Json Capability StateMachine Canonical PyJson.
From S2P Require Import Contract Evidence Plan PlanProps SealedApproval Authorization AuthorizationProps.
From S2P Require Import StoreCodec Database RatePolicy AntiRollback Store StoreInv StoreProps StoreBehaviour StoreWitness.
From S2P Require Import Consumption Coordinator ConsumptionWitness Crypto KeyLifecycle WriteApi Executor.
From S2P Require Import PreparedIntent AliasDescription AliasProps ArtifactExchange ArtifactProps WriteCore WriteCoreProps.
From S2P Require Import AliasCore EndToEnd ProductOperation ProductProps ProductionRuntime ProductionProps WriteCoreWitness.

Module SampleProduct.
Export SampleWrite.

Definition integrity_key : bytes := repeat Byte.x2a 32.
Definition runtime : ProductionAliasDescriptionRuntime Z := {|
  rt_core := core; rt_prepare := prepare read_client configured; rt_confirmation_authority_id := u "owner";
  rt_artifact_integrity_key := integrity_key; rt_operator f := mret f; rt_write := mret Written |}.

Definition signed : Files := Eval vm_compute in {|
  authorization_inbox := new_file (plan_authorization_v2_to_bytes authorization);
  confirmation_pending := Absent;
  confirmation_signed := new_file (confirmation_evidence_to_bytes (SampleEvidence.confirmation contract));
  authorization_preview := Absent |}.

Definition start : Product Z (Ledger ()) := mkProduct before signed.
Definition call : prog (Product Z (Ledger ())) ProductOutcome :=
  request_alias_description_change runtime request SamplePlan.digest ALIAS_DESCRIPTION_WRITE_STEP_ID
    CONFIGURATION_CHANGE WRITE_PROTECTED HARDWARE_WITNESS (Sample.day 1 10) None.
Definition finished : Product Z (Ledger ()) := Eval vm_compute in snd (call start).
Definition verified : ProductOutcome := of_contract PRODUCT_VERIFIED (u "aliasdescr-0123").
Lemma runs : request_change (alias_product runtime) request SamplePlan.digest ALIAS_DESCRIPTION_WRITE_STEP_ID
    CONFIGURATION_CHANGE WRITE_PROTECTED HARDWARE_WITNESS (Sample.day 1 10) None start = (Ok verified, finished).
Proof. vm_compute. reflexivity. Qed.

(** ** The store of the finished run *)

(** The contract as it was created. *)
Definition created_contract : RecoveryContract := Eval vm_compute in
  match contract with
  | mk_RecoveryContract id op key cap cls symbol method identity target locator intent snapshot plan created expires
      _ _ c1 c2 c3 provenance digest at_ verified => mk_RecoveryContract id op key cap cls symbol method identity target
      locator intent snapshot plan created expires PREPARING 0 c1 c2 c3 provenance digest at_ verified
  end.
Definition verified_contract : RecoveryContract := Eval vm_compute in
  match load SampleStore.plain (u "aliasdescr-0123") (contracts (p_core finished)) with (Ok c, _) => c | _ => contract end.
Definition calls : list StoreProps.call :=
  [CreateAuthorized created_contract; Transition (u "aliasdescr-0123") PREPARING 0 PREPARED None state_transition;
   Confirm (u "aliasdescr-0123") (SampleEvidence.confirmation contract) 1;
   Transition (u "aliasdescr-0123") PREPARED 2 EXECUTING (Some HighAssuranceTier1ExecutionPolicy) state_transition;
   MarkExecutionVerified (u "aliasdescr-0123") 3 (default [] (rc_verified_target_fingerprint verified_contract)) 3].

Lemma created_wf : wf_contract created_contract.
Proof.
  split; [apply post_init_facts; vm_compute; reflexivity|vm_compute; reflexivity..| |vm_compute; reflexivity
    |vm_compute; reflexivity|discriminate].
  intros p Hp. cbn in Hp. injection Hp as <-. split_and!; vm_compute; reflexivity.
Qed.

Lemma finished_reachable device :
  reachable SampleStore.plain (mkWorld (db (contracts (p_core finished))) device).
Proof.
  assert (db (contracts (p_core finished)) = db (SampleStore.run SampleStore.plain calls SampleStore.start)) as ->
    by (vm_compute; reflexivity).
  apply reachable_env, Scenario.run_reachable; [constructor|]. constructor; [apply created_wf|]. repeat constructor.
Qed.

(** The device, and a world like the finished one but for the device. *)
Definition showing (device : Z) : Product Z (Ledger ()) :=
  mkProduct (with_contracts (p_core finished) (mkWorld (db (contracts (p_core finished))) device)) (p_files finished).
End SampleProduct.
Import SampleProduct.

Lemma outcome_reported_witness : at_most_one start finished ∧
  @holds_in Sample.hash Sample.unicode Z (Ledger ()) _ _ _ _ (alias_product runtime) finished (u "aliasdescr-0123") VERIFIED.
Proof.
  destruct (@outcome_reported Sample.hash Sample.unicode SampleCipher.cipher SampleApproval.ed25519 Z (Ledger ()) _ _ _ _ SampleWrite.store
    (alias_product runtime) sample_wired request SamplePlan.digest ALIAS_DESCRIPTION_WRITE_STEP_ID CONFIGURATION_CHANGE WRITE_PROTECTED
    HARDWARE_WITNESS (Sample.day 1 10) None start (Ok verified) finished fresh_reachable eq_refl runs) as [H1 H2].
  split; [exact H1|]. destruct (H2 verified eq_refl) as (id & Hid & Hin). injection Hid as <-. exact Hin.
Defined.

Lemma sample_shown : @read_named Sample.unicode Z read_client (u "lan_hosts") 1%Z = (Ok (state_of 1), 1%Z).
Proof. vm_compute. reflexivity. Qed.

(** What the preparer makes of the old description, and the key of it. *)
Definition again : PreparedAliasDescriptionExecutionV1 :=
  {| pa_intent := sample_intent; pa_authoritative_a := state_of 0;
     pa_appliance_target_digest := pw_appliance_target_digest preparation |}.
Lemma sample_key : @compute_idempotency_key Sample.hash Sample.unicode Z RawTarget AliasDescriptionPatchV1
  AliasDescriptionChangeV1 AliasStateV1 core (as_prepared again) = Ok (rc_idempotency_key verified_contract).
Proof. vm_compute. reflexivity. Qed.
Lemma sample_stored : @stored Sample.hash Sample.unicode Z SampleStore.plain (contracts (p_core (showing 0))) verified_contract.
Proof. vm_compute. reflexivity. Qed.

Lemma repeated_call_inverted_witness :
  (∃ w', call (showing 1) = (Ok (without_contract REFUSED), w')) ∧
  (∃ w', call (showing 0) = (Ok verified, w') ∧ settled w' = settled (showing 0)).
Proof.
  split.
  - destruct (proj1 (@repeated_call_inverted Sample.hash Sample.unicode SampleCipher.cipher SampleApproval.ed25519 Z
      (Ledger ()) SampleWrite.store runtime sample_wired alias_model read_client configured request SamplePlan.digest
      ALIAS_DESCRIPTION_WRITE_STEP_ID CONFIGURATION_CHANGE WRITE_PROTECTED HARDWARE_WITNESS (Sample.day 1 10) None
      (showing 1) (finished_reachable 1) eq_refl) (state_of 1) 1%Z sample_shown eq_refl) as (w' & Hc & _).
    exists w'. exact Hc.
  - destruct (proj2 (proj2 (@repeated_call_inverted Sample.hash Sample.unicode SampleCipher.cipher SampleApproval.ed25519 Z
      (Ledger ()) SampleWrite.store runtime sample_wired alias_model read_client configured request SamplePlan.digest
      ALIAS_DESCRIPTION_WRITE_STEP_ID CONFIGURATION_CHANGE WRITE_PROTECTED HARDWARE_WITNESS (Sample.day 1 10) None
      (showing 0) (finished_reachable 0) eq_refl) again 0%Z _ verified_contract sample_prepared sample_key sample_stored
      eq_refl eq_refl)) as (w' & Hc & Hs).
    exists w'. split; [exact Hc|exact Hs].
Defined.

(** ** Files with a tag *)

Definition preview : AuthorizationPreview := {|
  av_operation := SEMANTIC_UNIT; av_alias_name := u "lan_hosts"; av_previous_description := u "old";
  av_requested_description := u "new"; av_execution_intent_digest := intent_digest;
  av_requested_plan_digest := SamplePlan.digest; av_requested_step_id := ALIAS_DESCRIPTION_WRITE_STEP_ID;
  av_target_capability_posture := WRITE_PROTECTED; av_target_anchor_assurance := HARDWARE_WITNESS;
  av_generated_at := Sample.day 1 10 |}.

Lemma sample_preview_ok : preview_ok preview.
Proof. by split_and!; vm_compute. Qed.

Definition preview_file : bytes := Eval vm_compute in
  match authorization_preview_to_bytes preview integrity_key with Ok b => b | Raise _ => [] end.
Lemma preview_written : @envelope_write Sample.hash _ preview_envelope integrity_key preview = Ok preview_file.
Proof. vm_compute. reflexivity. Qed.
Lemma preview_fits : (length preview_file ≤ MAX_FILE)%nat.
Proof. apply Nat.leb_le. vm_compute. reflexivity. Qed.

Lemma artifact_published_whole_witness :
  @envelope_load Sample.hash _ preview_envelope integrity_key (new_file preview_file) = Ok preview.
Proof.
  pose proof (proj2 (proj1 (proj2 (@artifact_published_whole Sample.hash _ preview_envelope preview_ok preview_laws integrity_key
    preview preview_file Written Absent (Ok ()) (new_file preview_file) sample_preview_ok preview_written eq_refl)
    eq_refl) eq_refl)) as Hload.
  rewrite (proj2 (Nat.leb_le _ _) preview_fits) in Hload. exact Hload.
Defined.

(** A preview with two descriptions of 1024 characters outside the Basic
    Multilingual Plane: the constructor accepts it, the writer writes it, and
    its reader refuses it. *)
Definition wide_preview : AuthorizationPreview :=
  let text := repeat 128512%N 1024 in
  {| av_operation := av_operation preview; av_alias_name := av_alias_name preview; av_previous_description := text;
     av_requested_description := text; av_execution_intent_digest := av_execution_intent_digest preview;
     av_requested_plan_digest := av_requested_plan_digest preview; av_requested_step_id := av_requested_step_id preview;
     av_target_capability_posture := av_target_capability_posture preview;
     av_target_anchor_assurance := av_target_anchor_assurance preview; av_generated_at := av_generated_at preview |}.
Example wide_preview_unreadable : preview_ok wide_preview ∧
  match @envelope_write Sample.hash _ preview_envelope integrity_key wide_preview with
  | Ok b => @envelope_load Sample.hash _ preview_envelope integrity_key (new_file b) = Raise ArtifactExchangeError
  | Raise _ => False
  end.
Proof. split; [split_and!; vm_compute; reflexivity|vm_compute; reflexivity]. Qed.

(** A tag of one character outside ASCII. *)
Definition odd_tag : pystr := [233]%N.
Definition odd_items : list (pystr * json) := ev_items preview_envelope preview ++ [(u "integrity_mac", JStr odd_tag)].
Lemma odd_fits : (length (file_bytes odd_items) ≤ MAX_FILE)%nat.
Proof. apply Nat.leb_le. vm_compute. reflexivity. Qed.
Lemma key_fits : (32 <= length integrity_key)%nat.
Proof. apply Nat.leb_le. reflexivity. Qed.

Lemma tag_decides_witness :
  @envelope_load Sample.hash _ preview_envelope integrity_key (new_file (file_bytes odd_items)) = Raise TypeError.
Proof.
  exact (proj2 (proj2 (@tag_decides Sample.hash _ preview_envelope preview_ok preview_laws integrity_key
    (new_file (file_bytes odd_items)))) preview odd_tag sample_preview_ok key_fits eq_refl eq_refl eq_refl odd_fits).
Defined.
