(* ===== verification/Batch1Witness.v ===== *)
(** * A concrete acceptance of the time zone

    The batch-1 runtime over one appliance: the time zone changed under an
    acceptance context, from a signed authorization to the request on the
    wire; the properties of [SettingsProps], [NtpProps] and [Batch1Props]
    there. *)

From S2P Require Import Prelude PyStr Sha256 PyDatetime Json Capability StateMachine Canonical PyJson.
From S2P Require Import Contract Evidence Plan PlanProps SealedApproval Authorization AuthorizationProps.
From S2P Require Import StoreCodec Database RatePolicy AntiRollback Store StoreInv StoreProps StoreBehaviour StoreWitness.
From S2P Require Import Consumption Coordinator ConsumptionWitness Crypto KeyLifecycle WriteApi Executor.
From S2P Require Import PreparedIntent AliasDescription SettingsUnit SettingsUnits PyDict SettingsProps NtpTimeServer NtpProps.
From S2P Require Import WriteCore WriteCoreProps AliasCore EndToEnd Batch1Runtime Batch1Props WriteCoreWitness.
Import NtpTimeServerPrefer NtpProps.

Module SampleBatch1.
#[export] Existing Instances Sample.hash Sample.unicode SampleCipher.cipher SampleApproval.ed25519 SampleWrite.store.

(** ** Strict validation *)

Definition validate_settings (unit : SettingsUnit) (v : pyobj) : option Snapshot :=
  d ← py_dict v;
  mapM (λ k, x ← item k d; if typed_field unit k x then Some (k, x) else None) (su_names unit).

#[export, program] Instance settings_model unit `{!SettingsLaws unit} : SettingsModel unit :=
  {| settings_validate := validate_settings unit |}.
Next Obligation.
  intros unit Hl s l [Hk Ht] Hp. unfold validate_settings, pdict. cbn [py_dict mbind option_bind]. fold (items l).
  assert (NoDup s.*1) as Hn by (rewrite Hk; apply sl_names). rewrite <-Hk. clear Hk.
  assert (∀ k, item k (items l) = get_field k s) as Hg.
  { intros k. rewrite item_items. apply get_field_perm; [by rewrite Hp|done]. }
  assert (∀ s', s' ⊆ s → mapM (λ k, x ← item k (items l); if typed_field unit k x then Some (k, x) else None) s'.*1 = Some s')
    as Hall; [|by apply Hall].
  induction s' as [|[k x] s' IH]; [done|]. intros Hs. cbn [fmap list_fmap fst]. rewrite mapM_cons, Hg.
  assert ((k, x) ∈ s) as Hin by (apply Hs; left). rewrite (get_field_in k x) by done. cbn [mbind option_bind].
  rewrite Forall_forall in Ht. destruct (Ht _ Hin) as [Hx _]. cbn [fst snd] in Hx. rewrite Hx, IH; [done|].
  intros y Hy. apply Hs. by right.
Qed.

Definition validate_server (v : pyobj) : option NtpTimeServer :=
  d ← py_dict v;
  id ← item "id" d ≫= (λ x, match x with PInt z => Some z | _ => None end);
  timeserver ← item "timeserver" d ≫= py_str;
  server_type ← item "type" d ≫= py_str;
  prefer ← item "prefer" d ≫= py_bool;
  noselect ← item "noselect" d ≫= py_bool;
  Some {| nt_id := id; nt_noselect := noselect; nt_prefer := prefer; nt_timeserver := timeserver; nt_type := server_type |}.
#[export, program] Instance server_model : NtpTimeServerModel := {| server_validate := validate_server |}.
Next Obligation. done. Qed.

(** ** The appliance *)

(** The environment is the device: 0 while the clock is kept in UTC. *)
Definition zone_of (device : Z) : Snapshot := [("timezone", PStr (u (if (device =? 0)%Z then "Etc/UTC" else "Europe/Oslo")))].
Definition server_of (device : Z) : NtpTimeServer := {|
  nt_id := 2; nt_noselect := false; nt_prefer := negb (device =? 0)%Z; nt_timeserver := u "time.example"; nt_type := u "pool" |}.
Definition network (method path : pystr) (body : option bytes) (device : Z) : httpx_outcome * Z :=
  (HxResponse {| status_code := 200; text := [] |}, (1 - device)%Z).

Definition parts : Batch1Parts Z := {|
  bp_store := SampleStore.plain; bp_authorities := SampleAuthorization.authorities; bp_encryption_key := SampleWrite.key;
  bp_write_client := {| transport_request := HttpTransport_request network; WriteApi.identity := ACCEPTANCE_TARGET_IDENTITY;
    api_version := V2 |};
  bp_restapi_settings := mret (Some false);
  bp_configured_target := SampleWrite.configured;
  bp_ntp_time_servers _ := λ device, (Ok [server_of device], device);
  bp_ntp_settings := raise KeyError; bp_logs_settings := raise KeyError;
  bp_timezone := λ device, (Ok (zone_of device), device);
  bp_netgate_id := mret (Some (u "ng-1")); bp_pfhostid := mret None;
  bp_clock := λ e, (Sample.day 1 10, e);
  bp_dump_prefer p := canonical_json (pdict [("id", PInt (np_id p)); ("prefer", PBool (np_prefer p))]);
  bp_dump_settings p := canonical_json (pdict (sp_values p));
  bp_contract_validity := 300; bp_owner_token := λ n, n; bp_uuid4_hex := mret (u "0123");
  bp_discover := mret SamplePlan.verified |}.

(** The value of a computation that returns. *)
Definition is_ok {A} (r : result A) : bool := match r with Ok _ => true | Raise _ => false end.
Definition the {A} (r : result A) : is_ok r = true → A :=
  match r with Ok a => λ _, a | Raise _ => λ H, match diff_false_true H with end end.
Lemma the_ok {A} (r : result A) H : r = Ok (the r H).
Proof. by destruct r. Qed.

Definition composed : result (ProductionWriteBatch1Runtime Z) := compose_batch1_runtime parts.
Lemma composes : is_ok composed = true.
Proof. vm_compute. reflexivity. Qed.
Definition runtime : ProductionWriteBatch1Runtime Z := the composed composes.

Definition zone_core : result (SettingsCore Z) := settings_core parts SystemTimezone 4 "systz" (bp_timezone parts).
Lemma zone_core_made : is_ok zone_core = true.
Proof. vm_compute. reflexivity. Qed.
Definition core : SettingsCore Z := the zone_core zone_core_made.

Definition request : Snapshot := [("timezone", PStr (u "Europe/Oslo"))].

(** ** The authorization *)

Definition preparation : PreparedWriteExecutionV1 Snapshot := Eval vm_compute in
  match fst (wc_prepare core request 0%Z) with
  | Ok p => p
  | Raise _ => {| pw_intent := pw_intent SampleWrite.preparation; pw_authoritative_a := []; pw_appliance_target_digest := [] |}
  end.
Definition intent_digest : pystr := Eval vm_compute in
  Sample.value_of (compute_execution_intent_digest (pw_intent preparation)).
Definition built : result PlanAuthorizationV2Payload :=
  build_plan_authorization_v2_payload SamplePlan.write_plan
    [{| sb_step_id := ALIAS_DESCRIPTION_WRITE_STEP_ID; sb_execution_intent_digest := intent_digest |}]
    (u "authz-2") (u "owner") (Sample.day 1 3) (Sample.day 1 20) AUTHORIZATION_SIGNING_ALGORITHM 2.
Definition authorization : PlanAuthorizationV2 := Eval vm_compute in
  match (p ← built; m ← plan_authorization_v2_signing_payload p; Ok {| a2_fields := p; a2_proof := SampleApproval.signature m |}) with
  | Ok a => a | Raise _ => {| a2_fields := SampleAuthorization.absent; a2_proof := [] |} end.

(** ** The run *)

Notation World := (Core Z (Ledger ())).
Definition before : World := mkCore (mkSession SampleStore.start []) SampleConsumption.empty SampleCounter.count0 ∅.
Definition authorize : prog World AuthorizedWriteExecution :=
  authorize_and_create core request preparation authorization SamplePlan.digest ALIAS_DESCRIPTION_WRITE_STEP_ID
    CONFIGURATION_CHANGE WRITE_PROTECTED HARDWARE_WITNESS (Sample.day 1 10).
Definition created : World := Eval vm_compute in snd (authorize before).
Definition handle : AuthorizedWriteExecution := {| ah_contract_id := u "systz-0123"; ah_owner_token := 4 |}.
Lemma zone_authorized : authorize before = (Ok handle, created).
Proof. vm_compute. reflexivity. Qed.

Definition contract : RecoveryContract := Eval vm_compute in
  match load SampleStore.plain (u "systz-0123") (contracts created) with (Ok c, _) => c | _ => SampleStore.contract end.
Definition context : AcceptanceExecutionContext := {|
  ac_endpoint_symbol := u "SYSTEM_TIMEZONE"; ac_http_method := u "PATCH"; ac_target_identity := ACCEPTANCE_TARGET_IDENTITY;
  ac_issued_at := Sample.day 1 10 |}.
Definition handoff : prog World ExecutionOutcome :=
  confirm_and_handoff core handle (SampleEvidence.confirmation contract) (Sample.day 1 10) (Some context).
Definition executed : World := Eval vm_compute in snd (handoff created).
Lemma zone_handed_off : handoff created = (Ok {| out_contract_id := u "systz-0123"; out_state := VERIFIED |}, executed).
Proof. vm_compute. reflexivity. Qed.

Lemma alone : batch1_alone parts.
Proof. split; [apply Scenario.quiet_ok|apply Scenario.clock_ok|done]. Qed.

Lemma zone_reads e s e' : bp_timezone parts e = (Ok s, e') → model_ok SystemTimezone s.
Proof. intros [= <- _]. split; [done|]. repeat constructor; by destruct (e =? 0)%Z. Qed.
Lemma zone_request_accepted : settings_request_ok SystemTimezone request.
Proof. by exists request. Qed.
Lemma zone_authorization_ok : v2_ok (a2_fields authorization).
Proof. split_and!; [by vm_compute| |done|done]. repeat constructor. Qed.
Lemma zone_reachable : reachable (bp_store parts) (contracts before).
Proof. constructor. Qed.
End SampleBatch1.
Import SampleBatch1.

Lemma sample_settings_prepared : @settings_prepare Sample.hash Sample.unicode Z SystemTimezone
    (settings_client parts (bp_timezone parts)) SampleWrite.configured request 0%Z =
  (Ok {| ps_intent := pw_intent preparation; ps_authoritative_a := zone_of 0;
         ps_appliance_target_digest := pw_appliance_target_digest preparation |}, 0%Z).
Proof. vm_compute. reflexivity. Qed.

Lemma prepared_settings_change_witness :
  settings_build_request SystemTimezone (normalized_mutation_intent (pw_intent preparation)) =
    Ok (Some {| sp_values := request |}) ∧
  settings_rollback_verified SystemTimezone (rollback_snapshot (pw_intent preparation)) (RawSnapshot (zone_of 0)) = Ok true.
Proof.
  destruct (@prepared_settings_change Sample.hash Sample.unicode Z SystemTimezone _ _ (settings_client parts (bp_timezone parts))
    SampleWrite.configured zone_reads request 0%Z _ _ zone_request_accepted sample_settings_prepared)
    as (Hs & _ & _ & Hb & _ & _ & Hr).
  split; [exact Hb|]. destruct (Hr (zone_of 0) Hs) as (b & Heq & Hiff).
  refine (eq_trans Heq _). f_equal. by apply Hiff.
Defined.

Lemma prepared_prefer_change_witness : ∀ t, ∃ i,
  ntp_build_request (normalized_mutation_intent i) t = Ok (Some {| np_id := numeric_locator t; np_prefer := true |}).
Proof.
  intros t. destruct (ntp_prepare (prefer_client parts) SampleWrite.configured
    {| nc_timeserver := u "time.example"; nc_prefer := true |} 0%Z) as [[p|e] e'] eqn:Hp; [|by vm_compute in Hp].
  exists (pn_intent p).
  destruct (@prepared_prefer_change Sample.hash Sample.unicode _ Z (prefer_client parts) SampleWrite.configured
    {| nc_timeserver := u "time.example"; nc_prefer := true |} 0%Z p e' ltac:(by exists (u "time.example"), true) Hp)
    as (_ & _ & _ & Hb & _). exact (Hb t).
Defined.

Definition zone_body : bytes := Eval vm_compute in match canonical_json (pdict request) with Ok b => b | Raise _ => [] end.
Definition zone_request : Send :=
  match sends (c_session executed) with y :: _ => y | [] => Build_Send [] [] None empty_db (Raise KeyError) end.

Lemma signed_settings_sent_witness : sends (c_session executed) = [zone_request] ∧
  sent_method zone_request = u "PATCH" ∧ sent_body zone_request = Some zone_body.
Proof.
  split; [reflexivity|].
  destruct (@signed_settings_sent Sample.hash Sample.unicode SampleCipher.cipher SampleApproval.ed25519 Z (Ledger ())
    SampleWrite.store parts SystemTimezone _ _ (bp_timezone parts) zone_reads 4 "systz" core request preparation authorization
    SamplePlan.digest ALIAS_DESCRIPTION_WRITE_STEP_ID CONFIGURATION_CHANGE WRITE_PROTECTED HARDWARE_WITNESS (Sample.day 1 10)
    before handle created (SampleEvidence.confirmation contract) (Sample.day 1 10) (Some context) created _ executed
    (the_ok _ _) alone zone_request_accepted zone_reachable eq_refl zone_authorization_ok zone_authorized (conj eq_refl eq_refl) zone_handed_off)
    as (digest & fresh & l & _ & _ & _ & _ & Hl & _ & _ & _ & Hy).
  assert (zone_request ∈ l) as Hin by (change (sends (c_session executed) = l) in Hl; rewrite <-Hl; left).
  destruct (Hy zone_request Hin) as (Hm & _ & body & Hb & Hj).
  split; [exact Hm|]. rewrite Hb. f_equal. vm_compute in Hj. by injection Hj as <-.
Defined.

(** The created contract was put there by the store's own operations. *)
Definition created_contract : RecoveryContract := Eval vm_compute in
  match contract with
  | mk_RecoveryContract id op key cap cls symbol method identity target locator intent snapshot plan created expires
      _ _ c1 c2 c3 provenance digest at_ verified => mk_RecoveryContract id op key cap cls symbol method identity target
      locator intent snapshot plan created expires PREPARING 0 c1 c2 c3 provenance digest at_ verified
  end.
Definition creation_calls : list StoreProps.call :=
  [CreateAuthorized created_contract; Transition (u "systz-0123") PREPARING 0 PREPARED None state_transition].

Lemma zone_contract_wf : wf_contract created_contract.
Proof.
  split; [apply post_init_facts; vm_compute; reflexivity|vm_compute; reflexivity..| |vm_compute; reflexivity
    |vm_compute; reflexivity|discriminate].
  intros p Hp. cbn in Hp. injection Hp as <-. split_and!; vm_compute; reflexivity.
Qed.

Lemma created_reachable : reachable (bp_store parts) (contracts created).
Proof.
  assert (contracts created = SampleStore.run SampleStore.plain creation_calls SampleStore.start) as ->
    by (vm_compute; reflexivity).
  apply Scenario.run_reachable; [constructor|]. constructor; [apply zone_contract_wf|]. repeat constructor.
Qed.

Lemma batch1_closed_witness : sends (c_session executed) = [zone_request] ∧
  sends (c_session (snd (confirm_and_handoff (b1_system_timezone runtime) handle (SampleEvidence.confirmation contract)
    (Sample.day 1 10) None created))) = [].
Proof.
  split; [reflexivity|].
  destruct (confirm_and_handoff (b1_system_timezone runtime) handle (SampleEvidence.confirmation contract)
    (Sample.day 1 10) None created) as [out w'] eqn:Hp.
  destruct (@batch1_closed Sample.hash Sample.unicode SampleCipher.cipher SampleApproval.ed25519 Z (Ledger ()) parts
    server_model _ _ _ _ runtime created (the_ok _ _) alone created_reachable) as [_ Hc].
  destruct (Hc 3%nat (u "SYSTEM_TIMEZONE") (b1_system_timezone runtime) eq_refl eq_refl) as [Hs _].
  destruct (Hs handle (SampleEvidence.confirmation contract) (Sample.day 1 10) None out w' Hp) as (l & Hl & _ & Hnone & _).
  refine (eq_trans Hl _). rewrite (Hnone eq_refl). reflexivity.
Defined.
