(* ===== verification/ShapeAWitness.v ===== *)
(** * A concrete orchestration

    The time zone of [Batch1Witness] behind its orchestrator: one call runs
    from the signed files to the verified change; and two states of the log
    settings that are reviewed in the same words. *)

From S2P Require Import Prelude PyStr Sha256 PyDatetime Json Capability StateMachine Canonical PyJson.
From S2P Require Import Contract Evidence Plan PlanProps SealedApproval Authorization AuthorizationProps.
From S2P Require Import StoreCodec Database RatePolicy AntiRollback Store StoreInv StoreProps StoreBehaviour StoreWitness.
From S2P Require Import Consumption Coordinator ConsumptionWitness Crypto KeyLifecycle WriteApi Executor.
From S2P Require Import PreparedIntent AliasDescription ArtifactExchange SettingsUnit SettingsUnits PyDict SettingsProps.
From S2P Require Import NtpTimeServer NtpProps WriteCore WriteCoreProps EndToEnd ProductOperation ProductProps PyText.
From S2P Require Import Batch1Runtime Batch1Props ShapeAExchange ShapeAExchangeProps ShapeAOrchestration ShapeAOrchestrationProps.
From S2P Require Import WriteCoreWitness Batch1Witness.
Import SampleBatch1.

Module SampleShapeA.

#[export] Instance text : TextData := {|
  printable _ := true; float_repr s := s; other_repr _ := u "..." |}.

Definition made : result (ShapeAAcceptanceOrchestrator Z) :=
  ShapeAAcceptanceOrchestrator_new (u "SYSTEM_TIMEZONE") runtime [u "/artifacts"] (u "owner") (repeat Byte.x2a 32)
    (λ _ f, mret f) (mret Written).
Lemma is_made : is_ok made = true.
Proof. vm_compute. reflexivity. Qed.
Definition self : ShapeAAcceptanceOrchestrator Z := the made is_made.

Definition signed : Files := Eval vm_compute in {|
  authorization_inbox := new_file (plan_authorization_v2_to_bytes authorization);
  confirmation_pending := Absent;
  confirmation_signed := new_file (confirmation_evidence_to_bytes (SampleEvidence.confirmation contract));
  authorization_preview := Absent |}.
Definition start : Product Z (Ledger ()) := mkProduct before signed.

Definition call (r : ShapeARequest) : prog (Product Z (Ledger ())) ProductOutcome :=
  orchestrated_change self r SamplePlan.digest ALIAS_DESCRIPTION_WRITE_STEP_ID CONFIGURATION_CHANGE WRITE_PROTECTED
    HARDWARE_WITNESS (Sample.day 1 10) (Some context).
Definition finished : Product Z (Ledger ()) := Eval vm_compute in snd (call (TimezoneRequest request) start).
Definition verified : ProductOutcome := of_contract PRODUCT_VERIFIED (u "systz-0123").
Lemma zone_runs : call (TimezoneRequest request) start = (Ok verified, finished).
Proof. vm_compute. reflexivity. Qed.
Lemma refuses : call (RetentionRequest request) start = (Ok (without_contract REFUSED), start).
Proof. vm_compute. reflexivity. Qed.

(** The written files are read back. *)
Lemma files_written : (∃ p, load_shape_a_authorization_preview (authorization_preview (p_files finished)) (repeat Byte.x2a 32) = Ok p) ∧
  ∃ q, load_shape_a_pending_confirmation_request (confirmation_pending (p_files finished)) (repeat Byte.x2a 32) = Ok q.
Proof. split; eexists; vm_compute; reflexivity. Qed.

(** ** Log settings *)

Definition logs (codec : string) : Snapshot := [
  ("format", PStr (u "rfc3164")); ("reverseorder", PBool false); ("nentries", PInt 500); ("nologdefaultblock", PBool false);
  ("nologdefaultpass", PBool true); ("nologbogons", PBool false); ("nologprivatenets", PBool false);
  ("nolognginx", PBool false); ("rawfilter", PBool false); ("disablelocallogging", PBool false);
  ("logconfigchanges", PBool true); ("filterdescriptions", PInt 0); ("logfilesize", PInt 512000);
  ("rotatecount", PInt 7); ("logcompressiontype", PStr (u codec)); ("enableremotelogging", PBool false);
  ("ipprotocol", PNone); ("sourceip", PNone); ("remoteserver", PNone); ("remoteserver2", PNone); ("remoteserver3", PNone);
  ("logall", PNone); ("filter", PNone); ("dhcp", PNone); ("auth", PNone); ("portalauth", PNone); ("vpn", PNone);
  ("dpinger", PNone); ("hostapd", PNone); ("system", PNone); ("resolver", PNone); ("ppp", PNone); ("routing", PNone);
  ("ntpd", PNone)].
Definition retention : Snapshot :=
  [("logfilesize", PInt 1024); ("rotatecount", PInt 3); ("logcompressiontype", PStr (u "zstd"))].

Lemma logs_snapshot codec : log_snapshot (logs codec).
Proof. split; [done|unfold logs; repeat (apply Forall_cons_2; [by vm_compute|]); apply Forall_nil_2|]. exists (u "rfc3164"). split; [left|done]. Qed.
Lemma retention_accepted : settings_request_ok LogRetentionSettings retention.
Proof. by exists retention. Qed.
Lemma logs_agree k : k ∈ shown_names → get_field k (logs "none") = get_field k (logs "bzip2").
Proof. unfold shown_names. rewrite !elem_of_cons, elem_of_nil. intros Hk. by destruct_or! Hk; subst k. Qed.
End SampleShapeA.
Import SampleShapeA.

Lemma what_the_signer_sees_witness :
  logs "none" ≠ logs "bzip2" ∧
  render_semantic_fields retention (log_settings_fields (logs "none")) =
  render_semantic_fields retention (log_settings_fields (logs "bzip2")).
Proof.
  split; [discriminate|].
  exact (proj2 (proj1 (proj2 (proj2 (proj2 (@what_the_signer_sees Sample.unicode text)))) LogRetentionSettings retention (logs "none")
    ltac:(right; left) retention_accepted (logs_snapshot "none")) (logs "bzip2") (logs_snapshot "bzip2") logs_agree).
Defined.

Lemma orchestrated_change_confined_witness :
  (∃ l, sends (c_session (p_core finished)) = l ∧ length l = 1%nat ∧
     own_requests parts (u "SYSTEM_TIMEZONE") (Some context) l) ∧
  call (RetentionRequest request) start = (Ok (without_contract REFUSED), start).
Proof.
  destruct (@orchestrated_change_confined Sample.hash Sample.unicode text SampleCipher.cipher SampleApproval.ed25519 Z (Ledger ())
    SampleWrite.store server_model _ _ _ _ parts (u "SYSTEM_TIMEZONE") runtime [u "/artifacts"] (u "owner") (repeat Byte.x2a 32)
    (λ _ f, mret f) (mret Written) (the_ok _ _) alone) as (_ & _ & Hc).
  split; [|exact refuses].
  destruct (Hc self (TimezoneRequest request) SamplePlan.digest ALIAS_DESCRIPTION_WRITE_STEP_ID CONFIGURATION_CHANGE
    WRITE_PROTECTED HARDWARE_WITNESS (Sample.day 1 10) (Some context) start (Ok verified) finished (the_ok _ _) zone_reachable
    eq_refl zone_runs) as (_ & _ & l & Hl & Ho).
  exists l. split; [exact Hl|]. split; [|exact Ho]. change (sends (c_session (p_core finished)) = l) in Hl. rewrite <-Hl. reflexivity.
Defined.
