(* ===== verification/Restart.v ===== *)
(** * Restarting

    What the constructor of the executor does to a store that was left in
    the middle of things: [reconcile_interrupted] ([tier1/store.py]), run to
    its end. *)

From S2P Require Import Prelude PyStr Sha256 PyDatetime Json Capability StateMachine.
From S2P Require Import Canonical PyJson Contract Evidence StoreCodec Database RatePolicy.
From S2P Require Import AntiRollback Store StoreInv StoreOps StoreProps StoreBehaviour StoreGate.
From S2P Require Import StoreResolve SealedApproval Crypto WriteApi Executor.

Section restart.
Context `{Hash} `{UnicodeData} {E : Type} (cfg : Config E).
Context (Hclock : clock_valid cfg) (Hquiet : quiet cfg).
Context (Hfault : fault_hook cfg = None) (Hutc : ∀ e, is_utc (fst (clock cfg e)) = true).
Implicit Types (m : gmap pystr RecoveryContract) (c cur upd : RecoveryContract) (w : World E).

(** The two tags of the step from [cur] to [upd] can be computed: the
    framed texts are shorter than 2^64 bytes. *)
Definition recordable cur upd : Prop :=
  is_Ok (mac cfg [contract_payload upd]) ∧
  ∀ e, is_Ok (audit_mac cfg (rc_contract_id upd) state_transition (Some (state_value (rc_state cur)))
    (state_value (rc_state upd)) (rc_state_version upd) (isoformat (fst (clock cfg e)))).

Lemma now_runs w : ∃ w', now_ cfg w = (Ok (fst (clock cfg (env w))), w') ∧ db w' = db w.
Proof.
  unfold now_. pose proof (Hutc (env w)) as Hu. destruct (clock cfg (env w)) as [i e]. cbn in *.
  rewrite Hu. by eexists.
Qed.

Lemma fault_runs pt w : invoke_fault cfg pt w = (Ok (), w).
Proof. unfold invoke_fault. by rewrite Hfault. Qed.

Lemma no_later_event m cur row :
  ∀ d, rep cfg d m → m !! rc_contract_id cur = Some cur → a_contract_id row = rc_contract_id cur →
  a_state_version row = (rc_state_version cur + 1)%Z → existsb (same_event_slot row) (t_audit_events d) = false.
Proof.
  intros d Hr Hm Hid Hv. apply not_true_iff_false. rewrite existsb_exists. intros (r & Hin & Hs).
  unfold same_event_slot in Hs. rewrite andb_true_iff, pystr_eqb_eq, Z.eqb_eq in Hs. destruct Hs as [Hi Hver].
  destruct (rep_audit _ _ _ Hr _ _ Hm) as [[Hlen Hl]%check_audit_rows_inv _].
  apply audit_loop_sorted in Hl as [_ Hrange].
  assert (r ∈ events_of (rc_contract_id cur) d) as Hr'.
  { unfold events_of. apply list_elem_of_filter. split; [|by apply list_elem_of_In].
    apply pystr_eqb_eq. congruence. }
  specialize (Hrange r Hr'). lia.
Qed.

Lemma audit_row_runs (row : audit_row) w :
  existsb (same_event_slot row) (t_audit_events (db w)) = false →
  execute_ (λ d, insert_audit_row d row) w =
    (Ok (), mkWorld (set_audit (db w) (t_audit_events (db w) ++ [row])) (env w)).
Proof.
  intros Hs. assert (insert_audit_row (db w) row = Ok (set_audit (db w) (t_audit_events (db w) ++ [row]))) as Hi.
  { unfold insert_audit_row. by rewrite Hs. }
  unfold execute_, Database.execute. by rewrite Hi.
Qed.

Lemma insert_audit_runs cur upd w m :
  rep cfg (db w) m → m !! rc_contract_id cur = Some cur → successor cur upd → recordable cur upd →
  ∀ w1, t_audit_events (db w1) = t_audit_events (db w) →
  ∃ w2, insert_audit cfg upd state_transition (Some (rc_state cur)) w1 = (Ok (), w2).
Proof.
  intros Hr Hm (Hid & Hv & _) [_ Hmac] w1 Hd1. unfold insert_audit.
  destruct (now_runs w1) as (w2 & Hn & Hd2). rewrite (bind_ok _ _ _ _ _ Hn). cbv zeta.
  destruct (Hmac (env w1)) as [tag Htag]. cbn [fmap option_fmap option_map].
  erewrite bind_ok by (unfold lift; by rewrite Htag).
  apply identity_fields in Hid as [Hid _].
  eexists. apply audit_row_runs. rewrite Hd2, Hd1. by apply (no_later_event m cur _ (db w)).
Qed.

(** [_replace] between two states that hold their reservation, neither of
    them terminal, runs to its end. *)
Lemma replace_runs m cur upd w :
  rep cfg (db w) m → m !! rc_contract_id cur = Some cur → successor cur upd → recordable cur upd →
  reserved cur = true → reserved upd = true → blocking cur = true → is_cooldown_state (rc_state upd) = false →
  ∃ w', replace_ cfg cur upd state_transition w = (Ok upd, w').
Proof.
  intros Hr Hm Hs Hrec Hres Hres' Hbl Hcool. destruct (rep_row _ _ _ _ _ Hr Hm) as (tag0 & Ht0 & Hrow).
  destruct (rep_wf _ _ _ Hr _ _ Hm) as [_ Hwf]. destruct Hrec as [[tag Htag] Haud].
  pose proof (identity_fields _ _ (proj1 Hs)) as (E1 & E2 & E3 & E4 & _).
  assert (∃ w', replace_body cfg cur upd state_transition w = (Ok (), w')) as [w1 Hb].
  { unfold replace_body. erewrite bind_ok by (by apply select_quiet). unfold select_contract. rewrite Hrow.
    erewrite bind_ok by (unfold lift; by rewrite decode_row_of).
    erewrite bind_ok by (by eapply verify_related_quiet).
    rewrite state_eqb_refl, Z.eqb_refl. cbn [negb orb].
    unfold reserved in Hres, Hres'. rewrite Hres, Hres'. cbn [negb andb].
    erewrite bind_ok by done. erewrite bind_ok by (unfold lift; by rewrite Htag).
    set (row' := row_of upd tag).
    assert (update_contract (db w) (rc_contract_id upd) (state_value (rc_state cur)) (rc_state_version cur)
      (state_value (rc_state upd)) (rc_state_version upd) (contract_payload upd) tag =
      Ok (1%nat, set_contracts (db w) (<[rc_contract_id cur := row']> (t_contracts (db w))))) as Hup.
    { unfold update_contract. rewrite <-E1, Hrow. cbn [row_of r_state r_state_version r_operation_id
        r_idempotency_key r_target_identity_digest]. rewrite pystr_eqb_refl, Z.eqb_refl. cbn [andb].
      unfold row', row_of. rewrite E2, E3, E4.
      rewrite (proj2 (require_Ok _ _)); [done|]. apply row_allowed_spec. intros id' r' Hr' Hne.
      destruct (rep_row_inv _ _ _ _ _ Hr Hr') as (c' & t' & Hc' & _ & ->).
      cbn [row_of r_operation_id r_idempotency_key r_state]. split.
      - intros Ho. apply Hne. apply (rep_operations _ _ _ Hr id' (rc_contract_id cur) c' cur); congruence.
      - rewrite !is_blocking_value_state. intros _ Hb Hk. apply Hne.
        apply (rep_keys _ _ _ Hr id' (rc_contract_id cur) c' cur); try done; congruence. }
    erewrite bind_ok by (unfold Database.execute; by rewrite Hup). cbn [Nat.eqb negb].
    destruct (insert_audit_runs cur upd w m Hr Hm Hs (conj (ex_intro _ tag Htag) Haud)
      (mkWorld (set_contracts (db w) (<[rc_contract_id cur := row']> (t_contracts (db w)))) (env w)) eq_refl)
      as (w2 & Hw2). rewrite (bind_ok _ _ _ _ _ Hw2). rewrite Hcool.
    erewrite bind_ok by (by destruct (rate_policy cfg)).
    erewrite bind_ok by apply fault_runs. eexists. apply fault_runs. }
  unfold replace_. exists w1.
  assert (conflict_on_integrity_error (_ ← invoke_fault cfg "before_transaction";
    transaction (other_writers cfg) (replace_body cfg cur upd state_transition)) w = (Ok (), w1)) as Hc.
  { unfold conflict_on_integrity_error, catch. erewrite bind_ok by apply fault_runs.
    rewrite transaction_quiet by done. by rewrite Hb. }
  rewrite (bind_ok _ _ _ _ _ Hc). by erewrite bind_ok by apply fault_runs.
Qed.

(** What a restart makes of a contract in flight. *)
Definition reconciled c : RecoveryContract :=
  with_changes c RECONCILIATION (rc_protected_target_identity c) (rc_protected_intent c)
    (rc_protected_snapshot c) (rc_verified_target_fingerprint c).

Definition in_flight c : Prop := rc_state c ∈ [EXECUTING; ROLLING_BACK].

Lemma in_flight_cases c : in_flight c → rc_state c = EXECUTING ∨ rc_state c = ROLLING_BACK.
Proof. unfold in_flight. set_solver. Qed.

Lemma reconciled_new c :
  wf_contract c → in_flight c →
  replace_state c RECONCILIATION (rc_verified_target_fingerprint c) = Ok (reconciled c).
Proof.
  intros [[] _ _ _ _ _ _ _] _. unfold replace_state. apply RecoveryContract_new_Ok. split; [done|].
  split; try done. cbn [with_changes rc_state_version]. lia.
Qed.

Lemma transition_runs m c w :
  rep cfg (db w) m → m !! rc_contract_id c = Some c → in_flight c → recordable c (reconciled c) →
  ∃ w', transition cfg (rc_contract_id c) (rc_state c) (rc_state_version c) RECONCILIATION None state_transition w
          = (Ok (reconciled c), w') ∧ rep cfg (db w') (<[rc_contract_id c := reconciled c]> m).
Proof.
  intros Hr Hm Hfl Hrec. destruct (rep_wf _ _ _ Hr _ _ Hm) as [_ Hwf].
  assert (∃ w', transition cfg (rc_contract_id c) (rc_state c) (rc_state_version c) RECONCILIATION None
    state_transition w = (Ok (reconciled c), w')) as [w' Hw'].
  { unfold transition. erewrite bind_ok by done.
    erewrite bind_ok by (unfold lift; destruct (in_flight_cases c Hfl) as [-> | ->]; reflexivity).
    change (state_eqb RECONCILIATION VERIFIED) with false. change (state_eqb RECONCILIATION ROLLED_BACK) with false.
    cbv iota. erewrite bind_ok by (rewrite (load_quiet cfg Hquiet m) by done; by rewrite Hm).
    rewrite state_eqb_refl, Z.eqb_refl. cbn [negb orb].
    destruct (now_runs w) as (w1 & Hn & Hd1). rewrite (bind_ok _ _ _ _ _ Hn).
    assert (in_states (rc_state c) [PREPARING; PREPARED] = false) as ->
      by (destruct (in_flight_cases c Hfl) as [-> | ->]; done).
    erewrite bind_ok by done. cbn [andb]. change (state_eqb RECONCILIATION EXECUTING) with false. cbv iota.
    erewrite bind_ok by done. erewrite bind_ok by (unfold lift; by rewrite reconciled_new).
    destruct (replace_runs m c (reconciled c) w1) as [w2 H2]; try done.
    - by rewrite Hd1.
    - apply with_changes_successor. right. destruct (in_flight_cases c Hfl) as [-> | ->]; done.
    - unfold reserved. destruct (in_flight_cases c Hfl) as [-> | ->]; done.
    - unfold blocking. destruct (in_flight_cases c Hfl) as [-> | ->]; done.
    - by exists w2. }
  exists w'. split; [done|].
  by destruct (transition_ok cfg m _ _ _ _ _ _ _ _ _ Hclock Hquiet Hr Hw')
    as (_ & _ & _ & _ & _ & _ & _ & _ & _ & _ & _ & _ & _ & _ & _ & Hr').
Qed.

Lemma reconcile_each_runs cs : ∀ m w,
  rep cfg (db w) m → NoDup (rc_contract_id <$> cs) →
  Forall (λ c, m !! rc_contract_id c = Some c ∧ in_flight c ∧ recordable c (reconciled c)) cs →
  ∃ rs w' m', reconcile_each cfg cs w = (Ok rs, w') ∧ rep cfg (db w') m' ∧
    (∀ c, c ∈ cs → m' !! rc_contract_id c = Some (reconciled c)) ∧
    (∀ id, id ∉ rc_contract_id <$> cs → m' !! id = m !! id).
Proof.
  induction cs as [|c cs IH]; intros m w Hr Hnd Hcs.
  { exists [], w, m. split_and!; [done|done|by intros ? ?%elem_of_nil|done]. }
  apply NoDup_cons in Hnd as [Hni Hnd]. apply Forall_cons in Hcs as [(Hm & Hfl & Hrec) Hcs].
  destruct (transition_runs m c w Hr Hm Hfl Hrec) as (w1 & Hw1 & Hr1).
  destruct (IH (<[rc_contract_id c := reconciled c]> m) w1 Hr1 Hnd) as (rs & w2 & m2 & Hw2 & Hr2 & Hin & Hout).
  { apply Forall_forall. intros c' Hc'. rewrite Forall_forall in Hcs. destruct (Hcs c' Hc') as (? & ? & ?).
    split_and!; [|done|done]. rewrite lookup_insert_ne; [done|]. intros Heq. apply Hni. rewrite Heq.
    by apply list_elem_of_fmap_2. }
  exists (reconciled c :: rs), w2, m2. split_and!; [|done| |].
  - cbn [reconcile_each]. rewrite (bind_ok _ _ _ _ _ Hw1), (bind_ok _ _ _ _ _ Hw2). done.
  - intros c' [->|Hc']%elem_of_cons; [|by apply Hin]. rewrite Hout by done. by rewrite lookup_insert_eq.
  - intros id [Hne Hn]%not_elem_of_cons. rewrite Hout by done. by rewrite lookup_insert_ne.
Qed.

(** [all_contracts] lists the tables' contracts, once each. *)
Lemma decode_rows_rep m d rows :
  rep cfg d m → (∀ id r, (id, r) ∈ rows → t_contracts d !! id = Some r) →
  ∃ cs, decode_rows cfg rows = Ok cs ∧ rc_contract_id <$> cs = rows.*1 ∧
        Forall (λ c, m !! rc_contract_id c = Some c) cs.
Proof.
  intros Hr. induction rows as [|[id r] rows IH]; intros Hrows; [by exists []|].
  destruct IH as (cs & Hcs & Hid & Hall); [intros; apply Hrows; by right|].
  assert (t_contracts d !! id = Some r) as Hrow by (apply Hrows; by left).
  destruct (rep_decode _ _ _ _ _ Hr Hrow) as (c & Hc & Hdec). destruct (rep_wf _ _ _ Hr _ _ Hc) as [Ec _].
  exists (c :: cs). cbn [decode_rows]. rewrite Hdec, Hcs. cbn. split_and!; [done|by rewrite Ec, Hid|].
  constructor; [by rewrite Ec|done].
Qed.

Lemma verify_all_quiet m cs w :
  rep cfg (db w) m → Forall (λ c, m !! rc_contract_id c = Some c) cs → verify_all cfg cs w = (Ok (), w).
Proof.
  intros Hr. induction 1 as [|c cs Hc _ IH]; [done|]. cbn [verify_all].
  by erewrite bind_ok by (by eapply verify_related_quiet).
Qed.

Lemma all_contracts_quiet m w :
  rep cfg (db w) m → ∃ cs, all_contracts cfg w = (Ok cs, w) ∧ NoDup (rc_contract_id <$> cs) ∧
    ∀ c, c ∈ cs ↔ m !! rc_contract_id c = Some c.
Proof.
  intros Hr. destruct (decode_rows_rep m (db w) (select_all_contracts (db w)) Hr) as (cs & Hcs & Hid & Hall).
  { intros id r. by rewrite select_all_elem. }
  exists cs. split_and!.
  - unfold all_contracts. erewrite bind_ok by (by apply select_quiet).
    erewrite bind_ok by (unfold lift; by rewrite Hcs). by erewrite bind_ok by (by eapply verify_all_quiet).
  - rewrite Hid. unfold select_all_contracts. rewrite sort_items_perm. apply NoDup_fst_map_to_list.
  - intros c. split; [intros Hc; by rewrite Forall_forall in Hall; apply Hall|]. intros Hm.
    destruct (rep_row _ _ _ _ _ Hr Hm) as (tag & _ & Hrow).
    assert (rc_contract_id c ∈ rc_contract_id <$> cs) as Hin.
    { rewrite Hid. apply list_elem_of_fmap. exists (rc_contract_id c, row_of c tag). split; [done|].
      by apply select_all_elem. }
    apply list_elem_of_fmap in Hin as (c' & Hc' & Hin). rewrite Forall_forall in Hall. specialize (Hall _ Hin).
    rewrite <-Hc' in Hall. by simplify_eq.
Qed.

Lemma reconcile_interrupted_runs m w :
  rep cfg (db w) m → (∀ id c, m !! id = Some c → in_flight c → recordable c (reconciled c)) →
  ∃ rs w' m', reconcile_interrupted cfg w = (Ok rs, w') ∧ rep cfg (db w') m' ∧
    ∀ id, m' !! id = (λ c, if bool_decide (in_flight c) then reconciled c else c) <$> m !! id.
Proof.
  intros Hr Hrec. destruct (all_contracts_quiet m w Hr) as (cs & Hall & Hnd & Hcs).
  set (fl := filter (λ c, in_states (rc_state c) INTERRUPTED_STATES = true) cs).
  assert (∀ c, c ∈ fl ↔ in_flight c ∧ m !! rc_contract_id c = Some c) as Hfl.
  { intros c. unfold fl. rewrite list_elem_of_filter, in_states_eq, Hcs. done. }
  destruct (reconcile_each_runs fl m w Hr) as (rs & w' & m' & Hw' & Hr' & Hin & Hout).
  { eapply sublist_NoDup; [exact Hnd|]. apply fmap_sublist. unfold fl. clear. induction cs as [|c cs IH]; [constructor|].
    rewrite filter_cons. case_decide; by constructor. }
  { apply Forall_forall. intros c [Hf Hm]%Hfl. split_and!; [done|done|]. by eapply Hrec. }
  exists rs, w', m'. split_and!; [|done|].
  - unfold reconcile_interrupted, interrupted.
    erewrite bind_ok by (by erewrite bind_ok by exact Hall). exact Hw'.
  - intros id. destruct (m !! id) as [c|] eqn:Hm.
    + destruct (rep_wf _ _ _ Hr _ _ Hm) as [Eid _]. cbn. case_bool_decide as Hf.
      * rewrite <-Eid. apply Hin, Hfl. by rewrite Eid.
      * rewrite Hout; [done|]. intros (c' & Ec & [Hf' Hm']%Hfl)%list_elem_of_fmap. subst id. congruence.
    + rewrite Hout; [done|]. intros (c' & -> & [_ Hm']%Hfl)%list_elem_of_fmap. congruence.
Qed.
End restart.

(** [C5] Restarting recovers.  Constructing the executor over any history of
    a store no other process writes to, with an aware clock and no fault
    hook, returns normally and sends nothing to the device: exactly the
    contracts that were EXECUTING or ROLLING_BACK become RECONCILIATION,
    one version later and otherwise unchanged, every other contract is the
    same contract, and no contract is left in flight. *)
Theorem restart_reconciles `{Hash} `{UnicodeData} {E Raw Request} (x : MutationExecutor E Raw Request)
    (s : Session E) :
  let cfg := x_store x in
  clock_valid cfg → quiet cfg → fault_hook cfg = None → (∀ e, is_utc (fst (clock cfg e)) = true) →
  reachable cfg (world s) →
  (∀ c, stored cfg (world s) c → in_flight c → recordable cfg c (reconciled c)) →
  ∃ s', MutationExecutor_init x s = (Ok (), s') ∧ sends s' = sends s ∧
    (∀ c, stored cfg (world s) c →
       stored cfg (world s') (if bool_decide (in_flight c) then reconciled c else c)) ∧
    (∀ id r, t_contracts (db (world s')) !! id = Some r → r_state r ∉ [state_value EXECUTING; state_value ROLLING_BACK]) ∧
    dom (t_contracts (db (world s'))) = dom (t_contracts (db (world s))).
Proof.
  intros cfg Hc Hq Hf Hutc Hw Hrec. destruct (reachable_rep cfg Hc (quiet_others_behave cfg Hq) _ Hw) as [m Hr].
  destruct (reconcile_interrupted_runs cfg Hc Hq Hf Hutc m (world s) Hr) as (rs & w' & m' & Hrun & Hr' & Hm').
  { intros id c Hm Hfl. apply Hrec; [|done]. apply (stored_lookup cfg m); [done..|].
    by destruct (rep_wf _ _ _ Hr _ _ Hm) as [-> _]. }
  exists (mkSession w' (sends s)). split_and!; [|done| | |].
  - unfold MutationExecutor_init, mbind, prog_bind, on_store. fold cfg. by rewrite Hrun.
  - intros c Hst. apply (stored_lookup cfg m) in Hst; [|done..]. apply (stored_lookup cfg m'); [done..|].
    assert (rc_contract_id (if bool_decide (in_flight c) then reconciled c else c) = rc_contract_id c) as ->
      by (by case_bool_decide).
    by rewrite Hm', Hst.
  - intros id r Hrow. destruct (rep_row_inv _ _ _ _ _ Hr' Hrow) as (c & tag & Hm & _ & ->).
    rewrite Hm' in Hm. apply fmap_Some in Hm as (c0 & _ & ->). case_bool_decide as Hfl.
    + change (state_value RECONCILIATION ∉ state_value <$> [EXECUTING; ROLLING_BACK]). vm_compute. set_solver.
    + cbn [row_of r_state]. change (state_value (rc_state c0) ∉ state_value <$> [EXECUTING; ROLLING_BACK]).
      intros (st & Est & Hin)%list_elem_of_fmap. apply state_value_inj in Est. by subst st.
  - apply set_eq. intros id. rewrite !elem_of_dom.
    pose proof (rep_rows _ _ _ Hr id) as R. pose proof (rep_rows _ _ _ Hr' id) as R'. rewrite Hm' in R'.
    cbn [world]. destruct (t_contracts (db (world s)) !! id), (t_contracts (db w') !! id), (m !! id);
      cbn in *; try done; split; by intros [? ?].
Qed.
