(* ===== verification/Rotation.v ===== *)
(** * Key rotation

    [rotate_key] of [tier1/key_lifecycle.py]: every stored contract's
    artifacts re-encrypted under a new key, one compare-and-set per
    contract.  The two callables are parameters; they may draw nonces or
    fail. *)

From S2P Require Import Prelude PyStr Sha256 PyDatetime Json Capability StateMachine.
From S2P Require Import Canonical PyJson Contract Evidence StoreCodec Database RatePolicy.
From S2P Require Import AntiRollback Store StoreInv StoreOps StoreProps StoreBehaviour StoreGate.
From S2P Require Import StoreResolve SealedApproval Crypto WriteApi Executor Restart.

(** [RotationReport] *)
Record RotationReport : Type := {
  rotated_contract_ids : list pystr; already_rotated_contract_ids : list pystr }.

Section rotation.
Context `{Hash} `{UnicodeData} {E : Type} (cfg : Config E).
Context (new_key_id : pystr) (decrypt_ : ProtectedArtifact → prog E bytes) (encrypt_ : bytes → prog E ProtectedArtifact).
Implicit Types (m : gmap pystr RecoveryContract) (c cur upd : RecoveryContract) (w : World E).

(** [encrypt(decrypt(artifact))] *)
Definition reencrypt (a : ProtectedArtifact) : prog (World E) ProtectedArtifact :=
  plaintext ← env_call (decrypt_ a);
  env_call (encrypt_ plaintext).

Definition already_rotated c : bool := pystr_eqb (pa_key_id (rc_protected_intent c)) new_key_id.

(** The loop, with the identifiers collected so far. *)
Fixpoint rotate_each (contracts : list RecoveryContract) (rotated already : list pystr)
    : prog (World E) RotationReport :=
  match contracts with
  | [] => mret {| rotated_contract_ids := rotated; already_rotated_contract_ids := already |}
  | contract :: contracts =>
    if already_rotated contract then rotate_each contracts rotated (already ++ [rc_contract_id contract]) else
    target_identity ← reencrypt (rc_protected_target_identity contract);
    intent ← reencrypt (rc_protected_intent contract);
    snapshot ← reencrypt (rc_protected_snapshot contract);
    _ ← rotate_artifacts cfg (rc_contract_id contract) (rc_state_version contract) target_identity intent snapshot;
    rotate_each contracts (rotated ++ [rc_contract_id contract]) already
  end.

Definition rotate_key : prog (World E) RotationReport :=
  contracts ← all_contracts cfg;
  rotate_each contracts [] [].

(** ** What a rotation does *)

Context (Hclock : clock_valid cfg) (Hquiet : quiet cfg).
(** The encrypting callable makes well-formed artifacts of the new key. *)
Context (Hencrypt : ∀ p e a, fst (encrypt_ p e) = Ok a → wf_artifact a ∧ pa_key_id a = new_key_id).

(** [b] is [a], decrypted and encrypted again. *)
Definition reencrypted (a b : ProtectedArtifact) : Prop :=
  ∃ p e e', fst (decrypt_ a e) = Ok p ∧ fst (encrypt_ p e') = Ok b.

Lemma reencrypt_inv a w b w' :
  reencrypt a w = (Ok b, w') → db w' = db w ∧ reencrypted a b ∧ wf_artifact b ∧ pa_key_id b = new_key_id.
Proof.
  unfold reencrypt, mbind, prog_bind, env_call. destruct (decrypt_ a (env w)) as [[p|x] e] eqn:Hd; [|done].
  cbn [env db]. destruct (encrypt_ p e) as [r e'] eqn:He. intros [= -> <-]. split; [done|].
  assert (fst (encrypt_ p e) = Ok b) as He' by (by rewrite He). split; [|by eapply Hencrypt].
  exists p, (env w), e. by rewrite Hd.
Qed.

(** The contract after its rotation. *)
Definition rotation_of c c' : Prop :=
  successor c c' ∧ rc_state c' = rc_state c ∧
  reencrypted (rc_protected_target_identity c) (rc_protected_target_identity c') ∧
  reencrypted (rc_protected_intent c) (rc_protected_intent c') ∧
  reencrypted (rc_protected_snapshot c) (rc_protected_snapshot c') ∧
  already_rotated c' = true.

Lemma rotate_artifacts_ok m c ti int snap w r w' :
  rep cfg (db w) m → m !! rc_contract_id c = Some c → wf_artifact ti → wf_artifact int → wf_artifact snap →
  rotate_artifacts cfg (rc_contract_id c) (rc_state_version c) ti int snap w = (Ok r, w') →
  r = with_changes c (rc_state c) ti int snap (rc_verified_target_fingerprint c) ∧
  successor c r ∧ rep cfg (db w') (<[rc_contract_id c := r]> m).
Proof.
  intros Hr Hm Hti Hint Hsn Hp. unfold rotate_artifacts in Hp.
  apply bind_inv in Hp as (c0 & w1 & Hl & Hp). apply (load_ok cfg m) in Hl as [-> Hm']; [|done..].
  rewrite Hm in Hm'. injection Hm' as <-. destruct (negb _) in Hp; [done|].
  apply bind_inv in Hp as (upd & w1 & [Hupd ->]%lift_inv & Hp).
  destruct (rep_wf _ _ _ Hr _ _ Hm) as [_ Hwf]. apply with_changes_wf in Hupd as [-> Hwf']; [|done..].
  set (upd := with_changes _ _ _ _ _ _) in *.
  assert (successor c upd) as Hsuc by (apply with_changes_successor; by left).
  by apply (replace_ok cfg m) in Hp as (-> & Hr' & _).
Qed.

(** What the loop does to the tables and to the report. *)
Lemma rotate_each_ok cs : ∀ m w ro al rep' w',
  rep cfg (db w) m → NoDup (rc_contract_id <$> cs) → (∀ c, c ∈ cs → m !! rc_contract_id c = Some c) →
  rotate_each cs ro al w = (Ok rep', w') →
  rotated_contract_ids rep' = ro ++ (rc_contract_id <$> filter (λ c, already_rotated c = false) cs) ∧
  already_rotated_contract_ids rep' = al ++ (rc_contract_id <$> filter (λ c, already_rotated c = true) cs) ∧
  ∃ m', rep cfg (db w') m' ∧
    (∀ c, c ∈ cs → if already_rotated c then m' !! rc_contract_id c = Some c
       else ∃ c', m' !! rc_contract_id c = Some c' ∧ rotation_of c c') ∧
    (∀ id, id ∉ rc_contract_id <$> cs → m' !! id = m !! id).
Proof.
  induction cs as [|c cs IH]; intros m w ro al rp w' Hr Hnd Hcs Hp.
  { injection Hp as <- <-. cbn. rewrite !app_nil_r. split_and!; [done|done|]. exists m.
    split_and!; [done|by intros ? ?%elem_of_nil|done]. }
  apply NoDup_cons in Hnd as [Hni Hnd]. cbn [rotate_each] in Hp. rewrite !filter_cons.
  assert (m !! rc_contract_id c = Some c) as Hm by (apply Hcs; by left).
  destruct (already_rotated c) eqn:Hal.
  - rewrite decide_False, decide_True by done. cbn [fmap list_fmap].
    destruct (IH m w _ _ _ _ Hr Hnd (λ c' Hc', Hcs c' (list_elem_of_further _ _ _ Hc')) Hp)
      as (H1 & H2 & m' & Hr' & Hin & Hout).
    rewrite <-app_assoc in H2. split_and!; [done|done|]. exists m'. split_and!; [done| |].
    + intros c' [->|Hc']%elem_of_cons; [|by apply Hin]. rewrite Hal. by rewrite Hout.
    + intros id [_ Hn]%not_elem_of_cons. by apply Hout.
  - rewrite decide_True, decide_False by done. cbn [fmap list_fmap].
    apply bind_inv in Hp as (ti & w1 & (Hd1 & Eti & Wti & _)%reencrypt_inv & Hp).
    apply bind_inv in Hp as (int & w2 & (Hd2 & Eint & Wint & Kint)%reencrypt_inv & Hp).
    apply bind_inv in Hp as (snap & w3 & (Hd3 & Esn & Wsn & _)%reencrypt_inv & Hp).
    apply bind_inv in Hp as (r & w4 & Hrot & Hp).
    apply (rotate_artifacts_ok m) in Hrot as (Er & Hsuc & Hr4); [|by rewrite Hd3, Hd2, Hd1|done..].
    assert (∀ c', c' ∈ cs → <[rc_contract_id c := r]> m !! rc_contract_id c' = Some c') as Hcs'.
    { intros c' Hc'. rewrite lookup_insert_ne; [apply Hcs; by right|]. intros Eq. apply Hni. rewrite Eq.
      by apply list_elem_of_fmap_2. }
    destruct (IH _ w4 _ _ _ _ Hr4 Hnd Hcs' Hp) as (H1 & H2 & m' & Hr' & Hin & Hout).
    rewrite <-app_assoc in H1. split_and!; [done|done|]. exists m'. split_and!; [done| |].
    + intros c' [->|Hc']%elem_of_cons; [|by apply Hin]. rewrite Hal. exists r. split.
      * rewrite Hout by done. by rewrite lookup_insert_eq.
      * subst r. split_and!; try done. unfold already_rotated. cbn [with_changes rc_protected_intent].
        by rewrite Kint, pystr_eqb_refl.
    + intros id [Hne Hn]%not_elem_of_cons. rewrite Hout by done. by rewrite lookup_insert_ne.
Qed.

(** A run with nothing left to rotate. *)
Lemma rotate_each_done cs : ∀ ro al w,
  Forall (λ c, already_rotated c = true) cs →
  rotate_each cs ro al w = (Ok {| rotated_contract_ids := ro;
    already_rotated_contract_ids := al ++ (rc_contract_id <$> cs) |}, w).
Proof.
  induction cs as [|c cs IH]; intros ro al w Hcs; [by rewrite app_nil_r|].
  apply Forall_cons in Hcs as [Hc Hcs]. cbn [rotate_each]. rewrite Hc, IH by done. by rewrite <-app_assoc.
Qed.

(** Rotation is complete and resumable.  When [rotate_key] returns over
    a reachable store, every stored contract is either listed as already
    rotated and unchanged, or listed as rotated and stored one version
    later in the same state, each of its three artifacts the old one
    decrypted and encrypted again; no contract is left under another key,
    and running it again reports all of them already rotated and changes
    nothing. *)
Theorem rotation_complete w report w' :
  reachable cfg w → rotate_key w = (Ok report, w') →
  (∀ c, stored cfg w c → if already_rotated c
     then rc_contract_id c ∈ already_rotated_contract_ids report ∧ stored cfg w' c
     else rc_contract_id c ∈ rotated_contract_ids report ∧ ∃ c', stored cfg w' c' ∧ rotation_of c c') ∧
  (∀ c', stored cfg w' c' → already_rotated c' = true) ∧
  ∃ ids, rotate_key w' = (Ok {| rotated_contract_ids := []; already_rotated_contract_ids := ids |}, w').
Proof.
  intros Hw Hp. destruct (reachable_rep cfg Hclock (quiet_others_behave cfg Hquiet) w Hw) as [m Hr].
  destruct (all_contracts_quiet cfg Hquiet m w Hr) as (cs & Hall & Hnd & Hcs).
  unfold rotate_key in Hp at 1. rewrite (bind_ok _ _ _ _ _ Hall) in Hp.
  destruct (rotate_each_ok cs m w [] [] report w' Hr Hnd (λ c Hc, proj1 (Hcs c) Hc) Hp)
    as (Hro & Hal & m' & Hr' & Hin & Hout). cbn [app] in Hro, Hal.
  assert (∀ c', stored cfg w' c' → already_rotated c' = true) as Hnew.
  { intros c' Hst. apply (stored_lookup cfg m' _ _ Hquiet Hr') in Hst.
    destruct (decide (rc_contract_id c' ∈ rc_contract_id <$> cs)) as [Hi|Hn].
    - apply list_elem_of_fmap in Hi as (c & Ec & Hc). specialize (Hin c Hc). rewrite <-Ec in Hin.
      destruct (already_rotated c) eqn:Ea; [congruence|]. destruct Hin as (c1 & Hc1 & Hrot).
      assert (c1 = c') as -> by congruence. by apply Hrot.
    - exfalso. apply Hn. rewrite Hout in Hst by done. apply list_elem_of_fmap. exists c'. split; [done|].
      by apply Hcs. }
  split_and!; [|exact Hnew|].
  - intros c Hst. apply (stored_lookup cfg m _ _ Hquiet Hr), Hcs in Hst. specialize (Hin c Hst).
    destruct (already_rotated c) eqn:Ea; [rewrite Hal|rewrite Hro]; split.
    + apply list_elem_of_fmap_2, list_elem_of_filter. by split.
    + by apply (stored_lookup cfg m' _ _ Hquiet Hr').
    + apply list_elem_of_fmap_2, list_elem_of_filter. by split.
    + destruct Hin as (c' & Hc' & Hrot). exists c'. split; [|done]. apply (stored_lookup cfg m' _ _ Hquiet Hr').
      destruct Hrot as ((Hid & _) & _). apply identity_fields in Hid as [Hid _]. by rewrite <-Hid.
  - destruct (all_contracts_quiet cfg Hquiet m' w' Hr') as (cs' & Hall' & _ & Hcs').
    exists (rc_contract_id <$> cs'). unfold rotate_key. rewrite (bind_ok _ _ _ _ _ Hall').
    apply (rotate_each_done cs' [] []), Forall_forall. intros c Hc. apply Hnew.
    by apply (stored_lookup cfg m' _ _ Hquiet Hr'), Hcs'.
Qed.
End rotation.
