(* ===== verification/ExecutorHistory.v ===== *)
(** * Histories of an executor

    Executions, rollbacks, restarts, store calls and crashes in any order,
    over any adapters, networks and clocks. *)

From S2P Require Import Prelude PyStr Sha256 PyDatetime Json Capability StateMachine.
From S2P Require Import Canonical PyJson Contract Evidence StoreCodec Database RatePolicy.
From S2P Require Import AntiRollback Store StoreInv StoreOps StoreProps StoreBehaviour StoreGate.
From S2P Require Import StoreResolve SealedApproval Crypto WriteApi Executor ExecutorInv ExecutorProps.

(** From EXECUTING on, no state from which an execution could start. *)
Definition past_execution (s : RecoveryState) : Prop := s ∉ [PREPARING; PREPARED].

Lemma executing_past : past_execution EXECUTING.
Proof. unfold past_execution. rewrite !elem_of_cons, elem_of_nil. naive_solver. Qed.

Lemma past_edge s t : past_execution s → edge true s t → past_execution t.
Proof.
  unfold past_execution, edge. intros Hs He Ht. rewrite !elem_of_cons, elem_of_nil in Ht.
  destruct Ht as [-> |[-> |[]]]; destruct s; try done; apply Hs; in_list.
Qed.

Lemma past_reach s t : past_execution s → reach s t → past_execution t.
Proof.
  intros Hs Hr. induction Hr as [|s u t [->|He] _ IH]; [done|by apply IH|]. apply IH. by eapply past_edge.
Qed.

Section history.
Context `{Hash} `{UnicodeData} `{AESGCM} `{Ed25519} {E Raw Request : Type}.
Context (x : MutationExecutor E Raw Request).
Implicit Types (m : gmap pystr RecoveryContract) (s : Session E) (y : Send).
Implicit Types adapter : CapabilityAdapter E Raw Request.

(** One step, with the forward requests it made, each under the contract it
    was made for.  [step_killed] is a process that dies once its request is
    out: the tables stay as they were committed at that moment.  An
    observation is a [step_env]. *)
Inductive session_step : Session E → list (pystr * Send) → Session E → Prop :=
  | step_call k s :
    call_ok k → session_step s [] (mkSession (snd (run_call (x_store x) k (world s))) (sends s))
  | step_env e s : session_step s [] (mkSession (mkWorld (db (world s)) e) (sends s))
  | step_restart s : session_step s [] (snd (MutationExecutor_init x s))
  | step_execute adapter id intent ctx l s s' :
    s' = snd (execute x id adapter intent ctx s) → sends s' = sends s ++ l →
    session_step s (map (pair id) l) s'
  | step_killed adapter id intent ctx y e s s' :
    s' = snd (execute x id adapter intent ctx s) → sends s' = sends s ++ [y] →
    session_step s [(id, y)] (mkSession (mkWorld (sent_tables y) e) (sends s'))
  | step_rollback adapter id s : session_step s [] (snd (rollback x id adapter s)).

Inductive session_trace : Session E → list (pystr * Send) → Session E → Prop :=
  | trace_nil s : session_trace s [] s
  | trace_snoc s t s1 l s2 : session_trace s t s1 → session_step s1 l s2 → session_trace s (t ++ l) s2.

Context (Hclock : clock_valid (x_store x)) (Hquiet : quiet (x_store x)).

(** Every contract with a request in [t] is past its execution. *)
Definition spent (t : list (pystr * Send)) m : Prop :=
  ∀ id, id ∈ t.*1 → ∃ c, m !! id = Some c ∧ past_execution (rc_state c).

Lemma spent_evolves t m m' : spent t m → evolves m m' → spent t m'.
Proof.
  intros Hs He id Hid. destruct (Hs id Hid) as (c & Hc & Hp). destruct (He id c Hc) as (c' & Hc' & _ & Hr & _).
  exists c'. split; [done|]. by eapply past_reach.
Qed.

(** One execution: without a request the tables evolved; with one they
    evolved through EXECUTING, where the request was made. *)
Lemma execute_evolves adapter id intent ctx s l m :
  let s' := snd (execute x id adapter intent ctx s) in
  rep (x_store x) (db (world s)) m → sends s' = sends s ++ l →
  ∃ m', rep (x_store x) (db (world s')) m' ∧ evolves m m' ∧
    (l = [] ∨ ∃ y cur ex, l = [y] ∧ m !! id = Some cur ∧ rc_state cur = PREPARED ∧ successor cur ex ∧
       rc_state ex = EXECUTING ∧ rep (x_store x) (sent_tables y) (<[id := ex]> m) ∧ evolves (<[id := ex]> m) m').
Proof.
  intros s' Hr Hl. subst s'.
  destruct (wp_execute x adapter Hclock Hquiet m id intent ctx s Hr)
    as [(Hs & _ & m' & Hr' & He)|[(Hs & cur & c' & o & Hm & _ & _ & _ & Hr' & _ & _ & Hsuc)
       |(cur & ex & d & ti & Hm & Hg & _ & Hsuc & _ & Hst & Hrd & l1 & m' & Hl1 & Hr' & He & Hlen & HK & _)]].
  - exists m'. split_and!; [done|done|]. left. by apply (app_inv_head (sends s)); rewrite app_nil_r, <-Hl, Hs.
  - exists (<[id := c']> m). split_and!; [done|by eapply evolves_insert|]. left.
    by apply (app_inv_head (sends s)); rewrite app_nil_r, <-Hl, Hs.
  - exists m'. rewrite Hl in Hl1. apply app_inv_head in Hl1 as <-. split_and!; [done| |].
    + etrans; [|exact He]. by eapply evolves_insert.
    + destruct l as [|y [|]]; [by left| |simpl in Hlen; lia]. right. rewrite Forall_singleton in HK.
      exists y, cur, ex. destruct HK as (Hd & _). rewrite Hd. split_and!; try done. by destruct Hg.
Qed.

(** What one step does to the tables, and for which contract it sent. *)
Lemma step_evolves s l s' m :
  rep (x_store x) (db (world s)) m → session_step s l s' →
  ∃ m', rep (x_store x) (db (world s')) m' ∧ evolves m m' ∧
    (l = [] ∨ ∃ id y cur c, l = [(id, y)] ∧ m !! id = Some cur ∧ rc_state cur = PREPARED ∧
       m' !! id = Some c ∧ past_execution (rc_state c)).
Proof.
  assert (others_behave (x_store x)) as Ho by (by apply quiet_others_behave).
  intros Hr Hs. destruct Hs as [k s Hk|e s|s|adapter id intent ctx l s s' -> Hl|adapter id intent ctx y e s s' -> Hl|adapter id s].
  - destruct (holds_run_call (x_store x) Hclock Ho m k Hk (world s) Hr) as (m' & Hr' & He & _). exists m'. auto.
  - exists m. split; [done|]. split; [reflexivity|by left].
  - destruct (holds_reconcile_interrupted (x_store x) Hclock Ho m (world s) Hr) as (m' & Hr' & He & _). exists m'.
    split; [|auto]. unfold MutationExecutor_init, mbind, prog_bind, on_store.
    by destruct (reconcile_interrupted (x_store x) (world s)) as [[]].
  - destruct (execute_evolves adapter id intent ctx s l m Hr Hl)
      as (m' & Hr' & He & [->|(y & cur & ex & -> & Hm & Hp & _ & Hst & _ & He')]); exists m'.
    { by auto. }
    split_and!; [done|done|]. right. destruct (He' id ex) as (c & Hc & _ & Hreach & _); [by rewrite lookup_insert_eq|].
    exists id, y, cur, c. split_and!; try done. eapply past_reach; [|exact Hreach]. rewrite Hst. apply executing_past.
  - destruct (execute_evolves adapter id intent ctx s [y] m Hr Hl)
      as (m' & _ & _ & [?|(y' & cur & ex & [= <-] & Hm & Hp & Hsuc & Hst & Hrd & _)]); [done|].
    exists (<[id := ex]> m). split_and!; [done|by eapply evolves_insert|]. right.
    exists id, y, cur, ex. rewrite lookup_insert_eq, Hst. split_and!; try done. apply executing_past.
  - destruct (wp_rollback x adapter Hclock Hquiet m id s Hr)
      as [(_ & _ & m' & Hr' & He)|(cur & rb & d & Hm & _ & Hsuc & _ & _ & _ & m' & _ & Hr' & He & _)]; exists m'; [by auto|].
    split_and!; [done| |by left]. etrans; [|exact He]. by eapply evolves_insert.
Qed.

Lemma trace_spent s t s' m :
  rep (x_store x) (db (world s)) m → session_trace s t s' →
  ∃ m', rep (x_store x) (db (world s')) m' ∧ spent t m' ∧ NoDup (t.*1).
Proof.
  intros Hr. induction 1 as [s|s t s1 l s2 _ IH Hstep].
  { exists m. split_and!; [done|by intros id Hid%elem_of_nil|constructor]. }
  destruct (IH Hr) as (m1 & Hr1 & Hsp & Hnd). destruct (step_evolves s1 l s2 m1 Hr1 Hstep)
    as (m2 & Hr2 & He & Hcase). exists m2. pose proof (spent_evolves _ _ _ Hsp He) as Hsp2.
  split; [done|]. destruct Hcase as [->|(id & y & cur & c & -> & Hm & Hp & Hc & Hpast)]; [by rewrite app_nil_r|].
  unfold spent. rewrite fmap_app. split.
  - intros id' [Hin|Hin]%elem_of_app; [by apply Hsp2|]. apply list_elem_of_singleton in Hin as ->. by exists c.
  - apply NoDup_app. split_and!; [done| |apply NoDup_singleton]. intros id' Hin ->%list_elem_of_singleton.
    destruct (Hsp id Hin) as (c0 & Hm' & Hno). assert (c0 = cur) as -> by congruence. apply Hno. rewrite Hp. in_list.
Qed.

(** [C3] A change is requested at most once.  In any history of executions
    with any adapters and intents, rollbacks, restarts, store calls and
    processes killed after their request, the forward requests handed to
    the network belong to pairwise different contracts, however the replies
    were lost; and a contract whose request went out is never again in a
    state from which an execution starts. *)
Theorem change_requested_once s t s' :
  reachable (x_store x) (world s) → session_trace s t s' →
  NoDup (t.*1) ∧
  ∀ id y, (id, y) ∈ t → ∃ row, t_contracts (db (world s')) !! id = Some row ∧
    r_state row ∉ state_value <$> [PREPARING; PREPARED].
Proof.
  intros Hw Ht. destruct (reachable_rep _ Hclock (quiet_others_behave _ Hquiet) _ Hw) as [m Hr].
  destruct (trace_spent s t s' m Hr Ht) as (m' & Hr' & Hsp & Hnd). split; [done|]. intros id y Hin.
  destruct (Hsp id) as (c & Hc & Hp); [by apply list_elem_of_fmap; exists (id, y)|].
  destruct (rep_row _ _ _ _ _ Hr' Hc) as (tag & _ & Hrow). exists (row_of c tag). split; [done|].
  cbn [row_of r_state]. intros (st & Est & Hst)%list_elem_of_fmap. apply state_value_inj in Est as <-. by apply Hp.
Qed.
End history.
