(* ===== verification/ExecutorWitness.v ===== *)
(** * A concrete executor

    One device with one alias, a capability adapter for its description and
    an HTTP transport, driven through an execution and a rollback; the
    theorems of [ExecutorProps.v] and [Restart.v] applied there. *)

From S2P Require Import Prelude PyStr Sha256 PyDatetime Json Capability StateMachine Canonical.
From S2P Require Import PyJson Contract Evidence StoreCodec Database RatePolicy AntiRollback Store.
From S2P Require Import StoreInv StoreOps StoreProps StoreBehaviour StoreGate StoreResolve StoreWitness.
From S2P Require Import SealedApproval Crypto WriteApi Executor ExecutorInv ExecutorProps Restart Rotation ExecutorHistory.

Module SampleExecutor.
#[export] Existing Instances Sample.hash Sample.unicode SampleCipher.cipher SampleEvidence.ed25519.
Import SampleStore.

(** The environment is the device: 0 when the alias has its old
    description, 1 when it has the new one. *)
Definition alias (descr : pyobj) : pyobj :=
  pdict [("id", PInt 3); ("name", PStr (u "lan_hosts")); ("descr", descr)].
Definition old : pyobj := PStr (u "old").
Definition new : pyobj := PStr (u "new").
Definition alias_of (device : Z) : pyobj := alias (if (device =? 0)%Z then old else new).

Definition str_eqb (v w : pyobj) : bool :=
  match v, w with PStr s, PStr t => pystr_eqb s t | _, _ => false end.
Definition has_key (keys : list string) (k : pyobj) : bool := existsb (λ n, str_eqb k (PStr (u n))) keys.
Definition fields (raw : pyobj) (keys : list string) : result pyobj :=
  match raw with
  | PDict kvs => Ok (PDict (filter (λ kv, has_key keys (fst kv) = true) kvs))
  | _ => Raise ValueError
  end.
Definition description (raw : pyobj) : option pyobj :=
  match raw with PDict kvs => match dict_get (u "descr") kvs with Ok d => Some d | _ => None end | _ => None end.

Definition same_description (v w : pyobj) : bool :=
  match description v, description w with Some s, Some t => str_eqb s t | _, _ => false end.

Definition adapter : CapabilityAdapter Z pyobj pyobj := {|
  ad_endpoint_symbol := u "FIREWALL_ALIAS_DESCRIPTION"; ad_http_method := u "PATCH";
  ad_capability := FIREWALL_WRITE;
  read_target _ := λ device, (Ok (alias_of device), device);
  natural_identity raw := fields raw ["id"; "name"];
  fingerprint raw := fields raw ["id"; "descr"];
  transport_locator raw := match raw with PDict ((_, PInt i) :: _) => Ok i | _ => Raise ValueError end;
  build_request intent _ := Ok (description intent);
  parse_response _ := Ok ();
  is_semantically_verified _ post intent := Ok (same_description post intent);
  build_rollback_request snapshot _ := Ok (description snapshot);
  is_rollback_verified snapshot post := Ok (same_description post snapshot) |}.

Definition get {A} (d : A) (r : result A) : A := match r with Ok a => a | Raise _ => d end.
Definition intent_fields : list (pyobj * pyobj) :=
  [(PStr (u "raw_target_hint"), alias old); (PStr (u "descr"), new)].
Definition intent : pyobj := PDict intent_fields.
Definition identity : pyobj := Eval vm_compute in get PNone (natural_identity adapter (alias old)).
Definition precondition : pyobj := Eval vm_compute in get PNone (fingerprint adapter (alias old)).

Definition context : list pystr :=
  [capability_name FIREWALL_WRITE; ad_endpoint_symbol adapter; ad_http_method adapter].
Definition target_digest : pystr := Eval vm_compute in
  get [] (digest_value TARGET_IDENTITY identity [capability_name FIREWALL_WRITE]).
Definition fingerprint_digest : pystr := Eval vm_compute in
  get [] (digest_value TARGET_FINGERPRINT precondition context).
Definition intent_digest : pystr := Eval vm_compute in get [] (digest_value INTENT intent context).
Definition snapshot_digest : pystr := Eval vm_compute in get [] (digest_value SNAPSHOT (alias old) context).

(** What the capability encrypts: the canonical JSON of each role's value. *)
Definition sealed (role : ArtifactRole) (v : pyobj) (c : RecoveryContract) : ProtectedArtifact :=
  get Sample.artifact
    (b ← canonical_json v;
     encrypt_artifact SampleCipher.key (u "key-1") (rc_contract_id c) role b SampleCipher.nonce).

Definition unsealed : RecoveryContract :=
  mk_RecoveryContract (u "c1") (u "o1")
    (get [] (derive_idempotency_key FIREWALL_WRITE (ad_endpoint_symbol adapter) (ad_http_method adapter)
       target_digest fingerprint_digest 3 intent_digest snapshot_digest (u "v1")))
    FIREWALL_WRITE HIGH_ASSURANCE_TIER1 (ad_endpoint_symbol adapter) (ad_http_method adapter)
    target_digest fingerprint_digest 3 intent_digest snapshot_digest (u "v1") (Sample.day 1 0) (Sample.day 2 0)
    PREPARING 0 Sample.artifact Sample.artifact Sample.artifact None None None None.
Definition contract : RecoveryContract := Eval vm_compute in
  mk_RecoveryContract (rc_contract_id unsealed) (rc_operation_id unsealed) (rc_idempotency_key unsealed)
    FIREWALL_WRITE HIGH_ASSURANCE_TIER1 (ad_endpoint_symbol adapter) (ad_http_method adapter)
    target_digest fingerprint_digest 3 intent_digest snapshot_digest (u "v1") (Sample.day 1 0) (Sample.day 2 0)
    PREPARING 0 (sealed ROLE_TARGET_IDENTITY identity unsealed) (sealed ROLE_INTENT intent unsealed)
    (sealed ROLE_SNAPSHOT (alias old) unsealed) None None None None.

(** The transport answers as [o], once the device has done what it was
    told. *)
Definition network (o : httpx_outcome) (method path : pystr) (body : option bytes) (device : Z)
    : httpx_outcome * Z := (o, (1 - device)%Z).
Definition ok : httpx_outcome := HxResponse {| status_code := 200; text := [] |}.

Definition executor (o : httpx_outcome) : MutationExecutor Z pyobj pyobj := {|
  x_store := plain;
  x_write_client := {| transport_request := HttpTransport_request (network o); WriteApi.identity := u "pfsense";
    api_version := V2 |};
  get_system_restapi_settings := mret (Some false);
  x_policy := [{| Policy.rule_capability := FIREWALL_WRITE; Policy.rule_endpoint_symbol := ad_endpoint_symbol adapter;
    Policy.rule_http_method := ad_http_method adapter |}];
  x_encryption_key := SampleCipher.key;
  capability_security_classes _ := Some HIGH_ASSURANCE_TIER1;
  approval_authorities := None; approval_source := None;
  x_clock := λ e, (Sample.day 1 10, e);
  model_dump_json r := canonical_json r;
  of_hint h := h |}.

Definition to_ready : list call :=
  [Create contract; Transition (u "c1") PREPARING 0 PREPARED None state_transition;
   Confirm (u "c1") (SampleEvidence.confirmation contract) 1].
Definition ready : Session Z := Eval vm_compute in mkSession (run plain to_ready start) [].

Definition executed (o : httpx_outcome) : result ExecutionOutcome * Session Z :=
  execute (executor o) (u "c1") adapter intent_fields None ready.
Definition after_ok : result ExecutionOutcome * Session Z := Eval vm_compute in executed ok.
Definition after_lost : result ExecutionOutcome * Session Z := Eval vm_compute in executed HxOtherTransportError.
Definition after_timeout : result ExecutionOutcome * Session Z := Eval vm_compute in executed HxOtherTimeout.
Definition rolled_back : result ExecutionOutcome * Session Z := Eval vm_compute in
  rollback (executor ok) (u "c1") adapter (snd after_ok).
Definition observed : result AuthoritativeReconciliationObservation * Session Z := Eval vm_compute in
  observe_reconciliation_target (executor ok) (u "c1") adapter (snd after_timeout).

Lemma contract_wf : wf_contract contract.
Proof.
  split; [apply post_init_facts; vm_compute; reflexivity|vm_compute; reflexivity..|done| | |done];
    vm_compute; reflexivity.
Qed.

Lemma session_reachable : reachable plain (world ready).
Proof.
  assert (world ready = run plain to_ready start) as -> by (vm_compute; reflexivity).
  apply Scenario.run_reachable; [constructor|]. constructor; [apply contract_wf|]. repeat constructor.
Qed.

Lemma plain_clock : clock_valid plain.
Proof. intros e. vm_compute. reflexivity. Qed.

Lemma plain_quiet : quiet plain.
Proof. done. Qed.
End SampleExecutor.
Import SampleExecutor.
#[local] Existing Instances Sample.hash Sample.unicode SampleCipher.cipher SampleEvidence.ed25519.

Lemma executed_ok :
  execute (executor ok) (u "c1") adapter intent_fields None ready = (fst after_ok, snd after_ok).
Proof. vm_compute. reflexivity. Qed.

Definition new_body : bytes := Eval vm_compute in get [] (canonical_json new).

Definition first_send (s : Session Z) : Send :=
  match sends s with y :: _ => y | [] => Build_Send [] [] None empty_db (Raise KeyError) end.

(** The execution that succeeds sends one request. *)
Lemma execute_send_authorized_witness :
  ∃ y cur ti, sends (snd after_ok) = [y] ∧ stored SampleStore.plain (world ready) cur ∧
    execute_gates (executor ok) adapter cur intent_fields ti.
Proof.
  destruct (@execute_send_authorized _ _ _ _ Z pyobj pyobj (executor ok) adapter plain_clock plain_quiet
    (u "c1") intent_fields None ready (fst after_ok) (snd after_ok) session_reachable executed_ok)
    as (l & Hl & _ & Hy).
  assert (l = sends (snd after_ok)) as -> by (by rewrite Hl).
  destruct (Hy (first_send (snd after_ok))) as (cur & ex & ti & row & Hst & _ & Hg & _); [by left|].
  exists (first_send (snd after_ok)), cur, ti. split; [reflexivity|]. exact (conj Hst Hg).
Defined.

Lemma execute_outcome_justified_witness :
  ∃ c', stored SampleStore.plain (world (snd after_ok)) c' ∧ rc_state c' = VERIFIED.
Proof.
  assert (execute (executor ok) (u "c1") adapter intent_fields None ready =
    (Ok {| out_contract_id := u "c1"; out_state := VERIFIED |}, snd after_ok)) as Hrun
    by (vm_compute; reflexivity).
  destruct (@execute_outcome_justified _ _ _ _ Z pyobj pyobj (executor ok) adapter plain_clock plain_quiet
    (u "c1") intent_fields None ready _ _ session_reachable Hrun) as (_ & l & c' & _ & Hst & _ & Hs & _).
  exact (ex_intro _ c' (conj Hst Hs)).
Defined.

(** The device did what it was told, the connection broke before the reply,
    and the store says FAILED. *)
Lemma lost_reply_taken_for_unsent_witness :
  fst after_lost = Ok {| out_contract_id := u "c1"; out_state := FAILED |} ∧
  env (world ready) = 0%Z ∧ env (world (snd after_lost)) = 1%Z ∧
  ∃ b k resp s', send (executor HxOtherTransportError) contract new None ready = (Ok (b, k, resp), s') ∧
    env (world s') = 1%Z ∧ k = PROVEN_NONE.
Proof.
  split; [vm_compute; reflexivity|]. split; [vm_compute; reflexivity|]. split; [vm_compute; reflexivity|].
  destruct (@lost_reply_taken_for_unsent Z pyobj pyobj (executor HxOtherTransportError)
    (network HxOtherTransportError) contract new new_body ready HxOtherTransportError 1%Z eq_refl
    ltac:(vm_compute; reflexivity) ltac:(vm_compute; reflexivity) ltac:(vm_compute; reflexivity) eq_refl)
    as (b & k & resp & s' & Hs & He & _ & _ & _ & _ & Hk).
  exists b, k, resp, s'. exact (conj Hs (conj He (proj2 (Hk eq_refl)))).
Defined.

(** ** Rollback, observation, restart *)

(** The store's side of the successful execution, and of the one whose
    reply timed out. *)
Definition verified_row : contract_row := default (row_of contract []) (t_contracts (db (world (snd after_ok))) !! u "c1").
Definition fingerprint_after : pystr := Eval vm_compute in
  get [] (Executor.fingerprint adapter (alias_of 1) ≫= Executor.fingerprint_digest contract).
Definition to_verified : list call :=
  [Transition (u "c1") PREPARED 2 EXECUTING (Some HighAssuranceTier1ExecutionPolicy) state_transition;
   MarkExecutionVerified (u "c1") 3 fingerprint_after 3].
Definition to_uncertain : list call :=
  [Transition (u "c1") PREPARED 2 EXECUTING (Some HighAssuranceTier1ExecutionPolicy) state_transition;
   Transition (u "c1") EXECUTING 3 RECONCILIATION None state_transition].

Lemma after_ok_reachable : reachable SampleStore.plain (world (snd after_ok)).
Proof.
  assert (world (snd after_ok) = mkWorld (db (SampleStore.run SampleStore.plain to_verified (world ready))) 1%Z) as ->
    by (vm_compute; reflexivity).
  apply reachable_env, Scenario.run_reachable; [apply session_reachable|]. repeat constructor.
Qed.

Lemma after_timeout_reachable : reachable SampleStore.plain (world (snd after_timeout)).
Proof.
  assert (world (snd after_timeout) = mkWorld (db (SampleStore.run SampleStore.plain to_uncertain (world ready))) 1%Z)
    as -> by (vm_compute; reflexivity).
  apply reachable_env, Scenario.run_reachable; [apply session_reachable|]. repeat constructor.
Qed.

Lemma rollback_justified_witness :
  ∃ c', stored SampleStore.plain (world (snd rolled_back)) c' ∧ rc_state c' = ROLLED_BACK.
Proof.
  assert (rollback (executor ok) (u "c1") adapter (snd after_ok) =
    (Ok {| out_contract_id := u "c1"; out_state := ROLLED_BACK |}, snd rolled_back)) as Hrun
    by (vm_compute; reflexivity).
  destruct (@rollback_justified _ _ _ Z pyobj pyobj (executor ok) adapter plain_clock plain_quiet
    (u "c1") (snd after_ok) _ _ after_ok_reachable Hrun) as (l & _ & _ & _ & Ho).
  destruct (Ho _ eq_refl) as (c' & Hst & _ & Hs & _). exact (ex_intro _ c' (conj Hst Hs)).
Defined.

Definition observation : AuthoritativeReconciliationObservation := Eval vm_compute in
  match fst observed with Ok ob => ob
  | Raise _ => Build_AuthoritativeReconciliationObservation [] [] 0 FAILED [] 0 end.

Lemma observation_reads_only_witness :
  ∃ cur, stored SampleStore.plain (world (snd after_timeout)) cur ∧ rc_state cur = RECONCILIATION.
Proof.
  assert (observe_reconciliation_target (executor ok) (u "c1") adapter (snd after_timeout) =
    (Ok observation, snd observed)) as Hrun by (vm_compute; reflexivity).
  destruct (@observation_reads_only _ _ _ Z pyobj pyobj (executor ok) adapter plain_clock plain_quiet
    (u "c1") (snd after_timeout) _ _ after_timeout_reachable Hrun) as (_ & _ & Ho).
  destruct (Ho _ eq_refl) as (cur & ti & raw & tt & Hst & _ & Hs & _). exact (ex_intro _ cur (conj Hst Hs)).
Defined.

(** A history with a restart between two attempts of the same contract. *)
Lemma change_requested_once_witness : NoDup [u "c1"].
Proof.
  assert (session_trace (executor ok) ready [(u "c1", first_send (snd after_ok))]
    (snd (execute (executor ok) (u "c1") adapter intent_fields None (snd (MutationExecutor_init (executor ok)
       (snd (execute (executor ok) (u "c1") adapter intent_fields None ready))))))) as Ht.
  { eapply (trace_snoc _ _ [(u "c1", first_send (snd after_ok))] _ []).
    - eapply (trace_snoc _ _ [(u "c1", first_send (snd after_ok))] _ []).
      + eapply (trace_snoc _ _ [] _ [(u "c1", first_send (snd after_ok))]); [constructor|].
        apply (step_execute _ adapter (u "c1") intent_fields None [first_send (snd after_ok)]); [reflexivity|].
        vm_compute. reflexivity.
      + apply step_restart.
    - apply (step_execute _ adapter (u "c1") intent_fields None []); [reflexivity|]. vm_compute. reflexivity. }
  exact (proj1 (@change_requested_once _ _ _ _ Z pyobj pyobj (executor ok) plain_clock plain_quiet _ _ _
    session_reachable Ht)).
Defined.

(** The store of [StoreWitness.v] with a contract left EXECUTING, under an
    executor that is constructed over it. *)
Definition restarted : MutationExecutor Z pyobj pyobj := {|
  x_store := Scenario.gated; x_write_client := x_write_client (executor ok);
  get_system_restapi_settings := mret (Some false); x_policy := []; x_encryption_key := SampleCipher.key;
  capability_security_classes _ := None; approval_authorities := None; approval_source := None;
  x_clock := λ e, (Sample.day 1 10, e); model_dump_json r := canonical_json r; of_hint h := h |}.

Lemma executing_only c :
  stored Scenario.gated Scenario.executing c → c = Scenario.executing_contract.
Proof.
  assert (t_contracts (db Scenario.executing) = {[u "c1" := Scenario.executing_row]}) as Hmap
    by (vm_compute; reflexivity).
  unfold stored. destruct (decide (rc_contract_id c = u "c1")) as [->|Hne]; intros Hl.
  - assert (load Scenario.gated (u "c1") Scenario.executing = (Ok Scenario.executing_contract, Scenario.executing))
      as Hl' by (vm_compute; reflexivity).
    rewrite Hl in Hl'. by injection Hl'.
  - exfalso. unfold load, select, mbind, prog_bind, select_contract in Hl.
    change (interfere (other_writers Scenario.gated) Scenario.executing) with Scenario.executing in Hl.
    rewrite Hmap, lookup_singleton_ne in Hl by done. discriminate Hl.
Qed.

Lemma restart_reconciles_witness :
  ∃ s', MutationExecutor_init restarted (mkSession Scenario.executing []) = (Ok (), s') ∧
    stored Scenario.gated (world s') (reconciled Scenario.executing_contract).
Proof.
  assert (stored Scenario.gated Scenario.executing Scenario.executing_contract) as Hst by (vm_compute; reflexivity).
  destruct (@restart_reconciles _ _ Z pyobj pyobj restarted (mkSession Scenario.executing []) (Scenario.clock_ok _ _)
    (Scenario.quiet_ok _ _) eq_refl ltac:(intros e; vm_compute; reflexivity) Scenario.executing_reachable
    ltac:(intros c Hc _; rewrite (executing_only c Hc); split; [|intros e]; vm_compute; eexists; reflexivity))
    as (s' & Hrun & _ & Hs & _).
  exists s'. exact (conj Hrun (Hs _ Hst)).
Defined.

(** ** Rotation *)

(** Stand-ins for the callables: the new key keeps the bytes. *)
Definition unwrap (a : ProtectedArtifact) : prog Z bytes := mret (pa_ciphertext a).
Definition wrap (p : bytes) : prog Z ProtectedArtifact := λ e,
  ((_ ← ProtectedArtifact_post_init {| pa_key_id := u "key-2"; pa_algorithm := AES_256_GCM_V1; pa_ciphertext := p |};
    Ok {| pa_key_id := u "key-2"; pa_algorithm := AES_256_GCM_V1; pa_ciphertext := p |}), e).

Lemma wrap_sound p e a : fst (wrap p e) = Ok a → wf_artifact a ∧ pa_key_id a = u "key-2".
Proof.
  unfold wrap, wf_artifact. cbn [fst]. destruct (ProtectedArtifact_post_init _) as [[]|] eqn:Hp; [|done].
  intros [= <-]. by split.
Qed.

Definition after_rotation : result RotationReport * World Z := Eval vm_compute in
  rotate_key SampleStore.plain (u "key-2") unwrap wrap (world ready).

Lemma rotation_complete_witness :
  fst after_rotation = Ok {| rotated_contract_ids := [u "c1"]; already_rotated_contract_ids := [] |} ∧
  ∃ ids, rotate_key SampleStore.plain (u "key-2") unwrap wrap (snd after_rotation) =
    (Ok {| rotated_contract_ids := []; already_rotated_contract_ids := ids |}, snd after_rotation).
Proof.
  split; [vm_compute; reflexivity|].
  assert (rotate_key SampleStore.plain (u "key-2") unwrap wrap (world ready) =
    (Ok {| rotated_contract_ids := [u "c1"]; already_rotated_contract_ids := [] |}, snd after_rotation)) as Hrun
    by (vm_compute; reflexivity).
  exact (proj2 (proj2 (@rotation_complete _ _ Z SampleStore.plain (u "key-2") unwrap wrap plain_clock plain_quiet wrap_sound
    (world ready) _ _ session_reachable Hrun))).
Defined.
